(* ===== verification/_CoqProject ===== *)
-Q . S2P
Prelude.v
Errors.v
Canonical.v
KeyTypes.v
SecureBuffer.v
Envelope.v
Json.v
X509.v
Provider.v
Ledger.v
SoftFile.v
SoftFileFacts.v
SoftFileProps.v
RetryPolicy.v
TimeTypes.v
TrustedTime.v
TimeMonitor.v
TimeProps.v
Provisioning.v
Import.v
ImportSample.v
ImportFacts.v
Protocol.v
ImportProps.v
Tls.v
TlsProps.v
CertStore.v
CertStoreFacts.v
CertStoreProps.v
KeyEngine.v
Csr.v
CsrProps.v
SoftHsm.v
SoftHsmProps.v
HsmSample.v
SoftDevice.v
TlsDevice.v
EnvelopeBuilder.v
Arrival.v
Vault.v
VaultSample.v
ConfigCheck.v
ConfigProps.v
CertChain.v
CertCheck.v
CertProps.v
HsmProvider.v
SecService.v
Assembly.v
SeedProps.v
UdsDispatcher.v
SecFrame.v
ProvisionProps.v
SecSample.v
UdsSample.v
AssemblySample.v
IpcCodec.v
IpcWire.v
IpcDispatcher.v
SecClient.v
IpcProps.v
Subscriptions.v
SubscriptionProps.v
Peers.v
Cli.v
CliProps.v
Application.v
AppProps.v
AppRun.v
AppSample.v
Legacy.v
LegacyProps.v
LegacySample.v
IpcRemote.v
IpcSample.v
