(* ===== verification/Prelude.v ===== *)
(** * TBOX-SEC: the verified core of the security service

    The program under [src/] is the TBOX security daemon of a vehicle. It keeps
    the device identity (key pair, certificate request, certificate chain), hands
    out TLS credentials and signatures made with the device key, answers the
    seed/key challenge of a diagnostic tester, receives wrapped business keys (the
    uplink and the downlink key of the V2C channel), and serves trusted time with
    a lease. This development models these parts as executable functions, and
    proves what makes them correct.

    ** How the parts of the program fit together

    A client process calls [SecClient], which encodes the call as JSON
    ([IpcCodec]) and sends it over a connection of the IPC framework. In the daemon
    [IpcDispatcher] decodes it, decides by the systemd unit of the caller whether
    it is allowed, and calls one of four services: [SecService] (provisioning and
    seed/key), the TLS credential provider ([Tls]), the business-key service
    ([Provisioning], [Import]) or the source of trusted time ([TimeMonitor]).

    [SecService] drives the device key ([KeyEngine], over the HSM interface, whose
    software implementation is [SoftHsm]), the certificate request ([Csr]), the
    checks of an injected chain ([CertChain], [CertCheck]) and its publication
    ([CertStore]); it keeps its state of provisioning in a store.
    [BusinessKeyProvisioningService] validates a batch ([Provisioning], [Envelope],
    [Canonical]), asks the trusted time provider for a lease ([TrustedTime]), and
    drives a [BusinessKeyProvider] through staging, verification, commit and
    attestation while it records the progress in the provider's journal ([Import]).
    The provider the repository ships for development is [SoftFile]; its journal
    and slots are authoritative, [Ledger] holds a copy of the metadata.

    ** Files

    Foundations and data:
    - [Prelude]: fixed-width integers, bytes, big-endian numbers, the state
      monad [st], iteration over maps in key order, tactics and hint databases.
    - [Errors]: [ErrorCode] (errors.h, error_codes.cpp).
    - [Canonical]: canonical_encoding.cpp: segments, varints, AAD, HKDF context,
      request, wire and attestation digests, hex.
    - [KeyTypes]: business_key.h, business_key_types.cpp; [SecureBuffer]: its buffer of secrets,
      over the memory that is left behind.
    - [Json], [X509]: the JSON library and OpenSSL's certificate reader as classes of
      operations with their laws, and an instance of each to compute with.

    Business keys:
    - [Envelope]: business_key_envelope.cpp.
    - [Provider]: business_key_provider.h, the class [BusinessKeyProvider].
    - [Ledger]: secure_metadata_ledger.cpp.
    - [SoftFile], [SoftFileFacts], [SoftFileProps]:
      soft_file_business_key_provider.cpp: state, operations, persistence, the
      instance of [BusinessKeyProvider]; lemmas; properties with a sample
      environment whose writes can fail.
    - [Provisioning], [Import]: business_key_provisioning.cpp. [Provisioning] holds
      the service state, its gates, both validations and the capability; [Import] the
      pipeline, recovery, both imports, the queries and [initialize].
    - [ImportSample], [ImportFacts], [Protocol], [ImportProps]: a complete device to
      compute with, frame and loop lemmas, the provider protocol of an import as a
      state machine, and the properties of the service.

    Trusted time:
    - [TimeTypes], [TrustedTime], [TimeMonitor], [TimeProps]: tbox/sec/time.h,
      trusted_time.h, trusted_time.cpp: data and wire form; the platform and RTC
      gates, the TIME adapter and the composite provider; the monitor, the snapshot
      source and the dev/test provider; the properties.

    Device identity:
    - [KeyEngine]: hsm_interface.h, key_engine.cpp.
    - [Csr], [CsrProps]: csr_builder.cpp, and a DER reader as its reference.
    - [CertChain], [CertCheck], [CertProps]: certificate_chain_parser.cpp,
      certificate_chain_canonicalizer.cpp, cert_validator.cpp,
      device_key_agreement.cpp.
    - [CertStore], [CertStoreFacts], [CertStoreProps]: certificate_store.cpp over a
      file system of single calls each of which may fail.
    - [Tls], [TlsProps]: tls_credential_provider.cpp.
    - [SecService], [SeedProps], [SecFrame], [ProvisionProps], [SecSample]:
      sec_service.cpp: state and operations; the seed and key protocol; which
      call may change which member; the machine of provisioning; a sample.
    - [SoftHsm], [SoftHsmProps], [HsmSample]: soft_file_hsm.cpp: keys, their encryption
      at rest, signatures and envelopes over a store whose calls may fail.
    - [SoftDevice], [TlsDevice]: the software HSM as an instance of the HSM interface, under the
      certificate request and under the TLS provider.
    - [EnvelopeBuilder]: keyprov_envelope_builder.cpp, the sender of the envelopes that
      [Envelope] validates and [SoftHsm] unwraps.
    - [Arrival], [Vault], [VaultSample]: a business key's whole way: what an import leaves in the
      slots, over any HSM; the soft-file provider over the software HSM, end to end; a device.
    - [HsmProvider], [Assembly], [AssemblySample]: hsm_business_key_provider.h and the end of
      sec_service.cpp: which provider the business-key service gets, and the identity
      of the device it is given.
    - [UdsDispatcher], [UdsSample]: service_dispatcher.cpp, seed and key for testers.

    The IPC:
    - [RetryPolicy]: ipc_protocol.h, sec_retry_policy.cpp.
    - [IpcCodec], [IpcWire]: the JSON and base64 encodings of both sides, and their
      round trips.
    - [IpcDispatcher], [SecClient]: sec_ipc_dispatcher.cpp, sec_client.cpp.
    - [Subscriptions], [SubscriptionProps]: the subscription handles of sec_client.cpp: shared objects
      behind movable variables, as a step relation.
    - [IpcProps], [IpcRemote], [IpcSample]: access control and answers; the client
      over the dispatcher behaves like the service; a daemon with two clients.

    The process and its tools:
    - [Peers]: peer_credential.cpp, ipc_prov_service.cpp, diag_service_adapter.cpp: who
      a caller is, and the clients of two neighbouring services.
    - [Application], [AppProps], [AppRun], [AppSample]: sec_application.cpp: the parts with
      their owners, the start and its roll-back, the running daemon as a step relation
      in which requests and the monitor interleave with the clean-up; a bench.
    - [Legacy], [LegacyProps], [LegacySample]: main_legacy.cpp: the same parts under a life cycle
      written by hand, with its signals.
    - [ConfigCheck], [ConfigProps]: sec_config_checker.cpp, the check of a configuration.
    - [Cli], [CliProps]: sec_cli.cpp, the command-line tool.

    ** How the model corresponds to the code

    A class is a record of its members; a member function is a function from
    that record to its result and the new record, named as in the code; the
    comment before a definition gives the lines it translates. Every public
    function of these classes holds one mutex for its whole body, so a call is one
    step and an execution is a sequence of calls; [monitor_tick] is one pass of the
    monitor thread. Requests of the IPC are handled one after the other;
    in [AppRun] they come between the steps of the main thread.
    Integers are [Z] with the conversions of the code written as [wrapu] and
    [wrap_i32]; times of certificates are [int64_t] nanoseconds with [wrap_i64]. Only the
    [int64_t] additions of the time gate are unbounded, and
    [gatePlatform_no_overflow] says for which facts that is exact. Exceptions the
    code catches are [None] or a false result at the place where they are caught;
    in the dispatcher an escaping exception is a value of [Handled].
    [std::map] iteration is in key order ([map_items]). The raw pointers that the
    dispatcher keeps to objects of the service are [Unset], [Live] or [Freed].

    The code outside the repository is a parameter given by a type class:
    [Sha256], [SoftFileCrypto] (HMAC and AES-GCM), [EcP256], [EcPoints], [Aes128],
    [Protobuf], [Json], [JsonConstIndex], [Base64], [X509Lib], the stores
    ([SoftFileEnv], [LedgerStore], [SecWorld]), the file system ([FileSystem]), the
    clocks ([TimeEnv], [SecWorld], [LocalTime]), the HSM ([HsmInterface]), the host
    of the daemon ([IpcHost], [PeerEnv]: peer credentials), the connections of clients
    ([IpcConnection], [ProvClient]), the world of the software HSM with its curve
    ([HsmWorld], [P256]), the parsed YAML of a configuration ([Yaml]), the snapshot of a
    configuration ([ConfigView]), what the process asks before its service is there
    ([AppWorld], [LegacyWorld]), and the files of the tool ([CliWorld], [EcPrivate]). Classes of laws state documented behaviour (a store returns
    what was saved, decryption inverts encryption, [parse] inverts [dump]). Strings
    that go into JSON are taken to be UTF-8, so [dump] does not throw. Each theorem
    that uses such a law has a witness over a concrete instance; the instances of
    the samples are toys chosen to evaluate quickly, and no theorem depends on them.

    A crash is the death of the process: the calls it would have made fail and
    change nothing. Loss of power with unwritten buffers is not modelled. After a
    second INITIALIZE that builds a new HSM the pointer to the TLS provider is [Freed]
    ([second_initialize_frees]; [restart_dangles] for the whole daemon); a call
    through it is the value [Undefined]. The theorems on the IPC and on the process
    say what holds with such requests and what only without them (C7, C9, C20, C37).
    A generation of an HSM key over one of its name that the store holds and the
    cache does not, which the engine's guard lets through only when the store's [has]
    throws, can mix two keys ([failed_replacement_mixes_keys]); C11, C12, C26 and C27
    are about histories without it.

    ** Fuel and bounds

    Loops that are not structural: [appendEnumVarint] runs with ten iterations,
    enough for a [uint64_t] ([appendEnumVarint_roundtrip]). The HKDF expansion has
    one unit of fuel for each output byte, and a block gives up to 32 of them
    ([hkdf_sha256_rfc5869]). [write_loop] of the certificate store has one unit
    per byte, since every successful [write] takes at least one. The walk over
    generations during recovery ([walk_back]) does not end when the manifests form
    a cycle ([recovery_can_loop]); [recovery_finds_nearest] gives the fuel that is
    enough when they form a chain, and [initialize] takes that fuel as an argument.
    [pem_scan] and [der_read] have one unit per character, and each step consumes
    one. [rollback_steps] has one unit for each of the five stages a start can have
    reached. All other loops recurse on the list they iterate over.

    ** What the theorems show

    - Import of business keys (C1, C8, C17, C24): what must hold before anything is
      touched, the readings of trusted time included; which calls the provider sees and
      in which order; replay of a committed fact; which outcome follows from which
      answer of the provider.
    - Slots and secrets (C4, C16, C23): over any history of calls, failing writes and restarts the
      active set is empty or both slots of one generation; a commit is atomic; buffers of
      secrets leave nothing behind.
    - Envelopes (C5, C19): which envelopes are accepted, exactly, bound to their request and
      certificate; keys that the back end wraps are the keys in the slots after the import.
    - Device key and identity (C12, C26, C27, C35, C39): signatures stay valid over
      failures and restarts; a generated key is there completely or not; a certificate
      request decodes and proves possession of the key in the software HSM; an import
      trusts only the certified key of the installed chain.
    - Certificates (C3, C10, C14, C28 to C31): what an installed chain was checked for, and
      that with a DIAG service it was not; the parser and the validator in closed form;
      commits and recovery of the store over failing calls and deaths of the process; the
      moves of provisioning.
    - Seed and key (C2, C15, C36): the bound on guesses, the freshness of the seed,
      for clients and for testers.
    - TLS credentials (C6, C11): who can sign with a reference; that the signature and the
      certificate belong together.
    - Trusted time (C18, C25): trust has the evidence that was asked for behind it and does
      not go back.
    - Access and answers (C9, C13, C20, C22): a refused caller changes nothing and
      gets a constant answer; every request is answered; the client library over the
      dispatcher is the service.
    - Subscriptions (C33, C38): events are heard in order until the cancellation and never
      after; no connection is leaked by a client that moves handles with care.
    - The process (C7, C21, C32, C34, C37, C40): parts outlive what points to them; what
      production leads to; which configurations pass; how the legacy entry point lives and
      what it does not serve; what the exit status of the tool means.

    Theorems without a number are kept for their own sake: round trips of the journal and of
    the wire forms, the well-formed states of the TLS provider, the start of the application, the loading of
    TLS material, the right key of a seed, the name of a caller, the silence of the time
    events, what becomes of a subscription that is moved over, the lease and the events of the monitor, HKDF against RFC 5869, the
    vocabulary of the configuration report, canonical signatures, the printed texts of
    the tool, and the lemmas that
    show the findings.

    ** What the model leaves out

    Logging and the timing of comparisons; the zeroising of released memory but for
    [SecureBuffer]; failures of OpenSSL's allocations. secure_storage.cpp holds no
    code, sec_log_adapter.cpp only writes. Of the
    application: the framework's run loop, the loading of the configuration and the signals;
    the multiplier of reconnects, a [double]. The service object and the business-key
    service of [Application] each have their own surroundings, which the code shares; [Vault] puts
    the provider and the software HSM into one. A repeated INITIALIZE
    does not assemble the business keys anew, since the pointers to them are lost by then.
    Callbacks of the monitor are recorded, not run. A handle of a subscription is not moved
    into itself, and an event's test of [active] and its callback are one step.

    ** Plan

    Every component of the source with behaviour of its own is modelled. What could follow
    is one world for the whole daemon, in which the store of the software HSM, the certificate
    store and the provider's files are parts of one file system and a crash is one event for
    all of them. *)
From stdpp Require Export base numbers list strings gmap fin_maps pretty sorting.
From Stdlib Require Export Strings.Byte.
From Stdlib Require Import Lia.

(* --------------------------------------------------------------------- *)
(** ** Machine integers                                                   *)
(* --------------------------------------------------------------------- *)

Open Scope string_scope.
Open Scope list_scope.
Open Scope Z_scope.

(** A [w]-bit unsigned C++ integer is a [Z]; [wrapu w] is the conversion
    [static_cast<uintw_t>]. *)
Definition wrapu (w z : Z) : Z := z mod 2 ^ w.

Definition is_u32 (z : Z) : Prop := 0 <= z < 2 ^ 32.
Definition is_u64 (z : Z) : Prop := 0 <= z < 2 ^ 64.
Definition is_i64 (z : Z) : Prop := - 2 ^ 63 <= z < 2 ^ 63.

#[global] Instance is_u32_dec z : Decision (is_u32 z).
Proof. unfold is_u32; apply _. Defined.
#[global] Instance is_u64_dec z : Decision (is_u64 z).
Proof. unfold is_u64; apply _. Defined.
#[global] Instance is_i64_dec z : Decision (is_i64 z).
Proof. unfold is_i64; apply _. Defined.

Lemma wrapu_small w z : 0 <= z < 2 ^ w -> wrapu w z = z.
Proof. apply Z.mod_small. Qed.

(* --------------------------------------------------------------------- *)
(** ** Bytes and byte strings                                             *)
(* --------------------------------------------------------------------- *)

Abbreviation bytes := (list byte).

#[global] Instance byte_eq_dec : EqDecision byte := Byte.byte_eq_dec.

(** The numeric value of a [uint8_t]. *)
Definition bval (b : byte) : Z := Z.of_N (Byte.to_N b).

(** [static_cast<uint8_t>(z)]. *)
Definition byte_of (z : Z) : byte :=
  match Byte.of_N (Z.to_N (z mod 256)) with Some b => b | None => x00 end.

Lemma bval_range b : 0 <= bval b < 256.
Proof. unfold bval. pose proof (Byte.to_N_bounded b). lia. Qed.

Lemma byte_of_bval b : byte_of (bval b) = b.
Proof.
  unfold byte_of. rewrite Z.mod_small by apply bval_range.
  unfold bval. by rewrite N2Z.id, Byte.of_to_N.
Qed.

Lemma bval_byte_of z : bval (byte_of z) = z mod 256.
Proof.
  unfold byte_of, bval.
  pose proof (Z.mod_pos_bound z 256 ltac:(lia)).
  destruct (Byte.of_N (Z.to_N (z mod 256))) as [b|] eqn:E.
  - apply Byte.to_of_N in E. rewrite E. lia.
  - apply Byte.of_N_None_iff in E. lia.
Qed.

#[global] Instance bval_inj : Inj (=) (=) bval.
Proof. intros a b H. by rewrite <- (byte_of_bval a), <- (byte_of_bval b), H. Qed.

(** [toBytes]: the bytes of a [std::string]. *)
Abbreviation bytes_of_string := String.list_byte_of_string.
Abbreviation string_of_bytes := String.string_of_list_byte.

#[global] Instance bytes_of_string_inj : Inj (=) (=) bytes_of_string.
Proof.
  intros s1 s2 H.
  by rewrite <- (String.string_of_list_byte_of_string s1), <- (String.string_of_list_byte_of_string s2), H.
Qed.

(** [s.empty()], [s.size()] on strings and byte vectors. *)
Definition str_empty (s : string) : bool := String.eqb s "".
Definition zlen {A} (l : list A) : Z := Z.of_nat (length l).
Definition bytes_empty (l : bytes) : bool := match l with [] => true | _ => false end.
Definition str_size (s : string) : Z := Z.of_nat (String.length s).

Lemma str_empty_true s : str_empty s = true <-> s = ""%string.
Proof. apply String.eqb_eq. Qed.
Lemma str_empty_false s : str_empty s = false <-> s <> ""%string.
Proof. apply String.eqb_neq. Qed.

(** Every character satisfies [P]. *)
Fixpoint str_all (P : Ascii.ascii -> bool) (s : string) : bool :=
  match s with EmptyString => true | String c s => P c && str_all P s end.

(** The first [n] characters of a string, and the rest. *)
Fixpoint str_take (n : nat) (s : string) : string :=
  match n, s with S n, String a s => String a (str_take n s) | _, _ => "" end.
Fixpoint str_drop (n : nat) (s : string) : string :=
  match n, s with S n, String _ s => str_drop n s | _, _ => s end.

Lemma str_app_assoc (a b c : string) : ((a ++ b) ++ c = a ++ (b ++ c))%string.
Proof. induction a as [|x a IH]; [done|]. exact (f_equal (String x) IH). Qed.

Lemma str_app_nil (a : string) : (a ++ "" = a)%string.
Proof. induction a as [|x a IH]; [done|]. exact (f_equal (String x) IH). Qed.

Lemma str_all_app P a b : str_all P (a ++ b) = str_all P a && str_all P b.
Proof. induction a as [|c a IH]; [done|]. change (P c && str_all P (a ++ b)%string = P c && str_all P a && str_all P b). by rewrite IH, andb_assoc. Qed.

Lemma str_take_drop n s : (str_take n s ++ str_drop n s)%string = s.
Proof. revert s; induction n as [|n IH]; intros [|a s]; try done. exact (f_equal (String a) (IH s)). Qed.

Lemma length_str_drop n s : String.length (str_drop n s) = (String.length s - n)%nat.
Proof. revert s; induction n; intros [|a s]; cbn; auto. Qed.

Lemma str_drop_app a b : str_drop (String.length a) (a ++ b) = b.
Proof. induction a as [|c a IH]; [by destruct b|exact IH]. Qed.

Lemma str_length_app a b : String.length (a ++ b) = (String.length a + String.length b)%nat.
Proof. induction a as [|c a IH]; [done|]. exact (f_equal S IH). Qed.

Lemma str_prefix_app a b : String.prefix a (a ++ b) = true.
Proof.
  induction a as [|c a IH]; [by destruct b|]. change (String c a ++ b)%string with (String c (a ++ b)).
  cbn. by destruct (Ascii.ascii_dec c c).
Qed.

(** [s.find(needle) != npos]. *)
Definition str_contains (needle s : string) : bool :=
  match String.index 0 needle s with Some _ => true | None => false end.

(** Blanks, tabs, carriage returns and newlines at either end. *)
Definition trim_char (c : Ascii.ascii) : bool :=
  match Ascii.N_of_ascii c with 32%N | 9%N | 13%N | 10%N => true | _ => false end.
Fixpoint trim_left (s : string) : string :=
  match s with
  | String c r => if trim_char c then trim_left r else s
  | EmptyString => EmptyString
  end.
Fixpoint trim_right (s : string) : string :=
  match s with
  | EmptyString => EmptyString
  | String c r => let r := trim_right r in
      match r with EmptyString => if trim_char c then EmptyString else String c EmptyString | _ => String c r end
  end.

(** [std::find(v.begin(), v.end(), s) != v.end()]. *)
Definition contains (v : list string) (s : string) : bool := existsb (String.eqb s) v.

Lemma contains_true v s : contains v s = true <-> s ∈ v.
Proof.
  unfold contains. rewrite existsb_exists, list_elem_of_In. split.
  - intros (x & Hin & ->%String.eqb_eq). done.
  - intros Hin. exists s. by rewrite String.eqb_refl.
Qed.

Lemma contains_false v s : contains v s = false <-> s ∉ v.
Proof. rewrite <- contains_true. destruct (contains v s); naive_solver. Qed.

(* --------------------------------------------------------------------- *)
(** ** [std::map<std::string, V>]                                         *)
(* --------------------------------------------------------------------- *)

(** Key order of the iteration: lexicographic on the characters. *)
Definition key_le {V} (a b : string * V) : Prop := String.le a.1 b.1.
#[global] Instance key_le_dec {V} : RelDecision (@key_le V).
Proof. intros a b. unfold key_le. apply _. Defined.

(** The pairs of a map in iteration order. *)
Definition map_items {V} (m : gmap string V) : list (string * V) :=
  merge_sort key_le (map_to_list m).

Lemma elem_of_map_items {V} (m : gmap string V) k v : (k, v) ∈ map_items m <-> m !! k = Some v.
Proof. unfold map_items. by rewrite merge_sort_Permutation, elem_of_map_to_list. Qed.

Lemma map_items_empty {V} : map_items (∅ : gmap string V) = [].
Proof. unfold map_items. by rewrite map_to_list_empty. Qed.

Lemma map_items_nil {V} (m : gmap string V) : map_items m = [] -> m = ∅.
Proof.
  intros E. apply map_empty. intros k. destruct (m !! k) as [v|] eqn:Ev; [|done].
  apply elem_of_map_items in Ev. rewrite E in Ev. by apply not_elem_of_nil in Ev.
Qed.

(* --------------------------------------------------------------------- *)
(** ** Big-endian integers                                                *)
(* --------------------------------------------------------------------- *)

(** The [n] big-endian bytes of [v]; the reference both [appendUint32be] and
    [appendUint64be] are compared with. *)
Fixpoint be_bytes (n : nat) (v : Z) : bytes :=
  match n with
  | O => []
  | S n => be_bytes n (v / 256) ++ [byte_of v]
  end.

Definition be_decode (l : bytes) : Z := fold_left (fun acc b => acc * 256 + bval b) l 0.

Lemma be_decode_snoc l b : be_decode (l ++ [b]) = be_decode l * 256 + bval b.
Proof. unfold be_decode. by rewrite fold_left_app. Qed.

Lemma length_be_bytes n v : length (be_bytes n v) = n.
Proof. revert v; induction n as [|n IH]; intros v; simpl; [done|]. rewrite length_app, IH; simpl; lia. Qed.

Lemma be_decode_be_bytes n v : be_decode (be_bytes n v) = v mod 256 ^ Z.of_nat n.
Proof.
  revert v; induction n as [|n IH]; intros v; simpl be_bytes.
  - by rewrite Z.mod_1_r.
  - rewrite be_decode_snoc, IH, bval_byte_of.
    rewrite Nat2Z.inj_succ, Z.pow_succ_r by lia.
    rewrite (Z.mul_comm 256 (256 ^ _)), Z.mul_comm.
    rewrite (Z.mul_comm (256 ^ _) 256), Z.rem_mul_r by lia. lia.
Qed.

Lemma byte_of_mod z : byte_of (z mod 256) = byte_of z.
Proof. unfold byte_of. by rewrite Z.mod_mod by lia. Qed.

(** Only the low [8 n] bits are written. *)
Lemma be_bytes_mod n v : be_bytes n (v mod 256 ^ Z.of_nat n) = be_bytes n v.
Proof.
  revert v; induction n as [|n IH]; intros v; [done|]. cbn [be_bytes].
  rewrite Nat2Z.inj_succ, Z.pow_succ_r, Z.rem_mul_r by lia.
  rewrite (Z.mul_comm 256), Z.div_add, (Z.div_small (v mod 256)), Z.add_0_l, IH
    by first [lia | apply Z.mod_pos_bound; lia].
  do 2 f_equal. rewrite <- byte_of_mod, Z.mod_add, Z.mod_mod, byte_of_mod by lia. done.
Qed.

Lemma be_bytes_inj n v1 v2 :
  0 <= v1 < 256 ^ Z.of_nat n -> 0 <= v2 < 256 ^ Z.of_nat n ->
  be_bytes n v1 = be_bytes n v2 -> v1 = v2.
Proof.
  intros H1 H2 E. apply (f_equal be_decode) in E.
  rewrite !be_decode_be_bytes, !Z.mod_small in E; done.
Qed.

(* --------------------------------------------------------------------- *)
(** ** State-passing computations                                         *)
(* --------------------------------------------------------------------- *)

(** A C++ member function that may change the object it is called on: it maps
    the state before the call to the returned value and the state after. *)
Definition st (S A : Type) : Type := S -> A * S.

#[global] Instance st_ret {S} : MRet (st S) := fun A a s => (a, s).
#[global] Instance st_bind {S} : MBind (st S) := fun A B k m s => let '(a, s') := m s in k a s'.

Definition st_get {S} : st S S := fun s => (s, s).
Definition st_mod {S} (f : S -> S) : st S unit := fun s => (tt, f s).
Definition st_gets {S A} (f : S -> A) : st S A := fun s => (f s, s).

Lemma st_bind_eq {S A B} (m : st S A) (k : A -> st S B) s :
  (m ≫= k) s = k (m s).1 (m s).2.
Proof. unfold mbind, st_bind. by destruct (m s). Qed.

(* --------------------------------------------------------------------- *)
(** ** Automation                                                         *)
(* --------------------------------------------------------------------- *)

Create HintDb sec discriminated.
#[export] Hint Resolve bval_range : sec.
Create Rewrite HintDb sec.
#[export] Hint Rewrite bval_byte_of byte_of_bval length_be_bytes be_decode_be_bytes : sec.

(** Split the boolean conditions the guards of the code produce. *)
Ltac bool_simpl :=
  repeat match goal with
  | H : _ && _ = true |- _ => apply andb_true_iff in H; destruct H
  | H : _ || _ = false |- _ => apply orb_false_iff in H; destruct H
  | H : negb _ = true |- _ => apply negb_true_iff in H
  | H : negb _ = false |- _ => apply negb_false_iff in H
  | H : (_ <? _) = true |- _ => apply Z.ltb_lt in H
  | H : (_ <? _) = false |- _ => apply Z.ltb_ge in H
  | H : (_ <=? _) = true |- _ => apply Z.leb_le in H
  | H : (_ <=? _) = false |- _ => apply Z.leb_gt in H
  | H : (_ >? _) = true |- _ => apply Z.gtb_lt in H
  | H : (_ =? _) = true |- _ => apply Z.eqb_eq in H
  | H : (_ =? _) = false |- _ => apply Z.eqb_neq in H
  | H : bool_decide _ = true |- _ => apply bool_decide_eq_true in H
  | H : bool_decide _ = false |- _ => apply bool_decide_eq_false in H
  end.

(** Case analysis on the innermost [if]/[match] of a hypothesis, keeping the
    equation; the guards of a handler become hypotheses in source order. *)
Ltac step_in H :=
  match type of H with
  | context [match ?x with _ => _ end] =>
      lazymatch x with
      | context [match _ with _ => _ end] => fail
      | _ => let E := fresh "E" in destruct x eqn:E
      end
  end.

Ltac step_goal :=
  match goal with
  | |- context [match ?x with _ => _ end] =>
      lazymatch x with
      | context [match _ with _ => _ end] => fail
      | _ => let E := fresh "E" in destruct x eqn:E
      end
  end.
