(* ===== verification/Errors.v ===== *)
(** * ErrorCode: the result codes every operation of the service returns.
    [include/tbox/sec/errors.h], [src/error_codes.cpp]. *)
From S2P Require Import Prelude.

(** [src/include/tbox/sec/errors.h:9-115] ErrorCode *)
Inductive ErrorCode :=
  | SUCCESS
  | KEY_GENERATION_FAILED | KEY_ALREADY_EXISTS | KEY_NOT_FOUND
  | CSR_BUILD_FAILED | CSR_INVALID_SUBJECT | CSR_SIGN_FAILED
  | PKI_REJECTED | PKI_TIMEOUT | PKI_CONNECTION_FAILED | PKI_INVALID_RESPONSE
  | CERT_VALIDATION_FAILED | CERT_KEY_MISMATCH | CERT_EXPIRED | CERT_INSTALL_FAILED
  | HSM_INIT_FAILED | HSM_COMMUNICATION_FAILED | HSM_KEY_GENERATION_FAILED
  | HSM_SIGN_FAILED | HSM_VERIFICATION_FAILED
  | STORAGE_WRITE_FAILED | STORAGE_READ_FAILED | STORAGE_CORRUPTION
  | UDS_SESSION_TIMEOUT | UDS_SECURITY_DENIED | UDS_INVALID_REQUEST
  | SEED_GENERATION_FAILED | KEY_VERIFICATION_FAILED
  | SOFT_KEY_MODE_NOT_ALLOWED
  | TLS_CREDENTIAL_NOT_READY | TLS_CREDENTIAL_INVALID | TLS_KEY_REF_INVALID
  | TLS_SIGN_ALGORITHM_NOT_ALLOWED | TLS_HSM_SIGN_FAILED
  | TLS_MATERIAL_KEY_MISSING | TLS_MATERIAL_FORMAT_INVALID | TLS_CHAIN_INVALID
  | TLS_KEY_MISMATCH | TLS_CERT_EXPIRED | TLS_CA_INVALID
  | BUSINESS_KEY_UNSUPPORTED | BUSINESS_KEY_CONFLICT | WRAPPED_KEY_INVALID
  | BUSINESS_KEY_IMPORT_UNKNOWN | BUSINESS_KEY_NOT_READY | BUSINESS_KEY_PARTIAL_ROLLBACK
  | BUSINESS_KEY_OUTCOME_UNKNOWN
  | KL1_ADMISSION_REJECTED | KL1_CAPABILITY_EPOCH_MISMATCH
  | TRUSTED_TIME_UNAVAILABLE | TRUSTED_TIME_TIMEOUT | TRUSTED_TIME_UNSUPPORTED
  | TRUSTED_TIME_MALFORMED
  | ACL_DENIED | CONFIG_ERROR
  | INVALID_PARAMETER | NOT_INITIALIZED | OPERATION_IN_PROGRESS | NOT_IMPLEMENTED
  | CONNECTION_FAILED | PROV_NOT_CONFIGURED | INTERNAL_ERROR.

#[global] Instance ErrorCode_eq_dec : EqDecision ErrorCode.
Proof. solve_decision. Defined.

(** The test [rc == ErrorCode::SUCCESS]. *)
Definition is_success (rc : ErrorCode) : bool :=
  match rc with SUCCESS => true | _ => false end.

Lemma is_success_true rc : is_success rc = true <-> rc = SUCCESS.
Proof. by destruct rc. Qed.

(** The numeric value of an enumerator, the [static_cast<uint32_t>] an IPC
    response carries. *)
(** [src/include/tbox/sec/errors.h:9-115] ErrorCode values *)
Definition error_code_value (c : ErrorCode) : Z :=
  match c with
  | SUCCESS => 0
  | KEY_GENERATION_FAILED => 1001
  | KEY_ALREADY_EXISTS => 1002
  | KEY_NOT_FOUND => 1003
  | CSR_BUILD_FAILED => 2001
  | CSR_INVALID_SUBJECT => 2002
  | CSR_SIGN_FAILED => 2003
  | PKI_REJECTED => 3001
  | PKI_TIMEOUT => 3002
  | PKI_CONNECTION_FAILED => 3003
  | PKI_INVALID_RESPONSE => 3004
  | CERT_VALIDATION_FAILED => 4001
  | CERT_KEY_MISMATCH => 4002
  | CERT_EXPIRED => 4003
  | CERT_INSTALL_FAILED => 4004
  | HSM_INIT_FAILED => 5001
  | HSM_COMMUNICATION_FAILED => 5002
  | HSM_KEY_GENERATION_FAILED => 5003
  | HSM_SIGN_FAILED => 5004
  | HSM_VERIFICATION_FAILED => 5005
  | STORAGE_WRITE_FAILED => 6001
  | STORAGE_READ_FAILED => 6002
  | STORAGE_CORRUPTION => 6003
  | UDS_SESSION_TIMEOUT => 7001
  | UDS_SECURITY_DENIED => 7002
  | UDS_INVALID_REQUEST => 7003
  | SEED_GENERATION_FAILED => 7007
  | KEY_VERIFICATION_FAILED => 7008
  | SOFT_KEY_MODE_NOT_ALLOWED => 1009
  | TLS_CREDENTIAL_NOT_READY => 1010
  | TLS_CREDENTIAL_INVALID => 1011
  | TLS_KEY_REF_INVALID => 1012
  | TLS_SIGN_ALGORITHM_NOT_ALLOWED => 1013
  | TLS_HSM_SIGN_FAILED => 1014
  | TLS_MATERIAL_KEY_MISSING => 1015
  | TLS_MATERIAL_FORMAT_INVALID => 1016
  | TLS_CHAIN_INVALID => 1017
  | TLS_KEY_MISMATCH => 1018
  | TLS_CERT_EXPIRED => 1019
  | TLS_CA_INVALID => 1020
  | BUSINESS_KEY_UNSUPPORTED => 1021
  | BUSINESS_KEY_CONFLICT => 1022
  | WRAPPED_KEY_INVALID => 1023
  | BUSINESS_KEY_IMPORT_UNKNOWN => 1024
  | BUSINESS_KEY_NOT_READY => 1025
  | BUSINESS_KEY_PARTIAL_ROLLBACK => 1026
  | BUSINESS_KEY_OUTCOME_UNKNOWN => 1028
  | KL1_ADMISSION_REJECTED => 1029
  | KL1_CAPABILITY_EPOCH_MISMATCH => 1030
  | TRUSTED_TIME_UNAVAILABLE => 1031
  | TRUSTED_TIME_TIMEOUT => 1032
  | TRUSTED_TIME_UNSUPPORTED => 1033
  | TRUSTED_TIME_MALFORMED => 1034
  | ACL_DENIED => 1027
  | CONFIG_ERROR => 1100
  | INVALID_PARAMETER => 8001
  | NOT_INITIALIZED => 8002
  | OPERATION_IN_PROGRESS => 8003
  | NOT_IMPLEMENTED => 8004
  | CONNECTION_FAILED => 8005
  | PROV_NOT_CONFIGURED => 8006
  | INTERNAL_ERROR => 9999
  end.

(** [src/src/error_codes.cpp:7-73] error_code_to_string *)
Definition error_code_to_string (code : ErrorCode) : string :=
  match code with
  | SUCCESS => "SUCCESS"
  | KEY_GENERATION_FAILED => "KEY_GENERATION_FAILED"
  | KEY_ALREADY_EXISTS => "KEY_ALREADY_EXISTS"
  | KEY_NOT_FOUND => "KEY_NOT_FOUND"
  | CSR_BUILD_FAILED => "CSR_BUILD_FAILED"
  | CSR_INVALID_SUBJECT => "CSR_INVALID_SUBJECT"
  | CSR_SIGN_FAILED => "CSR_SIGN_FAILED"
  | PKI_REJECTED => "PKI_REJECTED"
  | PKI_TIMEOUT => "PKI_TIMEOUT"
  | PKI_CONNECTION_FAILED => "PKI_CONNECTION_FAILED"
  | PKI_INVALID_RESPONSE => "PKI_INVALID_RESPONSE"
  | CERT_VALIDATION_FAILED => "CERT_VALIDATION_FAILED"
  | CERT_KEY_MISMATCH => "CERT_KEY_MISMATCH"
  | CERT_EXPIRED => "CERT_EXPIRED"
  | CERT_INSTALL_FAILED => "CERT_INSTALL_FAILED"
  | HSM_INIT_FAILED => "HSM_INIT_FAILED"
  | HSM_COMMUNICATION_FAILED => "HSM_COMMUNICATION_FAILED"
  | HSM_KEY_GENERATION_FAILED => "HSM_KEY_GENERATION_FAILED"
  | HSM_SIGN_FAILED => "HSM_SIGN_FAILED"
  | HSM_VERIFICATION_FAILED => "HSM_VERIFICATION_FAILED"
  | STORAGE_WRITE_FAILED => "STORAGE_WRITE_FAILED"
  | STORAGE_READ_FAILED => "STORAGE_READ_FAILED"
  | STORAGE_CORRUPTION => "STORAGE_CORRUPTION"
  | UDS_SESSION_TIMEOUT => "UDS_SESSION_TIMEOUT"
  | UDS_SECURITY_DENIED => "UDS_SECURITY_DENIED"
  | UDS_INVALID_REQUEST => "UDS_INVALID_REQUEST"
  | SEED_GENERATION_FAILED => "SEED_GENERATION_FAILED"
  | KEY_VERIFICATION_FAILED => "KEY_VERIFICATION_FAILED"
  | SOFT_KEY_MODE_NOT_ALLOWED => "SOFT_KEY_MODE_NOT_ALLOWED"
  | TLS_CREDENTIAL_NOT_READY => "TLS_CREDENTIAL_NOT_READY"
  | TLS_CREDENTIAL_INVALID => "TLS_CREDENTIAL_INVALID"
  | TLS_KEY_REF_INVALID => "TLS_KEY_REF_INVALID"
  | TLS_SIGN_ALGORITHM_NOT_ALLOWED => "TLS_SIGN_ALGORITHM_NOT_ALLOWED"
  | TLS_HSM_SIGN_FAILED => "TLS_HSM_SIGN_FAILED"
  | TLS_MATERIAL_KEY_MISSING => "TLS_MATERIAL_KEY_MISSING"
  | TLS_MATERIAL_FORMAT_INVALID => "TLS_MATERIAL_FORMAT_INVALID"
  | TLS_CHAIN_INVALID => "TLS_CHAIN_INVALID"
  | TLS_KEY_MISMATCH => "TLS_KEY_MISMATCH"
  | TLS_CERT_EXPIRED => "TLS_CERT_EXPIRED"
  | TLS_CA_INVALID => "TLS_CA_INVALID"
  | BUSINESS_KEY_UNSUPPORTED => "BUSINESS_KEY_UNSUPPORTED"
  | BUSINESS_KEY_CONFLICT => "BUSINESS_KEY_CONFLICT"
  | WRAPPED_KEY_INVALID => "WRAPPED_KEY_INVALID"
  | BUSINESS_KEY_IMPORT_UNKNOWN => "BUSINESS_KEY_IMPORT_UNKNOWN"
  | BUSINESS_KEY_NOT_READY => "BUSINESS_KEY_NOT_READY"
  | BUSINESS_KEY_PARTIAL_ROLLBACK => "BUSINESS_KEY_PARTIAL_ROLLBACK"
  | BUSINESS_KEY_OUTCOME_UNKNOWN => "BUSINESS_KEY_OUTCOME_UNKNOWN"
  | KL1_ADMISSION_REJECTED => "KL1_ADMISSION_REJECTED"
  | KL1_CAPABILITY_EPOCH_MISMATCH => "KL1_CAPABILITY_EPOCH_MISMATCH"
  | TRUSTED_TIME_UNAVAILABLE => "TRUSTED_TIME_UNAVAILABLE"
  | TRUSTED_TIME_TIMEOUT => "TRUSTED_TIME_TIMEOUT"
  | TRUSTED_TIME_UNSUPPORTED => "TRUSTED_TIME_UNSUPPORTED"
  | TRUSTED_TIME_MALFORMED => "TRUSTED_TIME_MALFORMED"
  | ACL_DENIED => "ACL_DENIED"
  | CONFIG_ERROR => "CONFIG_ERROR"
  | INVALID_PARAMETER => "INVALID_PARAMETER"
  | NOT_INITIALIZED => "NOT_INITIALIZED"
  | OPERATION_IN_PROGRESS => "OPERATION_IN_PROGRESS"
  | NOT_IMPLEMENTED => "NOT_IMPLEMENTED"
  | CONNECTION_FAILED => "CONNECTION_FAILED"
  | PROV_NOT_CONFIGURED => "PROV_NOT_CONFIGURED"
  | INTERNAL_ERROR => "INTERNAL_ERROR"
  end.

(** The enumerators, for the finite checks below. *)
Definition all_error_codes : list ErrorCode :=
  [SUCCESS; KEY_GENERATION_FAILED; KEY_ALREADY_EXISTS; KEY_NOT_FOUND; CSR_BUILD_FAILED; CSR_INVALID_SUBJECT; CSR_SIGN_FAILED; PKI_REJECTED; PKI_TIMEOUT; PKI_CONNECTION_FAILED; PKI_INVALID_RESPONSE; CERT_VALIDATION_FAILED; CERT_KEY_MISMATCH; CERT_EXPIRED; CERT_INSTALL_FAILED; HSM_INIT_FAILED; HSM_COMMUNICATION_FAILED; HSM_KEY_GENERATION_FAILED; HSM_SIGN_FAILED; HSM_VERIFICATION_FAILED; STORAGE_WRITE_FAILED; STORAGE_READ_FAILED; STORAGE_CORRUPTION; UDS_SESSION_TIMEOUT; UDS_SECURITY_DENIED; UDS_INVALID_REQUEST; SEED_GENERATION_FAILED; KEY_VERIFICATION_FAILED; SOFT_KEY_MODE_NOT_ALLOWED; TLS_CREDENTIAL_NOT_READY; TLS_CREDENTIAL_INVALID; TLS_KEY_REF_INVALID; TLS_SIGN_ALGORITHM_NOT_ALLOWED; TLS_HSM_SIGN_FAILED; TLS_MATERIAL_KEY_MISSING; TLS_MATERIAL_FORMAT_INVALID; TLS_CHAIN_INVALID; TLS_KEY_MISMATCH; TLS_CERT_EXPIRED; TLS_CA_INVALID; BUSINESS_KEY_UNSUPPORTED; BUSINESS_KEY_CONFLICT; WRAPPED_KEY_INVALID; BUSINESS_KEY_IMPORT_UNKNOWN; BUSINESS_KEY_NOT_READY; BUSINESS_KEY_PARTIAL_ROLLBACK; BUSINESS_KEY_OUTCOME_UNKNOWN; KL1_ADMISSION_REJECTED; KL1_CAPABILITY_EPOCH_MISMATCH; TRUSTED_TIME_UNAVAILABLE; TRUSTED_TIME_TIMEOUT; TRUSTED_TIME_UNSUPPORTED; TRUSTED_TIME_MALFORMED; ACL_DENIED; CONFIG_ERROR; INVALID_PARAMETER; NOT_INITIALIZED; OPERATION_IN_PROGRESS; NOT_IMPLEMENTED; CONNECTION_FAILED; PROV_NOT_CONFIGURED; INTERNAL_ERROR].

Lemma all_error_codes_complete c : c ∈ all_error_codes.
Proof. apply list_elem_of_In. destruct c; cbv; tauto. Qed.

Lemma error_code_value_table :
  NoDup (error_code_value <$> all_error_codes).
Proof. apply (bool_decide_unpack _). by vm_compute. Qed.

(** No two enumerators share a wire value or a name (the two tables are written
    by hand, and the business-key block is not in numeric order). *)
Lemma NoDup_fmap_inj {A B} (f : A -> B) (l : list A) x y :
  NoDup (f <$> l) -> x ∈ l -> y ∈ l -> f x = f y -> x = y.
Proof.
  induction l as [|a l IH]; simpl; [set_solver|].
  rewrite NoDup_cons. intros [Hn Hd] Hx Hy E.
  rewrite list_elem_of_fmap in Hn. rewrite elem_of_cons in Hx, Hy.
  destruct Hx as [->|Hx], Hy as [->|Hy]; [done| | |by apply IH].
  - exfalso. apply Hn. eauto.
  - exfalso. apply Hn. exists x. eauto.
Qed.

#[global] Instance error_code_value_inj : Inj (=) (=) error_code_value.
Proof.
  intros c1 c2. apply (NoDup_fmap_inj _ all_error_codes);
    auto using error_code_value_table, all_error_codes_complete.
Qed.

#[global] Instance error_code_to_string_inj : Inj (=) (=) error_code_to_string.
Proof.
  intros c1 c2. apply (NoDup_fmap_inj _ all_error_codes);
    auto using all_error_codes_complete.
  apply (bool_decide_unpack _). by vm_compute.
Qed.

(** [src/src/error_codes.cpp:75-143] error_code_to_description *)
Definition error_code_to_description (code : ErrorCode) : string :=
  match code with
  | SUCCESS => "Operation completed successfully"
  | KEY_GENERATION_FAILED => "Failed to generate cryptographic key pair"
  | KEY_ALREADY_EXISTS => "Key already exists for this identity"
  | KEY_NOT_FOUND => "Key not found for this identity"
  | CSR_BUILD_FAILED => "Failed to build Certificate Signing Request"
  | CSR_INVALID_SUBJECT => "CSR subject fields are invalid"
  | CSR_SIGN_FAILED => "Failed to sign CSR with private key"
  | PKI_REJECTED => "PKI server rejected the certificate request"
  | PKI_TIMEOUT => "PKI server request timed out"
  | PKI_CONNECTION_FAILED => "Failed to connect to PKI server"
  | PKI_INVALID_RESPONSE => "Received invalid response from PKI server"
  | CERT_VALIDATION_FAILED => "Certificate validation failed"
  | CERT_KEY_MISMATCH => "Certificate public key does not match private key"
  | CERT_EXPIRED => "Certificate has expired"
  | CERT_INSTALL_FAILED => "Failed to install certificate"
  | HSM_INIT_FAILED => "Failed to initialize HSM/Secure Element"
  | HSM_COMMUNICATION_FAILED => "HSM communication error"
  | HSM_KEY_GENERATION_FAILED => "HSM key generation failed"
  | HSM_SIGN_FAILED => "HSM signing operation failed"
  | HSM_VERIFICATION_FAILED => "HSM verification operation failed"
  | STORAGE_WRITE_FAILED => "Failed to write to secure storage"
  | STORAGE_READ_FAILED => "Failed to read from secure storage"
  | STORAGE_CORRUPTION => "Storage data corruption detected"
  | UDS_SESSION_TIMEOUT => "UDS diagnostic session timed out"
  | UDS_SECURITY_DENIED => "UDS security access denied"
  | UDS_INVALID_REQUEST => "Invalid UDS request"
  | SEED_GENERATION_FAILED => "Failed to generate security seed"
  | KEY_VERIFICATION_FAILED => "Security key verification failed"
  | INVALID_PARAMETER => "Invalid parameter provided"
  | NOT_INITIALIZED => "Service not initialized"
  | OPERATION_IN_PROGRESS => "Another operation is already in progress"
  | NOT_IMPLEMENTED => "Operation not implemented"
  | CONNECTION_FAILED => "Failed to connect to service"
  | PROV_NOT_CONFIGURED => "PROV service has not configured VIN/ECU UID yet"
  | SOFT_KEY_MODE_NOT_ALLOWED => "Software key file mode not allowed in production environment"
  | TLS_CREDENTIAL_NOT_READY => "MQTT TLS credential not ready"
  | TLS_CREDENTIAL_INVALID => "TLS credential invalid, expired or revoked"
  | TLS_KEY_REF_INVALID => "TLS private key reference invalid or expired"
  | TLS_SIGN_ALGORITHM_NOT_ALLOWED => "TLS signature algorithm or usage not allowed"
  | TLS_HSM_SIGN_FAILED => "HSM/SE TLS signing failed"
  | TLS_MATERIAL_KEY_MISSING => "TLS material key missing (root_ca or device_cert_chain)"
  | TLS_MATERIAL_FORMAT_INVALID => "TLS material format invalid (bad PEM/DER/profile)"
  | TLS_CHAIN_INVALID => "TLS client certificate chain invalid"
  | TLS_KEY_MISMATCH => "TLS client certificate public key does not match HSM private key"
  | TLS_CERT_EXPIRED => "TLS client certificate expired or not yet valid"
  | TLS_CA_INVALID => "Broker trust CA invalid (not a CA / unusable)"
  | BUSINESS_KEY_UNSUPPORTED => "Business key domain/purpose/algorithm/wrapping suite unsupported"
  | BUSINESS_KEY_CONFLICT => "Business key request digest or version conflict"
  | WRAPPED_KEY_INVALID => "Wrapped key binding/AAD/integrity validation failed"
  | BUSINESS_KEY_IMPORT_UNKNOWN => "Business key import outcome unknown; query by requestId"
  | BUSINESS_KEY_NOT_READY => "Business key HSM/identity/journal/metadata not ready"
  | BUSINESS_KEY_PARTIAL_ROLLBACK => "Business key batch not committed; staging state requires recovery"
  | BUSINESS_KEY_OUTCOME_UNKNOWN => "Business key secure call outcome unknown; reconcile by requestId"
  | KL1_ADMISSION_REJECTED => "KL1 admission rejected: lease expired (U>=E) for a new operation; not started, no side effects; not a strong NOT_FOUND"
  | KL1_CAPABILITY_EPOCH_MISMATCH => "KL1 capability epoch mismatch: caller epoch != current SEC epoch; not started, no side effects; not a strong NOT_FOUND"
  | TRUSTED_TIME_UNAVAILABLE => "Trusted time service unreachable/not started"
  | TRUSTED_TIME_TIMEOUT => "Trusted time query timeout"
  | TRUSTED_TIME_UNSUPPORTED => "Trusted time contract/capability unsupported"
  | TRUSTED_TIME_MALFORMED => "Trusted time response malformed or stale (request token rejected)"
  | ACL_DENIED => "Caller not authorized for this profile"
  | CONFIG_ERROR => "Configuration error"
  | INTERNAL_ERROR => "Internal error"
  end%string.

(** Every code has a description of its own. *)
#[global] Instance error_code_to_description_inj : Inj (=) (=) error_code_to_description.
Proof.
  intros c1 c2. apply (NoDup_fmap_inj _ all_error_codes);
    auto using all_error_codes_complete.
  apply (bool_decide_unpack _). by vm_compute.
Qed.

(* --------------------------------------------------------------------- *)
(** ** Fallible computations                                              *)
(* --------------------------------------------------------------------- *)

(** A call that returns [SUCCESS] and fills its out-parameter, or returns an
    error code and leaves it alone. *)
Inductive res (A : Type) :=
  | Ok (a : A)
  | Err (e : ErrorCode).
Arguments Ok {A} a.
Arguments Err {A} e.

(** The code such a call returns. *)
Definition code_of {A} (r : res A) : ErrorCode :=
  match r with Ok _ => SUCCESS | Err e => e end.

(** [if (cond) return e;] followed by the rest of the body. *)
Notation "'fail_if' b 'with' e ';;' k" := (if b then Err e else k)
  (at level 100, b at level 99, e at level 99, k at level 200, right associativity).

Lemma fail_if_ok {A} (b : bool) e (k : res A) v :
  (fail_if b with e ;; k) = Ok v -> b = false /\ k = Ok v.
Proof. by destruct b. Qed.

(** Walk down a body that returned [Ok]: each guard it passed becomes a
    hypothesis, in source order. *)
Ltac ok_step H :=
  match type of H with
  | (if ?b then Err _ else _) = Ok _ =>
      let G := fresh "G" in apply fail_if_ok in H; destruct H as [G H]
  | match ?x with _ => _ end = Ok _ => let E := fresh "E" in destruct x eqn:E; try discriminate H
  | Ok _ = Ok _ => injection H as H
  end.
Ltac ok_inv H := repeat (ok_step H; cbv zeta in H).
