(* ===== verification/Canonical.v ===== *)
(** * CanonicalEncodingV1: length-prefixed framing, digest preimages, hex.
    Models [src/canonical_encoding.cpp] / [include/canonical_encoding.h]. *)
From S2P Require Import Prelude.


(** OpenSSL's digest is a parameter: a function on byte strings whose results
    have [SHA256_DIGEST_LENGTH] bytes. *)
Class Sha256 := {
  SHA256 : bytes -> bytes;
  SHA256_length m : length (SHA256 m) = 32%nat
}.

Definition kProofContextV1 : string := "openiov|keyprov-ack|v1".

(* --------------------------------------------------------------------- *)
(** ** Framing primitives                                                 *)
(* --------------------------------------------------------------------- *)

(** [src/src/canonical_encoding.cpp:15-20] appendUint32be *)
Definition appendUint32be (out : bytes) (v : Z) : bytes :=
  out ++ [byte_of (Z.land (Z.shiftr v 24) 255); byte_of (Z.land (Z.shiftr v 16) 255);
          byte_of (Z.land (Z.shiftr v 8) 255); byte_of (Z.land v 255)].

(** [src/src/canonical_encoding.cpp:22-26] appendUint64be *)
Definition appendUint64be (out : bytes) (v : Z) : bytes :=
  fold_left (fun out i => out ++ [byte_of (Z.land (Z.shiftr v (i * 8)) 255)])
    [7; 6; 5; 4; 3; 2; 1; 0] out.

(** The [while (true)] loop of [appendEnumVarint]; [None] when the fuel runs
    out, which [varint_loop_total] excludes for a [uint64_t]. *)
(** [src/src/canonical_encoding.cpp:29-38] appendEnumVarint loop *)
Fixpoint varint_loop (fuel : nat) (v : Z) (out : bytes) : option bytes :=
  match fuel with
  | O => None
  | S fuel =>
      let b := Z.land v 127 in
      let v := Z.shiftr v 7 in
      if negb (v =? 0) then varint_loop fuel v (out ++ [byte_of (Z.lor b 128)])
      else Some (out ++ [byte_of b])
  end.

(** Ten iterations are enough for 64 bits. *)
(** [src/src/canonical_encoding.cpp:28-39] appendEnumVarint *)
Definition appendEnumVarint (out : bytes) (v : Z) : bytes := default out (varint_loop 10 v out).

(** [src/src/canonical_encoding.cpp:41-44] appendLengthPrefixed *)
Definition appendLengthPrefixed (out content : bytes) : bytes :=
  appendUint32be out (wrapu 32 (zlen content)) ++ content.

(** [src/src/canonical_encoding.cpp:46-49] appendString *)
Definition appendString (out : bytes) (s : string) : bytes :=
  appendUint32be out (wrapu 32 (str_size s)) ++ bytes_of_string s.

(** [src/src/canonical_encoding.cpp:51-58] appendBytes *)
Definition appendBytes (out v : bytes) : bytes :=
  appendUint32be out (wrapu 32 (zlen v)) ++ v.

(** [src/src/canonical_encoding.cpp:60-65] uint64beBytes *)
Definition uint64beBytes (v : Z) : bytes := appendUint64be [] v.

(** [src/src/canonical_encoding.cpp:99-103] appendEnumSegment *)
Definition appendEnumSegment (out : bytes) (v : Z) : bytes :=
  appendLengthPrefixed out (appendEnumVarint [] v).

(** [src/src/canonical_encoding.cpp:105-107] appendUint64beSegment *)
Definition appendUint64beSegment (out : bytes) (v : Z) : bytes :=
  appendLengthPrefixed out (uint64beBytes v).

(* --------------------------------------------------------------------- *)
(** ** Digest inputs                                                      *)
(* --------------------------------------------------------------------- *)

(** [src/include/canonical_encoding.h:65-75] EnvelopeDigestInput *)
Record EnvelopeDigestInput := {
  edi_envelope_format : Z;
  edi_request_id : string;
  edi_business_domain : string;
  edi_purpose : Z;
  edi_key_id : string;
  edi_business_key_version : Z;
  edi_wrapping_suite : Z;
  edi_wrapped_key : bytes;
  edi_parameters : bytes
}.

(** [src/include/canonical_encoding.h:82-93] EnvelopeAadInput *)
Record EnvelopeAadInput := {
  aad_envelope_format : Z;
  aad_wrapping_suite : Z;
  aad_request_id : string;
  aad_business_domain : string;
  aad_purpose : Z;
  aad_key_id : string;
  aad_business_key_version : Z;
  aad_root_key_version : Z;
  aad_derivation_version : string;
  aad_recipient_certificate_digest : bytes
}.

(** [src/include/canonical_encoding.h:103-111] ProofInput *)
Record ProofInput := {
  pi_request_id : string;
  pi_business_domain : string;
  pi_purpose : Z;
  pi_key_id : string;
  pi_business_key_version : Z;
  pi_envelope_digest : bytes;
  pi_key_check_value : bytes
}.

(** [src/src/canonical_encoding.cpp:111-123] buildWireEnvelopeDigestV1, before hashing *)
Definition wireDigestInput (i : EnvelopeDigestInput) : bytes :=
  let buf := [] in
  let buf := appendEnumSegment buf (edi_envelope_format i) in
  let buf := appendString buf (edi_request_id i) in
  let buf := appendString buf (edi_business_domain i) in
  let buf := appendEnumSegment buf (edi_purpose i) in
  let buf := appendString buf (edi_key_id i) in
  let buf := appendUint64beSegment buf (edi_business_key_version i) in
  let buf := appendEnumSegment buf (edi_wrapping_suite i) in
  let buf := appendBytes buf (edi_wrapped_key i) in
  appendBytes buf (edi_parameters i).

(** [src/src/canonical_encoding.cpp:126-140] buildParProtoAadV1 *)
Definition buildParProtoAadV1 (i : EnvelopeAadInput) : bytes :=
  let buf := [] in
  let buf := appendEnumSegment buf (aad_envelope_format i) in
  let buf := appendEnumSegment buf (aad_wrapping_suite i) in
  let buf := appendEnumSegment buf (aad_purpose i) in
  let buf := appendUint64beSegment buf (aad_business_key_version i) in
  let buf := appendUint64beSegment buf (aad_root_key_version i) in
  let buf := appendBytes buf (aad_recipient_certificate_digest i) in
  let buf := appendString buf (aad_request_id i) in
  let buf := appendString buf (aad_business_domain i) in
  let buf := appendString buf (aad_key_id i) in
  appendString buf (aad_derivation_version i).

Section Digests.
Context `{Sha256}.

(** [src/src/canonical_encoding.cpp:71-79] sha256 *)
Definition sha256 (data : bytes) : bytes := SHA256 data.

(** [src/src/canonical_encoding.cpp:111-124] buildWireEnvelopeDigestV1 *)
Definition buildWireEnvelopeDigestV1 (i : EnvelopeDigestInput) : bytes :=
  sha256 (wireDigestInput i).

(** [src/src/canonical_encoding.cpp:142-144] computeAadDigest *)
Definition computeAadDigest (canonical_aad : bytes) : bytes := sha256 canonical_aad.

(** The [std::array<uint8_t, 3>] of a key check value. *)
Definition kcv3 : Type := byte * byte * byte.
Definition kcv_zero : kcv3 := (x00, x00, x00).
Definition kcv_bytes (k : kcv3) : bytes := let '(a, b, c) := k in [a; b; c].

(** [src/src/canonical_encoding.cpp:81-84] computeKcv *)
Definition computeKcv (business_key : bytes) : kcv3 :=
  let d := sha256 business_key in (nth 0 d x00, nth 1 d x00, nth 2 d x00).

(** [src/src/canonical_encoding.cpp:146-157] buildProofInput *)
Definition buildProofInput (i : ProofInput) : bytes :=
  let buf := [] in
  let buf := appendString buf kProofContextV1 in
  let buf := appendString buf (pi_request_id i) in
  let buf := appendString buf (pi_business_domain i) in
  let buf := appendEnumSegment buf (pi_purpose i) in
  let buf := appendBytes buf (sha256 (bytes_of_string (pi_key_id i))) in
  let buf := appendUint64beSegment buf (pi_business_key_version i) in
  let buf := appendBytes buf (pi_envelope_digest i) in
  appendBytes buf (pi_key_check_value i).
End Digests.

(** [CRYPTO_memcmp] on vectors of one length is equality of the bytes. *)
(** [src/src/canonical_encoding.cpp:86-95] constantTimeEqual *)
Definition constantTimeEqual (a b : bytes) : bool :=
  if negb (zlen a =? zlen b) then false
  else if bytes_empty a then true
  else bool_decide (a = b).

(** [std::to_string] of an unsigned integer. *)
Definition std_to_string (v : Z) : string := pretty (Z.to_N v).

(** [src/src/canonical_encoding.cpp:159-166] buildHkdfInfoV1 *)
Definition buildHkdfInfoV1 (request_id business_domain purpose_name key_id : string)
    (business_key_version : Z) (recipient_fingerprint_hex_lower : string) : string :=
  "openiov|keyprov-wrap|v1|" +:+ request_id +:+ "|" +:+ business_domain +:+ "|" +:+
  purpose_name +:+ "|" +:+ key_id +:+ "|" +:+ std_to_string business_key_version +:+ "|" +:+
  recipient_fingerprint_hex_lower.

(* --------------------------------------------------------------------- *)
(** ** Hexadecimal                                                        *)
(* --------------------------------------------------------------------- *)

Definition hex_digits : list Ascii.ascii := String.list_ascii_of_string "0123456789abcdef".

Definition hex_digit (n : Z) : Ascii.ascii := nth (Z.to_nat n) hex_digits Ascii.zero.

(** [src/src/canonical_encoding.cpp:168-179] toHex *)
Fixpoint toHex (p : bytes) : string :=
  match p with
  | [] => ""
  | b :: p =>
      String (hex_digit (Z.shiftr (bval b) 4))
        (String (hex_digit (Z.land (bval b) 15)) (toHex p))
  end.

(** [src/src/canonical_encoding.cpp:183-188] hexToBytes nib *)
Definition nib (c : Ascii.ascii) : Z :=
  let c := Z.of_N (Ascii.N_of_ascii c) in
  if (48 <=? c) && (c <=? 57) then c - 48
  else if (97 <=? c) && (c <=? 102) then c - 97 + 10
  else if (65 <=? c) && (c <=? 70) then c - 65 + 10
  else -1.

(** The conversion loop: the bytes pushed so far are also returned when a digit
    is refused, since [out] keeps them. *)
(** [src/src/canonical_encoding.cpp:191-196] hexToBytes loop *)
Fixpoint hex_loop (hex : string) (out : bytes) : bool * bytes :=
  match hex with
  | String h (String l hex) =>
      let hi := nib h in
      let lo := nib l in
      if (hi <? 0) || (lo <? 0) then (false, out)
      else hex_loop hex (out ++ [byte_of (Z.lor (Z.shiftl hi 4) lo)])
  | _ => (true, out)
  end.

(** [src/src/canonical_encoding.cpp:181-198] hexToBytes *)
Definition hexToBytes (hex : string) (out : bytes) : bool * bytes :=
  if negb (str_size hex mod 2 =? 0) then (false, out) else hex_loop hex [].

(* --------------------------------------------------------------------- *)
(** ** Reference codec and lemmas                                         *)
(* --------------------------------------------------------------------- *)

(** A segment is [uint32be(len) ++ content]; a frame is a sequence of segments. *)
Definition seg (c : bytes) : bytes := be_bytes 4 (zlen c) ++ c.
Definition frame (cs : list bytes) : bytes := concat (seg <$> cs).

(** A content whose length a [uint32_t] holds. *)
Definition fits (c : bytes) : Prop := is_u32 (zlen c).

(** The reader of one segment, and of [n] segments with nothing left over. *)
Definition unseg (b : bytes) : option (bytes * bytes) :=
  let n := Z.to_nat (be_decode (take 4 b)) in
  let r := drop 4 b in
  if bool_decide (4 <= length b)%nat && bool_decide (n <= length r)%nat
  then Some (take n r, drop n r) else None.

Fixpoint unframe (n : nat) (b : bytes) : option (list bytes) :=
  match n with
  | O => if bytes_empty b then Some [] else None
  | S n => '(c, r) ← unseg b; cs ← unframe n r; Some (c :: cs)
  end.

(** The reader of a canonical varint. *)
Fixpoint varint_decode (l : bytes) : option (Z * bytes) :=
  match l with
  | [] => None
  | b :: l =>
      if bval b <? 128 then Some (bval b, l)
      else '(v, r) ← varint_decode l; Some (bval b - 128 + 128 * v, r)
  end.

Lemma byte_of_shift v k : 0 <= k -> byte_of (Z.land (Z.shiftr v k) 255) = byte_of (v / 2 ^ k).
Proof.
  intros. change 255 with (Z.ones 8). rewrite Z.land_ones by lia.
  change (2 ^ 8) with 256. by rewrite byte_of_mod, Z.shiftr_div_pow2 by lia.
Qed.

Lemma appendUint32be_be out v : appendUint32be out v = out ++ be_bytes 4 v.
Proof.
  unfold appendUint32be. rewrite !byte_of_shift by lia.
  replace (Z.land v 255) with (Z.land (Z.shiftr v 0) 255) by (by rewrite Z.shiftr_0_r).
  rewrite byte_of_shift by lia. simpl be_bytes. rewrite !Z.div_div by lia.
  by rewrite Z.div_1_r.
Qed.

Lemma appendUint64be_be out v : appendUint64be out v = out ++ be_bytes 8 v.
Proof.
  unfold appendUint64be. cbn [fold_left]. rewrite !byte_of_shift by lia.
  simpl be_bytes. rewrite !Z.div_div by lia. rewrite <- !app_assoc; simpl.
  by rewrite Z.div_1_r.
Qed.

Lemma appendLengthPrefixed_seg out c : appendLengthPrefixed out c = out ++ seg c.
Proof.
  unfold appendLengthPrefixed, seg, wrapu. rewrite appendUint32be_be, <- app_assoc.
  change (2 ^ 32) with (256 ^ Z.of_nat 4). by rewrite be_bytes_mod.
Qed.

Lemma appendBytes_seg out c : appendBytes out c = out ++ seg c.
Proof. apply appendLengthPrefixed_seg. Qed.

Lemma length_bytes_of_string s : length (bytes_of_string s) = String.length s.
Proof. unfold String.list_byte_of_string. rewrite length_map. by induction s; simpl; f_equal. Qed.

Lemma appendString_seg out s : appendString out s = out ++ seg (bytes_of_string s).
Proof.
  rewrite <- appendLengthPrefixed_seg. unfold appendString, appendLengthPrefixed, str_size, zlen.
  by rewrite length_bytes_of_string.
Qed.

Lemma appendEnumSegment_seg out v :
  appendEnumSegment out v = out ++ seg (appendEnumVarint [] v).
Proof. apply appendLengthPrefixed_seg. Qed.

Lemma appendUint64beSegment_seg out v :
  appendUint64beSegment out v = out ++ seg (be_bytes 8 v).
Proof. unfold appendUint64beSegment, uint64beBytes. by rewrite appendLengthPrefixed_seg, appendUint64be_be. Qed.

Create Rewrite HintDb canon.
#[export] Hint Rewrite appendBytes_seg appendString_seg appendEnumSegment_seg
  appendUint64beSegment_seg : canon.

(* --------------------------------------------------------------------- *)
(** ** Varints                                                            *)
(* --------------------------------------------------------------------- *)

Lemma lor_128 v : Z.lor (Z.land v 127) 128 = v mod 128 + 128.
Proof.
  rewrite <- Z.lxor_lor, <- Z.add_nocarry_lxor.
  - change 127 with (Z.ones 7). by rewrite Z.land_ones by lia.
  - rewrite <- Z.land_assoc. apply Z.land_0_r.
  - rewrite <- Z.land_assoc. apply Z.land_0_r.
Qed.

Lemma varint_loop_spec fuel v out :
  0 <= v < 128 ^ Z.of_nat fuel -> (0 < fuel)%nat ->
  exists e, varint_loop fuel v out = Some (out ++ e) /\ (1 <= length e <= fuel)%nat /\
    forall rest, varint_decode (e ++ rest) = Some (v, rest).
Proof.
  revert v out. induction fuel as [|fuel IH]; intros v out Hv Hf; [lia|].
  cbn [varint_loop]. rewrite Nat2Z.inj_succ, Z.pow_succ_r in Hv by lia.
  rewrite Z.shiftr_div_pow2 by lia. change (2 ^ 7) with 128.
  change 127 with (Z.ones 7). rewrite Z.land_ones by lia. change (2 ^ 7) with 128.
  pose proof (Z.mod_pos_bound v 128 ltac:(lia)) as Hm.
  pose proof (Z.div_mod v 128 ltac:(lia)) as Hd.
  destruct (Z.eqb_spec (v / 128) 0) as [E|E]; cbn [negb].
  - eexists [_]. split; [done|]. split; [simpl; lia|]. intros rest. simpl.
    rewrite bval_byte_of, Z.mod_small by lia.
    destruct (Z.ltb_spec (v mod 128) 128); [|lia]. do 2 f_equal. lia.
  - assert (0 <= v / 128 < 128 ^ Z.of_nat fuel) as Hv'.
    { split; [apply Z.div_pos; lia|]. apply Z.div_lt_upper_bound; lia. }
    assert (0 < fuel)%nat. { destruct fuel; [|lia]. simpl in Hv'. lia. }
    destruct (IH (v / 128) (out ++ [byte_of (Z.lor (v mod 128) 128)])) as (e & -> & Hl & Hdec);
      [done|done|].
    eexists (_ :: e). rewrite <- app_assoc. split; [done|]. split; [simpl; lia|].
    intros rest. cbn [app varint_decode]. rewrite Hdec, bval_byte_of.
    pose proof (lor_128 v) as L. change 127 with (Z.ones 7) in L.
    rewrite Z.land_ones in L by lia. change (2 ^ 7) with 128 in L. rewrite L, Z.mod_small by lia.
    destruct (Z.ltb_spec (v mod 128 + 128) 128); [lia|]. cbn [mbind option_bind]. do 2 f_equal. lia.
Qed.

Lemma varint_spec v : is_u64 v ->
  varint_loop 10 v [] = Some (appendEnumVarint [] v) /\
  (1 <= length (appendEnumVarint [] v) <= 10)%nat /\
  forall rest, varint_decode (appendEnumVarint [] v ++ rest) = Some (v, rest).
Proof.
  unfold is_u64. intros Hv.
  destruct (varint_loop_spec 10 v []) as (e & He & Hl & Hd); [|lia|].
  - change (128 ^ Z.of_nat 10) with 1180591620717411303424. lia.
  - unfold appendEnumVarint. rewrite He. cbn [default from_option id app]. auto.
Qed.

Lemma varint_inj v1 v2 :
  is_u64 v1 -> is_u64 v2 -> appendEnumVarint [] v1 = appendEnumVarint [] v2 -> v1 = v2.
Proof.
  intros H1 H2 E. destruct (varint_spec v1 H1) as (_ & _ & D1).
  destruct (varint_spec v2 H2) as (_ & _ & D2).
  specialize (D1 []). specialize (D2 []). rewrite E in D1. congruence.
Qed.

(* --------------------------------------------------------------------- *)
(** ** Frames                                                             *)
(* --------------------------------------------------------------------- *)

Lemma unseg_seg c rest : fits c -> unseg (seg c ++ rest) = Some (c, rest).
Proof.
  intros Hc. unfold unseg, seg. rewrite <- app_assoc.
  rewrite take_app_length', drop_app_length' by (by rewrite length_be_bytes).
  rewrite be_decode_be_bytes, Z.mod_small by exact Hc.
  unfold zlen. rewrite Nat2Z.id, !length_app, length_be_bytes.
  rewrite !bool_decide_true by lia. cbn [andb].
  by rewrite take_app_length, drop_app_length.
Qed.

Lemma unframe_frame cs : Forall fits cs -> unframe (length cs) (frame cs) = Some cs.
Proof.
  induction 1 as [|c cs Hc Hcs IH]; [done|].
  cbn [length unframe]. unfold frame in *. cbn [fmap list_fmap concat].
  rewrite unseg_seg by done. cbn [mbind option_bind]. by rewrite IH.
Qed.

Lemma frame_inj cs1 cs2 :
  length cs1 = length cs2 -> Forall fits cs1 -> Forall fits cs2 ->
  frame cs1 = frame cs2 -> cs1 = cs2.
Proof.
  intros Hl H1 H2 E. apply unframe_frame in H1, H2. rewrite Hl, E in H1. congruence.
Qed.

Lemma fits_enum v : is_u64 v -> fits (appendEnumVarint [] v).
Proof. intros Hv. destruct (varint_spec v Hv) as (_ & Hl & _). unfold fits, is_u32, zlen. lia. Qed.

Lemma fits_be8 v : fits (be_bytes 8 v).
Proof. unfold fits, is_u32, zlen. rewrite length_be_bytes. lia. Qed.

Definition str_fits (s : string) : Prop := fits (bytes_of_string s).

Lemma str_fits_size s : str_size s < 2 ^ 32 -> str_fits s.
Proof. unfold str_fits, fits, is_u32, zlen, str_size. rewrite length_bytes_of_string. lia. Qed.

#[export] Hint Resolve fits_enum fits_be8 str_fits_size : sec.

(** The segments of each of the three registered encodings, in order. *)
Definition wire_segments (i : EnvelopeDigestInput) : list bytes :=
  [appendEnumVarint [] (edi_envelope_format i); bytes_of_string (edi_request_id i);
   bytes_of_string (edi_business_domain i); appendEnumVarint [] (edi_purpose i);
   bytes_of_string (edi_key_id i); be_bytes 8 (edi_business_key_version i);
   appendEnumVarint [] (edi_wrapping_suite i); edi_wrapped_key i; edi_parameters i].

Definition aad_segments (i : EnvelopeAadInput) : list bytes :=
  [appendEnumVarint [] (aad_envelope_format i); appendEnumVarint [] (aad_wrapping_suite i);
   appendEnumVarint [] (aad_purpose i); be_bytes 8 (aad_business_key_version i);
   be_bytes 8 (aad_root_key_version i); aad_recipient_certificate_digest i;
   bytes_of_string (aad_request_id i); bytes_of_string (aad_business_domain i);
   bytes_of_string (aad_key_id i); bytes_of_string (aad_derivation_version i)].

Definition proof_segments `{Sha256} (i : ProofInput) : list bytes :=
  [bytes_of_string kProofContextV1; bytes_of_string (pi_request_id i);
   bytes_of_string (pi_business_domain i); appendEnumVarint [] (pi_purpose i);
   sha256 (bytes_of_string (pi_key_id i)); be_bytes 8 (pi_business_key_version i);
   pi_envelope_digest i; pi_key_check_value i].

(** Unfold an encoder into its frame. *)
Ltac frame_solve :=
  autorewrite with canon; unfold frame; cbn [fmap list_fmap concat app];
  rewrite ?app_nil_r, <- ?app_assoc; reflexivity.

Lemma wireDigestInput_frame i : wireDigestInput i = frame (wire_segments i).
Proof. unfold wireDigestInput, wire_segments. cbv zeta. frame_solve. Qed.

Lemma buildParProtoAadV1_frame i : buildParProtoAadV1 i = frame (aad_segments i).
Proof. unfold buildParProtoAadV1, aad_segments. cbv zeta. frame_solve. Qed.

Lemma buildProofInput_frame `{Sha256} i : buildProofInput i = frame (proof_segments i).
Proof. unfold buildProofInput, proof_segments. cbv zeta. frame_solve. Qed.

#[global] Arguments be_bytes : simpl never.
#[global] Arguments appendEnumVarint : simpl never.

(** Field widths: what the C++ types bound ([uint64_t] fields) and sizes a
    [uint32_t] length prefix can express. *)
Record wire_wf (i : EnvelopeDigestInput) : Prop := {
  wire_wf_u64 : is_u64 (edi_envelope_format i) /\ is_u64 (edi_purpose i) /\
                is_u64 (edi_business_key_version i) /\ is_u64 (edi_wrapping_suite i);
  wire_wf_str : str_fits (edi_request_id i) /\ str_fits (edi_business_domain i) /\
                str_fits (edi_key_id i);
  wire_wf_bytes : fits (edi_wrapped_key i) /\ fits (edi_parameters i)
}.

Record aad_wf (i : EnvelopeAadInput) : Prop := {
  aad_wf_u64 : is_u64 (aad_envelope_format i) /\ is_u64 (aad_wrapping_suite i) /\
               is_u64 (aad_purpose i) /\ is_u64 (aad_business_key_version i) /\
               is_u64 (aad_root_key_version i);
  aad_wf_str : str_fits (aad_request_id i) /\ str_fits (aad_business_domain i) /\
               str_fits (aad_key_id i) /\ str_fits (aad_derivation_version i);
  aad_wf_bytes : fits (aad_recipient_certificate_digest i)
}.

Ltac Forall_fits := repeat (apply Forall_cons_2; [auto with sec|]); apply Forall_nil_2.

Lemma wire_segments_fits i : wire_wf i -> Forall fits (wire_segments i).
Proof.
  intros [(?&?&?&?) (?&?&?) (?&?)]. unfold str_fits in *. Forall_fits.
Qed.

Lemma aad_segments_fits i : aad_wf i -> Forall fits (aad_segments i).
Proof.
  intros [(?&?&?&?&?) (?&?&?&?) ?]. unfold str_fits in *. Forall_fits.
Qed.

Lemma be8_inj v1 v2 : is_u64 v1 -> is_u64 v2 -> be_bytes 8 v1 = be_bytes 8 v2 -> v1 = v2.
Proof. apply (be_bytes_inj 8). Qed.

(** Equal segment lists give equal fields, position by position. *)
Ltac segs_inj :=
  repeat match goal with
  | H : _ :: _ = _ :: _ |- _ => apply cons_eq_inj in H; destruct H
  | H : appendEnumVarint [] _ = appendEnumVarint [] _ |- _ => apply varint_inj in H; [|done..]
  | H : be_bytes 8 _ = be_bytes 8 _ |- _ => apply be8_inj in H; [|done..]
  | H : bytes_of_string _ = bytes_of_string _ |- _ => apply (inj bytes_of_string) in H
  end.

Lemma wireDigestInput_inj i1 i2 :
  wire_wf i1 -> wire_wf i2 -> wireDigestInput i1 = wireDigestInput i2 -> i1 = i2.
Proof.
  intros W1 W2 E. rewrite !wireDigestInput_frame in E.
  apply frame_inj in E; [|done|by apply wire_segments_fits..].
  destruct i1, i2, W1 as [(?&?&?&?) _ _], W2 as [(?&?&?&?) _ _].
  unfold wire_segments in E; simpl in *. segs_inj. by subst.
Qed.

Lemma aad_inj i1 i2 :
  aad_wf i1 -> aad_wf i2 -> buildParProtoAadV1 i1 = buildParProtoAadV1 i2 -> i1 = i2.
Proof.
  intros W1 W2 E. rewrite !buildParProtoAadV1_frame in E.
  apply frame_inj in E; [|done|by apply aad_segments_fits..].
  destruct i1, i2, W1 as [(?&?&?&?&?) _ _], W2 as [(?&?&?&?&?) _ _].
  unfold aad_segments in E; simpl in *. segs_inj. by subst.
Qed.

(* --------------------------------------------------------------------- *)
(** ** Hexadecimal round trip                                             *)
(* --------------------------------------------------------------------- *)

Lemma nib_hex_digit n : 0 <= n < 16 -> nib (hex_digit n) = n.
Proof.
  intros Hn. assert (n ∈ seqZ 0 16) as Hin by (apply elem_of_seqZ; lia).
  revert n Hn Hin. cbv [seqZ]. simpl. intros n _ Hin.
  repeat (apply elem_of_cons in Hin as [->|Hin]; [reflexivity|]). by apply not_elem_of_nil in Hin.
Qed.

Lemma hex_byte b : byte_of (Z.lor (Z.shiftl (Z.shiftr (bval b) 4) 4) (Z.land (bval b) 15)) = b.
Proof. by destruct b. Qed.

Lemma hex_loop_toHex p out : hex_loop (toHex p) out = (true, out ++ p).
Proof.
  revert out; induction p as [|b p IH]; intros out; simpl; [by rewrite app_nil_r|].
  pose proof (bval_range b).
  assert (0 <= Z.shiftr (bval b) 4 < 16).
  { rewrite Z.shiftr_div_pow2 by lia. change (2 ^ 4) with 16. split.
    - apply Z.div_pos; lia.
    - apply Z.div_lt_upper_bound; lia. }
  assert (0 <= Z.land (bval b) 15 < 16).
  { change 15 with (Z.ones 4). rewrite Z.land_ones by lia. apply Z.mod_pos_bound; lia. }
  rewrite !nib_hex_digit by done.
  destruct (Z.ltb_spec (Z.shiftr (bval b) 4) 0), (Z.ltb_spec (Z.land (bval b) 15) 0); try lia.
  cbn [orb]. by rewrite hex_byte, IH, <- app_assoc.
Qed.

Lemma toHex_length p : String.length (toHex p) = (2 * length p)%nat.
Proof. induction p; simpl; lia. Qed.

Lemma hexToBytes_toHex_aux p out : hexToBytes (toHex p) out = (true, p).
Proof.
  unfold hexToBytes, str_size. rewrite toHex_length.
  replace (Z.of_nat (2 * length p)) with (Z.of_nat (length p) * 2) by lia.
  rewrite Z.mod_mul by lia. simpl. apply hex_loop_toHex.
Qed.

#[global] Instance toHex_inj : Inj (=) (=) toHex.
Proof.
  intros p1 p2 E. pose proof (hexToBytes_toHex_aux p1 []) as H1.
  rewrite E, hexToBytes_toHex_aux in H1. congruence.
Qed.

Lemma constantTimeEqual_eq a b : constantTimeEqual a b = true <-> a = b.
Proof.
  unfold constantTimeEqual, zlen. destruct (Z.eqb_spec (Z.of_nat (length a)) (Z.of_nat (length b)));
    simpl; [|split; [done|intros ->; done]].
  destruct a as [|x a]; simpl.
  - destruct b; simpl in *; [done|lia].
  - apply bool_decide_eq_true.
Qed.

Lemma constantTimeEqual_neq a b : constantTimeEqual a b = false <-> a <> b.
Proof. rewrite <- constantTimeEqual_eq. by destruct (constantTimeEqual a b). Qed.

Lemma kcv_bytes_inj k1 k2 : kcv_bytes k1 = kcv_bytes k2 -> k1 = k2.
Proof. destruct k1 as [[??]?], k2 as [[??]?]; simpl. congruence. Qed.

Lemma computeKcv_prefix `{Sha256} k : kcv_bytes (computeKcv k) = take 3 (sha256 k).
Proof.
  unfold computeKcv, sha256. pose proof (SHA256_length k) as L.
  destruct (SHA256 k) as [|a [|b [|c l]]]; simpl in *; done.
Qed.

(* --------------------------------------------------------------------- *)
(** ** HKDF info                                                          *)
(* --------------------------------------------------------------------- *)

Definition bar : Ascii.ascii := Ascii.ascii_of_byte x7c.

Fixpoint no_bar (s : string) : bool :=
  match s with
  | "" => true
  | String c s => negb (Ascii.eqb c bar) && no_bar s
  end.

Lemma bar_split s1 s2 r1 r2 :
  no_bar s1 = true -> no_bar s2 = true ->
  s1 +:+ String bar r1 = s2 +:+ String bar r2 -> s1 = s2 /\ r1 = r2.
Proof.
  revert s2; induction s1 as [|c1 s1 IH]; intros [|c2 s2] H1 H2; simpl in *; intros E;
    injection E; intros.
  - done.
  - subst. rewrite Ascii.eqb_refl in H2. done.
  - subst. rewrite Ascii.eqb_refl in H1. done.
  - bool_simpl. subst. destruct (IH s2) as [-> ->]; done.
Qed.

Lemma std_to_string_inj v1 v2 :
  0 <= v1 -> 0 <= v2 -> std_to_string v1 = std_to_string v2 -> v1 = v2.
Proof. unfold std_to_string. intros ?? E%(inj pretty). lia. Qed.

Lemma no_bar_app s1 s2 : no_bar (s1 +:+ s2) = no_bar s1 && no_bar s2.
Proof.
  induction s1 as [|c s1 IH]; [done|].
  change (negb (Ascii.eqb c bar) && no_bar (s1 +:+ s2) =
          negb (Ascii.eqb c bar) && no_bar s1 && no_bar s2).
  by rewrite IH, andb_assoc.
Qed.

Lemma no_bar_pretty_go n s : no_bar s = true -> no_bar (pretty_N_go n s) = true.
Proof.
  revert s. induction (N.lt_wf_0 n) as [n _ IH]; intros s Hs.
  destruct (decide (0 < n)%N) as [Hn|Hn].
  - rewrite pretty_N_go_step by done. apply IH; [apply N.div_lt; lia|].
    simpl. apply andb_true_iff; split; [|done].
    unfold pretty_N_char. by repeat case_match.
  - assert (n = 0%N) as -> by lia. by rewrite pretty_N_go_0.
Qed.

Lemma no_bar_std_to_string v : no_bar (std_to_string v) = true.
Proof.
  unfold std_to_string, pretty, pretty_N. case_decide; [done|]. by apply no_bar_pretty_go.
Qed.

(* --------------------------------------------------------------------- *)
(** ** Properties                                                         *)
(* --------------------------------------------------------------------- *)

(** [appendEnumVarint] terminates within ten bytes on every [uint64_t] and is
    read back by the varint reader, whatever follows it. *)
Theorem appendEnumVarint_roundtrip out v rest :
  is_u64 v ->
  exists e, varint_loop 10 v out = Some (out ++ e) /\ appendEnumVarint out v = out ++ e /\
    (1 <= length e <= 10)%nat /\ varint_decode (e ++ rest) = Some (v, rest).
Proof.
  intros Hv. destruct (varint_loop_spec 10 v out) as (e & He & Hl & Hd); [|lia|].
  - unfold is_u64 in Hv. change (128 ^ Z.of_nat 10) with 1180591620717411303424. lia.
  - exists e. unfold appendEnumVarint. by rewrite He.
Qed.

Lemma appendEnumVarint_roundtrip_witness :
  exists e, varint_loop 10 300 [x01] = Some ([x01] ++ e) /\
    appendEnumVarint [x01] 300 = [x01] ++ e /\
    (1 <= length e <= 10)%nat /\ varint_decode (e ++ [x02]) = Some (300, [x02]).
Proof. apply (appendEnumVarint_roundtrip [x01] 300 [x02]). unfold is_u64; lia. Defined.

(** The additional authenticated data is a frame of exactly ten segments that
    reads back to the fields in the registered order, and no other envelope
    context has the same bytes. *)
Theorem buildParProtoAadV1_unambiguous i :
  aad_wf i ->
  unframe 10 (buildParProtoAadV1 i) = Some (aad_segments i) /\
  forall j, aad_wf j -> buildParProtoAadV1 j = buildParProtoAadV1 i -> j = i.
Proof.
  intros W. split.
  - rewrite buildParProtoAadV1_frame. by apply (unframe_frame (aad_segments i)), aad_segments_fits.
  - intros j Wj. by apply aad_inj.
Qed.

Definition sample_aad : EnvelopeAadInput := {|
  aad_envelope_format := 1; aad_wrapping_suite := 2; aad_request_id := "rid-1";
  aad_business_domain := "V2C_COMM"; aad_purpose := 1; aad_key_id := "k-up";
  aad_business_key_version := 7; aad_root_key_version := 3; aad_derivation_version := "d1";
  aad_recipient_certificate_digest := replicate 32 x0a |}.

Lemma buildParProtoAadV1_unambiguous_witness :
  unframe 10 (buildParProtoAadV1 sample_aad) = Some (aad_segments sample_aad) /\
  forall j, aad_wf j -> buildParProtoAadV1 j = buildParProtoAadV1 sample_aad -> j = sample_aad.
Proof.
  apply (buildParProtoAadV1_unambiguous sample_aad).
  split; unfold str_fits, fits, is_u64, is_u32, zlen; simpl; lia.
Defined.

(** The wire digest input is a frame of exactly nine segments; two envelopes
    with one wire digest have equal fields unless they exhibit a SHA-256
    collision. *)
Theorem wireEnvelopeDigest_binding `{Sha256} i j :
  wire_wf i -> wire_wf j ->
  unframe 9 (wireDigestInput i) = Some (wire_segments i) /\
  (buildWireEnvelopeDigestV1 i = buildWireEnvelopeDigestV1 j ->
   i = j \/ (wireDigestInput i <> wireDigestInput j /\
             SHA256 (wireDigestInput i) = SHA256 (wireDigestInput j))).
Proof.
  intros Wi Wj. split.
  - rewrite wireDigestInput_frame. by apply (unframe_frame (wire_segments i)), wire_segments_fits.
  - intros E. destruct (decide (wireDigestInput i = wireDigestInput j)) as [Eq|Ne].
    + left. by apply wireDigestInput_inj.
    + by right.
Qed.

(** A stand-in digest for the concrete inputs of the witnesses: the first bytes,
    padded to 32. It has the law the code relies on. *)
Program Definition toy_sha256 : Sha256 := {| SHA256 m := take 32 (m ++ replicate 32 x00) |}.
Next Obligation.
  intros m. cbv beta. rewrite length_take, length_app, length_replicate. lia.
Qed.

#[local] Existing Instance toy_sha256.

Definition sample_wire (rid : string) : EnvelopeDigestInput := {|
  edi_envelope_format := 1; edi_request_id := rid; edi_business_domain := "V2C_COMM";
  edi_purpose := 1; edi_key_id := "k-up"; edi_business_key_version := 7;
  edi_wrapping_suite := 2; edi_wrapped_key := [x01; x02]; edi_parameters := [x08; x01] |}.

Lemma wireEnvelopeDigest_binding_witness :
  unframe 9 (wireDigestInput (sample_wire "r")) = Some (wire_segments (sample_wire "r")) /\
  (buildWireEnvelopeDigestV1 (sample_wire "r") = buildWireEnvelopeDigestV1 (sample_wire "s") ->
   sample_wire "r" = sample_wire "s" \/
   (wireDigestInput (sample_wire "r") <> wireDigestInput (sample_wire "s") /\
    SHA256 (wireDigestInput (sample_wire "r")) = SHA256 (wireDigestInput (sample_wire "s")))).
Proof.
  apply (wireEnvelopeDigest_binding (sample_wire "r") (sample_wire "s"));
    split; unfold str_fits, fits, is_u64, is_u32, zlen; simpl; lia.
Defined.

(** [hexToBytes] inverts [toHex]; a text it accepts has two digits per byte,
    and a text of odd length is refused with the output left alone. *)
Theorem hex_roundtrip p h out :
  hexToBytes (toHex p) out = (true, p) /\
  ((hexToBytes h out).1 = true -> str_size h = 2 * zlen (hexToBytes h out).2) /\
  (str_size h mod 2 = 1 -> hexToBytes h out = (false, out)).
Proof.
  split; [apply hexToBytes_toHex_aux|].
  assert (L : forall n h o, (String.length h <= n)%nat -> (hex_loop h o).1 = true ->
    str_size h mod 2 = 0 -> str_size h = 2 * (zlen (hex_loop h o).2 - zlen o)).
  { clear h out. induction n as [|n IH]; intros [|c1 [|c2 h]] o Hn; simpl in Hn;
      try (unfold str_size, zlen; cbn; lia); [intros _ He; by vm_compute in He|].
    cbn [hex_loop]. destruct (_ || _); [done|]. intros Ht He.
    assert (str_size (String c1 (String c2 h)) = 2 + str_size h) as Es
      by (unfold str_size; simpl; lia).
    rewrite Es in *. replace (2 + str_size h) with (str_size h + 1 * 2) in He by lia.
    rewrite Z.mod_add in He by lia.
    rewrite (IH h _ ltac:(lia) Ht He) at 1. unfold zlen. rewrite length_app; simpl. lia. }
  unfold hexToBytes. destruct (Z.eqb_spec (str_size h mod 2) 0) as [E|E]; cbn [negb]; split.
  - intros Ht. rewrite (L _ h []) at 1 by done. unfold zlen; simpl. lia.
  - lia.
  - done.
  - done.
Qed.

Lemma hex_roundtrip_witness :
  (hexToBytes "0aF" [x07]) = (false, [x07]) /\ str_size "0aFf" = 2 * zlen (hexToBytes "0aFf" []).2.
Proof.
  split.
  - apply (hex_roundtrip [] "0aF" [x07]). reflexivity.
  - apply (hex_roundtrip [] "0aFf" []). reflexivity.
Defined.

(** The HKDF context separates its fields: without the separator in the first
    four fields it determines all of them; with the separator allowed it does
    not. *)
Theorem buildHkdfInfoV1_separation :
  (forall r d p k v f r' d' p' k' v' f',
     no_bar r = true -> no_bar d = true -> no_bar p = true -> no_bar k = true ->
     no_bar r' = true -> no_bar d' = true -> no_bar p' = true -> no_bar k' = true ->
     is_u64 v -> is_u64 v' ->
     buildHkdfInfoV1 r d p k v f = buildHkdfInfoV1 r' d' p' k' v' f' ->
     (r, d, p, k, v, f) = (r', d', p', k', v', f')) /\
  (exists r d p k v f r' d', r <> r' /\
     buildHkdfInfoV1 r d p k v f = buildHkdfInfoV1 r' d' p k v f).
Proof.
  split.
  - intros * Hr Hd Hp Hk Hr' Hd' Hp' Hk' Hv Hv' E. unfold buildHkdfInfoV1 in E.
    apply (inj (String.app _)) in E.
    apply bar_split in E as [-> E]; [|done..]. apply bar_split in E as [-> E]; [|done..].
    apply bar_split in E as [-> E]; [|done..]. apply bar_split in E as [-> E]; [|done..].
    apply bar_split in E as [E ->]; [|apply no_bar_std_to_string..].
    apply std_to_string_inj in E as ->; [done|unfold is_u64 in *; lia..].
  - exists "a|b", "c", "P", "k", 1, "f", "a", "b|c". by vm_compute.
Qed.
