(* ===== verification/KeyTypes.v ===== *)
(** * Public data types of business-key provisioning.
    Models [include/tbox/sec/business_key.h] and [src/business_key_types.cpp]:
    the enumerations with their names and wire values, the DTOs, and the
    capability conjunction. [SecureBuffer] contents are byte strings; the memory
    behind them is in [SecureBuffer.v]. *)
From S2P Require Import Prelude Errors Canonical.

(** Strings fixed by the contract. *)
Definition kBusinessDomainV2c : string := "V2C_COMM".
Definition kBusinessPurposeUplinkAead : string := "UPLINK_AEAD".
Definition kBusinessPurposeDownlinkAead : string := "DOWNLINK_AEAD".
Definition kKeyEnvelopeFormatEcdhEsP256V1 : string := "ECDH_ES_P256_V1".
Definition kWrappingSuiteEcdhEsP256 : string := "ECDH_ES_P256_HKDF_SHA256_AES256GCM".
Definition kDefaultKeyAlgorithm : string := "AES-256".
Definition kDefaultHkdfContextVersion : string := "v1".
Definition kImportProofAlgorithmP1363 : string := "ECDSA_P256_SHA256_P1363".
Definition kImportProofSizeP1363 : Z := 64.
Definition kKeyprovKl1ProfileVersion : Z := 1.
Definition kContractVersion : Z := 2.

(** [src/include/tbox/sec/business_key.h:32-38] BusinessKeyState *)
Inductive BusinessKeyState :=
  | BKS_MISSING | BKS_STAGED | BKS_ACTIVE | BKS_INVALID | BKS_UNKNOWN.

#[global] Instance BusinessKeyState_eq_dec : EqDecision BusinessKeyState.
Proof. solve_decision. Defined.

(** [src/include/tbox/sec/business_key.h:44-51] BusinessKeyImportState *)
Inductive BusinessKeyImportState :=
  | BIS_REQUESTED | BIS_STAGED | BIS_COMMITTED | BIS_FAILED | BIS_UNKNOWN | BIS_NOT_FOUND.

#[global] Instance BusinessKeyImportState_eq_dec : EqDecision BusinessKeyImportState.
Proof. solve_decision. Defined.

(** [src/include/tbox/sec/business_key.h:54-57] KeyEnvelopeFormat *)
Inductive KeyEnvelopeFormat :=
  | KEF_UNSPECIFIED | KEF_ECDH_ES_P256_V1.

#[global] Instance KeyEnvelopeFormat_eq_dec : EqDecision KeyEnvelopeFormat.
Proof. solve_decision. Defined.

(** [src/include/tbox/sec/business_key.h:63-76] BusinessKeyImportPhase *)
Inductive BusinessKeyImportPhase :=
  | BIP_NEW | BIP_VALIDATED | BIP_PROCESSING | BIP_UPLINK_STAGED | BIP_BOTH_STAGED |
      BIP_COMMITTING | BIP_SUCCEEDED | BIP_ROLLING_BACK | BIP_FAILED | BIP_OUTCOME_UNKNOWN |
      BIP_RECOVERING | BIP_UNKNOWN.

#[global] Instance BusinessKeyImportPhase_eq_dec : EqDecision BusinessKeyImportPhase.
Proof. solve_decision. Defined.

(** [src/src/business_key_types.cpp:67-76] business_key_state_to_string *)
Definition business_key_state_to_string (s : BusinessKeyState) : string :=
  match s with
  | BKS_MISSING => "MISSING"
  | BKS_STAGED => "STAGED"
  | BKS_ACTIVE => "ACTIVE"
  | BKS_INVALID => "INVALID"
  | BKS_UNKNOWN => "UNKNOWN"
  end.

(** [src/src/business_key_types.cpp:78-84] string_to_business_key_state *)
Definition string_to_business_key_state (s : string) : BusinessKeyState :=
  if String.eqb s "MISSING" then BKS_MISSING else
  if String.eqb s "STAGED" then BKS_STAGED else
  if String.eqb s "ACTIVE" then BKS_ACTIVE else
  if String.eqb s "INVALID" then BKS_INVALID else
  BKS_UNKNOWN.

(** [src/src/business_key_types.cpp:86-96] business_key_import_state_to_string *)
Definition business_key_import_state_to_string (s : BusinessKeyImportState) : string :=
  match s with
  | BIS_REQUESTED => "REQUESTED"
  | BIS_STAGED => "STAGED"
  | BIS_COMMITTED => "COMMITTED"
  | BIS_FAILED => "FAILED"
  | BIS_UNKNOWN => "UNKNOWN"
  | BIS_NOT_FOUND => "NOT_FOUND"
  end.

(** [src/src/business_key_types.cpp:98-105] string_to_business_key_import_state *)
Definition string_to_business_key_import_state (s : string) : BusinessKeyImportState :=
  if String.eqb s "REQUESTED" then BIS_REQUESTED else
  if String.eqb s "STAGED" then BIS_STAGED else
  if String.eqb s "COMMITTED" then BIS_COMMITTED else
  if String.eqb s "FAILED" then BIS_FAILED else
  if String.eqb s "NOT_FOUND" then BIS_NOT_FOUND else
  BIS_UNKNOWN.

(** The enumerator values of [BusinessKeyImportState]. *)
(** [src/include/tbox/sec/business_key.h:44-51] BusinessKeyImportState values *)
Definition import_state_code (s : BusinessKeyImportState) : Z :=
  match s with
  | BIS_REQUESTED => 0
  | BIS_STAGED => 1
  | BIS_COMMITTED => 2
  | BIS_FAILED => 3
  | BIS_UNKNOWN => 4
  | BIS_NOT_FOUND => 5
  end.

(** [src/src/business_key_types.cpp:109-126] import_state_from_code *)
Definition import_state_from_code (code : Z) : BusinessKeyImportState :=
  if code =? import_state_code BIS_REQUESTED then BIS_REQUESTED else
  if code =? import_state_code BIS_STAGED then BIS_STAGED else
  if code =? import_state_code BIS_COMMITTED then BIS_COMMITTED else
  if code =? import_state_code BIS_FAILED then BIS_FAILED else
  if code =? import_state_code BIS_UNKNOWN then BIS_UNKNOWN else
  if code =? import_state_code BIS_NOT_FOUND then BIS_NOT_FOUND else
  BIS_UNKNOWN.

(** [src/src/business_key_types.cpp:128-134] key_envelope_format_to_string *)
Definition key_envelope_format_to_string (s : KeyEnvelopeFormat) : string :=
  match s with
  | KEF_UNSPECIFIED => "UNSPECIFIED"
  | KEF_ECDH_ES_P256_V1 => kKeyEnvelopeFormatEcdhEsP256V1
  end.

(** [src/src/business_key_types.cpp:136-139] string_to_key_envelope_format *)
Definition string_to_key_envelope_format (s : string) : KeyEnvelopeFormat :=
  if String.eqb s kKeyEnvelopeFormatEcdhEsP256V1 then KEF_ECDH_ES_P256_V1 else
  KEF_UNSPECIFIED.

(** The enumerator values of [KeyEnvelopeFormat]. *)
(** [src/include/tbox/sec/business_key.h:54-57] KeyEnvelopeFormat values *)
Definition key_envelope_format_value (f : KeyEnvelopeFormat) : Z :=
  match f with KEF_UNSPECIFIED => 0 | KEF_ECDH_ES_P256_V1 => 1 end.

(** [src/src/business_key_types.cpp:141-157] business_key_import_phase_to_string *)
Definition business_key_import_phase_to_string (s : BusinessKeyImportPhase) : string :=
  match s with
  | BIP_NEW => "NEW"
  | BIP_VALIDATED => "VALIDATED"
  | BIP_PROCESSING => "PROCESSING"
  | BIP_UPLINK_STAGED => "UPLINK_STAGED"
  | BIP_BOTH_STAGED => "BOTH_STAGED"
  | BIP_COMMITTING => "COMMITTING"
  | BIP_SUCCEEDED => "SUCCEEDED"
  | BIP_ROLLING_BACK => "ROLLING_BACK"
  | BIP_FAILED => "FAILED"
  | BIP_OUTCOME_UNKNOWN => "OUTCOME_UNKNOWN"
  | BIP_RECOVERING => "RECOVERING"
  | BIP_UNKNOWN => "UNKNOWN"
  end.

(** [src/src/business_key_types.cpp:159-172] string_to_business_key_import_phase *)
Definition string_to_business_key_import_phase (s : string) : BusinessKeyImportPhase :=
  if String.eqb s "NEW" then BIP_NEW else
  if String.eqb s "VALIDATED" then BIP_VALIDATED else
  if String.eqb s "PROCESSING" then BIP_PROCESSING else
  if String.eqb s "UPLINK_STAGED" then BIP_UPLINK_STAGED else
  if String.eqb s "BOTH_STAGED" then BIP_BOTH_STAGED else
  if String.eqb s "COMMITTING" then BIP_COMMITTING else
  if String.eqb s "SUCCEEDED" then BIP_SUCCEEDED else
  if String.eqb s "ROLLING_BACK" then BIP_ROLLING_BACK else
  if String.eqb s "FAILED" then BIP_FAILED else
  if String.eqb s "OUTCOME_UNKNOWN" then BIP_OUTCOME_UNKNOWN else
  if String.eqb s "RECOVERING" then BIP_RECOVERING else
  BIP_UNKNOWN.

(** [src/include/tbox/sec/business_key.h:115-140] BusinessKeyStatus *)
Record BusinessKeyStatus := mkStatus {
  bs_business_domain : string;
  bs_purpose : string;
  bs_business_key_version : Z;
  bs_state : BusinessKeyState;
  bs_key_id_digest : string;
  bs_algorithm : string;
  bs_valid_from_ms : Z;
  bs_valid_to_ms : Z;
  bs_envelope_format : KeyEnvelopeFormat;
  bs_envelope_digest : bytes;
  bs_key_check_value : kcv3;
  bs_key_check_value_present : bool;
  bs_import_proof : bytes;
  bs_proof_algorithm : string;
  bs_key_id : string;
  bs_recipient_certificate_digest : bytes
}.

Definition BusinessKeyStatus_default : BusinessKeyStatus := mkStatus EmptyString EmptyString 0
    BKS_UNKNOWN EmptyString EmptyString 0 0 KEF_UNSPECIFIED [] kcv_zero false [] EmptyString
    EmptyString [].

(** [src/include/tbox/sec/business_key.h:157-172] WrappedKeyItem *)
Record WrappedKeyItem := mkItem {
  it_purpose : string;
  it_key_id : string;
  it_business_key_version : Z;
  it_algorithm : string;
  it_wrapped_key : bytes;
  it_parameters : bytes;
  it_valid_from_ms : Z;
  it_valid_to_ms : Z;
  it_wrapping_suite : string;
  it_envelope_format : KeyEnvelopeFormat;
  it_envelope_digest : bytes;
  it_key_check_value : kcv3;
  it_key_check_value_present : bool
}.

Definition WrappedKeyItem_default : WrappedKeyItem := mkItem EmptyString EmptyString 0 EmptyString
    [] [] 0 0 EmptyString KEF_UNSPECIFIED [] kcv_zero false.

(** [src/include/tbox/sec/business_key.h:175-185] ImportResult *)
Record ImportResult := mkResult {
  ir_request_id : string;
  ir_business_domain : string;
  ir_state : BusinessKeyImportState;
  ir_items : list BusinessKeyStatus;
  ir_committed_at_ms : Z;
  ir_provider_version_digest : string;
  ir_import_proof : bytes;
  ir_proof_algorithm : string;
  ir_binding_certificate_digest : bytes
}.

Definition ImportResult_default : ImportResult := mkResult EmptyString EmptyString BIS_UNKNOWN []
    0 EmptyString [] EmptyString [].

(** [src/include/tbox/sec/business_key.h:203-240] V2cKeyProvisioningCapability *)
Record V2cKeyProvisioningCapability := mkCapability {
  cap_contract_version : Z;
  cap_envelope_v1_import_ready : bool;
  cap_atomic_dual_purpose_commit_ready : bool;
  cap_import_proof_sign_ecdsa_p256_v1_ready : bool;
  cap_secure_journal_replay_ready : bool;
  cap_identity_key_template_sign_derive : bool;
  cap_csr_key_usage_request_matched : bool;
  cap_certificate_profile_matched : bool;
  cap_certificate_chain_and_key_match : bool;
  cap_certificate_critical_extensions_allowed : bool;
  cap_leaf_certificate_digest_bound : bool;
  cap_proto_release_matched : bool;
  cap_envelope_format_v1 : bool;
  cap_p256_ecdh : bool;
  cap_hkdf_sha256 : bool;
  cap_aes256_gcm_decrypt_to_slot : bool;
  cap_atomic_dual_slot_commit : bool;
  cap_active_certificate_key_agreement : bool;
  cap_active_certificate_digital_signature : bool;
  cap_active_private_key_can_derive : bool;
  cap_active_private_key_can_sign : bool;
  cap_ecdsa_p256_sha256_p1363 : bool;
  cap_secure_journal_ready : bool;
  cap_trusted_time_ready : bool;
  cap_business_key_import_result_not_found_v1 : bool
}.

Definition V2cKeyProvisioningCapability_default : V2cKeyProvisioningCapability := mkCapability
    kContractVersion false false false false false false false false false false false false false
    false false false false false false false false false false false.

(** [src/include/tbox/sec/business_key.h:242-253] V2cKeyProvisioningCapability::all *)
Definition cap_all (c : V2cKeyProvisioningCapability) : bool :=
  cap_envelope_v1_import_ready c && cap_atomic_dual_purpose_commit_ready c &&
      cap_import_proof_sign_ecdsa_p256_v1_ready c && cap_secure_journal_replay_ready c &&
      cap_identity_key_template_sign_derive c && cap_csr_key_usage_request_matched c &&
      cap_certificate_profile_matched c && cap_certificate_chain_and_key_match c &&
      cap_certificate_critical_extensions_allowed c && cap_leaf_certificate_digest_bound c &&
      cap_proto_release_matched c && cap_envelope_format_v1 c && cap_p256_ecdh c &&
      cap_hkdf_sha256 c && cap_aes256_gcm_decrypt_to_slot c && cap_atomic_dual_slot_commit c &&
      cap_active_certificate_key_agreement c && cap_active_certificate_digital_signature c &&
      cap_active_private_key_can_derive c && cap_active_private_key_can_sign c &&
      cap_ecdsa_p256_sha256_p1363 c && cap_secure_journal_ready c && cap_trusted_time_ready c.

(** [src/include/tbox/sec/business_key.h:298-308] KeyprovContractSnapshot *)
Record KeyprovContractSnapshot := mkSnapshot {
  ks_result_contract_version : Z;
  ks_query_semantics_version : Z;
  ks_capability_epoch : Z;
  ks_storage_ready : bool;
  ks_supports_atomic_dual_commit : bool;
  ks_supports_lease_admission : bool;
  ks_kl1_profile_version : Z;
  ks_daemon_build_id : string;
  ks_sdk_build_id : string
}.

Definition KeyprovContractSnapshot_default : KeyprovContractSnapshot := mkSnapshot 0 0 0 false
    false false 0 EmptyString EmptyString.

(** [src/include/tbox/sec/business_key.h:312-316] KeyprovImportContext *)
Record KeyprovImportContext := mkContext {
  kc_admission_expire_at_ms : Z;
  kc_capability_epoch : Z;
  kc_kl1_profile_version : Z
}.

Definition KeyprovImportContext_default : KeyprovImportContext := mkContext 0 0 0.

(** [src/include/tbox/sec/business_key.h:320-324] KeyprovResultAttachment *)
Record KeyprovResultAttachment := mkAttachment {
  ka_snapshot : KeyprovContractSnapshot;
  ka_request_identity_digest : string;
  ka_queried_at_ms : Z
}.

Definition KeyprovResultAttachment_default : KeyprovResultAttachment := mkAttachment
    KeyprovContractSnapshot_default EmptyString 0.

(* --------------------------------------------------------------------- *)
(** ** Names and codes                                                    *)
(* --------------------------------------------------------------------- *)

Lemma string_to_phase_to_string p :
  string_to_business_key_import_phase (business_key_import_phase_to_string p) = p.
Proof. by destruct p. Qed.

Lemma string_to_state_to_string s :
  string_to_business_key_state (business_key_state_to_string s) = s.
Proof. by destruct s. Qed.

Lemma string_to_import_state_to_string s :
  string_to_business_key_import_state (business_key_import_state_to_string s) = s.
Proof. by destruct s. Qed.

Lemma string_to_format_to_string f :
  string_to_key_envelope_format (key_envelope_format_to_string f) = f.
Proof. by destruct f. Qed.

Lemma import_state_from_to_code s : import_state_from_code (import_state_code s) = s.
Proof. by destruct s. Qed.

#[export] Hint Rewrite string_to_phase_to_string string_to_state_to_string
  string_to_import_state_to_string string_to_format_to_string import_state_from_to_code : sec.

(** The textual forms used by the journal and the numeric code used on the
    wire read back to the value written, and an unregistered code reads as
    UNKNOWN, never as REQUESTED (zero) or NOT_FOUND. *)
Theorem import_state_encoding s p k f code :
  import_state_from_code (import_state_code s) = s /\
  string_to_business_key_import_state (business_key_import_state_to_string s) = s /\
  string_to_business_key_import_phase (business_key_import_phase_to_string p) = p /\
  string_to_business_key_state (business_key_state_to_string k) = k /\
  string_to_key_envelope_format (key_envelope_format_to_string f) = f /\
  (import_state_from_code code <> BIS_UNKNOWN ->
   import_state_code (import_state_from_code code) = code).
Proof.
  autorewrite with sec. do 5 (split; [done|]). unfold import_state_from_code.
  repeat match goal with
         | |- context [?a =? ?b] => destruct (Z.eqb_spec a b); [by subst|]
         end. done.
Qed.
