(* ===== verification/SecureBuffer.v ===== *)
(** * SecureBuffer: the buffer of secrets that cleans up after itself.
    Models the class of [src/business_key_types.cpp] over the memory it leaves behind: a vector owns a
    block, and a block that is released keeps its bytes. A growing vector takes a new block and
    releases the old one as it is. Bytes of a block that were never written count as zero. *)
From S2P Require Import Prelude Canonical.

Definition zeros (n : nat) : bytes := replicate n x00.

(* --------------------------------------------------------------------- *)
(** ** Memory and vectors                                                 *)
(* --------------------------------------------------------------------- *)

(** The blocks in use, and what the released ones held when they were released. *)
Record Heap := mkHeap { hp_blocks : gmap nat bytes; hp_released : list bytes; hp_next : nat }.

(** A [std::vector]: its block, if it has one, and how many of its bytes are elements. *)
Record Vec := mkVec { vc_block : option nat; vc_size : nat }.
Definition vec_empty : Vec := mkVec None 0.

Definition block_of (v : Vec) (h : Heap) : bytes := default [] (vc_block v ≫= fun b => hp_blocks h !! b).
Definition elements (v : Vec) (h : Heap) : bytes := take (vc_size v) (block_of v h).

Definition hp_set (b : nat) (c : bytes) (h : Heap) : Heap := mkHeap (<[b := c]> (hp_blocks h)) (hp_released h) (hp_next h).

Definition vec_release (v : Vec) (h : Heap) : Heap :=
  match vc_block v with
  | Some b => mkHeap (delete b (hp_blocks h)) (hp_released h ++ [block_of v h]) (hp_next h)
  | None => h
  end.

(** A new block for [c], of which the first [n] bytes are elements. *)
Definition vec_block_of (n : nat) (c : bytes) (h : Heap) : Vec * Heap :=
  (mkVec (Some (hp_next h)) n, mkHeap (<[hp_next h := c]> (hp_blocks h)) (hp_released h) (S (hp_next h))).
(** A new block for [c], all of it elements. *)
Definition vec_allocate (c : bytes) (h : Heap) : Vec * Heap := vec_block_of (length c) c h.

(** Write [c] over the elements: in place if it fits, in a new block otherwise. *)
Definition vec_store (c : bytes) (v : Vec) (h : Heap) : Vec * Heap :=
  match vc_block v with
  | Some b =>
      if (length c <=? length (block_of v h))%nat
      then (mkVec (Some b) (length c), hp_set b (c ++ drop (length c) (block_of v h)) h)
      else vec_allocate c (vec_release v h)
  | None => vec_allocate c h
  end.

(** [resize(n, 0)]: a smaller vector only forgets elements. *)
Definition vec_resize (n : nat) (v : Vec) (h : Heap) : Vec * Heap :=
  if (n <=? vc_size v)%nat then (mkVec (vc_block v) n, h)
  else vec_store (elements v h ++ zeros (n - vc_size v)) v h.

(* --------------------------------------------------------------------- *)
(** ** The buffer                                                         *)
(* --------------------------------------------------------------------- *)

(** The first [n] bytes of a block. *)
(** [src/src/business_key_types.cpp:17-22] secure_zero_bytes *)
Definition secure_zero_bytes (n : nat) (v : Vec) (h : Heap) : Heap :=
  match vc_block v with
  | Some b => hp_set b (zeros n ++ drop n (block_of v h)) h
  | None => h
  end.

(** [src/src/business_key_types.cpp:60-65] SecureBuffer::clear *)
Definition sb_clear (v : Vec) (h : Heap) : Vec * Heap :=
  if (vc_size v =? 0)%nat then (v, h) else (mkVec (vc_block v) 0, secure_zero_bytes (vc_size v) v h).

(** The vector is handed over with its block: its elements [data], and behind them
    the bytes [spare] of its capacity, which may be left from an earlier use. *)
(** [src/src/business_key_types.cpp:26-26] SecureBuffer *)
Definition sb_construct (data spare : bytes) (h : Heap) : Vec * Heap :=
  if bytes_empty (data ++ spare) then (vec_empty, h) else vec_block_of (length data) (data ++ spare) h.

(** [src/src/business_key_types.cpp:28-30] ~SecureBuffer *)
Definition sb_destroy (v : Vec) (h : Heap) : Heap := let '(v, h) := sb_clear v h in vec_release v h.

(** The new buffer and what is left of the other. *)
(** [src/src/business_key_types.cpp:32-34] SecureBuffer move *)
Definition sb_move (other : Vec) : Vec * Vec := (other, vec_empty).

(** Of two different buffers. *)
(** [src/src/business_key_types.cpp:36-43] operator= *)
Definition sb_move_assign (v other : Vec) (h : Heap) : Vec * Vec * Heap :=
  let '(v, h) := sb_clear v h in (other, vec_empty, vec_release v h).

(** [src/src/business_key_types.cpp:45-47] SecureBuffer::resize *)
Definition sb_resize (n : nat) (v : Vec) (h : Heap) : Vec * Heap := vec_resize n v h.

(** A null pointer comes with no bytes. *)
(** [src/src/business_key_types.cpp:49-58] SecureBuffer::assign *)
Definition sb_assign (data : bytes) (v : Vec) (h : Heap) : Vec * Heap :=
  let '(v, h) := sb_clear v h in if bytes_empty data then (v, h) else vec_store data v h.

(* --------------------------------------------------------------------- *)
(** ** A program with buffers                                             *)
(* --------------------------------------------------------------------- *)

Record Memory := mkMemory { me_buffers : gmap string Vec; me_heap : Heap }.
Definition memory_new : Memory := mkMemory ∅ (mkHeap ∅ [] 0).

Inductive BufferOp :=
  | Construct (v : string) (data spare : bytes)
  | MoveConstruct (v other : string)
  | MoveAssign (v other : string)
  | Assign (v : string) (data : bytes)
  | Resize (v : string) (n : nat)
  | Clear (v : string)
  | Destroy (v : string).

(** A constructor needs a new name, everything else one that is there; to assign a buffer to itself
    changes nothing. *)
(** [src/include/tbox/sec/business_key.h:81-112] SecureBuffer *)
Definition exec (op : BufferOp) (m : Memory) : Memory :=
  let bs := me_buffers m in let h := me_heap m in
  let set v r := mkMemory (<[v := r.1]> bs) r.2 in
  match op with
  | Construct v data spare => match bs !! v with None => set v (sb_construct data spare h) | Some _ => m end
  | MoveConstruct v o =>
      match bs !! v, bs !! o with
      | None, Some y => let '(x, y) := sb_move y in mkMemory (<[v := x]> (<[o := y]> bs)) h
      | _, _ => m
      end
  | MoveAssign v o =>
      match bs !! v, bs !! o with
      | Some x, Some y =>
          if String.eqb v o then m else
          let '(x, y, h) := sb_move_assign x y h in mkMemory (<[v := x]> (<[o := y]> bs)) h
      | _, _ => m
      end
  | Assign v data => match bs !! v with Some x => set v (sb_assign data x h) | None => m end
  | Resize v n => match bs !! v with Some x => set v (sb_resize n x h) | None => m end
  | Clear v => match bs !! v with Some x => set v (sb_clear x h) | None => m end
  | Destroy v => match bs !! v with Some x => mkMemory (delete v bs) (sb_destroy x h) | None => m end
  end.

Definition run_ops (ops : list BufferOp) (m : Memory) : Memory := foldl (fun m op => exec op m) m ops.

(** Every byte the program's buffers ever had, wherever it is now. *)
Definition all_bytes (m : Memory) : list byte :=
  concat (hp_released (me_heap m)) ++ concat (map_to_list (hp_blocks (me_heap m))).*2.

Definition holds_secret (v : string) (m : Memory) : bytes :=
  match me_buffers m !! v with Some x => elements x (me_heap m) | None => [] end.

(** Nothing moves, grows or shrinks by [resize], and a vector that is handed over
    holds nothing behind its elements. *)
Definition is_resize (op : BufferOp) : bool := match op with Resize _ _ => true | _ => false end.
Definition clean_spare (op : BufferOp) : bool :=
  match op with Construct _ _ spare => forallb (fun b => Byte.eqb b x00) spare | _ => true end.

(* --------------------------------------------------------------------- *)
(** ** Residue                                                            *)
(* --------------------------------------------------------------------- *)

Definition blank (c : bytes) : Prop := c = zeros (length c).

(** The elements come first, and what the block holds beyond them is blank. *)
Definition neat (x : Vec) (h : Heap) : Prop :=
  match vc_block x with
  | None => vc_size x = 0%nat
  | Some b => exists d k, hp_blocks h !! b = Some (d ++ zeros k) /\ vc_size x = length d
  end.

(** Released memory is blank, every buffer is neat, and every block belongs to one buffer. *)
Record wiped (m : Memory) : Prop := {
  wp_released : Forall blank (hp_released (me_heap m));
  wp_neat v x : me_buffers m !! v = Some x -> neat x (me_heap m);
  wp_once v w x y b : me_buffers m !! v = Some x -> me_buffers m !! w = Some y ->
    vc_block x = Some b -> vc_block y = Some b -> v = w;
  wp_owned b : is_Some (hp_blocks (me_heap m) !! b) -> exists v x, me_buffers m !! v = Some x /\ vc_block x = Some b;
  wp_fresh b : is_Some (hp_blocks (me_heap m) !! b) -> (b < hp_next (me_heap m))%nat
}.

(** What a change of one vector does to memory. *)
Record local (x x' : Vec) (h h' : Heap) : Prop := {
  lo_other b : vc_block x <> Some b -> vc_block x' <> Some b -> hp_blocks h' !! b = hp_blocks h !! b;
  lo_block b : vc_block x' = Some b -> vc_block x = Some b \/ (hp_next h <= b < hp_next h')%nat;
  lo_gone b : vc_block x = Some b -> vc_block x' <> Some b -> hp_blocks h' !! b = None;
  lo_next : (hp_next h <= hp_next h')%nat;
  lo_neat : neat x' h';
  lo_released : Forall blank (hp_released h) -> Forall blank (hp_released h')
}.

Lemma zeros_blank n : blank (zeros n).
Proof. unfold blank, zeros. by rewrite length_replicate. Qed.
Lemma zeros_add n k : zeros n ++ zeros k = zeros (n + k).
Proof. symmetry. apply replicate_add. Qed.

Lemma elements_neat x h b d k : vc_block x = Some b -> hp_blocks h !! b = Some (d ++ zeros k) -> vc_size x = length d ->
  block_of x h = d ++ zeros k /\ elements x h = d.
Proof.
  intros Hb Hd Hs. unfold elements, block_of. rewrite Hb. cbn. rewrite Hd, Hs. split; [done|]. cbn. apply take_app_length.
Qed.

Lemma clear_local x h : neat x h -> let '(x', h') := sb_clear x h in
  local x x' h h' /\ vc_block x' = vc_block x /\ vc_size x' = 0%nat.
Proof.
  intros Hn. unfold sb_clear. destruct (Nat.eqb_spec (vc_size x) 0) as [Hz|Hz].
  - split; [|done]. split; by auto.
  - unfold neat in Hn. destruct (vc_block x) as [b|] eqn:Eb; [|done]. destruct Hn as (d & k & Hd & Hs).
    destruct (elements_neat x h b d k Eb Hd Hs) as [Hbl _]. unfold secure_zero_bytes. rewrite Eb. split; [|done].
    split; cbn; rewrite ?Eb; try done.
    + intros c Hc _. rewrite lookup_insert_ne; [done|congruence].
    + intros c [= <-]. by left.
    + exists [], (vc_size x + k)%nat. rewrite lookup_insert_eq. split; [|done]. f_equal. rewrite Hbl, Hs, drop_app_length.
      apply zeros_add.
Qed.

(** A cleared vector leaves a blank block behind. *)
Lemma release_local x h : neat x h -> vc_size x = 0%nat -> local x vec_empty h (vec_release x h).
Proof.
  intros Hn Hs. unfold vec_release. unfold neat in Hn. destruct (vc_block x) as [b|] eqn:Eb.
  - destruct Hn as (d & k & Hd & Hl). rewrite Hs in Hl. destruct d; [|done].
    split; cbn; rewrite ?Eb; try done.
    + intros c Hc _. rewrite lookup_delete_ne; [done|congruence].
    + intros c [= <-] _. by rewrite lookup_delete_eq.
    + intros Hf. apply Forall_app. split; [done|]. apply Forall_singleton. unfold block_of. rewrite Eb. cbn. rewrite Hd.
      apply zeros_blank.
  - split; cbn; rewrite ?Eb; try done.
Qed.

Lemma spare_zeros v data spare : clean_spare (Construct v data spare) = true -> spare = zeros (length spare).
Proof.
  cbn. induction spare as [|b spare IH]; [done|]. cbn. intros [->%byte_dec_bl Hs]%andb_true_iff.
  unfold zeros in *. cbn. f_equal. by apply IH.
Qed.

Lemma allocate_local c h : let '(x, h') := vec_allocate c h in local vec_empty x h h' /\ elements x h' = c.
Proof.
  cbn. split.
  - split; cbn; try done; try lia.
    + intros b _ Hb. rewrite lookup_insert_ne; [done|congruence].
    + intros b [= <-]. right. lia.
    + exists c, 0%nat. rewrite lookup_insert_eq. split; [|done]. by rewrite app_nil_r.
  - unfold elements, block_of. cbn. rewrite lookup_insert_eq. apply take_ge. by cbn.
Qed.

(** Changes of one vector, one after the other; the first keeps the block or gives it up. *)
Lemma local_trans x y z h h' h'' : local x y h h' -> local y z h' h'' -> vc_block y = vc_block x \/ vc_block y = None ->
  local x z h h''.
Proof.
  intros [O1 B1 G1 N1 _ R1] [O2 B2 G2 N2 L2 R2] Hy. split; [| | |lia|done|auto].
  - intros b Hx Hz. rewrite O2; [apply O1; [done|]|..]; try done; destruct Hy as [->| ->]; done.
  - intros b Hb. destruct (B2 b Hb) as [Hb'|Hb']; [|right; lia]. destruct (B1 b Hb') as [?|?]; [by left|right; lia].
  - intros b Hx Hz. destruct Hy as [Hy|Hy]; [apply G2; congruence|]. rewrite O2; [|congruence|done]. apply G1; congruence.
Qed.

(** To write into a cleared vector. *)
Lemma store_local c x h : neat x h -> vc_size x = 0%nat ->
  let '(x', h') := vec_store c x h in local x x' h h' /\ elements x' h' = c.
Proof.
  intros Hn Hs. unfold vec_store. destruct (vc_block x) as [b|] eqn:Eb.
  - pose proof Hn as Hn'. unfold neat in Hn'. rewrite Eb in Hn'. destruct Hn' as (d & k & Hd & Hl). rewrite Hs in Hl. destruct d; [|done].
    assert (Hbl : block_of x h = zeros k) by (unfold block_of; rewrite Eb; cbn; by rewrite Hd).
    destruct (length c <=? length (block_of x h))%nat eqn:El.
    + split.
      * split; cbn; rewrite ?Eb; try done.
        -- intros e He _. rewrite lookup_insert_ne; [done|congruence].
        -- intros e [= <-]. by left.
        -- exists c, (k - length c)%nat. rewrite lookup_insert_eq. split; [|done]. f_equal. rewrite Hbl. unfold zeros.
           by rewrite drop_replicate.
      * unfold elements, block_of at 1. cbn. rewrite lookup_insert_eq. cbn. apply take_app_length.
    + pose proof (release_local x h Hn Hs) as Hr. pose proof (allocate_local c (vec_release x h)) as Ha.
      destruct (vec_allocate c (vec_release x h)) as [x' h']. destruct Ha as [Ha He]. split; [|done].
      eapply local_trans; [exact Hr|exact Ha|by right].
  - pose proof (allocate_local c h) as Ha. destruct (vec_allocate c h) as [x' h']. destruct Ha as [Ha He]. split; [|done].
    destruct Ha as [O B G N L R]. split; try done; intros b; rewrite Eb; [apply O|by right; destruct (B b)|done].
Qed.

(* --------------------------------------------------------------------- *)
(** ** A run                                                              *)
(* --------------------------------------------------------------------- *)

Lemma neat_same x h h' : neat x h -> (forall b, vc_block x = Some b -> hp_blocks h' !! b = hp_blocks h !! b) -> neat x h'.
Proof. unfold neat. destruct (vc_block x) as [b|]; [|done]. intros (d & k & Hd & Hs) He. exists d, k. by rewrite He. Qed.

Lemma neat_block x h b : neat x h -> vc_block x = Some b -> is_Some (hp_blocks h !! b).
Proof. unfold neat. intros Hn Hb. rewrite Hb in Hn. destruct Hn as (d & k & Hd & _). by eexists. Qed.

(** One buffer is made or changed. *)
Lemma set_wiped bs h v x x' h' : wiped (mkMemory bs h) -> (bs !! v = Some x \/ bs !! v = None /\ x = vec_empty) ->
  local x x' h h' -> wiped (mkMemory (<[v := x']> bs) h').
Proof.
  intros [Hr Hn Ho Hd Hf] Hx [O B G N L R]. cbn in *.
  assert (Hmine : forall w y b, w <> v -> bs !! w = Some y -> vc_block y = Some b -> vc_block x <> Some b).
  { intros w y b Hne Hw Hb Hxb. destruct Hx as [Hv|[_ ->]]; [|done]. by apply Hne, (Ho w v y x b). }
  assert (Hfar : forall w y b, w <> v -> bs !! w = Some y -> vc_block y = Some b -> vc_block x' <> Some b).
  { intros w y b Hne Hw Hb Hxb. destruct (B b Hxb) as [Hxb'|Hlt]; [by apply (Hmine w y b)|].
    pose proof (Hf b (neat_block y h b (Hn w y Hw) Hb)). lia. }
  split; cbn.
  - by apply R.
  - intros w y. rewrite lookup_insert_Some. intros [[<- <-]|[Hne Hw]]; [done|].
    eapply neat_same; [by eapply Hn|]. intros b Hb. apply O; [by eapply Hmine|by eapply Hfar].
  - intros w1 w2 y1 y2 b. rewrite !lookup_insert_Some. intros [[<- <-]|[Hne1 Hw1]] [[<- <-]|[Hne2 Hw2]] Hb1 Hb2; try done.
    + by destruct (Hfar w2 y2 b).
    + by destruct (Hfar w1 y1 b).
    + by eapply Ho.
  - intros b Hb. destruct (decide (vc_block x' = Some b)) as [Hxb|Hxb].
    { exists v, x'. by rewrite lookup_insert_eq. }
    destruct (decide (vc_block x = Some b)) as [Hxb'|Hxb']; [rewrite (G b Hxb' Hxb) in Hb; by destruct Hb|].
    rewrite (O b Hxb' Hxb) in Hb. destruct (Hd b Hb) as (w & y & Hw & Hy). exists w, y. split; [|done].
    rewrite lookup_insert_ne; [done|]. intros <-. destruct Hx as [Hv|[Hv _]]; congruence.
  - intros b Hb. destruct (decide (vc_block x' = Some b)) as [Hxb|Hxb].
    { destruct (B b Hxb) as [Hxb'|?]; [|lia]. destruct Hx as [Hv|[_ ->]]; [|done].
      pose proof (Hf b (neat_block x h b (Hn v x Hv) Hxb')). lia. }
    destruct (decide (vc_block x = Some b)) as [Hxb'|Hxb']; [rewrite (G b Hxb' Hxb) in Hb; by destruct Hb|].
    rewrite (O b Hxb' Hxb) in Hb. pose proof (Hf b Hb). lia.
Qed.

(** A buffer without a block changes hands or goes. *)
Lemma swap_wiped bs h v o y : wiped (mkMemory bs h) -> v <> o -> bs !! o = Some y ->
  (forall x, bs !! v = Some x -> vc_block x = None) ->
  wiped (mkMemory (<[v := y]> (<[o := vec_empty]> bs)) h).
Proof.
  intros [Hr Hn Ho Hd Hf] Hne Hy Hv. cbn in *. split; cbn; try done.
  - intros w x. rewrite !lookup_insert_Some. intros [[<- <-]|[_ [[<- <-]|[_ Hw]]]]; [by eapply Hn|done|by eapply Hn].
  - intros w1 w2 x1 x2 b. rewrite !lookup_insert_Some.
    intros [[<- <-]|[Hv1 [[<- <-]|[Ho1 Hw1]]]] [[<- <-]|[Hv2 [[<- <-]|[Ho2 Hw2]]]] Hb1 Hb2; try done.
    + by destruct Ho2; apply (Ho o w2 y x2 b).
    + by destruct Ho1; apply (Ho o w1 y x1 b).
    + by eapply Ho.
  - intros b Hb. destruct (Hd b Hb) as (w & x & Hw & Hx). destruct (decide (w = o)) as [->|Hwo].
    + exists v, y. rewrite lookup_insert_eq. split; [done|congruence].
    + exists w, x. split; [|done]. rewrite lookup_insert_ne; [by rewrite lookup_insert_ne|].
      intros <-. rewrite (Hv x Hw) in Hx. done.
Qed.

Lemma delete_wiped bs h v : wiped (mkMemory bs h) -> bs !! v = Some vec_empty -> wiped (mkMemory (delete v bs) h).
Proof.
  intros [Hr Hn Ho Hd Hf] Hv. cbn in *. split; cbn; try done.
  - intros w x. rewrite lookup_delete_Some. intros [_ Hw]. by eapply Hn.
  - intros w1 w2 x1 x2 b. rewrite !lookup_delete_Some. intros [_ H1] [_ H2]. by eapply Ho.
  - intros b Hb. destruct (Hd b Hb) as (w & x & Hw & Hx). exists w, x. split; [|done].
    rewrite lookup_delete_ne; [done|]. intros <-. rewrite Hv in Hw. by injection Hw as <-.
Qed.

(** What the operations do to one buffer. *)
Lemma assign_local data x h : neat x h ->
  let '(x', h') := sb_assign data x h in local x x' h h' /\ elements x' h' = data.
Proof.
  intros Hn. unfold sb_assign. pose proof (clear_local x h Hn) as Hc. destruct (sb_clear x h) as [x1 h1].
  destruct Hc as (Hc & Hb & Hs). destruct data as [|d data]; cbn [bytes_empty].
  - split; [done|]. unfold elements. by rewrite Hs.
  - pose proof (store_local (d :: data) x1 h1 (lo_neat _ _ _ _ Hc) Hs) as Ht.
    destruct (vec_store (d :: data) x1 h1) as [x2 h2]. destruct Ht as [Ht He]. split; [|done].
    eapply local_trans; [exact Hc|exact Ht|by left].
Qed.

Lemma destroy_local x h : neat x h -> local x vec_empty h (sb_destroy x h).
Proof.
  intros Hn. unfold sb_destroy. pose proof (clear_local x h Hn) as Hc. destruct (sb_clear x h) as [x1 h1].
  destruct Hc as (Hc & Hb & Hs). eapply local_trans; [exact Hc|apply release_local; [apply Hc|done]|by left].
Qed.

Lemma construct_local data k h :
  let '(x, h') := sb_construct data (zeros k) h in local vec_empty x h h'.
Proof.
  unfold sb_construct. destruct (bytes_empty _); [by split; auto|]. cbn. split; cbn; try done; try lia.
  - intros b _ Hb. rewrite lookup_insert_ne; [done|congruence].
  - intros b [= <-]. right. lia.
  - exists data, k. by rewrite lookup_insert_eq.
Qed.

Lemma exec_wiped op m : is_resize op = false -> clean_spare op = true -> wiped m -> wiped (exec op m).
Proof.
  destruct m as [bs h]. intros Hop Hcl Hm. destruct op as [v data spare|v o|v o|v data|v n|v|v]; try done; cbn.
  - destruct (bs !! v) as [x|] eqn:Ev; [done|]. rewrite (spare_zeros _ _ _ Hcl).
    pose proof (construct_local data (length spare) h) as Hl.
    destruct (sb_construct data _ h) as [x h']. eapply set_wiped; [exact Hm|by right|exact Hl].
  - destruct (bs !! v) as [x|] eqn:Ev; [done|]. destruct (bs !! o) as [y|] eqn:Eo; [|done].
    apply swap_wiped; try done; congruence.
  - destruct (bs !! v) as [x|] eqn:Ev; [|done]. destruct (bs !! o) as [y|] eqn:Eo; [|done].
    destruct (String.eqb_spec v o) as [->|Hne]; [done|]. unfold sb_move_assign.
    pose proof (destroy_local x h (wp_neat _ Hm v x Ev)) as Hl. unfold sb_destroy in Hl.
    destruct (sb_clear x h) as [x1 h1]. pose proof (set_wiped bs h v x vec_empty _ Hm (or_introl Ev) Hl) as Hw.
    pose proof (swap_wiped (<[v := vec_empty]> bs) _ v o y Hw Hne) as Hs.
    assert (E : <[v := y]> (<[o := vec_empty]> (<[v := vec_empty]> bs)) = <[v := y]> (<[o := vec_empty]> bs)).
    { rewrite (insert_insert_ne bs o v) by done. apply insert_insert_eq. }
    rewrite E in Hs. apply Hs; [by rewrite lookup_insert_ne|]. intros z. rewrite lookup_insert_eq. by intros [= <-].
  - destruct (bs !! v) as [x|] eqn:Ev; [|done]. pose proof (assign_local data x h (wp_neat _ Hm v x Ev)) as Hl.
    destruct (sb_assign data x h) as [x' h']. destruct Hl as [Hl _]. eapply set_wiped; [exact Hm|by left|exact Hl].
  - destruct (bs !! v) as [x|] eqn:Ev; [|done]. pose proof (clear_local x h (wp_neat _ Hm v x Ev)) as Hl.
    destruct (sb_clear x h) as [x' h']. destruct Hl as [Hl _]. eapply set_wiped; [exact Hm|by left|exact Hl].
  - destruct (bs !! v) as [x|] eqn:Ev; [|done].
    pose proof (set_wiped bs h v x vec_empty _ Hm (or_introl Ev) (destroy_local x h (wp_neat _ Hm v x Ev))) as Hw.
    rewrite <- (delete_insert_eq bs v vec_empty). apply delete_wiped; [done|]. by rewrite lookup_insert_eq.
Qed.

Lemma new_wiped : wiped memory_new.
Proof. split; cbn; try done; intros b; rewrite lookup_empty; by intros []. Qed.

Lemma run_wiped ops m : Forall (fun op => is_resize op = false /\ clean_spare op = true) ops ->
  wiped m -> wiped (run_ops ops m).
Proof.
  intros Hops. revert m. induction Hops as [|op ops [Hop Hcl] _ IH]; intros m Hm; [done|]. by apply IH, exec_wiped.
Qed.

(** C23. No secret outlives its buffer. After any run of a program that makes, fills, moves, clears and
    destroys buffers, does not resize them, and hands over only vectors with nothing behind their
    elements: memory that was released is blank; of the blocks still in
    use, each belongs to one buffer and holds that buffer's bytes and nothing else; so when every
    buffer is empty or gone, no byte of any secret is left anywhere. And they do hold what they are
    given: after [assign] the bytes are the argument, after a move the target has what the source had
    and the source has nothing. *)
Theorem secrets_are_wiped ops : Forall (fun op => is_resize op = false /\ clean_spare op = true) ops ->
  let m := run_ops ops memory_new in
  Forall blank (hp_released (me_heap m)) /\
  (forall b c, hp_blocks (me_heap m) !! b = Some c -> exists v x k, me_buffers m !! v = Some x /\ vc_block x = Some b /\
     c = elements x (me_heap m) ++ zeros k /\ forall w y, me_buffers m !! w = Some y -> vc_block y = Some b -> w = v) /\
  ((forall v, holds_secret v m = []) -> forall b c, hp_blocks (me_heap m) !! b = Some c -> blank c) /\
  (forall v data, is_Some (me_buffers m !! v) -> holds_secret v (exec (Assign v data) m) = data) /\
  (forall v o, is_Some (me_buffers m !! v) -> is_Some (me_buffers m !! o) -> v <> o ->
     holds_secret v (exec (MoveAssign v o) m) = holds_secret o m /\ holds_secret o (exec (MoveAssign v o) m) = []).
Proof.
  intros Hops m. pose proof (run_wiped ops memory_new Hops new_wiped) as Hw. fold m in Hw.
  assert (Hblocks : forall b c, hp_blocks (me_heap m) !! b = Some c -> exists v x k, me_buffers m !! v = Some x /\
    vc_block x = Some b /\ c = elements x (me_heap m) ++ zeros k).
  { intros b c Hc. destruct (wp_owned _ Hw b (mk_is_Some _ _ Hc)) as (v & x & Hv & Hb).
    pose proof (wp_neat _ Hw v x Hv) as Hn. unfold neat in Hn. rewrite Hb in Hn. destruct Hn as (d & k & Hd & Hs).
    destruct (elements_neat x _ b d k Hb Hd Hs) as [_ He]. exists v, x, k. rewrite He. split; [done|]. split; [done|]. congruence. }
  split; [apply Hw|]. split.
  { intros b c Hc. destruct (Hblocks b c Hc) as (v & x & k & Hv & Hb & He). exists v, x, k.
    split; [done|]. split; [done|]. split; [done|]. intros w y Hwy Hy. by apply (wp_once _ Hw w v y x b). }
  split.
  { intros Hall b c Hc. destruct (Hblocks b c Hc) as (v & x & k & Hv & Hb & ->). specialize (Hall v).
    unfold holds_secret in Hall. rewrite Hv in Hall. rewrite Hall. apply zeros_blank. }
  split.
  - intros v data [x Hv]. unfold holds_secret. cbn. rewrite Hv. pose proof (assign_local data x _ (wp_neat _ Hw v x Hv)) as Hl.
    destruct (sb_assign data x (me_heap m)) as [x' h']. cbn. rewrite lookup_insert_eq. by destruct Hl.
  - intros v o [x Hv] [y Ho] Hne. unfold holds_secret. cbn. rewrite Hv, Ho. destruct (String.eqb_spec v o) as [|_]; [done|].
    unfold sb_move_assign. pose proof (destroy_local x _ (wp_neat _ Hw v x Hv)) as Hl. unfold sb_destroy in Hl.
    destruct (sb_clear x (me_heap m)) as [x1 h1]. cbn. rewrite lookup_insert_eq, lookup_insert_ne by done.
    rewrite lookup_insert_eq. split; [|done]. unfold elements, block_of. destruct (vc_block y) as [b|] eqn:Eb; [|done]. cbn.
    rewrite (lo_other _ _ _ _ Hl); [done| |done]. intros Hxb. by apply Hne, (wp_once _ Hw v o x y b).
Qed.

(* --------------------------------------------------------------------- *)
(** ** Samples                                                            *)
(* --------------------------------------------------------------------- *)

Definition key3 : bytes := [x01; x02; x03].

(** A key is put into a buffer, moved to another, replaced by a longer one, and the buffers go. *)
Definition key_life : list BufferOp :=
  [Construct "item" key3 [x00]; Construct "parsed" [] []; MoveAssign "parsed" "item"; Assign "parsed" [x09; x08; x07; x06; x05];
   Destroy "item"; Destroy "parsed"].

Lemma secrets_are_wiped_witness : all_bytes (run_ops key_life memory_new) = zeros 9 /\
  Forall blank (hp_released (me_heap (run_ops key_life memory_new))).
Proof.
  split; [reflexivity|]. refine (proj1 (secrets_are_wiped key_life _)). repeat constructor.
Defined.

(** [resize] is left out above for a reason: a buffer that grows leaves its old bytes behind, and one
    that shrinks forgets which bytes it has to clear. *)
Lemma growing_leaves_a_copy :
  hp_released (me_heap (run_ops [Construct "k" key3 []; Resize "k" 4; Destroy "k"] memory_new)) = [key3; zeros 4].
Proof. reflexivity. Qed.
Lemma shrinking_leaves_a_tail :
  hp_released (me_heap (run_ops [Construct "k" key3 []; Resize "k" 1; Destroy "k"] memory_new)) = [[x00; x02; x03]].
Proof. reflexivity. Qed.

(** And a vector with spare capacity is cleared no further than its elements: what a longer secret left
    behind them is released as it is. *)
Lemma spare_capacity_is_not_cleared :
  hp_released (me_heap (run_ops [Construct "k" [x01] [x02; x03]; Destroy "k"] memory_new)) = [[x00; x02; x03]].
Proof. reflexivity. Qed.
