(* ===== verification/Envelope.v ===== *)
(** * Envelope validation: parameter parsing, AAD rebuilding and the checks made
    before any key is unwrapped.
    Models [src/business_key_envelope.cpp] / [include/business_key_envelope.h]
    and the message of [proto/security/keyprov/v1/key_provisioning.proto].
    The generated Protobuf codec and OpenSSL's curve arithmetic are parameters. *)
From S2P Require Import Prelude Errors Canonical KeyTypes.

(** [src/proto/security/keyprov/v1/key_provisioning.proto:90-103] EcdhEsP256EnvelopeParametersV1 *)
Record KpParameters := mkKpParameters {
  kp_format_version : Z;
  kp_server_ephemeral_public_key : bytes;
  kp_hkdf_salt : bytes;
  kp_hkdf_context_version : string;
  kp_nonce : bytes;
  kp_authentication_tag : bytes;
  kp_canonical_aad : bytes;
  kp_aad_digest : bytes;
  kp_root_key_version : Z;
  kp_derivation_version : string;
  kp_recipient_certificate_digest : bytes;
  kp_operation_id : string
}.

(** The generated codec: parsing yields a message and the number of unknown
    fields it carried; deterministic serialisation may fail. Its numeric fields
    are [uint32]/[uint64]. *)
Class Protobuf := {
  ParseFromArray : bytes -> option (KpParameters * Z);
  SerializeDeterministic : KpParameters -> option bytes;
  ParseFromArray_width data msg n : ParseFromArray data = Some (msg, n) ->
    is_u32 (kp_format_version msg) /\ is_u64 (kp_root_key_version msg)
}.

(** [EC_POINT_oct2point], [EC_POINT_is_at_infinity], [EC_POINT_is_on_curve] on
    P-256: whether the octets decode to a finite point of the curve. *)
Class EcP256 := { ec_point_on_curve : bytes -> bool }.

(** [src/include/business_key_envelope.h:33-46] EcdhEsP256EnvelopeParameters *)
Record EcdhEsP256EnvelopeParameters := mkParams {
  ep_format_version : Z;
  ep_server_ephemeral_public_key : bytes;
  ep_hkdf_salt : bytes;
  ep_hkdf_context_version : string;
  ep_nonce : bytes;
  ep_authentication_tag : bytes;
  ep_canonical_aad : bytes;
  ep_aad_digest : bytes;
  ep_root_key_version : Z;
  ep_derivation_version : string;
  ep_recipient_certificate_digest : bytes;
  ep_operation_id : string
}.

(** [src/include/business_key_envelope.h:49-53] EnvelopeLimits *)
Record EnvelopeLimits := mkLimits {
  lim_max_canonical_aad : Z;
  lim_max_parameters : Z;
  lim_max_wrapped_key : Z
}.
Definition EnvelopeLimits_default : EnvelopeLimits := mkLimits 1024 2048 4096.

(** [src/include/business_key_envelope.h:56-73] EnvelopeContext *)
Record EnvelopeContext := mkEnvContext {
  ec_request_id : string;
  ec_business_domain : string;
  ec_purpose : string;
  ec_active_cert_digest : bytes;
  ec_active_cert_p256 : bool;
  ec_active_cert_key_agreement : bool;
  ec_active_cert_digital_signature : bool;
  ec_private_key_can_derive : bool;
  ec_private_key_can_sign : bool;
  ec_active_cert_ca_false : bool;
  ec_active_cert_eku_client_auth_only : bool;
  ec_active_cert_critical_extensions_allowed : bool;
  ec_active_cert_leaf_digest_bound : bool;
  ec_active_cert_chain_key_match : bool;
  ec_identity_template_sign_derive : bool
}.

(** [src/include/business_key_envelope.h:76-81] ValidatedEnvelope *)
Record ValidatedEnvelope := mkValidated {
  ve_params : EcdhEsP256EnvelopeParameters;
  ve_canonical_aad : bytes;
  ve_envelope_digest : bytes;
  ve_key_check_value : kcv3
}.

(** [KEY_PURPOSE_UPLINK_AEAD = 1], [KEY_PURPOSE_DOWNLINK_AEAD = 2]; [None] is the
    [false] result. *)
(** [src/src/business_key_envelope.cpp:30-40] purposeEnumValue *)
Definition purposeEnumValue (purpose : string) : option Z :=
  if String.eqb purpose kBusinessPurposeUplinkAead then Some 1
  else if String.eqb purpose kBusinessPurposeDownlinkAead then Some 2
  else None.

(** [WRAPPING_SUITE_ECDH_ES_P256_HKDF_SHA256_AES256GCM = 2]. *)
(** [src/src/business_key_envelope.cpp:42-48] wrappingSuiteEnumValue *)
Definition wrappingSuiteEnumValue (suite : string) : option Z :=
  if String.eqb suite kWrappingSuiteEcdhEsP256 then Some 2 else None.

Section Validation.
Context `{Sha256, Protobuf, EcP256}.

(** [src/src/business_key_envelope.cpp:50-66] isValidP256UncompressedPoint *)
Definition isValidP256UncompressedPoint (point : bytes) : bool :=
  if negb (zlen point =? 65) || negb (bool_decide (head point = Some x04)) then false
  else ec_point_on_curve point.

(** [src/src/business_key_envelope.cpp:91-105] parseEcdhEsP256Parameters, field copy *)
Definition params_of_msg (msg : KpParameters) : EcdhEsP256EnvelopeParameters :=
  mkParams (kp_format_version msg) (kp_server_ephemeral_public_key msg) (kp_hkdf_salt msg)
    (kp_hkdf_context_version msg) (kp_nonce msg) (kp_authentication_tag msg)
    (kp_canonical_aad msg) (kp_aad_digest msg) (kp_root_key_version msg)
    (kp_derivation_version msg) (kp_recipient_certificate_digest msg) (kp_operation_id msg).

(** [src/src/business_key_envelope.cpp:68-107] parseEcdhEsP256Parameters *)
Definition parseEcdhEsP256Parameters (data : bytes) : res EcdhEsP256EnvelopeParameters :=
  fail_if bytes_empty data with WRAPPED_KEY_INVALID ;;
  match ParseFromArray data with
  | None => Err WRAPPED_KEY_INVALID
  | Some (msg, unknown_fields) =>
      fail_if negb (unknown_fields =? 0) with WRAPPED_KEY_INVALID ;;
      match SerializeDeterministic msg with
      | None => Err WRAPPED_KEY_INVALID
      | Some reserialized =>
          fail_if negb (bool_decide (reserialized = data)) with WRAPPED_KEY_INVALID ;;
          Ok (params_of_msg msg)
      end
  end.

(** [src/src/business_key_envelope.cpp:109-130] rebuildEnvelopeAad *)
Definition rebuildEnvelopeAad (request_id business_domain : string) (item : WrappedKeyItem)
    (params : EcdhEsP256EnvelopeParameters) : bytes :=
  buildParProtoAadV1 {|
    aad_envelope_format := key_envelope_format_value (it_envelope_format item);
    aad_wrapping_suite := default 0 (wrappingSuiteEnumValue (it_wrapping_suite item));
    aad_request_id := request_id;
    aad_business_domain := business_domain;
    aad_purpose := default 0 (purposeEnumValue (it_purpose item));
    aad_key_id := it_key_id item;
    aad_business_key_version := it_business_key_version item;
    aad_root_key_version := ep_root_key_version params;
    aad_derivation_version := ep_derivation_version params;
    aad_recipient_certificate_digest := ep_recipient_certificate_digest params
  |}.

(** The certificate and key-handle gates of step 6.5. *)
(** [src/src/business_key_envelope.cpp:194-200] validateEnvelope, capability gate *)
Definition cert_capability_gate (ctx : EnvelopeContext) : bool :=
  ec_active_cert_p256 ctx && ec_active_cert_key_agreement ctx &&
  ec_active_cert_digital_signature ctx && ec_private_key_can_derive ctx &&
  ec_private_key_can_sign ctx && ec_active_cert_ca_false ctx &&
  ec_active_cert_eku_client_auth_only ctx && ec_active_cert_critical_extensions_allowed ctx &&
  ec_active_cert_leaf_digest_bound ctx && ec_active_cert_chain_key_match ctx &&
  ec_identity_template_sign_derive ctx.

(** The fields the wire digest is recomputed from (step 6.7). *)
(** [src/src/business_key_envelope.cpp:244-256] validateEnvelope, digest input *)
Definition envelope_digest_input (item : WrappedKeyItem) (ctx : EnvelopeContext)
    (purpose_val suite_val : Z) : EnvelopeDigestInput := {|
  edi_envelope_format := key_envelope_format_value KEF_ECDH_ES_P256_V1;
  edi_request_id := ec_request_id ctx;
  edi_business_domain := ec_business_domain ctx;
  edi_purpose := purpose_val;
  edi_key_id := it_key_id item;
  edi_business_key_version := it_business_key_version item;
  edi_wrapping_suite := suite_val;
  edi_wrapped_key := it_wrapped_key item;
  edi_parameters := it_parameters item |}.

(** [src/src/business_key_envelope.cpp:132-278] validateEnvelope *)
Definition validateEnvelope (item : WrappedKeyItem) (ctx : EnvelopeContext)
    (limits : EnvelopeLimits) : res ValidatedEnvelope :=
  fail_if negb (bool_decide (it_envelope_format item = KEF_ECDH_ES_P256_V1))
    with BUSINESS_KEY_UNSUPPORTED ;;
  match wrappingSuiteEnumValue (it_wrapping_suite item) with
  | None => Err BUSINESS_KEY_UNSUPPORTED
  | Some suite_val =>
  fail_if negb (String.eqb (it_algorithm item) kDefaultKeyAlgorithm) with BUSINESS_KEY_UNSUPPORTED ;;
  fail_if bytes_empty (it_parameters item) with WRAPPED_KEY_INVALID ;;
  fail_if zlen (it_parameters item) >? lim_max_parameters limits with WRAPPED_KEY_INVALID ;;
  match parseEcdhEsP256Parameters (it_parameters item) with
  | Err rc => Err rc
  | Ok params =>
  fail_if negb (ep_format_version params =? 1) with WRAPPED_KEY_INVALID ;;
  fail_if negb (String.eqb (ep_hkdf_context_version params) kDefaultHkdfContextVersion)
    with BUSINESS_KEY_UNSUPPORTED ;;
  fail_if bytes_empty (it_wrapped_key item) ||
          (zlen (it_wrapped_key item) >? lim_max_wrapped_key limits) with WRAPPED_KEY_INVALID ;;
  fail_if zlen (ep_canonical_aad params) >? lim_max_canonical_aad limits with WRAPPED_KEY_INVALID ;;
  fail_if negb (zlen (ep_hkdf_salt params) =? 32) with WRAPPED_KEY_INVALID ;;
  fail_if negb (zlen (ep_nonce params) =? 12) with WRAPPED_KEY_INVALID ;;
  fail_if negb (zlen (ep_authentication_tag params) =? 16) with WRAPPED_KEY_INVALID ;;
  fail_if negb (zlen (ep_aad_digest params) =? 32) with WRAPPED_KEY_INVALID ;;
  fail_if negb (zlen (ep_recipient_certificate_digest params) =? 32) with WRAPPED_KEY_INVALID ;;
  fail_if negb (isValidP256UncompressedPoint (ep_server_ephemeral_public_key params))
    with WRAPPED_KEY_INVALID ;;
  fail_if negb (cert_capability_gate ctx) with BUSINESS_KEY_NOT_READY ;;
  fail_if negb (zlen (ec_active_cert_digest ctx) =? zlen (ep_recipient_certificate_digest params)) ||
          negb (constantTimeEqual (ec_active_cert_digest ctx) (ep_recipient_certificate_digest params))
    with WRAPPED_KEY_INVALID ;;
  let aad := rebuildEnvelopeAad (ec_request_id ctx) (ec_business_domain ctx) item params in
  fail_if negb (constantTimeEqual aad (ep_canonical_aad params)) with WRAPPED_KEY_INVALID ;;
  fail_if negb (constantTimeEqual (sha256 aad) (ep_aad_digest params)) with WRAPPED_KEY_INVALID ;;
  match purposeEnumValue (it_purpose item) with
  | None => Err BUSINESS_KEY_UNSUPPORTED
  | Some purpose_val =>
  let computed := buildWireEnvelopeDigestV1 (envelope_digest_input item ctx purpose_val suite_val) in
  fail_if negb (zlen (it_envelope_digest item) =? zlen computed) ||
          negb (constantTimeEqual (it_envelope_digest item) computed) with WRAPPED_KEY_INVALID ;;
  fail_if (it_business_key_version item =? 0) ||
          (it_business_key_version item >? 2 ^ 63 - 1) with WRAPPED_KEY_INVALID ;;
  fail_if ep_root_key_version params =? 0 with WRAPPED_KEY_INVALID ;;
  fail_if str_empty (ep_derivation_version params) with WRAPPED_KEY_INVALID ;;
  fail_if str_empty (ep_operation_id params) with WRAPPED_KEY_INVALID ;;
  Ok (mkValidated params aad computed (it_key_check_value item))
  end end end.
End Validation.

(* --------------------------------------------------------------------- *)
(** ** What acceptance implies                                            *)
(* --------------------------------------------------------------------- *)

Lemma purposeEnumValue_inj p q v :
  purposeEnumValue p = Some v -> purposeEnumValue q = Some v -> p = q.
Proof.
  unfold purposeEnumValue. intros Hp Hq.
  repeat case_match; simplify_eq;
    repeat match goal with E : String.eqb _ _ = true |- _ => apply String.eqb_eq in E end; congruence.
Qed.

Lemma purposeEnumValue_u64 p : is_u64 (default 0 (purposeEnumValue p)).
Proof. unfold purposeEnumValue, is_u64. repeat case_match; simpl; lia. Qed.

Lemma wrappingSuiteEnumValue_u64 s : is_u64 (default 0 (wrappingSuiteEnumValue s)).
Proof. unfold wrappingSuiteEnumValue, is_u64. repeat case_match; simpl; lia. Qed.

Lemma key_envelope_format_value_u64 f : is_u64 (key_envelope_format_value f).
Proof. unfold is_u64. destruct f; simpl; lia. Qed.

#[export] Hint Resolve purposeEnumValue_u64 wrappingSuiteEnumValue_u64
  key_envelope_format_value_u64 : sec.

Section ValidationFacts.
Context `{Sha256, Protobuf, EcP256}.

(** What the checks of steps 6.2 to 6.8 establish of an accepted item. *)
Record envelope_facts (item : WrappedKeyItem) (ctx : EnvelopeContext) (limits : EnvelopeLimits)
    (v : ValidatedEnvelope) : Prop := {
  ef_format : it_envelope_format item = KEF_ECDH_ES_P256_V1;
  ef_suite : it_wrapping_suite item = kWrappingSuiteEcdhEsP256;
  ef_algorithm : it_algorithm item = kDefaultKeyAlgorithm;
  ef_purpose : is_Some (purposeEnumValue (it_purpose item));
  ef_params : parseEcdhEsP256Parameters (it_parameters item) = Ok (ve_params v);
  ef_sizes : 0 < zlen (it_parameters item) <= lim_max_parameters limits /\
             0 < zlen (it_wrapped_key item) <= lim_max_wrapped_key limits /\
             zlen (ep_canonical_aad (ve_params v)) <= lim_max_canonical_aad limits /\
             zlen (ep_nonce (ve_params v)) = 12 /\ zlen (ep_hkdf_salt (ve_params v)) = 32 /\
             zlen (ep_authentication_tag (ve_params v)) = 16 /\
             zlen (ep_aad_digest (ve_params v)) = 32;
  ef_message : ep_format_version (ve_params v) = 1 /\
               ep_hkdf_context_version (ve_params v) = kDefaultHkdfContextVersion;
  ef_point : isValidP256UncompressedPoint (ep_server_ephemeral_public_key (ve_params v)) = true;
  ef_gate : cert_capability_gate ctx = true;
  ef_cert : ep_recipient_certificate_digest (ve_params v) = ec_active_cert_digest ctx /\
            zlen (ec_active_cert_digest ctx) = 32;
  ef_aad : ve_canonical_aad v =
             rebuildEnvelopeAad (ec_request_id ctx) (ec_business_domain ctx) item (ve_params v) /\
           ep_canonical_aad (ve_params v) = ve_canonical_aad v /\
           ep_aad_digest (ve_params v) = sha256 (ve_canonical_aad v);
  ef_digest : it_envelope_digest item = ve_envelope_digest v /\
              ve_envelope_digest v = buildWireEnvelopeDigestV1
                (envelope_digest_input item ctx (default 0 (purposeEnumValue (it_purpose item))) 2);
  ef_version : is_u64 (it_business_key_version item) -> 0 < it_business_key_version item < 2 ^ 63;
  ef_nonempty : ep_root_key_version (ve_params v) <> 0 /\
                ep_derivation_version (ve_params v) <> "" /\ ep_operation_id (ve_params v) <> "";
  ef_kcv : ve_key_check_value v = it_key_check_value item
}.

Lemma bytes_empty_false (l : bytes) : bytes_empty l = false <-> 0 < zlen l.
Proof. unfold zlen. destruct l; simpl; split; intros; (done || lia). Qed.

Lemma validateEnvelope_facts item ctx limits v :
  validateEnvelope item ctx limits = Ok v -> envelope_facts item ctx limits v.
Proof.
  unfold validateEnvelope. intros Hv. ok_inv Hv. subst v.
  bool_simpl.
  repeat match goal with
  | H : bytes_empty _ = false |- _ => apply bytes_empty_false in H
  | H : constantTimeEqual _ _ = true |- _ => apply constantTimeEqual_eq in H
  | H : String.eqb _ _ = true |- _ => apply String.eqb_eq in H
  | H : str_empty _ = false |- _ => apply str_empty_false in H
  | H : (_ >? _) = false |- _ => rewrite Z.gtb_ltb in H; apply Z.ltb_ge in H
  end.
  assert (it_wrapping_suite item = kWrappingSuiteEcdhEsP256 /\ z = 2) as [Hsuite ->].
  { unfold wrappingSuiteEnumValue in *. case_match; [|done].
    simplify_eq. split; [by apply String.eqb_eq|done]. }
  match goal with P : purposeEnumValue _ = Some _ |- _ => rename P into Hpurp end.
  split; cbn [ve_params ve_canonical_aad ve_envelope_digest ve_key_check_value];
    rewrite ?Hpurp; cbn [default from_option id]; try done; try lia; eauto.
  all: repeat split; try done; try (unfold is_u64 in *; lia); congruence.
Qed.

(** The AAD context an accepted item was checked against. *)
Definition accepted_aad_input (item : WrappedKeyItem) (ctx : EnvelopeContext)
    (params : EcdhEsP256EnvelopeParameters) : EnvelopeAadInput := {|
  aad_envelope_format := key_envelope_format_value (it_envelope_format item);
  aad_wrapping_suite := default 0 (wrappingSuiteEnumValue (it_wrapping_suite item));
  aad_request_id := ec_request_id ctx;
  aad_business_domain := ec_business_domain ctx;
  aad_purpose := default 0 (purposeEnumValue (it_purpose item));
  aad_key_id := it_key_id item;
  aad_business_key_version := it_business_key_version item;
  aad_root_key_version := ep_root_key_version params;
  aad_derivation_version := ep_derivation_version params;
  aad_recipient_certificate_digest := ep_recipient_certificate_digest params |}.

(** Sizes the IPC layer and the C++ types impose on an item and its request. *)
Definition item_wf (item : WrappedKeyItem) (ctx : EnvelopeContext) : Prop :=
  is_u64 (it_business_key_version item) /\ str_fits (it_key_id item) /\
  str_fits (ec_request_id ctx) /\ str_fits (ec_business_domain ctx).

Lemma parse_root_key_version data params :
  parseEcdhEsP256Parameters data = Ok params -> is_u64 (ep_root_key_version params).
Proof.
  unfold parseEcdhEsP256Parameters. intros Hp. ok_inv Hp. subst.
  by eapply ParseFromArray_width.
Qed.

Lemma accepted_aad_wf item ctx limits v :
  envelope_facts item ctx limits v -> item_wf item ctx ->
  str_fits (ep_derivation_version (ve_params v)) ->
  aad_wf (accepted_aad_input item ctx (ve_params v)).
Proof.
  intros F (?&?&?&?) ?. pose proof (parse_root_key_version _ _ (ef_params _ _ _ _ F)).
  destruct (ef_cert _ _ _ _ F) as [E ?].
  split; cbn; [auto 10 with sec|done|]. rewrite E. unfold fits, is_u32. lia.
Qed.
End ValidationFacts.

(* --------------------------------------------------------------------- *)
(** ** A concrete codec for the witnesses                                 *)
(* --------------------------------------------------------------------- *)

Module EnvelopeSample.
#[export] Existing Instance toy_sha256.

Definition cert_digest : bytes := replicate 32 x0a.

Definition ctx_for (rid : string) : EnvelopeContext :=
  mkEnvContext rid kBusinessDomainV2c kBusinessPurposeUplinkAead cert_digest
    true true true true true true true true true true true.

Definition aad_of (rid purpose key_id : string) (version : Z) : bytes :=
  buildParProtoAadV1 {|
    aad_envelope_format := 1; aad_wrapping_suite := 2; aad_request_id := rid;
    aad_business_domain := kBusinessDomainV2c;
    aad_purpose := default 0 (purposeEnumValue purpose); aad_key_id := key_id;
    aad_business_key_version := version; aad_root_key_version := 3;
    aad_derivation_version := "d1"; aad_recipient_certificate_digest := cert_digest |}.

Definition msg_of (rid purpose key_id : string) (version : Z) : KpParameters :=
  let aad := aad_of rid purpose key_id version in
  mkKpParameters 1 (x04 :: replicate 64 x01) (replicate 32 x02) "v1" (replicate 12 x03)
    (replicate 16 x04) aad (sha256 aad) 3 "d1" cert_digest "op-1".

(** One registered message per parameter string. *)
Definition codec : list (bytes * KpParameters) :=
  [([x01], msg_of "rid-1" kBusinessPurposeUplinkAead "k-up" 7);
   ([x02], msg_of "rid-1" kBusinessPurposeDownlinkAead "k-down" 7);
   ([x03], msg_of "rid-2" kBusinessPurposeUplinkAead "k-up" 8);
   ([x04], msg_of "rid-2" kBusinessPurposeDownlinkAead "k-down" 8)].

Definition codec_parse (b : bytes) : option (KpParameters * Z) :=
  match find (fun p => bool_decide (p.1 = b)) codec with
  | Some p => Some (p.2, 0)
  | None => None
  end.

Definition codec_print (m : KpParameters) : option bytes :=
  fst <$> find (fun p => bool_decide (kp_canonical_aad p.2 = kp_canonical_aad m)) codec.

#[export] Program Instance toy_protobuf : Protobuf := {|
  ParseFromArray := codec_parse; SerializeDeterministic := codec_print |}.
Next Obligation.
  unfold codec_parse. intros data msg n Hp.
  destruct (find _ codec) as [p|] eqn:E; [|done]. simplify_eq.
  apply find_some in E as [Hin _]. unfold codec in Hin.
  unfold is_u32, is_u64.
  destruct Hin as [<-|[<-|[<-|[<-|[]]]]]; cbn [snd msg_of kp_format_version kp_root_key_version]; lia.
Qed.

#[export] Instance toy_curve : EcP256 := {| ec_point_on_curve p := true |}.

(** The item a sender would build for the [n]-th message of the codec. *)
Definition item_for (rid purpose key_id : string) (version : Z) (par : byte) (kcv : kcv3) :
    WrappedKeyItem :=
  let i := mkItem purpose key_id version kDefaultKeyAlgorithm [x55; x66] [par] 1 4000000000000
             kWrappingSuiteEcdhEsP256 KEF_ECDH_ES_P256_V1 [] kcv true in
  mkItem purpose key_id version kDefaultKeyAlgorithm [x55; x66] [par] 1 4000000000000
    kWrappingSuiteEcdhEsP256 KEF_ECDH_ES_P256_V1
    (buildWireEnvelopeDigestV1
       (envelope_digest_input i (ctx_for rid) (default 0 (purposeEnumValue purpose)) 2))
    kcv true.

Definition item_up : WrappedKeyItem :=
  item_for "rid-1" kBusinessPurposeUplinkAead "k-up" 7 x01 (x01, x02, x03).

Lemma item_up_accepted :
  exists v, validateEnvelope item_up (ctx_for "rid-1") EnvelopeLimits_default = Ok v.
Proof. eexists. by vm_compute. Qed.

Example item_up_other_request :
  code_of (validateEnvelope item_up (ctx_for "rid-2") EnvelopeLimits_default) = WRAPPED_KEY_INVALID.
Proof. by vm_compute. Qed.
End EnvelopeSample.

(* --------------------------------------------------------------------- *)
(** ** Properties                                                         *)
(* --------------------------------------------------------------------- *)

Import EnvelopeSample.

(** The purposes the protocol names, with their wire numbers. *)
Definition purpose_number (purpose : string) (n : Z) : Prop :=
  purpose = "UPLINK_AEAD" /\ n = 1 \/ purpose = "DOWNLINK_AEAD" /\ n = 2.

(** The additional authenticated data of an item, as its ten length-prefixed
    segments: format 1, suite 2, purpose, key version, root key version,
    recipient certificate, request, domain, key id, derivation version. *)
Definition aad_bytes (item : WrappedKeyItem) (ctx : EnvelopeContext) (msg : KpParameters)
    (n : Z) : bytes :=
  frame [[x01]; [x02]; [byte_of n]; be_bytes 8 (it_business_key_version item);
    be_bytes 8 (kp_root_key_version msg); ec_active_cert_digest ctx;
    bytes_of_string (ec_request_id ctx); bytes_of_string (ec_business_domain ctx);
    bytes_of_string (it_key_id item); bytes_of_string (kp_derivation_version msg)].

(** The bytes the wire digest of an item covers, as their nine segments. *)
Definition digest_bytes (item : WrappedKeyItem) (ctx : EnvelopeContext) (n : Z) : bytes :=
  frame [[x01]; bytes_of_string (ec_request_id ctx); bytes_of_string (ec_business_domain ctx);
    [byte_of n]; bytes_of_string (it_key_id item); be_bytes 8 (it_business_key_version item);
    [x02]; it_wrapped_key item; it_parameters item].

(** What the protocol asks of an item, clause by clause, with no reference to
    the validator: [msg] is the message its parameters parse to, [n] the number
    of its purpose. *)
Record acceptable `{Sha256, Protobuf, EcP256} (item : WrappedKeyItem) (ctx : EnvelopeContext)
    (limits : EnvelopeLimits) (msg : KpParameters) (n : Z) : Prop := {
  ac_format : it_envelope_format item = KEF_ECDH_ES_P256_V1;
  ac_suite : it_wrapping_suite item = "ECDH_ES_P256_HKDF_SHA256_AES256GCM";
  ac_algorithm : it_algorithm item = "AES-256";
  ac_purpose : purpose_number (it_purpose item) n;
  ac_parameters : 0 < zlen (it_parameters item) <= lim_max_parameters limits;
  ac_parsed : ParseFromArray (it_parameters item) = Some (msg, 0);
  ac_deterministic : SerializeDeterministic msg = Some (it_parameters item);
  ac_format_version : kp_format_version msg = 1;
  ac_hkdf : kp_hkdf_context_version msg = "v1";
  ac_wrapped : 0 < zlen (it_wrapped_key item) <= lim_max_wrapped_key limits;
  ac_aad_size : zlen (kp_canonical_aad msg) <= lim_max_canonical_aad limits;
  ac_sizes : zlen (kp_hkdf_salt msg) = 32 /\ zlen (kp_nonce msg) = 12 /\
    zlen (kp_authentication_tag msg) = 16 /\ zlen (kp_aad_digest msg) = 32 /\
    zlen (kp_recipient_certificate_digest msg) = 32;
  ac_point : zlen (kp_server_ephemeral_public_key msg) = 65 /\
    head (kp_server_ephemeral_public_key msg) = Some x04 /\
    ec_point_on_curve (kp_server_ephemeral_public_key msg) = true;
  ac_certificate : ec_active_cert_p256 ctx = true /\
    ec_active_cert_key_agreement ctx = true /\ ec_active_cert_digital_signature ctx = true /\
    ec_private_key_can_derive ctx = true /\ ec_private_key_can_sign ctx = true /\
    ec_active_cert_ca_false ctx = true /\ ec_active_cert_eku_client_auth_only ctx = true /\
    ec_active_cert_critical_extensions_allowed ctx = true /\
    ec_active_cert_leaf_digest_bound ctx = true /\ ec_active_cert_chain_key_match ctx = true /\
    ec_identity_template_sign_derive ctx = true;
  ac_recipient : kp_recipient_certificate_digest msg = ec_active_cert_digest ctx;
  ac_aad : kp_canonical_aad msg = aad_bytes item ctx msg n;
  ac_aad_digest : kp_aad_digest msg = sha256 (aad_bytes item ctx msg n);
  ac_digest : it_envelope_digest item = sha256 (digest_bytes item ctx n);
  ac_version : 0 < it_business_key_version item < 2 ^ 63;
  ac_named : kp_root_key_version msg <> 0 /\ kp_derivation_version msg <> "" /\
    kp_operation_id msg <> ""
}.

Section Acceptance.
Context `{Sha256, Protobuf, EcP256}.

Lemma purpose_number_iff p n : purpose_number p n <-> purposeEnumValue p = Some n.
Proof.
  unfold purpose_number, purposeEnumValue, kBusinessPurposeUplinkAead, kBusinessPurposeDownlinkAead.
  split.
  - by intros [[-> ->]|[-> ->]].
  - repeat case_match; intros [= <-];
      repeat match goal with E : String.eqb _ _ = true |- _ => apply String.eqb_eq in E end; auto.
Qed.

Lemma purpose_segment p n : purpose_number p n -> appendEnumVarint [] n = [byte_of n].
Proof. by intros [[_ ->]|[_ ->]]. Qed.

(** The rebuilt additional data of an accepted item, segment by segment. *)
Lemma aad_bytes_rebuilt item ctx msg n :
  it_envelope_format item = KEF_ECDH_ES_P256_V1 ->
  it_wrapping_suite item = kWrappingSuiteEcdhEsP256 -> purpose_number (it_purpose item) n ->
  kp_recipient_certificate_digest msg = ec_active_cert_digest ctx ->
  rebuildEnvelopeAad (ec_request_id ctx) (ec_business_domain ctx) item (params_of_msg msg) =
  aad_bytes item ctx msg n.
Proof.
  intros Hf Hs Hn Hc. unfold rebuildEnvelopeAad. rewrite buildParProtoAadV1_frame.
  apply purpose_segment in Hn as Hb. apply purpose_number_iff in Hn as ->. rewrite Hf, Hs.
  unfold aad_segments, aad_bytes. cbn. rewrite Hb, Hc. reflexivity.
Qed.

Lemma digest_bytes_rebuilt item ctx n p :
  purpose_number p n ->
  buildWireEnvelopeDigestV1 (envelope_digest_input item ctx n 2) = sha256 (digest_bytes item ctx n).
Proof.
  intros Hn. unfold buildWireEnvelopeDigestV1. rewrite wireDigestInput_frame.
  unfold wire_segments, digest_bytes. cbn. by rewrite (purpose_segment _ _ Hn).
Qed.

Lemma parse_parameters_iff data ps :
  parseEcdhEsP256Parameters data = Ok ps <->
  0 < zlen data /\ exists msg, ParseFromArray data = Some (msg, 0) /\
    SerializeDeterministic msg = Some data /\ ps = params_of_msg msg.
Proof.
  unfold parseEcdhEsP256Parameters. split.
  - intros Hp. ok_inv Hp. bool_simpl. subst.
    match goal with E : bytes_empty _ = false |- _ => apply bytes_empty_false in E end. eauto.
  - intros (Hl & msg & -> & -> & ->). apply bytes_empty_false in Hl. rewrite Hl.
    by rewrite bool_decide_true.
Qed.

Lemma point_checked point :
  isValidP256UncompressedPoint point = true <->
  zlen point = 65 /\ head point = Some x04 /\ ec_point_on_curve point = true.
Proof.
  unfold isValidP256UncompressedPoint.
  destruct (Z.eqb_spec (zlen point) 65); case_bool_decide; simpl; intuition congruence.
Qed.

Lemma accepted_acceptable item ctx limits v :
  is_u64 (it_business_key_version item) -> validateEnvelope item ctx limits = Ok v ->
  exists msg n, acceptable item ctx limits msg n /\
    v = mkValidated (params_of_msg msg) (kp_canonical_aad msg) (it_envelope_digest item)
          (it_key_check_value item).
Proof.
  intros Hu Hv. destruct (validateEnvelope_facts _ _ _ _ Hv)
    as [Hf Hs Ha [n Hn] Hp Hsz [Hfv Hhk] Hpt Hg [Hc Hcl] (Ha1 & Ha2 & Ha3) (Hd1 & Hd2) Hver Hne Hk].
  apply parse_parameters_iff in Hp as (_ & msg & Hm & Hser & Hps).
  rewrite Hn in Hd2. cbn [default from_option id] in Hd2. apply purpose_number_iff in Hn.
  destruct v as [ps aad dg k]; cbn [ve_params ve_canonical_aad ve_envelope_digest
    ve_key_check_value] in *. subst ps k.
  rewrite (aad_bytes_rebuilt _ _ _ _ Hf Hs Hn Hc) in Ha1.
  rewrite (digest_bytes_rebuilt _ _ _ _ Hn) in Hd2.
  apply point_checked in Hpt.
  cbn [params_of_msg ep_format_version ep_server_ephemeral_public_key ep_hkdf_salt
    ep_hkdf_context_version ep_nonce ep_authentication_tag ep_canonical_aad ep_aad_digest
    ep_root_key_version ep_derivation_version ep_recipient_certificate_digest ep_operation_id] in *.
  exists msg, n. split; [|congruence].
  unfold cert_capability_gate in Hg. bool_simpl.
  destruct Hsz as (?&?&?&?&?&?&?).
  split; try done; try (by auto); try congruence.
  all: repeat split; try congruence; try lia.
Qed.

Lemma fail_if_pass {A} (b : bool) e (k : res A) v :
  b = false -> k = Ok v -> (fail_if b with e ;; k) = Ok v.
Proof. by intros -> ->. Qed.

(** Pass one guard of the validator, its condition read off the hypotheses. *)
Ltac pass_guard :=
  apply fail_if_pass;
  [repeat match goal with
   | |- orb _ _ = false => apply orb_false_intro
   | |- negb _ = false => apply negb_false_iff
   | |- bool_decide _ = true => apply bool_decide_eq_true
   | |- (_ =? _) = true => apply Z.eqb_eq
   | |- (_ =? _) = false => apply Z.eqb_neq
   | |- (_ >? _) = false => rewrite Z.gtb_ltb; apply Z.ltb_ge
   | |- String.eqb _ _ = true => apply String.eqb_eq
   | |- constantTimeEqual _ _ = true => apply constantTimeEqual_eq
   | |- str_empty _ = false => apply str_empty_false
   | |- bytes_empty _ = false => apply bytes_empty_false
   | |- isValidP256UncompressedPoint _ = true => apply point_checked
   end; first [assumption | lia | congruence | idtac]|].

Lemma acceptable_accepted item ctx limits msg n :
  acceptable item ctx limits msg n ->
  validateEnvelope item ctx limits = Ok (mkValidated (params_of_msg msg) (kp_canonical_aad msg)
    (it_envelope_digest item) (it_key_check_value item)).
Proof.
  intros [Hf Hs Hal Hn Hpar Hm Hser Hfv Hhk Hw Haad (S1 & S2 & S3 & S4 & S5) Hpt
    (G1 & G2 & G3 & G4 & G5 & G6 & G7 & G8 & G9 & G10 & G11) Hc Ha Hda Hd Hver (N1 & N2 & N3)].
  unfold validateEnvelope.
  assert (parseEcdhEsP256Parameters (it_parameters item) = Ok (params_of_msg msg)) as Hp.
  { apply parse_parameters_iff. split; [lia|eauto]. }
  pass_guard. rewrite Hs. change (wrappingSuiteEnumValue _) with (Some 2). cbv iota. do 3 pass_guard.
  rewrite Hp. pose proof (aad_bytes_rebuilt _ _ _ _ Hf Hs Hn Hc) as Hb.
  apply purpose_number_iff in Hn as Hp'. rewrite Hp', Hb, (digest_bytes_rebuilt _ _ _ _ Hn).
  cbn [params_of_msg ep_format_version ep_server_ephemeral_public_key ep_hkdf_salt
    ep_hkdf_context_version ep_nonce ep_authentication_tag ep_canonical_aad ep_aad_digest
    ep_root_key_version ep_derivation_version ep_recipient_certificate_digest ep_operation_id].
  repeat pass_guard.
  - unfold cert_capability_gate. by rewrite G1, G2, G3, G4, G5, G6, G7, G8, G9, G10, G11.
  - congruence.
Qed.
End Acceptance.

(** C19. The validator accepts an item exactly when the item is acceptable
    ([acceptable] spells the protocol out without the validator): its format,
    suite and algorithm are the registered ones; its parameters are within their
    limit and are the deterministic encoding of a message with no unknown field;
    the message has format version 1, HKDF context v1, a 32-byte salt, a 12-byte
    nonce, a 16-byte tag, 32-byte digests and an uncompressed point of the curve;
    the recipient certificate is the active one, which passed all eleven gates;
    the additional data it carries, its digest and the item's wire digest are
    the listed length-prefixed segments of this request, domain, purpose, key and
    certificate, and their hashes; the versions are in range and nothing the
    derivation needs is empty. What it returns is that message, its additional
    data, the item's own digest and check value. *)
Theorem validateEnvelope_sound `{Sha256, Protobuf, EcP256} item ctx limits v :
  is_u64 (it_business_key_version item) ->
  (validateEnvelope item ctx limits = Ok v <->
   exists msg n, acceptable item ctx limits msg n /\
     v = mkValidated (params_of_msg msg) (kp_canonical_aad msg) (it_envelope_digest item)
           (it_key_check_value item)).
Proof.
  intros Hu. split; [by apply accepted_acceptable|].
  intros (msg & n & A & ->). by apply (acceptable_accepted _ _ _ _ n).
Qed.

Lemma validateEnvelope_sound_witness :
  exists v, validateEnvelope item_up (ctx_for "rid-1") EnvelopeLimits_default = Ok v /\
    exists msg n, acceptable item_up (ctx_for "rid-1") EnvelopeLimits_default msg n /\
      v = mkValidated (params_of_msg msg) (kp_canonical_aad msg) (it_envelope_digest item_up)
            (it_key_check_value item_up).
Proof.
  destruct item_up_accepted as [v E]. exists v. split; [done|].
  apply (proj1 (validateEnvelope_sound item_up (ctx_for "rid-1") EnvelopeLimits_default v
    ltac:(unfold is_u64; simpl; lia)) E).
Defined.

(** No replay across contexts: if the same parameter bytes are accepted for
    two items under two requests, the requests, domains, purposes, key ids, key
    versions, envelope formats and recipient certificates coincide. *)
Theorem validateEnvelope_no_replay `{Sha256, Protobuf, EcP256} i1 c1 l1 v1 i2 c2 l2 v2 :
  validateEnvelope i1 c1 l1 = Ok v1 -> validateEnvelope i2 c2 l2 = Ok v2 ->
  it_parameters i1 = it_parameters i2 -> item_wf i1 c1 -> item_wf i2 c2 ->
  str_fits (ep_derivation_version (ve_params v1)) ->
  ec_request_id c1 = ec_request_id c2 /\ ec_business_domain c1 = ec_business_domain c2 /\
  it_purpose i1 = it_purpose i2 /\ it_key_id i1 = it_key_id i2 /\
  it_business_key_version i1 = it_business_key_version i2 /\
  ec_active_cert_digest c1 = ec_active_cert_digest c2.
Proof.
  intros V1 V2 Ep W1 W2 Hdv.
  apply validateEnvelope_facts in V1 as F1. apply validateEnvelope_facts in V2 as F2.
  assert (ve_params v1 = ve_params v2) as Epar.
  { pose proof (ef_params _ _ _ _ F1) as P1. pose proof (ef_params _ _ _ _ F2) as P2.
    rewrite Ep, P2 in P1. congruence. }
  pose proof (accepted_aad_wf _ _ _ _ F1 W1 Hdv) as A1.
  rewrite Epar in Hdv. pose proof (accepted_aad_wf _ _ _ _ F2 W2 Hdv) as A2.
  destruct (ef_aad _ _ _ _ F1) as (Ea1 & Eb1 & _), (ef_aad _ _ _ _ F2) as (Ea2 & Eb2 & _).
  assert (accepted_aad_input i1 c1 (ve_params v1) = accepted_aad_input i2 c2 (ve_params v2)) as E.
  { apply aad_inj; [done..|]. change (rebuildEnvelopeAad (ec_request_id c1)
      (ec_business_domain c1) i1 (ve_params v1) = rebuildEnvelopeAad (ec_request_id c2)
      (ec_business_domain c2) i2 (ve_params v2)). congruence. }
  unfold accepted_aad_input in E. injection E as _ _ ?? Epu ?????.
  destruct (ef_purpose _ _ _ _ F1) as [p1 P1], (ef_purpose _ _ _ _ F2) as [p2 P2].
  destruct (ef_cert _ _ _ _ F1) as [<- _], (ef_cert _ _ _ _ F2) as [<- _].
  rewrite P1, P2 in Epu; simpl in Epu; subst p2.
  repeat split; try done. by eapply purposeEnumValue_inj.
Qed.

Lemma validateEnvelope_no_replay_witness :
  exists v, validateEnvelope item_up (ctx_for "rid-1")
              EnvelopeLimits_default = Ok v /\
    it_business_key_version item_up = it_business_key_version item_up.
Proof.
  destruct item_up_accepted as [v E]. exists v. split; [done|].
  apply (validateEnvelope_no_replay _ _ _ v _ _ _ v E E); [done|..].
  1, 2: repeat split; unfold str_fits, fits, is_u32, is_u64, zlen; simpl; lia.
  assert (ep_derivation_version (ve_params v) = "d1") as ->.
  { by vm_compute in E; injection E as <-. }
  unfold str_fits, fits, is_u32, zlen; simpl; lia.
Defined.
