(* ===== verification/Json.v ===== *)
(** * The JSON library interface.
    [nlohmann::json] is a parameter: the operations [src/] calls, with the
    documented laws of objects, accessors and of [parse] after [dump]. *)
From S2P Require Import Prelude.
From Stdlib Require Import Ascii.

(** [json_get] is object lookup; [as_*] convert a value or throw ([None]);
    [json_elems] is what a range-for visits. Numbers are the 64-bit integers the
    code stores. *)
Class Json := {
  json : Type;
  json_object : json;
  json_array : list json -> json;
  json_string : string -> json;
  json_bool : bool -> json;
  json_int : Z -> json;
  json_set : json -> string -> json -> json;
  json_is_object : json -> bool;
  json_get : json -> string -> option json;
  json_items : json -> list (string * json);
  as_string : json -> option string;
  as_bool : json -> option bool;
  as_int : json -> option Z;
  as_array : json -> option (list json);
  json_is_unsigned : json -> bool;
  json_elems : json -> list json;
  json_dump : json -> string;
  json_parse : string -> option json
}.

(** The laws the code relies on, for integers a [uint64_t] or [int64_t] holds. *)
Class JsonLaws `(J : Json) : Prop := {
  json_object_is_object : json_is_object json_object = true;
  json_set_is_object j k v : json_is_object j = true -> json_is_object (json_set j k v) = true;
  json_get_object k : json_get json_object k = None;
  json_get_set j k v : json_is_object j = true -> json_get (json_set j k v) k = Some v;
  json_get_set_ne j k k' v :
    json_is_object j = true -> k <> k' -> json_get (json_set j k v) k' = json_get j k';
  json_items_get j k :
    json_is_object j = true -> (list_to_map (json_items j) : gmap string json) !! k = json_get j k;
  json_items_keys j : json_is_object j = true -> NoDup (json_items j).*1;
  as_string_string s : as_string (json_string s) = Some s;
  as_bool_bool b : as_bool (json_bool b) = Some b;
  as_int_int z : is_u64 z \/ is_i64 z -> as_int (json_int z) = Some z;
  as_array_array l : as_array (json_array l) = Some l;
  json_unsigned_int z : is_u64 z -> json_is_unsigned (json_int z) = true;
  json_elems_array l : json_elems (json_array l) = l;
  json_parse_dump j : json_parse (json_dump j) = Some j;
  json_parse_empty : json_parse "" = None
}.

(** Conversion to [int64_t]. *)
Definition wrap_i64 (z : Z) : Z := (z + 2 ^ 63) mod 2 ^ 64 - 2 ^ 63.

Lemma wrap_i64_small z : is_i64 z -> wrap_i64 z = z.
Proof. unfold is_i64, wrap_i64. intros. rewrite Z.mod_small; lia. Qed.

(** Conversion to [int]. *)
Definition wrap_i32 (z : Z) : Z := (z + 2 ^ 31) mod 2 ^ 32 - 2 ^ 31.

Lemma wrap_i32_range z : - 2 ^ 31 <= wrap_i32 z < 2 ^ 31.
Proof. unfold wrap_i32. pose proof (Z.mod_pos_bound (z + 2 ^ 31) (2 ^ 32)). lia. Qed.

Lemma wrap_i32_small z : - 2 ^ 31 <= z < 2 ^ 31 -> wrap_i32 z = z.
Proof. unfold wrap_i32. intros. rewrite Z.mod_small; lia. Qed.

Section Accessors.
Context `{J : Json}.

(** [j.value(key, default)]: throws ([None]) when [j] is not an object or the
    stored value has another type. *)
Definition json_value {A} (as_A : json -> option A) (j : json) (k : string) (d : A) : option A :=
  if json_is_object j then
    match json_get j k with
    | None => Some d
    | Some v => as_A v
    end
  else None.

Definition value_string := json_value as_string.
Definition value_bool := json_value as_bool.
Definition value_int := json_value as_int.
Definition value_json := json_value Some.

(** [value<uint64_t>] and the like convert a stored number to the type of the
    default. *)
Definition value_u64 (j : json) (k : string) (d : Z) : option Z := wrapu 64 <$> value_int j k d.
Definition value_u32 (j : json) (k : string) (d : Z) : option Z := wrapu 32 <$> value_int j k d.
Definition value_i64 (j : json) (k : string) (d : Z) : option Z := wrap_i64 <$> value_int j k d.
Definition value_i32 (j : json) (k : string) (d : Z) : option Z := wrap_i32 <$> value_int j k d.

(** An object built by a sequence of assignments [j[k] = v]. *)
Definition json_of_fields (fs : list (string * json)) : json :=
  fold_left (fun j kv => json_set j kv.1 kv.2) fs json_object.

(** The last assignment to a key wins. *)
Fixpoint field_lookup (k : string) (fs : list (string * json)) : option json :=
  match fs with
  | [] => None
  | (k', v) :: fs =>
      match field_lookup k fs with
      | Some w => Some w
      | None => if String.eqb k' k then Some v else None
      end
  end.

Context `{!JsonLaws J}.

Lemma json_of_fields_aux fs j :
  json_is_object j = true ->
  json_is_object (fold_left (fun j kv => json_set j kv.1 kv.2) fs j) = true /\
  forall k, json_get (fold_left (fun j kv => json_set j kv.1 kv.2) fs j) k =
    match field_lookup k fs with Some v => Some v | None => json_get j k end.
Proof.
  revert j; induction fs as [|[k' v] fs IH]; intros j Hj; simpl; [done|].
  destruct (IH (json_set j k' v)) as [H1 H2]; [by apply json_set_is_object|].
  split; [done|]. intros k. rewrite H2. destruct (field_lookup k fs); [done|].
  destruct (String.eqb_spec k' k) as [->|Hne].
  - by rewrite json_get_set.
  - by rewrite json_get_set_ne.
Qed.

Lemma json_of_fields_object fs : json_is_object (json_of_fields fs) = true.
Proof. apply json_of_fields_aux, json_object_is_object. Qed.

Lemma json_of_fields_get fs k : json_get (json_of_fields fs) k = field_lookup k fs.
Proof.
  destruct (json_of_fields_aux fs json_object json_object_is_object) as [_ H].
  unfold json_of_fields. rewrite H, json_get_object. by destruct (field_lookup k fs).
Qed.

Lemma json_value_fields {A} (as_A : json -> option A) fs k d :
  json_value as_A (json_of_fields fs) k d =
    match field_lookup k fs with Some v => as_A v | None => Some d end.
Proof. unfold json_value. by rewrite json_of_fields_object, json_of_fields_get. Qed.

Lemma value_u64_fields fs k z d :
  field_lookup k fs = Some (json_int z) -> is_u64 z -> value_u64 (json_of_fields fs) k d = Some z.
Proof.
  intros E Hz. unfold value_u64, value_int. rewrite json_value_fields, E, as_int_int by auto.
  simpl. by rewrite wrapu_small.
Qed.

Lemma value_u32_fields fs k z d :
  field_lookup k fs = Some (json_int z) -> is_u32 z -> value_u32 (json_of_fields fs) k d = Some z.
Proof.
  intros E Hz. unfold value_u32, value_int. rewrite json_value_fields, E.
  rewrite as_int_int by (unfold is_u32, is_u64 in *; lia). simpl. by rewrite wrapu_small.
Qed.

Lemma value_i64_fields fs k z d :
  field_lookup k fs = Some (json_int z) -> is_i64 z -> value_i64 (json_of_fields fs) k d = Some z.
Proof.
  intros E Hz. unfold value_i64, value_int. rewrite json_value_fields, E, as_int_int by auto.
  simpl. by rewrite wrap_i64_small.
Qed.

Lemma value_i32_fields fs k z d :
  field_lookup k fs = Some (json_int z) -> - 2 ^ 31 <= z < 2 ^ 31 -> value_i32 (json_of_fields fs) k d = Some z.
Proof.
  intros E Hz. unfold value_i32, value_int. rewrite json_value_fields, E, as_int_int by (unfold is_i64; lia).
  simpl. by rewrite wrap_i32_small.
Qed.

Lemma value_string_fields fs k s d :
  field_lookup k fs = Some (json_string s) -> value_string (json_of_fields fs) k d = Some s.
Proof. intros E. unfold value_string. by rewrite json_value_fields, E, as_string_string. Qed.

Lemma value_bool_fields fs k b d :
  field_lookup k fs = Some (json_bool b) -> value_bool (json_of_fields fs) k d = Some b.
Proof. intros E. unfold value_bool. by rewrite json_value_fields, E, as_bool_bool. Qed.

Lemma field_lookup_map_to_list {V} (f : V -> json) (l : list (string * V)) (m : gmap string V) k :
  (forall k v, (k, v) ∈ l <-> m !! k = Some v) ->
  field_lookup k ((fun kv => (kv.1, f kv.2)) <$> l) = f <$> m !! k.
Proof.
  intros Hl.
  assert (Hs : forall w, field_lookup k ((fun kv => (kv.1, f kv.2)) <$> l) = Some w ->
    exists v, (k, v) ∈ l /\ w = f v).
  { clear. induction l as [|[k' v] l IH]; intros w; simpl; [done|].
    destruct (field_lookup k _) as [u|]; [intros; simplify_eq; destruct (IH w) as (x&?&?);
      [done|]; exists x; split; [by right|done]|].
    destruct (String.eqb_spec k' k); [|done]. intros; simplify_eq. exists v. by split; [left|]. }
  assert (Hn : field_lookup k ((fun kv => (kv.1, f kv.2)) <$> l) = None ->
    forall v, (k, v) ∉ l).
  { clear. induction l as [|[k' v'] l IH]; intros E v Hin; [by apply not_elem_of_nil in Hin|].
    simpl in E. destruct (field_lookup k _) eqn:E'; [done|].
    destruct (String.eqb_spec k' k) as [|Hne]; [done|].
    apply elem_of_cons in Hin as [?|Hin]; [simplify_eq|]. by eapply IH. }
  destruct (field_lookup k _) as [w|] eqn:E.
  - destruct (Hs w eq_refl) as (v & Hv & ->). apply Hl in Hv. by rewrite Hv.
  - destruct (m !! k) as [v|] eqn:Ev; [|done]. exfalso. apply (Hn eq_refl v), Hl, Ev.
Qed.

(** The members of an object written with distinct keys, in the library's order. *)
Lemma json_items_fields fs : NoDup fs.*1 -> json_items (json_of_fields fs) ≡ₚ fs.
Proof.
  intros Hd. pose proof (json_of_fields_object fs) as Ho.
  apply (list_to_map_inj (M:=gmap string)); [by apply json_items_keys|done|].
  apply map_eq. intros k. rewrite json_items_get, json_of_fields_get by done. clear Ho.
  induction fs as [|[k' v] fs IH]; [done|]. apply NoDup_cons in Hd as [Hk Hd]. cbn.
  rewrite IH by done. destruct (String.eqb_spec k' k) as [->|Hne].
  - rewrite lookup_insert_eq. by rewrite (not_elem_of_list_to_map_1 _ _ Hk).
  - rewrite lookup_insert_ne by done. by destruct (list_to_map fs !! k).
Qed.

(** The object written from a map, key by key in iteration order. *)
Definition json_of_map {V} (f : V -> json) (m : gmap string V) : json :=
  json_of_fields ((fun kv => (kv.1, f kv.2)) <$> map_items m).

Lemma json_of_map_object {V} (f : V -> json) (m : gmap string V) :
  json_is_object (json_of_map f m) = true.
Proof. apply json_of_fields_object. Qed.

(** Reading it back gives the pairs of the map, each key once. *)
Lemma json_of_map_items {V} (f : V -> json) (m : gmap string V) :
  NoDup (json_items (json_of_map f m)).*1 /\
  (list_to_map (json_items (json_of_map f m)) : gmap string json) = f <$> m.
Proof.
  pose proof (json_of_map_object f m) as Ho. split; [by apply json_items_keys|].
  apply map_eq. intros k. rewrite json_items_get, lookup_fmap by done.
  unfold json_of_map. rewrite json_of_fields_get. apply field_lookup_map_to_list.
  intros k' v. apply elem_of_map_items.
Qed.
End Accessors.

(** Evaluate a reader on the object a writer built, field by field. *)
Ltac json_fields :=
  repeat first [erewrite value_string_fields by reflexivity
    | erewrite value_bool_fields by reflexivity
    | erewrite value_u64_fields by (reflexivity || done)
    | erewrite value_i64_fields by (reflexivity || done)];
  cbn [mbind option_bind].

(** The loops [for (auto& [k, v] : j.items()) m[k] = from(v);] on a bad element
    the map keeps the elements read before it, and the exception leaves the
    loop ([false]). *)
Section LoadMap.
Context `{J : Json} {V : Type} (from : json -> option V).

Fixpoint load_map (l : list (string * json)) (m : gmap string V) : bool * gmap string V :=
  match l with
  | [] => (true, m)
  | (k, j) :: l =>
      match from j with
      | None => (false, m)
      | Some v => load_map l (<[k := v]> m)
      end
  end.

Lemma load_map_spec l (m g : gmap string V) :
  NoDup l.*1 ->
  (forall k j, (k, j) ∈ l -> exists v, from j = Some v /\ g !! k = Some v) ->
  exists m', load_map l m = (true, m') /\
    forall k, m' !! k = if decide (k ∈ l.*1) then g !! k else m !! k.
Proof.
  revert m; induction l as [|[k j] l IH]; intros m Hd Hf; simpl.
  - by exists m.
  - apply NoDup_cons in Hd as [Hk Hd]. destruct (Hf k j) as (v & -> & Hg); [by left|].
    destruct (IH (<[k:=v]> m)) as (m' & -> & Hm'); [done|intros; apply Hf; by right|].
    exists m'. split; [done|]. intros k'. rewrite Hm'. clear -Hk Hg.
    destruct (decide (k' = k)) as [->|Hne].
    + rewrite decide_False by done. rewrite decide_True by by left. by rewrite lookup_insert_eq.
    + rewrite lookup_insert_ne by done. destruct (decide (k' ∈ l.*1)) as [Hin|Hin].
      * by rewrite decide_True by by right.
      * rewrite decide_False; [done|]. intros [?|?]%elem_of_cons; done.
Qed.

Context `{!JsonLaws J}.

(** Loading what was written from a map whose values survive the conversion. *)
Lemma load_map_json_of_map (f : V -> json) (m : gmap string V) :
  (forall k v, m !! k = Some v -> from (f v) = Some v) ->
  load_map (json_items (json_of_map f m)) ∅ = (true, m).
Proof.
  intros Hf. destruct (json_of_map_items f m) as [Hd Hl].
  assert (Hin : forall k j, (k, j) ∈ json_items (json_of_map f m) <-> f <$> m !! k = Some j).
  { intros k j. rewrite <- lookup_fmap, <- Hl. by apply elem_of_list_to_map. }
  destruct (load_map_spec (json_items (json_of_map f m)) ∅ m Hd) as (m' & -> & Hm').
  { intros k j E%Hin. destruct (m !! k) as [v|] eqn:Ev; simplify_eq/=. eauto. }
  f_equal. apply map_eq. intros k. rewrite Hm', lookup_empty.
  destruct (decide _) as [|Hk]; [done|]. destruct (m !! k) as [v|] eqn:Ev; [|done].
  exfalso. apply Hk. apply list_elem_of_fmap. exists (k, f v). split; [done|].
  apply Hin. by rewrite Ev.
Qed.
End LoadMap.

(* --------------------------------------------------------------------- *)
(** ** A concrete JSON type for the witnesses                             *)
(* --------------------------------------------------------------------- *)

Module JsonSample.
#[warnings="-register-all"]
Inductive value :=
  | VObj (fs : list (string * value))
  | VArr (l : list value)
  | VStr (s : string)
  | VBool (b : bool)
  | VInt (z : Z).

(** Values as trees with labelled leaves, the form stdpp can encode. *)
Fixpoint to_tree (v : value) : gen_tree (string + bool + Z) :=
  match v with
  | VObj fs => GenNode 0 ((fun kv => GenNode 2 [GenLeaf (inl (inl kv.1)); to_tree kv.2]) <$> fs)
  | VArr l => GenNode 1 (to_tree <$> l)
  | VStr s => GenLeaf (inl (inl s))
  | VBool b => GenLeaf (inl (inr b))
  | VInt z => GenLeaf (inr z)
  end.

Fixpoint of_tree (t : gen_tree (string + bool + Z)) : value :=
  match t with
  | GenLeaf (inl (inl s)) => VStr s
  | GenLeaf (inl (inr b)) => VBool b
  | GenLeaf (inr z) => VInt z
  | GenNode 0 l => VObj ((fun t =>
      match t with
      | GenNode _ [GenLeaf (inl (inl k)); v] => (k, of_tree v)
      | _ => ("", VBool false)
      end) <$> l)
  | GenNode _ l => VArr (of_tree <$> l)
  end.

Lemma of_to_tree : forall v, of_tree (to_tree v) = v.
Proof.
  fix IH 1. intros [fs|l|s|b|z]; simpl; [| |done..].
  - f_equal. induction fs as [|[k v] fs IHfs]; [done|]. cbn. by rewrite IH, IHfs.
  - f_equal. induction l as [|v l IHl]; [done|]. cbn. by rewrite IH, IHl.
Qed.

#[export] Instance value_eq_dec : EqDecision value.
Proof.
  refine (fun v w => match decide (to_tree v = to_tree w) with
    | left H => left _ | right H => right _ end); [|congruence].
  by rewrite <- (of_to_tree v), H, of_to_tree.
Defined.

#[export] Instance value_countable : Countable value := inj_countable' to_tree of_tree of_to_tree.

(** A text for every value: the binary digits of its number. *)
Fixpoint bits (p : positive) : string :=
  match p with
  | xH => ""
  | xO p => String "0"%char (bits p)
  | xI p => String "1"%char (bits p)
  end.
Fixpoint unbits (s : string) : positive :=
  match s with
  | EmptyString => xH
  | String "0"%char s => xO (unbits s)
  | String _ s => xI (unbits s)
  end.

Lemma unbits_bits p : unbits (bits p) = p.
Proof. induction p; simpl; congruence. Qed.

Definition fields (fs : list (string * value)) : gmap string value := list_to_map fs.

Definition parse_text (s : string) : option value :=
  match s with EmptyString => None | _ => decode (unbits s) end.

#[export] Instance sample_json : Json := {|
  json := value;
  json_object := VObj [];
  json_array := VArr;
  json_string := VStr;
  json_bool := VBool;
  json_int := VInt;
  json_set j k v := match j with VObj fs => VObj ((k, v) :: fs) | _ => j end;
  json_is_object j := match j with VObj _ => true | _ => false end;
  json_get j k := match j with VObj fs => fields fs !! k | _ => None end;
  json_items j := match j with VObj fs => map_to_list (fields fs) | _ => [] end;
  as_string j := match j with VStr s => Some s | _ => None end;
  as_bool j := match j with VBool b => Some b | _ => None end;
  as_int j := match j with VInt z => Some z | _ => None end;
  as_array j := match j with VArr l => Some l | _ => None end;
  json_is_unsigned j := match j with VInt z => 0 <=? z | _ => false end;
  json_elems j := match j with
    | VArr l => l
    | VObj fs => (map_to_list (fields fs)).*2
    | _ => [j]
    end;
  json_dump j := bits (encode j);
  json_parse := parse_text
|}.

(** No value has the empty text. *)
Lemma bits_encode (j : value) : bits (encode j) <> "".
Proof.
  intros E. assert (encode j = xH) as E1 by (by destruct (encode j)).
  apply (f_equal (decode (A:=value))) in E1. rewrite decode_encode in E1. by vm_compute in E1.
Qed.

#[export] Instance sample_json_laws : JsonLaws sample_json.
Proof.
  split; try done.
  - by intros [] ? ?.
  - intros [fs| | | |] k v Ho; try done. apply (lookup_insert_eq (M:=gmap string)).
  - intros [fs| | | |] k v k' Ho Hne; try done. by apply (lookup_insert_ne (M:=gmap string)).
  - intros [fs| | | |] k Ho; try done. cbn. by rewrite list_to_map_to_list.
  - intros [fs| | | |] Ho; try done. cbn. apply NoDup_fst_map_to_list.
  - intros z [Hz _]. by apply Z.leb_le.
  - intros j.
    assert (parse_text (bits (encode j)) = Some j) as E; [|exact E].
    pose proof (bits_encode j) as Hne. unfold parse_text.
    rewrite unbits_bits, decode_encode. destruct (bits (encode j)) eqn:E; [by destruct (Hne E)|done].
Qed.
End JsonSample.
