(* ===== verification/X509.v ===== *)
(** * X.509 certificates as OpenSSL hands them out.
    OpenSSL is a parameter: the class lists what [src/certificate_chain_parser.cpp],
    [src/certificate_chain_canonicalizer.cpp], [src/cert_validator.cpp],
    [src/device_key_agreement.cpp] and [src/tls_credential_provider.cpp] read from
    a certificate. Certificates are values; ownership and [X509_free] have no
    counterpart. *)
From S2P Require Import Prelude.
From Stdlib Require Import Ascii.

Class X509Lib := {
  X509 : Type;
  (** [d2i_X509]: the certificate and the number of bytes read. *)
  d2i_X509 : bytes -> option (X509 * nat);
  (** [i2d_X509]; empty when it fails. *)
  i2d_X509 : X509 -> bytes;
  (** Every certificate [PEM_read_bio_X509] returns before its first failure. *)
  PEM_read_bio_X509s : string -> list X509;
  PEM_write_bio_X509 : X509 -> option string;
  (** Extended key usages in dotted form, when the extension is present. *)
  x509_eku : X509 -> option (list string);
  (** [ca] of the basic constraints, when the extension is present. *)
  x509_basic_constraints_ca : X509 -> option bool;
  (** The octets of the key usage bit string, when the extension is present. *)
  x509_key_usage : X509 -> option bytes;
  (** The extensions: numeric identifier and critical flag. *)
  x509_extensions : X509 -> list (Z * bool);
  (** The first common name of the subject, in UTF-8. *)
  x509_subject_cn : X509 -> option string;
  (** Subject and issuer are the same name. *)
  x509_self_issued : X509 -> bool;
  (** The signature verifies under the certificate's own key. *)
  x509_verify_own : X509 -> bool;
  (** [ASN1_TIME_to_tm] of the validity bounds, in seconds since the epoch. *)
  x509_notBefore : X509 -> option Z;
  x509_notAfter : X509 -> option Z;
  (** The uncompressed point of an EC key; [None] for another key. *)
  x509_ec_point : X509 -> option bytes;
  x509_is_prime256v1 : X509 -> bool;
  (** The serial number in hexadecimal, the names in one line, and the subject's
      public key as [i2d_PublicKey] writes it; absent when a call fails. *)
  x509_serial_hex : X509 -> option string;
  x509_issuer_oneline : X509 -> option string;
  x509_subject_oneline : X509 -> option string;
  i2d_PublicKey : X509 -> option bytes
}.

Definition pem_begin : string := "-----BEGIN CERTIFICATE-----".
Definition pem_end : string := "-----END CERTIFICATE-----".

(** The white space and the base64 alphabet of a PEM text. *)
Definition is_pem_space (c : ascii) : bool :=
  let z := Z.of_N (N_of_ascii c) in (z =? 32) || (9 <=? z) && (z <=? 13).
Definition is_base64 (c : ascii) : bool :=
  let z := Z.of_N (N_of_ascii c) in
  (48 <=? z) && (z <=? 57) || (65 <=? z) && (z <=? 90) || (97 <=? z) && (z <=? 122)
  || (z =? 43) || (z =? 47) || (z =? 61).
Definition is_pem_body (c : ascii) : bool := is_base64 c || is_pem_space c.

(** Documented behaviour of the PEM codec: a certificate is written as one block of
    base64 between the two labels, and is read back block by block. *)
Class X509Laws `(L : X509Lib) : Prop := {
  PEM_read_nil : PEM_read_bio_X509s "" = [];
  PEM_read_write c s t :
    PEM_write_bio_X509 c = Some s ->
    PEM_read_bio_X509s (s ++ t)%string = c :: PEM_read_bio_X509s t;
  PEM_write_block c s :
    PEM_write_bio_X509 c = Some s ->
    exists body nl, s = (pem_begin ++ body ++ pem_end ++ nl)%string /\
      str_all is_pem_body body = true /\ str_all is_pem_space nl = true
}.

Definition NID_subject_key_identifier : Z := 82.
Definition NID_key_usage : Z := 83.
Definition NID_subject_alt_name : Z := 85.
Definition NID_basic_constraints : Z := 87.
Definition NID_authority_key_identifier : Z := 90.
Definition NID_ext_key_usage : Z := 126.

Definition KU_DIGITAL_SIGNATURE : Z := 128.
Definition KU_KEY_AGREEMENT : Z := 8.

(** [timegm] of a zeroed [struct tm], what the code computes with when
    [ASN1_TIME_to_tm] fails and the failure is ignored. *)
Definition timegm_zero : Z := -2209075200.

Section Chains.
Context `{L : X509Lib}.

(** [PEM_write_bio_X509] of each certificate into one buffer. *)
Fixpoint pem_of_chain (cs : list X509) : option string :=
  match cs with
  | [] => Some ""%string
  | c :: cs =>
      match PEM_write_bio_X509 c, pem_of_chain cs with
      | Some s, Some t => Some (s ++ t)%string
      | _, _ => None
      end
  end.

Context `{!X509Laws L}.

Lemma pem_of_chain_read cs s : pem_of_chain cs = Some s -> PEM_read_bio_X509s s = cs.
Proof.
  revert s; induction cs as [|c cs IH]; intros s; simpl.
  - intros [= <-]. apply PEM_read_nil.
  - destruct (PEM_write_bio_X509 c) as [a|] eqn:Ea; [|done].
    destruct (pem_of_chain cs) as [t|] eqn:Et; [|done].
    intros [= <-]. by rewrite (PEM_read_write _ _ _ Ea), (IH t).
Qed.
End Chains.

(* --------------------------------------------------------------------- *)
(** ** A concrete library for the witnesses                               *)
(* --------------------------------------------------------------------- *)

(** Certificates are the letters of a fixed table: [0] a device leaf, [1] an
    intermediate CA, [2] the root, [3] a leaf for server authentication. *)
Module X509Sample.
Definition der (c : nat) : bytes := [x30; byte_of (Z.of_nat c)].
Definition letter (c : nat) : Ascii.ascii := Ascii.ascii_of_nat (65 + c).
Definition pem (c : nat) : string := pem_begin ++ String (letter c) pem_end.

Fixpoint skip_ws (s : string) : string :=
  match s with
  | String c s' => if is_pem_space c then skip_ws s' else s
  | EmptyString => EmptyString
  end.

Lemma skip_ws_length s : (String.length (skip_ws s) <= String.length s)%nat.
Proof. induction s as [|c s IH]; cbn; [lia|]. case_match; cbn; lia. Qed.

Definition read_block (s : string) : option (nat * string) :=
  let s := skip_ws s in
  if String.prefix pem_begin s then
    match str_drop 27 s with
    | String a rest =>
        let n := (Ascii.nat_of_ascii a - 65)%nat in
        if String.eqb (String a "") (String (letter n) "") && String.prefix pem_end rest
        then Some (n, str_drop 25 rest) else None
    | EmptyString => None
    end
  else None.

Fixpoint read_pem (fuel : nat) (s : string) : list nat :=
  match fuel, read_block s with
  | S fuel, Some (n, rest) => n :: read_pem fuel rest
  | _, _ => []
  end.

Lemma read_block_shorter s n t : read_block s = Some (n, t) -> (String.length t < String.length s)%nat.
Proof.
  unfold read_block. pose proof (skip_ws_length s) as Hw. revert Hw. generalize (skip_ws s). intros u Hw.
  destruct (String.prefix _ _); [|done].
  pose proof (length_str_drop 27 u) as Hl. destruct (str_drop 27 u) as [|a rest]; [done|].
  destruct (_ && _); [|done]. pose proof (length_str_drop 25 rest) as Hr.
  set (v := str_drop 25 rest) in *. clearbody v. intros [= _ <-]. cbn [String.length] in Hl. lia.
Qed.

Lemma read_pem_fuel f g s :
  (String.length s <= f)%nat -> (String.length s <= g)%nat -> read_pem f s = read_pem g s.
Proof.
  revert g s; induction f as [|f IH]; intros [|g] s Hf Hg.
  - done.
  - destruct s; [done|simpl in Hf; lia].
  - destruct s; [done|simpl in Hg; lia].
  - simpl. destruct (read_block s) as [[n t]|] eqn:E; [|done].
    apply read_block_shorter in E. f_equal. apply IH; lia.
Qed.

Lemma read_block_pem c t : (c < 26)%nat -> read_block (pem c ++ t) = Some (c, t).
Proof. intros Hc. do 26 (destruct c as [|c]; [by destruct t|]). lia. Qed.

#[export] Instance sample_x509 : X509Lib := {|
  X509 := nat;
  d2i_X509 b := match b with x30 :: x :: _ => Some (Z.to_nat (bval x), 2%nat) | _ => None end;
  i2d_X509 := der;
  PEM_read_bio_X509s s := read_pem (String.length s) s;
  PEM_write_bio_X509 c := if (c <? 26)%nat then Some (pem c) else None;
  x509_eku c := match c with
    | O => Some ["1.3.6.1.5.5.7.3.2"%string]
    | 3%nat => Some ["1.3.6.1.5.5.7.3.1"%string]
    | _ => None end;
  x509_basic_constraints_ca c := match c with 1%nat | 2%nat => Some true | _ => None end;
  x509_key_usage c := Some [byte_of 136];
  x509_extensions c := [(NID_key_usage, true)];
  x509_subject_cn c := Some "ECU-1"%string;
  x509_self_issued c := Nat.eqb c 2;
  x509_verify_own c := Nat.eqb c 2;
  x509_notBefore c := Some 1000;
  x509_notAfter c := Some 9000;
  x509_ec_point c := Some [x04; byte_of (Z.of_nat c)];
  x509_is_prime256v1 c := true;
  x509_serial_hex c := Some "01"%string;
  x509_issuer_oneline c := Some "/CN=CA"%string;
  x509_subject_oneline c := Some "/CN=ECU-1"%string;
  i2d_PublicKey c := Some [x04; byte_of (Z.of_nat c)]
|}.

#[export] Instance sample_x509_laws : X509Laws sample_x509.
Proof.
  split; cbn [PEM_read_bio_X509s PEM_write_bio_X509 sample_x509].
  - done.
  - intros c s t. destruct (Nat.ltb_spec c 26) as [Hc|]; [|done]. intros E.
    apply (inj Some) in E as <-. pose proof (read_block_shorter _ _ _ (read_block_pem c t Hc)).
    destruct (String.length (pem c ++ t)) as [|n] eqn:El; [lia|].
    cbn [read_pem]. rewrite read_block_pem by done. f_equal. apply read_pem_fuel; lia.
  - intros c s. destruct (Nat.ltb_spec c 26) as [Hc|]; [|done]. intros E. apply (inj Some) in E as <-.
    exists (String (letter c) ""), "". split; [by do 26 (destruct c as [|c]; [done|]); lia|].
    split; [|done]. by do 26 (destruct c as [|c]; [done|]); lia.
Qed.
End X509Sample.
