(* ===== verification/Provider.v ===== *)
(** * The business-key provider boundary.
    Models the data and the abstract class of [include/business_key_provider.h]:
    slots, device binding, journal entries, structured journal reads, and the
    operations [BusinessKeyProvisioningService] is written against. *)
From S2P Require Import Prelude Errors Canonical KeyTypes Envelope.

(** [src/include/business_key_provider.h:31-40] BusinessKeySlotInfo *)
Record BusinessKeySlotInfo := mkSlotInfo {
  si_present : bool;
  si_state : BusinessKeyState;
  si_business_key_version : Z;
  si_key_id_digest : string;
  si_algorithm : string;
  si_valid_from_ms : Z;
  si_valid_to_ms : Z;
  si_active_generation : Z
}.
Definition BusinessKeySlotInfo_default : BusinessKeySlotInfo :=
  mkSlotInfo false BKS_MISSING 0 "" "" 0 0 0.

(** [src/include/business_key_provider.h:44-76] BusinessKeyDeviceBinding *)
Record BusinessKeyDeviceBinding := mkBinding {
  db_ready : bool;
  db_device_identity : string;
  db_device_key_id : string;
  db_device_public_key : bytes;
  db_active_cert_p256 : bool;
  db_active_cert_key_agreement : bool;
  db_active_cert_digital_signature : bool;
  db_private_key_can_derive : bool;
  db_private_key_can_sign : bool;
  db_active_cert_digest : bytes;
  db_active_cert_valid_from_ms : Z;
  db_active_cert_valid_to_ms : Z;
  db_active_cert_ca_false : bool;
  db_active_cert_eku_client_auth_only : bool;
  db_active_cert_critical_extensions_allowed : bool;
  db_active_cert_leaf_digest_bound : bool;
  db_active_cert_chain_key_match : bool;
  db_identity_template_sign_derive : bool
}.
Definition BusinessKeyDeviceBinding_default : BusinessKeyDeviceBinding :=
  mkBinding false "" "" [] false false false false false [] 0 0 false false false false false false.

(** [src/include/business_key_provider.h:82-96] BusinessKeyJournalEntry *)
Record BusinessKeyJournalEntry := mkEntry {
  je_request_id_digest : string;
  je_request_digest : string;
  je_phase : BusinessKeyImportPhase;
  je_generation : Z;
  je_items : list BusinessKeyStatus;
  je_created_at_ms : Z;
  je_committed_at_ms : Z;
  je_provider_version_digest : string;
  je_last_error : string;
  je_import_proof : bytes;
  je_proof_algorithm : string;
  je_binding_certificate_digest : bytes
}.
Definition BusinessKeyJournalEntry_default : BusinessKeyJournalEntry :=
  mkEntry "" "" BIP_UNKNOWN 0 [] 0 0 "" "" [] "" [].

(** Field assignments [entry.phase = p] and [entry.last_error = s]. *)
Definition set_phase (p : BusinessKeyImportPhase) (e : BusinessKeyJournalEntry) :
    BusinessKeyJournalEntry :=
  mkEntry (je_request_id_digest e) (je_request_digest e) p (je_generation e) (je_items e)
    (je_created_at_ms e) (je_committed_at_ms e) (je_provider_version_digest e) (je_last_error e)
    (je_import_proof e) (je_proof_algorithm e) (je_binding_certificate_digest e).
Definition set_last_error (s : string) (e : BusinessKeyJournalEntry) : BusinessKeyJournalEntry :=
  mkEntry (je_request_id_digest e) (je_request_digest e) (je_phase e) (je_generation e) (je_items e)
    (je_created_at_ms e) (je_committed_at_ms e) (je_provider_version_digest e) s
    (je_import_proof e) (je_proof_algorithm e) (je_binding_certificate_digest e).

(** [src/include/business_key_provider.h:99-111] BusinessKeyProviderCapability *)
Record BusinessKeyProviderCapability := mkProviderCap {
  pc_p256_ecdh : bool;
  pc_hkdf_sha256 : bool;
  pc_aes256_gcm_decrypt_to_slot : bool;
  pc_atomic_dual_slot_commit : bool;
  pc_ecdsa_p256_sha256_p1363 : bool;
  pc_secure_journal_ready : bool
}.
Definition BusinessKeyProviderCapability_default : BusinessKeyProviderCapability :=
  mkProviderCap false false false false false false.

(** [src/include/business_key_provider.h:119-126] JournalLoadStatus *)
Inductive JournalLoadStatus :=
  | JLS_FOUND | JLS_NOT_FOUND | JLS_IO_ERROR | JLS_AUTH_FAILED | JLS_CORRUPT
  | JLS_UNSUPPORTED_VERSION.

#[global] Instance JournalLoadStatus_eq_dec : EqDecision JournalLoadStatus.
Proof. solve_decision. Defined.

(** [src/include/business_key_provider.h:130-134] JournalLoadResult *)
Record JournalLoadResult := mkLoad {
  jl_status : JournalLoadStatus;
  jl_entry : option BusinessKeyJournalEntry;
  jl_provider_error : ErrorCode
}.

(** The virtual operations. The ones documented as reads ([isReady],
    [providerVersionDigest], [capability], [verifyStaging], [querySlot],
    [loadJournalEx], [hasTransactionResidue], [storageReplaced], [listJournal],
    [hasPendingStaging]) are functions of the state; the others also return the
    state they leave. *)
(** [src/include/business_key_provider.h:148-262] BusinessKeyProvider *)
Class BusinessKeyProvider (P : Type) := {
  bp_initialize : st P ErrorCode;
  bp_isReady : P -> bool;
  bp_providerVersionDigest : P -> string;
  bp_capability : P -> BusinessKeyProviderCapability;
  bp_unwrapToStaging : string -> WrappedKeyItem -> EcdhEsP256EnvelopeParameters -> bytes ->
    bytes -> BusinessKeyDeviceBinding -> Z -> st P (ErrorCode * kcv3);
  bp_verifyStaging : string -> string -> P -> ErrorCode;
  bp_commitBatch : string -> Z -> st P ErrorCode;
  bp_rollbackStaging : string -> Z -> st P ErrorCode;
  bp_querySlot : string -> string -> P -> ErrorCode * BusinessKeySlotInfo;
  bp_generateProof : string -> string -> Z -> string -> string -> bytes -> bytes ->
    st P (ErrorCode * bytes * string);
  bp_loadJournalEx : string -> P -> JournalLoadResult;
  bp_hasTransactionResidue : string -> P -> bool;
  bp_storageReplaced : P -> bool;
  bp_saveJournal : BusinessKeyJournalEntry -> st P ErrorCode;
  bp_listJournal : P -> list BusinessKeyJournalEntry;
  bp_hasPendingStaging : P -> bool
}.

(** The compatibility wrapper of the base class; [None] is the [false] result. *)
(** [src/include/business_key_provider.h:241-255] BusinessKeyProvider::loadJournal *)
Definition bp_loadJournal {P} `{BusinessKeyProvider P} (request_id_digest : string) (p : P) :
    option BusinessKeyJournalEntry :=
  let r := bp_loadJournalEx request_id_digest p in
  match jl_status r, jl_entry r with
  | JLS_FOUND, Some e => Some e
  | JLS_AUTH_FAILED, _ =>
      Some (mkEntry request_id_digest "" BIP_UNKNOWN 0 [] 0 0 "" "" [] "" [])
  | _, _ => None
  end.
