(* ===== verification/Ledger.v ===== *)
(** * SecureMetadataLedger: the non-authoritative metadata copy.
    Models [src/secure_metadata_ledger.cpp]. The store is a parameter; the
    in-memory map is updated before the store is written, as in the code. *)
From S2P Require Import Prelude Errors KeyTypes Json.

(** The store behind the ledger. [lstore_save] returns [false] when it throws. *)
Class LedgerStore (D : Type) := {
  lstore_isReady : D -> bool;
  lstore_has : string -> D -> bool;
  lstore_load : string -> D -> option string;
  lstore_save : string -> string -> st D bool
}.

(** What a store promises: a value it saved is there, and saving does not make it
    unusable. *)
Class LedgerStoreLaws (D : Type) `{LedgerStore D} : Prop := {
  lstore_save_has k v d d' : lstore_save k v d = (true, d') -> lstore_has k d' = true;
  lstore_save_load k v d d' : lstore_save k v d = (true, d') -> lstore_load k d' = Some v;
  lstore_save_ready k v d : lstore_isReady (lstore_save k v d).2 = lstore_isReady d
}.

(** [src/include/secure_metadata_ledger.h:29-42] BusinessKeyMetadata *)
Record BusinessKeyMetadata := mkMeta {
  bm_present : bool;
  bm_business_domain : string;
  bm_purpose : string;
  bm_key_id_digest : string;
  bm_business_key_version : Z;
  bm_algorithm : string;
  bm_valid_from_ms : Z;
  bm_valid_to_ms : Z;
  bm_active_generation : Z;
  bm_request_id_digest : string;
  bm_created_at_ms : Z;
  bm_committed_at_ms : Z
}.
Definition BusinessKeyMetadata_default : BusinessKeyMetadata :=
  mkMeta false "" "" "" 0 "" 0 0 0 "" 0 0.

#[global] Instance BusinessKeyMetadata_eq_dec : EqDecision BusinessKeyMetadata.
Proof. solve_decision. Defined.

(** [src/src/secure_metadata_ledger.cpp:14-20] SecureMetadataLedger::Impl *)
Record LedgerState (D : Type) := mkLedger {
  lg_store : D;
  lg_entries : gmap string BusinessKeyMetadata
}.
Arguments mkLedger {D}.
Arguments lg_store {D}. Arguments lg_entries {D}.

(** [src/src/secure_metadata_ledger.cpp:22-24] make_key *)
Definition make_key (domain purpose : string) : string := domain +:+ "|" +:+ purpose.

Section Operations.
Context {D : Type} `{Store : LedgerStore D} `{J : Json}.
Implicit Types l : LedgerState D.

(** [src/src/secure_metadata_ledger.cpp:26-40] to_json *)
Definition meta_to_json (m : BusinessKeyMetadata) : json := json_of_fields
  [("business_domain", json_string (bm_business_domain m));
   ("purpose", json_string (bm_purpose m));
   ("key_id_digest", json_string (bm_key_id_digest m));
   ("business_key_version", json_int (bm_business_key_version m));
   ("algorithm", json_string (bm_algorithm m));
   ("valid_from_ms", json_int (bm_valid_from_ms m));
   ("valid_to_ms", json_int (bm_valid_to_ms m));
   ("active_generation", json_int (bm_active_generation m));
   ("request_id_digest", json_string (bm_request_id_digest m));
   ("created_at_ms", json_int (bm_created_at_ms m));
   ("committed_at_ms", json_int (bm_committed_at_ms m))].

(** [src/src/secure_metadata_ledger.cpp:42-57] from_json *)
Definition meta_from_json (j : json) : option BusinessKeyMetadata :=
  business_domain ← value_string j "business_domain" "";
  purpose ← value_string j "purpose" "";
  key_id_digest ← value_string j "key_id_digest" "";
  business_key_version ← value_u64 j "business_key_version" 0;
  algorithm ← value_string j "algorithm" "";
  valid_from_ms ← value_i64 j "valid_from_ms" 0;
  valid_to_ms ← value_i64 j "valid_to_ms" 0;
  active_generation ← value_u64 j "active_generation" 0;
  request_id_digest ← value_string j "request_id_digest" "";
  created_at_ms ← value_i64 j "created_at_ms" 0;
  committed_at_ms ← value_i64 j "committed_at_ms" 0;
  Some (mkMeta true business_domain purpose key_id_digest business_key_version algorithm
          valid_from_ms valid_to_ms active_generation request_id_digest created_at_ms
          committed_at_ms).

(** [src/src/secure_metadata_ledger.cpp:65-79] load *)
Definition ledger_load : st (LedgerState D) ErrorCode := fun l =>
  if negb (lstore_isReady (lg_store l)) then (BUSINESS_KEY_NOT_READY, l) else
  if negb (lstore_has "ledger" (lg_store l)) then (SUCCESS, l) else
  match lstore_load "ledger" (lg_store l) ≫= json_parse with
  | None => (STORAGE_CORRUPTION, l)
  | Some j =>
      let '(ok, entries) := load_map meta_from_json (json_items j) ∅ in
      ((if ok then SUCCESS else STORAGE_CORRUPTION), mkLedger (lg_store l) entries)
  end.

(** [None] is the [false] result, with [out] reset. *)
(** [src/src/secure_metadata_ledger.cpp:81-91] get *)
Definition ledger_get (domain purpose : string) (l : LedgerState D) : option BusinessKeyMetadata :=
  lg_entries l !! make_key domain purpose.

(** [src/src/secure_metadata_ledger.cpp:93-107] put *)
Definition ledger_put (meta : BusinessKeyMetadata) : st (LedgerState D) ErrorCode := fun l =>
  if negb (lstore_isReady (lg_store l)) then (BUSINESS_KEY_NOT_READY, l) else
  let entries := <[make_key (bm_business_domain meta) (bm_purpose meta) := meta]> (lg_entries l) in
  let '(ok, d) :=
    lstore_save "ledger" (json_dump (json_of_map meta_to_json entries)) (lg_store l) in
  ((if ok then SUCCESS else STORAGE_WRITE_FAILED), mkLedger d entries).

(* --------------------------------------------------------------------- *)
(** ** Facts                                                              *)
(* --------------------------------------------------------------------- *)

(** The C++ types of the fields; every stored entry is marked present. *)
Definition meta_wf (m : BusinessKeyMetadata) : Prop :=
  bm_present m = true /\ is_u64 (bm_business_key_version m) /\ is_u64 (bm_active_generation m) /\
  is_i64 (bm_valid_from_ms m) /\ is_i64 (bm_valid_to_ms m) /\
  is_i64 (bm_created_at_ms m) /\ is_i64 (bm_committed_at_ms m).

Definition ledger_wf l : Prop := map_Forall (fun _ m => meta_wf m) (lg_entries l).

Lemma ledger_get_put meta l domain purpose :
  lstore_isReady (lg_store l) = true ->
  ledger_get domain purpose (ledger_put meta l).2 =
    if decide (make_key (bm_business_domain meta) (bm_purpose meta) = make_key domain purpose)
    then Some meta else ledger_get domain purpose l.
Proof.
  intros Hr. unfold ledger_get, ledger_put. rewrite Hr. simpl.
  destruct (lstore_save _ _ _) as [ok d]. simpl.
  case_decide as E; [by rewrite E, lookup_insert_eq|by rewrite lookup_insert_ne].
Qed.

Lemma ledger_put_wf meta l :
  meta_wf meta -> ledger_wf l -> ledger_wf (ledger_put meta l).2.
Proof.
  intros Hm Hl. unfold ledger_put. step_goal; [done|].
  destruct (lstore_save _ _ _) as [ok d]. by apply map_Forall_insert_2.
Qed.

Context `{!JsonLaws J}.

Lemma meta_json_roundtrip m : meta_wf m -> meta_from_json (meta_to_json m) = Some m.
Proof.
  intros (Hp&?&?&?&?&?&?). unfold meta_from_json, meta_to_json.
  json_fields. rewrite <- Hp. by destruct m.
Qed.

Lemma load_entries_roundtrip (m : gmap string BusinessKeyMetadata) :
  map_Forall (fun _ m => meta_wf m) m ->
  load_map meta_from_json (json_items (json_of_map meta_to_json m)) ∅ = (true, m).
Proof.
  intros Hm. apply load_map_json_of_map; [done|]. intros k v Hk.
  apply meta_json_roundtrip, (map_Forall_lookup_1 _ _ _ _ Hm Hk).
Qed.
End Operations.

(* --------------------------------------------------------------------- *)
(** ** A concrete store for the witnesses                                 *)
(* --------------------------------------------------------------------- *)

Module LedgerSample.
Export JsonSample.

(** A ready store holding a map; the save fails when its fault bit is set. *)
Record disk := mkDisk { dk_map : gmap string string; dk_fault : bool }.

#[export] Instance disk_store : LedgerStore disk := {|
  lstore_isReady d := true;
  lstore_has k d := bool_decide (is_Some (dk_map d !! k));
  lstore_load k d := dk_map d !! k;
  lstore_save k v d := if dk_fault d then (false, d) else (true, mkDisk (<[k := v]> (dk_map d)) false)
|}.

#[export] Instance disk_store_laws : LedgerStoreLaws disk.
Proof.
  split; [..|done]; cbn; intros k v d d'; destruct (dk_fault d) eqn:?; intros ?; simplify_eq; cbn.
  - rewrite bool_decide_eq_true, lookup_insert_eq. eauto.
  - by rewrite lookup_insert_eq.
Qed.

Definition meta_up : BusinessKeyMetadata :=
  mkMeta true kBusinessDomainV2c kBusinessPurposeUplinkAead "kd" 7 kDefaultKeyAlgorithm 1 9 1 "rd" 5 6.
Definition ledger0 : LedgerState disk := mkLedger (mkDisk ∅ false) ∅.
End LedgerSample.

(* --------------------------------------------------------------------- *)
(** ** Properties                                                         *)
(* --------------------------------------------------------------------- *)

Import LedgerSample.

(** A successful [put] is durable and local: a ledger constructed on the same
    store and loaded holds exactly the entries in memory, the new one included,
    every other (domain, purpose) as before. A [put] that fails to write leaves
    the store as the store left it, yet [get] already answers the new entry. *)
Theorem ledger_put_durable {D} `{LedgerStoreLaws D} `{J : Json} `{!JsonLaws J} meta
    (l : LedgerState D) :
  lstore_isReady (lg_store l) = true -> ledger_wf l -> meta_wf meta ->
  let '(rc, l') := ledger_put meta l in
  (rc = SUCCESS \/ rc = STORAGE_WRITE_FAILED) /\
  (rc = SUCCESS -> ledger_load (mkLedger (lg_store l') ∅) = (SUCCESS, l')) /\
  ledger_get (bm_business_domain meta) (bm_purpose meta) l' = Some meta /\
  (forall domain purpose,
     make_key domain purpose <> make_key (bm_business_domain meta) (bm_purpose meta) ->
     ledger_get domain purpose l' = ledger_get domain purpose l) /\
  ledger_wf l'.
Proof.
  intros Hr Hl Hm. pose proof (ledger_get_put meta l) as Hg. pose proof (ledger_put_wf meta l Hm Hl) as Hw.
  destruct (ledger_put meta l) as [rc l'] eqn:E. simpl in Hg, Hw.
  unfold ledger_put in E. rewrite Hr in E. simpl in E.
  destruct (lstore_save _ _ _) as [ok d] eqn:Es. injection E as <- <-.
  split_and!; [destruct ok; auto| | | |done].
  - destruct ok; [intros _|done]. unfold ledger_load; simpl.
    pose proof (lstore_save_ready "ledger" (json_dump (json_of_map meta_to_json
      (<[make_key (bm_business_domain meta) (bm_purpose meta):=meta]> (lg_entries l)))) (lg_store l)) as Hrd.
    rewrite Es, Hr in Hrd; simpl in Hrd. rewrite Hrd; simpl.
    rewrite (lstore_save_has _ _ _ _ Es); simpl.
    rewrite (lstore_save_load _ _ _ _ Es); simpl. rewrite json_parse_dump; simpl.
    by rewrite load_entries_roundtrip.
  - rewrite Hg by done. by rewrite decide_True.
  - intros domain purpose Hne. rewrite Hg by done. by rewrite decide_False by congruence.
Qed.

Lemma ledger_put_durable_witness :
  (ledger_put meta_up ledger0).1 = SUCCESS /\
  ledger_load (mkLedger (lg_store (ledger_put meta_up ledger0).2) ∅) =
    (SUCCESS, (ledger_put meta_up ledger0).2).
Proof.
  assert (E : (ledger_put meta_up ledger0).1 = SUCCESS) by by vm_compute.
  split; [exact E|].
  pose proof (ledger_put_durable meta_up ledger0 eq_refl) as Ht.
  destruct (ledger_put meta_up ledger0) as [rc l']. destruct Ht as (_ & Hd & _).
  - apply map_Forall_empty.
  - repeat split; unfold is_u64, is_i64; simpl; lia.
  - apply Hd, E.
Defined.
