(* ===== verification/SoftFile.v ===== *)
(** * SoftFileBusinessKeyProvider: staging, atomic dual-slot commit, journal.
    Models [src/soft_file_business_key_provider.cpp]. The store, OpenSSL, the
    HSM, the device-binding callback and the random source are an environment
    the provider is parametrised by. *)
From S2P Require Import Prelude Errors Canonical KeyTypes Envelope Json Provider.

(** What lies outside the provider. [E] is the state of all of it: an operation
    that can change it (a write, a draw of randomness, a signature) returns it.
    [store_save] returns [false] when the store throws. *)
Class SoftFileEnv (E : Type) := {
  store_open : st E bool;
  store_isReady : E -> bool;
  store_has : string -> E -> bool;
  store_load : string -> E -> option string;
  store_save : string -> string -> st E bool;
  kek_exists : E -> bool;
  kek_read : E -> option bytes;
  kek_write : bytes -> st E bool;
  RAND_bytes : nat -> st E (option bytes);
  hsm_present : E -> bool;
  hsm_unwrap_ecdh_es_v1 : string -> bytes -> bytes -> bytes -> bytes -> bytes -> bytes -> bytes ->
    st E (ErrorCode * bytes);
  hsm_sign_digest_p1363 : string -> bytes -> st E (ErrorCode * bytes);
  binding_provider : st E BusinessKeyDeviceBinding
}.

(** OpenSSL's HMAC and AES-256-GCM: [gcm_seal key iv aad plain] is the ciphertext
    and the 16-byte tag, [gcm_open key iv aad ct tag] the plaintext if the tag
    verifies. *)
Class SoftFileCrypto := {
  HMAC_SHA256 : bytes -> bytes -> bytes;
  HMAC_SHA256_length k m : length (HMAC_SHA256 k m) = 32%nat;
  gcm_seal : bytes -> bytes -> bytes -> bytes -> option (bytes * bytes);
  gcm_open : bytes -> bytes -> bytes -> bytes -> bytes -> option bytes;
  gcm_seal_tag k iv aad p ct tag : gcm_seal k iv aad p = Some (ct, tag) -> length tag = 16%nat;
  gcm_open_seal k iv aad p ct tag :
    gcm_seal k iv aad p = Some (ct, tag) -> gcm_open k iv aad ct tag = Some p
}.

Definition kAesGcmIv : nat := 12.
Definition kAesGcmTag : nat := 16.
Definition kKekSize : nat := 32.
Definition kSupportedStateVersion : Z := 1.

(** [src/src/soft_file_business_key_provider.cpp:194-199] algorithm_key_size *)
Definition algorithm_key_size (alg : string) : Z :=
  if String.eqb alg kDefaultKeyAlgorithm then 32
  else if String.eqb alg "AES-256-GCM" then 32
  else if String.eqb alg "AES-128-GCM" then 16
  else 0.

(** [src/include/soft_file_business_key_provider.h:32-39] BusinessKeyProviderConfig *)
Record BusinessKeyProviderConfig := mkProviderConfig {
  bpc_allowed_algorithms : list string;
  bpc_allowed_wrapping_suites : list string;
  bpc_max_wrapped_key_bytes : Z;
  bpc_provider_version : string
}.

(** [src/src/soft_file_business_key_provider.cpp:213-222] Slot *)
Record Slot := mkSlot {
  sl_present : bool;
  sl_version : Z;
  sl_key_id_digest : string;
  sl_algorithm : string;
  sl_valid_from_ms : Z;
  sl_valid_to_ms : Z;
  sl_generation : Z;
  sl_key_enc_hex : string
}.

Definition set_generation (g : Z) (s : Slot) : Slot :=
  mkSlot (sl_present s) (sl_version s) (sl_key_id_digest s) (sl_algorithm s) (sl_valid_from_ms s)
    (sl_valid_to_ms s) g (sl_key_enc_hex s).
Definition set_key_enc (h : string) (s : Slot) : Slot :=
  mkSlot (sl_present s) (sl_version s) (sl_key_id_digest s) (sl_algorithm s) (sl_valid_from_ms s)
    (sl_valid_to_ms s) (sl_generation s) h.

(** [src/src/soft_file_business_key_provider.cpp:224-227] JournalStored *)
Record JournalStored := mkStored {
  js_entry : BusinessKeyJournalEntry;
  js_mac_hex : string
}.

(** The fields of [Impl] together with the environment. *)
(** [src/src/soft_file_business_key_provider.cpp:229-247] Impl *)
Record SfState (E : Type) := mkSf {
  sf_cfg : BusinessKeyProviderConfig;
  sf_kek : bytes;
  sf_mac_key : bytes;
  sf_state_version_unknown : bool;
  sf_generation : Z;
  sf_commit_marker : string;
  sf_active : gmap string Slot;
  sf_staging : gmap string Slot;
  sf_staging_generation : Z;
  sf_journal : gmap string JournalStored;
  sf_ready : bool;
  sf_env : E
}.
Arguments mkSf {E}.
Arguments sf_cfg {E}. Arguments sf_kek {E}. Arguments sf_mac_key {E}.
Arguments sf_state_version_unknown {E}. Arguments sf_generation {E}.
Arguments sf_commit_marker {E}. Arguments sf_active {E}. Arguments sf_staging {E}.
Arguments sf_staging_generation {E}. Arguments sf_journal {E}. Arguments sf_ready {E}.
Arguments sf_env {E}.

(** [required_purposes()]. *)
(** [src/src/soft_file_business_key_provider.cpp:508-510] required_purposes *)
Definition sf_required_purposes : list string :=
  [kBusinessPurposeUplinkAead; kBusinessPurposeDownlinkAead].

Section Setters.
Context {E : Type}.
Implicit Types s : SfState E.
Definition with_cfg x s : SfState E := mkSf x (sf_kek s) (sf_mac_key s) (sf_state_version_unknown
    s) (sf_generation s) (sf_commit_marker s) (sf_active s) (sf_staging s) (sf_staging_generation
    s) (sf_journal s) (sf_ready s) (sf_env s).
Definition with_kek x s : SfState E := mkSf (sf_cfg s) x (sf_mac_key s) (sf_state_version_unknown
    s) (sf_generation s) (sf_commit_marker s) (sf_active s) (sf_staging s) (sf_staging_generation
    s) (sf_journal s) (sf_ready s) (sf_env s).
Definition with_mac_key x s : SfState E := mkSf (sf_cfg s) (sf_kek s) x (sf_state_version_unknown
    s) (sf_generation s) (sf_commit_marker s) (sf_active s) (sf_staging s) (sf_staging_generation
    s) (sf_journal s) (sf_ready s) (sf_env s).
Definition with_state_version_unknown x s : SfState E := mkSf (sf_cfg s) (sf_kek s) (sf_mac_key s)
    x (sf_generation s) (sf_commit_marker s) (sf_active s) (sf_staging s) (sf_staging_generation
    s) (sf_journal s) (sf_ready s) (sf_env s).
Definition with_generation x s : SfState E := mkSf (sf_cfg s) (sf_kek s) (sf_mac_key s)
    (sf_state_version_unknown s) x (sf_commit_marker s) (sf_active s) (sf_staging s)
    (sf_staging_generation s) (sf_journal s) (sf_ready s) (sf_env s).
Definition with_commit_marker x s : SfState E := mkSf (sf_cfg s) (sf_kek s) (sf_mac_key s)
    (sf_state_version_unknown s) (sf_generation s) x (sf_active s) (sf_staging s)
    (sf_staging_generation s) (sf_journal s) (sf_ready s) (sf_env s).
Definition with_active x s : SfState E := mkSf (sf_cfg s) (sf_kek s) (sf_mac_key s)
    (sf_state_version_unknown s) (sf_generation s) (sf_commit_marker s) x (sf_staging s)
    (sf_staging_generation s) (sf_journal s) (sf_ready s) (sf_env s).
Definition with_staging x s : SfState E := mkSf (sf_cfg s) (sf_kek s) (sf_mac_key s)
    (sf_state_version_unknown s) (sf_generation s) (sf_commit_marker s) (sf_active s) x
    (sf_staging_generation s) (sf_journal s) (sf_ready s) (sf_env s).
Definition with_staging_generation x s : SfState E := mkSf (sf_cfg s) (sf_kek s) (sf_mac_key s)
    (sf_state_version_unknown s) (sf_generation s) (sf_commit_marker s) (sf_active s) (sf_staging
    s) x (sf_journal s) (sf_ready s) (sf_env s).
Definition with_journal x s : SfState E := mkSf (sf_cfg s) (sf_kek s) (sf_mac_key s)
    (sf_state_version_unknown s) (sf_generation s) (sf_commit_marker s) (sf_active s) (sf_staging
    s) (sf_staging_generation s) x (sf_ready s) (sf_env s).
Definition with_ready x s : SfState E := mkSf (sf_cfg s) (sf_kek s) (sf_mac_key s)
    (sf_state_version_unknown s) (sf_generation s) (sf_commit_marker s) (sf_active s) (sf_staging
    s) (sf_staging_generation s) (sf_journal s) x (sf_env s).
Definition with_env x s : SfState E := mkSf (sf_cfg s) (sf_kek s) (sf_mac_key s)
    (sf_state_version_unknown s) (sf_generation s) (sf_commit_marker s) (sf_active s) (sf_staging
    s) (sf_staging_generation s) (sf_journal s) (sf_ready s) x.
End Setters.

(** Run an environment operation from a provider operation. *)
Definition on_env {E A} (m : st E A) : st (SfState E) A :=
  fun s => let '(a, e) := m (sf_env s) in (a, with_env e s).

(** The duplicate hexadecimal helpers of this translation unit. *)
(** [src/src/soft_file_business_key_provider.cpp:50-60] to_hex *)
Definition to_hex (v : bytes) : string := toHex v.
(** [src/src/soft_file_business_key_provider.cpp:62-79] from_hex *)
Definition from_hex (hex : string) (out : bytes) : bool * bytes := hexToBytes hex out.

Section Operations.
Context {E : Type} `{Env : SoftFileEnv E} `{Crypto : SoftFileCrypto} `{Hash : Sha256}
  `{J : Json}.
Implicit Types s : SfState E.

(* --------------------------------------------------------------------- *)
(** ** Cryptographic helpers                                              *)
(* --------------------------------------------------------------------- *)

(** [src/src/soft_file_business_key_provider.cpp:86-94] hmac_sha256 *)
Definition hmac_sha256 (key msg : bytes) : bytes := HMAC_SHA256 key msg.

(** The expansion loop; [fuel] bounds the blocks, [out_len] blocks are enough
    since every block is non-empty ([hkdf_sha256_length]). *)
(** [src/src/soft_file_business_key_provider.cpp:106-122] hkdf_sha256 loop *)
Fixpoint hkdf_loop (fuel : nat) (prk info t : bytes) (counter : Z) (out_len : nat) (out : bytes) :
    bytes :=
  match fuel with
  | O => out
  | S fuel =>
      if (length out <? out_len)%nat then
        let block := HMAC_SHA256 prk (t ++ info ++ [byte_of counter]) in
        let take_n := Nat.min (length block) (out_len - length out) in
        hkdf_loop fuel prk info block (wrapu 8 (counter + 1)) out_len (out ++ take take_n block)
      else out
  end.

(** [src/src/soft_file_business_key_provider.cpp:96-124] hkdf_sha256 *)
Definition hkdf_sha256 (ikm salt info : bytes) (out_len : nat) : bytes :=
  let salt := if bytes_empty salt then replicate 32 x00 else salt in
  hkdf_loop out_len (HMAC_SHA256 salt ikm) info [] 1 out_len [].

(** [src/src/soft_file_business_key_provider.cpp:127-158] aes_gcm_encrypt *)
Definition aes_gcm_encrypt (key aad plain : bytes) : st (SfState E) (option bytes) := fun s =>
  let '(r, s) := on_env (RAND_bytes kAesGcmIv) s in
  match r with
  | None => (None, s)
  | Some iv =>
      match gcm_seal key iv aad plain with
      | None => (None, s)
      | Some (ct, tag) => (Some (iv ++ ct ++ tag), s)
      end
  end.

(** [src/src/soft_file_business_key_provider.cpp:160-192] aes_gcm_decrypt *)
Definition aes_gcm_decrypt (key aad iv_ct_tag : bytes) : option bytes :=
  if (length iv_ct_tag <? kAesGcmIv + kAesGcmTag)%nat then None
  else
    let iv := take kAesGcmIv iv_ct_tag in
    let rest := drop kAesGcmIv iv_ct_tag in
    let ct_len := (length iv_ct_tag - kAesGcmIv - kAesGcmTag)%nat in
    gcm_open key iv aad (take ct_len rest) (drop ct_len rest).

(** [src/src/soft_file_business_key_provider.cpp:249-253] slot_aad *)
Definition slot_aad (domain purpose : string) (sl : Slot) : string :=
  "openiov|slot|" +:+ domain +:+ "|" +:+ purpose +:+ "|" +:+ std_to_string (sl_version sl) +:+
  "|" +:+ std_to_string (sl_generation sl).

(** The text the commit marker authenticates: the generation and, in key order,
    purpose, version, key id digest, algorithm and generation of every active
    slot. *)
(** [src/src/soft_file_business_key_provider.cpp:256-264] compute_commit_marker canon *)
Definition commit_canon (generation : Z) (active : gmap string Slot) : string :=
  fold_left (fun canon ps =>
      canon +:+ "|" +:+ ps.1 +:+ ":" +:+ std_to_string (sl_version ps.2) +:+ ":" +:+
      sl_key_id_digest ps.2 +:+ ":" +:+ sl_algorithm ps.2 +:+ ":" +:+
      std_to_string (sl_generation ps.2))
    (map_items active) ("commit|" +:+ std_to_string generation).

(** [src/src/soft_file_business_key_provider.cpp:255-267] compute_commit_marker *)
Definition compute_commit_marker (mac_key : bytes) (generation : Z) (active : gmap string Slot) :
    string :=
  to_hex (hmac_sha256 mac_key (bytes_of_string (commit_canon generation active))).

(* --------------------------------------------------------------------- *)
(** ** Persistence                                                        *)
(* --------------------------------------------------------------------- *)

(** [src/src/soft_file_business_key_provider.cpp:269-280] slot_to_json *)
Definition slot_to_json (sl : Slot) : json := json_of_fields
  [("present", json_bool (sl_present sl)); ("version", json_int (sl_version sl));
   ("key_id_digest", json_string (sl_key_id_digest sl));
   ("algorithm", json_string (sl_algorithm sl));
   ("valid_from_ms", json_int (sl_valid_from_ms sl));
   ("valid_to_ms", json_int (sl_valid_to_ms sl));
   ("generation", json_int (sl_generation sl)); ("key_enc", json_string (sl_key_enc_hex sl))].

(** [src/src/soft_file_business_key_provider.cpp:282-293] slot_from_json *)
Definition slot_from_json (j : json) : option Slot :=
  present ← value_bool j "present" false;
  version ← value_u64 j "version" 0;
  key_id_digest ← value_string j "key_id_digest" "";
  algorithm ← value_string j "algorithm" "";
  valid_from_ms ← value_i64 j "valid_from_ms" 0;
  valid_to_ms ← value_i64 j "valid_to_ms" 0;
  generation ← value_u64 j "generation" 0;
  key_enc_hex ← value_string j "key_enc" "";
  Some (mkSlot present version key_id_digest algorithm valid_from_ms valid_to_ms generation
          key_enc_hex).

(** [src/src/soft_file_business_key_provider.cpp:309-328] journal_entry_json item *)
Definition status_to_json (it : BusinessKeyStatus) : json := json_of_fields
  [("business_domain", json_string (bs_business_domain it));
   ("purpose", json_string (bs_purpose it));
   ("business_key_version", json_int (bs_business_key_version it));
   ("state", json_string (business_key_state_to_string (bs_state it)));
   ("key_id", json_string (bs_key_id it));
   ("key_id_digest", json_string (bs_key_id_digest it));
   ("algorithm", json_string (bs_algorithm it));
   ("valid_from_ms", json_int (bs_valid_from_ms it));
   ("valid_to_ms", json_int (bs_valid_to_ms it));
   ("envelope_format", json_string (key_envelope_format_to_string (bs_envelope_format it)));
   ("envelope_digest", json_string (to_hex (bs_envelope_digest it)));
   ("key_check_value", json_string (to_hex (kcv_bytes (bs_key_check_value it))));
   ("key_check_value_present", json_bool (bs_key_check_value_present it));
   ("import_proof", json_string (to_hex (bs_import_proof it)));
   ("proof_algorithm", json_string (bs_proof_algorithm it));
   ("recipient_certificate_digest", json_string (to_hex (bs_recipient_certificate_digest it)))].

(** [src/src/soft_file_business_key_provider.cpp:295-332] journal_entry_json *)
Definition journal_entry_json (e : BusinessKeyJournalEntry) : json := json_of_fields
  [("request_id_digest", json_string (je_request_id_digest e));
   ("request_digest", json_string (je_request_digest e));
   ("phase", json_string (business_key_import_phase_to_string (je_phase e)));
   ("generation", json_int (je_generation e));
   ("created_at_ms", json_int (je_created_at_ms e));
   ("committed_at_ms", json_int (je_committed_at_ms e));
   ("provider_version_digest", json_string (je_provider_version_digest e));
   ("last_error", json_string (je_last_error e));
   ("proof_algorithm", json_string (je_proof_algorithm e));
   ("import_proof", json_string (to_hex (je_import_proof e)));
   ("binding_certificate_digest", json_string (to_hex (je_binding_certificate_digest e)));
   ("items", json_array (status_to_json <$> je_items e))].

(** [from_hex] into a fresh vector, its result ignored. *)
Definition hex_field (h : string) : bytes := (from_hex h []).2.

(** [src/src/soft_file_business_key_provider.cpp:362-365] journal_entry_from_json kcv *)
Definition kcv_field (h : string) : kcv3 :=
  match from_hex h [] with
  | (true, [a; b; c]) => (a, b, c)
  | _ => kcv_zero
  end.

(** [src/src/soft_file_business_key_provider.cpp:349-371] journal_entry_from_json item *)
Definition status_from_json (si : json) : option BusinessKeyStatus :=
  business_domain ← value_string si "business_domain" "";
  purpose ← value_string si "purpose" "";
  business_key_version ← value_u64 si "business_key_version" 0;
  state ← value_string si "state" "UNKNOWN";
  key_id ← value_string si "key_id" "";
  key_id_digest ← value_string si "key_id_digest" "";
  algorithm ← value_string si "algorithm" "";
  valid_from_ms ← value_i64 si "valid_from_ms" 0;
  valid_to_ms ← value_i64 si "valid_to_ms" 0;
  envelope_format ← value_string si "envelope_format" "UNSPECIFIED";
  envelope_digest ← value_string si "envelope_digest" "";
  kcv ← value_string si "key_check_value" "";
  kcv_present ← value_bool si "key_check_value_present" false;
  import_proof ← value_string si "import_proof" "";
  proof_algorithm ← value_string si "proof_algorithm" "";
  recipient ← value_string si "recipient_certificate_digest" "";
  Some (mkStatus business_domain purpose business_key_version
          (string_to_business_key_state state) key_id_digest algorithm valid_from_ms valid_to_ms
          (string_to_key_envelope_format envelope_format) (hex_field envelope_digest)
          (kcv_field kcv) kcv_present (hex_field import_proof) proof_algorithm key_id
          (hex_field recipient)).

(** The [items] array; absent or of another type, there are none. *)
Definition json_status_array (j : json) : list json :=
  match json_get j "items" with
  | Some v => default [] (as_array v)
  | None => []
  end.

(** [src/src/soft_file_business_key_provider.cpp:334-375] journal_entry_from_json *)
Definition journal_entry_from_json (j : json) : option BusinessKeyJournalEntry :=
  request_id_digest ← value_string j "request_id_digest" "";
  request_digest ← value_string j "request_digest" "";
  phase ← value_string j "phase" "UNKNOWN";
  generation ← value_u64 j "generation" 0;
  created_at_ms ← value_i64 j "created_at_ms" 0;
  committed_at_ms ← value_i64 j "committed_at_ms" 0;
  provider_version_digest ← value_string j "provider_version_digest" "";
  last_error ← value_string j "last_error" "";
  proof_algorithm ← value_string j "proof_algorithm" "";
  import_proof ← value_string j "import_proof" "";
  binding_certificate_digest ← value_string j "binding_certificate_digest" "";
  items ← mapM status_from_json (json_status_array j);
  Some (mkEntry request_id_digest request_digest (string_to_business_key_import_phase phase)
          generation items created_at_ms committed_at_ms provider_version_digest last_error
          (hex_field import_proof) proof_algorithm (hex_field binding_certificate_digest)).

(** [src/src/soft_file_business_key_provider.cpp:377-381] journal_mac *)
Definition journal_mac (mac_key : bytes) (e : BusinessKeyJournalEntry) : string :=
  to_hex (hmac_sha256 mac_key (bytes_of_string (json_dump (journal_entry_json e)))).

(** [src/src/soft_file_business_key_provider.cpp:406-410] load_state journal element *)
Definition stored_from_json (v : json) : option JournalStored :=
  ej ← value_json v "entry" json_object;
  entry ← journal_entry_from_json ej;
  mac ← value_string v "mac" "";
  Some (mkStored entry mac).

(** [state.contains(k)] with the pairs of [state[k].items()]; none when absent. *)
Definition items_of (state : json) (k : string) : list (string * json) :=
  match json_get state k with Some v => json_items v | None => [] end.

(** [src/src/soft_file_business_key_provider.cpp:383-416] load_state *)
Definition load_state : st (SfState E) ErrorCode := fun s =>
  if negb (store_isReady (sf_env s)) then (BUSINESS_KEY_NOT_READY, s)
  else
    let s := with_state_version_unknown false s in
    if negb (store_has "state" (sf_env s)) then (SUCCESS, s)
    else
      match store_load "state" (sf_env s) ≫= json_parse with
      | None => (STORAGE_CORRUPTION, s)
      | Some state =>
      match value_u32 state "v" kSupportedStateVersion with
      | None => (STORAGE_CORRUPTION, s)
      | Some v =>
      let s := with_state_version_unknown (v >? kSupportedStateVersion) s in
      match value_u64 state "generation" 0 with
      | None => (STORAGE_CORRUPTION, s)
      | Some g =>
      let s := with_generation g s in
      match value_string state "commit_marker" "" with
      | None => (STORAGE_CORRUPTION, s)
      | Some m =>
      let s := with_commit_marker m s in
      match value_u64 state "staging_generation" 0 with
      | None => (STORAGE_CORRUPTION, s)
      | Some sg =>
      let s := with_staging_generation sg s in
      let s := with_journal ∅ (with_staging ∅ (with_active ∅ s)) in
      let '(ok, act) := load_map slot_from_json (items_of state "active") ∅ in
      let s := with_active act s in
      if negb ok then (STORAGE_CORRUPTION, s) else
      let '(ok, stg) := load_map slot_from_json (items_of state "staging") ∅ in
      let s := with_staging stg s in
      if negb ok then (STORAGE_CORRUPTION, s) else
      let '(ok, jr) := load_map stored_from_json (items_of state "journal") ∅ in
      let s := with_journal jr s in
      if negb ok then (STORAGE_CORRUPTION, s) else (SUCCESS, s)
      end end end end end.

(** [src/src/soft_file_business_key_provider.cpp:434-436] save_state journal element *)
Definition stored_to_json (js : JournalStored) : json := json_of_fields
  [("entry", journal_entry_json (js_entry js)); ("mac", json_string (js_mac_hex js))].

(** The document [save_state] writes. *)
(** [src/src/soft_file_business_key_provider.cpp:421-439] save_state document *)
Definition state_json (s : SfState E) : json := json_of_fields
  [("v", json_int 1); ("generation", json_int (sf_generation s));
   ("commit_marker", json_string (sf_commit_marker s));
   ("staging_generation", json_int (sf_staging_generation s));
   ("active", json_of_map slot_to_json (sf_active s));
   ("staging", json_of_map slot_to_json (sf_staging s));
   ("journal", json_of_map stored_to_json (sf_journal s))].

(** [src/src/soft_file_business_key_provider.cpp:418-445] save_state *)
Definition save_state : st (SfState E) ErrorCode := fun s =>
  if negb (store_isReady (sf_env s)) then (BUSINESS_KEY_NOT_READY, s)
  else
    let '(ok, s) := on_env (store_save "state" (json_dump (state_json s))) s in
    ((if ok then SUCCESS else STORAGE_WRITE_FAILED), s).

(** [src/src/soft_file_business_key_provider.cpp:447-462] generate_kek *)
Definition generate_kek : st (SfState E) ErrorCode := fun s =>
  let '(r, s) := on_env (RAND_bytes kKekSize) s in
  match r with
  | None => (INTERNAL_ERROR, with_kek (replicate kKekSize x00) s)
  | Some k =>
      let s := with_kek k s in
      let '(opened, s) := on_env (kek_write k) s in
      ((if opened then SUCCESS else STORAGE_WRITE_FAILED), s)
  end.

(** [kek_read] is the first [kKekSize] bytes of the file, when it opens. *)
(** [src/src/soft_file_business_key_provider.cpp:464-474] load_kek *)
Definition load_kek : st (SfState E) ErrorCode := fun s =>
  match kek_read (sf_env s) with
  | None => (STORAGE_READ_FAILED, s)
  | Some k =>
      if negb (length k =? kKekSize)%nat then (STORAGE_CORRUPTION, with_kek [] s)
      else (SUCCESS, with_kek k s)
  end.

(** [src/src/soft_file_business_key_provider.cpp:476-481] derive_mac_key *)
Definition derive_mac_key (s : SfState E) : SfState E :=
  with_mac_key (hkdf_sha256 (sf_kek s) [] (bytes_of_string "openiov|keyprov|mac|v1") 32) s.

(** [src/src/soft_file_business_key_provider.cpp:483-492] encrypt_slot_key *)
Definition encrypt_slot_key (domain purpose : string) (sl : Slot) (plain : bytes) :
    st (SfState E) (res string) := fun s =>
  let '(r, s) := aes_gcm_encrypt (sf_kek s) (bytes_of_string (slot_aad domain purpose sl)) plain s in
  match r with
  | None => (Err INTERNAL_ERROR, s)
  | Some enc => (Ok (to_hex enc), s)
  end.

(** [src/src/soft_file_business_key_provider.cpp:494-506] decrypt_slot_key *)
Definition decrypt_slot_key (domain purpose : string) (sl : Slot) (s : SfState E) : res bytes :=
  match from_hex (sl_key_enc_hex sl) [] with
  | (false, _) => Err STORAGE_CORRUPTION
  | (true, enc) =>
      match aes_gcm_decrypt (sf_kek s) (bytes_of_string (slot_aad domain purpose sl)) enc with
      | None => Err WRAPPED_KEY_INVALID
      | Some plain => Ok plain
      end
  end.

(* --------------------------------------------------------------------- *)
(** ** Operations                                                         *)
(* --------------------------------------------------------------------- *)

(** A new process over the same surroundings. The paths of the configuration are
    part of the environment. *)
(** [src/src/soft_file_business_key_provider.cpp:517-527] SoftFileBusinessKeyProvider *)
Definition sf_new (cfg : BusinessKeyProviderConfig) (env : E) : SfState E :=
  mkSf cfg [] [] false 0 "" ∅ ∅ 0 ∅ false env.

(** [src/src/soft_file_business_key_provider.cpp:536-565] initialize *)
Definition sf_initialize : st (SfState E) ErrorCode := fun s =>
  let '(opened, s) := on_env store_open s in
  if negb opened then (BUSINESS_KEY_NOT_READY, s) else
  if negb (store_isReady (sf_env s)) then (BUSINESS_KEY_NOT_READY, s) else
  let '(rc, s) := (if kek_exists (sf_env s) then load_kek else generate_kek) s in
  if negb (is_success rc) then (rc, s) else
  let s := derive_mac_key s in
  let '(rc, s) := load_state s in
  if negb (is_success rc) then (rc, s) else
  let s :=
    if bool_decide (sf_active s = ∅) then s
    else
      let expected := compute_commit_marker (sf_mac_key s) (sf_generation s) (sf_active s) in
      if String.eqb (sf_commit_marker s) expected then s else with_active ∅ s in
  (SUCCESS, with_ready (hsm_present (sf_env s)) s).

(** [src/src/soft_file_business_key_provider.cpp:567-570] isReady *)
Definition sf_isReady (s : SfState E) : bool := sf_ready s.

(** [src/src/soft_file_business_key_provider.cpp:572-574] providerVersionDigest *)
Definition sf_providerVersionDigest (s : SfState E) : string := bpc_provider_version (sf_cfg s).

(** [src/src/soft_file_business_key_provider.cpp:576-587] capability *)
Definition sf_capability (s : SfState E) : BusinessKeyProviderCapability :=
  let h := hsm_present (sf_env s) in
  mkProviderCap h h h true h (sf_ready s && store_isReady (sf_env s)).

(** [src/src/soft_file_business_key_provider.cpp:593-657] unwrapToStaging *)
Definition sf_unwrapToStaging (domain : string) (item : WrappedKeyItem)
    (params : EcdhEsP256EnvelopeParameters) (canonical_aad hkdf_info : bytes)
    (binding : BusinessKeyDeviceBinding) (generation : Z) : st (SfState E) (ErrorCode * kcv3) :=
  fun s =>
  let fail rc s := ((rc, kcv_zero), s) in
  if negb (sf_ready s) || negb (hsm_present (sf_env s)) then fail BUSINESS_KEY_NOT_READY s else
  if negb (db_ready binding) || str_empty (db_device_key_id binding)
  then fail BUSINESS_KEY_NOT_READY s else
  if bytes_empty (it_wrapped_key item) then fail WRAPPED_KEY_INVALID s else
  if zlen (it_wrapped_key item) >? bpc_max_wrapped_key_bytes (sf_cfg s)
  then fail WRAPPED_KEY_INVALID s else
  if negb (contains (bpc_allowed_algorithms (sf_cfg s)) (it_algorithm item))
  then fail BUSINESS_KEY_UNSUPPORTED s else
  if negb (contains (bpc_allowed_wrapping_suites (sf_cfg s)) (it_wrapping_suite item))
  then fail BUSINESS_KEY_UNSUPPORTED s else
  if negb (String.eqb (it_wrapping_suite item) kWrappingSuiteEcdhEsP256)
  then fail BUSINESS_KEY_UNSUPPORTED s else
  let key_size := algorithm_key_size (it_algorithm item) in
  if key_size =? 0 then fail BUSINESS_KEY_UNSUPPORTED s else
  let '((rc, plain), s) :=
    on_env (hsm_unwrap_ecdh_es_v1 (db_device_key_id binding)
      (ep_server_ephemeral_public_key params) (ep_hkdf_salt params) hkdf_info (ep_nonce params)
      (it_wrapped_key item) (ep_authentication_tag params) canonical_aad) s in
  if negb (is_success rc) then
    fail (if bool_decide (rc = NOT_IMPLEMENTED) then BUSINESS_KEY_NOT_READY
          else WRAPPED_KEY_INVALID) s else
  if negb (zlen plain =? key_size) then fail WRAPPED_KEY_INVALID s else
  let kcv := computeKcv plain in
  if it_key_check_value_present item &&
     negb (constantTimeEqual (kcv_bytes kcv) (kcv_bytes (it_key_check_value item)))
  then fail WRAPPED_KEY_INVALID s else
  let sl := mkSlot true (it_business_key_version item)
    (toHex (sha256 (bytes_of_string (it_key_id item)))) (it_algorithm item)
    (it_valid_from_ms item) (it_valid_to_ms item) generation "" in
  let '(r, s) := encrypt_slot_key domain (it_purpose item) sl plain s in
  match r with
  | Err rc => ((rc, kcv), s)
  | Ok h =>
      let s := with_staging (<[it_purpose item := set_key_enc h sl]> (sf_staging s)) s in
      let s := with_staging_generation generation s in
      let '(rc, s) := save_state s in
      ((rc, kcv), s)
  end.

(** [src/src/soft_file_business_key_provider.cpp:659-674] verifyStaging *)
Definition sf_verifyStaging (domain purpose : string) (s : SfState E) : ErrorCode :=
  if negb (sf_ready s) then BUSINESS_KEY_NOT_READY else
  match sf_staging s !! purpose with
  | None => WRAPPED_KEY_INVALID
  | Some sl =>
      if negb (sl_present sl) then WRAPPED_KEY_INVALID else
      let key_size := algorithm_key_size (sl_algorithm sl) in
      if key_size =? 0 then BUSINESS_KEY_UNSUPPORTED else
      match decrypt_slot_key domain purpose sl s with
      | Err rc => rc
      | Ok plain => if zlen plain =? key_size then SUCCESS else WRAPPED_KEY_INVALID
      end
  end.

(** The loop that looks for a missing or foreign staging slot. *)
(** [src/src/soft_file_business_key_provider.cpp:681-687] commitBatch staging check *)
Definition staging_complete (generation : Z) (staging : gmap string Slot) : bool :=
  forallb (fun p =>
      match staging !! p with
      | Some sl => sl_present sl && (sl_generation sl =? generation)
      | None => false
      end) sf_required_purposes.

(** [src/src/soft_file_business_key_provider.cpp:692-696] commitBatch new_active *)
Definition promote_staging (generation : Z) (staging active : gmap string Slot) :
    gmap string Slot :=
  fold_left (fun act p =>
      match staging !! p with
      | Some sl => <[p := set_generation generation sl]> act
      | None => act
      end) sf_required_purposes active.

(** [src/src/soft_file_business_key_provider.cpp:676-715] commitBatch *)
Definition sf_commitBatch (domain : string) (generation : Z) : st (SfState E) ErrorCode := fun s =>
  if negb (sf_ready s) then (BUSINESS_KEY_NOT_READY, s) else
  if negb (staging_complete generation (sf_staging s)) then (BUSINESS_KEY_PARTIAL_ROLLBACK, s) else
  if negb (sf_staging_generation s =? generation) then (BUSINESS_KEY_CONFLICT, s) else
  let new_active := promote_staging generation (sf_staging s) (sf_active s) in
  let old_active := sf_active s in
  let old_gen := sf_generation s in
  let old_marker := sf_commit_marker s in
  let s := with_active new_active s in
  let s := with_generation generation s in
  let s := with_commit_marker (compute_commit_marker (sf_mac_key s) (sf_generation s) (sf_active s)) s in
  let s := with_staging ∅ s in
  let s := with_staging_generation 0 s in
  let '(rc, s) := save_state s in
  if negb (is_success rc) then
    let s := with_active old_active s in
    let s := with_generation old_gen s in
    let s := with_commit_marker old_marker s in
    (rc, s)
  else (SUCCESS, s).

(** [src/src/soft_file_business_key_provider.cpp:717-726] rollbackStaging *)
Definition sf_rollbackStaging (domain : string) (generation : Z) : st (SfState E) ErrorCode :=
  fun s =>
  if negb (sf_ready s) then (BUSINESS_KEY_NOT_READY, s) else
  if negb (sf_staging_generation s =? 0) && negb (sf_staging_generation s =? generation)
  then (BUSINESS_KEY_CONFLICT, s) else
  save_state (with_staging_generation 0 (with_staging ∅ s)).

(** [src/src/soft_file_business_key_provider.cpp:732-756] querySlot *)
Definition sf_querySlot (domain purpose : string) (s : SfState E) : ErrorCode * BusinessKeySlotInfo :=
  if negb (sf_ready s) then (BUSINESS_KEY_NOT_READY, BusinessKeySlotInfo_default) else
  match sf_active s !! purpose with
  | None => (SUCCESS, BusinessKeySlotInfo_default)
  | Some sl =>
      if negb (sl_present sl) then (SUCCESS, BusinessKeySlotInfo_default)
      else
        let rc := code_of (decrypt_slot_key domain purpose sl s) in
        (SUCCESS, mkSlotInfo true (if is_success rc then BKS_ACTIVE else BKS_INVALID)
           (sl_version sl) (sl_key_id_digest sl) (sl_algorithm sl) (sl_valid_from_ms sl)
           (sl_valid_to_ms sl) (sl_generation sl))
  end.

(** [src/src/soft_file_business_key_provider.cpp:758-806] generateProof *)
Definition sf_generateProof (domain purpose : string) (business_key_version : Z)
    (request_id key_id : string) (envelope_digest key_check_value : bytes) :
    st (SfState E) (ErrorCode * bytes * string) := fun s =>
  let fail rc s := ((rc, [], ""), s) in
  if negb (sf_ready s) || negb (hsm_present (sf_env s)) then fail BUSINESS_KEY_NOT_READY s else
  match sf_active s !! purpose with
  | None => fail BUSINESS_KEY_NOT_READY s
  | Some sl =>
  if negb (sl_present sl) then fail BUSINESS_KEY_NOT_READY s else
  if negb (sl_version sl =? business_key_version) then fail BUSINESS_KEY_CONFLICT s else
  match purposeEnumValue purpose with
  | None => fail BUSINESS_KEY_UNSUPPORTED s
  | Some purpose_val =>
  let '(binding, s) := on_env binding_provider s in
  if negb (db_ready binding) || str_empty (db_device_key_id binding)
  then fail BUSINESS_KEY_NOT_READY s else
  let digest := sha256 (buildProofInput {|
    pi_request_id := request_id; pi_business_domain := domain; pi_purpose := purpose_val;
    pi_key_id := key_id; pi_business_key_version := business_key_version;
    pi_envelope_digest := envelope_digest; pi_key_check_value := key_check_value |}) in
  let '((rc, proof), s) := on_env (hsm_sign_digest_p1363 (db_device_key_id binding) digest) s in
  if negb (is_success rc) then
    fail (if bool_decide (rc = NOT_IMPLEMENTED) then BUSINESS_KEY_NOT_READY else rc) s else
  if negb (zlen proof =? kImportProofSizeP1363) then fail BUSINESS_KEY_NOT_READY s else
  ((SUCCESS, proof, kImportProofAlgorithmP1363), s)
  end end.

(** [src/src/soft_file_business_key_provider.cpp:812-856] loadJournalEx *)
Definition sf_loadJournalEx (request_id_digest : string) (s : SfState E) : JournalLoadResult :=
  if negb (sf_ready s) || negb (store_isReady (sf_env s)) then
    mkLoad JLS_IO_ERROR None BUSINESS_KEY_NOT_READY else
  if sf_state_version_unknown s then mkLoad JLS_UNSUPPORTED_VERSION None STORAGE_CORRUPTION else
  match sf_journal s !! request_id_digest with
  | None => mkLoad JLS_NOT_FOUND None SUCCESS
  | Some js =>
      if negb (String.eqb (js_mac_hex js) (journal_mac (sf_mac_key s) (js_entry js))) then
        mkLoad JLS_AUTH_FAILED None STORAGE_CORRUPTION else
      if negb (String.eqb (je_request_id_digest (js_entry js)) request_id_digest) then
        mkLoad JLS_CORRUPT None STORAGE_CORRUPTION else
      mkLoad JLS_FOUND (Some (js_entry js)) SUCCESS
  end.

(** [src/src/soft_file_business_key_provider.cpp:858-869] hasTransactionResidue *)
Definition sf_hasTransactionResidue (request_id_digest : string) (s : SfState E) : bool :=
  if negb (sf_ready s) || negb (store_isReady (sf_env s)) then true else
  if negb (bool_decide (sf_staging s = ∅)) then true else
  if negb (str_empty (sf_commit_marker s)) then true else
  false.

(** [src/src/soft_file_business_key_provider.cpp:871-879] saveJournal *)
Definition sf_saveJournal (entry : BusinessKeyJournalEntry) : st (SfState E) ErrorCode := fun s =>
  if negb (sf_ready s) then (BUSINESS_KEY_NOT_READY, s) else
  let js := mkStored entry (journal_mac (sf_mac_key s) entry) in
  save_state (with_journal (<[je_request_id_digest entry := js]> (sf_journal s)) s).

(** [src/src/soft_file_business_key_provider.cpp:881-902] listJournal *)
Definition sf_listJournal (s : SfState E) : list BusinessKeyJournalEntry :=
  if sf_state_version_unknown s then []
  else (fun kv =>
      if String.eqb (js_mac_hex kv.2) (journal_mac (sf_mac_key s) (js_entry kv.2)) then js_entry kv.2
      else mkEntry kv.1 "" BIP_UNKNOWN 0 [] 0 0 "" "" [] "" [])
    <$> map_items (sf_journal s).

(** [src/src/soft_file_business_key_provider.cpp:904-907] hasPendingStaging *)
Definition sf_hasPendingStaging (s : SfState E) : bool := negb (bool_decide (sf_staging s = ∅)).

(** The implementation behind the service's provider pointer. It does not
    override [storageReplaced], whose base version answers [false]. *)
#[global] Instance SoftFileProvider : BusinessKeyProvider (SfState E) := {|
  bp_initialize := sf_initialize;
  bp_isReady := sf_isReady;
  bp_providerVersionDigest := sf_providerVersionDigest;
  bp_capability := sf_capability;
  bp_unwrapToStaging := sf_unwrapToStaging;
  bp_verifyStaging := sf_verifyStaging;
  bp_commitBatch := sf_commitBatch;
  bp_rollbackStaging := sf_rollbackStaging;
  bp_querySlot := sf_querySlot;
  bp_generateProof := sf_generateProof;
  bp_loadJournalEx := sf_loadJournalEx;
  bp_hasTransactionResidue := sf_hasTransactionResidue;
  bp_storageReplaced := fun _ => false;
  bp_saveJournal := sf_saveJournal;
  bp_listJournal := sf_listJournal;
  bp_hasPendingStaging := sf_hasPendingStaging
|}.
End Operations.

#[global] Instance Slot_eq_dec : EqDecision Slot.
Proof. solve_decision. Defined.
