(* ===== verification/SoftFileFacts.v ===== *)
(** * What SoftFileBusinessKeyProvider promises.
    Persistence round trips, the dual-slot invariant over every sequence of
    operations and restarts, commit atomicity, slot confidentiality round trip,
    journal reads. The definitions are in [SoftFile.v]. *)
From S2P Require Import Prelude Errors Canonical KeyTypes Envelope Json Provider SoftFile.

(* --------------------------------------------------------------------- *)
(** ** The store's promises                                               *)
(* --------------------------------------------------------------------- *)

(** An environment step that leaves the store alone. *)
Definition same_store {E} `{SoftFileEnv E} (e e' : E) : Prop :=
  forall k, store_has k e' = store_has k e /\ store_load k e' = store_load k e.

(** A completed save is read back; a failed one left the old value or the new
    one (the store writes atomically); nothing else writes the store. *)
Class SoftFileEnvLaws (E : Type) `{SoftFileEnv E} : Prop := {
  store_save_ok k v e e' :
    store_save k v e = (true, e') -> store_has k e' = true /\ store_load k e' = Some v;
  store_save_failed k v e e' :
    store_save k v e = (false, e') ->
    (store_has k e' = store_has k e /\ store_load k e' = store_load k e) \/
    (store_has k e' = true /\ store_load k e' = Some v);
  RAND_bytes_length n e iv e' : RAND_bytes n e = (Some iv, e') -> length iv = n;
  store_open_frame e : same_store e (store_open e).2;
  kek_write_frame k e : same_store e (kek_write k e).2;
  RAND_bytes_frame n e : same_store e (RAND_bytes n e).2;
  hsm_unwrap_frame a b c d f g h i e :
    same_store e (hsm_unwrap_ecdh_es_v1 a b c d f g h i e).2;
  hsm_sign_frame a b e : same_store e (hsm_sign_digest_p1363 a b e).2;
  binding_provider_frame e : same_store e (binding_provider e).2
}.

Lemma same_store_refl {E} `{SoftFileEnv E} (e : E) : same_store e e.
Proof. done. Qed.
Lemma same_store_trans {E} `{SoftFileEnv E} (e1 e2 e3 : E) :
  same_store e1 e2 -> same_store e2 e3 -> same_store e1 e3.
Proof. intros H1 H2 k. destruct (H1 k) as [<- <-]. apply H2. Qed.

(* --------------------------------------------------------------------- *)
(** ** Persistence                                                        *)
(* --------------------------------------------------------------------- *)

(** The C++ types of the persisted fields. *)
Definition slot_wf (sl : Slot) : Prop :=
  is_u64 (sl_version sl) /\ is_u64 (sl_generation sl) /\
  is_i64 (sl_valid_from_ms sl) /\ is_i64 (sl_valid_to_ms sl).
Definition status_wf (it : BusinessKeyStatus) : Prop :=
  is_u64 (bs_business_key_version it) /\ is_i64 (bs_valid_from_ms it) /\
  is_i64 (bs_valid_to_ms it).
Definition entry_wf (e : BusinessKeyJournalEntry) : Prop :=
  is_u64 (je_generation e) /\ is_i64 (je_created_at_ms e) /\ is_i64 (je_committed_at_ms e) /\
  Forall status_wf (je_items e).

Section Persistence.
Context `{J : Json} `{!JsonLaws J}.

Lemma slot_json_roundtrip sl : slot_wf sl -> slot_from_json (slot_to_json sl) = Some sl.
Proof.
  intros (?&?&?&?). unfold slot_from_json, slot_to_json. json_fields. by destruct sl.
Qed.

Lemma hex_field_to_hex b : hex_field (to_hex b) = b.
Proof. unfold hex_field, from_hex, to_hex. by rewrite hexToBytes_toHex_aux. Qed.

Lemma kcv_field_to_hex k : kcv_field (to_hex (kcv_bytes k)) = k.
Proof.
  unfold kcv_field, from_hex, to_hex. rewrite hexToBytes_toHex_aux.
  by destruct k as [[a b] c].
Qed.

Lemma status_json_roundtrip it : status_wf it -> status_from_json (status_to_json it) = Some it.
Proof.
  intros (?&?&?). unfold status_from_json, status_to_json. json_fields.
  rewrite !hex_field_to_hex, kcv_field_to_hex. autorewrite with sec. by destruct it.
Qed.

(** The journal entry the service wrote is the one it reads. *)
Lemma entry_json_roundtrip e :
  entry_wf e -> journal_entry_from_json (journal_entry_json e) = Some e.
Proof.
  intros (?&?&?&Hit).
  assert (Hi : json_status_array (journal_entry_json e) = status_to_json <$> je_items e).
  { unfold json_status_array, journal_entry_json. rewrite json_of_fields_get; simpl.
    by rewrite as_array_array. }
  unfold journal_entry_from_json. rewrite Hi. unfold journal_entry_json. json_fields.
  rewrite mapM_fmap_Forall_Some.
  - simpl. rewrite !hex_field_to_hex. autorewrite with sec. by destruct e.
  - eapply Forall_impl; [exact Hit|]. intros it ?. by apply status_json_roundtrip.
Qed.

Lemma stored_json_roundtrip js :
  entry_wf (js_entry js) -> stored_from_json (stored_to_json js) = Some js.
Proof.
  intros He. unfold stored_from_json, stored_to_json.
  unfold value_json. rewrite json_value_fields; cbn [field_lookup String.eqb Ascii.eqb].
  simpl. rewrite entry_json_roundtrip by done. simpl.
  erewrite value_string_fields by reflexivity. by destruct js.
Qed.
End Persistence.

(** The persisted part of a state is in the range of its C++ types. *)
Record content_wf {E} (s : SfState E) : Prop := {
  cwf_generation : is_u64 (sf_generation s);
  cwf_staging_generation : is_u64 (sf_staging_generation s);
  cwf_active : map_Forall (fun _ => slot_wf) (sf_active s);
  cwf_staging : map_Forall (fun _ => slot_wf) (sf_staging s);
  cwf_journal : map_Forall (fun _ js => entry_wf (js_entry js)) (sf_journal s)
}.

(** [s] with the persisted part of [s0]. *)
Definition copy_content {E} (s0 s : SfState E) : SfState E :=
  mkSf (sf_cfg s) (sf_kek s) (sf_mac_key s) false (sf_generation s0) (sf_commit_marker s0)
    (sf_active s0) (sf_staging s0) (sf_staging_generation s0) (sf_journal s0) (sf_ready s)
    (sf_env s).

Section Reload.
Context {E : Type} `{Env : SoftFileEnv E} `{Crypto : SoftFileCrypto} `{Hash : Sha256}
  `{J : Json} `{!JsonLaws J}.
Implicit Types s : SfState E.

(** The store of [e] holds the document of [s0]. *)
Definition holds (s0 : SfState E) (e : E) : Prop :=
  store_has "state" e = true /\ store_load "state" e = Some (json_dump (state_json s0)).

Lemma load_state_holds s0 s :
  content_wf s0 -> store_isReady (sf_env s) = true -> holds s0 (sf_env s) ->
  load_state s = (SUCCESS, copy_content s0 s).
Proof.
  intros [? ? Ha Hs Hj] Hr [Hh Hl]. unfold load_state. rewrite Hr. simpl.
  rewrite Hh. simpl. rewrite Hl. simpl. rewrite json_parse_dump. simpl.
  unfold state_json at 1 2 3 4.
  unfold value_u32, value_int. rewrite json_value_fields; simpl.
  rewrite as_int_int by (unfold is_u64; lia). simpl.
  json_fields.
  assert (G : forall k v, json_get (state_json s0) k = Some v -> items_of (state_json s0) k =
    json_items v) by (intros k v E'; unfold items_of; by rewrite E').
  erewrite !G by (unfold state_json; rewrite json_of_fields_get; reflexivity).
  rewrite !load_map_json_of_map; [done|done|..]; try done; intros k v Hk.
  - apply stored_json_roundtrip, (map_Forall_lookup_1 _ _ _ _ Hj Hk).
  - apply slot_json_roundtrip, (map_Forall_lookup_1 _ _ _ _ Hs Hk).
  - apply slot_json_roundtrip, (map_Forall_lookup_1 _ _ _ _ Ha Hk).
Qed.
End Reload.

(* --------------------------------------------------------------------- *)
(** ** Effects of the operations on the persisted part                    *)
(* --------------------------------------------------------------------- *)

Section Effects.
Context {E : Type} `{Env : SoftFileEnv E} `{EnvLaws : !SoftFileEnvLaws E}
  `{Crypto : SoftFileCrypto} `{Hash : Sha256} `{J : Json} `{JL : !JsonLaws J}.
Implicit Types s : SfState E.

(** The store after a step: as before, or the document of [s]. *)
Definition disk_from (s : SfState E) (e e' : E) : Prop :=
  (store_has "state" e' = store_has "state" e /\ store_load "state" e' = store_load "state" e) \/
  holds s e'.

Lemma disk_from_same s e e' : same_store e e' -> disk_from s e e'.
Proof. left. apply H. Qed.

Lemma save_state_effect s rc s' :
  save_state s = (rc, s') ->
  exists e', s' = with_env e' s /\ disk_from s (sf_env s) e' /\ (rc = SUCCESS -> holds s e') /\
    rc ∈ [SUCCESS; BUSINESS_KEY_NOT_READY; STORAGE_WRITE_FAILED].
Proof.
  unfold save_state. step_goal.
  - intros [= <- <-]. exists (sf_env s). split_and!; [by destruct s|by left|done|set_solver].
  - unfold on_env. destruct (store_save _ _ _) as [ok e'] eqn:Es. intros ?; simplify_eq.
    exists e'. destruct ok.
    + pose proof (store_save_ok _ _ _ _ Es) as [??].
      split_and!; [done|by right|by split|set_solver].
    + split_and!; [done| |done|set_solver].
      destruct (store_save_failed _ _ _ _ Es) as [[??]|[??]]; [by left|by right].
Qed.

Lemma aes_gcm_encrypt_effect key aad plain s r s' :
  aes_gcm_encrypt key aad plain s = (r, s') ->
  (exists e', s' = with_env e' s /\ same_store (sf_env s) e') /\
  (forall c, r = Some c -> aes_gcm_decrypt key aad c = Some plain).
Proof.
  unfold aes_gcm_encrypt, on_env. pose proof (RAND_bytes_frame kAesGcmIv (sf_env s)) as Hf.
  destruct (RAND_bytes _ _) as [[iv|] e'] eqn:Er; simpl in Hf;
    [|intros [= <- <-]; split; [by exists e'|done]].
  apply RAND_bytes_length in Er. destruct (gcm_seal _ _ _ _) as [[ct tag]|] eqn:Eg;
    intros [= <- <-]; (split; [by exists e'|]); intros c [= <-].
  pose proof (gcm_seal_tag _ _ _ _ _ _ Eg) as Ht. unfold aes_gcm_decrypt.
  rewrite !length_app, Er, Ht. unfold kAesGcmIv, kAesGcmTag in *.
  rewrite (proj2 (Nat.ltb_ge _ _)) by lia. rewrite take_app_length', drop_app_length' by done.
  replace (12 + (length ct + 16) - 12 - 16)%nat with (length ct) by lia.
  rewrite take_app_length, drop_app_length. by eapply gcm_open_seal.
Qed.

Lemma encrypt_slot_key_effect domain purpose sl plain s r s' :
  encrypt_slot_key domain purpose sl plain s = (r, s') ->
  (exists e', s' = with_env e' s /\ same_store (sf_env s) e') /\
  (forall h s2, r = Ok h -> sf_kek s2 = sf_kek s ->
     decrypt_slot_key domain purpose (set_key_enc h sl) s2 = Ok plain).
Proof.
  unfold encrypt_slot_key. destruct (aes_gcm_encrypt _ _ _ _) as [[c|] s1] eqn:Ea;
    intros; simplify_eq; destruct (aes_gcm_encrypt_effect _ _ _ _ _ _ Ea) as [? Hd];
    split; try done; intros h s2 ? Hk; simplify_eq.
  unfold decrypt_slot_key, from_hex, to_hex. cbn [sl_key_enc_hex set_key_enc].
  rewrite hexToBytes_toHex_aux, Hk.
  change (slot_aad domain purpose (set_key_enc (toHex c) sl)) with (slot_aad domain purpose sl).
  by rewrite (Hd c eq_refl).
Qed.

(** The slot [unwrapToStaging] builds for an item. *)
Definition unwrapped_slot (item : WrappedKeyItem) (generation : Z) (h : string) : Slot :=
  mkSlot true (it_business_key_version item)
    (toHex (sha256 (bytes_of_string (it_key_id item)))) (it_algorithm item)
    (it_valid_from_ms item) (it_valid_to_ms item) generation h.
Definition stage (item : WrappedKeyItem) (generation : Z) (h : string) s : SfState E :=
  with_staging_generation generation
    (with_staging (<[it_purpose item := unwrapped_slot item generation h]> (sf_staging s)) s).

(** Only the environment changed, and not the store. *)
Definition env_only s s' : Prop := exists e', s' = with_env e' s /\ same_store (sf_env s) e'.

Lemma env_only_refl s : env_only s s.
Proof. exists (sf_env s). by destruct s. Qed.
#[local] Hint Resolve env_only_refl : core.

Lemma unwrap_effect domain item params aad info binding g s rc kcv s' :
  sf_unwrapToStaging domain item params aad info binding g s = ((rc, kcv), s') ->
  (rc <> SUCCESS /\ env_only s s') \/
  exists h plain e',
    s' = with_env e' (stage item g h s) /\ disk_from (stage item g h s) (sf_env s) e' /\
    (rc = SUCCESS -> holds (stage item g h s) e') /\
    decrypt_slot_key domain (it_purpose item) (unwrapped_slot item g h) s' = Ok plain /\
    zlen plain = algorithm_key_size (it_algorithm item) /\
    zlen plain <> 0 /\ kcv = computeKcv plain /\
    (it_key_check_value_present item = true -> it_key_check_value item = kcv) /\
    rc ∈ [SUCCESS; BUSINESS_KEY_NOT_READY; STORAGE_WRITE_FAILED] /\
    zlen (it_wrapped_key item) <= bpc_max_wrapped_key_bytes (sf_cfg s) /\
    (hsm_unwrap_ecdh_es_v1 (db_device_key_id binding) (ep_server_ephemeral_public_key params)
      (ep_hkdf_salt params) info (ep_nonce params) (it_wrapped_key item)
      (ep_authentication_tag params) aad (sf_env s)).1 = (SUCCESS, plain).
Proof.
  unfold sf_unwrapToStaging. cbv zeta.
  do 7 (step_goal; [intros [= <- <- <-]; by left|]).
  step_goal; [intros [= <- <- <-]; by left|].
  unfold on_env. pose proof (hsm_unwrap_frame (db_device_key_id binding)
    (ep_server_ephemeral_public_key params) (ep_hkdf_salt params) info (ep_nonce params)
    (it_wrapped_key item) (ep_authentication_tag params) aad (sf_env s)) as Hf.
  destruct (hsm_unwrap_ecdh_es_v1 _ _ _ _ _ _ _ _ _) as [[urc plain] e1]. simpl in Hf.
  assert (He1 : env_only s (with_env e1 s)) by (by exists e1).
  step_goal; [intros [= <- <- <-]; left; split; [by step_goal|done]|].
  do 2 (step_goal; [intros [= <- <- <-]; by left|]).
  destruct (encrypt_slot_key _ _ _ _ _) as [r s2] eqn:Ee.
  destruct (encrypt_slot_key_effect _ _ _ _ _ _ _ Ee) as [(e2 & -> & Hs2) Hdec].
  destruct r as [h|erc].
  - destruct (save_state _) as [rc' s3] eqn:Esv. intros [= <- <- <-]. right.
    apply save_state_effect in Esv as (e3 & -> & Hd & Hh & Hin).
    exists h, plain, e3. bool_simpl. split_and!; try done.
    + destruct Hd as [[Hd1 Hd2]|Hd]; [left|by right].
      destruct (Hs2 "state") as [Ha Hb], (Hf "state") as [Hc Hd']. simpl in *. split; congruence.
    + by apply Hdec.
    + lia.
    + intros Hp. rewrite Hp in *. simpl in *. symmetry.
      apply kcv_bytes_inj, constantTimeEqual_eq. by destruct (constantTimeEqual _ _).
    + lia.
    + by match goal with H : is_success _ = true |- _ => apply is_success_true in H as -> end.
  - intros [= <- <- <-]. left. split.
    + intros ->. unfold encrypt_slot_key in Ee. destruct (aes_gcm_encrypt _ _ _ _) as [[]?]; done.
    + exists e2. split; [done|]. by eapply same_store_trans.
Qed.

(** The state a commit writes. *)
Definition committed (g : Z) s : SfState E :=
  let act := promote_staging g (sf_staging s) (sf_active s) in
  mkSf (sf_cfg s) (sf_kek s) (sf_mac_key s) (sf_state_version_unknown s) g
    (compute_commit_marker (sf_mac_key s) g act) act ∅ 0 (sf_journal s) (sf_ready s) (sf_env s).

(** [s] with its staging area dropped. *)
Definition unstaged s : SfState E := with_staging_generation 0 (with_staging ∅ s).

Lemma commit_effect domain g s rc s' :
  sf_commitBatch domain g s = (rc, s') ->
  (rc <> SUCCESS /\ s' = s) \/
  staging_complete g (sf_staging s) = true /\ sf_staging_generation s = g /\ sf_ready s = true /\
  exists e', disk_from (committed g s) (sf_env s) e' /\
    ((rc = SUCCESS /\ s' = with_env e' (committed g s) /\ holds (committed g s) e') \/
     (rc <> SUCCESS /\ s' = with_env e' (unstaged s))).
Proof.
  unfold sf_commitBatch.
  do 3 (step_goal; [intros [= <- <-]; by left|]). cbv zeta.
  destruct (save_state _) as [rc' s1] eqn:Es.
  apply save_state_effect in Es as (e' & -> & Hd & Hh & _).
  intros Hc. right. bool_simpl. split_and!; [done..|]. exists e'. split; [exact Hd|].
  destruct rc'; simpl in Hc; injection Hc as <- <-; [left|right..]; try done.
  split_and!; [done|done|by apply Hh].
Qed.

Lemma rollback_effect domain g s rc s' :
  sf_rollbackStaging domain g s = (rc, s') ->
  s' = s \/ exists e', s' = with_env e' (unstaged s) /\ disk_from (unstaged s) (sf_env s) e' /\
    (rc = SUCCESS -> holds (unstaged s) e').
Proof.
  unfold sf_rollbackStaging. do 2 (step_goal; [intros [= <- <-]; by left|]).
  intros Es. right. apply save_state_effect in Es as (e' & -> & Hd & Hh & _). by exists e'.
Qed.

(** The state [saveJournal] writes. *)
Definition journaled (entry : BusinessKeyJournalEntry) s : SfState E :=
  with_journal (<[je_request_id_digest entry :=
    mkStored entry (journal_mac (sf_mac_key s) entry)]> (sf_journal s)) s.

Lemma saveJournal_effect entry s rc s' :
  sf_saveJournal entry s = (rc, s') ->
  (rc <> SUCCESS /\ s' = s) \/ exists e', s' = with_env e' (journaled entry s) /\
    disk_from (journaled entry s) (sf_env s) e' /\ (rc = SUCCESS -> holds (journaled entry s) e').
Proof.
  unfold sf_saveJournal. step_goal; [intros [= <- <-]; by left|].
  intros Es. right. apply save_state_effect in Es as (e' & -> & Hd & Hh & _). by exists e'.
Qed.

Lemma generateProof_effect domain purpose v rid kid ed kcv s r s' :
  sf_generateProof domain purpose v rid kid ed kcv s = (r, s') -> env_only s s'.
Proof.
  unfold sf_generateProof. cbv zeta. step_goal; [intros [= <- <-]; done|].
  step_goal; [|intros [= <- <-]; done].
  do 2 (step_goal; [intros [= <- <-]; done|]). step_goal; [|intros [= <- <-]; done].
  unfold on_env. pose proof (binding_provider_frame (sf_env s)) as Hb.
  destruct (binding_provider _) as [b e1]. simpl in Hb.
  assert (env_only s (with_env e1 s)) by by exists e1.
  step_goal; [intros [= <- <-]; done|].
  match goal with |- context [hsm_sign_digest_p1363 ?a ?d ?e] =>
    pose proof (hsm_sign_frame a d e) as Hs; destruct (hsm_sign_digest_p1363 a d e) as [[prc pr] e2] end.
  simpl in Hs. assert (env_only s (with_env e2 (with_env e1 s))).
  { exists e2. split; [done|]. by eapply same_store_trans. }
  step_goal; [intros [= <- <-]; done|]. step_goal; intros [= <- <-]; done.
Qed.
End Effects.

(* --------------------------------------------------------------------- *)
(** ** The dual-slot invariant                                            *)
(* --------------------------------------------------------------------- *)

(** No slot at all, or exactly the two purposes, both present and of one
    generation. *)
Definition dual_active (g : Z) (act : gmap string Slot) : Prop :=
  act = ∅ \/
  exists u d, act = {[ kBusinessPurposeUplinkAead := u; kBusinessPurposeDownlinkAead := d ]} /\
    sl_present u = true /\ sl_present d = true /\ sl_generation u = g /\ sl_generation d = g.

Lemma dual_active_promote g g0 staging active :
  staging_complete g staging = true -> dual_active g0 active ->
  exists u d, staging !! kBusinessPurposeUplinkAead = Some u /\
    staging !! kBusinessPurposeDownlinkAead = Some d /\
    promote_staging g staging active =
      {[ kBusinessPurposeUplinkAead := set_generation g u;
         kBusinessPurposeDownlinkAead := set_generation g d ]} /\
    sl_present u = true /\ sl_present d = true /\ sl_generation u = g /\ sl_generation d = g.
Proof.
  unfold staging_complete, sf_required_purposes. simpl. intros Hc Ha.
  destruct (staging !! kBusinessPurposeUplinkAead) as [u|] eqn:Eu; [|done].
  destruct (staging !! kBusinessPurposeDownlinkAead) as [d|] eqn:Ed; [|by rewrite andb_false_r in Hc].
  exists u, d. bool_simpl. split_and!; try done.
  unfold promote_staging, sf_required_purposes. cbn [fold_left]. rewrite Eu, Ed.
  apply map_eq. intros k. destruct Ha as [->|(u0 & d0 & -> & _)];
    rewrite ?lookup_insert, ?lookup_singleton, ?lookup_empty; repeat case_decide; congruence.
Qed.

(** Everything that can happen to the provider of a device: a new process, and
    every call the class offers, with any arguments of the C++ types. *)
Section Runs.
Context {E : Type} `{Env : SoftFileEnv E} `{EnvLaws : !SoftFileEnvLaws E}
  `{Crypto : SoftFileCrypto} `{Hash : Sha256} `{J : Json} `{JL : !JsonLaws J}.
Implicit Types s : SfState E.

Inductive sf_step : SfState E -> SfState E -> Prop :=
  | step_restart cfg s : sf_step s (sf_new cfg (sf_env s))
  | step_initialize s : sf_step s (sf_initialize s).2
  | step_unwrap domain item params aad info binding g s :
      is_u64 g -> is_u64 (it_business_key_version item) -> is_i64 (it_valid_from_ms item) ->
      is_i64 (it_valid_to_ms item) ->
      sf_step s (sf_unwrapToStaging domain item params aad info binding g s).2
  | step_commit domain g s : is_u64 g -> sf_step s (sf_commitBatch domain g s).2
  | step_rollback domain g s : sf_step s (sf_rollbackStaging domain g s).2
  | step_proof domain purpose v rid kid ed kcv s :
      sf_step s (sf_generateProof domain purpose v rid kid ed kcv s).2
  | step_journal entry s : entry_wf entry -> sf_step s (sf_saveJournal entry s).2.

(** A device that has never stored anything. *)
Definition sf_initial (s : SfState E) : Prop :=
  exists cfg e, s = sf_new cfg e /\ store_has "state" e = false.

Definition same_content s s' : Prop :=
  sf_generation s' = sf_generation s /\ sf_commit_marker s' = sf_commit_marker s /\
  sf_active s' = sf_active s /\ sf_staging s' = sf_staging s /\
  sf_staging_generation s' = sf_staging_generation s /\ sf_journal s' = sf_journal s.

(** A property of the persisted part. *)
Class ContentPred (P : SfState E -> Prop) : Prop :=
  content_pred s s' : same_content s s' -> P s -> P s'.

(** If the store holds anything, it is the document of a good state. *)
Definition disk_inv (P : SfState E -> Prop) (e : E) : Prop :=
  store_has "state" e = true -> exists s0, holds s0 e /\ content_wf s0 /\ P s0.

#[global] Instance content_wf_pred : ContentPred content_wf.
Proof.
  intros s s' (Hg&_&Ha&Hs&Hsg&Hj) [????]. by split; rewrite ?Hg, ?Ha, ?Hs, ?Hsg, ?Hj.
Qed.

Lemma disk_inv_from P s e e' :
  disk_inv P e -> disk_from s e e' -> content_wf s -> P s -> disk_inv P e'.
Proof.
  intros He [[Hh Hl]|Hh] Hw HP.
  - intros Hhas. rewrite Hh in Hhas. destruct (He Hhas) as (s0 & [? E0] & ? & ?).
    exists s0. split; [|done]. split; congruence.
  - intros _. by exists s.
Qed.

Lemma disk_inv_same P e e' : disk_inv P e -> same_store e e' -> disk_inv P e'.
Proof.
  intros He Hs Hh. destruct (Hs "state") as [H1 H2]. rewrite H1 in Hh.
  destruct (He Hh) as (s0 & [??] & ? & ?). exists s0. split; [|done]. split; congruence.
Qed.

Lemma same_content_refl s : same_content s s.
Proof. by repeat split. Qed.
Lemma same_content_trans s1 s2 s3 : same_content s1 s2 -> same_content s2 s3 -> same_content s1 s3.
Proof. intros (?&?&?&?&?&?) (?&?&?&?&?&?). repeat split; congruence. Qed.

(** Reading or creating the key-encryption key. *)
Lemma kek_effect s rc s' :
  (if kek_exists (sf_env s) then load_kek else generate_kek) s = (rc, s') ->
  same_content s s' /\ same_store (sf_env s) (sf_env s') /\ sf_ready s' = sf_ready s.
Proof.
  destruct (kek_exists _).
  - unfold load_kek. repeat step_goal; intros [= <- <-]; by repeat split.
  - unfold generate_kek, on_env. pose proof (RAND_bytes_frame kKekSize (sf_env s)) as Hf.
    destruct (RAND_bytes _ _) as [[k|] e1]; simpl in *; [|by intros [= <- <-]].
    pose proof (kek_write_frame k e1) as Hk. destruct (kek_write k e1) as [ok e2]; simpl in *.
    intros [= <- <-]; simpl. split; [by repeat split|].
    split; [by eapply same_store_trans|done].
Qed.

Lemma load_state_effect P s rc s' :
  load_state s = (rc, s') -> disk_inv P (sf_env s) ->
  sf_env s' = sf_env s /\ sf_ready s' = sf_ready s /\
  (same_content s s' /\ (rc = SUCCESS -> store_has "state" (sf_env s) = false) \/
   exists s0, holds s0 (sf_env s) /\ content_wf s0 /\ P s0 /\ s' = copy_content s0 s).
Proof.
  intros El Hd. destruct (store_isReady (sf_env s)) eqn:Er.
  2: { unfold load_state in El. rewrite Er in El. injection El as <- <-.
       split_and!; [done..|]. left. by split. }
  destruct (store_has "state" (sf_env s)) eqn:Eh.
  - destruct (Hd Eh) as (s0 & Hh & Hw & HP). erewrite load_state_holds in El by done.
    injection El as <- <-. split_and!; [done..|]. right. by exists s0.
  - unfold load_state in El. rewrite Er in El; simpl in El. rewrite Eh in El.
    injection El as <- <-. split_and!; [done..|]. left. by split.
Qed.

Lemma marker_check_cases (b1 b2 : bool) s :
  (if b1 then s else if b2 then s else with_active ∅ s) = s \/
  (if b1 then s else if b2 then s else with_active ∅ s) = with_active ∅ s.
Proof. destruct b1, b2; auto. Qed.

(** What [initialize] can do: give up without touching the persisted part, or
    load the stored document, or drop an active set whose marker is wrong. *)
Lemma initialize_effect P s rc s' :
  sf_initialize s = (rc, s') -> disk_inv P (sf_env s) ->
  same_store (sf_env s) (sf_env s') /\
  ((same_content s s' \/ same_content (with_active ∅ s) s') /\
     (store_has "state" (sf_env s) = true -> same_content s s' /\ sf_ready s' = sf_ready s) \/
   exists s0, holds s0 (sf_env s) /\ content_wf s0 /\ P s0 /\
     (same_content s0 s' \/ same_content (with_active ∅ s0) s')).
Proof.
  unfold sf_initialize, on_env. intros Ei Hd. pose proof (store_open_frame (sf_env s)) as Ho.
  destruct (store_open _) as [opened e1]; simpl in Ho, Ei.
  step_in Ei; [injection Ei as <- <-; split; [done|]; left; by repeat split; left|].
  step_in Ei; [injection Ei as <- <-; split; [done|]; left; by repeat split; left|].
  destruct ((if kek_exists e1 then load_kek else generate_kek) (with_env e1 s)) as [krc s1] eqn:Ek.
  destruct (kek_effect (with_env e1 s) _ _ Ek) as (Hc1 & Hs1 & Hr1).
  assert (Hs1' : same_store (sf_env s) (sf_env s1)) by by eapply same_store_trans.
  step_in Ei; [injection Ei as <- <-; split; [done|]; left; by split; [left|]|].
  destruct (load_state (derive_mac_key s1)) as [lrc s2] eqn:El.
  destruct (load_state_effect P _ _ _ El) as (He & Hr2 & Hcase).
  { by eapply disk_inv_same. }
  simpl in He, Hr2. rewrite <- He in Hs1'.
  assert (Hhas : store_has "state" (sf_env s1) = store_has "state" (sf_env s)).
  { rewrite <- He. apply Hs1'. }
  assert (Hhold : forall s0, holds s0 (sf_env s1) -> holds s0 (sf_env s)).
  { intros s0 [H1 H2]. destruct (Hs1' "state") as [H3 H4]. rewrite He in H3, H4.
    split; [by rewrite <- H3|by rewrite <- H4]. }
  step_in Ei.
  - injection Ei as <- <-. split; [done|]. destruct Hcase as [[Hc _]|(s0 & Hh & Hw & HP & ->)].
    + left. assert (same_content s s2) by by eapply same_content_trans. split; [by left|].
      intros _. split; [done|by rewrite Hr2, Hr1].
    + right. exists s0. split_and!; auto. left. by repeat split.
  - injection Ei as <- <-. assert (lrc = SUCCESS) as -> by by destruct lrc.
    match goal with |- context [with_ready _ (if ?b1 then _ else if ?b2 then _ else _)] =>
      destruct (marker_check_cases b1 b2 s2) as [Em|Em]; rewrite Em; clear Em end;
    (split; [done|]); destruct Hcase as [[Hc Hn]|(s0 & Hh & Hw & HP & ->)].
    1, 3: left; (assert (Hc2 : same_content s s2) by by eapply same_content_trans);
      (split; [|intros Ht; pose proof (Hn eq_refl) as Hf; simpl in Hf; congruence]);
      destruct Hc2 as (?&?&?&?&?&?);
      first [left; by repeat split|right; by repeat split].
    all: right; exists s0; split_and!; auto;
      first [left; by repeat split|right; by repeat split].
Qed.

Definition dual_ok s : Prop := dual_active (sf_generation s) (sf_active s).

#[global] Instance dual_ok_pred : ContentPred dual_ok.
Proof. intros s s' (Hg&_&Ha&_) H. unfold dual_ok. by rewrite Hg, Ha. Qed.

Record sf_inv s : Prop := {
  inv_wf : content_wf s;
  inv_dual : dual_ok s;
  inv_disk : disk_inv dual_ok (sf_env s)
}.

Lemma env_only_inv s s' : sf_inv s -> env_only s s' -> sf_inv s'.
Proof.
  intros [Hw Hd Hk] (e' & -> & He). split; [by destruct Hw|done|].
  by eapply disk_inv_same.
Qed.

(** A state written to the store by an operation that starts in a good state. *)
Lemma saved_inv s s1 e' :
  sf_inv s -> content_wf s1 -> dual_ok s1 -> disk_from s1 (sf_env s) e' ->
  sf_inv (with_env e' s1).
Proof.
  intros [_ _ Hk] Hw Hd He. split; [by destruct Hw|done|]. by eapply disk_inv_from.
Qed.

Lemma content_wf_clear_active s : content_wf s -> content_wf (with_active ∅ s).
Proof. intros [????]. split; try done; apply map_Forall_empty. Qed.

Lemma unstaged_wf s : content_wf s -> content_wf (unstaged s).
Proof.
  intros [????]. split; try apply map_Forall_empty; by try (unfold is_u64; simpl; lia).
Qed.

Lemma promote_wf g staging active :
  is_u64 g -> map_Forall (fun _ => slot_wf) staging -> map_Forall (fun _ => slot_wf) active ->
  map_Forall (fun _ => slot_wf) (promote_staging g staging active).
Proof.
  intros Hg Hs. unfold promote_staging. revert active.
  induction sf_required_purposes as [|p ps IH]; intros active Ha; simpl; [done|].
  apply IH. destruct (staging !! p) as [sl|] eqn:Es; [|done].
  apply map_Forall_insert_2; [|done]. by destruct (map_Forall_lookup_1 _ _ _ _ Hs Es) as (?&?&?&?).
Qed.

Lemma committed_wf g s : is_u64 g -> content_wf s -> content_wf (committed g s).
Proof.
  intros Hg [????]. split; try apply map_Forall_empty; try by apply promote_wf.
  1, 3: done. unfold is_u64; simpl; lia.
Qed.

Lemma stage_wf item g h s :
  is_u64 g -> is_u64 (it_business_key_version item) -> is_i64 (it_valid_from_ms item) ->
  is_i64 (it_valid_to_ms item) -> content_wf s -> content_wf (stage item g h s).
Proof. intros ???? [????]. split; try done. by apply map_Forall_insert_2. Qed.

Lemma journaled_wf entry s : entry_wf entry -> content_wf s -> content_wf (journaled entry s).
Proof. intros ? [????]. split; try done. by apply map_Forall_insert_2. Qed.

Lemma committed_dual g s :
  staging_complete g (sf_staging s) = true -> dual_ok s -> dual_ok (committed g s).
Proof.
  intros Hc Hd. destruct (dual_active_promote g _ _ _ Hc Hd) as (u & d & _ & _ & Ep & ?&?&?&?).
  right. exists (set_generation g u), (set_generation g d). by split.
Qed.

Lemma sf_step_inv s s' : sf_step s s' -> sf_inv s -> sf_inv s'.
Proof.
  intros Hstep Hi. pose proof Hi as [Hw Hd Hk]. destruct Hstep.
  - split; [|by left|done]. split; try apply map_Forall_empty; unfold is_u64; simpl; lia.
  - destruct (sf_initialize s) as [rc s'] eqn:Er. simpl.
    destruct (initialize_effect dual_ok _ _ _ Er Hk) as [Hs Hc].
    assert (Hk' : disk_inv dual_ok (sf_env s')) by by eapply disk_inv_same.
    assert (He : forall s0, dual_ok (with_active ∅ s0)) by by left.
    destruct Hc as [[[Hc|Hc] _]|(s0 & _ & Hw0 & Hd0 & [Hc|Hc])]; split; try done;
      by eapply content_pred; eauto using content_wf_clear_active.
  - destruct (sf_unwrapToStaging _ _ _ _ _ _ _ _) as [[rc kcv] s'] eqn:Er.
    apply unwrap_effect in Er as [[_ He]|(h & plain & e' & -> & Hf & _)];
      [by eapply env_only_inv|]. eapply saved_inv; eauto using stage_wf.
  - destruct (sf_commitBatch _ _ _) as [rc s'] eqn:Er.
    apply commit_effect in Er as [[_ ->]|(Hc & _ & _ & e' & Hf & [(_ & -> & _)|(_ & ->)])]; [done| |].
    + eapply saved_inv; eauto using committed_wf, committed_dual.
    + split; [by destruct (unstaged_wf s Hw)|done|]. eapply disk_inv_from;
        eauto using committed_wf, committed_dual.
  - destruct (sf_rollbackStaging _ _ _) as [rc s'] eqn:Er.
    apply rollback_effect in Er as [->|(e' & -> & Hf & _)]; [done|].
    eapply saved_inv; eauto using unstaged_wf.
  - destruct (sf_generateProof _ _ _ _ _ _ _ _) as [r s'] eqn:Er.
    eapply env_only_inv; [done|]. by eapply generateProof_effect.
  - destruct (sf_saveJournal _ _) as [rc s'] eqn:Er.
    apply saveJournal_effect in Er as [[_ ->]|(e' & -> & Hf & _)]; [done|].
    eapply saved_inv; eauto using journaled_wf.
Qed.

Lemma sf_initial_inv s : sf_initial s -> sf_inv s.
Proof.
  intros (cfg & e & -> & He). split; [|by left|intros Ht; simpl in Ht; congruence].
  split; try apply map_Forall_empty; unfold is_u64; simpl; lia.
Qed.

Lemma sf_reachable_inv s s' : sf_initial s -> rtc sf_step s s' -> sf_inv s'.
Proof.
  intros Hs Hr. apply sf_initial_inv in Hs.
  induction Hr as [|s1 s2 s3 H1 _ IH]; eauto using sf_step_inv.
Qed.

(* --------------------------------------------------------------------- *)
(** ** The commit marker is never cleared                                 *)
(* --------------------------------------------------------------------- *)

(** The provider is either not ready or has a marker, and the document on disk
    has one. *)
Definition marked s : Prop := sf_commit_marker s <> "".
Record marked_inv s : Prop := {
  mk_wf : content_wf s;
  mk_mem : sf_ready s = true -> marked s;
  mk_has : store_has "state" (sf_env s) = true;
  mk_disk : disk_inv marked (sf_env s)
}.

Lemma marker_nonempty k g act : compute_commit_marker k g act <> "".
Proof.
  unfold compute_commit_marker, hmac_sha256. intros E1. apply (f_equal String.length) in E1.
  unfold to_hex in E1. rewrite toHex_length, HMAC_SHA256_length in E1. done.
Qed.

Lemma marked_saved s s1 e' :
  marked_inv s -> content_wf s1 -> marked s1 -> disk_from s1 (sf_env s) e' ->
  marked_inv (with_env e' s1).
Proof.
  intros [_ _ Hh Hk] Hw Hm Hf. split; [by destruct Hw|done| |by eapply disk_inv_from].
  destruct Hf as [[E1 _]|[E1 _]]; simpl; congruence.
Qed.

Lemma marked_env_only s s' : marked_inv s -> env_only s s' -> marked_inv s'.
Proof.
  intros [Hw Hm Hh Hk] (e' & -> & He). split; [by destruct Hw|done| |by eapply disk_inv_same].
  destruct (He "state") as [E1 _]. simpl. by rewrite E1.
Qed.

(** An operation that writes the store does so only on a ready provider. *)
Lemma unwrap_ready domain item params aad info binding g s :
  sf_ready s = false -> sf_unwrapToStaging domain item params aad info binding g s =
    ((BUSINESS_KEY_NOT_READY, kcv_zero), s).
Proof. intros Hr. unfold sf_unwrapToStaging. by rewrite Hr. Qed.

Lemma commit_marked domain g s :
  content_wf s -> is_u64 g -> (sf_commitBatch domain g s).1 = SUCCESS ->
  marked_inv (sf_commitBatch domain g s).2.
Proof.
  intros Hw Hg. destruct (sf_commitBatch _ _ _) as [rc s'] eqn:Er. simpl. intros ->.
  apply commit_effect in Er as [[? _]|(_ & _ & _ & e' & _ & [(_ & -> & Hh)|[? _]])]; try done.
  pose proof (committed_wf g s Hg Hw) as Hc.
  split; [by destruct Hc|intros _; apply marker_nonempty|apply Hh|].
  intros _. exists (committed g s). split_and!; [done|done|apply marker_nonempty].
Qed.

Lemma marked_step s s' : sf_step s s' -> marked_inv s -> marked_inv s'.
Proof.
  intros Hstep Hi. pose proof Hi as [Hw Hm Hh Hk]. destruct Hstep.
  - split; [|done|done|done]. split; try apply map_Forall_empty; unfold is_u64; simpl; lia.
  - destruct (sf_initialize s) as [rc s'] eqn:Er. simpl.
    destruct (initialize_effect marked _ _ _ Er Hk) as [Hs Hc].
    assert (Hk' : disk_inv marked (sf_env s')) by by eapply disk_inv_same.
    assert (Hh' : store_has "state" (sf_env s') = true) by (destruct (Hs "state") as [-> _]; done).
    destruct Hc as [[_ Hc]|(s0 & _ & Hw0 & Hd0 & Hc)].
    + destruct (Hc Hh) as [Hc1 Hr]. split; try done; [by eapply content_pred|].
      destruct Hc1 as (_ & Em & _). unfold marked. by rewrite Hr, Em.
    + split; try done.
      * destruct Hc; by eapply content_pred; eauto using content_wf_clear_active.
      * intros _. unfold marked in *. destruct Hc as [(_&Em&_)|(_&Em&_)]; by rewrite Em.
  - destruct (sf_ready s) eqn:Erd; [|by rewrite unwrap_ready].
    destruct (sf_unwrapToStaging _ _ _ _ _ _ _ _) as [[rc kcv] s'] eqn:Er.
    apply unwrap_effect in Er as [[_ He]|(h & plain & e' & -> & Hf & _)];
      [by eapply marked_env_only|]. eapply marked_saved; eauto using stage_wf.
  - destruct (sf_ready s) eqn:Erd; [|unfold sf_commitBatch; by rewrite Erd].
    destruct (sf_commitBatch _ _ _) as [rc s'] eqn:Er.
    apply commit_effect in Er as [[_ ->]|(Hc & _ & _ & e' & Hf & [(_ & -> & _)|(_ & ->)])]; [done| |].
    + eapply marked_saved; eauto using committed_wf. apply marker_nonempty.
    + split; [by destruct (unstaged_wf s Hw)|by intros _; apply Hm| |].
      * destruct Hf as [[E1 _]|[E1 _]]; simpl; congruence.
      * eapply disk_inv_from; eauto using committed_wf. apply marker_nonempty.
  - destruct (sf_ready s) eqn:Erd; [|unfold sf_rollbackStaging; by rewrite Erd].
    destruct (sf_rollbackStaging _ _ _) as [rc s'] eqn:Er.
    apply rollback_effect in Er as [->|(e' & -> & Hf & _)]; [done|].
    eapply marked_saved; eauto using unstaged_wf.
  - destruct (sf_generateProof _ _ _ _ _ _ _ _) as [r s'] eqn:Er.
    eapply marked_env_only; [done|]. by eapply generateProof_effect.
  - destruct (sf_ready s) eqn:Erd; [|unfold sf_saveJournal; by rewrite Erd].
    destruct (sf_saveJournal _ _) as [rc s'] eqn:Er.
    apply saveJournal_effect in Er as [[_ ->]|(e' & -> & Hf & _)]; [done|].
    eapply marked_saved; eauto using journaled_wf.
Qed.

Lemma marked_steps s s' : rtc sf_step s s' -> marked_inv s -> marked_inv s'.
Proof. induction 1; eauto using marked_step. Qed.
End Runs.

(* --------------------------------------------------------------------- *)
(** ** HKDF                                                               *)
(* --------------------------------------------------------------------- *)

(** The expansion of RFC 5869: [T(i)], and the first [n] blocks. *)
Fixpoint hkdf_T `{SoftFileCrypto} (prk info : bytes) (i : nat) : bytes :=
  match i with
  | O => []
  | S j => HMAC_SHA256 prk (hkdf_T prk info j ++ info ++ [byte_of (Z.of_nat i)])
  end.
Definition hkdf_blocks `{SoftFileCrypto} (prk info : bytes) (n : nat) : bytes :=
  mjoin (hkdf_T prk info <$> seq 1 n).

Section Hkdf.
Context `{Crypto : SoftFileCrypto}.

Lemma hkdf_blocks_S prk info n :
  hkdf_blocks prk info (S n) = hkdf_blocks prk info n ++ hkdf_T prk info (S n).
Proof.
  unfold hkdf_blocks. rewrite seq_S, fmap_app, join_app. cbn [fmap list_fmap mjoin list_join].
  by rewrite app_nil_r.
Qed.

Lemma hkdf_blocks_length prk info n : length (hkdf_blocks prk info n) = (32 * n)%nat.
Proof.
  induction n as [|n IH]; [done|]. rewrite hkdf_blocks_S, length_app, IH. cbn [hkdf_T].
  rewrite HMAC_SHA256_length. lia.
Qed.

Lemma hkdf_blocks_prefix prk info n m :
  (n <= m)%nat -> exists l, hkdf_blocks prk info m = hkdf_blocks prk info n ++ l.
Proof.
  induction 1 as [|m Hle [l IH]]; [by exists []; rewrite app_nil_r|].
  rewrite hkdf_blocks_S, IH, <- app_assoc. eauto.
Qed.

Lemma hkdf_loop_done fuel prk info t c n out :
  (n <= length out)%nat -> hkdf_loop fuel prk info t c n out = out.
Proof.
  destruct fuel; [done|]. intros Hn. cbn [hkdf_loop]. by rewrite (proj2 (Nat.ltb_ge _ _)).
Qed.

Lemma hkdf_loop_blocks fuel prk info i n :
  (32 * i <= n <= 32 * (i + fuel))%nat ->
  hkdf_loop fuel prk info (hkdf_T prk info i) (wrapu 8 (Z.of_nat (S i))) n
    (hkdf_blocks prk info i) = take n (hkdf_blocks prk info (i + fuel)).
Proof.
  revert i; induction fuel as [|fuel IH]; intros i Hn.
  - rewrite Nat.add_0_r. cbn [hkdf_loop]. rewrite take_ge; [done|].
    rewrite hkdf_blocks_length. lia.
  - cbn [hkdf_loop]. rewrite hkdf_blocks_length.
    destruct (Nat.ltb_spec (32 * i) n) as [Hlt|Hge].
    + assert (Hb : HMAC_SHA256 prk (hkdf_T prk info i ++ info ++
          [byte_of (wrapu 8 (Z.of_nat (S i)))]) = hkdf_T prk info (S i)).
      { cbn [hkdf_T]. unfold wrapu. by rewrite byte_of_mod. }
      rewrite Hb. assert (Hl : length (hkdf_T prk info (S i)) = 32%nat) by apply HMAC_SHA256_length.
      rewrite Hl. destruct (decide (32 <= n - 32 * i)%nat) as [Hf|Hf].
      * rewrite Nat.min_l, take_ge by lia. rewrite <- hkdf_blocks_S.
        assert (Ec : wrapu 8 (wrapu 8 (Z.of_nat (S i)) + 1) = wrapu 8 (Z.of_nat (S (S i)))).
        { unfold wrapu. rewrite Z.add_mod_idemp_l by lia. f_equal. lia. }
        rewrite Ec, IH by lia. by rewrite Nat.add_succ_r.
      * rewrite Nat.min_r by lia. rewrite hkdf_loop_done.
        2: { rewrite length_app, hkdf_blocks_length, length_take. lia. }
        destruct (hkdf_blocks_prefix prk info (S i) (i + S fuel)) as [l ->]; [lia|].
        rewrite hkdf_blocks_S, <- app_assoc, take_app, hkdf_blocks_length.
        rewrite (take_ge (hkdf_blocks _ _ _)) by (rewrite hkdf_blocks_length; lia).
        by rewrite take_app_le by (rewrite Hl; lia).
    + destruct (hkdf_blocks_prefix prk info i (i + S fuel)) as [l ->]; [lia|].
      rewrite take_app_le by (rewrite hkdf_blocks_length; lia).
      by rewrite take_ge by (rewrite hkdf_blocks_length; lia).
Qed.
End Hkdf.
