(* ===== verification/SoftFileProps.v ===== *)
(** * SoftFileBusinessKeyProvider: properties, with a concrete environment.
    The environment of the witnesses is a store with a schedule of failing
    saves, a counting random source and a toy HSM and AEAD. *)
From S2P Require Import Prelude Errors Canonical KeyTypes Envelope Json Provider SoftFile.
From S2P Require Import SoftFileFacts.

Module SoftFileSample.
Export JsonSample EnvelopeSample.

Record world := mkWorld {
  w_store : gmap string string;
  w_saves : list bool;                (** outcome of the next saves; then all succeed *)
  w_kek : option bytes;
  w_rng : Z;
  w_hsm : bool;
  w_sign : list bool;                 (** outcome of the next signatures *)
  w_binding : BusinessKeyDeviceBinding
}.

Definition w_save (k v : string) (w : world) : bool * world :=
  let '(ok, rest) := match w_saves w with [] => (true, []) | b :: l => (b, l) end in
  (ok, mkWorld (if ok then <[k := v]> (w_store w) else w_store w) rest (w_kek w) (w_rng w) (w_hsm w)
         (w_sign w) (w_binding w)).

#[export] Instance world_env : SoftFileEnv world := {|
  store_open w := (true, w);
  store_isReady w := true;
  store_has k w := bool_decide (is_Some (w_store w !! k));
  store_load k w := w_store w !! k;
  store_save := w_save;
  kek_exists w := bool_decide (is_Some (w_kek w));
  kek_read := w_kek;
  kek_write k w := (true, mkWorld (w_store w) (w_saves w) (Some k) (w_rng w) (w_hsm w) (w_sign w)
                            (w_binding w));
  RAND_bytes n w := (Some (replicate n (byte_of (w_rng w))),
    mkWorld (w_store w) (w_saves w) (w_kek w) (w_rng w + 1) (w_hsm w) (w_sign w) (w_binding w));
  hsm_present := w_hsm;
  hsm_unwrap_ecdh_es_v1 kid eph salt info nonce ct tag aad w :=
    ((SUCCESS, replicate 32 (byte_of (zlen info))), w);
  hsm_sign_digest_p1363 kid digest w :=
    let '(ok, rest) := match w_sign w with [] => (true, []) | b :: l => (b, l) end in
    (((if ok then SUCCESS else HSM_SIGN_FAILED), if ok then digest ++ digest else []),
     mkWorld (w_store w) (w_saves w) (w_kek w) (w_rng w) (w_hsm w) rest (w_binding w));
  binding_provider w := (w_binding w, w)
|}.

#[export] Instance world_laws : SoftFileEnvLaws world.
Proof.
  split; try done.
  - intros k v w w'. cbn. unfold w_save. destruct (w_saves w) as [|[] ?]; intros [= <-]; cbn;
      rewrite bool_decide_eq_true, lookup_insert_eq; eauto.
  - intros k v w w'. cbn. unfold w_save. destruct (w_saves w) as [|[] ?]; intros [= <-]; by left.
  - intros n w iv w'. cbn. intros [= <- <-]. apply length_replicate.
  - intros a b w k. cbn. by destruct (w_sign w) as [|[] ?].
Qed.

(** Lengths in the place of HMAC and GCM tags: cheap to evaluate. *)
Definition checksum (m : bytes) : bytes := be_bytes 32 (zlen m).

Lemma checksum_length m : length (checksum m) = 32%nat.
Proof. apply length_be_bytes. Qed.

#[export] Program Instance toy_crypto : SoftFileCrypto := {|
  HMAC_SHA256 k m := checksum (k ++ m);
  gcm_seal k iv aad p := Some (p, take 16 (checksum (k ++ iv ++ aad ++ p)));
  gcm_open k iv aad ct tag :=
    if bool_decide (tag = take 16 (checksum (k ++ iv ++ aad ++ ct))) then Some ct else None
|}.
Next Obligation. intros. apply checksum_length. Qed.
Next Obligation.
  intros k iv aad p ct tag E. cbv beta in E.
  assert (tag = take 16 (checksum (k ++ iv ++ aad ++ p))) as -> by congruence.
  rewrite length_take, checksum_length. lia.
Qed.
Next Obligation.
  intros k iv aad p ct tag E. cbv beta in E |- *.
  assert (ct = p) as -> by congruence. rewrite bool_decide_eq_true_2; [done|congruence].
Qed.

Definition binding0 : BusinessKeyDeviceBinding :=
  mkBinding true "device-1" "key-1" [x04] true true true true true cert_digest 0 5000000000000
    true true true true true true.
Definition world0 : world := mkWorld ∅ [] None 1 true [] binding0.
Definition cfg0 : BusinessKeyProviderConfig :=
  mkProviderConfig [kDefaultKeyAlgorithm] [kWrappingSuiteEcdhEsP256] 4096 "softfile-v1".

(** A provider just initialized on an empty device. *)
Definition sf0 : SfState world := (sf_initialize (sf_new cfg0 world0)).2.

Definition params0 : EcdhEsP256EnvelopeParameters := 
  mkParams 1 (x04 :: replicate 64 x01) (replicate 32 x02) "v1" (replicate 12 x03)
    (replicate 16 x04) [] [] 3 "d1" cert_digest "op-1".
Definition item_u : WrappedKeyItem :=
  mkItem kBusinessPurposeUplinkAead "k-up" 7 kDefaultKeyAlgorithm [x55; x66] [x01] 1 4000000000000
    kWrappingSuiteEcdhEsP256 KEF_ECDH_ES_P256_V1 [] kcv_zero false.
Definition item_d : WrappedKeyItem :=
  mkItem kBusinessPurposeDownlinkAead "k-down" 7 kDefaultKeyAlgorithm [x55; x66] [x02] 1 4000000000000
    kWrappingSuiteEcdhEsP256 KEF_ECDH_ES_P256_V1 [] kcv_zero false.

Abbreviation unwrap0 item g :=
  (sf_unwrapToStaging kBusinessDomainV2c item params0 [] [x01; x02] binding0 g).
(** Both slots staged with generation 1, and committed. *)
Definition sf_up : SfState world := (unwrap0 item_u 1 sf0).2.
Definition sf_both : SfState world := (unwrap0 item_d 1 sf_up).2.
Definition sf_done : SfState world := (sf_commitBatch kBusinessDomainV2c 1 sf_both).2.

Example sf_run_codes :
  (sf_initialize (sf_new cfg0 world0)).1 = SUCCESS /\ (unwrap0 item_u 1 sf0).1.1 = SUCCESS /\
  (unwrap0 item_d 1 sf_up).1.1 = SUCCESS /\
  sf_verifyStaging kBusinessDomainV2c kBusinessPurposeUplinkAead sf_both = SUCCESS /\
  (sf_commitBatch kBusinessDomainV2c 1 sf_both).1 = SUCCESS /\
  si_state (sf_querySlot kBusinessDomainV2c kBusinessPurposeUplinkAead sf_done).2 = BKS_ACTIVE.
Proof. by vm_compute. Qed.
End SoftFileSample.

(* --------------------------------------------------------------------- *)
(** ** Properties                                                         *)
(* --------------------------------------------------------------------- *)

Section Properties.
Context {E : Type} `{Env : SoftFileEnv E} `{EnvLaws : !SoftFileEnvLaws E}
  `{Crypto : SoftFileCrypto} `{Hash : Sha256} `{J : Json} `{JL : !JsonLaws J}.
Implicit Types s : SfState E.

(** C4. No half-provisioned device. Whatever calls are made, in whatever order,
    with whatever arguments, whichever saves fail, and however often the process
    restarts, the active set is empty or holds exactly the uplink and the
    downlink slot, both present and of one generation. *)
Theorem dual_slot_invariant s s' :
  sf_initial s -> rtc sf_step s s' -> dual_active (sf_generation s') (sf_active s').
Proof. intros Hi Hr. by apply inv_dual, (sf_reachable_inv s). Qed.

(** C16. [commitBatch] is all or nothing. On success both required slots are the
    staged ones under the new generation, staging is empty, the marker
    authenticates the new active set and all of it is on disk. On any failure
    the active set, the generation, the marker and the journal are the old ones;
    but if the failure was the write, the staged keys are gone, so the same
    commit cannot be retried. *)
Theorem commitBatch_atomic domain g s rc s' :
  sf_commitBatch domain g s = (rc, s') -> dual_ok s ->
  (rc = SUCCESS ->
     (forall p, p ∈ sf_required_purposes -> exists sl, sf_staging s !! p = Some sl /\
        sl_present sl = true /\ sl_generation sl = g /\
        sf_active s' !! p = Some (set_generation g sl)) /\
     dual_active g (sf_active s') /\ sf_generation s' = g /\ sf_staging s' = ∅ /\
     sf_commit_marker s' = compute_commit_marker (sf_mac_key s') g (sf_active s') /\
     holds s' (sf_env s')) /\
  (rc <> SUCCESS ->
     sf_active s' = sf_active s /\ sf_generation s' = sf_generation s /\
     sf_commit_marker s' = sf_commit_marker s /\ sf_journal s' = sf_journal s /\
     (rc = STORAGE_WRITE_FAILED -> sf_staging s' = ∅ /\
        sf_commitBatch domain g s' = (BUSINESS_KEY_PARTIAL_ROLLBACK, s'))).
Proof.
  intros Hc Hd. pose proof Hc as Hc'. apply commit_effect in Hc' as
    [[Hne ->]|(Hs & _ & Hr & e' & _ & [(-> & -> & Hh)|(Hne & ->)])]; (split; intros Hrc);
    try done.
  - split_and!; try done. intros ->. exfalso. unfold sf_commitBatch in Hc.
    do 3 (step_in Hc; [congruence|]). cbv zeta in Hc.
    destruct (save_state _) as [src s1] eqn:Es.
    apply save_state_effect in Es as (e' & -> & _).
    destruct (negb (is_success src)); [|done]. injection Hc as _ Hst.
    apply (f_equal sf_staging_generation) in Hst as Hsg; simpl in Hsg.
    apply (f_equal sf_staging) in Hst; simpl in Hst. rewrite <- Hst in E1. done.
  - destruct (dual_active_promote g _ _ _ Hs Hd) as (u & d & Eu & Ed & Ep & ?&?&?&?).
    simpl. rewrite Ep. split_and!; try done.
    + intros p [->|[->|[]%not_elem_of_nil]%elem_of_cons]%elem_of_cons.
      * exists u. by rewrite lookup_insert_eq.
      * exists d. by rewrite lookup_insert_ne, lookup_singleton_eq.
    + right. exists (set_generation g u), (set_generation g d). by split.
  - split_and!; try done. intros ->. split; [done|]. unfold sf_commitBatch. simpl. by rewrite Hr.
Qed.

(** [unwrapToStaging] writes staging only. Whatever it answers, the active
    set, generation, marker and journal are untouched; an error before the write
    leaves everything persisted as it was. On success the slot staged under the
    item's purpose carries the item's metadata and the generation, is on disk,
    and decrypts to a key of the algorithm's size whose check value is the one
    returned, and the declared one when one was declared. *)
Theorem unwrapToStaging_sound domain item params aad info binding g s rc kcv s' :
  sf_unwrapToStaging domain item params aad info binding g s = ((rc, kcv), s') ->
  sf_active s' = sf_active s /\ sf_generation s' = sf_generation s /\
  sf_commit_marker s' = sf_commit_marker s /\ sf_journal s' = sf_journal s /\
  (rc = SUCCESS -> exists h plain,
     let sl := unwrapped_slot item g h in
     sf_staging s' = <[it_purpose item := sl]> (sf_staging s) /\
     sf_staging_generation s' = g /\ holds s' (sf_env s') /\
     decrypt_slot_key domain (it_purpose item) sl s' = Ok plain /\
     zlen plain = algorithm_key_size (it_algorithm item) /\ zlen plain <> 0 /\
     kcv = computeKcv plain /\
     (it_key_check_value_present item = true -> it_key_check_value item = kcv)) /\
  (rc ∉ [SUCCESS; STORAGE_WRITE_FAILED; BUSINESS_KEY_NOT_READY] ->
     sf_staging s' = sf_staging s /\ sf_staging_generation s' = sf_staging_generation s).
Proof.
  intros Hu. pose proof Hu as Hu'. apply unwrap_effect in Hu' as
    [[Hne (e' & -> & _)]|(h & plain & e' & -> & _ & Hh & Hd & Hz & Hnz & Hk & Hkp & Hin & _)];
    split_and!; try done.
  - intros Hrc. exists h, plain. split_and!; try done. by apply Hh.
  - intros Hrc. exfalso. apply Hrc.
    rewrite !elem_of_cons in Hin |- *. tauto.
Qed.

(** A slot that decrypts while staged decrypts after the commit. *)
Lemma staged_then_active domain p item g h plain s s3 s4 :
  decrypt_slot_key domain p (unwrapped_slot item g h) s = Ok plain ->
  zlen plain = algorithm_key_size (it_algorithm item) -> zlen plain <> 0 ->
  sf_kek s3 = sf_kek s -> sf_kek s4 = sf_kek s ->
  sf_ready s3 = true -> sf_ready s4 = true ->
  sf_staging s3 !! p = Some (unwrapped_slot item g h) ->
  sf_active s4 !! p = Some (unwrapped_slot item g h) ->
  sf_verifyStaging domain p s3 = SUCCESS /\
  sf_querySlot domain p s4 =
    (SUCCESS, mkSlotInfo true BKS_ACTIVE (it_business_key_version item)
       (toHex (sha256 (bytes_of_string (it_key_id item)))) (it_algorithm item)
       (it_valid_from_ms item) (it_valid_to_ms item) g).
Proof.
  intros Hd Hz Hn K3 K4 R3 R4 Hs Ha.
  assert (D : forall s', sf_kek s' = sf_kek s ->
    decrypt_slot_key domain p (unwrapped_slot item g h) s' = Ok plain).
  { intros s' Hk. rewrite <- Hd. unfold decrypt_slot_key. by rewrite Hk. }
  unfold sf_verifyStaging, sf_querySlot. rewrite R3, R4, Hs, Ha. cbn [negb sl_present unwrapped_slot].
  rewrite !D by done. cbn [sl_algorithm unwrapped_slot code_of is_success]. split; [|done].
  rewrite <- Hz, Z.eqb_refl. by destruct (Z.eqb_spec (zlen plain) 0).
Qed.

(** A whole import. If both required items are unwrapped under one
    generation and the batch commits, every status query, in the same process,
    reports both slots ACTIVE with the items' key versions, algorithms, validity
    and key-id digests: the ciphertexts stored are the ones the slots decrypt. *)
Theorem import_makes_active domain iu id pu pd au ad fu fd b g s1 s2 s3 s4 ku kd :
  it_purpose iu = kBusinessPurposeUplinkAead -> it_purpose id = kBusinessPurposeDownlinkAead ->
  dual_ok s1 ->
  sf_unwrapToStaging domain iu pu au fu b g s1 = ((SUCCESS, ku), s2) ->
  sf_unwrapToStaging domain id pd ad fd b g s2 = ((SUCCESS, kd), s3) ->
  sf_commitBatch domain g s3 = (SUCCESS, s4) ->
  forall item, item = iu \/ item = id ->
    sf_verifyStaging domain (it_purpose item) s3 = SUCCESS /\
    sf_querySlot domain (it_purpose item) s4 =
      (SUCCESS, mkSlotInfo true BKS_ACTIVE (it_business_key_version item)
         (toHex (sha256 (bytes_of_string (it_key_id item)))) (it_algorithm item)
         (it_valid_from_ms item) (it_valid_to_ms item) g).
Proof.
  intros Pu Pd Hd Uu Ud Hc.
  apply unwrap_effect in Uu as [[? _]|(hu & plu & e2 & -> & _ & _ & Du & Zu & Nu & _)]; [done|].
  apply unwrap_effect in Ud as [[? _]|(hd & pld & e3 & -> & _ & _ & Dd & Zd & Nd & _)]; [done|].
  apply commit_effect in Hc as
    [[? _]|(Hs & _ & Hr & e4 & _ & [(_ & -> & _)|[? _]])]; try done.
  destruct (dual_active_promote g _ _ _ Hs Hd) as (u & d & Eu & Ed & Ep & _).
  simpl in Eu, Ed, Ep. rewrite Pu, Pd in Eu, Ed, Ep. rewrite lookup_insert_eq in Ed.
  rewrite lookup_insert_ne, lookup_insert_eq in Eu by done. injection Eu as <-. injection Ed as <-.
  rewrite Pu in Du. rewrite Pd in Dd. intros item [->| ->].
  - rewrite Pu. apply (staged_then_active _ _ _ _ _ _ _ _ _ Du Zu Nu); simpl;
      rewrite ?Pu, ?Pd, ?Ep; try done; by rewrite !lookup_insert; repeat case_decide.
  - rewrite Pd. apply (staged_then_active _ _ _ _ _ _ _ _ _ Dd Zd Nd); simpl;
      rewrite ?Pu, ?Pd, ?Ep; try done; by rewrite ?lookup_insert; repeat case_decide.
Qed.

#[local] Opaque hkdf_sha256.

(** A committed batch survives a restart. When the store and the key file
    are readable, a new process that initializes finds the same active set,
    generation, marker and journal, becomes ready with the HSM, and answers every
    slot query as the old process did. *)
Theorem commit_survives_restart cfg domain g s s' e1 :
  sf_commitBatch domain g s = (SUCCESS, s') -> content_wf s -> is_u64 g ->
  store_open (sf_env s') = (true, e1) -> store_isReady e1 = true -> kek_exists e1 = true ->
  kek_read e1 = Some (sf_kek s) -> length (sf_kek s) = kKekSize ->
  sf_mac_key s = sf_mac_key (derive_mac_key s) -> hsm_present e1 = true ->
  let r := sf_initialize (sf_new cfg (sf_env s')) in
  r.1 = SUCCESS /\ sf_ready r.2 = true /\ same_content s' r.2 /\
  (forall d p, sf_querySlot d p r.2 = sf_querySlot d p s').
Proof.
  intros Hc Hw Hg Ho Hrd Hke Hkr Hl Hm Hh. pose proof (store_open_frame (sf_env s')) as Hs.
  rewrite Ho in Hs. simpl in Hs.
  apply commit_effect in Hc as [[? _]|(_ & _ & Hr & e' & _ & [(_ & -> & Hho)|[? _]])]; try done.
  simpl in Hs, Ho. pose proof (committed_wf g s Hg Hw) as Hcw.
  assert (Hho1 : holds (committed g s) e1).
  { destruct (Hs "state") as [H1 H2], Hho as [H3 H4]. split; congruence. }
  cbv zeta. unfold sf_initialize, on_env. cbn [sf_env sf_new with_env committed]. rewrite Ho.
  cbn [negb with_env sf_env sf_new]. rewrite Hrd, Hke. cbn [negb].
  unfold load_kek. change (sf_env (with_env e1 (sf_new cfg e'))) with e1.
  rewrite Hkr, Hl. cbn [negb Nat.eqb kKekSize is_success].
  rewrite (load_state_holds (committed g s)) by done. cbn [is_success negb].
  assert (Em : sf_mac_key (derive_mac_key (with_kek (sf_kek s)
      (with_env e1 (sf_new cfg e')))) = sf_mac_key s) by by rewrite Hm.
  set (s1 := derive_mac_key (with_kek (sf_kek s) (with_env e1 (sf_new cfg e')))) in *.
  assert (Emk : String.eqb (sf_commit_marker (copy_content (committed g s) s1))
    (compute_commit_marker (sf_mac_key (copy_content (committed g s) s1))
      (sf_generation (copy_content (committed g s) s1))
      (sf_active (copy_content (committed g s) s1))) = true).
  { apply String.eqb_eq. change (sf_mac_key (copy_content (committed g s) s1)) with
      (sf_mac_key s1). by rewrite Em. }
  rewrite Emk. destruct (bool_decide _); cbn; rewrite Hh; (split; [done|]); (split; [done|]);
    (split; [by repeat split|]); intros d p; unfold sf_querySlot; cbn; by rewrite Hr.
Qed.

(** A journal write is read back. After a successful [saveJournal] the entry
    is FOUND under its request digest, every other request reads as before, the
    slots are untouched, and all of it is on disk. *)
Theorem saveJournal_roundtrip entry s s' :
  sf_saveJournal entry s = (SUCCESS, s') -> store_isReady (sf_env s) = true ->
  store_isReady (sf_env s') = true -> sf_state_version_unknown s = false ->
  sf_loadJournalEx (je_request_id_digest entry) s' = mkLoad JLS_FOUND (Some entry) SUCCESS /\
  (forall r, r <> je_request_id_digest entry -> sf_loadJournalEx r s' = sf_loadJournalEx r s) /\
  sf_active s' = sf_active s /\ sf_staging s' = sf_staging s /\
  sf_commit_marker s' = sf_commit_marker s /\ holds s' (sf_env s').
Proof.
  intros Hj H1 H2 Hv. assert (Hr : sf_ready s = true).
  { unfold sf_saveJournal in Hj. by destruct (sf_ready s). }
  apply saveJournal_effect in Hj as [[? _]|(e' & -> & _ & Hh)]; [done|].
  specialize (Hh eq_refl). simpl in H2. unfold sf_loadJournalEx; simpl.
  rewrite Hr, H1, H2, Hv; simpl. rewrite lookup_insert_eq; simpl.
  rewrite !String.eqb_refl; simpl. split_and!; try done.
  intros r Hne. by rewrite lookup_insert_ne.
Qed.

(** Structured journal reads. FOUND means a ready provider, a known state
    version and an entry whose MAC and request digest verify; NOT_FOUND means a
    ready provider, a known version and no entry; anything else is one of the
    four faults, and only FOUND carries an entry. *)
Theorem loadJournalEx_classification r s :
  let up := sf_ready s && store_isReady (sf_env s) in
  let res := sf_loadJournalEx r s in
  (jl_status res = JLS_IO_ERROR <-> up = false) /\
  (jl_status res = JLS_NOT_FOUND <->
     up = true /\ sf_state_version_unknown s = false /\ sf_journal s !! r = None) /\
  (jl_status res = JLS_FOUND <->
     up = true /\ sf_state_version_unknown s = false /\
     exists js, sf_journal s !! r = Some js /\
       js_mac_hex js = journal_mac (sf_mac_key s) (js_entry js) /\
       je_request_id_digest (js_entry js) = r /\ jl_entry res = Some (js_entry js)) /\
  (jl_status res <> JLS_FOUND -> jl_entry res = None).
Proof.
  cbv zeta. unfold sf_loadJournalEx.
  destruct (sf_ready s), (store_isReady (sf_env s)), (sf_state_version_unknown s); simpl;
    try (split_and!; naive_solver).
  destruct (sf_journal s !! r) as [js|] eqn:Ej; simpl; [|split_and!; naive_solver].
  destruct (String.eqb_spec (js_mac_hex js) (journal_mac (sf_mac_key s) (js_entry js))); simpl;
    [|split_and!; naive_solver].
  destruct (String.eqb_spec (je_request_id_digest (js_entry js)) r); simpl; split_and!; naive_solver.
Qed.

(** After the first committed batch every request has residue, for good: no
    sequence of calls and restarts makes [hasTransactionResidue] answer [false]
    again, for any request digest. *)
Theorem residue_is_permanent domain g s s' rid :
  content_wf s -> is_u64 g -> (sf_commitBatch domain g s).1 = SUCCESS ->
  rtc sf_step (sf_commitBatch domain g s).2 s' -> sf_hasTransactionResidue rid s' = true.
Proof.
  intros Hw Hg Hc Hr. pose proof (commit_marked domain g s Hw Hg Hc) as Hm.
  apply (marked_steps _ _ Hr) in Hm. destruct Hm as [_ Hm _ _].
  unfold sf_hasTransactionResidue. destruct (sf_ready s') eqn:Er; [|done]. simpl.
  destruct (store_isReady _); [|done]. simpl. case_match; [done|].
  apply str_empty_false in Hm; [|done]. by rewrite Hm.
Qed.

(** [generateProof] signs only what is active. On success the slot is
    present with the requested key version, and the 64-byte proof is what the
    device key signed over the digest of the attestation input: request, domain,
    purpose, key id, version, envelope digest and key check value. *)
Theorem generateProof_sound domain purpose v rid kid ed kcv s proof alg s' :
  sf_generateProof domain purpose v rid kid ed kcv s = ((SUCCESS, proof, alg), s') ->
  exists sl pv b e1,
    sf_active s !! purpose = Some sl /\ sl_present sl = true /\ sl_version sl = v /\
    purposeEnumValue purpose = Some pv /\
    binding_provider (sf_env s) = (b, e1) /\ db_ready b = true /\ db_device_key_id b <> "" /\
    hsm_sign_digest_p1363 (db_device_key_id b)
      (sha256 (buildProofInput {| pi_request_id := rid; pi_business_domain := domain;
         pi_purpose := pv; pi_key_id := kid; pi_business_key_version := v;
         pi_envelope_digest := ed; pi_key_check_value := kcv |})) e1 =
      ((SUCCESS, proof), sf_env s') /\
    zlen proof = 64 /\ alg = kImportProofAlgorithmP1363 /\ same_content s s'.
Proof.
  unfold sf_generateProof, on_env. cbv zeta. intros Hp. step_in Hp; [done|].
  destruct (sf_active s !! purpose) as [sl|] eqn:Ea; [|done].
  do 2 (step_in Hp; [done|]). destruct (purposeEnumValue purpose) as [pv|] eqn:Ep; [|done].
  destruct (binding_provider (sf_env s)) as [b e1] eqn:Eb.
  step_in Hp; [done|]. cbn [sf_env with_env] in Hp.
  destruct (hsm_sign_digest_p1363 _ _ e1) as [[prc pr] e2] eqn:Eh.
  destruct prc; try (by step_in Hp). cbn [is_success negb] in Hp.
  step_in Hp; [done|]. injection Hp as <- <- <-. bool_simpl.
  exists sl, pv, b, e1. split_and!; try done. by apply str_empty_false.
Qed.
End Properties.

(** The key-derivation loop terminates with exactly [n] bytes, and they are the
    first [n] bytes of the RFC 5869 expansion [T(1) T(2) ...] of the extracted
    key, an empty salt standing for 32 zero bytes (the block counter is one
    byte, so the RFC's bound is [n <= 255 * 32]). *)
Theorem hkdf_sha256_rfc5869 `{SoftFileCrypto} ikm salt info n :
  let prk := HMAC_SHA256 (if bytes_empty salt then replicate 32 x00 else salt) ikm in
  length (hkdf_sha256 ikm salt info n) = n /\
  hkdf_sha256 ikm salt info n = take n (hkdf_blocks prk info n).
Proof.
  cbv zeta. assert (E : hkdf_sha256 ikm salt info n = take n (hkdf_blocks
    (HMAC_SHA256 (if bytes_empty salt then replicate 32 x00 else salt) ikm) info n)).
  { unfold hkdf_sha256. rewrite <- (hkdf_loop_blocks n _ _ 0 n) by lia. done. }
  split; [|done]. rewrite E, length_take, hkdf_blocks_length. lia.
Qed.

(* --------------------------------------------------------------------- *)
(** ** Witnesses                                                          *)
(* --------------------------------------------------------------------- *)

Import SoftFileSample.

Lemma sf0_initial : sf_initial (sf_new cfg0 world0).
Proof. by exists cfg0, world0. Qed.

(** The steps of a first import. *)
Lemma sf_step_unwrap0 item g s :
  is_u64 g -> is_u64 (it_business_key_version item) -> is_i64 (it_valid_from_ms item) ->
  is_i64 (it_valid_to_ms item) -> sf_step s (unwrap0 item g s).2.
Proof. apply step_unwrap. Qed.

Lemma is_u64_1 : is_u64 1.
Proof. unfold is_u64; lia. Qed.

Lemma sf_both_reachable : rtc sf_step (sf_new cfg0 world0) sf_both.
Proof.
  assert (H1 : sf_step (sf_new cfg0 world0) sf0) by exact (step_initialize _).
  assert (H2 : sf_step sf0 sf_up).
  { apply (sf_step_unwrap0 item_u 1 sf0); unfold is_u64, is_i64; simpl; lia. }
  assert (H3 : sf_step sf_up sf_both).
  { apply (sf_step_unwrap0 item_d 1 sf_up); unfold is_u64, is_i64; simpl; lia. }
  exact (rtc_l _ _ _ _ H1 (rtc_l _ _ _ _ H2 (rtc_once _ _ H3))).
Qed.

Lemma sf0_dual : dual_ok sf0.
Proof.
  exact (inv_dual _ (sf_reachable_inv _ _ sf0_initial (rtc_once _ _ (step_initialize _)))).
Qed.

Lemma sf_done_reachable : rtc sf_step (sf_new cfg0 world0) sf_done.
Proof. exact (rtc_r _ _ _ sf_both_reachable (step_commit _ 1 sf_both is_u64_1)). Qed.

Lemma sf_both_inv : sf_inv sf_both.
Proof. exact (sf_reachable_inv _ _ sf0_initial sf_both_reachable). Qed.

Lemma dual_slot_invariant_witness :
  size (sf_active sf_done) = 2%nat /\ dual_active (sf_generation sf_done) (sf_active sf_done).
Proof.
  split; [by vm_compute|].
  exact (dual_slot_invariant _ _ sf0_initial sf_done_reachable).
Defined.

Lemma sf_commit_ok : sf_commitBatch kBusinessDomainV2c 1 sf_both = (SUCCESS, sf_done).
Proof. by vm_compute. Qed.

Lemma commitBatch_atomic_witness :
  sf_commitBatch kBusinessDomainV2c 1 sf_both = (SUCCESS, sf_done) /\
  sf_staging sf_done = ∅ /\ holds sf_done (sf_env sf_done).
Proof.
  destruct (commitBatch_atomic _ _ _ _ _ sf_commit_ok (inv_dual _ sf_both_inv)) as [Hs _].
  destruct (Hs eq_refl) as (_ & _ & _ & ? & _ & ?). split; [exact sf_commit_ok|by split].
Defined.

Lemma sf_unwrap_u : unwrap0 item_u 1 sf0 = ((SUCCESS, (unwrap0 item_u 1 sf0).1.2), sf_up).
Proof. by vm_compute. Qed.
Lemma sf_unwrap_d : unwrap0 item_d 1 sf_up = ((SUCCESS, (unwrap0 item_d 1 sf_up).1.2), sf_both).
Proof. by vm_compute. Qed.

Lemma unwrapToStaging_sound_witness :
  unwrap0 item_u 1 sf0 = ((SUCCESS, (unwrap0 item_u 1 sf0).1.2), sf_up) /\
  sf_active sf_up = sf_active sf0.
Proof.
  split; [exact sf_unwrap_u|].
  exact (proj1 (unwrapToStaging_sound _ _ _ _ _ _ _ _ _ _ _ sf_unwrap_u)).
Defined.

Lemma import_makes_active_witness :
  si_state (sf_querySlot kBusinessDomainV2c kBusinessPurposeDownlinkAead sf_done).2 = BKS_ACTIVE.
Proof.
  destruct (import_makes_active kBusinessDomainV2c item_u item_d params0 params0 [] [] [x01; x02]
    [x01; x02] binding0 1 sf0 sf_up sf_both sf_done _ _ eq_refl eq_refl sf0_dual sf_unwrap_u sf_unwrap_d
    sf_commit_ok item_d (or_intror eq_refl)) as [_ Hq].
  change (it_purpose item_d) with kBusinessPurposeDownlinkAead in Hq. by rewrite Hq.
Defined.

Lemma commit_survives_restart_witness :
  sf_querySlot kBusinessDomainV2c kBusinessPurposeUplinkAead
    (sf_initialize (sf_new cfg0 (sf_env sf_done))).2 =
  sf_querySlot kBusinessDomainV2c kBusinessPurposeUplinkAead sf_done.
Proof.
  refine (proj2 (proj2 (proj2 (commit_survives_restart cfg0 kBusinessDomainV2c 1 sf_both sf_done
    (sf_env sf_done) sf_commit_ok (inv_wf _ sf_both_inv) is_u64_1 eq_refl eq_refl _ _ _ _ _))) _ _);
    by vm_compute.
Defined.

Definition entry0 : BusinessKeyJournalEntry :=
  mkEntry "rid-digest" "req-digest" BIP_PROCESSING 1 [] 100 0 "softfile-v1" "" [] "" [].
Definition sf_logged : SfState world := (sf_saveJournal entry0 sf0).2.

Lemma sf_logged_ok : sf_saveJournal entry0 sf0 = (SUCCESS, sf_logged).
Proof. by vm_compute. Qed.
Lemma sf0_version : sf_state_version_unknown sf0 = false.
Proof. by vm_compute. Qed.

Lemma saveJournal_roundtrip_witness :
  sf_loadJournalEx "rid-digest" sf_logged = mkLoad JLS_FOUND (Some entry0) SUCCESS.
Proof.
  exact (proj1 (saveJournal_roundtrip entry0 sf0 sf_logged sf_logged_ok eq_refl eq_refl sf0_version)).
Defined.

Lemma sf_restart_reachable s : rtc sf_step s (sf_initialize (sf_new cfg0 (sf_env s))).2.
Proof. exact (rtc_l _ _ _ _ (step_restart cfg0 s) (rtc_once _ _ (step_initialize _))). Qed.

Lemma sf_commit_rc : (sf_commitBatch kBusinessDomainV2c 1 sf_both).1 = SUCCESS.
Proof. by vm_compute. Qed.

Lemma residue_is_permanent_witness :
  sf_hasTransactionResidue "any" (sf_initialize (sf_new cfg0
    (sf_env (sf_commitBatch kBusinessDomainV2c 1 sf_both).2))).2 = true.
Proof.
  exact (residue_is_permanent kBusinessDomainV2c 1 sf_both _ "any" (inv_wf _ sf_both_inv) is_u64_1
    sf_commit_rc (sf_restart_reachable _)).
Defined.

Lemma generateProof_sound_witness :
  exists proof, (sf_generateProof kBusinessDomainV2c kBusinessPurposeUplinkAead 7 "rid-1" "k-up" [x01]
      [x02] sf_done).1 = (SUCCESS, proof, kImportProofAlgorithmP1363) /\ zlen proof = 64.
Proof.
  destruct (sf_generateProof kBusinessDomainV2c kBusinessPurposeUplinkAead 7 "rid-1" "k-up" [x01]
    [x02] sf_done) as [[[rc proof] alg] s'] eqn:Ep.
  assert (Erc : rc = SUCCESS /\ alg = kImportProofAlgorithmP1363).
  { apply (f_equal fst) in Ep. vm_compute in Ep. by injection Ep as <- <- <-. }
  destruct Erc as [-> ->]. exists proof. split; [done|].
  destruct (generateProof_sound _ _ _ _ _ _ _ _ _ _ _ Ep) as (sl & pv & b & e1 & H).
  destruct H as (_&_&_&_&_&_&_&_&H&_). exact H.
Defined.
