(* ===== verification/RetryPolicy.v ===== *)
(** * IPC method numbers and the client's retry policy.
    Models [include/ipc_protocol.h] and [src/sec_retry_policy.cpp]. *)
From S2P Require Import Prelude.

(** [src/include/ipc_protocol.h:13-55] ipc::MethodId *)
Inductive MethodId :=
  | INITIALIZE | GENERATE_KEY_PAIR | GET_CSR | SUBMIT_CSR | INJECT_CERTIFICATE
  | APPLY_CERTIFICATE | SET_CA_CERTIFICATE | GET_SEED | VERIFY_KEY | GET_STATUS
  | GET_DEVICE_INFO | RESET_STATUS | EXPORT_PRIVATE_KEY | GET_TLS_CREDENTIAL
  | GET_TLS_CREDENTIAL_STATE | SIGN_TLS | SUBSCRIBE_TLS_CREDENTIAL_CHANGED
  | GET_BUSINESS_KEY_STATUS | IMPORT_WRAPPED_BUSINESS_KEYS | GET_BUSINESS_KEY_IMPORT_RESULT
  | GET_V2C_KEY_PROVISIONING_CAPABILITY | IMPORT_WRAPPED_BUSINESS_KEYS_KL1
  | GET_KEYPROV_CONTRACT_SNAPSHOT | GET_TRUSTED_TIME | SUBSCRIBE_TRUSTED_TIME_CHANGED.

Definition all_methods : list MethodId :=
  [INITIALIZE; GENERATE_KEY_PAIR; GET_CSR; SUBMIT_CSR; INJECT_CERTIFICATE; APPLY_CERTIFICATE;
   SET_CA_CERTIFICATE; GET_SEED; VERIFY_KEY; GET_STATUS; GET_DEVICE_INFO; RESET_STATUS;
   EXPORT_PRIVATE_KEY; GET_TLS_CREDENTIAL; GET_TLS_CREDENTIAL_STATE; SIGN_TLS;
   SUBSCRIBE_TLS_CREDENTIAL_CHANGED; GET_BUSINESS_KEY_STATUS; IMPORT_WRAPPED_BUSINESS_KEYS;
   GET_BUSINESS_KEY_IMPORT_RESULT; GET_V2C_KEY_PROVISIONING_CAPABILITY;
   IMPORT_WRAPPED_BUSINESS_KEYS_KL1; GET_KEYPROV_CONTRACT_SNAPSHOT; GET_TRUSTED_TIME;
   SUBSCRIBE_TRUSTED_TIME_CHANGED].

(** The enumerator's wire value. *)
(** [src/include/ipc_protocol.h:13-55] ipc::MethodId values *)
Definition method_value (m : MethodId) : Z :=
  match m with
  | INITIALIZE => 1 | GENERATE_KEY_PAIR => 2 | GET_CSR => 3 | SUBMIT_CSR => 4
  | INJECT_CERTIFICATE => 5 | APPLY_CERTIFICATE => 6 | SET_CA_CERTIFICATE => 7
  | GET_SEED => 8 | VERIFY_KEY => 9 | GET_STATUS => 10 | GET_DEVICE_INFO => 11
  | RESET_STATUS => 12 | EXPORT_PRIVATE_KEY => 13 | GET_TLS_CREDENTIAL => 14
  | GET_TLS_CREDENTIAL_STATE => 15 | SIGN_TLS => 16 | SUBSCRIBE_TLS_CREDENTIAL_CHANGED => 17
  | GET_BUSINESS_KEY_STATUS => 18 | IMPORT_WRAPPED_BUSINESS_KEYS => 19
  | GET_BUSINESS_KEY_IMPORT_RESULT => 20 | GET_V2C_KEY_PROVISIONING_CAPABILITY => 21
  | IMPORT_WRAPPED_BUSINESS_KEYS_KL1 => 22 | GET_KEYPROV_CONTRACT_SNAPSHOT => 23
  | GET_TRUSTED_TIME => 24 | SUBSCRIBE_TRUSTED_TIME_CHANGED => 25
  end.

(** The enumerator a received number stands for; a number without one keeps its
    value in C++ and takes the [default] of a switch. *)
Definition method_of (v : Z) : option MethodId :=
  find (fun m => method_value m =? v) all_methods.

(** [src/include/sec_retry_policy.h:21-26] SecRetryPolicy::Category *)
Inductive Category := kReadOnly | kBusinessIdempotent | kOneShot | kWrite.

#[global] Instance MethodId_eq_dec : EqDecision MethodId.
Proof. solve_decision. Defined.
#[global] Instance Category_eq_dec : EqDecision Category.
Proof. solve_decision. Defined.

(** [src/src/sec_retry_policy.cpp:6-60] SecRetryPolicy::categorize *)
Definition categorize (method_id : Z) : Category :=
  match method_of method_id with
  | Some (GET_STATUS | GET_DEVICE_INFO | GET_CSR | EXPORT_PRIVATE_KEY | RESET_STATUS) => kReadOnly
  | Some GENERATE_KEY_PAIR => kBusinessIdempotent
  | Some (GET_SEED | VERIFY_KEY) => kOneShot
  | Some (INJECT_CERTIFICATE | APPLY_CERTIFICATE | SET_CA_CERTIFICATE | SUBMIT_CSR) => kWrite
  | Some INITIALIZE => kReadOnly
  | Some (GET_TLS_CREDENTIAL | GET_TLS_CREDENTIAL_STATE) => kReadOnly
  | Some SIGN_TLS => kOneShot
  | Some SUBSCRIBE_TLS_CREDENTIAL_CHANGED => kOneShot
  | Some (GET_BUSINESS_KEY_STATUS | GET_BUSINESS_KEY_IMPORT_RESULT) => kReadOnly
  | Some IMPORT_WRAPPED_BUSINESS_KEYS => kWrite
  | _ => kOneShot
  end.

(** [src/src/sec_retry_policy.cpp:62-65] SecRetryPolicy::should_retry *)
Definition should_retry (method_id : Z) : bool :=
  let cat := categorize method_id in
  bool_decide (cat = kReadOnly) || bool_decide (cat = kBusinessIdempotent).

Lemma method_of_value m : method_of (method_value m) = Some m.
Proof. by destruct m. Qed.

Lemma method_of_some v m : method_of v = Some m -> method_value m = v.
Proof. intros E. by apply find_some in E as [_ ?%Z.eqb_eq]. Qed.

(** Replay safety. The client never replays a call that imports, installs or
    consumes something, nor a number it does not know; what it may replay is
    exactly the read-only queries, the idempotent initialisation and key-pair
    generation. The read-only queries added with numbers 21, 23 and 24 are not
    in the table and are, conservatively, never replayed. *)
Theorem should_retry_spec v :
  (should_retry v = true <->
   exists m, v = method_value m /\
     m ∈ [INITIALIZE; GENERATE_KEY_PAIR; GET_CSR; GET_STATUS; GET_DEVICE_INFO; RESET_STATUS;
          EXPORT_PRIVATE_KEY; GET_TLS_CREDENTIAL; GET_TLS_CREDENTIAL_STATE;
          GET_BUSINESS_KEY_STATUS; GET_BUSINESS_KEY_IMPORT_RESULT]) /\
  (method_of v = None -> categorize v = kOneShot /\ should_retry v = false).
Proof.
  assert (Hn : method_of v = None -> categorize v = kOneShot /\ should_retry v = false).
  { intros E. unfold should_retry, categorize. by rewrite E. }
  split; [|exact Hn]. split.
  - intros Hr. destruct (method_of v) as [m|] eqn:E; [|destruct Hn as [_ Hn]; congruence].
    exists m. split; [by rewrite (method_of_some _ _ E)|].
    unfold should_retry, categorize in Hr. rewrite E in Hr.
    destruct m; try discriminate Hr; apply list_elem_of_In; simpl; auto 20.
  - intros (m & -> & Hm). unfold should_retry, categorize. rewrite method_of_value.
    apply list_elem_of_In in Hm. simpl in Hm. by repeat destruct Hm as [<-|Hm].
Qed.
