(* ===== verification/TimeTypes.v ===== *)
(** * Trusted time: data, stable symbols, wire envelope.
    Models the types of [include/trusted_time.h], the string tables of
    [src/trusted_time.cpp], and the envelope with its JSON form of
    [include/tbox/sec/time.h]. Durations are milliseconds; a
    [system_clock::time_point] counts nanoseconds, as libstdc++'s does. *)
From S2P Require Import Prelude Json.

(* --------------------------------------------------------------------- *)
(** ** Enumerations                                                       *)
(* --------------------------------------------------------------------- *)

(** [src/include/trusted_time.h:49-49] TimeTrustState *)
Inductive TimeTrustState := Trusted | Untrusted | TrustUnknown.

(** [src/include/trusted_time.h:52-52] TimeSource *)
Inductive TimeSource := PlatformSync | HardwareRtc | FakeSource | NoSource.

(** [src/include/trusted_time.h:55-55] TimeSyncState *)
Inductive TimeSyncState := Unsynch | Syncing | Synced | Holdover | Fault.

(** [src/include/trusted_time.h:58-58] TimeSourceKind *)
Inductive TimeSourceKind := KindNone | NtpNetwork | Cellular | Gnss | KindHardwareRtc.

(** [src/include/trusted_time.h:61-61] TimeAuthStatus *)
Inductive TimeAuthStatus := AuthUnknown | Unverified | Verified | AuthFailed.

(** [src/include/trusted_time.h:64-89] TimeReason *)
Inductive TimeReason :=
  | PlatformSynced | PlatformNotSynchronized | PlatformNotAuthenticated
  | PlatformAuthUnverifiable | PlatformContractIncomplete | PlatformTooOld
  | PlatformUncertaintyTooHigh | PlatformRollbackDetected | PlatformValidityExpired
  | PlatformInterfaceUnavailable | PlatformMalformed
  | RtcProvisioned | RtcNotProvisioned | RtcNotHealthy | RtcOutOfRange | RtcRollbackDetected
  | RtcReadError | RtcInterfaceUnavailable
  | NoSourceAvailable | TimeExpired | FakeTest.

#[global] Instance TimeTrustState_eq_dec : EqDecision TimeTrustState.
Proof. solve_decision. Defined.
#[global] Instance TimeSource_eq_dec : EqDecision TimeSource.
Proof. solve_decision. Defined.
#[global] Instance TimeSyncState_eq_dec : EqDecision TimeSyncState.
Proof. solve_decision. Defined.
#[global] Instance TimeSourceKind_eq_dec : EqDecision TimeSourceKind.
Proof. solve_decision. Defined.
#[global] Instance TimeAuthStatus_eq_dec : EqDecision TimeAuthStatus.
Proof. solve_decision. Defined.
#[global] Instance TimeReason_eq_dec : EqDecision TimeReason.
Proof. solve_decision. Defined.

(** [src/src/trusted_time.cpp:967-974] timeTrustStateToString *)
Definition timeTrustStateToString (s : TimeTrustState) : string :=
  match s with Trusted => "trusted" | Untrusted => "untrusted" | TrustUnknown => "unknown" end.

(** [src/src/trusted_time.cpp:976-984] timeSourceToString *)
Definition timeSourceToString (s : TimeSource) : string :=
  match s with
  | PlatformSync => "platform_sync" | HardwareRtc => "hardware_rtc"
  | FakeSource => "fake_test" | NoSource => "none"
  end.

(** [src/src/trusted_time.cpp:986-1011] timeReasonToString *)
Definition timeReasonToString (r : TimeReason) : string :=
  match r with
  | PlatformSynced => "platform_synced"
  | PlatformNotSynchronized => "platform_not_synchronized"
  | PlatformNotAuthenticated => "platform_not_authenticated"
  | PlatformAuthUnverifiable => "platform_auth_unverifiable"
  | PlatformContractIncomplete => "platform_contract_incomplete"
  | PlatformTooOld => "platform_too_old"
  | PlatformUncertaintyTooHigh => "platform_uncertainty_too_high"
  | PlatformRollbackDetected => "platform_rollback_detected"
  | PlatformValidityExpired => "platform_validity_expired"
  | PlatformInterfaceUnavailable => "platform_interface_unavailable"
  | PlatformMalformed => "platform_malformed"
  | RtcProvisioned => "rtc_provisioned"
  | RtcNotProvisioned => "rtc_not_provisioned"
  | RtcNotHealthy => "rtc_not_healthy"
  | RtcOutOfRange => "rtc_out_of_range"
  | RtcRollbackDetected => "rtc_rollback_detected"
  | RtcReadError => "rtc_read_error"
  | RtcInterfaceUnavailable => "rtc_interface_unavailable"
  | NoSourceAvailable => "no_source_available"
  | TimeExpired => "time_expired"
  | FakeTest => "fake_test"
  end.

(** [src/src/trusted_time.cpp:1013-1022] timeSyncStateToString *)
Definition timeSyncStateToString (s : TimeSyncState) : string :=
  match s with
  | Unsynch => "unsynchronized" | Syncing => "synchronizing" | Synced => "synchronized"
  | Holdover => "holdover" | Fault => "fault"
  end.

(** [src/src/trusted_time.cpp:1024-1033] timeSourceKindToString *)
Definition timeSourceKindToString (k : TimeSourceKind) : string :=
  match k with
  | KindNone => "none" | NtpNetwork => "ntp_network" | Cellular => "cellular"
  | Gnss => "gnss" | KindHardwareRtc => "hardware_rtc"
  end.

(** [src/src/trusted_time.cpp:1035-1043] timeAuthStatusToString *)
Definition timeAuthStatusToString (a : TimeAuthStatus) : string :=
  match a with
  | AuthUnknown => "unknown" | Unverified => "unverified" | Verified => "verified"
  | AuthFailed => "failed"
  end.

(* --------------------------------------------------------------------- *)
(** ** Time points                                                        *)
(* --------------------------------------------------------------------- *)

Definition ns_per_ms : Z := 1000000.

(** [time_point(milliseconds(ms))] and [duration_cast<milliseconds>], which
    truncates towards zero. *)
Definition tp_of_ms (ms : Z) : Z := ms * ns_per_ms.
Definition ms_of_tp (tp : Z) : Z := Z.quot tp ns_per_ms.

Lemma ms_of_tp_of_ms ms : ms_of_tp (tp_of_ms ms) = ms.
Proof. apply Z.quot_mul. unfold ns_per_ms. lia. Qed.

(* --------------------------------------------------------------------- *)
(** ** Records                                                            *)
(* --------------------------------------------------------------------- *)

(** [src/include/trusted_time.h:92-102] TrustedTimeSample *)
Record TrustedTimeSample := mkSample {
  ts_utc_now : Z;
  ts_trust_state : TimeTrustState;
  ts_source : TimeSource;
  ts_freshness_age : Z;
  ts_uncertainty : Z;
  ts_reason : TimeReason;
  ts_source_epoch : Z
}.
Definition TrustedTimeSample_default : TrustedTimeSample :=
  mkSample 0 TrustUnknown NoSource 0 0 NoSourceAvailable 0.

(** [src/include/trusted_time.h:155-192] TimeFactSnapshot *)
Record TimeFactSnapshot := mkFact {
  tf_contract_version : Z;
  tf_capabilities : string;
  tf_time_daemon_epoch : Z;
  tf_time_event_sequence : Z;
  tf_state : TimeSyncState;
  tf_source_id : string;
  tf_source_kind : TimeSourceKind;
  tf_source_epoch : Z;
  tf_utc_valid : bool;
  tf_utc_epoch_ms : Z;
  tf_system_clock_aligned : bool;
  tf_alignment_error_ms : Z;
  tf_freshness_age_ms : Z;
  tf_uncertainty_valid : bool;
  tf_uncertainty_ms : Z;
  tf_remaining_validity_ms : Z;
  tf_drift_bound_ppm : Z;
  tf_auth_status : TimeAuthStatus;
  tf_evidence_ref : string;
  tf_policy_version : string;
  tf_rtt_ms : Z;
  tf_received_boot_ms : Z;
  tf_transport_ok : bool;
  tf_validated : bool;
  tf_contract_complete : bool;
  tf_error_detail : string
}.

(** A default snapshot with the fields [query] sets on its failure paths. *)
Definition fact_failed (received : Z) (transport_ok : bool) (detail : string) : TimeFactSnapshot :=
  mkFact 0 "" 0 0 Unsynch "" KindNone 0 false 0 false 0 0 false 0 0 0 AuthUnknown "" "" 0 received
    transport_ok false false detail.

(** [src/include/trusted_time.h:218-243] TrustedTimeResult *)
Record TrustedTimeResult := mkTimeResult {
  tr_sample : TrustedTimeSample;
  tr_contract_version : Z;
  tr_capabilities : string;
  tr_contract_complete : bool;
  tr_sec_daemon_epoch : Z;
  tr_sec_time_event_sequence : Z;
  tr_time_daemon_epoch : Z;
  tr_time_event_sequence : Z;
  tr_source_id : string;
  tr_source_kind : TimeSourceKind;
  tr_policy_version : string;
  tr_system_clock_aligned : bool;
  tr_alignment_error_ms : Z;
  tr_remaining_validity_ms : Z;
  tr_drift_bound_ppm : Z;
  tr_auth_status : TimeAuthStatus;
  tr_evidence_ref : string;
  tr_utc_valid : bool;
  tr_error_class : string
}.
Definition TrustedTimeResult_default : TrustedTimeResult :=
  mkTimeResult TrustedTimeSample_default 0 "" false 0 0 0 0 "" KindNone "" false 0 0 0 AuthUnknown
    "" false "".

(** Field updates. *)
Definition smp_verdict (t : TimeTrustState) (r : TimeReason) (s : TrustedTimeSample) :
    TrustedTimeSample :=
  mkSample (ts_utc_now s) t (ts_source s) (ts_freshness_age s) (ts_uncertainty s) r
    (ts_source_epoch s).
Definition with_sample (s : TrustedTimeSample) (r : TrustedTimeResult) : TrustedTimeResult :=
  mkTimeResult s (tr_contract_version r) (tr_capabilities r) (tr_contract_complete r)
    (tr_sec_daemon_epoch r) (tr_sec_time_event_sequence r) (tr_time_daemon_epoch r)
    (tr_time_event_sequence r) (tr_source_id r) (tr_source_kind r) (tr_policy_version r)
    (tr_system_clock_aligned r) (tr_alignment_error_ms r) (tr_remaining_validity_ms r)
    (tr_drift_bound_ppm r) (tr_auth_status r) (tr_evidence_ref r) (tr_utc_valid r)
    (tr_error_class r).
(** [out.sample.trust_state = t; out.sample.reason = w;] *)
Definition verdict (t : TimeTrustState) (w : TimeReason) (r : TrustedTimeResult) :
    TrustedTimeResult := with_sample (smp_verdict t w (tr_sample r)) r.
Definition with_contract_complete (b : bool) (r : TrustedTimeResult) : TrustedTimeResult :=
  mkTimeResult (tr_sample r) (tr_contract_version r) (tr_capabilities r) b
    (tr_sec_daemon_epoch r) (tr_sec_time_event_sequence r) (tr_time_daemon_epoch r)
    (tr_time_event_sequence r) (tr_source_id r) (tr_source_kind r) (tr_policy_version r)
    (tr_system_clock_aligned r) (tr_alignment_error_ms r) (tr_remaining_validity_ms r)
    (tr_drift_bound_ppm r) (tr_auth_status r) (tr_evidence_ref r) (tr_utc_valid r)
    (tr_error_class r).
Definition with_remaining (v : Z) (r : TrustedTimeResult) : TrustedTimeResult :=
  mkTimeResult (tr_sample r) (tr_contract_version r) (tr_capabilities r) (tr_contract_complete r)
    (tr_sec_daemon_epoch r) (tr_sec_time_event_sequence r) (tr_time_daemon_epoch r)
    (tr_time_event_sequence r) (tr_source_id r) (tr_source_kind r) (tr_policy_version r)
    (tr_system_clock_aligned r) (tr_alignment_error_ms r) v
    (tr_drift_bound_ppm r) (tr_auth_status r) (tr_evidence_ref r) (tr_utc_valid r)
    (tr_error_class r).
(** [r.sec_daemon_epoch = e; r.sec_time_event_sequence = n;] *)
Definition with_sec_ids (e n : Z) (r : TrustedTimeResult) : TrustedTimeResult :=
  mkTimeResult (tr_sample r) (tr_contract_version r) (tr_capabilities r) (tr_contract_complete r)
    e n (tr_time_daemon_epoch r)
    (tr_time_event_sequence r) (tr_source_id r) (tr_source_kind r) (tr_policy_version r)
    (tr_system_clock_aligned r) (tr_alignment_error_ms r) (tr_remaining_validity_ms r)
    (tr_drift_bound_ppm r) (tr_auth_status r) (tr_evidence_ref r) (tr_utc_valid r)
    (tr_error_class r).

(** Does a result grant trust? *)
Definition is_trusted (s : TrustedTimeSample) : bool := bool_decide (ts_trust_state s = Trusted).

(** The injectable clock is part of the environment. *)
(** [src/include/trusted_time.h:277-296] TrustedTimeConfig *)
Record TrustedTimeConfig := mkTimeConfig {
  tc_platform_enabled : bool;
  tc_max_freshness : Z;
  tc_max_uncertainty : Z;
  tc_hw_rtc_enabled : bool;
  tc_hw_rtc_require_provisioned : bool;
  tc_rollback_tolerance : Z;
  tc_time_socket_path : string;
  tc_time_query_timeout : Z;
  tc_monitor_refresh_interval : Z;
  tc_lease_max : Z;
  tc_cache_max_age : Z;
  tc_approved_policy_versions : list string;
  tc_approved_sources : list string;
  tc_require_evidence : bool;
  tc_monitor_enabled : bool
}.
Definition TrustedTimeConfig_default : TrustedTimeConfig :=
  mkTimeConfig true 300000 2000 true true 2000 "/tmp/tbox-time.sock" 500 500 1000 1000 ["1"] [] true
    true.

(* --------------------------------------------------------------------- *)
(** ** The wire envelope                                                  *)
(* --------------------------------------------------------------------- *)

(** [src/include/tbox/sec/time.h:32-79] TrustedTimeEnvelope *)
Record TrustedTimeEnvelope := mkEnvelope {
  te_contract_version : Z;
  te_capabilities : string;
  te_contract_complete : bool;
  te_sec_daemon_epoch : Z;
  te_sec_time_event_sequence : Z;
  te_time_daemon_epoch : Z;
  te_time_event_sequence : Z;
  te_source_id : string;
  te_source_kind : string;
  te_source_epoch : Z;
  te_policy_version : string;
  te_trust_state : string;
  te_source : string;
  te_reason : string;
  te_utc_valid : bool;
  te_utc_epoch_ms : Z;
  te_freshness_age_ms : Z;
  te_uncertainty_valid : bool;
  te_uncertainty_ms : Z;
  te_remaining_validity_ms : Z;
  te_drift_bound_ppm : Z;
  te_system_clock_aligned : bool;
  te_alignment_error_ms : Z;
  te_auth_status : string;
  te_evidence_ref : string;
  te_valid : bool;
  te_error_class : string
}.

(** [src/include/tbox/sec/time.h:32-79] TrustedTimeEnvelope defaults *)
Definition TrustedTimeEnvelope_default : TrustedTimeEnvelope :=
  mkEnvelope 0 "" false 0 0 0 0 "" "" 0 "" "" "" "" false 0 0 false 0 0 0 false 0 "" "" false "".

Definition te_with_error_class (x : string) (e : TrustedTimeEnvelope) : TrustedTimeEnvelope :=
  mkEnvelope (te_contract_version e) (te_capabilities e) (te_contract_complete e)
    (te_sec_daemon_epoch e) (te_sec_time_event_sequence e) (te_time_daemon_epoch e)
    (te_time_event_sequence e) (te_source_id e) (te_source_kind e) (te_source_epoch e)
    (te_policy_version e) (te_trust_state e) (te_source e) (te_reason e) (te_utc_valid e)
    (te_utc_epoch_ms e) (te_freshness_age_ms e) (te_uncertainty_valid e) (te_uncertainty_ms e)
    (te_remaining_validity_ms e) (te_drift_bound_ppm e) (te_system_clock_aligned e)
    (te_alignment_error_ms e) (te_auth_status e) (te_evidence_ref e) (te_valid e) x.

(** [src/src/trusted_time.cpp:198-233] TrustedTimeResult::to_envelope *)
Definition to_envelope (r : TrustedTimeResult) : TrustedTimeEnvelope :=
  let s := tr_sample r in
  mkEnvelope (tr_contract_version r) (tr_capabilities r) (tr_contract_complete r)
    (tr_sec_daemon_epoch r) (tr_sec_time_event_sequence r) (tr_time_daemon_epoch r)
    (tr_time_event_sequence r) (tr_source_id r) (timeSourceKindToString (tr_source_kind r))
    (ts_source_epoch s) (tr_policy_version r) (timeTrustStateToString (ts_trust_state s))
    (timeSourceToString (ts_source s)) (timeReasonToString (ts_reason s)) (tr_utc_valid r)
    (if tr_utc_valid r then ms_of_tp (ts_utc_now s) else 0) (ts_freshness_age s) (tr_utc_valid r)
    (ts_uncertainty s) (tr_remaining_validity_ms r) (tr_drift_bound_ppm r)
    (tr_system_clock_aligned r) (tr_alignment_error_ms r) (timeAuthStatusToString (tr_auth_status r))
    (tr_evidence_ref r) (str_empty (tr_error_class r)) (tr_error_class r).

Section Codec.
Context `{J : Json}.

(** [src/include/tbox/sec/time.h:85-115] trusted_time_envelope_to_json *)
Definition trusted_time_envelope_to_json (e : TrustedTimeEnvelope) : json := json_of_fields
  [("contract_version", json_int (te_contract_version e));
   ("capabilities", json_string (te_capabilities e));
   ("contract_complete", json_bool (te_contract_complete e));
   ("sec_daemon_epoch", json_int (te_sec_daemon_epoch e));
   ("sec_time_event_sequence", json_int (te_sec_time_event_sequence e));
   ("time_daemon_epoch", json_int (te_time_daemon_epoch e));
   ("time_event_sequence", json_int (te_time_event_sequence e));
   ("source_id", json_string (te_source_id e));
   ("source_kind", json_string (te_source_kind e));
   ("source_epoch", json_int (te_source_epoch e));
   ("policy_version", json_string (te_policy_version e));
   ("trust_state", json_string (te_trust_state e));
   ("source", json_string (te_source e));
   ("reason", json_string (te_reason e));
   ("utc_valid", json_bool (te_utc_valid e));
   ("utc_epoch_ms", json_int (te_utc_epoch_ms e));
   ("freshness_age_ms", json_int (te_freshness_age_ms e));
   ("uncertainty_valid", json_bool (te_uncertainty_valid e));
   ("uncertainty_ms", json_int (te_uncertainty_ms e));
   ("remaining_validity_ms", json_int (te_remaining_validity_ms e));
   ("drift_bound_ppm", json_int (te_drift_bound_ppm e));
   ("system_clock_aligned", json_bool (te_system_clock_aligned e));
   ("alignment_error_ms", json_int (te_alignment_error_ms e));
   ("auth_status", json_string (te_auth_status e));
   ("evidence_ref", json_string (te_evidence_ref e));
   ("valid", json_bool (te_valid e));
   ("error_class", json_string (te_error_class e))].

(** [j.contains(k)]. *)
Definition json_contains (j : json) (k : string) : bool :=
  match json_get j k with Some _ => true | None => false end.

(** [None] is the [false] result, with [out] unchanged. *)
(** [src/include/tbox/sec/time.h:117-159] trusted_time_envelope_from_json *)
Definition trusted_time_envelope_from_json (j : json) : option TrustedTimeEnvelope :=
  if negb (json_is_object j) then None else
  if negb (json_contains j "trust_state") || negb (json_contains j "sec_daemon_epoch") ||
     negb (json_contains j "valid") || negb (json_contains j "contract_version") then None else
  contract_version ← value_u32 j "contract_version" 0;
  capabilities ← value_string j "capabilities" "";
  contract_complete ← value_bool j "contract_complete" false;
  sec_daemon_epoch ← value_u64 j "sec_daemon_epoch" 0;
  sec_time_event_sequence ← value_u64 j "sec_time_event_sequence" 0;
  time_daemon_epoch ← value_u64 j "time_daemon_epoch" 0;
  time_event_sequence ← value_u64 j "time_event_sequence" 0;
  source_id ← value_string j "source_id" "";
  source_kind ← value_string j "source_kind" "";
  source_epoch ← value_u64 j "source_epoch" 0;
  policy_version ← value_string j "policy_version" "";
  trust_state ← value_string j "trust_state" "";
  source ← value_string j "source" "";
  reason ← value_string j "reason" "";
  utc_valid ← value_bool j "utc_valid" false;
  utc_epoch_ms ← value_i64 j "utc_epoch_ms" 0;
  freshness_age_ms ← value_i64 j "freshness_age_ms" 0;
  uncertainty_valid ← value_bool j "uncertainty_valid" false;
  uncertainty_ms ← value_i64 j "uncertainty_ms" 0;
  remaining_validity_ms ← value_i64 j "remaining_validity_ms" 0;
  drift_bound_ppm ← value_i64 j "drift_bound_ppm" 0;
  system_clock_aligned ← value_bool j "system_clock_aligned" false;
  alignment_error_ms ← value_i64 j "alignment_error_ms" 0;
  auth_status ← value_string j "auth_status" "";
  evidence_ref ← value_string j "evidence_ref" "";
  valid ← value_bool j "valid" false;
  error_class ← value_string j "error_class" "";
  Some (mkEnvelope contract_version capabilities contract_complete sec_daemon_epoch
          sec_time_event_sequence time_daemon_epoch time_event_sequence source_id source_kind
          source_epoch policy_version trust_state source reason utc_valid utc_epoch_ms
          freshness_age_ms uncertainty_valid uncertainty_ms remaining_validity_ms drift_bound_ppm
          system_clock_aligned alignment_error_ms auth_status evidence_ref valid error_class).

(** The C++ types of an envelope's fields. *)
Definition envelope_wf (e : TrustedTimeEnvelope) : Prop :=
  is_u32 (te_contract_version e) /\
  is_u64 (te_sec_daemon_epoch e) /\ is_u64 (te_sec_time_event_sequence e) /\
  is_u64 (te_time_daemon_epoch e) /\ is_u64 (te_time_event_sequence e) /\
  is_u64 (te_source_epoch e) /\
  is_i64 (te_utc_epoch_ms e) /\ is_i64 (te_freshness_age_ms e) /\ is_i64 (te_uncertainty_ms e) /\
  is_i64 (te_remaining_validity_ms e) /\ is_i64 (te_drift_bound_ppm e) /\
  is_i64 (te_alignment_error_ms e).

Context `{!JsonLaws J}.

(** The envelope the service sends is the one the client decodes, field for
    field; a document without the trust state, the service epoch, the validity
    flag or the contract version decodes to nothing. *)
Theorem envelope_json_roundtrip e j k :
  envelope_wf e -> k ∈ ["trust_state"; "sec_daemon_epoch"; "valid"; "contract_version"] ->
  trusted_time_envelope_from_json (trusted_time_envelope_to_json e) = Some e /\
  (json_get j k = None -> trusted_time_envelope_from_json j = None).
Proof.
  intros (Hv&?&?&?&?&?&?&?&?&?&?&?) Hk. split.
  - unfold trusted_time_envelope_from_json, trusted_time_envelope_to_json, json_contains.
    rewrite json_of_fields_object, !json_of_fields_get. cbn [negb orb field_lookup String.eqb].
    erewrite value_u32_fields by (reflexivity || done). json_fields. by destruct e.
  - intros Hj. unfold trusted_time_envelope_from_json, json_contains.
    destruct (json_is_object j); [|done]. simpl.
    rewrite !elem_of_cons in Hk. destruct Hk as [->|[->|[->|[->|Hk]]]]; [..|by inversion Hk];
      rewrite Hj; simpl; by rewrite ?orb_true_r.
Qed.
End Codec.

(** A sample envelope, in the sample JSON library. *)
Definition envelope0 : TrustedTimeEnvelope :=
  mkEnvelope 1 "snapshot,v1" true 42 7 77 5 "ntp-1" "ntp_network" 3 "1" "trusted" "platform_sync"
    "platform_synced" true 1700000000000 130 true 10 870 50 true 2 "verified" "ev-1" true "".

Import JsonSample.

Lemma envelope_json_roundtrip_witness :
  trusted_time_envelope_from_json (J := JsonSample.sample_json)
    (trusted_time_envelope_to_json envelope0) = Some envelope0.
Proof.
  refine (proj1 (envelope_json_roundtrip (J := JsonSample.sample_json) envelope0
    (JsonSample.VObj []) "valid" _ _)).
  - vm_compute. repeat split; discriminate.
  - set_solver.
Defined.
