(* ===== verification/TrustedTime.v ===== *)
(** * Trusted time: gates, composite provider, platform adapter.
    Models the decision part of [src/trusted_time.cpp]. The TIME client, the RTC
    driver and the monotonic clock are an environment. [int64_t] arithmetic is
    unbounded here; [gatePlatform_no_overflow] bounds it. *)
From S2P Require Import Prelude Json TimeTypes.

(* --------------------------------------------------------------------- *)
(** ** The TIME client and the environment                                *)
(* --------------------------------------------------------------------- *)

(** The enumerators of the TIME SDK the code names; a value outside them takes
    the return after the switch. *)
Inductive SdkTimeState := kUnsynch | kSyncing | kSynced | kHoldover | kFault | kTimeStateOther.
Inductive SdkSourceKind :=
  kSourceNone | kNtpNetwork | kCellular | kGnss | kRtc | kSourceKindOther.
Inductive SdkAuthStatus := kAuthUnknown | kUnverified | kVerified | kAuthFailed | kAuthOther.

(** The fields of [tbox::time::TimeSnapshot] the adapter reads; [sn_validate] is the
    answer of the SDK's [validate()]. *)
Record SdkSnapshot := mkSnap {
  sn_validate : bool;
  sn_contract_version : Z;
  sn_capabilities : string;
  sn_daemon_epoch : Z;
  sn_event_sequence : Z;
  sn_state : SdkTimeState;
  sn_source_id : string;
  sn_source_kind : SdkSourceKind;
  sn_source_epoch : Z;
  sn_utc_valid : bool;
  sn_utc_epoch_ms : Z;
  sn_system_clock_aligned : bool;
  sn_alignment_error_ms : Z;
  sn_freshness_age_ms : Z;
  sn_uncertainty_valid : bool;
  sn_uncertainty_ms : Z;
  sn_remaining_validity_ms : Z;
  sn_drift_bound_ppm : Z;
  sn_auth_status : SdkAuthStatus;
  sn_evidence_ref : string;
  sn_policy_version : string
}.

(** [src/include/trusted_time.h:127-135] QueryResult::Error *)
Inductive QueryError :=
  | qkOk | qkTimeUnavailable | qkServiceUnreachable | qkTimeout | qkUnsupported | qkInvalidData
  | qkInternalError.

(** [src/include/trusted_time.h:126-139] QueryResult *)
Record QueryResult := mkQuery {
  qr_error : QueryError;
  qr_snapshot : SdkSnapshot;
  qr_rtt_ms : Z
}.

(** The errors and results of the library's [TimeClient]. *)
Inductive ClientError :=
  | ckOk | ckTimeUnavailable | ckServiceUnreachable | ckTimeout | ckUnsupported | ckInvalidData | ckOther.
Record ClientResult := mkClientResult { cr_error : ClientError; cr_snapshot : SdkSnapshot; cr_rtt_ms : Z }.

(** [src/src/trusted_time.cpp:144-173] TimeClientBridge::get_time_snapshot *)
Definition bridge_get_time_snapshot (res : ClientResult) : QueryResult :=
  mkQuery (match cr_error res with
    | ckOk => qkOk
    | ckTimeUnavailable => qkTimeUnavailable
    | ckServiceUnreachable => qkServiceUnreachable
    | ckTimeout => qkTimeout
    | ckUnsupported => qkUnsupported
    | ckInvalidData => qkInvalidData
    | ckOther => qkInternalError
    end) (cr_snapshot res) (Z.max 0 (cr_rtt_ms res)).

(** The client object, the RTC driver and the clocks. Every read of the monotonic
    clock may see a later time. *)
(** [src/include/trusted_time.h:120-146] TimeSourceClient *)
Class TimeEnv (E : Type) := {
  client_connect : st E bool;
  client_disconnect : st E unit;
  client_is_connected : E -> bool;
  client_get_time_snapshot : st E QueryResult;
  client_subscribe : st E bool;
  hw_rtc_query : st E TrustedTimeSample;
  boot_now : st E Z;
  wall_now : st E Z
}.

(* --------------------------------------------------------------------- *)
(** ** Decisions on a fact                                                *)
(* --------------------------------------------------------------------- *)

(** [src/src/trusted_time.cpp:44-58] authBound *)
Definition authBound (f : TimeFactSnapshot) (cfg : TrustedTimeConfig) : bool :=
  if negb (bool_decide (tf_auth_status f = Verified)) then false else
  if negb (contains (tc_approved_policy_versions cfg) (tf_policy_version f)) then false else
  if tc_require_evidence cfg && str_empty (tf_evidence_ref f) then false else
  if negb (bool_decide (tc_approved_sources cfg = [])) &&
     negb (contains (tc_approved_sources cfg) (tf_source_id f)) then false else
  true.

(** [src/src/trusted_time.cpp:60-77] contractComplete *)
Definition contractComplete (f : TimeFactSnapshot) : bool :=
  if negb (tf_validated f) then false else
  if tf_contract_version f =? 0 then false else
  if negb (str_contains "snapshot" (tf_capabilities f)) then false else
  if tf_time_daemon_epoch f =? 0 then false else
  if str_empty (tf_source_id f) then false else
  if bool_decide (tf_source_kind f = KindNone) then false else
  if str_empty (tf_policy_version f) then false else
  if tf_drift_bound_ppm f <=? 0 then false else
  if tf_remaining_validity_ms f <? 0 then false else
  if tf_freshness_age_ms f <? 0 then false else
  if tf_uncertainty_ms f <? 0 then false else
  true.

(** [src/src/trusted_time.cpp:79-88] mapState *)
Definition mapState (s : SdkTimeState) : TimeSyncState :=
  match s with
  | kUnsynch => Unsynch | kSyncing => Syncing | kSynced => Synced | kHoldover => Holdover
  | kFault => Fault | kTimeStateOther => Unsynch
  end.

(** [src/src/trusted_time.cpp:90-99] mapKind *)
Definition mapKind (k : SdkSourceKind) : TimeSourceKind :=
  match k with
  | kNtpNetwork => NtpNetwork | kCellular => Cellular | kGnss => Gnss | kRtc => KindHardwareRtc
  | kSourceNone => KindNone | kSourceKindOther => KindNone
  end.

(** [src/src/trusted_time.cpp:101-109] mapAuth *)
Definition mapAuth (a : SdkAuthStatus) : TimeAuthStatus :=
  match a with
  | kAuthUnknown => AuthUnknown | kUnverified => Unverified | kVerified => Verified
  | kAuthFailed => AuthFailed | kAuthOther => AuthUnknown
  end.

(** [src/src/trusted_time.cpp:115-123] moreSpecific cls *)
Definition reason_class (r : TimeReason) : Z :=
  match r with
  | NoSourceAvailable => 0
  | PlatformInterfaceUnavailable | RtcInterfaceUnavailable => 1
  | _ => 2
  end.

(** [src/src/trusted_time.cpp:111-125] moreSpecific *)
Definition moreSpecific (a b : TimeReason) : bool := reason_class a >? reason_class b.

(* --------------------------------------------------------------------- *)
(** ** State                                                              *)
(* --------------------------------------------------------------------- *)

(** The provider with its two sources. [tm_platform], [tm_hw_rtc] and [tm_client] say
    whether the pointers are set; [tm_lkg] and [tm_last_epoch] are [None] while
    [has_lkg_] and [has_epoch_] are false. *)
(** [src/include/trusted_time.h:322-330] CompositeTrustedTimeProvider *)
Record TimeState (E : Type) := mkTime {
  tm_cfg : TrustedTimeConfig;
  tm_platform : bool;
  tm_hw_rtc : bool;
  tm_client : bool;
  tm_connection_generation : Z;
  tm_ever_connected : bool;
  tm_lkg : option Z;
  tm_last_epoch : option Z;
  tm_env : E
}.
Arguments mkTime {E}.
Arguments tm_cfg {E}. Arguments tm_platform {E}. Arguments tm_hw_rtc {E}. Arguments tm_client {E}.
Arguments tm_connection_generation {E}. Arguments tm_ever_connected {E}. Arguments tm_lkg {E}.
Arguments tm_last_epoch {E}. Arguments tm_env {E}.

Section Composite.
Context {E : Type} `{Env : TimeEnv E}.
Implicit Types s : TimeState E.

Definition tm_with_env (e : E) s : TimeState E :=
  mkTime (tm_cfg s) (tm_platform s) (tm_hw_rtc s) (tm_client s) (tm_connection_generation s)
    (tm_ever_connected s) (tm_lkg s) (tm_last_epoch s) e.
Definition tm_with_connected (g : Z) s : TimeState E :=
  mkTime (tm_cfg s) (tm_platform s) (tm_hw_rtc s) (tm_client s) g true (tm_lkg s)
    (tm_last_epoch s) (tm_env s).
Definition tm_with_lkg (l ep : option Z) s : TimeState E :=
  mkTime (tm_cfg s) (tm_platform s) (tm_hw_rtc s) (tm_client s) (tm_connection_generation s)
    (tm_ever_connected s) l ep (tm_env s).

Definition tm_on_env {A} (m : st E A) : st (TimeState E) A :=
  fun s => let '(a, e) := m (tm_env s) in (a, tm_with_env e s).

(* --------------------------------------------------------------------- *)
(** ** PlatformTimeAdapter                                                *)
(* --------------------------------------------------------------------- *)

(** [src/src/trusted_time.cpp:484-491] PlatformTimeAdapter::connect *)
Definition adapter_connect : st (TimeState E) bool := fun s =>
  if negb (tm_client s) then (false, s) else
  let '(ok, s) := tm_on_env client_connect s in
  if negb ok then (false, s) else
  (true, tm_with_connected (wrapu 64 (tm_connection_generation s + 1)) s).

(** [src/src/trusted_time.cpp:493-496] PlatformTimeAdapter::disconnect *)
Definition adapter_disconnect (s : TimeState E) : TimeState E :=
  if tm_client s then (tm_on_env client_disconnect s).2 else s.

(** [src/src/trusted_time.cpp:498-501] PlatformTimeAdapter::is_connected *)
Definition adapter_is_connected (s : TimeState E) : bool :=
  tm_client s && client_is_connected (tm_env s).

(** The returned handle; [false] is the null one. *)
(** [src/src/trusted_time.cpp:508-515] PlatformTimeAdapter::subscribe *)
Definition adapter_subscribe : st (TimeState E) bool := fun s =>
  if negb (tm_client s) then (false, s) else tm_on_env client_subscribe s.

(** [src/src/trusted_time.cpp:517-546] PlatformTimeAdapter::mapSnapshot *)
Definition mapSnapshot (snap : SdkSnapshot) (rtt_ms : Z) : st (TimeState E) TimeFactSnapshot := fun s =>
  let '(received, s) := tm_on_env boot_now s in
  let f := fun complete => mkFact (sn_contract_version snap) (sn_capabilities snap)
    (sn_daemon_epoch snap) (sn_event_sequence snap) (mapState (sn_state snap)) (sn_source_id snap)
    (mapKind (sn_source_kind snap)) (sn_source_epoch snap) (sn_utc_valid snap)
    (sn_utc_epoch_ms snap) (sn_system_clock_aligned snap) (sn_alignment_error_ms snap)
    (sn_freshness_age_ms snap) (sn_uncertainty_valid snap) (sn_uncertainty_ms snap)
    (sn_remaining_validity_ms snap) (sn_drift_bound_ppm snap) (mapAuth (sn_auth_status snap))
    (sn_evidence_ref snap) (sn_policy_version snap) (Z.max 0 rtt_ms) received true
    (sn_validate snap) complete "" in
  (f (contractComplete (f false)), s).

(** [src/src/trusted_time.cpp:548-583] PlatformTimeAdapter::query *)
Definition adapter_query : st (TimeState E) TimeFactSnapshot := fun s =>
  let '(received, s) := tm_on_env boot_now s in
  if negb (tm_client s) || negb (client_is_connected (tm_env s)) then
    (fact_failed received false "time client not connected", s) else
  let '(r, s) := tm_on_env client_get_time_snapshot s in
  match qr_error r with
  | qkOk | qkTimeUnavailable => mapSnapshot (qr_snapshot r) (qr_rtt_ms r) s
  | qkUnsupported => (fact_failed received true "time contract unsupported", s)
  | _ => (fact_failed received false "time query failed", s)
  end.

(** The only RTC back end of the repository. *)
(** [src/src/trusted_time.cpp:592-598] HardwareRtcAdapter::query *)
Definition hardware_rtc_adapter_query : TrustedTimeSample :=
  mkSample 0 Untrusted HardwareRtc 0 0 RtcInterfaceUnavailable 0.

(* --------------------------------------------------------------------- *)
(** ** CompositeTrustedTimeProvider                                       *)
(* --------------------------------------------------------------------- *)

(** The source facts [gatePlatform] copies into the result. *)
(** [src/src/trusted_time.cpp:304-319] gatePlatform facts *)
Definition carry_facts (f : TimeFactSnapshot) : TrustedTimeResult :=
  mkTimeResult
    (mkSample 0 TrustUnknown PlatformSync 0 0 NoSourceAvailable (tf_source_epoch f))
    (tf_contract_version f) (tf_capabilities f) (tf_contract_complete f) 0 0
    (tf_time_daemon_epoch f) (tf_time_event_sequence f) (tf_source_id f) (tf_source_kind f)
    (tf_policy_version f) (tf_system_clock_aligned f) (tf_alignment_error_ms f) 0
    (tf_drift_bound_ppm f) (tf_auth_status f) (tf_evidence_ref f) (tf_utc_valid f) "".

(** The effective values at [now_boot]: local elapsed time, age, uncertainty, what
    remains of the validity, and UTC. *)
(** [src/src/trusted_time.cpp:359-359] gatePlatform elapsed *)
Definition elapsed_at (f : TimeFactSnapshot) (now_boot : Z) : Z :=
  Z.max 0 (now_boot - tf_received_boot_ms f).
(** [src/src/trusted_time.cpp:360-360] gatePlatform age_eff *)
Definition age_eff (f : TimeFactSnapshot) (now_boot : Z) : Z :=
  tf_freshness_age_ms f + tf_rtt_ms f + elapsed_at f now_boot.
(** [src/src/trusted_time.cpp:361-362] gatePlatform u_eff *)
Definition u_eff (f : TimeFactSnapshot) (now_boot : Z) : Z :=
  tf_uncertainty_ms f + Z.quot (tf_drift_bound_ppm f * age_eff f now_boot) 1000000.
(** [src/src/trusted_time.cpp:363-363] gatePlatform remain_eff *)
Definition remain_eff (f : TimeFactSnapshot) (now_boot : Z) : Z :=
  tf_remaining_validity_ms f - tf_rtt_ms f - elapsed_at f now_boot.
(** [src/src/trusted_time.cpp:365-365] gatePlatform utc_eff *)
Definition utc_eff (f : TimeFactSnapshot) (now_boot : Z) : Z :=
  tf_utc_epoch_ms f + age_eff f now_boot.

(** [src/src/trusted_time.cpp:395-400] gatePlatform lease *)
Definition platform_lease (cfg : TrustedTimeConfig) (f : TimeFactSnapshot) (now_boot : Z) : Z :=
  let freshness_budget := tc_max_freshness cfg - age_eff f now_boot in
  let uncertainty_budget := tc_max_uncertainty cfg - u_eff f now_boot in
  Z.max 0 (Z.min (tc_lease_max cfg)
    (Z.min (remain_eff f now_boot) (Z.min freshness_budget uncertainty_budget))).

(** The part of [gatePlatform] after the clock was read. *)
(** [src/src/trusted_time.cpp:367-416] gatePlatform thresholds *)
Definition gate_thresholds (cfg : TrustedTimeConfig) (lkg : option Z) (f : TimeFactSnapshot)
    (now_boot : Z) (out : TrustedTimeResult) : TrustedTimeResult :=
  if age_eff f now_boot >? tc_max_freshness cfg then verdict Untrusted PlatformTooOld out else
  if u_eff f now_boot >? tc_max_uncertainty cfg
  then verdict Untrusted PlatformUncertaintyTooHigh out else
  if match lkg with
     | Some l => utc_eff f now_boot <? ms_of_tp l - tc_rollback_tolerance cfg
     | None => false
     end
  then verdict Untrusted PlatformRollbackDetected out else
  let lease := platform_lease cfg f now_boot in
  if lease <=? 0 then verdict Untrusted PlatformValidityExpired out else
  with_remaining lease
    (with_sample (mkSample (tp_of_ms (utc_eff f now_boot)) Trusted
       (ts_source (tr_sample out)) (age_eff f now_boot) (u_eff f now_boot) PlatformSynced
       (ts_source_epoch (tr_sample out))) out).

(** [src/src/trusted_time.cpp:283-416] gatePlatform *)
Definition gatePlatform (f : TimeFactSnapshot) : st (TimeState E) TrustedTimeResult := fun s =>
  let out := with_sample (mkSample 0 TrustUnknown PlatformSync 0 0 NoSourceAvailable 0)
    TrustedTimeResult_default in
  if negb (tf_transport_ok f) then
    (with_contract_complete false (verdict TrustUnknown PlatformInterfaceUnavailable out), s) else
  if negb (tf_validated f) then
    (with_contract_complete false (verdict TrustUnknown PlatformContractIncomplete out), s) else
  let out := carry_facts f in
  if negb (bool_decide (tf_state f = Synced)) then
    (verdict Untrusted PlatformNotSynchronized out, s) else
  if negb (contractComplete f) then
    (verdict TrustUnknown PlatformContractIncomplete (with_contract_complete false out), s) else
  let out := with_contract_complete true out in
  if bool_decide (tf_auth_status f = Unverified) || bool_decide (tf_auth_status f = AuthFailed) then
    (verdict Untrusted PlatformNotAuthenticated out, s) else
  if negb (authBound f (tm_cfg s)) then
    (verdict TrustUnknown PlatformAuthUnverifiable out, s) else
  if negb (tf_utc_valid f) || negb (tf_uncertainty_valid f) then
    (verdict TrustUnknown PlatformContractIncomplete out, s) else
  let '(now_boot, s) := tm_on_env boot_now s in
  (gate_thresholds (tm_cfg s) (tm_lkg s) f now_boot out, s).

(** [src/src/trusted_time.cpp:418-461] gateHardwareRtc *)
Definition gateHardwareRtc (smp : TrustedTimeSample) (s : TimeState E) : TrustedTimeResult :=
  let cfg := tm_cfg s in
  let out := with_contract_complete false (with_sample smp TrustedTimeResult_default) in
  if negb (is_trusted smp) then out else
  if negb (bool_decide (ts_source smp = HardwareRtc)) then verdict Untrusted PlatformMalformed out else
  if tc_hw_rtc_require_provisioned cfg && negb (bool_decide (ts_reason smp = RtcProvisioned)) then
    verdict Untrusted RtcNotProvisioned out else
  if ts_uncertainty smp >? tc_max_uncertainty cfg then verdict Untrusted RtcNotHealthy out else
  if match tm_lkg s with
     | Some l => ts_utc_now smp <? l - tp_of_ms (tc_rollback_tolerance cfg)
     | None => false
     end
  then verdict Untrusted RtcRollbackDetected out else
  let lease := Z.max 0 (Z.min (tc_lease_max cfg) (tc_max_uncertainty cfg - ts_uncertainty smp)) in
  if lease <=? 0 then verdict Untrusted RtcNotHealthy out else
  with_remaining lease out.

(** [src/src/trusted_time.cpp:463-474] acceptAsKnownGood *)
Definition acceptAsKnownGood (smp : TrustedTimeSample) (s : TimeState E) : TimeState E :=
  let lkg := match tm_lkg s with
    | Some l => if ts_utc_now smp >? l then ts_utc_now smp else l
    | None => ts_utc_now smp
    end in
  let ep := match tm_last_epoch s with
    | Some e => if negb (ts_source_epoch smp =? e) then ts_source_epoch smp else e
    | None => ts_source_epoch smp
    end in
  tm_with_lkg (Some lkg) (Some ep) s.

(** [src/src/trusted_time.cpp:248-281] CompositeTrustedTimeProvider::query *)
Definition composite_query : st (TimeState E) TrustedTimeResult := fun s =>
  let fallback := with_sample (mkSample 0 Untrusted NoSource 0 0 NoSourceAvailable 0)
    TrustedTimeResult_default in
  let '(done, fallback, s) :=
    if tc_platform_enabled (tm_cfg s) && tm_platform s then
      let '(f, s) := adapter_query s in
      let '(g, s) := gatePlatform f s in
      if is_trusted (tr_sample g) then (true, g, acceptAsKnownGood (tr_sample g) s)
      else (false, g, s)
    else (false, fallback, s) in
  if (done : bool) then (fallback, s) else
  if tc_hw_rtc_enabled (tm_cfg s) && tm_hw_rtc s then
    let '(smp, s) := tm_on_env hw_rtc_query s in
    let g := gateHardwareRtc smp s in
    if is_trusted (tr_sample g) then (g, acceptAsKnownGood (tr_sample g) s) else
    if moreSpecific (ts_reason (tr_sample g)) (ts_reason (tr_sample fallback)) then (g, s)
    else (fallback, s)
  else (fallback, s).

(** [src/src/trusted_time.cpp:244-246] CompositeTrustedTimeProvider::now *)
Definition composite_now : st (TimeState E) TrustedTimeSample := fun s =>
  let '(r, s) := composite_query s in (tr_sample r, s).
End Composite.

(* --------------------------------------------------------------------- *)
(** ** Facts                                                              *)
(* --------------------------------------------------------------------- *)

(** Everything a trusted platform result rests on. *)
Record platform_trust (cfg : TrustedTimeConfig) (lkg : option Z) (f : TimeFactSnapshot)
    (now_boot : Z) (r : TrustedTimeResult) : Prop := {
  pt_transport : tf_transport_ok f = true;
  pt_validated : tf_validated f = true;
  pt_synced : tf_state f = Synced;
  pt_contract : contractComplete f = true;
  pt_auth : authBound f cfg = true;
  pt_utc : tf_utc_valid f = true /\ tf_uncertainty_valid f = true;
  pt_age : age_eff f now_boot <= tc_max_freshness cfg;
  pt_uncertainty : u_eff f now_boot <= tc_max_uncertainty cfg;
  pt_rollback l : lkg = Some l -> ms_of_tp l - tc_rollback_tolerance cfg <= utc_eff f now_boot;
  pt_lease : tr_remaining_validity_ms r = platform_lease cfg f now_boot;
  pt_lease_pos : 0 < platform_lease cfg f now_boot;
  pt_sample : tr_sample r = mkSample (tp_of_ms (utc_eff f now_boot)) Trusted PlatformSync
    (age_eff f now_boot) (u_eff f now_boot) PlatformSynced (tf_source_epoch f)
}.

(** What a trusted RTC result rests on. *)
Record rtc_trust (cfg : TrustedTimeConfig) (lkg : option Z) (smp : TrustedTimeSample)
    (r : TrustedTimeResult) : Prop := {
  rt_sample : tr_sample r = smp;
  rt_trusted : ts_trust_state smp = Trusted;
  rt_source : ts_source smp = HardwareRtc;
  rt_provisioned : tc_hw_rtc_require_provisioned cfg = true -> ts_reason smp = RtcProvisioned;
  rt_uncertainty : ts_uncertainty smp <= tc_max_uncertainty cfg;
  rt_rollback l : lkg = Some l -> l - tp_of_ms (tc_rollback_tolerance cfg) <= ts_utc_now smp;
  rt_lease : tr_remaining_validity_ms r =
    Z.min (tc_lease_max cfg) (tc_max_uncertainty cfg - ts_uncertainty smp);
  rt_lease_pos : 0 < tr_remaining_validity_ms r
}.

Lemma is_trusted_true smp : is_trusted smp = true <-> ts_trust_state smp = Trusted.
Proof. apply bool_decide_eq_true. Qed.

Lemma is_trusted_verdict t w r :
  is_trusted (tr_sample (verdict t w r)) = true -> t = Trusted.
Proof. apply is_trusted_true. Qed.

Section Gates.
Context {E : Type} `{Env : TimeEnv E}.
Implicit Types s : TimeState E.

(** Only the environment changed. *)
Definition tm_env_only s s' : Prop := exists e, s' = tm_with_env e s.

Lemma tm_env_only_refl s : tm_env_only s s.
Proof. exists (tm_env s). by destruct s. Qed.
Lemma tm_env_only_trans s1 s2 s3 : tm_env_only s1 s2 -> tm_env_only s2 s3 -> tm_env_only s1 s3.
Proof. intros [e1 ->] [e2 ->]. by exists e2. Qed.
Lemma tm_on_env_only {A} (m : st E A) s a s' : tm_on_env m s = (a, s') -> tm_env_only s s'.
Proof. unfold tm_on_env. destruct (m (tm_env s)) as [x e]. intros [= <- <-]. by exists e. Qed.

(** Case analysis on the outermost guard of a gate. *)
Ltac deny_branch :=
  match goal with
  | |- is_trusted (tr_sample (if ?b then _ else _)) = true -> _ =>
      let G := fresh "G" in destruct b eqn:G
  end.

Lemma gate_thresholds_trust cfg lkg f now_boot out :
  let r := gate_thresholds cfg lkg f now_boot out in
  is_trusted (tr_sample out) = false -> is_trusted (tr_sample r) = true ->
  age_eff f now_boot <= tc_max_freshness cfg /\ u_eff f now_boot <= tc_max_uncertainty cfg /\
  (forall l, lkg = Some l -> ms_of_tp l - tc_rollback_tolerance cfg <= utc_eff f now_boot) /\
  0 < platform_lease cfg f now_boot /\
  tr_remaining_validity_ms r = platform_lease cfg f now_boot /\
  tr_sample r = mkSample (tp_of_ms (utc_eff f now_boot)) Trusted (ts_source (tr_sample out))
    (age_eff f now_boot) (u_eff f now_boot) PlatformSynced (ts_source_epoch (tr_sample out)).
Proof.
  cbv zeta. intros _. unfold gate_thresholds. cbv zeta.
  do 4 (deny_branch; [by intros ?%is_trusted_verdict|]). intros _. rewrite Z.gtb_ltb in *.
  bool_simpl. split_and!; try done. intros l ->. by bool_simpl.
Qed.

Lemma gatePlatform_trust f s r s' :
  gatePlatform f s = (r, s') -> is_trusted (tr_sample r) = true ->
  tm_env_only s s' /\ exists now_boot, platform_trust (tm_cfg s) (tm_lkg s) f now_boot r.
Proof.
  unfold gatePlatform. cbv zeta. intros Hg Ht.
  do 7 (step_in Hg; [injection Hg as <- <-; discriminate Ht|]).
  destruct (tm_on_env boot_now s) as [now s1] eqn:Eb. injection Hg as <- <-.
  destruct (tm_on_env_only _ _ _ _ Eb) as [e1 ->].
  apply gate_thresholds_trust in Ht as (?&?&?&?&?&?); [|done]. bool_simpl.
  split; [by exists e1|]. exists now. by split.
Qed.

Lemma gatePlatform_env f s r s' : gatePlatform f s = (r, s') -> tm_env_only s s'.
Proof.
  unfold gatePlatform. cbv zeta. intros Hg.
  do 7 (step_in Hg; [injection Hg as <- <-; apply tm_env_only_refl|]).
  destruct (tm_on_env boot_now s) as [now s1] eqn:Eb. injection Hg as <- <-.
  by eapply tm_on_env_only.
Qed.

Lemma gateHardwareRtc_trust smp s :
  is_trusted (tr_sample (gateHardwareRtc smp s)) = true ->
  rtc_trust (tm_cfg s) (tm_lkg s) smp (gateHardwareRtc smp s).
Proof.
  unfold gateHardwareRtc. cbv zeta. step_goal; [intros Ht; exfalso|].
  { simpl in Ht. by rewrite Ht in E0. }
  do 5 (deny_branch; [by intros ?%is_trusted_verdict|]). intros _. rewrite Z.gtb_ltb in *. bool_simpl.
  split; simpl; try done; try lia.
  - by apply is_trusted_true.
  - intros Hp. rewrite Hp in *. simpl in *. by bool_simpl.
  - intros l Hl. rewrite Hl in *. by bool_simpl.
Qed.

Lemma adapter_query_env s f s' : adapter_query s = (f, s') -> tm_env_only s s'.
Proof.
  unfold adapter_query, mapSnapshot. cbv zeta. intros Hq.
  destruct (tm_on_env boot_now s) as [b s1] eqn:E1. apply tm_on_env_only in E1.
  step_in Hq; [by injection Hq as <- <-|].
  destruct (tm_on_env client_get_time_snapshot s1) as [q s2] eqn:E2. apply tm_on_env_only in E2.
  assert (tm_env_only s s2) by by eapply tm_env_only_trans.
  destruct (tm_on_env boot_now s2) as [b2 s3] eqn:E3. apply tm_on_env_only in E3.
  destruct (qr_error q); injection Hq as <- <-; try done; by eapply tm_env_only_trans.
Qed.

(** The last accepted time only moves forward, and is at least what was accepted. *)
Definition lkg_ge (l l' : option Z) : Prop :=
  forall x, l = Some x -> exists y, l' = Some y /\ x <= y.

Lemma lkg_ge_refl l : lkg_ge l l.
Proof. intros x ->. eauto with lia. Qed.

Lemma acceptAsKnownGood_spec smp s :
  exists l, tm_lkg (acceptAsKnownGood smp s) = Some l /\ ts_utc_now smp <= l /\
    lkg_ge (tm_lkg s) (Some l) /\ tm_cfg (acceptAsKnownGood smp s) = tm_cfg s /\
    (tm_lkg s = None -> l = ts_utc_now smp) /\
    (forall x, tm_lkg s = Some x -> l = Z.max x (ts_utc_now smp)).
Proof.
  unfold acceptAsKnownGood. simpl. eexists. split; [done|].
  destruct (tm_lkg s) as [l|]; [rewrite Z.gtb_ltb; destruct (Z.ltb_spec l (ts_utc_now smp))|];
    split_and!; try done; try lia; intros x [= <-]; eauto with lia; lia.
Qed.

(** One query, in terms of the gates. *)
Lemma composite_query_cases s r s' :
  composite_query s = (r, s') ->
  (is_trusted (tr_sample r) = false /\ tm_env_only s s') \/
  (is_trusted (tr_sample r) = true /\ exists s1, tm_env_only s s1 /\
     s' = acceptAsKnownGood (tr_sample r) s1 /\
     ((exists f now_boot, tc_platform_enabled (tm_cfg s) = true /\
         platform_trust (tm_cfg s) (tm_lkg s) f now_boot r) \/
      (exists smp, tc_hw_rtc_enabled (tm_cfg s) = true /\ rtc_trust (tm_cfg s) (tm_lkg s) smp r))).
Proof.
  unfold composite_query. cbv zeta. intros Hq.
  assert (Hrtc : forall fb s0, is_trusted (tr_sample fb) = false -> tm_env_only s s0 ->
    (if tc_hw_rtc_enabled (tm_cfg s0) && tm_hw_rtc s0 then
       let '(smp, s2) := tm_on_env hw_rtc_query s0 in
       if is_trusted (tr_sample (gateHardwareRtc smp s2))
       then (gateHardwareRtc smp s2, acceptAsKnownGood (tr_sample (gateHardwareRtc smp s2)) s2)
       else if moreSpecific (ts_reason (tr_sample (gateHardwareRtc smp s2))) (ts_reason (tr_sample fb))
       then (gateHardwareRtc smp s2, s2) else (fb, s2)
     else (fb, s0)) = (r, s') ->
    (is_trusted (tr_sample r) = false /\ tm_env_only s s') \/
    (is_trusted (tr_sample r) = true /\ exists s1, tm_env_only s s1 /\
       s' = acceptAsKnownGood (tr_sample r) s1 /\
       ((exists f now_boot, tc_platform_enabled (tm_cfg s) = true /\
           platform_trust (tm_cfg s) (tm_lkg s) f now_boot r) \/
        (exists smp, tc_hw_rtc_enabled (tm_cfg s) = true /\ rtc_trust (tm_cfg s) (tm_lkg s) smp r)))).
  { intros fb s0 Hfb [e0 ->] Hr. step_in Hr.
    - destruct (tm_on_env hw_rtc_query (tm_with_env e0 s)) as [smp s2] eqn:Eh.
      apply tm_on_env_only in Eh as [e2 ->]. bool_simpl.
      destruct (is_trusted (tr_sample (gateHardwareRtc _ _))) eqn:Et.
      + injection Hr as <- <-. right. split; [done|]. exists (tm_with_env e2 s).
        split; [by exists e2|]. split; [done|]. right. exists smp. split; [done|].
        by apply gateHardwareRtc_trust in Et.
      + left. step_in Hr; injection Hr as <- <-; (split; [done|by exists e2]).
    - injection Hr as <- <-. left. split; [done|by exists e0]. }
  destruct (tc_platform_enabled (tm_cfg s) && tm_platform s) eqn:Ep.
  - destruct (adapter_query s) as [f s1] eqn:Ea. apply adapter_query_env in Ea as He1.
    destruct (gatePlatform f s1) as [g s2] eqn:Eg. pose proof (gatePlatform_env _ _ _ _ Eg) as He2.
    destruct (is_trusted (tr_sample g)) eqn:Et.
    + injection Hq as <- <-. right. split; [done|]. exists s2.
      split; [by eapply tm_env_only_trans|]. split; [done|]. left. exists f.
      destruct (gatePlatform_trust _ _ _ _ Eg Et) as (_ & now & Hp). exists now. bool_simpl.
      split; [done|]. by destruct He1 as [e1 ->].
    + eapply Hrtc; [exact Et|by eapply tm_env_only_trans|exact Hq].
  - eapply Hrtc; [|apply tm_env_only_refl|exact Hq]. done.
Qed.
End Gates.
