(* ===== verification/TimeMonitor.v ===== *)
(** * Trusted time: monitor, snapshot source, dev/test fake.
    Models [TrustedTimeMonitor], [FakeTrustedTimeProvider] and
    [FakeTrustedTimeSnapshotSource] of [src/trusted_time.cpp]. Every member
    function runs under the object's lock, so an execution is a sequence of
    them; the monitor thread contributes one [monitor_tick] per pass. *)
From S2P Require Import Prelude Json TimeTypes TrustedTime.

(** A subscriber is a slot number; [mo_sent] records what the callbacks were called
    with, latest first. [mo_cached] and [mo_last_published] are [None] while
    [has_cached_] and [has_published_] are false. *)
(** [src/include/trusted_time.h:427-448] TrustedTimeMonitor *)
Record Monitor (E : Type) := mkMonitor {
  mo_time : TimeState E;
  mo_running : bool;
  mo_refresh_pending : bool;
  mo_sec_daemon_epoch : Z;
  mo_sec_time_event_sequence : Z;
  mo_connection_generation : Z;
  mo_tokens_invalidated : bool;
  mo_last_refresh_boot_ms : Z;
  mo_last_connect_attempt_ms : Z;
  mo_cached : option TrustedTimeResult;
  mo_last_published : option TrustedTimeResult;
  mo_time_sub : bool;
  mo_subscribers : list nat;
  mo_sent : list (nat * TrustedTimeResult)
}.
Arguments mkMonitor {E}.
Arguments mo_time {E}. Arguments mo_running {E}. Arguments mo_refresh_pending {E}.
Arguments mo_sec_daemon_epoch {E}. Arguments mo_sec_time_event_sequence {E}.
Arguments mo_connection_generation {E}. Arguments mo_tokens_invalidated {E}.
Arguments mo_last_refresh_boot_ms {E}. Arguments mo_last_connect_attempt_ms {E}.
Arguments mo_cached {E}. Arguments mo_last_published {E}. Arguments mo_time_sub {E}.
Arguments mo_subscribers {E}. Arguments mo_sent {E}.

(** Only these changes make an event. *)
(** [src/src/trusted_time.cpp:754-764] factChanged *)
Definition factChanged (a b : TrustedTimeResult) : bool :=
  negb (bool_decide (ts_trust_state (tr_sample a) = ts_trust_state (tr_sample b))) ||
  negb (bool_decide (ts_source (tr_sample a) = ts_source (tr_sample b))) ||
  negb (String.eqb (tr_source_id a) (tr_source_id b)) ||
  negb (ts_source_epoch (tr_sample a) =? ts_source_epoch (tr_sample b)) ||
  negb (tr_time_daemon_epoch a =? tr_time_daemon_epoch b) ||
  negb (Bool.eqb (tr_system_clock_aligned a) (tr_system_clock_aligned b)) ||
  negb (tr_contract_version a =? tr_contract_version b) ||
  negb (bool_decide (ts_reason (tr_sample a) = ts_reason (tr_sample b))).

(** The answer to a token of another instance or of a stopped one. *)
(** [src/src/trusted_time.cpp:793-799] TrustedTimeMonitor::get stale *)
Definition stale_result (sec_daemon_epoch : Z) : TrustedTimeResult :=
  mkTimeResult (mkSample 0 TrustUnknown NoSource 0 0 PlatformMalformed 0) 0 "" false
    sec_daemon_epoch 0 0 0 "" KindNone "" false 0 0 0 AuthUnknown "" false "stale".

Section Monitor.
Context {E : Type} `{Env : TimeEnv E}.
Implicit Types m : Monitor E.

Definition mo_with_time (t : TimeState E) m : Monitor E :=
  mkMonitor t (mo_running m) (mo_refresh_pending m) (mo_sec_daemon_epoch m)
    (mo_sec_time_event_sequence m) (mo_connection_generation m) (mo_tokens_invalidated m)
    (mo_last_refresh_boot_ms m) (mo_last_connect_attempt_ms m) (mo_cached m) (mo_last_published m)
    (mo_time_sub m) (mo_subscribers m) (mo_sent m).
Definition mo_with_lifecycle (running invalidated : bool) (cached : option TrustedTimeResult)
    (sub : bool) m : Monitor E :=
  mkMonitor (mo_time m) running (mo_refresh_pending m) (mo_sec_daemon_epoch m)
    (mo_sec_time_event_sequence m) (mo_connection_generation m) invalidated
    (mo_last_refresh_boot_ms m) (mo_last_connect_attempt_ms m) cached (mo_last_published m)
    sub (mo_subscribers m) (mo_sent m).
Definition mo_with_pending (p : bool) m : Monitor E :=
  mkMonitor (mo_time m) (mo_running m) p (mo_sec_daemon_epoch m)
    (mo_sec_time_event_sequence m) (mo_connection_generation m) (mo_tokens_invalidated m)
    (mo_last_refresh_boot_ms m) (mo_last_connect_attempt_ms m) (mo_cached m) (mo_last_published m)
    (mo_time_sub m) (mo_subscribers m) (mo_sent m).
Definition mo_with_attempt (now : Z) m : Monitor E :=
  mkMonitor (mo_time m) (mo_running m) (mo_refresh_pending m) (mo_sec_daemon_epoch m)
    (mo_sec_time_event_sequence m) (mo_connection_generation m) (mo_tokens_invalidated m)
    (mo_last_refresh_boot_ms m) now (mo_cached m) (mo_last_published m)
    (mo_time_sub m) (mo_subscribers m) (mo_sent m).
Definition mo_with_connection (g : Z) m : Monitor E :=
  mkMonitor (mo_time m) (mo_running m) (mo_refresh_pending m) (mo_sec_daemon_epoch m)
    (mo_sec_time_event_sequence m) g (mo_tokens_invalidated m)
    (mo_last_refresh_boot_ms m) (mo_last_connect_attempt_ms m) (mo_cached m) (mo_last_published m)
    (mo_time_sub m) (mo_subscribers m) (mo_sent m).
Definition mo_with_sub (b : bool) m : Monitor E :=
  mkMonitor (mo_time m) (mo_running m) (mo_refresh_pending m) (mo_sec_daemon_epoch m)
    (mo_sec_time_event_sequence m) (mo_connection_generation m) (mo_tokens_invalidated m)
    (mo_last_refresh_boot_ms m) (mo_last_connect_attempt_ms m) (mo_cached m) (mo_last_published m)
    b (mo_subscribers m) (mo_sent m).
Definition mo_with_cached (r : TrustedTimeResult) (now : Z) m : Monitor E :=
  mkMonitor (mo_time m) (mo_running m) (mo_refresh_pending m) (mo_sec_daemon_epoch m)
    (mo_sec_time_event_sequence m) (mo_connection_generation m) (mo_tokens_invalidated m)
    now (mo_last_connect_attempt_ms m) (Some r) (mo_last_published m)
    (mo_time_sub m) (mo_subscribers m) (mo_sent m).
Definition mo_with_published (n : Z) (r : TrustedTimeResult) m : Monitor E :=
  mkMonitor (mo_time m) (mo_running m) (mo_refresh_pending m) (mo_sec_daemon_epoch m)
    n (mo_connection_generation m) (mo_tokens_invalidated m)
    (mo_last_refresh_boot_ms m) (mo_last_connect_attempt_ms m) (mo_cached m) (Some r)
    (mo_time_sub m) (mo_subscribers m) (((fun i => (i, r)) <$> mo_subscribers m) ++ mo_sent m).
Definition mo_with_subscribers (l : list nat) m : Monitor E :=
  mkMonitor (mo_time m) (mo_running m) (mo_refresh_pending m) (mo_sec_daemon_epoch m)
    (mo_sec_time_event_sequence m) (mo_connection_generation m) (mo_tokens_invalidated m)
    (mo_last_refresh_boot_ms m) (mo_last_connect_attempt_ms m) (mo_cached m) (mo_last_published m)
    (mo_time_sub m) l (mo_sent m).

(** Run an operation of the provider from the monitor. *)
Definition on_time {A} (f : st (TimeState E) A) : st (Monitor E) A :=
  fun m => let '(a, t) := f (mo_time m) in (a, mo_with_time t m).

(** [boot] is the monotonic clock at construction. *)
(** [src/src/trusted_time.cpp:608-618] TrustedTimeMonitor *)
Definition monitor_new (t : TimeState E) (boot : Z) : Monitor E :=
  mkMonitor t false false (wrapu 64 (1 + wrapu 64 boot)) 0 0 false 0 0 None None false [] [].

(** [src/src/trusted_time.cpp:651-653] nowBootMs *)
Definition nowBootMs : st (Monitor E) Z := on_time (tm_on_env boot_now).

(** [src/src/trusted_time.cpp:622-631] TrustedTimeMonitor::start *)
Definition monitor_start (m : Monitor E) : Monitor E :=
  if mo_running m then m
  else mo_with_lifecycle true false (mo_cached m) (mo_time_sub m) m.

(** [src/src/trusted_time.cpp:633-649] TrustedTimeMonitor::stop *)
Definition monitor_stop (m : Monitor E) : Monitor E :=
  let m :=
    if mo_running m then mo_with_lifecycle false true None false m
    else mo_with_lifecycle false true None (mo_time_sub m) m in
  if tm_platform (mo_time m) then mo_with_time (adapter_disconnect (mo_time m)) m else m.

(** [src/src/trusted_time.cpp:655-658] TrustedTimeMonitor::refresh_now *)
Definition monitor_refresh_now (m : Monitor E) : Monitor E := mo_with_pending true m.

(** [src/src/trusted_time.cpp:669-676] TrustedTimeMonitor::subscribe *)
Definition monitor_subscribe (slot : nat) (m : Monitor E) : Monitor E :=
  mo_with_subscribers (mo_subscribers m ++ [slot]) m.

(** The handle of a slot is dropped: its weak pointer no longer locks. *)
Definition monitor_unsubscribe (slot : nat) (m : Monitor E) : Monitor E :=
  mo_with_subscribers (filter (fun i => i <> slot) (mo_subscribers m)) m.

(** [src/src/trusted_time.cpp:768-786] publishIfChangedLocked *)
Definition publishIfChanged (r : TrustedTimeResult) (m : Monitor E) : Monitor E :=
  if match mo_last_published m with Some p => negb (factChanged p r) | None => false end then m
  else
    let n := wrapu 64 (mo_sec_time_event_sequence m + 1) in
    mo_with_published n (with_sec_ids (tr_sec_daemon_epoch r) n r) m.

(** [src/src/trusted_time.cpp:720-736] refreshLocked *)
Definition refreshLocked (m : Monitor E) : Monitor E :=
  let '(now, m) := nowBootMs m in
  let '(r, m) := on_time composite_query m in
  let r := with_sec_ids (mo_sec_daemon_epoch m) (mo_sec_time_event_sequence m) r in
  let r :=
    if is_trusted (tr_sample r) && (tr_remaining_validity_ms r <=? 0)
    then with_remaining 0 (verdict Untrusted PlatformValidityExpired r) else r in
  publishIfChanged r (mo_with_cached r now m).

(** Called only when something is cached. *)
(** [src/src/trusted_time.cpp:738-750] revokeLocked *)
Definition revokeLocked (reason : TimeReason) (m : Monitor E) : Monitor E :=
  let '(now, m) := nowBootMs m in
  let r := default TrustedTimeResult_default (mo_cached m) in
  let r := with_sec_ids (mo_sec_daemon_epoch m) (mo_sec_time_event_sequence m)
    (with_remaining 0 (verdict Untrusted reason r)) in
  publishIfChanged r (mo_with_cached r now m).

(** The connection management at the head of a pass. *)
(** [src/src/trusted_time.cpp:684-702] runLoop connection *)
Definition manage_connection (now : Z) (m : Monitor E) : Monitor E :=
  if tc_platform_enabled (tm_cfg (mo_time m)) && tm_platform (mo_time m) then
    if negb (adapter_is_connected (mo_time m)) then
      if now - mo_last_connect_attempt_ms m >=? 2000 then
        let m := mo_with_attempt now m in
        let '(ok, m) := on_time adapter_connect m in
        if (ok : bool) then
          let m := mo_with_connection (tm_connection_generation (mo_time m)) m in
          let '(sub, m) := on_time adapter_subscribe m in
          mo_with_pending true (mo_with_sub sub m)
        else m
      else m
    else if negb (mo_time_sub m) then
      let '(sub, m) := on_time adapter_subscribe m in
      mo_with_pending true (mo_with_sub sub m)
    else m
  else m.

(** Has the cached lease run out by [now]? *)
(** [src/src/trusted_time.cpp:709-712] runLoop expiry *)
Definition lease_expired (now : Z) (m : Monitor E) : bool :=
  match mo_cached m with
  | Some c => is_trusted (tr_sample c) &&
      (now - mo_last_refresh_boot_ms m >=? tr_remaining_validity_ms c)
  | None => false
  end.

(** One pass of the monitor thread. *)
(** [src/src/trusted_time.cpp:678-718] runLoop *)
Definition monitor_tick (m : Monitor E) : Monitor E :=
  if negb (mo_running m) then m else
  let '(now, m) := nowBootMs m in
  let m := manage_connection now m in
  if mo_refresh_pending m then refreshLocked (mo_with_pending false m)
  else if now - mo_last_refresh_boot_ms m >=? tc_monitor_refresh_interval (tm_cfg (mo_time m))
  then refreshLocked m
  else if lease_expired now m then revokeLocked TimeExpired m
  else m.

(** Deduct the local elapsed time from a trusted cached result. *)
(** [src/src/trusted_time.cpp:805-814] TrustedTimeMonitor::get deduct *)
Definition deduct_elapsed (now last_refresh : Z) (c : TrustedTimeResult) : TrustedTimeResult :=
  let left := tr_remaining_validity_ms c - Z.max 0 (now - last_refresh) in
  if left <=? 0 then with_remaining 0 (verdict Untrusted TimeExpired (with_remaining left c))
  else with_remaining left c.

(** [src/src/trusted_time.cpp:788-816] TrustedTimeMonitor::get *)
Definition monitor_get (request_token : Z) : st (Monitor E) TrustedTimeResult := fun m =>
  if negb (request_token =? 0) &&
     (negb (request_token =? mo_sec_daemon_epoch m) || mo_tokens_invalidated m)
  then (stale_result (mo_sec_daemon_epoch m), m) else
  let m := match mo_cached m with Some _ => m | None => refreshLocked m end in
  let r := default TrustedTimeResult_default (mo_cached m) in
  if is_trusted (tr_sample r) then
    let '(now, m) := nowBootMs m in
    (deduct_elapsed now (mo_last_refresh_boot_ms m) r, m)
  else (r, m).

(** Everything that can happen to a monitor, as the lock serialises it. *)
Inductive monitor_step : Monitor E -> Monitor E -> Prop :=
  | mstep_start m : monitor_step m (monitor_start m)
  | mstep_stop m : monitor_step m (monitor_stop m)
  | mstep_refresh m : monitor_step m (monitor_refresh_now m)
  | mstep_subscribe i m : monitor_step m (monitor_subscribe i m)
  | mstep_unsubscribe i m : monitor_step m (monitor_unsubscribe i m)
  | mstep_tick m : monitor_step m (monitor_tick m)
  | mstep_get tok m : monitor_step m (monitor_get tok m).2.
End Monitor.

(* --------------------------------------------------------------------- *)
(** ** The dev/test fake                                                  *)
(* --------------------------------------------------------------------- *)

(** [src/include/trusted_time.h:453-466] FakeTrustedTimeProvider *)
Record FakeProvider := mkFake { fk_sample : TrustedTimeSample; fk_track_wall_clock : bool }.

(** [wall] is the wall clock. *)
(** [src/src/trusted_time.cpp:826-835] FakeTrustedTimeProvider::now *)
Definition fake_now (wall : Z) (p : FakeProvider) : TrustedTimeSample :=
  if negb (fk_track_wall_clock p) then fk_sample p
  else
    let s := fk_sample p in
    mkSample wall (ts_trust_state s) (ts_source s) 0 (ts_uncertainty s) (ts_reason s)
      (ts_source_epoch s).

(** [src/src/trusted_time.cpp:837-839] FakeTrustedTimeProvider::set_now *)
Definition fake_set_now (s : TrustedTimeSample) (p : FakeProvider) : FakeProvider :=
  mkFake s (fk_track_wall_clock p).

(** [src/include/trusted_time.h:492-502] FakeTrustedTimeSnapshotSource *)
Record FakeSnapshotSource := mkFakeSource {
  fs_provider : option FakeProvider;
  fs_lease_max : Z;
  fs_running : bool;
  fs_tokens_invalidated : bool;
  fs_sec_daemon_epoch : Z;
  fs_sec_time_event_sequence : Z;
  fs_last_published : option TrustedTimeResult;
  fs_subscribers : list nat;
  fs_sent : list (nat * TrustedTimeResult)
}.

(** [src/src/trusted_time.cpp:849-851] FakeTrustedTimeSnapshotSource *)
Definition fake_source_new (p : option FakeProvider) (lease_max : Z) : FakeSnapshotSource :=
  mkFakeSource p lease_max false true 0 0 None [] [].

(** [src/src/trusted_time.cpp:858-893] snapshotLocked *)
Definition fake_snapshot (wall : Z) (f : FakeSnapshotSource) : TrustedTimeResult :=
  let s := match fs_provider f with
    | Some p => fake_now wall p
    | None => TrustedTimeSample_default
    end in
  let smp reason :=
    mkSample (ts_utc_now s) (ts_trust_state s) FakeSource 0 0 reason 1 in
  let result sample left :=
    mkTimeResult sample 1 "snapshot,v1" true (fs_sec_daemon_epoch f) (fs_sec_time_event_sequence f)
      0 0 "dev-test-fake" KindNone "dev_test_fake" true 0 left 0 Unverified
      "dev_test_fake_profile" true "" in
  if is_trusted s then result (smp FakeTest) (Z.max 0 (fs_lease_max f))
  else result (smp (ts_reason s)) 0.

(** [src/src/trusted_time.cpp:895-912] publishIfChangedLocked *)
Definition fake_publish (r : TrustedTimeResult) (f : FakeSnapshotSource) : FakeSnapshotSource :=
  if match fs_last_published f with Some p => negb (factChanged p r) | None => false end then f
  else
    let n := wrapu 64 (fs_sec_time_event_sequence f + 1) in
    let r := with_sec_ids (tr_sec_daemon_epoch r) n r in
    mkFakeSource (fs_provider f) (fs_lease_max f) (fs_running f) (fs_tokens_invalidated f)
      (fs_sec_daemon_epoch f) n (Some r) (fs_subscribers f)
      (((fun i => (i, r)) <$> fs_subscribers f) ++ fs_sent f).

(** [src/src/trusted_time.cpp:914-925] FakeTrustedTimeSnapshotSource::start *)
Definition fake_start (boot wall : Z) (f : FakeSnapshotSource) : FakeSnapshotSource :=
  if fs_running f then f
  else
    let epoch := if fs_sec_daemon_epoch f =? 0 then wrapu 64 (1 + wrapu 64 boot)
                 else fs_sec_daemon_epoch f in
    let f := mkFakeSource (fs_provider f) (fs_lease_max f) true false epoch
      (fs_sec_time_event_sequence f) (fs_last_published f) (fs_subscribers f) (fs_sent f) in
    fake_publish (fake_snapshot wall f) f.

(** [src/src/trusted_time.cpp:927-932] FakeTrustedTimeSnapshotSource::stop *)
Definition fake_stop (f : FakeSnapshotSource) : FakeSnapshotSource :=
  mkFakeSource (fs_provider f) (fs_lease_max f) false true (fs_sec_daemon_epoch f)
    (fs_sec_time_event_sequence f) (fs_last_published f) [] (fs_sent f).

(** [src/src/trusted_time.cpp:934-952] FakeTrustedTimeSnapshotSource::get *)
Definition fake_get (request_token wall : Z) : st FakeSnapshotSource TrustedTimeResult := fun f =>
  if negb (request_token =? 0) &&
     (negb (request_token =? fs_sec_daemon_epoch f) || fs_tokens_invalidated f)
  then (stale_result (fs_sec_daemon_epoch f), f) else
  let r := fake_snapshot wall f in
  let f := fake_publish r f in
  (with_sec_ids (tr_sec_daemon_epoch r) (fs_sec_time_event_sequence f) r, f).

(** [src/src/trusted_time.cpp:954-961] FakeTrustedTimeSnapshotSource::subscribe *)
Definition fake_subscribe (slot : nat) (f : FakeSnapshotSource) : FakeSnapshotSource :=
  mkFakeSource (fs_provider f) (fs_lease_max f) (fs_running f) (fs_tokens_invalidated f)
    (fs_sec_daemon_epoch f) (fs_sec_time_event_sequence f) (fs_last_published f)
    (fs_subscribers f ++ [slot]) (fs_sent f).
