(* ===== verification/TimeProps.v ===== *)
(** * Trusted time: properties, with a concrete TIME client.
    Soundness of the gates, rollback protection over any history, lease bounds,
    event numbering, token refusal, expiry. *)
From S2P Require Import Prelude Json TimeTypes TrustedTime TimeMonitor.

(* --------------------------------------------------------------------- *)
(** ** A concrete environment for the witnesses                           *)
(* --------------------------------------------------------------------- *)

Module TimeSample.
Export JsonSample.

(** A clock that advances by [w_step] at every read, a client that answers a fixed
    query, the repository's RTC adapter. *)
Record tworld := mkTw {
  tw_now : Z;
  tw_step : Z;
  tw_connected : bool;
  tw_query : QueryResult
}.

#[export] Instance tworld_env : TimeEnv tworld := {|
  client_connect w := (true, mkTw (tw_now w) (tw_step w) true (tw_query w));
  client_disconnect w := (tt, mkTw (tw_now w) (tw_step w) false (tw_query w));
  client_is_connected := tw_connected;
  client_get_time_snapshot w := (tw_query w, w);
  client_subscribe w := (true, w);
  hw_rtc_query w := (hardware_rtc_adapter_query, w);
  boot_now w := (tw_now w, mkTw (tw_now w + tw_step w) (tw_step w) (tw_connected w) (tw_query w));
  wall_now w := (0, w)
|}.

(** A synchronised, verified snapshot with 900 ms of validity. *)
Definition snap_ok : SdkSnapshot :=
  mkSnap true 1 "snapshot,v1" 77 5 kSynced "ntp-1" kNtpNetwork 3 true 1700000000000 true 2 100 true 10
    900 50 kVerified "ev-1" "1".
Definition tworld0 : tworld :=
  mkTw 5000 10 true (mkQuery qkOk snap_ok 20).
Definition tstate0 : TimeState tworld :=
  mkTime TrustedTimeConfig_default true true true 0 false None None tworld0.

Example query_trusted :
  let r := (composite_query tstate0).1 in
  ts_trust_state (tr_sample r) = Trusted /\ tr_remaining_validity_ms r = 870 /\
  ts_freshness_age (tr_sample r) = 130.
Proof. by vm_compute. Qed.

Definition monitor0 : Monitor tworld := monitor_start (monitor_new tstate0 41).
End TimeSample.

(* --------------------------------------------------------------------- *)
(** ** Provider histories                                                 *)
(* --------------------------------------------------------------------- *)

Section Histories.
Context {E : Type} `{Env : TimeEnv E}.
Implicit Types s : TimeState E.

(** What can happen to a provider between two looks at it: queries by any client,
    connections, and anything at all outside (time passing, facts changing). *)
Inductive time_step : TimeState E -> TimeState E -> Prop :=
  | tstep_query s : time_step s (composite_query s).2
  | tstep_connect s : time_step s (adapter_connect s).2
  | tstep_disconnect s : time_step s (adapter_disconnect s)
  | tstep_outside e s : time_step s (tm_with_env e s).

Lemma lkg_ge_trans l1 l2 l3 : lkg_ge l1 l2 -> lkg_ge l2 l3 -> lkg_ge l1 l3.
Proof. intros H1 H2 x (y & Hy & ?)%H1. destruct (H2 y Hy) as (z & -> & ?). eauto with lia. Qed.

Lemma composite_query_frame s r s' :
  composite_query s = (r, s') -> tm_cfg s' = tm_cfg s /\ lkg_ge (tm_lkg s) (tm_lkg s').
Proof.
  intros Hq. apply composite_query_cases in Hq as
    [[_ [e ->]]|(_ & s1 & [e ->] & -> & _)]; [split; [done|apply lkg_ge_refl]|].
  destruct (acceptAsKnownGood_spec (tr_sample r) (tm_with_env e s)) as (l & El & _ & Hge & Hc & _).
  split; [exact Hc|]. rewrite El. exact Hge.
Qed.

Lemma time_step_frame s s' : time_step s s' -> tm_cfg s' = tm_cfg s /\ lkg_ge (tm_lkg s) (tm_lkg s').
Proof.
  destruct 1.
  - destruct (composite_query s) as [r s'] eqn:Eq. by eapply composite_query_frame.
  - unfold adapter_connect, tm_on_env. destruct (client_connect _) as [ok e].
    repeat case_match; split; try done; apply lkg_ge_refl.
  - unfold adapter_disconnect, tm_on_env. destruct (client_disconnect _).
    destruct (tm_client s); (split; [done|apply lkg_ge_refl]).
  - split; [done|apply lkg_ge_refl].
Qed.

Lemma time_steps_frame s s' :
  rtc time_step s s' -> tm_cfg s' = tm_cfg s /\ lkg_ge (tm_lkg s) (tm_lkg s').
Proof.
  induction 1 as [s|s1 s2 s3 H1 _ [Ec Hl]]; [split; [done|apply lkg_ge_refl]|].
  apply time_step_frame in H1 as [E1 Hl1]. split; [congruence|by eapply lkg_ge_trans].
Qed.

(** Truncation to milliseconds moves a time point by less than one. *)
Lemma ms_of_tp_near tp : tp - ns_per_ms < tp_of_ms (ms_of_tp tp).
Proof.
  unfold tp_of_ms, ms_of_tp, ns_per_ms. pose proof (Z.quot_rem' tp 1000000).
  pose proof (Z.rem_bound_abs tp 1000000 ltac:(lia)). lia.
Qed.

(** The bridge reports success only for a success, and never a negative round trip. *)
Lemma bridge_faithful res :
  (qr_error (bridge_get_time_snapshot res) = qkOk <-> cr_error res = ckOk) /\
  0 <= qr_rtt_ms (bridge_get_time_snapshot res) /\ qr_snapshot (bridge_get_time_snapshot res) = cr_snapshot res.
Proof. split; [by destruct res as [[] ? ?]|]. split; [cbn; lia|done]. Qed.

(** The fact that a query of [s] asks for and the moment it is judged at, and the reading of
    the hardware clock that a query asks for when the platform did not satisfy it. *)
Definition asked_fact s : TimeFactSnapshot := (adapter_query s).1.
Definition judged_at s : Z := (boot_now (tm_env (adapter_query s).2)).1.
Definition after_platform s : TimeState E :=
  if tc_platform_enabled (tm_cfg s) && tm_platform s
  then (gatePlatform (adapter_query s).1 (adapter_query s).2).2 else s.
Definition asked_rtc s : TrustedTimeSample := (hw_rtc_query (tm_env (after_platform s))).1.

Lemma gatePlatform_trust_now f s r s' :
  gatePlatform f s = (r, s') -> is_trusted (tr_sample r) = true ->
  platform_trust (tm_cfg s) (tm_lkg s) f (boot_now (tm_env s)).1 r.
Proof.
  unfold gatePlatform. cbv zeta. intros Hg Ht.
  do 7 (step_in Hg; [injection Hg as <- <-; discriminate Ht|]). unfold tm_on_env in Hg.
  destruct (boot_now (tm_env s)) as [now e1]. injection Hg as <- <-.
  apply gate_thresholds_trust in Ht as (?&?&?&?&?&?); [|done]. bool_simpl. by split.
Qed.

(** A trusted answer is one of what this very query asked for. *)
Lemma composite_query_trusted s r s' :
  composite_query s = (r, s') -> is_trusted (tr_sample r) = true ->
  (tc_platform_enabled (tm_cfg s) = true /\ tm_platform s = true /\
   platform_trust (tm_cfg s) (tm_lkg s) (asked_fact s) (judged_at s) r) \/
  (tc_hw_rtc_enabled (tm_cfg s) = true /\ tm_hw_rtc s = true /\
   rtc_trust (tm_cfg s) (tm_lkg s) (asked_rtc s) r).
Proof.
  unfold composite_query, asked_fact, judged_at, asked_rtc, after_platform. cbv zeta. intros Hq Ht.
  assert (Hrtc : forall fb s0, is_trusted (tr_sample fb) = false -> tm_env_only s s0 ->
    (if tc_hw_rtc_enabled (tm_cfg s0) && tm_hw_rtc s0 then
       let '(smp, s2) := tm_on_env hw_rtc_query s0 in
       if is_trusted (tr_sample (gateHardwareRtc smp s2))
       then (gateHardwareRtc smp s2, acceptAsKnownGood (tr_sample (gateHardwareRtc smp s2)) s2)
       else if moreSpecific (ts_reason (tr_sample (gateHardwareRtc smp s2))) (ts_reason (tr_sample fb))
       then (gateHardwareRtc smp s2, s2) else (fb, s2)
     else (fb, s0)) = (r, s') ->
    tc_hw_rtc_enabled (tm_cfg s) = true /\ tm_hw_rtc s = true /\
    rtc_trust (tm_cfg s) (tm_lkg s) (hw_rtc_query (tm_env s0)).1 r).
  { intros fb s0 Hfb [e0 ->] Hr. step_in Hr; [|injection Hr as <- <-; congruence].
    bool_simpl. split; [done|]. split; [done|]. unfold tm_on_env in Hr.
    destruct (hw_rtc_query _) as [smp e2]. cbn [fst].
    destruct (is_trusted (tr_sample (gateHardwareRtc _ _))) eqn:Et.
    - injection Hr as <- _. by apply gateHardwareRtc_trust in Et.
    - step_in Hr; injection Hr as <- _; congruence. }
  destruct (tc_platform_enabled (tm_cfg s) && tm_platform s) eqn:Ep.
  - destruct (adapter_query s) as [f s1] eqn:Ea. apply adapter_query_env in Ea as He1. cbn [fst snd].
    destruct (gatePlatform f s1) as [g s2] eqn:Eg. pose proof (gatePlatform_env _ _ _ _ Eg) as He2.
    destruct (is_trusted (tr_sample g)) eqn:Et.
    + injection Hq as <- _. left. bool_simpl. split; [done|]. split; [done|].
      apply gatePlatform_trust_now in Eg; [|done]. by destruct He1 as [e1 ->].
    + right. eapply Hrtc; [exact Et|by eapply tm_env_only_trans|exact Hq].
  - right. eapply Hrtc; [|apply tm_env_only_refl|exact Hq]. done.
Qed.

(** A fact that says all the contract asks for, and one an approved policy vouches for. *)
Record fact_complete (f : TimeFactSnapshot) : Prop := {
  fc_version : tf_contract_version f <> 0;
  fc_snapshot : str_contains "snapshot" (tf_capabilities f) = true;
  fc_epoch : tf_time_daemon_epoch f <> 0;
  fc_source : tf_source_id f <> ""%string /\ tf_source_kind f <> KindNone;
  fc_policy : tf_policy_version f <> ""%string;
  fc_drift : 0 < tf_drift_bound_ppm f;
  fc_signs : 0 <= tf_remaining_validity_ms f /\ 0 <= tf_freshness_age_ms f /\ 0 <= tf_uncertainty_ms f
}.
Record fact_approved (cfg : TrustedTimeConfig) (f : TimeFactSnapshot) : Prop := {
  fa_verified : tf_auth_status f = Verified;
  fa_policy : tf_policy_version f ∈ tc_approved_policy_versions cfg;
  fa_evidence : tc_require_evidence cfg = true -> tf_evidence_ref f <> ""%string;
  fa_source : tc_approved_sources cfg = [] \/ tf_source_id f ∈ tc_approved_sources cfg
}.

Lemma contractComplete_spec f : contractComplete f = true -> fact_complete f.
Proof.
  unfold contractComplete. intros Hc. repeat (step_in Hc; [done|]). bool_simpl.
  split; try done; [split; [|done]|]; by apply str_empty_false.
Qed.
Lemma authBound_spec f cfg : authBound f cfg = true -> fact_approved cfg f.
Proof.
  unfold authBound. intros Ha. repeat (step_in Ha; [done|]). bool_simpl. split; [done|by apply contains_true| |].
  - intros He. rewrite He in *. simpl in *. by apply str_empty_false.
  - destruct (decide (tc_approved_sources cfg = [])) as [->|Hn]; [by left|]. right. apply contains_true.
    rewrite bool_decide_eq_false_2 in * by done. simpl in *. by bool_simpl.
Qed.

(** C18. Time is granted trust only by the gates, and only to what was asked for. A trusted answer
    comes from the platform fact that this query got from the TIME adapter, or from the reading of the
    hardware clock it took. The fact came over a connection that is up and validates; it is
    synchronised; it says all the contract asks for; it is verified, under an approved policy, with
    evidence where that is required, from an approved source where sources are listed; its UTC and
    uncertainty are valid; at the moment it is judged, age and uncertainty - drift included - are
    within the limits and its time is not before the last accepted one by more than the tolerance. The
    clock's reading is from a provisioned RTC where that is required, within its limits, without
    rollback. The lease is positive and bounded by the configured maximum, by what is left of the
    fact's validity after the round trip and the time spent here, and by what the age and uncertainty
    limits leave. *)
Theorem trusted_time_sound s r s' :
  composite_query s = (r, s') -> ts_trust_state (tr_sample r) = Trusted ->
  let cfg := tm_cfg s in
  (0 < tr_remaining_validity_ms r <= tc_lease_max cfg) /\
  ts_uncertainty (tr_sample r) + tr_remaining_validity_ms r <= tc_max_uncertainty cfg /\
  ((let f := asked_fact s in
    tc_platform_enabled cfg = true /\ tm_platform s = true /\
    platform_trust cfg (tm_lkg s) f (judged_at s) r /\ fact_complete f /\ fact_approved cfg f /\
    tr_remaining_validity_ms r <=
      tf_remaining_validity_ms f - tf_rtt_ms f - Z.max 0 (judged_at s - tf_received_boot_ms f) /\
    ts_freshness_age (tr_sample r) + tr_remaining_validity_ms r <= tc_max_freshness cfg) \/
   (tc_hw_rtc_enabled cfg = true /\ tm_hw_rtc s = true /\
    rtc_trust cfg (tm_lkg s) (asked_rtc s) r)).
Proof.
  intros Hq Ht%is_trusted_true. cbv zeta.
  apply composite_query_trusted in Hq as [(He & Hpl & Hp)|(He & Hpl & Hr)]; [| |done].
  - pose proof (pt_sample _ _ _ _ _ Hp) as Hs. pose proof (pt_lease_pos _ _ _ _ _ Hp) as Hpos.
    pose proof (contractComplete_spec _ (pt_contract _ _ _ _ _ Hp)).
    pose proof (authBound_spec _ _ (pt_auth _ _ _ _ _ Hp)).
    rewrite (pt_lease _ _ _ _ _ Hp). unfold platform_lease in *. cbv zeta in *. unfold remain_eff in *.
    set (f := asked_fact s) in *. set (now := judged_at s) in *.
    assert (Eu : ts_uncertainty (tr_sample r) = u_eff f now) by by rewrite Hs.
    assert (Ea : ts_freshness_age (tr_sample r) = age_eff f now) by by rewrite Hs.
    rewrite Eu. split; [lia|]. split; [lia|]. left. rewrite Ea. fold (elapsed_at f now). split_and!; try done; lia.
  - pose proof (rt_lease _ _ _ _ Hr) as Hl. pose proof (rt_lease_pos _ _ _ _ Hr).
    rewrite (rt_sample _ _ _ _ Hr). split; [lia|]. split; [lia|]. by right.
Qed.

(** C25. No rollback. Whatever happens between two answers - other queries,
    reconnections, a restart of TIME, any change of the facts - a later trusted
    time is not earlier than an earlier trusted one by more than the configured
    tolerance and the millisecond the comparison truncates. *)
Theorem no_trusted_rollback s1 r1 s1' s2 r2 s2' :
  composite_query s1 = (r1, s1') -> ts_trust_state (tr_sample r1) = Trusted ->
  rtc time_step s1' s2 ->
  composite_query s2 = (r2, s2') -> ts_trust_state (tr_sample r2) = Trusted ->
  ts_utc_now (tr_sample r1) - tp_of_ms (tc_rollback_tolerance (tm_cfg s1)) - ns_per_ms
    < ts_utc_now (tr_sample r2).
Proof.
  intros Q1 T1%is_trusted_true Hr Q2 T2%is_trusted_true.
  pose proof (composite_query_frame _ _ _ Q1) as [Ec _].
  apply composite_query_cases in Q1 as [[Hn _]|(_ & sa & _ & -> & _)]; [congruence|].
  destruct (acceptAsKnownGood_spec (tr_sample r1) sa) as (l & El & Hl & _).
  apply time_steps_frame in Hr as [Ec2 Hge]. destruct (Hge l El) as (l2 & El2 & Hl2).
  assert (Hns : 0 < ns_per_ms) by (unfold ns_per_ms; lia).
  apply composite_query_cases in Q2 as
    [[Hn _]|(_ & sb & _ & _ & [(f & now & _ & Hp)|(smp & _ & Hp)])]; [congruence| |].
  - pose proof (pt_rollback _ _ _ _ _ Hp l2 El2) as Hb. rewrite (pt_sample _ _ _ _ _ Hp). simpl.
    rewrite Ec2, Ec in Hb. pose proof (ms_of_tp_near l2). unfold tp_of_ms in *. nia.
  - pose proof (rt_rollback _ _ _ _ Hp l2 El2) as Hb. rewrite (rt_sample _ _ _ _ Hp).
    rewrite Ec2, Ec in Hb. lia.
Qed.
End Histories.

(* --------------------------------------------------------------------- *)
(** ** Where trusted facts come from, and their arithmetic                *)
(* --------------------------------------------------------------------- *)

Section Facts.
Context {E : Type} `{Env : TimeEnv E}.
Implicit Types s : TimeState E.

(** The fact a snapshot is mapped to. *)
Definition fact_of (q : QueryResult) (received : Z) (complete : bool) : TimeFactSnapshot :=
  let n := qr_snapshot q in
  mkFact (sn_contract_version n) (sn_capabilities n) (sn_daemon_epoch n) (sn_event_sequence n)
    (mapState (sn_state n)) (sn_source_id n) (mapKind (sn_source_kind n)) (sn_source_epoch n)
    (sn_utc_valid n) (sn_utc_epoch_ms n) (sn_system_clock_aligned n) (sn_alignment_error_ms n)
    (sn_freshness_age_ms n) (sn_uncertainty_valid n) (sn_uncertainty_ms n)
    (sn_remaining_validity_ms n) (sn_drift_bound_ppm n) (mapAuth (sn_auth_status n))
    (sn_evidence_ref n) (sn_policy_version n) (Z.max 0 (qr_rtt_ms q)) received true (sn_validate n)
    complete "".

Lemma adapter_query_validated s f s' :
  adapter_query s = (f, s') -> tf_validated f = true ->
  tm_client s = true /\ exists e q b c, client_is_connected e = true /\
    (client_get_time_snapshot e).1 = q /\ (qr_error q = qkOk \/ qr_error q = qkTimeUnavailable) /\
    f = fact_of q b c.
Proof.
  unfold adapter_query, mapSnapshot, tm_on_env. intros Ha Hv.
  destruct (boot_now (tm_env s)) as [b e1]. cbn [tm_env tm_client tm_with_env] in Ha.
  destruct (tm_client s); simpl in Ha; [|by injection Ha as <- <-].
  destruct (client_is_connected e1) eqn:Eco; simpl in Ha; [|by injection Ha as <- <-].
  destruct (client_get_time_snapshot e1) as [q e2] eqn:Eq. simpl in Ha.
  destruct (boot_now e2) as [b2 e3]. split; [done|]. exists e1, q, b2.
  rewrite Eq. destruct (qr_error q); injection Ha as <- <-; try done;
    eexists; (split_and!; [done|done|auto|reflexivity]).
Qed.

Lemma gatePlatform_source_id f s r s' :
  gatePlatform f s = (r, s') -> is_trusted (tr_sample r) = true -> tr_source_id r = tf_source_id f.
Proof.
  intros Hg Ht. destruct (gatePlatform_trust _ _ _ _ Hg Ht) as (_ & now & Hp).
  unfold gatePlatform in Hg. cbv zeta in Hg.
  rewrite (pt_transport _ _ _ _ _ Hp), (pt_validated _ _ _ _ _ Hp) in Hg. simpl in Hg.
  do 5 (step_in Hg; [by injection Hg as <- <-|]).
  destruct (tm_on_env boot_now s) as [nb s3]. injection Hg as <- <-.
  unfold gate_thresholds. by repeat case_match.
Qed.

(** With the repository's RTC adapter a trusted answer is the platform's. *)
Lemma composite_query_platform s r s' :
  (forall e, (hw_rtc_query e).1 = hardware_rtc_adapter_query) ->
  composite_query s = (r, s') -> is_trusted (tr_sample r) = true ->
  tc_platform_enabled (tm_cfg s) = true /\ tm_platform s = true /\
  exists f s1 s2, adapter_query s = (f, s1) /\ gatePlatform f s1 = (r, s2).
Proof.
  intros Hrtc Hq Ht. unfold composite_query in Hq. cbv zeta in Hq.
  assert (Hno : forall fb s0, is_trusted (tr_sample fb) = false ->
    (if tc_hw_rtc_enabled (tm_cfg s0) && tm_hw_rtc s0 then
       let '(smp, s2) := tm_on_env hw_rtc_query s0 in
       if is_trusted (tr_sample (gateHardwareRtc smp s2))
       then (gateHardwareRtc smp s2, acceptAsKnownGood (tr_sample (gateHardwareRtc smp s2)) s2)
       else if moreSpecific (ts_reason (tr_sample (gateHardwareRtc smp s2))) (ts_reason (tr_sample fb))
       then (gateHardwareRtc smp s2, s2) else (fb, s2)
     else (fb, s0)) <> (r, s')).
  { intros fb s0 Hfb Hr. step_in Hr; [|congruence].
    unfold tm_on_env in Hr. specialize (Hrtc (tm_env s0)).
    destruct (hw_rtc_query (tm_env s0)) as [smp e0]. simpl in Hrtc. subst smp.
    change (is_trusted (tr_sample (gateHardwareRtc hardware_rtc_adapter_query _))) with false in Hr.
    cbv iota in Hr. step_in Hr; injection Hr as <- <-; [discriminate Ht|congruence]. }
  destruct (tc_platform_enabled (tm_cfg s) && tm_platform s) eqn:Ep; [|by apply Hno in Hq].
  destruct (adapter_query s) as [f s1] eqn:Ea.
  destruct (gatePlatform f s1) as [g s2] eqn:Eg.
  destruct (is_trusted (tr_sample g)) eqn:Etg; [|by apply Hno in Hq].
  injection Hq as <- <-. bool_simpl. split_and!; try done. by exists f, s1, s2.
Qed.

(** Nothing but a connected TIME service can vouch for the time in this build.
    With the repository's RTC adapter, a trusted answer implies the platform
    source is enabled, its client is connected, and the client has just returned
    a snapshot that validates and says synchronised and verified. *)
Theorem trust_needs_time_service s r s' :
  (forall e, (hw_rtc_query e).1 = hardware_rtc_adapter_query) ->
  composite_query s = (r, s') -> ts_trust_state (tr_sample r) = Trusted ->
  tc_platform_enabled (tm_cfg s) = true /\ tm_platform s = true /\ tm_client s = true /\
  exists e q, client_is_connected e = true /\ (client_get_time_snapshot e).1 = q /\
    (qr_error q = qkOk \/ qr_error q = qkTimeUnavailable) /\
    sn_validate (qr_snapshot q) = true /\ sn_state (qr_snapshot q) = kSynced /\
    sn_auth_status (qr_snapshot q) = kVerified /\
    tr_source_id r = sn_source_id (qr_snapshot q).
Proof.
  intros Hrtc Hq Ht%is_trusted_true.
  destruct (composite_query_platform s r s' Hrtc Hq Ht) as (Hen & Hpl & f & s1 & s2 & Ea & Eg).
  destruct (gatePlatform_trust _ _ _ _ Eg Ht) as (_ & now & Hp).
  destruct (adapter_query_validated _ _ _ Ea (pt_validated _ _ _ _ _ Hp))
    as (Hc & e & q & b & c & Hco & Hq' & He & ->).
  rewrite (gatePlatform_source_id _ _ _ _ Eg Ht).
  destruct Hp as [_ Hv Hs _ Ha _ _ _ _ _ _ _]. unfold authBound in Ha. simpl in *.
  split_and!; try done. exists e, q. split_and!; try done.
  - by destruct (sn_state (qr_snapshot q)).
  - by destruct (sn_auth_status (qr_snapshot q)).
Qed.

(** Values a vehicle meets: ages, delays and uptimes up to [2^40] ms (34 years),
    drift up to [2^20] ppm, UTC within [2^42] ms of the epoch (2109). *)
Definition fact_small (f : TimeFactSnapshot) (now_boot : Z) : Prop :=
  0 <= tf_freshness_age_ms f <= 2 ^ 40 /\ 0 <= tf_rtt_ms f <= 2 ^ 40 /\
  0 <= tf_uncertainty_ms f <= 2 ^ 40 /\ 0 <= tf_remaining_validity_ms f <= 2 ^ 62 /\
  0 < tf_drift_bound_ppm f <= 2 ^ 20 /\ - 2 ^ 42 <= tf_utc_epoch_ms f <= 2 ^ 42 /\
  0 <= tf_received_boot_ms f <= 2 ^ 40 /\ 0 <= now_boot <= 2 ^ 40.
End Facts.

(** The gate's 64-bit arithmetic. For facts of realistic size no intermediate
    value of [gatePlatform] leaves [int64_t], the conversion of UTC to a
    nanosecond time point included. The contract check alone does not ensure it:
    it puts no upper bound on drift, and a fact that passes every check made
    here before the multiplication can overflow it, so the bound has to come from
    the SDK's [validate()]. *)
Theorem gatePlatform_no_overflow f now_boot cfg :
  (fact_small f now_boot ->
   is_i64 (now_boot - tf_received_boot_ms f) /\ is_i64 (elapsed_at f now_boot) /\
   is_i64 (tf_freshness_age_ms f + tf_rtt_ms f) /\ is_i64 (age_eff f now_boot) /\
   is_i64 (tf_drift_bound_ppm f * age_eff f now_boot) /\ is_i64 (u_eff f now_boot) /\
   is_i64 (remain_eff f now_boot) /\ is_i64 (utc_eff f now_boot) /\
   is_i64 (tp_of_ms (utc_eff f now_boot))) /\
  (forall pv, tc_approved_policy_versions cfg = pv :: [] -> pv <> "" -> tc_approved_sources cfg = [] ->
   exists g, is_i64 (tf_drift_bound_ppm g) /\ is_i64 (age_eff g 0) /\ tf_state g = Synced /\
     contractComplete g = true /\ authBound g cfg = true /\
     age_eff g 0 <= tc_max_freshness TrustedTimeConfig_default /\
     ~ is_i64 (tf_drift_bound_ppm g * age_eff g 0)).
Proof.
  split.
  - intros (?&?&?&?&?&?&?&?).
    assert (0 <= elapsed_at f now_boot <= 2 ^ 40) by (unfold elapsed_at; lia).
    assert (Ha : 0 <= age_eff f now_boot <= 2 ^ 42) by (unfold age_eff; lia).
    assert (Hm : 0 <= tf_drift_bound_ppm f * age_eff f now_boot <= 2 ^ 62) by nia.
    assert (0 <= Z.quot (tf_drift_bound_ppm f * age_eff f now_boot) 1000000 <= 2 ^ 62).
    { rewrite Z.quot_div_nonneg by lia. split; [apply Z.div_pos; lia|].
      apply Z.div_le_upper_bound; lia. }
    unfold is_i64, u_eff, remain_eff, utc_eff, tp_of_ms, ns_per_ms. repeat split; lia.
  - intros pv Hpv Hne Hs. exists (mkFact 1 "snapshot,v1" 77 5 Synced "ntp-1" NtpNetwork 3 true 0 true
      0 4 true 0 900 (2 ^ 62) Verified "ev" pv 0 0 true true true "").
    assert (Ee : str_empty pv = false) by by apply str_empty_false.
    unfold authBound, contractComplete. rewrite Hpv, Hs.
    cbn [tf_auth_status tf_policy_version tf_evidence_ref tf_source_id contains existsb].
    rewrite String.eqb_refl. split_and!; try done.
    + simpl. by rewrite Ee.
    + simpl. by rewrite andb_false_r.
    + unfold is_i64, age_eff, elapsed_at. simpl. lia.
Qed.

(** The wire envelope keeps the verdict. Two results with the same envelope
    have the same trust state, source, reason, source kind, authentication status
    and (when UTC is valid) the same UTC to the millisecond; [valid] says exactly
    that no error class is set. *)
Theorem to_envelope_faithful a b :
  to_envelope a = to_envelope b ->
  ts_trust_state (tr_sample a) = ts_trust_state (tr_sample b) /\
  ts_source (tr_sample a) = ts_source (tr_sample b) /\
  ts_reason (tr_sample a) = ts_reason (tr_sample b) /\
  tr_source_kind a = tr_source_kind b /\ tr_auth_status a = tr_auth_status b /\
  tr_remaining_validity_ms a = tr_remaining_validity_ms b /\
  (tr_utc_valid a = true ->
     ms_of_tp (ts_utc_now (tr_sample a)) = ms_of_tp (ts_utc_now (tr_sample b))) /\
  (te_valid (to_envelope a) = true <-> tr_error_class a = "").
Proof.
  intros E. assert (Hv : te_valid (to_envelope a) = true <-> tr_error_class a = "")
    by apply str_empty_true.
  unfold to_envelope in E. injection E. intros Ec _ _ Ea _ _ _ Er _ _ _ Eu Euv Ere Eso Et _ _ Ek _ _ _ _ _ _ _ _.
  split_and!; try exact Er; try exact Hv.
  - destruct (ts_trust_state (tr_sample a)), (ts_trust_state (tr_sample b)); done.
  - destruct (ts_source (tr_sample a)), (ts_source (tr_sample b)); done.
  - destruct (ts_reason (tr_sample a)), (ts_reason (tr_sample b)); done.
  - destruct (tr_source_kind a), (tr_source_kind b); done.
  - destruct (tr_auth_status a), (tr_auth_status b); done.
  - intros Hu. rewrite <- Euv, Hu in Eu. exact Eu.
Qed.

(* --------------------------------------------------------------------- *)
(** ** The monitor                                                        *)
(* --------------------------------------------------------------------- *)

Section MonitorFacts.
Context {E : Type} `{Env : TimeEnv E}.
Implicit Types m : Monitor E.

Lemma composite_query_lease (s : TimeState E) r s' :
  composite_query s = (r, s') -> is_trusted (tr_sample r) = true ->
  0 < tr_remaining_validity_ms r <= tc_lease_max (tm_cfg s).
Proof.
  intros Hq Ht. apply composite_query_cases in Hq as
    [[Hn _]|(_ & s1 & _ & _ & [(f & now & _ & Hp)|(smp & _ & Hr)])]; [congruence| |].
  - pose proof (pt_lease_pos _ _ _ _ _ Hp). rewrite (pt_lease _ _ _ _ _ Hp).
    unfold platform_lease in *. cbv zeta in *. lia.
  - pose proof (rt_lease_pos _ _ _ _ Hr). pose proof (rt_lease _ _ _ _ Hr). lia.
Qed.

(** A change of the provider state alone. *)
Definition time_only m m' : Prop :=
  exists t, m' = mo_with_time t m /\ tm_cfg t = tm_cfg (mo_time m).

Lemma time_only_refl m : time_only m m.
Proof. exists (mo_time m). by destruct m. Qed.

Lemma nowBootMs_spec m now m' : nowBootMs m = (now, m') -> time_only m m'.
Proof.
  unfold nowBootMs, on_time, tm_on_env. destruct (boot_now _) as [n e]. intros [= <- <-].
  by eexists.
Qed.

Lemma on_time_query_spec m r m' :
  on_time composite_query m = (r, m') ->
  time_only m m' /\ (is_trusted (tr_sample r) = true ->
    0 < tr_remaining_validity_ms r <= tc_lease_max (tm_cfg (mo_time m))).
Proof.
  unfold on_time. destruct (composite_query (mo_time m)) as [r0 t] eqn:Eq. intros [= <- <-].
  split; [|by eapply composite_query_lease].
  exists t. split; [done|]. by eapply composite_query_frame.
Qed.

(** At most one event, numbered one past the last, sent once to each subscriber,
    and only if a reported fact changed. *)
Definition at_most_one_event m m' : Prop :=
  (mo_sec_time_event_sequence m' = mo_sec_time_event_sequence m /\
   mo_last_published m' = mo_last_published m /\ mo_sent m' = mo_sent m) \/
  exists r, mo_sec_time_event_sequence m' = wrapu 64 (mo_sec_time_event_sequence m + 1) /\
    mo_last_published m' = Some r /\
    tr_sec_time_event_sequence r = mo_sec_time_event_sequence m' /\
    mo_sent m' = ((fun i => (i, r)) <$> mo_subscribers m) ++ mo_sent m /\
    (forall p, mo_last_published m = Some p -> factChanged p r = true).

(** The fields the events depend on. *)
Definition same_events m m' : Prop :=
  mo_sec_time_event_sequence m' = mo_sec_time_event_sequence m /\
  mo_last_published m' = mo_last_published m /\ mo_sent m' = mo_sent m /\
  mo_subscribers m' = mo_subscribers m.

Lemma time_only_events m m' : time_only m m' -> same_events m m'.
Proof. by intros (t & -> & _). Qed.
Lemma same_events_trans m1 m2 m3 : same_events m1 m2 -> same_events m2 m3 -> same_events m1 m3.
Proof. intros (?&?&?&?) (?&?&?&?). repeat split; congruence. Qed.
Lemma same_events_one m1 m2 m3 :
  same_events m1 m2 -> at_most_one_event m2 m3 -> at_most_one_event m1 m3.
Proof.
  intros (E1&E2&E3&E4) [(?&?&?)|(r&?&?&?&Hs&Hp)]; [left; repeat split; congruence|].
  right. exists r. rewrite <- E1, <- E2, <- E3, <- E4. by repeat split.
Qed.
Lemma no_event m m' : same_events m m' -> at_most_one_event m m'.
Proof. intros (?&?&?&_). by left. Qed.

Lemma publish_event r m : at_most_one_event m (publishIfChanged r m).
Proof.
  unfold publishIfChanged. destruct (mo_last_published m) as [p|] eqn:Ep.
  - destruct (factChanged p r) eqn:Ec; simpl; [|by left].
    right. eexists. repeat split. intros p' Hp'. rewrite Ep in Hp'. injection Hp' as <-. exact Ec.
  - right. eexists. repeat split. congruence.
Qed.

Lemma publish_first r m :
  mo_last_published m = None ->
  mo_last_published (publishIfChanged r m) <> None.
Proof. unfold publishIfChanged. by intros ->. Qed.

(** What a refresh leaves: one event at most, the clock reading it began with, and
    a cache whose lease is in bounds. *)
Definition lease_ok (cfg : TrustedTimeConfig) (c : TrustedTimeResult) : Prop :=
  is_trusted (tr_sample c) = true -> 0 < tr_remaining_validity_ms c <= tc_lease_max cfg.

Lemma publish_fields r m :
  mo_cached (publishIfChanged r m) = mo_cached m /\ mo_time (publishIfChanged r m) = mo_time m /\
  mo_running (publishIfChanged r m) = mo_running m /\
  mo_last_refresh_boot_ms (publishIfChanged r m) = mo_last_refresh_boot_ms m /\
  mo_sec_daemon_epoch (publishIfChanged r m) = mo_sec_daemon_epoch m /\
  mo_tokens_invalidated (publishIfChanged r m) = mo_tokens_invalidated m.
Proof. unfold publishIfChanged. by destruct (match mo_last_published m with Some _ => _ | _ => _ end). Qed.

Lemma refreshLocked_spec m :
  at_most_one_event m (refreshLocked m) /\
  tm_cfg (mo_time (refreshLocked m)) = tm_cfg (mo_time m) /\
  exists c, mo_cached (refreshLocked m) = Some c /\ lease_ok (tm_cfg (mo_time m)) c /\
    tr_sec_time_event_sequence c = mo_sec_time_event_sequence m.
Proof.
  unfold refreshLocked. destruct (nowBootMs m) as [now m1] eqn:En.
  apply nowBootMs_spec in En as (t1 & -> & Ec1).
  destruct (on_time composite_query _) as [r m2] eqn:Eq.
  apply on_time_query_spec in Eq as [(t2 & -> & Ec2) Hl]. simpl in Ec2, Hl.
  match goal with |- context [publishIfChanged ?r ?m] =>
    destruct (publish_fields r m) as (Ep1 & Ep2 & _); pose proof (publish_event r m) as Hev end.
  rewrite Ep1, Ep2. simpl. split; [|split; [congruence|]].
  - eapply same_events_one; [|exact Hev]. by repeat split.
  - eexists. split; [done|]. split.
    + unfold lease_ok. destruct (_ && _) eqn:Eb; [done|]. intros Ht. rewrite <- Ec1.
      by apply Hl.
    + by destruct (_ && _).
Qed.

Lemma refreshLocked_first m :
  mo_last_published m = None -> mo_last_published (refreshLocked m) <> None.
Proof.
  intros Hp. unfold refreshLocked. destruct (nowBootMs m) as [now m1] eqn:En.
  apply nowBootMs_spec in En as (t1 & -> & _).
  destruct (on_time composite_query _) as [r m2] eqn:Eq.
  apply on_time_query_spec in Eq as [(t2 & -> & _) _]. by apply publish_first.
Qed.

Lemma revokeLocked_spec reason m :
  at_most_one_event m (revokeLocked reason m) /\
  tm_cfg (mo_time (revokeLocked reason m)) = tm_cfg (mo_time m) /\
  exists c, mo_cached (revokeLocked reason m) = Some c /\
    ts_trust_state (tr_sample c) = Untrusted /\ ts_reason (tr_sample c) = reason /\
    tr_remaining_validity_ms c = 0.
Proof.
  unfold revokeLocked. destruct (nowBootMs m) as [now m1] eqn:En.
  apply nowBootMs_spec in En as (t1 & -> & Ec1).
  match goal with |- context [publishIfChanged ?r ?m] =>
    destruct (publish_fields r m) as (Ep1 & Ep2 & _); pose proof (publish_event r m) as Hev end.
  rewrite Ep1, Ep2. simpl. split; [|split; [done|]].
  - eapply same_events_one; [|exact Hev]. by repeat split.
  - eexists. by split.
Qed.

Lemma adapter_connect_cfg (s : TimeState E) : tm_cfg (adapter_connect s).2 = tm_cfg s.
Proof.
  unfold adapter_connect, tm_on_env. destruct (client_connect _) as [ok e]. by repeat case_match.
Qed.
Lemma adapter_subscribe_cfg (s : TimeState E) : tm_cfg (adapter_subscribe s).2 = tm_cfg s.
Proof.
  unfold adapter_subscribe, tm_on_env. destruct (client_subscribe _) as [ok e]. by repeat case_match.
Qed.

Lemma manage_connection_spec now m :
  same_events m (manage_connection now m) /\
  tm_cfg (mo_time (manage_connection now m)) = tm_cfg (mo_time m) /\
  mo_cached (manage_connection now m) = mo_cached m /\
  mo_last_refresh_boot_ms (manage_connection now m) = mo_last_refresh_boot_ms m.
Proof.
  unfold manage_connection, on_time. cbn [mo_time mo_with_attempt].
  pose proof (adapter_connect_cfg (mo_time m)) as H1.
  destruct (adapter_connect (mo_time m)) as [ok t1]. simpl in H1.
  pose proof (adapter_subscribe_cfg (mo_time m)) as H2.
  pose proof (adapter_subscribe_cfg t1) as H3.
  destruct (adapter_subscribe (mo_time m)) as [b2 t2].
  cbn [mo_time mo_with_connection mo_with_time].
  destruct (adapter_subscribe t1) as [b3 t3]. simpl in H2, H3.
  destruct (_ && _); [|done]. destruct (adapter_is_connected (mo_time m)); simpl.
  - destruct (mo_time_sub m); simpl; [done|]. by repeat split.
  - destruct (_ >=? _); [|done]. destruct ok; simpl; repeat split; congruence.
Qed.
End MonitorFacts.

Section MonitorProperties.
Context {E : Type} `{Env : TimeEnv E}.
Implicit Types m : Monitor E.

Definition mon_inv (cfg : TrustedTimeConfig) m : Prop :=
  tm_cfg (mo_time m) = cfg /\ forall c, mo_cached m = Some c -> lease_ok cfg c.

Lemma refreshLocked_inv cfg m : tm_cfg (mo_time m) = cfg -> mon_inv cfg (refreshLocked m).
Proof.
  intros Hc. destruct (refreshLocked_spec m) as (_ & Ec & c & Ecc & Hl & _).
  split; [congruence|]. intros c' Hc'. rewrite Ecc in Hc'. injection Hc' as <-. by rewrite <- Hc.
Qed.

Lemma adapter_disconnect_cfg (s : TimeState E) : tm_cfg (adapter_disconnect s) = tm_cfg s.
Proof.
  unfold adapter_disconnect, tm_on_env. destruct (client_disconnect _). by destruct (tm_client s).
Qed.

(** The pass of the thread after the clock was read and the connection managed. *)
Lemma monitor_tick_cases m :
  monitor_tick m = m \/ exists now m1, time_only m m1 /\
    (nowBootMs m).1 = now /\
    let m2 := manage_connection now m1 in
    monitor_tick m = refreshLocked (mo_with_pending false m2) \/
    monitor_tick m = refreshLocked m2 \/
    (lease_expired now m2 = true /\ monitor_tick m = revokeLocked TimeExpired m2) \/
    (lease_expired now m2 = false /\ monitor_tick m = m2).
Proof.
  unfold monitor_tick. destruct (mo_running m); [|by left]. right. cbn [negb].
  destruct (nowBootMs m) as [now m1] eqn:En. exists now, m1.
  split; [by eapply nowBootMs_spec|]. split; [done|]. cbv zeta.
  destruct (mo_refresh_pending _); [auto|]. destruct (_ >=? _); [auto|].
  destruct (lease_expired _ _); auto.
Qed.

Lemma time_only_pending b m m' : time_only m m' -> same_events m (mo_with_pending b m').
Proof. by intros (t & -> & _). Qed.

Lemma manage_then (P : Monitor E -> Prop) now m m1 :
  time_only m m1 ->
  same_events m (manage_connection now m1) /\
  tm_cfg (mo_time (manage_connection now m1)) = tm_cfg (mo_time m) /\
  mo_cached (manage_connection now m1) = mo_cached m /\
  mo_last_refresh_boot_ms (manage_connection now m1) = mo_last_refresh_boot_ms m.
Proof.
  intros (t & -> & Ec). destruct (manage_connection_spec now (mo_with_time t m)) as (H1&H2&H3&H4).
  split; [eapply same_events_trans; [|exact H1]; by repeat split|].
  simpl in *. split_and!; congruence.
Qed.

Lemma monitor_step_inv cfg m m' : monitor_step m m' -> mon_inv cfg m -> mon_inv cfg m'.
Proof.
  intros Hs [Hc Hl]. destruct Hs as [m|m|m|i m|i m|m|tok m]; try by split.
  - unfold monitor_start. destruct (mo_running m); by split.
  - pose proof (adapter_disconnect_cfg (mo_time m)) as Hd. unfold monitor_stop.
    destruct (mo_running m); simpl; destruct (tm_platform (mo_time m)); split; simpl; try done; congruence.
  - destruct (monitor_tick_cases m) as [->|(now & m1 & Ht & _ & Hcase)]; [by split|].
    destruct (manage_then (mon_inv cfg) now m m1 Ht) as (_ & Ec & Ecc & _).
    rewrite Hc in Ec.
    destruct Hcase as [->|[->|[[_ ->]|[_ ->]]]]; try by apply refreshLocked_inv.
    + destruct (revokeLocked_spec TimeExpired (manage_connection now m1)) as (_ & Er & c & Ec' & Hu & _).
      split; [congruence|]. intros c' Hc'. rewrite Ec' in Hc'. injection Hc' as <-.
      intros Ht'%is_trusted_true. congruence.
    + split; [done|]. rewrite Ecc. exact Hl.
  - unfold monitor_get. destruct (_ && _); [by split|].
    assert (Hi : mon_inv cfg (match mo_cached m with Some _ => m | None => refreshLocked m end)).
    { destruct (mo_cached m) eqn:Em; [by split; rewrite ?Em|by apply refreshLocked_inv]. }
    destruct (is_trusted _); [|exact Hi]. destruct (nowBootMs _) as [now m1] eqn:En.
    apply nowBootMs_spec in En as (t & -> & Et). destruct Hi as [Hi1 Hi2]. split; simpl; [congruence|done].
Qed.

Lemma monitor_steps_inv cfg m m' : rtc monitor_step m m' -> mon_inv cfg m -> mon_inv cfg m'.
Proof. induction 1; eauto using monitor_step_inv. Qed.

(** Short leases. In every reachable monitor a trusted answer carries a
    positive lease of at most [lease_max]; when it comes from the cache it is the
    cached lease less all the time since the refresh began, so asking never
    extends trust. *)
Theorem monitor_get_lease t boot m tok r m' :
  rtc monitor_step (monitor_new t boot) m -> monitor_get tok m = (r, m') ->
  ts_trust_state (tr_sample r) = Trusted ->
  0 < tr_remaining_validity_ms r <= tc_lease_max (tm_cfg t) /\
  (forall c, mo_cached m = Some c ->
     ts_trust_state (tr_sample c) = Trusted /\ mo_cached m' = Some c /\
     tr_remaining_validity_ms r =
       tr_remaining_validity_ms c - Z.max 0 ((nowBootMs m).1 - mo_last_refresh_boot_ms m)).
Proof.
  intros Hr Hg Ht. assert (Hi : mon_inv (tm_cfg t) m) by (by eapply monitor_steps_inv; [exact Hr|split]).
  unfold monitor_get in Hg. destruct (_ && _); [injection Hg as <- _; discriminate Ht|].
  set (m0 := match mo_cached m with Some _ => m | None => refreshLocked m end) in *.
  assert (Hi0 : mon_inv (tm_cfg t) m0).
  { unfold m0. destruct (mo_cached m) eqn:Em; [done|]. apply refreshLocked_inv, Hi. }
  destruct (is_trusted (tr_sample (default TrustedTimeResult_default (mo_cached m0)))) eqn:Et.
  2: { injection Hg as <- _. apply is_trusted_true in Ht. congruence. }
  destruct (nowBootMs m0) as [now m1] eqn:En. pose proof En as En'.
  apply nowBootMs_spec in En' as (t1 & -> & _). injection Hg as <- <-.
  destruct (mo_cached m0) as [c0|] eqn:Ec0; [|discriminate Et]. simpl in Et.
  destruct Hi0 as [_ Hl]. pose proof (Hl c0 Ec0 Et) as Hl0.
  unfold deduct_elapsed in *. simpl in Ht |- *. cbv zeta in *.
  destruct (_ <=? 0) eqn:Ele; [discriminate Ht|]. bool_simpl. simpl. split; [lia|].
  intros c Hc. unfold m0 in *. rewrite Hc in *. rewrite Hc in Ec0. injection Ec0 as <-.
  rewrite En. split_and!; [by apply is_trusted_true|done|done].
Qed.

(** Event numbering. Every step of a monitor publishes at most one event; an
    event is numbered one past the last, goes once to every live subscriber, and
    is only sent when a reported fact differs from the one last published. *)
Theorem monitor_events m m' : monitor_step m m' -> at_most_one_event m m'.
Proof.
  destruct 1 as [m|m|m|i m|i m|m|tok m]; try by left.
  - unfold monitor_start. destruct (mo_running m); by left.
  - apply no_event. unfold monitor_stop. by repeat case_match.
  - destruct (monitor_tick_cases m) as [->|(now & m1 & Ht & _ & Hcase)]; [by left|].
    destruct (manage_then (fun _ => True) now m m1 Ht) as (He & _).
    destruct Hcase as [->|[->|[[_ ->]|[_ ->]]]].
    + eapply same_events_one; [|apply refreshLocked_spec]. eapply same_events_trans; [exact He|].
      by repeat split.
    + eapply same_events_one; [exact He|apply refreshLocked_spec].
    + eapply same_events_one; [exact He|apply revokeLocked_spec].
    + by apply no_event.
  - unfold monitor_get. destruct (_ && _); [by left|].
    assert (Hi : at_most_one_event m (match mo_cached m with Some _ => m | None => refreshLocked m end)).
    { destruct (mo_cached m); [by left|apply refreshLocked_spec]. }
    destruct (is_trusted _); [|exact Hi]. destruct (nowBootMs _) as [now m1] eqn:En.
    apply nowBootMs_spec in En as (t & -> & _). exact Hi.
Qed.

(** Expiry without a reader. When the monitor thread passes and the cached
    lease has run out by its clock reading, the old grant does not survive the
    pass: either the sources were asked again, or the cache now says untrusted,
    expired, with nothing left. *)
Theorem expired_lease_is_revoked m c :
  mo_running m = true -> mo_cached m = Some c -> ts_trust_state (tr_sample c) = Trusted ->
  tr_remaining_validity_ms c <= (nowBootMs m).1 - mo_last_refresh_boot_ms m ->
  (exists m1, monitor_tick m = refreshLocked m1) \/
  exists c', mo_cached (monitor_tick m) = Some c' /\ ts_trust_state (tr_sample c') = Untrusted /\
    ts_reason (tr_sample c') = TimeExpired /\ tr_remaining_validity_ms c' = 0.
Proof.
  intros Hrun Hc Ht%is_trusted_true Hex. unfold monitor_tick. rewrite Hrun. simpl.
  destruct (nowBootMs m) as [now m1] eqn:En. simpl in Hex. apply nowBootMs_spec in En.
  destruct (manage_then (fun _ => True) now m m1 En) as (_ & _ & Ecc & Elr).
  destruct (mo_refresh_pending _); [left; eauto|]. destruct (_ >=? _); [left; eauto|].
  assert (He : lease_expired now (manage_connection now m1) = true).
  { unfold lease_expired. rewrite Ecc, Hc, Ht, Elr. simpl. rewrite Z.geb_leb. by apply Z.leb_le. }
  rewrite He. right. destruct (revokeLocked_spec TimeExpired (manage_connection now m1)) as
    (_ & _ & c' & ? & ? & ? & ?). by exists c'.
Qed.

(** Late answers are refused. A token of another instance, or any token once
    [stop] has run, gets no time: an unknown, [stale] answer with no lease and no
    change of state. After [stop] the cache is gone and the thread's passes do
    nothing until [start]. *)
Theorem stale_token_refused m tok :
  tok <> 0 ->
  (tok <> mo_sec_daemon_epoch m \/ mo_tokens_invalidated m = true ->
   monitor_get tok m = (stale_result (mo_sec_daemon_epoch m), m)) /\
  (let m1 := monitor_stop m in
   monitor_get tok m1 = (stale_result (mo_sec_daemon_epoch m1), m1) /\
   mo_cached m1 = None /\ monitor_tick m1 = m1 /\
   mo_sec_daemon_epoch m1 = mo_sec_daemon_epoch m).
Proof.
  intros Hz%Z.eqb_neq.
  assert (G : forall m, tok <> mo_sec_daemon_epoch m \/ mo_tokens_invalidated m = true ->
    monitor_get tok m = (stale_result (mo_sec_daemon_epoch m), m)).
  { intros m0 Hm. unfold monitor_get. rewrite Hz. simpl.
    destruct Hm as [Hm%Z.eqb_neq| ->]; [by rewrite Hm|by rewrite orb_true_r]. }
  split; [apply G|]. cbv zeta. split_and!.
  - apply G. right. unfold monitor_stop. by repeat case_match.
  - unfold monitor_stop. by repeat case_match.
  - unfold monitor_tick. assert (mo_running (monitor_stop m) = false) as ->; [|done].
    unfold monitor_stop. by repeat case_match.
  - unfold monitor_stop. by repeat case_match.
Qed.

(** The number an answer carries can lag. The first answer of a monitor
    triggers event [n + 1] but is itself numbered [n], and so is every answer
    until the next refresh; the dev/test source numbers its answers correctly. *)
Theorem get_sequence_lags m r m' f wall :
  mo_cached m = None -> mo_last_published m = None -> monitor_get 0 m = (r, m') ->
  (tr_sec_time_event_sequence r = mo_sec_time_event_sequence m /\
   mo_sec_time_event_sequence m' = wrapu 64 (mo_sec_time_event_sequence m + 1) /\
   exists p, mo_last_published m' = Some p /\
     tr_sec_time_event_sequence p = mo_sec_time_event_sequence m') /\
  tr_sec_time_event_sequence (fake_get 0 wall f).1 =
    fs_sec_time_event_sequence (fake_get 0 wall f).2.
Proof.
  intros Hc Hp Hg. split; [|done]. unfold monitor_get in Hg. simpl in Hg. rewrite Hc in Hg.
  destruct (refreshLocked_spec m) as (Hev & _ & c & Ec & _ & Es). rewrite Ec in Hg. simpl in Hg.
  assert (Hm' : mo_sec_time_event_sequence m' = mo_sec_time_event_sequence (refreshLocked m) /\
    mo_last_published m' = mo_last_published (refreshLocked m) /\
    tr_sec_time_event_sequence r = tr_sec_time_event_sequence c).
  { destruct (is_trusted _); [|by injection Hg as <- <-].
    destruct (nowBootMs _) as [now m1] eqn:En. apply nowBootMs_spec in En as (t & -> & _).
    injection Hg as <- <-. unfold deduct_elapsed. cbv zeta. by destruct (_ <=? 0). }
  destruct Hm' as (-> & -> & ->). split; [done|].
  destruct Hev as [(_ & Hl & _)|(p & Hn & Hl & Hs & _)].
  - by destruct (refreshLocked_first m Hp); rewrite Hl, Hp.
  - split; [done|]. eexists. split; [exact Hl|]. done.
Qed.
End MonitorProperties.

(* --------------------------------------------------------------------- *)
(** ** Witnesses                                                          *)
(* --------------------------------------------------------------------- *)

Module TimeWitness.
Import TimeSample.

(** Two queries of the sample provider in a row. *)
Definition ans1 : TrustedTimeResult := (composite_query tstate0).1.
Definition after1 : TimeState tworld := (composite_query tstate0).2.
Definition ans2 : TrustedTimeResult := (composite_query after1).1.
Definition after2 : TimeState tworld := (composite_query after1).2.

Lemma query1 : composite_query tstate0 = (ans1, after1).
Proof. apply surjective_pairing. Qed.
Lemma query2 : composite_query after1 = (ans2, after2).
Proof. apply surjective_pairing. Qed.
Lemma trusted1 : ts_trust_state (tr_sample ans1) = Trusted.
Proof. by vm_compute. Qed.
Lemma trusted2 : ts_trust_state (tr_sample ans2) = Trusted.
Proof. by vm_compute. Qed.

(** The sample monitor, before and after its first pass. *)
Definition monitor1 : Monitor tworld := monitor_tick monitor0.
Definition monitor_ans : TrustedTimeResult := (monitor_get 0 monitor1).1.
Definition monitor2 : Monitor tworld := (monitor_get 0 monitor1).2.
Definition cached1 : TrustedTimeResult := default TrustedTimeResult_default (mo_cached monitor1).

Lemma monitor1_reached : rtc monitor_step (monitor_new tstate0 41) monitor1.
Proof.
  unfold monitor1, monitor0.
  eapply rtc_l; [apply mstep_start|]. eapply rtc_l; [apply mstep_tick|]. apply rtc_refl.
Qed.
Lemma monitor_got : monitor_get 0 monitor1 = (monitor_ans, monitor2).
Proof. apply surjective_pairing. Qed.
Lemma monitor_trusted : ts_trust_state (tr_sample monitor_ans) = Trusted.
Proof. by vm_compute. Qed.
Lemma cached1_eq : mo_cached monitor1 = Some cached1.
Proof. by vm_compute. Qed.

(** The same monitor a second later, its lease of at most a second run out; the
    refresh interval is longer than that here. *)
Definition slow_cfg : TrustedTimeConfig :=
  mkTimeConfig true 300000 2000 true true 2000 "" 500 60000 1000 1000 ["1"] [] true true.
Definition monitor_late : Monitor tworld :=
  let m := monitor_tick (monitor_start (monitor_new
    (mkTime slow_cfg true true true 0 false None None (mkTw 60000 10 true
      (mkQuery qkOk snap_ok 20))) 41)) in
  mo_with_time (tm_with_env (mkTw 62000 10 true (mkQuery qkOk snap_ok 20)) (mo_time m)) m.
Definition cached_late : TrustedTimeResult :=
  default TrustedTimeResult_default (mo_cached monitor_late).
Lemma monitor_late_facts :
  mo_running monitor_late = true /\ mo_cached monitor_late = Some cached_late /\
  ts_trust_state (tr_sample cached_late) = Trusted /\
  tr_remaining_validity_ms cached_late
    <= (nowBootMs monitor_late).1 - mo_last_refresh_boot_ms monitor_late.
Proof. vm_compute. by repeat split. Qed.

Definition first_ans : TrustedTimeResult := (monitor_get 0 monitor0).1.
Definition first_monitor : Monitor tworld := (monitor_get 0 monitor0).2.
Lemma first_got : monitor_get 0 monitor0 = (first_ans, first_monitor).
Proof. apply surjective_pairing. Qed.
Definition fake0 : FakeSnapshotSource := fake_start 7 1000 (fake_source_new None 900).
End TimeWitness.
Import TimeWitness TimeSample.

Lemma trusted_time_sound_witness :
  0 < tr_remaining_validity_ms ans1 <= tc_lease_max (tm_cfg tstate0) /\
  tf_state (asked_fact tstate0) = Synced /\ fact_approved (tm_cfg tstate0) (asked_fact tstate0).
Proof.
  destruct (trusted_time_sound tstate0 ans1 after1 query1 trusted1)
    as (Hl & _ & [(_ & _ & Hp & _ & Ha & _)|(_ & _ & H)]); [|destruct H as [_ H]; vm_compute in H; discriminate H].
  exact (conj Hl (conj (pt_synced _ _ _ _ _ Hp) Ha)).
Defined.

Lemma no_trusted_rollback_witness :
  ts_utc_now (tr_sample ans1) - tp_of_ms (tc_rollback_tolerance (tm_cfg tstate0)) - ns_per_ms
    < ts_utc_now (tr_sample ans2).
Proof.
  exact (no_trusted_rollback tstate0 ans1 after1 after1 ans2 after2 query1 trusted1
    (rtc_refl _ _) query2 trusted2).
Defined.

Lemma trust_needs_time_service_witness : tm_platform tstate0 = true /\ tm_client tstate0 = true.
Proof.
  destruct (trust_needs_time_service (Env := tworld_env) tstate0 ans1 after1 (fun e => eq_refl) query1 trusted1)
    as (_ & H1 & H2 & _). exact (conj H1 H2).
Defined.

Lemma to_envelope_faithful_witness :
  ts_reason (tr_sample ans1) = ts_reason (tr_sample (with_contract_complete true ans1)).
Proof.
  apply (to_envelope_faithful ans1 (with_contract_complete true ans1)). by vm_compute.
Defined.

Lemma monitor_get_lease_witness :
  mo_cached monitor1 = Some cached1 /\
  tr_remaining_validity_ms monitor_ans =
    tr_remaining_validity_ms cached1
      - Z.max 0 ((nowBootMs monitor1).1 - mo_last_refresh_boot_ms monitor1).
Proof.
  split; [exact cached1_eq|].
  destruct (monitor_get_lease tstate0 41 monitor1 0 monitor_ans monitor2 monitor1_reached
    monitor_got monitor_trusted) as [_ Hc].
  exact (proj2 (proj2 (Hc cached1 cached1_eq))).
Defined.

Lemma monitor_events_witness :
  mo_sec_time_event_sequence monitor1 = 1 /\ at_most_one_event monitor0 monitor1.
Proof.
  split; [by vm_compute|]. exact (monitor_events monitor0 monitor1 (mstep_tick monitor0)).
Defined.

Lemma expired_lease_is_revoked_witness :
  (exists m1, monitor_tick monitor_late = refreshLocked m1) \/
  exists c', mo_cached (monitor_tick monitor_late) = Some c' /\
    ts_trust_state (tr_sample c') = Untrusted /\ ts_reason (tr_sample c') = TimeExpired /\
    tr_remaining_validity_ms c' = 0.
Proof.
  destruct monitor_late_facts as (H1 & H2 & H3 & H4).
  exact (expired_lease_is_revoked monitor_late cached_late H1 H2 H3 H4).
Defined.

Lemma stale_token_refused_witness :
  (monitor_get 42 monitor0).1 <> stale_result 42 /\
  monitor_get 42 (monitor_stop monitor0) = (stale_result 42, monitor_stop monitor0).
Proof.
  split; [by vm_compute|].
  exact (proj1 (proj2 (stale_token_refused monitor0 42 ltac:(done)))).
Defined.

Lemma get_sequence_lags_witness :
  tr_sec_time_event_sequence first_ans = 0 /\ mo_sec_time_event_sequence first_monitor = 1.
Proof.
  destruct (get_sequence_lags monitor0 first_ans first_monitor fake0 1000 eq_refl eq_refl first_got)
    as [(H1 & H2 & _) _]. exact (conj H1 H2).
Defined.
