(* ===== verification/Provisioning.v ===== *)
(** * BusinessKeyProvisioningService: state, gates and validation.
    Models [src/business_key_provisioning.cpp] up to the import pipeline. Every
    public function holds the service lock for its whole body, so each is one
    step on the state. The provider is the interface of [Provider], the ledger
    that of [Ledger]; logging is left out. *)
From S2P Require Import Prelude Errors Canonical KeyTypes Envelope Json Provider Ledger TimeTypes TrustedTime.

(* --------------------------------------------------------------------- *)
(** ** What the service is wired to                                       *)
(* --------------------------------------------------------------------- *)

(** The trusted time source and the callback that reports the device identity. *)
Class ServiceEnv (E : Type) := {
  se_now : st E TrustedTimeSample;
  se_binding : st E BusinessKeyDeviceBinding
}.

(** The composite provider, next to an identity callback with its own state. *)
Definition composite_service_env {T B} `{TimeEnv T} (probe : st B BusinessKeyDeviceBinding) :
  ServiceEnv (TimeState T * B) := {|
  se_now w := let '(smp, t) := composite_now w.1 in (smp, (t, w.2));
  se_binding w := let '(b, e) := probe w.2 in (b, (w.1, e))
|}.

(** [src/include/business_key_provisioning.h:31-43] BusinessKeyProvisioningConfig *)
Record BusinessKeyProvisioningConfig := mkProvisioningConfig {
  pg_enabled : bool;
  pg_is_production : bool;
  pg_allowed_domains : list string;
  pg_required_purposes : list string;
  pg_allowed_envelope_formats : list string;
  pg_allowed_wrapping_suites : list string;
  pg_allowed_algorithms : list string;
  pg_max_items : Z;
  pg_max_wrapped_key_bytes : Z;
  pg_max_parameters_bytes : Z;
  pg_request_timeout_ms : Z
}.

(** Which of the optional collaborators the constructor was given. *)
Record Wiring := mkWiring {
  wi_provider : bool;
  wi_trusted_time : bool;
  wi_ledger : bool;
  wi_binding_provider : bool
}.

(** [src/src/business_key_provisioning.cpp:88-119] KeyprovEpochSource *)
Record KeyprovEpochSource := mkEpoch {
  eps_boot_nonce : Z;
  eps_generation : Z;
  eps_governance : bool
}.

(** What [initialize] decides. *)
Record Readiness := mkReadiness {
  rd_provider_ready : bool;
  rd_import_ready : bool;
  rd_cap : V2cKeyProvisioningCapability;
  rd_epoch_src : KeyprovEpochSource;
  rd_storage_ready : bool;
  rd_governance_required : bool
}.

(** [src/src/business_key_provisioning.cpp:127-143] BusinessKeyProvisioningService::Impl *)
Record Service (P D E : Type) := mkService {
  sv_cfg : BusinessKeyProvisioningConfig;
  sv_wired : Wiring;
  sv_provider : P;
  sv_ledger : LedgerState D;
  sv_env : E;
  sv_ready : Readiness;
  sv_shutting_down : bool
}.
Arguments mkService {P D E}.
Arguments sv_cfg {P D E}. Arguments sv_wired {P D E}. Arguments sv_provider {P D E}.
Arguments sv_ledger {P D E}. Arguments sv_env {P D E}. Arguments sv_ready {P D E}.
Arguments sv_shutting_down {P D E}.

Section Setters.
Context {P D E : Type}.
Implicit Types s : Service P D E.

Definition sv_with_provider (p : P) s : Service P D E :=
  mkService (sv_cfg s) (sv_wired s) p (sv_ledger s) (sv_env s) (sv_ready s) (sv_shutting_down s).
Definition sv_with_ledger (l : LedgerState D) s : Service P D E :=
  mkService (sv_cfg s) (sv_wired s) (sv_provider s) l (sv_env s) (sv_ready s) (sv_shutting_down s).
Definition sv_with_env (e : E) s : Service P D E :=
  mkService (sv_cfg s) (sv_wired s) (sv_provider s) (sv_ledger s) e (sv_ready s) (sv_shutting_down s).
Definition sv_with_ready (r : Readiness) s : Service P D E :=
  mkService (sv_cfg s) (sv_wired s) (sv_provider s) (sv_ledger s) (sv_env s) r (sv_shutting_down s).

(** Run an operation of a collaborator. *)
Definition on_provider {A} (m : st P A) : st (Service P D E) A :=
  fun s => let '(a, p) := m (sv_provider s) in (a, sv_with_provider p s).
Definition on_ledger {A} (m : st (LedgerState D) A) : st (Service P D E) A :=
  fun s => let '(a, l) := m (sv_ledger s) in (a, sv_with_ledger l s).
Definition on_service_env {A} (m : st E A) : st (Service P D E) A :=
  fun s => let '(a, e) := m (sv_env s) in (a, sv_with_env e s).
End Setters.

(** [l] unless it is empty, then [d]. *)
Definition if_empty (d l : list string) : list string := match l with [] => d | _ => l end.

(** [src/src/business_key_provisioning.cpp:808-818] BusinessKeyProvisioningService defaults *)
Definition config_defaults (c : BusinessKeyProvisioningConfig) : BusinessKeyProvisioningConfig :=
  mkProvisioningConfig (pg_enabled c) (pg_is_production c)
    (if_empty [kBusinessDomainV2c] (pg_allowed_domains c))
    (if_empty [kBusinessPurposeUplinkAead; kBusinessPurposeDownlinkAead] (pg_required_purposes c))
    (if_empty [kKeyEnvelopeFormatEcdhEsP256V1] (pg_allowed_envelope_formats c))
    (if_empty [kWrappingSuiteEcdhEsP256] (pg_allowed_wrapping_suites c))
    (if_empty [kDefaultKeyAlgorithm] (pg_allowed_algorithms c))
    (pg_max_items c) (pg_max_wrapped_key_bytes c) (pg_max_parameters_bytes c)
    (pg_request_timeout_ms c).

(** [nonce] is what the constructor of the epoch source drew. *)
(** [src/src/business_key_provisioning.cpp:797-819] BusinessKeyProvisioningService *)
Definition service_new {P D E} (cfg : BusinessKeyProvisioningConfig) (wired : Wiring) (p : P)
    (l : LedgerState D) (e : E) (nonce : Z) : Service P D E :=
  mkService (config_defaults cfg) wired p l e
    (mkReadiness false false V2cKeyProvisioningCapability_default (mkEpoch nonce 1 false) false false)
    false.

(* --------------------------------------------------------------------- *)
(** ** Results                                                            *)
(* --------------------------------------------------------------------- *)

(** [out.state = st] and [out.items = l]. *)
Definition res_state (b : BusinessKeyImportState) (o : ImportResult) : ImportResult :=
  mkResult (ir_request_id o) (ir_business_domain o) b (ir_items o) (ir_committed_at_ms o)
    (ir_provider_version_digest o) (ir_import_proof o) (ir_proof_algorithm o)
    (ir_binding_certificate_digest o).
Definition res_items (l : list BusinessKeyStatus) (o : ImportResult) : ImportResult :=
  mkResult (ir_request_id o) (ir_business_domain o) (ir_state o) l (ir_committed_at_ms o)
    (ir_provider_version_digest o) (ir_import_proof o) (ir_proof_algorithm o)
    (ir_binding_certificate_digest o).
(** [out = ImportResult{}; out.request_id = r; out.business_domain = d]. *)
Definition res_for (r d : string) : ImportResult := mkResult r d BIS_UNKNOWN [] 0 "" [] "" [].

(** [src/src/business_key_provisioning.cpp:36-57] import_state_from_phase *)
Definition import_state_from_phase (p : BusinessKeyImportPhase) : BusinessKeyImportState :=
  match p with
  | BIP_NEW | BIP_VALIDATED | BIP_PROCESSING => BIS_REQUESTED
  | BIP_UPLINK_STAGED | BIP_BOTH_STAGED | BIP_COMMITTING => BIS_STAGED
  | BIP_SUCCEEDED => BIS_COMMITTED
  | BIP_ROLLING_BACK | BIP_FAILED => BIS_FAILED
  | BIP_OUTCOME_UNKNOWN | BIP_RECOVERING | BIP_UNKNOWN => BIS_UNKNOWN
  end.

(** [src/src/business_key_provisioning.cpp:60-63] is_outcome_unknown *)
Definition is_outcome_unknown (rc : ErrorCode) : bool :=
  match rc with INTERNAL_ERROR | STORAGE_WRITE_FAILED | NOT_INITIALIZED => true | _ => false end.

(** [src/src/business_key_provisioning.cpp:433-446] build_committed_result *)
Definition build_committed_result (entry : BusinessKeyJournalEntry) (out : ImportResult) :
    ImportResult :=
  mkResult (ir_request_id out) kBusinessDomainV2c BIS_COMMITTED (je_items entry)
    (je_committed_at_ms entry) (je_provider_version_digest entry)
    (if bytes_empty (je_import_proof entry) then ir_import_proof out else je_import_proof entry)
    (je_proof_algorithm entry) (je_binding_certificate_digest entry).

(* --------------------------------------------------------------------- *)
(** ** Structure of a request                                             *)
(* --------------------------------------------------------------------- *)

(** The loop body, in the order of its checks; the accumulators are the two sets. *)
(** [src/src/business_key_provisioning.cpp:276-307] validate_structure loop *)
Fixpoint check_items (cfg : BusinessKeyProvisioningConfig) (seen_purposes seen_key_ids : list string)
    (items : list WrappedKeyItem) : res (list string) :=
  match items with
  | [] => Ok seen_purposes
  | item :: items =>
    fail_if negb (contains (pg_required_purposes cfg) (it_purpose item)) with BUSINESS_KEY_UNSUPPORTED ;;
    fail_if contains seen_purposes (it_purpose item) with BUSINESS_KEY_UNSUPPORTED ;;
    fail_if str_empty (it_key_id item) with WRAPPED_KEY_INVALID ;;
    fail_if contains seen_key_ids (it_key_id item) with WRAPPED_KEY_INVALID ;;
    fail_if negb (contains (pg_allowed_algorithms cfg) (it_algorithm item)) with BUSINESS_KEY_UNSUPPORTED ;;
    fail_if negb (contains (pg_allowed_wrapping_suites cfg) (it_wrapping_suite item))
      with BUSINESS_KEY_UNSUPPORTED ;;
    fail_if negb (bool_decide (it_envelope_format item = KEF_ECDH_ES_P256_V1)) ||
            negb (contains (pg_allowed_envelope_formats cfg)
                    (key_envelope_format_to_string (it_envelope_format item)))
      with BUSINESS_KEY_UNSUPPORTED ;;
    fail_if (it_business_key_version item =? 0) || (it_business_key_version item >? 2 ^ 63 - 1)
      with WRAPPED_KEY_INVALID ;;
    fail_if (it_valid_from_ms item <=? 0) || (it_valid_to_ms item <=? it_valid_from_ms item)
      with WRAPPED_KEY_INVALID ;;
    fail_if bytes_empty (it_wrapped_key item) with WRAPPED_KEY_INVALID ;;
    fail_if zlen (it_wrapped_key item) >? pg_max_wrapped_key_bytes cfg with WRAPPED_KEY_INVALID ;;
    fail_if bytes_empty (it_parameters item) with WRAPPED_KEY_INVALID ;;
    fail_if zlen (it_parameters item) >? pg_max_parameters_bytes cfg with WRAPPED_KEY_INVALID ;;
    fail_if negb (zlen (it_envelope_digest item) =? 32) with WRAPPED_KEY_INVALID ;;
    fail_if negb (it_key_check_value_present item) with WRAPPED_KEY_INVALID ;;
    check_items cfg (it_purpose item :: seen_purposes) (it_key_id item :: seen_key_ids) items
  end.

(** [src/src/business_key_provisioning.cpp:266-313] validate_structure *)
Definition validate_structure (cfg : BusinessKeyProvisioningConfig) (request_id domain : string)
    (items : list WrappedKeyItem) : ErrorCode :=
  code_of
   (fail_if str_empty request_id with INVALID_PARAMETER ;;
    fail_if str_size request_id >? 128 with INVALID_PARAMETER ;;
    fail_if negb (contains (pg_allowed_domains cfg) domain) with BUSINESS_KEY_UNSUPPORTED ;;
    fail_if negb (zlen items =? pg_max_items cfg) with BUSINESS_KEY_UNSUPPORTED ;;
    fail_if negb (zlen items =? zlen (pg_required_purposes cfg)) with BUSINESS_KEY_UNSUPPORTED ;;
    match check_items cfg [] [] items with
    | Err rc => Err rc
    | Ok seen =>
        fail_if negb (forallb (contains seen) (pg_required_purposes cfg)) with BUSINESS_KEY_UNSUPPORTED ;;
        Ok tt
    end).

(* --------------------------------------------------------------------- *)
(** ** Identity, time, capability                                         *)
(* --------------------------------------------------------------------- *)

(** [src/src/business_key_provisioning.cpp:177-187] binding_agreement_ok *)
Definition binding_agreement_ok (b : BusinessKeyDeviceBinding) : bool :=
  db_ready b && negb (str_empty (db_device_key_id b)) && db_active_cert_p256 b &&
  db_active_cert_key_agreement b && db_active_cert_digital_signature b &&
  db_private_key_can_derive b && db_private_key_can_sign b &&
  negb (bytes_empty (db_active_cert_digest b)) &&
  db_active_cert_ca_false b && db_active_cert_eku_client_auth_only b &&
  db_active_cert_critical_extensions_allowed b && db_active_cert_leaf_digest_bound b &&
  db_active_cert_chain_key_match b && db_identity_template_sign_derive b.

(** The envelope context of one item, from the request and the device identity. *)
(** [src/src/business_key_provisioning.cpp:953-970] import ctx *)
Definition envelope_context (request_id business_domain purpose : string)
    (b : BusinessKeyDeviceBinding) : EnvelopeContext :=
  mkEnvContext request_id business_domain purpose (db_active_cert_digest b)
    (db_active_cert_p256 b) (db_active_cert_key_agreement b) (db_active_cert_digital_signature b)
    (db_private_key_can_derive b) (db_private_key_can_sign b) (db_active_cert_ca_false b)
    (db_active_cert_eku_client_auth_only b) (db_active_cert_critical_extensions_allowed b)
    (db_active_cert_leaf_digest_bound b) (db_active_cert_chain_key_match b)
    (db_identity_template_sign_derive b).

(** [src/src/business_key_provisioning.cpp:971-973] import limits *)
Definition envelope_limits (cfg : BusinessKeyProvisioningConfig) : EnvelopeLimits :=
  mkLimits (lim_max_canonical_aad EnvelopeLimits_default) (wrapu 64 (pg_max_parameters_bytes cfg))
    (wrapu 64 (pg_max_wrapped_key_bytes cfg)).

Section Gates.
Context {P D E : Type} `{Prov : BusinessKeyProvider P} `{Store : LedgerStore D} `{J : Json}
  `{SEnv : ServiceEnv E} `{Hash : Sha256} `{PB : Protobuf} `{EC : EcP256}.
Implicit Types s : Service P D E.

(** [src/src/business_key_provisioning.cpp:31-33] rid_digest_of *)
Definition rid_digest_of (request_id : string) : string :=
  toHex (sha256 (bytes_of_string request_id)).

(** [src/src/business_key_provisioning.cpp:98-106] KeyprovEpochSource::epoch *)
Definition epoch (k : KeyprovEpochSource) : Z :=
  let buf := appendUint64be (appendUint32be [] (eps_boot_nonce k)) (eps_generation k) in
  fold_left (fun e b => Z.lor (wrapu 64 (Z.shiftl e 8)) (bval b)) (take 8 (sha256 buf)) 0.

(** [src/src/business_key_provisioning.cpp:108-108] KeyprovEpochSource::bumpRecovery *)
Definition bumpRecovery (k : KeyprovEpochSource) : KeyprovEpochSource :=
  mkEpoch (eps_boot_nonce k) (wrapu 64 (eps_generation k + 1)) (eps_governance k).

(** [src/src/business_key_provisioning.cpp:109-112] KeyprovEpochSource::bumpStorageReplacement *)
Definition bumpStorageReplacement (k : KeyprovEpochSource) : KeyprovEpochSource :=
  mkEpoch (eps_boot_nonce k) (wrapu 64 (eps_generation k + 1)) true.

(** [out] is the caller's variable, kept on failure. *)
(** [src/src/business_key_provisioning.cpp:145-152] trusted_now_ms *)
Definition trusted_now_ms (out : Z) : st (Service P D E) (ErrorCode * Z) := fun s =>
  if negb (wi_trusted_time (sv_wired s)) then ((BUSINESS_KEY_NOT_READY, out), s) else
  let '(smp, s) := on_service_env se_now s in
  if negb (is_trusted smp) then ((BUSINESS_KEY_NOT_READY, out), s)
  else ((SUCCESS, ms_of_tp (ts_utc_now smp)), s).

(** The bounds a sample has to meet, and the upper end of the time it allows. *)
(** [src/src/business_key_provisioning.cpp:160-168] kl1_trusted_upper_now bounds *)
Definition kl1_upper_of (smp : TrustedTimeSample) : res Z :=
  fail_if negb (is_trusted smp) with BUSINESS_KEY_NOT_READY ;;
  fail_if ts_uncertainty smp >? 1000 with BUSINESS_KEY_NOT_READY ;;
  fail_if ts_freshness_age smp >? 300000 with BUSINESS_KEY_NOT_READY ;;
  Ok (ms_of_tp (ts_utc_now smp) + ts_uncertainty smp).

(** [src/src/business_key_provisioning.cpp:157-170] kl1_trusted_upper_now *)
Definition kl1_trusted_upper_now : st (Service P D E) (res Z) := fun s =>
  if negb (wi_trusted_time (sv_wired s)) then (Err BUSINESS_KEY_NOT_READY, s) else
  let '(smp, s) := on_service_env se_now s in (kl1_upper_of smp, s).

(** [src/src/business_key_provisioning.cpp:172-175] probe_binding *)
Definition probe_binding : st (Service P D E) BusinessKeyDeviceBinding := fun s =>
  if negb (wi_binding_provider (sv_wired s)) then (BusinessKeyDeviceBinding_default, s)
  else on_service_env se_binding s.

(** [src/src/business_key_provisioning.cpp:192-206] compute_snapshot *)
Definition compute_snapshot s : KeyprovContractSnapshot :=
  let r := sv_ready s in
  let admission := rd_import_ready r && negb (epoch (rd_epoch_src r) =? 0) in
  mkSnapshot kContractVersion 1 (epoch (rd_epoch_src r)) (rd_storage_ready r)
    (cap_atomic_dual_purpose_commit_ready (rd_cap r)) admission
    (if admission then kKeyprovKl1ProfileVersion else 0) "sec-kl1-v1" "sec-client-kl1-v1".

(** [src/src/business_key_provisioning.cpp:208-253] compute_capability *)
Definition compute_capability : st (Service P D E) V2cKeyProvisioningCapability := fun s =>
  let pc := if wi_provider (sv_wired s) then bp_capability (sv_provider s)
            else BusinessKeyProviderCapability_default in
  let '(b, s) := probe_binding s in
  let '((rc, _), s) := trusted_now_ms 0 s in
  ({| cap_contract_version := kContractVersion;
      cap_envelope_v1_import_ready := true;
      cap_atomic_dual_purpose_commit_ready := pc_atomic_dual_slot_commit pc;
      cap_import_proof_sign_ecdsa_p256_v1_ready := pc_ecdsa_p256_sha256_p1363 pc;
      cap_secure_journal_replay_ready := pc_secure_journal_ready pc;
      cap_identity_key_template_sign_derive := db_ready b && db_identity_template_sign_derive b;
      cap_csr_key_usage_request_matched := true;
      cap_certificate_profile_matched :=
        db_ready b && db_active_cert_p256 b && db_active_cert_key_agreement b &&
        db_active_cert_digital_signature b && db_active_cert_ca_false b &&
        db_active_cert_eku_client_auth_only b && db_active_cert_critical_extensions_allowed b;
      cap_certificate_chain_and_key_match := db_ready b && db_active_cert_chain_key_match b;
      cap_certificate_critical_extensions_allowed :=
        db_ready b && db_active_cert_critical_extensions_allowed b;
      cap_leaf_certificate_digest_bound := db_ready b && db_active_cert_leaf_digest_bound b;
      cap_proto_release_matched := true;
      cap_envelope_format_v1 := true;
      cap_p256_ecdh := pc_p256_ecdh pc;
      cap_hkdf_sha256 := pc_hkdf_sha256 pc;
      cap_aes256_gcm_decrypt_to_slot := pc_aes256_gcm_decrypt_to_slot pc;
      cap_atomic_dual_slot_commit := pc_atomic_dual_slot_commit pc;
      cap_active_certificate_key_agreement :=
        db_ready b && db_active_cert_p256 b && db_active_cert_key_agreement b;
      cap_active_certificate_digital_signature :=
        db_ready b && db_active_cert_p256 b && db_active_cert_digital_signature b;
      cap_active_private_key_can_derive := db_ready b && db_private_key_can_derive b;
      cap_active_private_key_can_sign := db_ready b && db_private_key_can_sign b;
      cap_ecdsa_p256_sha256_p1363 := pc_ecdsa_p256_sha256_p1363 pc;
      cap_secure_journal_ready := pc_secure_journal_ready pc;
      cap_trusted_time_ready := is_success rc;
      cap_business_key_import_result_not_found_v1 := true |}, s).

(* --------------------------------------------------------------------- *)
(** ** Versions, validity, request digest                                 *)
(* --------------------------------------------------------------------- *)

(** [src/src/business_key_provisioning.cpp:255-264] next_generation *)
Definition next_generation s : Z :=
  wrapu 64 (fold_left (fun max_gen p =>
    let '(rc, slot) := bp_querySlot kBusinessDomainV2c p (sv_provider s) in
    if is_success rc then Z.max max_gen (si_active_generation slot) else max_gen)
    (pg_required_purposes (sv_cfg s)) 0 + 1).

(** [src/src/business_key_provisioning.cpp:320-330] validate_version_and_time loop *)
Fixpoint check_version_and_time (p : P) (domain : string) (now : Z) (items : list WrappedKeyItem) :
    ErrorCode :=
  match items with
  | [] => SUCCESS
  | item :: items =>
      let '(rc, slot) := bp_querySlot domain (it_purpose item) p in
      if is_success rc && si_present slot &&
         (it_business_key_version item <=? si_business_key_version slot)
      then BUSINESS_KEY_CONFLICT else
      if (now <? it_valid_from_ms item) || (now >? it_valid_to_ms item) then WRAPPED_KEY_INVALID
      else check_version_and_time p domain now items
  end.

(** [src/src/business_key_provisioning.cpp:315-331] validate_version_and_time *)
Definition validate_version_and_time (domain : string) (items : list WrappedKeyItem) :
    st (Service P D E) ErrorCode := fun s =>
  let '((rc, now), s) := trusted_now_ms 0 s in
  if negb (is_success rc) then (rc, s)
  else (check_version_and_time (sv_provider s) domain now items, s).

(** Rows by purpose, as [std::sort] orders them. *)
Definition row_le (a b : WrappedKeyItem * ValidatedEnvelope) : Prop :=
  String.le (it_purpose a.1) (it_purpose b.1).
#[global] Instance row_le_dec : RelDecision row_le.
Proof. intros a b. unfold row_le. apply _. Defined.

(** [src/src/business_key_provisioning.cpp:352-379] build_request_digest row *)
Definition digest_row (buf : bytes) (r : WrappedKeyItem * ValidatedEnvelope) : bytes :=
  let '(it, v) := r in
  let buf := appendString buf (it_purpose it) in
  let buf := appendString buf (it_key_id it) in
  let buf := appendUint64be buf (it_business_key_version it) in
  let buf := appendString buf (it_algorithm it) in
  let buf := appendEnumVarint buf (default 0 (wrappingSuiteEnumValue (it_wrapping_suite it))) in
  let buf := appendEnumVarint buf (key_envelope_format_value (it_envelope_format it)) in
  let buf := appendBytes buf (sha256 (it_wrapped_key it)) in
  let buf := appendBytes buf (sha256 (it_parameters it)) in
  let buf := appendBytes buf (ve_envelope_digest v) in
  let buf := appendBytes buf (kcv_bytes (it_key_check_value it)) in
  let buf := appendBytes buf (ep_recipient_certificate_digest (ve_params v)) in
  let buf := appendUint64be buf (ep_root_key_version (ve_params v)) in
  let buf := appendString buf (ep_derivation_version (ve_params v)) in
  appendString buf (ep_operation_id (ve_params v)).

(** [src/src/business_key_provisioning.cpp:334-381] build_request_digest *)
Definition build_request_digest (request_id domain : string) (items : list WrappedKeyItem)
    (validated : list ValidatedEnvelope) s : string :=
  let rows := merge_sort row_le (zip items validated) in
  let buf := appendString [] "openiov|keyprov-req|v1" in
  let buf := appendString buf request_id in
  let buf := appendString buf domain in
  let buf := appendString buf (bp_providerVersionDigest (sv_provider s)) in
  toHex (sha256 (fold_left digest_row rows buf)).

(** All envelopes before any cryptographic operation. *)
(** [src/src/business_key_provisioning.cpp:951-980] import envelopes *)
Fixpoint validate_envelopes (cfg : BusinessKeyProvisioningConfig) (request_id domain : string)
    (b : BusinessKeyDeviceBinding) (items : list WrappedKeyItem) : res (list ValidatedEnvelope) :=
  match items with
  | [] => Ok []
  | item :: items =>
      match validateEnvelope item (envelope_context request_id domain (it_purpose item) b)
              (envelope_limits cfg) with
      | Err rc => Err rc
      | Ok v =>
          match validate_envelopes cfg request_id domain b items with
          | Err rc => Err rc
          | Ok vs => Ok (v :: vs)
          end
      end
  end.
End Gates.
