(* ===== verification/Import.v ===== *)
(** * BusinessKeyProvisioningService: pipeline, recovery and public operations.
    Models the rest of [src/business_key_provisioning.cpp]: [run_pipeline],
    recovery, the two imports, the queries, [initialize]. *)
From S2P Require Import Prelude Errors Canonical KeyTypes Envelope Json Provider Ledger TimeTypes TrustedTime Provisioning.

(** Field assignments on a status. *)
Definition status_state (b : BusinessKeyState) (t : BusinessKeyStatus) : BusinessKeyStatus :=
  mkStatus (bs_business_domain t) (bs_purpose t) (bs_business_key_version t) b (bs_key_id_digest t)
    (bs_algorithm t) (bs_valid_from_ms t) (bs_valid_to_ms t) (bs_envelope_format t)
    (bs_envelope_digest t) (bs_key_check_value t) (bs_key_check_value_present t)
    (bs_import_proof t) (bs_proof_algorithm t) (bs_key_id t) (bs_recipient_certificate_digest t).
Definition status_proof (proof : bytes) (alg : string) (t : BusinessKeyStatus) : BusinessKeyStatus :=
  mkStatus (bs_business_domain t) (bs_purpose t) (bs_business_key_version t) (bs_state t)
    (bs_key_id_digest t) (bs_algorithm t) (bs_valid_from_ms t) (bs_valid_to_ms t)
    (bs_envelope_format t) (bs_envelope_digest t) (bs_key_check_value t)
    (bs_key_check_value_present t) proof alg (bs_key_id t) (bs_recipient_certificate_digest t).
(** [state = ACTIVE], the computed check value, the certificate digest. *)
Definition status_committed (kcv : kcv3) (cert : bytes) (t : BusinessKeyStatus) : BusinessKeyStatus :=
  mkStatus (bs_business_domain t) (bs_purpose t) (bs_business_key_version t) BKS_ACTIVE
    (bs_key_id_digest t) (bs_algorithm t) (bs_valid_from_ms t) (bs_valid_to_ms t)
    (bs_envelope_format t) (bs_envelope_digest t) kcv true
    (bs_import_proof t) (bs_proof_algorithm t) (bs_key_id t) cert.
(** The binding fields of [src] in [t]. *)
Definition status_ack (src t : BusinessKeyStatus) : BusinessKeyStatus :=
  mkStatus (bs_business_domain t) (bs_purpose t) (bs_business_key_version t) (bs_state t)
    (bs_key_id_digest t) (bs_algorithm t) (bs_valid_from_ms t) (bs_valid_to_ms t)
    (bs_envelope_format src) (bs_envelope_digest src) (bs_key_check_value src)
    (bs_key_check_value_present src) (bs_import_proof t) (bs_proof_algorithm t) (bs_key_id t)
    (bs_recipient_certificate_digest t).

(** Field assignments on a journal entry. *)
Definition entry_items (l : list BusinessKeyStatus) (e : BusinessKeyJournalEntry) :
    BusinessKeyJournalEntry :=
  mkEntry (je_request_id_digest e) (je_request_digest e) (je_phase e) (je_generation e) l
    (je_created_at_ms e) (je_committed_at_ms e) (je_provider_version_digest e) (je_last_error e)
    (je_import_proof e) (je_proof_algorithm e) (je_binding_certificate_digest e).
(** [phase = SUCCEEDED; committed_at_ms = t; provider_version_digest = v]. *)
Definition entry_succeeded (t : Z) (v : string) (e : BusinessKeyJournalEntry) :
    BusinessKeyJournalEntry :=
  mkEntry (je_request_id_digest e) (je_request_digest e) BIP_SUCCEEDED (je_generation e) (je_items e)
    (je_created_at_ms e) t v (je_last_error e) (je_import_proof e) (je_proof_algorithm e)
    (je_binding_certificate_digest e).
(** [proof_algorithm = a; binding_certificate_digest = c]. *)
Definition entry_bound (a : string) (c : bytes) (e : BusinessKeyJournalEntry) :
    BusinessKeyJournalEntry :=
  mkEntry (je_request_id_digest e) (je_request_digest e) (je_phase e) (je_generation e) (je_items e)
    (je_created_at_ms e) (je_committed_at_ms e) (je_provider_version_digest e) (je_last_error e)
    (je_import_proof e) a c.

Section Operations.
Context {P D E : Type} `{Prov : BusinessKeyProvider P} `{Store : LedgerStore D} `{J : Json}
  `{SEnv : ServiceEnv E} `{Hash : Sha256} `{PB : Protobuf} `{EC : EcP256}.
Implicit Types s : Service P D E.

(** [provider->saveJournal(entry)] with its result ignored. *)
Definition save_journal (entry : BusinessKeyJournalEntry) s : Service P D E :=
  (on_provider (bp_saveJournal entry) s).2.
(** [provider->rollbackStaging(domain, generation)] with its result ignored. *)
Definition rollback (domain : string) (generation : Z) s : Service P D E :=
  (on_provider (bp_rollbackStaging domain generation) s).2.

(* --------------------------------------------------------------------- *)
(** ** Status                                                             *)
(* --------------------------------------------------------------------- *)

(** The first matching item of a succeeded entry. *)
(** [src/src/business_key_provisioning.cpp:385-397] enrich_ack_fields search *)
Definition ack_source (purpose : string) (version : Z) (l : list BusinessKeyJournalEntry) :
    option BusinessKeyStatus :=
  find (fun it => String.eqb (bs_purpose it) purpose && (bs_business_key_version it =? version))
    (concat ((fun e => if bool_decide (je_phase e = BIP_SUCCEEDED) then je_items e else []) <$> l)).

(** [src/src/business_key_provisioning.cpp:384-398] enrich_ack_fields *)
Definition enrich_ack_fields (purpose : string) (out : BusinessKeyStatus) s : BusinessKeyStatus :=
  match ack_source purpose (bs_business_key_version out) (bp_listJournal (sv_provider s)) with
  | Some it => status_ack it out
  | None => out
  end.

(** [src/src/business_key_provisioning.cpp:400-431] fill_status *)
Definition fill_status (domain purpose : string) s : ErrorCode * BusinessKeyStatus :=
  let '(rc, slot) := bp_querySlot domain purpose (sv_provider s) in
  let out b version kd alg vf vt :=
    mkStatus domain purpose version b kd alg vf vt KEF_UNSPECIFIED [] kcv_zero false [] "" "" [] in
  if negb (is_success rc) then (rc, out BKS_UNKNOWN 0 "" "" 0 0) else
  let meta := if wi_ledger (sv_wired s) then ledger_get domain purpose (sv_ledger s) else None in
  match meta with
  | None => 
      if negb (si_present slot) then (SUCCESS, out BKS_MISSING 0 "" "" 0 0)
      else (SUCCESS, out BKS_INVALID (si_business_key_version slot) (si_key_id_digest slot)
                       (si_algorithm slot) 0 0)
  | Some meta =>
      if si_present slot && bool_decide (si_state slot = BKS_ACTIVE) &&
         (bm_business_key_version meta =? si_business_key_version slot) &&
         String.eqb (bm_key_id_digest meta) (si_key_id_digest slot) &&
         String.eqb (bm_algorithm meta) (si_algorithm slot)
      then (SUCCESS, enrich_ack_fields purpose
              (out BKS_ACTIVE (si_business_key_version slot) (si_key_id_digest slot)
                 (si_algorithm slot) (si_valid_from_ms slot) (si_valid_to_ms slot)) s)
      else (SUCCESS, out BKS_INVALID
              (if si_present slot then si_business_key_version slot else 0) (si_key_id_digest slot)
              (si_algorithm slot) 0 0)
  end.

(* --------------------------------------------------------------------- *)
(** ** Ledger and recovery                                                *)
(* --------------------------------------------------------------------- *)

(** [src/src/business_key_provisioning.cpp:452-464] update_ledger meta *)
Definition meta_of_item (domain : string) (entry : BusinessKeyJournalEntry) (generation : Z)
    (it : BusinessKeyStatus) : BusinessKeyMetadata :=
  mkMeta true domain (bs_purpose it) (bs_key_id_digest it) (bs_business_key_version it)
    (bs_algorithm it) (bs_valid_from_ms it) (bs_valid_to_ms it) generation
    (je_request_id_digest entry) (je_created_at_ms entry) (je_committed_at_ms entry).

(** [src/src/business_key_provisioning.cpp:448-467] update_ledger *)
Definition update_ledger (domain : string) (entry : BusinessKeyJournalEntry) (generation : Z) s :
    Service P D E :=
  if negb (wi_ledger (sv_wired s)) then s else
  fold_left (fun s it => (on_ledger (ledger_put (meta_of_item domain entry generation it)) s).2)
    (je_items entry) s.

(** [src/src/business_key_provisioning.cpp:472-481] recover_entry both_active *)
Definition both_active (cfg : BusinessKeyProvisioningConfig) (generation : Z) (p : P) : bool :=
  forallb (fun purpose =>
    let slot := (bp_querySlot kBusinessDomainV2c purpose p).2 in
    si_present slot && bool_decide (si_state slot = BKS_ACTIVE) &&
    (si_active_generation slot =? generation)) (pg_required_purposes cfg).

(** The entry is passed by reference; its final value is returned. *)
(** [src/src/business_key_provisioning.cpp:469-497] recover_entry *)
Definition recover_entry (entry : BusinessKeyJournalEntry) :
    st (Service P D E) BusinessKeyJournalEntry := fun s =>
  let '((_, now), s) := trusted_now_ms 0 s in
  if both_active (sv_cfg s) (je_generation entry) (sv_provider s) then
    let entry := entry_succeeded now (bp_providerVersionDigest (sv_provider s)) entry in
    let entry := entry_items (status_state BKS_ACTIVE <$> je_items entry) entry in
    let s := save_journal entry s in
    (entry, update_ledger kBusinessDomainV2c entry (je_generation entry) s)
  else
    let s := rollback kBusinessDomainV2c (je_generation entry) s in
    let entry := set_last_error "BUSINESS_KEY_PARTIAL_ROLLBACK" (set_phase BIP_FAILED entry) in
    (entry, save_journal entry s).

(** Is the phase one recovery leaves alone? *)
Definition settled (p : BusinessKeyImportPhase) : bool :=
  bool_decide (p = BIP_SUCCEEDED) || bool_decide (p = BIP_FAILED).

(** [src/src/business_key_provisioning.cpp:499-508] recover_on_startup *)
Definition recover_on_startup s : Service P D E :=
  fold_left (fun s entry => if settled (je_phase entry) then s else (recover_entry entry s).2)
    (bp_listJournal (sv_provider s)) s.

(* --------------------------------------------------------------------- *)
(** ** The import pipeline                                                *)
(* --------------------------------------------------------------------- *)

(** [src/src/business_key_provisioning.cpp:529-542] run_pipeline status *)
Definition staged_status (domain : string) (item : WrappedKeyItem) (v : ValidatedEnvelope) :
    BusinessKeyStatus :=
  mkStatus domain (it_purpose item) (it_business_key_version item) BKS_STAGED
    (toHex (sha256 (bytes_of_string (it_key_id item)))) (it_algorithm item) (it_valid_from_ms item)
    (it_valid_to_ms item) (it_envelope_format item) (ve_envelope_digest v)
    (it_key_check_value item) (it_key_check_value_present item) [] "" (it_key_id item) [].

(** The failure exits of the pipeline: an ambiguous result is kept for
    reconciliation, anything else is rolled back. The result is the code and the
    coarse state. *)
(** [src/src/business_key_provisioning.cpp:559-573] run_pipeline failure *)
Definition pipeline_failed (domain : string) (generation : Z) (rc : ErrorCode)
    (entry : BusinessKeyJournalEntry) : st (Service P D E) (ErrorCode * BusinessKeyImportState) :=
  fun s =>
  if is_outcome_unknown rc then
    let entry := set_last_error (error_code_to_string rc) (set_phase BIP_OUTCOME_UNKNOWN entry) in
    ((BUSINESS_KEY_OUTCOME_UNKNOWN, BIS_UNKNOWN), save_journal entry s)
  else
    let s := rollback domain generation s in
    let entry := set_last_error (error_code_to_string rc) (set_phase BIP_FAILED entry) in
    ((rc, BIS_FAILED), save_journal entry s).

(** The failure exit of the staging check, which always rolls back. *)
(** [src/src/business_key_provisioning.cpp:584-591] run_pipeline verify failure *)
Definition verify_failed (domain : string) (generation : Z) (rc : ErrorCode)
    (entry : BusinessKeyJournalEntry) : st (Service P D E) (ErrorCode * BusinessKeyImportState) :=
  fun s =>
  let s := rollback domain generation s in
  let entry := set_last_error (error_code_to_string rc) (set_phase BIP_FAILED entry) in
  ((rc, BIS_FAILED), save_journal entry s).

(** Unwrap each item; [inl] carries the check values and the entry on, [inr] is an
    early return. *)
(** [src/src/business_key_provisioning.cpp:551-577] run_pipeline unwrap *)
Fixpoint unwrap_loop (request_id domain : string) (b : BusinessKeyDeviceBinding) (generation : Z)
    (rows : list (WrappedKeyItem * ValidatedEnvelope)) (entry : BusinessKeyJournalEntry) s :
    (list kcv3 * BusinessKeyJournalEntry + ErrorCode * BusinessKeyImportState) * Service P D E :=
  match rows with
  | [] => (inl ([], entry), s)
  | (item, v) :: rows =>
      let info := bytes_of_string (buildHkdfInfoV1 request_id domain (it_purpose item)
        (it_key_id item) (it_business_key_version item) (toHex (db_active_cert_digest b))) in
      let '((rc, kcv), s) := on_provider (bp_unwrapToStaging domain item (ve_params v)
        (ve_canonical_aad v) info b generation) s in
      if negb (is_success rc) then
        let '(r, s) := pipeline_failed domain generation rc entry s in (inr r, s)
      else
        let entry := if String.eqb (it_purpose item) kBusinessPurposeUplinkAead
                     then set_phase BIP_UPLINK_STAGED entry else entry in
        let s := save_journal entry s in
        match unwrap_loop request_id domain b generation rows entry s with
        | (inl (kcvs, entry), s) => (inl (kcv :: kcvs, entry), s)
        | r => r
        end
  end.

(** The first staging check that fails. *)
(** [src/src/business_key_provisioning.cpp:582-592] run_pipeline verify *)
Fixpoint verify_loop (domain : string) (items : list WrappedKeyItem) (p : P) : ErrorCode :=
  match items with
  | [] => SUCCESS
  | item :: items =>
      let rc := bp_verifyStaging domain (it_purpose item) p in
      if negb (is_success rc) then rc else verify_loop domain items p
  end.

(** One attestation per item; the flag is [proof_failed]. *)
(** [src/src/business_key_provisioning.cpp:622-644] run_pipeline attestation *)
Fixpoint proof_loop (request_id domain : string) (cert : bytes)
    (rows : list (WrappedKeyItem * (BusinessKeyStatus * kcv3))) s :
    (list BusinessKeyStatus * bool) * Service P D E :=
  match rows with
  | [] => (([], false), s)
  | (item, (t, kcv)) :: rows =>
      let t := status_committed kcv cert t in
      let '((rc, proof, alg), s) := on_provider (bp_generateProof domain (bs_purpose t)
        (bs_business_key_version t) request_id (it_key_id item) (bs_envelope_digest t)
        (kcv_bytes (bs_key_check_value t))) s in
      let ok := is_success rc && (zlen proof =? kImportProofSizeP1363) in
      let t := if ok then status_proof proof alg t else t in
      let '((ts, failed), s) := proof_loop request_id domain cert rows s in
      ((t :: ts, negb ok || failed), s)
  end.

(** From the committed slots to the result. *)
(** [src/src/business_key_provisioning.cpp:614-656] run_pipeline committed *)
Definition finish_import (request_id domain : string) (items : list WrappedKeyItem)
    (b : BusinessKeyDeviceBinding) (generation now : Z) (kcvs : list kcv3)
    (entry : BusinessKeyJournalEntry) (out : ImportResult) :
    st (Service P D E) (ErrorCode * ImportResult) := fun s =>
  let '((_, committed_at), s) := trusted_now_ms now s in
  let entry := entry_succeeded committed_at (bp_providerVersionDigest (sv_provider s)) entry in
  let entry := entry_bound kImportProofAlgorithmP1363 (db_active_cert_digest b) entry in
  let '((statuses, proof_failed), s) :=
    proof_loop request_id domain (je_binding_certificate_digest entry)
      (zip items (zip (je_items entry) kcvs)) s in
  let entry := entry_items statuses entry in
  if (proof_failed : bool) then
    let entry := set_last_error "IMPORT_ATTESTATION_FAILED" (set_phase BIP_OUTCOME_UNKNOWN entry) in
    ((BUSINESS_KEY_OUTCOME_UNKNOWN, res_state BIS_UNKNOWN out), save_journal entry s)
  else
    let s := save_journal entry s in
    let s := update_ledger domain entry generation s in
    ((SUCCESS, build_committed_result entry out), s).

(** The journal entry the pipeline starts from. *)
(** [src/src/business_key_provisioning.cpp:521-546] run_pipeline entry *)
Definition initial_entry (domain : string) (items : list WrappedKeyItem)
    (validated : list ValidatedEnvelope) (rid_digest digest : string) (generation now : Z) s :
    BusinessKeyJournalEntry :=
  mkEntry rid_digest digest BIP_PROCESSING generation
    (zip_with (staged_status domain) items validated) now 0
    (bp_providerVersionDigest (sv_provider s)) "" [] "" [].

(** [src/src/business_key_provisioning.cpp:514-657] run_pipeline *)
Definition run_pipeline (request_id domain : string) (items : list WrappedKeyItem)
    (validated : list ValidatedEnvelope) (b : BusinessKeyDeviceBinding) (rid_digest digest : string)
    (generation now : Z) (out : ImportResult) : st (Service P D E) (ErrorCode * ImportResult) :=
  fun s =>
  let failed r := (r.1, res_state r.2 out) in
  let entry := initial_entry domain items validated rid_digest digest generation now s in
  let s := save_journal entry s in
  match unwrap_loop request_id domain b generation (zip items validated) entry s with
  | (inr r, s) => (failed r, s)
  | (inl (kcvs, entry), s) =>
      let entry := set_phase BIP_BOTH_STAGED entry in
      let s := save_journal entry s in
      let vrc := verify_loop domain items (sv_provider s) in
      if negb (is_success vrc) then
        let '(r, s) := verify_failed domain generation vrc entry s in (failed r, s)
      else
      let entry := set_phase BIP_COMMITTING entry in
      let s := save_journal entry s in
      let '(rc, s) := on_provider (bp_commitBatch domain generation) s in
      if negb (is_success rc) then
        let '(r, s) := pipeline_failed domain generation rc entry s in (failed r, s)
      else finish_import request_id domain items b generation now kcvs entry out s
  end.

(* --------------------------------------------------------------------- *)
(** ** Initialization and readiness                                       *)
(* --------------------------------------------------------------------- *)

(** [provider_ready = p; import_ready = i]. *)
Definition ready_flags (p i : bool) (r : Readiness) : Readiness :=
  mkReadiness p i (rd_cap r) (rd_epoch_src r) (rd_storage_ready r) (rd_governance_required r).
Definition not_ready s : Service P D E := sv_with_ready (ready_flags false false (sv_ready s)) s.

(** [src/src/business_key_provisioning.cpp:850-861] initialize readiness *)
Definition settle_readiness s : Service P D E :=
  let r := sv_ready s in
  let replaced := bp_storageReplaced (sv_provider s) in
  let src := (if replaced then bumpStorageReplacement else bumpRecovery) (rd_epoch_src r) in
  let governance := replaced || rd_governance_required r in
  let provider_ready := bp_isReady (sv_provider s) in
  let storage_ready := provider_ready && negb governance in
  let '(cap, s) := compute_capability s in
  sv_with_ready (mkReadiness provider_ready (provider_ready && cap_all cap && storage_ready) cap src
    storage_ready governance) s.

(** [src/src/business_key_provisioning.cpp:823-869] BusinessKeyProvisioningService::initialize *)
Definition service_initialize : st (Service P D E) ErrorCode := fun s =>
  if negb (pg_enabled (sv_cfg s)) then (SUCCESS, not_ready s) else
  let w := sv_wired s in
  if negb (wi_provider w) || negb (wi_ledger w) || negb (wi_trusted_time w)
  then (BUSINESS_KEY_NOT_READY, not_ready s) else
  let '(rc, s) := on_provider bp_initialize s in
  if negb (is_success rc) then (BUSINESS_KEY_NOT_READY, not_ready s) else
  let '(rc, s) := on_ledger ledger_load s in
  if negb (is_success rc) then (BUSINESS_KEY_NOT_READY, not_ready s) else
  (SUCCESS, settle_readiness (recover_on_startup s)).

(** [src/src/business_key_provisioning.cpp:871-871] beginShutdown *)
Definition beginShutdown s : Service P D E :=
  mkService (sv_cfg s) (sv_wired s) (sv_provider s) (sv_ledger s) (sv_env s) (sv_ready s) true.

(** [src/src/business_key_provisioning.cpp:873-876] isReady *)
Definition isReady s : bool := rd_import_ready (sv_ready s) && negb (sv_shutting_down s).

(** [src/src/business_key_provisioning.cpp:878-881] capability *)
Definition capability s : V2cKeyProvisioningCapability := rd_cap (sv_ready s).

(** [src/src/business_key_provisioning.cpp:883-886] contractSnapshot *)
Definition contractSnapshot s : KeyprovContractSnapshot := compute_snapshot s.

(** [src/src/business_key_provisioning.cpp:903-911] getStatus loop *)
Fixpoint status_loop (domain : string) (purposes : list string) s :
    ErrorCode * list BusinessKeyStatus :=
  match purposes with
  | [] => (SUCCESS, [])
  | p :: purposes =>
      if negb (contains (pg_required_purposes (sv_cfg s)) p) then (BUSINESS_KEY_UNSUPPORTED, []) else
      let '(rc, t) := fill_status domain p s in
      if negb (is_success rc) then (rc, []) else
      let '(rc, l) := status_loop domain purposes s in (rc, t :: l)
  end.

(** [src/src/business_key_provisioning.cpp:892-912] getStatus *)
Definition getStatus (domain : string) (purposes : list string) s :
    ErrorCode * list BusinessKeyStatus :=
  if sv_shutting_down s then (BUSINESS_KEY_NOT_READY, []) else
  if negb (pg_enabled (sv_cfg s)) || negb (rd_provider_ready (sv_ready s))
  then (BUSINESS_KEY_NOT_READY, []) else
  if negb (contains (pg_allowed_domains (sv_cfg s)) domain) then (BUSINESS_KEY_UNSUPPORTED, []) else
  match purposes with
  | [] => (INVALID_PARAMETER, [])
  | _ => status_loop domain purposes s
  end.

(* --------------------------------------------------------------------- *)
(** ** Import                                                             *)
(* --------------------------------------------------------------------- *)

(** An entry that exists under the request id, its content digest compared. *)
(** [src/src/business_key_provisioning.cpp:988-1009] import existing *)
Definition import_existing (digest : string) (existing : BusinessKeyJournalEntry)
    (out : ImportResult) : st (Service P D E) (ErrorCode * ImportResult) := fun s =>
  if negb (str_empty (je_request_digest existing)) &&
     negb (String.eqb (je_request_digest existing) digest)
  then ((BUSINESS_KEY_CONFLICT, res_state BIS_FAILED out), s) else
  if bool_decide (je_phase existing = BIP_SUCCEEDED)
  then ((SUCCESS, build_committed_result existing out), s) else
  if bool_decide (je_phase existing = BIP_FAILED)
  then ((BUSINESS_KEY_IMPORT_UNKNOWN, res_items (je_items existing) (res_state BIS_FAILED out)), s)
  else
  let '(existing, s) := recover_entry existing s in
  if bool_decide (je_phase existing = BIP_SUCCEEDED)
  then ((SUCCESS, build_committed_result existing out), s)
  else ((BUSINESS_KEY_PARTIAL_ROLLBACK, res_items (je_items existing) (res_state BIS_FAILED out)), s).

(** Structure, identity and envelopes, in that order; no cryptographic operation
    and no change of the provider or the ledger. *)
(** [src/src/business_key_provisioning.cpp:935-980] import checks *)
Definition check_request (request_id domain : string) (items : list WrappedKeyItem) :
    st (Service P D E) (res (BusinessKeyDeviceBinding * list ValidatedEnvelope)) := fun s =>
  let rc := validate_structure (sv_cfg s) request_id domain items in
  if negb (is_success rc) then (Err rc, s) else
  let '(b, s) := probe_binding s in
  if negb (binding_agreement_ok b) then (Err BUSINESS_KEY_NOT_READY, s) else
  match validate_envelopes (sv_cfg s) request_id domain b items with
  | Err rc => (Err rc, s)
  | Ok validated => (Ok (b, validated), s)
  end.

(** [src/src/business_key_provisioning.cpp:918-1027] BusinessKeyProvisioningService::import *)
Definition import (request_id domain : string) (items : list WrappedKeyItem) :
    st (Service P D E) (ErrorCode * ImportResult) := fun s =>
  let out := res_for request_id domain in
  if sv_shutting_down s then ((BUSINESS_KEY_NOT_READY, out), s) else
  if negb (pg_enabled (sv_cfg s)) then ((BUSINESS_KEY_NOT_READY, out), s) else
  if negb (rd_import_ready (sv_ready s))
  then ((BUSINESS_KEY_NOT_READY, res_state BIS_FAILED out), s) else
  match check_request request_id domain items s with
  | (Err rc, s) => ((rc, res_state BIS_FAILED out), s)
  | (Ok (b, validated), s) =>
      let rid_digest := rid_digest_of request_id in
      let digest := build_request_digest request_id domain items validated s in
      match bp_loadJournal rid_digest (sv_provider s) with
      | Some existing => import_existing digest existing out s
      | None =>
          let '(rc, s) := validate_version_and_time domain items s in
          if negb (is_success rc) then ((rc, res_state BIS_FAILED out), s) else
          let generation := next_generation s in
          let '((_, now), s) := trusted_now_ms 0 s in
          run_pipeline request_id domain items validated b rid_digest digest generation now out s
      end
  end.

(** [src/src/business_key_provisioning.cpp:663-675] has_transaction_residue *)
Definition has_transaction_residue (rid_digest : string) s : bool :=
  if bp_hasTransactionResidue rid_digest (sv_provider s) then true else
  if wi_ledger (sv_wired s) then
    existsb (fun p => match ledger_get kBusinessDomainV2c p (sv_ledger s) with
      | Some meta => bm_present meta && negb (str_empty (bm_request_id_digest meta)) &&
                     String.eqb (bm_request_id_digest meta) rid_digest
      | None => false
      end) (pg_required_purposes (sv_cfg s))
  else false.

(** Epoch and lease of a new operation: [Some] is the code it is refused with. *)
(** [src/src/business_key_provisioning.cpp:1177-1186] importKl1 lease *)
Definition lease_refusal (ctx : KeyprovImportContext) (U : Z) s : option ErrorCode :=
  if negb (kc_capability_epoch ctx =? epoch (rd_epoch_src (sv_ready s)))
  then Some KL1_CAPABILITY_EPOCH_MISMATCH else
  if U >=? kc_admission_expire_at_ms ctx then Some KL1_ADMISSION_REJECTED else None.

(** Items and certificate outlive the lease and have started. *)
(** [src/src/business_key_provisioning.cpp:1187-1200] importKl1 validity *)
Definition validity_covers (ctx : KeyprovImportContext) (U : Z) (items : list WrappedKeyItem)
    (b : BusinessKeyDeviceBinding) : bool :=
  forallb (fun item => negb ((it_valid_from_ms item >? U) ||
    (it_valid_to_ms item <? kc_admission_expire_at_ms ctx))) items &&
  negb ((db_active_cert_valid_from_ms b >? U) ||
    (db_active_cert_valid_to_ms b <? kc_admission_expire_at_ms ctx)).

(** Admission of a new operation; [SUCCESS] lets it start. *)
(** [src/src/business_key_provisioning.cpp:1167-1228] importKl1 admission *)
Definition admission_kl1 (domain : string) (items : list WrappedKeyItem) (ctx : KeyprovImportContext)
    (b : BusinessKeyDeviceBinding) : st (Service P D E) ErrorCode := fun s =>
  match kl1_trusted_upper_now s with
  | (Err rc, s) => (rc, s)
  | (Ok U, s) =>
      match lease_refusal ctx U s with
      | Some rc => (rc, s)
      | None =>
          if negb (validity_covers ctx U items b) then (WRAPPED_KEY_INVALID, s) else
          let '(rc, s) := validate_version_and_time domain items s in
          if negb (is_success rc) then (rc, s) else
          match kl1_trusted_upper_now s with
          | (Err rc, s) => (rc, s)
          | (Ok U, s) => (default SUCCESS (lease_refusal ctx U s), s)
          end
      end
  end.

(** [attach.request_identity_digest = d]. *)
Definition attach_identity (d : string) (a : KeyprovResultAttachment) : KeyprovResultAttachment :=
  mkAttachment (ka_snapshot a) d (ka_queried_at_ms a).

(** A failed admission; the epoch mismatch refreshes the snapshot. *)
Definition refused_attach (rc : ErrorCode) (a : KeyprovResultAttachment) s : KeyprovResultAttachment :=
  if bool_decide (rc = KL1_CAPABILITY_EPOCH_MISMATCH)
  then mkAttachment (compute_snapshot s) (ka_request_identity_digest a) (ka_queried_at_ms a) else a.

(** [src/src/business_key_provisioning.cpp:1033-1242] BusinessKeyProvisioningService::importKl1 *)
Definition importKl1 (request_id domain : string) (items : list WrappedKeyItem)
    (ctx : KeyprovImportContext) :
    st (Service P D E) (ErrorCode * ImportResult * KeyprovResultAttachment) := fun s =>
  let attach := mkAttachment (compute_snapshot s) "" 0 in
  let out := res_for request_id domain in
  let failed := res_state BIS_FAILED out in
  if sv_shutting_down s then ((BUSINESS_KEY_NOT_READY, out, attach), s) else
  if negb (pg_enabled (sv_cfg s)) then ((BUSINESS_KEY_NOT_READY, out, attach), s) else
  if negb (rd_import_ready (sv_ready s)) then ((BUSINESS_KEY_NOT_READY, failed, attach), s) else
  if negb (ks_supports_lease_admission (ka_snapshot attach))
  then ((BUSINESS_KEY_NOT_READY, failed, attach), s) else
  if negb (kc_kl1_profile_version ctx =? kKeyprovKl1ProfileVersion) || (kc_capability_epoch ctx =? 0)
  then ((BUSINESS_KEY_NOT_READY, failed, attach), s) else
  let rid_digest := rid_digest_of request_id in
  match check_request request_id domain items s with
  | (Err rc, s) => ((rc, failed, attach), s)
  | (Ok (b, validated), s) =>
      let digest := build_request_digest request_id domain items validated s in
      let lr := bp_loadJournalEx rid_digest (sv_provider s) in
      let unknown := res_state BIS_UNKNOWN out in
      match jl_status lr, jl_entry lr with
      | JLS_FOUND, None => ((BUSINESS_KEY_IMPORT_UNKNOWN, unknown, attach), s)
      | JLS_FOUND, Some entry =>
          let '((rc, out), s) := import_existing digest entry out s in
          ((rc, out, attach_identity (je_request_digest entry) attach), s)
      | JLS_NOT_FOUND, _ =>
          if has_transaction_residue rid_digest s
          then ((BUSINESS_KEY_IMPORT_UNKNOWN, unknown, attach), s) else
          let '(rc, s) := admission_kl1 domain items ctx b s in
          if negb (is_success rc) then ((rc, failed, refused_attach rc attach s), s) else
          let generation := next_generation s in
          let '((_, now), s) := trusted_now_ms 0 s in
          let '((rc, out), s) := run_pipeline request_id domain items validated b rid_digest digest
            generation now out s in
          ((rc, out, if is_success rc then mkAttachment (ka_snapshot attach) digest now else attach), s)
      | JLS_IO_ERROR, _ => ((BUSINESS_KEY_NOT_READY, unknown, attach), s)
      | _, _ => ((BUSINESS_KEY_IMPORT_UNKNOWN, unknown, attach), s)
      end
  end.

(* --------------------------------------------------------------------- *)
(** ** Result query                                                       *)
(* --------------------------------------------------------------------- *)

(** What a journal read means for a query. *)
(** [src/src/business_key_provisioning.cpp:727-789] query_result classification *)
Definition query_outcome (rid_digest : string) (lr : JournalLoadResult) (out : ImportResult) s :
    ErrorCode * ImportResult :=
  let at_domain b items ver :=
    mkResult (ir_request_id out) kBusinessDomainV2c b items 0 ver [] "" [] in
  let unknown := at_domain BIS_UNKNOWN [] "" in
  match jl_status lr, jl_entry lr with
  | JLS_FOUND, None => (SUCCESS, unknown)
  | JLS_FOUND, Some entry =>
      if bool_decide (je_phase entry = BIP_SUCCEEDED) then (SUCCESS, build_committed_result entry out)
      else (SUCCESS, at_domain (import_state_from_phase (je_phase entry)) (je_items entry)
              (je_provider_version_digest entry))
  | JLS_NOT_FOUND, _ =>
      if rd_governance_required (sv_ready s) then (SUCCESS, unknown) else
      if has_transaction_residue rid_digest s then (SUCCESS, unknown)
      else (SUCCESS, at_domain BIS_NOT_FOUND [] "")
  | JLS_IO_ERROR, _ =>
      ((if is_success (jl_provider_error lr) then STORAGE_READ_FAILED else jl_provider_error lr),
       unknown)
  | _, _ => (SUCCESS, unknown)
  end.

(** [attach] is [None] for the old query. *)
(** [src/src/business_key_provisioning.cpp:710-790] query_result *)
Definition query_result (request_id : string) (attach : option KeyprovResultAttachment) :
    st (Service P D E) (ErrorCode * ImportResult * option KeyprovResultAttachment) := fun s =>
  let out := res_for request_id "" in
  if negb (pg_enabled (sv_cfg s)) || negb (rd_provider_ready (sv_ready s))
  then ((BUSINESS_KEY_NOT_READY, out, attach), s) else
  if str_empty request_id then ((INVALID_PARAMETER, out, attach), s) else
  if str_size request_id >? 128 then ((INVALID_PARAMETER, out, attach), s) else
  let rid_digest := rid_digest_of request_id in
  let '(attach, s) := match attach with
    | None => (None, s)
    | Some a =>
        let snapshot := compute_snapshot s in
        let '((_, t), s) := trusted_now_ms 0 s in
        (Some (mkAttachment snapshot (ka_request_identity_digest a) t), s)
    end in
  let lr := bp_loadJournalEx rid_digest (sv_provider s) in
  let attach := match jl_status lr, jl_entry lr with
    | JLS_FOUND, Some entry => attach_identity (je_request_digest entry) <$> attach
    | _, _ => attach
    end in
  let '(rc, out) := query_outcome rid_digest lr out s in
  ((rc, out, attach), s).

(** [src/src/business_key_provisioning.cpp:1248-1253] getImportResult *)
Definition getImportResult (request_id : string) (out : ImportResult) :
    st (Service P D E) (ErrorCode * ImportResult) := fun s =>
  if sv_shutting_down s then ((BUSINESS_KEY_NOT_READY, out), s) else
  let '((rc, out, _), s) := query_result request_id None s in ((rc, out), s).

(** [src/src/business_key_provisioning.cpp:1255-1261] getImportResultKl1 *)
Definition getImportResultKl1 (request_id : string) (out : ImportResult)
    (attach : KeyprovResultAttachment) :
    st (Service P D E) (ErrorCode * ImportResult * KeyprovResultAttachment) := fun s =>
  if sv_shutting_down s then ((BUSINESS_KEY_NOT_READY, out, attach), s) else
  let '((rc, out, a), s) := query_result request_id (Some KeyprovResultAttachment_default) s in
  ((rc, out, default attach a), s).
End Operations.
