(* ===== verification/ImportSample.v ===== *)
(** * A complete device for the witnesses.
    The service over the soft-file provider, the ledger, the composite time
    provider with a synchronised TIME client and the toy primitives of the
    samples below. *)
From S2P Require Import Prelude Errors Canonical KeyTypes Envelope Json Provider Ledger SoftFile SoftFileFacts SoftFileProps TimeTypes TrustedTime TimeMonitor TimeProps Provisioning Import.

Module ImportSample.
Export SoftFileSample LedgerSample TimeSample.

Definition device : Type := TimeState tworld * BusinessKeyDeviceBinding.
#[export] Instance device_env : ServiceEnv device := composite_service_env (fun b => (b, b)).

(** The check value of the key the toy HSM unwraps for an item. *)
Definition kcv_for (rid purpose key_id : string) (version : Z) : kcv3 :=
  computeKcv (replicate 32 (byte_of (zlen (bytes_of_string
    (buildHkdfInfoV1 rid kBusinessDomainV2c purpose key_id version (toHex cert_digest)))))).
Definition wrapped (rid purpose key_id : string) (version : Z) (par : byte) : WrappedKeyItem :=
  item_for rid purpose key_id version par (kcv_for rid purpose key_id version).

(** Two requests, the second with newer versions. *)
Definition items1 : list WrappedKeyItem :=
  [wrapped "rid-1" kBusinessPurposeUplinkAead "k-up" 7 x01;
   wrapped "rid-1" kBusinessPurposeDownlinkAead "k-down" 7 x02].
Definition items2 : list WrappedKeyItem :=
  [wrapped "rid-2" kBusinessPurposeUplinkAead "k-up" 8 x03;
   wrapped "rid-2" kBusinessPurposeDownlinkAead "k-down" 8 x04].

Definition service_cfg : BusinessKeyProvisioningConfig :=
  mkProvisioningConfig true false [] [] [] [] [] 2 4096 2048 10000.
Definition all_wired : Wiring := mkWiring true true true true.

Abbreviation sample_service := (Service (SfState world) disk device).

(** A device over the given store, constructed, and initialized. *)
Definition service_on (w : world) (l : LedgerState disk) : sample_service :=
  service_new service_cfg all_wired (sf_new cfg0 w) l (tstate0, binding0) 9.
Definition boot (w : world) (l : LedgerState disk) : sample_service :=
  (service_initialize (service_on w l)).2.
Definition svc0 : sample_service := boot world0 ledger0.

Lemma svc0_ready : rd_import_ready (sv_ready svc0) = true.
Proof. by vm_compute. Qed.

(** The envelopes of the first request. *)
Definition envelopes1 : list ValidatedEnvelope :=
  match validate_envelopes (sv_cfg svc0) "rid-1" kBusinessDomainV2c binding0 items1 with
  | Ok vs => vs
  | Err _ => []
  end.

(** The same device with a schedule for the outcomes of the next saves. *)
Definition with_saves (f : list bool) (s : sample_service) : sample_service :=
  let p := sv_provider s in
  let w := sf_env p in
  sv_with_provider (with_env (mkWorld (w_store w) f (w_kek w) (w_rng w) (w_hsm w) (w_sign w)
    (w_binding w)) p) s.

(** A lease of a minute from the sample clock. *)
Definition lease0 : KeyprovImportContext :=
  mkContext 1700000060000 (epoch (rd_epoch_src (sv_ready svc0))) 1.
End ImportSample.
