(* ===== verification/ImportFacts.v ===== *)
(** * BusinessKeyProvisioningService: lemmas.
    What each operation may change, what the loops of the pipeline return, and a
    provider that records its calls with the protocol they have to follow. *)
From S2P Require Import Prelude Errors Canonical KeyTypes Envelope Json Provider Ledger TimeTypes TrustedTime Provisioning Import.

Section Frames.
Context {P D E : Type} `{Prov : BusinessKeyProvider P} `{Store : LedgerStore D} `{J : Json}
  `{SEnv : ServiceEnv E} `{Hash : Sha256} `{PB : Protobuf} `{EC : EcP256}.
Implicit Types s : Service P D E.

(** Only the time source or the identity callback advanced. *)
Definition sv_env_only s s' : Prop := exists e, s' = sv_with_env e s.

(** Configuration, wiring, readiness and shutdown flag are untouched. *)
Definition same_service s s' : Prop :=
  sv_cfg s' = sv_cfg s /\ sv_wired s' = sv_wired s /\ sv_ready s' = sv_ready s /\
  sv_shutting_down s' = sv_shutting_down s.
Definition keeps_ledger s s' : Prop := same_service s s' /\ sv_ledger s' = sv_ledger s.

Lemma sv_env_only_refl s : sv_env_only s s.
Proof. exists (sv_env s). by destruct s. Qed.
Lemma sv_env_only_trans s1 s2 s3 : sv_env_only s1 s2 -> sv_env_only s2 s3 -> sv_env_only s1 s3.
Proof. intros [e1 ->] [e2 ->]. by exists e2. Qed.
Lemma sv_env_only_with e s : sv_env_only s (sv_with_env e s).
Proof. by exists e. Qed.

Lemma keeps_ledger_refl s : keeps_ledger s s.
Proof. by repeat split. Qed.
Lemma keeps_ledger_trans s1 s2 s3 : keeps_ledger s1 s2 -> keeps_ledger s2 s3 -> keeps_ledger s1 s3.
Proof. intros [(?&?&?&?) ?] [(?&?&?&?) ?]. repeat split; congruence. Qed.
Lemma same_service_trans s1 s2 s3 : same_service s1 s2 -> same_service s2 s3 -> same_service s1 s3.
Proof. intros (?&?&?&?) (?&?&?&?). repeat split; congruence. Qed.
Lemma sv_env_only_keeps s s' : sv_env_only s s' -> keeps_ledger s s' /\ sv_provider s' = sv_provider s.
Proof. intros [e ->]. by repeat split. Qed.

Lemma trusted_now_env out s r s' : trusted_now_ms out s = (r, s') -> sv_env_only s s'.
Proof.
  unfold trusted_now_ms, on_service_env. destruct (negb _); [intros [= _ <-]; apply sv_env_only_refl|].
  destruct (se_now _) as [smp e]. destruct (negb _); intros [= _ <-]; apply sv_env_only_with.
Qed.

(** A successful reading is one of the time source, and a trusted one. *)
Lemma trusted_now_success out s t s' :
  trusted_now_ms out s = ((SUCCESS, t), s') -> exists e, is_trusted (se_now e).1 = true /\
    t = ms_of_tp (ts_utc_now (se_now e).1).
Proof.
  unfold trusted_now_ms, on_service_env. destruct (negb _); [done|].
  destruct (se_now _) as [smp e] eqn:En. destruct (negb _) eqn:Et; [done|]. intros [= <- _].
  exists (sv_env s). rewrite En. by bool_simpl.
Qed.

(** A time reading a lease may be measured against - trusted, exact to a second, at
    most five minutes old - and the upper end [U] of the time it allows. *)
Definition usable_reading (smp : TrustedTimeSample) (U : Z) : Prop :=
  ts_trust_state smp = Trusted /\ ts_uncertainty smp <= 1000 /\ ts_freshness_age smp <= 300000 /\
  U = ms_of_tp (ts_utc_now smp) + ts_uncertainty smp.
Lemma kl1_upper_of_usable smp U : kl1_upper_of smp = Ok U -> usable_reading smp U.
Proof.
  unfold kl1_upper_of, is_trusted. rewrite !Z.gtb_ltb. intros Hu.
  repeat (case_match; try done). injection Hu as <-. bool_simpl. by split_and!; try lia.
Qed.

Lemma kl1_upper_env s r s' : kl1_trusted_upper_now s = (r, s') ->
  sv_env_only s s' /\
  (forall U, r = Ok U -> wi_trusted_time (sv_wired s) = true /\
     usable_reading (se_now (sv_env s)).1 U /\ sv_env s' = (se_now (sv_env s)).2) /\
  (forall rc, r = Err rc -> rc = BUSINESS_KEY_NOT_READY).
Proof.
  unfold kl1_trusted_upper_now, on_service_env. destruct (wi_trusted_time _) eqn:Ew; cbn [negb].
  2: { intros [= <- <-]. split; [apply sv_env_only_refl|]. split; [done|congruence]. }
  destruct (se_now _) as [smp e] eqn:En. intros [= <- <-]. split; [apply sv_env_only_with|].
  split; [intros U HU; cbn; by split_and!; [..|apply kl1_upper_of_usable|]|].
  intros rc Hrc. unfold kl1_upper_of in Hrc. repeat (case_match; try congruence).
Qed.

Lemma probe_binding_env s b s' : probe_binding s = (b, s') -> sv_env_only s s'.
Proof.
  unfold probe_binding, on_service_env. destruct (negb _); [intros [= _ <-]; apply sv_env_only_refl|].
  destruct (se_binding _) as [b0 e]. intros [= _ <-]. apply sv_env_only_with.
Qed.

Lemma validate_vt_env domain items s rc s' :
  validate_version_and_time domain items s = (rc, s') ->
  sv_env_only s s' /\
  (rc = SUCCESS -> ts_trust_state (se_now (sv_env s)).1 = Trusted /\
     sv_env s' = (se_now (sv_env s)).2 /\
     check_version_and_time (sv_provider s) domain (ms_of_tp (ts_utc_now (se_now (sv_env s)).1)) items
       = SUCCESS).
Proof.
  unfold validate_version_and_time, trusted_now_ms, on_service_env.
  destruct (negb (wi_trusted_time _)).
  { intros [= <- <-]. split; [apply sv_env_only_refl|done]. }
  destruct (se_now _) as [smp e]. destruct (is_trusted smp) eqn:Et; simpl.
  - intros [= <- <-]. split; [apply sv_env_only_with|]. intros Hc. by apply bool_decide_eq_true in Et.
  - intros [= <- <-]. by split; [apply sv_env_only_with|].
Qed.

Lemma check_request_env rid domain items s r s' :
  check_request rid domain items s = (r, s') ->
  sv_env_only s s' /\
  (forall b vs, r = Ok (b, vs) ->
     validate_structure (sv_cfg s) rid domain items = SUCCESS /\ binding_agreement_ok b = true /\
     validate_envelopes (sv_cfg s) rid domain b items = Ok vs) /\
  (forall rc, r = Err rc -> rc <> SUCCESS).
Proof.
  unfold check_request. destruct (is_success (validate_structure _ _ _ _)) eqn:Ev; simpl.
  2: { intros [= <- <-]. split; [apply sv_env_only_refl|]. split; [done|]. intros rc [= <-] Hc.
       apply is_success_true in Hc. congruence. }
  apply is_success_true in Ev. destruct (probe_binding s) as [b s1] eqn:Eb.
  apply probe_binding_env in Eb as [e ->].
  destruct (binding_agreement_ok b) eqn:Ea; simpl.
  2: { intros [= <- <-]. split; [apply sv_env_only_with|]. split; [done|congruence]. }
  destruct (validate_envelopes _ _ _ b _) as [vs|rc] eqn:Eve; intros [= <- <-];
    (split; [apply sv_env_only_with|]).
  - split; [|done]. by intros b' vs' [= <- <-].
  - split; [done|]. intros rc' [= ->] ->. revert Eve. clear. revert rid domain.
    intros rid domain. induction items as [|item items IH]; [done|]. simpl.
    destruct (validateEnvelope _ _ _) as [v|rc] eqn:Ev.
    + destruct (validate_envelopes _ _ _ _ items); [done|]. intros [= ->]. by apply IH.
    + intros [= ->]. revert Ev. unfold validateEnvelope, parseEcdhEsP256Parameters.
      repeat (case_match; try congruence).
Qed.

Lemma validate_envelopes_length cfg rid domain b items vs :
  validate_envelopes cfg rid domain b items = Ok vs -> length vs = length items.
Proof.
  revert vs. induction items as [|item items IH]; intros vs Hv; simpl in Hv; [by injection Hv as <-|].
  destruct (validateEnvelope _ _ _); [|done]. destruct (validate_envelopes _ _ _ _ items) eqn:Er; [|done].
  injection Hv as <-. simpl. by rewrite (IH _ eq_refl).
Qed.

(** Every item that passed has a strictly newer version than the slot it replaces. *)
Lemma check_version_and_time_ok p domain now items :
  check_version_and_time p domain now items = SUCCESS ->
  Forall (fun item => it_valid_from_ms item <= now <= it_valid_to_ms item /\
    (forall slot, bp_querySlot domain (it_purpose item) p = (SUCCESS, slot) -> si_present slot = true ->
       si_business_key_version slot < it_business_key_version item)) items.
Proof.
  induction items as [|item items IH]; [by constructor|]. simpl.
  destruct (bp_querySlot _ _ _) as [rc slot] eqn:Eq.
  destruct (is_success rc && _ && _) eqn:Ec; [done|]. destruct (_ || _) eqn:Et; [done|].
  intros Hc. constructor; [|by apply IH]. rewrite Z.gtb_ltb in Et. bool_simpl.
  split; [lia|]. intros slot' Hs Hp. try rewrite Eq in Hs. injection Hs as -> ->. rewrite Hp in Ec. simpl in Ec. by bool_simpl.
Qed.

Lemma lease_refusal_none ctx U s :
  lease_refusal ctx U s = None ->
  kc_capability_epoch ctx = epoch (rd_epoch_src (sv_ready s)) /\ U < kc_admission_expire_at_ms ctx.
Proof.
  unfold lease_refusal. destruct (negb _) eqn:E1; [done|]. destruct (_ >=? _) eqn:E2; [done|].
  intros _. bool_simpl. split; [done|]. rewrite Z.geb_leb in E2. by apply Z.leb_gt.
Qed.

Lemma validity_covers_true ctx U items b :
  validity_covers ctx U items b = true ->
  Forall (fun item => it_valid_from_ms item <= U /\
    kc_admission_expire_at_ms ctx <= it_valid_to_ms item) items /\
  db_active_cert_valid_from_ms b <= U /\ kc_admission_expire_at_ms ctx <= db_active_cert_valid_to_ms b.
Proof.
  unfold validity_covers. intros Hv. apply andb_true_iff in Hv as [Hi Hb].
  rewrite Z.gtb_ltb in Hb. bool_simpl. split; [|lia].
  apply Forall_forall. intros item Hin. rewrite forallb_forall in Hi.
  apply list_elem_of_In, Hi in Hin. rewrite Z.gtb_ltb in Hin. bool_simpl. lia.
Qed.

(** What an accepted operation was measured against: the next three readings of the
    service's own time source, each from the state the previous one left. *)
Definition reading1 s : TrustedTimeSample := (se_now (sv_env s)).1.
Definition reading2 s : TrustedTimeSample := (se_now (se_now (sv_env s)).2).1.
Definition reading3 s : TrustedTimeSample := (se_now (se_now (se_now (sv_env s)).2).2).1.
Record admission_facts (domain : string) (items : list WrappedKeyItem) (ctx : KeyprovImportContext)
    (b : BusinessKeyDeviceBinding) s : Prop := {
  ad_time_source : wi_trusted_time (sv_wired s) = true;
  ad_epoch : kc_capability_epoch ctx = epoch (rd_epoch_src (sv_ready s));
  ad_lease : exists U, usable_reading (reading1 s) U /\ U < kc_admission_expire_at_ms ctx /\
    Forall (fun item => it_valid_from_ms item <= U /\
      kc_admission_expire_at_ms ctx <= it_valid_to_ms item) items /\
    db_active_cert_valid_from_ms b <= U /\ kc_admission_expire_at_ms ctx <= db_active_cert_valid_to_ms b;
  ad_current : ts_trust_state (reading2 s) = Trusted /\
    Forall (fun item =>
      it_valid_from_ms item <= ms_of_tp (ts_utc_now (reading2 s)) <= it_valid_to_ms item) items;
  ad_lease_still : exists U, usable_reading (reading3 s) U /\ U < kc_admission_expire_at_ms ctx;
  ad_version : Forall (fun item => forall slot,
      bp_querySlot domain (it_purpose item) (sv_provider s) = (SUCCESS, slot) -> si_present slot = true ->
      si_business_key_version slot < it_business_key_version item) items
}.

Lemma admission_kl1_spec domain items ctx b s rc s' :
  admission_kl1 domain items ctx b s = (rc, s') ->
  sv_env_only s s' /\ (rc = SUCCESS -> admission_facts domain items ctx b s).
Proof.
  unfold admission_kl1. intros Ha. destruct (kl1_trusted_upper_now s) as [r1 s1] eqn:E1.
  apply kl1_upper_env in E1 as (He1 & Hu1 & Hn1). destruct r1 as [U1|rc1].
  2: { injection Ha as <- <-. split; [done|]. by rewrite (Hn1 _ eq_refl). }
  destruct (lease_refusal ctx U1 s1) as [rc1|] eqn:El1.
  { injection Ha as <- <-. split; [done|]. intros ->. revert El1. unfold lease_refusal.
    repeat case_match; congruence. }
  destruct (validity_covers _ _ _ _) eqn:Ev; simpl in Ha; [|by injection Ha as <- <-].
  destruct (validate_version_and_time _ _ _) as [rc2 s2] eqn:E2.
  apply validate_vt_env in E2 as (He2 & Hv2).
  destruct (is_success rc2) eqn:Es2; simpl in Ha.
  2: { injection Ha as <- <-. split; [by eapply sv_env_only_trans|]. intros ->. done. }
  apply is_success_true in Es2. subst rc2.
  destruct (kl1_trusted_upper_now s2) as [r3 s3] eqn:E3. apply kl1_upper_env in E3 as (He3 & Hu3 & Hn3).
  assert (sv_env_only s s3) as He by (eauto using sv_env_only_trans).
  destruct r3 as [U3|rc3]; injection Ha as <- <-; (split; [done|]).
  2: { by rewrite (Hn3 _ eq_refl). }
  intros Hl. destruct (lease_refusal ctx U3 s3) as [rc3|] eqn:El3; simpl in Hl.
  { revert El3 Hl. unfold lease_refusal. repeat case_match; congruence. }
  apply lease_refusal_none in El1 as [Hep Hlt1], El3 as [_ Hlt].
  apply validity_covers_true in Ev as (Hi & Hb & Hbe).
  destruct (Hu1 _ eq_refl) as (Hw & Hx1 & Hs1), (Hu3 _ eq_refl) as (_ & Hx3 & _).
  destruct (Hv2 eq_refl) as (Ht2 & Hs2 & Hc%check_version_and_time_ok).
  rewrite Hs2, Hs1 in Hx3. rewrite Hs1 in Ht2, Hc. destruct He1 as [e1 ->].
  split; [done|done|by exists U1|split; [done|]|by exists U3|];
    (eapply Forall_impl; [exact Hc|]; by intros item [? ?]).
Qed.

(* --------------------------------------------------------------------- *)
(** ** The pipeline                                                       *)
(* --------------------------------------------------------------------- *)

Lemma on_provider_keeps {A} (m : st P A) s a s' : on_provider m s = (a, s') -> keeps_ledger s s'.
Proof. unfold on_provider. destruct (m _). intros [= _ <-]. by repeat split. Qed.
Lemma save_journal_keeps e s : keeps_ledger s (save_journal e s).
Proof.
  unfold save_journal. destruct (on_provider _ s) as [rc s'] eqn:Eo. by eapply on_provider_keeps.
Qed.
Lemma rollback_keeps domain g s : keeps_ledger s (rollback domain g s).
Proof. unfold rollback. destruct (on_provider _ s) as [rc s'] eqn:Eo. by eapply on_provider_keeps. Qed.

(** The two ways the pipeline gives up: the result is ambiguous, or it is the
    provider's own error after a rollback. *)
Definition failure_result (r : ErrorCode * BusinessKeyImportState) : Prop :=
  r = (BUSINESS_KEY_OUTCOME_UNKNOWN, BIS_UNKNOWN) \/ (r.1 <> SUCCESS /\ r.2 = BIS_FAILED).

Lemma pipeline_failed_spec domain g rc e s r s' :
  rc <> SUCCESS -> pipeline_failed domain g rc e s = (r, s') -> failure_result r /\ keeps_ledger s s'.
Proof.
  intros Hrc. unfold pipeline_failed. destruct (is_outcome_unknown rc); intros [= <- <-].
  - split; [by left|apply save_journal_keeps].
  - split; [by right|]. eapply keeps_ledger_trans; [apply rollback_keeps|apply save_journal_keeps].
Qed.

Lemma verify_failed_spec domain g rc e s r s' :
  rc <> SUCCESS -> verify_failed domain g rc e s = (r, s') -> failure_result r /\ keeps_ledger s s'.
Proof.
  intros Hrc. unfold verify_failed. intros [= <- <-]. split; [by right|].
  eapply keeps_ledger_trans; [apply rollback_keeps|apply save_journal_keeps].
Qed.

(** The entry but for its phase and last error. *)
Definition same_entry (e e' : BusinessKeyJournalEntry) : Prop :=
  je_items e' = je_items e /\ je_request_id_digest e' = je_request_id_digest e /\
  je_request_digest e' = je_request_digest e /\ je_generation e' = je_generation e /\
  je_import_proof e' = je_import_proof e /\ je_created_at_ms e' = je_created_at_ms e.

Lemma same_entry_trans e1 e2 e3 : same_entry e1 e2 -> same_entry e2 e3 -> same_entry e1 e3.
Proof. unfold same_entry. intuition congruence. Qed.
Lemma set_phase_same p e : same_entry e (set_phase p e).
Proof. by repeat split. Qed.

Lemma unwrap_loop_spec rid domain b g rows e s r s' :
  unwrap_loop rid domain b g rows e s = (r, s') ->
  keeps_ledger s s' /\
  match r with
  | inl (kcvs, e') => length kcvs = length rows /\ same_entry e e'
  | inr f => failure_result f
  end.
Proof.
  revert e s r s'. induction rows as [|[item v] rows IH]; intros e s r s' Hu; simpl in Hu.
  { injection Hu as <- <-. split; [apply keeps_ledger_refl|by repeat split]. }
  destruct (on_provider _ s) as [[rc kcv] s1] eqn:Eo. apply on_provider_keeps in Eo as K1.
  destruct (is_success rc) eqn:Es; simpl in Hu.
  - destruct (unwrap_loop _ _ _ _ rows _ _) as [r1 s2] eqn:Er. apply IH in Er as [K2 Hr].
    assert (keeps_ledger s s2).
    { eapply keeps_ledger_trans; [exact K1|]. eapply keeps_ledger_trans; [apply save_journal_keeps|exact K2]. }
    destruct r1 as [[kcvs e']|f]; injection Hu as <- <-; (split; [done|]); [|done].
    destruct Hr as [Hlen He]. split; [simpl; congruence|].
    eapply same_entry_trans; [|exact He]. destruct (String.eqb _ _); [apply set_phase_same|by repeat split].
  - destruct (pipeline_failed _ _ _ _ _) as [f s2] eqn:Ef.
    apply pipeline_failed_spec in Ef as [Hf K2]; [|by intros ->].
    injection Hu as <- <-. split; [by eapply keeps_ledger_trans|done].
Qed.

Lemma verify_loop_ok domain items p :
  verify_loop domain items p = SUCCESS <->
  Forall (fun item => bp_verifyStaging domain (it_purpose item) p = SUCCESS) items.
Proof.
  induction items as [|item items IH]; simpl; [by split|]. rewrite Forall_cons, <- IH.
  destruct (is_success _) eqn:Es; simpl.
  - apply is_success_true in Es. by split; [|intros [_ ?]].
  - split; [intros Hc|intros [Hc _]]; rewrite Hc in Es; done.
Qed.

(** An attested item of the result, from the request it answers. *)
Definition attested (domain : string) (cert : bytes) (item : WrappedKeyItem) (t : BusinessKeyStatus) :
    Prop :=
  bs_state t = BKS_ACTIVE /\ bs_business_domain t = domain /\ bs_purpose t = it_purpose item /\
  bs_key_id t = it_key_id item /\ bs_business_key_version t = it_business_key_version item /\
  bs_algorithm t = it_algorithm item /\ zlen (bs_import_proof t) = kImportProofSizeP1363 /\
  bs_key_check_value_present t = true /\ bs_recipient_certificate_digest t = cert.

(** A status built from its item. *)
Definition status_of_item (domain : string) (item : WrappedKeyItem) (t : BusinessKeyStatus) : Prop :=
  exists v, t = staged_status domain item v.

Lemma proof_loop_spec rid domain cert rows s ts failed s' :
  Forall (fun r => status_of_item domain r.1 r.2.1) rows ->
  proof_loop rid domain cert rows s = ((ts, failed), s') ->
  keeps_ledger s s' /\ length ts = length rows /\
  (failed = false -> Forall2 (attested domain cert) rows.*1 ts).
Proof.
  revert s ts failed s'. induction rows as [|[item [t kcv]] rows IH]; intros s ts failed s' Hall Hp;
    simpl in Hp.
  { injection Hp as <- <- <-. split; [apply keeps_ledger_refl|]. split; [done|by constructor]. }
  inversion_clear Hall as [|?? [v Hv] Hrows]; simpl in Hv. subst t.
  destruct (on_provider _ s) as [[[rc proof] alg] s1] eqn:Eo. apply on_provider_keeps in Eo as K1.
  destruct (proof_loop _ _ _ rows s1) as [[ts1 failed1] s2] eqn:Er.
  apply IH in Er as (K2 & Hlen & Hok); [|done]. injection Hp as <- <- <-.
  split; [by eapply keeps_ledger_trans|]. split; [simpl; congruence|].
  intros Hf%orb_false_iff. destruct Hf as [Hn Hf1]. apply negb_false_iff in Hn. rewrite Hn.
  simpl. constructor; [|by apply Hok]. bool_simpl. by repeat split.
Qed.

Lemma update_ledger_same domain e g s : same_service s (update_ledger domain e g s).
Proof.
  unfold update_ledger. destruct (negb _); [by repeat split|]. generalize (je_items e) as l.
  intros l. assert (G : forall s0, same_service s s0 -> same_service s
    (fold_left (fun s it => (on_ledger (ledger_put (meta_of_item domain e g it)) s).2) l s0)).
  { induction l as [|it l IH]; intros s0 H0; simpl; [done|]. apply IH.
    eapply same_service_trans; [exact H0|]. unfold on_ledger. destruct (ledger_put _ _). by repeat split. }
  apply G. by repeat split.
Qed.

Lemma update_ledger_provider domain e g s :
  sv_provider (update_ledger domain e g s) = sv_provider s.
Proof.
  unfold update_ledger. destruct (negb _); [done|]. generalize (je_items e) as l. intros l.
  assert (G : forall s0, sv_provider
    (fold_left (fun s it => (on_ledger (ledger_put (meta_of_item domain e g it)) s).2) l s0) =
    sv_provider s0).
  { induction l as [|it l IH]; intros s0; simpl; [done|]. rewrite IH. unfold on_ledger.
    by destruct (ledger_put _ _). }
  apply G.
Qed.

(** What a finished import answers. *)
Definition committed_answer (rid domain : string) (items : list WrappedKeyItem) (cert : bytes)
    (out : ImportResult) : Prop :=
  ir_state out = BIS_COMMITTED /\ ir_binding_certificate_digest out = cert /\
  ir_proof_algorithm out = kImportProofAlgorithmP1363 /\
  Forall2 (attested domain cert) items (ir_items out).

Lemma zip_rows {A B C} (l : list A) (k : list B) (m : list C) :
  length k = length l -> length m = length l -> (zip l (zip k m)).*1 = l.
Proof. intros Hk Hm. apply fst_zip. rewrite length_zip. lia. Qed.

Lemma staged_rows domain items vs (kcvs : list kcv3) :
  Forall (fun r : WrappedKeyItem * (BusinessKeyStatus * kcv3) => status_of_item domain r.1 r.2.1)
    (zip items (zip (zip_with (staged_status domain) items vs) kcvs)).
Proof.
  revert vs kcvs. induction items as [|item items IH]; intros [|v vs] [|k kcvs]; simpl;
    try by constructor. constructor; [by exists v|apply IH].
Qed.

Lemma finish_import_spec rid domain items vs b g now kcvs e out s rc out' s' :
  length vs = length items -> length kcvs = length items ->
  je_items e = zip_with (staged_status domain) items vs ->
  finish_import rid domain items b g now kcvs e out s = ((rc, out'), s') ->
  same_service s s' /\
  ((rc = SUCCESS /\ committed_answer rid domain items (db_active_cert_digest b) out') \/
   (rc = BUSINESS_KEY_OUTCOME_UNKNOWN /\ out' = res_state BIS_UNKNOWN out /\
    sv_ledger s' = sv_ledger s)).
Proof.
  intros Hv Hk He Hf. unfold finish_import in Hf.
  destruct (trusted_now_ms now s) as [[trc t] s1] eqn:Et.
  apply trusted_now_env, sv_env_only_keeps in Et as [K1 _]. cbn [je_items entry_bound entry_succeeded
    je_binding_certificate_digest] in Hf. rewrite He in Hf.
  destruct (proof_loop _ _ _ _ s1) as [[ts failed] s2] eqn:Ep.
  apply proof_loop_spec in Ep as (K2 & Hlen & Hok); [|apply staged_rows].
  assert (K : keeps_ledger s s2) by by eapply keeps_ledger_trans.
  destruct failed; injection Hf as <- <- <-.
  - pose proof (keeps_ledger_trans _ _ _ K (save_journal_keeps (set_last_error
      "IMPORT_ATTESTATION_FAILED" (set_phase BIP_OUTCOME_UNKNOWN (entry_items ts (entry_bound
      kImportProofAlgorithmP1363 (db_active_cert_digest b) (entry_succeeded t
      (bp_providerVersionDigest (sv_provider s1)) e))))) s2)) as [K3 L3].
    split; [exact K3|]. right. by split_and!.
  - split.
    + eapply same_service_trans; [|apply update_ledger_same].
      eapply keeps_ledger_trans; [exact K|apply save_journal_keeps].
    + left. split; [done|]. specialize (Hok eq_refl). rewrite zip_rows in Hok.
      * by split_and!.
      * rewrite length_zip_with. lia.
      * done.
Qed.

(** The outcome of a pipeline run. *)
Lemma run_pipeline_spec rid domain items vs b rd dg g now out s rc out' s' :
  length vs = length items ->
  run_pipeline rid domain items vs b rd dg g now out s = ((rc, out'), s') ->
  same_service s s' /\
  ((rc = SUCCESS /\ committed_answer rid domain items (db_active_cert_digest b) out') \/
   (failure_result (rc, ir_state out') /\ sv_ledger s' = sv_ledger s)).
Proof.
  intros Hv Hr. unfold run_pipeline in Hr. cbv zeta in Hr.
  set (e0 := initial_entry _ _ _ _ _ _ _ _) in Hr.
  destruct (unwrap_loop _ _ _ _ _ _ _) as [r s1] eqn:Eu.
  apply unwrap_loop_spec in Eu as [K1 Hu].
  assert (K0 : keeps_ledger s s1) by (eapply keeps_ledger_trans; [apply save_journal_keeps|exact K1]).
  assert (Fail : forall f s2, failure_result f -> keeps_ledger s s2 ->
    same_service s s2 /\ ((f.1 = SUCCESS /\ committed_answer rid domain items
      (db_active_cert_digest b) (res_state f.2 out)) \/
      (failure_result (f.1, ir_state (res_state f.2 out)) /\ sv_ledger s2 = sv_ledger s))).
  { intros [frc fst] s2 Hf [Hs Hl]. split; [done|]. by right. }
  destruct r as [[kcvs e1]|f]; [|injection Hr as <- <- <-; by apply Fail].
  destruct Hu as [Hk (Hitems & _)]. rewrite length_zip, Hv, Nat.min_id in Hk.
  set (s2 := save_journal (set_phase BIP_BOTH_STAGED e1) s1) in Hr.
  assert (K2 : keeps_ledger s s2) by (eapply keeps_ledger_trans; [exact K0|apply save_journal_keeps]).
  destruct (is_success (verify_loop _ _ _)) eqn:Ev; cbn [negb] in Hr.
  2: { destruct (verify_failed _ _ _ _ _) as [f s3] eqn:Ef. apply verify_failed_spec in Ef as [Hf K3].
       - injection Hr as <- <- <-. apply Fail; [done|by eapply keeps_ledger_trans].
       - intros Hc. by rewrite Hc in Ev. }
  set (s3 := save_journal _ s2) in Hr.
  assert (K3 : keeps_ledger s s3) by (eapply keeps_ledger_trans; [exact K2|apply save_journal_keeps]).
  destruct (on_provider _ s3) as [crc s4] eqn:Ec. apply on_provider_keeps in Ec as K4'.
  assert (K4 : keeps_ledger s s4) by by eapply keeps_ledger_trans.
  destruct (is_success crc) eqn:Es; cbn [negb] in Hr.
  - apply (finish_import_spec _ _ _ vs) in Hr as [Hs Hcase]; [|done|done|by simpl; rewrite Hitems].
    destruct K4 as [S4 L4]. split; [by eapply same_service_trans|].
    destruct Hcase as [?|(-> & -> & Hl)]; [by left|]. right. split; [by left|congruence].
  - destruct (pipeline_failed _ _ _ _ _) as [f s5] eqn:Ef.
    apply pipeline_failed_spec in Ef as [Hf K5]; [|by intros ->].
    injection Hr as <- <- <-. apply Fail; [done|by eapply keeps_ledger_trans].
Qed.

(* --------------------------------------------------------------------- *)
(** ** Recovery                                                           *)
(* --------------------------------------------------------------------- *)

Lemma recover_entry_spec e s e' s' :
  recover_entry e s = (e', s') ->
  same_service s s' /\ je_request_id_digest e' = je_request_id_digest e /\
  je_generation e' = je_generation e /\ je_request_digest e' = je_request_digest e /\
  if both_active (sv_cfg s) (je_generation e) (sv_provider s)
  then je_phase e' = BIP_SUCCEEDED /\ je_items e' = (status_state BKS_ACTIVE <$> je_items e) /\
       je_import_proof e' = je_import_proof e /\
       sv_provider s' = (bp_saveJournal e' (sv_provider s)).2
  else je_phase e' = BIP_FAILED /\ je_items e' = je_items e /\ sv_ledger s' = sv_ledger s /\
       sv_provider s' = (bp_saveJournal e'
         (bp_rollbackStaging kBusinessDomainV2c (je_generation e) (sv_provider s)).2).2.
Proof.
  unfold recover_entry. destruct (trusted_now_ms 0 s) as [[trc now] s1] eqn:Et.
  apply trusted_now_env in Et as [x ->]. cbn [sv_cfg sv_provider sv_with_env].
  destruct (both_active _ _ _); intros [= <- <-].
  - split; [eapply same_service_trans; [|apply update_ledger_same];
      pose proof (save_journal_keeps (entry_items (status_state BKS_ACTIVE <$> je_items e)
        (entry_succeeded now (bp_providerVersionDigest (sv_provider s)) e)) (sv_with_env x s)) as [K _];
      exact K|].
    split_and!; try done. rewrite update_ledger_provider. unfold save_journal, on_provider. simpl.
    by destruct (bp_saveJournal _ _).
  - unfold save_journal, rollback, on_provider. simpl.
    destruct (bp_rollbackStaging _ _ _) as [rrc p]. simpl.
    destruct (bp_saveJournal _ p) as [src p2]. simpl. by split_and!.
Qed.

Lemma recover_on_startup_same s : same_service s (recover_on_startup s).
Proof.
  unfold recover_on_startup. generalize (bp_listJournal (sv_provider s)) as l. intros l.
  assert (G : forall s0, same_service s s0 -> same_service s (fold_left (fun s entry =>
    if settled (je_phase entry) then s else (recover_entry entry s).2) l s0)).
  { induction l as [|e l IH]; intros s0 H0; simpl; [done|]. apply IH.
    destruct (settled _); [done|]. destruct (recover_entry e s0) as [e' s'] eqn:Er.
    apply recover_entry_spec in Er as [Hs _]. by eapply same_service_trans. }
  apply G. by repeat split.
Qed.

Lemma import_existing_spec dg e out s rc out' s' :
  import_existing dg e out s = ((rc, out'), s') ->
  (je_request_digest e <> "" /\ je_request_digest e <> dg /\ rc = BUSINESS_KEY_CONFLICT /\
     ir_state out' = BIS_FAILED /\ s' = s) \/
  ((je_request_digest e = "" \/ je_request_digest e = dg) /\
   ((je_phase e = BIP_SUCCEEDED /\ rc = SUCCESS /\ out' = build_committed_result e out /\ s' = s) \/
    (je_phase e = BIP_FAILED /\ rc = BUSINESS_KEY_IMPORT_UNKNOWN /\ s' = s) \/
    (settled (je_phase e) = false /\ s' = (recover_entry e s).2 /\
      ((rc = SUCCESS /\ both_active (sv_cfg s) (je_generation e) (sv_provider s) = true /\
        out' = build_committed_result (recover_entry e s).1 out) \/
       (rc = BUSINESS_KEY_PARTIAL_ROLLBACK /\
        both_active (sv_cfg s) (je_generation e) (sv_provider s) = false /\
        ir_state out' = BIS_FAILED))))).
Proof.
  unfold import_existing. intros Hi.
  destruct (negb (str_empty _) && _) eqn:Ec.
  { left. apply andb_true_iff in Ec as [E1 E2]. apply negb_true_iff in E1, E2.
    apply str_empty_false in E1. apply String.eqb_neq in E2. by injection Hi as <- <- <-. }
  right. split.
  { apply andb_false_iff in Ec as [E1|E1]; apply negb_false_iff in E1.
    - left. by apply str_empty_true.
    - right. by apply String.eqb_eq. }
  destruct (bool_decide (je_phase e = BIP_SUCCEEDED)) eqn:E1.
  { left. bool_simpl. by injection Hi as <- <- <-. }
  right. destruct (bool_decide (je_phase e = BIP_FAILED)) eqn:E2.
  { left. bool_simpl. by injection Hi as <- <- <-. }
  right. split; [unfold settled; by rewrite E1, E2|].
  destruct (recover_entry e s) as [e' s1] eqn:Er. apply recover_entry_spec in Er as (_&_&_&_&Hb).
  destruct (both_active _ _ _); destruct Hb as [Hph _]; rewrite Hph in Hi; simpl in Hi; injection Hi as <- <- <-.
  - split; [done|]. by left.
  - split; [done|]. by right.
Qed.
End Frames.
