(* ===== verification/Protocol.v ===== *)
(** * The provider protocol of an import.
    The abstract specification of [run_pipeline]: which provider calls it makes, in
    which order, and how the result code follows from them. A provider that
    records its state-changing calls makes them observable; the theorem says that
    every run of the pipeline is a run of the state machine below. *)
From S2P Require Import Prelude Errors Canonical KeyTypes Envelope Json Provider Ledger SoftFile SoftFileProps TimeTypes TrustedTime Provisioning Import ImportSample ImportFacts.

(* --------------------------------------------------------------------- *)
(** ** A recording provider                                               *)
(* --------------------------------------------------------------------- *)

(** A recorded call, with the provider state it was made in where the machine
    needs it. *)
Inductive Event (P : Type) :=
  | EvSave (p : P) (phase : BusinessKeyImportPhase)
  | EvUnwrap (purpose : string) (generation : Z) (rc : ErrorCode)
  | EvCommit (generation : Z) (rc : ErrorCode)
  | EvRollback (generation : Z)
  | EvProof (purpose : string) (ok : bool).
Arguments EvSave {P}. Arguments EvUnwrap {P}. Arguments EvCommit {P}.
Arguments EvRollback {P}. Arguments EvProof {P}.

Record Logged (P : Type) := mkLogged { lo_provider : P; lo_log : list (Event P) }.
Arguments mkLogged {P}. Arguments lo_provider {P}. Arguments lo_log {P}.

Section Recording.
Context {P : Type} `{Prov : BusinessKeyProvider P}.

(** Run a call and record what [ev] makes of its state and answer. *)
Definition record {A} (ev : P -> A -> list (Event P)) (m : st P A) : st (Logged P) A := fun l =>
  let '(a, p) := m (lo_provider l) in (a, mkLogged p (lo_log l ++ ev (lo_provider l) a)).

#[global] Instance LoggedProvider : BusinessKeyProvider (Logged P) := {|
  bp_initialize := record (fun _ _ => []) bp_initialize;
  bp_isReady l := bp_isReady (lo_provider l);
  bp_providerVersionDigest l := bp_providerVersionDigest (lo_provider l);
  bp_capability l := bp_capability (lo_provider l);
  bp_unwrapToStaging d item ps aad info b g :=
    record (fun _ r => [EvUnwrap (it_purpose item) g r.1])
      (bp_unwrapToStaging d item ps aad info b g);
  bp_verifyStaging d p l := bp_verifyStaging d p (lo_provider l);
  bp_commitBatch d g := record (fun _ rc => [EvCommit g rc]) (bp_commitBatch d g);
  bp_rollbackStaging d g := record (fun _ _ => [EvRollback g]) (bp_rollbackStaging d g);
  bp_querySlot d p l := bp_querySlot d p (lo_provider l);
  bp_generateProof d p v r k ed kc :=
    record (fun _ r => [EvProof p (is_success r.1.1 && (zlen r.1.2 =? kImportProofSizeP1363))])
      (bp_generateProof d p v r k ed kc);
  bp_loadJournalEx r l := bp_loadJournalEx r (lo_provider l);
  bp_hasTransactionResidue r l := bp_hasTransactionResidue r (lo_provider l);
  bp_storageReplaced l := bp_storageReplaced (lo_provider l);
  bp_saveJournal e := record (fun p _ => [EvSave p (je_phase e)]) (bp_saveJournal e);
  bp_listJournal l := bp_listJournal (lo_provider l);
  bp_hasPendingStaging l := bp_hasPendingStaging (lo_provider l)
|}.
End Recording.

(* --------------------------------------------------------------------- *)
(** ** The state machine                                                  *)
(* --------------------------------------------------------------------- *)

(** Where an import is. [todo] are the items still to be handled. *)
Inductive Stage :=
  | Fresh
  | Staging (todo : list WrappedKeyItem)
  | Staged (todo : list WrappedKeyItem)
  | Checking
  | Committing
  | Attesting (todo : list WrappedKeyItem) (ok : bool)
  | Aborting (rc : ErrorCode)
  | RolledBack (rc : ErrorCode)
  | Ambiguous
  | Closed (rc : ErrorCode).

(** Where a failing call leads: ambiguous answers are kept, others rolled back. *)
Definition back_out (rc : ErrorCode) : Stage := if is_outcome_unknown rc then Ambiguous else Aborting rc.

Section Machine.
Context {P : Type} `{Prov : BusinessKeyProvider P} (domain : string) (items : list WrappedKeyItem)
  (g : Z).

(** One provider call. The commit phase is only journalled in a state where every
    staged slot verifies. *)
Inductive stage_step : Stage -> Event P -> Stage -> Prop :=
  | st_begin p : stage_step Fresh (EvSave p BIP_PROCESSING) (Staging items)
  | st_unwrap item todo :
      stage_step (Staging (item :: todo)) (EvUnwrap (it_purpose item) g SUCCESS) (Staged todo)
  | st_unwrap_fail item todo rc : rc <> SUCCESS ->
      stage_step (Staging (item :: todo)) (EvUnwrap (it_purpose item) g rc) (back_out rc)
  | st_staged p ph todo : ph = BIP_PROCESSING \/ ph = BIP_UPLINK_STAGED ->
      stage_step (Staged todo) (EvSave p ph) (Staging todo)
  | st_both p : stage_step (Staging []) (EvSave p BIP_BOTH_STAGED) Checking
  | st_check p : Forall (fun i => bp_verifyStaging domain (it_purpose i) p = SUCCESS) items ->
      stage_step Checking (EvSave p BIP_COMMITTING) Committing
  | st_check_fail rc : rc <> SUCCESS -> stage_step Checking (EvRollback g) (RolledBack rc)
  | st_commit : stage_step Committing (EvCommit g SUCCESS) (Attesting items true)
  | st_commit_fail rc : rc <> SUCCESS -> stage_step Committing (EvCommit g rc) (back_out rc)
  | st_proof item todo ok b :
      stage_step (Attesting (item :: todo) ok) (EvProof (it_purpose item) b) (Attesting todo (ok && b))
  | st_done p : stage_step (Attesting [] true) (EvSave p BIP_SUCCEEDED) (Closed SUCCESS)
  | st_unattested p :
      stage_step (Attesting [] false) (EvSave p BIP_OUTCOME_UNKNOWN) (Closed BUSINESS_KEY_OUTCOME_UNKNOWN)
  | st_rollback rc : stage_step (Aborting rc) (EvRollback g) (RolledBack rc)
  | st_failed p rc : stage_step (RolledBack rc) (EvSave p BIP_FAILED) (Closed rc)
  | st_ambiguous p :
      stage_step Ambiguous (EvSave p BIP_OUTCOME_UNKNOWN) (Closed BUSINESS_KEY_OUTCOME_UNKNOWN).

(** A run of the machine over a word of calls. *)
Inductive stage_run : Stage -> list (Event P) -> Stage -> Prop :=
  | run_nil a : stage_run a [] a
  | run_cons a ev b tr c : stage_step a ev b -> stage_run b tr c -> stage_run a (ev :: tr) c.

Lemma stage_run_one a ev b : stage_step a ev b -> stage_run a [ev] b.
Proof. intros Hs. by eapply run_cons, run_nil. Qed.
Lemma stage_run_app a tr1 b tr2 c : stage_run a tr1 b -> stage_run b tr2 c -> stage_run a (tr1 ++ tr2) c.
Proof. induction 1; [done|]. intros Hc. simpl. eapply run_cons; eauto. Qed.
Lemma stage_run_snoc a tr b ev c : stage_run a tr b -> stage_step b ev c -> stage_run a (tr ++ [ev]) c.
Proof. intros Hr Hs. eapply stage_run_app; [exact Hr|by apply stage_run_one]. Qed.

(** What a run can only mean. *)
Lemma closed_final rc tr c : stage_run (Closed rc) tr c -> tr = [] /\ c = Closed rc.
Proof. inversion 1 as [|? ? ? ? ? Hs]; [done|inversion Hs]. Qed.
End Machine.
#[export] Hint Constructors stage_step : sec.
#[export] Hint Resolve stage_run_one : sec.

(* --------------------------------------------------------------------- *)
(** ** The pipeline follows it                                            *)
(* --------------------------------------------------------------------- *)

Section Simulation.
Context {P D E : Type} `{Prov : BusinessKeyProvider P} `{Store : LedgerStore D} `{J : Json}
  `{SEnv : ServiceEnv E} `{Hash : Sha256} `{PB : Protobuf} `{EC : EcP256}.
Implicit Types s : Service (Logged P) D E.

(** [tr] was recorded between the two states. *)
Definition recorded s (tr : list (Event P)) s' : Prop :=
  lo_log (sv_provider s') = lo_log (sv_provider s) ++ tr.

Lemma recorded_nil s s' : sv_provider s' = sv_provider s -> recorded s [] s'.
Proof. unfold recorded. intros ->. by rewrite app_nil_r. Qed.
Lemma recorded_trans s1 t1 s2 t2 s3 : recorded s1 t1 s2 -> recorded s2 t2 s3 -> recorded s1 (t1 ++ t2) s3.
Proof. unfold recorded. intros H1 H2. by rewrite H2, H1, app_assoc. Qed.

Lemma save_journal_recorded e s :
  recorded s [EvSave (lo_provider (sv_provider s)) (je_phase e)] (save_journal e s).
Proof.
  unfold recorded, save_journal, on_provider. simpl. unfold record.
  by destruct (bp_saveJournal e _).
Qed.
Lemma rollback_recorded domain g s : recorded s [EvRollback g] (rollback domain g s).
Proof.
  unfold recorded, rollback, on_provider. simpl. unfold record. by destruct (bp_rollbackStaging _ _ _).
Qed.
Lemma env_only_recorded s s' : sv_env_only s s' -> recorded s [] s'.
Proof. intros [e ->]. by apply recorded_nil. Qed.

Lemma pipeline_failed_runs domain items g rc e s r s' :
  pipeline_failed domain g rc e s = (r, s') ->
  exists tr, recorded s tr s' /\ stage_run domain items g (back_out rc) tr (Closed r.1).
Proof.
  unfold pipeline_failed, back_out. destruct (is_outcome_unknown rc); intros [= <- <-].
  - eexists. split; [apply save_journal_recorded|]. apply stage_run_one, st_ambiguous.
  - eexists. split; [eapply recorded_trans; [apply rollback_recorded|apply save_journal_recorded]|].
    eapply run_cons; [apply st_rollback|]. apply stage_run_one, st_failed.
Qed.

Lemma verify_failed_runs domain items g vrc e s r s' : vrc <> SUCCESS ->
  verify_failed domain g vrc e s = (r, s') ->
  exists tr, recorded s tr s' /\ stage_run domain items g Checking tr (Closed r.1).
Proof.
  intros Hv. unfold verify_failed. intros [= <- <-]. eexists.
  split; [eapply recorded_trans; [apply rollback_recorded|apply save_journal_recorded]|].
  eapply run_cons; [by apply st_check_fail|]. apply stage_run_one, st_failed.
Qed.

Lemma commit_recorded domain g s crc s' :
  on_provider (bp_commitBatch domain g) s = (crc, s') -> recorded s [EvCommit g crc] s'.
Proof.
  unfold on_provider. simpl. unfold record. destruct (bp_commitBatch _ _ _) as [c p].
  by intros [= -> <-].
Qed.

Lemma unwrap_loop_runs rid domain b items g rows e s r s' :
  je_phase e = BIP_PROCESSING \/ je_phase e = BIP_UPLINK_STAGED ->
  unwrap_loop rid domain b g rows e s = (r, s') ->
  exists tr, recorded s tr s' /\
    match r with
    | inl _ => stage_run domain items g (Staging rows.*1) tr (Staging [])
    | inr f => stage_run domain items g (Staging rows.*1) tr (Closed f.1)
    end.
Proof.
  revert e s r s'. induction rows as [|[item v] rows IH]; intros e s r s' Hph Hu; simpl in Hu.
  { injection Hu as <- <-. exists []. split; [by apply recorded_nil|apply run_nil]. }
  destruct (on_provider _ s) as [[rc kcv] s1] eqn:Eo.
  assert (R1 : recorded s [EvUnwrap (it_purpose item) g rc] s1).
  { unfold on_provider in Eo. simpl in Eo. unfold record in Eo.
    destruct (bp_unwrapToStaging _ _ _ _ _ _ _ _) as [[rc0 k0] p0]. injection Eo as <- <- <-. done. }
  destruct (is_success rc) eqn:Es; cbn [negb] in Hu.
  - apply is_success_true in Es. subst rc.
    set (e1 := if String.eqb _ _ then _ else _) in Hu.
    assert (Hph1 : je_phase e1 = BIP_PROCESSING \/ je_phase e1 = BIP_UPLINK_STAGED).
    { unfold e1. destruct (String.eqb _ _); [by right|done]. }
    destruct (unwrap_loop _ _ _ _ rows _ _) as [r1 s2] eqn:Er.
    apply (IH _ _ _ _ Hph1) in Er as (tr & R2 & Hr).
    assert (R : recorded s (([EvUnwrap (it_purpose item) g SUCCESS] ++
        [EvSave (lo_provider (sv_provider s1)) (je_phase e1)]) ++ tr) s2).
    { eapply recorded_trans; [|exact R2].
      eapply recorded_trans; [exact R1|apply save_journal_recorded]. }
    destruct r1 as [[kcvs e']|f]; injection Hu as <- <-; eexists; (split; [exact R|]); simpl;
      (eapply run_cons; [apply st_unwrap|]); (eapply run_cons; [by apply st_staged|exact Hr]).
  - destruct (pipeline_failed _ _ _ _ _) as [f s2] eqn:Ef. injection Hu as <- <-.
    apply (pipeline_failed_runs _ items) in Ef as (tr & R2 & Hr).
    eexists. split; [eapply recorded_trans; [exact R1|exact R2]|].
    simpl. eapply run_cons; [|exact Hr]. apply st_unwrap_fail. by intros ->.
Qed.

Lemma proof_loop_runs rid domain cert items g rows s ts failed s' ok :
  Forall (fun r => status_of_item domain r.1 r.2.1) rows ->
  proof_loop rid domain cert rows s = ((ts, failed), s') ->
  exists tr, recorded s tr s' /\
    stage_run domain items g (Attesting rows.*1 ok) tr (Attesting [] (ok && negb failed)).
Proof.
  revert s ts failed s' ok. induction rows as [|[item [t kcv]] rows IH];
    intros s ts failed s' ok Hall Hp; simpl in Hp.
  { injection Hp as <- <- <-. exists []. split; [by apply recorded_nil|]. rewrite andb_true_r. apply run_nil. }
  inversion_clear Hall as [|?? [v Hv] Hrows]; simpl in Hv. subst t.
  destruct (on_provider _ s) as [[[rc proof] alg] s1] eqn:Eo.
  assert (R1 : recorded s [EvProof (it_purpose item)
      (is_success rc && (zlen proof =? kImportProofSizeP1363))] s1).
  { unfold on_provider in Eo. simpl in Eo. unfold record in Eo.
    destruct (bp_generateProof _ _ _ _ _ _ _ _) as [[[rc0 p0] a0] q0]. injection Eo as -> -> -> <-. done. }
  destruct (proof_loop _ _ _ rows s1) as [[ts1 failed1] s2] eqn:Er.
  apply (IH _ _ _ _ (ok && (is_success rc && (zlen proof =? kImportProofSizeP1363)))) in Er
    as (tr & R2 & Hr); [|done].
  injection Hp as <- <- <-. eexists. split; [eapply recorded_trans; [exact R1|exact R2]|].
  simpl. eapply run_cons; [apply st_proof|].
  rewrite negb_orb, negb_involutive, (andb_assoc ok _ (negb failed1)). exact Hr.
Qed.

Lemma finish_import_runs rid domain items vs b g now kcvs e out s rc out' s' :
  length vs = length items -> length kcvs = length items ->
  je_items e = zip_with (staged_status domain) items vs ->
  finish_import rid domain items b g now kcvs e out s = ((rc, out'), s') ->
  exists tr, recorded s tr s' /\ stage_run domain items g (Attesting items true) tr (Closed rc).
Proof.
  intros Hv Hk He Hf. unfold finish_import in Hf.
  destruct (trusted_now_ms now s) as [[trc t] s1] eqn:Et.
  apply trusted_now_env, env_only_recorded in Et as R1.
  cbn [je_items entry_bound entry_succeeded je_binding_certificate_digest] in Hf. rewrite He in Hf.
  destruct (proof_loop _ _ _ _ s1) as [[ts failed] s2] eqn:Ep.
  apply (proof_loop_runs _ _ _ items g _ _ _ _ _ true) in Ep as (tr & R2 & Hr); [|apply staged_rows].
  rewrite zip_rows in Hr by (rewrite ?length_zip_with; lia). simpl in Hr.
  assert (R : recorded s ([] ++ tr) s2) by by eapply recorded_trans.
  destruct failed; injection Hf as <- <- <-.
  - eexists. split; [eapply recorded_trans; [exact R|apply save_journal_recorded]|].
    simpl. eapply stage_run_snoc; [exact Hr|apply st_unattested].
  - eexists. split.
    + unfold recorded. rewrite update_ledger_provider.
      eapply (recorded_trans _ _ s2); [exact R|apply save_journal_recorded].
    + simpl. eapply stage_run_snoc; [exact Hr|apply st_done].
Qed.

(** C8. The import protocol. Whatever the provider answers, the calls one run of
    the pipeline makes are a run of the state machine that ends closed with the
    code returned: journalled before the first unwrap and after every one, both
    slots staged and journalled, commit only from a state where each of them
    verifies, attestations only after a successful commit, [SUCCESS] only with
    one valid attestation per item and a final journal write, a rollback for
    every definite failure and never one after an ambiguous answer. *)
Theorem run_pipeline_protocol rid domain items vs b rd dg g now out s rc out' s' :
  length vs = length items ->
  run_pipeline rid domain items vs b rd dg g now out s = ((rc, out'), s') ->
  exists tr, recorded s tr s' /\ stage_run domain items g Fresh tr (Closed rc).
Proof.
  intros Hv Hr. unfold run_pipeline in Hr. cbv zeta in Hr.
  set (e0 := initial_entry _ _ _ _ _ _ _ _) in Hr.
  destruct (unwrap_loop _ _ _ _ _ _ _) as [r s1] eqn:Eu.
  pose proof (unwrap_loop_spec _ _ _ _ _ _ _ _ _ Eu) as [_ Hu].
  apply (unwrap_loop_runs _ _ _ items) in Eu as (tr1 & R1 & H1); [|by left].
  rewrite fst_zip in H1 by lia.
  pose proof (recorded_trans _ _ _ _ _ (save_journal_recorded e0 s) R1) as R0.
  assert (H0 : forall c, stage_run domain items g (Staging items) tr1 c ->
    stage_run domain items g Fresh (EvSave (lo_provider (sv_provider s)) (je_phase e0) :: tr1) c).
  { intros c. eapply run_cons, st_begin. }
  destruct r as [[kcvs e1]|f].
  2: { injection Hr as <- <- <-. eexists. split; [exact R0|]. simpl. by apply H0. }
  apply H0 in H1. destruct Hu as [Hk (Hitems & _)]. rewrite length_zip, Hv, Nat.min_id in Hk.
  set (s2 := save_journal (set_phase BIP_BOTH_STAGED e1) s1) in Hr.
  pose proof (recorded_trans _ _ _ _ s2 R0 (save_journal_recorded _ s1)) as R2.
  assert (H2 := stage_run_snoc _ _ _ _ _ _ _ _ H1 (st_both _ _ _ (lo_provider (sv_provider s1)))).
  destruct (is_success (verify_loop _ _ _)) eqn:Ev; cbn [negb] in Hr.
  2: { destruct (verify_failed _ _ _ _ _) as [f s3] eqn:Ef. injection Hr as <- <- <-.
       apply (verify_failed_runs _ items) in Ef as (tr3 & R3 & H3); [|intros Hc; by rewrite Hc in Ev].
       eexists. split; [eapply recorded_trans; [exact R2|exact R3]|]. by eapply stage_run_app. }
  apply is_success_true, verify_loop_ok in Ev.
  set (s3 := save_journal _ s2) in Hr.
  pose proof (recorded_trans _ _ _ _ s3 R2 (save_journal_recorded _ s2)) as R3.
  assert (H3 := stage_run_snoc _ _ _ _ _ _ _ _ H2 (st_check _ _ _ (lo_provider (sv_provider s2)) Ev)).
  destruct (on_provider _ s3) as [crc s4] eqn:Ec.
  pose proof (recorded_trans _ _ _ _ s4 R3 (commit_recorded _ _ _ _ _ Ec)) as R4.
  destruct (is_success crc) eqn:Es; cbn [negb] in Hr.
  - apply is_success_true in Es. subst crc.
    apply (finish_import_runs _ _ _ vs) in Hr as (tr5 & R5 & H5); [|done|done|by simpl; rewrite Hitems].
    eexists. split; [eapply recorded_trans; [exact R4|exact R5]|].
    eapply stage_run_app; [|exact H5]. eapply stage_run_snoc; [exact H3|apply st_commit].
  - destruct (pipeline_failed _ _ _ _ _) as [f s5] eqn:Ef.
    apply (pipeline_failed_runs _ items) in Ef as (tr5 & R5 & H5). injection Hr as <- <- <-.
    eexists. split; [eapply recorded_trans; [exact R4|exact R5]|].
    eapply stage_run_app; [|exact H5]. eapply stage_run_snoc; [exact H3|].
    apply st_commit_fail. by intros ->.
Qed.
(* --------------------------------------------------------------------- *)
(** ** What the answers mean for the caller                                *)
(* --------------------------------------------------------------------- *)

(** The answers after which it is unknown whether the keys were established. *)
Definition ambiguous (rc : ErrorCode) : Prop :=
  rc = INTERNAL_ERROR \/ rc = STORAGE_WRITE_FAILED \/ rc = NOT_INITIALIZED.

(** A call that succeeded, or a journal write. *)
Definition passed (ev : Event P) : Prop :=
  match ev with
  | EvSave _ _ => True
  | EvUnwrap _ _ rc => rc = SUCCESS
  | EvCommit _ rc => rc = SUCCESS
  | EvRollback _ => False
  | EvProof _ ok => ok = true
  end.

(** The unwrap of one of the items, or the commit, answered [rc]. *)
Definition answered (items : list WrappedKeyItem) (g : Z) (ev : Event P) (rc : ErrorCode) : Prop :=
  ev = EvCommit g rc \/ exists item, item ∈ items /\ ev = EvUnwrap (it_purpose item) g rc.

(** The code and the coarse state a run reports, from the calls it made. *)
Inductive verdict (domain : string) (items : list WrappedKeyItem) (g : Z) (tr : list (Event P)) :
    ErrorCode -> BusinessKeyImportState -> Prop :=
  | vd_done before p : Forall passed before -> EvCommit g SUCCESS ∈ before ->
      tr = before ++ [EvSave p BIP_SUCCEEDED] -> verdict domain items g tr SUCCESS BIS_COMMITTED
  | vd_ambiguous before ev rc p : Forall passed before -> answered items g ev rc -> ambiguous rc ->
      tr = before ++ [ev; EvSave p BIP_OUTCOME_UNKNOWN] ->
      verdict domain items g tr BUSINESS_KEY_OUTCOME_UNKNOWN BIS_UNKNOWN
  | vd_refused before ev rc p : Forall passed before -> answered items g ev rc ->
      rc <> SUCCESS -> ~ ambiguous rc ->
      tr = before ++ [ev; EvRollback g; EvSave p BIP_FAILED] -> verdict domain items g tr rc BIS_FAILED
  | vd_unverified before rc p q : Forall passed before -> rc <> SUCCESS ->
      (forall c, EvCommit g c ∉ before) ->
      (exists item, item ∈ items /\ bp_verifyStaging domain (it_purpose item) q = rc) ->
      tr = before ++ [EvRollback g; EvSave p BIP_FAILED] -> verdict domain items g tr rc BIS_FAILED
  | vd_unattested before proofs p : Forall passed before -> EvCommit g SUCCESS ∈ before ->
      Forall (fun ev => exists purpose ok, ev = EvProof purpose ok) proofs ->
      (exists purpose, EvProof purpose false ∈ proofs) ->
      tr = before ++ proofs ++ [EvSave p BIP_OUTCOME_UNKNOWN] ->
      verdict domain items g tr BUSINESS_KEY_OUTCOME_UNKNOWN BIS_UNKNOWN.

Lemma is_outcome_unknown_ambiguous rc : is_outcome_unknown rc = true <-> ambiguous rc.
Proof. unfold ambiguous. split; [destruct rc; simpl; auto; done|by intros [->|[->| ->]]]. Qed.

(** A failing call ends the run: what was recorded before it passed. *)
Lemma failing_call_verdict domain items g rc e s r s' before ev s0 :
  rc <> SUCCESS -> answered items g ev rc -> Forall passed before ->
  recorded s0 (before ++ [ev]) s -> pipeline_failed domain g rc e s = (r, s') ->
  exists tr, recorded s0 tr s' /\ verdict domain items g tr r.1 r.2.
Proof.
  intros Hne Ha Hb R. unfold pipeline_failed. destruct (is_outcome_unknown rc) eqn:Eu; intros [= <- <-].
  - eexists. split; [eapply recorded_trans; [exact R|apply save_journal_recorded]|].
    rewrite <- app_assoc. eapply vd_ambiguous; [done..| |done]. by apply is_outcome_unknown_ambiguous.
  - eexists. split; [eapply recorded_trans; [exact R|]; eapply recorded_trans;
      [apply rollback_recorded|apply save_journal_recorded]|].
    rewrite <- app_assoc. eapply vd_refused; [done..| |done].
    simpl. intros Hc%is_outcome_unknown_ambiguous. congruence.
Qed.

(** What the unwrap loop makes of what was recorded before it. *)
Lemma unwrap_loop_verdict rid domain b items g rows e s r s' before s0 :
  recorded s0 before s -> Forall passed before -> (forall c, EvCommit g c ∉ before) ->
  (forall row, row ∈ rows -> row.1 ∈ items) ->
  unwrap_loop rid domain b g rows e s = (r, s') ->
  match r with
  | inl _ => exists tr, recorded s0 tr s' /\ Forall passed tr /\ forall c, EvCommit g c ∉ tr
  | inr f => exists tr, recorded s0 tr s' /\ verdict domain items g tr f.1 f.2
  end.
Proof.
  revert e s r s' before. induction rows as [|[item v] rows IH];
    intros e s r s' before R Hp Hnc Hin Hu; simpl in Hu.
  { injection Hu as <- <-. by exists before. }
  destruct (on_provider _ s) as [[rc kcv] s1] eqn:Eo.
  assert (R1 : recorded s [EvUnwrap (it_purpose item) g rc] s1).
  { unfold on_provider in Eo. simpl in Eo. unfold record in Eo.
    destruct (bp_unwrapToStaging _ _ _ _ _ _ _ _) as [[rc0 k0] p0]. injection Eo as <- <- <-. done. }
  assert (item ∈ items) as Hi by (apply (Hin (item, v)); left).
  pose proof (recorded_trans _ _ _ _ _ R R1) as R2.
  destruct (is_success rc) eqn:Es; cbn [negb] in Hu.
  - apply is_success_true in Es. subst rc. set (e1 := if String.eqb _ _ then _ else _) in Hu.
    destruct (unwrap_loop _ _ _ _ rows _ _) as [r1 s2] eqn:Er.
    eapply IH in Er; [|eapply recorded_trans; [exact R2|apply save_journal_recorded]| | |].
    + destruct r1 as [[kcvs e']|f]; by injection Hu as <- <-.
    + rewrite !Forall_app, !Forall_singleton. by split_and!.
    + intros c Hc. rewrite !elem_of_app, !list_elem_of_singleton in Hc. by destruct Hc as [[Hc|?]|?]; [by eapply Hnc|..].
    + intros row Hrow. apply Hin. by right.
  - destruct (pipeline_failed _ _ _ _ _) as [f s2] eqn:Ef. injection Hu as <- <-.
    eapply (failing_call_verdict _ items); [| |exact Hp|exact R2|exact Ef]; [by intros ->|].
    right. by exists item.
Qed.

(** The attestations, in order. *)
Lemma proof_loop_verdict rid domain cert rows s ts failed s' :
  proof_loop rid domain cert rows s = ((ts, failed), s') ->
  exists tr, recorded s tr s' /\ Forall (fun ev => exists purpose ok, ev = EvProof purpose ok) tr /\
    if failed then exists purpose, EvProof purpose false ∈ tr else Forall passed tr.
Proof.
  revert s ts failed s'. induction rows as [|[item [t kcv]] rows IH];
    intros s ts failed s' Hp; simpl in Hp.
  { injection Hp as <- <- <-. exists []. by split; [apply recorded_nil|]. }
  destruct (on_provider _ s) as [[[rc proof] alg] s1] eqn:Eo.
  assert (R1 : exists purpose, recorded s [EvProof purpose
      (is_success rc && (zlen proof =? kImportProofSizeP1363))] s1).
  { unfold on_provider in Eo. simpl in Eo. unfold record in Eo.
    destruct (bp_generateProof _ _ _ _ _ _ _ _) as [[[rc0 p0] a0] q0]. injection Eo as -> -> -> <-. by eexists. }
  destruct R1 as [purpose R1]. destruct (proof_loop _ _ _ rows s1) as [[ts1 failed1] s2] eqn:Er.
  apply IH in Er as (tr & R2 & Hall & Hf). injection Hp as <- <- <-.
  eexists. split; [eapply recorded_trans; [exact R1|exact R2]|]. simpl.
  split; [constructor; eauto|]. destruct (is_success rc && _); simpl; [|exists purpose; by left].
  destruct failed1; [destruct Hf as [q Hq]; exists q; by right|by constructor].
Qed.

Lemma finish_import_verdict rid domain items b g now kcvs e out s rc out' s' before s0 :
  recorded s0 before s -> Forall passed before -> EvCommit g SUCCESS ∈ before ->
  finish_import rid domain items b g now kcvs e out s = ((rc, out'), s') ->
  exists tr, recorded s0 tr s' /\ verdict domain items g tr rc (ir_state out').
Proof.
  intros R Hp Hc Hf. unfold finish_import in Hf.
  destruct (trusted_now_ms now s) as [[trc t] s1] eqn:Et.
  apply trusted_now_env, env_only_recorded in Et as R1.
  destruct (proof_loop _ _ _ _ s1) as [[ts failed] s2] eqn:Ep.
  apply proof_loop_verdict in Ep as (tr & R2 & Hall & Hd).
  pose proof (recorded_trans _ _ _ _ _ R (recorded_trans _ _ _ _ _ R1 R2)) as R3. simpl in R3.
  destruct failed; injection Hf as <- <- <-.
  - eexists. split; [eapply recorded_trans; [exact R3|apply save_journal_recorded]|].
    rewrite <- app_assoc. by eapply vd_unattested.
  - eexists. split.
    + unfold recorded. rewrite update_ledger_provider.
      eapply (recorded_trans _ _ s2); [exact R3|apply save_journal_recorded].
    + eapply vd_done; [..|done]; [by apply Forall_app|]. apply elem_of_app. by left.
Qed.

Lemma verify_loop_fails domain items (p : Logged P) rc :
  verify_loop domain items p = rc -> rc <> SUCCESS ->
  exists item, item ∈ items /\ bp_verifyStaging domain (it_purpose item) (lo_provider p) = rc.
Proof.
  intros <-. induction items as [|item items IH]; [done|]. simpl.
  destruct (is_success (bp_verifyStaging _ _ _)) eqn:Es; simpl.
  - intros (i & Hi & ?)%IH. exists i. split; [by right|done].
  - intros _. exists item. by split; [left|].
Qed.

End Simulation.

(* --------------------------------------------------------------------- *)
(** ** A recorded run                                                     *)
(* --------------------------------------------------------------------- *)

Import ImportSample.

(** The sample device with a recorder around its provider. *)
Definition recorded_on (s : sample_service) : Service (Logged (SfState world)) disk device :=
  mkService (sv_cfg s) (sv_wired s) (mkLogged (sv_provider s) []) (sv_ledger s) (sv_env s) (sv_ready s)
    false.
Definition recorded_device : Service (Logged (SfState world)) disk device := recorded_on svc0.
Abbreviation recorded_run :=
  (run_pipeline "rid-1" kBusinessDomainV2c items1 envelopes1 binding0 "rd" "dg" 1 5
    (res_for "rid-1" kBusinessDomainV2c) recorded_device).

Lemma recorded_run_code : recorded_run.1.1 = SUCCESS.
Proof. by vm_compute. Qed.
Lemma recorded_run_eq : recorded_run = ((SUCCESS, recorded_run.1.2), recorded_run.2).
Proof. rewrite <- recorded_run_code. by destruct recorded_run as [[? ?] ?]. Qed.

Lemma run_pipeline_protocol_witness :
  exists tr, recorded recorded_device tr recorded_run.2 /\
    stage_run kBusinessDomainV2c items1 1 Fresh tr (Closed SUCCESS).
Proof.
  exact (run_pipeline_protocol "rid-1" kBusinessDomainV2c items1 envelopes1 binding0 "rd" "dg" 1 5
    (res_for "rid-1" kBusinessDomainV2c) recorded_device _ _ _ eq_refl recorded_run_eq).
Defined.

(** The same run on a device whose storage fails while the first key is staged. *)
Abbreviation faulty_run :=
  (run_pipeline "rid-1" kBusinessDomainV2c items1 envelopes1 binding0 "rd" "dg" 1 5
    (res_for "rid-1" kBusinessDomainV2c) (recorded_on (with_saves [true; false] svc0))).
Lemma faulty_run_code : faulty_run.1.1 = BUSINESS_KEY_OUTCOME_UNKNOWN.
Proof. by vm_compute. Qed.
Lemma faulty_run_eq : faulty_run = ((BUSINESS_KEY_OUTCOME_UNKNOWN, faulty_run.1.2), faulty_run.2).
Proof. rewrite <- faulty_run_code. by destruct faulty_run as [[? ?] ?]. Qed.

