(* ===== verification/ImportProps.v ===== *)
(** * BusinessKeyProvisioningService: properties.
    Admission of new operations, replay of committed facts, outcomes, queries,
    readiness, recovery. *)
From S2P Require Import Prelude Errors Canonical KeyTypes Envelope Json Provider Ledger SoftFile SoftFileFacts SoftFileProps TimeTypes TrustedTime TimeMonitor TimeProps Provisioning Import ImportSample ImportFacts.
Import ImportSample.

Section Properties.
Context {P D E : Type} `{Prov : BusinessKeyProvider P} `{Store : LedgerStore D} `{J : Json}
  `{SEnv : ServiceEnv E} `{Hash : Sha256} `{PB : Protobuf} `{EC : EcP256}.
Implicit Types s : Service P D E.

(** The provider and the ledger were not touched. *)
Definition untouched s s' : Prop :=
  sv_provider s' = sv_provider s /\ sv_ledger s' = sv_ledger s.

Lemma env_only_untouched s s' : sv_env_only s s' -> untouched s s'.
Proof. by intros [e ->]. Qed.
Lemma untouched_trans s1 s2 s3 : untouched s1 s2 -> untouched s2 s3 -> untouched s1 s3.
Proof. intros [H1 H2] [H3 H4]. split; congruence. Qed.

(** A request that passed every check made before the journal is consulted. *)
Definition well_formed (rid domain : string) (items : list WrappedKeyItem)
    (b : BusinessKeyDeviceBinding) (vs : list ValidatedEnvelope) s : Prop :=
  pg_enabled (sv_cfg s) = true /\ rd_import_ready (sv_ready s) = true /\
  sv_shutting_down s = false /\ validate_structure (sv_cfg s) rid domain items = SUCCESS /\
  binding_agreement_ok b = true /\ validate_envelopes (sv_cfg s) rid domain b items = Ok vs.

(** An unsettled entry of this very request was reconciled. *)
Definition reconciled (rid domain : string) (items : list WrappedKeyItem) s s' : Prop :=
  exists b vs s1 e, well_formed rid domain items b vs s /\ sv_env_only s s1 /\
    jl_status (bp_loadJournalEx (rid_digest_of rid) (sv_provider s)) = JLS_FOUND /\
    jl_entry (bp_loadJournalEx (rid_digest_of rid) (sv_provider s)) = Some e /\
    (je_request_digest e = "" \/ je_request_digest e = build_request_digest rid domain items vs s1) /\
    settled (je_phase e) = false /\ s' = (recover_entry e s1).2.

(** A new operation was accepted and run, on the stores as they were. *)
Definition started (rid domain : string) (items : list WrappedKeyItem) (ctx : KeyprovImportContext)
    s (rc : ErrorCode) (out : ImportResult) s' : Prop :=
  exists b vs s1 now s2, well_formed rid domain items b vs s /\
    check_request rid domain items s = (Ok (b, vs), s1) /\
    jl_status (bp_loadJournalEx (rid_digest_of rid) (sv_provider s)) = JLS_NOT_FOUND /\
    has_transaction_residue (rid_digest_of rid) s = false /\
    kc_kl1_profile_version ctx = kKeyprovKl1ProfileVersion /\
    admission_facts domain items ctx b s1 /\ sv_env_only s s1 /\ sv_env_only s s2 /\
    run_pipeline rid domain items vs b (rid_digest_of rid)
      (build_request_digest rid domain items vs s1) (next_generation s) now (res_for rid domain) s2
      = ((rc, out), s').

(** C1. A KL1 import touches the provider or the ledger in two cases only. Either
    the journal holds an unsettled entry of this very request, and it is
    reconciled; or nothing is recorded under the request - no entry, no residue -
    and the operation was accepted: service ready, request well-formed, the
    caller's epoch current, items and certificate covering the lease, versions newer
    than the active ones. The time is that of three readings of the service's own
    time source, taken one after the other once the request was checked: the first
    and the third are Trusted, uncertain by at most 1000 ms and at most 300000 ms
    old, and time plus uncertainty is before the lease's end in both; the second is
    Trusted and inside every item's validity. In every other case provider and
    ledger are exactly as before. *)
Theorem importKl1_admission rid domain items ctx s rc out att s' :
  importKl1 rid domain items ctx s = ((rc, out, att), s') ->
  untouched s s' \/ reconciled rid domain items s s' \/ started rid domain items ctx s rc out s'.
Proof.
  unfold importKl1. cbv zeta. intros Hi.
  destruct (sv_shutting_down s) eqn:Esh; [left; by injection Hi as _ _ _ <-|].
  destruct (pg_enabled (sv_cfg s)) eqn:Een; cbn [negb] in Hi; [|left; by injection Hi as _ _ _ <-].
  destruct (rd_import_ready (sv_ready s)) eqn:Erd; cbn [negb] in Hi; [|left; by injection Hi as _ _ _ <-].
  destruct (ks_supports_lease_admission _); cbn [negb] in Hi; [|left; by injection Hi as _ _ _ <-].
  destruct (negb (kc_kl1_profile_version ctx =? _) || _) eqn:Epf; [left; by injection Hi as _ _ _ <-|].
  destruct (check_request rid domain items s) as [r s1] eqn:Ec.
  destruct (check_request_env _ _ _ _ _ _ Ec) as (He & Hok & _).
  destruct r as [[b vs]|erc]; [|left; injection Hi as _ _ _ <-; by apply env_only_untouched].
  destruct (Hok _ _ eq_refl) as (Hst & Hb & Hvs).
  assert (Hwf : well_formed rid domain items b vs s) by by split_and!.
  pose proof (env_only_untouched _ _ He) as U1. destruct U1 as [Up Ul].
  rewrite Up in Hi.
  destruct (jl_status _) eqn:Ejs; try (left; injection Hi as _ _ _ <-; by split).
  - destruct (jl_entry _) as [e|] eqn:Eje; [|left; injection Hi as _ _ _ <-; by split].
    destruct (import_existing _ e _ s1) as [[irc iout] s2] eqn:Ei.
    apply import_existing_spec in Ei as [(_&_&_&_&->)|[Hd [(_&_&_&->)|[(_&_&->)|(Hs&->&_)]]]];
      injection Hi as _ _ _ <-; try (left; by split).
    right. left. exists b, vs, s1, e. by split_and!.
  - destruct (has_transaction_residue _ s1) eqn:Er; [left; injection Hi as _ _ _ <-; by split|].
    destruct (admission_kl1 _ _ _ _ s1) as [arc s2] eqn:Ea. apply admission_kl1_spec in Ea as [He2 Had].
    destruct (is_success arc) eqn:Es; cbn [negb] in Hi.
    2: { left. injection Hi as _ _ _ <-. apply env_only_untouched. by eapply sv_env_only_trans. }
    apply is_success_true in Es. specialize (Had Es).
    destruct (trusted_now_ms 0 s2) as [[trc now] s3] eqn:Et. apply trusted_now_env in Et.
    destruct (run_pipeline _ _ _ _ _ _ _ _ _ _ s3) as [[prc pout] s4] eqn:Ep.
    injection Hi as <- <- _ <-. right. right. exists b, vs, s1, now, s3. bool_simpl.
    destruct He as [x1 ->], He2 as [x2 ->], Et as [x3 ->].
    split_and!; [exact Hwf|done|exact Ejs|exact Er|done|exact Had| | |exact Ep];
      [apply sv_env_only_with|by exists x3].
Qed.

(** C17. A committed fact is returned, not re-established. Whenever the journal
    holds a SUCCEEDED entry under the request id, a well-formed repetition of the
    request gets the recorded result from both imports, without touching provider
    or ledger, whatever the time, the lease and the caller's epoch are; the same
    id with other content is a conflict, and touches nothing either. *)
Theorem committed_fact_replayed rid domain items ctx e b vs s s1 :
  pg_enabled (sv_cfg s) = true -> rd_import_ready (sv_ready s) = true ->
  sv_shutting_down s = false -> epoch (rd_epoch_src (sv_ready s)) <> 0 ->
  kc_kl1_profile_version ctx = kKeyprovKl1ProfileVersion -> kc_capability_epoch ctx <> 0 ->
  check_request rid domain items s = (Ok (b, vs), s1) ->
  jl_status (bp_loadJournalEx (rid_digest_of rid) (sv_provider s)) = JLS_FOUND ->
  jl_entry (bp_loadJournalEx (rid_digest_of rid) (sv_provider s)) = Some e ->
  je_phase e = BIP_SUCCEEDED ->
  let same := je_request_digest e = "" \/
              je_request_digest e = build_request_digest rid domain items vs s1 in
  let answer := build_committed_result e (res_for rid domain) in
  untouched s s1 /\
  (same -> import rid domain items s = ((SUCCESS, answer), s1) /\
     exists att, importKl1 rid domain items ctx s = ((SUCCESS, answer, att), s1)) /\
  (~ same -> (import rid domain items s).1.1 = BUSINESS_KEY_CONFLICT /\
     (importKl1 rid domain items ctx s).1.1.1 = BUSINESS_KEY_CONFLICT /\
     untouched s (import rid domain items s).2 /\ untouched s (importKl1 rid domain items ctx s).2).
Proof.
  intros Hen Hrd Hsh Hep Hpf Hce Hc Hjs Hje Hph. cbv zeta.
  pose proof (check_request_env _ _ _ _ _ _ Hc) as (He & _).
  pose proof (env_only_untouched _ _ He) as U. destruct U as [Up Ul].
  assert (Hbp : bp_loadJournal (rid_digest_of rid) (sv_provider s1) = Some e).
  { unfold bp_loadJournal. by rewrite Up, Hjs, Hje. }
  assert (Ha : ks_supports_lease_admission (compute_snapshot s) = true).
  { unfold compute_snapshot. cbn. rewrite Hrd. simpl. by apply negb_true_iff, Z.eqb_neq. }
  assert (Hp : negb (kc_kl1_profile_version ctx =? kKeyprovKl1ProfileVersion) ||
               (kc_capability_epoch ctx =? 0) = false).
  { rewrite Hpf, Z.eqb_refl. simpl. by apply Z.eqb_neq. }
  assert (Hi : import rid domain items s =
    import_existing (build_request_digest rid domain items vs s1) e (res_for rid domain) s1).
  { unfold import. rewrite Hsh, Hen, Hrd. cbn [negb]. by rewrite Hc, Hbp. }
  assert (Hk : exists a1 a2, importKl1 rid domain items ctx s =
    let '((rc, out), s2) := import_existing (build_request_digest rid domain items vs s1) e
      (res_for rid domain) s1 in ((rc, out, attach_identity a1 a2), s2)).
  { do 2 eexists. unfold importKl1. cbv zeta. rewrite Hsh, Hen, Hrd. cbn [negb ka_snapshot].
    rewrite Ha, Hp. cbn [negb]. by rewrite Hc, Up, Hjs, Hje. }
  destruct Hk as (a1 & a2 & Hk). rewrite Hi, Hk.
  destruct (import_existing _ e _ s1) as [[rc out] s2] eqn:Ei. apply import_existing_spec in Ei.
  split; [by split|]. split.
  - intros Hsame. destruct Ei as [(N1 & N2 & _)|[_ [(_&->&->&->)|[(Hf&_)|(Hs&_)]]]].
    + by destruct Hsame.
    + eauto.
    + congruence.
    + rewrite Hph in Hs. discriminate Hs.
  - intros Hn. destruct Ei as [(_&_&->&_&->)|[Hsame _]]; [|by destruct Hn]. by split_and!.
Qed.

(** Which coarse state a journal read leads to. *)
Lemma query_outcome_spec rd lr out s :
  let o := (query_outcome rd lr out s).2 in
  (ir_state o = BIS_NOT_FOUND <-> jl_status lr = JLS_NOT_FOUND /\
     rd_governance_required (sv_ready s) = false /\ has_transaction_residue rd s = false) /\
  (ir_state o = BIS_COMMITTED <-> jl_status lr = JLS_FOUND /\
     exists e, jl_entry lr = Some e /\ je_phase e = BIP_SUCCEEDED) /\
  (forall e, jl_entry lr = Some e -> ir_state o = BIS_COMMITTED -> ir_items o = je_items e).
Proof.
  unfold query_outcome. cbv zeta.
  assert (No : forall o : ImportResult, ir_state o = BIS_UNKNOWN ->
    jl_status lr <> JLS_FOUND \/ jl_entry lr = None -> jl_status lr <> JLS_NOT_FOUND ->
    (ir_state o = BIS_NOT_FOUND <-> jl_status lr = JLS_NOT_FOUND /\
       rd_governance_required (sv_ready s) = false /\ has_transaction_residue rd s = false) /\
    (ir_state o = BIS_COMMITTED <-> jl_status lr = JLS_FOUND /\
       exists e, jl_entry lr = Some e /\ je_phase e = BIP_SUCCEEDED) /\
    (forall e, jl_entry lr = Some e -> ir_state o = BIS_COMMITTED -> ir_items o = je_items e)).
  { intros o -> Hf Hn. split; [split; [done|by intros [? _]]|].
    split; [|done]. split; [done|]. intros (H1 & e & H2 & _). destruct Hf; congruence. }
  destruct (jl_status lr) eqn:Es; try (apply No; [done|by left|done]).
  - destruct (jl_entry lr) as [e|] eqn:Ee; [|apply No; [done|by right|done]].
    case_bool_decide as Hp; simpl.
    + split; [split; [done|by intros [? _]]|]. split; [split; [eauto|done]|]. by intros e' [= <-].
    + split; [split; [by destruct (je_phase e)|by intros [? _]]|].
      split; [|by destruct (je_phase e)].
      split; [by destruct (je_phase e)|]. by intros (_ & e' & [= <-] & ?).
  - destruct (rd_governance_required _); [|destruct (has_transaction_residue _ _)]; simpl;
      (split; [split; [done|by intros (_ & ? & ?)]|split; [split; [done|by intros (? & _)]|done]]).
Qed.

(** A request id is declared unknown to the device only when that is certain.
    [getImportResultKl1] never touches provider or ledger, and it answers
    NOT_FOUND exactly when the service is enabled, ready and not shutting down,
    the id is well-formed, the journal read says not found, the storage was not
    replaced, and neither provider nor ledger keeps a trace of the request. It
    answers COMMITTED exactly when a SUCCEEDED entry was read, with its items. *)
Theorem query_result_spec rid out att s :
  let '((rc, out', att'), s') := getImportResultKl1 rid out att s in
  let lr := bp_loadJournalEx (rid_digest_of rid) (sv_provider s) in
  let served := sv_shutting_down s = false /\ pg_enabled (sv_cfg s) = true /\
    rd_provider_ready (sv_ready s) = true /\ rid <> "" /\ str_size rid <= 128 in
  sv_env_only s s' /\
  (sv_shutting_down s = false ->
   (ir_state out' = BIS_NOT_FOUND <-> served /\ jl_status lr = JLS_NOT_FOUND /\
     rd_governance_required (sv_ready s) = false /\
     has_transaction_residue (rid_digest_of rid) s = false) /\
   (ir_state out' = BIS_COMMITTED <-> served /\ jl_status lr = JLS_FOUND /\
     exists e, jl_entry lr = Some e /\ je_phase e = BIP_SUCCEEDED) /\
   (forall e, jl_entry lr = Some e -> ir_state out' = BIS_COMMITTED ->
     ir_items out' = je_items e /\ ka_request_identity_digest att' = je_request_digest e)).
Proof.
  unfold getImportResultKl1. destruct (sv_shutting_down s) eqn:Esh.
  { split; [apply sv_env_only_refl|done]. }
  unfold query_result. cbv zeta.
  destruct (negb (pg_enabled (sv_cfg s)) || _) eqn:Een.
  { split; [apply sv_env_only_refl|]. intros _. apply orb_true_iff in Een.
    split_and!; [split; [done|]..|done]; intros ((_ & H1 & H2 & _) & _); rewrite H1, H2 in Een;
      by destruct Een. }
  destruct (str_empty rid) eqn:E1.
  { apply str_empty_true in E1. split; [apply sv_env_only_refl|]. intros _.
    split_and!; [split; [done|]..|done]; intros ((_ & _ & _ & H1 & _) & _); done. }
  destruct (str_size rid >? 128) eqn:E2.
  { apply Z.gtb_lt in E2. split; [apply sv_env_only_refl|]. intros _.
    split_and!; [split; [done|]..|done]; intros ((_ & _ & _ & _ & H1) & _); lia. }
  destruct (trusted_now_ms 0 s) as [[trc t] s1] eqn:Et. apply trusted_now_env in Et.
  assert (Hsv : sv_shutting_down s = false /\ pg_enabled (sv_cfg s) = true /\
    rd_provider_ready (sv_ready s) = true /\ rid <> "" /\ str_size rid <= 128).
  { apply orb_false_iff in Een as [Hen Hpr]. apply negb_false_iff in Hen, Hpr.
    apply str_empty_false in E1. rewrite Z.gtb_ltb in E2. apply Z.ltb_ge in E2. by split_and!. }
  destruct Et as [x ->]. cbn [sv_provider sv_with_env].
  set (lr := bp_loadJournalEx _ _).
  pose proof (query_outcome_spec (rid_digest_of rid) lr (res_for rid "") (sv_with_env x s)) as Hq.
  destruct (query_outcome _ _ _ _) as [rc' o] eqn:Eq. cbv zeta in Hq. simpl in Hq.
  change (has_transaction_residue (rid_digest_of rid) (sv_with_env x s))
    with (has_transaction_residue (rid_digest_of rid) s) in Hq.
  destruct Hq as (Hn & Hc & Hi). split; [apply sv_env_only_with|]. intros _.
  split; [rewrite Hn; tauto|]. split; [rewrite Hc; tauto|].
  intros e He Ho. split; [by apply Hi|]. apply Hc in Ho as [Hf _]. by rewrite Hf, He.
Qed.

(* --------------------------------------------------------------------- *)
(** ** Structure and readiness                                            *)
(* --------------------------------------------------------------------- *)

(** What the structural checks demand of one item. *)
Record item_acceptable (cfg : BusinessKeyProvisioningConfig) (item : WrappedKeyItem) : Prop := {
  ia_purpose : it_purpose item ∈ pg_required_purposes cfg;
  ia_key_id : it_key_id item <> "";
  ia_algorithm : it_algorithm item ∈ pg_allowed_algorithms cfg;
  ia_suite : it_wrapping_suite item ∈ pg_allowed_wrapping_suites cfg;
  ia_format : it_envelope_format item = KEF_ECDH_ES_P256_V1 /\
    kKeyEnvelopeFormatEcdhEsP256V1 ∈ pg_allowed_envelope_formats cfg;
  ia_version : it_business_key_version item <> 0 /\ it_business_key_version item <= 2 ^ 63 - 1;
  ia_validity : 0 < it_valid_from_ms item < it_valid_to_ms item;
  ia_wrapped : 0 < zlen (it_wrapped_key item) <= pg_max_wrapped_key_bytes cfg;
  ia_parameters : 0 < zlen (it_parameters item) <= pg_max_parameters_bytes cfg;
  ia_digest : zlen (it_envelope_digest item) = 32;
  ia_kcv : it_key_check_value_present item = true
}.

(** The purposes and key ids of a batch, on top of those already seen. *)
Definition batch_ok (cfg : BusinessKeyProvisioningConfig) (sp sk : list string)
    (items : list WrappedKeyItem) : Prop :=
  Forall (item_acceptable cfg) items /\
  NoDup (it_purpose <$> items) /\ NoDup (it_key_id <$> items) /\
  (forall p, p ∈ it_purpose <$> items -> p ∉ sp) /\ (forall k, k ∈ it_key_id <$> items -> k ∉ sk).

Lemma batch_ok_cons cfg sp sk item items :
  batch_ok cfg sp sk (item :: items) <->
  item_acceptable cfg item /\ it_purpose item ∉ sp /\ it_key_id item ∉ sk /\
  batch_ok cfg (it_purpose item :: sp) (it_key_id item :: sk) items.
Proof.
  unfold batch_ok. rewrite !fmap_cons, !NoDup_cons, Forall_cons.
  setoid_rewrite not_elem_of_cons. setoid_rewrite elem_of_cons. split.
  - intros ((Ha & Hf) & (Hp & Hnp) & (Hk & Hnk) & Hsp & Hsk). split_and!; auto.
    + intros p Hin. split; [by intros ->|auto].
    + intros k Hin. split; [by intros ->|auto].
  - intros (Ha & Hp & Hk & Hf & Hnp & Hnk & Hsp & Hsk). split_and!; auto.
    + intros Hin. by destruct (Hsp _ Hin).
    + intros Hin. by destruct (Hsk _ Hin).
    + intros p [->|Hin]; [done|]. by apply Hsp.
    + intros k [->|Hin]; [done|]. by apply Hsk.
Qed.

Lemma fail_if_equiv {A} (b : bool) rc (k : res A) v :
  (fail_if b with rc ;; k) = Ok v <-> b = false /\ k = Ok v.
Proof. destruct b; [split; [done|by intros [? _]]|]. split; [auto|by intros [_ ?]]. Qed.

Lemma fail_if_ex {A} (b : bool) rc (k : res A) :
  (exists v, (fail_if b with rc ;; k) = Ok v) <-> b = false /\ exists v, k = Ok v.
Proof. setoid_rewrite fail_if_equiv. naive_solver. Qed.

Lemma check_items_ok cfg sp sk items seen :
  check_items cfg sp sk items = Ok seen <->
  batch_ok cfg sp sk items /\ seen = reverse (it_purpose <$> items) ++ sp.
Proof.
  revert sp sk seen. induction items as [|item items IH]; intros sp sk seen.
  { simpl. unfold batch_ok. split.
    - intros [= <-]. split; [|done]. split_and!; try constructor; by intros ? ?%not_elem_of_nil.
    - by intros [_ ->]. }
  rewrite batch_ok_cons. cbn [check_items]. rewrite !fail_if_equiv, IH, fmap_cons, reverse_cons, <- app_assoc.
  rewrite !negb_false_iff, !orb_false_iff, !negb_false_iff, !contains_true, !contains_false,
    str_empty_false, !bytes_empty_false, !Z.gtb_ltb, !Z.ltb_ge, !Z.eqb_eq, Z.eqb_neq, !Z.leb_gt,
    bool_decide_eq_true. simpl. split.
  - intros (H1&H2&H3&H4&H5&H6&(H7&H8)&H9&(H10&H11)&H12&H13&H14&H15&H16&H17&H18&H19).
    split_and!; try done. rewrite H7 in H8. by split; rewrite ?H7.
  - intros ((Hi & H2 & H4 & H18) & H19). destruct Hi as [? ? ? ? [Hf ?] [? ?] [? ?] [? ?] [? ?] ? ?].
    rewrite Hf. by split_and!.
Qed.

Lemma contains_all seen l :
  forallb (contains seen) l = true <-> forall p, p ∈ l -> p ∈ seen.
Proof.
  induction l as [|x l IH]; simpl; [split; [by intros _ p ?%not_elem_of_nil|done]|].
  rewrite andb_true_iff, contains_true, IH. setoid_rewrite elem_of_cons. naive_solver.
Qed.

Lemma check_items_err cfg sp sk items rc : check_items cfg sp sk items = Err rc -> rc <> SUCCESS.
Proof.
  revert sp sk. induction items as [|item items IH]; intros sp sk; [done|]. cbn [check_items].
  repeat (match goal with |- (if ?b then _ else _) = _ -> _ => destruct b; [by intros [= <-]|] end).
  apply IH.
Qed.

Lemma code_of_success {A} (r : res A) :
  (forall rc, r = Err rc -> rc <> SUCCESS) -> code_of r = SUCCESS <-> exists v, r = Ok v.
Proof.
  intros Hne. destruct r as [v|rc]; simpl; split; eauto; [|by intros [? ?]].
  intros ->. by destruct (Hne _ eq_refl).
Qed.

(** The structural gate accepts exactly the batches the contract describes: a
    request id of 1 to 128 bytes, an allowed domain, one item per required
    purpose and no other, distinct key ids, and each item within the allow-lists
    and limits. *)
Theorem validate_structure_spec cfg rid domain items :
  validate_structure cfg rid domain items = SUCCESS <->
  rid <> "" /\ str_size rid <= 128 /\ domain ∈ pg_allowed_domains cfg /\
  zlen items = pg_max_items cfg /\ zlen items = zlen (pg_required_purposes cfg) /\
  Forall (item_acceptable cfg) items /\
  NoDup (it_purpose <$> items) /\ NoDup (it_key_id <$> items) /\
  (forall p, p ∈ pg_required_purposes cfg -> p ∈ it_purpose <$> items).
Proof.
  unfold validate_structure. rewrite code_of_success.
  2: { intros rc. repeat (match goal with |- (if ?b then _ else _) = _ -> _ => destruct b; [by intros [= <-]|] end).
       destruct (check_items _ _ _ _) as [seen|e] eqn:Ec.
       - destruct (negb _); [by intros [= <-]|done].
       - intros [= ->]. by eapply check_items_err. }
  rewrite !fail_if_ex, negb_false_iff, contains_true, !negb_false_iff, str_empty_false, Z.gtb_ltb, Z.ltb_ge, !Z.eqb_eq.
  assert (Hc : (exists v, match check_items cfg [] [] items with
      | Ok seen => fail_if negb (forallb (contains seen) (pg_required_purposes cfg))
                   with BUSINESS_KEY_UNSUPPORTED ;; Ok tt
      | Err rc => Err rc
      end = Ok v) <->
    batch_ok cfg [] [] items /\ (forall p, p ∈ pg_required_purposes cfg -> p ∈ it_purpose <$> items)).
  { destruct (check_items cfg [] [] items) as [seen|e] eqn:Ec.
    - apply check_items_ok in Ec as [Hb ->].
      rewrite fail_if_ex, negb_false_iff, contains_all, app_nil_r. setoid_rewrite elem_of_reverse.
      split; [by intros [? _]|]. intros [_ Hr]. split; [done|by exists tt].
    - split; [by intros [? ?]|]. intros [Hb _].
      assert (check_items cfg [] [] items = Ok (reverse (it_purpose <$> items) ++ [])) as Hok
        by by apply check_items_ok.
      congruence. }
  unfold batch_ok in Hc. split.
  - intros (? & ? & ? & ? & ? & Hv). destruct (proj1 Hc Hv) as ((?&?&?&_)&?). by split_and!.
  - intros (?&?&?&?&?&?&?&?&?). split_and!; try done. apply Hc.
    split_and!; try done; by intros ? _ ?%not_elem_of_nil.
Qed.

(** What the capability conjunction was read from. *)
Lemma compute_capability_all s cap s' :
  compute_capability s = (cap, s') -> cap_all cap = true -> wi_provider (sv_wired s) = true ->
  sv_env_only s s' /\
  (let pc := bp_capability (sv_provider s) in
   pc_p256_ecdh pc && pc_hkdf_sha256 pc && pc_aes256_gcm_decrypt_to_slot pc &&
   pc_atomic_dual_slot_commit pc && pc_ecdsa_p256_sha256_p1363 pc && pc_secure_journal_ready pc = true) /\
  (exists e, let b := (se_binding e).1 in
   db_ready b && db_active_cert_p256 b && db_active_cert_key_agreement b &&
   db_active_cert_digital_signature b && db_private_key_can_derive b && db_private_key_can_sign b &&
   db_active_cert_ca_false b && db_active_cert_eku_client_auth_only b &&
   db_active_cert_critical_extensions_allowed b && db_active_cert_leaf_digest_bound b &&
   db_active_cert_chain_key_match b && db_identity_template_sign_derive b = true) /\
  (exists e, is_trusted (se_now e).1 = true).
Proof.
  unfold compute_capability. intros Hc Ha Hw. rewrite Hw in Hc.
  destruct (probe_binding s) as [b s1] eqn:Eb. pose proof (probe_binding_env _ _ _ Eb) as He.
  destruct (trusted_now_ms 0 s1) as [[rc t] s2] eqn:Et. pose proof (trusted_now_env _ _ _ _ Et) as He2.
  injection Hc as <- <-. unfold cap_all in Ha.
  cbn [cap_envelope_v1_import_ready cap_atomic_dual_purpose_commit_ready
    cap_import_proof_sign_ecdsa_p256_v1_ready cap_secure_journal_replay_ready
    cap_identity_key_template_sign_derive cap_csr_key_usage_request_matched
    cap_certificate_profile_matched cap_certificate_chain_and_key_match
    cap_certificate_critical_extensions_allowed cap_leaf_certificate_digest_bound
    cap_proto_release_matched cap_envelope_format_v1 cap_p256_ecdh cap_hkdf_sha256
    cap_aes256_gcm_decrypt_to_slot cap_atomic_dual_slot_commit cap_active_certificate_key_agreement
    cap_active_certificate_digital_signature cap_active_private_key_can_derive
    cap_active_private_key_can_sign cap_ecdsa_p256_sha256_p1363 cap_secure_journal_ready
    cap_trusted_time_ready] in Ha.
  repeat match type of Ha with _ && _ = true =>
    let H := fresh "B" in apply andb_true_iff in Ha as [Ha H] end.
  bool_simpl. split; [by eapply sv_env_only_trans|]. split; [|split].
  - by repeat (apply andb_true_iff; split).
  - unfold probe_binding, on_service_env in Eb. destruct (negb _).
    { injection Eb as <- <-. done. }
    destruct (se_binding (sv_env s)) as [b0 e] eqn:Ese. injection Eb as -> <-.
    exists (sv_env s). rewrite Ese. simpl. by repeat (apply andb_true_iff; split).
  - match goal with B : is_success rc = true |- _ => apply is_success_true in B; subst rc end.
    apply trusted_now_success in Et as (e & ? & _). by exists e.
Qed.

(** Readiness is fail-closed. After [initialize] the service accepts imports
    only if it is enabled and fully wired, provider and ledger opened, the
    provider reports ready, no storage replacement and every capability, the
    identity callback reported a certificate and key that pass every gate, and
    the time source answered with trusted time. Otherwise both imports refuse
    every request as not ready and change nothing. *)
Theorem initialize_fail_closed s rc s' :
  service_initialize s = (rc, s') ->
  (rd_import_ready (sv_ready s') = true ->
   rc = SUCCESS /\ pg_enabled (sv_cfg s) = true /\
   wi_provider (sv_wired s) = true /\ wi_ledger (sv_wired s) = true /\ wi_trusted_time (sv_wired s) = true /\
   bp_isReady (sv_provider s') = true /\ bp_storageReplaced (sv_provider s') = false /\
   rd_governance_required (sv_ready s') = false /\
   pc_secure_journal_ready (bp_capability (sv_provider s')) = true /\
   pc_atomic_dual_slot_commit (bp_capability (sv_provider s')) = true /\
   (exists e, let b := (se_binding e).1 in db_ready b = true /\ db_active_cert_p256 b = true /\
      db_private_key_can_derive b = true /\ db_private_key_can_sign b = true /\
      db_active_cert_chain_key_match b = true) /\
   (exists e, is_trusted (se_now e).1 = true)) /\
  (rd_import_ready (sv_ready s') = false -> forall rid domain items ctx,
   (import rid domain items s').1.1 = BUSINESS_KEY_NOT_READY /\
   (importKl1 rid domain items ctx s').1.1.1 = BUSINESS_KEY_NOT_READY /\
   (import rid domain items s').2 = s' /\ (importKl1 rid domain items ctx s').2 = s').
Proof.
  intros Hi. split.
  2: { intros Hr rid domain items ctx. unfold import, importKl1. cbv zeta. rewrite Hr. cbn [negb].
       by destruct (sv_shutting_down s'), (pg_enabled (sv_cfg s')). }
  unfold service_initialize in Hi.
  destruct (pg_enabled (sv_cfg s)) eqn:Een; cbn [negb] in Hi; [|by injection Hi as <- <-].
  destruct (negb _ || _ || _) eqn:Ew; [by injection Hi as <- <-|].
  destruct (on_provider bp_initialize s) as [prc s1] eqn:Ep. pose proof (on_provider_keeps _ _ _ _ Ep) as [K1 _].
  destruct (is_success prc); cbn [negb] in Hi; [|by injection Hi as <- <-].
  destruct (on_ledger ledger_load s1) as [lrc s2] eqn:El.
  assert (K2 : same_service s1 s2).
  { unfold on_ledger in El. destruct (ledger_load _). injection El as _ <-. by repeat split. }
  destruct (is_success lrc); cbn [negb] in Hi; [|by injection Hi as <- <-].
  pose proof (recover_on_startup_same s2) as K3.
  pose proof (same_service_trans _ _ _ K1 (same_service_trans _ _ _ K2 K3)) as (Kc & Kw & _).
  injection Hi as <- <-. set (s3 := recover_on_startup s2) in *. unfold settle_readiness.
  destruct (compute_capability s3) as [cap s4] eqn:Ec. simpl. intros Hr.
  apply andb_true_iff in Hr as [Hr Hst]. apply andb_true_iff in Hr as [Hpr Hcap].
  bool_simpl. apply compute_capability_all in Ec as ([x ->] & Hpc & (e & Hb) & Ht); [|done|by rewrite Kw].
  cbv zeta in Hpc, Hb. bool_simpl. simpl. split_and!; try done; [by apply orb_false_iff|].
  exists e. by split_and!.
Qed.
End Properties.

(* --------------------------------------------------------------------- *)
(** ** Start-up recovery over the soft-file provider                      *)
(* --------------------------------------------------------------------- *)

Section Startup.
Context {K : Type} `{KEnv : SoftFileEnv K} `{KLaws : !SoftFileEnvLaws K} `{Crypto : SoftFileCrypto}
  {D E : Type} `{Store : LedgerStore D} `{J : Json} `{JL : !JsonLaws J} `{SEnv : ServiceEnv E} `{Hash : Sha256}
  `{PB : Protobuf} `{EC : EcP256}.
Implicit Types s : Service (SfState K) D E.
Implicit Types p : SfState K.

(** The entry a stored record is listed as. *)
Definition listed p (k : string) (js : JournalStored) : BusinessKeyJournalEntry :=
  if String.eqb (js_mac_hex js) (journal_mac (sf_mac_key p) (js_entry js)) then js_entry js
  else mkEntry k "" BIP_UNKNOWN 0 [] 0 0 "" "" [] "" [].

(** Authentic records are stored under the request they are about. *)
Definition journal_keyed p : Prop :=
  map_Forall (fun k js => je_request_id_digest (listed p k js) = k) (sf_journal p).

(** An open provider whose journal is settled but for the entries of [l]. *)
Definition settling p (l : list BusinessKeyJournalEntry) : Prop :=
  sf_ready p = true /\ sf_state_version_unknown p = false /\ journal_keyed p /\
  map_Forall (fun k js => settled (je_phase (listed p k js)) = true \/ listed p k js ∈ l) (sf_journal p).

Lemma settling_saved e p l :
  settled (je_phase e) = true -> settling p l ->
  settling (sf_saveJournal e p).2
    (filter (fun x => je_request_id_digest x <> je_request_id_digest e) l).
Proof.
  intros He (Hr & Hv & Hk & Hl). destruct (sf_saveJournal e p) as [rc p'] eqn:Es.
  apply saveJournal_effect in Es as Heff. destruct Heff as [[_ ->]|(e' & -> & _)].
  { unfold sf_saveJournal in Es. rewrite Hr in Es. cbn [negb] in Es.
    apply save_state_effect in Es as (e' & Heq & _).
    apply (f_equal sf_journal) in Heq as Hj. simpl in Hj. simpl. split_and!; try done.
    intros k js Hin. destruct (Hl k js Hin) as [?|?]; [by left|].
    destruct (decide (k = je_request_id_digest e)) as [->|Hne].
    - left. rewrite Hj, lookup_insert_eq in Hin. injection Hin as <-. unfold listed. simpl.
      by rewrite String.eqb_refl.
    - right. apply list_elem_of_filter. split; [|done]. by rewrite (Hk k js Hin). }
  simpl. split_and!; [done|done| |].
  - intros k js Hin. unfold listed. simpl in *.
    destruct (decide (k = je_request_id_digest e)) as [->|Hne].
    + rewrite lookup_insert_eq in Hin. injection Hin as <-. simpl. by rewrite String.eqb_refl.
    + rewrite lookup_insert_ne in Hin by done. by apply (Hk k js).
  - intros k js Hin. unfold listed. simpl in *.
    destruct (decide (k = je_request_id_digest e)) as [->|Hne].
    + rewrite lookup_insert_eq in Hin. injection Hin as <-. simpl. rewrite String.eqb_refl. by left.
    + rewrite lookup_insert_ne in Hin by done. destruct (Hl k js Hin) as [?|?]; [by left|].
      right. apply list_elem_of_filter. split; [|done].
      intros Hc. apply Hne. rewrite <- Hc. symmetry. exact (Hk k js Hin).
Qed.

Lemma settling_rollback domain g p l : settling p l -> settling (sf_rollbackStaging domain g p).2 l.
Proof.
  intros Hs. destruct (sf_rollbackStaging domain g p) as [rc p'] eqn:Er.
  apply rollback_effect in Er as [->|(e' & -> & _)]; exact Hs.
Qed.

Lemma settling_weaken p l1 l2 : (forall x, x ∈ l1 -> x ∈ l2) -> settling p l1 -> settling p l2.
Proof.
  intros Hsub (?&?&?&Hl). split_and!; try done. intros k js Hin. destruct (Hl k js Hin); auto.
Qed.

Lemma settling_recover e s l :
  settling (sv_provider s) (e :: l) -> settling (sv_provider (recover_entry e s).2) l.
Proof.
  intros Hs. destruct (recover_entry e s) as [e' s'] eqn:Er.
  apply recover_entry_spec in Er as (_ & Hid & _ & _ & Hb). simpl.
  assert (G : forall p, settling p (e :: l) -> settled (je_phase e') = true ->
    settling (sf_saveJournal e' p).2 l).
  { intros p Hp Hst. eapply settling_weaken; [|by apply settling_saved]. intros x Hx.
    apply list_elem_of_filter in Hx as [Hne Hx]. rewrite Hid in Hne.
    by apply elem_of_cons in Hx as [->|?]. }
  destruct (both_active _ _ _).
  - destruct Hb as (Hp & _ & _ & ->). apply G; [done|]. by rewrite Hp.
  - destruct Hb as (Hp & _ & _ & ->). apply G; [by apply settling_rollback|]. by rewrite Hp.
Qed.

Lemma settling_startup l s :
  settling (sv_provider s) l ->
  settling (sv_provider (fold_left (fun s entry =>
    if settled (je_phase entry) then s else (recover_entry entry s).2) l s)) [].
Proof.
  revert s. induction l as [|e l IH]; intros s Hs; simpl; [done|]. apply IH.
  destruct (settled (je_phase e)) eqn:Est; [|by apply settling_recover].
  destruct Hs as (?&?&?&Hl). split_and!; try done. intros k js Hin.
  destruct (Hl k js Hin) as [?|Hin']; [by left|]. apply elem_of_cons in Hin' as [Heq|?]; [|by right].
  left. by rewrite Heq.
Qed.

(** Start-up leaves nothing half done. Over an open soft-file provider, after
    [recover_on_startup] every journal entry is SUCCEEDED or FAILED - interrupted
    at any phase, ambiguous, or tampered with - even if every write to the store
    fails; a tampered entry becomes FAILED under a fresh MAC. *)
Theorem startup_settles_journal s :
  sf_ready (sv_provider s) = true -> sf_state_version_unknown (sv_provider s) = false ->
  journal_keyed (sv_provider s) ->
  Forall (fun e => je_phase e = BIP_SUCCEEDED \/ je_phase e = BIP_FAILED)
    (sf_listJournal (sv_provider (recover_on_startup s))).
Proof.
  intros Hr Hv Hk.
  assert (Hin : forall p, sf_state_version_unknown p = false -> forall e, e ∈ sf_listJournal p <->
    exists k js, sf_journal p !! k = Some js /\ e = listed p k js).
  { intros p Hvp e. unfold sf_listJournal. rewrite Hvp, list_elem_of_fmap. split.
    - intros ([k js] & -> & Hkv). exists k, js. split; [by apply elem_of_map_items|done].
    - intros (k & js & Hkv & ->). exists (k, js). split; [done|by apply elem_of_map_items]. }
  assert (Hs : settling (sv_provider (recover_on_startup s)) []).
  { unfold recover_on_startup. apply settling_startup. split_and!; try done.
    intros k js Hkj. right. apply Hin; [done|]. eauto. }
  destruct Hs as (_ & Hv' & _ & Hl). apply Forall_forall. intros e He.
  apply (Hin _ Hv') in He as (k & js & Hkj & ->).
  destruct (Hl k js Hkj) as [Hst|Hc]; [|by apply not_elem_of_nil in Hc].
  unfold settled in Hst. apply orb_true_iff in Hst as [?|?]; bool_simpl; auto.
Qed.
End Startup.


(* --------------------------------------------------------------------- *)
(** ** A reconciliation that goes wrong                                   *)
(* --------------------------------------------------------------------- *)

(** Recovery goes by the generation alone. An unsettled entry becomes
    SUCCEEDED, its items ACTIVE, whenever the required slots are active under the
    entry's generation, whatever keys they hold. Generations are reused: when an
    import ends ambiguous before its commit, the next one gets the same number.
    On the sample device the first request then turns COMMITTED with keys that
    were never activated, when it is repeated after the second has succeeded; its
    versions overwrite the ledger and the active keys are reported INVALID. *)
Theorem recovery_trusts_generation :
  (forall e (s : sample_service),
     both_active (sv_cfg s) (je_generation e) (sv_provider s) = true ->
     je_phase (recover_entry e s).1 = BIP_SUCCEEDED /\
     je_items (recover_entry e s).1 = (status_state BKS_ACTIVE <$> je_items e)) /\
  let first := import "rid-1" kBusinessDomainV2c items1 (with_saves [true; false] svc0) in
  let second := import "rid-2" kBusinessDomainV2c items2 first.2 in
  let again := import "rid-1" kBusinessDomainV2c items1 second.2 in
  let slot := (sf_querySlot kBusinessDomainV2c kBusinessPurposeUplinkAead (sv_provider again.2)).2 in
  let status := getStatus kBusinessDomainV2c [kBusinessPurposeUplinkAead] again.2 in
  first.1.1 = BUSINESS_KEY_OUTCOME_UNKNOWN /\ second.1.1 = SUCCESS /\
  again.1.1 = SUCCESS /\ ir_state again.1.2 = BIS_COMMITTED /\
  bs_business_key_version <$> ir_items again.1.2 = [7; 7] /\
  bs_state <$> ir_items again.1.2 = [BKS_ACTIVE; BKS_ACTIVE] /\
  si_business_key_version slot = 8 /\ bs_state <$> status.2 = [BKS_INVALID].
Proof.
  split; [|by vm_compute]. intros e s Hb. destruct (recover_entry e s) as [e' s'] eqn:Er.
  apply recover_entry_spec in Er as (_ & _ & _ & _ & Hc). rewrite Hb in Hc. by destruct Hc as (? & ? & _).
Qed.

(* --------------------------------------------------------------------- *)
(** ** Witnesses                                                          *)
(* --------------------------------------------------------------------- *)

Module ImportWitness.
Definition kl1 : ErrorCode * ImportResult * KeyprovResultAttachment * sample_service :=
  importKl1 "rid-1" kBusinessDomainV2c items1 lease0 svc0.
Lemma kl1_eq :
  importKl1 "rid-1" kBusinessDomainV2c items1 lease0 svc0 = ((kl1.1.1.1, kl1.1.1.2, kl1.1.2), kl1.2).
Proof. unfold kl1. by destruct (importKl1 _ _ _ _ _) as [[[? ?] ?] ?]. Qed.
Lemma kl1_success : kl1.1.1.1 = SUCCESS.
Proof. by vm_compute. Qed.

(** The device after the second request was imported. *)
Definition svc_done : sample_service := (import "rid-2" kBusinessDomainV2c items2 svc0).2.
Abbreviation checked := (check_request "rid-2" kBusinessDomainV2c items2 svc_done).
Definition checked_binding : BusinessKeyDeviceBinding :=
  match checked.1 with Ok (b, _) => b | Err _ => BusinessKeyDeviceBinding_default end.
Definition checked_envelopes : list ValidatedEnvelope :=
  match checked.1 with Ok (_, vs) => vs | Err _ => [] end.
Lemma checked_ok : checked.1 = Ok (checked_binding, checked_envelopes).
Proof. by vm_compute. Qed.
Lemma checked_eq : checked = (Ok (checked_binding, checked_envelopes), checked.2).
Proof. rewrite <- checked_ok. apply surjective_pairing. Qed.
Abbreviation done_read := (bp_loadJournalEx (rid_digest_of "rid-2") (sv_provider svc_done)).
Definition done_entry : BusinessKeyJournalEntry :=
  default BusinessKeyJournalEntry_default (jl_entry done_read).
Lemma done_facts :
  pg_enabled (sv_cfg svc_done) = true /\ rd_import_ready (sv_ready svc_done) = true /\
  sv_shutting_down svc_done = false /\ epoch (rd_epoch_src (sv_ready svc_done)) <> 0 /\
  jl_status done_read = JLS_FOUND /\ jl_entry done_read = Some done_entry /\
  je_phase done_entry = BIP_SUCCEEDED /\
  je_request_digest done_entry =
    build_request_digest "rid-2" kBusinessDomainV2c items2 checked_envelopes checked.2.
Proof. by vm_compute. Qed.

(** The device with an ambiguous entry in its journal. *)
Definition svc_open : sample_service :=
  (import "rid-1" kBusinessDomainV2c items1 (with_saves [true; false] svc0)).2.
Lemma svc_open_facts :
  sf_ready (sv_provider svc_open) = true /\ sf_state_version_unknown (sv_provider svc_open) = false.
Proof. by vm_compute. Qed.
Lemma svc_open_keyed : journal_keyed (sv_provider svc_open).
Proof. apply (bool_decide_unpack _). by vm_compute. Qed.
End ImportWitness.
Import ImportWitness.

Lemma importKl1_admission_witness :
  kl1.1.1.1 = SUCCESS /\
  (untouched svc0 kl1.2 \/ reconciled "rid-1" kBusinessDomainV2c items1 svc0 kl1.2 \/
   started "rid-1" kBusinessDomainV2c items1 lease0 svc0 kl1.1.1.1 kl1.1.1.2 kl1.2).
Proof.
  split; [exact kl1_success|].
  exact (importKl1_admission "rid-1" kBusinessDomainV2c items1 lease0 svc0 _ _ _ _ kl1_eq).
Defined.

Lemma committed_fact_replayed_witness :
  import "rid-2" kBusinessDomainV2c items2 svc_done =
    ((SUCCESS, build_committed_result done_entry (res_for "rid-2" kBusinessDomainV2c)), checked.2).
Proof.
  destruct done_facts as (H1 & H2 & H3 & H4 & H5 & H6 & H7 & H8).
  exact (proj1 (proj1 (proj2 (committed_fact_replayed "rid-2" kBusinessDomainV2c items2
    (mkContext 0 1 1) done_entry checked_binding checked_envelopes svc_done checked.2
    H1 H2 H3 H4 eq_refl (fun H => ltac:(discriminate H)) checked_eq H5 H6 H7)) (or_intror H8))).
Defined.

Lemma initialize_fail_closed_witness :
  exists e : device, is_trusted (se_now e).1 = true.
Proof.
  destruct (proj1 (initialize_fail_closed (service_on world0 ledger0) _ svc0 (surjective_pairing _))
    svc0_ready) as (_&_&_&_&_&_&_&_&_&_&_&Ht).
  exact Ht.
Defined.

Lemma startup_settles_journal_witness :
  Forall (fun e => je_phase e = BIP_SUCCEEDED \/ je_phase e = BIP_FAILED)
    (sf_listJournal (sv_provider (recover_on_startup svc_open))).
Proof.
  exact (startup_settles_journal svc_open (proj1 svc_open_facts) (proj2 svc_open_facts)
    svc_open_keyed).
Defined.
