(* ===== verification/Tls.v ===== *)
(** * TlsCredentialProvider: TLS material, private key references, signing.
    Models [src/tls_credential_provider.cpp] / [include/tls_credential_provider.h]
    and the TLS types of [include/tbox/sec/types.h]. The HSM, the two resolvers,
    the clock, the random source and the event callback are an environment;
    X.509 is the interface of [X509], AES-GCM that of [SoftFile]. Every public
    function except [signTls] holds the mutex for its whole body; [signTls] takes
    it after decoding, which reads only members set at construction. *)
From S2P Require Import Prelude Errors Canonical Json X509 SoftFile.

(* --------------------------------------------------------------------- *)
(** ** Types                                                              *)
(* --------------------------------------------------------------------- *)

(** [src/include/tbox/sec/types.h:24-30] TlsCredentialStatus *)
Inductive TlsCredentialStatus := TLS_READY | TLS_NOT_READY | TLS_EXPIRED | TLS_REVOKED | TLS_ERROR.
#[global] Instance TlsCredentialStatus_eq_dec : EqDecision TlsCredentialStatus.
Proof. solve_decision. Defined.

Definition is_ready (s : TlsCredentialStatus) : bool :=
  match s with TLS_READY => true | _ => false end.

(** [src/include/tbox/sec/types.h:33-36] KeyAlgorithm *)
Inductive KeyAlgorithm := KA_UNKNOWN | KA_ECDSA_P256.

(** The enumeration has [uint8_t] as its type and a decoded reference casts an
    integer to it, so values without a name exist. *)
(** [src/include/tbox/sec/types.h:39-42] SignatureAlgorithm *)
Inductive SignatureAlgorithm :=
  | SA_UNKNOWN
  | SA_ECDSA_SECP256R1_SHA256
  | SA_other (code : Z).
#[global] Instance SignatureAlgorithm_eq_dec : EqDecision SignatureAlgorithm.
Proof. solve_decision. Defined.

(** [src/include/tbox/sec/types.h:39-42] SignatureAlgorithm values *)
Definition sigalg_code (a : SignatureAlgorithm) : Z :=
  match a with SA_UNKNOWN => 0 | SA_ECDSA_SECP256R1_SHA256 => 1 | SA_other c => c end.

(** [static_cast<SignatureAlgorithm>(int)]. *)
Definition sigalg_of_code (z : Z) : SignatureAlgorithm :=
  let c := wrapu 8 z in
  if c =? 0 then SA_UNKNOWN else if c =? 1 then SA_ECDSA_SECP256R1_SHA256 else SA_other c.

(** A value of the enumeration's type. *)
Definition sigalg_wf (a : SignatureAlgorithm) : Prop :=
  match a with SA_other c => 2 <= c < 256 | _ => True end.

Definition sigalg_eqb (a b : SignatureAlgorithm) : bool := sigalg_code a =? sigalg_code b.

(** [src/src/error_codes.cpp:149-158] tls_credential_status_to_string *)
Definition tls_credential_status_to_string (s : TlsCredentialStatus) : string :=
  match s with
  | TLS_READY => "READY"
  | TLS_NOT_READY => "NOT_READY"
  | TLS_EXPIRED => "EXPIRED"
  | TLS_REVOKED => "REVOKED"
  | TLS_ERROR => "ERROR"
  end.

(** [src/src/error_codes.cpp:160-167] string_to_tls_credential_status *)
Definition string_to_tls_credential_status (s : string) : TlsCredentialStatus :=
  if String.eqb s "READY" then TLS_READY
  else if String.eqb s "NOT_READY" then TLS_NOT_READY
  else if String.eqb s "EXPIRED" then TLS_EXPIRED
  else if String.eqb s "REVOKED" then TLS_REVOKED
  else if String.eqb s "ERROR" then TLS_ERROR
  else TLS_NOT_READY.

(** [src/src/error_codes.cpp:169-174] key_algorithm_to_string *)
Definition key_algorithm_to_string (a : KeyAlgorithm) : string :=
  match a with KA_ECDSA_P256 => "ecdsa-p256" | KA_UNKNOWN => "unknown" end.

(** [src/src/error_codes.cpp:176-179] string_to_key_algorithm *)
Definition string_to_key_algorithm (s : string) : KeyAlgorithm :=
  if String.eqb s "ecdsa-p256" then KA_ECDSA_P256 else KA_UNKNOWN.

(** [src/src/error_codes.cpp:181-186] signature_algorithm_to_string *)
Definition signature_algorithm_to_string (a : SignatureAlgorithm) : string :=
  match a with SA_ECDSA_SECP256R1_SHA256 => "ecdsa_secp256r1_sha256" | _ => "unknown" end.

(** [src/src/error_codes.cpp:188-191] string_to_signature_algorithm *)
Definition string_to_signature_algorithm (s : string) : SignatureAlgorithm :=
  if String.eqb s "ecdsa_secp256r1_sha256" then SA_ECDSA_SECP256R1_SHA256 else SA_UNKNOWN.

(** [src/include/peer_credential.h:10-16] PeerIdentity *)
Record PeerIdentity := mkPeer {
  pi_valid : bool;
  pi_pid : Z;
  pi_uid : Z;
  pi_gid : Z;
  pi_service_name : string
}.

(** [src/include/tls_credential_provider.h:20-30] TlsProfileConfig *)
Record TlsProfileConfig := mkTlsProfileConfig {
  tc_profile_name : string;
  tc_credential_id : string;
  tc_key_usage : string;
  tc_allowed_signature_algorithms : list SignatureAlgorithm;
  tc_peer_service : string;
  tc_notify_on_change : bool;
  tc_root_ca_key : string;
  tc_client_cert_chain_key : string;
  tc_ref_ttl_sec : Z
}.

Definition tls_profile_config_default : TlsProfileConfig :=
  mkTlsProfileConfig "mqtt" "mqtt-primary" "clientAuth" [] "tbox-mqtt.service" true
    "root_ca" "device_cert_chain" 3600.

(** [src/include/tls_credential_provider.h:104-114] ProfileState *)
Record ProfileState := mkProfileState {
  ps_config : TlsProfileConfig;
  ps_status : TlsCredentialStatus;
  ps_version : Z;
  ps_reason_code : Z;
  ps_root_ca_bundle_der : bytes;
  ps_client_cert_chain_der : bytes;
  ps_not_before : Z;
  ps_not_after : Z;
  ps_key_algorithm : KeyAlgorithm
}.

Definition profile_state_default : ProfileState :=
  mkProfileState tls_profile_config_default TLS_NOT_READY 0 0 [] [] 0 0 KA_ECDSA_P256.

(** Field assignments. *)
Section ProfileSetters.
Implicit Types p : ProfileState.
Definition ps_with_config x p : ProfileState := mkProfileState x (ps_status p) (ps_version p)
    (ps_reason_code p) (ps_root_ca_bundle_der p) (ps_client_cert_chain_der p) (ps_not_before p)
    (ps_not_after p) (ps_key_algorithm p).
Definition ps_with_status x p : ProfileState := mkProfileState (ps_config p) x (ps_version p)
    (ps_reason_code p) (ps_root_ca_bundle_der p) (ps_client_cert_chain_der p) (ps_not_before p)
    (ps_not_after p) (ps_key_algorithm p).
Definition ps_with_version x p : ProfileState := mkProfileState (ps_config p) (ps_status p) x
    (ps_reason_code p) (ps_root_ca_bundle_der p) (ps_client_cert_chain_der p) (ps_not_before p)
    (ps_not_after p) (ps_key_algorithm p).
Definition ps_with_reason_code x p : ProfileState := mkProfileState (ps_config p) (ps_status p)
    (ps_version p) x (ps_root_ca_bundle_der p) (ps_client_cert_chain_der p) (ps_not_before p)
    (ps_not_after p) (ps_key_algorithm p).
Definition ps_with_root_ca_bundle_der x p : ProfileState := mkProfileState (ps_config p)
    (ps_status p) (ps_version p) (ps_reason_code p) x (ps_client_cert_chain_der p)
    (ps_not_before p) (ps_not_after p) (ps_key_algorithm p).
Definition ps_with_client_cert_chain_der x p : ProfileState := mkProfileState (ps_config p)
    (ps_status p) (ps_version p) (ps_reason_code p) (ps_root_ca_bundle_der p) x (ps_not_before
    p) (ps_not_after p) (ps_key_algorithm p).
Definition ps_with_not_before x p : ProfileState := mkProfileState (ps_config p) (ps_status p)
    (ps_version p) (ps_reason_code p) (ps_root_ca_bundle_der p) (ps_client_cert_chain_der p) x
    (ps_not_after p) (ps_key_algorithm p).
Definition ps_with_not_after x p : ProfileState := mkProfileState (ps_config p) (ps_status p)
    (ps_version p) (ps_reason_code p) (ps_root_ca_bundle_der p) (ps_client_cert_chain_der p)
    (ps_not_before p) x (ps_key_algorithm p).
Definition ps_with_key_algorithm x p : ProfileState := mkProfileState (ps_config p) (ps_status
    p) (ps_version p) (ps_reason_code p) (ps_root_ca_bundle_der p) (ps_client_cert_chain_der p)
    (ps_not_before p) (ps_not_after p) x.
End ProfileSetters.

(** [src/include/tbox/sec/types.h:60-70] TlsCredentialBundle *)
Record TlsCredentialBundle := mkBundle {
  tb_credential_id : string;
  tb_version : Z;
  tb_root_ca_bundle_der : bytes;
  tb_client_cert_chain_der : bytes;
  tb_private_key_ref : bytes;
  tb_key_algorithm : KeyAlgorithm;
  tb_not_before : Z;
  tb_not_after : Z;
  tb_status : TlsCredentialStatus
}.

(** [src/include/tbox/sec/types.h:73-78] TlsCredentialState *)
Record TlsCredentialState := mkCredentialState {
  cs_credential_id : string;
  cs_version : Z;
  cs_status : TlsCredentialStatus;
  cs_reason_code : Z
}.

(** [src/include/tbox/sec/types.h:81-87] TlsSignRequest *)
Record TlsSignRequest := mkSignRequest {
  sr_private_key_ref : bytes;
  sr_algorithm : SignatureAlgorithm;
  sr_digest : bytes;
  sr_context : bytes;
  sr_request_id : string
}.

(** [src/include/tbox/sec/types.h:90-96] TlsCredentialChangedEvent *)
Record TlsCredentialChangedEvent := mkChangedEvent {
  ev_profile : string;
  ev_credential_id : string;
  ev_version : Z;
  ev_status : TlsCredentialStatus;
  ev_reason_code : Z
}.

(** [src/include/tls_credential_provider.h:130-139] RefPayload *)
Record RefPayload := mkRefPayload {
  rp_caller_service : string;
  rp_profile : string;
  rp_credential_id : string;
  rp_version : Z;
  rp_key_id : string;
  rp_allowed_algorithms : list SignatureAlgorithm;
  rp_boot_epoch : Z;
  rp_expiry : Z
}.

(** [static_cast<ErrorCode>(ps->reason_code)]. The field only ever holds 0 or the
    value of an enumerator ([reason_coded] in [TlsProps]). *)
Definition error_code_of_value (z : Z) : ErrorCode :=
  match list_find (fun c => error_code_value c = z) all_error_codes with
  | Some (_, c) => c
  | None => INTERNAL_ERROR
  end.

(* --------------------------------------------------------------------- *)
(** ** The provider                                                       *)
(* --------------------------------------------------------------------- *)

(** What lies outside: the two resolvers, the HSM, [std::time], [RAND_bytes], the
    change callback, and OpenSSL's path validation, which reads the clock. *)
Class TlsEnv (E : Type) `{L : X509Lib} := {
  tls_key_id : E -> string;
  tls_material : string -> E -> string;
  tls_key_exists : string -> E -> bool;
  tls_export_public_key : string -> E -> ErrorCode * bytes;
  tls_sign_digest : string -> bytes -> st E (ErrorCode * bytes);
  tls_time : st E Z;
  tls_RAND_bytes : nat -> st E (option bytes);
  tls_notify : string -> TlsCredentialChangedEvent -> E -> E;
  tls_store_new : E -> bool;
  X509_verify_cert : list X509 -> X509 -> list X509 -> E -> bool
}.

(** [src/include/tls_credential_provider.h:116-126] TlsCredentialProvider members *)
Record TlsCredentialProvider (E : Type) := mkTls {
  tp_has_key_id_resolver : bool;
  tp_has_material_resolver : bool;
  tp_has_notify : bool;
  tp_profiles : gmap string ProfileState;
  tp_process_key : bytes;
  tp_boot_epoch : Z;
  tp_env : E
}.
Arguments mkTls {E}.
Arguments tp_has_key_id_resolver {E}. Arguments tp_has_material_resolver {E}.
Arguments tp_has_notify {E}. Arguments tp_profiles {E}. Arguments tp_process_key {E}.
Arguments tp_boot_epoch {E}. Arguments tp_env {E}.

Section ProviderSetters.
Context {E : Type}.
Implicit Types s : TlsCredentialProvider E.
Definition tp_with_has_key_id_resolver x s : TlsCredentialProvider E := mkTls x
    (tp_has_material_resolver s) (tp_has_notify s) (tp_profiles s) (tp_process_key s)
    (tp_boot_epoch s) (tp_env s).
Definition tp_with_has_material_resolver x s : TlsCredentialProvider E := mkTls
    (tp_has_key_id_resolver s) x (tp_has_notify s) (tp_profiles s) (tp_process_key s)
    (tp_boot_epoch s) (tp_env s).
Definition tp_with_has_notify x s : TlsCredentialProvider E := mkTls (tp_has_key_id_resolver s)
    (tp_has_material_resolver s) x (tp_profiles s) (tp_process_key s) (tp_boot_epoch s) (tp_env
    s).
Definition tp_with_profiles x s : TlsCredentialProvider E := mkTls (tp_has_key_id_resolver s)
    (tp_has_material_resolver s) (tp_has_notify s) x (tp_process_key s) (tp_boot_epoch s)
    (tp_env s).
Definition tp_with_process_key x s : TlsCredentialProvider E := mkTls (tp_has_key_id_resolver s)
    (tp_has_material_resolver s) (tp_has_notify s) (tp_profiles s) x (tp_boot_epoch s) (tp_env
    s).
Definition tp_with_boot_epoch x s : TlsCredentialProvider E := mkTls (tp_has_key_id_resolver s)
    (tp_has_material_resolver s) (tp_has_notify s) (tp_profiles s) (tp_process_key s) x (tp_env
    s).
Definition tp_with_env x s : TlsCredentialProvider E := mkTls (tp_has_key_id_resolver s)
    (tp_has_material_resolver s) (tp_has_notify s) (tp_profiles s) (tp_process_key s)
    (tp_boot_epoch s) x.
End ProviderSetters.

Definition kGcmNonceLen : nat := 12.
Definition kGcmTagLen : nat := 16.
Definition kAesKeyLen : nat := 32.
Definition kOidClientAuth : string := "1.3.6.1.5.5.7.3.2".
Definition SHA256_DIGEST_LENGTH : Z := 32.

Section Operations.
Context {E : Type} `{L : X509Lib} `{Env : !TlsEnv E} `{Crypto : SoftFileCrypto} `{Hash : Sha256}
  `{J : Json}.
Implicit Types s : TlsCredentialProvider E.
Implicit Types p : ProfileState.

(** Run an environment operation from a provider operation. *)
Definition on_tls_env {A} (m : st E A) : st (TlsCredentialProvider E) A :=
  fun s => let '(a, e) := m (tp_env s) in (a, tp_with_env e s).

(** [src/src/tls_credential_provider.cpp:48-69] load_certs_from_string *)
Definition load_certs_from_string (content : string) : list X509 :=
  if str_empty content then []
  else if str_contains "-----BEGIN" content then PEM_read_bio_X509s content
  else match d2i_X509 (bytes_of_string content) with Some (c, _) => [c] | None => [] end.

(** [src/src/tls_credential_provider.cpp:83-90] certs_to_der_bundle *)
Definition certs_to_der_bundle (certs : list X509) : bytes := concat (i2d_X509 <$> certs).

(** [src/src/tls_credential_provider.cpp:93-106] get_eku_oids *)
Definition get_eku_oids (c : X509) : list string := default [] (x509_eku c).

(** [src/src/tls_credential_provider.cpp:109-116] is_ca_cert *)
Definition is_ca_cert (c : X509) : bool := default false (x509_basic_constraints_ca c).

(** [src/src/tls_credential_provider.cpp:119-127] get_validity *)
Definition get_validity (c : X509) : Z * Z :=
  (default timegm_zero (x509_notBefore c), default timegm_zero (x509_notAfter c)).

(** [src/src/tls_credential_provider.cpp:130-152] get_raw_public_key *)
Definition get_raw_public_key (c : X509) : bytes := default [] (x509_ec_point c).

(** [src/src/tls_credential_provider.cpp:154-157] now_in_range *)
Definition now_in_range (now not_before not_after : Z) : bool :=
  (now >=? not_before) && (now <=? not_after).

(** [src/src/tls_credential_provider.cpp:184-191] generateProcessKey *)
Definition generateProcessKey : st E bytes := fun e =>
  let '(r, e) := tls_RAND_bytes kAesKeyLen e in
  (match r with Some k => k | None => replicate kAesKeyLen x00 end, e).

(** The eight random bytes are read in host order (little endian). *)
(** [src/src/tls_credential_provider.cpp:193-199] generateBootEpoch *)
Definition generateBootEpoch : st E Z := fun e =>
  let '(r, e) := tls_RAND_bytes 8 e in
  match r with
  | Some b => (be_decode (rev b), e)
  | None => let '(t, e) := tls_time e in (wrapu 64 t, e)
  end.

(** [src/src/tls_credential_provider.cpp:165-175] TlsCredentialProvider *)
Definition tls_new (resolver material notify : bool) : E -> TlsCredentialProvider E := fun e =>
  let '(k, e) := generateProcessKey e in
  let '(b, e) := generateBootEpoch e in
  mkTls resolver material notify ∅ k b e.

(** [src/src/tls_credential_provider.cpp:201-209] hashId *)
Definition hashId (id : string) : string := toHex (take 8 (SHA256 (bytes_of_string id))).

(** [src/src/tls_credential_provider.cpp:211-219] findProfile *)
Definition findProfile (profile : string) s : option ProfileState := tp_profiles s !! profile.

(** Write back through the pointer [findProfile] returned. *)
Definition put_profile (profile : string) (p : ProfileState) s : TlsCredentialProvider E :=
  tp_with_profiles (<[profile := p]> (tp_profiles s)) s.

(** [src/src/tls_credential_provider.cpp:221-228] configureProfile *)
Definition configureProfile (config : TlsProfileConfig) s : TlsCredentialProvider E :=
  let ps := default profile_state_default (findProfile (tc_profile_name config) s) in
  let ps := ps_with_config config ps in
  let ps := if ps_version ps =? 0 then ps_with_status TLS_NOT_READY ps else ps in
  put_profile (tc_profile_name config) ps s.

(** [src/src/tls_credential_provider.cpp:230-239] isAuthorized *)
Definition isAuthorized (profile : string) (peer : PeerIdentity) s : bool :=
  match findProfile profile s with
  | None => false
  | Some ps =>
      if negb (pi_valid peer) then false
      else if str_empty (tc_peer_service (ps_config ps)) then false
      else String.eqb (pi_service_name peer) (tc_peer_service (ps_config ps))
  end.

(** [src/src/tls_credential_provider.cpp:241-245] getStatus *)
Definition tls_getStatus (profile : string) s : TlsCredentialStatus :=
  match findProfile profile s with Some ps => ps_status ps | None => TLS_NOT_READY end.

(** [src/src/tls_credential_provider.cpp:251-261] algorithmAllowed *)
Definition algorithmAllowed (p : ProfileState) (alg : SignatureAlgorithm) : bool :=
  match tc_allowed_signature_algorithms (ps_config p) with
  | [] => sigalg_eqb alg SA_ECDSA_SECP256R1_SHA256
  | l => existsb (fun a => sigalg_eqb a alg) l
  end.

(** [src/src/tls_credential_provider.cpp:263-275] publishChanged *)
Definition publishChanged (profile : string) (p : ProfileState) (status : TlsCredentialStatus)
    (reason_code : Z) s : TlsCredentialProvider E :=
  if negb (tc_notify_on_change (ps_config p)) || negb (tp_has_notify s) then s
  else
    let ev := mkChangedEvent profile (tc_credential_id (ps_config p)) (ps_version p) status
                reason_code in
    tp_with_env (tls_notify profile ev (tp_env s)) s.

(* --------------------------------------------------------------------- *)
(** ** Material                                                           *)
(* --------------------------------------------------------------------- *)

(** An early return: status and reason code are set, the code is returned. *)
Definition reject (status : TlsCredentialStatus) (rc : ErrorCode) (p : ProfileState) :
    ErrorCode * ProfileState :=
  (rc, ps_with_reason_code (error_code_value rc) (ps_with_status status p)).

(** Steps 3 to 5 and the success path, with the clock already read. *)
(** [src/src/tls_credential_provider.cpp:356-446] validateAndStoreMaterials, from the key match on *)
Definition validate_key_and_chain (has_resolver : bool) (root_certs : list X509) (leaf : X509)
    (chain_certs : list X509) (e : E) (p : ProfileState) : ErrorCode * ProfileState :=
  let key_id := if has_resolver then tls_key_id e else ""%string in
  if str_empty key_id || negb (tls_key_exists key_id e)
  then reject TLS_NOT_READY TLS_CREDENTIAL_NOT_READY p else
  let '(xrc, hsm_pub) := tls_export_public_key key_id e in
  if negb (is_success xrc) then reject TLS_ERROR TLS_HSM_SIGN_FAILED p else
  let cert_pub := get_raw_public_key leaf in
  if bytes_empty cert_pub || negb (bool_decide (cert_pub = hsm_pub))
  then reject TLS_ERROR TLS_KEY_MISMATCH p else
  if negb (existsb is_ca_cert root_certs) then reject TLS_ERROR TLS_CA_INVALID p else
  if negb (tls_store_new e) then reject TLS_ERROR INTERNAL_ERROR p else
  if negb (X509_verify_cert root_certs leaf (tail chain_certs) e)
  then reject TLS_ERROR TLS_CHAIN_INVALID p else
  (SUCCESS,
   ps_with_reason_code 0 (ps_with_status TLS_READY (ps_with_key_algorithm KA_ECDSA_P256
     (ps_with_client_cert_chain_der (certs_to_der_bundle chain_certs)
       (ps_with_root_ca_bundle_der (certs_to_der_bundle root_certs) p))))).

(** [src/src/tls_credential_provider.cpp:281-446] validateAndStoreMaterials *)
Definition validateAndStoreMaterials (p : ProfileState) :
    st (TlsCredentialProvider E) (ErrorCode * ProfileState) := fun s =>
  let e := tp_env s in
  let cfg := ps_config p in
  if str_empty (tc_root_ca_key cfg) || str_empty (tc_client_cert_chain_key cfg) ||
     negb (tp_has_material_resolver s)
  then (reject TLS_NOT_READY TLS_MATERIAL_KEY_MISSING p, s) else
  let root_pem := tls_material (tc_root_ca_key cfg) e in
  let chain_pem := tls_material (tc_client_cert_chain_key cfg) e in
  if str_empty root_pem || str_empty chain_pem
  then (reject TLS_NOT_READY TLS_MATERIAL_KEY_MISSING p, s) else
  let root_certs := load_certs_from_string root_pem in
  let chain_certs := load_certs_from_string chain_pem in
  match root_certs, chain_certs with
  | [], _ | _, [] => (reject TLS_ERROR TLS_MATERIAL_FORMAT_INVALID p, s)
  | _, leaf :: _ =>
      if negb (contains (get_eku_oids leaf) kOidClientAuth)
      then (reject TLS_ERROR TLS_MATERIAL_FORMAT_INVALID p, s) else
      let '(nb, na) := get_validity leaf in
      let '(now, s) := on_tls_env tls_time s in
      let p := ps_with_not_after na (ps_with_not_before nb p) in
      if negb (now_in_range now nb na)
      then (reject TLS_EXPIRED TLS_CERT_EXPIRED p, s) else
      (validate_key_and_chain (tp_has_key_id_resolver s) root_certs leaf chain_certs (tp_env s) p, s)
  end.

(** [src/src/tls_credential_provider.cpp:448-455] loadMaterials *)
Definition loadMaterials (profile : string) : st (TlsCredentialProvider E) ErrorCode := fun s =>
  match findProfile profile s with
  | None => (INVALID_PARAMETER, s)
  | Some ps =>
      let ps := if ps_version ps =? 0 then ps_with_version 1 ps else ps in
      let '((rc, ps), s) := validateAndStoreMaterials ps s in
      (rc, put_profile profile ps s)
  end.

(* --------------------------------------------------------------------- *)
(** ** Private key references                                             *)
(* --------------------------------------------------------------------- *)

(** [src/src/tls_credential_provider.cpp:463-472] encodeRef plaintext *)
Definition ref_json (r : RefPayload) : json :=
  json_of_fields [
    ("caller"%string, json_string (rp_caller_service r));
    ("profile"%string, json_string (rp_profile r));
    ("credential_id"%string, json_string (rp_credential_id r));
    ("version"%string, json_int (rp_version r));
    ("key_id"%string, json_string (rp_key_id r));
    ("allowed_algs"%string,
      json_array ((fun a => json_int (sigalg_code a)) <$> rp_allowed_algorithms r));
    ("boot_epoch"%string, json_int (rp_boot_epoch r));
    ("expiry"%string, json_int (rp_expiry r))].

(** The reference is empty when the random source or the cipher fails. *)
(** [src/src/tls_credential_provider.cpp:461-503] encodeRef *)
Definition encodeRef (r : RefPayload) : st (TlsCredentialProvider E) bytes := fun s =>
  let plaintext := bytes_of_string (json_dump (ref_json r)) in
  let '(nonce, s) := on_tls_env (tls_RAND_bytes kGcmNonceLen) s in
  match nonce with
  | None => ([], s)
  | Some nonce =>
      match gcm_seal (tp_process_key s) nonce [] plaintext with
      | None => ([], s)
      | Some (ciphertext, tag) => (nonce ++ ciphertext ++ tag, s)
      end
  end.

(** [src/src/tls_credential_provider.cpp:536-548] decodeRef payload *)
Definition ref_of_json (j : json) : option RefPayload :=
  caller ← value_string j "caller" "";
  profile ← value_string j "profile" "";
  credential_id ← value_string j "credential_id" "";
  version ← value_u64 j "version" 0;
  key_id ← value_string j "key_id" "";
  algs ← mapM as_int (match json_get j "allowed_algs" with Some v => json_elems v | None => [] end);
  boot_epoch ← value_u64 j "boot_epoch" 0;
  expiry ← value_i64 j "expiry" 0;
  Some (mkRefPayload caller profile credential_id version key_id (sigalg_of_code <$> algs)
    boot_epoch expiry).

(** [src/src/tls_credential_provider.cpp:505-555] decodeRef *)
Definition decodeRef (key ref : bytes) : option RefPayload :=
  if zlen ref <? Z.of_nat (kGcmNonceLen + kGcmTagLen) then None else
  let ct_len := (length ref - kGcmNonceLen - kGcmTagLen)%nat in
  let nonce := take kGcmNonceLen ref in
  let ct := take ct_len (drop kGcmNonceLen ref) in
  let tag := drop (kGcmNonceLen + ct_len) ref in
  plaintext ← gcm_open key nonce [] ct tag;
  j ← json_parse (string_of_bytes plaintext);
  ref_of_json j.

(* --------------------------------------------------------------------- *)
(** ** Public operations                                                  *)
(* --------------------------------------------------------------------- *)

(** The code for a profile that is not [READY]. *)
(** [src/src/tls_credential_provider.cpp:576-577] getTlsCredential not ready *)
Definition not_ready_code (p : ProfileState) : ErrorCode :=
  if ps_reason_code p =? 0 then TLS_CREDENTIAL_NOT_READY else error_code_of_value (ps_reason_code p).

(** The algorithms a reference is issued for. *)
(** [src/src/tls_credential_provider.cpp:588-591] getTlsCredential algorithms *)
Definition issued_algorithms (p : ProfileState) : list SignatureAlgorithm :=
  match tc_allowed_signature_algorithms (ps_config p) with
  | [] => [SA_ECDSA_SECP256R1_SHA256]
  | l => l
  end.

(** [expiry] is [int64_t]. *)
(** [src/src/tls_credential_provider.cpp:561-610] getTlsCredential *)
Definition getTlsCredential (profile : string) (caller : PeerIdentity) :
    st (TlsCredentialProvider E) (ErrorCode * option TlsCredentialBundle) := fun s =>
  match findProfile profile s with
  | None => ((INVALID_PARAMETER, None), s)
  | Some ps =>
      if negb (is_ready (ps_status ps)) then ((not_ready_code ps, None), s) else
      let key_id := if tp_has_key_id_resolver s then tls_key_id (tp_env s) else ""%string in
      let '(now, s) := on_tls_env tls_time s in
      let rp := mkRefPayload (pi_service_name caller) profile (tc_credential_id (ps_config ps))
                  (ps_version ps) key_id (issued_algorithms ps) (tp_boot_epoch s)
                  (wrap_i64 (now + tc_ref_ttl_sec (ps_config ps))) in
      let '(ref, s) := encodeRef rp s in
      if bytes_empty ref then ((INTERNAL_ERROR, None), s) else
      ((SUCCESS, Some (mkBundle (tc_credential_id (ps_config ps)) (ps_version ps)
          (ps_root_ca_bundle_der ps) (ps_client_cert_chain_der ps) ref (ps_key_algorithm ps)
          (ps_not_before ps) (ps_not_after ps) (ps_status ps))), s)
  end.

(** [src/src/tls_credential_provider.cpp:612-622] getTlsCredentialState *)
Definition getTlsCredentialState (profile : string) s : ErrorCode * option TlsCredentialState :=
  match findProfile profile s with
  | None => (INVALID_PARAMETER, None)
  | Some ps =>
      (SUCCESS, Some (mkCredentialState (tc_credential_id (ps_config ps)) (ps_version ps)
        (ps_status ps) (ps_reason_code ps)))
  end.

(** Steps 6 to 9 of [signTls]. *)
(** [src/src/tls_credential_provider.cpp:663-719] signTls, from the status check on *)
Definition sign_checked (rp : RefPayload) (ps : ProfileState) (request : TlsSignRequest) :
    st (TlsCredentialProvider E) (ErrorCode * option bytes) := fun s =>
  if negb (is_ready (ps_status ps)) then ((not_ready_code ps, None), s) else
  if negb (existsb (fun a => sigalg_eqb a (sr_algorithm request)) (rp_allowed_algorithms rp)) ||
     negb (algorithmAllowed ps (sr_algorithm request))
  then ((TLS_SIGN_ALGORITHM_NOT_ALLOWED, None), s) else
  if sigalg_eqb (sr_algorithm request) SA_ECDSA_SECP256R1_SHA256 &&
     negb (zlen (sr_digest request) =? SHA256_DIGEST_LENGTH)
  then ((TLS_SIGN_ALGORITHM_NOT_ALLOWED, None), s) else
  let '((rc, sig), s) := on_tls_env (tls_sign_digest (rp_key_id rp) (sr_digest request)) s in
  if negb (is_success rc) then ((TLS_HSM_SIGN_FAILED, None), s)
  else ((SUCCESS, Some sig), s).

(** [src/src/tls_credential_provider.cpp:624-719] signTls *)
Definition signTls (request : TlsSignRequest) (caller : PeerIdentity) :
    st (TlsCredentialProvider E) (ErrorCode * option bytes) := fun s =>
  match decodeRef (tp_process_key s) (sr_private_key_ref request) with
  | None => ((TLS_KEY_REF_INVALID, None), s)
  | Some rp =>
      if negb (pi_valid caller) || negb (String.eqb (rp_caller_service rp) (pi_service_name caller))
      then ((ACL_DENIED, None), s) else
      match findProfile (rp_profile rp) s with
      | None => ((TLS_KEY_REF_INVALID, None), s)
      | Some ps =>
          if negb (rp_version rp =? ps_version ps) then ((TLS_KEY_REF_INVALID, None), s) else
          if negb (rp_boot_epoch rp =? tp_boot_epoch s) then ((TLS_KEY_REF_INVALID, None), s) else
          let '(now, s) := on_tls_env tls_time s in
          if rp_expiry rp <=? now then ((TLS_KEY_REF_INVALID, None), s) else
          sign_checked rp ps request s
      end
  end.

(** [version] is a [uint64_t]. *)
(** [src/src/tls_credential_provider.cpp:721-730] rotateCredential *)
Definition rotateCredential (profile : string) : st (TlsCredentialProvider E) ErrorCode := fun s =>
  match findProfile profile s with
  | None => (INVALID_PARAMETER, s)
  | Some ps =>
      let ps := ps_with_version (wrapu 64 (ps_version ps + 1)) ps in
      let '((rc, ps), s) := validateAndStoreMaterials ps s in
      let s := put_profile profile ps s in
      (rc, publishChanged profile ps (ps_status ps) (error_code_value rc) s)
  end.

(** [src/src/tls_credential_provider.cpp:732-750] revokeCredential *)
Definition revokeCredential (profile : string) : st (TlsCredentialProvider E) ErrorCode := fun s =>
  match findProfile profile s with
  | None => (INVALID_PARAMETER, s)
  | Some ps =>
      let ps := ps_with_status TLS_REVOKED ps in
      let ps := ps_with_reason_code (error_code_value TLS_CREDENTIAL_INVALID) ps in
      let ps := ps_with_version (wrapu 64 (ps_version ps + 1)) ps in
      let s := put_profile profile ps s in
      (SUCCESS, publishChanged profile ps TLS_REVOKED (error_code_value TLS_CREDENTIAL_INVALID) s)
  end.
End Operations.
