(* ===== verification/TlsProps.v ===== *)
(** * TlsCredentialProvider: properties, with a concrete environment.
    What makes a profile ready, what a private key reference is good for over any
    history of calls, and what a revocation does not prevent. *)
From S2P Require Import Prelude Errors Canonical Json X509 SoftFile SoftFileFacts SoftFileProps Tls.

(* --------------------------------------------------------------------- *)
(** ** Codes                                                              *)
(* --------------------------------------------------------------------- *)

Lemma error_code_of_value_value c : error_code_of_value (error_code_value c) = c.
Proof.
  unfold error_code_of_value. destruct (list_find _ _) as [[i d]|] eqn:E.
  - apply list_find_Some in E as (_ & Hd & _). by apply (inj error_code_value) in Hd.
  - exfalso. eapply list_find_None in E. eapply Forall_forall in E; [by apply E|].
    apply all_error_codes_complete.
Qed.

Lemma sigalg_of_code_code a : sigalg_wf a -> sigalg_of_code (sigalg_code a) = a.
Proof.
  destruct a as [| |c]; [done..|]. simpl. intros Hc. unfold sigalg_of_code.
  rewrite wrapu_small by lia. by rewrite !(proj2 (Z.eqb_neq _ _)) by lia.
Qed.

Lemma sigalg_code_wf a : sigalg_wf a -> 0 <= sigalg_code a < 256.
Proof. destruct a; simpl; lia. Qed.

(** A reference the encoder can represent. *)
Definition ref_wf (r : RefPayload) : Prop :=
  is_u64 (rp_version r) /\ is_u64 (rp_boot_epoch r) /\ is_i64 (rp_expiry r) /\
  Forall sigalg_wf (rp_allowed_algorithms r).

Section References.
Context {E : Type} `{L : X509Lib} `{Env : !TlsEnv E} `{Crypto : SoftFileCrypto} `{J : Json}
  `{!JsonLaws J}.
Implicit Types s : TlsCredentialProvider E.

Lemma algs_roundtrip l : Forall sigalg_wf l ->
  mapM as_int ((fun a => json_int (sigalg_code a)) <$> l) = Some (sigalg_code <$> l) /\
  sigalg_of_code <$> (sigalg_code <$> l) = l.
Proof.
  induction 1 as [|a l Ha Hl [IH1 IH2]]; [done|]. split.
  - cbn. rewrite as_int_int by (left; unfold is_u64; pose proof (sigalg_code_wf a Ha); lia).
    cbn in IH1 |- *. by rewrite IH1.
  - cbn in IH2 |- *. by rewrite IH2, sigalg_of_code_code.
Qed.

Lemma ref_json_roundtrip r : ref_wf r -> ref_of_json (ref_json r) = Some r.
Proof.
  intros (Hv & Hb & He & Ha). unfold ref_of_json, ref_json.
  erewrite value_string_fields by reflexivity. cbn [mbind option_bind].
  erewrite value_string_fields by reflexivity. cbn [mbind option_bind].
  erewrite value_string_fields by reflexivity. cbn [mbind option_bind].
  erewrite value_u64_fields by (reflexivity || done). cbn [mbind option_bind].
  erewrite value_string_fields by reflexivity. cbn [mbind option_bind].
  rewrite json_of_fields_get. cbn [field_lookup String.eqb Ascii.eqb Bool.eqb].
  rewrite json_elems_array. destruct (algs_roundtrip _ Ha) as [-> E2]. cbn [mbind option_bind].
  erewrite value_u64_fields by (reflexivity || done). cbn [mbind option_bind].
  erewrite value_i64_fields by (reflexivity || done). cbn [mbind option_bind].
  by rewrite E2; destruct r.
Qed.

(** Decoding what [encodeRef] assembled. *)
Lemma decodeRef_assembled key nonce r ct tag :
  ref_wf r -> length nonce = kGcmNonceLen ->
  gcm_seal key nonce [] (bytes_of_string (json_dump (ref_json r))) = Some (ct, tag) ->
  decodeRef key (nonce ++ ct ++ tag) = Some r.
Proof.
  intros Hr Hn Hs. pose proof (gcm_seal_tag _ _ _ _ _ _ Hs) as Ht.
  unfold decodeRef. unfold kGcmNonceLen, kGcmTagLen in *.
  assert (El : length (nonce ++ ct ++ tag) = (12 + length ct + 16)%nat)
    by (rewrite !length_app; lia).
  rewrite (proj2 (Z.ltb_ge _ _)) by (unfold zlen; lia).
  rewrite El. replace (12 + length ct + 16 - 12 - 16)%nat with (length ct) by lia.
  rewrite <- Hn at 1 2 3. rewrite take_app_length, drop_app_length.
  rewrite take_app_length, <- drop_drop, !drop_app_length.
  rewrite (gcm_open_seal _ _ _ _ _ _ Hs). cbn [mbind option_bind].
  rewrite String.string_of_list_byte_of_string, json_parse_dump. cbn [mbind option_bind].
  by apply ref_json_roundtrip.
Qed.
End References.

(* --------------------------------------------------------------------- *)
(** ** Frames                                                             *)
(* --------------------------------------------------------------------- *)

(** [RAND_bytes] fills the buffer it is given. *)
Class TlsEnvLaws (E : Type) `{L : X509Lib} `{!TlsEnv E} : Prop := {
  tls_RAND_length n e b e' : tls_RAND_bytes n e = (Some b, e') -> length b = n
}.

Section Frames.
Context {E : Type} `{L : X509Lib} `{Env : !TlsEnv E} `{Crypto : SoftFileCrypto} `{Hash : Sha256}
  `{J : Json}.
Implicit Types s : TlsCredentialProvider E.
Implicit Types p : ProfileState.

(** The environment advanced and nothing else. *)
Definition tls_env_only s s' : Prop := exists e, s' = tp_with_env e s.

Lemma tls_env_only_refl s : tls_env_only s s.
Proof. exists (tp_env s). by destruct s. Qed.
Lemma tls_env_only_trans s1 s2 s3 : tls_env_only s1 s2 -> tls_env_only s2 s3 -> tls_env_only s1 s3.
Proof. intros [e1 ->] [e2 ->]. by exists e2. Qed.
Lemma on_tls_env_only {A} (m : st E A) s a s' : on_tls_env m s = (a, s') -> tls_env_only s s'.
Proof. unfold on_tls_env. destruct (m _) as [x e]. intros [= _ <-]. by exists e. Qed.

(** One profile may have changed, besides the environment. *)
Definition only_profile (profile : string) s s' : Prop :=
  tp_process_key s' = tp_process_key s /\ tp_boot_epoch s' = tp_boot_epoch s /\
  tp_has_key_id_resolver s' = tp_has_key_id_resolver s /\
  forall q, q <> profile -> findProfile q s' = findProfile q s.

Lemma env_only_profile profile s s' : tls_env_only s s' -> only_profile profile s s'.
Proof. by intros [e ->]. Qed.

Lemma put_only_profile profile p s : only_profile profile s (put_profile profile p s).
Proof. repeat split. intros q Hq. apply lookup_insert_ne. done. Qed.
Lemma find_put profile p s : findProfile profile (put_profile profile p s) = Some p.
Proof. apply lookup_insert_eq. Qed.

Lemma only_profile_trans profile s1 s2 s3 :
  only_profile profile s1 s2 -> only_profile profile s2 s3 -> only_profile profile s1 s3.
Proof.
  intros (A1 & B1 & C1 & D1) (A2 & B2 & C2 & D2). repeat split; [congruence..|].
  intros q Hq. by rewrite D2, D1.
Qed.

Lemma publishChanged_env profile p st rc s : tls_env_only s (publishChanged profile p st rc s).
Proof.
  unfold publishChanged. destruct (_ || _); [apply tls_env_only_refl|]. by eexists.
Qed.

(** What material validation promises of the code, the profile and the state. *)
Definition validated (p : ProfileState) (rc : ErrorCode) (p' : ProfileState) : Prop :=
  ps_config p' = ps_config p /\ ps_version p' = ps_version p /\
  ps_reason_code p' = error_code_value rc /\
  (ps_status p' = TLS_READY <-> rc = SUCCESS).

Lemma reject_validated st rc p0 p :
  st <> TLS_READY -> rc <> SUCCESS -> ps_config p = ps_config p0 -> ps_version p = ps_version p0 ->
  validated p0 (reject st rc p).1 (reject st rc p).2.
Proof. intros Hs Hr Hc Hv. unfold validated, reject. simpl. tauto. Qed.

Lemma validate_key_and_chain_spec b rc0 leaf cs e p0 p rc p' :
  ps_config p = ps_config p0 -> ps_version p = ps_version p0 ->
  validate_key_and_chain b rc0 leaf cs e p = (rc, p') -> validated p0 rc p'.
Proof.
  intros Hc Hv. unfold validate_key_and_chain.
  assert (Rej : forall st code, reject st code p = (rc, p') -> st <> TLS_READY -> code <> SUCCESS ->
    validated p0 rc p').
  { intros st code Hj H1 H2. pose proof (reject_validated st code p0 p H1 H2 Hc Hv) as H.
    by rewrite Hj in H. }
  destruct (_ || _); [intros Hj; by eapply Rej|].
  destruct (tls_export_public_key _ _) as [xrc pub].
  destruct (negb (is_success xrc)); [intros Hj; by eapply Rej|].
  destruct (_ || _); [intros Hj; by eapply Rej|].
  destruct (negb (existsb _ _)); [intros Hj; by eapply Rej|].
  destruct (negb (tls_store_new _)); [intros Hj; by eapply Rej|].
  destruct (negb (X509_verify_cert _ _ _ _)); [intros Hj; by eapply Rej|].
  intros [= <- <-]. by repeat split.
Qed.

Lemma validate_spec p s rc p' s' :
  validateAndStoreMaterials p s = ((rc, p'), s') -> tls_env_only s s' /\ validated p rc p'.
Proof.
  unfold validateAndStoreMaterials.
  assert (Rej : forall st code, (reject st code p, s) = ((rc, p'), s') -> st <> TLS_READY ->
    code <> SUCCESS -> tls_env_only s s' /\ validated p rc p').
  { intros st code Hj H1 H2. pose proof (reject_validated st code p p H1 H2 eq_refl eq_refl) as H.
    injection Hj as <- <- <-. split; [apply tls_env_only_refl|done]. }
  destruct (_ || _); [intros Hj; by eapply Rej|].
  destruct (_ || _); [intros Hj; by eapply Rej|].
  destruct (load_certs_from_string _) as [|r rs]; [intros Hj; by eapply Rej|].
  destruct (load_certs_from_string _) as [|leaf cs]; [intros Hj; by eapply Rej|].
  destruct (negb _); [intros Hj; by eapply Rej|].
  destruct (get_validity leaf) as [nb na]. destruct (on_tls_env tls_time s) as [now s1] eqn:Et.
  apply on_tls_env_only in Et. destruct (negb (now_in_range _ _ _)).
  - intros [= <- <- <-]. split; [done|]. by apply reject_validated.
  - intros [= Hk <-]. split; [done|]. eapply validate_key_and_chain_spec; [..|exact Hk]; done.
Qed.

Lemma loadMaterials_spec profile s rc s' :
  loadMaterials profile s = (rc, s') ->
  match findProfile profile s with
  | None => rc = INVALID_PARAMETER /\ s' = s
  | Some p => only_profile profile s s' /\ exists p', findProfile profile s' = Some p' /\
      validated (if ps_version p =? 0 then ps_with_version 1 p else p) rc p'
  end.
Proof.
  unfold loadMaterials. destruct (findProfile profile s) as [p|]; [|intros [= <- <-]; done].
  destruct (validateAndStoreMaterials _ s) as [[rc1 p1] s1] eqn:Ev. intros [= <- <-].
  apply validate_spec in Ev as [He Hv]. split.
  - eapply only_profile_trans; [by apply env_only_profile|apply put_only_profile].
  - exists p1. split; [apply find_put|done].
Qed.

Lemma rotateCredential_spec profile s rc s' :
  rotateCredential profile s = (rc, s') ->
  match findProfile profile s with
  | None => rc = INVALID_PARAMETER /\ s' = s
  | Some p => only_profile profile s s' /\ exists p', findProfile profile s' = Some p' /\
      validated (ps_with_version (wrapu 64 (ps_version p + 1)) p) rc p'
  end.
Proof.
  unfold rotateCredential. destruct (findProfile profile s) as [p|]; [|intros [= <- <-]; done].
  destruct (validateAndStoreMaterials _ s) as [[rc1 p1] s1] eqn:Ev. intros [= <- <-].
  apply validate_spec in Ev as [He Hv].
  destruct (publishChanged_env profile p1 (ps_status p1) (error_code_value rc1)
    (put_profile profile p1 s1)) as [e He'].
  rewrite He'. split.
  - eapply only_profile_trans; [by apply env_only_profile|]. apply put_only_profile.
  - exists p1. split; [apply find_put|done].
Qed.

Lemma revokeCredential_spec profile s rc s' :
  revokeCredential profile s = (rc, s') ->
  match findProfile profile s with
  | None => rc = INVALID_PARAMETER /\ s' = s
  | Some p => rc = SUCCESS /\ only_profile profile s s' /\
      findProfile profile s' = Some (ps_with_version (wrapu 64 (ps_version p + 1))
        (ps_with_reason_code (error_code_value TLS_CREDENTIAL_INVALID) (ps_with_status TLS_REVOKED p)))
  end.
Proof.
  unfold revokeCredential. destruct (findProfile profile s) as [p|]; [|intros [= <- <-]; done].
  intros [= <- <-]. split; [done|].
  edestruct publishChanged_env as [e He]. rewrite He.
  split; [apply put_only_profile|apply find_put].
Qed.

Lemma encodeRef_env r s b s' : encodeRef r s = (b, s') -> tls_env_only s s'.
Proof.
  unfold encodeRef. destruct (on_tls_env _ s) as [n s1] eqn:E1. apply on_tls_env_only in E1.
  destruct n; [|by intros [= _ <-]]. destruct (gcm_seal _ _ _ _) as [[??]|]; by intros [= _ <-].
Qed.

Lemma getTlsCredential_env profile c s r s' :
  getTlsCredential profile c s = (r, s') -> tls_env_only s s'.
Proof.
  unfold getTlsCredential. destruct (findProfile _ _) as [p|];
    [|intros [= _ <-]; apply tls_env_only_refl].
  destruct (negb _); [intros [= _ <-]; apply tls_env_only_refl|].
  destruct (on_tls_env tls_time s) as [now s1] eqn:E1. apply on_tls_env_only in E1.
  destruct (encodeRef _ s1) as [b s2] eqn:E2. apply encodeRef_env in E2.
  pose proof (tls_env_only_trans _ _ _ E1 E2). destruct (bytes_empty b); by intros [= _ <-].
Qed.

Lemma sign_checked_env rp p req s r s' : sign_checked rp p req s = (r, s') -> tls_env_only s s'.
Proof.
  unfold sign_checked. destruct (negb _); [intros [= _ <-]; apply tls_env_only_refl|].
  destruct (_ || _); [intros [= _ <-]; apply tls_env_only_refl|].
  destruct (_ && _); [intros [= _ <-]; apply tls_env_only_refl|].
  destruct (on_tls_env _ s) as [[rc sig] s1] eqn:E1. apply on_tls_env_only in E1.
  destruct (negb _); by intros [= _ <-].
Qed.

Lemma signTls_env req c s r s' : signTls req c s = (r, s') -> tls_env_only s s'.
Proof.
  unfold signTls. destruct (decodeRef _ _) as [rp|]; [|intros [= _ <-]; apply tls_env_only_refl].
  destruct (_ || _); [intros [= _ <-]; apply tls_env_only_refl|].
  destruct (findProfile _ s) as [p|]; [|intros [= _ <-]; apply tls_env_only_refl].
  destruct (negb _); [intros [= _ <-]; apply tls_env_only_refl|].
  destruct (negb _); [intros [= _ <-]; apply tls_env_only_refl|].
  destruct (on_tls_env tls_time s) as [now s1] eqn:E1. apply on_tls_env_only in E1.
  destruct (_ <=? _); [by intros [= _ <-]|]. intros Hs%sign_checked_env.
  by eapply tls_env_only_trans.
Qed.
End Frames.

(* --------------------------------------------------------------------- *)
(** ** Histories                                                          *)
(* --------------------------------------------------------------------- *)

Section Histories.
Context {E : Type} `{L : X509Lib} `{Env : !TlsEnv E} `{Crypto : SoftFileCrypto} `{J : Json}.
Implicit Types s : TlsCredentialProvider E.
Implicit Types p : ProfileState.

(** One call on the provider, or a change of the world outside (certificate
    material, device keys, the clock). *)
Inductive tls_step s : TlsCredentialProvider E -> Prop :=
  | step_configure cfg : Forall sigalg_wf (tc_allowed_signature_algorithms cfg) ->
      tls_step s (configureProfile cfg s)
  | step_load profile rc s' : loadMaterials profile s = (rc, s') -> tls_step s s'
  | step_rotate profile rc s' : rotateCredential profile s = (rc, s') -> tls_step s s'
  | step_revoke profile rc s' : revokeCredential profile s = (rc, s') -> tls_step s s'
  | step_get profile c r s' : getTlsCredential profile c s = (r, s') -> tls_step s s'
  | step_sign req c r s' : signTls req c s = (r, s') -> tls_step s s'
  | step_world e : tls_step s (tp_with_env e s).

(** [n] steps. *)
Inductive tls_steps : nat -> TlsCredentialProvider E -> TlsCredentialProvider E -> Prop :=
  | steps_nil s : tls_steps 0 s s
  | steps_cons n s1 s2 s3 : tls_step s1 s2 -> tls_steps n s2 s3 -> tls_steps (S n) s1 s3.

(** The profile is still there and its version went up by at most [n]. *)
Definition advanced (profile : string) (n : Z) s s' : Prop :=
  tp_process_key s' = tp_process_key s /\ tp_boot_epoch s' = tp_boot_epoch s /\
  forall p, findProfile profile s = Some p -> 0 <= ps_version p -> ps_version p + n < 2 ^ 64 ->
  exists p', findProfile profile s' = Some p' /\ ps_version p <= ps_version p' <= ps_version p + n.

Lemma advanced_env profile s s' : tls_env_only s s' -> advanced profile 1 s s'.
Proof. intros [e ->]. repeat split. intros p Hp H0 Hn. exists p. split; [done|lia]. Qed.

Lemma advanced_trans profile n m s1 s2 s3 : 0 <= n -> 0 <= m ->
  advanced profile n s1 s2 -> advanced profile m s2 s3 -> advanced profile (n + m) s1 s3.
Proof.
  intros Hn Hm (K1 & B1 & A1) (K2 & B2 & A2). split; [congruence|]. split; [congruence|].
  intros p Hp H0 Hlt. destruct (A1 p Hp H0) as (p2 & Hp2 & Hv2); [lia|].
  destruct (A2 p2 Hp2) as (p3 & Hp3 & Hv3); [lia..|]. exists p3. split; [done|lia].
Qed.

(** A change of one profile that raises its version by at most one. *)
Lemma advanced_one profile q s s' p' :
  only_profile q s s' -> findProfile q s' = Some p' ->
  (forall p, findProfile q s = Some p -> 0 <= ps_version p -> ps_version p + 1 < 2 ^ 64 ->
     ps_version p <= ps_version p' <= ps_version p + 1) ->
  advanced profile 1 s s'.
Proof.
  intros (K & B & _ & Ho) Hq Hv. split; [done|]. split; [done|]. intros p Hp H0 Hlt.
  destruct (decide (profile = q)) as [->|Hne].
  - exists p'. split; [done|]. by apply Hv.
  - exists p. split; [by rewrite Ho|lia].
Qed.

Lemma tls_step_advanced profile s s' : tls_step s s' -> advanced profile 1 s s'.
Proof.
  intros [cfg _|q rc s1 H|q rc s1 H|q rc s1 H|q c r s1 H|req c r s1 H|e].
  - eapply (advanced_one _ (tc_profile_name cfg)); [apply put_only_profile|apply find_put|].
    intros p ->. simpl. destruct (_ =? 0); simpl; lia.
  - pose proof (loadMaterials_spec _ _ _ _ H) as Hs. destruct (findProfile q s) as [p|] eqn:Ep.
    + destruct Hs as (Ho & p' & Hp' & _ & Hv & _). eapply advanced_one; [exact Ho|exact Hp'|].
      rewrite Ep. intros ? [= <-] H0 _. rewrite Hv. destruct (Z.eqb_spec (ps_version p) 0); simpl; lia.
    + destruct Hs as [_ ->]. apply advanced_env, tls_env_only_refl.
  - pose proof (rotateCredential_spec _ _ _ _ H) as Hs. destruct (findProfile q s) as [p|] eqn:Ep.
    + destruct Hs as (Ho & p' & Hp' & _ & Hv & _). eapply advanced_one; [exact Ho|exact Hp'|].
      rewrite Ep. intros ? [= <-] H0 Hlt. rewrite Hv. simpl. rewrite wrapu_small; lia.
    + destruct Hs as [_ ->]. apply advanced_env, tls_env_only_refl.
  - pose proof (revokeCredential_spec _ _ _ _ H) as Hs. destruct (findProfile q s) as [p|] eqn:Ep.
    + destruct Hs as (_ & Ho & Hp'). eapply advanced_one; [exact Ho|exact Hp'|].
      rewrite Ep. intros ? [= <-] H0 Hlt. simpl. rewrite wrapu_small; lia.
    + destruct Hs as [_ ->]. apply advanced_env, tls_env_only_refl.
  - by eapply advanced_env, getTlsCredential_env.
  - by eapply advanced_env, signTls_env.
  - apply advanced_env. by exists e.
Qed.

Lemma tls_steps_advanced profile n s s' : tls_steps n s s' -> advanced profile (Z.of_nat n) s s'.
Proof.
  induction 1 as [s|n s1 s2 s3 Hs _ IH].
  - split; [done|]. split; [done|]. intros p Hp H0 Hn. exists p. split; [done|lia].
  - apply (tls_step_advanced profile) in Hs.
    replace (Z.of_nat (S n)) with (1 + Z.of_nat n) by lia. eapply advanced_trans; [lia..|done|done].
Qed.

(** The call that ends a version. *)
Definition ends_version (profile : string) s s' : Prop :=
  (exists rc, rotateCredential profile s = (rc, s')) \/
  (exists rc, revokeCredential profile s = (rc, s')).

Lemma ends_version_spec profile s s' p :
  ends_version profile s s' -> findProfile profile s = Some p ->
  0 <= ps_version p -> ps_version p + 1 < 2 ^ 64 ->
  tp_process_key s' = tp_process_key s /\ tp_boot_epoch s' = tp_boot_epoch s /\
  exists p', findProfile profile s' = Some p' /\ ps_version p' = ps_version p + 1.
Proof.
  intros [[rc H]|[rc H]] Hp H0 Hlt.
  - apply rotateCredential_spec in H. rewrite Hp in H.
    destruct H as ((K & B & _) & p' & Hp' & _ & Hv & _). split; [done|]. split; [done|].
    exists p'. split; [done|]. rewrite Hv. simpl. by rewrite wrapu_small by lia.
  - apply revokeCredential_spec in H. rewrite Hp in H. destruct H as (_ & (K & B & _) & Hp').
    split; [done|]. split; [done|]. eexists. split; [exact Hp'|]. simpl.
    by rewrite wrapu_small by lia.
Qed.
End Histories.

(* --------------------------------------------------------------------- *)
(** ** Issuing and using a reference                                      *)
(* --------------------------------------------------------------------- *)

Section Issue.
Context {E : Type} `{L : X509Lib} `{Env : !TlsEnv E} `{!TlsEnvLaws E} `{Crypto : SoftFileCrypto}
  `{J : Json} `{!JsonLaws J}.
Implicit Types s : TlsCredentialProvider E.
Implicit Types p : ProfileState.

(** The values of a provider the constructor and the configuration produce. *)
Definition tls_values_ok s : Prop :=
  is_u64 (tp_boot_epoch s) /\
  forall profile p, findProfile profile s = Some p ->
    is_u64 (ps_version p) /\ Forall sigalg_wf (tc_allowed_signature_algorithms (ps_config p)).

Lemma wrap_i64_range z : is_i64 (wrap_i64 z).
Proof. unfold is_i64, wrap_i64. pose proof (Z.mod_pos_bound (z + 2 ^ 63) (2 ^ 64)). lia. Qed.

Lemma issued_algorithms_wf p :
  Forall sigalg_wf (tc_allowed_signature_algorithms (ps_config p)) ->
  Forall sigalg_wf (issued_algorithms p).
Proof. unfold issued_algorithms. destruct (tc_allowed_signature_algorithms _); [by repeat constructor|done]. Qed.

(** What is inside the reference of a bundle. *)
Lemma getTlsCredential_ref profile c s b s' :
  tls_values_ok s -> getTlsCredential profile c s = ((SUCCESS, Some b), s') ->
  exists p now e rp, findProfile profile s = Some p /\ ps_status p = TLS_READY /\
    tls_time (tp_env s) = (now, e) /\
    rp = mkRefPayload (pi_service_name c) profile (tc_credential_id (ps_config p)) (ps_version p)
      (if tp_has_key_id_resolver s then tls_key_id (tp_env s) else ""%string) (issued_algorithms p)
      (tp_boot_epoch s) (wrap_i64 (now + tc_ref_ttl_sec (ps_config p))) /\
    decodeRef (tp_process_key s') (tb_private_key_ref b) = Some rp /\
    tb_version b = ps_version p /\ tls_env_only s s'.
Proof.
  intros [Hb Hp] Hg. pose proof (getTlsCredential_env _ _ _ _ _ Hg) as Henv.
  unfold getTlsCredential in Hg.
  destruct (findProfile profile s) as [p|] eqn:Ep; [|done].
  destruct (is_ready (ps_status p)) eqn:Er; cbn [negb] in Hg;
    [|injection Hg as E1 E2 E3; congruence].
  unfold on_tls_env in Hg at 1. destruct (tls_time (tp_env s)) as [now e] eqn:Et.
  set (rp := mkRefPayload _ _ _ _ _ _ _ _) in Hg.
  destruct (encodeRef rp _) as [ref s2] eqn:Ee.
  destruct (bytes_empty ref) eqn:Ene; [done|]. injection Hg as <- <-.
  exists p, now, e, rp. split; [done|]. split; [by destruct (ps_status p)|]. split; [done|].
  split; [done|]. split; [|by split]. cbn [tb_private_key_ref].
  unfold encodeRef, on_tls_env in Ee. cbn [tp_env tp_with_env] in Ee.
  destruct (tls_RAND_bytes kGcmNonceLen e) as [[nonce|] e2] eqn:En;
    [|by injection Ee as <- <-].
  destruct (gcm_seal _ nonce _ _) as [[ct tag]|] eqn:Es; [|by injection Ee as <- <-].
  injection Ee as <- <-. destruct (Hp _ _ Ep) as [Hv Ha].
  eapply decodeRef_assembled; [|by eapply tls_RAND_length|exact Es].
  repeat split; cbn; try apply Hv; try apply Hb; [apply wrap_i64_range..|].
  by apply issued_algorithms_wf.
Qed.

(** Signing, case by case. *)
Lemma signTls_success req c s sig s' :
  signTls req c s = ((SUCCESS, Some sig), s') <->
  exists rp p now e e',
    decodeRef (tp_process_key s) (sr_private_key_ref req) = Some rp /\
    pi_valid c = true /\ rp_caller_service rp = pi_service_name c /\
    findProfile (rp_profile rp) s = Some p /\ rp_version rp = ps_version p /\
    rp_boot_epoch rp = tp_boot_epoch s /\
    tls_time (tp_env s) = (now, e) /\ now < rp_expiry rp /\
    ps_status p = TLS_READY /\
    existsb (fun a => sigalg_eqb a (sr_algorithm req)) (rp_allowed_algorithms rp) = true /\
    algorithmAllowed p (sr_algorithm req) = true /\
    (sigalg_code (sr_algorithm req) = 1 -> zlen (sr_digest req) = 32) /\
    tls_sign_digest (rp_key_id rp) (sr_digest req) e = ((SUCCESS, sig), e') /\
    s' = tp_with_env e' s.
Proof.
  unfold signTls, sign_checked, on_tls_env. split.
  - destruct (decodeRef _ _) as [rp|] eqn:Ed; [|done].
    destruct (pi_valid c) eqn:Ev; [|done]. cbn [negb orb].
    destruct (String.eqb_spec (rp_caller_service rp) (pi_service_name c)) as [Ec|]; [|done].
    cbn [negb]. destruct (findProfile (rp_profile rp) s) as [p|] eqn:Ep; [|done].
    destruct (Z.eqb_spec (rp_version rp) (ps_version p)) as [Ever|]; [|done]. cbn [negb].
    destruct (Z.eqb_spec (rp_boot_epoch rp) (tp_boot_epoch s)) as [Eb|]; [|done]. cbn [negb].
    destruct (tls_time (tp_env s)) as [now e] eqn:Et.
    destruct (Z.leb_spec (rp_expiry rp) now) as [|Hexp]; [done|].
    destruct (is_ready (ps_status p)) eqn:Er; cbn [negb]; [|by intros [= _ ]].
    destruct (existsb _ _) eqn:Ea; cbn [negb orb]; [|done].
    destruct (algorithmAllowed p _) eqn:El; cbn [negb]; [|done].
    destruct (_ && _) eqn:Eg; [done|]. cbn [tp_env tp_with_env].
    destruct (tls_sign_digest _ _ e) as [[src g] e'] eqn:Eh.
    destruct (is_success src) eqn:Es; cbn [negb]; [|done].
    apply is_success_true in Es as ->. intros [= <- <-].
    exists rp, p, now, e, e'. repeat split; try done; [by destruct (ps_status p)|].
    unfold sigalg_eqb in Eg. intros H1. rewrite H1 in Eg. cbn in Eg. by bool_simpl.
  - intros (rp & p & now & e & e' & -> & -> & -> & -> & -> & -> & -> & Hexp & Hr & Ha & Hl & Hd & Hh & ->).
    rewrite String.eqb_refl, !Z.eqb_refl. cbn [negb orb].
    rewrite (proj2 (Z.leb_gt _ _)) by done. rewrite Hr. cbn [is_ready negb].
    rewrite Ha, Hl. cbn [negb orb]. unfold sigalg_eqb. cbn [sigalg_code].
    replace ((sigalg_code (sr_algorithm req) =? 1) && negb (zlen (sr_digest req) =? SHA256_DIGEST_LENGTH))
      with false.
    + cbn [tp_env tp_with_env]. rewrite Hh. reflexivity.
    + destruct (Z.eqb_spec (sigalg_code (sr_algorithm req)) 1) as [H1|]; [|done].
      by rewrite Hd.
Qed.
End Issue.

(* --------------------------------------------------------------------- *)
(** ** What loading checks                                                *)
(* --------------------------------------------------------------------- *)

Section Material.
Context {E : Type} `{L : X509Lib} `{Env : !TlsEnv E}.
Implicit Types s : TlsCredentialProvider E.
Implicit Types p : ProfileState.

(** The material of a profile is good at the time [now]: both chains parse, the
    leaf is a client certificate within its validity whose key the HSM holds, and
    the path validates against roots that contain a CA. *)
Definition material_good (p : ProfileState) (has_resolver : bool) (e : E) (now : Z) (e' : E)
    (roots : list X509) (leaf : X509) (rest : list X509) : Prop :=
  let cfg := ps_config p in
  let key_id := if has_resolver then tls_key_id e' else ""%string in
  tc_root_ca_key cfg <> ""%string /\ tc_client_cert_chain_key cfg <> ""%string /\
  roots = load_certs_from_string (tls_material (tc_root_ca_key cfg) e) /\
  leaf :: rest = load_certs_from_string (tls_material (tc_client_cert_chain_key cfg) e) /\
  kOidClientAuth ∈ get_eku_oids leaf /\
  (get_validity leaf).1 <= now <= (get_validity leaf).2 /\
  key_id <> ""%string /\ tls_key_exists key_id e' = true /\
  (exists pub, tls_export_public_key key_id e' = (SUCCESS, pub) /\ pub <> [] /\
     x509_ec_point leaf = Some pub) /\
  existsb is_ca_cert roots = true /\ tls_store_new e' = true /\
  X509_verify_cert roots leaf rest e' = true.

Lemma validate_key_and_chain_success b roots leaf rest e p p' :
  validate_key_and_chain b roots leaf (leaf :: rest) e p = (SUCCESS, p') <->
  let key_id := if b then tls_key_id e else ""%string in
  key_id <> ""%string /\ tls_key_exists key_id e = true /\
  (exists pub, tls_export_public_key key_id e = (SUCCESS, pub) /\ pub <> [] /\
     x509_ec_point leaf = Some pub) /\
  existsb is_ca_cert roots = true /\ tls_store_new e = true /\
  X509_verify_cert roots leaf rest e = true /\
  p' = ps_with_reason_code 0 (ps_with_status TLS_READY (ps_with_key_algorithm KA_ECDSA_P256
     (ps_with_client_cert_chain_der (certs_to_der_bundle (leaf :: rest))
       (ps_with_root_ca_bundle_der (certs_to_der_bundle roots) p)))).
Proof.
  unfold validate_key_and_chain, reject. cbn zeta. set (k := if b then _ else _).
  cbn [tail]. split.
  - destruct (str_empty k) eqn:Ek; [done|]. apply str_empty_false in Ek.
    destruct (tls_key_exists k e) eqn:Ex; [|done]. cbn [negb orb].
    destruct (tls_export_public_key k e) as [xrc pub].
    destruct (is_success xrc) eqn:Es; [|done]. apply is_success_true in Es as ->. cbn [negb].
    unfold get_raw_public_key. destruct (x509_ec_point leaf) as [pt|]; [|done]. cbn [default].
    destruct pt as [|x pt]; [done|]. cbn [bytes_empty orb].
    destruct (bool_decide _) eqn:Eb; [|done]. apply bool_decide_eq_true in Eb as <-. cbn [negb].
    destruct (existsb _ _); [|done]. destruct (tls_store_new e); [|done].
    destruct (X509_verify_cert _ _ _ _); [|done]. intros [= <-]. repeat split; try done.
    exists (x :: pt). by repeat split.
  - intros (Hk & -> & (pub & -> & Hp & Hpt) & -> & -> & -> & ->).
    apply str_empty_false in Hk. rewrite Hk. unfold get_raw_public_key. rewrite Hpt.
    cbn [default]. destruct pub as [|x pub]; [done|]. cbn [negb orb is_success bytes_empty].
    by rewrite bool_decide_eq_true_2.
Qed.

Lemma validate_success p s p' s' :
  tp_has_material_resolver s = true ->
  (validateAndStoreMaterials p s = ((SUCCESS, p'), s') <->
   exists now e' roots leaf rest, tls_time (tp_env s) = (now, e') /\ s' = tp_with_env e' s /\
     material_good p (tp_has_key_id_resolver s) (tp_env s) now e' roots leaf rest /\
     roots <> [] /\
     p' = ps_with_reason_code 0 (ps_with_status TLS_READY (ps_with_key_algorithm KA_ECDSA_P256
       (ps_with_client_cert_chain_der (certs_to_der_bundle (leaf :: rest))
         (ps_with_root_ca_bundle_der (certs_to_der_bundle roots)
           (ps_with_not_after (get_validity leaf).2
             (ps_with_not_before (get_validity leaf).1 p))))))).
Proof.
  intros Hm. unfold validateAndStoreMaterials. rewrite Hm. cbn [negb]. rewrite orb_false_r.
  unfold material_good. split.
  - destruct (str_empty (tc_root_ca_key _)) eqn:E1; [done|].
    destruct (str_empty (tc_client_cert_chain_key _)) eqn:E2; [done|]. cbn [orb].
    apply str_empty_false in E1, E2. destruct (_ || _) eqn:E3; [done|].
    destruct (load_certs_from_string _) as [|r rs] eqn:Er; [done|].
    destruct (load_certs_from_string (tls_material (tc_client_cert_chain_key _) _)) as [|leaf rest]
      eqn:El; [done|].
    destruct (contains _ _) eqn:Ek; [|done]. apply contains_true in Ek. cbn [negb].
    destruct (get_validity leaf) as [nb na] eqn:Ev. unfold on_tls_env.
    destruct (tls_time (tp_env s)) as [now e'] eqn:Et.
    destruct (now_in_range now nb na) eqn:En; [|done]. cbn [negb].
    unfold now_in_range in En. apply andb_true_iff in En as [Hn1 Hn2].
    intros [= Hk Hs]. apply validate_key_and_chain_success in Hk.
    destruct Hk as (K1 & K2 & K3 & K4 & K5 & K6 & ->).
    exists now, e', (r :: rs), leaf, rest. rewrite Ev. cbn [fst snd].
    split_and!; try done; lia.
  - intros (now & e' & roots & leaf & rest & Et & -> & G & Hne & ->).
    destruct G as (H1 & H2 & -> & Hl & Hk & [Hn1 Hn2] & K1 & K2 & K3 & K4 & K5 & K6).
    apply str_empty_false in H1 as ->, H2 as ->. cbn [orb].
    assert (Hemp : forall x, load_certs_from_string x <> [] -> str_empty x = false).
    { intros x Hx. unfold load_certs_from_string in Hx. by destruct (str_empty x). }
    rewrite (Hemp _ Hne), Hemp by (by rewrite <- Hl). cbn [orb].
    destruct (load_certs_from_string (tls_material (tc_root_ca_key _) _)) as [|r rs]; [done|].
    rewrite <- Hl. apply contains_true in Hk as ->. cbn [negb].
    destruct (get_validity leaf) as [nb na]. unfold on_tls_env. rewrite Et.
    simpl in Hn1, Hn2. unfold now_in_range.
    rewrite (proj2 (Z.geb_le _ _)), (proj2 (Z.leb_le _ _)) by done. cbn [andb negb fst snd].
    f_equal. by apply validate_key_and_chain_success.
Qed.

Lemma material_good_config q p b e now e' roots leaf rest :
  ps_config q = ps_config p ->
  material_good q b e now e' roots leaf rest <-> material_good p b e now e' roots leaf rest.
Proof. intros Eq. unfold material_good. by rewrite Eq. Qed.

Lemma validate_good p s now e' roots leaf rest rc p' s' :
  tp_has_material_resolver s = true -> tls_time (tp_env s) = (now, e') -> roots <> [] ->
  material_good p (tp_has_key_id_resolver s) (tp_env s) now e' roots leaf rest ->
  validateAndStoreMaterials p s = ((rc, p'), s') -> rc = SUCCESS.
Proof.
  intros Hm Ht Hne G Ev. edestruct validate_success as [_ Hok]; [exact Hm|].
  rewrite Hok in Ev; [by injection Ev|]. by do 5 eexists.
Qed.
End Material.

(* --------------------------------------------------------------------- *)
(** ** A concrete environment for the witnesses                           *)
(* --------------------------------------------------------------------- *)

Module TlsSample.
Export X509Sample JsonSample.
#[export] Existing Instance SoftFileSample.toy_crypto.

(** The clock, the material in the store, and the events sent. *)
Record tlsw := mkTlsw {
  tw_clock : Z;
  tw_chain : string;
  tw_events : list TlsCredentialChangedEvent
}.

#[export] Instance tls_env : TlsEnv tlsw := {|
  tls_key_id e := "ECU-1+ECU-1"%string;
  tls_material k e := if String.eqb k "root_ca" then pem 2 else tw_chain e;
  tls_key_exists k e := true;
  tls_export_public_key k e := (SUCCESS, [x04; x00]);
  tls_sign_digest k d e := ((SUCCESS, x01 :: d), e);
  tls_time e := (tw_clock e, mkTlsw (tw_clock e + 1) (tw_chain e) (tw_events e));
  tls_RAND_bytes n e := (Some (replicate n x07), e);
  tls_notify q ev e := mkTlsw (tw_clock e) (tw_chain e) (ev :: tw_events e);
  tls_store_new e := true;
  X509_verify_cert roots leaf rest e := bool_decide (roots = [2%nat]) && bool_decide (rest = [1%nat])
|}.

#[export] Instance tls_env_laws : TlsEnvLaws tlsw.
Proof. split. intros n e b e' [= <- <-]. apply length_replicate. Qed.

Definition mqtt : TlsProfileConfig := tls_profile_config_default.
Definition mqtt_peer : PeerIdentity := mkPeer true 7 0 0 "tbox-mqtt.service".
Definition other_peer : PeerIdentity := mkPeer true 8 0 0 "tbox-ota.service".

(** A provider with the profile configured and its material loaded. *)
Definition tls_start : TlsCredentialProvider tlsw :=
  configureProfile mqtt (tls_new true true true (mkTlsw 2000 (pem 0 ++ pem 1) [])).
Definition tls_loaded : TlsCredentialProvider tlsw := (loadMaterials "mqtt" tls_start).2.
Definition tls_issued := getTlsCredential "mqtt" mqtt_peer tls_loaded.
Definition tls_bundle : TlsCredentialBundle :=
  default (mkBundle "" 0 [] [] [] KA_UNKNOWN 0 0 TLS_NOT_READY) tls_issued.1.2.
Definition tls_after : TlsCredentialProvider tlsw := tls_issued.2.
Definition sign_request : TlsSignRequest :=
  mkSignRequest (tb_private_key_ref tls_bundle) SA_ECDSA_SECP256R1_SHA256 (replicate 32 x05) [] "r1".
Definition tls_revoked : TlsCredentialProvider tlsw := (revokeCredential "mqtt" tls_after).2.
Definition tls_reloaded : TlsCredentialProvider tlsw := (loadMaterials "mqtt" tls_revoked).2.

Lemma tls_codes :
  (loadMaterials "mqtt" tls_start).1 = SUCCESS /\ tls_issued.1.1 = SUCCESS /\
  (signTls sign_request mqtt_peer tls_after).1 = (SUCCESS, Some (x01 :: replicate 32 x05)) /\
  (signTls sign_request other_peer tls_after).1 = (ACL_DENIED, None) /\
  (revokeCredential "mqtt" tls_after).1 = SUCCESS /\
  (loadMaterials "mqtt" tls_revoked).1 = SUCCESS /\
  (signTls sign_request mqtt_peer tls_reloaded).1 = (TLS_KEY_REF_INVALID, None).
Proof. vm_compute. repeat split. Qed.
End TlsSample.

(* --------------------------------------------------------------------- *)
(** ** Properties                                                         *)
(* --------------------------------------------------------------------- *)

Section Invariant.
Context {E : Type} `{L : X509Lib} `{Env : !TlsEnv E} `{!TlsEnvLaws E} `{Crypto : SoftFileCrypto}
  `{J : Json}.
Implicit Types s : TlsCredentialProvider E.
Implicit Types p : ProfileState.

(** The reason code is that of an enumerator; a ready profile has none and was
    loaded, a revoked one says so. *)
Definition reason_coded p : Prop :=
  (exists c, ps_reason_code p = error_code_value c) /\
  (ps_status p = TLS_READY -> ps_reason_code p = 0) /\
  (ps_status p = TLS_REVOKED -> ps_reason_code p = error_code_value TLS_CREDENTIAL_INVALID).

Definition profile_wf p : Prop :=
  is_u64 (ps_version p) /\ Forall sigalg_wf (tc_allowed_signature_algorithms (ps_config p)) /\
  reason_coded p.

Definition tls_wf s : Prop :=
  is_u64 (tp_boot_epoch s) /\ forall profile p, findProfile profile s = Some p -> profile_wf p.

Lemma validated_not_revoked p rc p' s s' :
  validateAndStoreMaterials p s = ((rc, p'), s') -> ps_status p' <> TLS_REVOKED.
Proof.
  unfold validateAndStoreMaterials, validate_key_and_chain, reject. intros H Hr.
  repeat (step_in H; try (injection H as <- <- <-; discriminate Hr)).
Qed.

Lemma validated_wf p rc p' s s' :
  is_u64 (ps_version p) -> Forall sigalg_wf (tc_allowed_signature_algorithms (ps_config p)) ->
  validateAndStoreMaterials p s = ((rc, p'), s') -> profile_wf p'.
Proof.
  intros Hv Ha H. pose proof (validated_not_revoked _ _ _ _ _ H) as Hn.
  apply validate_spec in H as (_ & Hc & Hver & Hr & Hs). split; [by rewrite Hver|].
  split; [by rewrite Hc|]. split; [by exists rc|]. split; [|done].
  intros ->%Hs. done.
Qed.

Lemma is_u64_wrap z : is_u64 (wrapu 64 z).
Proof. unfold is_u64, wrapu. apply Z.mod_pos_bound. lia. Qed.

Lemma put_wf profile p s : tls_wf s -> profile_wf p -> tls_wf (put_profile profile p s).
Proof.
  intros [Hb Hp] Hq. split; [done|]. intros q r. unfold findProfile, put_profile. simpl.
  rewrite lookup_insert_Some. intros [[<- <-]|[_ Hr]]; [done|]. by eapply Hp.
Qed.

Lemma env_wf s s' : tls_env_only s s' -> tls_wf s -> tls_wf s'.
Proof. by intros [e ->]. Qed.

Lemma default_wf : profile_wf profile_state_default.
Proof. split; [done|]. split; [constructor|]. split; [by exists SUCCESS|]. by split. Qed.

Lemma configure_wf cfg s :
  Forall sigalg_wf (tc_allowed_signature_algorithms cfg) -> tls_wf s -> tls_wf (configureProfile cfg s).
Proof.
  intros Ha Hs. apply put_wf; [done|].
  assert (Hd : profile_wf (default profile_state_default (findProfile (tc_profile_name cfg) s))).
  { destruct (findProfile _ s) as [p|] eqn:Ep; [by apply (proj2 Hs _ _ Ep)|apply default_wf]. }
  destruct Hd as (Hv & _ & Hr & Hr1 & Hr2). split; [by destruct (_ =? 0)|].
  split; [by destruct (_ =? 0)|]. split; [by destruct (_ =? 0)|]. by destruct (_ =? 0).
Qed.

Lemma tls_step_wf s s' : tls_wf s -> tls_step s s' -> tls_wf s'.
Proof.
  intros Hs [cfg Ha|q rc s1 H|q rc s1 H|q rc s1 H|q c r s1 H|req c r s1 H|e].
  - by apply configure_wf.
  - unfold loadMaterials in H. destruct (findProfile q s) as [p|] eqn:Ep; [|by injection H as <- <-].
    destruct (proj2 Hs _ _ Ep) as (Hv & Ha & _).
    destruct (validateAndStoreMaterials _ s) as [[rc1 p1] s2] eqn:E1. injection H as <- <-.
    pose proof (validate_spec _ _ _ _ _ E1) as [He _]. apply put_wf; [by eapply env_wf|].
    eapply validated_wf; [..|exact E1]; by destruct (_ =? 0).
  - unfold rotateCredential in H. destruct (findProfile q s) as [p|] eqn:Ep; [|by injection H as <- <-].
    destruct (proj2 Hs _ _ Ep) as (Hv & Ha & _).
    destruct (validateAndStoreMaterials _ s) as [[rc1 p1] s2] eqn:E1. injection H as <- <-.
    pose proof (validate_spec _ _ _ _ _ E1) as [He _]. eapply env_wf; [apply publishChanged_env|].
    apply put_wf; [by eapply env_wf|]. eapply validated_wf; [..|exact E1]; [apply is_u64_wrap|done].
  - unfold revokeCredential in H. destruct (findProfile q s) as [p|] eqn:Ep; [|by injection H as <- <-].
    destruct (proj2 Hs _ _ Ep) as (Hv & Ha & _). injection H as <- <-.
    eapply env_wf; [apply publishChanged_env|]. apply put_wf; [done|]. split; [apply is_u64_wrap|].
    split; [done|]. split; [by exists TLS_CREDENTIAL_INVALID|]. by split.
  - eapply env_wf; [by eapply getTlsCredential_env|done].
  - eapply env_wf; [by eapply signTls_env|done].
  - done.
Qed.

Lemma tls_steps_wf n s s' : tls_wf s -> tls_steps n s s' -> tls_wf s'.
Proof. intros Hs H. induction H; [done|]. eauto using tls_step_wf. Qed.

Lemma be_decode_range l : 0 <= be_decode l < 256 ^ zlen l.
Proof.
  induction l as [|b l IH] using rev_ind; [done|]. rewrite be_decode_snoc.
  unfold zlen in *. rewrite length_app, Nat2Z.inj_add, Z.pow_add_r by lia.
  pose proof (bval_range b). simpl length. lia.
Qed.

Lemma tls_new_wf a b c e : tls_wf (tls_new a b c e : TlsCredentialProvider E).
Proof.
  unfold tls_new. destruct (generateProcessKey e) as [k e1]. unfold generateBootEpoch.
  destruct (tls_RAND_bytes 8 e1) as [[r|] e2] eqn:Er.
  - split; [|by intros ? ?]. simpl. apply tls_RAND_length in Er.
    pose proof (be_decode_range (rev r)) as H. unfold zlen in H. rewrite length_rev, Er in H.
    exact H.
  - destruct (tls_time e2) as [t e3]. split; [apply is_u64_wrap|by intros ? ?].
Qed.

Lemma tls_wf_values s : tls_wf s -> tls_values_ok s.
Proof. intros [Hb Hp]. split; [done|]. intros q p Hq. destruct (Hp q p Hq) as (? & ? & _). by split. Qed.
End Invariant.

Section Properties.
Context {E : Type} `{L : X509Lib} `{Env : !TlsEnv E} `{!TlsEnvLaws E} `{Crypto : SoftFileCrypto}
  `{J : Json} `{!JsonLaws J}.
Implicit Types s : TlsCredentialProvider E.
Implicit Types p : ProfileState.

(** Every state the provider reaches from its constructor is well formed: the
    boot epoch and all versions are [uint64_t] values, configured algorithms are
    values of their enumeration, every reason code is that of an error code, a
    ready profile carries reason 0 and a revoked one [TLS_CREDENTIAL_INVALID]. So
    the code a refused request gets is an error code and never [SUCCESS]. *)
Theorem tls_states_well_formed a b c e n s :
  tls_steps n (tls_new a b c e) s ->
  is_u64 (tp_boot_epoch s) /\
  forall profile p, findProfile profile s = Some p ->
    profile_wf p /\ (ps_status p <> TLS_READY -> not_ready_code p <> SUCCESS).
Proof.
  intros H. destruct (tls_steps_wf _ _ _ (tls_new_wf a b c e) H) as [Hb Hp].
  split; [done|]. intros q p Hq. pose proof (Hp q p Hq) as Hw. split; [done|]. intros _.
  destruct Hw as (_ & _ & [code Hc] & _). unfold not_ready_code. rewrite Hc.
  destruct (Z.eqb_spec (error_code_value code) 0) as [|Hne]; [done|].
  rewrite error_code_of_value_value. by intros ->.
Qed.

(** Loading decides exactly by the material: [SUCCESS], and with it [READY], if
    and only if both stored chains parse, the roots contain a CA, the leaf is a
    client certificate within its validity whose public key is that of the device
    key in the HSM, and the path validates. The profile then serves the DER of
    those two chains. On any other material the profile is not ready and carries
    the returned code as its reason. Nothing else changes. *)
Theorem loadMaterials_ready profile s p rc s' :
  findProfile profile s = Some p -> tp_has_material_resolver s = true ->
  loadMaterials profile s = (rc, s') ->
  only_profile profile s s' /\
  exists p', findProfile profile s' = Some p' /\
    ps_reason_code p' = error_code_value rc /\ (ps_status p' = TLS_READY <-> rc = SUCCESS) /\
    ps_version p' = (if ps_version p =? 0 then 1 else ps_version p) /\
    (rc = SUCCESS <-> exists now e' roots leaf rest, tls_time (tp_env s) = (now, e') /\
       roots <> [] /\
       material_good p (tp_has_key_id_resolver s) (tp_env s) now e' roots leaf rest) /\
    (rc = SUCCESS -> exists now e' roots leaf rest,
       material_good p (tp_has_key_id_resolver s) (tp_env s) now e' roots leaf rest /\
       ps_root_ca_bundle_der p' = certs_to_der_bundle roots /\
       ps_client_cert_chain_der p' = certs_to_der_bundle (leaf :: rest) /\
       (ps_not_before p', ps_not_after p') = get_validity leaf).
Proof.
  intros Hp Hm Hl. pose proof (loadMaterials_spec _ _ _ _ Hl) as Hs. rewrite Hp in Hs.
  destruct Hs as (Ho & p' & Hp' & Hc & Hv & Hr & Hst). split; [done|]. exists p'.
  split; [done|]. split; [done|]. split; [done|]. split; [rewrite Hv; by destruct (_ =? 0)|].
  unfold loadMaterials in Hl. rewrite Hp in Hl. set (q := if _ =? 0 then _ else p) in Hl.
  assert (Eq : ps_config q = ps_config p) by by unfold q; destruct (_ =? 0).
  destruct (validateAndStoreMaterials q s) as [[rc1 p1] s1] eqn:Ev. injection Hl as <- <-.
  rewrite find_put in Hp'. injection Hp' as ->.
  split; [split|].
  - intros ->. apply validate_success in Ev as (now & e' & roots & leaf & rest & Ht & _ & G & Hne & _);
      [|done]. apply (material_good_config _ p) in G; [|done]. by exists now, e', roots, leaf, rest.
  - intros (now & e' & roots & leaf & rest & Ht & Hne & G). apply (material_good_config q p) in G; [|done].
    by eapply validate_good.
  - intros ->. apply validate_success in Ev as (now & e' & roots & leaf & rest & Ht & _ & G & _ & ->);
      [|done]. apply (material_good_config _ p) in G; [|done].
    exists now, e', roots, leaf, rest. split; [done|]. cbn [ps_root_ca_bundle_der ps_client_cert_chain_der
      ps_not_before ps_not_after ps_with_reason_code ps_with_status ps_with_key_algorithm
      ps_with_client_cert_chain_der ps_with_root_ca_bundle_der ps_with_not_after ps_with_not_before].
    by rewrite <- surjective_pairing.
Qed.

(** C6. A private key reference is a capability of one caller, one credential
    version and a limited time. Whatever happened on the provider and in the world
    since it was issued, signing with it succeeds exactly when the caller is valid
    and the one it was issued to, the profile is ready in the version of the
    bundle, the clock is before the issue time plus the configured lifetime, the
    algorithm was allowed at issue and still is, a SHA-256 digest has 32 bytes, and
    the HSM signs that digest with the key the device had at issue. The
    certificate's own validity is not among the conditions. *)
Theorem reference_capability profile c s b s1 n s2 req c' sig s3 :
  tls_wf s -> getTlsCredential profile c s = ((SUCCESS, Some b), s1) -> tls_steps n s1 s2 ->
  sr_private_key_ref req = tb_private_key_ref b ->
  (signTls req c' s2 = ((SUCCESS, Some sig), s3) <->
   exists p0 t e0 p now e e',
     findProfile profile s = Some p0 /\ tls_time (tp_env s) = (t, e0) /\
     pi_valid c' = true /\ pi_service_name c' = pi_service_name c /\
     findProfile profile s2 = Some p /\ ps_version p = tb_version b /\ ps_status p = TLS_READY /\
     tls_time (tp_env s2) = (now, e) /\ now < wrap_i64 (t + tc_ref_ttl_sec (ps_config p0)) /\
     existsb (fun a => sigalg_eqb a (sr_algorithm req)) (issued_algorithms p0) = true /\
     algorithmAllowed p (sr_algorithm req) = true /\
     (sigalg_code (sr_algorithm req) = 1 -> zlen (sr_digest req) = 32) /\
     tls_sign_digest (if tp_has_key_id_resolver s then tls_key_id (tp_env s) else ""%string)
       (sr_digest req) e = ((SUCCESS, sig), e') /\
     s3 = tp_with_env e' s2).
Proof.
  intros Hw Hg Hs Hreq. apply getTlsCredential_ref in Hg; [|by apply tls_wf_values].
  destruct Hg as (p0 & t & e0 & rp & Hp0 & _ & Ht & -> & Hd & Hver & [e1 ->]).
  destruct (tls_steps_advanced profile _ _ _ Hs) as (K & B & _). cbn in K, B, Hd.
  rewrite signTls_success, Hreq, K, Hd, B. split.
  - intros (rp & p & now & e & e' & [= <-] & ? & ? & ? & ? & _ & ? & ? & ? & ? & ? & ? & ? & ?).
    cbn in *. exists p0, t, e0, p, now, e, e'. repeat split; first [done|congruence].
  - intros (p0' & t' & e0' & p & now & e & e' & Hp0' & Ht' & ? & ? & ? & ? & ? & ? & ? & ? & ? & ? & ? & ?).
    assert (p0' = p0) as -> by congruence. assert (t' = t) as -> by congruence.
    eexists _, p, now, e, e'. split; [done|]. cbn. repeat split; first [done|congruence].
Qed.

(** A rotation or a revocation ends every reference issued before it, for
    good: whatever calls and changes of the world come before and after, signing
    with it answers [ACL_DENIED] or [TLS_KEY_REF_INVALID], makes no signature and
    leaves the provider as it was. (The version counter is assumed not to wrap.) *)
Theorem rotated_reference_is_dead profile c s b s1 n s2 s3 m s4 req c' r s5 :
  tls_wf s -> getTlsCredential profile c s = ((SUCCESS, Some b), s1) ->
  tls_steps n s1 s2 -> ends_version profile s2 s3 -> tls_steps m s3 s4 ->
  tb_version b + Z.of_nat n + 1 + Z.of_nat m < 2 ^ 64 ->
  sr_private_key_ref req = tb_private_key_ref b -> signTls req c' s4 = (r, s5) ->
  (r = (ACL_DENIED, None) \/ r = (TLS_KEY_REF_INVALID, None)) /\ s5 = s4.
Proof.
  intros Hw Hg Hn He Hm Hb Hreq Hsig.
  apply getTlsCredential_ref in Hg; [|by apply tls_wf_values].
  destruct Hg as (p0 & t & e0 & rp & Hp0 & _ & Ht & -> & Hd & Hver & [e1 ->]).
  destruct (proj2 Hw _ _ Hp0) as ([H0 _] & _). cbn in Hd.
  destruct (tls_steps_advanced profile _ _ _ Hn) as (K1 & B1 & A1).
  destruct (A1 p0) as (p2 & Hp2 & Hv2); [done|lia..|].
  destruct (ends_version_spec _ _ _ _ He Hp2) as (K2 & B2 & p3 & Hp3 & Hv3); [lia..|].
  destruct (tls_steps_advanced profile _ _ _ Hm) as (K3 & B3 & A3).
  destruct (A3 p3 Hp3) as (p4 & Hp4 & Hv4); [lia..|].
  unfold signTls in Hsig. rewrite Hreq, K3, K2, K1 in Hsig. cbn in Hsig. rewrite Hd in Hsig.
  destruct (_ || _); [injection Hsig as <- <-; auto|]. cbn [rp_profile rp_version] in Hsig.
  rewrite Hp4, (proj2 (Z.eqb_neq _ _)) in Hsig by lia. injection Hsig as <- <-. auto.
Qed.

(** A revocation lasts until the material is loaded again, not longer. Right
    after it the profile is [REVOKED] and requests for it get
    [TLS_CREDENTIAL_INVALID]; a load that finds the material good makes the profile
    [READY] in the version the revocation opened, and the next request gets a
    bundle unless the cipher fails: nothing records that the credential was
    revoked. *)
Theorem revocation_ends_with_next_load profile s p s1 :
  findProfile profile s = Some p -> is_u64 (ps_version p + 1) ->
  revokeCredential profile s = (SUCCESS, s1) ->
  tls_getStatus profile s1 = TLS_REVOKED /\
  (forall c, getTlsCredential profile c s1 = ((TLS_CREDENTIAL_INVALID, None), s1)) /\
  forall s2, loadMaterials profile s1 = (SUCCESS, s2) ->
    tls_getStatus profile s2 = TLS_READY /\
    exists p2, findProfile profile s2 = Some p2 /\ ps_reason_code p2 = 0 /\
      ps_version p2 = Z.max 1 (ps_version p + 1) /\
      forall c r s3, getTlsCredential profile c s2 = (r, s3) ->
        r = (INTERNAL_ERROR, None) \/ exists b, r = (SUCCESS, Some b) /\ tb_status b = TLS_READY.
Proof.
  intros Hp Hv Hr. apply revokeCredential_spec in Hr. rewrite Hp in Hr.
  destruct Hr as (_ & _ & Hp1). unfold tls_getStatus. rewrite Hp1. split; [done|]. split.
  { intros c. unfold getTlsCredential. rewrite Hp1. cbn [ps_status ps_with_version is_ready negb
      ps_with_reason_code ps_with_status]. unfold not_ready_code.
    cbn [ps_reason_code ps_with_version ps_with_reason_code].
    by rewrite error_code_of_value_value. }
  intros s2 Hl. apply loadMaterials_spec in Hl. rewrite Hp1 in Hl.
  destruct Hl as (_ & p2 & Hp2 & _ & Hv2 & Hrc & Hst). rewrite Hp2.
  assert (Hready : ps_status p2 = TLS_READY) by by apply Hst.
  split; [done|]. exists p2. split; [done|]. split; [done|]. split.
  { rewrite Hv2. simpl. rewrite wrapu_small by done. unfold is_u64 in Hv.
    destruct (Z.eqb_spec (ps_version p + 1) 0) as [->|]; simpl; [done|]. lia. }
  intros c r s3 Hg. unfold getTlsCredential in Hg. rewrite Hp2, Hready in Hg. cbn [is_ready negb] in Hg.
  destruct (on_tls_env _ _) as [now s2']. destruct (encodeRef _ _) as [ref s2''].
  destruct (bytes_empty ref); injection Hg as <- <-; [by left|right]. by eexists.
Qed.
End Properties.

(* --------------------------------------------------------------------- *)
(** ** Witnesses                                                          *)
(* --------------------------------------------------------------------- *)

Import TlsSample.

Lemma tls_loaded_wf : tls_wf tls_loaded.
Proof.
  apply (tls_steps_wf 2 (tls_new true true true (mkTlsw 2000 (pem 0 ++ pem 1) [])));
    [apply tls_new_wf|].
  eapply steps_cons; [apply (step_configure _ mqtt); constructor|].
  eapply steps_cons; [|apply steps_nil]. eapply (step_load _ "mqtt"), surjective_pairing.
Qed.

Lemma tls_issued_eq : getTlsCredential "mqtt" mqtt_peer tls_loaded = ((SUCCESS, Some tls_bundle), tls_after).
Proof. vm_compute. reflexivity. Qed.

Lemma tls_states_well_formed_witness :
  is_u64 (tp_boot_epoch tls_start) /\
  forall profile p, findProfile profile tls_start = Some p ->
    profile_wf p /\ (ps_status p <> TLS_READY -> not_ready_code p <> SUCCESS).
Proof.
  apply (tls_states_well_formed true true true (mkTlsw 2000 (pem 0 ++ pem 1) []) 1).
  eapply steps_cons; [apply (step_configure _ mqtt); constructor|apply steps_nil].
Defined.

Lemma loadMaterials_ready_witness :
  exists p', findProfile "mqtt" tls_loaded = Some p' /\ ps_status p' = TLS_READY.
Proof.
  destruct (loadMaterials_ready "mqtt" tls_start (ps_with_config mqtt profile_state_default)
    SUCCESS tls_loaded) as (_ & p' & Hp & _ & Hs & _); [vm_compute; reflexivity..|].
  exists p'. split; [exact Hp|]. by apply Hs.
Defined.

Lemma reference_capability_witness :
  exists p now e', findProfile "mqtt" tls_reloaded = Some p /\ ps_version p = 2 /\
    tls_time (tp_env tls_after) = (now, e') /\
    signTls sign_request mqtt_peer tls_after =
      ((SUCCESS, Some (x01 :: replicate 32 x05)), tp_with_env e' tls_after).
Proof.
  destruct (findProfile "mqtt" tls_reloaded) as [p|] eqn:Ep; [|vm_compute in Ep; discriminate Ep].
  exists p. destruct (tls_time (tp_env tls_after)) as [now e'] eqn:Et. exists now, e'.
  split; [done|]. split; [vm_compute in Ep; injection Ep as <-; reflexivity|]. split; [done|].
  apply (reference_capability "mqtt" mqtt_peer tls_loaded tls_bundle tls_after 0 tls_after
    sign_request mqtt_peer); [apply tls_loaded_wf|apply tls_issued_eq|apply steps_nil|reflexivity|].
  do 7 eexists. injection Et as <- <-.
  split; [vm_compute; reflexivity|]. split; [vm_compute; reflexivity|].
  split; [reflexivity|]. split; [reflexivity|]. split; [vm_compute; reflexivity|].
  split; [vm_compute; reflexivity|]. split; [vm_compute; reflexivity|].
  split; [vm_compute; reflexivity|]. split; [vm_compute; reflexivity|].
  split; [vm_compute; reflexivity|]. split; [vm_compute; reflexivity|].
  split; [intros _; vm_compute; reflexivity|]. split; [vm_compute; reflexivity|]. reflexivity.
Defined.

Lemma rotated_reference_is_dead_witness :
  signTls sign_request mqtt_peer tls_reloaded = ((TLS_KEY_REF_INVALID, None), tls_reloaded).
Proof.
  destruct (signTls sign_request mqtt_peer tls_reloaded) as [r s5] eqn:Es.
  destruct (rotated_reference_is_dead "mqtt" mqtt_peer tls_loaded tls_bundle tls_after 0 tls_after
    tls_revoked 1 tls_reloaded sign_request mqtt_peer r s5) as [_ ->].
  - apply tls_loaded_wf.
  - apply tls_issued_eq.
  - apply steps_nil.
  - right. exists SUCCESS. vm_compute. reflexivity.
  - eapply steps_cons; [|apply steps_nil]. eapply (step_load _ "mqtt"), surjective_pairing.
  - vm_compute. reflexivity.
  - reflexivity.
  - exact Es.
  - f_equal. apply (f_equal fst) in Es. simpl in Es. rewrite <- Es. apply tls_codes.
Defined.

Lemma revocation_ends_with_next_load_witness :
  tls_getStatus "mqtt" tls_revoked = TLS_REVOKED /\ tls_getStatus "mqtt" tls_reloaded = TLS_READY.
Proof.
  destruct (findProfile "mqtt" tls_after) as [p|] eqn:Ep; [|vm_compute in Ep; discriminate Ep].
  destruct (revocation_ends_with_next_load "mqtt" tls_after p tls_revoked) as (H1 & _ & H2).
  - exact Ep.
  - vm_compute in Ep. injection Ep as <-. vm_compute. split; [discriminate|reflexivity].
  - vm_compute. reflexivity.
  - split; [exact H1|]. apply H2. vm_compute. reflexivity.
Defined.
