(* ===== verification/CertStore.v ===== *)
(** * CertificateStore: generations, manifest, the CURRENT pointer, recovery.
    Models [src/certificate_store.cpp] / [include/certificate_store.h]. The file
    system is a parameter: the system calls the code makes, each of which may fail,
    with their documented effect on what a later [readFile] sees. A call of a
    process that has died is a call that fails and changes nothing, so a crash at
    any point of an operation is an instance like any other. Every public function
    holds the mutex for its whole body. *)
From S2P Require Import Prelude Errors Canonical Json.
From Stdlib Require Import Ascii.

(* --------------------------------------------------------------------- *)
(** ** The file system                                                    *)
(* --------------------------------------------------------------------- *)

(** [fs_file] is the file a path denotes. [fs_write] is [write(2)], repeated while
    it answers [EINTR]: the number of bytes written. [fs_read] is the content an
    [std::ifstream] delivers, empty for a file that cannot be opened. [fs_reboot]
    starts a new process on the same disk. *)
Class FileSystem (F : Type) := {
  fs_file : string -> string;
  fs_read : string -> F -> string;
  fs_isdir : string -> F -> bool;
  fs_readdir : string -> F -> option (list string);
  fs_creat : string -> st F bool;
  fs_write : string -> string -> st F (option nat);
  fs_fsync : string -> st F bool;
  fs_rename : string -> string -> st F bool;
  fs_remove : string -> F -> F;
  fs_rmdir : string -> F -> F;
  fs_mkdir : string -> F -> F;
  fs_clock_ms : st F Z;
  fs_RAND_bytes : nat -> st F (option bytes);
  fs_reboot : F -> F
}.

Definition not_slash (c : ascii) : bool := negb (Ascii.eqb c "/"%char).

(** A call touches at most the files its arguments denote; a successful one has
    the documented effect. *)
Class FileSystemLaws (F : Type) `{FileSystem F} : Prop := {
  fs_creat_frame p f ok f' q :
    fs_creat p f = (ok, f') -> fs_file q <> fs_file p -> fs_read q f' = fs_read q f;
  fs_creat_empty p f f' : fs_creat p f = (true, f') -> fs_read p f' = "";
  fs_write_frame p c f r f' q :
    fs_write p c f = (r, f') -> fs_file q <> fs_file p -> fs_read q f' = fs_read q f;
  fs_write_count p c f n f' :
    fs_write p c f = (Some n, f') -> c <> "" ->
    (0 < n <= String.length c)%nat /\ fs_read p f' = (fs_read p f ++ str_take n c)%string;
  fs_fsync_read p f ok f' q : fs_fsync p f = (ok, f') -> fs_read q f' = fs_read q f;
  fs_rename_frame a b f ok f' q :
    fs_rename a b f = (ok, f') -> fs_file q <> fs_file a -> fs_file q <> fs_file b ->
    fs_read q f' = fs_read q f;
  fs_rename_ok a b f f' : fs_rename a b f = (true, f') -> fs_read b f' = fs_read a f;
  fs_rename_fails a b f f' q : fs_rename a b f = (false, f') -> fs_read q f' = fs_read q f;
  fs_remove_frame p f q : fs_file q <> fs_file p -> fs_read q (fs_remove p f) = fs_read q f;
  fs_rmdir_read p f q : fs_read q (fs_rmdir p f) = fs_read q f;
  fs_mkdir_read p f q : fs_read q (fs_mkdir p f) = fs_read q f;
  fs_clock_read f t f' q : fs_clock_ms f = (t, f') -> fs_read q f' = fs_read q f;
  fs_RAND_read n f r f' q : fs_RAND_bytes n f = (r, f') -> fs_read q f' = fs_read q f;
  fs_readdir_names d f l n :
    fs_readdir d f = Some l -> n ∈ l -> n <> "" /\ str_all not_slash n = true;
  fs_reboot_read f q : fs_read q (fs_reboot f) = fs_read q f
}.

(* --------------------------------------------------------------------- *)
(** ** Data                                                               *)
(* --------------------------------------------------------------------- *)

(** [src/include/certificate_store.h:13-18] CertificateCommit *)
Record CertificateCommit := mkCommit {
  cc_device_cert_chain_pem : string;
  cc_device_cert_json : string;
  cc_provision_state : string;
  cc_version : Z
}.

Section Store.
Context {F : Type} `{FS : FileSystem F} `{Hash : Sha256} `{J : Json}.

(** [src/include/certificate_store.h:79-87] Generation *)
Record Generation := mkGeneration {
  cg_generation_id : string;
  cg_previous_generation : string;
  cg_dir : string;
  cg_device_cert_chain_pem : string;
  cg_device_cert : json;
  cg_provision_state : string;
  cg_version : Z
}.

(** [src/include/certificate_store.h:21-27] CertificateSnapshot *)
Record CertificateSnapshot := mkSnapshot {
  sn_generation_id : string;
  sn_device_cert_chain_pem : string;
  sn_device_cert : json;
  sn_provision_state : string;
  sn_version : Z
}.

(** [src/include/certificate_store.h:111-116] CertificateStore members *)
Record CertificateStore := mkCertStore {
  ct_root : string;
  ct_current : option Generation;
  ct_recovered : bool;
  ct_fs : F
}.

Definition with_fs (f : F) (s : CertificateStore) : CertificateStore :=
  mkCertStore (ct_root s) (ct_current s) (ct_recovered s) f.

Definition kManifestName : string := "manifest.json".
Definition kChainFileName : string := "device_cert_chain.pem".
Definition kDeviceCertFileName : string := "device_cert.json".

(** [a.back() == '/']. *)
Fixpoint ends_with_slash (s : string) : bool :=
  match s with
  | EmptyString => false
  | String a EmptyString => Ascii.eqb a "/"%char
  | String _ s => ends_with_slash s
  end.

(** [src/src/certificate_store.cpp:27-31] dirJoin *)
Definition dirJoin (a b : string) : string :=
  if str_empty a then b else if ends_with_slash a then (a ++ b)%string else (a ++ "/" ++ b)%string.

(** The prefixes of [rest] after [cur] that end in a slash. *)
Fixpoint slash_prefixes (cur rest : string) : list string :=
  match rest with
  | EmptyString => []
  | String c rest =>
      let cur := (cur ++ String c "")%string in
      if Ascii.eqb c "/"%char && negb (String.eqb cur "/") then cur :: slash_prefixes cur rest
      else slash_prefixes cur rest
  end.

(** [src/src/certificate_store.cpp:33-47] makeDirs *)
Definition makeDirs (path : string) : st F bool := fun f =>
  let f := foldl (fun f p => fs_mkdir p f) f (slash_prefixes "" path) in
  let f := fs_mkdir path f in
  (fs_isdir path f, f).

Definition generations_dir (root : string) : string := dirJoin root "generations".
Definition current_path (root : string) : string := dirJoin root "CURRENT".

(** [src/src/certificate_store.cpp:51-54] CertificateStore *)
Definition cert_store_new (root : string) (f : F) : CertificateStore := mkCertStore root None false f.

(* --------------------------------------------------------------------- *)
(** ** File primitives                                                    *)
(* --------------------------------------------------------------------- *)

(** The loop [while (off < size)]; each turn writes at least one byte, so the
    length of the content is enough fuel. *)
(** [src/src/certificate_store.cpp:79-88] writeFile loop *)
Fixpoint write_loop (fuel : nat) (path rest : string) : st F bool := fun f =>
  match rest with
  | EmptyString => (true, f)
  | _ =>
      match fuel with
      | O => (false, f)
      | S fuel =>
          let '(n, f) := fs_write path rest f in
          match n with
          | None => (false, f)
          | Some n => write_loop fuel path (str_drop n rest) f
          end
      end
  end.

(** [src/src/certificate_store.cpp:76-92] writeFile *)
Definition writeFile (path content : string) : st F bool := fun f =>
  let '(ok, f) := fs_creat path f in
  if negb ok then (false, f) else
  let '(ok, f) := write_loop (String.length content) path content f in
  if negb ok then (false, f) else fs_fsync path f.

(** The part of a path before its last slash; the path itself without one. *)
Fixpoint parent_aux (path : string) : option string :=
  match path with
  | EmptyString => None
  | String c rest =>
      match parent_aux rest with
      | Some p => Some (String c p)
      | None => if Ascii.eqb c "/"%char then Some "" else None
      end
  end.
(** [src/src/certificate_store.cpp:102-104] writeFileAtomic parent *)
Definition parent_dir (path : string) : string := default path (parent_aux path).

(** [src/src/certificate_store.cpp:94-107] writeFileAtomic *)
Definition writeFileAtomic (path content : string) : st F bool := fun f =>
  let tmp := (path ++ ".tmp")%string in
  let '(ok, f) := writeFile tmp content f in
  if negb ok then (false, f) else
  let '(ok, f) := fs_rename tmp path f in
  if negb ok then (false, fs_remove tmp f) else
  let '(_, f) := fs_fsync (parent_dir path) f in
  (true, f).

(** [src/src/certificate_store.cpp:116-127] sha256Hex *)
Definition sha256Hex (data : string) : string := toHex (SHA256 (bytes_of_string data)).

(** [src/src/certificate_store.cpp:129-146] newGenerationId *)
Definition newGenerationId : st F string := fun f =>
  let '(rnd, f) := fs_RAND_bytes 8 f in
  let rnd := match rnd with Some b => b | None => replicate 8 x00 end in
  let '(now, f) := fs_clock_ms f in
  (("g-" ++ std_to_string now ++ "-" ++ toHex rnd)%string, f).

(* --------------------------------------------------------------------- *)
(** ** Generations                                                        *)
(* --------------------------------------------------------------------- *)

(** [src/src/certificate_store.cpp:160-170] writeGeneration files *)
Definition files_json (chain dc : string) : json :=
  json_of_fields [
    (kChainFileName, json_of_fields [
      ("length"%string, json_int (str_size chain)); ("sha256"%string, json_string (sha256Hex chain))]);
    (kDeviceCertFileName, json_of_fields [
      ("length"%string, json_int (str_size dc)); ("sha256"%string, json_string (sha256Hex dc))])].

(** [src/src/certificate_store.cpp:172-179] writeGeneration manifest *)
Definition manifest_json (g : Generation) (created_at : Z) : json :=
  json_of_fields [
    ("gid"%string, json_string (cg_generation_id g));
    ("previous_generation"%string, json_string (cg_previous_generation g));
    ("version"%string, json_int (cg_version g));
    ("provision_state"%string, json_string (cg_provision_state g));
    ("created_at"%string, json_int created_at);
    ("files"%string, files_json (cg_device_cert_chain_pem g) (json_dump (cg_device_cert g)))].

(** [src/src/certificate_store.cpp:152-186] writeGeneration *)
Definition writeGeneration (g : Generation) : st F bool := fun f =>
  let '(ok, f) := makeDirs (cg_dir g) f in
  if negb ok then (false, f) else
  let '(ok, f) := writeFileAtomic (dirJoin (cg_dir g) kChainFileName) (cg_device_cert_chain_pem g) f in
  if negb ok then (false, f) else
  let '(ok, f) :=
    writeFileAtomic (dirJoin (cg_dir g) kDeviceCertFileName) (json_dump (cg_device_cert g)) f in
  if negb ok then (false, f) else
  let '(now, f) := fs_clock_ms f in
  let '(ok, f) :=
    writeFileAtomic (dirJoin (cg_dir g) kManifestName) (json_dump (manifest_json g (now / 1000))) f in
  if negb ok then (false, f) else fs_fsync (cg_dir g) f.

(** A load that found a complete generation, found none, or left by an exception:
    only [parse] is guarded, the typed accessors are not. *)
Inductive LoadResult :=
  | Loaded (g : Generation)
  | Invalid
  | LoadThrows.

(** The loop over the file list; [chain] and [dc] are what it has read so far. *)
(** [src/src/certificate_store.cpp:211-229] loadGeneration files *)
Fixpoint check_files (dir : string) (f : F) (files : list (string * json)) (chain : string)
    (dc : option json) : option (option (string * option json)) :=
  match files with
  | [] => Some (Some (chain, dc))
  | (name, meta) :: files =>
      match json_get meta "length", json_get meta "sha256" with
      | Some jl, Some js =>
          match as_int jl, as_string js with
          | Some l, Some sha =>
              let content := fs_read (dirJoin dir name) f in
              if negb (str_size content =? wrapu 64 l) then Some None else
              if negb (String.eqb (sha256Hex content) sha) then Some None else
              if String.eqb name kChainFileName then check_files dir f files content dc
              else if String.eqb name kDeviceCertFileName then
                match json_parse content with
                | Some j => check_files dir f files chain (Some j)
                | None => Some None
                end
              else check_files dir f files chain dc
          | _, _ => None
          end
      | _, _ => Some None
      end
  end.

(** [src/src/certificate_store.cpp:188-236] loadGeneration *)
Definition loadGeneration (root gid : string) (f : F) : LoadResult :=
  let dir := dirJoin (generations_dir root) gid in
  let manifest_str := fs_read (dirJoin dir kManifestName) f in
  if str_empty manifest_str then Invalid else
  match json_parse manifest_str with
  | None => Invalid
  | Some m =>
      match value_string m "gid" "" with
      | None => LoadThrows
      | Some id =>
          if negb (String.eqb id gid) then Invalid else
          match value_string m "previous_generation" "", value_u64 m "version" 0,
                value_string m "provision_state" "" with
          | Some prev, Some v, Some ps =>
              match json_get m "files" with
              | None => Invalid
              | Some files =>
                  if negb (json_is_object files) then Invalid else
                  match check_files dir f (json_items files) "" None with
                  | None => LoadThrows
                  | Some None => Invalid
                  | Some (Some (chain, dc)) =>
                      match dc with
                      | Some dc =>
                          if str_empty chain || negb (json_is_object dc) then Invalid
                          else Loaded (mkGeneration id prev dir chain dc ps v)
                      | None => Invalid
                      end
                  end
              end
          | _, _, _ => LoadThrows
          end
      end
  end.

(** [src/src/certificate_store.cpp:238-242] switchCurrent *)
Definition switchCurrent (root gid : string) : st F bool := fun f =>
  let '(ok, f) := writeFileAtomic (current_path root) (gid ++ String "010"%char "")%string f in
  if negb ok then (false, f) else fs_fsync root f.

(** The characters before the first line feed or carriage return. *)
Fixpoint first_line (s : string) : string :=
  match s with
  | EmptyString => ""
  | String c s => if Ascii.eqb c "010"%char || Ascii.eqb c "013"%char then "" else String c (first_line s)
  end.

(** [src/src/certificate_store.cpp:244-254] readCurrentPointer *)
Definition readCurrentPointer (root : string) (f : F) : option string :=
  let gid := first_line (fs_read (current_path root) f) in
  if str_empty gid then None else Some gid.

(** [src/src/certificate_store.cpp:264-275] cleanupOrphans one directory *)
Definition remove_generation (full : string) (f : F) : F :=
  let f := fs_remove (dirJoin full kManifestName) f in
  let f := fs_remove (dirJoin full kChainFileName) f in
  let f := fs_remove (dirJoin full kDeviceCertFileName) f in
  let f := fs_remove (dirJoin full (kManifestName ++ ".tmp")) f in
  let f := fs_remove (dirJoin full (kChainFileName ++ ".tmp")) f in
  let f := fs_remove (dirJoin full (kDeviceCertFileName ++ ".tmp")) f in
  fs_rmdir full f.

(** [src/src/certificate_store.cpp:256-278] cleanupOrphans *)
Definition cleanupOrphans (root keep_a keep_b : string) (f : F) : F :=
  match fs_readdir (generations_dir root) f with
  | None => f
  | Some names =>
      foldl (fun f name =>
        if String.eqb name "." || String.eqb name ".." then f
        else if String.eqb name keep_a || String.eqb name keep_b then f
        else
          let full := dirJoin (generations_dir root) name in
          if fs_isdir full f then remove_generation full f else f) f names
  end.

(* --------------------------------------------------------------------- *)
(** ** Recovery and commit                                                *)
(* --------------------------------------------------------------------- *)

(** The previous generation a manifest names; every failure reads as none. *)
(** [src/src/certificate_store.cpp:308-315] openAndRecover previous *)
Definition manifest_previous (root gid : string) (f : F) : string :=
  let manifest_str := fs_read (dirJoin (dirJoin (generations_dir root) gid) kManifestName) f in
  if str_empty manifest_str then ""
  else match json_parse manifest_str with
       | Some m => default "" (value_string m "previous_generation" "")
       | None => ""
       end.

(** How the walk along the previous generations ends; [WalkOn] when the fuel is
    used up and the code goes on walking. *)
Inductive WalkResult :=
  | WalkFound (g : Generation)
  | WalkExhausted
  | WalkThrows
  | WalkOn.

(** [src/src/certificate_store.cpp:317-337] openAndRecover fallback loop *)
Fixpoint walk_back (fuel : nat) (root prev : string) (f : F) : WalkResult :=
  if str_empty prev then WalkExhausted
  else
    match fuel with
    | O => WalkOn
    | S fuel =>
        match loadGeneration root prev f with
        | Loaded g => WalkFound g
        | LoadThrows => WalkThrows
        | Invalid => walk_back fuel root (manifest_previous root prev f) f
        end
    end.

(** What a call of [openAndRecover] comes to: a result, an exception, or a loop
    that is still running after [fuel] turns. *)
Inductive OpenResult :=
  | OpenReturns (ok : bool)
  | OpenThrows
  | OpenLoops.

Definition adopt (g : Generation) (s : CertificateStore) : CertificateStore :=
  mkCertStore (ct_root s) (Some g) true
    (cleanupOrphans (ct_root s) (cg_generation_id g) (cg_previous_generation g) (ct_fs s)).

(** [src/src/certificate_store.cpp:284-349] openAndRecover *)
Definition openAndRecover (fuel : nat) (s : CertificateStore) : OpenResult * CertificateStore :=
  let root := ct_root s in
  let '(ok, f) := makeDirs (generations_dir root) (ct_fs s) in
  let s := with_fs f s in
  if negb ok then (OpenReturns false, s) else
  match readCurrentPointer root f with
  | Some ptr =>
      match loadGeneration root ptr f with
      | Loaded gen => (OpenReturns true, adopt gen s)
      | LoadThrows => (OpenThrows, s)
      | Invalid =>
          match walk_back fuel root (manifest_previous root ptr f) f with
          | WalkFound gen => (OpenReturns true, adopt gen s)
          | WalkThrows => (OpenThrows, s)
          | WalkOn => (OpenLoops, s)
          | WalkExhausted =>
              (OpenReturns false,
               mkCertStore root (ct_current s) false (cleanupOrphans root "" "" f))
          end
      end
  | None => (OpenReturns true, mkCertStore root None true (cleanupOrphans root "" "" f))
  end.

(** [src/src/certificate_store.cpp:360-371] commit generation *)
Definition new_generation (gid : string) (c : CertificateCommit) (dc : json) (s : CertificateStore) :
    Generation :=
  mkGeneration gid (match ct_current s with Some g => cg_generation_id g | None => "" end)
    (dirJoin (generations_dir (ct_root s)) gid) (cc_device_cert_chain_pem c) dc
    (cc_provision_state c) (cc_version c).

(** [src/src/certificate_store.cpp:375-379] commit candidate cleanup *)
Definition remove_candidate (dir : string) (f : F) : F :=
  fs_rmdir dir (fs_remove (dirJoin dir kDeviceCertFileName)
    (fs_remove (dirJoin dir kChainFileName) (fs_remove (dirJoin dir kManifestName) f))).

(** [None] when an exception of the self check left the function. *)
(** [src/src/certificate_store.cpp:351-400] commit *)
Definition commit (c : CertificateCommit) (s : CertificateStore) : option ErrorCode * CertificateStore :=
  if negb (ct_recovered s) then (Some STORAGE_CORRUPTION, s) else
  if str_empty (cc_device_cert_chain_pem c) then (Some INVALID_PARAMETER, s) else
  let '(gid, f) := newGenerationId (ct_fs s) in
  match json_parse (cc_device_cert_json c) with
  | None => (Some INVALID_PARAMETER, with_fs f s)
  | Some dc =>
      let g := new_generation gid c dc s in
      let '(ok, f) := writeGeneration g f in
      if negb ok then (Some STORAGE_WRITE_FAILED, with_fs (remove_candidate (cg_dir g) f) s) else
      match loadGeneration (ct_root s) gid f with
      | LoadThrows => (None, with_fs f s)
      | Invalid => (Some STORAGE_WRITE_FAILED, with_fs f s)
      | Loaded _ =>
          let '(ok, f) := switchCurrent (ct_root s) gid f in
          if negb ok then (Some STORAGE_WRITE_FAILED, with_fs f s)
          else (Some SUCCESS, adopt g (with_fs f s))
      end
  end.

(** [src/src/certificate_store.cpp:402-405] currentDeviceCertChain *)
Definition currentDeviceCertChain (s : CertificateStore) : string :=
  match ct_current s with Some g => cg_device_cert_chain_pem g | None => "" end.

(** [src/src/certificate_store.cpp:407-417] currentSnapshot *)
Definition currentSnapshot (s : CertificateStore) : option CertificateSnapshot :=
  g ← ct_current s;
  Some (mkSnapshot (cg_generation_id g) (cg_device_cert_chain_pem g) (cg_device_cert g)
    (cg_provision_state g) (cg_version g)).

(** [src/src/certificate_store.cpp:419-423] currentChainDigest *)
Definition currentChainDigest (s : CertificateStore) : string :=
  match ct_current s with Some g => sha256Hex (cg_device_cert_chain_pem g) | None => "" end.

(** [src/src/certificate_store.cpp:425-428] hasCurrent *)
Definition hasCurrent (s : CertificateStore) : bool :=
  match ct_current s with Some _ => true | None => false end.
End Store.
