(* ===== verification/CertStoreFacts.v ===== *)
(** * CertificateStore: what each operation leaves on the disk.
    Frame lemmas (which files a call can change), the effect of the writes, and
    that a generation that was written is loaded. *)
From S2P Require Import Prelude Errors Canonical Json CertStore.
From Stdlib Require Import Ascii.

(* --------------------------------------------------------------------- *)
(** ** Strings                                                            *)
(* --------------------------------------------------------------------- *)

Lemma dirJoin_app a b t : (dirJoin a b ++ t)%string = dirJoin a (b ++ t).
Proof. unfold dirJoin. by repeat case_match; rewrite ?str_app_assoc. Qed.

(** The characters of a generation id. *)
Definition gid_char (c : ascii) : bool :=
  not_slash c && negb (Ascii.eqb c "010"%char) && negb (Ascii.eqb c "013"%char).

Lemma gid_char_pretty_go n s :
  str_all gid_char s = true -> str_all gid_char (pretty_N_go n s) = true.
Proof.
  revert s. induction (N.lt_wf_0 n) as [n _ IH]; intros s Hs.
  destruct (decide (0 < n)%N).
  - rewrite pretty_N_go_step by done. apply IH; [apply N.div_lt; lia|]. cbn. rewrite Hs.
    unfold pretty_N_char. by repeat case_match.
  - assert (n = 0%N) as -> by lia. by rewrite pretty_N_go_0.
Qed.

Lemma gid_char_to_string z : str_all gid_char (std_to_string z) = true.
Proof. unfold std_to_string, pretty, pretty_N. case_decide; [done|]. by apply gid_char_pretty_go. Qed.

Lemma gid_char_toHex b : str_all gid_char (toHex b) = true.
Proof.
  induction b as [|x b IH]; [done|]. cbn [toHex str_all].
  assert (gid_char (hex_digit (Z.shiftr (bval x) 4)) && gid_char (hex_digit (Z.land (bval x) 15)) = true)
    as Hx by (by destruct x).
  by rewrite IH, andb_true_r.
Qed.

Lemma gid_char_safe s : str_all gid_char s = true -> str_all not_slash s = true.
Proof.
  induction s as [|c s IH]; [done|]. cbn. unfold gid_char. intros H. bool_simpl.
  by rewrite H, IH.
Qed.

Lemma first_line_cons c s t :
  str_all gid_char (String c s) = true ->
  first_line (String c s ++ t) = String c (first_line (s ++ t)) /\ str_all gid_char s = true.
Proof.
  cbn [str_all]. unfold gid_char. intros H. bool_simpl.
  change (String c s ++ t)%string with (String c (s ++ t)). cbn [first_line].
  by replace (Ascii.eqb c "010"%char || Ascii.eqb c "013"%char) with false
    by (symmetry; by apply orb_false_iff).
Qed.

Lemma first_line_gid s t :
  str_all gid_char s = true -> first_line (s ++ String "010"%char t) = s.
Proof.
  induction s as [|c s IH]; [done|]. intros [-> H]%(first_line_cons _ _ (String "010" t)).
  by rewrite IH.
Qed.

(* --------------------------------------------------------------------- *)
(** ** The files a call can change                                        *)
(* --------------------------------------------------------------------- *)

Section Frames.
Context {F : Type} `{FS : FileSystem F} `{FSL : !FileSystemLaws F}.

(** [f'] agrees with [f] on every file but those of the paths [ps]. *)
Definition touches (ps : list string) (f f' : F) : Prop :=
  forall q, (forall p, p ∈ ps -> fs_file q <> fs_file p) -> fs_read q f' = fs_read q f.

Lemma touches_refl ps f : touches ps f f.
Proof. by intros q. Qed.

Lemma touches_trans ps f1 f2 f3 : touches ps f1 f2 -> touches ps f2 f3 -> touches ps f1 f3.
Proof. intros H1 H2 q Hq. by rewrite H2, H1. Qed.

Lemma touches_weaken ps ps' f f' : ps ⊆ ps' -> touches ps f f' -> touches ps' f f'.
Proof. intros Hs H q Hq. apply H. intros p Hp. apply Hq, Hs, Hp. Qed.

Lemma touches_nil ps f f' : (forall q, fs_read q f' = fs_read q f) -> touches ps f f'.
Proof. by intros H q _. Qed.

Lemma makeDirs_read p f ok f' q : makeDirs p f = (ok, f') -> fs_read q f' = fs_read q f.
Proof.
  unfold makeDirs. intros [= _ <-]. rewrite fs_mkdir_read. generalize (slash_prefixes "" p). intros l.
  revert f; induction l as [|x l IH]; intros f; cbn; [done|]. by rewrite IH, fs_mkdir_read.
Qed.

Lemma newGenerationId_read f gid f' q : newGenerationId f = (gid, f') -> fs_read q f' = fs_read q f.
Proof.
  unfold newGenerationId. destruct (fs_RAND_bytes 8 f) as [r f1] eqn:E1.
  destruct (fs_clock_ms f1) as [now f2] eqn:E2. intros [= _ <-].
  by rewrite (fs_clock_read _ _ _ _ E2), (fs_RAND_read _ _ _ _ _ E1).
Qed.

(** A generation id is a single name without a line break. *)
Lemma newGenerationId_gid f gid f' :
  newGenerationId f = (gid, f') -> str_all gid_char gid = true /\ gid <> "".
Proof.
  unfold newGenerationId. destruct (fs_RAND_bytes 8 f) as [r f1].
  destruct (fs_clock_ms f1) as [now f2]. intros [= <- _].
  split; [|done]. by rewrite !str_all_app, gid_char_to_string, gid_char_toHex.
Qed.

(** Enough fuel: each turn of the loop writes at least one byte. *)
Lemma write_loop_spec fuel p c f ok f' :
  write_loop fuel p c f = (ok, f') ->
  touches [p] f f' /\
  ((String.length c <= fuel)%nat -> ok = true -> fs_read p f' = (fs_read p f ++ c)%string).
Proof.
  revert c f. induction fuel as [|fuel IH]; intros c f E.
  - cbn in E. destruct c as [|a c]; injection E as <- <-;
      (split; [apply touches_refl|]); intros; rewrite ?str_app_nil; done || (cbn in *; lia).
  - destruct c as [|a c]; cbn in E.
    { injection E as <- <-. split; [apply touches_refl|]. intros. by rewrite str_app_nil. }
    set (d := String a c) in *. destruct (fs_write p d f) as [n f1] eqn:Ew.
    assert (Ht : touches [p] f f1).
    { intros q Hq. eapply fs_write_frame; [done|]. apply Hq. by left. }
    destruct n as [n|]; [|injection E as <- <-; by split].
    apply IH in E as [Ht' Hr]. split; [by eapply touches_trans|]. intros Hl ->.
    destruct (fs_write_count p d f n f1 Ew) as [Hn Hw]; [done|].
    rewrite Hr, Hw, str_app_assoc, str_take_drop; [done| |done].
    rewrite length_str_drop. lia.
Qed.

Lemma writeFile_spec p c f ok f' :
  writeFile p c f = (ok, f') ->
  touches [p] f f' /\ (ok = true -> fs_read p f' = c).
Proof.
  unfold writeFile. destruct (fs_creat p f) as [[] f1] eqn:E1; cbn [negb].
  2:{ intros [= <- <-]. split; [|done]. intros q Hq. eapply fs_creat_frame; [done|]. apply Hq. by left. }
  assert (T1 : touches [p] f f1).
  { intros q Hq. eapply fs_creat_frame; [done|]. apply Hq. by left. }
  destruct (write_loop _ p c f1) as [ok2 f2] eqn:E2. apply write_loop_spec in E2 as [T2 Hr].
  pose proof (touches_trans _ _ _ _ T1 T2).
  destruct ok2; cbn [negb]; [|intros [= <- <-]; by split].
  intros E3. split.
  - eapply touches_trans; [done|]. apply touches_nil. intros q. by eapply fs_fsync_read.
  - intros ->. rewrite (fs_fsync_read _ _ _ _ p E3), Hr by done.
    by rewrite (fs_creat_empty _ _ _ E1).
Qed.

(** The write through a temporary file: all of the content or no change. *)
Lemma writeFileAtomic_spec p c f ok f' :
  fs_file p <> fs_file (p ++ ".tmp") ->
  writeFileAtomic p c f = (ok, f') ->
  touches [p; (p ++ ".tmp")%string] f f' /\
  fs_read p f' = if ok then c else fs_read p f.
Proof.
  intros Hp. unfold writeFileAtomic. set (tmp := (p ++ ".tmp")%string) in *.
  destruct (writeFile tmp c f) as [ok1 f1] eqn:E1. apply writeFile_spec in E1 as [T1 R1].
  assert (Hold : fs_read p f1 = fs_read p f).
  { apply T1. intros q ->%list_elem_of_singleton. done. }
  apply (touches_weaken _ [p; tmp]) in T1; [|set_solver].
  destruct ok1; cbn [negb]; [|intros [= <- <-]; by split].
  specialize (R1 eq_refl).
  destruct (fs_rename tmp p f1) as [ok2 f2] eqn:E2.
  assert (T2 : touches [p; tmp] f1 f2).
  { intros q Hq. eapply fs_rename_frame; [done|apply Hq; set_solver..]. }
  pose proof (touches_trans _ _ _ _ T1 T2) as T12.
  destruct ok2; cbn [negb].
  - destruct (fs_fsync (parent_dir p) f2) as [r f3] eqn:E3. intros [= <- <-]. split.
    + eapply touches_trans; [done|]. apply touches_nil. intros q. by eapply fs_fsync_read.
    + rewrite (fs_fsync_read _ _ _ _ _ E3), (fs_rename_ok _ _ _ _ E2). done.
  - intros [= <- <-]. split.
    + eapply touches_trans; [done|]. intros q Hq. apply fs_remove_frame, Hq. set_solver.
    + rewrite fs_remove_frame, (fs_rename_fails _ _ _ _ p E2) by done. done.
Qed.
End Frames.

(* --------------------------------------------------------------------- *)
(** ** The layout of a store                                              *)
(* --------------------------------------------------------------------- *)

(** A name that stays inside the directory it is looked up in. *)
Definition safe_name (n : string) : Prop :=
  n <> "" /\ n <> "." /\ n <> ".." /\ str_all not_slash n = true.

(** The files of a generation directory, with their temporaries. *)
Definition gen_names : list string :=
  [kManifestName; kChainFileName; kDeviceCertFileName;
   (kManifestName ++ ".tmp")%string; (kChainFileName ++ ".tmp")%string;
   (kDeviceCertFileName ++ ".tmp")%string].

Definition gen_dir (root gid : string) : string := dirJoin (generations_dir root) gid.
Definition gfile (root gid n : string) : string := dirJoin (gen_dir root gid) n.

(** The paths of the store that differ denote different files: no links lead from
    one of them to another. *)
Record PathsApart {F : Type} `{FileSystem F} (root : string) : Prop := {
  pa_gen g1 n1 g2 n2 :
    safe_name g1 -> safe_name g2 -> n1 ∈ gen_names -> n2 ∈ gen_names ->
    fs_file (gfile root g1 n1) = fs_file (gfile root g2 n2) -> g1 = g2 /\ n1 = n2;
  pa_current g n :
    safe_name g -> n ∈ gen_names ->
    fs_file (gfile root g n) <> fs_file (current_path root) /\
    fs_file (gfile root g n) <> fs_file (current_path root ++ ".tmp");
  pa_tmp : fs_file (current_path root) <> fs_file (current_path root ++ ".tmp")
}.

Section Disk.
Context {F : Type} `{FS : FileSystem F} `{FSL : !FileSystemLaws F} `{Hash : Sha256}
  `{J : Json} `{JL : !JsonLaws J} (root : string) (PA : PathsApart root).

(** The files of a generation, except those of the directory [gid]. *)
Definition gen_paths (gid : string) : list string := gfile root gid <$> gen_names.
Definition current_paths : list string := [current_path root; (current_path root ++ ".tmp")%string].

Lemma newGenerationId_safe f gid f' : newGenerationId f = (gid, f') -> safe_name gid.
Proof.
  intros E. destruct (newGenerationId_gid _ _ _ E) as [Hc Hne].
  unfold newGenerationId in E. destruct (fs_RAND_bytes 8 f) as [r f1].
  destruct (fs_clock_ms f1) as [now f2]. injection E as <- _.
  repeat split; try done. by apply gid_char_safe.
Qed.

(** What [writeGeneration] leaves in the directory of [g], created at [t]. *)
Definition written (f : F) (g : Generation) : Prop :=
  let file := gfile root (cg_generation_id g) in
  (exists t, fs_read (file kManifestName) f = json_dump (manifest_json g t)) /\
  fs_read (file kChainFileName) f = cg_device_cert_chain_pem g /\
  fs_read (file kDeviceCertFileName) f = json_dump (cg_device_cert g).

(** A generation [commit] builds: its sizes are those of C++ strings. *)
Record gen_ok (g : Generation) : Prop := {
  go_safe : safe_name (cg_generation_id g);
  go_chars : str_all gid_char (cg_generation_id g) = true;
  go_dir : cg_dir g = gen_dir root (cg_generation_id g);
  go_version : is_u64 (cg_version g);
  go_chain : cg_device_cert_chain_pem g <> "";
  go_chain_size : str_size (cg_device_cert_chain_pem g) < 2 ^ 64;
  go_dc_size : str_size (json_dump (cg_device_cert g)) < 2 ^ 64
}.

Definition base_names : list string := [kManifestName; kChainFileName; kDeviceCertFileName].

Lemma in_gen_names n : n ∈ base_names -> n ∈ gen_names /\ (n ++ ".tmp")%string ∈ gen_names.
Proof. unfold base_names, gen_names. set_solver. Qed.

Lemma base_name_tmp n n' : n ∈ base_names -> n' ∈ base_names -> n <> (n' ++ ".tmp")%string.
Proof.
  intros Hn Hn'. assert (Forall (fun n => Forall (fun n' => n <> (n' ++ ".tmp")%string) base_names) base_names)
    as H by (repeat constructor; done).
  rewrite Forall_forall in H. specialize (H n Hn). rewrite Forall_forall in H. auto.
Qed.

(** Changes elsewhere keep a generation as it was written. *)
Lemma touches_written ps f f' g :
  (forall n p, n ∈ gen_names -> p ∈ ps -> fs_file (gfile root (cg_generation_id g) n) <> fs_file p) ->
  touches ps f f' -> written f g -> written f' g.
Proof.
  intros Hp Ht ((t & Hm) & Hc & Hd).
  repeat split; [exists t| |]; rewrite Ht; try done;
    intros p Hin; apply Hp; try done; unfold gen_names; set_solver.
Qed.

Lemma other_generation gid g f f' :
  safe_name gid -> gen_ok g -> gid <> cg_generation_id g ->
  touches (gen_paths gid) f f' -> written f g -> written f' g.
Proof.
  intros Hs Hg Hne. apply touches_written. intros n p Hn (n' & -> & Hn')%list_elem_of_fmap E.
  apply (pa_gen root PA) in E as [? _]; auto using go_safe.
Qed.

Lemma current_generation g f f' :
  gen_ok g -> touches current_paths f f' -> written f g -> written f' g.
Proof.
  intros Hg. apply touches_written. unfold current_paths. intros n p Hn Hp.
  destruct (pa_current root PA (cg_generation_id g) n) as [H1 H2]; [by apply go_safe|done|].
  apply elem_of_cons in Hp as [->|Hp]; [done|]. by apply list_elem_of_singleton in Hp as ->.
Qed.

Lemma generation_current gid f f' :
  safe_name gid -> touches (gen_paths gid) f f' ->
  fs_read (current_path root) f' = fs_read (current_path root) f.
Proof.
  intros Hs Ht. apply Ht. intros p (n & -> & Hn)%list_elem_of_fmap E.
  by apply (pa_current root PA gid n) in Hs as [? _].
Qed.

Lemma nothing_written f f' g :
  (forall q, fs_read q f' = fs_read q f) -> written f g -> written f' g.
Proof. intros H ((t & Hm) & Hc & Hd). repeat split; [exists t|..]; by rewrite H. Qed.

(* --------------------------------------------------------------------- *)
(** ** Writing and loading a generation                                   *)
(* --------------------------------------------------------------------- *)

Lemma gen_name_ne n1 n2 gid :
  safe_name gid -> n1 ∈ gen_names -> n2 ∈ gen_names -> n1 <> n2 ->
  fs_file (gfile root gid n1) <> fs_file (gfile root gid n2).
Proof. intros Hs H1 H2 Hne E. by apply (pa_gen root PA) in E as [_ ?]. Qed.

(** One file of a generation: the others keep their content. *)
Lemma write_gen_file gid n c f ok f' :
  safe_name gid -> n ∈ base_names ->
  writeFileAtomic (gfile root gid n) c f = (ok, f') ->
  touches (gen_paths gid) f f' /\
  (forall n', n' ∈ base_names -> n' <> n ->
    fs_read (gfile root gid n') f' = fs_read (gfile root gid n') f) /\
  (ok = true -> fs_read (gfile root gid n) f' = c).
Proof.
  intros Hs Hn E. destruct (in_gen_names _ Hn) as [H1 H2].
  pose proof (gen_name_ne n (n ++ ".tmp") gid Hs H1 H2 (base_name_tmp n n Hn Hn)) as Hd.
  assert (Hj : (gfile root gid n ++ ".tmp")%string = gfile root gid (n ++ ".tmp")) by apply dirJoin_app.
  apply writeFileAtomic_spec in E as [Ht Hr]; [|by rewrite Hj]. rewrite Hj in Ht. split_and!.
  - eapply touches_weaken; [|done]. intros p Hp. apply list_elem_of_fmap.
    apply elem_of_cons in Hp as [->|Hp]; [by eexists|].
    apply list_elem_of_singleton in Hp as ->. by eexists.
  - intros n' Hn' Hne. apply Ht. intros p Hp. destruct (in_gen_names _ Hn') as [H3 _].
    apply elem_of_cons in Hp as [->|Hp]; [by apply gen_name_ne|].
    apply list_elem_of_singleton in Hp as ->. apply gen_name_ne; try done. by apply base_name_tmp.
  - by intros ->.
Qed.

Lemma writeGeneration_spec g f ok f' :
  gen_ok g -> writeGeneration g f = (ok, f') ->
  touches (gen_paths (cg_generation_id g)) f f' /\ (ok = true -> written f' g).
Proof.
  intros Hg. pose proof (go_safe _ Hg) as Hs. unfold writeGeneration. rewrite (go_dir _ Hg).
  destruct (makeDirs _ f) as [[] f1] eqn:E1; cbn [negb];
    pose proof (touches_nil (gen_paths (cg_generation_id g)) _ _ (fun q => makeDirs_read _ _ _ _ q E1)) as T1;
    [|intros [= <- <-]; by split].
  destruct (writeFileAtomic _ (cg_device_cert_chain_pem g) f1) as [ok2 f2] eqn:E2.
  apply write_gen_file in E2 as (T2 & _ & R2); [|done|set_solver].
  pose proof (touches_trans _ _ _ _ T1 T2) as T12.
  destruct ok2; cbn [negb]; [|intros [= <- <-]; by split]. specialize (R2 eq_refl).
  destruct (writeFileAtomic _ (json_dump (cg_device_cert g)) f2) as [ok3 f3] eqn:E3.
  apply write_gen_file in E3 as (T3 & K3 & R3); [|done|set_solver].
  pose proof (touches_trans _ _ _ _ T12 T3) as T13.
  destruct ok3; cbn [negb]; [|intros [= <- <-]; by split]. specialize (R3 eq_refl).
  destruct (fs_clock_ms f3) as [now f4] eqn:E4.
  pose proof (touches_trans _ _ _ _ T13
    (touches_nil _ _ _ (fun q => fs_clock_read _ _ _ q E4))) as T14.
  destruct (writeFileAtomic _ (json_dump (manifest_json g (now / 1000))) f4) as [ok5 f5] eqn:E5.
  apply write_gen_file in E5 as (T5 & K5 & R5); [|done|set_solver].
  pose proof (touches_trans _ _ _ _ T14 T5) as T15.
  destruct ok5; cbn [negb]; [|intros [= <- <-]; by split]. specialize (R5 eq_refl).
  intros E6. pose proof (fun q => fs_fsync_read _ _ _ _ q E6) as R6. split.
  - eapply touches_trans; [exact T15|]. by apply touches_nil.
  - intros _. eapply nothing_written; [exact R6|].
    repeat split; [eexists; exact R5|..]; rewrite K5 by (done || set_solver);
      rewrite (fs_clock_read _ _ _ _ E4); [|done]. by rewrite K3 by (done || set_solver).
Qed.

Definition file_meta (content : string) : json :=
  json_of_fields [("length"%string, json_int (str_size content));
                  ("sha256"%string, json_string (sha256Hex content))].

(** The two entries of the file list, in whichever order the library gives them. *)
Lemma files_items chain dc :
  json_items (files_json chain dc)
    = [(kChainFileName, file_meta chain); (kDeviceCertFileName, file_meta dc)] \/
  json_items (files_json chain dc)
    = [(kDeviceCertFileName, file_meta dc); (kChainFileName, file_meta chain)].
Proof.
  apply Permutation_length_2_inv. symmetry. apply json_items_fields.
  repeat constructor; set_solver.
Qed.

(** The check of one file that has the content its entry describes. *)
Lemma check_files_step gid f name content files chain dc :
  fs_read (gfile root gid name) f = content -> str_size content < 2 ^ 64 ->
  check_files (gen_dir root gid) f ((name, file_meta content) :: files) chain dc =
    if String.eqb name kChainFileName then check_files (gen_dir root gid) f files content dc
    else if String.eqb name kDeviceCertFileName then
      match json_parse content with
      | Some j => check_files (gen_dir root gid) f files chain (Some j)
      | None => Some None
      end
    else check_files (gen_dir root gid) f files chain dc.
Proof.
  intros Hr Hs. cbn [check_files]. unfold file_meta. rewrite !json_of_fields_get.
  assert (0 <= str_size content) by (unfold str_size; lia).
  cbn [field_lookup String.eqb Ascii.eqb Bool.eqb].
  rewrite as_int_int, as_string_string by (left; unfold is_u64; lia).
  fold (gfile root gid name). rewrite Hr, wrapu_small, Z.eqb_refl, String.eqb_refl by lia. done.
Qed.

(** A generation that was written is loaded, if its archive is an object; the load
    never throws on it. *)
Lemma loadGeneration_written f g :
  gen_ok g -> written f g ->
  loadGeneration root (cg_generation_id g) f =
    if json_is_object (cg_device_cert g) then Loaded g else Invalid.
Proof.
  intros Hg ((t & Hm) & Hc & Hd). unfold loadGeneration. fold (gen_dir root (cg_generation_id g)).
  fold (gfile root (cg_generation_id g) kManifestName). rewrite Hm.
  destruct (str_empty (json_dump (manifest_json g t))) eqn:Ee.
  { apply str_empty_true in Ee. pose proof (json_parse_dump (manifest_json g t)) as Hp.
    by rewrite Ee, json_parse_empty in Hp. }
  rewrite json_parse_dump. unfold manifest_json. rewrite json_of_fields_get.
  erewrite value_string_fields by reflexivity. rewrite String.eqb_refl. cbn [negb].
  erewrite value_string_fields by reflexivity.
  erewrite value_u64_fields by (reflexivity || apply (go_version _ Hg)).
  erewrite value_string_fields by reflexivity.
  cbn [field_lookup String.eqb Ascii.eqb Bool.eqb].
  unfold files_json at 1. rewrite json_of_fields_object. cbn [negb].
  assert (Hk : check_files (gen_dir root (cg_generation_id g)) f
      (json_items (files_json (cg_device_cert_chain_pem g) (json_dump (cg_device_cert g)))) "" None
    = Some (Some (cg_device_cert_chain_pem g, Some (cg_device_cert g)))).
  { destruct (files_items (cg_device_cert_chain_pem g) (json_dump (cg_device_cert g))) as [-> | ->];
      repeat (rewrite check_files_step by first [done | apply go_chain_size, Hg | apply go_dc_size, Hg];
        cbn [String.eqb Ascii.eqb Bool.eqb kChainFileName kDeviceCertFileName];
        rewrite ?json_parse_dump); done. }
  rewrite Hk. pose proof (go_chain _ Hg) as Hne. apply str_empty_false in Hne. rewrite Hne. cbn [orb].
  destruct (json_is_object (cg_device_cert g)); [|done]. cbn [negb].
  pose proof (go_dir _ Hg) as Hdir. destruct g; cbn in *. by subst.
Qed.
End Disk.
