(* ===== verification/CertStoreProps.v ===== *)
(** * CertificateStore: atomic commits, recovery, and what survives a crash.
    The invariant [stored] describes the disk alone; every operation keeps it,
    whichever of its calls fail. *)
From S2P Require Import Prelude Errors Canonical Json CertStore CertStoreFacts.
From Stdlib Require Import Ascii.

Section Commit.
Context {F : Type} `{FS : FileSystem F} `{FSL : !FileSystemLaws F} `{Hash : Sha256}
  `{J : Json} `{JL : !JsonLaws J}.

(** [CURRENT] names no generation, or exactly the generation [g], whose directory
    holds the three files [writeGeneration] wrote for [g]. *)
Definition stored (root : string) (f : F) (og : option Generation) : Prop :=
  match og with
  | None => readCurrentPointer root f = None
  | Some g =>
      gen_ok root g /\ json_is_object (cg_device_cert g) = true /\ written root f g /\
      fs_read (current_path root) f = (cg_generation_id g ++ String "010"%char "")%string
  end.

(** The generation holds the payload of the commit. *)
Definition carries (c : CertificateCommit) (g : Generation) : Prop :=
  cg_device_cert_chain_pem g = cc_device_cert_chain_pem c /\
  json_parse (cc_device_cert_json c) = Some (cg_device_cert g) /\
  cg_provision_state g = cc_provision_state c /\ cg_version g = cc_version c.

(** A payload of C++ values. *)
Definition commit_ok (c : CertificateCommit) : Prop :=
  is_u64 (cc_version c) /\ str_size (cc_device_cert_chain_pem c) < 2 ^ 64 /\
  (forall dc, json_parse (cc_device_cert_json c) = Some dc -> str_size (json_dump dc) < 2 ^ 64).

(** The id the next commit draws is not the one [CURRENT] holds. *)
Definition fresh_id (s : CertificateStore (F:=F)) : Prop :=
  readCurrentPointer (ct_root s) (ct_fs s) <> Some (newGenerationId (ct_fs s)).1.

Section Root.
Context (root : string) (PA : PathsApart root).

Lemma stored_pointer f g : stored root f (Some g) -> readCurrentPointer root f = Some (cg_generation_id g).
Proof.
  intros (Hg & _ & _ & Hc). unfold readCurrentPointer. rewrite Hc, first_line_gid by apply (go_chars _ _ Hg).
  destruct (go_safe _ _ Hg) as [Hne _]. apply str_empty_false in Hne. by rewrite Hne.
Qed.

Lemma stored_load f g : stored root f (Some g) -> loadGeneration root (cg_generation_id g) f = Loaded g.
Proof. intros (Hg & Ho & Hw & _). by rewrite (loadGeneration_written root PA f g), Ho. Qed.

Lemma stored_same f f' og : (forall q, fs_read q f' = fs_read q f) -> stored root f og -> stored root f' og.
Proof.
  intros H. destruct og as [g|]; cbn.
  - intros (Hg & Ho & Hw & Hc). rewrite H. split_and!; [done|done|by apply (nothing_written root f f' g)|done].
  - unfold readCurrentPointer. by rewrite H.
Qed.

(** Work on another generation's directory. *)
Lemma stored_touches gid f f' og :
  safe_name gid -> readCurrentPointer root f <> Some gid ->
  touches (gen_paths root gid) f f' -> stored root f og -> stored root f' og.
Proof.
  intros Hs Hn Ht Hst. pose proof (generation_current root PA gid f f' Hs Ht) as Hcur.
  destruct og as [g|]; cbn.
  - rewrite (stored_pointer f g Hst) in Hn. destruct Hst as (Hg & Ho & Hw & Hc).
    split_and!; [done|done| |by rewrite Hcur].
    eapply (other_generation root PA gid); [done..| |exact Ht|done]. congruence.
  - unfold readCurrentPointer. by rewrite Hcur.
Qed.

Lemma remove_generation_touches gid f :
  touches (gen_paths root gid) f (remove_generation (gen_dir root gid) f).
Proof.
  unfold remove_generation. intros q Hq. rewrite fs_rmdir_read.
  rewrite !fs_remove_frame; [done|..]; apply Hq, list_elem_of_fmap; eexists;
    (split; [reflexivity|]); unfold gen_names; set_solver.
Qed.

Lemma remove_candidate_touches gid f :
  touches (gen_paths root gid) f (remove_candidate (gen_dir root gid) f).
Proof.
  unfold remove_candidate. intros q Hq. rewrite fs_rmdir_read.
  rewrite !fs_remove_frame; [done|..]; apply Hq, list_elem_of_fmap; eexists;
    (split; [reflexivity|]); unfold gen_names; set_solver.
Qed.

(** The cleanup of orphans keeps what [CURRENT] names. *)
Lemma cleanup_loop names a b f g :
  (forall n, n ∈ names -> n <> "" /\ str_all not_slash n = true) ->
  stored root f (Some g) -> cg_generation_id g = a ->
  stored root (foldl (fun f name =>
        if String.eqb name "." || String.eqb name ".." then f
        else if String.eqb name a || String.eqb name b then f
        else
          let full := dirJoin (generations_dir root) name in
          if fs_isdir full f then remove_generation full f else f) f names) (Some g).
Proof.
  intros Hn Hst Ha. revert f Hst. induction names as [|n names IH]; intros f Hst; [done|].
  cbn [foldl]. apply IH; [intros; apply Hn; by right|].
  destruct (String.eqb_spec n "."), (String.eqb_spec n ".."); cbn [orb]; try done.
  destruct (String.eqb_spec n a), (String.eqb_spec n b); cbn [orb]; try done.
  cbn zeta. destruct (fs_isdir _ f); [|done]. destruct (Hn n) as [Hne Hc]; [by left|].
  eapply stored_touches; [by repeat split| |apply remove_generation_touches|done].
  rewrite (stored_pointer f g Hst). congruence.
Qed.

Lemma cleanupOrphans_stored b f g :
  stored root f (Some g) -> stored root (cleanupOrphans root (cg_generation_id g) b f) (Some g).
Proof.
  intros Hst. unfold cleanupOrphans. destruct (fs_readdir _ f) as [names|] eqn:E; [|done].
  apply cleanup_loop; [|done|done]. intros n Hn. by eapply fs_readdir_names.
Qed.

(** The cleanup without a generation to keep leaves [CURRENT] as it is. *)
Lemma cleanup_current a b f :
  fs_read (current_path root) (cleanupOrphans root a b f) = fs_read (current_path root) f.
Proof.
  unfold cleanupOrphans. destruct (fs_readdir _ f) as [names|] eqn:E; [|done].
  assert (Hn : forall n, n ∈ names -> n <> "" /\ str_all not_slash n = true)
    by (intros; by eapply fs_readdir_names).
  clear E. revert f. induction names as [|n names IH]; intros f; [done|].
  cbn [foldl]. rewrite IH by (intros; apply Hn; by right).
  destruct (String.eqb_spec n "."), (String.eqb_spec n ".."); cbn [orb]; try done.
  case_match; [done|]. cbn zeta. destruct (fs_isdir _ f); [|done].
  destruct (Hn n) as [Hne Hc]; [by left|].
  eapply generation_current; [done| |apply remove_generation_touches]. by repeat split.
Qed.

(** The switch: [CURRENT] is the old one or the new one, nothing in between. *)
Lemma switchCurrent_spec gid f ok f' :
  switchCurrent root gid f = (ok, f') ->
  touches (current_paths root) f f' /\
  (fs_read (current_path root) f' = (gid ++ String "010"%char "")%string \/
   ok = false /\ fs_read (current_path root) f' = fs_read (current_path root) f).
Proof.
  unfold switchCurrent. destruct (writeFileAtomic _ _ f) as [ok1 f1] eqn:E1.
  apply writeFileAtomic_spec in E1 as [T1 R1]; [|apply (pa_tmp root PA)].
  destruct ok1; cbn [negb].
  - intros E2. pose proof (fun q => fs_fsync_read _ _ _ _ q E2) as R2. split.
    + eapply touches_trans; [exact T1|]. by apply touches_nil.
    + left. by rewrite R2.
  - intros [= <- <-]. split; [done|]. by right.
Qed.

Lemma stored_switch g f ok f' og :
  gen_ok root g -> json_is_object (cg_device_cert g) = true -> written root f g ->
  stored root f og -> switchCurrent root (cg_generation_id g) f = (ok, f') ->
  stored root f' (Some g) \/ ok = false /\ stored root f' og.
Proof.
  intros Hg Ho Hw Hst E. destruct (switchCurrent_spec _ _ _ _ E) as [Ht [Hc | [-> Hc]]].
  - left. split_and!; [done|done| |done]. by eapply current_generation.
  - right. split; [done|]. destruct og as [g0|]; cbn.
    + destruct Hst as (Hg0 & Ho0 & Hw0 & Hc0). split_and!; [done|done| |by rewrite Hc].
      by eapply current_generation.
    + unfold readCurrentPointer. by rewrite Hc.
Qed.
End Root.

(** What a commit may come to: success with the new generation on the disk and in
    memory; a failure that leaves the memory and the disk; or a failure reported
    after [CURRENT] was switched. *)
Inductive commit_outcome (c : CertificateCommit) (og : option Generation) (s s' : CertificateStore (F:=F)) :
    option ErrorCode -> Prop :=
  | outcome_committed g :
      carries c g -> ct_current s' = Some g -> stored (ct_root s) (ct_fs s') (Some g) ->
      cg_previous_generation g = from_option cg_generation_id "" (ct_current s) ->
      commit_outcome c og s s' (Some SUCCESS)
  | outcome_refused e :
      e <> SUCCESS -> ct_current s' = ct_current s -> stored (ct_root s) (ct_fs s') og ->
      commit_outcome c og s s' (Some e)
  | outcome_in_doubt g :
      carries c g -> ct_current s' = ct_current s -> stored (ct_root s) (ct_fs s') (Some g) ->
      commit_outcome c og s s' (Some STORAGE_WRITE_FAILED).

Lemma new_generation_ok gid c dc (s : CertificateStore (F:=F)) f0 f1 :
  newGenerationId f0 = (gid, f1) -> commit_ok c -> cc_device_cert_chain_pem c <> "" ->
  json_parse (cc_device_cert_json c) = Some dc ->
  gen_ok (ct_root s) (new_generation gid c dc s) /\ carries c (new_generation gid c dc s).
Proof.
  intros Eg (Hv & Hc & Hd) Hne Hj. split; [|done].
  split; cbn; auto; [by eapply newGenerationId_safe|by eapply newGenerationId_gid].
Qed.

Lemma commit_cases c (s : CertificateStore (F:=F)) r s' og :
  PathsApart (ct_root s) -> commit_ok c -> fresh_id s ->
  stored (ct_root s) (ct_fs s) og -> commit c s = (r, s') ->
  commit_outcome c og s s' r /\ ct_root s' = ct_root s /\ ct_recovered s' = ct_recovered s.
Proof.
  intros PA Hc Hf Hst. unfold commit, fresh_id in *. set (root := ct_root s) in *.
  assert (Hkeep : forall e f, e <> SUCCESS -> stored root f og ->
    commit_outcome c og s (with_fs f s) (Some e) /\ ct_root (with_fs f s) = root /\
    ct_recovered (with_fs f s) = ct_recovered s) by (intros; by repeat constructor).
  destruct (ct_recovered s) eqn:Er; cbn [negb];
    [|intros [= <- <-]; split; [by constructor|done]].
  destruct (str_empty (cc_device_cert_chain_pem c)) eqn:Ee;
    [intros [= <- <-]; split; [by constructor|done]|].
  destruct (newGenerationId (ct_fs s)) as [gid f1] eqn:Eg. cbn [fst] in Hf.
  pose proof (fun q => newGenerationId_read _ _ _ q Eg) as R1.
  pose proof (stored_same root _ _ og R1 Hst) as Hst1.
  assert (Hf1 : readCurrentPointer root f1 <> Some gid) by (unfold readCurrentPointer in *; by rewrite R1).
  destruct (json_parse (cc_device_cert_json c)) as [dc|] eqn:Ej; [|intros [= <- <-]; by apply Hkeep].
  destruct (new_generation_ok gid c dc s _ _ Eg Hc ltac:(by apply str_empty_false) Ej) as [Hok Hcar].
  set (g := new_generation gid c dc s) in *.
  destruct (writeGeneration g f1) as [ok2 f2] eqn:E2.
  destruct (writeGeneration_spec root PA g _ _ _ Hok E2) as [T2 W2].
  assert (Hst2 : stored root f2 og) by (eapply stored_touches; [done|apply (go_safe _ _ Hok)|exact Hf1|done..]).
  destruct ok2; cbn [negb].
  2:{ intros [= <- <-]. apply Hkeep; [done|]. eapply stored_touches; [done|apply (go_safe _ _ Hok)| |
        apply (remove_candidate_touches root PA gid)|done].
      unfold readCurrentPointer in *. by rewrite (generation_current root PA gid f1 f2 (go_safe _ _ Hok) T2). }
  specialize (W2 eq_refl). pose proof (loadGeneration_written root PA f2 g Hok W2) as Hload.
  change (cg_generation_id g) with gid in Hload. rewrite Hload.
  destruct (json_is_object (cg_device_cert g)) eqn:Eo; [|intros [= <- <-]; by apply Hkeep].
  destruct (switchCurrent root gid f2) as [ok3 f3] eqn:E3.
  destruct (stored_switch root PA g f2 ok3 f3 og Hok Eo W2 Hst2 E3) as [Hst3 | [-> Hst3]].
  - destruct ok3; cbn [negb]; intros [= <- <-]; (split; [|done]); [|by econstructor].
    apply (outcome_committed c og s _ g); try done. cbn. by apply (cleanupOrphans_stored root PA).
  - intros [= <- <-]. by apply Hkeep.
Qed.
End Commit.

(* --------------------------------------------------------------------- *)
(** ** Recovery and histories                                             *)
(* --------------------------------------------------------------------- *)

Section Recovery.
Context {F : Type} `{FS : FileSystem F} `{FSL : !FileSystemLaws F} `{Hash : Sha256}
  `{J : Json} `{JL : !JsonLaws J} (root : string) (PA : PathsApart root).

(** Starting on a disk that holds [og] adopts [og], whatever the fuel; without the
    directory it fails and changes nothing. *)
Lemma open_stored fuel (s : CertificateStore (F:=F)) og res s' :
  ct_root s = root -> stored root (ct_fs s) og -> openAndRecover fuel s = (res, s') ->
  stored root (ct_fs s') og /\ ct_root s' = root /\
  ((makeDirs (generations_dir root) (ct_fs s)).1 = true ->
     res = OpenReturns true /\ ct_current s' = og).
Proof.
  intros Hr Hst. unfold openAndRecover. rewrite Hr.
  destruct (makeDirs _ (ct_fs s)) as [ok f1] eqn:E1. cbn [fst].
  pose proof (stored_same root (ct_fs s) f1 og (fun q => makeDirs_read _ _ _ _ q E1) Hst) as Hst1.
  destruct ok; cbn [negb]; [|by intros [= <- <-]].
  destruct og as [g|].
  - rewrite (stored_pointer root f1 g Hst1), (stored_load root PA f1 g Hst1). unfold adopt. cbn. rewrite Hr.
    intros [= <- <-]. cbn. split; [|done]. by apply (cleanupOrphans_stored root PA).
  - cbn in Hst1. rewrite Hst1. intros [= <- <-]. split; [|done]. cbn. unfold readCurrentPointer in *.
    by rewrite (cleanup_current root PA).
Qed.

(** What happened to a store: commits with their results, and starts of a process. *)
Inductive event :=
  | ECommit (c : CertificateCommit) (r : option ErrorCode)
  | ERestart.

(** A history of the store: any calls of [commit], whatever fails in them, with
    new processes started on the same disk at any time. *)
Inductive runs (f0 : F) : list event -> CertificateStore (F:=F) -> Prop :=
  | runs_start : runs f0 [] (cert_store_new root f0)
  | runs_commit h s c r s' :
      runs f0 h s -> commit_ok c -> fresh_id s -> commit c s = (r, s') ->
      runs f0 (h ++ [ECommit c r]) s'
  | runs_restart h s fuel res s' :
      runs f0 h s -> openAndRecover fuel (cert_store_new root (fs_reboot (ct_fs s))) = (res, s') ->
      runs f0 (h ++ [ERestart]) s'.

(** The generation a history leaves: that of its last successful commit, or of a
    later one that reported a failed write. *)
Definition surviving (h : list event) (og : option Generation) : Prop :=
  match og with
  | None => forall c, ECommit c (Some SUCCESS) ∉ h
  | Some g => exists h1 c r h2,
      h = h1 ++ ECommit c r :: h2 /\ carries c g /\
      (r = Some SUCCESS \/ r = Some STORAGE_WRITE_FAILED) /\
      forall c', ECommit c' (Some SUCCESS) ∉ h2
  end.

Lemma surviving_snoc h e og :
  surviving h og -> (forall c, e <> ECommit c (Some SUCCESS)) -> surviving (h ++ [e]) og.
Proof.
  intros Hs He. destruct og as [g|]; cbn in *.
  - destruct Hs as (h1 & c & r & h2 & -> & Hc & Hr & Hn). exists h1, c, r, (h2 ++ [e]).
    split_and!; [by rewrite <- app_assoc|done|done|]. intros c' [?|Hin]%elem_of_app; [by apply (Hn c')|].
    apply list_elem_of_singleton in Hin as ?. by apply (He c').
  - intros c [?|Hin]%elem_of_app; [by apply (Hs c)|].
    apply list_elem_of_singleton in Hin as ?. by apply (He c).
Qed.

Lemma surviving_new h c r g :
  carries c g -> r = Some SUCCESS \/ r = Some STORAGE_WRITE_FAILED ->
  surviving (h ++ [ECommit c r]) (Some g).
Proof. intros Hc Hr. exists h, c, r, []. split_and!; try done. intros ? ?%not_elem_of_nil. done. Qed.

Lemma runs_stored f0 h s :
  readCurrentPointer root f0 = None -> runs f0 h s ->
  ct_root s = root /\ exists og, stored root (ct_fs s) og /\ surviving h og.
Proof.
  intros H0. induction 1 as [|h s c r s' _ [Hr (og & Hst & Hsv)] Hok Hf E
    |h s fuel res s' _ [Hr (og & Hst & Hsv)] E].
  - split; [done|]. exists None. split; [done|]. intros c Hin. by apply not_elem_of_nil in Hin.
  - rewrite <- Hr in PA, Hst. destruct (commit_cases c s r s' og PA Hok Hf Hst E) as (Ho & Hr' & _).
    rewrite Hr in *. split; [done|].
    destruct Ho as [g Hc _ Hg _|e Hne _ Hg|g Hc _ Hg]; rewrite Hr in Hg.
    + exists (Some g). split; [done|]. apply surviving_new; auto.
    + exists og. split; [done|]. apply surviving_snoc; [done|]. intros c' [= _ ?]. done.
    + exists (Some g). split; [done|]. apply surviving_new; auto.
  - apply (open_stored _ _ og) in E as (Hst' & Hr' & _); [|done|].
    + split; [done|]. exists og. split; [done|]. by apply surviving_snoc.
    + cbn. eapply stored_same; [|exact Hst]. intros q. apply fs_reboot_read.
Qed.

(** The generations on the way back from a pointer: each invalid one leads to the
    one its manifest names before it. *)
Inductive nearest (f : F) : string -> Generation -> Prop :=
  | nearest_here gid g : loadGeneration root gid f = Loaded g -> nearest f gid g
  | nearest_back gid g :
      loadGeneration root gid f = Invalid -> manifest_previous root gid f <> "" ->
      nearest f (manifest_previous root gid f) g -> nearest f gid g.

Lemma walk_back_nearest f prev g :
  (exists fuel, walk_back fuel root prev f = WalkFound g) <-> prev <> "" /\ nearest f prev g.
Proof.
  split.
  - intros [fuel H]. revert prev H. induction fuel as [|fuel IH]; intros prev H; cbn in H.
    { by destruct (str_empty prev). }
    destruct (str_empty prev) eqn:Ee; [done|]. apply str_empty_false in Ee. split; [done|].
    destruct (loadGeneration root prev f) eqn:El; [|apply IH in H as [? ?]|done].
    + injection H as <-. by apply nearest_here.
    + by apply nearest_back.
  - intros [Hne Hn]. induction Hn as [gid g El|gid g El Hp _ IH].
    + exists 1%nat. cbn. apply str_empty_false in Hne. by rewrite Hne, El.
    + destruct (IH Hp) as [fuel Hf]. exists (S fuel). cbn. apply str_empty_false in Hne. by rewrite Hne, El.
Qed.
End Recovery.

(* --------------------------------------------------------------------- *)
(** ** A disk to compute with                                             *)
(* --------------------------------------------------------------------- *)

Module Disk.
(** What becomes of the next call: it works, writes one character, fails, or the
    process dies in it and every later call fails until a new one starts. *)
Inductive fate := Works | Short | Fails | Dies.
Record disk := mkDisk {
  dk_files : gmap string string;
  dk_dirs : list string;
  dk_fates : list fate;
  dk_dead : bool;
  dk_tick : nat
}.

(** Draw the fate of a call. *)
Definition draw (d : disk) : fate * disk :=
  if dk_dead d then (Fails, d)
  else match dk_fates d with
       | [] => (Works, d)
       | Dies :: l => (Fails, mkDisk (dk_files d) (dk_dirs d) l true (dk_tick d))
       | x :: l => (x, mkDisk (dk_files d) (dk_dirs d) l false (dk_tick d))
       end.
Definition set_files (m : gmap string string) (d : disk) : disk :=
  mkDisk m (dk_dirs d) (dk_fates d) (dk_dead d) (dk_tick d).
Definition set_dirs (l : list string) (d : disk) : disk :=
  mkDisk (dk_files d) l (dk_fates d) (dk_dead d) (dk_tick d).
Definition tick (d : disk) : disk :=
  mkDisk (dk_files d) (dk_dirs d) (dk_fates d) (dk_dead d) (S (dk_tick d)).
Definition content (p : string) (d : disk) : string := default "" (dk_files d !! p).

(** The rest of [p] after the prefix [d]. *)
Fixpoint strip (d p : string) : option string :=
  match d, p with
  | EmptyString, _ => Some p
  | String a d, String b p => if Ascii.eqb a b then strip d p else None
  | _, _ => None
  end.
Definition one_name (n : string) : bool := negb (str_empty n) && str_all not_slash n.

#[export] Instance disk_fs : FileSystem disk := {
  fs_file p := p;
  fs_read p d := content p d;
  fs_isdir p d := bool_decide (p ∈ dk_dirs d);
  fs_readdir p d := Some (filter (fun n => one_name n = true) (omap (strip (p ++ "/")) (dk_dirs d)));
  fs_creat p d :=
    let '(x, d) := draw d in
    match x with Fails => (false, d) | _ => (true, set_files (<[p := ""]> (dk_files d)) d) end;
  fs_write p c d :=
    let '(x, d) := draw d in
    match x with
    | Fails => (None, d)
    | Short => (Some 1%nat, set_files (<[p := (content p d ++ str_take 1 c)%string]> (dk_files d)) d)
    | _ => (Some (String.length c), set_files (<[p := (content p d ++ c)%string]> (dk_files d)) d)
    end;
  fs_fsync p d := let '(x, d) := draw d in (match x with Fails => false | _ => true end, d);
  fs_rename a b d :=
    let '(x, d) := draw d in
    match x with
    | Fails => (false, d)
    | _ => (true, set_files (<[b := content a d]> (if String.eqb a b then dk_files d else delete a (dk_files d))) d)
    end;
  fs_remove p d := if dk_dead d then d else set_files (delete p (dk_files d)) d;
  fs_rmdir p d := if dk_dead d then d else set_dirs (filter (fun q => q <> p) (dk_dirs d)) d;
  fs_mkdir p d := if dk_dead d || bool_decide (p ∈ dk_dirs d) then d else set_dirs (p :: dk_dirs d) d;
  fs_clock_ms d := (Z.of_nat (dk_tick d), tick d);
  fs_RAND_bytes n d := (Some (replicate n (byte_of (Z.of_nat (dk_tick d)))), tick d);
  fs_reboot d := mkDisk (dk_files d) (dk_dirs d) (dk_fates d) false (dk_tick d)
}.

Lemma draw_files d x d' : draw d = (x, d') -> dk_files d' = dk_files d.
Proof. unfold draw. repeat case_match; by intros [= _ <-]. Qed.

Lemma content_set_ne p q m d : q <> p -> content q (set_files (<[p := m]> (dk_files d)) d) = content q d.
Proof. intros. unfold content. cbn. by rewrite lookup_insert_ne. Qed.

Lemma str_take_length c : str_take (String.length c) c = c.
Proof. induction c as [|a c IH]; [done|]. exact (f_equal (String a) IH). Qed.

Ltac fs_draw H d :=
  let x := fresh "x" in let d1 := fresh "d1" in let E := fresh "E" in
  cbn in H; destruct (draw d) as [x d1] eqn:E; apply draw_files in E; destruct x; simplify_eq/=.

#[export] Instance disk_fs_laws : FileSystemLaws disk.
Proof.
  split; cbn [fs_file fs_read fs_isdir fs_readdir fs_remove fs_rmdir fs_mkdir fs_reboot disk_fs].
  - intros p d ok d' q H Hne. fs_draw H d; rewrite ?content_set_ne by done; unfold content; by rewrite E.
  - intros p d d' H. fs_draw H d; unfold content; cbn; by rewrite lookup_insert_eq.
  - intros p c d r d' q H Hne. fs_draw H d; rewrite ?content_set_ne by done; unfold content; by rewrite E.
  - intros p c d n d' H Hc. assert (0 < String.length c)%nat by (destruct c; cbn; [done|lia]).
    fs_draw H d; unfold content; cbn; rewrite lookup_insert_eq, E; cbn; split; try lia;
      by rewrite ?str_take_length.
  - intros p d ok d' q H. fs_draw H d; unfold content; by rewrite E.
  - intros a b d ok d' q H Ha Hb. fs_draw H d; unfold content; cbn; rewrite ?lookup_insert_ne by done;
      try case_match; rewrite ?lookup_delete_ne by done; by rewrite E.
  - intros a b d d' H. fs_draw H d; unfold content; cbn; rewrite lookup_insert_eq; cbn; by rewrite E.
  - intros a b d d' q H. fs_draw H d; unfold content; by rewrite E.
  - intros p d q Hne. case_match; [done|]. unfold content. cbn. by rewrite lookup_delete_ne.
  - intros p d q. by case_match.
  - intros p d q. by case_match.
  - intros d t d' q [= _ <-]. done.
  - intros n d r d' q [= _ <-]. done.
  - intros p d l n [= <-] [Hn _]%list_elem_of_filter. unfold one_name in Hn. bool_simpl.
    split; [by apply str_empty_false|done].
  - done.
Qed.

(** The slashes of a path separate its names. *)
Lemma slash_split a1 b1 a2 b2 :
  str_all not_slash a1 = true -> str_all not_slash a2 = true ->
  (a1 ++ "/" ++ b1 = a2 ++ "/" ++ b2)%string -> a1 = a2 /\ b1 = b2.
Proof.
  revert a2. induction a1 as [|c a1 IH]; intros [|c2 a2] H1 H2 E.
  - by simplify_eq/=.
  - change (String "/" b1 = String c2 (a2 ++ "/" ++ b2)) in E. injection E as <- _. done.
  - change (String c (a1 ++ "/" ++ b1) = String "/" b2) in E. injection E as -> _. done.
  - change (String c (a1 ++ "/" ++ b1) = String c2 (a2 ++ "/" ++ b2)) in E. injection E as <- E.
    cbn in H1, H2. apply andb_true_iff in H1 as [_ H1], H2 as [_ H2].
    by destruct (IH a2 H1 H2 E) as [-> ->].
Qed.

Lemma no_slash_end a b :
  b <> "" -> str_all not_slash b = true -> ends_with_slash (a ++ b) = false.
Proof.
  intros Hne Hb. induction a as [|c a IH].
  - change ("" ++ b)%string with b. clear Hne. induction b as [|c b IHb]; [done|].
    cbn in Hb. apply andb_true_iff in Hb as [Hc Hb]. unfold not_slash in Hc. cbn.
    destruct b; [by apply negb_true_iff|by apply IHb].
  - change (String c a ++ b)%string with (String c (a ++ b)). cbn.
    destruct (a ++ b)%string eqn:E; [|done]. destruct a; [|done]. by destruct b.
Qed.

Definition root : string := "/s".

Lemma gfile_eq g n : safe_name g -> gfile root g n = ("/s/generations/" ++ (g ++ "/" ++ n))%string.
Proof.
  intros (Hne & _ & _ & Hc). unfold gfile, gen_dir.
  change (dirJoin (generations_dir root) g) with ("/s/generations/" ++ g)%string.
  unfold dirJoin. rewrite no_slash_end by done. destruct (str_empty _) eqn:E.
  - by apply str_empty_true in E.
  - by rewrite str_app_assoc.
Qed.

Lemma disk_paths_apart : PathsApart (F:=disk) root.
Proof.
  split; cbn [fs_file disk_fs].
  - intros g1 n1 g2 n2 H1 H2 _ _. rewrite !gfile_eq by done. intros E.
    apply (inj (String.append _)) in E. by apply slash_split; [apply H1|apply H2|].
  - intros g n Hg _. rewrite gfile_eq by done. split; intros E; apply (f_equal (str_take 4)) in E; by vm_compute in E.
  - done.
Qed.
End Disk.

(* --------------------------------------------------------------------- *)
(** ** The properties                                                     *)
(* --------------------------------------------------------------------- *)

(** C30. A commit is all or nothing on the disk, whichever of its calls fail and wherever
    the process dies, with three outcomes. Committed: [SUCCESS], and the new generation,
    with the payload of the commit and the previous one linked, is the one [CURRENT]
    names, complete on the disk and adopted in memory. Refused: an error, and memory and
    disk keep the old generation, complete. In doubt: [STORAGE_WRITE_FAILED] with the old
    generation in memory and the new one, complete, on the disk, where the next process
    finds it; this contradicts the contract of the header, by which a failed commit
    leaves the old generation in force ([failed_commit_switches]). No exception leaves
    the function, and no mixture of generations is ever on the disk. Assumed are a disk
    that holds a whole generation or none, files of the store that no link makes one,
    and a random id for the new generation that is not the one in [CURRENT]. *)
Theorem commit_atomic {F} `{FSL : FileSystemLaws F} `{Hash : Sha256} `{J : Json} `{!JsonLaws J}
    c (s s' : CertificateStore (F:=F)) r og :
  PathsApart (ct_root s) -> commit_ok c -> fresh_id s ->
  stored (ct_root s) (ct_fs s) og -> commit c s = (r, s') ->
  commit_outcome c og s s' r.
Proof. intros PA Hc Hf Hst E. by destruct (commit_cases c s r s' og PA Hc Hf Hst E). Qed.

(** C10. Committed generations survive. Take any history of a store that began
    without [CURRENT]: commits with arbitrary failures, processes that die anywhere
    and start again. There is one generation, that of the last commit that reported
    success or of a later one that reported [STORAGE_WRITE_FAILED] (none if none
    succeeded), such that a new process that can create its directory opens
    successfully with exactly that generation, without following any chain. *)
Theorem commits_survive_crashes {F} `{FSL : FileSystemLaws F} `{Hash : Sha256} `{J : Json} `{!JsonLaws J}
    root (f0 : F) h s :
  PathsApart root -> readCurrentPointer root f0 = None -> runs root f0 h s ->
  exists og, surviving h og /\
    forall fuel, (makeDirs (generations_dir root) (fs_reboot (ct_fs s))).1 = true ->
      let '(res, s') := openAndRecover fuel (cert_store_new root (fs_reboot (ct_fs s))) in
      res = OpenReturns true /\ ct_current s' = og.
Proof.
  intros PA H0 Hr. destruct (runs_stored root PA f0 h s H0 Hr) as (_ & og & Hst & Hsv).
  exists og. split; [done|]. intros fuel Hd.
  destruct (openAndRecover fuel _) as [res s'] eqn:E.
  apply (open_stored root PA fuel _ og) in E as (_ & _ & Ho); [by apply Ho|done|].
  eapply stored_same; [|exact Hst]. intros q. apply fs_reboot_read.
Qed.

(** C31. Recovery as a search: with a [CURRENT] pointer, some run of
    [openAndRecover] adopts [g] exactly when [g] is the nearest generation that
    loads, following [previous_generation] from the pointer through generations
    whose manifest, lengths or digests do not hold. *)
Theorem recovery_finds_nearest {F} `{FS : FileSystem F} `{Hash : Sha256} `{J : Json}
    (s : CertificateStore (F:=F)) ptr g f :
  makeDirs (generations_dir (ct_root s)) (ct_fs s) = (true, f) ->
  readCurrentPointer (ct_root s) f = Some ptr ->
  (exists fuel s', openAndRecover fuel s = (OpenReturns true, s') /\ ct_current s' = Some g) <->
  nearest (ct_root s) f ptr g.
Proof.
  intros Hd Hp. unfold openAndRecover. rewrite Hd. cbn [negb]. rewrite Hp. split.
  - intros (fuel & s' & E & Hg). destruct (loadGeneration _ ptr f) as [gen| |] eqn:El; [| |done].
    + injection E as <-. injection Hg as ->. by apply nearest_here.
    + destruct (walk_back fuel _ _ f) as [gen| | |] eqn:Ew; try done.
      injection E as <-. injection Hg as ->.
      destruct (proj1 (walk_back_nearest _ _ _ _) (ex_intro _ _ Ew)). by apply nearest_back.
  - intros Hn. destruct Hn as [gid g El|gid g El Hne Hn]; rewrite El.
    + by exists 0%nat; eexists.
    + destruct (proj2 (walk_back_nearest (ct_root s) f _ _) (conj Hne Hn)) as [fuel Ew].
      exists fuel. eexists. by rewrite Ew.
Qed.

(** The walk has no bound: when an invalid generation names itself as its
    predecessor, [openAndRecover] does not return, whatever the fuel. *)
Theorem recovery_can_loop {F} `{FS : FileSystem F} `{Hash : Sha256} `{J : Json}
    (s : CertificateStore (F:=F)) gid f fuel :
  makeDirs (generations_dir (ct_root s)) (ct_fs s) = (true, f) ->
  readCurrentPointer (ct_root s) f = Some gid ->
  loadGeneration (ct_root s) gid f = Invalid -> manifest_previous (ct_root s) gid f = gid ->
  (openAndRecover fuel s).1 = OpenLoops.
Proof.
  intros Hd Hp El Hm. unfold openAndRecover. rewrite Hd. cbn [negb]. rewrite Hp, El, Hm.
  assert (Hne : str_empty gid = false).
  { unfold readCurrentPointer in Hp. by case_match; simplify_eq. }
  assert (walk_back fuel (ct_root s) gid f = WalkOn) as ->; [|done].
  induction fuel as [|fuel IH]; cbn; rewrite Hne; [done|]. by rewrite El, Hm.
Qed.

(* --------------------------------------------------------------------- *)
(** ** Witnesses                                                          *)
(* --------------------------------------------------------------------- *)

Module Sample.
Import JsonSample Disk.
#[local] Existing Instance toy_sha256.

Definition commit1 : CertificateCommit := mkCommit "chain A" (json_dump (VObj [])) "CERT_INSTALLED" 1.
Definition commit2 : CertificateCommit := mkCommit "chain B" (json_dump (VObj [])) "CERT_INSTALLED" 2.

(** The fate of one call, the [n] calls before it working. A commit makes 22 of them:
    five for each file of the generation, the fsync of its directory, five for
    [CURRENT], the fsync of the root. *)
Definition calls (n : nat) (x : fate) : list fate := replicate n Works ++ [x].

Lemma commit1_ok : commit_ok commit1.
Proof.
  split; [done|]. split; [done|]. intros dc. cbn [commit1 cc_device_cert_json].
  rewrite json_parse_dump. intros [= <-]. by vm_compute.
Qed.
Lemma commit2_ok : commit_ok commit2.
Proof.
  split; [done|]. split; [done|]. intros dc. cbn [commit2 cc_device_cert_json].
  rewrite json_parse_dump. intros [= <-]. by vm_compute.
Qed.

(** A store that opened on an empty disk; the next calls have the given fates. *)
Definition disk0 (l : list fate) : disk := mkDisk ∅ [] l false 0.
Definition store0 (l : list fate) : CertificateStore (F:=disk) :=
  (openAndRecover 0 (cert_store_new root (disk0 l))).2.

Definition in_doubt : option ErrorCode * CertificateStore (F:=disk) :=
  commit commit1 (store0 (calls 21 Fails)).

(** The last fsync of the switch fails: the caller is told that the write failed,
    and [CURRENT] names the new generation. *)
Lemma commit_atomic_witness :
  in_doubt.1 = Some STORAGE_WRITE_FAILED /\
  fs_read (current_path root) (ct_fs in_doubt.2) <> "" /\
  commit_outcome commit1 None (store0 (calls 21 Fails)) in_doubt.2 in_doubt.1.
Proof.
  split; [vm_compute; reflexivity|]. split; [by vm_compute|].
  apply (commit_atomic commit1 (store0 (calls 21 Fails)) in_doubt.2 in_doubt.1 None).
  - exact disk_paths_apart.
  - exact commit1_ok.
  - unfold fresh_id. vm_compute. discriminate.
  - vm_compute. reflexivity.
  - unfold in_doubt. by destruct (commit _ _).
Defined.

(** It serves nothing and reports a failure; after a restart the refused chain is the
    one in force. *)
Lemma failed_commit_switches :
  in_doubt.1 = Some STORAGE_WRITE_FAILED /\ ct_current in_doubt.2 = None /\
  let again := openAndRecover 1 (cert_store_new root (fs_reboot (ct_fs in_doubt.2))) in
  again.1 = OpenReturns true /\ cg_device_cert_chain_pem <$> ct_current again.2 = Some "chain A".
Proof. vm_compute. repeat split. Qed.

(** A first commit works; the process dies in the second one, at the rename of its
    manifest; a new process starts. *)
Definition fates : list fate := calls 22 Works ++ calls 12 Dies.
Definition after1 := commit commit1 (store0 fates).
Definition after2 := commit commit2 after1.2.
Definition opened := openAndRecover 0 (cert_store_new root (fs_reboot (ct_fs after2.2))).
Definition history : list event :=
  (([] ++ [ERestart]) ++ [ECommit commit1 after1.1]) ++ [ECommit commit2 after2.1].

Lemma history_runs : runs root (disk0 fates) history after2.2.
Proof.
  apply (runs_commit _ _ _ after1.2).
  - apply (runs_commit _ _ _ (store0 fates)).
    + apply (runs_restart _ _ _ (cert_store_new root (disk0 fates)) 0
        (openAndRecover 0 (cert_store_new root (disk0 fates))).1); [constructor|].
      apply surjective_pairing.
    + exact commit1_ok.
    + unfold fresh_id. vm_compute. discriminate.
    + apply surjective_pairing.
  - exact commit2_ok.
  - unfold fresh_id. vm_compute. discriminate.
  - apply surjective_pairing.
Qed.

Lemma commits_survive_crashes_witness :
  after1.1 = Some SUCCESS /\ dk_dead (ct_fs after2.2) = true /\
  (currentDeviceCertChain opened.2 = "chain A") /\
  exists og, surviving history og /\
    forall fuel, (makeDirs (generations_dir root) (fs_reboot (ct_fs after2.2))).1 = true ->
      let '(res, s') := openAndRecover fuel (cert_store_new root (fs_reboot (ct_fs after2.2))) in
      res = OpenReturns true /\ ct_current s' = og.
Proof.
  split; [vm_compute; reflexivity|]. split; [vm_compute; reflexivity|]. split; [vm_compute; reflexivity|].
  apply (commits_survive_crashes root (disk0 fates) history after2.2).
  - exact disk_paths_apart.
  - vm_compute. reflexivity.
  - exact history_runs.
Defined.

(** Both commits work, and then the file of the second generation is damaged. *)
Definition both := commit commit2 (commit commit1 (store0 [])).2.
Definition gid2 : string := from_option cg_generation_id "" (ct_current both.2).
Definition damaged : CertificateStore (F:=disk) :=
  cert_store_new root
    (set_files (<[gfile root gid2 kChainFileName := "chain X"]> (dk_files (ct_fs both.2))) (ct_fs both.2)).
Definition gen1 : option Generation := ct_current (commit commit1 (store0 [])).2.

Lemma recovery_finds_nearest_witness :
  match gen1 with
  | Some g => nearest root (makeDirs (generations_dir root) (ct_fs damaged)).2 gid2 g
  | None => False
  end.
Proof.
  assert (bool_decide (is_Some gen1) = true) as Hs by (vm_compute; reflexivity).
  destruct gen1 as [g|] eqn:Hg; [|discriminate Hs].
  apply (recovery_finds_nearest damaged gid2 g (makeDirs (generations_dir root) (ct_fs damaged)).2).
  - assert (true = (makeDirs (generations_dir root) (ct_fs damaged)).1) as E by (vm_compute; reflexivity).
    rewrite E. apply surjective_pairing.
  - vm_compute. reflexivity.
  - exists 1%nat, (openAndRecover 1 damaged).2. rewrite <- Hg. split; [|vm_compute; reflexivity].
    assert (OpenReturns true = (openAndRecover 1 damaged).1) as E by (vm_compute; reflexivity).
    rewrite E. apply surjective_pairing.
Defined.
End Sample.
