(* ===== verification/KeyEngine.v ===== *)
(** * KeyEngine: the device key behind the HSM interface.
    Models [include/hsm_interface.h] and [src/key_engine.cpp]. The HSM is an
    interface of the program; its state is a parameter of everything that uses it. *)
From S2P Require Import Prelude Errors.

(** [src/include/hsm_interface.h:12-15] KeyStorageMode *)
Inductive KeyStorageMode := ModeHSM | ModeSOFT_FILE.

(** [created_at], which nothing reads, is left out. *)
(** [src/include/hsm_interface.h:17-25] KeyPair *)
Record KeyPair := mkKeyPair {
  kp_key_id : string;
  kp_algorithm : string;
  kp_public_key : bytes;
  kp_private_key_exists : bool;
  kp_storage_mode : KeyStorageMode;
  kp_exportable : bool
}.
Definition KeyPair_default : KeyPair := mkKeyPair "" "" [] false ModeHSM false.

(** The interface of the HSM, as the device key flows use it. *)
(** [src/include/hsm_interface.h:27-165] HsmInterface *)
Class HsmInterface (H : Type) := {
  hsm_initialize : st H ErrorCode;
  hsm_generate_key_pair : string -> string -> st H (ErrorCode * KeyPair);
  hsm_sign : string -> bytes -> st H (ErrorCode * bytes);
  hsm_sign_digest : string -> bytes -> st H (ErrorCode * bytes);
  hsm_export_public_key : string -> H -> ErrorCode * bytes;
  hsm_export_private_key : string -> H -> ErrorCode * bytes;
  hsm_key_exists : string -> H -> bool;
  hsm_delete_key : string -> st H ErrorCode;
  hsm_supports_ecdh_derive : string -> H -> bool;
  hsm_supports_ecdsa_sign : string -> H -> bool
}.

Definition KEY_ALGORITHM_ECDSA_P256 : string := "ecdsa-p256".

(** The engine owns the HSM; [ke_hsm] tells whether it was given one. *)
(** [src/include/key_engine.h:49-50] KeyEngine members *)
Record KeyEngine := mkKeyEngine {
  ke_hsm : bool;
  ke_initialized : bool
}.

Section Engine.
Context {H : Type} `{Hsm : HsmInterface H}.
Implicit Types k : KeyEngine.

(** [src/src/key_engine.cpp:11-12] KeyEngine *)
Definition key_engine_new (hsm : bool) : KeyEngine := mkKeyEngine hsm false.

(** [src/src/key_engine.cpp:14-24] initialize *)
Definition ke_initialize k : H -> ErrorCode * KeyEngine * H := fun h =>
  if negb (ke_hsm k) then (INVALID_PARAMETER, k, h) else
  let '(rc, h) := hsm_initialize h in
  (rc, if is_success rc then mkKeyEngine (ke_hsm k) true else k, h).

(** [src/src/key_engine.cpp:154-159] make_key_id *)
Definition make_key_id (hsm_uid key_id : string) : string := hsm_uid ++ "+" ++ key_id.

(** [src/src/key_engine.cpp:26-78] generate_device_key *)
Definition generate_device_key k (vin ecu_uid : string) : st H (ErrorCode * KeyPair) := fun h =>
  if negb (ke_initialized k) then ((NOT_INITIALIZED, KeyPair_default), h) else
  let key_id := make_key_id vin ecu_uid in
  if hsm_key_exists key_id h then
    let '(rc, pub) := hsm_export_public_key key_id h in
    ((rc, mkKeyPair key_id KEY_ALGORITHM_ECDSA_P256 pub true ModeHSM false), h)
  else hsm_generate_key_pair key_id KEY_ALGORITHM_ECDSA_P256 h.

(** [src/src/key_engine.cpp:80-101] get_device_key *)
Definition get_device_key k (vin ecu_uid : string) : H -> ErrorCode * KeyPair := fun h =>
  if negb (ke_initialized k) then (NOT_INITIALIZED, KeyPair_default) else
  let key_id := make_key_id vin ecu_uid in
  if negb (hsm_key_exists key_id h) then (KEY_NOT_FOUND, KeyPair_default) else
  let '(rc, pub) := hsm_export_public_key key_id h in
  (rc, mkKeyPair key_id KEY_ALGORITHM_ECDSA_P256 pub true ModeHSM false).

(** [src/src/key_engine.cpp:103-110] device_key_exists *)
Definition device_key_exists k (vin ecu_uid : string) (h : H) : bool :=
  ke_initialized k && hsm_key_exists (make_key_id vin ecu_uid) h.

(** [src/src/key_engine.cpp:112-127] sign *)
Definition ke_sign k (vin ecu_uid : string) (data : bytes) : st H (ErrorCode * bytes) := fun h =>
  if negb (ke_initialized k) then ((NOT_INITIALIZED, []), h) else
  let key_id := make_key_id vin ecu_uid in
  if negb (hsm_key_exists key_id h) then ((KEY_NOT_FOUND, []), h)
  else hsm_sign key_id data h.

(** [src/src/key_engine.cpp:129-136] delete_device_key *)
Definition delete_device_key k (vin ecu_uid : string) : st H ErrorCode := fun h =>
  if negb (ke_initialized k) then (NOT_INITIALIZED, h)
  else hsm_delete_key (make_key_id vin ecu_uid) h.

(** [src/src/key_engine.cpp:138-152] export_device_private_key *)
Definition export_device_private_key k (vin ecu_uid : string) : H -> ErrorCode * bytes := fun h =>
  if negb (ke_initialized k) then (NOT_INITIALIZED, []) else
  let key_id := make_key_id vin ecu_uid in
  if negb (hsm_key_exists key_id h) then (KEY_NOT_FOUND, [])
  else hsm_export_private_key key_id h.
End Engine.
