(* ===== verification/Csr.v ===== *)
(** * CsrBuilder: the PKCS#10 request, written in DER by hand.
    Models [src/csr_builder.cpp]. OpenSSL's point codec is a parameter; the key and
    the signature come from [KeyEngine]. *)
From S2P Require Import Prelude Errors Canonical KeyEngine.
From Stdlib Require Import Ascii.

(** [EC_POINT_oct2point] on prime256v1, then [EC_POINT_point2oct] uncompressed. *)
Class EcPoints := { ec_point_uncompressed : bytes -> option bytes }.

(* --------------------------------------------------------------------- *)
(** ** DER                                                                *)
(* --------------------------------------------------------------------- *)

(** [len] is a [uint16_t]. *)
(** [src/src/csr_builder.cpp:21-32] der_encode_length *)
Definition der_encode_length (len : Z) (out : bytes) : bytes :=
  if len <? 128 then out ++ [byte_of len]
  else if len <=? 255 then out ++ [x81; byte_of len]
  else out ++ [x82; byte_of (Z.shiftr len 8); byte_of (Z.land len 255)].

(** [static_cast<uint16_t>(v.size())]. *)
Definition size16 (v : bytes) : Z := wrapu 16 (zlen v).

(** [src/src/csr_builder.cpp:34-39] der_encode_oid *)
Definition der_encode_oid (oid out : bytes) : bytes :=
  der_encode_length (size16 oid) (out ++ [x06]) ++ oid.

(** [src/src/csr_builder.cpp:41-45] der_encode_integer *)
Definition der_encode_integer (value : Z) (out : bytes) : bytes := out ++ [x02; x01; byte_of value].

(** [src/src/csr_builder.cpp:47-54] der_encode_bit_string *)
Definition der_encode_bit_string (data : bytes) (unused_bits : Z) (out : bytes) : bytes :=
  der_encode_length (wrapu 16 (zlen data + 1)) (out ++ [x03]) ++ [byte_of unused_bits] ++ data.

(** [src/src/csr_builder.cpp:56-61] der_encode_octet_string *)
Definition der_encode_octet_string (data out : bytes) : bytes :=
  der_encode_length (size16 data) (out ++ [x04]) ++ data.

(** [src/src/csr_builder.cpp:63-68] der_wrap_tag_length *)
Definition der_wrap_tag_length (tag : byte) (inner out : bytes) : bytes :=
  der_encode_length (size16 inner) (out ++ [tag]) ++ inner.

(** [src/src/csr_builder.cpp:70-73] der_wrap_sequence *)
Definition der_wrap_sequence (inner out : bytes) : bytes := der_wrap_tag_length x30 inner out.

(** [src/src/csr_builder.cpp:75-78] der_wrap_set *)
Definition der_wrap_set (inner out : bytes) : bytes := der_wrap_tag_length x31 inner out.

(* --------------------------------------------------------------------- *)
(** ** The parts of a request                                             *)
(* --------------------------------------------------------------------- *)

Definition OID_EC : bytes := [x2a; x86; x48; xce; x3d; x02; x01].
Definition OID_PRIME256V1 : bytes := [x2a; x86; x48; xce; x3d; x03; x01; x07].
Definition OID_CN : bytes := [x55; x04; x03].
Definition OID_OU : bytes := [x55; x04; x0b].
Definition OID_O : bytes := [x55; x04; x0a].
Definition OID_C : bytes := [x55; x04; x06].
Definition OID_SAN : bytes := [x55; x1d; x11].
Definition OID_KU : bytes := [x55; x1d; x0f].
Definition OID_EKU : bytes := [x55; x1d; x25].
Definition OID_CLIENT_AUTH : bytes := [x2b; x06; x01; x05; x05; x07; x03; x02].
Definition OID_EXTENSION_REQUEST : bytes := [x2a; x86; x48; x86; xf7; x0d; x01; x09; x0e].
Definition OID_ECDSA_SHA256 : bytes := [x2a; x86; x48; xce; x3d; x04; x03; x02].
Definition CSR_SUBJECT_OU : string := "TBOX-TSP".
Definition CSR_SUBJECT_O : string := "OpenIOV".
Definition CSR_SUBJECT_C : string := "CN".

(** [src/src/csr_builder.cpp:97-127] marshal_ec_pubkey_info *)
Definition marshal_ec_pubkey_info (raw_pubkey : bytes) : bytes :=
  let alg_params := der_encode_oid OID_PRIME256V1 [] in
  let alg_seq_inner := der_encode_oid OID_EC [] ++ alg_params in
  let alg_seq := der_wrap_sequence alg_seq_inner [] in
  let pubkey_bs := der_encode_bit_string raw_pubkey 0 [] in
  der_wrap_sequence (alg_seq ++ pubkey_bs) [].

(** The characters before a NUL, what [std::string(s.c_str())] keeps. *)
Fixpoint c_str (s : string) : string :=
  match s with
  | EmptyString => ""
  | String a s => if Ascii.eqb a "000"%char then "" else String a (c_str s)
  end.

(** One entry of the table of the subject. *)
(** [src/src/csr_builder.cpp:151-176] marshal_x509_name RDN *)
Definition marshal_rdn (oid : bytes) (value : string) : bytes :=
  let attr_type := der_encode_oid oid [] in
  let val := bytes_of_string (c_str value) in
  let attr_value := der_encode_length (size16 val) [x0c] ++ val in
  let attr_seq := der_wrap_sequence (attr_type ++ attr_value) [] in
  der_wrap_set attr_seq [].

(** [src/src/csr_builder.cpp:129-181] marshal_x509_name *)
Definition marshal_x509_name (hsm_uid : string) : bytes :=
  let rdn_entries := [(OID_CN, hsm_uid); (OID_OU, CSR_SUBJECT_OU); (OID_O, CSR_SUBJECT_O);
                      (OID_C, CSR_SUBJECT_C)] in
  der_wrap_sequence (concat ((fun e => marshal_rdn e.1 e.2) <$> rdn_entries)) [].

(** [src/src/csr_builder.cpp:183-213] marshal_san_extension *)
Definition marshal_san_extension (hsm_uid : string) : bytes :=
  let hsm_uid_uri := bytes_of_string ("urn:ecu-uid:" ++ hsm_uid) in
  let san_entries := der_encode_length (size16 hsm_uid_uri) [x86] ++ hsm_uid_uri in
  let san_seq := der_wrap_sequence san_entries [] in
  let octet := der_encode_octet_string san_seq [] in
  let oid := der_encode_oid OID_SAN [] in
  der_wrap_sequence (oid ++ octet) [].

(** [src/src/csr_builder.cpp:215-239] marshal_ku_extension *)
Definition marshal_ku_extension : bytes :=
  let bs := der_encode_bit_string [x88] 0 [] in
  let octet := der_encode_octet_string bs [] in
  let oid := der_encode_oid OID_KU [] in
  der_wrap_sequence (oid ++ octet) [].

(** [src/src/csr_builder.cpp:241-266] marshal_eku_extension *)
Definition marshal_eku_extension : bytes :=
  let oids := der_encode_oid OID_CLIENT_AUTH [] in
  let seq := der_wrap_sequence oids [] in
  let octet := der_encode_octet_string seq [] in
  let oid := der_encode_oid OID_EKU [] in
  der_wrap_sequence (oid ++ octet) [].

(** [src/include/csr_builder.h:12-16] CsrConfig *)
Record CsrConfig := mkCsrConfig {
  cs_hsm_uid : string;
  cs_key_id : string;
  cs_algorithm : string
}.

Section Builder.
Context {H : Type} `{Hsm : HsmInterface H} `{Ec : EcPoints}.

(** The attributes: one extension request with the three extensions. *)
(** [src/src/csr_builder.cpp:320-353] build_csr_info attributes *)
Definition marshal_attributes (hsm_uid : string) : bytes :=
  let ext_set_content :=
    marshal_san_extension hsm_uid ++ marshal_ku_extension ++ marshal_eku_extension in
  let ext_seq := der_wrap_sequence ext_set_content [] in
  let oid_ext := der_encode_oid OID_EXTENSION_REQUEST [] in
  let ext_value_set := der_wrap_set ext_seq [] in
  let attr_seq := der_wrap_sequence (oid_ext ++ ext_value_set) [] in
  der_wrap_tag_length xa0 attr_seq [].

(** [src/src/csr_builder.cpp:268-364] build_csr_info *)
Definition build_csr_info (config : CsrConfig) (key_pair : KeyPair) : ErrorCode * bytes :=
  let version := der_encode_integer 0 [] in
  let subject_der := marshal_x509_name (cs_hsm_uid config) in
  match ec_point_uncompressed (kp_public_key key_pair) with
  | None => (CSR_BUILD_FAILED, [])
  | Some [] => (CSR_BUILD_FAILED, [])
  | Some raw_pubkey =>
      let pubkey_info := marshal_ec_pubkey_info raw_pubkey in
      let attrs_implicit := marshal_attributes (cs_hsm_uid config) in
      (SUCCESS, der_wrap_sequence (version ++ subject_der ++ pubkey_info ++ attrs_implicit) [])
  end.

(** The request around a signed [csr_info]. *)
(** [src/src/csr_builder.cpp:399-424] build_csr final *)
Definition marshal_csr (csr_info signature : bytes) : bytes :=
  let alg_oid := der_encode_oid OID_ECDSA_SHA256 [] in
  let alg_seq := der_wrap_sequence alg_oid [] in
  let sig_bs := der_encode_bit_string signature 0 [] in
  der_wrap_sequence (csr_info ++ alg_seq ++ sig_bs) [].

(** The output is cleared before anything can fail. [key_engine] is never null
    where the service builds a request. *)
(** [src/src/csr_builder.cpp:366-436] build_csr *)
Definition build_csr (k : KeyEngine) (config : CsrConfig) : st H (ErrorCode * bytes) := fun h =>
  let '(rc, key_pair) := get_device_key k (cs_hsm_uid config) (cs_key_id config) h in
  if negb (is_success rc) then ((rc, []), h) else
  let '(rc, csr_info) := build_csr_info config key_pair in
  if negb (is_success rc) then ((rc, []), h) else
  let '((rc, signature), h) := ke_sign k (cs_hsm_uid config) (cs_key_id config) csr_info h in
  if negb (is_success rc) then ((CSR_SIGN_FAILED, []), h) else
  ((SUCCESS, marshal_csr csr_info signature), h).
End Builder.
