(* ===== verification/CsrProps.v ===== *)
(** * CsrBuilder: the request is the DER of the intended structure.
    A reader of DER in the definite form is the reference; the request that
    [build_csr] writes reads back as the tree of a PKCS#10 request. *)
From S2P Require Import Prelude Errors Canonical KeyEngine Csr.
From Stdlib Require Import Ascii.

(* --------------------------------------------------------------------- *)
(** ** DER trees and their reader                                         *)
(* --------------------------------------------------------------------- *)

#[warnings="-register-all"]
Inductive der :=
  | Prim (tag : byte) (content : bytes)
  | Node (tag : byte) (children : list der).

Fixpoint der_enc (d : der) : bytes :=
  match d with
  | Prim t c => der_wrap_tag_length t c []
  | Node t ds => der_wrap_tag_length t (concat (der_enc <$> ds)) []
  end.

(** Bit 6 of the tag: constructed. *)
Definition constructed (t : byte) : bool := Z.testbit (bval t) 5.

(** The length octets, in their shortest form. *)
Definition der_read_len (l : bytes) : option (nat * bytes) :=
  match l with
  | b :: l =>
      if bval b <? 128 then Some (Z.to_nat (bval b), l)
      else if bval b =? 129 then
        match l with
        | a :: l => if 128 <=? bval a then Some (Z.to_nat (bval a), l) else None
        | _ => None
        end
      else if bval b =? 130 then
        match l with
        | a :: c :: l =>
            let n := bval a * 256 + bval c in if 256 <=? n then Some (Z.to_nat n, l) else None
        | _ => None
        end
      else None
  | [] => None
  end.

Fixpoint der_read (fuel : nat) (l : bytes) : option (list der) :=
  match fuel, l with
  | _, [] => Some []
  | O, _ => None
  | S fuel, t :: l =>
      match der_read_len l with
      | None => None
      | Some (n, rest) =>
          if (length rest <? n)%nat then None
          else
            match (if constructed t then Node t <$> der_read fuel (take n rest)
                   else Some (Prim t (take n rest))), der_read fuel (drop n rest) with
            | Some d, Some ds => Some (d :: ds)
            | _, _ => None
            end
      end
  end.

(** An upper bound of the encoded length, and the trees whose lengths fit the two
    length octets the code writes at most. *)
Fixpoint der_size (d : der) : Z :=
  match d with
  | Prim _ c => 4 + zlen c
  | Node _ ds => 4 + foldr (fun d n => der_size d + n) 0 ds
  end.

Fixpoint der_fits (d : der) : Prop :=
  match d with
  | Prim t c => constructed t = false /\ zlen c < 65536
  | Node t ds =>
      constructed t = true /\ foldr (fun d n => der_size d + n) 0 ds < 65536 /\
      foldr (fun d P => der_fits d /\ P) True ds
  end.

Lemma der_encode_length_app len out : der_encode_length len out = out ++ der_encode_length len [].
Proof. unfold der_encode_length. by repeat case_match. Qed.

Lemma der_wrap_eq t c : der_wrap_tag_length t c [] = t :: der_encode_length (size16 c) [] ++ c.
Proof. unfold der_wrap_tag_length. by rewrite der_encode_length_app. Qed.

Lemma der_read_len_encode n rest :
  0 <= n < 65536 -> der_read_len (der_encode_length n [] ++ rest) = Some (Z.to_nat n, rest).
Proof.
  intros Hn. unfold der_encode_length.
  destruct (Z.ltb_spec n 128); [|destruct (Z.leb_spec n 255)]; cbn [app der_read_len].
  - rewrite bval_byte_of, Z.mod_small by lia. by destruct (Z.ltb_spec n 128); [|lia].
  - cbn. rewrite bval_byte_of, Z.mod_small by lia. by destruct (Z.leb_spec 128 n); [|lia].
  - cbn. rewrite !bval_byte_of. rewrite Z.shiftr_div_pow2 by lia. change 255 with (Z.ones 8).
    rewrite Z.land_ones by lia. change (2 ^ 8) with 256.
    assert (0 <= n / 256 < 256) by (split; [apply Z.div_pos; lia|apply Z.div_lt_upper_bound; lia]).
    rewrite (Z.mod_small (n / 256)), Z.mod_mod by lia.
    replace (n / 256 * 256 + n mod 256) with n by (pose proof (Z.div_mod n 256 ltac:(lia)); lia).
    by destruct (Z.leb_spec 256 n); [|lia].
Qed.

Lemma length_encode_length n : (length (der_encode_length n []) <= 3)%nat.
Proof. unfold der_encode_length. repeat case_match; cbn; lia. Qed.

Lemma der_ind' (P : der -> Prop) :
  (forall t c, P (Prim t c)) -> (forall t ds, Forall P ds -> P (Node t ds)) -> forall d, P d.
Proof.
  intros Hp Hn. fix IH 1. intros [t c|t ds]; [apply Hp|]. apply Hn.
  induction ds as [|d ds IHds]; constructor; [apply IH|done].
Qed.

Lemma der_enc_size d : zlen (der_enc d) <= der_size d.
Proof.
  induction d as [t c|t ds IH] using der_ind'; cbn [der_enc der_size]; rewrite der_wrap_eq;
    unfold zlen; cbn [length]; rewrite length_app.
  - pose proof (length_encode_length (size16 c)). lia.
  - assert (Z.of_nat (length (concat (der_enc <$> ds))) <= foldr (fun d n => der_size d + n) 0 ds).
    { induction IH as [|d ds Hd _ IH]; [done|]. cbn [fmap list_fmap concat foldr].
      rewrite length_app. unfold zlen in Hd. lia. }
    pose proof (length_encode_length (size16 (concat (der_enc <$> ds)))). lia.
Qed.

Lemma der_enc_list_size ds : zlen (concat (der_enc <$> ds)) <= foldr (fun d n => der_size d + n) 0 ds.
Proof.
  induction ds as [|d ds IH]; [done|]. cbn [fmap list_fmap concat foldr]. unfold zlen in *. rewrite length_app.
  pose proof (der_enc_size d) as Hd. unfold zlen in Hd. lia.
Qed.

(** Reading one element and going on. *)
Lemma der_read_wrap fuel t c rest ds d :
  zlen c < 65536 ->
  (if constructed t then Node t <$> der_read fuel c else Some (Prim t c)) = Some d ->
  der_read fuel rest = Some ds ->
  der_read (S fuel) (der_wrap_tag_length t c [] ++ rest) = Some (d :: ds).
Proof.
  intros Hc Hd Hr. rewrite der_wrap_eq. cbn [app der_read]. rewrite <- app_assoc.
  assert (Hs : size16 c = zlen c) by (unfold size16; apply wrapu_small; unfold zlen in *; lia).
  rewrite Hs, der_read_len_encode by (unfold zlen in *; lia). unfold zlen. rewrite Nat2Z.id.
  rewrite length_app. destruct (Nat.ltb_spec (length c + length rest) (length c)); [lia|].
  rewrite take_app_length, drop_app_length. by rewrite Hd, Hr.
Qed.

(** Reading back what was written, for trees whose lengths fit. *)
Lemma der_read_enc fuel ds :
  foldr (fun d P => der_fits d /\ P) True ds ->
  (length (concat (der_enc <$> ds)) <= fuel)%nat ->
  der_read fuel (concat (der_enc <$> ds)) = Some ds.
Proof.
  revert ds; induction fuel as [|fuel IH]; intros [|d ds] Hf Hl; try done.
  { destruct d; cbn in Hl; rewrite der_wrap_eq in Hl; cbn in Hl; lia. }
  cbn [foldr] in Hf. destruct Hf as [Hd Hds]. cbn [fmap list_fmap concat] in *.
  rewrite length_app in Hl.
  assert (Hlen : (1 <= length (der_enc d))%nat) by (destruct d; cbn; rewrite der_wrap_eq; cbn; lia).
  destruct d as [t c|t cs]; cbn [der_enc der_fits] in *.
  - destruct Hd as [Ht Hc]. apply der_read_wrap; [done|by rewrite Ht|apply IH; [done|lia]].
  - destruct Hd as (Ht & Hc & Hcs). rewrite der_wrap_eq in Hl. cbn [length] in Hl. rewrite length_app in Hl.
    apply der_read_wrap.
    + pose proof (der_enc_list_size cs). unfold zlen in *. lia.
    + rewrite Ht, (IH cs); [done|done|lia].
    + apply IH; [done|lia].
Qed.

Lemma der_read_one d : der_fits d -> der_read (length (der_enc d)) (der_enc d) = Some [d].
Proof.
  intros Hd. pose proof (der_read_enc (length (der_enc d)) [d]) as H.
  cbn [fmap list_fmap concat foldr] in H. rewrite app_nil_r in H. by apply H.
Qed.

(* --------------------------------------------------------------------- *)
(** ** The request as a tree                                              *)
(* --------------------------------------------------------------------- *)

Definition rdn_tree (oid v : bytes) : der := Node x31 [Node x30 [Prim x06 oid; Prim x0c v]].
Definition extension_tree (oid value : bytes) : der := Node x30 [Prim x06 oid; Prim x04 value].
Definition spki_tree (raw : bytes) : der :=
  Node x30 [Node x30 [Prim x06 OID_EC; Prim x06 OID_PRIME256V1]; Prim x03 (x00 :: raw)].
Definition subject_tree (uid : string) : der :=
  Node x30 [rdn_tree OID_CN (bytes_of_string uid); rdn_tree OID_OU (bytes_of_string "TBOX-TSP");
            rdn_tree OID_O (bytes_of_string "OpenIOV"); rdn_tree OID_C (bytes_of_string "CN")].

(** Subject alternative name: the URI of the ECU; key usage: digital signature and
    key agreement; extended key usage: client authentication only. *)
Definition attributes_tree (uid : string) : der :=
  Node xa0 [Node x30 [Prim x06 OID_EXTENSION_REQUEST; Node x31 [Node x30 [
    extension_tree OID_SAN (der_enc (Node x30 [Prim x86 (bytes_of_string ("urn:ecu-uid:" ++ uid))]));
    extension_tree OID_KU (der_enc (Prim x03 [x00; x88]));
    extension_tree OID_EKU (der_enc (Node x30 [Prim x06 OID_CLIENT_AUTH]))]]]].

Definition info_tree (uid : string) (raw : bytes) : der :=
  Node x30 [Prim x02 [x00]; subject_tree uid; spki_tree raw; attributes_tree uid].

Definition csr_tree (uid : string) (raw sig : bytes) : der :=
  Node x30 [info_tree uid raw; Node x30 [Prim x06 OID_ECDSA_SHA256]; Prim x03 (x00 :: sig)].

(** The code's helpers, as encodings of trees. *)
Lemma enc_node1 t a : der_wrap_tag_length t (der_enc a) [] = der_enc (Node t [a]).
Proof. cbn [der_enc fmap list_fmap concat]. by rewrite app_nil_r. Qed.
Lemma enc_node2 t a b : der_wrap_tag_length t (der_enc a ++ der_enc b) [] = der_enc (Node t [a; b]).
Proof. cbn [der_enc fmap list_fmap concat]. by rewrite app_nil_r. Qed.
Lemma enc_node3 t a b c :
  der_wrap_tag_length t (der_enc a ++ der_enc b ++ der_enc c) [] = der_enc (Node t [a; b; c]).
Proof. cbn [der_enc fmap list_fmap concat]. by rewrite app_nil_r. Qed.
Lemma enc_node4 t a b c d :
  der_wrap_tag_length t (der_enc a ++ der_enc b ++ der_enc c ++ der_enc d) [] = der_enc (Node t [a; b; c; d]).
Proof. cbn [der_enc fmap list_fmap concat]. by rewrite app_nil_r. Qed.

Lemma enc_oid oid : der_encode_oid oid [] = der_enc (Prim x06 oid).
Proof. reflexivity. Qed.
Lemma enc_octet_string data : der_encode_octet_string data [] = der_enc (Prim x04 data).
Proof. reflexivity. Qed.
Lemma enc_string t data : der_encode_length (size16 data) [t] ++ data = der_enc (Prim t data).
Proof. reflexivity. Qed.
Lemma enc_integer0 : der_encode_integer 0 [] = der_enc (Prim x02 [x00]).
Proof. reflexivity. Qed.

Lemma enc_bit_string data : der_encode_bit_string data 0 [] = der_enc (Prim x03 (x00 :: data)).
Proof.
  unfold der_encode_bit_string. cbn [der_enc]. rewrite der_wrap_eq, der_encode_length_app.
  unfold size16, zlen. cbn [length]. rewrite Nat2Z.inj_succ, <- Z.add_1_r. by rewrite <- app_assoc.
Qed.

Lemma marshal_rdn_enc oid v : c_str v = v -> marshal_rdn oid v = der_enc (rdn_tree oid (bytes_of_string v)).
Proof.
  intros Hv. unfold marshal_rdn, rdn_tree, der_wrap_set, der_wrap_sequence. rewrite Hv.
  by rewrite enc_oid, enc_string, enc_node2, enc_node1.
Qed.

Lemma marshal_x509_name_enc uid : c_str uid = uid -> marshal_x509_name uid = der_enc (subject_tree uid).
Proof.
  intros Hu. unfold marshal_x509_name, subject_tree, der_wrap_sequence.
  cbn [fmap list_fmap concat fst snd].
  rewrite !marshal_rdn_enc by first [exact Hu | reflexivity]. by rewrite app_nil_r, enc_node4.
Qed.

Lemma marshal_ec_pubkey_info_enc raw : marshal_ec_pubkey_info raw = der_enc (spki_tree raw).
Proof.
  unfold marshal_ec_pubkey_info, spki_tree, der_wrap_sequence.
  by rewrite enc_bit_string, !enc_oid, !enc_node2.
Qed.

Lemma marshal_extensions_enc uid :
  marshal_san_extension uid = der_enc (extension_tree OID_SAN
    (der_enc (Node x30 [Prim x86 (bytes_of_string ("urn:ecu-uid:" ++ uid))]))) /\
  marshal_ku_extension = der_enc (extension_tree OID_KU (der_enc (Prim x03 [x00; x88]))) /\
  marshal_eku_extension
  = der_enc (extension_tree OID_EKU (der_enc (Node x30 [Prim x06 OID_CLIENT_AUTH]))).
Proof.
  unfold marshal_san_extension, marshal_ku_extension, marshal_eku_extension, extension_tree,
    der_wrap_sequence.
  rewrite enc_bit_string, !enc_oid, !enc_string, !enc_node1, !enc_octet_string, !enc_node2. done.
Qed.

Lemma marshal_attributes_enc uid : marshal_attributes uid = der_enc (attributes_tree uid).
Proof.
  unfold marshal_attributes, attributes_tree, der_wrap_sequence, der_wrap_set.
  destruct (marshal_extensions_enc uid) as (-> & -> & ->).
  by rewrite enc_oid, enc_node3, enc_node1, enc_node2, enc_node1.
Qed.

Lemma marshal_info_enc uid raw :
  c_str uid = uid ->
  der_wrap_sequence (der_encode_integer 0 [] ++ marshal_x509_name uid ++ marshal_ec_pubkey_info raw
    ++ marshal_attributes uid) [] = der_enc (info_tree uid raw).
Proof.
  intros Hu. unfold info_tree, der_wrap_sequence.
  by rewrite marshal_x509_name_enc, marshal_ec_pubkey_info_enc, marshal_attributes_enc,
    enc_integer0, enc_node4 by done.
Qed.

Lemma marshal_csr_enc uid raw sig :
  marshal_csr (der_enc (info_tree uid raw)) sig = der_enc (csr_tree uid raw sig).
Proof.
  unfold marshal_csr, csr_tree, der_wrap_sequence.
  by rewrite enc_bit_string, enc_oid, enc_node1, enc_node3.
Qed.

Lemma length_ecu_uri uid : zlen (bytes_of_string ("urn:ecu-uid:" ++ uid)) = 12 + str_size uid.
Proof.
  unfold zlen, str_size. rewrite length_bytes_of_string.
  change (String.length ("urn:ecu-uid:" ++ uid)) with (12 + String.length uid)%nat. lia.
Qed.

Lemma zlen_cons {A} (x : A) l : zlen (x :: l) = 1 + zlen l.
Proof. unfold zlen. cbn [length]. lia. Qed.

(** The octets of the two extensions that do not depend on the device. *)
Definition ku_octets : bytes := der_enc (Prim x03 [x00; x88]).
Definition eku_octets : bytes := der_enc (Node x30 [Prim x06 OID_CLIENT_AUTH]).

Lemma constant_sizes :
  zlen OID_CN = 3 /\ zlen OID_OU = 3 /\ zlen OID_O = 3 /\ zlen OID_C = 3 /\ zlen OID_EC = 7 /\
  zlen OID_PRIME256V1 = 8 /\ zlen OID_SAN = 3 /\ zlen OID_KU = 3 /\ zlen OID_EKU = 3 /\
  zlen OID_EXTENSION_REQUEST = 9 /\ zlen OID_ECDSA_SHA256 = 8 /\ zlen ku_octets = 4 /\
  zlen eku_octets = 12 /\ zlen (bytes_of_string "TBOX-TSP") = 8 /\
  zlen (bytes_of_string "OpenIOV") = 7 /\ zlen (bytes_of_string "CN") = 2.
Proof. vm_compute. repeat split. Qed.

Lemma csr_tree_fits uid raw sig :
  str_size uid <= 4096 -> zlen raw <= 4096 -> zlen sig <= 4096 -> der_fits (csr_tree uid raw sig).
Proof.
  intros Hu Hr Hs.
  pose proof (der_enc_size (Node x30 [Prim x86 (bytes_of_string ("urn:ecu-uid:" ++ uid))])) as Hsan.
  assert (Hb : zlen (bytes_of_string uid) = str_size uid).
  { unfold zlen, str_size. by rewrite length_bytes_of_string. }
  cbn [der_size foldr] in Hsan. rewrite length_ecu_uri in Hsan.
  unfold csr_tree, info_tree, subject_tree, spki_tree, attributes_tree, rdn_tree, extension_tree.
  fold ku_octets eku_octets.
  set (san := der_enc (Node x30 [Prim x86 (bytes_of_string ("urn:ecu-uid:" ++ uid))])) in *.
  clearbody san. cbn [der_fits der_size foldr]. rewrite !zlen_cons, Hb.
  pose proof constant_sizes as H. destruct_and! H. assert (zlen (@nil byte) = 0) by done.
  split_and!; first [lia | reflexivity].
Qed.

Section Build.
Context {H : Type} `{Hsm : HsmInterface H} `{Ec : EcPoints}.

Lemma build_csr_inv k config h csr h' :
  build_csr k config h = ((SUCCESS, csr), h') -> c_str (cs_hsm_uid config) = cs_hsm_uid config ->
  let key_id := make_key_id (cs_hsm_uid config) (cs_key_id config) in
  exists pub raw sig,
    hsm_key_exists key_id h = true /\ hsm_export_public_key key_id h = (SUCCESS, pub) /\
    ec_point_uncompressed pub = Some raw /\
    hsm_sign key_id (der_enc (info_tree (cs_hsm_uid config) raw)) h = ((SUCCESS, sig), h') /\
    csr = der_enc (csr_tree (cs_hsm_uid config) raw sig).
Proof.
  intros E Hu key_id. unfold build_csr, get_device_key, ke_sign in E. fold key_id in E.
  destruct (ke_initialized k); [|done]. cbn [negb] in E.
  destruct (hsm_key_exists key_id h) eqn:Ek; [|done]. cbn [negb] in E.
  destruct (hsm_export_public_key key_id h) as [rc pub] eqn:Ep.
  destruct (is_success rc) eqn:Er; cbn [negb] in E.
  2:{ injection E as -> _ _. done. }
  apply is_success_true in Er as ->. unfold build_csr_info in E. cbn [kp_public_key] in E.
  destruct (ec_point_uncompressed pub) as [[|b raw]|] eqn:Ee; [done| |done].
  rewrite marshal_info_enc in E by done. cbn [is_success negb] in E.
  destruct (hsm_sign key_id _ h) as [[rc sig] h1] eqn:Es.
  destruct (is_success rc) eqn:Er; cbn [negb] in E; [|done].
  apply is_success_true in Er as ->. remember (marshal_csr _ sig) as out eqn:Eo.
  injection E as <- <-. exists pub, (b :: raw), sig. split_and!; try done.
  rewrite Eo. apply marshal_csr_enc.
Qed.
End Build.

(* --------------------------------------------------------------------- *)
(** ** The property                                                       *)
(* --------------------------------------------------------------------- *)

(** C39. A certificate request that [build_csr] returns is DER. Read with the
    reference reader it is exactly the PKCS#10 tree of the device: version 0, the
    subject with the hardware id as its common name, the P-256 key the HSM exported,
    the request for the three extensions (the ECU as a URI, digital signature with
    key agreement, client authentication alone), the algorithm, and a signature the
    HSM made over exactly the bytes of the first part. The hardware id has no NUL,
    and the parts are small enough for two length octets. *)
Theorem csr_decodes {H} `{Hsm : HsmInterface H} `{Ec : EcPoints} k config (h h' : H) csr :
  build_csr k config h = ((SUCCESS, csr), h') ->
  c_str (cs_hsm_uid config) = cs_hsm_uid config ->
  let key_id := make_key_id (cs_hsm_uid config) (cs_key_id config) in
  exists pub raw sig,
    hsm_key_exists key_id h = true /\ hsm_export_public_key key_id h = (SUCCESS, pub) /\
    ec_point_uncompressed pub = Some raw /\
    hsm_sign key_id (der_enc (info_tree (cs_hsm_uid config) raw)) h = ((SUCCESS, sig), h') /\
    (str_size (cs_hsm_uid config) <= 4096 -> zlen raw <= 4096 -> zlen sig <= 4096 ->
     der_read (length csr) csr = Some [csr_tree (cs_hsm_uid config) raw sig]).
Proof.
  intros E Hu key_id. destruct (build_csr_inv k config h csr h' E Hu) as (pub & raw & sig & ? & ? & ? & ? & ->).
  exists pub, raw, sig. split_and!; [done..|]. intros Hs Hr Hg.
  by apply der_read_one, csr_tree_fits.
Qed.

Module Sample.
(** An HSM with one key, whose signature is the first two bytes of the data. *)
#[export] Instance one_key : HsmInterface unit := {|
  hsm_initialize h := (SUCCESS, h);
  hsm_generate_key_pair id alg h := ((SUCCESS, mkKeyPair id alg [x04; x01] true ModeHSM false), h);
  hsm_sign id data h := ((SUCCESS, take 2 data), h);
  hsm_sign_digest id data h := ((SUCCESS, take 2 data), h);
  hsm_export_public_key id h := (SUCCESS, [x04; x01]);
  hsm_export_private_key id h := (NOT_IMPLEMENTED, []);
  hsm_key_exists id h := String.eqb id "ECU-1+ECU-1";
  hsm_delete_key id h := (SUCCESS, h);
  hsm_supports_ecdh_derive id h := true;
  hsm_supports_ecdsa_sign id h := true
|}.
#[export] Instance points : EcPoints := {| ec_point_uncompressed p := Some p |}.
Definition config : CsrConfig := mkCsrConfig "ECU-1" "ECU-1" "ecdsa-p256".
Definition request : bytes := (build_csr (mkKeyEngine true true) config tt).1.2.

Lemma csr_decodes_witness :
  length request = 205%nat /\
  exists pub raw sig,
    hsm_key_exists "ECU-1+ECU-1" tt = true /\ hsm_export_public_key "ECU-1+ECU-1" tt = (SUCCESS, pub) /\
    ec_point_uncompressed pub = Some raw /\
    hsm_sign "ECU-1+ECU-1" (der_enc (info_tree "ECU-1" raw)) tt = ((SUCCESS, sig), tt) /\
    (str_size "ECU-1" <= 4096 -> zlen raw <= 4096 -> zlen sig <= 4096 ->
     der_read (length request) request = Some [csr_tree "ECU-1" raw sig]).
Proof.
  split; [reflexivity|].
  apply (csr_decodes (mkKeyEngine true true) config tt tt request); reflexivity.
Defined.
End Sample.
