(* ===== verification/SoftHsm.v ===== *)
(** * SoftFileHsm: the device key in software.
    Models [src/soft_file_hsm.cpp] / [include/soft_file_hsm.h]: key pairs kept in a
    store, the private half under a key-encryption key from a file, and a cache in
    memory. The store, the file, the clock and OpenSSL are parameters. *)
From S2P Require Import Prelude Errors Canonical Json Provider KeyEngine SoftFile.
From Stdlib Require Import Ascii.

(* --------------------------------------------------------------------- *)
(** ** Around the HSM                                                     *)
(* --------------------------------------------------------------------- *)

(** P-256 in OpenSSL. [EcPoint] is what [EC_POINT_oct2point] decodes octets to,
    which may be the point at infinity. [ECDH_compute_key] is [None] where the C
    function does not return a positive length. *)
Class P256 := {
  EcPoint : Type;
  EC_POINT_oct2point : bytes -> option EcPoint;
  EC_POINT_is_at_infinity : EcPoint -> bool;
  EC_POINT_is_on_curve : EcPoint -> bool;
  ECDH_compute_key : bytes -> EcPoint -> option bytes;
  ECDSA_verify : EcPoint -> bytes -> bytes -> bool
}.

(** The order of the group of P-256. *)
Definition p256_order : Z :=
  115792089210356248762697446949407573529996955224135760342422259061068512044369.

(** What [Store::load] does: a value, a [StoreException] with [kKeyNotFound], or
    another one. *)
Inductive StoreRead := Loaded (value : string) | KeyNotFound | ReadFailed.

(** The world of the HSM: its store ([None] and [false] where a call throws a
    [StoreException]), the random source, the key file, the clock in nanoseconds.
    [hs_key_file_exists] is [None], and [hs_key_file_permissions] false, when the
    [std::filesystem] call throws. A write to the key file may be short; the code
    does not look. The signatures of OpenSSL draw randomness. *)
Class HsmWorld (E : Type) := {
  hs_has : string -> E -> option bool;
  hs_load : string -> E -> StoreRead;
  hs_save : string -> string -> st E bool;
  hs_remove : string -> st E bool;
  hs_now_ns : E -> Z;
  hs_RAND_bytes : nat -> st E (option bytes);
  hs_EC_KEY_generate : st E (option (bytes * bytes));
  hs_ECDSA_sign : bytes -> bytes -> st E (option bytes);
  hs_ECDSA_do_sign : bytes -> bytes -> st E (option (Z * Z));
  hs_key_file_exists : E -> option bool;
  hs_key_file_read : E -> option bytes;
  hs_key_file_create_parent : st E unit;
  hs_key_file_open : st E bool;
  hs_key_file_write : bytes -> st E unit;
  hs_key_file_permissions : st E bool
}.

Definition AES_GCM_IV_SIZE : nat := 12.
Definition AES_GCM_TAG_SIZE : nat := 16.
Definition ENCRYPTION_KEY_SIZE : nat := 32.

(** [created_at] is in nanoseconds. *)
(** [src/include/soft_file_hsm.h:83-88] KeyData *)
Record KeyData := mkKeyData {
  kd_pub : bytes;
  kd_priv : bytes;
  kd_algorithm : string;
  kd_created_at : Z
}.

(** The members, together with the world. *)
(** [src/include/soft_file_hsm.h:78-90] SoftFileHsm members *)
Record SoftFileHsm (E : Type) := mkSoftHsm {
  sh_encryption_algo : string;
  sh_encryption_key : bytes;
  sh_keys : gmap string KeyData;
  sh_world : E
}.
Arguments mkSoftHsm {E}.
Arguments sh_encryption_algo {E}. Arguments sh_encryption_key {E}.
Arguments sh_keys {E}. Arguments sh_world {E}.

Definition sh_with_key {E} k (s : SoftFileHsm E) : SoftFileHsm E :=
  mkSoftHsm (sh_encryption_algo s) k (sh_keys s) (sh_world s).
Definition sh_with_keys {E} m (s : SoftFileHsm E) : SoftFileHsm E :=
  mkSoftHsm (sh_encryption_algo s) (sh_encryption_key s) m (sh_world s).
Definition sh_with_world {E} w (s : SoftFileHsm E) : SoftFileHsm E :=
  mkSoftHsm (sh_encryption_algo s) (sh_encryption_key s) (sh_keys s) w.

(** Run a call of the world from a call of the HSM. *)
Definition in_world {E A} (m : st E A) : st (SoftFileHsm E) A :=
  fun s => let '(a, w) := m (sh_world s) in (a, sh_with_world w s).

(* --------------------------------------------------------------------- *)
(** ** Texts                                                              *)
(* --------------------------------------------------------------------- *)

(** [src/src/soft_file_hsm.cpp:895-899] is_valid_key_id *)
Definition is_valid_key_id (key_id : string) : bool :=
  negb (str_contains ".." key_id) && negb (str_contains "/" key_id) &&
  negb (str_contains "\" key_id).

(** [src/src/soft_file_hsm.cpp:901-910] bytes_to_hex *)
Definition bytes_to_hex (b : bytes) : string := toHex b.

(** [strtoul] in base 16: white space, a sign, [0x] before a digit, digits; [None]
    is [std::invalid_argument]. The arguments have at most two characters, so the
    value fits. *)
Definition hex_value (c : ascii) : option Z :=
  let n := Z.of_N (N_of_ascii c) in
  if (48 <=? n) && (n <=? 57) then Some (n - 48)
  else if (65 <=? n) && (n <=? 70) then Some (n - 55)
  else if (97 <=? n) && (n <=? 102) then Some (n - 87)
  else None.
Fixpoint hex_digits_value (acc : Z) (s : string) : Z :=
  match s with
  | String c s => match hex_value c with Some d => hex_digits_value (acc * 16 + d) s | None => acc end
  | EmptyString => acc
  end.
Definition hex_number (s : string) : option Z :=
  let s := match s with
    | String "0" (String "x" (String c r)) | String "0" (String "X" (String c r)) =>
        match hex_value c with Some _ => String c r | None => s end
    | _ => s
    end in
  match s with
  | String c _ => match hex_value c with Some _ => Some (hex_digits_value 0 s) | None => None end
  | EmptyString => None
  end.
Definition is_space (c : ascii) : bool :=
  let n := Z.of_N (N_of_ascii c) in (n =? 32) || ((9 <=? n) && (n <=? 13)).
Fixpoint stoul16 (s : string) : option Z :=
  match s with
  | String c r =>
      if is_space c then stoul16 r
      else if ascii_dec c "-" then (fun z => wrapu 64 (- z)) <$> hex_number r
      else if ascii_dec c "+" then hex_number r
      else hex_number s
  | EmptyString => None
  end.

(** [src/src/soft_file_hsm.cpp:912-919] hex_to_bytes *)
Fixpoint hex_to_bytes (hex : string) : option bytes :=
  match hex with
  | String h (String l hex) =>
      v ← stoul16 (String h (String l "")); r ← hex_to_bytes hex; Some (byte_of v :: r)
  | String h EmptyString => v ← stoul16 (String h ""); Some [byte_of v]
  | EmptyString => Some []
  end.

(** [metadata.at(k)]. *)
Definition json_at `{Json} (j : json) (k : string) : option json :=
  if json_is_object j then json_get j k else None.

Definition key_metadata_name (key_id : string) : string := "key_metadata_" ++ key_id.
Definition encrypted_key_name (key_id : string) : string := "encrypted_private_key_" ++ key_id.

Section Operations.
Context {E : Type} `{World : HsmWorld E} `{Ec : P256} `{Crypto : SoftFileCrypto} `{Hash : Sha256}
  `{J : Json}.
Implicit Types s : SoftFileHsm E.

(* --------------------------------------------------------------------- *)
(** ** The key that encrypts                                              *)
(* --------------------------------------------------------------------- *)

(** [v.resize(n)]. *)
Definition resize (n : nat) (v : bytes) : bytes := take n v ++ replicate (n - length v) x00.

(** [None]: the [filesystem_error] of [fs::permissions] leaves the function. *)
(** [src/src/soft_file_hsm.cpp:850-872] generate_encryption_key *)
Definition generate_encryption_key : st (SoftFileHsm E) (option ErrorCode) := fun s =>
  let '(r, s) := in_world (hs_RAND_bytes ENCRYPTION_KEY_SIZE) s in
  match r with
  | None => (Some INTERNAL_ERROR,
      sh_with_key (resize ENCRYPTION_KEY_SIZE (sh_encryption_key s)) s)
  | Some k =>
      let s := sh_with_key k s in
      let '(_, s) := in_world hs_key_file_create_parent s in
      let '(opened, s) := in_world hs_key_file_open s in
      if negb opened then (Some STORAGE_WRITE_FAILED, s) else
      let '(_, s) := in_world (hs_key_file_write k) s in
      let '(ok, s) := in_world hs_key_file_permissions s in
      (if ok then Some SUCCESS else None, s)
  end.

(** [src/src/soft_file_hsm.cpp:874-886] load_encryption_key *)
Definition load_encryption_key : st (SoftFileHsm E) ErrorCode := fun s =>
  match hs_key_file_read (sh_world s) with
  | None => (STORAGE_READ_FAILED, s)
  | Some content =>
      if (length content <? ENCRYPTION_KEY_SIZE)%nat
      then (STORAGE_CORRUPTION, sh_with_key [] s)
      else (SUCCESS, sh_with_key (take ENCRYPTION_KEY_SIZE content) s)
  end.

(** [src/src/soft_file_hsm.cpp:83-95] initialize *)
Definition initialize : st (SoftFileHsm E) (option ErrorCode) := fun s =>
  match hs_key_file_exists (sh_world s) with
  | None => (None, s)
  | Some true => let '(rc, s) := load_encryption_key s in (Some rc, s)
  | Some false => generate_encryption_key s
  end.

(** [src/src/soft_file_hsm.cpp:751-798] encrypt_private_key *)
Definition encrypt_private_key (plain_key : bytes) : st (SoftFileHsm E) (res bytes) := fun s =>
  if negb (length (sh_encryption_key s) =? ENCRYPTION_KEY_SIZE)%nat then (Err INTERNAL_ERROR, s) else
  let '(r, s) := in_world (hs_RAND_bytes AES_GCM_IV_SIZE) s in
  match r with
  | None => (Err INTERNAL_ERROR, s)
  | Some iv =>
      match gcm_seal (sh_encryption_key s) iv [] plain_key with
      | None => (Err INTERNAL_ERROR, s)
      | Some (ct, tag) => (Ok (iv ++ ct ++ tag), s)
      end
  end.

(** [src/src/soft_file_hsm.cpp:800-848] decrypt_private_key *)
Definition decrypt_private_key (encrypted_key : bytes) s : res bytes :=
  if negb (length (sh_encryption_key s) =? ENCRYPTION_KEY_SIZE)%nat then Err INTERNAL_ERROR else
  if (length encrypted_key <? AES_GCM_IV_SIZE + AES_GCM_TAG_SIZE)%nat then Err STORAGE_CORRUPTION else
  let iv := take AES_GCM_IV_SIZE encrypted_key in
  let rest := drop AES_GCM_IV_SIZE encrypted_key in
  let ct_len := (length encrypted_key - AES_GCM_IV_SIZE - AES_GCM_TAG_SIZE)%nat in
  match gcm_open (sh_encryption_key s) iv [] (take ct_len rest) (drop ct_len rest) with
  | None => Err STORAGE_CORRUPTION
  | Some plain => Ok plain
  end.

(* --------------------------------------------------------------------- *)
(** ** Keys in the store                                                  *)
(* --------------------------------------------------------------------- *)

(** [src/src/soft_file_hsm.cpp:691-696] save_key_to_store, metadata *)
Definition key_metadata (key_id : string) (kd : KeyData) : json := json_of_fields
  [("key_id"%string, json_string key_id);
   ("algorithm"%string, json_string (kd_algorithm kd));
   ("created_at"%string, json_int (Z.quot (kd_created_at kd) 1000000000));
   ("public_key"%string, json_string (bytes_to_hex (kd_pub kd)))].

(** [src/src/soft_file_hsm.cpp:678-707] save_key_to_store *)
Definition save_key_to_store (key_id : string) (kd : KeyData) : st (SoftFileHsm E) ErrorCode :=
  fun s =>
  let '(r, s) := encrypt_private_key (kd_priv kd) s in
  match r with
  | Err rc => (rc, s)
  | Ok encrypted_key =>
      let '(ok, s) := in_world (hs_save (encrypted_key_name key_id) (bytes_to_hex encrypted_key)) s in
      if negb ok then (STORAGE_WRITE_FAILED, s) else
      let '(ok, s) := in_world (hs_save (key_metadata_name key_id)
                        (json_dump (key_metadata key_id kd))) s in
      (if ok then SUCCESS else STORAGE_WRITE_FAILED, s)
  end.

(** What a [StoreException] of [load] becomes. *)
(** [src/src/soft_file_hsm.cpp:733-741] load_key_from_store, StoreException *)
Definition store_read (r : StoreRead) : res string :=
  match r with
  | Loaded v => Ok v
  | KeyNotFound => Err KEY_NOT_FOUND
  | ReadFailed => Err STORAGE_READ_FAILED
  end.

(** What any other exception becomes. *)
(** [src/src/soft_file_hsm.cpp:742-748] load_key_from_store, std::exception *)
Definition or_corrupt {A} (o : option A) : res A :=
  match o with Some a => Ok a | None => Err STORAGE_CORRUPTION end.

Definition res_bind {A B} (m : res A) (k : A -> res B) : res B :=
  match m with Ok a => k a | Err rc => Err rc end.
#[local] Notation "x <-r m ; k" := (res_bind m (fun x => k))
  (at level 100, m at next level, right associativity).

(** [src/src/soft_file_hsm.cpp:709-749] load_key_from_store *)
Definition load_key_from_store (key_id : string) s : res KeyData :=
  match hs_has (key_metadata_name key_id) (sh_world s) with
  | None => Err STORAGE_READ_FAILED
  | Some false => Err KEY_NOT_FOUND
  | Some true =>
      json_str <-r store_read (hs_load (key_metadata_name key_id) (sh_world s));
      metadata <-r or_corrupt (json_parse json_str);
      algorithm <-r or_corrupt (json_at metadata "algorithm" ≫= as_string);
      pub_hex <-r or_corrupt (json_at metadata "public_key" ≫= as_string);
      pub <-r or_corrupt (hex_to_bytes pub_hex);
      enc_hex <-r store_read (hs_load (encrypted_key_name key_id) (sh_world s));
      encrypted_key <-r or_corrupt (hex_to_bytes enc_hex);
      priv <-r decrypt_private_key encrypted_key s;
      ts <-r or_corrupt (json_at metadata "created_at" ≫= as_int);
      Ok (mkKeyData pub priv algorithm (wrap_i64 ts * 1000000000))
  end.

(** The lookup the operations below begin with. *)
(** [src/src/soft_file_hsm.cpp:163-170] sign, lookup *)
Definition find_key (key_id : string) : st (SoftFileHsm E) (res KeyData) := fun s =>
  match sh_keys s !! key_id with
  | Some kd => (Ok kd, s)
  | None =>
      match load_key_from_store key_id s with
      | Err rc => (Err rc, s)
      | Ok kd => (Ok kd, sh_with_keys (<[key_id := kd]> (sh_keys s)) s)
      end
  end.

(* --------------------------------------------------------------------- *)
(** ** Operations                                                         *)
(* --------------------------------------------------------------------- *)

(** [src/src/soft_file_hsm.cpp:97-152] generate_key_pair *)
Definition generate_key_pair (key_id algorithm : string) :
    st (SoftFileHsm E) (ErrorCode * KeyPair) := fun s =>
  if negb (is_valid_key_id key_id) then ((INVALID_PARAMETER, KeyPair_default), s) else
  match sh_keys s !! key_id with
  | Some _ => ((KEY_ALREADY_EXISTS, KeyPair_default), s)
  | None =>
      let created_at := hs_now_ns (sh_world s) in
      let '(r, s) := in_world hs_EC_KEY_generate s in
      match r with
      | None => ((KEY_GENERATION_FAILED, KeyPair_default), s)
      | Some (priv, pub) =>
          let kd := mkKeyData pub priv algorithm created_at in
          let '(rc, s) := save_key_to_store key_id kd s in
          if negb (is_success rc) then ((rc, KeyPair_default), s) else
          ((SUCCESS, mkKeyPair key_id algorithm pub true ModeSOFT_FILE false),
           sh_with_keys (<[key_id := kd]> (sh_keys s)) s)
      end
  end.

(** An out-parameter is meaningful with [SUCCESS] only; it is empty otherwise. *)
(** [src/src/soft_file_hsm.cpp:154-204] sign *)
Definition sign (key_id : string) (data : bytes) : st (SoftFileHsm E) (ErrorCode * bytes) := fun s =>
  if negb (is_valid_key_id key_id) then ((INVALID_PARAMETER, []), s) else
  let '(r, s) := find_key key_id s in
  match r with
  | Err rc => ((rc, []), s)
  | Ok kd =>
      match EC_POINT_oct2point (kd_pub kd) with
      | None => ((HSM_KEY_GENERATION_FAILED, []), s)
      | Some _ =>
          let '(sig, s) := in_world (hs_ECDSA_sign (kd_priv kd) (sha256 data)) s in
          (match sig with Some g => (SUCCESS, g) | None => (HSM_SIGN_FAILED, []) end, s)
      end
  end.

(** [src/src/soft_file_hsm.cpp:206-248] sign_digest *)
Definition sign_digest (key_id : string) (digest : bytes) : st (SoftFileHsm E) (ErrorCode * bytes) :=
  fun s =>
  if negb (is_valid_key_id key_id) then ((INVALID_PARAMETER, []), s) else
  if negb (zlen digest =? 32) then ((INVALID_PARAMETER, []), s) else
  let '(r, s) := find_key key_id s in
  match r with
  | Err rc => ((rc, []), s)
  | Ok kd =>
      let '(sig, s) := in_world (hs_ECDSA_sign (kd_priv kd) digest) s in
      (match sig with Some g => (SUCCESS, g) | None => (HSM_SIGN_FAILED, []) end, s)
  end.

(** [BN_bn2binpad(v, to, 32) == 32]. *)
Definition BN_bn2binpad32 (v : Z) : option bytes :=
  if (0 <=? v) && (v <? 2 ^ 256) then Some (be_bytes 32 v) else None.

(** [src/src/soft_file_hsm.cpp:291-331] sign_digest_p1363, low-S and encoding *)
Definition p1363_of_sig (r s : Z) : option bytes :=
  if (r <? 0) || (s <? 0) || (r =? 0) || (s =? 0) || (p256_order <=? r) || (p256_order <=? s)
  then None else
  let half := Z.shiftr p256_order 1 in
  let s_norm := if half <? s then p256_order - s else s in
  a ← BN_bn2binpad32 r; b ← BN_bn2binpad32 s_norm; Some (a ++ b).

(** [src/src/soft_file_hsm.cpp:250-332] sign_digest_p1363 *)
Definition sign_digest_p1363 (key_id : string) (digest : bytes) :
    st (SoftFileHsm E) (ErrorCode * bytes) := fun s =>
  if negb (is_valid_key_id key_id) then ((INVALID_PARAMETER, []), s) else
  if negb (zlen digest =? 32) then ((INVALID_PARAMETER, []), s) else
  let '(r, s) := find_key key_id s in
  match r with
  | Err rc => ((rc, []), s)
  | Ok kd =>
      let '(sig, s) := in_world (hs_ECDSA_do_sign (kd_priv kd) digest) s in
      (match sig ≫= (fun rs => p1363_of_sig rs.1 rs.2) with
       | Some g => (SUCCESS, g)
       | None => (HSM_SIGN_FAILED, [])
       end, s)
  end.

(** The HKDF of this file is the text of the one in the soft-file provider. *)
(** [src/src/soft_file_hsm.cpp:32-66] hkdf_sha256 *)
Definition hsm_hkdf_sha256 (ikm salt info : bytes) (out_len : nat) : bytes :=
  hkdf_sha256 ikm salt info out_len.

(** The decryption both unwrappings end with. With an empty ciphertext the count
    kept from [EVP_DecryptUpdate] is that of the associated data, and the result is
    resized to it. *)
(** [src/src/soft_file_hsm.cpp:514-540] unwrap_ecdh_es_v1, decryption *)
Definition open_wrapped (kek nonce aad ciphertext tag : bytes) : ErrorCode * bytes :=
  match gcm_open kek nonce aad ciphertext tag with
  | None => (WRAPPED_KEY_INVALID, [])
  | Some plain =>
      (SUCCESS, if bytes_empty ciphertext then replicate (length aad) x00 else plain)
  end.

(** [src/src/soft_file_hsm.cpp:334-434] unwrap_ecdh_es *)
Definition unwrap_ecdh_es (recipient_key_id : string)
    (ephemeral_public_key iv ciphertext_and_tag aad : bytes) :
    st (SoftFileHsm E) (ErrorCode * bytes) := fun s =>
  if negb (is_valid_key_id recipient_key_id) then ((INVALID_PARAMETER, []), s) else
  if bytes_empty ephemeral_public_key || negb (zlen iv =? 12) || (zlen ciphertext_and_tag <? 16)
  then ((INVALID_PARAMETER, []), s) else
  let '(r, s) := find_key recipient_key_id s in
  match r with
  | Err rc => ((rc, []), s)
  | Ok kd =>
      match EC_POINT_oct2point (kd_pub kd), EC_POINT_oct2point ephemeral_public_key with
      | Some _, Some eph =>
          match ECDH_compute_key (kd_priv kd) eph with
          | None => ((WRAPPED_KEY_INVALID, []), s)
          | Some shared =>
              let kek := hsm_hkdf_sha256 shared [] aad ENCRYPTION_KEY_SIZE in
              let ct_len := (length ciphertext_and_tag - AES_GCM_TAG_SIZE)%nat in
              (open_wrapped kek iv aad (take ct_len ciphertext_and_tag)
                 (drop ct_len ciphertext_and_tag), s)
          end
      | _, _ => ((WRAPPED_KEY_INVALID, []), s)
      end
  end.

(** [src/src/soft_file_hsm.cpp:436-541] unwrap_ecdh_es_v1 *)
Definition unwrap_ecdh_es_v1 (recipient_key_id : string)
    (server_ephemeral_public_key hkdf_salt hkdf_info nonce ciphertext authentication_tag aad : bytes) :
    st (SoftFileHsm E) (ErrorCode * bytes) := fun s =>
  if negb (is_valid_key_id recipient_key_id) then ((INVALID_PARAMETER, []), s) else
  if negb (zlen server_ephemeral_public_key =? 65) || negb (zlen nonce =? 12) ||
     negb (zlen authentication_tag =? 16) || negb (zlen hkdf_salt =? 32)
  then ((WRAPPED_KEY_INVALID, []), s) else
  let '(r, s) := find_key recipient_key_id s in
  match r with
  | Err rc => ((rc, []), s)
  | Ok kd =>
      match EC_POINT_oct2point (kd_pub kd), EC_POINT_oct2point server_ephemeral_public_key with
      | Some _, Some eph =>
          if EC_POINT_is_at_infinity eph || negb (EC_POINT_is_on_curve eph)
          then ((WRAPPED_KEY_INVALID, []), s) else
          match ECDH_compute_key (kd_priv kd) eph with
          | None => ((WRAPPED_KEY_INVALID, []), s)
          | Some shared =>
              let kek := hsm_hkdf_sha256 shared hkdf_salt hkdf_info ENCRYPTION_KEY_SIZE in
              (open_wrapped kek nonce aad ciphertext authentication_tag, s)
          end
      | _, _ => ((WRAPPED_KEY_INVALID, []), s)
      end
  end.

(** [src/src/soft_file_hsm.cpp:543-549] supports_ecdh_derive *)
Definition supports_ecdh_derive (key_id : string) s : bool :=
  is_valid_key_id key_id &&
  match sh_keys s !! key_id with
  | Some _ => true
  | None => match load_key_from_store key_id s with Ok _ => true | Err _ => false end
  end.

(** [src/src/soft_file_hsm.cpp:551-557] supports_ecdsa_sign *)
Definition supports_ecdsa_sign (key_id : string) s : bool := supports_ecdh_derive key_id s.

(** [src/src/soft_file_hsm.cpp:559-601] verify *)
Definition verify (key_id : string) (data signature : bytes) :
    st (SoftFileHsm E) (ErrorCode * bool) := fun s =>
  if negb (is_valid_key_id key_id) then ((INVALID_PARAMETER, false), s) else
  let '(r, s) := find_key key_id s in
  match r with
  | Err rc => ((rc, false), s)
  | Ok kd =>
      match EC_POINT_oct2point (kd_pub kd) with
      | None => ((HSM_KEY_GENERATION_FAILED, false), s)
      | Some pt => ((SUCCESS, ECDSA_verify pt (sha256 data) signature), s)
      end
  end.

(** [src/src/soft_file_hsm.cpp:603-622] export_public_key *)
Definition export_public_key (key_id : string) : st (SoftFileHsm E) (ErrorCode * bytes) := fun s =>
  if negb (is_valid_key_id key_id) then ((INVALID_PARAMETER, []), s) else
  let '(r, s) := find_key key_id s in
  (match r with Err rc => (rc, []) | Ok kd => (SUCCESS, kd_pub kd) end, s).

(** [src/src/soft_file_hsm.cpp:624-634] key_exists *)
Definition key_exists (key_id : string) s : bool :=
  is_valid_key_id key_id &&
  match sh_keys s !! key_id with
  | Some _ => true
  | None => default false (hs_has (key_metadata_name key_id) (sh_world s))
  end.

(** [src/src/soft_file_hsm.cpp:636-661] delete_key *)
Definition delete_key (key_id : string) : st (SoftFileHsm E) ErrorCode := fun s =>
  if negb (is_valid_key_id key_id) then (INVALID_PARAMETER, s) else
  let s := sh_with_keys (delete key_id (sh_keys s)) s in
  let '(ok, s) := in_world (hs_remove (encrypted_key_name key_id)) s in
  if negb ok then (STORAGE_WRITE_FAILED, s) else
  let '(ok, s) := in_world (hs_remove (key_metadata_name key_id)) s in
  (if ok then SUCCESS else STORAGE_WRITE_FAILED, s).

(** [src/src/soft_file_hsm.cpp:663-665] get_status *)
Definition get_status s : string := "SoftFile HSM (store, algo=" ++ sh_encryption_algo s ++ ")".

(** [src/src/soft_file_hsm.cpp:667-676] export_private_key *)
Definition export_private_key (key_id : string) s : ErrorCode * bytes := (NOT_IMPLEMENTED, []).

(** [src/src/soft_file_hsm.cpp:68-73] SoftFileHsm *)
Definition soft_hsm_new (encryption_algo : string) (w : E) : SoftFileHsm E :=
  mkSoftHsm encryption_algo [] ∅ w.
End Operations.
