(* ===== verification/SoftHsmProps.v ===== *)
(** * SoftFileHsm: what the store holds is a key pair, and it stays one.
    The metadata is the commit marker of a key: whichever call of the store fails,
    and however often the process restarts, a key that can be loaded is the pair
    that was generated. *)
From S2P Require Import Prelude Errors Canonical Json Provider KeyEngine SoftFile SoftHsm.
From Stdlib Require Import Ascii.

(* --------------------------------------------------------------------- *)
(** ** Hexadecimal                                                        *)
(* --------------------------------------------------------------------- *)

Lemma stoul16_byte b :
  stoul16 (String (hex_digit (Z.shiftr (bval b) 4)) (String (hex_digit (Z.land (bval b) 15)) "")) =
  Some (bval b).
Proof. destruct b; reflexivity. Qed.

Lemma hex_to_bytes_to_hex p : hex_to_bytes (bytes_to_hex p) = Some p.
Proof.
  induction p as [|b p IH]; [done|]. unfold bytes_to_hex in *.
  change (toHex (b :: p)) with (String (hex_digit (Z.shiftr (bval b) 4))
    (String (hex_digit (Z.land (bval b) 15)) (toHex p))).
  cbn [hex_to_bytes]. rewrite stoul16_byte, IH. cbn. by rewrite byte_of_bval.
Qed.

(* --------------------------------------------------------------------- *)
(** ** What the world promises                                            *)
(* --------------------------------------------------------------------- *)

(** The values in the store. A call that fails may have had its effect or not; no
    other key changes. The other calls leave the store alone, and only the calls
    on the key file change the key file. *)
Class HsmStore (E : Type) `{World : HsmWorld E} := {
  hs_view : E -> gmap string string;
  hs_has_view k e b : hs_has k e = Some b -> b = bool_decide (is_Some (hs_view e !! k));
  hs_load_view k e v : hs_load k e = Loaded v -> hs_view e !! k = Some v;
  hs_save_view k v e b e' : hs_save k v e = (b, e') ->
    hs_view e' = <[k := v]> (hs_view e) \/ b = false /\ hs_view e' = hs_view e;
  hs_remove_view k e b e' : hs_remove k e = (b, e') ->
    hs_view e' = delete k (hs_view e) \/ b = false /\ hs_view e' = hs_view e;
  hs_rand_view n e : hs_view (hs_RAND_bytes n e).2 = hs_view e;
  hs_generate_view e : hs_view (hs_EC_KEY_generate e).2 = hs_view e;
  hs_sign_view k d e : hs_view (hs_ECDSA_sign k d e).2 = hs_view e;
  hs_do_sign_view k d e : hs_view (hs_ECDSA_do_sign k d e).2 = hs_view e;
  hs_save_file k v e : hs_key_file_read (hs_save k v e).2 = hs_key_file_read e;
  hs_remove_file k e : hs_key_file_read (hs_remove k e).2 = hs_key_file_read e;
  hs_rand_file n e : hs_key_file_read (hs_RAND_bytes n e).2 = hs_key_file_read e;
  hs_generate_file e : hs_key_file_read (hs_EC_KEY_generate e).2 = hs_key_file_read e;
  hs_sign_file k d e : hs_key_file_read (hs_ECDSA_sign k d e).2 = hs_key_file_read e;
  hs_do_sign_file k d e : hs_key_file_read (hs_ECDSA_do_sign k d e).2 = hs_key_file_read e;
  hs_exists_read e b : hs_key_file_exists e = Some b -> b = false -> hs_key_file_read e = None;
  hs_rand_length n e v e' : hs_RAND_bytes n e = (Some v, e') -> length v = n;
  hs_now_range e : is_i64 (hs_now_ns e)
}.

(** [ec_public d] is the uncompressed point of the private scalar [d]. *)
Class P256Group `{Ec : P256} := {
  ec_public : bytes -> option bytes;
  ec_public_point d p : ec_public d = Some p -> length p = 65%nat /\ head p = Some x04 /\
    exists P, EC_POINT_oct2point p = Some P /\ EC_POINT_is_at_infinity P = false /\
      EC_POINT_is_on_curve P = true;
  ec_agreement a b pa pb A B :
    ec_public a = Some pa -> ec_public b = Some pb ->
    EC_POINT_oct2point pa = Some A -> EC_POINT_oct2point pb = Some B ->
    ECDH_compute_key a B = ECDH_compute_key b A
}.

(** What OpenSSL generates is a pair, and what it signs it verifies. *)
Class EcdsaLaws (E : Type) `{World : HsmWorld E} `{Ec : P256} `{G : !P256Group} : Prop := {
  generate_pair e priv pub e' : hs_EC_KEY_generate e = (Some (priv, pub), e') ->
    ec_public priv = Some pub;
  sign_verifies e d p P m g e' : ec_public d = Some p -> EC_POINT_oct2point p = Some P ->
    hs_ECDSA_sign d m e = (Some g, e') -> ECDSA_verify P m g = true
}.

Lemma key_names_ne a b : key_metadata_name a <> encrypted_key_name b.
Proof. by unfold key_metadata_name, encrypted_key_name. Qed.

#[global] Instance key_metadata_name_inj : Inj (=) (=) key_metadata_name.
Proof. intros a b H. unfold key_metadata_name in H. by simplify_eq/=. Qed.
#[global] Instance encrypted_key_name_inj : Inj (=) (=) encrypted_key_name.
Proof. intros a b H. unfold encrypted_key_name in H. by simplify_eq/=. Qed.

Section Keys.
Context {E : Type} `{World : HsmWorld E} `{Ec : P256} `{G : !P256Group} `{Store : !HsmStore E}
  `{Laws : !EcdsaLaws E} `{Crypto : SoftFileCrypto} `{Hash : Sha256} `{J : Json} `{JL : !JsonLaws J}.
Implicit Types s : SoftFileHsm E.

(** The text [t] is the private key of [kd] under the key [kek]. *)
Definition seals (kek : bytes) (kd : KeyData) (t : string) : Prop :=
  exists iv ct tag, length iv = AES_GCM_IV_SIZE /\ gcm_seal kek iv [] (kd_priv kd) = Some (ct, tag) /\
    t = bytes_to_hex (iv ++ ct ++ tag).

(** A pair whose time of creation the metadata can carry. *)
Definition pair_ok (kd : KeyData) : Prop :=
  ec_public (kd_priv kd) = Some (kd_pub kd) /\ is_i64 (Z.quot (kd_created_at kd) 1000000000).

(** The entries of the store for [id] are those of [kd]. *)
Definition stored_as (kek : bytes) (v : gmap string string) (id : string) (kd : KeyData) : Prop :=
  v !! key_metadata_name id = Some (json_dump (key_metadata id kd)) /\
  exists t, v !! encrypted_key_name id = Some t /\ seals kek kd t.

(** The entries of [id] are those of a pair, or one of them is missing. *)
Definition entry_ok (kek : bytes) (v : gmap string string) (id : string) : Prop :=
  v !! key_metadata_name id = None \/ v !! encrypted_key_name id = None \/
  exists kd, pair_ok kd /\ stored_as kek v id kd.

(** The state of an HSM that runs with the key [kek], seen from the key [id]: the key file holds
    [kek], what the store can load for [id] is a pair, and the cache holds what the store holds. *)
Record hsm_inv (kek : bytes) (id : string) s : Prop := {
  hi_key : sh_encryption_key s = kek /\ length kek = ENCRYPTION_KEY_SIZE;
  hi_file : exists c, hs_key_file_read (sh_world s) = Some (kek ++ c);
  hi_entries : entry_ok kek (hs_view (sh_world s)) id;
  hi_cache kd : sh_keys s !! id = Some kd ->
    pair_ok kd /\ stored_as kek (hs_view (sh_world s)) id kd
}.

(** What a reload makes of a key: its time of creation in whole seconds. *)
Definition reloaded (kd : KeyData) : KeyData :=
  mkKeyData (kd_pub kd) (kd_priv kd) (kd_algorithm kd)
    (Z.quot (kd_created_at kd) 1000000000 * 1000000000).

Lemma reloaded_ok kek v id kd :
  pair_ok kd /\ stored_as kek v id kd -> pair_ok (reloaded kd) /\ stored_as kek v id (reloaded kd).
Proof.
  intros [[Hp Ht] (Hm & t & Hs & Hseal)].
  assert (Hq : Z.quot (Z.quot (kd_created_at kd) 1000000000 * 1000000000) 1000000000 =
    Z.quot (kd_created_at kd) 1000000000) by (apply Z.quot_mul; lia).
  unfold pair_ok, stored_as, reloaded, key_metadata. cbn. rewrite Hq. split; [done|].
  split; [done|]. exists t. by split.
Qed.

(** Opening what [seals] describes. *)
Lemma decrypt_seals kek kd t s :
  sh_encryption_key s = kek -> length kek = ENCRYPTION_KEY_SIZE -> seals kek kd t ->
  exists b, hex_to_bytes t = Some b /\ decrypt_private_key b s = Ok (kd_priv kd).
Proof.
  intros Hk Hl (iv & ct & tag & Hiv & Hseal & ->).
  pose proof (gcm_seal_tag _ _ _ _ _ _ Hseal) as Htag. apply gcm_open_seal in Hseal.
  exists (iv ++ ct ++ tag). rewrite hex_to_bytes_to_hex. split; [done|].
  unfold decrypt_private_key. rewrite Hk, Hl, Nat.eqb_refl. cbn [negb].
  rewrite !length_app, Hiv, Htag. unfold AES_GCM_IV_SIZE, AES_GCM_TAG_SIZE in *.
  destruct (Nat.ltb_spec (12 + (length ct + 16)) (12 + 16)); [lia|].
  replace (12 + (length ct + 16) - 12 - 16)%nat with (length ct) by lia.
  rewrite <- Hiv at 1. rewrite take_app_length, <- Hiv, drop_app_length.
  by rewrite take_app_length, drop_app_length, Hseal.
Qed.

(** A stored key is read back when the store answers. *)
Lemma load_stored kek id kd s :
  sh_encryption_key s = kek -> length kek = ENCRYPTION_KEY_SIZE -> pair_ok kd ->
  stored_as kek (hs_view (sh_world s)) id kd ->
  load_key_from_store id s = Ok (reloaded kd) \/
  hs_has (key_metadata_name id) (sh_world s) <> Some true \/
  (forall v, hs_load (key_metadata_name id) (sh_world s) <> Loaded v) \/
  (forall v, hs_load (encrypted_key_name id) (sh_world s) <> Loaded v).
Proof.
  intros Hk Hl [_ Ht] (Hm & t & Hs & Hseal). unfold load_key_from_store.
  destruct (hs_has _ _) as [[]|]; [|by auto..].
  destruct (hs_load (key_metadata_name id) _) as [v| |] eqn:Ev; [|auto; right; right; left; congruence..].
  apply hs_load_view in Ev. rewrite Hm in Ev. injection Ev as <-.
  destruct (hs_load (encrypted_key_name id) _) as [v| |] eqn:Ev;
    [|right; right; right; congruence..].
  apply hs_load_view in Ev. rewrite Hs in Ev. injection Ev as <-. left.
  cbn [store_read res_bind]. rewrite json_parse_dump. cbn [or_corrupt res_bind].
  unfold json_at, key_metadata. rewrite json_of_fields_object, !json_of_fields_get. cbn -[json_of_fields].
  rewrite !as_string_string, as_int_int by auto. cbn [or_corrupt res_bind].
  rewrite hex_to_bytes_to_hex. cbn [or_corrupt res_bind].
  destruct (decrypt_seals kek kd t s Hk Hl Hseal) as (b & -> & Hb). cbn [or_corrupt res_bind].
  rewrite Hb. cbn [res_bind]. by rewrite wrap_i64_small.
Qed.

Lemma load_paired kek id kd s :
  hsm_inv kek id s -> load_key_from_store id s = Ok kd ->
  pair_ok kd /\ stored_as kek (hs_view (sh_world s)) id kd.
Proof.
  intros I Hload. destruct (hi_key _ _ _ I) as [Hk Hl].
  assert (Hreads : exists m t, hs_has (key_metadata_name id) (sh_world s) = Some true /\
    hs_load (key_metadata_name id) (sh_world s) = Loaded m /\
    hs_load (encrypted_key_name id) (sh_world s) = Loaded t).
  { unfold load_key_from_store, store_read, res_bind in Hload.
    repeat step_in Hload; simplify_eq; eauto. }
  destruct Hreads as (m & t & Hh & Hm & Ht).
  destruct (hi_entries _ _ _ I) as [E0|[E0|(kd0 & Hp & Hs)]].
  - apply hs_load_view in Hm. congruence.
  - apply hs_load_view in Ht. congruence.
  - destruct (load_stored kek id kd0 s Hk Hl Hp Hs) as [E0|[E0|[E0|E0]]];
      [|congruence|by destruct (E0 m)|by destruct (E0 t)].
    rewrite Hload in E0. injection E0 as ->. by apply reloaded_ok.
Qed.

(** The lookup may fill the cache; it changes nothing else. *)
Lemma find_key_inv kek id id' s r s' :
  hsm_inv kek id s -> find_key id' s = (r, s') ->
  hsm_inv kek id s' /\ sh_world s' = sh_world s /\
  (id' = id -> forall kd, r = Ok kd -> pair_ok kd /\ stored_as kek (hs_view (sh_world s)) id kd).
Proof.
  intros I. unfold find_key. destruct (sh_keys s !! id') as [kd|] eqn:Ek.
  { intros [= <- <-]. split; [done|]. split; [done|]. intros -> ? [= <-]. by apply I. }
  destruct (load_key_from_store id' s) as [kd|rc] eqn:El; intros [= <- <-]; [|done].
  assert (Hp : id' = id -> pair_ok kd /\ stored_as kek (hs_view (sh_world s)) id kd).
  { intros ->. by apply load_paired. }
  split; [|split; [done|intros Hid ? [= <-]; by apply Hp]].
  split; [apply I..|]. intros kd'. cbn. intros [[-> <-]|[_ Hc]]%lookup_insert_Some; [by apply Hp|].
  by apply I.
Qed.

(** Calls of the world that leave the store and the key file alone. *)
Lemma in_world_inv {A} (m : st E A) kek id s a s' :
  (forall e, hs_view (m e).2 = hs_view e) ->
  (forall e, hs_key_file_read (m e).2 = hs_key_file_read e) ->
  hsm_inv kek id s -> in_world m s = (a, s') ->
  hsm_inv kek id s' /\ hs_view (sh_world s') = hs_view (sh_world s) /\ sh_keys s' = sh_keys s /\
  a = (m (sh_world s)).1.
Proof.
  intros Hv Hf I. unfold in_world. specialize (Hv (sh_world s)). specialize (Hf (sh_world s)).
  destruct (m (sh_world s)) as [b w]. cbn in *. intros [= <- <-]. split; [|done].
  split; cbn; rewrite ?Hv, ?Hf; apply I.
Qed.

Lemma entry_ok_agree kek v v' id :
  v' !! key_metadata_name id = v !! key_metadata_name id ->
  v' !! encrypted_key_name id = v !! encrypted_key_name id ->
  entry_ok kek v id -> entry_ok kek v' id.
Proof. unfold entry_ok, stored_as. by intros -> ->. Qed.

Lemma stored_as_agree kek v v' id kd :
  v' !! key_metadata_name id = v !! key_metadata_name id ->
  v' !! encrypted_key_name id = v !! encrypted_key_name id ->
  stored_as kek v id kd -> stored_as kek v' id kd.
Proof. unfold stored_as. by intros -> ->. Qed.

(** The entries of the key changed while it is not cached. *)
Lemma inv_change kek s id w' :
  hsm_inv kek id s -> sh_keys s !! id = None ->
  hs_key_file_read w' = hs_key_file_read (sh_world s) ->
  entry_ok kek (hs_view w') id ->
  hsm_inv kek id (sh_with_world w' s).
Proof.
  intros I Hc Hf He. split; cbn; [apply I|rewrite Hf; apply I|done|]. intros kd. by rewrite Hc.
Qed.

(** The entries of a key are as they were. *)
Definition same_entries (id : string) s s' : Prop :=
  hs_view (sh_world s') !! key_metadata_name id = hs_view (sh_world s) !! key_metadata_name id /\
  hs_view (sh_world s') !! encrypted_key_name id = hs_view (sh_world s) !! encrypted_key_name id.

(** A call on another key. *)
Record elsewhere (id : string) s s' : Prop := {
  el_entries : same_entries id s s';
  el_key : sh_encryption_key s' = sh_encryption_key s;
  el_file : hs_key_file_read (sh_world s') = hs_key_file_read (sh_world s);
  el_cache : sh_keys s' !! id = sh_keys s !! id
}.
Lemma elsewhere_refl id s : elsewhere id s s.
Proof. by constructor. Qed.
Lemma elsewhere_trans id s1 s2 s3 : elsewhere id s1 s2 -> elsewhere id s2 s3 -> elsewhere id s1 s3.
Proof. intros [[] ? ? ?] [[] ? ? ?]. constructor; [split|..]; congruence. Qed.

Lemma inv_elsewhere kek id s s' : hsm_inv kek id s -> elsewhere id s s' -> hsm_inv kek id s'.
Proof.
  intros I [[Em Ee] Hk Hf Hc]. split; [rewrite Hk; apply I|rewrite Hf; apply I| |].
  - eapply entry_ok_agree; [done..|apply I].
  - intros kd. rewrite Hc. intros Hkd. destruct (hi_cache _ _ _ I _ Hkd) as [Hp Hs]. split; [done|].
    by eapply stored_as_agree.
Qed.

Lemma in_world_eq {A} (m : st E A) s a w :
  m (sh_world s) = (a, w) -> in_world m s = (a, sh_with_world w s).
Proof. intros Em. unfold in_world. by rewrite Em. Qed.

Lemma sh_with_world_twice (w w' : E) s : sh_with_world w (sh_with_world w' s) = sh_with_world w s.
Proof. done. Qed.

Lemma encrypt_spec kek id plain s r s' :
  hsm_inv kek id s -> encrypt_private_key plain s = (r, s') ->
  hsm_inv kek id s' /\ hs_view (sh_world s') = hs_view (sh_world s) /\ sh_keys s' = sh_keys s /\
  forall b, r = Ok b -> exists iv ct tag, length iv = AES_GCM_IV_SIZE /\
    gcm_seal kek iv [] plain = Some (ct, tag) /\ b = iv ++ ct ++ tag.
Proof.
  intros I. unfold encrypt_private_key. destruct (hi_key _ _ _ I) as [Hk Hl].
  rewrite Hk, Hl, Nat.eqb_refl. cbn [negb].
  destruct (in_world (hs_RAND_bytes AES_GCM_IV_SIZE) s) as [iv s1] eqn:Er.
  assert (Hiv : forall v, iv = Some v -> length v = AES_GCM_IV_SIZE).
  { intros v ->. unfold in_world in Er. destruct (hs_RAND_bytes _ _) as [x w] eqn:Ex.
    injection Er as -> _. by eapply hs_rand_length. }
  destruct (in_world_inv _ _ _ _ _ _ (hs_rand_view _) (hs_rand_file _) I Er) as (I1 & Hv1 & Hk1 & _).
  destruct (hi_key _ _ _ I1) as [-> _].
  destruct iv as [iv|]; [|by intros [= <- <-]].
  destruct (gcm_seal kek iv [] plain) as [[ct tag]|] eqn:Es; intros [= <- <-]; [|done].
  split; [done|]. split; [done|]. split; [done|]. intros b [= <-]. exists iv, ct, tag. auto.
Qed.

Lemma encrypt_fails plain s s' : encrypt_private_key plain s <> (Err SUCCESS, s').
Proof.
  unfold encrypt_private_key. destruct (negb _); [done|]. destruct (in_world _ s) as [[iv|] s1]; [|done].
  by destruct (gcm_seal _ _ _ _) as [[? ?]|].
Qed.

(** One [save] of the store. *)
Lemma in_world_save s n v ok s' :
  in_world (hs_save n v) s = (ok, s') ->
  exists w, s' = sh_with_world w s /\ hs_key_file_read w = hs_key_file_read (sh_world s) /\
    (hs_view w = <[n := v]> (hs_view (sh_world s)) \/ ok = false /\ hs_view w = hs_view (sh_world s)).
Proof.
  unfold in_world. pose proof (hs_save_file n v (sh_world s)) as Hf.
  destruct (hs_save n v (sh_world s)) as [b w] eqn:Es. cbn in Hf. apply hs_save_view in Es.
  intros [= <- <-]. by exists w.
Qed.

(** Writing a new key: without its metadata nothing is stored, with it the whole pair is. *)
Lemma save_key_spec kek id kd s rc s' :
  hsm_inv kek id s -> sh_keys s !! id = None -> pair_ok kd ->
  hs_view (sh_world s) !! key_metadata_name id = None ->
  save_key_to_store id kd s = (rc, s') ->
  hsm_inv kek id s' /\ sh_keys s' = sh_keys s /\
  (stored_as kek (hs_view (sh_world s')) id kd \/
   rc <> SUCCESS /\ hs_view (sh_world s') !! key_metadata_name id = None).
Proof.
  intros I Hc Hp Hm. unfold save_key_to_store.
  destruct (encrypt_private_key (kd_priv kd) s) as [r s1] eqn:Er.
  destruct (encrypt_spec _ _ _ _ _ _ I Er) as (I1 & Hv1 & Hk1 & Hb).
  rewrite <- Hk1 in Hc |- *. rewrite <- Hv1 in Hm.
  destruct r as [b|e]; [|intros [= <- <-]; split; [done|]; split; [done|]; right; split; [|done];
    by intros -> ; apply (encrypt_fails _ _ _ Er)].
  destruct (Hb b eq_refl) as (iv & ct & tag & Hiv & Hseal & ->).
  destruct (in_world (hs_save (encrypted_key_name id) _) s1) as [ok s2] eqn:E2.
  apply in_world_save in E2 as (w2 & -> & F2 & E2).
  assert (Hm2 : hs_view w2 !! key_metadata_name id = None).
  { destruct E2 as [->|[_ ->]]; [|done]. rewrite lookup_insert_ne; [done|].
    intros Hx. symmetry in Hx. by apply key_names_ne in Hx. }
  destruct ok; cbn [negb].
  2: { intros [= <- <-]. split; [|split; [done|by right]].
    apply (inv_change kek s1 id); [done..|by left]. }
  destruct E2 as [E2|[? _]]; [|done].
  destruct (in_world (hs_save (key_metadata_name id) _) _) as [ok s3] eqn:E3.
  apply in_world_save in E3 as (w3 & -> & F3 & E3). cbn in F3, E3.
  assert (Hw3 : stored_as kek (hs_view w3) id kd \/
    ok = false /\ hs_view w3 !! key_metadata_name id = None).
  { destruct E3 as [E3|[-> E3]]; [left|right; split; [done|congruence]].
    split; [by rewrite E3, lookup_insert_eq|]. exists (bytes_to_hex (iv ++ ct ++ tag)).
    rewrite E3, lookup_insert_ne by apply key_names_ne. rewrite E2, lookup_insert_eq.
    split; [done|]. by exists iv, ct, tag. }
  intros [= <- <-]. split; [|split; [done|]].
  - rewrite sh_with_world_twice. apply (inv_change kek s1 id); [done|done|congruence|].
    destruct Hw3 as [Hw3|[_ Hw3]]; [|by left]. right; right. by exists kd.
  - cbn. destruct Hw3 as [?|[-> ?]]; [by left|]. right. by split.
Qed.

(* --------------------------------------------------------------------- *)
(** ** Histories                                                          *)
(* --------------------------------------------------------------------- *)

(** A generation for [id] now would go over a key of that name in the store: the guard of
    [generate_key_pair] looks at the cache alone. *)
Definition replaces (id : string) s : Prop :=
  sh_keys s !! id = None /\ is_Some (hs_view (sh_world s) !! key_metadata_name id).

(** What a call may do to a key in the store. *)
Inductive hsm_effect := Keeps | Removes (id : string) | Overwrites (id : string).

(** The calls on the HSM, by anyone and in any order. [RestartHsm] is a new process over the
    same world. *)
Inductive hsm_step : hsm_effect -> SoftFileHsm E -> SoftFileHsm E -> Prop :=
  | GenerateStep id alg s : ~ replaces id s -> hsm_step Keeps s (generate_key_pair id alg s).2
  | OverwriteStep id alg s : replaces id s -> hsm_step (Overwrites id) s (generate_key_pair id alg s).2
  | SignStep id data s : hsm_step Keeps s (sign id data s).2
  | SignDigestStep id d s : hsm_step Keeps s (sign_digest id d s).2
  | SignRawStep id d s : hsm_step Keeps s (sign_digest_p1363 id d s).2
  | UnwrapStep id eph iv ct aad s : hsm_step Keeps s (unwrap_ecdh_es id eph iv ct aad s).2
  | UnwrapV1Step id eph salt info nonce ct tag aad s :
      hsm_step Keeps s (unwrap_ecdh_es_v1 id eph salt info nonce ct tag aad s).2
  | VerifyStep id data sig s : hsm_step Keeps s (verify id data sig s).2
  | ExportStep id s : hsm_step Keeps s (export_public_key id s).2
  | DeleteStep id s : hsm_step (Removes id) s (delete_key id s).2
  | RestartHsm algo s s' :
      initialize (soft_hsm_new algo (sh_world s)) = (Some SUCCESS, s') -> hsm_step Keeps s s'.

(** The guard of the engine, which generates only where [key_exists] denies the key, rules an
    overwriting out, unless the store's [has] throws at that moment: then [key_exists] denies
    every key that is not cached. *)
Lemma key_exists_guards id s :
  is_valid_key_id id = true -> key_exists id s = false ->
  hs_has (key_metadata_name id) (sh_world s) <> None -> ~ replaces id s.
Proof.
  intros Hv Hx Ha [Hc [m Hm]]. revert Hx. unfold key_exists. rewrite Hv, Hc. cbn [andb].
  destruct (hs_has _ _) as [[]|] eqn:Eh; [done| |done]. apply hs_has_view in Eh.
  rewrite Hm in Eh. by rewrite bool_decide_eq_true_2 in Eh.
Qed.

(** What a generation leaves: the pair in the store and in the cache, or no key. *)
Lemma generate_spec kek id alg s rc kp s' :
  hsm_inv kek id s -> sh_keys s !! id = None -> hs_view (sh_world s) !! key_metadata_name id = None ->
  generate_key_pair id alg s = ((rc, kp), s') ->
  hsm_inv kek id s' /\
  match rc with
  | SUCCESS => exists kd, sh_keys s' !! id = Some kd /\ kp_public_key kp = kd_pub kd /\
      kd_algorithm kd = alg
  | _ => sh_keys s' = sh_keys s
  end /\
  (rc <> SUCCESS -> hs_view (sh_world s') !! key_metadata_name id = None \/
    exists kd, pair_ok kd /\ stored_as kek (hs_view (sh_world s')) id kd).
Proof.
  intros I Hc Hm. unfold generate_key_pair.
  destruct (negb (is_valid_key_id id)); [intros [= <- <- <-]; by auto|]. rewrite Hc.
  destruct (in_world hs_EC_KEY_generate s) as [r s1] eqn:Er.
  destruct (in_world_inv _ _ _ _ _ _ hs_generate_view hs_generate_file I Er) as (I1 & Hv1 & Hk1 & Ha).
  rewrite <- Hk1 in Hc |- *. rewrite <- Hv1 in Hm.
  destruct r as [[priv pub]|]; [|intros [= <- <- <-]; by auto].
  set (kd := mkKeyData pub priv alg (hs_now_ns (sh_world s))).
  assert (Hp : pair_ok kd).
  { split; cbn.
    - destruct (hs_EC_KEY_generate (sh_world s)) as [o w] eqn:Eg. cbn in Ha. subst o.
      by eapply generate_pair.
    - pose proof (hs_now_range (sh_world s)). unfold is_i64 in *.
      Z.to_euclidean_division_equations; lia. }
  destruct (save_key_to_store id kd s1) as [rc1 s2] eqn:Es.
  destruct (save_key_spec _ _ _ _ _ _ I1 Hc Hp Hm Es) as (I2 & Hk2 & Hs).
  destruct (is_success rc1) eqn:Erc; cbn [negb].
  - apply is_success_true in Erc. subst rc1. intros [= <- <- <-].
    destruct Hs as [Hs|[? _]]; [|done]. split; [|split; [|done]].
    + split; [apply I2..|]. intros kd'. cbn. rewrite lookup_insert_eq. by intros [= <-].
    + exists kd. cbn. by rewrite lookup_insert_eq.
  - intros [= <- <- <-]. split; [done|]. split.
    + destruct rc1; try exact Hk2. by rewrite (proj2 (is_success_true SUCCESS)) in Erc.
    + intros _. destruct Hs as [Hs|[_ Hs]]; [right; by exists kd|by left].
Qed.

(** One [remove] of the store. *)
Lemma in_world_remove s n ok s' :
  in_world (hs_remove n) s = (ok, s') ->
  exists w, s' = sh_with_world w s /\ hs_key_file_read w = hs_key_file_read (sh_world s) /\
    (hs_view w = delete n (hs_view (sh_world s)) \/ ok = false /\ hs_view w = hs_view (sh_world s)).
Proof.
  unfold in_world. pose proof (hs_remove_file n (sh_world s)) as Hf.
  destruct (hs_remove n (sh_world s)) as [b w] eqn:Es. cbn in Hf. apply hs_remove_view in Es.
  intros [= <- <-]. by exists w.
Qed.

(** Removing one of the two entries of a key. *)
Lemma remove_inv kek id n s ok s' :
  hsm_inv kek id s -> sh_keys s !! id = None ->
  n = encrypted_key_name id \/ n = key_metadata_name id ->
  in_world (hs_remove n) s = (ok, s') -> hsm_inv kek id s' /\ sh_keys s' = sh_keys s.
Proof.
  intros I Hc Hn (w & -> & Hf & Hv)%in_world_remove. split; [|done].
  apply (inv_change kek s id); [done..|].
  destruct Hv as [->|[_ ->]]; [|apply I].
  destruct Hn as [->| ->]; [right; left|left]; by rewrite lookup_delete_eq.
Qed.

Lemma forget_inv kek id s : hsm_inv kek id s -> hsm_inv kek id (sh_with_keys (delete id (sh_keys s)) s).
Proof.
  intros I. split; cbn; [apply I..|]. intros kd [_ Hk]%lookup_delete_Some. by apply I.
Qed.

Lemma delete_inv kek id s : hsm_inv kek id s -> hsm_inv kek id (delete_key id s).2.
Proof.
  intros I. unfold delete_key. destruct (negb _); [done|]. apply (forget_inv kek id) in I.
  assert (Hc : sh_keys (sh_with_keys (delete id (sh_keys s)) s) !! id = None)
    by (cbn; by rewrite lookup_delete_eq).
  destruct (in_world (hs_remove (encrypted_key_name id)) _) as [ok s1] eqn:E1.
  apply (remove_inv kek id) in E1 as [I1 Hk1]; [|done..|by left]. rewrite <- Hk1 in Hc.
  destruct ok; [|done]. cbn [negb].
  destruct (in_world (hs_remove (key_metadata_name id)) _) as [ok s2] eqn:E2.
  by apply (remove_inv kek id) in E2 as [I2 _]; [|done..|by right].
Qed.

(** A process that starts finds its key in the file. *)
Lemma restart_inv kek id algo s s' :
  hsm_inv kek id s -> initialize (soft_hsm_new algo (sh_world s)) = (Some SUCCESS, s') ->
  hsm_inv kek id s' /\ sh_world s' = sh_world s /\ sh_keys s' = ∅.
Proof.
  intros I. destruct (hi_file _ _ _ I) as [c Hf]. destruct (hi_key _ _ _ I) as [_ Hl].
  unfold initialize, soft_hsm_new. cbn [sh_world].
  destruct (hs_key_file_exists (sh_world s)) as [[]|] eqn:Ex; [| |done].
  - unfold load_encryption_key. cbn [sh_world]. rewrite Hf.
    destruct (Nat.ltb_spec (length (kek ++ c)) ENCRYPTION_KEY_SIZE) as [H|H]; [done|].
    intros [= <-]. split; [|done]. split; cbn.
    + by rewrite take_app_length'.
    + by exists c.
    + apply I.
    + done.
  - apply hs_exists_read in Ex; [congruence|done].
Qed.

Lemma sign_world_inv kek id priv d s o s' :
  hsm_inv kek id s -> in_world (hs_ECDSA_sign priv d) s = (o, s') -> hsm_inv kek id s'.
Proof. intros I H. by eapply in_world_inv in H as (? & _); [|apply hs_sign_view|apply hs_sign_file|]. Qed.
Lemma do_sign_world_inv kek id priv d s o s' :
  hsm_inv kek id s -> in_world (hs_ECDSA_do_sign priv d) s = (o, s') -> hsm_inv kek id s'.
Proof.
  intros I H. by eapply in_world_inv in H as (? & _); [|apply hs_do_sign_view|apply hs_do_sign_file|].
Qed.

(** After the lookup the rest of a call keeps the state or signs. *)
Ltac after_lookup kek key :=
  match goal with I : hsm_inv kek key ?s |- context [find_key ?id ?s] =>
    let r := fresh "r" in let s1 := fresh "s" in let Ef := fresh "Ef" in let I1 := fresh "I" in
    destruct (find_key id s) as [r s1] eqn:Ef;
    destruct (find_key_inv kek key id s r s1 I Ef) as (I1 & _ & _)
  end;
  repeat first [done | match goal with
    | |- context [in_world (hs_ECDSA_sign ?p ?d) ?s] =>
        let Ew := fresh in destruct (in_world (hs_ECDSA_sign p d) s) eqn:Ew;
        eapply sign_world_inv in Ew; [|done]
    | |- context [in_world (hs_ECDSA_do_sign ?p ?d) ?s] =>
        let Ew := fresh in destruct (in_world (hs_ECDSA_do_sign p d) s) eqn:Ew;
        eapply do_sign_world_inv in Ew; [|done]
    end | step_goal].

(** Calls of the world below a call of the HSM, seen from another key. *)
Lemma in_world_elsewhere {A} (m : st E A) id s a s' :
  (forall e, hs_view (m e).2 = hs_view e) ->
  (forall e, hs_key_file_read (m e).2 = hs_key_file_read e) ->
  in_world m s = (a, s') -> elsewhere id s s'.
Proof.
  intros Hv Hf. unfold in_world. specialize (Hv (sh_world s)). specialize (Hf (sh_world s)).
  destruct (m (sh_world s)) as [b w]. cbn in *. intros [= _ <-]. by split; [split; cbn; rewrite Hv|..].
Qed.

Lemma save_elsewhere id n v s ok s' : n <> key_metadata_name id -> n <> encrypted_key_name id ->
  in_world (hs_save n v) s = (ok, s') -> elsewhere id s s'.
Proof.
  intros H1 H2 (w & -> & Hf & Hv)%in_world_save. split; [|done..].
  destruct Hv as [Hv|[_ Hv]]; split; cbn; by rewrite Hv, ?lookup_insert_ne.
Qed.

Lemma remove_elsewhere id n s ok s' : n <> key_metadata_name id -> n <> encrypted_key_name id ->
  in_world (hs_remove n) s = (ok, s') -> elsewhere id s s'.
Proof.
  intros H1 H2 (w & -> & Hf & Hv)%in_world_remove. split; [|done..].
  destruct Hv as [Hv|[_ Hv]]; split; cbn; by rewrite Hv, ?lookup_delete_ne.
Qed.

Lemma other_names id id' : id <> id' ->
  key_metadata_name id' <> key_metadata_name id /\ key_metadata_name id' <> encrypted_key_name id /\
  encrypted_key_name id' <> key_metadata_name id /\ encrypted_key_name id' <> encrypted_key_name id.
Proof.
  intros Hne. pose proof (key_names_ne id' id). pose proof (key_names_ne id id').
  split_and!; [by intros ?%(inj _)|done|congruence|by intros ?%(inj _)].
Qed.

Lemma encrypt_elsewhere id plain s r s' : encrypt_private_key plain s = (r, s') -> elsewhere id s s'.
Proof.
  unfold encrypt_private_key. destruct (negb _); [intros [= _ <-]; apply elsewhere_refl|].
  destruct (in_world (hs_RAND_bytes _) s) as [o s1] eqn:Eo.
  apply (in_world_elsewhere _ id) in Eo; [|apply hs_rand_view|apply hs_rand_file].
  destruct o; [destruct (gcm_seal _ _ _ _) as [[? ?]|]|]; by intros [= _ <-].
Qed.

Lemma save_key_elsewhere id id' kd s rc s' :
  id <> id' -> save_key_to_store id' kd s = (rc, s') -> elsewhere id s s'.
Proof.
  intros Hne. destruct (other_names id id' Hne) as (N1 & N2 & N3 & N4). unfold save_key_to_store.
  destruct (encrypt_private_key _ s) as [[b|e] s1] eqn:E1; apply (encrypt_elsewhere id) in E1; [|by intros [= _ <-]].
  destruct (in_world (hs_save (encrypted_key_name id') _) s1) as [ok s2] eqn:E2.
  apply (save_elsewhere id) in E2; [|done..]. pose proof (elsewhere_trans _ _ _ _ E1 E2) as E12.
  destruct ok; cbn [negb]; [|by intros [= _ <-]].
  destruct (in_world (hs_save (key_metadata_name id') _) s2) as [ok s3] eqn:E3.
  apply (save_elsewhere id) in E3; [|done..]. intros [= _ <-]. by eapply elsewhere_trans.
Qed.

Lemma generate_elsewhere id id' alg s :
  id <> id' -> elsewhere id s (generate_key_pair id' alg s).2.
Proof.
  intros Hne. unfold generate_key_pair. destruct (negb _); [apply elsewhere_refl|].
  destruct (sh_keys s !! id'); [apply elsewhere_refl|].
  destruct (in_world hs_EC_KEY_generate s) as [[[priv pub]|] s1] eqn:E1;
    apply (in_world_elsewhere _ id) in E1; try apply hs_generate_view; try apply hs_generate_file; [|done].
  destruct (save_key_to_store _ _ s1) as [rc s2] eqn:E2.
  apply (save_key_elsewhere id) in E2; [|done]. pose proof (elsewhere_trans _ _ _ _ E1 E2) as E12.
  destruct (negb _); [done|]. destruct E12 as [? ? ? Hc]. split; cbn; [done..|]. by rewrite lookup_insert_ne.
Qed.

Lemma delete_elsewhere id id' s : id <> id' -> elsewhere id s (delete_key id' s).2.
Proof.
  intros Hne. destruct (other_names id id' Hne) as (N1 & N2 & N3 & N4).
  unfold delete_key. destruct (negb _); [apply elsewhere_refl|].
  set (s0 := sh_with_keys _ s). assert (E0 : elsewhere id s s0).
  { split; cbn; [done..|]. by rewrite lookup_delete_ne. }
  destruct (in_world (hs_remove (encrypted_key_name id')) s0) as [ok s1] eqn:E1.
  apply (remove_elsewhere id) in E1; [|done..]. pose proof (elsewhere_trans _ _ _ _ E0 E1) as E01.
  destruct ok; cbn [negb]; [|done].
  destruct (in_world (hs_remove (key_metadata_name id')) s1) as [ok s2] eqn:E2.
  apply (remove_elsewhere id) in E2; [|done..]. by eapply elsewhere_trans.
Qed.

(** A generation that goes over no key. *)
Lemma generate_inv kek id id' alg s :
  hsm_inv kek id s -> ~ replaces id' s -> hsm_inv kek id (generate_key_pair id' alg s).2.
Proof.
  intros I Hr. destruct (decide (id = id')) as [<-|Hne]; [|by eapply inv_elsewhere; [|apply generate_elsewhere]].
  destruct (sh_keys s !! id) as [kd|] eqn:Hc.
  { unfold generate_key_pair. rewrite Hc. by destruct (negb _). }
  assert (Hm : hs_view (sh_world s) !! key_metadata_name id = None).
  { apply eq_None_not_Some. intros Hx. by apply Hr. }
  destruct (generate_key_pair id alg s) as [[rc kp] s'] eqn:Eg. by eapply generate_spec.
Qed.

Lemma hsm_step_inv kek id l s s' : hsm_inv kek id s -> hsm_step l s s' -> l <> Overwrites id -> hsm_inv kek id s'.
Proof.
  intros I Hs Hl. destruct Hs as [id' alg s Hr|id' alg s _| | | | | | | |id' s|algo s s' Hr].
  - by apply generate_inv.
  - eapply inv_elsewhere; [done|]. apply generate_elsewhere. congruence.
  - unfold sign. destruct (negb _); [done|]. after_lookup kek id.
  - unfold sign_digest. destruct (negb _); [done|]. destruct (negb _); [done|]. after_lookup kek id.
  - unfold sign_digest_p1363. destruct (negb _); [done|]. destruct (negb _); [done|]. after_lookup kek id.
  - unfold unwrap_ecdh_es. destruct (negb _); [done|]. destruct (_ || _); [done|]. after_lookup kek id.
  - unfold unwrap_ecdh_es_v1. destruct (negb _); [done|]. destruct (_ || _); [done|]. after_lookup kek id.
  - unfold verify. destruct (negb _); [done|]. after_lookup kek id.
  - unfold export_public_key. destruct (negb _); [done|]. after_lookup kek id.
  - destruct (decide (id = id')) as [<-|Hne]; [by apply delete_inv|].
    by eapply inv_elsewhere; [|apply delete_elsewhere].
  - by eapply restart_inv.
Qed.

(** Calls that never generate [id] over a key of that name in the store; of these, calls that
    do not delete [id] either. *)
Definition hsm_history (id : string) : relation (SoftFileHsm E) :=
  rtc (fun s s' => exists l, hsm_step l s s' /\ l <> Overwrites id).
Definition hsm_history_sparing (id : string) : relation (SoftFileHsm E) :=
  rtc (fun s s' => exists l, hsm_step l s s' /\ l <> Overwrites id /\ l <> Removes id).

Lemma hsm_history_inv kek id s s' : hsm_inv kek id s -> hsm_history id s s' -> hsm_inv kek id s'.
Proof. intros I H. induction H as [|? ? ? (? & ? & ?)]; [done|]. eauto using hsm_step_inv. Qed.

(** Calls after the lookup leave the store alone. *)
Lemma find_key_world id s r s' : find_key id s = (r, s') -> sh_world s' = sh_world s.
Proof.
  unfold find_key. destruct (_ !! _); [by intros [= _ <-]|].
  by destruct (load_key_from_store id s); intros [= _ <-].
Qed.

Lemma in_world_view {A} (m : st E A) s a s' :
  (forall e, hs_view (m e).2 = hs_view e) -> in_world m s = (a, s') ->
  hs_view (sh_world s') = hs_view (sh_world s).
Proof.
  intros Hv. unfold in_world. specialize (Hv (sh_world s)). destruct (m (sh_world s)).
  by intros [= _ <-].
Qed.

Ltac same_view :=
  repeat match goal with |- context [if ?b then ((INVALID_PARAMETER, _), _) else _] => destruct b; [done|] end;
  try match goal with |- context [if ?b then ((WRAPPED_KEY_INVALID, _), _) else _] => destruct b; [done|] end;
  repeat first [done | match goal with
    | |- context [find_key ?id ?s] =>
        let Ef := fresh "Ef" in destruct (find_key id s) as [? ?] eqn:Ef;
        apply find_key_world in Ef; rewrite <- Ef
    | |- context [in_world (hs_ECDSA_sign ?p ?d) ?s] =>
        let Ew := fresh "Ew" in destruct (in_world (hs_ECDSA_sign p d) s) eqn:Ew;
        apply in_world_view in Ew; [|apply hs_sign_view]; cbn [snd]; rewrite Ew
    | |- context [in_world (hs_ECDSA_do_sign ?p ?d) ?s] =>
        let Ew := fresh "Ew" in destruct (in_world (hs_ECDSA_do_sign p d) s) eqn:Ew;
        apply in_world_view in Ew; [|apply hs_do_sign_view]; cbn [snd]; rewrite Ew
    end | step_goal].

Lemma same_view_entries id s s' :
  hs_view (sh_world s') = hs_view (sh_world s) -> same_entries id s s'.
Proof. intros E0. split; by rewrite E0. Qed.

(** A call that neither deletes nor overwrites a stored key leaves it as it is. *)
Lemma stored_kept kek id kd l s s' :
  hsm_inv kek id s -> hsm_step l s s' -> l <> Overwrites id -> l <> Removes id ->
  stored_as kek (hs_view (sh_world s)) id kd -> stored_as kek (hs_view (sh_world s')) id kd.
Proof.
  intros I Hs Ho Hl Hk.
  enough (He : same_entries id s s') by (destruct He; by eapply stored_as_agree).
  destruct Hs as [id' alg s Hx|id' alg s Hx| | | | | | | |id' s|algo s s' Hr].
  - destruct (decide (id = id')) as [<-|Hne]; [|by apply generate_elsewhere].
    destruct (sh_keys s !! id) as [kd'|] eqn:Hc.
    { unfold generate_key_pair. rewrite Hc. by destruct (negb _). }
    destruct Hx. split; [done|]. destruct Hk as [-> _]. by eexists.
  - apply generate_elsewhere. congruence.
  - apply same_view_entries. unfold sign. same_view.
  - apply same_view_entries. unfold sign_digest. same_view.
  - apply same_view_entries. unfold sign_digest_p1363. same_view.
  - apply same_view_entries. unfold unwrap_ecdh_es. same_view.
  - apply same_view_entries. unfold unwrap_ecdh_es_v1. same_view.
  - apply same_view_entries. unfold verify. same_view.
  - apply same_view_entries. unfold export_public_key. same_view.
  - apply delete_elsewhere. congruence.
  - eapply restart_inv in Hr as (_ & Hw & _); [|done]. apply same_view_entries. by rewrite Hw.
Qed.

Lemma stored_kept_history kek id kd s s' :
  hsm_inv kek id s -> hsm_history_sparing id s s' ->
  stored_as kek (hs_view (sh_world s)) id kd ->
  hsm_inv kek id s' /\ stored_as kek (hs_view (sh_world s')) id kd.
Proof.
  intros I H. induction H as [|s1 s2 s3 (l & Hs & Ho & Hl) _ IH]; [done|]. intros Hk.
  apply IH; [by eapply hsm_step_inv|]. by eapply stored_kept.
Qed.

(** The texts in the store determine the pair. *)
Lemma stored_as_inj kek v id kd kd' :
  stored_as kek v id kd -> stored_as kek v id kd' ->
  kd_pub kd = kd_pub kd' /\ kd_priv kd = kd_priv kd' /\ kd_algorithm kd = kd_algorithm kd'.
Proof.
  intros [Hm (t & Ht & iv & ct & tag & Hiv & Hs & ->)] [Hm' (t' & Ht' & iv' & ct' & tag' & Hiv' & Hs' & ->)].
  rewrite Hm in Hm'. injection Hm' as Hd. apply (f_equal json_parse) in Hd.
  rewrite !json_parse_dump in Hd. injection Hd as Hd.
  assert (Hg : forall k, json_get (key_metadata id kd) k = json_get (key_metadata id kd') k) by (by rewrite Hd).
  pose proof (Hg "public_key"%string) as Hp. pose proof (Hg "algorithm"%string) as Ha.
  unfold key_metadata in Hp, Ha. rewrite !json_of_fields_get in Hp, Ha. cbn in Hp, Ha.
  apply (f_equal (fun o => o ≫= as_string)) in Hp, Ha. cbn in Hp, Ha.
  rewrite !as_string_string in Hp, Ha. injection Hp as Hp. injection Ha as Ha.
  apply (f_equal hex_to_bytes) in Hp. rewrite !hex_to_bytes_to_hex in Hp. injection Hp as Hp.
  rewrite Ht in Ht'. injection Ht' as Ht'. apply (f_equal hex_to_bytes) in Ht'.
  rewrite !hex_to_bytes_to_hex in Ht'. injection Ht' as He.
  apply app_inj_1 in He as [<- He]; [|congruence].
  pose proof (gcm_seal_tag _ _ _ _ _ _ Hs). pose proof (gcm_seal_tag _ _ _ _ _ _ Hs').
  apply app_inj_2 in He as [<- <-]; [|congruence].
  apply gcm_open_seal in Hs, Hs'. split; [done|]. split; [congruence|done].
Qed.

(* --------------------------------------------------------------------- *)
(** ** A process that starts on a device without keys                     *)
(* --------------------------------------------------------------------- *)

(** [initialize] succeeded, no key is on record, and the key file holds the key in use (a
    short write of it goes unnoticed). *)
Definition hsm_started algo (w : E) s : Prop :=
  initialize (soft_hsm_new algo w) = (Some SUCCESS, s) /\
  (forall id, hs_view (sh_world s) !! key_metadata_name id = None) /\
  exists c, hs_key_file_read (sh_world s) = Some (sh_encryption_key s ++ c).

Lemma in_world_fields {A} (m : st E A) s a s' :
  in_world m s = (a, s') -> sh_keys s' = sh_keys s /\ sh_encryption_key s' = sh_encryption_key s.
Proof. unfold in_world. destruct (m _). by intros [= _ <-]. Qed.

Lemma initialize_fields algo w s :
  initialize (soft_hsm_new algo w) = (Some SUCCESS, s) ->
  sh_keys s = ∅ /\ length (sh_encryption_key s) = ENCRYPTION_KEY_SIZE.
Proof.
  unfold initialize. destruct (hs_key_file_exists _) as [[]|]; [| |done].
  - unfold load_encryption_key. destruct (hs_key_file_read _) as [c|]; [|done].
    destruct (Nat.ltb_spec (length c) ENCRYPTION_KEY_SIZE); [done|]. intros [= <-]. split; [done|].
    cbn. rewrite length_take. unfold ENCRYPTION_KEY_SIZE in *. lia.
  - unfold generate_encryption_key.
    destruct (in_world (hs_RAND_bytes _) _) as [[k|] s1] eqn:E1; [|done].
    assert (Hk : length k = ENCRYPTION_KEY_SIZE).
    { unfold in_world in E1. destruct (hs_RAND_bytes _ _) as [o e1] eqn:Eo. injection E1 as -> _.
      by eapply hs_rand_length. }
    apply in_world_fields in E1 as [K1 _].
    destruct (in_world hs_key_file_create_parent _) as [u2 s2] eqn:E2.
    apply in_world_fields in E2 as [K2 L2].
    destruct (in_world hs_key_file_open s2) as [[] s3] eqn:E3; [|done].
    apply in_world_fields in E3 as [K3 L3]. cbn [negb].
    destruct (in_world (hs_key_file_write k) s3) as [u4 s4] eqn:E4.
    apply in_world_fields in E4 as [K4 L4].
    destruct (in_world hs_key_file_permissions s4) as [[] s5] eqn:E5; [|done].
    apply in_world_fields in E5 as [K5 L5]. intros [= <-].
    rewrite K5, K4, K3, K2, L5, L4, L3, L2. cbn. by rewrite K1.
Qed.

Lemma started_inv algo w s id : hsm_started algo w s -> hsm_inv (sh_encryption_key s) id s.
Proof.
  intros (Hi & Hn & Hf). apply initialize_fields in Hi as [Hk Hl].
  split; [done|done|left; apply Hn|]. intros kd. by rewrite Hk.
Qed.

(** The lookup finds the key that is on record. *)
Lemma find_key_stored kek id kd s r s' :
  hsm_inv kek id s -> stored_as kek (hs_view (sh_world s)) id kd -> find_key id s = (r, s') ->
  forall kd', r = Ok kd' -> kd_pub kd' = kd_pub kd /\ kd_priv kd' = kd_priv kd.
Proof.
  intros I Hs Hf kd' ->. destruct (find_key_inv _ _ _ _ _ _ I Hf) as (_ & _ & Hr).
  destruct (Hr eq_refl kd' eq_refl) as [_ Hs']. by destruct (stored_as_inj _ _ _ _ _ Hs' Hs) as (? & ? & _).
Qed.

Lemma find_key_fails id s s' : find_key id s <> (Err SUCCESS, s').
Proof.
  unfold find_key. destruct (_ !! _); [done|].
  destruct (load_key_from_store id s) as [|e] eqn:El; [done|]. intros [= -> _].
  unfold load_key_from_store, store_read, or_corrupt, res_bind, decrypt_private_key in El.
  repeat step_in El; simplify_eq.
Qed.

Lemma sign_found kek id data sig s s' :
  hsm_inv kek id s -> sign id data s = ((SUCCESS, sig), s') ->
  hsm_inv kek id s' /\ is_valid_key_id id = true /\
  exists kd P, pair_ok kd /\ stored_as kek (hs_view (sh_world s')) id kd /\
    EC_POINT_oct2point (kd_pub kd) = Some P /\ ECDSA_verify P (sha256 data) sig = true.
Proof.
  intros I. unfold sign. destruct (is_valid_key_id id); [|done]. cbn [negb].
  destruct (find_key id s) as [[kd|rc] s1] eqn:Ef.
  2: { intros [= -> _ _]. by apply find_key_fails in Ef. }
  destruct (find_key_inv _ _ _ _ _ _ I Ef) as (I1 & Hw & Hr). destruct (Hr eq_refl kd eq_refl) as [Hp Hs].
  destruct (EC_POINT_oct2point (kd_pub kd)) as [P|] eqn:EP; [|done].
  destruct (in_world (hs_ECDSA_sign (kd_priv kd) (sha256 data)) s1) as [[g|] s2] eqn:Eg; [|done].
  intros [= <- <-]. pose proof (in_world_view _ _ _ _ (hs_sign_view _ _) Eg) as Hv.
  split; [by eapply sign_world_inv|]. split; [done|]. exists kd, P. rewrite Hv, Hw.
  split; [done|]. split; [done|]. split; [done|].
  unfold in_world in Eg. destruct (hs_ECDSA_sign _ _ _) as [o e] eqn:Eo. injection Eg as -> _.
  destruct Hp as [Hp _]. by eapply sign_verifies.
Qed.

(* --------------------------------------------------------------------- *)
(** ** Properties                                                         *)
(* --------------------------------------------------------------------- *)

(** C12. On a device that started without keys and wrote its key file whole, after any calls
    by anyone, in which any access to the store may have failed and the process may have
    restarted: a signature [sign] returned is accepted by every later [verify] that can load the key, through any further
    calls, failures and restarts that do not delete the key. One thing must not have happened
    to the key, before or after: a generation for it while the store held a key of its name
    that was not cached. The engine's guard [key_exists] rules that out
    ([key_exists_guards]) except at a moment when the store's [has] throws, which
    [key_exists] reports as no key. *)
Theorem signature_outlives_process algo w s0 s s1 s2 id data sig rc ok :
  hsm_started algo w s0 -> hsm_history id s0 s ->
  sign id data s = ((SUCCESS, sig), s1) -> hsm_history_sparing id s1 s2 ->
  (verify id data sig s2).1 = (rc, ok) -> rc = SUCCESS -> ok = true.
Proof.
  intros H0 Hh Hsign Hk Hv ->. pose proof (started_inv _ _ _ id H0) as I.
  apply (hsm_history_inv _ _ _ _ I) in Hh. clear I.
  destruct (sign_found _ _ _ _ _ _ Hh Hsign) as (I1 & Hid & kd & P & Hp & Hs & HP & Hok).
  destruct (stored_kept_history _ _ _ _ _ I1 Hk Hs) as [I2 Hs2].
  unfold verify in Hv. rewrite Hid in Hv. cbn [negb] in Hv.
  destruct (find_key id s2) as [[kd2|e] s3] eqn:Ef.
  - destruct (find_key_stored _ _ _ _ _ _ I2 Hs2 Ef kd2 eq_refl) as [Hpub _].
    cbn in Hv. rewrite Hpub, HP in Hv. cbn in Hv. congruence.
  - cbn in Hv. injection Hv as -> _. by apply find_key_fails in Ef.
Qed.

(** The store answers for the entries of [id]. *)
Definition readable (id : string) s : Prop :=
  hs_has (key_metadata_name id) (sh_world s) <> None /\
  forall n v, n = key_metadata_name id \/ n = encrypted_key_name id ->
    hs_view (sh_world s) !! n = Some v -> hs_load n (sh_world s) = Loaded v.

(** A whole key: what is exported is the public half of the private key found, and so every
    signature made with it is accepted under what is exported. *)
Definition whole_key (id : string) (pub : bytes) s : Prop :=
  (export_public_key id s).1 = (SUCCESS, pub) /\
  (exists kd s', find_key id s = (Ok kd, s') /\ kd_pub kd = pub /\ ec_public (kd_priv kd) = Some pub) /\
  exists P, EC_POINT_oct2point pub = Some P /\
    forall data sig s', sign id data s = ((SUCCESS, sig), s') -> ECDSA_verify P (sha256 data) sig = true.

Lemma find_stored kek id kd s :
  hsm_inv kek id s -> readable id s -> pair_ok kd -> stored_as kek (hs_view (sh_world s)) id kd ->
  exists kd' s', find_key id s = (Ok kd', s') /\ kd_pub kd' = kd_pub kd /\ kd_priv kd' = kd_priv kd.
Proof.
  intros I [Hh Hr] Hp Hs. destruct (hi_key _ _ _ I) as [Hk Hl].
  destruct (find_key id s) as [[kd'|e] s'] eqn:Ef.
  - exists kd', s'. split; [done|]. by eapply find_key_stored.
  - exfalso. unfold find_key in Ef. destruct (_ !! _); [done|].
    pose proof Hs as [Hm (t & Ht & _)].
    destruct (load_stored kek id kd s Hk Hl Hp Hs) as [E0|[E0|[E0|E0]]].
    + by rewrite E0 in Ef.
    + destruct (hs_has _ _) as [[]|] eqn:Eh; [done| |done]. apply hs_has_view in Eh.
      rewrite Hm, bool_decide_eq_true_2 in Eh; done.
    + by destruct (E0 (json_dump (key_metadata id kd))); apply Hr; auto.
    + by destruct (E0 t); apply Hr; auto.
Qed.

Lemma stored_whole kek id kd s :
  hsm_inv kek id s -> is_valid_key_id id = true -> readable id s -> pair_ok kd ->
  stored_as kek (hs_view (sh_world s)) id kd -> whole_key id (kd_pub kd) s.
Proof.
  intros I Hid Hr Hp Hs. destruct (find_stored _ _ _ _ I Hr Hp Hs) as (kd' & s' & Hf & Hpub & Hpriv).
  destruct Hp as [Hp _]. destruct (ec_public_point _ _ Hp) as (_ & _ & P & HP & _). split_and!.
  - unfold export_public_key. rewrite Hid, Hf. cbn. by rewrite Hpub.
  - exists kd', s'. by rewrite Hpub, Hpriv.
  - exists P. split; [done|]. intros data sig s2. unfold sign. rewrite Hid, Hf. cbn [negb].
    rewrite Hpub, HP, Hpriv. unfold in_world. destruct (hs_ECDSA_sign _ _ _) as [[g|] e] eqn:Eg; [|done].
    intros [= <- _]. by eapply sign_verifies.
Qed.

(** C26. The metadata commits a generation. On a device that started without keys and wrote its key
    file whole, after any calls in
    which the store may have failed and the process may have restarted, a generation is asked for
    [id], whatever it answers and whichever of its writes failed. The process that starts next finds,
    where its store can read the entries of [id]: after a success the key that was returned, whole;
    after a failure - a key of that name already cached among them - either no key, so that it can be
    generated, or one whole key. Whole means that the public half is that of the private half, so that
    signatures verify under what is exported. As in C12, neither this generation nor an earlier one may
    have gone over a key of that name which the store held and the cache did not. *)
Theorem generation_all_or_nothing algo algo' w s0 s s1 s2 id alg rc kp :
  hsm_started algo w s0 -> hsm_history id s0 s -> ~ replaces id s ->
  generate_key_pair id alg s = ((rc, kp), s1) ->
  initialize (soft_hsm_new algo' (sh_world s1)) = (Some SUCCESS, s2) -> readable id s2 ->
  match rc with
  | SUCCESS => whole_key id (kp_public_key kp) s2
  | _ => key_exists id s2 = false \/ exists pub, whole_key id pub s2
  end.
Proof.
  intros H0 Hh Hx Hg Hi Hr. pose proof (started_inv _ _ _ id H0) as I.
  apply (hsm_history_inv _ _ _ _ I) in Hh. clear I.
  destruct (is_valid_key_id id) eqn:Hid.
  2: { unfold generate_key_pair in Hg. rewrite Hid in Hg. cbn in Hg. injection Hg as <- <- <-.
    left. unfold key_exists. by rewrite Hid. }
  destruct (sh_keys s !! id) as [kd0|] eqn:Hc.
  { unfold generate_key_pair in Hg. rewrite Hid, Hc in Hg. cbn [negb] in Hg. injection Hg as <- <- <-.
    destruct (hi_cache _ _ _ Hh _ Hc) as [Hp Hs]. destruct (restart_inv _ _ _ _ _ Hh Hi) as (I2 & Hw & _).
    rewrite <- Hw in Hs. right. exists (kd_pub kd0). by eapply stored_whole. }
  assert (Hm : hs_view (sh_world s) !! key_metadata_name id = None).
  { apply eq_None_not_Some. intros Hs. by apply Hx. }
  destruct (generate_spec _ _ _ _ _ _ _ Hh Hc Hm Hg) as (I1 & Hok & Hbad).
  destruct (restart_inv _ _ _ _ _ I1 Hi) as (I2 & Hw & Hk2). rewrite <- Hw in Hbad.
  destruct (decide (rc = SUCCESS)) as [->|Hne].
  - destruct Hok as (kd & Hkd & -> & _). destruct (hi_cache _ _ _ I1 _ Hkd) as [Hp Hs].
    rewrite <- Hw in Hs. by eapply stored_whole.
  - enough (key_exists id s2 = false \/ exists pub, whole_key id pub s2) by by destruct rc.
    destruct (Hbad Hne) as [Hn|(kd & Hp & Hs)].
    + left. unfold key_exists. rewrite Hid, Hk2, lookup_empty. cbn [andb].
      destruct (hs_has _ _) as [[]|] eqn:Eh; [|done..]. apply hs_has_view in Eh.
      rewrite Hn in Eh. by rewrite bool_decide_eq_false_2 in Eh by (by intros [? ?]).
    + right. exists (kd_pub kd). by eapply stored_whole.
Qed.
End Keys.

(* --------------------------------------------------------------------- *)
(** ** Raw signatures                                                     *)
(* --------------------------------------------------------------------- *)

Lemma be_decode_be_bytes32 v : 0 <= v < 2 ^ 256 -> be_decode (be_bytes 32 v) = v.
Proof. intros H. rewrite be_decode_be_bytes. by apply Z.mod_small. Qed.

(** A pair is encoded exactly when both numbers are between 1 and the order. *)
Lemma p1363_of_sig_spec r t :
  match p1363_of_sig r t with
  | None => ~ (1 <= r < p256_order /\ 1 <= t < p256_order)
  | Some g => (1 <= r < p256_order /\ 1 <= t < p256_order) /\
      exists u, g = be_bytes 32 r ++ be_bytes 32 u /\ (u = t \/ u = p256_order - t) /\
        1 <= u <= p256_order / 2
  end.
Proof.
  assert (Ho : p256_order < 2 ^ 256) by done.
  assert (Hh : Z.shiftr p256_order 1 = p256_order / 2) by done.
  assert (Hodd : p256_order = 2 * (p256_order / 2) + 1) by done.
  unfold p1363_of_sig. destruct (_ || _) eqn:Eg.
  - intros [H1 H2]. repeat (apply orb_true_iff in Eg as [Eg|Eg]); lia.
  - bool_simpl. rewrite Hh. set (u := if p256_order / 2 <? t then p256_order - t else t).
    assert (Hu : (u = t \/ u = p256_order - t) /\ 1 <= u <= p256_order / 2).
    { unfold u. destruct (Z.ltb_spec (p256_order / 2) t); split; auto; lia. }
    assert (Hb : forall v, 1 <= v <= p256_order -> BN_bn2binpad32 v = Some (be_bytes 32 v)).
    { intros v Hv. unfold BN_bn2binpad32. destruct (Z.leb_spec 0 v); [|lia].
      destruct (Z.ltb_spec v (2 ^ 256)); [done|lia]. }
    rewrite (Hb r), (Hb u) by lia. cbn. split; [lia|]. by exists u.
Qed.

Section Raw.
Context {E : Type} `{World : HsmWorld E} `{Ec : P256} `{Crypto : SoftFileCrypto} `{Hash : Sha256}
  `{J : Json}.

(** What [sign_digest_p1363] returns is 64 bytes, [r] then [s], with [r] the number OpenSSL
    signed with and [s] its number or the negation of it, whichever is in the lower half of the
    group order. It is a signature of the key on record, and every signature OpenSSL makes with
    numbers in range is returned. *)
Theorem p1363_signature_canonical id digest (s s1 : SoftFileHsm E) kd r t w :
  is_valid_key_id id = true -> zlen digest = 32 -> find_key id s = (Ok kd, s1) ->
  hs_ECDSA_do_sign (kd_priv kd) digest (sh_world s1) = (Some (r, t), w) ->
  match sign_digest_p1363 id digest s with
  | ((SUCCESS, sig), _) => zlen sig = 64 /\ be_decode (take 32 sig) = r /\
      (be_decode (drop 32 sig) = t \/ be_decode (drop 32 sig) = p256_order - t) /\
      1 <= r < p256_order /\ 1 <= be_decode (drop 32 sig) <= p256_order / 2
  | ((rc, sig), _) => rc = HSM_SIGN_FAILED /\ sig = [] /\
      ~ (1 <= r < p256_order /\ 1 <= t < p256_order)
  end.
Proof.
  intros Hid Hd Hf Hs. unfold sign_digest_p1363. rewrite Hid, Hd, Hf. cbn [negb Z.eqb Pos.eqb].
  unfold in_world. rewrite Hs. cbn [mbind option_bind fst snd].
  pose proof (p1363_of_sig_spec r t) as Hp. destruct (p1363_of_sig r t) as [g|]; [|done].
  destruct Hp as [[Hr Ht] (u & -> & Hu & Hl)]. assert (Ho : p256_order < 2 ^ 256) by done.
  rewrite take_app_length', drop_app_length' by (by rewrite length_be_bytes).
  rewrite !be_decode_be_bytes32 by (assert (p256_order / 2 < p256_order) by done; lia).
  unfold zlen. rewrite length_app, !length_be_bytes. auto.
Qed.
End Raw.
