(* ===== verification/HsmSample.v ===== *)
(** * HsmSample: a software HSM to compute with.
    A store whose calls fail on a schedule, a key file, and a toy group in place of
    P-256; the witnesses of [SoftHsmProps], and four runs that show what the code does
    when a write is lost. *)
From S2P Require Import Prelude Errors Canonical Json Envelope Provider KeyEngine SoftFile SoftFileProps SoftHsm SoftHsmProps.

Module HsmSample.
Export JsonSample.
#[export] Existing Instance toy_sha256.
#[export] Existing Instance SoftFileSample.toy_crypto.

(** [hw_calls] are the outcomes of the next calls that write to the store; after them all
    succeed. [hw_blind] makes [has] throw; [hw_short] cuts the key file to eight bytes. *)
Record hworld := mkWorld {
  hw_store : gmap string string;
  hw_calls : list bool;
  hw_short : bool;
  hw_file : option bytes;
  hw_rng : Z
}.

Definition hw_with_store m l w := mkWorld m l (hw_short w) (hw_file w) (hw_rng w).
Definition hw_with_file c w :=
  mkWorld (hw_store w) (hw_calls w) (hw_short w) (Some c) (hw_rng w).
Definition hw_draw (w : hworld) : Z * hworld :=
  (hw_rng w, mkWorld (hw_store w) (hw_calls w) (hw_short w) (hw_file w) (hw_rng w + 1)).
Definition hw_change (f : gmap string string -> gmap string string) (w : hworld) : bool * hworld :=
  match hw_calls w with
  | [] => (true, hw_with_store (f (hw_store w)) [] w)
  | true :: l => (true, hw_with_store (f (hw_store w)) l w)
  | false :: l => (false, hw_with_store (hw_store w) l w)
  end.

(** Scalars count modulo 251, a point repeats its number. *)
Definition scalar (d : bytes) : Z := be_decode d mod 251.
Definition point (n : Z) : bytes := x04 :: replicate 64 (byte_of n).

#[export] Instance toy_p256 : P256 := {|
  EcPoint := bytes;
  EC_POINT_oct2point p :=
    if bool_decide (length p = 65%nat /\ head p = Some x04) then Some p else None;
  EC_POINT_is_at_infinity p := false;
  EC_POINT_is_on_curve p := true;
  ECDH_compute_key d p := Some (be_bytes 32 (scalar d * bval (nth 1 p x00)));
  ECDSA_verify p m g := bool_decide (g = nth 1 p x00 :: m)
|}.

#[export] Instance hworld_hsm : HsmWorld hworld := {|
  hs_has k w := Some (bool_decide (is_Some (hw_store w !! k)));
  hs_load k w := match hw_store w !! k with Some v => Loaded v | None => KeyNotFound end;
  hs_save k v := hw_change <[k := v]>;
  hs_remove k := hw_change (delete k);
  hs_now_ns w := 1700000000123456789;
  hs_RAND_bytes n w := let '(z, w) := hw_draw w in (Some (replicate n (byte_of z)), w);
  hs_EC_KEY_generate w := let '(z, w) := hw_draw w in
    (Some ([byte_of z], point (scalar [byte_of z])), w);
  hs_ECDSA_sign d m w := (Some (byte_of (scalar d) :: m), w);
  hs_ECDSA_do_sign d m w := (Some (scalar d + 1, p256_order - 5), w);
  hs_key_file_exists w := Some (bool_decide (is_Some (hw_file w)));
  hs_key_file_read := hw_file;
  hs_key_file_create_parent w := (tt, w);
  hs_key_file_open w := (true, hw_with_file [] w);
  hs_key_file_write k w := (tt, hw_with_file (if hw_short w then take 8 k else k) w);
  hs_key_file_permissions w := (true, w)
|}.

Lemma point_decodes n : EC_POINT_oct2point (point n) = Some (point n).
Proof.
  unfold EC_POINT_oct2point, toy_p256. rewrite bool_decide_eq_true_2; [done|].
  by split; [cbn; rewrite ?length_replicate|].
Qed.

#[export] Program Instance toy_group : P256Group := {| ec_public d := Some (point (scalar d)) |}.
Next Obligation.
  intros d p [= <-]. split; [done|]. split; [done|]. exists (point (scalar d)).
  split; [apply point_decodes|done].
Qed.
Next Obligation.
  intros a b pa pb A B [= <-] [= <-] HA HB.
  assert (Hp : forall d P, EC_POINT_oct2point (point (scalar d)) = Some P -> bval (nth 1 P x00) = scalar d).
  { intros d P. rewrite point_decodes. intros [= <-]. cbn. rewrite bval_byte_of.
    apply Z.mod_small. unfold scalar. pose proof (Z.mod_pos_bound (be_decode d) 251). lia. }
  cbn [ECDH_compute_key toy_p256]. rewrite (Hp _ _ HA), (Hp _ _ HB). do 2 f_equal. lia.
Qed.

#[export] Program Instance hworld_store : HsmStore hworld := {| hs_view := hw_store |}.
Next Obligation. intros k w b. cbn. by intros [= <-]. Qed.
Next Obligation. intros k w v. cbn. destruct (_ !! _); [|done]. by intros [= <-]. Qed.
Next Obligation.
  intros k v w b w'. cbn. unfold hw_change. destruct (hw_calls w) as [|[] l]; intros [= <- <-]; auto.
Qed.
Next Obligation.
  intros k w b w'. cbn. unfold hw_change. destruct (hw_calls w) as [|[] l]; intros [= <- <-]; auto.
Qed.
Next Obligation. done. Qed.
Next Obligation. done. Qed.
Next Obligation. done. Qed.
Next Obligation. done. Qed.
Next Obligation. intros k v w. cbn. unfold hw_change. by destruct (hw_calls w) as [|[] l]. Qed.
Next Obligation. intros k w. cbn. unfold hw_change. by destruct (hw_calls w) as [|[] l]. Qed.
Next Obligation. done. Qed.
Next Obligation. done. Qed.
Next Obligation. done. Qed.
Next Obligation. done. Qed.
Next Obligation.
  intros w b. cbn. intros [= <-] H%bool_decide_eq_false. by apply eq_None_not_Some.
Qed.
Next Obligation. intros n w v w'. cbn. intros [= <- <-]. apply length_replicate. Qed.
Next Obligation. done. Qed.

#[export] Instance toy_ecdsa : EcdsaLaws hworld.
Proof.
  split.
  - intros w priv pub w'. cbn. by intros [= <- <- <-].
  - intros w d p P m g w' [= <-]. rewrite point_decodes. intros [= <-] [= <- <-].
    by apply bool_decide_eq_true.
Qed.

(** A device without keys: the process starts and makes the key file. *)
Definition world0 : hworld := mkWorld ∅ [] false None 7.
Definition hsm0 : SoftFileHsm hworld := (initialize (soft_hsm_new "aes-256-gcm" world0)).2.

(** The next writes to the store of an HSM fail as [l] says. *)
Definition schedule (l : list bool) (s : SoftFileHsm hworld) : SoftFileHsm hworld :=
  sh_with_world (hw_with_store (hw_store (sh_world s)) l (sh_world s)) s.
Definition restart (s : SoftFileHsm hworld) : SoftFileHsm hworld :=
  (initialize (soft_hsm_new "aes-256-gcm" (sh_world s))).2.
Definition device : string := "ECU-1+ECU-1".
Definition hsm1 : SoftFileHsm hworld := (generate_key_pair device "ecdsa-p256" hsm0).2.
End HsmSample.
Import HsmSample.

(* --------------------------------------------------------------------- *)
(** ** Runs                                                               *)
(* --------------------------------------------------------------------- *)

(** A deletion of which the second removal fails leaves a name without a key: [key_exists]
    still holds, the key cannot be read, and no new one is generated in its place. *)
Lemma half_deleted_key :
  let s := (delete_key device (schedule [true; false] hsm1)).2 in
  (delete_key device (schedule [true; false] hsm1)).1 = STORAGE_WRITE_FAILED /\
  key_exists device s = true /\ (export_public_key device s).1 = (KEY_NOT_FOUND, []) /\
  key_exists device (restart s) = true /\ (sign device [x01] (restart s)).1 = (KEY_NOT_FOUND, []).
Proof. by vm_compute. Qed.

(** The guard of [generate_key_pair] is the cache alone: after a restart it replaces the stored
    key of the same name. *)
Lemma generation_replaces_stored_key :
  let s := restart hsm1 in
  (generate_key_pair device "ecdsa-p256" hsm1).1.1 = KEY_ALREADY_EXISTS /\
  (generate_key_pair device "ecdsa-p256" s).1.1 = SUCCESS /\
  (export_public_key device (restart (generate_key_pair device "ecdsa-p256" s).2)).1 <>
    (export_public_key device hsm1).1.
Proof. split; [|split]; by vm_compute. Qed.

(** If the second write of that generation, the metadata, is lost as well, the store keeps the old
    public half with the new private half: the next process exports the one, signs with the
    other, and does not accept its own signatures. *)
Lemma failed_replacement_mixes_keys :
  let s := restart (generate_key_pair device "ecdsa-p256" (schedule [true; false] (restart hsm1))).2 in
  let g := sign device [x01] s in
  (generate_key_pair device "ecdsa-p256" (schedule [true; false] (restart hsm1))).1.1 = STORAGE_WRITE_FAILED /\
  (export_public_key device s).1 = (export_public_key device hsm1).1 /\
  g.1.1 = SUCCESS /\ (verify device [x01] g.1.2 g.2).1 = (SUCCESS, false).
Proof. by vm_compute. Qed.

(** When [has] throws, [key_exists] answers that there is no key. *)
Lemma blind_store_hides_key {E} `{HsmWorld E} id (s : SoftFileHsm E) :
  hs_has (key_metadata_name id) (sh_world s) = None -> sh_keys s !! id = None ->
  key_exists id s = false.
Proof. unfold key_exists. intros -> ->. by destruct (is_valid_key_id id). Qed.

(** A short write of the key file is not noticed: the start succeeds, a key is generated under
    a key that is lost, and no later start succeeds. *)
Lemma short_key_file_loses_keys :
  let '(rc, s) := initialize (soft_hsm_new "aes-256-gcm" (mkWorld ∅ [] true None 7)) in
  rc = Some SUCCESS /\ (generate_key_pair device "ecdsa-p256" s).1.1 = SUCCESS /\
  (initialize (soft_hsm_new "aes-256-gcm"
     (sh_world (generate_key_pair device "ecdsa-p256" s).2))).1 = Some STORAGE_CORRUPTION.
Proof. by vm_compute. Qed.

(** An authentic message without text is returned as zero bytes, as many as there are bytes of
    associated data. *)
Lemma empty_text_becomes_zeros kek nonce aad tag `{SoftFileCrypto} :
  gcm_open kek nonce aad [] tag = Some [] ->
  open_wrapped kek nonce aad [] tag = (SUCCESS, replicate (length aad) x00).
Proof. unfold open_wrapped. by intros ->. Qed.

(* --------------------------------------------------------------------- *)
(** ** Witnesses                                                          *)
(* --------------------------------------------------------------------- *)

Lemma world0_started : hsm_started "aes-256-gcm" world0 hsm0.
Proof.
  split; [by vm_compute|]. split; [done|]. exists []. by vm_compute.
Qed.

(** The first generation goes over nothing. *)
Lemma hsm0_fresh : ~ replaces device hsm0.
Proof. intros [_ H]. by vm_compute in H; destruct H. Qed.
Lemma generated : hsm_history device hsm0 hsm1.
Proof. apply rtc_once. exists Keeps. split; [by apply GenerateStep, hsm0_fresh|done]. Qed.
Lemma restarted s : (initialize (soft_hsm_new "aes-256-gcm" (sh_world s))).1 = Some SUCCESS ->
  hsm_history_sparing device s (restart s).
Proof.
  intros H. apply rtc_once. exists Keeps. split; [|done]. apply (RestartHsm "aes-256-gcm").
  unfold restart. rewrite <- H. apply surjective_pairing.
Qed.

(** The same device when the second write to the store, that of the metadata, will fail. *)
Definition world_lost : hworld := mkWorld ∅ [true; false] false None 7.
Definition hsm_lost : SoftFileHsm hworld := (initialize (soft_hsm_new "aes-256-gcm" world_lost)).2.
Lemma lost_started : hsm_started "aes-256-gcm" world_lost hsm_lost.
Proof. split; [by vm_compute|]. split; [done|]. exists []. by vm_compute. Qed.

Lemma hworld_readable id (s : SoftFileHsm hworld) : readable id s.
Proof. split; [done|]. intros n v _ H. cbn in *. by rewrite H. Qed.

Lemma signature_outlives_process_witness :
  let g := sign device [x01; x02] hsm1 in
  g.1.1 = SUCCESS /\ (verify device [x01; x02] g.1.2 (restart g.2)).1.2 = true.
Proof.
  intros g. assert (Hg : g.1.1 = SUCCESS) by by vm_compute. split; [done|].
  assert (Hv : (verify device [x01; x02] g.1.2 (restart g.2)).1.1 = SUCCESS) by by vm_compute.
  apply (signature_outlives_process "aes-256-gcm" world0 hsm0 hsm1 g.2 (restart g.2) device [x01; x02] g.1.2 SUCCESS);
    [exact world0_started|exact generated| | | |done].
  - rewrite <- Hg. unfold g. by destruct (sign _ _ _) as [[? ?] ?].
  - apply restarted. by vm_compute.
  - rewrite <- Hv. by destruct (verify _ _ _ _).1.
Defined.

Lemma generation_all_or_nothing_witness :
  let g := generate_key_pair device "ecdsa-p256" hsm_lost in
  let g1 := generate_key_pair device "ecdsa-p256" hsm0 in
  g.1.1 = STORAGE_WRITE_FAILED /\
  (key_exists device (restart g.2) = false \/ exists pub, whole_key device pub (restart g.2)) /\
  whole_key device (kp_public_key g1.1.2) (restart g1.2).
Proof.
  intros g g1. assert (Hrc : g.1.1 = STORAGE_WRITE_FAILED) by by vm_compute. split; [done|]. split.
  - assert (Hg : generate_key_pair device "ecdsa-p256" hsm_lost = ((STORAGE_WRITE_FAILED, g.1.2), g.2)).
    { rewrite <- Hrc. unfold g. by destruct (generate_key_pair _ _ _) as [[? ?] ?]. }
    apply (generation_all_or_nothing "aes-256-gcm" "aes-256-gcm" world_lost hsm_lost hsm_lost g.2 (restart g.2)
      device "ecdsa-p256" STORAGE_WRITE_FAILED g.1.2); [exact lost_started|reflexivity| |exact Hg| |apply hworld_readable].
    + intros [_ H]. vm_compute in H. by destruct H.
    + by vm_compute.
  - assert (Hg : generate_key_pair device "ecdsa-p256" hsm0 = ((SUCCESS, g1.1.2), g1.2)).
    { assert (H : g1.1.1 = SUCCESS) by by vm_compute. rewrite <- H. unfold g1.
      by destruct (generate_key_pair _ _ _) as [[? ?] ?]. }
    apply (generation_all_or_nothing "aes-256-gcm" "aes-256-gcm" world0 hsm0 hsm0 g1.2 (restart g1.2)
      device "ecdsa-p256" SUCCESS g1.1.2); [exact world0_started|reflexivity|exact hsm0_fresh|exact Hg| |apply hworld_readable].
    by vm_compute.
Defined.

Lemma p1363_signature_canonical_witness :
  let g := sign_digest_p1363 device (replicate 32 x01) hsm1 in
  g.1.1 = SUCCESS /\ 1 <= be_decode (drop 32 g.1.2) <= p256_order / 2.
Proof.
  intros g. assert (Hg : g.1.1 = SUCCESS) by by vm_compute. split; [done|].
  destruct (find_key device hsm1) as [[kd|e] s1] eqn:Hf.
  2: { apply (f_equal fst) in Hf. by vm_compute in Hf. }
  pose proof (p1363_signature_canonical device (replicate 32 x01) hsm1 s1 kd _ _ _ eq_refl eq_refl Hf eq_refl) as H.
  unfold g in *. destruct (sign_digest_p1363 device (replicate 32 x01) hsm1) as [[rc sig] s'].
  cbn in Hg. subst rc. apply H.
Defined.
