(* ===== verification/SoftDevice.v ===== *)
(** * SoftDevice: the software HSM behind the interface of the engine.
    [SoftHsm] as an instance of [HsmInterface], so that what is proved of the certificate
    request against the interface holds of the keys in the store; with it, a request that
    proves possession of its key. *)
From S2P Require Import Prelude Errors Canonical Json Provider KeyEngine Csr CsrProps SoftFile SoftHsm SoftHsmProps HsmSample.

(** [EC_POINT_point2oct] gives the uncompressed octets of a point back. *)
Class PointCodec `{Ec : P256} `{Pts : EcPoints} : Prop :=
  point_octets p P : EC_POINT_oct2point p = Some P -> length p = 65%nat -> head p = Some x04 ->
    ec_point_uncompressed p = Some p.

Section Device.
Context {E : Type} `{World : HsmWorld E} `{Ec : P256} `{G : !P256Group} `{Store : !HsmStore E}
  `{Laws : !EcdsaLaws E} `{Crypto : SoftFileCrypto} `{Hash : Sha256} `{J : Json} `{JL : !JsonLaws J}
  `{Pts : EcPoints} `{Codec : !PointCodec}.
Implicit Types s : SoftFileHsm E.

(** The interface has no exceptions: one that [initialize] throws is a failure here. It also
    has no state after an export: the key that [export_public_key] puts into the cache is
    dropped, and [export_keeps_signatures] shows that the signature [build_csr] asks for next
    is the same with it. *)
#[export] Instance soft_hsm_interface : HsmInterface (SoftFileHsm E) := {|
  hsm_initialize s := let '(r, s) := SoftHsm.initialize s in (default HSM_INIT_FAILED r, s);
  hsm_generate_key_pair := SoftHsm.generate_key_pair;
  hsm_sign := SoftHsm.sign;
  hsm_sign_digest := SoftHsm.sign_digest;
  hsm_export_public_key id s := (SoftHsm.export_public_key id s).1;
  hsm_export_private_key := SoftHsm.export_private_key;
  hsm_key_exists := SoftHsm.key_exists;
  hsm_delete_key := SoftHsm.delete_key;
  hsm_supports_ecdh_derive := SoftHsm.supports_ecdh_derive;
  hsm_supports_ecdsa_sign := SoftHsm.supports_ecdsa_sign
|}.

(** A lookup after a successful one finds the same key and changes nothing. *)
Lemma find_key_again id s kd s1 : find_key id s = (Ok kd, s1) -> find_key id s1 = (Ok kd, s1).
Proof.
  unfold find_key. destruct (sh_keys s !! id) as [kd0|] eqn:Ek; [by intros [= <- <-]; rewrite Ek|].
  destruct (load_key_from_store id s) as [kd0|rc]; [|done]. intros [= <- <-]. cbn. by rewrite lookup_insert_eq.
Qed.

(** The key that [export_public_key] loads is the one the next signature loads: the same call
    of the world, the same result, the same state after it. *)
Lemma export_keeps_signatures id s pub data : (export_public_key id s).1 = (SUCCESS, pub) ->
  sign id data (export_public_key id s).2 = sign id data s.
Proof.
  unfold export_public_key, sign. destruct (is_valid_key_id id); [cbn [negb]|done].
  destruct (find_key id s) as [[kd|rc] s1] eqn:Ef; cbn; [|by intros [= ->]; apply find_key_fails in Ef].
  intros _. by rewrite (find_key_again _ _ _ _ Ef).
Qed.

(** What is exported and what is signed with are the two halves of one pair. *)
Lemma sign_with_exported kek id data sig s s' pub :
  hsm_inv kek id s -> (export_public_key id s).1 = (SUCCESS, pub) -> sign id data s = ((SUCCESS, sig), s') ->
  (length pub = 65%nat /\ head pub = Some x04) /\
  exists P, EC_POINT_oct2point pub = Some P /\ ECDSA_verify P (sha256 data) sig = true.
Proof.
  intros I. unfold export_public_key, sign. destruct (is_valid_key_id id); [cbn [negb]|done].
  destruct (find_key id s) as [[kd|rc] s1] eqn:Ef; cbn; [|by intros [= ->]; apply find_key_fails in Ef].
  intros [= <-]. destruct (find_key_inv _ _ _ _ _ _ I Ef) as (_ & _ & Hr).
  destruct (Hr eq_refl kd eq_refl) as [[Hp _] _]. destruct (ec_public_point _ _ Hp) as (Hl & Hh & P & HP & _).
  rewrite HP. unfold in_world. destruct (hs_ECDSA_sign _ _ _) as [[g|] e] eqn:Eo; [|done].
  intros [= <- _]. split; [done|]. exists P. split; [done|]. by eapply sign_verifies.
Qed.

(** C27. Proof of possession. On a device with the software HSM that started without keys and wrote its key
    file whole, for a hardware id without NUL of at most 4096 bytes, after any calls in which the
    store may have failed and the process may have restarted: a certificate request that [build_csr] returns carries the point of the key on record, and the signature in it is
    one that this very key accepts over exactly the first part of the request. As in C12, the key must
    never have been generated over one of its name which the store held and the cache did not. *)
Theorem csr_proves_possession algo w s0 s s' k config csr :
  hsm_started algo w s0 -> hsm_history (make_key_id (cs_hsm_uid config) (cs_key_id config)) s0 s ->
  build_csr k config s = ((SUCCESS, csr), s') ->
  c_str (cs_hsm_uid config) = cs_hsm_uid config -> str_size (cs_hsm_uid config) <= 4096 ->
  exists pub P sig,
    (export_public_key (make_key_id (cs_hsm_uid config) (cs_key_id config)) s).1 = (SUCCESS, pub) /\
    EC_POINT_oct2point pub = Some P /\
    ECDSA_verify P (sha256 (der_enc (info_tree (cs_hsm_uid config) pub))) sig = true /\
    csr = der_enc (csr_tree (cs_hsm_uid config) pub sig) /\
    (zlen sig <= 4096 -> der_read (length csr) csr = Some [csr_tree (cs_hsm_uid config) pub sig]).
Proof.
  intros H0 Hh Hb Hu Hsz.
  pose proof (started_inv _ _ _ (make_key_id (cs_hsm_uid config) (cs_key_id config)) H0) as I.
  apply (hsm_history_inv _ _ _ _ I) in Hh.
  set (kek := sh_encryption_key s0) in Hh. clearbody kek. clear I H0.
  destruct (build_csr_inv k config s csr s' Hb Hu) as (pub & raw & sig & _ & Hpub & Hraw & Hsig & ->).
  cbn [hsm_export_public_key hsm_sign soft_hsm_interface] in Hpub, Hsig.
  destruct (sign_with_exported _ _ _ _ _ _ _ Hh Hpub Hsig) as ((Hl & H4) & P & HP & Hok).
  rewrite (point_octets _ _ HP Hl H4) in Hraw. injection Hraw as <-.
  exists pub, P, sig. split; [done|]. split; [done|]. split; [done|]. split; [done|].
  intros Hg. apply der_read_one, csr_tree_fits; [done| |done]. unfold zlen. lia.
Qed.
End Device.

Module DeviceSample.
Export HsmSample.
#[export] Instance octets : EcPoints := {| ec_point_uncompressed p := Some p |}.
#[export] Instance octets_codec : PointCodec.
Proof. done. Qed.
Definition config : CsrConfig := mkCsrConfig "ECU-1" "ECU-1" "ecdsa-p256".
Definition issue (s : SoftFileHsm hworld) := build_csr (mkKeyEngine true true) config s.
End DeviceSample.
Import DeviceSample.

Lemma csr_proves_possession_witness :
  let '((rc, csr), _) := issue hsm1 in
  rc = SUCCESS /\
  exists pub P sig,
    (export_public_key device hsm1).1 = (SUCCESS, pub) /\
    EC_POINT_oct2point pub = Some P /\
    ECDSA_verify P (sha256 (der_enc (info_tree "ECU-1" pub))) sig = true /\
    csr = der_enc (csr_tree "ECU-1" pub sig) /\
    (zlen sig <= 4096 -> der_read (length csr) csr = Some [csr_tree "ECU-1" pub sig]).
Proof.
  assert (Hrc : (issue hsm1).1.1 = SUCCESS) by by vm_compute.
  destruct (issue hsm1) as [[rc csr] s'] eqn:Hi. cbn in Hrc. subst rc. split; [done|].
  apply (csr_proves_possession "aes-256-gcm" world0 hsm0 hsm1 s' (mkKeyEngine true true) config csr);
    [exact world0_started|exact generated|exact Hi|done|done].
Defined.
