(* ===== verification/TlsDevice.v ===== *)
(** * TlsDevice: the TLS provider over the software HSM.
    [Tls] with [SoftHsm] in place of its HSM. What a connection relies on: the certificate that the
    provider hands out and the signature that it makes later belong to one key. *)
From S2P Require Import Prelude Errors Canonical Json X509 Provider SoftFile SoftFileProps KeyEngine Tls TlsProps SoftHsm SoftHsmProps HsmSample.

Section TlsDevice.
Context {X W : Type} `{L : X509Lib} `{Rest : !TlsEnv X} `{World : HsmWorld W} `{Ec : P256}
  `{Crypto : SoftFileCrypto} `{Hash : Sha256} `{J : Json}.

(** A call on what surrounds the HSM. *)
Definition on_rest {A} (m : st X A) : st (X * SoftFileHsm W) A :=
  fun e => let '(a, x) := m e.1 in (a, (x, e.2)).

(** The keys are those of the HSM, the rest is as before. The provider does not see what an export leaves
    in the cache; a signature finds the key in the store. *)
#[export] Instance tls_device_env : TlsEnv (X * SoftFileHsm W) := {|
  tls_key_id e := tls_key_id e.1;
  tls_material key e := tls_material key e.1;
  tls_key_exists id e := SoftHsm.key_exists id e.2;
  tls_export_public_key id e := (SoftHsm.export_public_key id e.2).1;
  tls_sign_digest id d e := let '(r, h) := SoftHsm.sign_digest id d e.2 in (r, (e.1, h));
  tls_time := on_rest tls_time;
  tls_RAND_bytes n := on_rest (tls_RAND_bytes n);
  tls_notify profile ev e := (tls_notify profile ev e.1, e.2);
  tls_store_new e := tls_store_new e.1;
  X509_verify_cert roots leaf chain e := X509_verify_cert roots leaf chain e.1
|}.

#[export] Instance tls_device_laws `{RestLaws : !TlsEnvLaws X} : TlsEnvLaws (X * SoftFileHsm W).
Proof.
  split. intros n [x h] b e'. cbn. unfold on_rest. cbn.
  destruct (tls_RAND_bytes n x) as [r x'] eqn:Er. intros [= -> _]. by eapply tls_RAND_length.
Qed.

Lemma tls_time_hsm (e e' : X * SoftFileHsm W) t : tls_time e = (t, e') -> e'.2 = e.2.
Proof. cbn. unfold on_rest. destruct (tls_time e.1). by intros [= _ <-]. Qed.
End TlsDevice.

Section Handshake.
Context {X W : Type} `{L : X509Lib} `{Rest : !TlsEnv X} `{RestLaws : !TlsEnvLaws X} `{World : HsmWorld W}
  `{Ec : P256} `{G : !P256Group} `{Store : !HsmStore W} `{Laws : !EcdsaLaws W} `{Crypto : SoftFileCrypto}
  `{Hash : Sha256} `{J : Json} `{JL : !JsonLaws J}.
Implicit Types s : TlsCredentialProvider (X * SoftFileHsm W).

(** A digest is signed with the key on record. *)
Lemma sign_digest_found kek id kd digest sig (h h' : SoftFileHsm W) :
  hsm_inv kek id h -> stored_as kek (hs_view (sh_world h)) id kd -> ec_public (kd_priv kd) = Some (kd_pub kd) ->
  sign_digest id digest h = ((SUCCESS, sig), h') ->
  exists P, EC_POINT_oct2point (kd_pub kd) = Some P /\ ECDSA_verify P digest sig = true.
Proof.
  intros I Hs Hp. unfold sign_digest. destruct (negb _); [done|]. destruct (negb _); [done|].
  destruct (find_key id h) as [[kd'|rc] h1] eqn:Ef.
  2: { intros [= -> _ _]. by apply find_key_fails in Ef. }
  destruct (find_key_stored _ _ _ _ _ _ I Hs Ef kd' eq_refl) as [_ Hpriv]. rewrite Hpriv.
  unfold in_world. destruct (hs_ECDSA_sign _ _ _) as [[g|] w] eqn:Eg; [|done]. intros [= <- _].
  destruct (ec_public_point _ _ Hp) as (_ & _ & P & HP & _). exists P. split; [done|]. by eapply sign_verifies.
Qed.

(** A ready profile, from the material and the key it was loaded with. *)
Lemma loaded_leaf profile s s1 :
  tp_has_material_resolver s = true -> loadMaterials profile s = (SUCCESS, s1) ->
  exists leaf rest pub p, findProfile profile s1 = Some p /\
    ps_client_cert_chain_der p = certs_to_der_bundle (leaf :: rest) /\ x509_ec_point leaf = Some pub /\
    tls_export_public_key (if tp_has_key_id_resolver s1 then tls_key_id (tp_env s1) else ""%string) (tp_env s1)
      = (SUCCESS, pub) /\ (tp_env s1).2 = (tp_env s).2.
Proof.
  unfold loadMaterials. intros Hm. destruct (findProfile profile s) as [p|]; [|done].
  set (q := if _ =? 0 then _ else p). destruct (validateAndStoreMaterials q s) as [[rc p1] s0] eqn:Ev.
  intros [= -> <-]. apply validate_success in Ev as (now & e' & roots & leaf & rest & Ht & -> & Hg & _ & ->); [|done].
  destruct Hg as (_ & _ & _ & _ & _ & _ & _ & _ & (pub & Hex & _ & Hpt) & _). apply tls_time_hsm in Ht.
  exists leaf, rest, pub. eexists. split; [apply find_put|]. split; [done|]. by split.
Qed.

(** A bundle carries the chain of the profile. *)
Lemma getTlsCredential_chain profile caller s bundle s' p :
  findProfile profile s = Some p -> getTlsCredential profile caller s = ((SUCCESS, Some bundle), s') ->
  tb_client_cert_chain_der bundle = ps_client_cert_chain_der p.
Proof.
  unfold getTlsCredential. intros ->. destruct (negb _); [done|]. destruct (on_tls_env _ _) as [now s1].
  destruct (encodeRef _ _) as [ref s2]. destruct (bytes_empty ref); [done|]. by intros [= <- _].
Qed.

(** An exported key is on record. *)
Lemma export_found kek id (h : SoftFileHsm W) pub :
  hsm_inv kek id h -> (export_public_key id h).1 = (SUCCESS, pub) ->
  exists kd, kd_pub kd = pub /\ pair_ok kd /\ stored_as kek (hs_view (sh_world h)) id kd.
Proof.
  intros I. unfold export_public_key. destruct (is_valid_key_id id); [cbn [negb]|done].
  destruct (find_key id h) as [[kd|rc] h1] eqn:Ef; cbn; [|by intros [= ->]; apply find_key_fails in Ef].
  intros [= <-]. destruct (find_key_inv _ _ _ _ _ _ I Ef) as (_ & _ & Hr). exists kd. by destruct (Hr eq_refl kd eq_refl).
Qed.

(** C11. The certificate and the signature belong together. A daemon with the software HSM, started
    on a device without keys and with its key file written whole, after any history of keys: the
    material of a profile loads, a caller is given the credential, and at any later time, whatever
    the provider and the world around it did, the reference in it is used for a signature. If no call on the HSM in between deletes the device key, then the peer that
    takes the key from the leaf of the chain that was handed out accepts the signature over the digest.
    The calls on the HSM, before and in between, are any calls, with failures and restarts, but, as in
    C12, none that generates the device key over one which the store held and the cache did not. *)
Theorem handshake_signature_verifies algo w h0 a b c e0 m s profile s1 caller bundle s2 n s3 req caller' sig s4 :
  hsm_started algo w h0 ->
  hsm_history (if tp_has_key_id_resolver s1 then tls_key_id (tp_env s1) else ""%string) h0 (tp_env s).2 ->
  tls_steps m (tls_new a b c e0) s -> tp_has_material_resolver s = true ->
  loadMaterials profile s = (SUCCESS, s1) ->
  getTlsCredential profile caller s1 = ((SUCCESS, Some bundle), s2) ->
  tls_steps n s2 s3 ->
  hsm_history_sparing (if tp_has_key_id_resolver s1 then tls_key_id (tp_env s1) else ""%string)
    (tp_env s1).2 (tp_env s3).2 ->
  sr_private_key_ref req = tb_private_key_ref bundle ->
  signTls req caller' s3 = ((SUCCESS, Some sig), s4) ->
  exists leaf rest pub P,
    tb_client_cert_chain_der bundle = certs_to_der_bundle (leaf :: rest) /\
    x509_ec_point leaf = Some pub /\ EC_POINT_oct2point pub = Some P /\
    ECDSA_verify P (sr_digest req) sig = true.
Proof.
  intros H0 Hh Hreach Hm Hload Hget Hsteps Hspare Href Hsign.
  pose proof (hsm_history_inv _ _ _ _ (started_inv _ _ _ _ H0) Hh) as I.
  destruct (loaded_leaf _ _ _ Hm Hload) as (leaf & rest & pub & p & Hp & Hchain & Hpt & Hexp & Henv).
  rewrite <- Henv in I. assert (Hw1 : tls_wf s1).
  { eapply tls_step_wf; [|by eapply step_load]. eapply tls_steps_wf; [apply tls_new_wf|exact Hreach]. }
  pose proof (getTlsCredential_chain _ _ _ _ _ _ Hp Hget) as Hb.
  apply getTlsCredential_ref in Hget as (p0 & now0 & e1 & rp & Hp0 & _ & _ & -> & Hdec & _ & Hs2);
    [|by apply tls_wf_values].
  set (id := if tp_has_key_id_resolver s1 then _ else _) in *.
  cbn [tls_export_public_key tls_device_env] in Hexp.
  destruct (export_found (sh_encryption_key h0) id (tp_env s1).2 pub I Hexp) as (kd & <- & Hpair & Hst).
  destruct (stored_kept_history _ _ _ _ _ I Hspare Hst) as [I3 Hst3].
  destruct (tls_steps_advanced profile _ _ _ Hsteps) as (Hkey & _ & _).
  apply signTls_success in Hsign as (rp & p' & now & e & e' & Hd & _ & _ & _ & _ & _ & Ht & _ & _ & _ & _ & _ & Hs & _).
  rewrite Href, Hkey, Hdec in Hd. injection Hd as <-. cbn [rp_key_id] in Hs. fold id in Hs.
  cbn [tls_sign_digest tls_device_env] in Hs. apply tls_time_hsm in Ht. rewrite Ht in Hs.
  destruct (sign_digest id (sr_digest req) (tp_env s3).2) as [r h'] eqn:Es. injection Hs as -> _.
  destruct (sign_digest_found _ _ _ _ _ _ _ I3 Hst3 (proj1 Hpair) Es) as (P & HP & Hok).
  exists leaf, rest, (kd_pub kd), P. by rewrite Hb.
Qed.
End Handshake.

(* --------------------------------------------------------------------- *)
(** ** A handshake to compute with                                        *)
(* --------------------------------------------------------------------- *)

Module HandshakeSample.
Export HsmSample.

(** The sample certificates, all of them for the key of [hsm1]. *)
#[export] Instance device_x509 : X509Lib := {|
  X509 := nat;
  d2i_X509 := d2i_X509 (X509Lib := X509Sample.sample_x509);
  i2d_X509 := X509Sample.der;
  PEM_read_bio_X509s := PEM_read_bio_X509s (X509Lib := X509Sample.sample_x509);
  PEM_write_bio_X509 := PEM_write_bio_X509 (X509Lib := X509Sample.sample_x509);
  x509_eku := x509_eku (X509Lib := X509Sample.sample_x509);
  x509_basic_constraints_ca := x509_basic_constraints_ca (X509Lib := X509Sample.sample_x509);
  x509_key_usage c := Some [byte_of 136];
  x509_extensions c := [(NID_key_usage, true)];
  x509_subject_cn c := Some "ECU-1"%string;
  x509_self_issued c := Nat.eqb c 2;
  x509_verify_own c := Nat.eqb c 2;
  x509_notBefore c := Some 1000;
  x509_notAfter c := Some 9000;
  x509_ec_point c := Some (point 8);
  x509_is_prime256v1 c := true;
  x509_serial_hex c := Some "01"%string;
  x509_issuer_oneline c := Some "/CN=CA"%string;
  x509_subject_oneline c := Some "/CN=ECU-1"%string;
  i2d_PublicKey c := Some (point 8)
|}.

(** The surroundings are a clock: the chain and the root are constants. *)
#[export] Instance clock_env : TlsEnv Z := {|
  tls_key_id _ := device;
  tls_material k _ := if String.eqb k "root_ca" then X509Sample.pem 2 else (X509Sample.pem 0 ++ X509Sample.pem 1)%string;
  tls_key_exists _ _ := true;
  tls_export_public_key _ _ := (NOT_IMPLEMENTED, []);
  tls_sign_digest _ _ e := ((NOT_IMPLEMENTED, []), e);
  tls_time e := (e, e + 1);
  tls_RAND_bytes n e := (Some (replicate n x07), e);
  tls_notify _ _ e := e;
  tls_store_new _ := true;
  X509_verify_cert roots _ rest _ := bool_decide (roots = [2%nat]) && bool_decide (rest = [1%nat])
|}.
#[export] Instance clock_laws : TlsEnvLaws Z.
Proof. split. intros n e b e' [= <- <-]. apply length_replicate. Qed.

Abbreviation provider := (TlsCredentialProvider (Z * SoftFileHsm hworld)).
Definition fresh : provider := tls_new true true true (2000, hsm1).
Definition configured : provider := configureProfile tls_profile_config_default fresh.
Definition loaded : provider := (loadMaterials "mqtt" configured).2.
Definition peer : PeerIdentity := mkPeer true 7 0 0 "tbox-mqtt.service".
Definition issued := getTlsCredential "mqtt" peer loaded.
Definition bundle : TlsCredentialBundle :=
  default (mkBundle "" 0 [] [] [] KA_UNKNOWN 0 0 TLS_NOT_READY) issued.1.2.
Definition request : TlsSignRequest :=
  mkSignRequest (tb_private_key_ref bundle) SA_ECDSA_SECP256R1_SHA256 (replicate 32 x05) [] "r1".

(** The world between: time passes and the HSM starts anew. *)
Definition later : provider := tp_with_env (2500, restart hsm1) issued.2.
Abbreviation signed := (signTls request peer later).
End HandshakeSample.
Import HandshakeSample.

Lemma handshake_signature_verifies_witness :
  exists sig, signed.1 = (SUCCESS, Some sig) /\
  exists leaf rest pub P,
    tb_client_cert_chain_der bundle = certs_to_der_bundle (leaf :: rest) /\
    x509_ec_point leaf = Some pub /\ EC_POINT_oct2point pub = Some P /\
    ECDSA_verify P (sr_digest request) sig = true.
Proof.
  exists (default [] signed.1.2). assert (Hs : signed.1 = (SUCCESS, Some (default [] signed.1.2))) by by vm_compute.
  split; [done|].
  apply (handshake_signature_verifies "aes-256-gcm" world0 hsm0 true true true (2000, hsm1) 1 configured "mqtt" loaded
    peer bundle issued.2 1 later request peer (default [] signed.1.2) signed.2).
  - exact world0_started.
  - exact generated.
  - eapply steps_cons; [|apply steps_nil]. apply step_configure. by vm_compute.
  - by vm_compute.
  - by vm_compute.
  - assert (Hi : issued.1 = (SUCCESS, Some bundle)) by by vm_compute.
    rewrite <- Hi. unfold issued. apply surjective_pairing.
  - eapply steps_cons; [apply step_world|apply steps_nil].
  - replace (tp_env loaded).2 with hsm1 by by vm_compute.
    apply restarted. by vm_compute.
  - by vm_compute.
  - rewrite <- Hs. apply surjective_pairing.
Defined.
