(* ===== verification/EnvelopeBuilder.v ===== *)
(** * EnvelopeBuilder: the sender of a wrapped business key.
    Models [src/keyprov_envelope_builder.cpp] / [include/keyprov_envelope_builder.h]:
    the reference implementation of the cloud's side, and the theorem that a device
    accepts and opens what it builds. *)
From S2P Require Import Prelude Errors Canonical KeyTypes Envelope Json Provider KeyEngine SoftFile SoftFileFacts SoftHsm SoftHsmProps HsmSample.

(** [src/include/keyprov_envelope_builder.h:25-44] KeyprovEnvelopeInput *)
Record KeyprovEnvelopeInput := mkInput {
  ki_device_public_key : bytes;
  ki_request_id : string;
  ki_business_domain : string;
  ki_purpose : string;
  ki_key_id : string;
  ki_business_key_version : Z;
  ki_business_key : bytes;
  ki_root_key_version : Z;
  ki_derivation_version : string;
  ki_operation_id : string;
  ki_recipient_certificate_digest : bytes;
  ki_wrapping_suite : string;
  ki_key_algorithm : string;
  ki_hkdf_context_version : string;
  ki_server_ephemeral_private_key : bytes;
  ki_hkdf_salt : bytes;
  ki_nonce : bytes
}.

(** [src/include/keyprov_envelope_builder.h:46-60] KeyprovEnvelopeOutput *)
Record KeyprovEnvelopeOutput := mkOutput {
  ko_wrapped_key : bytes;
  ko_parameters : bytes;
  ko_envelope_digest : bytes;
  ko_key_check_value : kcv3;
  ko_canonical_aad : bytes;
  ko_aad_digest : bytes;
  ko_server_ephemeral_public_key : bytes;
  ko_hkdf_info : bytes;
  ko_ecdh_shared_secret : bytes;
  ko_kek : bytes;
  ko_proof_input : bytes;
  ko_authentication_tag : bytes
}.

Section Builder.
Context {E : Type} `{World : HsmWorld E} `{Ec : P256} `{G : !P256Group} `{Curve : EcP256}
  `{Crypto : SoftFileCrypto} `{Hash : Sha256} `{Pb : Protobuf}.
Implicit Types i : KeyprovEnvelopeInput.

(** The HKDF of this file has the text of the others. *)
(** [src/src/keyprov_envelope_builder.cpp:35-63] hkdf_sha256 *)
Definition builder_hkdf_sha256 (ikm salt info : bytes) (out_len : nat) : bytes :=
  hkdf_sha256 ikm salt info out_len.

(** [src/src/keyprov_envelope_builder.cpp:65-92] aes_gcm_encrypt *)
Definition builder_aes_gcm_encrypt (key nonce aad plain : bytes) : option (bytes * bytes) :=
  if negb (zlen key =? 32) || negb (zlen nonce =? 12) then None else gcm_seal key nonce aad plain.

(** [ec_public] is [None] where the product is the point at infinity, whose encoding has one
    byte. *)
(** [src/src/keyprov_envelope_builder.cpp:94-111] derive_public_key *)
Definition derive_public_key (priv : bytes) : option bytes := ec_public priv.

(** [src/src/keyprov_envelope_builder.cpp:113-141] ecdh_shared *)
Definition ecdh_shared (priv peer_pub : bytes) : option bytes :=
  P ← EC_POINT_oct2point peer_pub; ECDH_compute_key priv P.

(** A field that is drawn when the caller left it empty, and else must have its length. *)
(** [src/src/keyprov_envelope_builder.cpp:182-193] buildEcdhEsP256EnvelopeV1, salt and nonce *)
Definition given_or_random (given : bytes) (n : nat) : st E (res bytes) := fun e =>
  if bytes_empty given then
    let '(r, e) := hs_RAND_bytes n e in
    (match r with Some v => Ok v | None => Err INTERNAL_ERROR end, e)
  else if negb (length given =? n)%nat then (Err INVALID_PARAMETER, e) else (Ok given, e).

(** [src/src/keyprov_envelope_builder.cpp:196-206] buildEcdhEsP256EnvelopeV1, AAD input *)
Definition builder_aad_input i (suite_val purpose_val : Z) : EnvelopeAadInput := {|
  aad_envelope_format := key_envelope_format_value KEF_ECDH_ES_P256_V1;
  aad_wrapping_suite := suite_val;
  aad_request_id := ki_request_id i;
  aad_business_domain := ki_business_domain i;
  aad_purpose := purpose_val;
  aad_key_id := ki_key_id i;
  aad_business_key_version := ki_business_key_version i;
  aad_root_key_version := ki_root_key_version i;
  aad_derivation_version := ki_derivation_version i;
  aad_recipient_certificate_digest := ki_recipient_certificate_digest i |}.

(** [src/src/keyprov_envelope_builder.cpp:212-216] buildEcdhEsP256EnvelopeV1, HKDF info *)
Definition builder_info i : bytes := bytes_of_string
  (buildHkdfInfoV1 (ki_request_id i) (ki_business_domain i) (ki_purpose i) (ki_key_id i)
     (ki_business_key_version i) (toHex (ki_recipient_certificate_digest i))).

(** [src/src/keyprov_envelope_builder.cpp:241-254] buildEcdhEsP256EnvelopeV1, message *)
Definition builder_message i (eph_pub salt nonce tag aad : bytes) : KpParameters :=
  mkKpParameters 1 eph_pub salt (ki_hkdf_context_version i) nonce tag aad (computeAadDigest aad)
    (ki_root_key_version i) (ki_derivation_version i) (ki_recipient_certificate_digest i)
    (ki_operation_id i).

(** [src/src/keyprov_envelope_builder.cpp:264-273] buildEcdhEsP256EnvelopeV1, digest input *)
Definition builder_digest_input i (suite_val purpose_val : Z) (wrapped_key parameters : bytes) :
    EnvelopeDigestInput := {|
  edi_envelope_format := key_envelope_format_value KEF_ECDH_ES_P256_V1;
  edi_request_id := ki_request_id i;
  edi_business_domain := ki_business_domain i;
  edi_purpose := purpose_val;
  edi_key_id := ki_key_id i;
  edi_business_key_version := ki_business_key_version i;
  edi_wrapping_suite := suite_val;
  edi_wrapped_key := wrapped_key;
  edi_parameters := parameters |}.

(** [src/src/keyprov_envelope_builder.cpp:195-287] buildEcdhEsP256EnvelopeV1, encryption *)
Definition seal_envelope i (suite_val purpose_val : Z) (eph_priv eph_pub salt nonce : bytes) :
    res KeyprovEnvelopeOutput :=
  let aad := buildParProtoAadV1 (builder_aad_input i suite_val purpose_val) in
  let info := builder_info i in
  match ecdh_shared eph_priv (ki_device_public_key i) with
  | None => Err INTERNAL_ERROR
  | Some shared =>
  let kek := builder_hkdf_sha256 shared salt info 32 in
  match builder_aes_gcm_encrypt kek nonce aad (ki_business_key i) with
  | None => Err INTERNAL_ERROR
  | Some (ciphertext, tag) =>
  match SerializeDeterministic (builder_message i eph_pub salt nonce tag aad) with
  | None => Err INTERNAL_ERROR
  | Some parameters =>
  let digest := buildWireEnvelopeDigestV1
    (builder_digest_input i suite_val purpose_val ciphertext parameters) in
  let kcv := computeKcv (ki_business_key i) in
  Ok (mkOutput ciphertext parameters digest kcv aad (computeAadDigest aad) eph_pub info shared kek
    (buildProofInput {|
       pi_request_id := ki_request_id i;
       pi_business_domain := ki_business_domain i;
       pi_purpose := purpose_val;
       pi_key_id := ki_key_id i;
       pi_business_key_version := ki_business_key_version i;
       pi_envelope_digest := digest;
       pi_key_check_value := kcv_bytes kcv |}) tag)
  end end end.

(** The checks on the input, with the numbers of suite and purpose. *)
(** [src/src/keyprov_envelope_builder.cpp:153-169] buildEcdhEsP256EnvelopeV1, checks *)
Definition check_input i : res (Z * Z) :=
  fail_if negb (isValidP256UncompressedPoint (ki_device_public_key i)) with INVALID_PARAMETER ;;
  fail_if str_empty (ki_request_id i) || str_empty (ki_key_id i) ||
          str_empty (ki_business_domain i) || str_empty (ki_purpose i) with INVALID_PARAMETER ;;
  fail_if negb (zlen (ki_business_key i) =? 32) with INVALID_PARAMETER ;;
  fail_if negb (zlen (ki_recipient_certificate_digest i) =? 32) with INVALID_PARAMETER ;;
  fail_if ki_business_key_version i =? 0 with INVALID_PARAMETER ;;
  fail_if negb (String.eqb (ki_wrapping_suite i) kWrappingSuiteEcdhEsP256)
    with BUSINESS_KEY_UNSUPPORTED ;;
  fail_if negb (String.eqb (ki_key_algorithm i) kDefaultKeyAlgorithm) with BUSINESS_KEY_UNSUPPORTED ;;
  match wrappingSuiteEnumValue (ki_wrapping_suite i) with
  | None => Err BUSINESS_KEY_UNSUPPORTED
  | Some suite_val =>
      match purposeEnumValue (ki_purpose i) with
      | None => Err BUSINESS_KEY_UNSUPPORTED
      | Some purpose_val => Ok (suite_val, purpose_val)
      end
  end.

(** The output is meaningful with [SUCCESS] only. *)
(** [src/src/keyprov_envelope_builder.cpp:150-288] buildEcdhEsP256EnvelopeV1 *)
Definition buildEcdhEsP256EnvelopeV1 i : st E (res KeyprovEnvelopeOutput) := fun e =>
  match check_input i with
  | Err rc => (Err rc, e)
  | Ok (suite_val, purpose_val) =>
  let '(eph_priv, e) := given_or_random (ki_server_ephemeral_private_key i) 32 e in
  match eph_priv with
  | Err rc => (Err rc, e)
  | Ok eph_priv =>
  match derive_public_key eph_priv with
  | None => (Err INTERNAL_ERROR, e)
  | Some eph_pub =>
  let '(salt, e) := given_or_random (ki_hkdf_salt i) 32 e in
  match salt with
  | Err rc => (Err rc, e)
  | Ok salt =>
  let '(nonce, e) := given_or_random (ki_nonce i) 12 e in
  match nonce with
  | Err rc => (Err rc, e)
  | Ok nonce => (seal_envelope i suite_val purpose_val eph_priv eph_pub salt nonce, e)
  end end end end end.
End Builder.

(* --------------------------------------------------------------------- *)
(** ** The device opens what the sender builds                            *)
(* --------------------------------------------------------------------- *)

(** AES-GCM does not change the length of a text; [EcP256] and [P256] speak of one curve. *)
Class GcmText `{Crypto : SoftFileCrypto} : Prop :=
  gcm_seal_length k iv a p ct tag : gcm_seal k iv a p = Some (ct, tag) -> length ct = length p.
Class CurveAgree `{Ec : P256} `{Curve : EcP256} : Prop :=
  ec_point_decodes p : ec_point_on_curve p = true <->
    exists P, EC_POINT_oct2point p = Some P /\ EC_POINT_is_at_infinity P = false /\
      EC_POINT_is_on_curve P = true.

Section Delivery.
Context {E : Type} `{World : HsmWorld E} `{Ec : P256} `{G : !P256Group} `{Curve : EcP256}
  `{Agree : !CurveAgree} `{Store : !HsmStore E}
  `{Crypto : SoftFileCrypto} `{Text : !GcmText} `{Hash : Sha256} `{Pb : Protobuf} `{J : Json}.
Implicit Types i : KeyprovEnvelopeInput.

(** The item of an import request that carries an envelope. *)
Definition built_item i (o : KeyprovEnvelopeOutput) (from_ms to_ms : Z) : WrappedKeyItem :=
  mkItem (ki_purpose i) (ki_key_id i) (ki_business_key_version i) (ki_key_algorithm i)
    (ko_wrapped_key o) (ko_parameters o) from_ms to_ms (ki_wrapping_suite i) KEF_ECDH_ES_P256_V1
    (ko_envelope_digest o) (ko_key_check_value o) true.

(** What a sender has to respect beyond the checks of the builder. *)
Record sendable i (o : KeyprovEnvelopeOutput) (ctx : EnvelopeContext) (limits : EnvelopeLimits) : Prop := {
  sd_request : ec_request_id ctx = ki_request_id i;
  sd_domain : ec_business_domain ctx = ki_business_domain i;
  sd_certificate : ec_active_cert_digest ctx = ki_recipient_certificate_digest i;
  sd_gate : cert_capability_gate ctx = true;
  sd_context : ki_hkdf_context_version i = kDefaultHkdfContextVersion;
  sd_version : ki_business_key_version i < 2 ^ 63;
  sd_root : ki_root_key_version i <> 0;
  sd_derivation : ki_derivation_version i <> "";
  sd_operation : ki_operation_id i <> "";
  sd_limits : zlen (ko_parameters o) <= lim_max_parameters limits /\
    32 <= lim_max_wrapped_key limits /\ zlen (ko_canonical_aad o) <= lim_max_canonical_aad limits
}.

(** The message of the envelope comes through the codec. *)
Definition parameters_survive i (o : KeyprovEnvelopeOutput) : Prop :=
  forall m, kp_format_version m = 1 -> SerializeDeterministic m = Some (ko_parameters o) ->
    ko_parameters o <> [] /\ ParseFromArray (ko_parameters o) = Some (m, 0).

Lemma given_or_random_length given n (e : E) v e' :
  given_or_random given n e = (Ok v, e') -> length v = n.
Proof.
  unfold given_or_random. destruct (bytes_empty given).
  - destruct (hs_RAND_bytes n e) as [[r|] e1] eqn:Er; [|done]. intros [= <- _].
    by eapply hs_rand_length.
  - destruct (Nat.eqb_spec (length given) n); [|done]. by intros [= <- _].
Qed.

(** A successful build, unfolded. *)
Lemma build_inv i (e : E) o e' :
  buildEcdhEsP256EnvelopeV1 i e = (Ok o, e') ->
  exists purpose_val eph_priv eph_pub salt nonce,
    check_input i = Ok (2, purpose_val) /\ ki_wrapping_suite i = kWrappingSuiteEcdhEsP256 /\
    ki_key_algorithm i = kDefaultKeyAlgorithm /\ purposeEnumValue (ki_purpose i) = Some purpose_val /\
    zlen (ki_business_key i) = 32 /\ zlen (ki_recipient_certificate_digest i) = 32 /\
    ki_business_key_version i <> 0 /\
    ec_public eph_priv = Some eph_pub /\ length salt = 32%nat /\ length nonce = 12%nat /\
    seal_envelope i 2 purpose_val eph_priv eph_pub salt nonce = Ok o.
Proof.
  unfold buildEcdhEsP256EnvelopeV1.
  destruct (check_input i) as [[suite_val purpose_val]|] eqn:Ec1; [|done].
  destruct (given_or_random (ki_server_ephemeral_private_key i) 32 e) as [[eph_priv|] e1]; [|done].
  destruct (derive_public_key eph_priv) as [eph_pub|] eqn:Ep; [|done].
  destruct (given_or_random (ki_hkdf_salt i) 32 e1) as [[salt|] e2] eqn:Es; [|done].
  destruct (given_or_random (ki_nonce i) 12 e2) as [[nonce|] e3] eqn:En; [|done].
  intros [= Hseal _]. apply given_or_random_length in Es, En.
  pose proof Ec1 as Hc. unfold check_input in Hc. ok_inv Hc. bool_simpl.
  repeat match goal with H : String.eqb _ _ = true |- _ => apply String.eqb_eq in H end.
  assert (suite_val = 2) as ->.
  { match goal with H : wrappingSuiteEnumValue _ = Some _ |- _ => revert H end.
    unfold wrappingSuiteEnumValue. case_match; congruence. }
  simplify_eq. exists purpose_val, eph_priv, eph_pub, salt, nonce. auto 20.
Qed.

Lemma hkdf_length ikm salt info n : length (hkdf_sha256 ikm salt info n) = n.
Proof.
  assert (Hb : hkdf_sha256 ikm salt info n = take n
    (hkdf_blocks (HMAC_SHA256 (if bytes_empty salt then replicate 32 x00 else salt) ikm) info n)).
  { unfold hkdf_sha256. by rewrite <- (hkdf_loop_blocks n _ _ 0 n) by lia. }
  rewrite Hb, length_take, hkdf_blocks_length. lia.
Qed.

#[local] Opaque hkdf_sha256 buildParProtoAadV1 buildWireEnvelopeDigestV1 buildProofInput computeKcv.

(** A sealed envelope, field by field. *)
Lemma seal_inv i purpose_val eph_priv eph_pub salt nonce o :
  zlen (ki_business_key i) = 32 -> length nonce = 12%nat ->
  seal_envelope i 2 purpose_val eph_priv eph_pub salt nonce = Ok o ->
  let aad := buildParProtoAadV1 (builder_aad_input i 2 purpose_val) in
  exists P shared, EC_POINT_oct2point (ki_device_public_key i) = Some P /\
    ECDH_compute_key eph_priv P = Some shared /\
    gcm_seal (hkdf_sha256 shared salt (builder_info i) 32) nonce aad (ki_business_key i) =
      Some (ko_wrapped_key o, ko_authentication_tag o) /\
    zlen (ko_wrapped_key o) = 32 /\ zlen (ko_authentication_tag o) = 16 /\
    SerializeDeterministic (builder_message i eph_pub salt nonce (ko_authentication_tag o) aad) =
      Some (ko_parameters o) /\
    ko_canonical_aad o = aad /\
    ko_envelope_digest o = buildWireEnvelopeDigestV1
      (builder_digest_input i 2 purpose_val (ko_wrapped_key o) (ko_parameters o)) /\
    ko_key_check_value o = computeKcv (ki_business_key i).
Proof.
  intros Hk Hn Hs aad. unfold seal_envelope, ecdh_shared in Hs. fold aad in Hs.
  destruct (EC_POINT_oct2point (ki_device_public_key i)) as [P|]; [|done]. cbn [mbind option_bind] in Hs.
  destruct (ECDH_compute_key eph_priv P) as [shared|] eqn:Ed; [|done].
  unfold builder_aes_gcm_encrypt, builder_hkdf_sha256, zlen in Hs. rewrite hkdf_length, Hn in Hs.
  change (negb (Z.of_nat 32 =? 32) || negb (Z.of_nat 12 =? 12)) with false in Hs. cbv iota in Hs.
  destruct (gcm_seal (hkdf_sha256 _ _ _ _) _ _ _) as [[ct tag]|] eqn:Eg; [|done].
  pose proof (gcm_seal_length _ _ _ _ _ _ Eg) as Hl. pose proof (gcm_seal_tag _ _ _ _ _ _ Eg) as Ht.
  destruct (SerializeDeterministic _) as [parameters|] eqn:Ep; [|done]. injection Hs as <-.
  cbn [ko_wrapped_key ko_parameters ko_envelope_digest ko_key_check_value ko_canonical_aad ko_authentication_tag]. unfold zlen in *. exists P, shared. rewrite Hl, Ht. auto 20.
Qed.
Lemma zlen_nat {A} (l : list A) n : length l = n -> zlen l = Z.of_nat n.
Proof. unfold zlen. by intros ->. Qed.

Lemma built_kcv i o (e e' : E) :
  buildEcdhEsP256EnvelopeV1 i e = (Ok o, e') -> ko_key_check_value o = computeKcv (ki_business_key i).
Proof.
  intros Hb. destruct (build_inv _ _ _ _ Hb) as (pv & ep & eq & salt & nonce & _ & _ & _ & _ & Hkey &
    _ & _ & _ & _ & Hnonce & Hseal).
  by destruct (seal_inv _ _ _ _ _ _ _ Hkey Hnonce Hseal) as (? & ? & _ & _ & _ & _ & _ & _ & _ & _ & ?).
Qed.

(** The next check lets the envelope through. *)
Ltac pass :=
  match goal with |- (if ?b then Err _ else _) = _ =>
    let Hb := fresh in assert (Hb : b = false); [|rewrite Hb; clear Hb]
  end.

(** The checks of the validator, one by one, on an envelope of the builder. *)
Lemma built_accepted i o (e e' : E) ctx limits from_ms to_ms :
  buildEcdhEsP256EnvelopeV1 i e = (Ok o, e') -> parameters_survive i o -> sendable i o ctx limits ->
  exists eph_priv eph_pub salt nonce P shared,
    let params := params_of_msg (builder_message i eph_pub salt nonce (ko_authentication_tag o)
      (ko_canonical_aad o)) in
    validateEnvelope (built_item i o from_ms to_ms) ctx limits =
      Ok (mkValidated params (ko_canonical_aad o) (ko_envelope_digest o) (ko_key_check_value o)) /\
    ec_public eph_priv = Some eph_pub /\ EC_POINT_oct2point (ki_device_public_key i) = Some P /\
    ECDH_compute_key eph_priv P = Some shared /\ length salt = 32%nat /\ length nonce = 12%nat /\
    length (ko_authentication_tag o) = 16%nat /\ 0 < zlen (ko_wrapped_key o) /\
    gcm_seal (hkdf_sha256 shared salt (builder_info i) 32) nonce (ko_canonical_aad o)
      (ki_business_key i) = Some (ko_wrapped_key o, ko_authentication_tag o).
Proof.
  intros Hb Hcodec [Sr Sd Sc Sg Sx Sv Sroot Sder Sop (Sp & Sw & Sa)].
  destruct (build_inv _ _ _ _ Hb) as (pv & eph_priv & eph_pub & salt & nonce & _ & Hsuite & Halg &
    Hpurp & Hkey & Hcert & Hver & Hpub & Hsalt & Hnonce & Hseal).
  destruct (seal_inv _ _ _ _ _ _ _ Hkey Hnonce Hseal) as (P & shared & HP & Hdh & Hgcm & Hw & Htag &
    Hser & Haad & Hdig & Hkcv).
  exists eph_priv, eph_pub, salt, nonce, P, shared. rewrite <- Haad in Hgcm, Hser. intros params.
  split; [|rewrite Hw; repeat (split; [done|]); split; [|done]; unfold zlen in Htag; lia].
  assert (Hparse : parseEcdhEsP256Parameters (ko_parameters o) = Ok params /\
    bytes_empty (ko_parameters o) = false).
  { destruct (Hcodec (builder_message i eph_pub salt nonce (ko_authentication_tag o) (ko_canonical_aad o))
      eq_refl Hser) as [Hne Hparse]. assert (bytes_empty (ko_parameters o) = false) as He by by destruct (ko_parameters o).
    split; [|done]. unfold parseEcdhEsP256Parameters. rewrite He, Hparse, Hser. cbn [negb Z.eqb].
    by rewrite bool_decide_eq_true_2. }
  destruct Hparse as [Hparse Hne].
  assert (Hpoint : isValidP256UncompressedPoint eph_pub = true).
  { destruct (ec_public_point _ _ Hpub) as (Hl & Hh & Hc). unfold isValidP256UncompressedPoint.
    rewrite (zlen_nat _ _ Hl), bool_decide_eq_true_2 by done. by apply ec_point_decodes. }
  assert (Hr : rebuildEnvelopeAad (ec_request_id ctx) (ec_business_domain ctx)
    (built_item i o from_ms to_ms) params = ko_canonical_aad o).
  { rewrite Haad, Sr, Sd. unfold rebuildEnvelopeAad, builder_aad_input, built_item, params. cbn.
    by rewrite Hsuite, Hpurp. }
  set (item := built_item i o from_ms to_ms) in *.
  assert (Hits : it_envelope_format item = KEF_ECDH_ES_P256_V1 /\ it_wrapping_suite item = kWrappingSuiteEcdhEsP256 /\
    it_algorithm item = kDefaultKeyAlgorithm /\ it_parameters item = ko_parameters o /\
    it_wrapped_key item = ko_wrapped_key o /\ it_purpose item = ki_purpose i /\
    it_envelope_digest item = ko_envelope_digest o /\
    it_business_key_version item = ki_business_key_version i /\
    it_key_check_value item = ko_key_check_value o) by done.
  destruct Hits as (I1 & I2 & I3 & I4 & I5 & I6 & I7 & I8 & I9).
  unfold validateEnvelope. rewrite I1, I2, I3, I4, I5, I6, I7, I8, I9.
  change (wrappingSuiteEnumValue kWrappingSuiteEcdhEsP256) with (Some 2). cbv beta iota.
  rewrite Hparse, Hpurp. cbv beta iota zeta. rewrite Hr.
  assert (Hdigest : buildWireEnvelopeDigestV1 (envelope_digest_input item ctx pv 2) = ko_envelope_digest o).
  { rewrite Hdig. unfold envelope_digest_input, builder_digest_input. by rewrite Sr, Sd, I4, I5, I8. }
  assert (Hsha : zlen (sha256 (ko_canonical_aad o)) = 32).
  { unfold zlen, sha256. by rewrite SHA256_length. }
  rewrite Hdigest. repeat (pass; [try done|]); [..|reflexivity].
  all: unfold params, params_of_msg, builder_message;
    cbn [ep_hkdf_context_version ep_canonical_aad ep_hkdf_salt ep_nonce ep_authentication_tag
      ep_aad_digest ep_recipient_certificate_digest ep_server_ephemeral_public_key ep_root_key_version
      ep_derivation_version ep_operation_id kp_hkdf_context_version kp_canonical_aad kp_hkdf_salt
      kp_nonce kp_authentication_tag kp_aad_digest kp_recipient_certificate_digest
      kp_server_ephemeral_public_key kp_root_key_version kp_derivation_version kp_operation_id];
    rewrite ?orb_false_iff, ?negb_false_iff, ?String.eqb_eq, ?constantTimeEqual_eq, ?Z.eqb_eq, ?Z.eqb_neq,
      ?str_empty_false, ?bytes_empty_false, ?Z.gtb_ltb, ?Z.ltb_ge; unfold computeAadDigest;
    rewrite ?Hw, ?Sc, ?(zlen_nat _ _ Hsalt), ?(zlen_nat _ _ Hnonce); auto with lia.
Qed.

(** Delivery. An envelope built for the key a device holds is accepted by the validator of
    the device, in the context of its request and certificate; the software HSM, given what the
    validator returned and the derivation context of the import, unwraps it to the business key
    that went in, and the check value is the one of that key. *)
Theorem built_envelope_opens i o (e e' : E) ctx limits from_ms to_ms device s s1 kd :
  buildEcdhEsP256EnvelopeV1 i e = (Ok o, e') -> parameters_survive i o -> sendable i o ctx limits ->
  is_valid_key_id device = true -> find_key device s = (Ok kd, s1) ->
  ec_public (kd_priv kd) = Some (kd_pub kd) -> ki_device_public_key i = kd_pub kd ->
  let item := built_item i o from_ms to_ms in
  let info := bytes_of_string (buildHkdfInfoV1 (ec_request_id ctx) (ec_business_domain ctx)
    (it_purpose item) (it_key_id item) (it_business_key_version item)
    (toHex (ec_active_cert_digest ctx))) in
  exists v, validateEnvelope item ctx limits = Ok v /\
    unwrap_ecdh_es_v1 device (ep_server_ephemeral_public_key (ve_params v))
      (ep_hkdf_salt (ve_params v)) info (ep_nonce (ve_params v)) (it_wrapped_key item)
      (ep_authentication_tag (ve_params v)) (ve_canonical_aad v) s =
      ((SUCCESS, ki_business_key i), s1) /\
    ve_key_check_value v = computeKcv (ki_business_key i).
Proof.
  intros Hb Hcodec Hsend Hid Hf Hpair Hdev item info.
  destruct (built_accepted _ _ _ _ _ _ from_ms to_ms Hb Hcodec Hsend) as
    (eph_priv & eph_pub & salt & nonce & P & shared & Hv & Hpub & HP & Hdh & Hsalt & Hnonce & Htag &
     Hw & Hgcm).
  eexists. split; [exact Hv|]. split; [|by eapply built_kcv].
  cbn [ve_params ve_canonical_aad]. unfold params_of_msg, builder_message.
  cbn [ep_server_ephemeral_public_key ep_hkdf_salt ep_nonce ep_authentication_tag
    kp_server_ephemeral_public_key kp_hkdf_salt kp_nonce kp_authentication_tag].
  destruct (ec_public_point _ _ Hpub) as (Hl & _ & Q & HQ & Hinf & Hon).
  unfold unwrap_ecdh_es_v1. rewrite Hid, (zlen_nat _ _ Hl), (zlen_nat _ _ Hsalt),
    (zlen_nat _ _ Hnonce), (zlen_nat _ _ Htag), Hf. cbn [negb orb Z.eqb Pos.eqb Z.of_nat Pos.of_succ_nat Pos.succ].
  rewrite Hdev in HP. rewrite HP, HQ, Hinf, Hon. cbn [negb orb].
  rewrite (ec_agreement _ _ _ _ _ _ Hpair Hpub HP HQ), Hdh.
  assert (info = builder_info i) as ->.
  { destruct Hsend. unfold info, builder_info. cbn. congruence. }
  apply gcm_open_seal in Hgcm. unfold hsm_hkdf_sha256, open_wrapped, ENCRYPTION_KEY_SIZE.
  change (it_wrapped_key item) with (ko_wrapped_key o). rewrite Hgcm.
  by rewrite (proj2 (bytes_empty_false _) Hw).
Qed.
End Delivery.

(* --------------------------------------------------------------------- *)
(** ** A delivery to compute with                                         *)
(* --------------------------------------------------------------------- *)

Module DeliverySample.
Export HsmSample.

#[export] Instance kp_parameters_eq_dec : EqDecision KpParameters.
Proof. solve_decision. Defined.

#[export] Instance sample_curve : EcP256 := {|
  ec_point_on_curve p := bool_decide (length p = 65%nat /\ head p = Some x04) |}.
#[export] Instance sample_agree : CurveAgree.
Proof.
  intros p. cbn. rewrite bool_decide_eq_true. split.
  - intros Hp. exists p. by rewrite bool_decide_eq_true_2.
  - intros (P & HP & _). by case_bool_decide.
Qed.
#[export] Instance sample_text : GcmText.
Proof. intros k iv a p ct tag. cbn. by intros [= <- _]. Qed.

(** The envelope goes to the key of [hsm1]. *)
Definition sample_key : bytes := replicate 32 x5a.
Definition sample_in : KeyprovEnvelopeInput :=
  mkInput (point 8) "rid-9" kBusinessDomainV2c kBusinessPurposeUplinkAead "k-up" 7 sample_key 3 "d1"
    "op-1" (replicate 32 x0a) kWrappingSuiteEcdhEsP256 kDefaultKeyAlgorithm "v1"
    (replicate 31 x00 ++ [x21]) (replicate 32 x02) (replicate 12 x03).
Definition sample_aad : bytes := buildParProtoAadV1 (builder_aad_input sample_in 2 1).
Definition sample_kek : bytes :=
  hkdf_sha256 (be_bytes 32 (33 * 8)) (replicate 32 x02) (builder_info sample_in) 32.
Definition sample_tag : bytes :=
  default [] (snd <$> gcm_seal sample_kek (replicate 12 x03) sample_aad sample_key).
Definition sample_msg : KpParameters :=
  builder_message sample_in (point 33) (replicate 32 x02) (replicate 12 x03) sample_tag sample_aad.

(** A codec for this one message. *)
#[export] Program Instance sample_codec : Protobuf := {|
  ParseFromArray b := if bool_decide (b = [x2a]) then Some (sample_msg, 0) else None;
  SerializeDeterministic m := if bool_decide (m = sample_msg) then Some [x2a] else None
|}.
Next Obligation. intros b m n. cbv beta. case_bool_decide; [|done]. intros [= <- _]. split; done. Qed.

Definition sample_ctx : EnvelopeContext :=
  mkEnvContext "rid-9" kBusinessDomainV2c kBusinessPurposeUplinkAead (replicate 32 x0a)
    true true true true true true true true true true true.
Definition sample_out : KeyprovEnvelopeOutput :=
  match (buildEcdhEsP256EnvelopeV1 sample_in (sh_world hsm1)).1 with
  | Ok o => o
  | Err _ => mkOutput [] [] [] kcv_zero [] [] [] [] [] [] [] []
  end.

Lemma sample_built :
  buildEcdhEsP256EnvelopeV1 sample_in (sh_world hsm1) = (Ok sample_out, sh_world hsm1).
Proof. by vm_compute. Qed.

Lemma sample_sendable : sendable sample_in sample_out sample_ctx EnvelopeLimits_default.
Proof. split; [done..|]. by vm_compute. Qed.

Lemma sample_survives : parameters_survive sample_in sample_out.
Proof.
  assert (Ho : ko_parameters sample_out = [x2a]) by by vm_compute. intros m _. rewrite Ho.
  cbn [SerializeDeterministic ParseFromArray sample_codec]. case_bool_decide as Hm; [|done].
  intros _. split; [done|]. rewrite bool_decide_eq_true_2 by done. by rewrite Hm.
Qed.
End DeliverySample.
Import DeliverySample.

Definition hsm1_key : KeyData := mkKeyData (point 8) [x08] "ecdsa-p256" 1700000000123456789.

Lemma built_envelope_opens_witness :
  let item := built_item sample_in sample_out 1 4000000000000 in
  let info := builder_info sample_in in
  exists v, validateEnvelope item sample_ctx EnvelopeLimits_default = Ok v /\
    unwrap_ecdh_es_v1 device (ep_server_ephemeral_public_key (ve_params v))
      (ep_hkdf_salt (ve_params v)) info (ep_nonce (ve_params v)) (it_wrapped_key item)
      (ep_authentication_tag (ve_params v)) (ve_canonical_aad v) hsm1 = ((SUCCESS, sample_key), hsm1) /\
    ve_key_check_value v = computeKcv sample_key.
Proof.
  apply (built_envelope_opens sample_in sample_out (sh_world hsm1) (sh_world hsm1) sample_ctx
    EnvelopeLimits_default 1 4000000000000 device hsm1 hsm1 hsm1_key).
  - exact sample_built.
  - exact sample_survives.
  - exact sample_sendable.
  - by vm_compute.
  - unfold find_key. assert (Hk : sh_keys hsm1 !! device = Some hsm1_key) by by vm_compute.
    by rewrite Hk.
  - by vm_compute.
  - by vm_compute.
Defined.
