(* ===== verification/Arrival.v ===== *)
(** * Arrival: where an unwrapped key is after an import.
    The pipeline of [Import] over the provider of [SoftFile], followed key by key: what the
    HSM opens is staged, committed, and readable in the active slot and on disk, whatever
    else the calls in between do. *)
From S2P Require Import Prelude Errors Canonical KeyTypes Envelope Json Provider Ledger SoftFile SoftFileFacts SoftFileProps TimeTypes TrustedTime Provisioning Import ImportFacts ImportProps.

Lemma Forall2_with {A B} (P R : A -> B -> Prop) (Q : A -> Prop) l k :
  Forall2 P l k -> Forall Q l -> (forall x y, Q x -> P x y -> R x y) -> Forall2 R l k.
Proof. intros Hp Hq Hi. induction Hp; inversion_clear Hq; constructor; auto. Qed.

(** A condition on the surroundings that the calls of an import up to its commit keep. *)
Class Steady {F : Type} `{Env : SoftFileEnv F} (K : F -> Prop) : Prop := {
  steady_save k v e : K e -> K (store_save k v e).2;
  steady_rand n e : K e -> K (RAND_bytes n e).2;
  steady_unwrap key eph salt info nonce ct tag aad e :
    K e -> K (hsm_unwrap_ecdh_es_v1 key eph salt info nonce ct tag aad e).2
}.

(* --------------------------------------------------------------------- *)
(** ** The provider                                                       *)
(* --------------------------------------------------------------------- *)

Section Slots.
Context {F : Type} `{Env : SoftFileEnv F} `{EnvLaws : !SoftFileEnvLaws F}
  `{Crypto : SoftFileCrypto} `{Hash : Sha256} `{J : Json} `{JL : !JsonLaws J}.
Implicit Types p : SfState F.

(** The slot of an item's purpose carries its metadata and decrypts to [key]. *)
Definition slot_holds (slots : gmap string Slot) domain g (item : WrappedKeyItem) (key : bytes) p : Prop :=
  exists h, slots !! it_purpose item = Some (unwrapped_slot item g h) /\
    decrypt_slot_key domain (it_purpose item) (unwrapped_slot item g h) p = Ok key.

(** The key has arrived: it is read from the active slot, and from the active slot of the state
    that the store holds. *)
Definition arrived domain g item key p : Prop :=
  slot_holds (sf_active p) domain g item key p /\
  exists p0, holds p0 (sf_env p) /\ sf_kek p0 = sf_kek p /\
    slot_holds (sf_active p0) domain g item key p0.

Lemma decrypt_kek domain purpose sl p p' :
  sf_kek p' = sf_kek p -> decrypt_slot_key domain purpose sl p' = decrypt_slot_key domain purpose sl p.
Proof. unfold decrypt_slot_key. by intros ->. Qed.

Lemma slot_holds_at slots slots' domain g item key p p' :
  slots' !! it_purpose item = slots !! it_purpose item -> sf_kek p' = sf_kek p ->
  slot_holds slots domain g item key p -> slot_holds slots' domain g item key p'.
Proof. intros Hs Hk (h & Hl & Hd). exists h. by rewrite Hs, (decrypt_kek _ _ _ _ _ Hk). Qed.

(** A write of a state with the same active set leaves arrived keys where they are. *)
Lemma arrived_saved domain g item key p p1 e' :
  sf_active p1 = sf_active p -> sf_kek p1 = sf_kek p -> disk_from p1 (sf_env p) e' ->
  arrived domain g item key p -> arrived domain g item key (with_env e' p1).
Proof.
  intros Ha Hk Hd (Hs & p0 & Hh & Hk0 & Hs0). split.
  { eapply slot_holds_at; [| |exact Hs]; cbn; [by rewrite Ha|done]. }
  destruct Hd as [[H1 H2]|Hh1].
  - exists p0. cbn. destruct Hh. split; [split; congruence|]. split; [congruence|done].
  - exists p1. split; [done|]. split; [done|]. eapply slot_holds_at; [| |exact Hs]; [by rewrite Ha|done].
Qed.

Lemma arrived_journal entry domain g item key p :
  arrived domain g item key p -> arrived domain g item key (sf_saveJournal entry p).2.
Proof.
  destruct (sf_saveJournal entry p) as [rc p'] eqn:Ej.
  apply saveJournal_effect in Ej as [[_ ->]|(e' & -> & Hd & _)]; [done|]. by apply arrived_saved.
Qed.

Lemma arrived_proof d pu v r k ed kc domain g item key p :
  arrived domain g item key p -> arrived domain g item key (sf_generateProof d pu v r k ed kc p).2.
Proof.
  destruct (sf_generateProof _ _ _ _ _ _ _ p) as [x p'] eqn:Ep.
  apply generateProof_effect in Ep as (e' & -> & Hs). apply arrived_saved; [done..|].
  by apply disk_from_same.
Qed.

Lemma staged_journal entry domain g item key p :
  slot_holds (sf_staging p) domain g item key p ->
  let p' := (sf_saveJournal entry p).2 in slot_holds (sf_staging p') domain g item key p'.
Proof.
  destruct (sf_saveJournal entry p) as [rc p'] eqn:Ej.
  apply saveJournal_effect in Ej as [[_ ->]|(e' & -> & _)]; [done|]. by apply slot_holds_at.
Qed.

(** What a successful unwrapping stages is the key that the HSM gave back. *)
Lemma unwrap_stages domain item params aad info b g p kcv p' key :
  sf_unwrapToStaging domain item params aad info b g p = ((SUCCESS, kcv), p') ->
  (hsm_unwrap_ecdh_es_v1 (db_device_key_id b) (ep_server_ephemeral_public_key params)
    (ep_hkdf_salt params) info (ep_nonce params) (it_wrapped_key item)
    (ep_authentication_tag params) aad (sf_env p)).1 = (SUCCESS, key) ->
  slot_holds (sf_staging p') domain g item key p' /\
  forall item' key', it_purpose item' <> it_purpose item ->
    slot_holds (sf_staging p) domain g item' key' p -> slot_holds (sf_staging p') domain g item' key' p'.
Proof.
  intros Hu Hk. apply unwrap_effect in Hu as
    [[? _]|(h & plain & e' & -> & _ & _ & Hd & _ & _ & _ & _ & _ & _ & Hplain)]; [done|].
  rewrite Hk in Hplain. injection Hplain as <-. split.
  - exists h. split; [apply lookup_insert_eq|done].
  - intros item' key' Hne. apply slot_holds_at; [|done]. by apply lookup_insert_ne.
Qed.

(** A commit makes the staged keys arrive. *)
Lemma commit_arrives domain d g p p' item key :
  sf_commitBatch d g p = (SUCCESS, p') -> it_purpose item ∈ sf_required_purposes ->
  slot_holds (sf_staging p) domain g item key p -> arrived domain g item key p'.
Proof.
  intros Hc Hin (h & Hs & Hd).
  apply commit_effect in Hc as [[? _]|(_ & _ & _ & e' & _ & [(_ & -> & Hh)|[? _]])]; [done| |done].
  assert (Hp : promote_staging g (sf_staging p) (sf_active p) !! it_purpose item =
    Some (unwrapped_slot item g h)).
  { unfold promote_staging, sf_required_purposes in *. cbn [fold_left].
    apply elem_of_cons in Hin as [Hp|[Hp|[]%not_elem_of_nil]%elem_of_cons]; rewrite Hp in Hs |- *; rewrite Hs.
    - by destruct (sf_staging p !! kBusinessPurposeDownlinkAead);
        rewrite ?(lookup_insert_ne _ kBusinessPurposeDownlinkAead) by done; rewrite lookup_insert_eq.
    - by rewrite lookup_insert_eq. }
  assert (Ha : slot_holds (sf_active (committed g p)) domain g item key (committed g p)).
  { exists h. split; [exact Hp|]. by erewrite decrypt_kek. }
  split; [exact Ha|]. by exists (committed g p).
Qed.

Section Condition.
Context (K : F -> Prop) `{St : !Steady K}.

Lemma save_state_steady p : K (sf_env p) -> K (sf_env (save_state p).2).
Proof.
  unfold save_state, on_env. intros HK. case_match; [done|].
  match goal with |- context [store_save ?a ?b ?e] =>
    pose proof (steady_save a b e HK); destruct (store_save a b e) end. done.
Qed.

Lemma journal_steady entry p : K (sf_env p) -> K (sf_env (sf_saveJournal entry p).2).
Proof. unfold sf_saveJournal. intros HK. case_match; [done|]. by apply save_state_steady. Qed.

Lemma unwrap_steady domain item params aad info b g p :
  K (sf_env p) -> K (sf_env (sf_unwrapToStaging domain item params aad info b g p).2).
Proof.
  intros HK. unfold sf_unwrapToStaging. cbv zeta.
  repeat match goal with |- context [if ?c then ((_, _), p) else _] => destruct c; [exact HK|] end.
  unfold on_env. match goal with |- context [hsm_unwrap_ecdh_es_v1 ?a ?b ?c ?d ?e ?f ?g ?h ?w] =>
    pose proof (steady_unwrap a b c d e f g h w HK) as HK1;
    destruct (hsm_unwrap_ecdh_es_v1 a b c d e f g h w) as [[rc plain] e1] end. cbn [snd] in HK1.
  repeat match goal with |- context [if ?c then ((_, kcv_zero), _) else _] => destruct c; [exact HK1|] end.
  unfold encrypt_slot_key, aes_gcm_encrypt, on_env.
  match goal with |- context [RAND_bytes ?n ?w] =>
    pose proof (steady_rand n w HK1) as HK2; destruct (RAND_bytes n w) as [[iv|] e2] end; [|exact HK2].
  destruct (gcm_seal _ _ _ _) as [[ct tag]|]; [|exact HK2].
  match goal with |- context [save_state ?q] =>
    pose proof (save_state_steady q HK2) as HK3; destruct (save_state q) end. exact HK3.
Qed.
End Condition.
End Slots.

(* --------------------------------------------------------------------- *)
(** ** The pipeline                                                       *)
(* --------------------------------------------------------------------- *)

Section Pipeline.
Context {F D E : Type} `{Env : SoftFileEnv F} `{EnvLaws : !SoftFileEnvLaws F}
  `{Crypto : SoftFileCrypto} `{Hash : Sha256} `{J : Json} `{JL : !JsonLaws J}
  `{Store : LedgerStore D} `{SEnv : ServiceEnv E} `{PB : Protobuf} `{EC : EcP256}
  (K : F -> Prop) `{St : !Steady K}.
Implicit Types s : Service (SfState F) D E.

(** While [K] holds the HSM opens the envelope of an item to [key]. *)
Definition opens_to rid domain (b : BusinessKeyDeviceBinding) (row : WrappedKeyItem * ValidatedEnvelope)
    (key : bytes) : Prop :=
  let '(item, v) := row in
  forall e, K e -> (hsm_unwrap_ecdh_es_v1 (db_device_key_id b)
    (ep_server_ephemeral_public_key (ve_params v)) (ep_hkdf_salt (ve_params v))
    (bytes_of_string (buildHkdfInfoV1 rid domain (it_purpose item) (it_key_id item)
      (it_business_key_version item) (toHex (db_active_cert_digest b))))
    (ep_nonce (ve_params v)) (it_wrapped_key item) (ep_authentication_tag (ve_params v))
    (ve_canonical_aad v) e).1 = (SUCCESS, key).

(** The journal write between two calls, seen from the provider. *)
Lemma save_journal_provider entry s :
  sv_provider (save_journal entry s) = (sf_saveJournal entry (sv_provider s)).2.
Proof. unfold save_journal, on_provider. cbn. by destruct (sf_saveJournal _ _). Qed.

Abbreviation staged domain g item key s :=
  (slot_holds (sf_staging (sv_provider s)) domain g item key (sv_provider s)).

Lemma staged_save_journal entry domain g item key s :
  staged domain g item key s -> staged domain g item key (save_journal entry s).
Proof. rewrite save_journal_provider. apply staged_journal. Qed.

(** All items of the loop are staged with the keys their envelopes open to, and what was staged
    for other purposes still is. *)
Lemma unwrap_loop_stages rid domain b g rows keys entry s kcvs entry' s' :
  unwrap_loop rid domain b g rows entry s = (inl (kcvs, entry'), s') ->
  K (sf_env (sv_provider s)) -> Forall2 (opens_to rid domain b) rows keys ->
  NoDup (it_purpose <$> rows.*1) ->
  Forall2 (fun row key => staged domain g row.1 key s') rows keys /\
  forall item key, it_purpose item ∉ it_purpose <$> rows.*1 ->
    staged domain g item key s -> staged domain g item key s'.
Proof.
  revert keys entry s kcvs. induction rows as [|[item v] rows IH]; intros keys entry s kcvs Hu HK Ho Hn.
  { injection Hu as _ _ <-. apply Forall2_nil_inv_l in Ho as ->. by split. }
  apply Forall2_cons_inv_l in Ho as (key & keys' & Hkey & Ho & ->).
  cbn [unwrap_loop fmap list_fmap fst] in *. apply NoDup_cons in Hn as [Hnin Hn].
  destruct (on_provider _ s) as [[rc kcv] s1] eqn:Eo.
  destruct (is_success rc) eqn:Es; cbn [negb] in Hu; [|by destruct (pipeline_failed _ _ _ _ _)].
  apply is_success_true in Es as ->. unfold on_provider in Eo. cbn in Eo.
  match type of Eo with context [sf_unwrapToStaging ?d ?i ?ps ?a ?f ?b ?g ?p] =>
    pose proof (unwrap_steady K d i ps a f b g p HK) as HK1;
    destruct (sf_unwrapToStaging d i ps a f b g p) as [[rc kcv'] p1] eqn:Eu end.
  injection Eo as -> -> <-. cbn [snd] in HK1.
  destruct (unwrap_stages _ _ _ _ _ _ _ _ _ _ key Eu (Hkey _ HK)) as [Hs1 Hrest].
  set (entry1 := if String.eqb _ _ then _ else _) in Hu.
  destruct (unwrap_loop _ _ _ _ rows _ _) as [[[kcvs1 entry2]|f] s2] eqn:El; [|done].
  injection Hu as <- <- <-.
  destruct (IH keys' _ _ _ El) as [Hall Hkeep]; [|done|done|].
  { rewrite save_journal_provider. by apply journal_steady. }
  split.
  - constructor; [|exact Hall]. apply Hkeep; [exact Hnin|]. by apply staged_save_journal.
  - intros item' key' Hin Hst. apply not_elem_of_cons in Hin as [Hne Hin].
    apply Hkeep; [exact Hin|]. apply staged_save_journal. by apply Hrest.
Qed.

Abbreviation arrived_at domain g item key s := (arrived domain g item key (sv_provider s)).

Lemma proof_loop_arrived rid domain cert rows s r s' d g item key :
  proof_loop rid domain cert rows s = (r, s') -> arrived_at d g item key s -> arrived_at d g item key s'.
Proof.
  revert s r. induction rows as [|[it [t kcv]] rows IH]; intros s r; cbn [proof_loop]; [by intros [= _ <-]|].
  destruct (on_provider _ s) as [[[rc proof] alg] s1] eqn:Eo.
  destruct (proof_loop _ _ _ rows s1) as [[ts failed] s2] eqn:El. intros [= _ <-] Ha.
  eapply IH; [exact El|]. unfold on_provider in Eo. cbn in Eo.
  match type of Eo with context [sf_generateProof ?a ?b ?c ?d ?e ?f ?g ?p] =>
    pose proof (arrived_proof a b c d e f g _ _ _ _ _ Ha) as Hp;
    destruct (sf_generateProof a b c d e f g p) end. by injection Eo as _ <-.
Qed.

Lemma finish_import_arrived rid domain items b g now kcvs entry out s r s' d item key :
  finish_import rid domain items b g now kcvs entry out s = (r, s') ->
  arrived_at d g item key s -> arrived_at d g item key s'.
Proof.
  unfold finish_import. destruct (trusted_now_ms now s) as [[trc t] s1] eqn:Et.
  apply trusted_now_env in Et as [x ->].
  destruct (proof_loop _ _ _ _ _) as [[ts failed] s2] eqn:Ep. intros Hf Ha.
  apply (proof_loop_arrived _ _ _ _ _ _ _ d g item key) in Ep; [|exact Ha].
  destruct failed; injection Hf as _ <-; rewrite ?update_ledger_provider, save_journal_provider;
    by apply arrived_journal.
Qed.

Lemma failed_code rc : is_success rc = false -> rc <> SUCCESS.
Proof. by intros ? ->. Qed.

Lemma failure_is_no_success (f : ErrorCode * BusinessKeyImportState) (Q : Prop) :
  failure_result f /\ Q -> f.1 = SUCCESS -> False.
Proof. by intros [[->|[? _]] _]. Qed.

(** A pipeline that succeeds, from the keys its envelopes hold to the slots. *)
Lemma run_pipeline_arrives rid domain items vs b rd dg g now out s out' s' keys :
  run_pipeline rid domain items vs b rd dg g now out s = ((SUCCESS, out'), s') ->
  length vs = length items -> K (sf_env (sv_provider s)) ->
  Forall2 (opens_to rid domain b) (zip items vs) keys -> NoDup (it_purpose <$> items) ->
  Forall (fun item => it_purpose item ∈ sf_required_purposes) items ->
  Forall2 (fun item key => arrived_at domain g item key s') items keys.
Proof.
  unfold run_pipeline. cbv zeta. intros Hr Hl HK Ho Hn Hreq.
  destruct (unwrap_loop _ _ _ _ _ _ _) as [[[kcvs entry1]|f] s1] eqn:Eu.
  2: { injection Hr as Hf _ _. apply unwrap_loop_spec in Eu as [_ [->|[Hne _]]]; [|by rewrite Hf in Hne]. done. }
  destruct (unwrap_loop_stages _ _ _ _ _ keys _ _ _ _ _ Eu) as [Hst _];
    [by rewrite save_journal_provider; apply journal_steady|exact Ho|by rewrite fst_zip by lia|].
  destruct (is_success (verify_loop _ _ _)) eqn:Ev; cbn [negb] in Hr.
  2: { destruct (verify_failed _ _ _ _ _) as [f s2] eqn:Ef. injection Hr as Hf _ _.
       by apply failure_is_no_success with (1 := verify_failed_spec _ _ _ _ _ _ _ (failed_code _ Ev) Ef) in Hf. }
  set (s3 := save_journal _ (save_journal _ s1)) in Hr.
  destruct (on_provider _ s3) as [crc s4] eqn:Ec. destruct (is_success crc) eqn:Es; cbn [negb] in Hr.
  2: { destruct (pipeline_failed _ _ _ _ _) as [f s5] eqn:Ef. injection Hr as Hf _ _.
       by apply failure_is_no_success with (1 := pipeline_failed_spec _ _ _ _ _ _ _ (failed_code _ Es) Ef) in Hf. }
  apply is_success_true in Es as ->. unfold on_provider in Ec. cbn in Ec.
  destruct (sf_commitBatch domain g (sv_provider s3)) as [crc p4] eqn:Eb. injection Ec as -> <-.
  assert (Hrows : Forall2 (fun item key => staged domain g item key s1) items keys).
  { rewrite <- (fst_zip items vs) by lia. by apply Forall2_fmap_l. }
  eapply Forall2_with; [exact Hrows|exact Hreq|]. intros item key Hin Hs.
  eapply finish_import_arrived; [exact Hr|]. eapply commit_arrives; [exact Eb|exact Hin|].
  by do 2 apply staged_save_journal.
Qed.

Lemma check_request_binding rid domain items s b vs s1 :
  check_request rid domain items s = (Ok (b, vs), s1) -> b = (probe_binding s).1.
Proof.
  unfold check_request. destruct (negb _); [done|]. destruct (probe_binding s) as [b0 s0].
  destruct (negb _); [done|]. destruct (validate_envelopes _ _ _ _ _); [|done]. by intros [= <- _ _].
Qed.

(** A success without an earlier record is a run of the pipeline. *)
Lemma importKl1_fresh rid domain items ctx s out att s' :
  importKl1 rid domain items ctx s = ((SUCCESS, out, att), s') ->
  jl_status (bp_loadJournalEx (rid_digest_of rid) (sv_provider s)) = JLS_NOT_FOUND ->
  let b := (probe_binding s).1 in
  exists vs s2 dg g now, validate_structure (sv_cfg s) rid domain items = SUCCESS /\
    validate_envelopes (sv_cfg s) rid domain b items = Ok vs /\ sv_env_only s s2 /\
    run_pipeline rid domain items vs b (rid_digest_of rid) dg g now (res_for rid domain) s2
      = ((SUCCESS, out), s').
Proof.
  unfold importKl1. cbv zeta. intros Hi Hn.
  do 5 (match type of Hi with (if ?c then _ else _) = _ => destruct c; [done|] end).
  destruct (check_request rid domain items s) as [r s1] eqn:Ec.
  pose proof (check_request_env _ _ _ _ _ _ Ec) as (He & Hok & Herr).
  destruct r as [[b vs]|erc]; [|injection Hi as -> _ _ _; by destruct (Herr _ eq_refl)].
  apply check_request_binding in Ec as Hb. destruct (Hok _ _ eq_refl) as (Hst & _ & Hvs). subst b.
  destruct (env_only_untouched _ _ He) as [Hp _]. rewrite Hp, Hn in Hi.
  destruct (has_transaction_residue _ s1); [done|].
  destruct (admission_kl1 _ _ _ _ s1) as [arc s2] eqn:Ea. apply admission_kl1_spec in Ea as [He2 _].
  destruct (is_success arc) eqn:Es; cbn [negb] in Hi; [|injection Hi as -> _ _ _; done].
  destruct (trusted_now_ms 0 s2) as [[trc now] s3] eqn:Et. apply trusted_now_env in Et as He3.
  destruct (run_pipeline _ _ _ _ _ _ _ _ _ _ s3) as [[prc pout] s4] eqn:Ep.
  injection Hi as -> -> _ ->. exists vs, s3. do 3 eexists.
  split; [exact Hst|]. split; [exact Hvs|]. split; [|exact Ep]. eauto using sv_env_only_trans.
Qed.

(** So a fresh import that succeeds brings the keys of its envelopes to their slots. *)
Lemma importKl1_arrives rid domain items ctx s out att s' keys :
  importKl1 rid domain items ctx s = ((SUCCESS, out, att), s') ->
  jl_status (bp_loadJournalEx (rid_digest_of rid) (sv_provider s)) = JLS_NOT_FOUND ->
  K (sf_env (sv_provider s)) ->
  (forall vs, validate_envelopes (sv_cfg s) rid domain (probe_binding s).1 items = Ok vs ->
    Forall2 (opens_to rid domain (probe_binding s).1) (zip items vs) keys) ->
  Forall (fun item => it_purpose item ∈ sf_required_purposes) items ->
  exists g, Forall2 (fun item key => arrived_at domain g item key s') items keys.
Proof.
  intros Hi Hn HK Ho Hreq.
  destruct (importKl1_fresh _ _ _ _ _ _ _ _ Hi Hn) as (vs & s2 & dg & g & now & Hst & Hvs & [x ->] & Hr).
  exists g. eapply run_pipeline_arrives; [exact Hr|by eapply validate_envelopes_length|exact HK|by apply Ho| |exact Hreq].
  by apply validate_structure_spec in Hst as (_ & _ & _ & _ & _ & _ & Hnd & _).
Qed.
End Pipeline.
