(* ===== verification/Vault.v ===== *)
(** * Vault: the provider of business keys over the software HSM.
    [SoftFile] with [SoftHsm] in place of its HSM: files beside an HSM with its own store.
    With the sender of [EnvelopeBuilder] this closes the way of a business key, from the
    back end to the active slot of the device. *)
From S2P Require Import Prelude Errors Canonical KeyTypes Envelope Json Provider Ledger SoftFile SoftFileFacts SoftFileProps TimeTypes TrustedTime Provisioning Import ImportSample ImportFacts ImportProps KeyEngine SoftHsm SoftHsmProps HsmSample EnvelopeBuilder Arrival.

(* --------------------------------------------------------------------- *)
(** ** The two stores                                                     *)
(* --------------------------------------------------------------------- *)

Section Vault.
Context {F W : Type} `{Files : !SoftFileEnv F} `{World : HsmWorld W} `{Ec : P256}
  `{Crypto : SoftFileCrypto} `{Hash : Sha256} `{J : Json}.

(** Calls on the files, and calls on the HSM. *)
Definition on_files {A} (m : st F A) : st (F * SoftFileHsm W) A :=
  fun e => let '(a, f) := m e.1 in (a, (f, e.2)).
Definition on_hsm {A} (m : st (SoftFileHsm W) A) : st (F * SoftFileHsm W) A :=
  fun e => let '(a, h) := m e.2 in (a, (e.1, h)).

#[export] Instance vault_env : SoftFileEnv (F * SoftFileHsm W) := {|
  store_open := on_files store_open;
  store_isReady e := store_isReady e.1;
  store_has k e := store_has k e.1;
  store_load k e := store_load k e.1;
  store_save k v := on_files (store_save k v);
  kek_exists e := kek_exists e.1;
  kek_read e := kek_read e.1;
  kek_write k := on_files (kek_write k);
  RAND_bytes n := on_files (RAND_bytes n);
  hsm_present e := true;
  hsm_unwrap_ecdh_es_v1 key eph salt info nonce ct tag aad :=
    on_hsm (unwrap_ecdh_es_v1 key eph salt info nonce ct tag aad);
  hsm_sign_digest_p1363 key digest := on_hsm (sign_digest_p1363 key digest);
  binding_provider := on_files binding_provider
|}.

(** The HSM does not touch the files of the provider. *)
#[export] Instance vault_laws `{FilesLaws : !SoftFileEnvLaws F} : SoftFileEnvLaws (F * SoftFileHsm W).
Proof.
  split; cbn; unfold on_files, on_hsm.
  - intros k v [f h] e'. cbn. destruct (store_save k v f) as [b f'] eqn:Es. intros [= -> <-]. by eapply store_save_ok.
  - intros k v [f h] e'. cbn. destruct (store_save k v f) as [b f'] eqn:Es. intros [= -> <-]. by eapply store_save_failed.
  - intros n [f h] iv e'. cbn. destruct (RAND_bytes n f) as [r f'] eqn:Es. intros [= -> <-]. by eapply RAND_bytes_length.
  - intros [f h] k. pose proof (store_open_frame f k). cbn. by destruct (store_open f).
  - intros k [f h] k'. pose proof (kek_write_frame k f k'). cbn. by destruct (kek_write k f).
  - intros n [f h] k. pose proof (RAND_bytes_frame n f k). cbn. by destruct (RAND_bytes n f).
  - intros a b c d g i j k [f h] k'. cbn. by destruct (unwrap_ecdh_es_v1 _ _ _ _ _ _ _ _ h).
  - intros a b [f h] k. cbn. by destruct (sign_digest_p1363 a b h).
  - intros [f h] k. pose proof (binding_provider_frame f k). cbn. by destruct (binding_provider f).
Qed.

(** The HSM finds the key [kd] under the name [device]. *)
Definition keeps_key (device : string) (kd : KeyData) (e : F * SoftFileHsm W) : Prop :=
  exists h, find_key device e.2 = (Ok kd, h).

Lemma load_key_cache id ks (s : SoftFileHsm W) :
  load_key_from_store id (sh_with_keys ks s) = load_key_from_store id s.
Proof. done. Qed.

(** Looking up one key does not lose another. *)
Lemma find_key_keeps id device kd (s h : SoftFileHsm W) :
  find_key device s = (Ok kd, h) -> exists h', find_key device (find_key id s).2 = (Ok kd, h').
Proof.
  intros Hf. unfold find_key at 2. destruct (sh_keys s !! id) as [kd1|] eqn:Ek; [by exists h|].
  destruct (load_key_from_store id s) as [kd1|rc] eqn:El; [|by exists h].
  unfold find_key in *. cbn [snd sh_keys sh_with_keys]. rewrite load_key_cache.
  destruct (decide (id = device)) as [->|Hne].
  - rewrite Ek, El in Hf. injection Hf as -> _. rewrite lookup_insert_eq. eauto.
  - rewrite lookup_insert_ne by done. destruct (sh_keys s !! device); [injection Hf as -> _; eauto|].
    destruct (load_key_from_store device s); [injection Hf as -> _; eauto|done].
Qed.

(** Unwrapping looks up a key and changes nothing else. *)
Lemma unwrap_state key eph salt info nonce ct tag aad (s : SoftFileHsm W) :
  let s' := (unwrap_ecdh_es_v1 key eph salt info nonce ct tag aad s).2 in s' = s \/ s' = (find_key key s).2.
Proof.
  cbv zeta. unfold unwrap_ecdh_es_v1. destruct (negb _); [by left|]. destruct (_ || _); [by left|]. right.
  destruct (find_key key s) as [[kd|rc] s1]; [|done]. cbn [snd]. repeat case_match; done.
Qed.

#[export] Instance keeps_key_steady device kd : Steady (keeps_key device kd).
Proof.
  split; unfold keeps_key; cbn; unfold on_files, on_hsm.
  - intros k v [f s]. cbn. by destruct (store_save k v f).
  - intros n [f s]. cbn. by destruct (RAND_bytes n f).
  - intros key eph salt info nonce ct tag aad [f s] [h Hh]. cbn in *.
    pose proof (unwrap_state key eph salt info nonce ct tag aad s) as Hs.
    destruct (unwrap_ecdh_es_v1 _ _ _ _ _ _ _ _ s) as [r s']. cbn in *. destruct Hs as [->| ->]; [eauto|].
    by eapply find_key_keeps.
Qed.
End Vault.

(* --------------------------------------------------------------------- *)
(** ** From the sender to the slot                                        *)
(* --------------------------------------------------------------------- *)

Section Journey.
Context {F W D E : Type} `{Files : !SoftFileEnv F} `{FilesLaws : !SoftFileEnvLaws F}
  `{World : HsmWorld W} `{Ec : P256} `{G : !P256Group} `{Curve : EcP256} `{Agree : !CurveAgree}
  `{HStore : !HsmStore W} `{Crypto : SoftFileCrypto} `{Text : !GcmText} `{Hash : Sha256}
  `{Pb : Protobuf} `{J : Json} `{JL : !JsonLaws J} `{Store : LedgerStore D} `{SEnv : ServiceEnv E}.
Implicit Types s : Service (SfState (F * SoftFileHsm W)) D E.

(** [item] is what the builder makes of [i], for the key [kd] of the device and the binding [b]. *)
Definition sent rid domain cfg (b : BusinessKeyDeviceBinding) (kd : KeyData) (item : WrappedKeyItem)
    (i : KeyprovEnvelopeInput) : Prop :=
  exists (e e' : W) o from_ms to_ms, buildEcdhEsP256EnvelopeV1 i e = (Ok o, e') /\
    item = built_item i o from_ms to_ms /\ parameters_survive i o /\
    sendable i o (envelope_context rid domain (it_purpose item) b) (envelope_limits cfg) /\
    ki_device_public_key i = kd_pub kd.

Lemma sent_purpose rid domain cfg b kd item i :
  sent rid domain cfg b kd item i -> it_purpose item ∈ sf_required_purposes.
Proof.
  intros (e & e' & o & fm & tm & Hb & -> & _).
  apply build_inv in Hb as (pv & _ & _ & _ & _ & _ & _ & _ & Hp & _). cbn [it_purpose built_item].
  unfold purposeEnumValue in Hp. unfold sf_required_purposes. rewrite !elem_of_cons.
  repeat case_match; try done; match goal with H : String.eqb _ _ = true |- _ => apply String.eqb_eq in H end; auto.
Qed.

Lemma sent_opens rid domain cfg b kd item i v :
  sent rid domain cfg b kd item i ->
  validateEnvelope item (envelope_context rid domain (it_purpose item) b) (envelope_limits cfg) = Ok v ->
  is_valid_key_id (db_device_key_id b) = true -> ec_public (kd_priv kd) = Some (kd_pub kd) ->
  opens_to (keeps_key (F := F) (db_device_key_id b) kd) rid domain b (item, v) (ki_business_key i).
Proof.
  intros (e & e' & o & fm & tm & Hb & -> & Hsv & Hsend & Hpub) Hv Hid Hpair [f h] [h' Hf].
  destruct (built_envelope_opens _ _ _ _ _ _ fm tm _ _ _ _ Hb Hsv Hsend Hid Hf Hpair Hpub) as (v' & Hv' & Ho & _).
  rewrite Hv in Hv'. injection Hv' as <-. cbn in Ho |- *. unfold on_hsm. cbn [snd fst]. by rewrite Ho.
Qed.

Lemma all_open rid domain cfg b kd items inputs vs :
  Forall2 (sent rid domain cfg b kd) items inputs ->
  validate_envelopes cfg rid domain b items = Ok vs ->
  is_valid_key_id (db_device_key_id b) = true -> ec_public (kd_priv kd) = Some (kd_pub kd) ->
  Forall2 (opens_to (keeps_key (F := F) (db_device_key_id b) kd) rid domain b) (zip items vs)
    (ki_business_key <$> inputs).
Proof.
  intros Hs. revert vs. induction Hs as [|item i items inputs H1 _ IH]; intros vs Hvs Hid Hpair; cbn in Hvs.
  { injection Hvs as <-. constructor. }
  destruct (validateEnvelope item _ _) as [v|] eqn:Ev; [|done].
  destruct (validate_envelopes _ _ _ _ items) as [vs'|] eqn:Er; [|done]. injection Hvs as <-.
  constructor; [by eapply sent_opens|]. by apply IH.
Qed.

(** C5. The way of a business key. The back end wraps business keys for the key that the software HSM of
    a device keeps, one envelope per item, for the request, the domain and the certificate the device
    reports. When the device answers SUCCESS to a first KL1 import of these items, every business key
    is in the active slot of its purpose under one generation, with the item's metadata, readable
    with the provider's key, byte for byte as it was sent; and the state on disk holds the same. *)
Theorem sent_keys_arrive rid domain items inputs ctx s out att s' kd h :
  importKl1 rid domain items ctx s = ((SUCCESS, out, att), s') ->
  jl_status (sf_loadJournalEx (rid_digest_of rid) (sv_provider s)) = JLS_NOT_FOUND ->
  let b := (probe_binding s).1 in
  is_valid_key_id (db_device_key_id b) = true ->
  find_key (db_device_key_id b) (sf_env (sv_provider s)).2 = (Ok kd, h) ->
  ec_public (kd_priv kd) = Some (kd_pub kd) ->
  Forall2 (sent rid domain (sv_cfg s) b kd) items inputs ->
  exists g, Forall2 (fun item i => arrived domain g item (ki_business_key i) (sv_provider s')) items inputs.
Proof.
  intros Hi Hn b Hid Hf Hpair Hsent.
  assert (Hreq : Forall (fun item => it_purpose item ∈ sf_required_purposes) items).
  { eapply Forall2_Forall_l; [exact Hsent|]. apply Forall_true. intros i item. apply sent_purpose. }
  destruct (importKl1_arrives (keeps_key (db_device_key_id b) kd) rid domain items ctx s out att s'
    (ki_business_key <$> inputs) Hi Hn) as [g Ha]; [by exists h| |exact Hreq|].
  - intros vs Hvs. by apply (all_open rid domain (sv_cfg s) b kd items).
  - exists g. by apply Forall2_fmap_r in Ha.
Qed.
End Journey.
