(* ===== verification/VaultSample.v ===== *)
(** * VaultSample: a device, its back end, and two business keys on their way.
    The witness of [Vault]: an uplink and a downlink key, wrapped by the builder for the key of a
    software HSM, imported by a service over that HSM and read back from both slots. *)
From S2P Require Import Prelude Errors Canonical KeyTypes Envelope Json Provider Ledger SoftFile SoftFileFacts SoftFileProps TimeTypes TrustedTime TimeMonitor TimeProps Provisioning Import ImportSample KeyEngine SoftHsm SoftHsmProps HsmSample EnvelopeBuilder Arrival Vault.

Module VaultSample.
Export SoftFileSample LedgerSample TimeSample HsmSample.
#[export] Existing Instances DeliverySample.sample_curve DeliverySample.sample_agree DeliverySample.sample_text
  ImportSample.device_env.

(** The identity of a device whose key the HSM keeps under [device]. *)
Definition vault_binding : BusinessKeyDeviceBinding :=
  mkBinding true "ECU-1" device (point 8) true true true true true (replicate 32 x0a) 0 5000000000000
    true true true true true true.
Definition key_of_device : KeyData := mkKeyData (point 8) [x08] "ecdsa-p256" 1700000000123456789.

(** Two keys, one for each purpose. *)
Definition uplink_key : bytes := replicate 32 x5a.
Definition downlink_key : bytes := replicate 32 xa5.
Definition input_for (purpose key_id : string) (key : bytes) : KeyprovEnvelopeInput :=
  mkInput (point 8) "rid-9" kBusinessDomainV2c purpose key_id 7 key 3 "d1" "op-1" (replicate 32 x0a)
    kWrappingSuiteEcdhEsP256 kDefaultKeyAlgorithm "v1" (replicate 31 x00 ++ [x21])
    (replicate 32 x02) (replicate 12 x03).
Definition input_up := input_for kBusinessPurposeUplinkAead "k-up" uplink_key.
Definition input_down := input_for kBusinessPurposeDownlinkAead "k-down" downlink_key.

(** The message the builder makes of an input, its purpose having the wire number [n]. *)
Definition aad_of i n : bytes := buildParProtoAadV1 (builder_aad_input i 2 n).
Definition kek_of i : bytes :=
  hkdf_sha256 (be_bytes 32 (33 * 8)) (replicate 32 x02) (builder_info i) 32.
Definition tag_of i n : bytes :=
  default [] (snd <$> gcm_seal (kek_of i) (replicate 12 x03) (aad_of i n) (ki_business_key i)).
Definition message_of i n : KpParameters :=
  builder_message i (point 33) (replicate 32 x02) (replicate 12 x03) (tag_of i n) (aad_of i n).

(** A codec for the two messages. *)
#[export] Existing Instance DeliverySample.kp_parameters_eq_dec.
#[export] Program Instance two_codec : Protobuf := {|
  ParseFromArray b :=
    if bool_decide (b = [x2a]) then Some (message_of input_up 1, 0)
    else if bool_decide (b = [x2b]) then Some (message_of input_down 2, 0) else None;
  SerializeDeterministic m :=
    if bool_decide (m = message_of input_up 1) then Some [x2a]
    else if bool_decide (m = message_of input_down 2) then Some [x2b] else None
|}.
Next Obligation.
  intros b m n. cbv beta. case_bool_decide; [intros [= <- _]; by split|].
  case_bool_decide; [|done]. intros [= <- _]. by split.
Qed.

Definition built i : KeyprovEnvelopeOutput :=
  match (buildEcdhEsP256EnvelopeV1 i (sh_world hsm1)).1 with
  | Ok o => o
  | Err _ => mkOutput [] [] [] kcv_zero [] [] [] [] [] [] [] []
  end.
Definition out_up := built input_up.
Definition out_down := built input_down.
Definition item_of i o : WrappedKeyItem := built_item i o 1 4000000000000.
Definition items : list WrappedKeyItem := [item_of input_up out_up; item_of input_down out_down].

(** The device: the service over the files and the HSM, constructed and initialized. *)
Definition files0 : SoftFileSample.world := SoftFileSample.mkWorld ∅ [] None 1 true [] vault_binding.
Definition vault0 : SfState (SoftFileSample.world * SoftFileHsm hworld) :=
  sf_new SoftFileSample.cfg0 (files0, hsm1).
Definition svc : Service (SfState (SoftFileSample.world * SoftFileHsm hworld)) disk ImportSample.device :=
  (service_initialize (service_new ImportSample.service_cfg ImportSample.all_wired vault0 ledger0
    (tstate0, vault_binding) 9)).2.
Definition lease : KeyprovImportContext :=
  mkContext 1700000060000 (epoch (rd_epoch_src (sv_ready svc))) 1.
Abbreviation imported := (importKl1 "rid-9" kBusinessDomainV2c items lease svc).

Lemma delivered_eq : imported = ((SUCCESS, imported.1.1.2, imported.1.2), imported.2).
Proof.
  assert (H : imported.1.1.1 = SUCCESS) by by vm_compute.
  rewrite <- H. by destruct (importKl1 _ _ _ _ _) as [[[? ?] ?] ?].
Qed.
End VaultSample.
Import VaultSample.

Lemma two_codec_survives i o : parameters_survive i o.
Proof.
  intros m _. cbn [SerializeDeterministic ParseFromArray two_codec].
  case_bool_decide as H1; [intros [= <-]|case_bool_decide as H2; [|done]; intros [= <-]]; by subst m.
Qed.

Lemma sent_both :
  Forall2 (sent "rid-9" kBusinessDomainV2c (sv_cfg svc) vault_binding key_of_device) items [input_up; input_down].
Proof.
  constructor; [|constructor; [|constructor]].
  - exists (sh_world hsm1), (sh_world hsm1), out_up, 1, 4000000000000.
    split; [by vm_compute|]. split; [done|]. split; [by eapply two_codec_survives|].
    split; [|by vm_compute]. split; [done..|]. by vm_compute.
  - exists (sh_world hsm1), (sh_world hsm1), out_down, 1, 4000000000000.
    split; [by vm_compute|]. split; [done|]. split; [by eapply two_codec_survives|].
    split; [|by vm_compute]. split; [done..|]. by vm_compute.
Qed.

Lemma sent_keys_arrive_witness :
  imported.1.1.1 = SUCCESS /\
  exists g, Forall2 (fun item i => arrived kBusinessDomainV2c g item (ki_business_key i) (sv_provider imported.2))
    items [input_up; input_down].
Proof.
  split; [by vm_compute|].
  apply (sent_keys_arrive "rid-9" kBusinessDomainV2c items [input_up; input_down] lease svc
    imported.1.1.2 imported.1.2 imported.2 key_of_device hsm1).
  - exact delivered_eq.
  - by vm_compute.
  - by vm_compute.
  - by vm_compute.
  - by vm_compute.
  - assert (Hb : (probe_binding svc).1 = vault_binding) by by vm_compute. rewrite Hb. exact sent_both.
Defined.
