(* ===== verification/ConfigCheck.v ===== *)
(** * ConfigCheck: the checker of configuration files.
    Models [src/sec_config_checker.cpp]: the rules over a parsed YAML document, the
    report and the exit code. The YAML library is a parameter: documents are trees, and
    the conversions of a scalar to a number or a boolean are functions of its text. *)
From S2P Require Import Prelude Canonical.
From Stdlib Require Import Ascii.

(* --------------------------------------------------------------------- *)
(** ** Documents                                                          *)
(* --------------------------------------------------------------------- *)

(** A node of a document; a map keeps the order of the file and may repeat a key. *)
#[warnings="-register-all"]
Inductive yaml :=
  | YNull
  | YScalar (text : string)
  | YSeq (l : list yaml)
  | YMap (l : list (yaml * yaml)).

(** [as<int>] and [as<bool>] of a scalar, and [as<std::string>] of the null node, which depends
    on the version of the library: [None] is [YAML::BadConversion]. *)
Class Yaml := {
  yaml_int : string -> option Z;
  yaml_bool : string -> option bool;
  yaml_null_text : option string
}.

(** What [YAML::LoadFile] does: [BadFile], another exception, or a document. *)
Inductive YamlFile := NoFile | Malformed | Document (root : yaml).

Definition yaml_is_map (n : yaml) : bool := match n with YMap _ => true | _ => false end.
Definition yaml_is_scalar (n : yaml) : bool := match n with YScalar _ => true | _ => false end.
Definition yaml_string `{Yaml} (n : yaml) : option string :=
  match n with YScalar s => Some s | YNull => yaml_null_text | _ => None end.

(** [n[k]] of a map: the first pair whose key is the scalar [k]. *)
Fixpoint pairs_find (k : string) (l : list (yaml * yaml)) : option yaml :=
  match l with
  | [] => None
  | (YScalar k', v) :: l => if String.eqb k' k then Some v else pairs_find k l
  | _ :: l => pairs_find k l
  end.
Definition yaml_find (k : string) (n : yaml) : option yaml :=
  match n with YMap l => pairs_find k l | _ => None end.

(** The member [k] when it is a map. *)
Definition yaml_map (k : string) (n : yaml) : option yaml :=
  match yaml_find k n with Some m => if yaml_is_map m then Some m else None | None => None end.

(* --------------------------------------------------------------------- *)
(** ** Texts                                                              *)
(* --------------------------------------------------------------------- *)

(** [std::tolower] in the C locale. *)
Definition ascii_lower (c : ascii) : ascii :=
  let n := N_of_ascii c in if (65 <=? n)%N && (n <=? 90)%N then ascii_of_N (n + 32) else c.

(** [src/src/sec_config_checker.cpp:120-124] toLower *)
Fixpoint toLower (s : string) : string :=
  match s with EmptyString => EmptyString | String c s => String (ascii_lower c) (toLower s) end.

(** [src/src/sec_config_checker.cpp:126-131] trim *)
Definition trim (s : string) : string := trim_right (trim_left s).

(** [field_path.substr(field_path.find_last_of('.') + 1)]. *)
Fixpoint after_last_dot (acc s : string) : string :=
  match s with
  | EmptyString => acc
  | String "." r => after_last_dot r r
  | String _ r => after_last_dot acc r
  end.
Definition last_field (path : string) : string := after_last_dot path path.

(* --------------------------------------------------------------------- *)
(** ** Findings                                                           *)
(* --------------------------------------------------------------------- *)

(** [src/src/sec_config_checker.cpp:45-45] Profile *)
Inductive Profile := Production | Test_.
#[global] Instance profile_eq_dec : EqDecision Profile.
Proof. solve_decision. Defined.

(** [src/src/sec_config_checker.cpp:47-49] profileToString *)
Definition profileToString (p : Profile) : string :=
  match p with Production => "production" | Test_ => "test" end.

(** [src/src/sec_config_checker.cpp:54-59] Finding *)
Record Finding := mkFinding {
  fi_severity : string;
  fi_rule : string;
  fi_field_path : string;
  fi_message : string
}.

(** What a check adds to the findings; [None] when an exception of the YAML library leaves it,
    which nothing catches. *)
Definition check : Type := option (list Finding).
Definition nothing : check := Some [].
Definition then_ (a b : check) : check := x ← a; y ← b; Some (x ++ y).
Infix "+>>" := then_ (at level 61, left associativity).

(** [src/src/sec_config_checker.cpp:202-204] error *)
Definition error (rule field msg : string) : check := Some [mkFinding "ERROR" rule field msg].
(** [src/src/sec_config_checker.cpp:206-208] warn *)
Definition warn (rule field msg : string) : check := Some [mkFinding "WARN" rule field msg].

(** [src/src/sec_config_checker.cpp:210-215] hasNoErrors *)
Definition hasNoErrors (fs : list Finding) : bool :=
  forallb (fun f => negb (String.eqb (fi_severity f) "ERROR")) fs.

(** Name sets are written in the order a [std::set] iterates in. *)
(** [src/src/sec_config_checker.cpp:64-67] kAllowedTopLevel *)
Definition kAllowedTopLevel : list string :=
  ["cloud"; "environment"; "hsm"; "key_provisioning"; "sec"; "soft_key"; "storage"].
(** [src/src/sec_config_checker.cpp:69-70] kSecKeys *)
Definition kSecKeys : list string := ["ipc"; "tls"; "trusted_time"; "business_key_provisioning"].
(** [src/src/sec_config_checker.cpp:71-71] kSecIpcKeys *)
Definition kSecIpcKeys : list string := ["socket_path"].
(** [src/src/sec_config_checker.cpp:72-72] kSecTlsKeys *)
Definition kSecTlsKeys : list string := ["dev_peer_service"; "profiles"].
(** [src/src/sec_config_checker.cpp:73-76] kSecTrustedTimeKeys *)
Definition kSecTrustedTimeKeys : list string :=
  ["provider"; "platform"; "hardware_rtc"; "rollback_tolerance_ms"; "peer_allowlist"].
(** [src/src/sec_config_checker.cpp:77-82] kTrustedTimePlatformKeys *)
Definition kTrustedTimePlatformKeys : list string :=
  ["enabled"; "max_freshness_ms"; "max_uncertainty_ms"; "monitor_enabled"; "time_client";
   "monitor_refresh_interval_ms"; "lease_max_ms"; "cache_max_age_ms"; "auth"].
(** [src/src/sec_config_checker.cpp:83-83] kTrustedTimeClientKeys *)
Definition kTrustedTimeClientKeys : list string := ["socket_path"; "timeout_ms"].
(** [src/src/sec_config_checker.cpp:84-86] kTrustedTimeAuthKeys *)
Definition kTrustedTimeAuthKeys : list string := ["require_evidence"; "policy_versions"; "approved_sources"].
(** [src/src/sec_config_checker.cpp:87-87] kTrustedTimeRtcKeys *)
Definition kTrustedTimeRtcKeys : list string := ["enabled"; "require_provisioned"].
(** [src/src/sec_config_checker.cpp:89-93] kBusinessKeyProvKeys *)
Definition kBusinessKeyProvKeys : list string :=
  ["enabled"; "allowed_domains"; "required_purposes"; "allowed_envelope_formats";
   "allowed_wrapping_suites"; "allowed_algorithms"; "max_items"; "max_wrapped_key_bytes";
   "request_timeout_ms"; "peer_service"].
(** [src/src/sec_config_checker.cpp:94-99] kTlsProfileKeys *)
Definition kTlsProfileKeys : list string :=
  ["credential_id"; "key_usage"; "allowed_signature_algorithms"; "peer_service";
   "notify_on_change"; "ref_ttl_sec"; "root_ca_source"].
(** [src/src/sec_config_checker.cpp:100-100] kHsmKeys *)
Definition kHsmKeys : list string := ["type"; "library_path"].
(** [src/src/sec_config_checker.cpp:101-101] kKeyProvKeys *)
Definition kKeyProvKeys : list string := ["mode"].
(** [src/src/sec_config_checker.cpp:102-104] kCloudKeys *)
Definition kCloudKeys : list string := ["endpoint"; "timeout_ms"; "retry_count"; "retry_delay_ms"].
(** [src/src/sec_config_checker.cpp:105-105] kStorageKeys *)
Definition kStorageKeys : list string := ["state_file"; "ca_cert"; "cert_store"].
(** [src/src/sec_config_checker.cpp:106-108] kSoftKeyKeys *)
Definition kSoftKeyKeys : list string := ["path"; "encryption_algo"; "encryption_key_path"].
(** [src/src/sec_config_checker.cpp:109-109] kEnvironmentKeys *)
Definition kEnvironmentKeys : list string := ["is_production"; "profile"].

(** [src/src/sec_config_checker.cpp:112-115] kForbiddenSecretFields *)
Definition kForbiddenSecretFields : list string :=
  ["pin"; "token"; "handle"; "private_key_ref"; "private_key"; "tls_secret"; "secret"; "kek";
   "password"; "passphrase"; "slot_secret"].

Section Checker.
Context `{Y : Yaml}.
Implicit Types (p : Profile) (n root : yaml).

(** [src/src/sec_config_checker.cpp:217-217] isProduction *)
Definition isProduction p : bool := bool_decide (p = Production).

Definition when_ (b : bool) (c : check) : check := if b then c else nothing.

(** The check of a text: the conversion of the node throws when it is not one. *)
Definition with_text n (f : string -> check) : check := s ← yaml_string n; f s.
(** The check of an optional member. *)
Definition with_member (k : string) n (f : yaml -> check) : check :=
  match yaml_find k n with Some v => f v | None => nothing end.
Definition with_map_member (k : string) n (f : yaml -> check) : check :=
  match yaml_map k n with Some v => f v | None => nothing end.

(** [for (const auto& kv : n) { key = kv.first.as<std::string>(); ... }]. *)
Fixpoint for_pairs (f : string -> yaml -> check) (l : list (yaml * yaml)) : check :=
  match l with
  | [] => nothing
  | (k, v) :: l => with_text k (fun key => f key v) +>> for_pairs f l
  end.
Definition for_members (f : string -> yaml -> check) n : check :=
  match n with YMap l => for_pairs f l | _ => nothing end.

(** [src/src/sec_config_checker.cpp:625-632] joinSet *)
Definition joinSet (s : list string) : string :=
  fold_left (fun r v => if str_empty r then v else r +:+ ", " +:+ v) s "".

(** [src/src/sec_config_checker.cpp:591-601] checkUnknownFields *)
Definition checkUnknownFields n (known : list string) (prefix : string) : check :=
  for_members (fun key _ =>
    when_ (negb (contains known key))
      (warn "schema.unknown_field" (prefix +:+ "." +:+ key) "unknown field (not in schema)")) n.

(** [src/src/sec_config_checker.cpp:572-589] checkIntField *)
Definition checkIntField n (field_path : string) (min_val max_val : Z) : check :=
  with_member (last_field field_path) n (fun v =>
    match v with
    | YScalar text =>
        match yaml_int text with
        | Some i => when_ ((i <? min_val) || (i >? max_val))
            (warn "schema.range" field_path "value out of recommended range")
        | None => error "schema.type" field_path "must be an integer"
        end
    | _ => error "schema.type" field_path "must be an integer"
    end).

(** [src/src/sec_config_checker.cpp:536-570] checkPath *)
Definition checkPath p (field_path value : string) : check :=
  if str_empty value then nothing else
  if str_contains ".." value then
    error "path.no_traversal" field_path "path must not contain '..'" else
  if str_contains "~" value then
    error "path.no_personal_dir" field_path "path must not reference personal/home directory" else
  when_ (isProduction p)
    (if negb (String.prefix "/" value) then
       error "path.production_absolute" field_path "production profile requires absolute path"
     else
       let lower := toLower value in
       when_ (str_contains "/build/" lower || str_contains "/cmake-build" lower ||
              str_contains "/build-" lower)
         (warn "path.no_build_tree" field_path
            "path references build tree (review before release)")).

(** [k] of [n] as a path, the empty text when it is missing. *)
Definition checkPathMember p n (k field_path : string) : check :=
  match yaml_find k n with
  | Some v => with_text v (checkPath p field_path)
  | None => checkPath p field_path ""
  end.

(** [src/src/sec_config_checker.cpp:220-238] checkTopLevelKeys *)
Definition checkTopLevelKeys p root : check :=
  for_members (fun key _ =>
    if String.eqb key "common" then
      when_ (isProduction p)
        (error "profile.no_toplevel_common" "common"
           "production profile forbids top-level 'common:' block (provided by BUILD /etc/tbox/common.yaml)")
    else
      when_ (negb (contains kAllowedTopLevel key))
        (warn "schema.unknown_field" key
           ("unknown top-level key (allowed: " +:+ joinSet kAllowedTopLevel +:+ ")"))) root.

(** [src/src/sec_config_checker.cpp:265-274] checkKeyProvisioning, mode *)
Definition checkMode p (text : string) : check :=
  let mode_str := toLower (trim text) in
  if negb (String.eqb mode_str "hsm") && negb (String.eqb mode_str "soft_file") then
    error "schema.allowed_values" "key_provisioning.mode" "must be one of: hsm, soft_file"
  else
    when_ (isProduction p && String.eqb mode_str "soft_file")
      (error "profile.production_hsm_only" "key_provisioning.mode"
         "production profile only allows key_provisioning.mode=hsm").

(** [src/src/sec_config_checker.cpp:240-275] checkKeyProvisioning *)
Definition checkKeyProvisioning p root : check :=
  match yaml_map "key_provisioning" root with
  | None =>
      if isProduction p then
        error "schema.required" "key_provisioning"
          "key_provisioning section is required in production profile"
      else
        warn "schema.required" "key_provisioning"
          "key_provisioning section missing (defaults to hsm)"
  | Some kp =>
      checkUnknownFields kp kKeyProvKeys "key_provisioning" +>>
      match yaml_find "mode" kp with
      | None =>
          if isProduction p then
            error "schema.required" "key_provisioning.mode"
              "key_provisioning.mode is required in production profile"
          else
            warn "schema.required" "key_provisioning.mode"
              "key_provisioning.mode missing (defaults to hsm)"
      | Some mode => with_text mode (checkMode p)
      end
  end.

(** [src/src/sec_config_checker.cpp:286-299] checkHsm, type *)
Definition checkHsmType p (text : string) : check :=
  let t := toLower (trim text) in
  when_ (negb (contains [""; "software"; "pkcs11"; "trustzone"] t))
    (error "schema.allowed_values" "hsm.type"
       "must be one of: software, pkcs11, trustzone (or empty)") +>>
  when_ (isProduction p && String.eqb t "software")
    (error "profile.production_hw_hsm_only" "hsm.type"
       "production profile forbids hsm.type=software (must be pkcs11/trustzone hardware backend)").

(** [src/src/sec_config_checker.cpp:277-307] checkHsm *)
Definition checkHsm p root : check :=
  with_map_member "hsm" root (fun hsm =>
    checkUnknownFields hsm kHsmKeys "hsm" +>>
    with_member "type" hsm (fun type => with_text type (checkHsmType p)) +>>
    with_member "library_path" hsm (fun lib => with_text lib (checkPath p "hsm.library_path"))).

(** [src/src/sec_config_checker.cpp:309-323] checkSoftKey *)
Definition checkSoftKey p root : check :=
  with_member "soft_key" root (fun sk =>
    if isProduction p then
      error "profile.production_no_soft_key" "soft_key"
        "production profile forbids the entire soft_key section"
    else if negb (yaml_is_map sk) then nothing else
    checkUnknownFields sk kSoftKeyKeys "soft_key" +>>
    checkPathMember p sk "path" "soft_key.path" +>>
    checkPathMember p sk "encryption_key_path" "soft_key.encryption_key_path").

(** [src/src/sec_config_checker.cpp:385-397] checkBusinessKeyProvisioning *)
Definition checkBusinessKeyProvisioning bkp : check :=
  when_ (yaml_is_map bkp)
    (checkUnknownFields bkp kBusinessKeyProvKeys "sec.business_key_provisioning" +>>
     with_member "enabled" bkp (fun v => when_ (negb (yaml_is_scalar v))
       (error "schema.type" "sec.business_key_provisioning.enabled" "must be a boolean")) +>>
     checkIntField bkp "sec.business_key_provisioning.max_items" 1 16 +>>
     checkIntField bkp "sec.business_key_provisioning.max_wrapped_key_bytes" 64 65536 +>>
     checkIntField bkp "sec.business_key_provisioning.request_timeout_ms" 1 600000).

(** [src/src/sec_config_checker.cpp:423-447] checkTrustedTime, platform *)
Definition checkTrustedTimePlatform n : check :=
  checkUnknownFields n kTrustedTimePlatformKeys "sec.trusted_time.platform" +>>
  checkIntField n "sec.trusted_time.platform.max_freshness_ms" 1000 86400000 +>>
  checkIntField n "sec.trusted_time.platform.max_uncertainty_ms" 0 60000 +>>
  checkIntField n "sec.trusted_time.platform.monitor_refresh_interval_ms" 100 1000 +>>
  checkIntField n "sec.trusted_time.platform.lease_max_ms" 100 1000 +>>
  checkIntField n "sec.trusted_time.platform.cache_max_age_ms" 100 1000 +>>
  with_map_member "time_client" n (fun tc =>
    checkUnknownFields tc kTrustedTimeClientKeys "sec.trusted_time.platform.time_client" +>>
    checkIntField tc "sec.trusted_time.platform.time_client.timeout_ms" 50 5000) +>>
  with_map_member "auth" n (fun auth =>
    checkUnknownFields auth kTrustedTimeAuthKeys "sec.trusted_time.platform.auth").

(** [src/src/sec_config_checker.cpp:408-420] checkTrustedTime, provider *)
Definition checkTimeProvider p (text : string) : check :=
  let t := toLower (trim text) in
  if negb (contains ["composite"; "fake"; "system_clock"] t) then
    error "schema.allowed_values" "sec.trusted_time.provider" "must be one of: composite, fake"
  else if String.eqb t "system_clock" then
    error "profile.no_system_clock_time" "sec.trusted_time.provider"
      "system_clock pseudo-trusted time provider was removed (CR-017); use composite or dev/test fake"
  else when_ (isProduction p && String.eqb t "fake")
    (error "profile.production_composite_time_only" "sec.trusted_time.provider"
       "production profile only allows sec.trusted_time.provider=composite").

(** [src/src/sec_config_checker.cpp:402-455] checkTrustedTime *)
Definition checkTrustedTime p tt : check :=
  when_ (yaml_is_map tt)
    (checkUnknownFields tt kSecTrustedTimeKeys "sec.trusted_time" +>>
     with_member "provider" tt (fun provider => with_text provider (checkTimeProvider p)) +>>
     with_map_member "platform" tt checkTrustedTimePlatform +>>
     with_map_member "hardware_rtc" tt (fun rtc =>
       checkUnknownFields rtc kTrustedTimeRtcKeys "sec.trusted_time.hardware_rtc") +>>
     checkIntField tt "sec.trusted_time.rollback_tolerance_ms" 0 60000).

(** [src/src/sec_config_checker.cpp:355-368] checkSec, profiles *)
Definition checkTlsProfile (name : string) prof : check :=
  let base := "sec.tls.profiles." +:+ name in
  when_ (yaml_is_map prof)
    (checkUnknownFields prof kTlsProfileKeys base +>>
     with_member "credential_id" prof (fun v => with_text v (fun cid =>
       when_ (str_empty cid)
         (warn "schema.required" (base +:+ ".credential_id") "credential_id should be non-empty")))).

(** [src/src/sec_config_checker.cpp:339-370] checkSec, tls *)
Definition checkTls p tls : check :=
  checkUnknownFields tls kSecTlsKeys "sec.tls" +>>
  with_member "dev_peer_service" tls (fun _ => when_ (isProduction p)
    (error "profile.production_no_dev_peer" "sec.tls.dev_peer_service"
       "production profile forbids sec.tls.dev_peer_service")) +>>
  with_map_member "profiles" tls (for_members checkTlsProfile).

(** [src/src/sec_config_checker.cpp:325-383] checkSec *)
Definition checkSec p root : check :=
  with_map_member "sec" root (fun sec =>
    checkUnknownFields sec kSecKeys "sec" +>>
    with_map_member "ipc" sec (fun ipc =>
      checkUnknownFields ipc kSecIpcKeys "sec.ipc" +>>
      with_member "socket_path" ipc (fun v => with_text v (checkPath p "sec.ipc.socket_path"))) +>>
    with_map_member "tls" sec (checkTls p) +>>
    with_member "trusted_time" sec (checkTrustedTime p) +>>
    with_member "business_key_provisioning" sec checkBusinessKeyProvisioning).

(** [src/src/sec_config_checker.cpp:457-469] checkCloud *)
Definition checkCloud root : check :=
  with_map_member "cloud" root (fun cloud =>
    checkUnknownFields cloud kCloudKeys "cloud" +>>
    checkIntField cloud "cloud.timeout_ms" 1 600000 +>>
    checkIntField cloud "cloud.retry_count" 0 100 +>>
    checkIntField cloud "cloud.retry_delay_ms" 0 600000).

(** [src/src/sec_config_checker.cpp:471-483] checkStorage *)
Definition checkStorage p root : check :=
  with_map_member "storage" root (fun storage =>
    checkUnknownFields storage kStorageKeys "storage" +>>
    checkPathMember p storage "state_file" "storage.state_file" +>>
    checkPathMember p storage "ca_cert" "storage.ca_cert" +>>
    checkPathMember p storage "cert_store" "storage.cert_store").

(** [src/src/sec_config_checker.cpp:493-511] checkEnvironment, profile *)
Definition checkProfile p prof : check :=
  match prof with
  | YScalar text =>
      let t := toLower (trim text) in
      if negb (contains ["production"; "test"; "dev"] t) then
        error "schema.allowed_values" "environment.profile" "must be one of: production, test, dev"
      else if isProduction p && negb (String.eqb t "production") then
        error "profile.profile_mismatch" "environment.profile"
          ("production checker rejects profile=" +:+ t)
      else when_ (negb (isProduction p) && String.eqb t "production")
        (error "profile.profile_mismatch" "environment.profile"
           "test checker rejects profile=production")
  | _ => error "schema.type" "environment.profile" "must be a string"
  end.

(** [src/src/sec_config_checker.cpp:513-532] checkEnvironment, is_production *)
Definition checkIsProduction p prod : check :=
  match prod with
  | YScalar text =>
      match yaml_bool text with
      | None => error "schema.type" "environment.is_production" "must be a boolean"
      | Some val => when_ (isProduction p && negb val)
          (error "profile.production_strict" "environment.is_production"
             "production profile requires is_production=true")
      end
  | _ => error "schema.type" "environment.is_production" "must be a boolean"
  end.

(** [src/src/sec_config_checker.cpp:485-533] checkEnvironment *)
Definition checkEnvironment p root : check :=
  with_map_member "environment" root (fun env =>
    checkUnknownFields env kEnvironmentKeys "environment" +>>
    with_member "profile" env (checkProfile p) +>>
    with_member "is_production" env (checkIsProduction p)).

Definition checkSecretName p (key child_path : string) : check :=
  when_ (contains kForbiddenSecretFields (toLower key))
    (if isProduction p then
       error "profile.production_no_secret" child_path
         "production profile forbids secret-bearing field"
     else
       warn "profile.test_no_secret" child_path
         "test profile: secret-bearing field should not be in config").

(** [src/src/sec_config_checker.cpp:604-623] checkSecretFieldsRecursive *)
Fixpoint checkSecretFieldsRecursive p n (path : string) : check :=
  match n with
  | YMap l =>
      (fix go (l : list (yaml * yaml)) : check :=
         match l with
         | [] => nothing
         | (k, v) :: l =>
             with_text k (fun key =>
               let child_path := if str_empty path then key else path +:+ "." +:+ key in
               checkSecretName p key child_path +>> checkSecretFieldsRecursive p v child_path) +>>
             go l
         end) l
  | _ => nothing
  end.

(** The checks of [run], after the document was loaded. *)
(** [src/src/sec_config_checker.cpp:154-169] run, checks *)
Definition run_checks p root : check :=
  if negb (yaml_is_map root) then
    error "schema.root" "<root>" "root node must be a YAML map"
  else
    checkTopLevelKeys p root +>> checkKeyProvisioning p root +>> checkHsm p root +>>
    checkSoftKey p root +>> checkSec p root +>> checkCloud root +>> checkStorage p root +>>
    checkEnvironment p root +>> checkSecretFieldsRecursive p root "".

(** [run]: its result and the findings; [None] when it throws. *)
(** [src/src/sec_config_checker.cpp:142-170] run *)
Definition run p (file : YamlFile) : option (bool * list Finding) :=
  match file with
  | NoFile | Malformed => Some (false, [])
  | Document root => fs ← run_checks p root; Some (hasNoErrors fs, fs)
  end.

(** The lines on standard output. *)
(** [src/src/sec_config_checker.cpp:172-186] printReport *)
Definition printReport p (file_path : string) (fs : list Finding) : list string :=
  let count sev := Z.of_nat (length (filter (fun f => fi_severity f = sev) fs)) in
  ((fun f => fi_severity f +:+ " [" +:+ fi_rule f +:+ "] field=" +:+
     (if str_empty (fi_field_path f) then "<root>" else fi_field_path f) +:+ ": " +:+ fi_message f)
     <$> fs) ++
  [((if count "ERROR" =? 0 then "PASS" else "FAIL") +:+ ": " +:+ file_path +:+ " (profile=" +:+
    profileToString p +:+ ", " +:+ std_to_string (count "ERROR") +:+ " errors, " +:+
    std_to_string (count "WARN") +:+ " warnings)")].

(** The options, or the exit code the loop over them ends with. *)
(** [src/src/sec_config_checker.cpp:657-671] main, arguments *)
Fixpoint parse_args (args : list string) (config_path profile_str : string) :
    (string * string) + Z :=
  match args with
  | [] => inl (config_path, profile_str)
  | arg :: args =>
      if String.eqb arg "--help" || String.eqb arg "-h" then inr 0 else
      match args with
      | v :: rest =>
          if String.eqb arg "--check-config" then parse_args rest v profile_str
          else if String.eqb arg "--profile" then parse_args rest config_path v
          else inr 2
      | [] => inr 2
      end
  end.

(** The exit code and the lines on standard output; [None] when the program is terminated by an
    exception. *)
(** [src/src/sec_config_checker.cpp:653-705] main *)
Definition main (load : string -> YamlFile) (args : list string) : option (Z * list string) :=
  match parse_args args "" "" with
  | inr code => Some (code, [])
  | inl (config_path, profile_str) =>
      if str_empty config_path then Some (2, []) else
      if str_empty profile_str then Some (2, []) else
      let with_profile p :=
        r ← run p (load config_path);
        let '(ok, fs) := r in
        if negb ok && (match fs with [] => true | _ => false end) then Some (2, [])
        else Some (if ok then 0 else 1, printReport p config_path fs) in
      if String.eqb profile_str "production" then with_profile Production
      else if String.eqb profile_str "test" then with_profile Test_
      else Some (2, [])
  end.
End Checker.
