(* ===== verification/ConfigProps.v ===== *)
(** * ConfigProps: which configurations pass, and what the report reveals.
    A calculus that reads off a check the condition under which it reports no error; the
    condition of the production profile in closed form; the fixed vocabulary of the
    report; and what the checker misses. *)
From S2P Require Import Prelude Canonical ConfigCheck.
From Stdlib Require Import Ascii.

(* --------------------------------------------------------------------- *)
(** ** The condition of a check                                           *)
(* --------------------------------------------------------------------- *)

(** [c] reports no error. *)
Definition clean (c : check) : Prop := exists fs, c = Some fs /\ hasNoErrors fs = true.

(** Unless an exception ends it, [c] is clean exactly when [P] holds. *)
Class Checks (c : check) (P : Prop) : Prop := checks : is_Some c -> clean c <-> P.

Lemma clean_then a b : clean (a +>> b) <-> clean a /\ clean b.
Proof.
  unfold clean, then_. split.
  - intros (fs & E & H). destruct a as [x|]; [|done]. destruct b as [y|]; [|done].
    injection E as <-. unfold hasNoErrors in H. rewrite forallb_app in H.
    apply andb_true_iff in H as [? ?]. split; by eexists.
  - intros [(x & -> & Hx) (y & -> & Hy)]. exists (x ++ y). split; [done|].
    unfold hasNoErrors in *. by rewrite forallb_app, Hx, Hy.
Qed.

Lemma is_Some_then a b : is_Some (a +>> b) <-> is_Some a /\ is_Some b.
Proof.
  unfold then_. destruct a, b; split; try (intros [? ?]; done); naive_solver.
Qed.

#[global] Instance checks_then a b P Q : Checks a P -> Checks b Q -> Checks (a +>> b) (P /\ Q).
Proof. intros HP HQ [Ha Hb]%is_Some_then. by rewrite clean_then, (HP Ha), (HQ Hb). Qed.

#[global] Instance checks_nothing : Checks nothing True.
Proof. intros _. split; [done|]. intros _. by exists []. Qed.

#[global] Instance checks_warn r f m : Checks (warn r f m) True.
Proof. intros _. split; [done|]. intros _. by eexists. Qed.

#[global] Instance checks_error r f m : Checks (error r f m) False.
Proof. intros _. split; [|done]. intros (fs & [= <-] & H). done. Qed.

#[global] Instance checks_when b c P : Checks c P -> Checks (when_ b c) (b = true -> P).
Proof.
  intros HP Hs. destruct b; cbn in *; [rewrite (HP Hs); tauto|].
  split; [done|]. intros _. by exists [].
Qed.

#[global] Instance checks_if (b : bool) c d P Q :
  Checks c P -> Checks d Q -> Checks (if b then c else d) ((b = true -> P) /\ (b = false -> Q)).
Proof. intros HP HQ Hs. destruct b; [rewrite (HP Hs)|rewrite (HQ Hs)]; intuition congruence. Qed.

(** [P] of the text of a node, when it has one. *)
Definition text_is `{Yaml} (P : string -> Prop) (n : yaml) : Prop :=
  forall t, yaml_string n = Some t -> P t.

#[global] Instance checks_text `{Yaml} n f P :
  (forall t, Checks (f t) (P t)) -> Checks (with_text n f) (text_is P n).
Proof.
  intros HP Hs. unfold with_text, text_is in *. destruct (yaml_string n) as [t|]; [|by destruct Hs].
  cbn in *. rewrite (HP t Hs). split; [by intros ? ? [= <-]|auto].
Qed.

(** [P] of the node at the end of the path [ks], when there is one. *)
Fixpoint field (ks : list string) (n : yaml) (P : yaml -> Prop) : Prop :=
  match ks with
  | [] => P n
  | k :: ks => forall v, yaml_find k n = Some v -> field ks v P
  end.

(** [P] of a node when it is a map. *)
Definition on_map (P : yaml -> Prop) (n : yaml) : Prop := yaml_is_map n = true -> P n.

#[global] Instance field_proper ks n : Proper (pointwise_relation _ iff ==> iff) (field ks n).
Proof.
  revert n. induction ks as [|k ks IH]; intros n P Q HPQ; [apply HPQ|]. cbn.
  split; intros H v Hv; eapply (IH v P Q HPQ); auto.
Qed.

Lemma field_and ks n P Q : field ks n (fun v => P v /\ Q v) <-> field ks n P /\ field ks n Q.
Proof.
  revert n. induction ks as [|k ks IH]; intros n; [done|]. cbn. setoid_rewrite IH.
  split; [intros H; split; intros v Hv; by apply H|intros [H1 H2] v Hv; auto].
Qed.

Lemma field_true ks n : field ks n (fun _ => True) <-> True.
Proof. revert n. induction ks as [|k ks IH]; intros n; [done|]. cbn. setoid_rewrite IH. done. Qed.

Lemma field_app ks ks' n P : field ks n (fun v => field ks' v P) <-> field (ks ++ ks') n P.
Proof. revert n. induction ks as [|k ks IH]; intros n; [done|]. cbn. by setoid_rewrite IH. Qed.

(** Only maps have members, so that the test for a map disappears before a member. *)
Lemma field_on_map_field ks k ks' n P :
  field ks n (on_map (fun v => field (k :: ks') v P)) <-> field (ks ++ k :: ks') n P.
Proof.
  rewrite <- field_app. apply field_proper. intros v. unfold on_map. cbn.
  split; [|auto]. intros H w Hw. apply H; [by destruct v|done].
Qed.

Lemma field_on_map_and ks n P Q :
  field ks n (on_map (fun v => P v /\ Q v)) <-> field ks n (on_map P) /\ field ks n (on_map Q).
Proof.
  rewrite <- field_and. apply field_proper. intros v. unfold on_map. tauto.
Qed.

Lemma field_on_map_true ks n : field ks n (on_map (fun _ => True)) <-> True.
Proof. rewrite <- (field_true ks n). apply field_proper. by intros v. Qed.

(** Brings a condition into a conjunction of conditions on paths. *)
Ltac by_path :=
  repeat first [rewrite field_on_map_true | rewrite field_true | rewrite field_on_map_and
    | rewrite field_and | rewrite field_on_map_field]; cbn [app].

#[global] Instance checks_member k n f P :
  (forall v, Checks (f v) (P v)) -> Checks (with_member k n f) (field [k] n P).
Proof.
  intros HP Hs. unfold with_member in *. cbn. destruct (yaml_find k n) as [v|].
  - rewrite (HP v Hs). split; [by intros ? ? [= <-]|auto].
  - split; [done|]. intros _. by exists [].
Qed.

#[global] Instance checks_map_member k n f P :
  (forall v, Checks (f v) (P v)) -> Checks (with_map_member k n f) (field [k] n (on_map P)).
Proof.
  intros HP Hs. unfold with_map_member, yaml_map, on_map in *. cbn.
  destruct (yaml_find k n) as [v|]; [destruct (yaml_is_map v) eqn:Em|].
  - rewrite (HP v Hs). split; [by intros ? ? [= <-]|auto].
  - split; [intros _ v' [= <-] Hm; congruence|]. intros _. by exists [].
  - split; [done|]. intros _. by exists [].
Qed.

(** The pairs of a map. *)
Definition members (n : yaml) : list (yaml * yaml) := match n with YMap l => l | _ => [] end.

#[global] Instance checks_members `{Yaml} n f P :
  (forall k v, Checks (f k v) (P k v)) ->
  Checks (for_members f n)
    (forall kn k v, (kn, v) ∈ members n -> yaml_string kn = Some k -> P k v).
Proof.
  intros HP. assert (Hl : forall l, Checks (for_pairs f l)
    (forall kn k v, (kn, v) ∈ l -> yaml_string kn = Some k -> P k v)).
  { induction l as [|[kn v] l IH]; cbn [for_pairs].
    - intros _. split; [|intros _; by exists []]. intros _ kn k v Hin. by apply not_elem_of_nil in Hin.
    - intros Hs. rewrite (checks_then _ _ _ _ (checks_text kn _ _ (fun k => HP k v)) IH Hs). split.
      + intros [H1 H2] kn' k v' [E|Hin]%elem_of_cons Hk; [|by eapply H2]. injection E as -> ->. auto.
      + intros Hall. split; [|intros; eapply Hall; [right|]; eauto]. intros t Ht.
        eapply Hall; [by left|done]. }
  destruct n as [| | |l]; try (intros _; split; [intros _ ? ? ? Hin; by apply not_elem_of_nil in Hin|intros _; by exists []]).
  apply Hl.
Qed.

#[global] Instance checks_when_map n c P :
  Checks c (P n) -> Checks (when_ (yaml_is_map n) c) (on_map P n) | 0.
Proof. apply checks_when. Qed.

#[global] Instance checks_require b r f m : Checks (when_ (negb b) (error r f m)) (b = true) | 0.
Proof.
  intros Hs. rewrite (checks_when _ _ _ (checks_error r f m) Hs). by destruct b; cbn; split; auto.
Qed.

(** A condition in another form. *)
Lemma checks_iff c P Q : Checks c P -> (P <-> Q) -> Checks c Q.
Proof. intros HP E Hs. by rewrite (HP Hs). Qed.

Section Fields.
Context `{Y : Yaml}.
Implicit Types (p : Profile) (n root : yaml).

(** What a path may be: empty, or without [..] and [~], and absolute in production. *)
Definition path_ok p (t : string) : Prop :=
  t = "" \/ (str_contains ".." t = false /\ str_contains "~" t = false /\
    (p = Production -> String.prefix "/" t = true)).

#[export] Instance checks_path p f t : Checks (checkPath p f t) (path_ok p t).
Proof.
  eapply checks_iff; [unfold checkPath; apply _|]. unfold path_ok, isProduction.
  rewrite bool_decide_eq_true, negb_true_iff, str_empty_true, str_empty_false.
  destruct (decide (t = "")) as [->|Hne]; [tauto|].
  destruct (str_contains ".." t), (str_contains "~" t), (String.prefix "/" t), p;
    intuition congruence.
Qed.

#[export] Instance checks_path_member p n k f :
  Checks (checkPathMember p n k f) (field [k] n (text_is (path_ok p))).
Proof.
  unfold checkPathMember. cbn. destruct (yaml_find k n) as [v|].
  - eapply checks_iff; [apply _|]. split; [by intros ? ? [= <-]|auto].
  - eapply checks_iff; [apply (checks_path p f "")|]. split; [done|]. intros _. by left.
Qed.

(** The node is a scalar the library reads as a number. *)
Definition is_number n : Prop := exists t i, n = YScalar t /\ yaml_int t = Some i.

#[export] Instance checks_int n f lo hi :
  Checks (checkIntField n f lo hi) (field [last_field f] n is_number).
Proof.
  unfold checkIntField. apply checks_member. intros [|t| |]; try (eapply checks_iff; [apply _|];
    split; [done|]; intros (? & ? & ? & _); done).
  destruct (yaml_int t) as [i|] eqn:Ei; (eapply checks_iff; [apply _|]).
  - split; [by exists t, i|done].
  - split; [done|]. intros (t' & i & [= <-] & ?). congruence.
Qed.

#[export] Instance checks_unknown n known prefix : Checks (checkUnknownFields n known prefix) True.
Proof. eapply checks_iff; [unfold checkUnknownFields; apply _|]. naive_solver. Qed.

(** The normal form in which words are compared. *)
Definition word (t : string) : string := toLower (trim t).

#[export] Instance checks_profile n :
  Checks (checkProfile Production n) (exists t, n = YScalar t /\ word t = "production").
Proof.
  destruct n as [|t| |]; try (eapply checks_iff; [cbn; apply _|]; split; [done|];
    intros (? & ? & _); done).
  eapply (checks_iff _ (word t = "production")); [|split; [by eauto|by intros (? & [= <-] & ?)]].
  eapply checks_iff; [cbn; apply _|]. change (toLower (trim t)) with (word t).
  destruct (decide (word t = "production")) as [->|Hne]; [by split; [|split; intros]|].
  apply String.eqb_neq in Hne as E. unfold contains. cbn. rewrite E.
  destruct (String.eqb (word t) "test" || _); intuition congruence.
Qed.

#[export] Instance checks_is_production n :
  Checks (checkIsProduction Production n) (exists t, n = YScalar t /\ yaml_bool t = Some true).
Proof.
  destruct n as [|t| |]; try (eapply checks_iff; [cbn; apply _|]; split; [done|];
    intros (? & ? & _); done).
  eapply (checks_iff _ (yaml_bool t = Some true)); [|split; [by eauto|by intros (? & [= <-] & ?)]].
  unfold checkIsProduction. destruct (yaml_bool t) as [[]|]; (eapply checks_iff; [apply _|]);
    cbn; intuition congruence.
Qed.

(** The keys of the maps one reaches from [n] through maps. *)
Inductive map_key : yaml -> string -> Prop :=
  | key_here l kn v k : (kn, v) ∈ l -> yaml_string kn = Some k -> map_key (YMap l) k
  | key_below l kn v k k' : (kn, v) ∈ l -> yaml_string kn = Some k' -> map_key v k ->
      map_key (YMap l) k.

Definition secret_name (k : string) : bool := contains kForbiddenSecretFields (toLower k).

Lemma checks_secret_name k path : Checks (checkSecretName Production k path) (secret_name k = false).
Proof.
  eapply checks_iff; [unfold checkSecretName; apply _|]. change (contains _ _) with (secret_name k).
  destruct (secret_name k); [|by split; [|intros ? ?]]. split; [|done].
  intros H. by destruct (H eq_refl).
Qed.

Lemma checks_secret n : forall path,
  Checks (checkSecretFieldsRecursive Production n path) (forall k, map_key n k -> secret_name k = false).
Proof.
  revert n. fix IH 1. intros n path.
  destruct n as [| | |l]; try (eapply checks_iff; [cbn; apply _|]; split; [intros _ k Hk; inversion Hk|done]).
  cbn [checkSecretFieldsRecursive].
  eapply (checks_iff _ (forall kn v k, (kn, v) ∈ l -> yaml_string kn = Some k ->
    secret_name k = false /\ forall k', map_key v k' -> secret_name k' = false)).
  - induction l as [|[kn v] l IHl].
    + eapply checks_iff; [apply _|]. split; [|done]. intros _ kn v k Hin. by apply not_elem_of_nil in Hin.
    + eapply checks_iff; [apply checks_then; [|exact IHl]|].
      * apply checks_text. intros key. apply checks_then; [apply checks_secret_name|apply IH].
      * cbn. split.
        -- intros [H1 H2] kn' v' k [E|Hin]%elem_of_cons; [injection E as -> ->; apply H1|by apply H2].
        -- intros Hall. split; [intros k; by apply Hall; left|intros kn' v' k Hin; apply Hall; by right].
  - split.
    + intros H k Hk. inversion Hk as [? ? ? ? Hi Ht|? ? ? ? ? Hi Ht ?]; subst;
        destruct (H _ _ _ Hi Ht); auto.
    + intros H kn v k Hin Hk. split; [apply H; by eapply key_here|].
      intros k' Hk'. apply H. by eapply key_below.
Qed.

(** *** The leaves *)

#[export] Instance checks_mode t : Checks (checkMode Production t) (word t = "hsm").
Proof.
  eapply checks_iff; [cbn; apply _|]. change (toLower (trim t)) with (word t).
  destruct (decide (word t = "hsm")) as [->|Hne]; [by split; [|split; intros]|].
  apply String.eqb_neq in Hne as E. rewrite E. cbn.
  destruct (String.eqb (word t) "soft_file"); intuition congruence.
Qed.

#[export] Instance checks_hsm_type t :
  Checks (checkHsmType Production t) (word t ∈ [""; "pkcs11"; "trustzone"]).
Proof.
  eapply checks_iff; [cbn; apply _|]. change (toLower (trim t)) with (word t).
  rewrite !elem_of_cons, elem_of_nil. unfold contains, existsb.
  destruct (String.eqb_spec (word t) ""), (String.eqb_spec (word t) "software"),
    (String.eqb_spec (word t) "pkcs11"), (String.eqb_spec (word t) "trustzone");
    try congruence; change (isProduction Production) with true; cbn; intuition congruence.
Qed.

#[export] Instance checks_time_provider t :
  Checks (checkTimeProvider Production t) (word t = "composite").
Proof.
  eapply checks_iff; [cbn; apply _|]. change (toLower (trim t)) with (word t).
  destruct (decide (word t = "composite")) as [->|Hne]; [by split; [|split; [|split]; intros]|].
  apply String.eqb_neq in Hne as E. unfold contains. cbn. rewrite E. cbn.
  destruct (String.eqb (word t) "fake"), (String.eqb (word t) "system_clock"); cbn; intuition congruence.
Qed.

(** *** The sections of a document *)

#[export] Instance checks_tls_profile name prof : Checks (checkTlsProfile name prof) True.
Proof.
  eapply checks_iff; [unfold checkTlsProfile; apply _|]. split; [done|].
  intros _ _. split; [done|]. by intros v _ t _ _.
Qed.

#[export] Instance checks_tls_profiles n : Checks (for_members checkTlsProfile n) True.
Proof. eapply checks_iff; [apply _|]. done. Qed.

#[export] Instance checks_trusted_time_platform n :
  Checks (checkTrustedTimePlatform n)
    (field ["max_freshness_ms"] n is_number /\ field ["max_uncertainty_ms"] n is_number /\
     field ["monitor_refresh_interval_ms"] n is_number /\ field ["lease_max_ms"] n is_number /\
     field ["cache_max_age_ms"] n is_number /\ field ["time_client"; "timeout_ms"] n is_number).
Proof.
  eapply checks_iff; [unfold checkTrustedTimePlatform; apply _|]. by_path.
  change (last_field _) with "timeout_ms" at 6. cbn. tauto.
Qed.

#[export] Instance checks_trusted_time n :
  Checks (checkTrustedTime Production n) (on_map (fun n =>
    field ["provider"] n (text_is (fun t => word t = "composite")) /\
    field ["platform"; "max_freshness_ms"] n is_number /\
    field ["platform"; "max_uncertainty_ms"] n is_number /\
    field ["platform"; "monitor_refresh_interval_ms"] n is_number /\
    field ["platform"; "lease_max_ms"] n is_number /\
    field ["platform"; "cache_max_age_ms"] n is_number /\
    field ["platform"; "time_client"; "timeout_ms"] n is_number /\
    field ["rollback_tolerance_ms"] n is_number) n).
Proof.
  unfold checkTrustedTime. apply checks_when_map.
  eapply checks_iff; [apply _|]. by_path. cbn. tauto.
Qed.

#[export] Instance checks_business_key n :
  Checks (checkBusinessKeyProvisioning n) (on_map (fun n =>
    field ["enabled"] n (fun v => yaml_is_scalar v = true) /\
    field ["max_items"] n is_number /\ field ["max_wrapped_key_bytes"] n is_number /\
    field ["request_timeout_ms"] n is_number) n).
Proof.
  unfold checkBusinessKeyProvisioning. apply checks_when_map.
  eapply checks_iff; [apply _|]. cbn. tauto.
Qed.

Lemma checks_top_level root :
  Checks (checkTopLevelKeys Production root)
    (forall kn v, (kn, v) ∈ members root -> yaml_string kn <> Some "common").
Proof.
  eapply checks_iff; [unfold checkTopLevelKeys; apply _|]. split.
  - intros H kn v Hin Hk. by destruct (H _ _ _ Hin Hk) as [Hc _]; destruct (Hc eq_refl).
  - intros H kn k v Hin Hk. split; [|done]. intros ->%String.eqb_eq. by destruct (H kn v).
Qed.

Lemma checks_key_provisioning root :
  Checks (checkKeyProvisioning Production root)
    (exists kp m t, yaml_find "key_provisioning" root = Some kp /\ yaml_find "mode" kp = Some m /\
      yaml_string m = Some t /\ word t = "hsm").
Proof.
  unfold checkKeyProvisioning, yaml_map.
  destruct (yaml_find "key_provisioning" root) as [kp|] eqn:Ekp.
  2: { eapply checks_iff; [apply checks_error|]. split; [done|]. intros (? & ? & ? & ? & _). done. }
  destruct (yaml_is_map kp) eqn:Emap.
  2: { eapply checks_iff; [apply checks_error|]. split; [done|]. intros (? & ? & ? & [= <-] & Hm & _).
       by destruct kp. }
  destruct (yaml_find "mode" kp) as [m|] eqn:Em.
  2: { eapply checks_iff; [apply checks_then; [apply _|apply checks_error]|]. split; [by intros []|].
       intros (? & ? & ? & [= <-] & Hm & _). congruence. }
  intros Hs. destruct (proj2 (proj1 (is_Some_then _ _) Hs)) as [fs Ht]. unfold with_text in Ht.
  destruct (yaml_string m) as [t|] eqn:Et; [|done].
  rewrite (checks_then _ _ _ _ (checks_unknown _ _ _) (checks_text _ _ _ checks_mode) Hs).
  split.
  - intros [_ H]. exists kp, m, t. auto.
  - intros (kp' & m' & t' & [= <-] & ? & ? & ?). split; [done|]. intros ? ?. congruence.
Qed.

Lemma checks_hsm root :
  Checks (checkHsm Production root)
    (field ["hsm"; "type"] root (text_is (fun t => word t ∈ [""; "pkcs11"; "trustzone"])) /\
     field ["hsm"; "library_path"] root (text_is (path_ok Production))).
Proof. eapply checks_iff; [unfold checkHsm; apply _|]. by_path. tauto. Qed.

Lemma checks_soft_key root : Checks (checkSoftKey Production root) (yaml_find "soft_key" root = None).
Proof.
  eapply checks_iff; [apply checks_member; intros v; apply checks_error|]. cbn.
  destruct (yaml_find _ _); split; try done. intros H. by destruct (H _ eq_refl).
Qed.

Definition business_numbers : list (list string) :=
  (fun k => ["sec"; "business_key_provisioning"; k]) <$>
    ["max_items"; "max_wrapped_key_bytes"; "request_timeout_ms"].
Definition time_numbers : list (list string) :=
  ((fun k => ["sec"; "trusted_time"; "platform"; k]) <$>
    ["max_freshness_ms"; "max_uncertainty_ms"; "monitor_refresh_interval_ms"; "lease_max_ms";
     "cache_max_age_ms"]) ++
  [["sec"; "trusted_time"; "platform"; "time_client"; "timeout_ms"];
   ["sec"; "trusted_time"; "rollback_tolerance_ms"]].
Definition cloud_numbers : list (list string) :=
  (fun k => ["cloud"; k]) <$> ["timeout_ms"; "retry_count"; "retry_delay_ms"].

Definition numbers (l : list (list string)) root : Prop :=
  Forall (fun ks => field ks root is_number) l.

Lemma checks_sec root :
  Checks (checkSec Production root)
    (field ["sec"; "ipc"; "socket_path"] root (text_is (path_ok Production)) /\
     field ["sec"; "tls"; "dev_peer_service"] root (fun _ => False) /\
     field ["sec"; "trusted_time"; "provider"] root (text_is (fun t => word t = "composite")) /\
     field ["sec"; "business_key_provisioning"; "enabled"] root (fun v => yaml_is_scalar v = true) /\
     numbers business_numbers root /\ numbers time_numbers root).
Proof.
  eapply checks_iff; [unfold checkSec, checkTls; apply _|]. by_path. unfold numbers.
  cbn [business_numbers time_numbers fmap list_fmap app]. rewrite !Forall_cons, Forall_nil. tauto.
Qed.

Lemma checks_cloud root : Checks (checkCloud root) (numbers cloud_numbers root).
Proof.
  eapply checks_iff; [unfold checkCloud; apply _|]. by_path. unfold numbers.
  cbn [cloud_numbers fmap list_fmap]. rewrite !Forall_cons, Forall_nil. cbn. tauto.
Qed.

Definition storage_paths : list (list string) :=
  (fun k => ["storage"; k]) <$> ["state_file"; "ca_cert"; "cert_store"].

Definition paths (l : list (list string)) root : Prop :=
  Forall (fun ks => field ks root (text_is (path_ok Production))) l.

Lemma checks_storage root : Checks (checkStorage Production root) (paths storage_paths root).
Proof.
  eapply checks_iff; [unfold checkStorage; apply _|]. by_path. unfold paths.
  cbn [storage_paths fmap list_fmap]. rewrite !Forall_cons, Forall_nil. tauto.
Qed.

Lemma checks_environment root :
  Checks (checkEnvironment Production root)
    (field ["environment"; "profile"] root (fun v => exists t, v = YScalar t /\ word t = "production") /\
     field ["environment"; "is_production"] root
       (fun v => exists t, v = YScalar t /\ yaml_bool t = Some true)).
Proof.
  unfold checkEnvironment. eapply checks_iff.
  { apply checks_map_member. intros v. apply checks_then; [|apply _].
    apply checks_then; [apply _|]. apply checks_member, checks_profile. }
  by_path. tauto.
Qed.

(** *** The production profile *)

(** What the checker asks of a document in production. Members that are missing are left to the
    defaults of the service; only the key provisioning mode must be written. *)
Record production_safe root : Prop := {
  ps_map : yaml_is_map root = true;
  ps_no_common : forall kn v, (kn, v) ∈ members root -> yaml_string kn <> Some "common";
  ps_mode : exists kp m t, yaml_find "key_provisioning" root = Some kp /\
    yaml_find "mode" kp = Some m /\ yaml_string m = Some t /\ word t = "hsm";
  ps_hsm_type : field ["hsm"; "type"] root (text_is (fun t => word t ∈ [""; "pkcs11"; "trustzone"]));
  ps_soft_key : yaml_find "soft_key" root = None;
  ps_dev_peer : field ["sec"; "tls"; "dev_peer_service"] root (fun _ => False);
  ps_provider : field ["sec"; "trusted_time"; "provider"] root (text_is (fun t => word t = "composite"));
  ps_profile : field ["environment"; "profile"] root
    (fun v => exists t, v = YScalar t /\ word t = "production");
  ps_is_production : field ["environment"; "is_production"] root
    (fun v => exists t, v = YScalar t /\ yaml_bool t = Some true);
  ps_enabled : field ["sec"; "business_key_provisioning"; "enabled"] root
    (fun v => yaml_is_scalar v = true);
  ps_paths : paths (["hsm"; "library_path"] :: ["sec"; "ipc"; "socket_path"] :: storage_paths) root;
  ps_numbers : numbers (business_numbers ++ time_numbers ++ cloud_numbers) root;
  ps_secrets : forall k, map_key root k -> secret_name k = false
}.

Lemma checks_run root : Checks (run_checks Production root) (production_safe root).
Proof.
  unfold run_checks. destruct (yaml_is_map root) eqn:Em; cbn [negb].
  2: { eapply checks_iff; [apply checks_error|]. split; [done|]. intros []. congruence. }
  eapply checks_iff.
  { apply checks_then; [|apply checks_secret]. apply checks_then; [|apply checks_environment].
    apply checks_then; [|apply checks_storage]. apply checks_then; [|apply checks_cloud].
    apply checks_then; [|apply checks_sec]. apply checks_then; [|apply checks_soft_key].
    apply checks_then; [|apply checks_hsm]. apply checks_then; [|apply checks_key_provisioning].
    apply checks_top_level. }
  split.
  - intros ((((((((Htop&Hkp)&Hh1&Hh2)&Hsk)&Hs1&Hs2&Hs3&Hs4&Hs5&Hs6)&Hcl)&Hst)&He1&He2)&Hsec).
    split; try done; [unfold paths; rewrite !Forall_cons; tauto|]. unfold numbers. by rewrite !Forall_app.
  - intros [? ? ? ? ? ? ? ? ? ? Hp Hn ?]. unfold paths, numbers in *.
    rewrite !Forall_cons in Hp. rewrite !Forall_app in Hn. tauto.
Qed.

End Fields.

(* --------------------------------------------------------------------- *)
(** ** What the report says                                               *)
(* --------------------------------------------------------------------- *)

(** The messages of the report, all of them fixed. *)
Definition messages : list string :=
  ["unknown field (not in schema)";
   "value out of recommended range";
   "must be an integer";
   "must be a boolean";
   "must be a string";
   "path must not contain '..'";
   "path must not reference personal/home directory";
   "production profile requires absolute path";
   "path references build tree (review before release)";
   "production profile forbids top-level 'common:' block (provided by BUILD /etc/tbox/common.yaml)";
   "unknown top-level key (allowed: cloud, environment, hsm, key_provisioning, sec, soft_key, storage)";
   "must be one of: hsm, soft_file";
   "production profile only allows key_provisioning.mode=hsm";
   "key_provisioning section is required in production profile";
   "key_provisioning section missing (defaults to hsm)";
   "key_provisioning.mode is required in production profile";
   "key_provisioning.mode missing (defaults to hsm)";
   "must be one of: software, pkcs11, trustzone (or empty)";
   "production profile forbids hsm.type=software (must be pkcs11/trustzone hardware backend)";
   "production profile forbids the entire soft_key section";
   "must be one of: composite, fake";
   "system_clock pseudo-trusted time provider was removed (CR-017); use composite or dev/test fake";
   "production profile only allows sec.trusted_time.provider=composite";
   "credential_id should be non-empty";
   "production profile forbids sec.tls.dev_peer_service";
   "must be one of: production, test, dev";
   "production checker rejects profile=test";
   "production checker rejects profile=dev";
   "test checker rejects profile=production";
   "production profile requires is_production=true";
   "production profile forbids secret-bearing field";
   "test profile: secret-bearing field should not be in config";
   "root node must be a YAML map"].

(** Every finding of [c] has a fixed message. *)
Class Says (c : check) : Prop := says : forall fs, c = Some fs -> Forall (fun f => fi_message f ∈ messages) fs.

Section Reports.
Context `{Y : Yaml}.
Implicit Types (p : Profile) (n root : yaml).

Lemma says_finding sev r f m : contains messages m = true -> Says (Some [mkFinding sev r f m]).
Proof. intros Hm%contains_true fs [= <-]. by constructor. Qed.

#[local] Hint Extern 0 (Says (error _ _ _)) => apply says_finding; vm_compute; reflexivity : typeclass_instances.
#[local] Hint Extern 0 (Says (warn _ _ _)) => apply says_finding; vm_compute; reflexivity : typeclass_instances.

#[local] Instance says_nothing : Says nothing.
Proof. intros fs [= <-]. constructor. Qed.
#[local] Instance says_then a b : Says a -> Says b -> Says (a +>> b).
Proof.
  intros Ha Hb fs H. unfold then_ in H. apply bind_Some in H as (x & Ex & H).
  apply bind_Some in H as (y & Ey & [= <-]). apply Forall_app. auto.
Qed.
#[local] Instance says_when b c : Says c -> Says (when_ b c).
Proof. intros H. destruct b; [done|apply says_nothing]. Qed.
#[local] Instance says_if (b : bool) c d : Says c -> Says d -> Says (if b then c else d).
Proof. by destruct b. Qed.
#[local] Instance says_text n f : (forall t, Says (f t)) -> Says (with_text n f).
Proof. intros H. unfold with_text. destruct (yaml_string n); [apply H|by intros fs]. Qed.
#[local] Instance says_member k n f : (forall v, Says (f v)) -> Says (with_member k n f).
Proof. intros H. unfold with_member. destruct (yaml_find k n); [done|apply says_nothing]. Qed.
#[local] Instance says_map_member k n f : (forall v, Says (f v)) -> Says (with_map_member k n f).
Proof. intros H. unfold with_map_member. destruct (yaml_map k n); [done|apply says_nothing]. Qed.
#[local] Instance says_members n f : (forall k v, Says (f k v)) -> Says (for_members f n).
Proof.
  intros H. destruct n as [| | |l]; try apply says_nothing.
  induction l as [|[k v] l IH]; cbn; [apply says_nothing|]. apply says_then; [|done].
  apply says_text. auto.
Qed.

#[local] Instance says_unknown n l pre : Says (checkUnknownFields n l pre).
Proof. unfold checkUnknownFields. apply _. Qed.
#[local] Instance says_path p f t : Says (checkPath p f t).
Proof. unfold checkPath. apply _. Qed.
#[local] Instance says_path_member p n k f : Says (checkPathMember p n k f).
Proof. unfold checkPathMember. destruct (yaml_find k n); apply _. Qed.
#[local] Instance says_int n f lo hi : Says (checkIntField n f lo hi).
Proof. apply says_member. intros [|t| |]; try by apply says_finding. destruct (yaml_int t); apply _. Qed.
#[local] Instance says_profile p n : Says (checkProfile p n).
Proof.
  destruct n as [|t| |]; try by apply says_finding.
  unfold checkProfile. cbv beta iota zeta. set (w := toLower (trim t)).
  destruct (contains ["production"; "test"; "dev"] w) eqn:Ew; [|by apply says_finding].
  cbn [negb]. destruct (isProduction p && _) eqn:Em; [|apply _].
  apply contains_true in Ew. apply andb_true_iff in Em as [_ Em].
  rewrite !elem_of_cons, elem_of_nil in Ew.
  destruct Ew as [->|[->|[->|[]]]]; [done|by apply says_finding..].
Qed.
#[local] Instance says_is_production p n : Says (checkIsProduction p n).
Proof. destruct n as [|t| |]; try by apply says_finding. cbn. destruct (yaml_bool t); apply _. Qed.
#[local] Instance says_key_provisioning p root : Says (checkKeyProvisioning p root).
Proof.
  unfold checkKeyProvisioning. destruct (yaml_map _ _) as [kp|]; [|apply _].
  apply says_then; [apply _|]. destruct (yaml_find _ _); [|apply _]. apply says_text. intros t. apply _.
Qed.
#[local] Instance says_secret p n path : Says (checkSecretFieldsRecursive p n path).
Proof.
  revert n path. fix IH 1. intros n path. destruct n as [| | |l]; try apply says_nothing. cbn.
  induction l as [|[k v] l IHl]; [apply says_nothing|]. apply says_then; [|done].
  apply says_text. intros key. apply says_then; [unfold checkSecretName; apply _|apply IH].
Qed.

(** The report is silent about values: whatever the document holds, and in both profiles, each
    of its messages is one of a fixed list of sentences, none of which contains a text of the
    document. *)
Theorem report_vocabulary p file ok fs :
  run p file = Some (ok, fs) -> Forall (fun f => fi_message f ∈ messages) fs.
Proof.
  destruct file as [| |root]; cbn; [by intros [= <- <-]..|].
  intros H. apply bind_Some in H as (fs' & Hr & [= <- <-]). revert Hr. apply says.
Qed.
End Reports.

(* --------------------------------------------------------------------- *)
(** ** A vehicle's configuration                                          *)
(* --------------------------------------------------------------------- *)

Module ConfigSample.
(** A library that reads decimal numerals and the words true and false. *)
Definition digit (c : ascii) : option Z :=
  let n := Z.of_N (N_of_ascii c) - 48 in if (0 <=? n) && (n <=? 9) then Some n else None.
Fixpoint decimal (acc : Z) (s : string) : option Z :=
  match s with
  | EmptyString => Some acc
  | String c s => d ← digit c; decimal (acc * 10 + d) s
  end.
#[local] Instance sample_yaml : Yaml := {
  yaml_int s := if str_empty s then None else decimal 0 s;
  yaml_bool s := if String.eqb s "true" then Some true else if String.eqb s "false" then Some false else None;
  yaml_null_text := Some "null"
}.

Definition key (k : string) (v : yaml) : yaml * yaml := (YScalar k, v).
Definition scalar (k t : string) : yaml * yaml := key k (YScalar t).

Definition hsm_mode : yaml * yaml := key "key_provisioning" (YMap [scalar "mode" " HSM "]).
Definition release : yaml := YMap
  [hsm_mode;
   key "hsm" (YMap [scalar "type" "pkcs11"; scalar "library_path" "/usr/lib/libhsm.so"]);
   key "sec" (YMap
     [key "trusted_time" (YMap [scalar "provider" "composite"; scalar "rollback_tolerance_ms" "2000"]);
      key "business_key_provisioning" (YMap [scalar "enabled" "true"; scalar "max_items" "99"])]);
   key "storage" (YMap [scalar "state_file" "/var/lib/tbox/sec/state.json"]);
   key "environment" (YMap [scalar "profile" "production"; scalar "is_production" "true"])].

(** It passes, with a warning about [max_items]. *)
Definition release_report : list Finding :=
  [mkFinding "WARN" "schema.range" "sec.business_key_provisioning.max_items" "value out of recommended range"].


Lemma report_vocabulary_witness :
  Forall (fun f => fi_message f ∈ messages) release_report.
Proof. apply (report_vocabulary Production (Document release) true release_report). by vm_compute. Defined.

(** The program on that file. *)
Example release_exit :
  main (fun _ => Document release) ["--check-config"; "sec.yaml"; "--profile"; "production"] =
  Some (0, ["WARN [schema.range] field=sec.business_key_provisioning.max_items: value out of recommended range";
            "PASS: sec.yaml (profile=production, 0 errors, 1 warnings)"]).
Proof. by vm_compute. Qed.

(** Where the rules and config/schema/sec.schema.yaml part. The schema allows the software HSM in
    production (line 347); the checker does not. *)
Lemma software_hsm_fails : run Production (Document (YMap
    [hsm_mode; key "hsm" (YMap [scalar "type" "software"])])) =
  Some (false, [mkFinding "ERROR" "profile.production_hw_hsm_only" "hsm.type"
    "production profile forbids hsm.type=software (must be pkcs11/trustzone hardware backend)"]).
Proof. by vm_compute. Qed.

(** It forbids hsm.slot (line 343) and paths into a build tree or a directory everybody can write
    (line 345); the checker passes them, with a warning at most. *)
Definition hsm_with (k v : string) : yaml := YMap
  [hsm_mode; key "hsm" (YMap [scalar "type" "pkcs11"; scalar k v])].
Definition stored_at (path : string) : yaml := YMap
  [hsm_mode; key "storage" (YMap [scalar "state_file" path])].

Lemma slot_passes : run Production (Document (hsm_with "slot" "3")) =
  Some (true, [mkFinding "WARN" "schema.unknown_field" "hsm.slot" "unknown field (not in schema)"]).
Proof. by vm_compute. Qed.
Lemma build_tree_passes : run Production (Document (stored_at "/home/dev/build/state.json")) =
  Some (true, [mkFinding "WARN" "path.no_build_tree" "storage.state_file"
                 "path references build tree (review before release)"]).
Proof. by vm_compute. Qed.
Lemma world_writable_passes :
  run Production (Document (stored_at "/tmp/state.json")) = Some (true, []).
Proof. by vm_compute. Qed.

(** Maps inside a sequence are not searched for secrets. *)
Definition listed_secret : yaml := YMap
  [hsm_mode; key "cloud" (YMap [key "accounts" (YSeq [YMap [scalar "password" "hunter2"]])])].

Lemma listed_secret_passes :
  exists fs, run Production (Document listed_secret) = Some (true, fs) /\
    Forall (fun f => fi_severity f = "WARN") fs.
Proof. eexists. split; [by vm_compute|]. by repeat constructor. Qed.

(** Nor is the name under which the service reads the seed-key secret one of the forbidden ones. *)
Definition seed_secret : yaml := YMap
  [hsm_mode; key "sec" (YMap [key "seed_key" (YMap [scalar "shared_secret" "000102030405060708090a0b0c0d0e0f"])])].

Lemma seed_secret_passes : exists fs, run Production (Document seed_secret) = Some (true, fs).
Proof. eexists. by vm_compute. Qed.

(** A mode that is no scalar ends the program by an exception of the library, without a report and
    without one of the exit codes 0, 1 and 2. *)
Lemma odd_mode_throws :
  main (fun _ => Document (YMap [key "key_provisioning" (YMap [key "mode" (YSeq [])])]))
    ["--profile"; "production"; "--check-config"; "sec.yaml"] = None.
Proof. by vm_compute. Qed.

(** The shortest configuration that passes says nothing about production. *)
Lemma silent_configuration_passes : run Production (Document (YMap [hsm_mode])) = Some (true, []).
Proof. by vm_compute. Qed.
End ConfigSample.
