(* ===== verification/CertChain.v ===== *)
(** * Certificate chains: the strict parser and the canonical PEM form.
    Models [src/certificate_chain_parser.cpp], [src/certificate_chain_canonicalizer.cpp]
    and their headers. A payload is a byte string; the PEM path reads it as a
    [std::string] of the same bytes. *)
From S2P Require Import Prelude Canonical X509.
From Stdlib Require Import Ascii.

(* --------------------------------------------------------------------- *)
(** ** Data                                                               *)
(* --------------------------------------------------------------------- *)

(** [src/include/certificate_chain_parser.h:39-39] CertificateInputFormat *)
Inductive CertificateInputFormat := DerSingle | PemChain.

(** [src/include/certificate_chain_parser.h:43-48] CertificateParseStage *)
Inductive CertificateParseStage := StageOk | InputFormat | ChainShape | SizeLimit.

(** [src/src/certificate_chain_parser.cpp:89-97] certificate_parse_stage_to_string *)
Definition certificate_parse_stage_to_string (s : CertificateParseStage) : string :=
  match s with
  | StageOk => "ok"
  | InputFormat => "input_format"
  | ChainShape => "chain_shape"
  | SizeLimit => "size_limit"
  end.

Section Chains.
Context `{L : X509Lib} `{Hash : Sha256}.

(** The leaf is a pointer that is null in a default chain. *)
(** [src/include/certificate_chain_parser.h:54-64] ParsedCertificateChain *)
Record ParsedCertificateChain := mkChain {
  pc_format : CertificateInputFormat;
  pc_leaf : option X509;
  pc_intermediates : list X509;
  pc_cert_der_sha256 : list bytes;
  pc_leaf_der_original_sha256 : bytes
}.

(** [src/include/certificate_chain_parser.h:67-70] CertificateChainLimits *)
Record CertificateChainLimits := mkLimits {
  cl_max_payload_bytes : Z;
  cl_max_certificates : Z
}.
Definition default_limits : CertificateChainLimits := mkLimits 8192 4.

(** [ok] with a chain, or the stage that failed. *)
(** [src/include/certificate_chain_parser.h:73-77] ParseResult *)
Inductive ParseResult :=
  | Parsed (chain : ParsedCertificateChain)
  | Rejected (stage : CertificateParseStage).

(* --------------------------------------------------------------------- *)
(** ** Characters                                                         *)
(* --------------------------------------------------------------------- *)

(** [src/src/certificate_chain_parser.cpp:17-19] isAsciiSpace *)
Definition isAsciiSpace (c : Z) : bool :=
  (c =? 32) || (c =? 9) || (c =? 13) || (c =? 10) || (c =? 12) || (c =? 11).

Definition char_code (c : ascii) : Z := Z.of_N (N_of_ascii c).

(** [std::isalnum] in the C locale, and the three other characters. *)
(** [src/src/certificate_chain_parser.cpp:21-24] isBase64Char *)
Definition isBase64Char (c : ascii) : bool :=
  let u := char_code c in
  (48 <=? u) && (u <=? 57) || (65 <=? u) && (u <=? 90) || (97 <=? u) && (u <=? 122)
  || (u =? 43) || (u =? 47) || (u =? 61).

(** [src/src/certificate_chain_parser.cpp:29-47] base64Decode kDec *)
Definition kDec (c : ascii) : Z :=
  let u := char_code c in
  if (65 <=? u) && (u <=? 90) then u - 65
  else if (97 <=? u) && (u <=? 122) then u - 97 + 26
  else if (48 <=? u) && (u <=? 57) then u - 48 + 52
  else if u =? 43 then 62
  else if u =? 47 then 63
  else -1.

(** The loop over the text; [acc] is a [uint32_t]. *)
(** [src/src/certificate_chain_parser.cpp:51-62] base64Decode loop *)
Fixpoint base64_loop (text : string) (acc bits : Z) (out : bytes) : bytes :=
  match text with
  | EmptyString => out
  | String c text =>
      if Ascii.eqb c "="%char then out
      else
        let v := kDec c in
        if v <? 0 then base64_loop text acc bits out
        else
          let acc := Z.lor (wrapu 32 (Z.shiftl acc 6)) v in
          let bits := bits + 6 in
          if bits >=? 8 then
            let bits := bits - 8 in
            base64_loop text acc bits (out ++ [byte_of (Z.land (Z.shiftr acc bits) 255)])
          else base64_loop text acc bits out
  end.

(** [src/src/certificate_chain_parser.cpp:28-64] base64Decode *)
Definition base64Decode (text : string) : option bytes :=
  match base64_loop text 0 0 [] with [] => None | out => Some out end.

(** [src/src/certificate_chain_parser.cpp:67-73] sha256OfBytes *)
Definition sha256OfBytes (data : bytes) : bytes :=
  match data with [] => replicate 32 x00 | _ => SHA256 data end.

(** [src/src/certificate_chain_parser.cpp:76-85] derSha256 *)
Definition derSha256 (c : X509) : bytes := sha256OfBytes (i2d_X509 c).

(** [src/src/certificate_chain_parser.cpp:322-329] isCaCert *)
Definition isCaCert (c : X509) : bool := default false (x509_basic_constraints_ca c).

(** [src/src/certificate_chain_parser.cpp:331-341] isVerifiableSelfSigned *)
Definition isVerifiableSelfSigned (c : X509) : bool := x509_self_issued c && x509_verify_own c.

(* --------------------------------------------------------------------- *)
(** ** One DER certificate                                                *)
(* --------------------------------------------------------------------- *)

Fixpoint skip_bytes (l : bytes) : bytes :=
  match l with
  | b :: l' => if isAsciiSpace (bval b) then skip_bytes l' else l
  | [] => []
  end.

(** The bytes before the trailing white space, down to the start of the DER. *)
Definition trim_end (l : bytes) : bytes := rev (skip_bytes (rev l)).

(** [src/src/certificate_chain_parser.cpp:131-179] parseDerSingle *)
Definition parseDerSingle (payload : bytes) : ParseResult :=
  let data := skip_bytes payload in
  match d2i_X509 data with
  | None => Rejected InputFormat
  | Some (cert, n) =>
      match skip_bytes (drop n data) with
      | _ :: _ => Rejected InputFormat
      | [] =>
          Parsed (mkChain DerSingle (Some cert) [] [derSha256 cert] (sha256OfBytes (trim_end data)))
      end
  end.

(* --------------------------------------------------------------------- *)
(** ** A chain of PEM blocks                                              *)
(* --------------------------------------------------------------------- *)

Fixpoint skip_space (s : string) : string :=
  match s with
  | String c s' => if isAsciiSpace (char_code c) then skip_space s' else s
  | EmptyString => EmptyString
  end.

(** [find]: the text before the first occurrence, and the text after it. *)
Fixpoint str_find (needle s : string) : option (string * string) :=
  if String.prefix needle s then Some (""%string, str_drop (String.length needle) s)
  else
    match s with
    | EmptyString => None
    | String c s =>
        match str_find needle s with
        | Some (a, b) => Some (String c a, b)
        | None => None
        end
    end.

(** The structure scan: how many blocks there are, and the text of the first one.
    Each turn consumes a block, so the length of the text is enough fuel. *)
(** [src/src/certificate_chain_parser.cpp:196-235] parsePemChain scan *)
Fixpoint pem_scan (fuel : nat) (max : Z) (data : string) (count : Z) (first : string) :
    CertificateParseStage + Z * string :=
  match skip_space data with
  | EmptyString => inr (count, first)
  | rest =>
      match fuel with
      | O => inl InputFormat
      | S fuel =>
          if negb (String.prefix pem_begin rest) then inl InputFormat
          else
            match str_find pem_end (str_drop 27 rest) with
            | None => inl InputFormat
            | Some (body, after) =>
                if negb (str_all (fun c => isBase64Char c || isAsciiSpace (char_code c)) body)
                then inl InputFormat
                else
                  let first := if count =? 0 then body else first in
                  let count := count + 1 in
                  if count >? max then inl SizeLimit else pem_scan fuel max after count first
            end
      end
  end.

(** The roles of the certificates after the leaf. *)
(** [src/src/certificate_chain_parser.cpp:273-283] parsePemChain roles *)
Definition intermediate_ok (c : X509) : bool := isCaCert c && negb (isVerifiableSelfSigned c).

(** The digests in order, unless one repeats an earlier one. *)
(** [src/src/certificate_chain_parser.cpp:286-297] parsePemChain duplicates *)
Fixpoint collect_digests (certs : list X509) (digests : list bytes) : option (list bytes) :=
  match certs with
  | [] => Some digests
  | c :: certs =>
      let d := derSha256 c in
      if bool_decide (d ∈ digests) then None else collect_digests certs (digests ++ [d])
  end.

(** [src/src/certificate_chain_parser.cpp:181-320] parsePemChain *)
Definition parsePemChain (payload : bytes) (limits : CertificateChainLimits) : ParseResult :=
  let data := string_of_bytes payload in
  match pem_scan (String.length data) (cl_max_certificates limits) data 0 "" with
  | inl stage => Rejected stage
  | inr (block_count, first) =>
      let certs := PEM_read_bio_X509s data in
      if zlen certs >? cl_max_certificates limits then Rejected SizeLimit else
      if negb (zlen certs =? block_count) then Rejected InputFormat else
      match certs with
      | [] => Rejected ChainShape
      | leaf :: intermediates =>
          if isCaCert leaf then Rejected ChainShape else
          if negb (forallb intermediate_ok intermediates) then Rejected ChainShape else
          match collect_digests certs [] with
          | None => Rejected ChainShape
          | Some digests =>
              let original :=
                match base64Decode first with
                | Some der => sha256OfBytes der
                | None => replicate 32 x00
                end in
              Parsed (mkChain PemChain (Some leaf) intermediates digests original)
          end
      end
  end.

(** [src/src/certificate_chain_parser.cpp:99-129] parse *)
Definition parse (payload : bytes) (limits : CertificateChainLimits) : ParseResult :=
  if zlen payload >? cl_max_payload_bytes limits then Rejected SizeLimit else
  match skip_bytes payload with
  | [] => Rejected InputFormat
  | rest =>
      if String.prefix pem_begin (string_of_bytes rest) then parsePemChain payload limits
      else parseDerSingle payload
  end.

(** [out] keeps its value on failure; a chain of one certificate that cannot be
    written fails, like an empty buffer. *)
(** [src/src/certificate_chain_canonicalizer.cpp:9-44] toPem *)
Definition toPem (chain : ParsedCertificateChain) : option string :=
  match pc_leaf chain with
  | None => None
  | Some leaf =>
      match pem_of_chain (leaf :: pc_intermediates chain) with
      | Some s => if str_empty s then None else Some s
      | None => None
      end
  end.
End Chains.
