(* ===== verification/CertCheck.v ===== *)
(** * Leaf checks: CertValidator and the key-agreement probe.
    Models [src/cert_validator.cpp] and [src/device_key_agreement.cpp]. Both read a
    certificate through the interface of [X509]; the device key comes from
    [KeyEngine], the time from the trusted-time provider of the caller. *)
From S2P Require Import Prelude Errors Canonical Json X509 TimeTypes Provider KeyEngine CertChain CertStore.

(** The value [client_auth] of [OBJ_txt2obj]. *)
Definition CLIENT_AUTH_OID : string := "1.3.6.1.5.5.7.3.2".

Section Leaf.
Context `{L : X509Lib}.
Implicit Types cert : X509.

(** [src/src/cert_validator.cpp:20-32] subjectCommonNameMatches *)
Definition subjectCommonNameMatches cert (expected : string) : bool :=
  match x509_subject_cn cert with Some cn => String.eqb cn expected | None => false end.

(** [usage->length > 0 && (usage->data[0] & mask)]. *)
Definition key_usage_bit (mask : Z) cert : bool :=
  match x509_key_usage cert with
  | Some (b :: _) => negb (Z.land (bval b) mask =? 0)
  | _ => false
  end.

(** [src/src/cert_validator.cpp:35-42] hasKeyUsageDigitalSignature *)
Definition hasKeyUsageDigitalSignature cert : bool := key_usage_bit KU_DIGITAL_SIGNATURE cert.

(** [src/src/device_key_agreement.cpp:23-34] hasKeyUsageKeyAgreement *)
Definition hasKeyUsageKeyAgreement cert : bool := key_usage_bit KU_KEY_AGREEMENT cert.

(** [src/src/device_key_agreement.cpp:49-67] isP256PublicKey *)
Definition isP256PublicKey cert : bool := x509_is_prime256v1 cert.

(** [src/src/cert_validator.cpp:45-62] hasClientAuthEku *)
Definition hasClientAuthEku cert : bool :=
  match x509_eku cert with Some l => contains l CLIENT_AUTH_OID | None => false end.

(** [src/src/cert_validator.cpp:66-73] isCaTrue *)
Definition isCaTrue cert : bool := default false (x509_basic_constraints_ca cert).

Definition critical_allowed (nid : Z) : bool :=
  bool_decide (nid ∈ [NID_basic_constraints; NID_key_usage; NID_ext_key_usage;
    NID_subject_alt_name; NID_subject_key_identifier; NID_authority_key_identifier]).

(** [src/src/cert_validator.cpp:78-98] unknownCriticalExtensionRejected *)
Definition unknownCriticalExtensionRejected cert : bool :=
  existsb (fun e : Z * bool => e.2 && negb (critical_allowed e.1)) (x509_extensions cert).

(** [src/src/cert_validator.cpp:103-113] is_verifiable_self_signed *)
Definition is_verifiable_self_signed cert : bool := x509_self_issued cert && x509_verify_own cert.

(** [src/src/device_key_agreement.cpp:84-107] hasOnlyClientAuthEku *)
Definition hasOnlyClientAuthEku cert : bool :=
  match x509_eku cert with
  | None => false
  | Some [] => false
  | Some l => forallb (fun o => String.eqb o CLIENT_AUTH_OID) l
  end.

(** [src/src/device_key_agreement.cpp:111-132] criticalExtensionsAllowed *)
Definition criticalExtensionsAllowed cert : bool :=
  forallb (fun e : Z * bool => negb e.2 || critical_allowed e.1) (x509_extensions cert).

(** The check [valid] asks for, in closed form: the profile of a device leaf. *)
(** [src/src/cert_validator.cpp:142-152] validate_certificate profile *)
Definition leaf_profile_ok cert (ecu_uid : string) : bool :=
  let cn_ok := subjectCommonNameMatches cert ecu_uid in
  let ku_ok := hasKeyUsageDigitalSignature cert in
  let eku_ok := hasClientAuthEku cert in
  let ca_ok := negb (isCaTrue cert) in
  let critical_ok := negb (unknownCriticalExtensionRejected cert) in
  let self_signed := is_verifiable_self_signed cert in
  negb (negb cn_ok || negb ku_ok || negb eku_ok || negb ca_ok || negb critical_ok || self_signed).
End Leaf.

(* --------------------------------------------------------------------- *)
(** ** CertValidator                                                      *)
(* --------------------------------------------------------------------- *)

Section Validator.
Context {H : Type} `{L : X509Lib} `{Hsm : HsmInterface H}.
Implicit Types cert : X509.

(** [system_clock::from_time_t]: the seconds become the [int64_t] nanoseconds of
    a [time_point]; a product outside that range wraps. *)
(** [src/src/cert_validator.cpp:405-406] from_time_t *)
Definition tp_of_seconds (t : Z) : Z := wrap_i64 (t * 1000000000).

(** The closed interval, with the uncertainty on both sides; sums of time points
    and durations are [int64_t] nanoseconds too. *)
(** [src/src/cert_validator.cpp:410-412] check_certificate_validity window *)
Definition within_validity (smp : TrustedTimeSample) (not_before not_after : Z) : bool :=
  let lo := wrap_i64 (ts_utc_now smp - tp_of_ms (ts_uncertainty smp)) in
  let hi := wrap_i64 (ts_utc_now smp + tp_of_ms (ts_uncertainty smp)) in
  negb ((lo <? not_before) || (hi >? not_after)).

Definition is_trusted (smp : TrustedTimeSample) : bool :=
  match ts_trust_state smp with Trusted => true | _ => false end.

(** The result and [valid]; [timegm] of minus one counts as a failure. *)
(** [src/src/cert_validator.cpp:371-431] check_certificate_validity *)
Definition check_certificate_validity (smp : TrustedTimeSample) cert : ErrorCode * bool :=
  if negb (is_trusted smp) then (CERT_EXPIRED, false) else
  match x509_notBefore cert, x509_notAfter cert with
  | Some t_nb, Some t_na =>
      if (t_nb =? -1) || (t_na =? -1) then (CERT_EXPIRED, false) else
      if negb (within_validity smp (tp_of_seconds t_nb) (tp_of_seconds t_na))
      then (CERT_EXPIRED, false) else (SUCCESS, true)
  | _, _ => (CERT_EXPIRED, false)
  end.

(** [src/src/cert_validator.cpp:433-473] match_certificate_key *)
Definition match_certificate_key (k : KeyEngine) cert (ecu_uid : string) (h : H) : ErrorCode * bool :=
  let cert_pub := default [] (x509_ec_point cert) in
  if bytes_empty cert_pub then (CERT_VALIDATION_FAILED, false) else
  let '(rc, key_pair) := get_device_key k ecu_uid ecu_uid h in
  if negb (is_success rc) then (rc, false)
  else (SUCCESS, bool_decide (cert_pub = kp_public_key key_pair)).

(** The clock is read only for a leaf whose profile is right; [now] is the reading.
    [key_engine_] and [cert] are not null where the service calls. *)
(** [src/src/cert_validator.cpp:121-209] validate_certificate *)
Definition validate_certificate {T} (now : st T TrustedTimeSample) (k : KeyEngine) (ecu_uid : string)
    cert (h : H) : st T (ErrorCode * bool) := fun t =>
  if negb (leaf_profile_ok cert ecu_uid) then ((CERT_VALIDATION_FAILED, false), t) else
  let '(smp, t) := now t in
  let '(rc, not_expired) := check_certificate_validity smp cert in
  if negb (is_success rc) then ((rc, false), t) else
  if negb not_expired then ((CERT_EXPIRED, false), t) else
  let '(rc, key_match) := match_certificate_key k cert ecu_uid h in
  if negb (is_success rc) then ((rc, false), t) else
  ((if key_match then SUCCESS else CERT_KEY_MISMATCH, key_match), t).

(** [src/include/cert_validator.h:15-24] CertificateInfo *)
Record CertificateInfo := mkCertificateInfo {
  ci_serial_number : string;
  ci_issuer : string;
  ci_subject : string;
  ci_not_before : Z;
  ci_not_after : Z;
  ci_public_key : bytes;
  ci_key_usage : string;
  ci_extended_key_usage : string
}.

(** Each name is followed by a comma; the last one is removed. The last entry of
    the table tests a bit beyond the first octet. *)
(** [src/src/cert_validator.cpp:310-329] extract_certificate_info key usage *)
Definition key_usage_names (b : byte) : string :=
  let table := [(128, "digitalSignature"); (64, "nonRepudiation"); (32, "keyEncipherment");
    (16, "dataEncipherment"); (8, "keyAgreement"); (4, "keyCertSign"); (2, "cRLSign");
    (1, "encipherOnly"); (32768, "decipherOnly")] in
  String.concat "," (map snd (filter (fun e => Z.land (bval b) e.1 <> 0) table)).

(** [src/src/cert_validator.cpp:211-352] extract_certificate_info *)
Definition extract_certificate_info (cert_der : bytes) : option CertificateInfo :=
  if bytes_empty cert_der then None else
  cert ← fst <$> d2i_X509 cert_der;
  serial ← x509_serial_hex cert;
  issuer ← x509_issuer_oneline cert;
  subject ← x509_subject_oneline cert;
  nb ← x509_notBefore cert;
  na ← x509_notAfter cert;
  if (nb =? -1) || (na =? -1) then None else
  pub ← i2d_PublicKey cert;
  if bytes_empty pub then None else
  let ku := match x509_key_usage cert with Some (b :: _) => key_usage_names b | _ => "" end in
  let eku := match x509_eku cert with Some l => String.concat "," l | None => "" end in
  Some (mkCertificateInfo serial issuer subject (tp_of_seconds nb) (tp_of_seconds na) pub ku eku).

(** A certificate that cannot be read, or a time that cannot be trusted, counts as
    expired. *)
(** [src/src/cert_validator.cpp:354-369] is_certificate_expired *)
Definition is_certificate_expired {T} (now : st T TrustedTimeSample) (cert_der : bytes) : st T bool :=
  fun t =>
  match extract_certificate_info cert_der with
  | None => (true, t)
  | Some info =>
      let '(smp, t) := now t in
      if negb (is_trusted smp) then (true, t)
      else (negb (within_validity smp (ci_not_before info) (ci_not_after info)), t)
  end.
End Validator.

(* --------------------------------------------------------------------- *)
(** ** The probe of the key agreement                                     *)
(* --------------------------------------------------------------------- *)

(** [src/include/device_key_agreement.h:38-65] DeviceKeyAgreementCapability *)
Record DeviceKeyAgreementCapability := mkCapability {
  ka_active_cert_present : bool;
  ka_p256 : bool;
  ka_key_agreement : bool;
  ka_digital_signature : bool;
  ka_private_key_exists : bool;
  ka_private_key_can_derive : bool;
  ka_private_key_can_sign : bool;
  ka_certificate_digest : bytes;
  ka_active_cert_valid_from_ms : Z;
  ka_active_cert_valid_to_ms : Z;
  ka_ca_false : bool;
  ka_eku_client_auth_only : bool;
  ka_critical_extensions_allowed : bool;
  ka_leaf_digest_bound : bool;
  ka_cert_chain_key_match : bool;
  ka_profile_matched : bool
}.
Definition capability_default : DeviceKeyAgreementCapability :=
  mkCapability false false false false false false false [] 0 0 false false false false false false.

Section Probe.
Context {H F : Type} `{L : X509Lib} `{Hsm : HsmInterface H} `{Hash : Sha256} `{J : Json}.

(** What the capability says about a parsed leaf, its original digest and the key. *)
(** [src/src/device_key_agreement.cpp:149-213] probe leaf *)
Definition probe_leaf (leaf : X509) (orig : bytes) (key_id : string) (h : H) :
    DeviceKeyAgreementCapability :=
  let p256 := isP256PublicKey leaf in
  let ka := hasKeyUsageKeyAgreement leaf in
  let ds := hasKeyUsageDigitalSignature leaf in
  let ca_false := negb (isCaTrue leaf) in
  let eku := hasOnlyClientAuthEku leaf in
  let crit := criticalExtensionsAllowed leaf in
  let bound := existsb (fun b => negb (bval b =? 0)) orig in
  let has_key := negb (str_empty key_id) in
  let exists_ := has_key && hsm_key_exists key_id h in
  let '(rc, local_pub) := hsm_export_public_key key_id h in
  let cert_pub := default [] (x509_ec_point leaf) in
  mkCapability true p256 ka ds exists_
    (has_key && hsm_supports_ecdh_derive key_id h) (has_key && hsm_supports_ecdsa_sign key_id h)
    (if bound then orig else [])
    (match x509_notBefore leaf with Some t => t * 1000 | None => 0 end)
    (match x509_notAfter leaf with Some t => t * 1000 | None => 0 end)
    ca_false eku crit bound
    (p256 && exists_ && is_success rc && negb (bytes_empty cert_pub)
      && bool_decide (cert_pub = local_pub))
    (ca_false && p256 && ka && ds && eku && crit).

(** The adapter holds pointers to the store and the HSM, which are never null here. *)
(** [src/src/device_key_agreement.cpp:136-215] probe *)
Definition probe (cs : CertificateStore (F:=F)) (key_id : string) (h : H) : DeviceKeyAgreementCapability :=
  if negb (hasCurrent cs) then capability_default else
  let chain_pem := currentDeviceCertChain cs in
  if str_empty chain_pem then capability_default else
  match parse (bytes_of_string chain_pem) default_limits with
  | Rejected _ => capability_default
  | Parsed chain =>
      match pc_leaf chain with
      | None => capability_default
      | Some leaf => probe_leaf leaf (pc_leaf_der_original_sha256 chain) key_id h
      end
  end.
End Probe.
