(* ===== verification/CertProps.v ===== *)
(** * Certificate chains: what the parser accepts, the canonical form, the leaf.
    [parse] accepts exactly chains of the required shape; the canonical PEM of an
    accepted chain parses back to it; [validate_certificate] in closed form. *)
From S2P Require Import Prelude Errors Canonical Json X509 TimeTypes Provider KeyEngine CertChain CertStore CertCheck.
From Stdlib Require Import Ascii.

(* --------------------------------------------------------------------- *)
(** ** Texts                                                              *)
(* --------------------------------------------------------------------- *)

Lemma str_find_eq needle s :
  str_find needle s =
  if String.prefix needle s then Some (""%string, str_drop (String.length needle) s)
  else match s with
       | EmptyString => None
       | String c s => match str_find needle s with Some (a, b) => Some (String c a, b) | None => None end
       end.
Proof. by destruct s. Qed.

(** The first occurrence of a needle that starts with a character the text before
    it does not contain. *)
Lemma str_find_first c n body rest :
  str_all (fun x => negb (Ascii.eqb x c)) body = true ->
  str_find (String c n) (body ++ String c n ++ rest) = Some (body, rest).
Proof.
  intros Hb. induction body as [|x body IH]; rewrite str_find_eq.
  - change ("" ++ String c n ++ rest)%string with (String c n ++ rest)%string.
    by rewrite str_prefix_app, str_drop_app.
  - cbn [str_all] in Hb. apply andb_true_iff in Hb as [Hx Hb]. specialize (IH Hb).
    change (String x body ++ String c n ++ rest)%string with (String x (body ++ String c n ++ rest)).
    replace (String.prefix (String c n) (String x (body ++ String c n ++ rest))) with false.
    2:{ cbn [String.prefix]. destruct (ascii_dec c x) as [->|]; [|done]. by rewrite Ascii.eqb_refl in Hx. }
    by rewrite IH.
Qed.

Lemma str_all_weaken (P Q : ascii -> bool) s :
  (forall c, P c = true -> Q c = true) -> str_all P s = true -> str_all Q s = true.
Proof.
  intros H. induction s as [|c s IH]; [done|]. cbn. intros [H1 H2]%andb_true_iff.
  by rewrite H, IH.
Qed.

Lemma str_prefix_split p s : String.prefix p s = true -> s = (p ++ str_drop (String.length p) s)%string.
Proof.
  revert s; induction p as [|c p IH]; intros [|d s]; try done. cbn [String.prefix String.length str_drop].
  destruct (ascii_dec c d) as [->|]; [|done]. intros Hp.
  change (String d s = String d (p ++ str_drop (String.length p) s)). by rewrite <- (IH s Hp).
Qed.

Lemma str_find_split needle s a b :
  str_find needle s = Some (a, b) -> s = (a ++ needle ++ b)%string.
Proof.
  revert a. induction s as [|c s IH]; intros a; rewrite str_find_eq;
    destruct (String.prefix needle _) eqn:Ep; try done.
  1, 2: intros [= <- <-]; by apply str_prefix_split in Ep.
  destruct (str_find needle s) as [[a' b']|]; [|done]. intros [= <- <-].
  by rewrite (IH a' eq_refl).
Qed.

(** White space, and the text between the two lines of a block. *)
Definition white (s : string) : Prop := str_all (fun c => isAsciiSpace (char_code c)) s = true.
Definition armoured (s : string) : Prop :=
  str_all (fun c => isBase64Char c || isAsciiSpace (char_code c)) s = true.

(** The strict format of a PEM chain: certificate blocks with nothing but white
    space before, between and after them; [bodies] are their texts in order. *)
Inductive pem_blocks : string -> list string -> Prop :=
  | blocks_end sp : white sp -> pem_blocks sp []
  | blocks_cons sp body rest bodies :
      white sp -> armoured body -> pem_blocks rest bodies ->
      pem_blocks (sp ++ "-----BEGIN CERTIFICATE-----" ++ body ++ "-----END CERTIFICATE-----" ++ rest)
        (body :: bodies).

Lemma skip_space_split s : exists sp, s = (sp ++ skip_space s)%string /\ white sp.
Proof.
  induction s as [|c s (sp & E & Hsp)]; [by exists ""%string|]. cbn [skip_space].
  destruct (isAsciiSpace (char_code c)) eqn:Ec; [|by exists ""%string].
  exists (String c sp). split; [|unfold white; cbn [str_all]; by rewrite Ec].
  change (String c s = String c (sp ++ skip_space s)). by rewrite <- E.
Qed.

Lemma skip_space_white sp t : white sp -> skip_space (sp ++ t) = skip_space t.
Proof.
  unfold white. induction sp as [|c sp IH]; [done|]. cbn [str_all]. intros [Hc Hn]%andb_true_iff.
  change (String c sp ++ t)%string with (String c (sp ++ t)). cbn [skip_space]. rewrite Hc. auto.
Qed.

Lemma skip_space_begin t : skip_space (pem_begin ++ t) = (pem_begin ++ t)%string.
Proof. reflexivity. Qed.

Lemma armoured_no_dash s : armoured s -> str_all (fun x => negb (Ascii.eqb x "-")) s = true.
Proof.
  apply str_all_weaken. by intros [[] [] [] [] [] [] [] []].
Qed.

(** The scan accepts exactly the strict format, within the limit; it counts the
    blocks and keeps the text of the first. *)
Lemma pem_scan_sound fuel max s count first n f :
  0 <= count -> pem_scan fuel max s count first = inr (n, f) ->
  exists bodies, pem_blocks s bodies /\ n = count + zlen bodies /\
    (bodies = [] \/ n <= max) /\
    f = (if count =? 0 then default first (head bodies) else first).
Proof.
  revert s count first. induction fuel as [|fuel IH]; intros s count first Hc; cbn [pem_scan];
    destruct (skip_space_split s) as (sp & Es & Hsp); destruct (skip_space s) as [|c t] eqn:Ek.
  1, 3: intros [= <- <-]; exists []; rewrite str_app_nil in Es; subst sp;
    split; [by constructor|]; unfold zlen; cbn; split; [lia|]; split; [by left|]; by case_match.
  { done. }
  destruct (String.prefix pem_begin (String c t)) eqn:Ep; cbn [negb]; [|done].
  apply str_prefix_split in Ep. change (String.length pem_begin) with 27%nat in Ep.
  destruct (str_find pem_end (str_drop 27 (String c t))) as [[body after]|] eqn:Ef; [|done].
  apply str_find_split in Ef. rewrite Ef in Ep.
  destruct (str_all _ body) eqn:Eb; cbn [negb]; [|done].
  destruct (Z.gtb_spec (count + 1) max); [done|].
  intros Hs. apply IH in Hs as (bodies & Hbs & -> & Hm & ->); [|lia].
  exists (body :: bodies). rewrite Es, Ep. split; [by constructor|].
  unfold zlen in *. cbn [length]. split; [lia|]. split.
  - right. destruct Hm as [->|?]; cbn [length] in *; lia.
  - destruct (Z.eqb_spec (count + 1) 0); [lia|]. reflexivity.
Qed.

Lemma pem_scan_complete max s bodies : pem_blocks s bodies -> forall fuel count first,
  0 <= count -> (bodies = [] \/ count + zlen bodies <= max) -> (String.length s <= fuel)%nat ->
  pem_scan fuel max s count first =
  inr (count + zlen bodies, if count =? 0 then default first (head bodies) else first).
Proof.
  induction 1 as [sp Hsp|sp body rest bodies Hsp Hb Hr IH]; intros fuel count first Hc Hm Hf.
  - assert (skip_space sp = ""%string) as E.
    { rewrite <- (str_app_nil sp). by rewrite skip_space_white. }
    unfold zlen. cbn [head default length]. rewrite Z.add_0_r.
    destruct fuel; cbn [pem_scan]; rewrite E; by case_match.
  - rewrite !str_length_app in Hf. cbn [String.length] in Hf. destruct fuel as [|fuel]; [lia|].
    destruct Hm as [?|Hm]; [done|]. unfold zlen in *. cbn [length] in Hm.
    cbn [pem_scan]. rewrite skip_space_white by done. fold pem_begin. fold pem_end.
    set (tail := (body ++ pem_end ++ rest)%string). rewrite skip_space_begin.
    assert (exists x y, (pem_begin ++ tail)%string = String x y) as (x & y & E) by (by eexists _, _).
    rewrite E. cbn match. rewrite <- E. rewrite str_prefix_app. cbn [negb].
    change (str_drop 27 (pem_begin ++ tail)) with (str_drop (String.length pem_begin) (pem_begin ++ tail)).
    rewrite str_drop_app. unfold tail, pem_end. rewrite str_find_first by (by apply armoured_no_dash).
    rewrite Hb. cbn [negb]. destruct (Z.gtb_spec (count + 1) max); [lia|].
    rewrite IH; [|lia| |lia].
    + cbn [length head default]. destruct (Z.eqb_spec (count + 1) 0); [lia|].
      destruct (count =? 0); do 2 f_equal; lia.
    + destruct bodies; [by left|right]. cbn [length] in *. lia.
Qed.

(* --------------------------------------------------------------------- *)
(** ** Accepted chains                                                    *)
(* --------------------------------------------------------------------- *)

Section Parser.
Context `{L : X509Lib} `{Hash : Sha256}.
Implicit Types certs : list X509.

Lemma collect_digests_spec certs acc ds :
  NoDup acc ->
  collect_digests certs acc = Some ds <-> ds = acc ++ (derSha256 <$> certs) /\ NoDup ds.
Proof.
  revert acc; induction certs as [|c certs IH]; intros acc Ha; cbn.
  - rewrite app_nil_r. naive_solver.
  - case_bool_decide as Hin.
    + split; [done|]. intros [-> Hd]. apply NoDup_app in Hd as (_ & Hd & _).
      exfalso. apply (Hd (derSha256 c)); [done|]. by left.
    + rewrite IH.
      * by rewrite <- app_assoc.
      * apply NoDup_app. split_and!; [done| |apply NoDup_singleton].
        intros x Hx ->%list_elem_of_singleton. done.
Qed.

(** What an accepted chain is: its shape, and where its certificates come from. *)
Record accepted (payload : bytes) (limits : CertificateChainLimits) (chain : ParsedCertificateChain)
    (leaf : X509) : Prop := {
  ac_leaf : pc_leaf chain = Some leaf;
  ac_size : zlen payload <= cl_max_payload_bytes limits;
  ac_digests : pc_cert_der_sha256 chain = derSha256 <$> (leaf :: pc_intermediates chain);
  ac_distinct : NoDup (pc_cert_der_sha256 chain);
  ac_der : pc_format chain = DerSingle ->
    pc_intermediates chain = [] /\
    exists n, d2i_X509 (skip_bytes payload) = Some (leaf, n) /\
      Forall (fun b => isAsciiSpace (bval b) = true) (drop n (skip_bytes payload));
  ac_pem : pc_format chain = PemChain ->
    PEM_read_bio_X509s (string_of_bytes payload) = leaf :: pc_intermediates chain /\
    zlen (leaf :: pc_intermediates chain) <= cl_max_certificates limits /\
    isCaCert leaf = false /\
    Forall (fun c => isCaCert c = true /\ isVerifiableSelfSigned c = false) (pc_intermediates chain)
}.

Lemma skip_bytes_nil l : skip_bytes l = [] -> Forall (fun b => isAsciiSpace (bval b) = true) l.
Proof.
  induction l as [|b l IH]; cbn; [constructor|]. destruct (isAsciiSpace (bval b)) eqn:E; [|done].
  intros. constructor; auto.
Qed.

Lemma skip_bytes_white l : Forall (fun b => isAsciiSpace (bval b) = true) l -> skip_bytes l = [].
Proof. induction 1 as [|b l Hb _ IH]; [done|]. cbn. by rewrite Hb. Qed.

(** A payload of blocks starts with one, after white space. *)
Lemma skip_space_bytes l : skip_space (string_of_bytes l) = string_of_bytes (skip_bytes l).
Proof.
  induction l as [|b l IH]; [done|].
  change (string_of_bytes (b :: l)) with (String (ascii_of_byte b) (string_of_bytes l)).
  cbn [skip_space skip_bytes]. assert (char_code (ascii_of_byte b) = bval b) as -> by (by destruct b).
  by destruct (isAsciiSpace (bval b)).
Qed.

Lemma pem_payload_start payload :
  (exists body bodies, pem_blocks (string_of_bytes payload) (body :: bodies)) ->
  skip_bytes payload <> [] /\ String.prefix pem_begin (string_of_bytes (skip_bytes payload)) = true.
Proof.
  intros (body & bodies & Hb). rewrite <- skip_space_bytes. inversion Hb as [|sp b rest bs Hsp _ _ E]; subst.
  split.
  - intros Hk. pose proof (skip_space_bytes payload) as Hq. rewrite Hk, <- E, skip_space_white in Hq by done.
    done.
  - rewrite skip_space_white by done. fold pem_begin. rewrite skip_space_begin. apply str_prefix_app.
Qed.

Lemma parsePemChain_accepted payload limits chain :
  zlen payload <= cl_max_payload_bytes limits -> parsePemChain payload limits = Parsed chain ->
  exists leaf, accepted payload limits chain leaf.
Proof.
  intros Hs. unfold parsePemChain. destruct (pem_scan _ _ _ _ _) as [|[n first]]; [done|].
  destruct (Z.gtb_spec (zlen (PEM_read_bio_X509s (string_of_bytes payload))) (cl_max_certificates limits));
    [done|].
  destruct (negb _); [done|].
  destruct (PEM_read_bio_X509s _) as [|leaf inter] eqn:Er; [done|].
  destruct (isCaCert leaf) eqn:Ec; [done|]. destruct (forallb intermediate_ok inter) eqn:Ei; [|done].
  cbn [negb]. destruct (collect_digests (leaf :: inter) []) as [ds|] eqn:Ed; [|done].
  intros [= <-]. apply collect_digests_spec in Ed as [-> Hd]; [|constructor].
  exists leaf. split; cbn [pc_leaf pc_intermediates pc_cert_der_sha256 pc_format] in *; try done.
  intros _. split_and!; try done. apply Forall_forall. intros c Hc.
  rewrite forallb_forall in Ei. specialize (Ei c ltac:(by apply list_elem_of_In)).
  unfold intermediate_ok in Ei. apply andb_true_iff in Ei as [? ?%negb_true_iff]. done.
Qed.

Lemma parse_accepted payload limits chain :
  parse payload limits = Parsed chain -> exists leaf, accepted payload limits chain leaf.
Proof.
  unfold parse. destruct (Z.gtb_spec (zlen payload) (cl_max_payload_bytes limits)); [done|].
  destruct (skip_bytes payload) as [|b rest] eqn:Es; [done|].
  destruct (String.prefix _ _); [by apply parsePemChain_accepted|].
  unfold parseDerSingle. rewrite Es. destruct (d2i_X509 (b :: rest)) as [[cert n]|] eqn:Ed; [|done].
  destruct (skip_bytes (drop n (b :: rest))) eqn:Ek; [|done]. intros [= <-]. exists cert.
  split; cbn; try done.
  - by apply NoDup_singleton.
  - intros _. split; [done|]. exists n. rewrite Es. split; [done|]. by apply skip_bytes_nil.
Qed.

Lemma intermediates_ok cs :
  forallb intermediate_ok cs = true <->
  Forall (fun c => isCaCert c = true /\ isVerifiableSelfSigned c = false) cs.
Proof.
  rewrite forallb_forall, Forall_forall.
  assert (forall c, intermediate_ok c = true <-> isCaCert c = true /\ isVerifiableSelfSigned c = false) as Hi.
  { intros c. unfold intermediate_ok. rewrite andb_true_iff, negb_true_iff. reflexivity. }
  split; intros Hf c Hc; apply Hi, Hf; by apply list_elem_of_In.
Qed.

(** What [parseDerSingle] and [parsePemChain] accept. *)
Lemma parseDer_iff payload chain :
  parseDerSingle payload = Parsed chain <->
  exists leaf n, d2i_X509 (skip_bytes payload) = Some (leaf, n) /\
    Forall (fun b => isAsciiSpace (bval b) = true) (drop n (skip_bytes payload)) /\
    chain = mkChain DerSingle (Some leaf) [] [derSha256 leaf]
              (sha256OfBytes (trim_end (skip_bytes payload))).
Proof.
  unfold parseDerSingle. destruct (d2i_X509 (skip_bytes payload)) as [[cert n]|]; [|naive_solver].
  split.
  - destruct (skip_bytes (drop n _)) eqn:Ek; [|done]. intros [= <-]. exists cert, n.
    split_and!; try done. by apply skip_bytes_nil.
  - intros (leaf & n' & [= <- <-] & Hw & ->). by rewrite (skip_bytes_white _ Hw).
Qed.

Lemma parsePem_iff payload limits chain :
  parsePemChain payload limits = Parsed chain <->
  exists leaf intermediates body bodies,
    pem_blocks (string_of_bytes payload) (body :: bodies) /\
    zlen (body :: bodies) <= cl_max_certificates limits /\
    PEM_read_bio_X509s (string_of_bytes payload) = leaf :: intermediates /\
    length intermediates = length bodies /\
    isCaCert leaf = false /\
    Forall (fun c => isCaCert c = true /\ isVerifiableSelfSigned c = false) intermediates /\
    NoDup (derSha256 <$> (leaf :: intermediates)) /\
    chain = mkChain PemChain (Some leaf) intermediates (derSha256 <$> (leaf :: intermediates))
              (match base64Decode body with
               | Some der => sha256OfBytes der
               | None => replicate 32 x00
               end).
Proof.
  unfold parsePemChain. split.
  - destruct (pem_scan _ _ _ _ _) as [|[n first]] eqn:Es; [done|].
    apply pem_scan_sound in Es as (bodies & Hb & -> & Hm & ->); [|done].
    destruct (Z.gtb_spec (zlen (PEM_read_bio_X509s (string_of_bytes payload))) (cl_max_certificates limits));
      [done|].
    destruct (Z.eqb_spec (zlen (PEM_read_bio_X509s (string_of_bytes payload))) (0 + zlen bodies)) as [En|];
      [|done]. cbn [negb].
    destruct (PEM_read_bio_X509s _) as [|leaf inter] eqn:Er; [done|].
    destruct (isCaCert leaf) eqn:Ec; [done|]. destruct (forallb intermediate_ok inter) eqn:Ei; [|done].
    cbn [negb]. destruct (collect_digests (leaf :: inter) []) as [ds|] eqn:Ed; [|done].
    intros [= <-]. apply collect_digests_spec in Ed as [-> Hd]; [|constructor].
    unfold zlen in *. destruct bodies as [|body bodies]; [cbn in En; lia|]. cbn [length] in *.
    exists leaf, inter, body, bodies. split_and!; try done; try lia. by apply intermediates_ok.
  - intros (leaf & inter & body & bodies & Hb & Hm & Hr & Hl & Hca & Hi & Hd & ->).
    rewrite (pem_scan_complete _ _ _ Hb) by (done || (right; lia)). rewrite Hr.
    assert (zlen (leaf :: inter) = zlen (body :: bodies)) as -> by (unfold zlen; cbn [length]; lia).
    destruct (Z.gtb_spec (zlen (body :: bodies)) (cl_max_certificates limits)); [lia|].
    rewrite Z.add_0_l, Z.eqb_refl. cbn [negb]. rewrite Hca.
    apply intermediates_ok in Hi as ->. cbn [negb].
    assert (collect_digests (leaf :: inter) [] = Some (derSha256 <$> (leaf :: inter))) as ->; [|done].
    apply collect_digests_spec; [constructor|done].
Qed.

(* --------------------------------------------------------------------- *)
(** ** The canonical form parses                                          *)
(* --------------------------------------------------------------------- *)

Context `{LL : !X509Laws L}.

Lemma space_same c : is_pem_space c = isAsciiSpace (char_code c).
Proof. by destruct c as [[] [] [] [] [] [] [] []]. Qed.

Lemma body_same c : is_pem_body c = isBase64Char c || isAsciiSpace (char_code c).
Proof. by destruct c as [[] [] [] [] [] [] [] []]. Qed.

Lemma body_no_dash c : is_pem_body c = true -> negb (Ascii.eqb c "-") = true.
Proof. by destruct c as [[] [] [] [] [] [] [] []]. Qed.

Lemma skip_space_app nl t : str_all is_pem_space nl = true -> skip_space (nl ++ t) = skip_space t.
Proof.
  induction nl as [|c nl IH]; [done|]. cbn [str_all]. intros [Hc Hn]%andb_true_iff.
  change (String c nl ++ t)%string with (String c (nl ++ t)). cbn [skip_space].
  rewrite <- space_same, Hc. auto.
Qed.

Lemma pem_scan_skip fuel max a b count first :
  skip_space a = skip_space b -> pem_scan fuel max a count first = pem_scan fuel max b count first.
Proof. intros E. destruct fuel; cbn [pem_scan]; by rewrite E. Qed.

Lemma pem_scan_block fuel max c s t count first :
  PEM_write_bio_X509 c = Some s -> count + 1 <= max ->
  exists first', pem_scan (S fuel) max (s ++ t) count first = pem_scan fuel max t (count + 1) first'.
Proof.
  intros Hw Hc. destruct (PEM_write_block c s Hw) as (body & nl & -> & Hb & Hn).
  exists (if count =? 0 then body else first). cbn [pem_scan].
  rewrite !str_app_assoc. set (rest := (body ++ pem_end ++ nl ++ t)%string).
  change (skip_space (pem_begin ++ rest)) with (pem_begin ++ rest)%string.
  assert (exists x y, (pem_begin ++ rest)%string = String x y) as (x & y & E) by (by eexists _, _).
  rewrite E. cbn match. rewrite <- E. rewrite str_prefix_app. cbn [negb].
  change (str_drop 27 (pem_begin ++ rest)) with (str_drop (String.length pem_begin) (pem_begin ++ rest)).
  rewrite str_drop_app. unfold rest, pem_end. rewrite str_find_first.
  2:{ eapply str_all_weaken; [|exact Hb]. apply body_no_dash. }
  rewrite (str_all_weaken is_pem_body).
  2:{ intros z Hz. by rewrite <- body_same. } 2:{ done. }
  cbn [negb]. destruct (Z.gtb_spec (count + 1) max); [lia|].
  apply pem_scan_skip. by apply skip_space_app.
Qed.

Lemma pem_chain_length cs s : pem_of_chain cs = Some s -> (length cs <= String.length s)%nat.
Proof.
  revert s; induction cs as [|c cs IH]; intros s; cbn; [lia|].
  destruct (PEM_write_bio_X509 c) as [a|] eqn:Ea; [|done].
  destruct (pem_of_chain cs) as [t|]; [|done]. intros [= <-].
  destruct (PEM_write_block c a Ea) as (body & nl & -> & _). rewrite !str_length_app.
  specialize (IH t eq_refl). cbn [String.length pem_begin]. lia.
Qed.

Lemma pem_scan_chain fuel max cs s count first :
  pem_of_chain cs = Some s -> count + zlen cs <= max -> 0 <= count -> (length cs <= fuel)%nat ->
  exists first', pem_scan fuel max s count first = inr (count + zlen cs, first').
Proof.
  revert fuel s count first. induction cs as [|c cs IH]; intros fuel s count first; unfold zlen in *; cbn [length].
  - intros [= <-] _ _ _. exists first. rewrite Z.add_0_r. by destruct fuel.
  - cbn. destruct (PEM_write_bio_X509 c) as [a|] eqn:Ea; [|done].
    destruct (pem_of_chain cs) as [t|]; [|done]. intros [= <-] Hm H0 Hf.
    destruct fuel as [|fuel]; [lia|].
    destruct (pem_scan_block fuel max c a t count first Ea) as [f1 ->]; [lia|].
    destruct (IH fuel t (count + 1) f1 eq_refl) as [f2 ->]; [lia..|].
    exists f2. do 2 f_equal. lia.
Qed.

Lemma canonical_parses limits leaf inter s :
  pem_of_chain (leaf :: inter) = Some s -> str_size s <= cl_max_payload_bytes limits ->
  zlen (leaf :: inter) <= cl_max_certificates limits -> isCaCert leaf = false ->
  Forall (fun c => isCaCert c = true /\ isVerifiableSelfSigned c = false) inter ->
  NoDup (derSha256 <$> (leaf :: inter)) ->
  exists chain, parse (bytes_of_string s) limits = Parsed chain /\ pc_leaf chain = Some leaf /\
    pc_intermediates chain = inter /\ pc_cert_der_sha256 chain = derSha256 <$> (leaf :: inter).
Proof.
  intros Hp Hs Hm Hca Hi Hd. unfold parse.
  assert (zlen (bytes_of_string s) = str_size s) as -> by (unfold zlen, str_size; by rewrite length_bytes_of_string).
  destruct (Z.gtb_spec (str_size s) (cl_max_payload_bytes limits)); [lia|].
  assert (exists t, s = (pem_begin ++ t)%string) as [t Et].
  { cbn in Hp. destruct (PEM_write_bio_X509 leaf) as [a|] eqn:Ea; [|done].
    destruct (pem_of_chain inter) as [u|]; [|done]. injection Hp as <-.
    destruct (PEM_write_block leaf a Ea) as (body & nl & -> & _). rewrite str_app_assoc. by eexists. }
  assert (Hsk : skip_bytes (bytes_of_string s) = bytes_of_string s) by (by rewrite Et).
  rewrite Hsk. destruct (bytes_of_string s) as [|b rest] eqn:Eb; [by rewrite Et in Eb|]. rewrite <- Eb.
  rewrite String.string_of_list_byte_of_string.
  replace (String.prefix pem_begin s) with true by (by rewrite Et, str_prefix_app).
  unfold parsePemChain. rewrite String.string_of_list_byte_of_string.
  destruct (pem_scan_chain (String.length s) (cl_max_certificates limits) (leaf :: inter) s 0 "" Hp) as [f Ef];
    [lia..|by apply pem_chain_length|].
  rewrite Ef, (pem_of_chain_read _ _ Hp).
  destruct (Z.gtb_spec (zlen (leaf :: inter)) (cl_max_certificates limits)); [lia|].
  rewrite Z.add_0_l, Z.eqb_refl. cbn [negb]. rewrite Hca.
  assert (forallb intermediate_ok inter = true) as ->.
  { apply forallb_forall. intros c Hc%list_elem_of_In. rewrite Forall_forall in Hi.
    destruct (Hi c Hc) as [H1 H2]. unfold intermediate_ok. by rewrite H1, H2. }
  cbn [negb].
  assert (collect_digests (leaf :: inter) [] = Some (derSha256 <$> (leaf :: inter))) as ->.
  { apply collect_digests_spec; [constructor|done]. }
  by eexists.
Qed.
End Parser.

(* --------------------------------------------------------------------- *)
(** ** The leaf                                                           *)
(* --------------------------------------------------------------------- *)

Section LeafFacts.
Context {H : Type} `{L : X509Lib} `{Hsm : HsmInterface H}.

Lemma leaf_profile_iff cert ecu_uid :
  leaf_profile_ok cert ecu_uid = true <->
  x509_subject_cn cert = Some ecu_uid /\ hasKeyUsageDigitalSignature cert = true /\
  (exists l, x509_eku cert = Some l /\ CLIENT_AUTH_OID ∈ l) /\
  x509_basic_constraints_ca cert <> Some true /\
  (forall nid, (nid, true) ∈ x509_extensions cert -> critical_allowed nid = true) /\
  ~ (x509_self_issued cert = true /\ x509_verify_own cert = true).
Proof.
  unfold leaf_profile_ok. rewrite negb_true_iff, !orb_false_iff, !negb_false_iff.
  assert (Hcn : subjectCommonNameMatches cert ecu_uid = true <-> x509_subject_cn cert = Some ecu_uid).
  { unfold subjectCommonNameMatches. destruct (x509_subject_cn cert) as [cn|]; [|done].
    rewrite String.eqb_eq. naive_solver. }
  assert (He : hasClientAuthEku cert = true <-> exists l, x509_eku cert = Some l /\ CLIENT_AUTH_OID ∈ l).
  { unfold hasClientAuthEku. destruct (x509_eku cert) as [l|]; [|naive_solver].
    rewrite contains_true. naive_solver. }
  assert (Hca : negb (isCaTrue cert) = true <-> x509_basic_constraints_ca cert <> Some true).
  { unfold isCaTrue. destruct (x509_basic_constraints_ca cert) as [[]|]; cbn; naive_solver. }
  assert (Hc : negb (unknownCriticalExtensionRejected cert) = true <->
    forall nid, (nid, true) ∈ x509_extensions cert -> critical_allowed nid = true).
  { unfold unknownCriticalExtensionRejected. rewrite negb_true_iff. split.
    - intros Hx nid Hin. destruct (critical_allowed nid) eqn:Ec; [done|].
      assert (existsb (fun e : Z * bool => e.2 && negb (critical_allowed e.1)) (x509_extensions cert) = true);
        [|congruence].
      apply existsb_exists. exists (nid, true). rewrite <- list_elem_of_In. cbn [fst snd]. by rewrite Ec.
    - intros Hx. apply not_true_is_false. rewrite existsb_exists. intros ([nid b] & Hin%list_elem_of_In & E).
      cbn in E. apply andb_true_iff in E as [-> E]. by rewrite (Hx nid Hin) in E. }
  assert (Hs : is_verifiable_self_signed cert = false <->
    ~ (x509_self_issued cert = true /\ x509_verify_own cert = true)).
  { unfold is_verifiable_self_signed. destruct (x509_self_issued cert), (x509_verify_own cert); naive_solver. }
  rewrite Hcn, He, Hca, Hc, Hs. tauto.
Qed.

(** Times in nanoseconds that an [int64_t] can hold: 1677-09-21 to 2262-04-11. *)
Definition representable (seconds : Z) : Prop := is_i64 (seconds * 1000000000).

(** The window of the check as the machine computes it. *)
Definition in_window (smp : TrustedTimeSample) (nb na : Z) : Prop :=
  wrap_i64 (nb * 1000000000) <= wrap_i64 (ts_utc_now smp - ts_uncertainty smp * 1000000) /\
  wrap_i64 (ts_utc_now smp + ts_uncertainty smp * 1000000) <= wrap_i64 (na * 1000000000).

Lemma within_validity_window smp nb na :
  within_validity smp (tp_of_seconds nb) (tp_of_seconds na) = true <-> in_window smp nb na.
Proof.
  unfold within_validity, in_window, tp_of_seconds, tp_of_ms, ns_per_ms.
  rewrite negb_true_iff, orb_false_iff, Z.ltb_ge, Z.gtb_ltb, Z.ltb_ge. reflexivity.
Qed.

(** For representable times it is the validity as written. *)
Lemma in_window_representable smp nb na :
  representable nb -> representable na ->
  is_i64 (ts_utc_now smp - ts_uncertainty smp * 1000000) ->
  is_i64 (ts_utc_now smp + ts_uncertainty smp * 1000000) ->
  in_window smp nb na <->
  nb * 1000000000 <= ts_utc_now smp - ts_uncertainty smp * 1000000 /\
  ts_utc_now smp + ts_uncertainty smp * 1000000 <= na * 1000000000.
Proof. intros. unfold in_window. by rewrite !wrap_i64_small. Qed.

Lemma check_validity_iff smp cert :
  check_certificate_validity smp cert = (SUCCESS, true) <->
  ts_trust_state smp = Trusted /\
  exists nb na, x509_notBefore cert = Some nb /\ x509_notAfter cert = Some na /\ nb <> -1 /\ na <> -1 /\
    in_window smp nb na.
Proof.
  unfold check_certificate_validity, is_trusted.
  destruct (ts_trust_state smp); cbn [negb]; [|naive_solver..].
  destruct (x509_notBefore cert) as [nb|], (x509_notAfter cert) as [na|]; try naive_solver.
  destruct (Z.eqb_spec nb (-1)), (Z.eqb_spec na (-1)); cbn [orb]; try naive_solver.
  pose proof (within_validity_window smp nb na) as W.
  destruct (within_validity _ _ _); cbn [negb]; [|naive_solver].
  split; [|done]. intros _. split; [done|]. exists nb, na. naive_solver.
Qed.

Lemma check_validity_only smp cert v : check_certificate_validity smp cert = (SUCCESS, v) -> v = true.
Proof. unfold check_certificate_validity. repeat case_match; congruence. Qed.

Lemma match_key_iff k cert ecu_uid (h : H) :
  match_certificate_key k cert ecu_uid h = (SUCCESS, true) <->
  exists p, x509_ec_point cert = Some p /\ p <> [] /\ ke_initialized k = true /\
    hsm_key_exists (make_key_id ecu_uid ecu_uid) h = true /\
    hsm_export_public_key (make_key_id ecu_uid ecu_uid) h = (SUCCESS, p).
Proof.
  unfold match_certificate_key, get_device_key.
  destruct (x509_ec_point cert) as [[|b p]|]; cbn; [naive_solver| |naive_solver].
  destruct (ke_initialized k); cbn [negb]; [|cbn; naive_solver].
  destruct (hsm_key_exists _ h); cbn [negb]; [|cbn; naive_solver].
  destruct (hsm_export_public_key _ h) as [rc pub]. cbn [kp_public_key].
  destruct (is_success rc) eqn:Er; cbn [negb].
  - apply is_success_true in Er as ->. case_bool_decide as Hb; [subst; naive_solver|].
    split; [done|]. intros (? & ? & _ & _ & _ & ?). congruence.
  - split; [intros [= ->]; done|]. intros (? & ? & _ & _ & _ & ?). by simplify_eq.
Qed.
End LeafFacts.

(* --------------------------------------------------------------------- *)
(** ** The properties                                                     *)
(* --------------------------------------------------------------------- *)

(** C28. What the parser accepts, exactly. A payload within the size limit is
    accepted in two forms. As DER: its first character that is not white space
    does not start a PEM block, one certificate decodes there, and only white
    space follows; no role is checked, so a CA or a self-signed certificate
    passes here. As PEM: the payload is certificate blocks of base64 text with
    nothing but white space around them, no more than allowed, and the library
    decodes as many certificates as there are blocks; the first is not a CA,
    every later one is a CA and none of the later ones is self-signed; no two have the same digest. The chain it
    returns lists those certificates and their digests in order, and the digest
    of the leaf's own bytes. *)
Theorem parse_accepts_only `{L : X509Lib} `{Hash : Sha256} payload limits chain :
  parse payload limits = Parsed chain <->
  zlen payload <= cl_max_payload_bytes limits /\
  ((exists leaf n,
      String.prefix "-----BEGIN CERTIFICATE-----" (string_of_bytes (skip_bytes payload)) = false /\
      skip_bytes payload <> [] /\ d2i_X509 (skip_bytes payload) = Some (leaf, n) /\
      Forall (fun b => isAsciiSpace (bval b) = true) (drop n (skip_bytes payload)) /\
      chain = mkChain DerSingle (Some leaf) [] [derSha256 leaf]
                (sha256OfBytes (trim_end (skip_bytes payload)))) \/
   (exists leaf intermediates body bodies,
      pem_blocks (string_of_bytes payload) (body :: bodies) /\
      zlen (body :: bodies) <= cl_max_certificates limits /\
      PEM_read_bio_X509s (string_of_bytes payload) = leaf :: intermediates /\
      length intermediates = length bodies /\
      isCaCert leaf = false /\
      Forall (fun c => isCaCert c = true /\ isVerifiableSelfSigned c = false) intermediates /\
      NoDup (derSha256 <$> (leaf :: intermediates)) /\
      chain = mkChain PemChain (Some leaf) intermediates (derSha256 <$> (leaf :: intermediates))
                (match base64Decode body with
                 | Some der => sha256OfBytes der
                 | None => replicate 32 x00
                 end))).
Proof.
  unfold parse. destruct (Z.gtb_spec (zlen payload) (cl_max_payload_bytes limits)) as [|Hs].
  { split; [done|]. intros [? _]. lia. }
  split.
  - destruct (skip_bytes payload) as [|b l] eqn:Ek; [done|]. rewrite <- Ek.
    destruct (String.prefix pem_begin _) eqn:Ep; intros Hp; (split; [done|]).
    + right. by apply parsePem_iff.
    + left. apply parseDer_iff in Hp as (leaf & n & ? & ? & ?). exists leaf, n.
      split_and!; try done. by rewrite Ek.
  - intros [_ [(leaf & n & Hp & Hk & H)|Hp]].
    + destruct (skip_bytes payload) as [|b l] eqn:Ek; [done|].
      fold pem_begin in Hp. rewrite Hp.
      apply parseDer_iff. rewrite Ek. eauto.
    + destruct (pem_payload_start payload) as [Hk Hb]; [by destruct Hp as (?&?&?&?&?&_); eauto|].
      destruct (skip_bytes payload) as [|b l] eqn:Ek; [done|].
      rewrite Hb. by apply parsePem_iff.
Qed.

(** The canonical form is a normal form. The canonical PEM of an accepted chain
    (whose leaf is not a CA, as in every PEM chain) is accepted again when it keeps
    the size limit; it gives the same leaf, the same intermediates and the same
    digests, and its own canonical PEM is itself. *)
Theorem canonical_reparse `{LL : X509Laws} `{Hash : Sha256} payload limits chain leaf s :
  parse payload limits = Parsed chain -> pc_leaf chain = Some leaf -> isCaCert leaf = false ->
  1 <= cl_max_certificates limits ->
  toPem chain = Some s -> str_size s <= cl_max_payload_bytes limits ->
  exists chain', parse (bytes_of_string s) limits = Parsed chain' /\
    pc_leaf chain' = pc_leaf chain /\ pc_intermediates chain' = pc_intermediates chain /\
    pc_cert_der_sha256 chain' = pc_cert_der_sha256 chain /\ toPem chain' = Some s.
Proof.
  intros Hp Hl Hca Hm Ht Hs. destruct (parse_accepted _ _ _ Hp) as [leaf' A].
  pose proof (ac_leaf _ _ _ _ A) as Hl'. rewrite Hl in Hl'. injection Hl' as <-.
  assert (Hpem : pem_of_chain (leaf :: pc_intermediates chain) = Some s).
  { unfold toPem in Ht. rewrite Hl in Ht. destruct (pem_of_chain _) as [u|]; [|done].
    destruct (str_empty u); [done|]. exact Ht. }
  assert (Hshape : zlen (leaf :: pc_intermediates chain) <= cl_max_certificates limits /\
    Forall (fun c => isCaCert c = true /\ isVerifiableSelfSigned c = false) (pc_intermediates chain)).
  { destruct (pc_format chain) eqn:Ef.
    - destruct (ac_der _ _ _ _ A Ef) as [-> _]. by split; [|constructor].
    - destruct (ac_pem _ _ _ _ A Ef) as (_ & ? & _ & ?). done. }
  destruct Hshape as [Hn Hi]. pose proof (ac_distinct _ _ _ _ A) as Hd.
  rewrite (ac_digests _ _ _ _ A) in Hd.
  destruct (canonical_parses limits leaf (pc_intermediates chain) s Hpem Hs Hn Hca Hi Hd)
    as (chain' & Hp' & Hl' & Hi' & Hd').
  exists chain'. rewrite Hl', Hi', Hd', Hl. split_and!; try done.
  - symmetry. apply (ac_digests _ _ _ _ A).
  - unfold toPem in *. rewrite Hl', Hi', Hpem. by rewrite Hl, Hpem in Ht.
Qed.

(** C29. The leaf check in closed form. [validate_certificate] accepts exactly a
    certificate whose common name is the hardware id, with digital signature in its
    key usage and client authentication among its extended ones, that is no CA, has
    no critical extension outside the six known ones and is not self-signed; at a
    trusted time whose whole uncertainty interval lies within the validity, both
    taken as [int64_t] nanoseconds, whose wrap is part of the statement
    ([in_window_representable]: up to the year 2262 there is none;
    [no_expiry_date_is_refused]: beyond it there is), neither end of the validity the
    second -1, which [timegm] uses for a failure; and whose EC key is the
    public key the HSM exports for the device. *)
Theorem validate_certificate_iff {H T} `{L : X509Lib} `{Hsm : HsmInterface H}
    (now : st T TrustedTimeSample) k ecu_uid cert (h : H) t :
  (validate_certificate now k ecu_uid cert h t).1 = (SUCCESS, true) <->
  x509_subject_cn cert = Some ecu_uid /\ hasKeyUsageDigitalSignature cert = true /\
  (exists l, x509_eku cert = Some l /\ CLIENT_AUTH_OID ∈ l) /\
  x509_basic_constraints_ca cert <> Some true /\
  (forall nid, (nid, true) ∈ x509_extensions cert -> critical_allowed nid = true) /\
  ~ (x509_self_issued cert = true /\ x509_verify_own cert = true) /\
  let smp := (now t).1 in
  ts_trust_state smp = Trusted /\
  (exists nb na, x509_notBefore cert = Some nb /\ x509_notAfter cert = Some na /\ nb <> -1 /\ na <> -1 /\
    wrap_i64 (nb * 1000000000) <= wrap_i64 (ts_utc_now smp - ts_uncertainty smp * 1000000) /\
    wrap_i64 (ts_utc_now smp + ts_uncertainty smp * 1000000) <= wrap_i64 (na * 1000000000)) /\
  exists p, x509_ec_point cert = Some p /\ p <> [] /\ ke_initialized k = true /\
    hsm_key_exists (make_key_id ecu_uid ecu_uid) h = true /\
    hsm_export_public_key (make_key_id ecu_uid ecu_uid) h = (SUCCESS, p).
Proof.
  cbn zeta. rewrite <- match_key_iff.
  set (smp := (now t).1). pose proof (check_validity_iff smp cert) as Hv.
  pose proof (leaf_profile_iff cert ecu_uid) as Hp.
  transitivity (leaf_profile_ok cert ecu_uid = true /\ check_certificate_validity smp cert = (SUCCESS, true) /\
    match_certificate_key k cert ecu_uid h = (SUCCESS, true)); [|rewrite Hp, Hv; tauto].
  clear Hp Hv. unfold validate_certificate.
  destruct (leaf_profile_ok cert ecu_uid); cbn [negb fst]; [|naive_solver].
  subst smp. destruct (now t) as [smp t']. cbn [fst].
  destruct (check_certificate_validity smp cert) as [rc v] eqn:Ev.
  destruct (is_success rc) eqn:Er; cbn [negb fst]; [apply is_success_true in Er as ->|].
  2:{ split; [intros [= -> ->]|intros (_ & [= -> ->] & _)]; done. }
  rewrite (check_validity_only _ _ _ Ev). cbn [negb].
  destruct (match_certificate_key k cert ecu_uid h) as [rc m].
  destruct (is_success rc) eqn:Er; cbn [negb fst].
  - apply is_success_true in Er as ->. destruct m; naive_solver.
  - split; [intros [= -> ->]|intros (_ & _ & [= -> ->])]; done.
Qed.

(** A certificate "with no well-defined expiration date" (RFC 5280, 4.1.2.5:
    notAfter 99991231235959Z, second 253402300799) is refused as expired at every
    trusted time from 1970 on: its nanoseconds wrap to the year 1816. *)
Lemma no_expiry_date_is_refused `{L : X509Lib} smp cert :
  x509_notAfter cert = Some 253402300799 ->
  0 <= ts_utc_now smp -> 0 <= ts_uncertainty smp ->
  is_i64 (ts_utc_now smp + ts_uncertainty smp * 1000000) ->
  (check_certificate_validity smp cert).1 = CERT_EXPIRED.
Proof.
  intros Hna Hu Hq Hi. unfold check_certificate_validity. rewrite Hna.
  destruct (negb _); [done|]. destruct (x509_notBefore cert) as [nb|]; [|done].
  destruct (_ || _); [done|].
  pose proof (within_validity_window smp nb 253402300799) as W.
  destruct (within_validity _ _ _); [|done]. destruct (proj1 W eq_refl) as [_ Hw].
  rewrite wrap_i64_small in Hw by done.
  change (wrap_i64 (253402300799 * 1000000000)) with (-4852116232933722624) in Hw. lia.
Qed.

(** The digest of a single DER certificate covers the payload without its trailing
    white space, although the certificate ends where the library stopped reading:
    when its last byte is a white space character, that byte is not hashed. *)
Theorem der_digest_drops_white_space `{L : X509Lib} `{Hash : Sha256} body b cert limits :
  let payload := body ++ [b] in
  isAsciiSpace (bval b) = true -> zlen payload <= cl_max_payload_bytes limits ->
  skip_bytes payload = payload -> payload <> [] ->
  String.prefix pem_begin (string_of_bytes payload) = false ->
  d2i_X509 payload = Some (cert, length payload) ->
  exists chain, parse payload limits = Parsed chain /\ pc_leaf chain = Some cert /\
    pc_leaf_der_original_sha256 chain = sha256OfBytes (trim_end body).
Proof.
  intros payload Hb Hs Hk Hne Hp Hd. unfold parse.
  destruct (Z.gtb_spec (zlen payload) (cl_max_payload_bytes limits)); [lia|].
  rewrite Hk. destruct payload as [|x l] eqn:E; [done|]. rewrite <- E in *. rewrite Hp.
  unfold parseDerSingle. rewrite Hk, Hd, drop_all. eexists. split; [done|]. split; [done|].
  cbn [pc_leaf_der_original_sha256]. f_equal. unfold trim_end. f_equal.
  replace payload with (body ++ [b]) by (by rewrite E). rewrite rev_app_distr. cbn. by rewrite Hb.
Qed.

(** The bit for [decipherOnly] lies in the second octet of the key usage, which is
    not read: the name is never reported. *)
Theorem decipher_only_never_reported b :
  String.index 0 "decipherOnly" (key_usage_names b) = None.
Proof. by destruct b. Qed.

(* --------------------------------------------------------------------- *)
(** ** Witnesses                                                          *)
(* --------------------------------------------------------------------- *)

Module CertSample.
Import X509Sample.
#[local] Existing Instance toy_sha256.

(** A leaf and its intermediate, with white space that the canonical form drops. *)
Definition payload : bytes :=
  bytes_of_string (pem 0 ++ String "010" (String "010" (pem 1 ++ String "010" ""))).
Definition chain : ParsedCertificateChain :=
  match parse payload default_limits with
  | Parsed c => c
  | Rejected _ => mkChain DerSingle None [] [] []
  end.

Lemma parse_accepts_only_witness :
  exists leaf body bodies,
    pem_blocks (string_of_bytes payload) (body :: bodies) /\
    PEM_read_bio_X509s (string_of_bytes payload) = leaf :: pc_intermediates chain /\
    length (pc_intermediates chain) = length bodies /\ isCaCert leaf = false.
Proof.
  assert (parse payload default_limits = Parsed chain) as Ep by (vm_compute; reflexivity).
  destruct (proj1 (parse_accepts_only payload default_limits chain) Ep)
    as [_ [(leaf & n & _ & _ & _ & _ & E)|(leaf & inter & body & bodies & Hb & _ & Hr & Hl & Hc & _ & _ & E)]].
  - discriminate E.
  - exists leaf, body, bodies. rewrite E. cbn [pc_intermediates]. auto.
Defined.

(** Text between the blocks, and a block that does not decode, are refused. *)
Example text_between_blocks_refused :
  parse (bytes_of_string (pem 0 ++ "x" ++ pem 1)) default_limits = Rejected InputFormat.
Proof. reflexivity. Qed.

Lemma canonical_reparse_witness :
  exists chain', parse (bytes_of_string (pem 0 ++ pem 1)) default_limits = Parsed chain' /\
    pc_leaf chain' = pc_leaf chain /\ pc_intermediates chain' = pc_intermediates chain /\
    pc_cert_der_sha256 chain' = pc_cert_der_sha256 chain /\ toPem chain' = Some (pem 0 ++ pem 1)%string.
Proof.
  apply (canonical_reparse payload default_limits chain 0%nat (pem 0 ++ pem 1)).
  - reflexivity.
  - reflexivity.
  - reflexivity.
  - done.
  - reflexivity.
  - vm_compute. discriminate.
Defined.
End CertSample.
