(* ===== verification/HsmProvider.v ===== *)
(** * HsmProvider: the provider of a production vehicle.
    Models [include/hsm_business_key_provider.h], which stands in for a vendor's hardware
    until there is one, and shows that a service over a provider that is never ready refuses
    everything. *)
From S2P Require Import Prelude Errors Canonical KeyTypes Envelope Json Provider Ledger TimeTypes TrustedTime Provisioning Import.

(** [src/include/hsm_business_key_provider.h:78-78] HsmBusinessKeyProvider members *)
Record HsmBusinessKeyProvider := mkHsmProvider { hb_provider_version : string }.

(** [src/include/hsm_business_key_provider.h:21-22] HsmBusinessKeyProvider *)
Definition hsm_provider_new : HsmBusinessKeyProvider := mkHsmProvider "hsm-bk-pending".

(** [src/include/hsm_business_key_provider.h:47-52] querySlot *)
Definition hb_slot : BusinessKeySlotInfo := mkSlotInfo false BKS_UNKNOWN 0 "" "" 0 0 0.

(** Without a vendor's interface nothing can be said about earlier transactions. *)
(** [src/include/hsm_business_key_provider.h:63-68] loadJournalEx *)
Definition hb_journal : JournalLoadResult := mkLoad JLS_IO_ERROR None BUSINESS_KEY_NOT_READY.

(** [loadJournal] answers [false] here as it does in the base class. *)
(** [src/include/hsm_business_key_provider.h:24-75] HsmBusinessKeyProvider operations *)
#[global] Instance HardwareProvider : BusinessKeyProvider HsmBusinessKeyProvider := {|
  bp_initialize p := (SUCCESS, p);
  bp_isReady p := false;
  bp_providerVersionDigest p := hb_provider_version p;
  bp_capability p := BusinessKeyProviderCapability_default;
  bp_unwrapToStaging _ _ _ _ _ _ _ p := ((BUSINESS_KEY_NOT_READY, kcv_zero), p);
  bp_verifyStaging _ _ p := BUSINESS_KEY_NOT_READY;
  bp_commitBatch _ _ p := (BUSINESS_KEY_NOT_READY, p);
  bp_rollbackStaging _ _ p := (BUSINESS_KEY_NOT_READY, p);
  bp_querySlot _ _ p := (BUSINESS_KEY_NOT_READY, hb_slot);
  bp_generateProof _ _ _ _ _ _ _ p := ((BUSINESS_KEY_NOT_READY, [], ""), p);
  bp_loadJournalEx _ p := hb_journal;
  bp_hasTransactionResidue _ p := true;
  bp_storageReplaced p := false;
  bp_saveJournal _ p := (BUSINESS_KEY_NOT_READY, p);
  bp_listJournal p := [];
  bp_hasPendingStaging p := false
|}.

Section Refusal.
Context {P D E : Type} `{Prov : BusinessKeyProvider P} `{Store : LedgerStore D} `{J : Json}
  `{SEnv : ServiceEnv E} `{Hash : Sha256} `{PB : Protobuf} `{EC : EcP256}.
Implicit Types s : Service P D E.

(** The service has not opened the provider, or knows that it is not ready. *)
Definition closed s : Prop :=
  rd_provider_ready (sv_ready s) = false /\ rd_import_ready (sv_ready s) = false.

(** Every entrance but the two status ones is the same refusal, and leaves the service as it is. *)
Record refuses s : Prop := {
  rf_import rid domain items : exists out, import rid domain items s = ((BUSINESS_KEY_NOT_READY, out), s);
  rf_import_kl1 rid domain items ctx :
    exists out attach, importKl1 rid domain items ctx s = ((BUSINESS_KEY_NOT_READY, out, attach), s);
  rf_status domain purposes : getStatus domain purposes s = (BUSINESS_KEY_NOT_READY, []);
  rf_result rid out : exists out', getImportResult rid out s = ((BUSINESS_KEY_NOT_READY, out'), s);
  rf_result_kl1 rid out attach :
    exists out' attach', getImportResultKl1 rid out attach s = ((BUSINESS_KEY_NOT_READY, out', attach'), s);
  rf_not_ready : isReady s = false;
  rf_no_lease : ks_supports_lease_admission (contractSnapshot s) = false /\
    ks_kl1_profile_version (contractSnapshot s) = 0
}.

Lemma closed_refuses s : closed s -> refuses s.
Proof.
  intros [Hp Hi]. split.
  - intros. unfold import. destruct (sv_shutting_down s); [by eexists|].
    destruct (pg_enabled _); cbn; [rewrite Hi; cbn|]; by eexists.
  - intros. unfold importKl1. destruct (sv_shutting_down s); [by do 2 eexists|].
    destruct (pg_enabled _); cbn -[compute_snapshot]; [rewrite Hi; cbn -[compute_snapshot]|];
      by do 2 eexists.
  - intros. unfold getStatus. rewrite Hp, orb_true_r. by destruct (sv_shutting_down s).
  - intros. unfold getImportResult, query_result. rewrite Hp, orb_true_r.
    destruct (sv_shutting_down s); by eexists.
  - intros. unfold getImportResultKl1, query_result. rewrite Hp, orb_true_r.
    destruct (sv_shutting_down s); by do 2 eexists.
  - unfold isReady. by rewrite Hi.
  - unfold contractSnapshot, compute_snapshot. cbn. by rewrite Hi.
Qed.

(** A provider that opens, remembers nothing and is never ready. *)
Record never_ready (p : P) : Prop := {
  nr_initialize : bp_initialize p = (SUCCESS, p);
  nr_not_ready : bp_isReady p = false;
  nr_journal : bp_listJournal p = []
}.

Lemma settle_closed s : bp_isReady (sv_provider s) = false -> closed (settle_readiness s).
Proof.
  intros Hr. unfold settle_readiness. rewrite Hr. destruct (compute_capability s) as [cap s']. by split.
Qed.

Lemma on_ledger_provider {A} (m : st (LedgerState D) A) s : sv_provider (on_ledger m s).2 = sv_provider s.
Proof. unfold on_ledger. by destruct (m _). Qed.

(** However the service is configured and wired, and whatever its ledger and its clock say. *)
Lemma initialize_closed cfg wired p l e nonce :
  never_ready p -> closed (service_initialize (service_new cfg wired p l e nonce)).2.
Proof.
  intros [Hi Hr Hj]. unfold service_initialize. set (s0 := service_new cfg wired p l e nonce).
  destruct (negb (pg_enabled (sv_cfg s0))); [by split|].
  destruct (negb (wi_provider _) || _ || _); [by split|].
  unfold on_provider. change (sv_provider s0) with p. rewrite Hi. cbn [is_success negb].
  set (s1 := sv_with_provider p s0). pose proof (on_ledger_provider ledger_load s1) as Hp.
  destruct (on_ledger ledger_load s1) as [rc s2]. cbn [snd] in Hp.
  destruct (negb (is_success rc)); [by split|]. change (sv_provider s1) with p in Hp.
  unfold recover_on_startup. rewrite Hp, Hj. apply settle_closed. cbn. by rewrite Hp.
Qed.
End Refusal.

Lemma hardware_never_ready p : never_ready (P := HsmBusinessKeyProvider) p.
Proof. by split. Qed.
