(* ===== verification/SecService.v ===== *)
(** * SecService: the security service around the device identity.
    Models [src/sec_service.cpp] / [include/sec_service.h]: seed and key, the
    provisioning of the device certificate, the trust root loader, the publication
    of a chain, and how the key engine, the certificate store and the TLS provider
    are put together. The framework's store, the PROV and DIAG services, the clocks
    and the configuration view are parameters. *)
From S2P Require Import Prelude Errors Canonical Json X509 SoftFile TimeTypes Provider Tls CertStore KeyEngine Csr CertChain CertCheck.

(* --------------------------------------------------------------------- *)
(** ** Types                                                              *)
(* --------------------------------------------------------------------- *)

(** [src/include/sec_service.h:39-46] ProvisionState *)
Inductive ProvisionState := NONE | KEY_GENERATED | CSR_BUILT | CSR_SUBMITTED | CERT_INSTALLED | FAILED.
#[global] Instance ProvisionState_eq_dec : EqDecision ProvisionState.
Proof. solve_decision. Defined.

(** [src/src/sec_service.cpp:1462-1472] provision_state_to_string *)
Definition provision_state_to_string (s : ProvisionState) : string :=
  match s with
  | NONE => "NONE"
  | KEY_GENERATED => "KEY_GENERATED"
  | CSR_BUILT => "CSR_BUILT"
  | CSR_SUBMITTED => "CSR_SUBMITTED"
  | CERT_INSTALLED => "CERT_INSTALLED"
  | FAILED => "FAILED"
  end.

(** [src/src/sec_service.cpp:1474-1482] string_to_provision_state *)
Definition string_to_provision_state (s : string) : ProvisionState :=
  if String.eqb s "NONE" then NONE
  else if String.eqb s "KEY_GENERATED" then KEY_GENERATED
  else if String.eqb s "CSR_BUILT" then CSR_BUILT
  else if String.eqb s "CSR_SUBMITTED" then CSR_SUBMITTED
  else if String.eqb s "CERT_INSTALLED" then CERT_INSTALLED
  else if String.eqb s "FAILED" then FAILED
  else NONE.

(** [last_updated] is a [time_point]. *)
(** [src/include/sec_service.h:51-61] ProvisionStatus *)
Record ProvisionStatus := mkStatus {
  pv_vin : string;
  pv_ecu_uid : string;
  pv_state : ProvisionState;
  pv_last_error : string;
  pv_retry_count : Z;
  pv_last_updated : Z
}.
Definition status_default : ProvisionStatus := mkStatus "" "" NONE "" 0 0.

(** [src/include/diag_service_interface.h:11-20] DiagRequestType *)
Inductive DiagRequestType :=
  | DIAG_GENERATE_KEY_PAIR | DIAG_READ_CSR | DIAG_INJECT_CERTIFICATE | DIAG_READ_PROVISION_STATE
  | DIAG_SUBMIT_CSR | DIAG_APPLY_CERTIFICATE | DIAG_GET_SEED | DIAG_VERIFY_KEY.

(** [src/include/diag_service_interface.h:22-26] DiagResponse *)
Record DiagResponse := mkDiagResponse {
  dr_error_code : ErrorCode;
  dr_data : bytes;
  dr_error_message : string
}.

(** [src/include/prov_service_interface.h:9-12] VehicleInfo *)
Record VehicleInfo := mkVehicleInfo { vi_vin : string; vi_ecu_uid : string }.

(** [src/include/prov_service_interface.h:17-23] DeviceProvisionState *)
Inductive DeviceProvisionState := DPS_UNKNOWN | DPS_NONE | DPS_VIN_WRITTEN | DPS_BOUND | DPS_FAILED.

(** [src/include/prov_service_interface.h:25-34] device_provision_state_to_string *)
Definition device_provision_state_to_string (s : DeviceProvisionState) : string :=
  match s with
  | DPS_NONE => "NONE"
  | DPS_VIN_WRITTEN => "VIN_WRITTEN"
  | DPS_BOUND => "BOUND"
  | DPS_FAILED => "FAILED"
  | DPS_UNKNOWN => "UNKNOWN"
  end.

(** The immutable view of the configuration library. *)
Record ConfigView := mkView {
  cv_has : string -> bool;
  cv_getString : string -> string -> string;
  cv_getBool : string -> bool -> bool;
  cv_getInt : string -> Z -> Z;
  cv_getStringList : string -> list string
}.

(** [src/include/sec_service.h:90-103] TlsProfileConf *)
Record TlsProfileConf := mkTlsProfileConf {
  tpc_enabled : bool;
  tpc_profile_name : string;
  tpc_credential_id : string;
  tpc_key_usage : string;
  tpc_allowed_signature_algorithms : list string;
  tpc_peer_service : string;
  tpc_notify_on_change : bool;
  tpc_ref_ttl_sec : Z;
  tpc_root_ca_source : string
}.

(** The fields the service reads. *)
(** [src/include/sec_service.h:69-107] SecServiceConfig *)
Record SecServiceConfig := mkSecConfig {
  sc_hsm_type : string;
  sc_key_provisioning_mode : string;
  sc_is_production : bool;
  sc_soft_key_path : string;
  sc_soft_key_encryption_key_path : string;
  sc_seed_key_shared_secret : string;
  sc_store_root : string;
  sc_tls_profiles : gmap string TlsProfileConf;
  sc_config_snapshot : option ConfigView
}.

Definition from_snapshot {A} (read : ConfigView -> A) (field : A) (c : SecServiceConfig) : A :=
  match sc_config_snapshot c with Some v => read v | None => field end.

(** [src/include/sec_service.h:110-113] get_hsm_type *)
Definition get_hsm_type (c : SecServiceConfig) : string :=
  from_snapshot (fun v => cv_getString v "hsm.type" "") (sc_hsm_type c) c.
(** [src/include/sec_service.h:120-123] get_key_provisioning_mode *)
Definition get_key_provisioning_mode (c : SecServiceConfig) : string :=
  from_snapshot (fun v => cv_getString v "key_provisioning.mode" "hsm") (sc_key_provisioning_mode c) c.
(** [src/include/sec_service.h:126-129] get_seed_key_shared_secret *)
Definition get_seed_key_shared_secret (c : SecServiceConfig) : string :=
  from_snapshot (fun v => cv_getString v "sec.seed_key.shared_secret" "") (sc_seed_key_shared_secret c) c.
(** [src/include/sec_service.h:131-134] get_is_production *)
Definition get_is_production (c : SecServiceConfig) : bool :=
  from_snapshot (fun v => cv_getBool v "environment.is_production" false) (sc_is_production c) c.
(** [src/include/sec_service.h:139-142] get_tls_dev_peer_service *)
Definition get_tls_dev_peer_service (c : SecServiceConfig) : string :=
  from_snapshot (fun v => cv_getString v "sec.tls.dev_peer_service" "") "" c.
(** [src/include/sec_service.h:159-162] get_soft_key_path *)
Definition get_soft_key_path (c : SecServiceConfig) : string :=
  from_snapshot (fun v => cv_getString v "soft_key.path" "/var/lib/tbox/sec/soft_keys") (sc_soft_key_path c) c.
(** [src/include/sec_service.h:169-172] get_soft_key_encryption_key_path *)
Definition get_soft_key_encryption_key_path (c : SecServiceConfig) : string :=
  from_snapshot (fun v => cv_getString v "soft_key.encryption_key_path" "")
    (sc_soft_key_encryption_key_path c) c.
(** [src/include/sec_service.h:174-184] get_store_root *)
Definition get_store_root (c : SecServiceConfig) : string :=
  match sc_config_snapshot c with
  | Some v =>
      if cv_has v "common.store.root" then cv_getString v "common.store.root" "/var/tbox/sec"
      else if negb (str_empty (sc_store_root c)) then sc_store_root c
      else "/var/tbox/sec"
  | None => if negb (str_empty (sc_store_root c)) then sc_store_root c else "/var/lib/tbox"
  end.

(** [src/include/hsm_interface.h:169-174] HsmType *)
Inductive HsmType := HSM_SOFTWARE | HSM_SOFT_FILE | HSM_PKCS11 | HSM_TRUSTZONE.

(** [src/include/sec_service.h:352-358] SeedState *)
Record SeedState := mkSeedState {
  ss_seed : bytes;
  ss_security_level : Z;
  ss_generated : bool;
  ss_consumed : bool;
  ss_generated_at : Z
}.
Definition seed_default : SeedState := mkSeedState [] 0 false false 0.

(* --------------------------------------------------------------------- *)
(** ** The world                                                          *)
(* --------------------------------------------------------------------- *)

Inductive StoreLoad := LoadOk (v : string) | LoadKeyNotFound | LoadFails.

(** What the service uses besides the HSM and the file system: the framework's store
    ([false] and the two failures are exceptions), the PROV and DIAG services ([None]:
    an exception), the two clocks in nanoseconds, trusted time, the event publisher,
    OpenSSL's path validation, and the constructor of the software HSM. *)
Class SecWorld (W : Type) `{L : X509Lib} := {
  sw_store_ready : W -> bool;
  sw_store_has : string -> W -> bool;
  sw_store_load : string -> W -> StoreLoad;
  sw_store_save : string -> string -> st W bool;
  sw_store_remove : string -> st W bool;
  sw_prov_get_vehicle_info : st W (option (ErrorCode * VehicleInfo));
  sw_prov_get_provision_state : W -> DeviceProvisionState;
  sw_prov_is_connected : W -> bool;
  sw_diag_initialize : st W ErrorCode;
  sw_diag_is_connected : W -> bool;
  sw_diag_send_request_sync : DiagRequestType -> bytes -> st W (ErrorCode * DiagResponse);
  sw_steady_now : st W Z;
  sw_system_now : st W Z;
  sw_trusted_now : st W TrustedTimeSample;
  sw_publish : Z -> string -> W -> W;
  sw_X509_verify_cert : list X509 -> X509 -> list X509 -> W -> bool;
  sw_X509_STORE_new : W -> bool;
  sw_open_soft_file_hsm : string -> string -> string -> st W bool
}.

(** AES-128-ECB on one block without padding; [None] when OpenSSL fails. *)
Class Aes128 := { aes128_ecb : bytes -> bytes -> option bytes }.

(** [localtime_r] with [put_time], and [get_time] with [mktime], in seconds. *)
Class LocalTime := { local_format : Z -> string; local_parse : string -> Z }.

(** A constant [operator[]]: the library documents it for keys that are present. *)
Class JsonConstIndex `{J : Json} := {
  json_at : json -> string -> option json;
  json_at_present j k v : json_get j k = Some v -> json_at j k = Some v
}.

(* --------------------------------------------------------------------- *)
(** ** The service                                                        *)
(* --------------------------------------------------------------------- *)

(** The pointers [csr_builder_] and [cert_validator_] are made at the first use and
    hold nothing but references; they are left out. The TLS provider and the
    certificate store are kept without the world, which they share. *)
(** [src/include/sec_service.h:275-305] SecService members *)
Record SecService (W : Type) `{J : Json} := mkSec {
  sv_config : SecServiceConfig;
  sv_initialized : bool;
  sv_shutting_down : bool;
  sv_has_diag : bool;
  sv_has_prov : bool;
  sv_has_store : bool;
  sv_tls : option (TlsCredentialProvider unit);
  sv_cert_store : option (CertificateStore (F:=unit));
  sv_event_publisher : bool;
  sv_vin : string;
  sv_ecu_uid : string;
  sv_key_engine : option KeyEngine;
  sv_csr_der : bytes;
  sv_seed : SeedState;
  sv_failed_attempts : Z;
  sv_lockout_until : Z;
  sv_in_lockout : bool;
  sv_world : W
}.
Arguments mkSec {W J}.
Arguments sv_config {W J}.
Arguments sv_initialized {W J}.
Arguments sv_shutting_down {W J}.
Arguments sv_has_diag {W J}.
Arguments sv_has_prov {W J}.
Arguments sv_has_store {W J}.
Arguments sv_tls {W J}.
Arguments sv_cert_store {W J}.
Arguments sv_event_publisher {W J}.
Arguments sv_vin {W J}.
Arguments sv_ecu_uid {W J}.
Arguments sv_key_engine {W J}.
Arguments sv_csr_der {W J}.
Arguments sv_seed {W J}.
Arguments sv_failed_attempts {W J}.
Arguments sv_lockout_until {W J}.
Arguments sv_in_lockout {W J}.
Arguments sv_world {W J}.

Section Setters.
Context {W : Type} `{J : Json}.
Implicit Types s : SecService W.
Definition sv_with_config x s : SecService W := mkSec x (sv_initialized s) (sv_shutting_down s)
    (sv_has_diag s) (sv_has_prov s) (sv_has_store s) (sv_tls s) (sv_cert_store s)
    (sv_event_publisher s) (sv_vin s) (sv_ecu_uid s) (sv_key_engine s) (sv_csr_der s) (sv_seed
    s) (sv_failed_attempts s) (sv_lockout_until s) (sv_in_lockout s) (sv_world s).
Definition sv_with_initialized x s : SecService W := mkSec (sv_config s) x (sv_shutting_down s)
    (sv_has_diag s) (sv_has_prov s) (sv_has_store s) (sv_tls s) (sv_cert_store s)
    (sv_event_publisher s) (sv_vin s) (sv_ecu_uid s) (sv_key_engine s) (sv_csr_der s) (sv_seed
    s) (sv_failed_attempts s) (sv_lockout_until s) (sv_in_lockout s) (sv_world s).
Definition sv_with_shutting_down x s : SecService W := mkSec (sv_config s) (sv_initialized s) x
    (sv_has_diag s) (sv_has_prov s) (sv_has_store s) (sv_tls s) (sv_cert_store s)
    (sv_event_publisher s) (sv_vin s) (sv_ecu_uid s) (sv_key_engine s) (sv_csr_der s) (sv_seed
    s) (sv_failed_attempts s) (sv_lockout_until s) (sv_in_lockout s) (sv_world s).
Definition sv_with_has_diag x s : SecService W := mkSec (sv_config s) (sv_initialized s)
    (sv_shutting_down s) x (sv_has_prov s) (sv_has_store s) (sv_tls s) (sv_cert_store s)
    (sv_event_publisher s) (sv_vin s) (sv_ecu_uid s) (sv_key_engine s) (sv_csr_der s) (sv_seed
    s) (sv_failed_attempts s) (sv_lockout_until s) (sv_in_lockout s) (sv_world s).
Definition sv_with_has_prov x s : SecService W := mkSec (sv_config s) (sv_initialized s)
    (sv_shutting_down s) (sv_has_diag s) x (sv_has_store s) (sv_tls s) (sv_cert_store s)
    (sv_event_publisher s) (sv_vin s) (sv_ecu_uid s) (sv_key_engine s) (sv_csr_der s) (sv_seed
    s) (sv_failed_attempts s) (sv_lockout_until s) (sv_in_lockout s) (sv_world s).
Definition sv_with_has_store x s : SecService W := mkSec (sv_config s) (sv_initialized s)
    (sv_shutting_down s) (sv_has_diag s) (sv_has_prov s) x (sv_tls s) (sv_cert_store s)
    (sv_event_publisher s) (sv_vin s) (sv_ecu_uid s) (sv_key_engine s) (sv_csr_der s) (sv_seed
    s) (sv_failed_attempts s) (sv_lockout_until s) (sv_in_lockout s) (sv_world s).
Definition sv_with_tls x s : SecService W := mkSec (sv_config s) (sv_initialized s)
    (sv_shutting_down s) (sv_has_diag s) (sv_has_prov s) (sv_has_store s) x (sv_cert_store s)
    (sv_event_publisher s) (sv_vin s) (sv_ecu_uid s) (sv_key_engine s) (sv_csr_der s) (sv_seed
    s) (sv_failed_attempts s) (sv_lockout_until s) (sv_in_lockout s) (sv_world s).
Definition sv_with_cert_store x s : SecService W := mkSec (sv_config s) (sv_initialized s)
    (sv_shutting_down s) (sv_has_diag s) (sv_has_prov s) (sv_has_store s) (sv_tls s) x
    (sv_event_publisher s) (sv_vin s) (sv_ecu_uid s) (sv_key_engine s) (sv_csr_der s) (sv_seed
    s) (sv_failed_attempts s) (sv_lockout_until s) (sv_in_lockout s) (sv_world s).
Definition sv_with_event_publisher x s : SecService W := mkSec (sv_config s) (sv_initialized s)
    (sv_shutting_down s) (sv_has_diag s) (sv_has_prov s) (sv_has_store s) (sv_tls s)
    (sv_cert_store s) x (sv_vin s) (sv_ecu_uid s) (sv_key_engine s) (sv_csr_der s) (sv_seed s)
    (sv_failed_attempts s) (sv_lockout_until s) (sv_in_lockout s) (sv_world s).
Definition sv_with_vin x s : SecService W := mkSec (sv_config s) (sv_initialized s)
    (sv_shutting_down s) (sv_has_diag s) (sv_has_prov s) (sv_has_store s) (sv_tls s)
    (sv_cert_store s) (sv_event_publisher s) x (sv_ecu_uid s) (sv_key_engine s) (sv_csr_der s)
    (sv_seed s) (sv_failed_attempts s) (sv_lockout_until s) (sv_in_lockout s) (sv_world s).
Definition sv_with_ecu_uid x s : SecService W := mkSec (sv_config s) (sv_initialized s)
    (sv_shutting_down s) (sv_has_diag s) (sv_has_prov s) (sv_has_store s) (sv_tls s)
    (sv_cert_store s) (sv_event_publisher s) (sv_vin s) x (sv_key_engine s) (sv_csr_der s)
    (sv_seed s) (sv_failed_attempts s) (sv_lockout_until s) (sv_in_lockout s) (sv_world s).
Definition sv_with_key_engine x s : SecService W := mkSec (sv_config s) (sv_initialized s)
    (sv_shutting_down s) (sv_has_diag s) (sv_has_prov s) (sv_has_store s) (sv_tls s)
    (sv_cert_store s) (sv_event_publisher s) (sv_vin s) (sv_ecu_uid s) x (sv_csr_der s) (sv_seed
    s) (sv_failed_attempts s) (sv_lockout_until s) (sv_in_lockout s) (sv_world s).
Definition sv_with_csr_der x s : SecService W := mkSec (sv_config s) (sv_initialized s)
    (sv_shutting_down s) (sv_has_diag s) (sv_has_prov s) (sv_has_store s) (sv_tls s)
    (sv_cert_store s) (sv_event_publisher s) (sv_vin s) (sv_ecu_uid s) (sv_key_engine s) x
    (sv_seed s) (sv_failed_attempts s) (sv_lockout_until s) (sv_in_lockout s) (sv_world s).
Definition sv_with_seed x s : SecService W := mkSec (sv_config s) (sv_initialized s)
    (sv_shutting_down s) (sv_has_diag s) (sv_has_prov s) (sv_has_store s) (sv_tls s)
    (sv_cert_store s) (sv_event_publisher s) (sv_vin s) (sv_ecu_uid s) (sv_key_engine s)
    (sv_csr_der s) x (sv_failed_attempts s) (sv_lockout_until s) (sv_in_lockout s) (sv_world s).
Definition sv_with_failed_attempts x s : SecService W := mkSec (sv_config s) (sv_initialized s)
    (sv_shutting_down s) (sv_has_diag s) (sv_has_prov s) (sv_has_store s) (sv_tls s)
    (sv_cert_store s) (sv_event_publisher s) (sv_vin s) (sv_ecu_uid s) (sv_key_engine s)
    (sv_csr_der s) (sv_seed s) x (sv_lockout_until s) (sv_in_lockout s) (sv_world s).
Definition sv_with_lockout_until x s : SecService W := mkSec (sv_config s) (sv_initialized s)
    (sv_shutting_down s) (sv_has_diag s) (sv_has_prov s) (sv_has_store s) (sv_tls s)
    (sv_cert_store s) (sv_event_publisher s) (sv_vin s) (sv_ecu_uid s) (sv_key_engine s)
    (sv_csr_der s) (sv_seed s) (sv_failed_attempts s) x (sv_in_lockout s) (sv_world s).
Definition sv_with_in_lockout x s : SecService W := mkSec (sv_config s) (sv_initialized s)
    (sv_shutting_down s) (sv_has_diag s) (sv_has_prov s) (sv_has_store s) (sv_tls s)
    (sv_cert_store s) (sv_event_publisher s) (sv_vin s) (sv_ecu_uid s) (sv_key_engine s)
    (sv_csr_der s) (sv_seed s) (sv_failed_attempts s) (sv_lockout_until s) x (sv_world s).
Definition sv_with_world x s : SecService W := mkSec (sv_config s) (sv_initialized s)
    (sv_shutting_down s) (sv_has_diag s) (sv_has_prov s) (sv_has_store s) (sv_tls s)
    (sv_cert_store s) (sv_event_publisher s) (sv_vin s) (sv_ecu_uid s) (sv_key_engine s)
    (sv_csr_der s) (sv_seed s) (sv_failed_attempts s) (sv_lockout_until s) (sv_in_lockout s) x.
End Setters.

(** The environment of the TLS provider: the world, with what the two resolvers and
    the callback read from the service. *)
(** [src/src/sec_service.cpp:1586-1622] initializeTlsCredentialProvider resolvers *)
Record TlsWorld (W : Type) := mkTlsWorld {
  tw_ecu_uid : string;
  tw_has_store : bool;
  tw_chain : string;
  tw_event_publisher : bool;
  tw_world : W
}.
Arguments mkTlsWorld {W}. Arguments tw_ecu_uid {W}. Arguments tw_has_store {W}.
Arguments tw_chain {W}. Arguments tw_event_publisher {W}. Arguments tw_world {W}.

Definition TLS_CREDENTIAL_CHANGED : Z := 1.

Section Service.
Context {W : Type} `{L : X509Lib} `{World : !SecWorld W} `{Hsm : !HsmInterface W} `{FS : !FileSystem W}
  `{Crypto : SoftFileCrypto} `{Hash : Sha256} `{J : Json} `{JC : !JsonConstIndex} `{Aes : Aes128}
  `{LT : LocalTime} `{Ec : EcPoints}.
Implicit Types s : SecService W.

(** Run an operation of the world. *)
Definition on_world {A} (m : st W A) : st (SecService W) A := fun s =>
  let '(a, w) := m (sv_world s) in (a, sv_with_world w s).

(** [store_.has_value() && store_->isReady()]. *)
Definition store_usable s : bool := sv_has_store s && sw_store_ready (sv_world s).

(* --------------------------------------------------------------------- *)
(** ** Provision status                                                   *)
(* --------------------------------------------------------------------- *)

(** [src/src/sec_service.cpp:1484-1500] to_json *)
Definition status_to_json (p : ProvisionStatus) : json :=
  json_of_fields [
    ("vin"%string, json_string (pv_vin p));
    ("ecu_uid"%string, json_string (pv_ecu_uid p));
    ("state"%string, json_string (provision_state_to_string (pv_state p)));
    ("last_error"%string, json_string (pv_last_error p));
    ("retry_count"%string, json_int (pv_retry_count p));
    ("last_updated"%string, json_string (local_format (Z.quot (pv_last_updated p) 1000000000)))].

(** [None]: an accessor threw. *)
(** [src/src/sec_service.cpp:1502-1517] from_json *)
Definition status_from_json (j : json) : option ProvisionStatus :=
  vin ← json_at j "vin" ≫= as_string;
  ecu_uid ← json_at j "ecu_uid" ≫= as_string;
  state ← json_at j "state" ≫= as_string;
  last_error ← json_at j "last_error" ≫= as_string;
  retry_count ← json_at j "retry_count" ≫= as_int;
  time_str ← json_at j "last_updated" ≫= as_string;
  Some (mkStatus vin ecu_uid (string_to_provision_state state) last_error (wrap_i32 retry_count)
    (local_parse time_str * 1000000000)).

(** [src/src/sec_service.cpp:1433-1460] load_provision_status_from_store *)
Definition load_provision_status_from_store s : ProvisionStatus :=
  if negb (store_usable s) then status_default else
  match sw_store_load "provision_state" (sv_world s) with
  | LoadOk str =>
      match json_parse str with
      | Some j => default status_default (status_from_json j)
      | None => status_default
      end
  | _ => status_default
  end.

(** An exception of the store is logged. *)
(** [src/src/sec_service.cpp:1419-1431] save_provision_status_to_store *)
Definition save_provision_status_to_store (p : ProvisionStatus) s : SecService W :=
  if negb (store_usable s) then s
  else (on_world (sw_store_save "provision_state" (json_dump (status_to_json p))) s).2.

(** [src/src/sec_service.cpp:667-688] get_provision_status *)
Definition get_provision_status s : ProvisionStatus :=
  if store_usable s then
    let status := load_provision_status_from_store s in
    if negb (bool_decide (pv_state status = NONE)) || negb (str_empty (pv_vin status)) then status
    else if sw_store_has "provision_state" (sv_world s) then status
    else status_default
  else status_default.

(** [src/src/sec_service.cpp:1237-1255] update_provision_state *)
Definition update_provision_state (state : ProvisionState) (error : string) s : SecService W :=
  let status := get_provision_status s in
  let '(now, s) := on_world sw_system_now s in
  let retry := match state with FAILED => pv_retry_count status + 1 | _ => pv_retry_count status end in
  let status := mkStatus (pv_vin status) (pv_ecu_uid status) state error retry now in
  if store_usable s then save_provision_status_to_store status s else s.

(** [src/src/sec_service.cpp:1257-1259] handle_error *)
Definition handle_error (error : ErrorCode) (context : string) s : SecService W :=
  update_provision_state FAILED (context ++ ": " ++ error_code_to_string error) s.

(** [src/src/sec_service.cpp:803-819] load_provision_state_from_store *)
Definition load_provision_state_from_store s : ErrorCode := SUCCESS.

(** [src/src/sec_service.cpp:1269-1285] save_state *)
Definition save_state : st (SecService W) bool := fun s =>
  if store_usable s then (true, save_provision_status_to_store (get_provision_status s) s)
  else (false, s).

(** [src/src/sec_service.cpp:700-719] reset_provision_status *)
Definition reset_provision_status : st (SecService W) ErrorCode := fun s =>
  if negb (sv_initialized s) then (NOT_INITIALIZED, s) else
  let s := if store_usable s then (on_world (sw_store_remove "provision_state") s).2 else s in
  (SUCCESS, sv_with_csr_der [] s).

(* --------------------------------------------------------------------- *)
(** ** Vehicle information and the device key                             *)
(* --------------------------------------------------------------------- *)

(** [src/src/sec_service.cpp:821-859] ensure_vehicle_info *)
Definition ensure_vehicle_info : st (SecService W) ErrorCode := fun s =>
  if negb (str_empty (sv_vin s)) && negb (str_empty (sv_ecu_uid s)) then (SUCCESS, s) else
  if negb (sv_has_prov s) then (PROV_NOT_CONFIGURED, s) else
  let '(r, s) := on_world sw_prov_get_vehicle_info s in
  match r with
  | None => (PROV_NOT_CONFIGURED, s)
  | Some (result, info) =>
      if negb (is_success result) then (result, s) else
      if str_empty (vi_vin info) || str_empty (vi_ecu_uid info) then (PROV_NOT_CONFIGURED, s) else
      (SUCCESS, sv_with_ecu_uid (vi_ecu_uid info) (sv_with_vin (vi_vin info) s))
  end.

(** [src/src/sec_service.cpp:904-906] device_key_present *)
Definition device_key_present s : bool :=
  match sv_key_engine s with
  | Some k => device_key_exists k (sv_ecu_uid s) (sv_ecu_uid s) (sv_world s)
  | None => false
  end.

(** The engine exists once the service is initialized. *)
Definition engine s : KeyEngine := default (mkKeyEngine false false) (sv_key_engine s).

(** [src/src/sec_service.cpp:861-885] generate_and_store_key_pair *)
Definition generate_and_store_key_pair : st (SecService W) ErrorCode := fun s =>
  let '((err, _), s) := on_world (generate_device_key (engine s) (sv_ecu_uid s) (sv_ecu_uid s)) s in
  (err, s).

(** [src/src/sec_service.cpp:887-902] export_private_key *)
Definition export_private_key : st (SecService W) (ErrorCode * bytes) := fun s =>
  if negb (sv_initialized s) then ((NOT_INITIALIZED, []), s) else
  let '(rc, s) := ensure_vehicle_info s in
  if negb (is_success rc) then ((rc, []), s) else
  if negb (device_key_present s) then ((KEY_NOT_FOUND, []), s) else
  (export_device_private_key (engine s) (sv_ecu_uid s) (sv_ecu_uid s) (sv_world s), s).

(** [src/src/sec_service.cpp:1403-1415] handle_diag_request *)
Definition handle_diag_request (t : DiagRequestType) (data : bytes) :
    st (SecService W) (ErrorCode * DiagResponse) := fun s =>
  let none := mkDiagResponse SUCCESS [] "" in
  if negb (sv_has_diag s) then ((NOT_INITIALIZED, none), s) else
  if negb (sw_diag_is_connected (sv_world s)) then ((CONNECTION_FAILED, none), s) else
  on_world (sw_diag_send_request_sync t data) s.

(* --------------------------------------------------------------------- *)
(** ** Key pair and certificate request                                   *)
(* --------------------------------------------------------------------- *)

(** A step that the diagnostic service carries out: its failure is an error of the
    service, its answer moves the state. *)
(** [src/src/sec_service.cpp:228-240] generate_key_pair via DIAG *)
Definition via_diag (t : DiagRequestType) (data : bytes) (context : string) (next : ProvisionState) :
    st (SecService W) ErrorCode := fun s =>
  let '((result, response), s) := handle_diag_request t data s in
  if negb (is_success result) then (result, handle_error result context s) else
  (dr_error_code response,
   if is_success (dr_error_code response) then update_provision_state next "" s else s).

(** [src/src/sec_service.cpp:199-267] generate_key_pair *)
Definition generate_key_pair : st (SecService W) ErrorCode := fun s =>
  if negb (sv_initialized s) then (NOT_INITIALIZED, s) else
  if sv_shutting_down s then (NOT_INITIALIZED, s) else
  let '(rc, s) := ensure_vehicle_info s in
  if negb (is_success rc) then (rc, s) else
  let status := get_provision_status s in
  if negb (bool_decide (pv_state status = NONE)) && negb (bool_decide (pv_state status = FAILED))
     && device_key_present s then (SUCCESS, s) else
  if sv_has_diag s
  then via_diag DIAG_GENERATE_KEY_PAIR [] "Key pair generation via DIAG failed" KEY_GENERATED s else
  let '(result, s) := generate_and_store_key_pair s in
  if negb (is_success result) then (result, handle_error result "Key pair generation failed" s) else
  (SUCCESS, update_provision_state KEY_GENERATED "" s).

(** The request goes to [csr_der_], also when building it fails. *)
(** [src/src/sec_service.cpp:908-948] build_and_store_csr *)
Definition build_and_store_csr : st (SecService W) ErrorCode := fun s =>
  let csr_config := mkCsrConfig (sv_ecu_uid s) (sv_ecu_uid s) "ecdsa-p256" in
  let '((result, csr), s) := on_world (build_csr (engine s) csr_config) s in
  (result, sv_with_csr_der csr s).

(** [src/src/sec_service.cpp:269-308] get_csr *)
Definition get_csr : st (SecService W) (ErrorCode * bytes) := fun s =>
  if negb (sv_initialized s) then ((NOT_INITIALIZED, []), s) else
  let '(rc, s) := ensure_vehicle_info s in
  if negb (is_success rc) then ((rc, []), s) else
  let status := get_provision_status s in
  if bool_decide (pv_state status = NONE) then ((KEY_NOT_FOUND, []), s) else
  if bool_decide (pv_state status = KEY_GENERATED) || bytes_empty (sv_csr_der s) then
    let '(result, s) := build_and_store_csr s in
    if negb (is_success result) then ((result, []), handle_error result "CSR building failed" s) else
    let s := update_provision_state CSR_BUILT "" s in
    ((SUCCESS, sv_csr_der s), s)
  else ((SUCCESS, sv_csr_der s), s).

(** [src/src/sec_service.cpp:310-350] submit_csr *)
Definition submit_csr : st (SecService W) ErrorCode := fun s =>
  if negb (sv_initialized s) then (NOT_INITIALIZED, s) else
  if sv_shutting_down s then (NOT_INITIALIZED, s) else
  let '(rc, s) := ensure_vehicle_info s in
  if negb (is_success rc) then (rc, s) else
  let status := get_provision_status s in
  if negb (bool_decide (pv_state status = CSR_BUILT)) then (INVALID_PARAMETER, s) else
  if sv_has_diag s
  then via_diag DIAG_SUBMIT_CSR [] "CSR submission via DIAG failed" CSR_SUBMITTED s
  else (NOT_IMPLEMENTED, s).

(* --------------------------------------------------------------------- *)
(** ** The TLS provider and the certificate store of the service          *)
(* --------------------------------------------------------------------- *)

(** [src/src/sec_service.cpp:1623-1628] initializeTlsCredentialProvider, payload of an event *)
Definition changed_payload (ev : TlsCredentialChangedEvent) : json := json_of_fields [
  ("profile"%string, json_string (ev_profile ev));
  ("credential_id"%string, json_string (ev_credential_id ev));
  ("version"%string, json_int (ev_version ev));
  ("status"%string, json_string (tls_credential_status_to_string (ev_status ev)));
  ("reason_code"%string, json_int (ev_reason_code ev))].

#[global] Instance tls_world_env : TlsEnv (TlsWorld W) := {|
  tls_key_id e := make_key_id (tw_ecu_uid e) (tw_ecu_uid e);
  tls_material key e :=
    if String.eqb key "device_cert_chain" then tw_chain e
    else if negb (String.eqb key "root_ca") then ""
    else if negb (tw_has_store e && sw_store_ready (tw_world e)) then ""
    else if negb (sw_store_has key (tw_world e)) then ""
    else match sw_store_load key (tw_world e) with LoadOk v => v | _ => "" end;
  tls_key_exists id e := hsm_key_exists id (tw_world e);
  tls_export_public_key id e := hsm_export_public_key id (tw_world e);
  tls_sign_digest id d e :=
    let '(r, w) := hsm_sign_digest id d (tw_world e) in
    (r, mkTlsWorld (tw_ecu_uid e) (tw_has_store e) (tw_chain e) (tw_event_publisher e) w);
  tls_time e :=
    let '(t, w) := sw_system_now (tw_world e) in
    (Z.quot t 1000000000, mkTlsWorld (tw_ecu_uid e) (tw_has_store e) (tw_chain e) (tw_event_publisher e) w);
  tls_RAND_bytes n e :=
    let '(b, w) := fs_RAND_bytes n (tw_world e) in
    (b, mkTlsWorld (tw_ecu_uid e) (tw_has_store e) (tw_chain e) (tw_event_publisher e) w);
  tls_notify profile ev e :=
    if negb (tw_event_publisher e) then e else
    mkTlsWorld (tw_ecu_uid e) (tw_has_store e) (tw_chain e) (tw_event_publisher e)
      (sw_publish TLS_CREDENTIAL_CHANGED (json_dump (changed_payload ev)) (tw_world e));
  tls_store_new e := sw_X509_STORE_new (tw_world e);
  X509_verify_cert roots leaf chain e := sw_X509_verify_cert roots leaf chain (tw_world e)
|}.

(** The chain of the current generation; empty without a store. *)
Definition current_chain s : string :=
  match sv_cert_store s with Some c => currentDeviceCertChain c | None => "" end.

Definition tls_env_of s : TlsWorld W :=
  mkTlsWorld (sv_ecu_uid s) (sv_has_store s) (current_chain s) (sv_event_publisher s) (sv_world s).

Definition tls_attach {E E'} (e : E') (p : TlsCredentialProvider E) : TlsCredentialProvider E' :=
  mkTls (tp_has_key_id_resolver p) (tp_has_material_resolver p) (tp_has_notify p) (tp_profiles p)
    (tp_process_key p) (tp_boot_epoch p) e.

(** Run an operation of the TLS provider on the world of the service. *)
Definition on_tls {A} (m : st (TlsCredentialProvider (TlsWorld W)) A) (p : TlsCredentialProvider unit) :
    st (SecService W) A := fun s =>
  let '(a, q) := m (tls_attach (tls_env_of s) p) in
  (a, sv_with_tls (Some (tls_attach tt q)) (sv_with_world (tw_world (tp_env q)) s)).

Definition cert_attach {F F'} (f : F') (c : CertificateStore (F:=F)) : CertificateStore (F:=F') :=
  mkCertStore (ct_root c) (ct_current c) (ct_recovered c) f.

(** Run an operation of the certificate store on the world of the service. *)
Definition on_cert_store {A} (m : CertificateStore (F:=W) -> A * CertificateStore (F:=W))
    (c : CertificateStore (F:=unit)) : st (SecService W) A := fun s =>
  let '(a, c) := m (cert_attach (sv_world s) c) in
  (a, sv_with_cert_store (Some (cert_attach tt c)) (sv_with_world (ct_fs c) s)).

(* --------------------------------------------------------------------- *)
(** ** Installing a certificate                                           *)
(* --------------------------------------------------------------------- *)

(** [src/src/sec_service.cpp:1105-1156] rejectRootInjectedIntoChain *)
Definition rejectRootInjectedIntoChain (chain : ParsedCertificateChain) s : ErrorCode :=
  if negb (store_usable s) || negb (sw_store_has "root_ca" (sv_world s)) then SUCCESS else
  match sw_store_load "root_ca" (sv_world s) with
  | LoadOk root_pem =>
      if str_empty root_pem then SUCCESS else
      let ders := filter (fun d => d <> []) (i2d_X509 <$> PEM_read_bio_X509s root_pem) in
      let root_digests := SHA256 <$> ders in
      if existsb (fun d => bool_decide (d ∈ root_digests)) (pc_cert_der_sha256 chain)
      then CERT_VALIDATION_FAILED else SUCCESS
  | _ => SUCCESS
  end.

(** The device certificate record. *)
(** [src/src/sec_service.cpp:1064-1070] publishDeviceCertChain record *)
Definition device_cert_json (vin ecu_uid new_digest : string) (version : Z) : json :=
  json_of_fields [
    ("cert_id"%string, json_string (vin ++ ":" ++ ecu_uid));
    ("bound_vin"%string, json_string vin);
    ("bound_ecu_uid"%string, json_string ecu_uid);
    ("status"%string, json_string "ACTIVE");
    ("version"%string, json_int version);
    ("cert_sha256"%string, json_string new_digest)].

(** [src/src/sec_service.cpp:1061-1076] publishDeviceCertChain commit *)
Definition certificate_commit (canonical_pem : string) (c : CertificateStore (F:=unit)) s :
    CertificateCommit :=
  let version := match currentSnapshot c with Some snap => wrapu 64 (sn_version snap + 1) | None => 1 end in
  mkCommit canonical_pem
    (json_dump (device_cert_json (sv_vin s) (sv_ecu_uid s) (sha256Hex canonical_pem) version))
    (provision_state_to_string CERT_INSTALLED) version.

(** [rotateCredential("mqtt")], whose failure is logged. *)
(** [src/src/sec_service.cpp:1089-1097] publishDeviceCertChain reload *)
Definition reload_mqtt s : SecService W :=
  match sv_tls s with
  | None => s
  | Some p => (on_tls (rotateCredential "mqtt") p s).2
  end.

(** [None] when an exception of the certificate store left the function. *)
(** [src/src/sec_service.cpp:1033-1099] publishDeviceCertChain *)
Definition publishDeviceCertChain (canonical_pem : string) : st (SecService W) (option ErrorCode) := fun s =>
  match sv_cert_store s with
  | None => (Some STORAGE_WRITE_FAILED, s)
  | Some c =>
      let new_digest := sha256Hex canonical_pem in
      let cur_digest := currentChainDigest c in
      if negb (str_empty cur_digest) && String.eqb cur_digest new_digest then (Some SUCCESS, s) else
      let '(rc, s) := on_cert_store (commit (certificate_commit canonical_pem c s)) c s in
      match rc with
      | None => (None, s)
      | Some rc => if negb (is_success rc) then (Some rc, s) else (Some SUCCESS, reload_mqtt s)
      end
  end.

(** [src/src/sec_service.cpp:950-1027] validate_and_store_certificate *)
Definition validate_and_store_certificate (payload : bytes) : st (SecService W) (option ErrorCode) := fun s =>
  match parse payload default_limits with
  | Rejected _ => (Some CERT_VALIDATION_FAILED, s)
  | Parsed chain =>
      let root_rc := rejectRootInjectedIntoChain chain s in
      if negb (is_success root_rc) then (Some root_rc, s) else
      match pc_leaf chain with
      | None => (Some CERT_VALIDATION_FAILED, s)
      | Some leaf =>
          let '((result, valid), s) :=
            on_world (fun w => validate_certificate sw_trusted_now (engine s) (sv_ecu_uid s) leaf w w) s in
          if negb (is_success result) then (Some result, s) else
          if negb valid then (Some CERT_KEY_MISMATCH, s) else
          match toPem chain with
          | None => (Some CERT_INSTALL_FAILED, s)
          | Some pem => publishDeviceCertChain pem s
          end
      end
  end.

(** [src/src/sec_service.cpp:1287-1303] store_certificate *)
Definition store_certificate (payload : bytes) : st (SecService W) (option ErrorCode) := fun s =>
  match parse payload default_limits with
  | Rejected _ => (Some CERT_INSTALL_FAILED, s)
  | Parsed chain =>
      let root_rc := rejectRootInjectedIntoChain chain s in
      if negb (is_success root_rc) then (Some root_rc, s) else
      match toPem chain with
      | None => (Some CERT_INSTALL_FAILED, s)
      | Some pem => publishDeviceCertChain pem s
      end
  end.

(** [src/src/sec_service.cpp:353-427] inject_certificate *)
Definition inject_certificate (cert_der : bytes) : st (SecService W) (option ErrorCode) := fun s =>
  if negb (sv_initialized s) then (Some NOT_INITIALIZED, s) else
  if sv_shutting_down s then (Some NOT_INITIALIZED, s) else
  let '(rc, s) := ensure_vehicle_info s in
  if negb (is_success rc) then (Some rc, s) else
  let status := get_provision_status s in
  let retry_after_failure := bool_decide (pv_state status = FAILED) && device_key_present s in
  if negb (bool_decide (pv_state status = CSR_BUILT)) && negb (bool_decide (pv_state status = CSR_SUBMITTED))
     && negb retry_after_failure then (Some INVALID_PARAMETER, s) else
  if sv_has_diag s then
    let '(rc, s) := via_diag DIAG_INJECT_CERTIFICATE cert_der "Certificate injection via DIAG failed"
      CERT_INSTALLED s in (Some rc, s)
  else
    let '(result, s) := validate_and_store_certificate cert_der s in
    match result with
    | None => (None, s)
    | Some result =>
        if negb (is_success result) then (Some result, handle_error result "Certificate injection failed" s)
        else (Some SUCCESS, update_provision_state CERT_INSTALLED "" s)
    end.

(** The three steps of an application that the service carries out itself. *)
(** [src/src/sec_service.cpp:474-518] apply_certificate steps *)
Definition apply_steps (state : ProvisionState) : st (SecService W) ErrorCode := fun s =>
  let '(rc, state, s) :=
    if bool_decide (state = NONE) then
      let '(result, s) := generate_key_pair s in (result, KEY_GENERATED, s)
    else (SUCCESS, state, s) in
  if negb (is_success rc) then (rc, s) else
  let '(rc, state, s) :=
    if bool_decide (state = KEY_GENERATED) then
      let '((result, _), s) := get_csr s in (result, CSR_BUILT, s)
    else (SUCCESS, state, s) in
  if negb (is_success rc) then (rc, s) else
  if bool_decide (state = CSR_BUILT) then submit_csr s else (SUCCESS, s).

(** [src/src/sec_service.cpp:429-519] apply_certificate *)
Definition apply_certificate : st (SecService W) ErrorCode := fun s =>
  if negb (sv_initialized s) then (NOT_INITIALIZED, s) else
  if sv_shutting_down s then (NOT_INITIALIZED, s) else
  let status := get_provision_status s in
  if bool_decide (pv_state status = CERT_INSTALLED) then (SUCCESS, s) else
  let '(state, s) :=
    if bool_decide (pv_state status = FAILED) then
      let reset := mkStatus (pv_vin status) (pv_ecu_uid status) NONE "" 0 (pv_last_updated status) in
      (NONE, if store_usable s then save_provision_status_to_store reset s else s)
    else (pv_state status, s) in
  if sv_has_diag s then
    let '((result, response), s) := handle_diag_request DIAG_APPLY_CERTIFICATE [] s in
    if negb (is_success result)
    then (result, handle_error result "Certificate application via DIAG failed" s)
    else (dr_error_code response, s)
  else apply_steps state s.

(* --------------------------------------------------------------------- *)
(** ** Seed and key                                                       *)
(* --------------------------------------------------------------------- *)

Definition SEED_KEY_SIZE : nat := 16.
Definition MAX_FAILED_ATTEMPTS : Z := 3.
Definition LOCKOUT_DURATION_SEC : Z := 10.
Definition SEED_VALIDITY_SEC : Z := 30.
Definition ns_per_sec : Z := 1000000000.

(** The shared secret: 32 hexadecimal digits, decoded like [hexToBytes]. *)
(** [src/src/sec_service.cpp:42-59] decodeHexSecret *)
Definition decodeHexSecret (hex : string) : option bytes :=
  if negb (str_size hex =? 32) then None else
  match hex_loop hex [] with (true, out) => Some out | _ => None end.

(** [src/src/sec_service.cpp:1305-1314] generate_random_seed *)
Definition generate_random_seed : st (SecService W) (option bytes) := on_world (fs_RAND_bytes SEED_KEY_SIZE).

(** [src/src/sec_service.cpp:1316-1353] compute_expected_key *)
Definition compute_expected_key (seed : bytes) s : ErrorCode * bytes :=
  if negb (length seed =? SEED_KEY_SIZE)%nat then (INVALID_PARAMETER, []) else
  match decodeHexSecret (get_seed_key_shared_secret (sv_config s)) with
  | None => (KEY_VERIFICATION_FAILED, [])
  | Some shared_secret =>
      match aes128_ecb shared_secret seed with
      | Some key => (SUCCESS, key)
      | None => (KEY_VERIFICATION_FAILED, [])
      end
  end.

(** [src/src/sec_service.cpp:1355-1365] is_seed_valid *)
Definition is_seed_valid : st (SecService W) bool := fun s =>
  let seed := sv_seed s in
  if negb (ss_generated seed) || ss_consumed seed then (false, s) else
  let '(now, s) := on_world sw_steady_now s in
  (Z.quot (now - ss_generated_at seed) ns_per_sec <? SEED_VALIDITY_SEC, s).

(** [src/src/sec_service.cpp:1367-1371] invalidate_seed *)
Definition invalidate_seed s : SecService W :=
  let seed := sv_seed s in
  sv_with_seed (mkSeedState (replicate (length (ss_seed seed)) x00) (ss_security_level seed)
    (ss_generated seed) true (ss_generated_at seed)) s.

(** [src/src/sec_service.cpp:1373-1385] is_in_lockout *)
Definition is_in_lockout : st (SecService W) bool := fun s =>
  if negb (sv_in_lockout s) then (false, s) else
  let '(now, s) := on_world sw_steady_now s in
  (negb (now >=? sv_lockout_until s), s).

(** [src/src/sec_service.cpp:1387-1396] increment_failed_attempts *)
Definition increment_failed_attempts s : SecService W :=
  let s := sv_with_failed_attempts (sv_failed_attempts s + 1) s in
  if sv_failed_attempts s >=? MAX_FAILED_ATTEMPTS then
    let s := sv_with_in_lockout true s in
    let '(now, s) := on_world sw_steady_now s in
    let s := sv_with_lockout_until (now + LOCKOUT_DURATION_SEC * ns_per_sec) s in
    sv_with_failed_attempts 0 s
  else s.

(** [src/src/sec_service.cpp:1398-1401] reset_failed_attempts *)
Definition reset_failed_attempts s : SecService W :=
  sv_with_in_lockout false (sv_with_failed_attempts 0 s).

(** [level] is a [uint8_t]; the seed is meaningful only with [SUCCESS]. *)
(** [src/src/sec_service.cpp:521-576] get_seed *)
Definition get_seed (level : Z) : st (SecService W) (ErrorCode * bytes) := fun s =>
  if negb (sv_initialized s) then ((NOT_INITIALIZED, []), s) else
  if sv_shutting_down s then ((NOT_INITIALIZED, []), s) else
  if (Z.land level 1 =? 0) || (level =? 0) then ((INVALID_PARAMETER, []), s) else
  let '(locked, s) := is_in_lockout s in
  if locked then ((UDS_SECURITY_DENIED, []), s) else
  let '(r, s) := generate_random_seed s in
  match r with
  | None =>
      ((SEED_GENERATION_FAILED, []), handle_error SEED_GENERATION_FAILED "Seed generation failed" s)
  | Some seed =>
      let '(now, s) := on_world sw_steady_now s in
      ((SUCCESS, seed), sv_with_seed (mkSeedState seed level true false now) s)
  end.

(** The comparison is [constantTimeEqual]: the sizes, then the disjunction of the
    differences. *)
(** [src/src/sec_service.cpp:578-665] verify_key *)
Definition verify_key (level : Z) (key : bytes) : st (SecService W) ErrorCode := fun s =>
  if negb (sv_initialized s) then (NOT_INITIALIZED, s) else
  if sv_shutting_down s then (NOT_INITIALIZED, s) else
  if negb (Z.land level 1 =? 0) || (level =? 0) then (INVALID_PARAMETER, s) else
  let '(locked, s) := is_in_lockout s in
  if locked then (UDS_SECURITY_DENIED, s) else
  let '(ok, s) := is_seed_valid s in
  if negb ok then (KEY_VERIFICATION_FAILED, s) else
  if negb (level =? ss_security_level (sv_seed s) + 1) then (INVALID_PARAMETER, s) else
  let '(result, expected_key) := compute_expected_key (ss_seed (sv_seed s)) s in
  if negb (is_success result) then
    (KEY_VERIFICATION_FAILED, handle_error result "Key computation failed" s) else
  if constantTimeEqual key expected_key then
    (SUCCESS, reset_failed_attempts (invalidate_seed s))
  else (KEY_VERIFICATION_FAILED, invalidate_seed (increment_failed_attempts s)).

(* --------------------------------------------------------------------- *)
(** ** Start and stop                                                     *)
(* --------------------------------------------------------------------- *)

(** The hardware back ends always throw. *)
(** [src/src/hsm_interface.cpp:19-49] create *)
Definition HsmFactory_create (t : HsmType) (config_path store_root enc_key_path : string) : st W bool :=
  match t with
  | HSM_SOFTWARE | HSM_SOFT_FILE =>
      let root := if negb (str_empty store_root) then store_root else config_path in
      let kek_path :=
        if negb (str_empty enc_key_path) then enc_key_path
        else ((if str_empty root then "/var/lib/tbox/sec/soft_keys" else root) ++ "/" ++ ".soft_kek")%string in
      sw_open_soft_file_hsm root "aes-256-gcm" kek_path
  | HSM_PKCS11 | HSM_TRUSTZONE => fun w => (false, w)
  end.

Definition use_software_hsm (c : SecServiceConfig) : bool :=
  String.eqb (get_key_provisioning_mode c) "soft_file" || String.eqb (get_hsm_type c) "software".

(** [src/src/sec_service.cpp:745-801] initialize_hsm *)
Definition initialize_hsm : st (SecService W) ErrorCode := fun s =>
  let c := sv_config s in
  let start t config_path enc s :=
    let '(made, s) := on_world (HsmFactory_create t config_path (get_store_root c) enc) s in
    if negb made then (HSM_INIT_FAILED, s) else
    let '(rc, k, w) := ke_initialize (key_engine_new true) (sv_world s) in
    (rc, sv_with_key_engine (Some k) (sv_with_world w s)) in
  if use_software_hsm c then
    if get_is_production c then (SOFT_KEY_MODE_NOT_ALLOWED, s) else
    let store_root := get_store_root c in
    let config_path := if str_empty store_root then get_soft_key_path c else store_root in
    let enc := get_soft_key_encryption_key_path c in
    let enc := if str_empty enc then
        ((if str_empty store_root then "/var/lib/tbox/sec/soft_keys" else store_root) ++ "/" ++ ".soft_kek")%string
      else enc in
    start HSM_SOFT_FILE config_path enc s
  else if String.eqb (get_hsm_type c) "pkcs11" then start HSM_PKCS11 "" "" s
  else if String.eqb (get_hsm_type c) "trustzone" then start HSM_TRUSTZONE "" "" s
  else (INVALID_PARAMETER, s).

(** [src/src/sec_service.cpp:1165-1175] initializeCaMaterialLoader source *)
Definition root_ca_source (c : SecServiceConfig) : string :=
  match sc_config_snapshot c with
  | Some v => cv_getString v "sec.tls.profiles.mqtt.root_ca_source" "/usr/share/tbox/sec/trust/mqtt-root-ca.pem"
  | None => match sc_tls_profiles c !! "mqtt" with Some pc => tpc_root_ca_source pc | None => "" end
  end.

(** A file that cannot be opened and an empty one end the same way. *)
(** [src/src/sec_service.cpp:1162-1235] initializeCaMaterialLoader *)
Definition initializeCaMaterialLoader s : SecService W :=
  let source := root_ca_source (sv_config s) in
  if str_empty source then s else
  let pem := fs_read source (sv_world s) in
  if str_empty pem then s else
  let certs := PEM_read_bio_X509s pem in
  if match certs with [] => true | _ => false end || negb (existsb isCaCert certs) then s
  else (on_world (sw_store_save "root_ca" pem) s).2.

(** [item.erase] of leading and trailing blanks and tabs. *)
Definition blank (c : Ascii.ascii) : bool := Ascii.eqb c (Ascii.ascii_of_nat 32) || Ascii.eqb c (Ascii.ascii_of_nat 9).
Fixpoint skip_blanks (s : string) : string :=
  match s with String c s' => if blank c then skip_blanks s' else s | EmptyString => "" end.
Fixpoint drop_blanks_end (s : string) : string :=
  match s with
  | EmptyString => ""
  | String c s' =>
      match drop_blanks_end s' with
      | EmptyString => if blank c then "" else String c ""
      | t => String c t
      end
  end.
(** An item of blanks only keeps them: [find_first_not_of] finds nothing, and neither
    [erase] happens. *)
(** [src/src/sec_service.cpp:1550-1556] loadTlsProfileConfig trim *)
Definition trim_item (item : string) : string :=
  if str_all blank item then item else drop_blanks_end (skip_blanks item).

(** [src/src/sec_service.cpp:1523-1559] loadTlsProfileConfig *)
Definition loadTlsProfileConfig s : SecService W :=
  let c := sv_config s in
  match sc_config_snapshot c with
  | None => s
  | Some snap =>
      if negb (cv_has snap "sec.tls.profiles.mqtt") then s else
      let key k := ("sec.tls.profiles.mqtt" ++ k)%string in
      let algs := filter (fun i => i <> ""%string)
        (trim_item <$> cv_getStringList snap (key ".allowed_signature_algorithms")) in
      let pc := mkTlsProfileConf true "mqtt" (cv_getString snap (key ".credential_id") "mqtt-primary")
        (cv_getString snap (key ".key_usage") "clientAuth") algs
        (cv_getString snap (key ".peer_service") "tbox-mqtt.service")
        (cv_getBool snap (key ".notify_on_change") true)
        (cv_getInt snap (key ".ref_ttl_sec") 3600)
        (cv_getString snap (key ".root_ca_source") "/usr/share/tbox/sec/trust/mqtt-root-ca.pem") in
      sv_with_config (mkSecConfig (sc_hsm_type c) (sc_key_provisioning_mode c) (sc_is_production c)
        (sc_soft_key_path c) (sc_soft_key_encryption_key_path c) (sc_seed_key_shared_secret c)
        (sc_store_root c) (<["mqtt"%string := pc]> (sc_tls_profiles c)) (sc_config_snapshot c)) s
  end.

(** [src/src/sec_service.cpp:1648-1659] initializeTlsCredentialProvider profile *)
Definition tls_profile_of (name : string) (pc : TlsProfileConf) : TlsProfileConfig :=
  mkTlsProfileConfig name (tpc_credential_id pc) (tpc_key_usage pc)
    (string_to_signature_algorithm <$> tpc_allowed_signature_algorithms pc) (tpc_peer_service pc)
    (tpc_notify_on_change pc) "root_ca" "device_cert_chain" (tpc_ref_ttl_sec pc).

(** One profile: configured, and its material loaded if it can be. *)
(** [src/src/sec_service.cpp:1646-1670] initializeTlsCredentialProvider profiles *)
Definition start_profile (name : string) (pc : TlsProfileConf) s : SecService W :=
  if negb (tpc_enabled pc) then s else
  match sv_tls s with
  | None => s
  | Some p =>
      (on_tls (fun q => loadMaterials name (configureProfile (tls_profile_of name pc) q)) p s).2
  end.

(** [src/src/sec_service.cpp:1561-1671] initializeTlsCredentialProvider *)
Definition initializeTlsCredentialProvider s : SecService W :=
  let s := loadTlsProfileConfig s in
  let profiles := sc_tls_profiles (sv_config s) in
  if bool_decide (profiles = ∅) then s else
  if negb (match sv_key_engine s with Some k => ke_hsm k | None => false end) then s else
  let s := if str_empty (sv_vin s) || str_empty (sv_ecu_uid s) then (ensure_vehicle_info s).2 else s in
  let q := tls_new true true true (tls_env_of s) in
  let s := sv_with_tls (Some (tls_attach tt q)) (sv_with_world (tw_world (tp_env q)) s) in
  foldl (fun s kv => start_profile kv.1 kv.2 s) s (map_items profiles).

(** [src/src/sec_service.cpp:1677-1696] ensure_tls_material_ready *)
Definition ensure_tls_material_ready (profile : string) : st (SecService W) ErrorCode := fun s =>
  match sv_tls s with
  | None => (NOT_INITIALIZED, s)
  | Some p =>
      let '(rc, state) := getTlsCredentialState profile (tls_attach (tls_env_of s) p) in
      if is_success rc && match state with Some st => is_ready (cs_status st) | None => false end
      then (SUCCESS, s) else
      let s := if str_empty (sv_vin s) || str_empty (sv_ecu_uid s) then (ensure_vehicle_info s).2 else s in
      if str_empty (sv_vin s) || str_empty (sv_ecu_uid s) then (TLS_CREDENTIAL_NOT_READY, s)
      else on_tls (loadMaterials profile) p s
  end.

(** The pointer is set before the store is opened. *)
(** [src/src/sec_service.cpp:148-157] initialize certificate store *)
Definition open_cert_store (fuel : nat) : st (SecService W) OpenResult := fun s =>
  let cert_root := (get_store_root (sv_config s) ++ "/sec/certstore")%string in
  let '(r, c) := openAndRecover fuel (cert_store_new cert_root (sv_world s)) in
  let s := sv_with_cert_store (Some (cert_attach tt c)) (sv_with_world (ct_fs c) s) in
  (r, match r with OpenReturns false => sv_with_cert_store None s | _ => s end).

(** How a start ends: with a code, with an exception of the certificate store, or
    not within [fuel] steps of its recovery. *)
Inductive StartResult := Started (rc : ErrorCode) | StartThrows | StartLoops.

(** The assembly of the business-key service, the last step before the flag is set, is
    left out. *)
(** [src/src/sec_service.cpp:106-174] initialize *)
Definition initialize (fuel : nat) : st (SecService W) StartResult := fun s =>
  if str_empty (get_hsm_type (sv_config s))
     && negb (String.eqb (get_key_provisioning_mode (sv_config s)) "soft_file")
  then (Started CONFIG_ERROR, s) else
  let '(rc, s) := initialize_hsm s in
  if negb (is_success rc) then (Started rc, s) else
  let s := if store_usable s then initializeCaMaterialLoader s else s in
  let '(r, s) := if store_usable s then open_cert_store fuel s else (OpenReturns true, s) in
  match r with
  | OpenThrows => (StartThrows, s)
  | OpenLoops => (StartLoops, s)
  | OpenReturns _ =>
      let '(rc, s) := if sv_has_diag s then on_world sw_diag_initialize s else (SUCCESS, s) in
      if negb (is_success rc) then (Started rc, s) else
      let s := initializeTlsCredentialProvider s in
      (Started SUCCESS, sv_with_initialized true s)
  end.

(** [src/src/sec_service.cpp:179-187] beginShutdown *)
Definition beginShutdown s : SecService W := sv_with_shutting_down true s.

(** [src/src/sec_service.cpp:189-191] is_shutting_down *)
Definition is_shutting_down s : bool := sv_shutting_down s.

(** [src/src/sec_service.cpp:193-197] setEventPublisher *)
Definition setEventPublisher (cb : bool) s : SecService W := sv_with_event_publisher cb s.

(** [src/src/sec_service.cpp:1261-1263] set_diag_service *)
Definition set_diag_service (d : bool) s : SecService W := sv_with_has_diag d s.

(** [src/src/sec_service.cpp:1265-1267] set_prov_service *)
Definition set_prov_service (p : bool) s : SecService W := sv_with_has_prov p s.

(** [src/src/sec_service.cpp:690-698] get_device_binding_state *)
Definition get_device_binding_state s : DeviceProvisionState :=
  if negb (sv_has_prov s) then DPS_UNKNOWN else sw_prov_get_provision_state (sv_world s).

(** [src/src/sec_service.cpp:721-739] get_device_info *)
Definition get_device_info s : string :=
  let nl := String (Ascii.ascii_of_nat 10) "" in
  let yes (b : bool) : string := if b then "Yes" else "No" in
  let or_unset (v : string) := if str_empty v then "(not configured)"%string else v in
  let service (has connected : bool) : string :=
    if has then if connected then "Connected" else "Disconnected" else "Not available" in
  let head := ("VIN: " ++ or_unset (sv_vin s) ++ nl ++ "ECU UID: " ++ or_unset (sv_ecu_uid s) ++ nl
    ++ "HSM Type: " ++ get_hsm_type (sv_config s) ++ nl
    ++ "Initialized: " ++ yes (sv_initialized s) ++ nl
    ++ "DIAG Service: " ++ service (sv_has_diag s) (sw_diag_is_connected (sv_world s)) ++ nl
    ++ "PROV Service: " ++ service (sv_has_prov s) (sw_prov_is_connected (sv_world s)) ++ nl)%string in
  if sv_initialized s then
    let status := get_provision_status s in
    (head ++ "Binding State (PROV): " ++ device_provision_state_to_string (get_device_binding_state s) ++ nl
      ++ "Cert Provision State: " ++ provision_state_to_string (pv_state status) ++ nl
      ++ "Retry Count: " ++ std_to_string (pv_retry_count status) ++ nl)%string
  else head.
End Service.
