(* ===== verification/Assembly.v ===== *)
(** * Assembly: how the service puts the business keys together.
    Models [initializeBusinessKeyProvisioning] of [src/sec_service.cpp]: what it reads of
    the configuration, the identity it takes from the certificate store and the HSM,
    the provider it chooses, and the service it starts. *)
From S2P Require Import Prelude Errors Canonical KeyTypes Json X509 TimeTypes TrustedTime Envelope Provider Ledger SoftFile Provisioning Import HsmProvider Tls CertStore KeyEngine Csr CertChain CertCheck SecService.

(* --------------------------------------------------------------------- *)
(** ** The provider                                                       *)
(* --------------------------------------------------------------------- *)

(** Which of the two classes the pointer holds. *)
Inductive KeyProvider (F : Type) := SoftKeys (p : SfState F) | HardKeys (p : HsmBusinessKeyProvider).
Arguments SoftKeys {F}. Arguments HardKeys {F}.

Section Dispatch.
Context {F : Type} `{Env : SoftFileEnv F} `{Crypto : SoftFileCrypto} `{Hash : Sha256} `{J : Json}.

(** A virtual call that changes the object. *)
Definition on_keys {A} (soft : st (SfState F) A) (hard : st HsmBusinessKeyProvider A) : st (KeyProvider F) A :=
  fun k => match k with
    | SoftKeys p => let '(a, p) := soft p in (a, SoftKeys p)
    | HardKeys p => let '(a, p) := hard p in (a, HardKeys p)
    end.
(** One that reads it. *)
Definition of_keys {A} (soft : SfState F -> A) (hard : HsmBusinessKeyProvider -> A) (k : KeyProvider F) : A :=
  match k with SoftKeys p => soft p | HardKeys p => hard p end.

#[export] Instance AnyProvider : BusinessKeyProvider (KeyProvider F) := {|
  bp_initialize := on_keys bp_initialize bp_initialize;
  bp_isReady := of_keys bp_isReady bp_isReady;
  bp_providerVersionDigest := of_keys bp_providerVersionDigest bp_providerVersionDigest;
  bp_capability := of_keys bp_capability bp_capability;
  bp_unwrapToStaging d i e a c b g := on_keys (bp_unwrapToStaging d i e a c b g) (bp_unwrapToStaging d i e a c b g);
  bp_verifyStaging d p := of_keys (bp_verifyStaging d p) (bp_verifyStaging d p);
  bp_commitBatch d g := on_keys (bp_commitBatch d g) (bp_commitBatch d g);
  bp_rollbackStaging d g := on_keys (bp_rollbackStaging d g) (bp_rollbackStaging d g);
  bp_querySlot d p := of_keys (bp_querySlot d p) (bp_querySlot d p);
  bp_generateProof d p v k r c e := on_keys (bp_generateProof d p v k r c e) (bp_generateProof d p v k r c e);
  bp_loadJournalEx r := of_keys (bp_loadJournalEx r) (bp_loadJournalEx r);
  bp_hasTransactionResidue r := of_keys (bp_hasTransactionResidue r) (bp_hasTransactionResidue r);
  bp_storageReplaced := of_keys bp_storageReplaced bp_storageReplaced;
  bp_saveJournal e := on_keys (bp_saveJournal e) (bp_saveJournal e);
  bp_listJournal := of_keys bp_listJournal bp_listJournal;
  bp_hasPendingStaging := of_keys bp_hasPendingStaging bp_hasPendingStaging
|}.
End Dispatch.

(* --------------------------------------------------------------------- *)
(** ** The configuration                                                  *)
(* --------------------------------------------------------------------- *)

(** [s.erase] of blanks at both ends. *)
(** [src/src/sec_service.cpp:1737-1756] initializeBusinessKeyProvisioning trim *)
Definition trim_entry (s : string) : string := trim_right (trim_left s).

(** [src/src/sec_service.cpp:1706-1756] initializeBusinessKeyProvisioning configuration *)
Definition business_config (c : SecServiceConfig) (snap : ConfigView) : BusinessKeyProvisioningConfig :=
  let key k := ("sec.business_key_provisioning." ++ k)%string in
  let names k := trim_entry <$> cv_getStringList snap (key k) in
  mkProvisioningConfig true (get_is_production c)
    (names "allowed_domains") (names "required_purposes") (names "allowed_envelope_formats")
    (names "allowed_wrapping_suites") (names "allowed_algorithms")
    (cv_getInt snap (key "max_items") 2) (cv_getInt snap (key "max_wrapped_key_bytes") 4096) 2048
    (cv_getInt snap (key "request_timeout_ms") 10000).

(** The paths of the provider are part of its environment. *)
(** [src/src/sec_service.cpp:1800-1815] initializeBusinessKeyProvisioning provider *)
Definition choose_provider {F} (cfg : BusinessKeyProvisioningConfig) (env : F) : KeyProvider F :=
  if negb (pg_is_production cfg) then
    SoftKeys (sf_new (mkProviderConfig ["AES-256"] (pg_allowed_wrapping_suites cfg)
      (pg_max_wrapped_key_bytes cfg) "softfile-bk-v1") env)
  else HardKeys hsm_provider_new.

(* --------------------------------------------------------------------- *)
(** ** The service                                                        *)
(* --------------------------------------------------------------------- *)

Section Assembly.
Context {W : Type} `{L : X509Lib} `{World : !SecWorld W} `{Hsm : !HsmInterface W} `{FS : !FileSystem W}
  `{Crypto : SoftFileCrypto} `{Hash : Sha256} `{J : Json} `{JC : !JsonConstIndex} `{Aes : Aes128}
  `{LT : LocalTime} `{Ec : EcPoints}.
Context {F D E : Type} `{Env : !SoftFileEnv F} `{Store : !LedgerStore D} `{SEnv : !ServiceEnv E}
  `{PB : Protobuf} `{EC : EcP256}.
Implicit Types s : SecService W.

(** The identity of the device: what its certificate, the certificate store and the HSM say. *)
(** [src/src/sec_service.cpp:1759-1796] initializeBusinessKeyProvisioning binding *)
Definition device_binding s : BusinessKeyDeviceBinding :=
  let none := BusinessKeyDeviceBinding_default in
  if str_empty (sv_ecu_uid s) || negb (match sv_key_engine s with Some k => ke_hsm k | None => false end)
  then none else
  let key_id := make_key_id (sv_ecu_uid s) (sv_ecu_uid s) in
  let '(rc, pub) := hsm_export_public_key key_id (sv_world s) in
  if negb (is_success rc) then none else
  match sv_cert_store s with
  | None => none
  | Some cs =>
      if str_empty (currentDeviceCertChain cs) then none else
      let cap := probe cs key_id (sv_world s) in
      mkBinding true (sv_ecu_uid s) key_id pub (ka_p256 cap) (ka_key_agreement cap)
        (ka_digital_signature cap) (ka_private_key_can_derive cap) (ka_private_key_can_sign cap)
        (ka_certificate_digest cap) (ka_active_cert_valid_from_ms cap) (ka_active_cert_valid_to_ms cap)
        (ka_ca_false cap) (ka_eku_client_auth_only cap) (ka_critical_extensions_allowed cap)
        (ka_leaf_digest_bound cap) (ka_cert_chain_key_match cap)
        (ka_private_key_can_derive cap && ka_private_key_can_sign cap)
  end.

(** [env] is the surroundings of the soft-file provider, [ledger] the store that was opened, [None]
    when that threw; [time] tells whether a time provider was set. *)
(** [src/src/sec_service.cpp:1706-1847] initializeBusinessKeyProvisioning *)
Definition initializeBusinessKeyProvisioning (c : SecServiceConfig) (time : bool) (env : F)
    (ledger : option D) (e : E) (nonce : Z) : option (Service (KeyProvider F) D E) :=
  match sc_config_snapshot c with
  | None => None
  | Some snap =>
      if negb (cv_getBool snap "sec.business_key_provisioning.enabled" false) then None else
      let cfg := business_config c snap in
      let provider := choose_provider cfg env in
      match ledger with
      | None => None
      | Some d =>
          let '(rc, b) := service_initialize
            (service_new cfg (mkWiring true time true true) provider (mkLedger d ∅) e nonce) in
          if is_success rc then Some b else None
      end
  end.

Lemma hard_never_ready p : never_ready (P := KeyProvider F) (HardKeys p).
Proof. by split. Qed.

(** A vehicle in production imports no key. Whatever else its configuration says, and whatever
    its certificate, its ledger, its files and its trusted time are: if the service assembles a business-
    key service at all, every import, every query and every status of it is refused with NOT_READY, it
    offers no lease, and none of these calls changes it. *)
Theorem production_imports_nothing c time env ledger e nonce b :
  get_is_production c = true ->
  initializeBusinessKeyProvisioning c time env ledger e nonce = Some b -> refuses b.
Proof.
  intros Hp. unfold initializeBusinessKeyProvisioning.
  destruct (sc_config_snapshot c) as [snap|]; [|done]. destruct (negb _); [done|].
  destruct ledger as [d|]; [|done]. unfold choose_provider. cbn [pg_is_production business_config].
  rewrite Hp. cbn [negb]. pose proof (initialize_closed (business_config c snap) (mkWiring true time true true)
    (HardKeys hsm_provider_new) (mkLedger d ∅) e nonce (hard_never_ready _)) as Hc.
  destruct (service_initialize _) as [rc b'] eqn:Hi. destruct (is_success rc); [|done]. intros [= <-].
  by apply closed_refuses.
Qed.

(** What an identity that passes the gate of an import stands for. *)
Record certified_key s (leaf : X509) (pub : bytes) : Prop := {
  cy_key : hsm_export_public_key (make_key_id (sv_ecu_uid s) (sv_ecu_uid s)) (sv_world s) = (SUCCESS, pub);
  cy_exists : hsm_key_exists (make_key_id (sv_ecu_uid s) (sv_ecu_uid s)) (sv_world s) = true;
  cy_derives : hsm_supports_ecdh_derive (make_key_id (sv_ecu_uid s) (sv_ecu_uid s)) (sv_world s) = true;
  cy_signs : hsm_supports_ecdsa_sign (make_key_id (sv_ecu_uid s) (sv_ecu_uid s)) (sv_world s) = true;
  cy_matches : x509_ec_point leaf = Some pub;
  cy_p256 : isP256PublicKey leaf = true;
  cy_usage : hasKeyUsageKeyAgreement leaf = true /\ hasKeyUsageDigitalSignature leaf = true;
  cy_client : hasOnlyClientAuthEku leaf = true;
  cy_not_ca : isCaTrue leaf = false;
  cy_critical : criticalExtensionsAllowed leaf = true
}.

(** The configuration may leave the wrapping suites out: the service then fills in its default, which
    the provider it was given does not see, and the provider refuses every key. *)
Lemma unset_suites_refuse_all c snap (env : F) :
  get_is_production c = false ->
  cv_getStringList snap "sec.business_key_provisioning.allowed_wrapping_suites" = [] ->
  contains (pg_allowed_wrapping_suites (config_defaults (business_config c snap))) kWrappingSuiteEcdhEsP256 = true /\
  exists p0, choose_provider (business_config c snap) env = SoftKeys p0 /\
    forall (p : SfState F) domain item params aad info b g,
      sf_cfg p = sf_cfg p0 -> (sf_unwrapToStaging domain item params aad info b g p).1.1 <> SUCCESS.
Proof.
  intros Hp Hs. unfold business_config, choose_provider. cbn -[contains String.append]. rewrite Hp. cbn [negb].
  change ("sec.business_key_provisioning." ++ "allowed_wrapping_suites")%string with
    "sec.business_key_provisioning.allowed_wrapping_suites". rewrite Hs. split; [done|].
  eexists. split; [done|]. intros p domain item params aad info b g Hc. unfold sf_unwrapToStaging. rewrite Hc.
  cbn [sf_cfg sf_new bpc_allowed_wrapping_suites fmap list_fmap contains existsb negb].
  repeat case_match; done.
Qed.

(** The parts of the gate that concern the certificate and the key. *)
Lemma binding_gate b : binding_agreement_ok b = true ->
  db_active_cert_p256 b = true /\ db_active_cert_key_agreement b = true /\
  db_active_cert_digital_signature b = true /\ db_private_key_can_derive b = true /\
  db_private_key_can_sign b = true /\ bytes_empty (db_active_cert_digest b) = false /\
  db_active_cert_ca_false b = true /\ db_active_cert_eku_client_auth_only b = true /\
  db_active_cert_critical_extensions_allowed b = true /\ db_active_cert_leaf_digest_bound b = true /\
  db_active_cert_chain_key_match b = true.
Proof. unfold binding_agreement_ok. rewrite !andb_true_iff, !negb_true_iff. tauto. Qed.

(** A probe finds nothing, or looks at the leaf of the chain in the store. *)
Lemma probed (cs : CertificateStore (F:=unit)) key (w : W) :
  probe cs key w = capability_default \/
  exists chain leaf, hasCurrent cs = true /\
    parse (bytes_of_string (currentDeviceCertChain cs)) default_limits = Parsed chain /\
    pc_leaf chain = Some leaf /\ probe cs key w = probe_leaf leaf (pc_leaf_der_original_sha256 chain) key w.
Proof.
  unfold probe. destruct (hasCurrent cs); [cbn [negb]|by left].
  destruct (str_empty _); [by left|]. destruct (parse _ _) as [chain|]; [|by left].
  destruct (pc_leaf chain) as [leaf|] eqn:El; [|by left]. right. by exists chain, leaf.
Qed.

(** C35. What an import trusts as the identity of the device is a certified key: when the identity that
    the service reports passes the gate, the certificate store holds a chain that parses, its leaf is a
    P-256 certificate for key agreement and signature, for clients only, no CA, without unknown critical
    extensions, the key it certifies is the one the HSM keeps under the device's id, this key can
    derive and sign, and the reported digest is the one of the leaf as it was received. *)
Theorem device_binding_sound s :
  binding_agreement_ok (device_binding s) = true ->
  exists cs chain leaf,
    sv_cert_store s = Some cs /\ hasCurrent cs = true /\
    parse (bytes_of_string (currentDeviceCertChain cs)) default_limits = Parsed chain /\
    pc_leaf chain = Some leaf /\
    certified_key s leaf (db_device_public_key (device_binding s)) /\
    db_active_cert_digest (device_binding s) = pc_leaf_der_original_sha256 chain /\
    db_device_identity (device_binding s) = sv_ecu_uid s.
Proof.
  unfold device_binding. destruct (str_empty _ || _); [done|].
  destruct (hsm_export_public_key _ _) as [rc pub] eqn:Ex. destruct (negb (is_success rc)) eqn:Erc; [done|].
  apply negb_false_iff, is_success_true in Erc as ->.
  destruct (sv_cert_store s) as [cs|] eqn:Ecs; [|done].
  destruct (str_empty (currentDeviceCertChain cs)) eqn:Ee; [done|].
  set (key := make_key_id _ _) in *. intros (Hp&Hk&Hs&Hd&Hg&Hdig&Hca&Heku&Hcr&Hb&Hm)%binding_gate.
  destruct (probed cs key (sv_world s)) as [Hdef|(chain & leaf & Hcur & Hparse & Hleaf & Hprobe)].
  { cbn in Hp. by rewrite Hdef in Hp. }
  exists cs, chain, leaf. cbn in *. rewrite Hprobe in *. unfold probe_leaf in *. rewrite Ex in *. cbn in *.
  apply andb_true_iff in Hd as [_ Hd]. apply andb_true_iff in Hg as [_ Hg].
  rewrite !andb_true_iff in Hm. destruct Hm as ((((_&_&He)&_)&Hne)&Hpub%bool_decide_eq_true).
  rewrite Hb. split_and!; try done.
  split; try done; [|by apply negb_true_iff].
  destruct (x509_ec_point leaf); [by cbn in Hpub; subst|done].
Qed.
End Assembly.
