(* ===== verification/SeedProps.v ===== *)
(** * SeedProps: how the seed-and-key access of [SecService] behaves.
    Runs of [get_seed] and [verify_key], with anything else the service may do in
    between: how often a key can be tried, and what an accepted key proves. *)
From S2P Require Import Prelude Errors Canonical Json X509 SoftFile TimeTypes Provider Tls CertStore KeyEngine Csr CertChain CertCheck SecService.

(** The steady clock: readings lie between the times before and after, and the
    operations the seed functions call take no negative time. *)
Class SteadyClock (W : Type) `{World : SecWorld W} `{FS : !FileSystem W} := {
  sk_time : W -> Z;
  sk_reading w : sk_time w <= (sw_steady_now w).1 <= sk_time (sw_steady_now w).2;
  sk_system w : sk_time w <= sk_time (sw_system_now w).2;
  sk_save k v w : sk_time w <= sk_time (sw_store_save k v w).2;
  sk_random n w : sk_time w <= sk_time (fs_RAND_bytes n w).2
}.

Section SeedKey.
Context {W : Type} `{L : X509Lib} `{World : !SecWorld W} `{Hsm : !HsmInterface W} `{FS : !FileSystem W}
  `{Clock : !SteadyClock W}
  `{Crypto : SoftFileCrypto} `{Hash : Sha256} `{J : Json} `{JC : !JsonConstIndex} `{Aes : Aes128}
  `{LT : LocalTime} `{Ec : EcPoints}.
Implicit Types s : SecService W.

(** The time of a service. *)
Definition now_of s : Z := sk_time (sv_world s).

(** What the seed functions keep in memory. *)
Record same_guard s s' : Prop := {
  sg_seed : sv_seed s' = sv_seed s;
  sg_failed : sv_failed_attempts s' = sv_failed_attempts s;
  sg_until : sv_lockout_until s' = sv_lockout_until s;
  sg_lockout : sv_in_lockout s' = sv_in_lockout s
}.

#[global] Instance same_guard_refl : Reflexive same_guard.
Proof. by constructor. Qed.
#[global] Instance same_guard_trans : Transitive same_guard.
Proof. intros ??? [] []. constructor; congruence. Qed.

(* --------------------------------------------------------------------- *)
(** ** One call                                                           *)
(* --------------------------------------------------------------------- *)

(** A key was compared and the seed spent on it. *)
Definition seed_spent s s' : bool := negb (ss_consumed (sv_seed s)) && ss_consumed (sv_seed s').

Lemma handle_error_guard e c s : same_guard s (handle_error e c s) /\ now_of s <= now_of (handle_error e c s).
Proof.
  unfold handle_error, update_provision_state, on_world, now_of.
  pose proof (sk_system (sv_world s)) as H1. destruct (sw_system_now (sv_world s)) as [t w1] eqn:E1. cbn [fst snd] in *.
  destruct (store_usable _); [|split; [by constructor|done]].
  unfold save_provision_status_to_store. destruct (negb _); [split; [by constructor|done]|].
  unfold on_world. cbn. match goal with |- context [sw_store_save ?k ?v ?w] => pose proof (sk_save k v w) as H2; destruct (sw_store_save k v w) as [? w2] eqn:E2 end.
  cbn in *. split; [by constructor|lia].
Qed.

Lemma is_in_lockout_spec s b s' :
  is_in_lockout s = (b, s') -> same_guard s s' /\ now_of s <= now_of s' /\
  (if b then sv_in_lockout s = true /\ now_of s < sv_lockout_until s
   else sv_in_lockout s = true -> sv_lockout_until s <= now_of s').
Proof.
  unfold is_in_lockout, on_world, now_of. destruct (sv_in_lockout s) eqn:El; cbn [negb].
  2:{ intros [= <- <-]. split_and!; [done|lia|done]. }
  pose proof (sk_reading (sv_world s)) as H. destruct (sw_steady_now (sv_world s)) as [t w] eqn:E. cbn in H.
  intros [= <- <-]. cbn. split_and!; [by constructor|lia|].
  destruct (t >=? sv_lockout_until s) eqn:Eg; cbn; [rewrite Z.geb_leb in Eg|rewrite Z.geb_leb in Eg]; lia.
Qed.

Lemma is_seed_valid_spec s b s' :
  is_seed_valid s = (b, s') -> same_guard s s' /\ now_of s <= now_of s' /\
  (b = true -> ss_generated (sv_seed s) = true /\ ss_consumed (sv_seed s) = false /\
     now_of s - ss_generated_at (sv_seed s) < SEED_VALIDITY_SEC * ns_per_sec).
Proof.
  unfold is_seed_valid, on_world, now_of. destruct (ss_generated (sv_seed s)) eqn:Hg, (ss_consumed (sv_seed s)) eqn:Hc;
    cbn [negb orb]; try (intros [= <- <-]; split_and!; [done|lia|done]).
  pose proof (sk_reading (sv_world s)) as H. destruct (sw_steady_now (sv_world s)) as [t w] eqn:E. cbn in H.
  intros [= <- <-]. cbn. split_and!; [by constructor|lia|]. intros Hv%Z.ltb_lt. split_and!; [done..|].
  unfold SEED_VALIDITY_SEC, ns_per_sec in *.
  destruct (Z.le_gt_cases 0 (t - ss_generated_at (sv_seed s))); [|lia].
  rewrite Z.quot_div_nonneg in Hv by lia.
  pose proof (Z.div_mod (t - ss_generated_at (sv_seed s)) 1000000000 ltac:(lia)).
  pose proof (Z.mod_pos_bound (t - ss_generated_at (sv_seed s)) 1000000000). lia.
Qed.

Lemma land_1 z : Z.land z 1 = z mod 2.
Proof. apply (Z.land_ones z 1). lia. Qed.

(** The key the service expects for a seed. *)
Definition key_for (c : SecServiceConfig) (seed : bytes) : option bytes :=
  secret ← decodeHexSecret (get_seed_key_shared_secret c); aes128_ecb secret seed.

Definition unlocked_at (t : Z) s : Prop := sv_in_lockout s = true -> sv_lockout_until s <= t.

(** What a call of [get_seed] does. *)
Inductive gave (level : Z) s : ErrorCode * bytes -> SecService W -> Prop :=
  | gave_none r s' : r.1 <> SUCCESS -> same_guard s s' -> gave level s r s'
  | gave_seed seed t s' s1 :
      same_guard s s1 -> s' = sv_with_seed (mkSeedState seed level true false t) s1 ->
      now_of s <= t <= now_of s' -> unlocked_at (now_of s') s' -> Z.land level 1 = 1 ->
      gave level s (SUCCESS, seed) s'.

Lemma get_seed_gave level s : gave level s (get_seed level s).1 (get_seed level s).2 /\
  now_of s <= now_of (get_seed level s).2.
Proof.
  unfold get_seed.
  destruct (negb (sv_initialized s)); [split; [by apply gave_none|done]|].
  destruct (sv_shutting_down s); [split; [by apply gave_none|done]|].
  destruct ((Z.land level 1 =? 0) || (level =? 0)) eqn:Hl; [split; [by apply gave_none|done]|].
  destruct (is_in_lockout s) as [b s1] eqn:E1. destruct (is_in_lockout_spec _ _ _ E1) as (G1 & T1 & U1).
  destruct b; [split; [by apply gave_none|done]|].
  unfold generate_random_seed, on_world.
  pose proof (sk_random SEED_KEY_SIZE (sv_world s1)) as T2.
  destruct (fs_RAND_bytes SEED_KEY_SIZE (sv_world s1)) as [[seed|] w2] eqn:E2; cbn in T2; cbn [fst snd].
  - pose proof (sk_reading w2) as T3. change (sv_world (sv_with_world w2 s1)) with w2.
    destruct (sw_steady_now w2) as [t w3] eqn:E3. cbn in *. unfold now_of in *. split; [|cbn; lia].
    apply (gave_seed _ _ _ t _ (sv_with_world w3 s1));
      [transitivity s1; [exact G1|by constructor]|done|unfold now_of; cbn; lia| |].
    { unfold unlocked_at, now_of. cbn. rewrite (sg_lockout _ _ G1), (sg_until _ _ G1). intros Hk. specialize (U1 Hk). lia. }
    apply orb_false_iff in Hl as [Hl%Z.eqb_neq _]. rewrite land_1 in *.
    pose proof (Z.mod_pos_bound level 2). lia.
  - destruct (handle_error_guard SEED_GENERATION_FAILED "Seed generation failed" (sv_with_world w2 s1)) as [G3 T3].
    split; [|unfold now_of in *; cbn in *; lia].
    apply gave_none; [done|]. transitivity s1; [done|]. transitivity (sv_with_world w2 s1); [by constructor|done].
Qed.

(** What a call of [verify_key] does: nothing to the guard, a spent seed, or both an
    accepted key and a spent seed. *)
Inductive tried (level : Z) (key : bytes) s : ErrorCode -> SecService W -> Prop :=
  | tried_none rc s' : rc <> SUCCESS -> same_guard s s' -> tried level key s rc s'
  | tried_accepted s' :
      ss_generated (sv_seed s) = true -> ss_consumed (sv_seed s) = false ->
      now_of s - ss_generated_at (sv_seed s) < SEED_VALIDITY_SEC * ns_per_sec ->
      level = ss_security_level (sv_seed s) + 1 -> key_for (sv_config s) (ss_seed (sv_seed s)) = Some key ->
      ss_consumed (sv_seed s') = true -> sv_failed_attempts s' = 0 -> sv_in_lockout s' = false ->
      tried level key s SUCCESS s'
  | tried_wrong s' t :
      ss_consumed (sv_seed s) = false -> ss_consumed (sv_seed s') = true ->
      now_of s <= t <= now_of s' -> unlocked_at t s ->
      (if sv_failed_attempts s + 1 >=? MAX_FAILED_ATTEMPTS
       then sv_failed_attempts s' = 0 /\ sv_in_lockout s' = true /\
            sv_lockout_until s' = t + LOCKOUT_DURATION_SEC * ns_per_sec
       else sv_failed_attempts s' = sv_failed_attempts s + 1 /\ sv_in_lockout s' = sv_in_lockout s /\
            sv_lockout_until s' = sv_lockout_until s) ->
      tried level key s KEY_VERIFICATION_FAILED s'.

Lemma compute_expected_key_spec seed s key :
  compute_expected_key seed s = (SUCCESS, key) -> key_for (sv_config s) seed = Some key.
Proof.
  unfold compute_expected_key, key_for. destruct (negb _); [done|].
  destruct (decodeHexSecret _); cbn; [|done]. destruct (aes128_ecb _ _); [|done]. by intros [= <-].
Qed.

Lemma wrong_key s s1 level key :
  same_guard s s1 -> now_of s <= now_of s1 -> unlocked_at (now_of s1) s ->
  ss_consumed (sv_seed s) = false ->
  tried level key s KEY_VERIFICATION_FAILED (invalidate_seed (increment_failed_attempts s1)) /\
  now_of s <= now_of (invalidate_seed (increment_failed_attempts s1)).
Proof.
  intros G T U C. unfold increment_failed_attempts, on_world. cbn. rewrite (sg_failed _ _ G).
  destruct (sv_failed_attempts s + 1 >=? MAX_FAILED_ATTEMPTS) eqn:Em.
  - pose proof (sk_reading (sv_world s1)) as R. destruct (sw_steady_now (sv_world s1)) as [t w] eqn:E. cbn in R.
    unfold now_of in *. cbn in *. split; [|lia].
    apply (tried_wrong _ _ _ _ t); unfold now_of; cbn; [done|done|lia| |by rewrite Em].
    intros Hl. specialize (U Hl). lia.
  - split; [|done]. apply (tried_wrong _ _ _ _ (now_of s1)); cbn; [done|done|split; [done|reflexivity]|done|].
    rewrite Em, (sg_lockout _ _ G), (sg_until _ _ G). done.
Qed.

Lemma same_config_checks s b s' : is_in_lockout s = (b, s') -> sv_config s' = sv_config s.
Proof.
  unfold is_in_lockout, on_world. destruct (negb _); [by intros [= <- <-]|].
  destruct (sw_steady_now _). by intros [= <- <-].
Qed.
Lemma same_config_seed s b s' : is_seed_valid s = (b, s') -> sv_config s' = sv_config s.
Proof.
  unfold is_seed_valid, on_world. destruct (negb _ || _); [by intros [= <- <-]|].
  destruct (sw_steady_now _). by intros [= <- <-].
Qed.

Lemma verify_key_tried level key s : tried level key s (verify_key level key s).1 (verify_key level key s).2 /\
  now_of s <= now_of (verify_key level key s).2.
Proof.
  unfold verify_key.
  destruct (negb (sv_initialized s)); [split; [by apply tried_none|done]|].
  destruct (sv_shutting_down s); [split; [by apply tried_none|done]|].
  destruct (negb (Z.land level 1 =? 0) || (level =? 0)) eqn:Hl; [split; [by apply tried_none|done]|].
  destruct (is_in_lockout s) as [b s1] eqn:E1. destruct (is_in_lockout_spec _ _ _ E1) as (G1 & T1 & U1).
  destruct b; [split; [by apply tried_none|done]|].
  destruct (is_seed_valid s1) as [ok s2] eqn:E2. destruct (is_seed_valid_spec _ _ _ E2) as (G2 & T2 & V2).
  pose proof (transitivity G1 G2) as G. pose proof (Z.le_trans _ _ _ T1 T2) as T.
  destruct ok; cbn [negb]; [|split; [by apply tried_none|done]].
  destruct (V2 eq_refl) as (Vg & Vc & Va). rewrite (sg_seed _ _ G1) in Vg, Vc, Va. rewrite (sg_seed _ _ G).
  destruct (level =? ss_security_level (sv_seed s) + 1) eqn:Hlev; cbn [negb]; [|split; [by apply tried_none|done]]. apply Z.eqb_eq in Hlev.
  destruct (compute_expected_key _ s2) as [rc exp] eqn:Ek.
  destruct (is_success rc) eqn:Hrc; cbn [negb].
  2:{ destruct (handle_error_guard rc "Key computation failed" s2) as [G3 T3].
      split; [|by etransitivity]. apply tried_none; [done|]. by transitivity s2. }
  apply is_success_true in Hrc as ->.
  destruct (constantTimeEqual key exp) eqn:Hc.
  - apply constantTimeEqual_eq in Hc as ->. split; [|exact T]. cbn [fst snd].
    apply compute_expected_key_spec in Ek. rewrite (same_config_seed _ _ _ E2), (same_config_checks _ _ _ E1) in Ek.
    apply tried_accepted; try done. lia.
  - apply wrong_key; [done|done| |done]. intros Hlk. specialize (U1 Hlk). lia.
Qed.

(* --------------------------------------------------------------------- *)
(** ** Runs                                                               *)
(* --------------------------------------------------------------------- *)

(** What a client and the rest of the service do, with the answers. *)
Inductive seed_event :=
  | Gave (level : Z) (r : ErrorCode * bytes)
  | Tried (level : Z) (key : bytes) (rc : ErrorCode) (spent : bool)
  | Other.

(** Anything else may change the rest of the service, its world included. *)
Inductive seed_step s : seed_event -> SecService W -> Prop :=
  | step_get level : seed_step s (Gave level (get_seed level s).1) (get_seed level s).2
  | step_verify level key :
      seed_step s (Tried level key (verify_key level key s).1 (seed_spent s (verify_key level key s).2))
        (verify_key level key s).2
  | step_other s' : same_guard s s' -> now_of s <= now_of s' -> seed_step s Other s'.

Inductive seed_run s0 : list seed_event -> SecService W -> Prop :=
  | run_nil : seed_run s0 [] s0
  | run_snoc evs e s s' : seed_run s0 evs s -> seed_step s e s' -> seed_run s0 (evs ++ [e]) s'.

Definition accepted (e : seed_event) : bool :=
  match e with Tried _ _ rc _ => is_success rc | _ => false end.
(** A wrong key that was compared with the right one. *)
Definition wrong_guess (e : seed_event) : bool :=
  match e with Tried _ _ rc spent => negb (is_success rc) && spent | _ => false end.
(** The live seed stays as it is. *)
Definition quiet (e : seed_event) : bool :=
  match e with Gave _ r => negb (is_success r.1) | Tried _ _ _ spent => negb spent | Other => true end.
Definition guesses (evs : list seed_event) : Z := zlen (filter (fun e => wrong_guess e = true) evs).

Lemma seed_step_time s e s' : seed_step s e s' -> now_of s <= now_of s'.
Proof. intros []; [apply get_seed_gave|apply verify_key_tried|done]. Qed.
Lemma seed_run_time s0 evs s : seed_run s0 evs s -> now_of s0 <= now_of s.
Proof. induction 1; [done|]. etransitivity; [done|by eapply seed_step_time]. Qed.

Lemma guesses_snoc evs e : guesses (evs ++ [e]) = guesses evs + (if wrong_guess e then 1 else 0).
Proof.
  unfold guesses, zlen. rewrite filter_app, length_app, filter_cons, filter_nil.
  case_decide as H; [rewrite H|apply not_true_is_false in H; rewrite H]; cbn; lia.
Qed.

(** A step that is not an accepted key: the counters stay, or a wrong guess moved them. *)
Lemma step_counts s e s' :
  seed_step s e s' -> accepted e = false ->
  (wrong_guess e = false /\ sv_failed_attempts s' = sv_failed_attempts s /\
     sv_lockout_until s' = sv_lockout_until s /\ sv_in_lockout s' = sv_in_lockout s) \/
  wrong_guess e = true /\ exists t, now_of s <= t <= now_of s' /\ unlocked_at t s /\
    if sv_failed_attempts s + 1 >=? MAX_FAILED_ATTEMPTS
    then sv_failed_attempts s' = 0 /\ sv_in_lockout s' = true /\
         sv_lockout_until s' = t + LOCKOUT_DURATION_SEC * ns_per_sec
    else sv_failed_attempts s' = sv_failed_attempts s + 1 /\ sv_in_lockout s' = sv_in_lockout s /\
         sv_lockout_until s' = sv_lockout_until s.
Proof.
  intros [level | level key | s2 G T] Ha.
  - left. split; [done|]. destruct (get_seed_gave level s) as [[r s2 ? [] | seed t s2 s1 [] -> ? ? ?] _]; done.
  - destruct (verify_key_tried level key s) as [H _]. unfold accepted, wrong_guess, seed_spent in *.
    destruct H as [rc s2 Hrc [] | s2 | s2 t C C' Ht Hu Hm]; [|done|].
    + left. rewrite sg_seed0. destruct (ss_consumed (sv_seed s)); rewrite ?andb_false_r; done.
    + right. rewrite C, C'. split; [done|]. by exists t.
  - left. by destruct G.
Qed.

(** Between two lockouts lie ten seconds: after [k] of them the lockout reaches at
    least [k] periods past the start. *)
Definition guess_inv s0 (evs : list seed_event) s : Prop :=
  0 <= sv_failed_attempts s < MAX_FAILED_ATTEMPTS /\ now_of s0 <= now_of s /\
  exists k, 0 <= k /\ guesses evs = 3 * k + sv_failed_attempts s - sv_failed_attempts s0 /\
    (0 < k -> sv_in_lockout s = true /\
       now_of s0 + k * (LOCKOUT_DURATION_SEC * ns_per_sec) <= sv_lockout_until s <=
         now_of s + LOCKOUT_DURATION_SEC * ns_per_sec /\
       (0 < sv_failed_attempts s -> sv_lockout_until s <= now_of s)).

Lemma run_guess_inv s0 evs s :
  seed_run s0 evs s -> 0 <= sv_failed_attempts s0 < MAX_FAILED_ATTEMPTS ->
  existsb accepted evs = false -> guess_inv s0 evs s.
Proof.
  intros Hr H0. induction Hr as [|evs e s s' Hr IH Hs]; intros Ha.
  { split; [done|]. split; [done|]. exists 0. split; [done|]. split; [change (guesses []) with 0; lia|lia]. }
  rewrite existsb_app in Ha. apply orb_false_iff in Ha as [Ha He]. cbn in He. rewrite orb_false_r in He.
  destruct (IH Ha) as (Hf & Ht & k & Hk & Hg & Hl). pose proof (seed_step_time _ _ _ Hs) as Ht'.
  unfold guess_inv. rewrite guesses_snoc. unfold MAX_FAILED_ATTEMPTS, LOCKOUT_DURATION_SEC, ns_per_sec, unlocked_at in *.
  destruct (step_counts _ _ _ Hs He) as [(-> & -> & -> & ->) | (-> & t & Htt & Hu & Hm)].
  { split; [done|]. split; [lia|]. exists k. split_and!; [done|lia|]. intros Hk0. destruct (Hl Hk0) as (? & ? & ?).
    split_and!; [done|lia..]. }
  unfold MAX_FAILED_ATTEMPTS, LOCKOUT_DURATION_SEC, ns_per_sec in Hm.
  destruct (_ >=? _) eqn:Em; rewrite Z.geb_leb in Em; destruct Hm as (-> & -> & ->).
  - split; [lia|]. split; [lia|]. exists (k + 1). split_and!; [lia|lia|]. intros _. split_and!; [done| |lia|lia].
    destruct (decide (k = 0)) as [->|]; [lia|]. destruct Hl as (Hl1 & ? & ?); [lia|]. specialize (Hu Hl1). lia.
  - apply Z.leb_gt in Em. split; [lia|]. split; [lia|]. exists k. split_and!; [done|lia|].
    intros Hk0. destruct (Hl Hk0) as (Hl1 & ? & ?). specialize (Hu Hl1). split_and!; [done|lia..].
Qed.

(** C2. A key cannot be guessed fast. However [get_seed] and [verify_key] are called
    and whatever else the service does in between, as long as no key is accepted
    at most three wrong keys are compared with the right one, plus three for every
    full ten seconds that pass. *)
Theorem brute_force_bound s0 evs s :
  seed_run s0 evs s -> 0 <= sv_failed_attempts s0 < MAX_FAILED_ATTEMPTS ->
  existsb accepted evs = false ->
  guesses evs <= 3 * ((now_of s - now_of s0) / (LOCKOUT_DURATION_SEC * ns_per_sec)) + 3.
Proof.
  intros Hr H0 Ha. destruct (run_guess_inv _ _ _ Hr H0 Ha) as (Hf & Ht & k & Hk & -> & Hl).
  unfold MAX_FAILED_ATTEMPTS, LOCKOUT_DURATION_SEC, ns_per_sec in *.
  set (p := 10 * 1000000000) in *. set (d := now_of s - now_of s0).
  assert (Hd : 0 <= d / p) by (apply Z.div_pos; lia).
  destruct (decide (k = 0)) as [->|]; [lia|]. destruct Hl as (_ & Hu & Hc); [lia|].
  destruct (decide (sv_failed_attempts s = 0)).
  - assert (k - 1 <= d / p) by (apply Z.div_le_lower_bound; lia). lia.
  - assert (k <= d / p) by (apply Z.div_le_lower_bound; lia). lia.
Qed.

(* --------------------------------------------------------------------- *)
(** ** Where an accepted key comes from                                   *)
(* --------------------------------------------------------------------- *)

(** The seed that is live in [s] was given out in state [s1], and nothing spent or
    replaced it since. *)
Definition issued s0 (evs : list seed_event) s : Prop :=
  exists evs1 level seed evs2 s1,
    evs = evs1 ++ Gave level (SUCCESS, seed) :: evs2 /\ Z.land level 1 = 1 /\
    seed_run s0 (evs1 ++ [Gave level (SUCCESS, seed)]) s1 /\ seed_run s1 evs2 s /\
    forallb quiet evs2 = true /\ ss_seed (sv_seed s) = seed /\ ss_security_level (sv_seed s) = level /\
    ss_generated_at (sv_seed s) <= now_of s1.

Lemma quiet_step s e s' : seed_step s e s' -> quiet e = true -> ss_consumed (sv_seed s) = false ->
  same_guard s s'.
Proof.
  intros [level | level key | s2 G T] Hq C; [| |done]; cbn in Hq; revert Hq.
  - destruct (get_seed_gave level s) as [[r s2 ? G | seed t s2 s1 ? ?] _]; [done|done].
  - destruct (verify_key_tried level key s) as [H _]. unfold seed_spent. rewrite C.
    destruct H as [rc s2 ? G | s2 ? ? ? ? ? C' | s2 t ? C']; [done|by rewrite C'..].
Qed.

(** A step leaves the live seed, or it was the one that gave it out, or it spent it. *)
Lemma live_step s e s' :
  seed_step s e s' -> ss_generated (sv_seed s') = true -> ss_consumed (sv_seed s') = false ->
  (quiet e = true /\ sv_seed s' = sv_seed s) \/
  (exists level seed t, e = Gave level (SUCCESS, seed) /\ Z.land level 1 = 1 /\ t <= now_of s' /\
     sv_seed s' = mkSeedState seed level true false t).
Proof.
  intros [level | level key | s2 G T] Hg Hc.
  - destruct (get_seed_gave level s) as [[r s2 Hr [] | seed t s2 s1 ? -> ? ? ?] _].
    + left. split; [|done]. cbn. by destruct (is_success r.1) eqn:E; [apply is_success_true in E|].
    + right. exists level, seed, t. split_and!; [done..|lia|done].
  - destruct (verify_key_tried level key s) as [H _]. unfold quiet, seed_spent.
    destruct H as [rc s2 ? [] | s2 | s2]; [|congruence..]. left. rewrite Hc, andb_false_r. done.
  - left. by destruct G.
Qed.

Lemma run_issued s0 evs s :
  seed_run s0 evs s -> ss_generated (sv_seed s0) = false ->
  ss_generated (sv_seed s) = true -> ss_consumed (sv_seed s) = false -> issued s0 evs s.
Proof.
  intros Hr H0. induction Hr as [|evs e s s' Hr IH Hs]; intros Hg Hc; [congruence|].
  destruct (live_step _ _ _ Hs Hg Hc) as [[Hq Hsd] | (level & seed & t & -> & Hl & Ht & Hsd)].
  - rewrite Hsd in Hg, Hc. destruct (IH Hg Hc) as (evs1 & level & seed & evs2 & s1 & -> & Hl & R1 & R2 & Q & ? & ? & ?).
    exists evs1, level, seed, (evs2 ++ [e]), s1. rewrite Hsd, forallb_app, Q. cbn. rewrite Hq, <- app_assoc.
    split_and!; try done. by eapply run_snoc.
  - exists evs, level, seed, [], s'. rewrite Hsd. split_and!; try done; [by eapply run_snoc|by apply run_nil].
Qed.

(** C15. An accepted key answers a fresh challenge. In every run from a service that
    never gave out a seed, if [verify_key] accepts a key then the seed the last
    successful [get_seed] gave out, at the level below, was neither used for another
    attempt nor replaced since; it was given out less than thirty seconds ago; the key
    is the encryption of exactly this seed; and the seed is spent afterwards. *)
Theorem unlock_needs_fresh_seed s0 evs s level key s' :
  ss_generated (sv_seed s0) = false -> seed_run s0 evs s -> verify_key level key s = (SUCCESS, s') ->
  ss_consumed (sv_seed s') = true /\
  exists evs1 seed evs2 s1,
    evs = evs1 ++ Gave (level - 1) (SUCCESS, seed) :: evs2 /\ Z.land (level - 1) 1 = 1 /\
    forallb quiet evs2 = true /\ key_for (sv_config s) seed = Some key /\
    seed_run s0 (evs1 ++ [Gave (level - 1) (SUCCESS, seed)]) s1 /\ seed_run s1 evs2 s /\
    now_of s - now_of s1 < SEED_VALIDITY_SEC * ns_per_sec.
Proof.
  intros H0 Hr Hv. destruct (verify_key_tried level key s) as [H _]. rewrite Hv in H. cbn in H.
  inversion H as [? ? Hn | s2 Hg Hc Ha Hl Hk Hs' ? ? | ]; subst; [done|]. split; [done|].
  destruct (run_issued _ _ _ Hr H0 Hg Hc) as (evs1 & lv & seed & evs2 & s1 & -> & Hl & R1 & R2 & Q & <- & <- & Ht).
  exists evs1, (ss_seed (sv_seed s)), evs2, s1. rewrite Z.add_simpl_r. split_and!; try done. lia.
Qed.

(* --------------------------------------------------------------------- *)
(** ** The right key unlocks                                              *)
(* --------------------------------------------------------------------- *)

Lemma quiet_run s0 evs s : seed_run s0 evs s -> forallb quiet evs = true ->
  ss_consumed (sv_seed s0) = false -> same_guard s0 s.
Proof.
  induction 1 as [|evs e s s' Hr IH Hs]; intros Hq C; [done|].
  rewrite forallb_app in Hq. apply andb_true_iff in Hq as [Hq He]. cbn in He. rewrite andb_true_r in He.
  specialize (IH Hq C). transitivity s; [done|]. eapply quiet_step; [done..|]. by rewrite (sg_seed _ _ IH).
Qed.

Lemma unlocked_check s : unlocked_at (now_of s) s -> exists s', is_in_lockout s = (false, s') /\
  same_guard s s' /\ sv_config s' = sv_config s /\ now_of s <= now_of s'.
Proof.
  intros U. destruct (is_in_lockout s) as [b s'] eqn:E. destruct (is_in_lockout_spec _ _ _ E) as (G & T & Hb).
  pose proof (same_config_checks _ _ _ E). destruct b; [|by exists s']. destruct Hb as [Hb ?]. specialize (U Hb). lia.
Qed.

Lemma fresh_check s : ss_generated (sv_seed s) = true -> ss_consumed (sv_seed s) = false ->
  exists s', is_seed_valid s =
      ((if now_of s' - ss_generated_at (sv_seed s) <? SEED_VALIDITY_SEC * ns_per_sec then true
        else (is_seed_valid s).1), s') /\
    same_guard s s' /\ sv_config s' = sv_config s.
Proof.
  intros Hg Hc. destruct (is_seed_valid s) as [b s'] eqn:E. exists s'.
  destruct (is_seed_valid_spec _ _ _ E) as (G & T & _). pose proof (same_config_seed _ _ _ E).
  split_and!; [|done..]. f_equal. destruct (_ <? _) eqn:El; [|done]. apply Z.ltb_lt in El.
  unfold is_seed_valid, on_world in E. rewrite Hg, Hc in E. cbn in E.
  pose proof (sk_reading (sv_world s)) as R. destruct (sw_steady_now (sv_world s)) as [t w]. cbn in R.
  injection E as <- <-. unfold now_of in El. cbn in El. unfold SEED_VALIDITY_SEC, ns_per_sec in *.
  apply Z.ltb_lt. destruct (Z.le_gt_cases 0 (t - ss_generated_at (sv_seed s))) as [H0|H0].
  - rewrite Z.quot_div_nonneg by lia. apply Z.div_lt_upper_bound; lia.
  - pose proof (Z.quot_opp_l (- (t - ss_generated_at (sv_seed s))) 1000000000 ltac:(lia)) as Hq.
    rewrite Z.opp_involutive in Hq. pose proof (Z.quot_pos (- (t - ss_generated_at (sv_seed s))) 1000000000). lia.
Qed.

(** The right key unlocks. When [get_seed] gives out a seed, and until the answer
    comes nothing spends or replaces it, then [verify_key] at the next level accepts
    the encryption of the seed, provided the service runs and the whole exchange takes
    less than thirty seconds: earlier failures and lockouts do not stand in the way. *)
Theorem right_key_unlocks s0 level seed s1 evs s2 key :
  get_seed level s0 = ((SUCCESS, seed), s1) -> 0 < level < 255 -> length seed = SEED_KEY_SIZE ->
  seed_run s1 evs s2 -> forallb quiet evs = true ->
  sv_initialized s2 = true -> sv_shutting_down s2 = false -> key_for (sv_config s2) seed = Some key ->
  now_of (verify_key (level + 1) key s2).2 - now_of s0 < SEED_VALIDITY_SEC * ns_per_sec ->
  (verify_key (level + 1) key s2).1 = SUCCESS.
Proof.
  intros Hg Hlev Hlen Hr Hq Hi Hsd Hk Ht.
  destruct (get_seed_gave level s0) as [H _]. rewrite Hg in H. cbn in H.
  inversion H as [? ? Hn | sd t sx s' G Hs' Hb U Hodd]; subst; [done|]. set (s1 := sv_with_seed _ _) in *.
  pose proof (quiet_run _ _ _ Hr Hq eq_refl) as G2. pose proof (seed_run_time _ _ _ Hr) as T2.
  assert (U2 : unlocked_at (now_of s2) s2).
  { intros Hlk. rewrite (sg_until _ _ G2). rewrite (sg_lockout _ _ G2) in Hlk. specialize (U Hlk). lia. }
  destruct (unlocked_check s2 U2) as (s3 & E3 & G3 & C3 & _).
  assert (Hsd3 : sv_seed s3 = mkSeedState seed level true false t)
    by (rewrite (sg_seed _ _ G3), (sg_seed _ _ G2); done).
  destruct (fresh_check s3) as (s4 & E4 & G4 & C4); [by rewrite Hsd3..|].
  revert Ht. unfold verify_key. rewrite Hi, Hsd. cbn [negb].
  assert (Z.land (level + 1) 1 =? 0 = true) as ->.
  { rewrite land_1 in Hodd |- *. apply Z.eqb_eq. rewrite Z.add_mod, Hodd by lia. done. }
  assert (level + 1 =? 0 = false) as -> by (apply Z.eqb_neq; lia). cbn [negb orb].
  rewrite E3, E4, (sg_seed _ _ G4), Hsd3. cbn [ss_security_level ss_seed ss_generated_at].
  rewrite Z.eqb_refl. cbn [negb].
  unfold compute_expected_key. rewrite Hlen, C4, C3. cbn [negb Nat.eqb]. rewrite Nat.eqb_refl. cbn [negb].
  unfold key_for in Hk. destruct (decodeHexSecret _) as [secret|]; [|done]. cbn in Hk. rewrite Hk. cbn [is_success negb].
  assert (constantTimeEqual key key = true) as -> by by apply constantTimeEqual_eq.
  destruct (now_of s4 - t <? SEED_VALIDITY_SEC * ns_per_sec) eqn:El; cbn [negb]; [intros _; reflexivity|]. apply Z.ltb_ge in El.
  intros Ht. exfalso. revert Ht. destruct (is_seed_valid s3).1; cbn [negb fst snd]; unfold now_of in *; cbn in *; lia.
Qed.
End SeedKey.
