(* ===== verification/UdsDispatcher.v ===== *)
(** * UdsDispatcher: the diagnostic service SecurityAccess (0x27).
    Models [src/service_dispatcher.cpp]: requests for a seed and keys are passed to
    [SecService], and its codes become negative response codes. *)
From S2P Require Import Prelude Errors Canonical Json X509 SoftFile TimeTypes Provider Tls CertStore KeyEngine Csr CertChain CertCheck SecService SeedProps.

(** [src/include/service_dispatcher.h:13-16] SecurityAccessResponse *)
Record SecurityAccessResponse := mkAccess { ar_nrc : Z; ar_data : bytes }.

Definition NRC_positive : Z := 0.
Definition NRC_conditionsNotCorrect : Z := 34.
Definition NRC_invalidKey : Z := 53.
Definition NRC_exceededNumberOfAttempts : Z := 54.
Definition NRC_requiredTimeDelayNotExpired : Z := 55.
Definition NRC_generalProgrammingFailure : Z := 114.

Section Dispatcher.
Context {W : Type} `{L : X509Lib} `{World : !SecWorld W} `{Hsm : !HsmInterface W} `{FS : !FileSystem W}
  `{Crypto : SoftFileCrypto} `{Hash : Sha256} `{J : Json} `{JC : !JsonConstIndex} `{Aes : Aes128}
  `{LT : LocalTime} `{Ec : EcPoints}.

(** [src/include/service_dispatcher.h:36-38] ServiceDispatcher members *)
Record ServiceDispatcher := mkUds { ud_service : option (SecService W); ud_failed_attempts : Z }.
Implicit Types d : ServiceDispatcher.
Implicit Types resp : SecurityAccessResponse.

(** [src/src/service_dispatcher.cpp:7-8] ServiceDispatcher *)
Definition uds_new (s : option (SecService W)) : ServiceDispatcher := mkUds s 0.

(** [src/src/service_dispatcher.cpp:87-89] reset_failed_attempts *)
Definition uds_reset d : ServiceDispatcher := mkUds (ud_service d) 0.
(** [src/src/service_dispatcher.cpp:91-93] increment_failed_attempts *)
Definition uds_increment d : ServiceDispatcher := mkUds (ud_service d) (ud_failed_attempts d + 1).

(** The response is passed by reference: a refusal leaves its data alone. *)
(** [src/src/service_dispatcher.cpp:28-51] handle_request_seed *)
Definition handle_request_seed (level : Z) resp (s : SecService W) (failed : Z) :
    ErrorCode * SecurityAccessResponse * ServiceDispatcher :=
  let '((result, seed), s) := get_seed level s in
  let d := mkUds (Some s) failed in
  match result with
  | SUCCESS => (SUCCESS, mkAccess NRC_positive seed, d)
  | UDS_SECURITY_DENIED => (result, mkAccess NRC_requiredTimeDelayNotExpired (ar_data resp), d)
  | SEED_GENERATION_FAILED => (result, mkAccess NRC_generalProgrammingFailure (ar_data resp), d)
  | _ => (result, mkAccess NRC_conditionsNotCorrect (ar_data resp), d)
  end.

(** [src/src/service_dispatcher.cpp:53-85] handle_send_key *)
Definition handle_send_key (level : Z) (key : bytes) resp (s : SecService W) (failed : Z) :
    ErrorCode * SecurityAccessResponse * ServiceDispatcher :=
  let '(result, s) := verify_key level key s in
  let d := mkUds (Some s) failed in
  match result with
  | SUCCESS => (SUCCESS, mkAccess NRC_positive [x01], d)
  | UDS_SECURITY_DENIED => (result, mkAccess NRC_requiredTimeDelayNotExpired (ar_data resp), d)
  | KEY_VERIFICATION_FAILED =>
      let d := uds_increment d in
      if ud_failed_attempts d >=? 3
      then (result, mkAccess NRC_exceededNumberOfAttempts (ar_data resp), uds_reset d)
      else (result, mkAccess NRC_invalidKey (ar_data resp), d)
  | _ => (result, mkAccess NRC_conditionsNotCorrect (ar_data resp), d)
  end.

(** [sub_function] is a [uint8_t]. *)
(** [src/src/service_dispatcher.cpp:10-26] handle_security_access *)
Definition handle_security_access (sub_function : Z) (request_data : bytes) resp d :
    ErrorCode * SecurityAccessResponse * ServiceDispatcher :=
  match ud_service d with
  | None => (NOT_INITIALIZED, mkAccess NRC_conditionsNotCorrect (ar_data resp), d)
  | Some s =>
      if negb (Z.land sub_function 1 =? 0)
      then handle_request_seed sub_function resp s (ud_failed_attempts d)
      else handle_send_key sub_function request_data resp s (ud_failed_attempts d)
  end.

(* --------------------------------------------------------------------- *)
(** ** A session                                                          *)
(* --------------------------------------------------------------------- *)

(** A tester's requests one after the other, each with a fresh response. *)
Fixpoint session (reqs : list (Z * bytes)) d : list SecurityAccessResponse * ServiceDispatcher :=
  match reqs with
  | [] => ([], d)
  | (sub, data) :: reqs =>
      let '((_, resp), d) := handle_security_access sub data (mkAccess 0 []) d in
      let '(resps, d) := session reqs d in (resp :: resps, d)
  end.

(** The response a tester gets for what the service did. *)
Inductive tells : seed_event -> SecurityAccessResponse -> Prop :=
  | tells_seed level seed : tells (Gave level (SUCCESS, seed)) (mkAccess NRC_positive seed)
  | tells_no_seed level rc seed nrc : rc <> SUCCESS ->
      nrc = (match rc with UDS_SECURITY_DENIED => NRC_requiredTimeDelayNotExpired
             | SEED_GENERATION_FAILED => NRC_generalProgrammingFailure | _ => NRC_conditionsNotCorrect end) ->
      tells (Gave level (rc, seed)) (mkAccess nrc [])
  | tells_unlocked level key spent : tells (Tried level key SUCCESS spent) (mkAccess NRC_positive [x01])
  | tells_wrong level key spent nrc : nrc = NRC_invalidKey \/ nrc = NRC_exceededNumberOfAttempts ->
      tells (Tried level key KEY_VERIFICATION_FAILED spent) (mkAccess nrc [])
  | tells_refused level key rc spent nrc : rc <> SUCCESS -> rc <> KEY_VERIFICATION_FAILED ->
      nrc = (match rc with UDS_SECURITY_DENIED => NRC_requiredTimeDelayNotExpired
             | _ => NRC_conditionsNotCorrect end) ->
      tells (Tried level key rc spent) (mkAccess nrc []).

(** Which request an event belongs to. *)
Definition serves (req : Z * bytes) (e : seed_event) : Prop :=
  match e with
  | Gave level _ => level = req.1 /\ Z.land req.1 1 <> 0
  | Tried level key _ _ => level = req.1 /\ key = req.2 /\ Z.land req.1 1 = 0
  | Other => False
  end.

Context `{Clock : !SteadyClock W}.

Lemma seed_run_app (s0 s1 s2 : SecService W) evs1 evs2 :
  seed_run s0 evs1 s1 -> seed_run s1 evs2 s2 -> seed_run s0 (evs1 ++ evs2) s2.
Proof.
  intros H1. induction 1 as [|evs e s s' _ IH Hs]; [by rewrite app_nil_r|].
  rewrite app_assoc. by apply run_snoc with s.
Qed.
Lemma seed_run_one (s s' : SecService W) e : seed_step s e s' -> seed_run s [e] s'.
Proof. intros H. apply (run_snoc s [] e s s'); [constructor|done]. Qed.

Lemma access_step sub data failed s resp rc d' :
  handle_security_access sub data (mkAccess 0 []) (mkUds (Some s) failed) = (rc, resp, d') ->
  exists e s', ud_service d' = Some s' /\ seed_step s e s' /\ serves (sub, data) e /\ tells e resp.
Proof.
  unfold handle_security_access. cbn [ud_service ud_failed_attempts].
  destruct (Z.land sub 1 =? 0) eqn:El; cbn [negb].
  - apply Z.eqb_eq in El. unfold handle_send_key. pose proof (step_verify s sub data) as Hstep.
    destruct (verify_key sub data s) as [r s'] eqn:Ev. cbn [fst snd] in Hstep. intros H.
    exists (Tried sub data r (seed_spent s s')), s'.
    assert (ud_service d' = Some s' /\ tells (Tried sub data r (seed_spent s s')) resp) as [? ?]; [|done].
    destruct r; try (injection H as _ <- <-; split; [done|by constructor]).
    destruct (_ >=? 3) in H; injection H as _ <- <-; (split; [done|constructor; tauto]).
  - apply Z.eqb_neq in El. unfold handle_request_seed. pose proof (step_get s sub) as Hstep.
    destruct (get_seed sub s) as [[r seed] s'] eqn:Eg. cbn [fst snd] in Hstep. intros H.
    exists (Gave sub (r, seed)), s'.
    assert (ud_service d' = Some s' /\ tells (Gave sub (r, seed)) resp) as [? ?]; [|done].
    destruct r; injection H as _ <- <-; (split; [done|by constructor]).
Qed.

(** C36. The diagnostic service adds nothing to the seed-and-key access of the service: whatever a
    tester sends, the service goes through one of its own runs with exactly one get_seed or verify_key
    for each request, and each response says what that call returned. So the bound on guesses and
    the need of a fresh seed hold for testers as they do for the clients of the daemon. *)
Theorem session_is_seed_run reqs s failed resps d' :
  session reqs (mkUds (Some s) failed) = (resps, d') ->
  exists evs s', ud_service d' = Some s' /\ seed_run s evs s' /\
    Forall2 serves reqs evs /\ Forall2 tells evs resps.
Proof.
  revert s failed resps. induction reqs as [|[sub data] reqs IH]; intros s failed resps; cbn [session].
  - intros [= <- <-]. exists [], s. by repeat constructor.
  - destruct (handle_security_access sub data _ _) as [[rc resp] d1] eqn:E1.
    apply access_step in E1 as (e & s1 & E1 & Hstep & Hserves & Htells).
    destruct d1 as [srv failed1]. cbn in E1. subst srv.
    destruct (session reqs _) as [resps' d2] eqn:E2. intros [= <- <-].
    destruct (IH _ _ _ E2) as (evs & s' & E' & Hrun & Hs & Ht).
    exists (e :: evs), s'. split_and!; [done| |by constructor..].
    apply (seed_run_app s s1 s' [e] evs); [by apply seed_run_one|done].
Qed.
End Dispatcher.
