(* ===== verification/SecFrame.v ===== *)
(** * SecFrame: what the calls of [SecService] leave alone.
    The laws of the framework's store, and for every operation that it keeps the
    seed-and-key guard, the configuration and, up to the states it writes itself,
    the persisted provision state. *)
From S2P Require Import Prelude Errors Canonical Json X509 SoftFile TimeTypes Provider Tls CertStore KeyEngine Csr CertChain CertCheck SecService SeedProps.

(* --------------------------------------------------------------------- *)
(** ** Laws                                                               *)
(* --------------------------------------------------------------------- *)

(** Two worlds whose stores look the same, but perhaps for one key. *)
Record store_same_but {W} `{SecWorld W} (but : string -> Prop) (w w' : W) : Prop := {
  ss_ready : sw_store_ready w' = sw_store_ready w;
  ss_has k : ~ but k -> sw_store_has k w' = sw_store_has k w;
  ss_load k : ~ but k -> sw_store_load k w' = sw_store_load k w
}.
Definition store_same {W} `{SecWorld W} : relation W := store_same_but (fun _ => False).

(** The store is written by [save] and [remove] only, which are atomic: they have
    their effect on one key, or fail and have none. *)
Class StoreLaws (W : Type) `{World : SecWorld W} `{FS : !FileSystem W} `{Hsm : !HsmInterface W} : Prop := {
  save_done k v w w' : sw_store_save k v w = (true, w') ->
    store_same_but (eq k) w w' /\ sw_store_has k w' = true /\ sw_store_load k w' = LoadOk v;
  save_fails k v w w' : sw_store_save k v w = (false, w') -> store_same w w';
  remove_done k w w' : sw_store_remove k w = (true, w') ->
    store_same_but (eq k) w w' /\ sw_store_has k w' = false /\ sw_store_load k w' = LoadKeyNotFound;
  remove_fails k w w' : sw_store_remove k w = (false, w') -> store_same w w';
  kp_creat p w : store_same w (fs_creat p w).2;
  kp_write p c w : store_same w (fs_write p c w).2;
  kp_fsync p w : store_same w (fs_fsync p w).2;
  kp_rename p q w : store_same w (fs_rename p q w).2;
  kp_remove p w : store_same w (fs_remove p w);
  kp_rmdir p w : store_same w (fs_rmdir p w);
  kp_mkdir p w : store_same w (fs_mkdir p w);
  kp_clock w : store_same w (fs_clock_ms w).2;
  kp_random n w : store_same w (fs_RAND_bytes n w).2;
  kp_generate id alg w : store_same w (hsm_generate_key_pair id alg w).2;
  kp_sign id d w : store_same w (hsm_sign id d w).2;
  kp_prov w : store_same w (sw_prov_get_vehicle_info w).2;
  kp_diag t d w : store_same w (sw_diag_send_request_sync t d w).2;
  kp_steady w : store_same w (sw_steady_now w).2;
  kp_system w : store_same w (sw_system_now w).2;
  kp_trusted w : store_same w (sw_trusted_now w).2;
  kp_publish i v w : store_same w (sw_publish i v w)
}.

Section Frame.
Context {W : Type} `{L : X509Lib} `{World : !SecWorld W} `{Hsm : !HsmInterface W} `{FS : !FileSystem W}
  `{SL : !StoreLaws W}
  `{Crypto : SoftFileCrypto} `{Hash : Sha256} `{J : Json} `{JC : !JsonConstIndex} `{Aes : Aes128}
  `{LT : LocalTime} `{Ec : EcPoints}.
Implicit Types s : SecService W.
Implicit Types w : W.

#[global] Instance store_same_refl : Reflexive (store_same (W:=W)).
Proof. by constructor. Qed.
#[global] Instance store_same_trans : Transitive (store_same (W:=W)).
Proof.
  intros ??? [R1 H1 L1] [R2 H2 L2]. constructor; [congruence| |]; intros k Hk; [rewrite H2, H1|rewrite L2, L1]; done.
Qed.
#[local] Hint Resolve store_same_refl kp_creat kp_write kp_fsync kp_rename kp_remove kp_rmdir kp_mkdir
  kp_clock kp_random kp_generate kp_sign kp_prov kp_diag kp_steady kp_system kp_trusted kp_publish : frame.

(** Follow the calls of a body from the outside in: [K] relates the start to the
    present state. *)
Ltac body_of x :=
  lazymatch x with
  | snd ?b => body_of b
  | fst ?b => body_of b
  | ct_fs ?b => body_of b
  | sv_world ?b => body_of b
  | ?b => b
  end.
Ltac follow_step R K :=
  match goal with
  | |- R _ ?x =>
      let b := body_of x in
      lazymatch b with
      | match ?m with pair _ _ => _ end =>
          first
            [ is_var m; destruct m
            | match type of K with R ?a ?c =>
                let K' := fresh "K" in
                assert (K' : R c m.2) by (cbn [fst snd]; eauto with frame);
                let p := fresh "r" in let t := fresh "t" in
                destruct m as [p t]; cbn [fst snd] in K';
                pose proof (transitivity K K') as K''; clear K K'; rename K'' into K
              end
            | destruct m ]
      | if ?c then _ else _ => destruct c eqn:?
      | match ?y with Some _ => _ | None => _ end => destruct y eqn:?
      | match ?y with nil => _ | _ => _ end => destruct y eqn:?
      | match ?y with Loaded _ => _ | Invalid => _ | LoadThrows => _ end => destruct y eqn:?
      end
  end.
Ltac follow R K :=
  repeat (cbn [fst snd negb]; follow_step R K);
  try solve [assumption | etransitivity; [eassumption|]; cbn [fst snd]; eauto with frame].

(* --------------------------------------------------------------------- *)
(** ** The certificate store                                              *)
(* --------------------------------------------------------------------- *)

Lemma foldl_same {A} (g : W -> A -> W) (l : list A) w :
  (forall w a, store_same w (g w a)) -> store_same w (foldl g w l).
Proof.
  intros H. revert w. induction l as [|a l IH]; intros w; cbn; [done|]. etransitivity; [apply H|apply IH].
Qed.

Lemma makeDirs_same p w : store_same w (makeDirs p w).2.
Proof.
  unfold makeDirs. cbn. etransitivity; [apply (foldl_same (fun f p => fs_mkdir p f)); intros; apply kp_mkdir|].
  apply kp_mkdir.
Qed.

Lemma newGenerationId_same w : store_same w (newGenerationId w).2.
Proof. unfold newGenerationId. assert (K := store_same_refl w). follow store_same K. Qed.

Lemma write_loop_same n p c w : store_same w (write_loop n p c w).2.
Proof.
  revert c w. induction n as [|n IH]; intros [|a c] w; cbn [write_loop]; try done.
  assert (K := store_same_refl w). follow store_same K.
Qed.
#[local] Hint Resolve makeDirs_same newGenerationId_same write_loop_same : frame.

Lemma writeFile_same p c w : store_same w (writeFile p c w).2.
Proof. unfold writeFile. assert (K := store_same_refl w). follow store_same K. Qed.
#[local] Hint Resolve writeFile_same : frame.

Lemma writeFileAtomic_same p c w : store_same w (writeFileAtomic p c w).2.
Proof. unfold writeFileAtomic. assert (K := store_same_refl w). follow store_same K. Qed.
#[local] Hint Resolve writeFileAtomic_same : frame.

Lemma writeGeneration_same (g : Generation) w : store_same w (writeGeneration g w).2.
Proof. unfold writeGeneration. assert (K := store_same_refl w). follow store_same K. Qed.

Lemma switchCurrent_same root gid w : store_same w (switchCurrent root gid w).2.
Proof. unfold switchCurrent. assert (K := store_same_refl w). follow store_same K. Qed.

Lemma remove_candidate_same d w : store_same w (remove_candidate d w).
Proof.
  unfold remove_candidate. etransitivity; [|apply kp_rmdir]. do 3 (etransitivity; [|apply kp_remove]). done.
Qed.

Lemma cleanupOrphans_same root a b w : store_same w (cleanupOrphans root a b w).
Proof.
  unfold cleanupOrphans. destruct (fs_readdir _ w) as [names|]; [|done].
  apply (foldl_same _ names w). intros f n. repeat case_match; try done.
  unfold remove_generation. etransitivity; [|apply kp_rmdir]. do 6 (etransitivity; [|apply kp_remove]). done.
Qed.
#[local] Hint Resolve writeGeneration_same switchCurrent_same remove_candidate_same cleanupOrphans_same : frame.

Lemma adopt_same g w (x : CertificateStore (F:=W)) : store_same w (ct_fs (adopt g (with_fs w x))).
Proof. apply cleanupOrphans_same. Qed.
Lemma dropped_same d w (x : CertificateStore (F:=W)) : store_same w (ct_fs (with_fs (remove_candidate d w) x)).
Proof. apply remove_candidate_same. Qed.
#[local] Hint Resolve adopt_same dropped_same : frame.

Lemma commit_same c (x : CertificateStore (F:=W)) : store_same (ct_fs x) (ct_fs (commit c x).2).
Proof.
  unfold commit. destruct (negb _); [done|]. destruct (str_empty _); [done|].
  assert (K := store_same_refl (ct_fs x)). follow store_same K.
Qed.
#[local] Hint Resolve commit_same : frame.

(* --------------------------------------------------------------------- *)
(** ** The TLS provider                                                   *)
(* --------------------------------------------------------------------- *)

#[local] Existing Instance tls_world_env.

(** The world a provider runs in. *)
Definition tls_same (p q : TlsCredentialProvider (TlsWorld W)) : Prop :=
  store_same (tw_world (tp_env p)) (tw_world (tp_env q)).

#[local] Instance tls_same_trans : Transitive tls_same.
Proof. intros ???. apply store_same_trans. Qed.
Lemma tls_same_refl p : tls_same p p.
Proof. apply store_same_refl. Qed.

Lemma tls_time_same p : tls_same p (on_tls_env tls_time p).2.
Proof.
  unfold tls_same, on_tls_env, tls_time, tls_world_env. pose proof (kp_system (tw_world (tp_env p))) as K.
  by destruct (sw_system_now _).
Qed.
#[local] Hint Resolve tls_same_refl tls_time_same : frame.

Lemma validate_same ps p : tls_same p (validateAndStoreMaterials ps p).2.
Proof.
  unfold validateAndStoreMaterials. assert (K := tls_same_refl p). follow tls_same K.
Qed.

Lemma published_same profile ps st rc p : tls_same p (publishChanged profile ps st rc p).
Proof.
  unfold publishChanged. destruct (_ || _); [apply tls_same_refl|]. unfold tls_same. cbn.
  destruct (tw_event_publisher _); cbn; [apply kp_publish|apply store_same_refl].
Qed.

Lemma put_profile_same profile ps p : tls_same p (put_profile profile ps p).
Proof. apply store_same_refl. Qed.
#[local] Hint Resolve validate_same published_same put_profile_same : frame.

Lemma loadMaterials_same profile p : tls_same p (loadMaterials profile p).2.
Proof. unfold loadMaterials. assert (K := tls_same_refl p). follow tls_same K. Qed.

Lemma rotateCredential_same profile p : tls_same p (rotateCredential profile p).2.
Proof.
  unfold rotateCredential. assert (K := tls_same_refl p). follow tls_same K.
  all: (etransitivity; [exact K|]; etransitivity; [|apply published_same]; apply put_profile_same).
Qed.

(* --------------------------------------------------------------------- *)
(** ** The parts of a call                                                *)
(* --------------------------------------------------------------------- *)

(** What no call but [initialize] and the setters changes. *)
Definition wiring s : SecServiceConfig * bool * bool * bool * bool * bool * bool * option KeyEngine :=
  (sv_config s, sv_initialized s, sv_shutting_down s, sv_has_diag s, sv_has_prov s, sv_has_store s,
   sv_event_publisher s, sv_key_engine s).

(** The store, the guard and the wiring are as they were. *)
Record kept s s' : Prop := {
  kt_store : store_same (sv_world s) (sv_world s');
  kt_guard : same_guard s s';
  kt_wiring : wiring s' = wiring s;
  kt_tls : sv_tls s <> None -> sv_tls s' <> None
}.
#[global] Instance kept_trans : Transitive kept.
Proof.
  intros ??? [S1 G1 E1 T1] [S2 G2 E2 T2]. constructor; [by etransitivity|by etransitivity|congruence|auto].
Qed.
Lemma kept_refl s : kept s s.
Proof. by constructor. Qed.

Lemma kept_world s w : store_same (sv_world s) w -> kept s (sv_with_world w s).
Proof. by constructor. Qed.

Lemma on_world_kept {A} (m : st W A) s : store_same (sv_world s) (m (sv_world s)).2 -> kept s (on_world m s).2.
Proof. unfold on_world. destruct (m (sv_world s)). apply kept_world. Qed.

Lemma on_tls_kept {A} (m : st (TlsCredentialProvider (TlsWorld W)) A) p s :
  (forall q, tls_same q (m q).2) -> kept s (on_tls m p s).2.
Proof.
  intros H. unfold on_tls. specialize (H (tls_attach (tls_env_of s) p)). destruct (m _) as [a q]. by constructor.
Qed.

Lemma on_cert_store_kept {A} (m : CertificateStore (F:=W) -> A * CertificateStore (F:=W)) c s :
  (forall x, store_same (ct_fs x) (ct_fs (m x).2)) -> kept s (on_cert_store m c s).2.
Proof.
  intros H. unfold on_cert_store. specialize (H (cert_attach (sv_world s) c)). destruct (m _) as [a x]. by constructor.
Qed.

Lemma ensure_vehicle_info_kept s : kept s (ensure_vehicle_info s).2.
Proof.
  unfold ensure_vehicle_info. destruct (_ && _); [apply kept_refl|]. destruct (negb _); [apply kept_refl|].
  pose proof (on_world_kept sw_prov_get_vehicle_info s (kp_prov _)) as K. destruct (on_world _ s) as [r s1]. cbn in K.
  destruct r as [[rc info]|]; [|done]. destruct (negb _); [done|]. destruct (_ || _); [done|].
  etransitivity; [exact K|]. by constructor.
Qed.

Lemma generate_device_key_same k v e w : store_same w (generate_device_key k v e w).2.
Proof. unfold generate_device_key. assert (K := store_same_refl w). follow store_same K. Qed.

Lemma build_csr_same k c w : store_same w (build_csr k c w).2.
Proof.
  unfold build_csr. destruct (get_device_key _ _ _ w) as [rc kp]. destruct (negb _); [done|].
  destruct (build_csr_info c kp) as [rc2 info]. destruct (negb _); [done|]. unfold ke_sign.
  assert (K := store_same_refl w). destruct (negb _); [done|]. destruct (negb _); [done|]. cbn.
  pose proof (kp_sign (make_key_id (cs_hsm_uid c) (cs_key_id c)) info w) as K2.
  destruct (hsm_sign _ info w) as [[rc3 sig] w2]. by destruct (negb _).
Qed.

Lemma generate_and_store_key_pair_kept s : kept s (generate_and_store_key_pair s).2.
Proof.
  unfold generate_and_store_key_pair.
  pose proof (on_world_kept (generate_device_key (engine s) (sv_ecu_uid s) (sv_ecu_uid s)) s
    (generate_device_key_same _ _ _ _)) as K. by destruct (on_world _ s) as [[rc kp] s1].
Qed.

Lemma build_and_store_csr_kept s : kept s (build_and_store_csr s).2.
Proof.
  unfold build_and_store_csr.
  pose proof (on_world_kept (build_csr (engine s) (mkCsrConfig (sv_ecu_uid s) (sv_ecu_uid s) "ecdsa-p256")) s
    (build_csr_same _ _ _)) as K.
  destruct (on_world _ s) as [[rc csr] s1]. etransitivity; [exact K|]. by constructor.
Qed.

Lemma handle_diag_request_kept t d s : kept s (handle_diag_request t d s).2.
Proof.
  unfold handle_diag_request. destruct (negb _); [apply kept_refl|]. destruct (negb _); [apply kept_refl|].
  apply on_world_kept, kp_diag.
Qed.

Lemma publishDeviceCertChain_kept pem s : kept s (publishDeviceCertChain pem s).2.
Proof.
  unfold publishDeviceCertChain. destruct (sv_cert_store s) as [c|]; [|apply kept_refl].
  destruct (_ && _); [apply kept_refl|].
  pose proof (on_cert_store_kept (commit (certificate_commit pem c s)) c s (commit_same _)) as K.
  destruct (on_cert_store _ c s) as [rc s1]. cbn in K. destruct rc as [rc|]; [|done]. destruct (negb _); [done|].
  cbn. unfold reload_mqtt. destruct (sv_tls s1); [|done]. etransitivity; [exact K|].
  apply on_tls_kept. apply rotateCredential_same.
Qed.

Lemma validate_certificate_same k u leaf h w : store_same w (validate_certificate sw_trusted_now k u leaf h w).2.
Proof.
  unfold validate_certificate. destruct (negb _); [done|].
  pose proof (kp_trusted w) as K. destruct (sw_trusted_now w) as [smp t].
  destruct (check_certificate_validity smp leaf) as [rc b]. destruct (negb _); [done|]. destruct (negb _); [done|].
  destruct (match_certificate_key k leaf u h) as [rc2 m]. by destruct (negb _).
Qed.

Lemma validate_and_store_certificate_kept payload s : kept s (validate_and_store_certificate payload s).2.
Proof.
  unfold validate_and_store_certificate. destruct (parse _ _) as [chain|]; [|apply kept_refl].
  destruct (negb _); [apply kept_refl|]. destruct (pc_leaf chain) as [leaf|]; [|apply kept_refl].
  pose proof (on_world_kept (fun w => validate_certificate sw_trusted_now (engine s) (sv_ecu_uid s) leaf w w) s
    (validate_certificate_same _ _ _ _ _)) as K.
  destruct (on_world _ s) as [[rc valid] s1]. cbn in K. destruct (negb _); [done|]. destruct (negb _); [done|].
  destruct (toPem chain); [|done]. etransitivity; [exact K|apply publishDeviceCertChain_kept].
Qed.

Lemma store_certificate_kept payload s : kept s (store_certificate payload s).2.
Proof.
  unfold store_certificate. destruct (parse _ _) as [chain|]; [|apply kept_refl].
  destruct (negb _); [apply kept_refl|]. destruct (toPem chain); [|apply kept_refl].
  apply publishDeviceCertChain_kept.
Qed.

Lemma ensure_tls_material_ready_kept profile s : kept s (ensure_tls_material_ready profile s).2.
Proof.
  unfold ensure_tls_material_ready. destruct (sv_tls s) as [p|]; [|apply kept_refl].
  destruct (getTlsCredentialState _ _) as [rc state]. destruct (_ && _); [apply kept_refl|].
  set (s1 := if str_empty (sv_vin s) || str_empty (sv_ecu_uid s) then (ensure_vehicle_info s).2 else s).
  assert (K : kept s s1).
  { unfold s1. destruct (_ || _); [apply ensure_vehicle_info_kept|apply kept_refl]. }
  cbn zeta. clearbody s1. destruct (_ || _); [done|]. etransitivity; [exact K|]. apply on_tls_kept, loadMaterials_same.
Qed.
End Frame.
