(* ===== verification/ProvisionProps.v ===== *)
(** * ProvisionProps: the provisioning state machine of [SecService].
    What every call may do to the persisted state, and what an accepted injection
    has checked and published. *)
From S2P Require Import Prelude Errors Canonical Json X509 SoftFile TimeTypes Provider Tls CertStore KeyEngine Csr CertChain CertCheck SecService SeedProps SecFrame.

Section Calls.
Context {W : Type} `{L : X509Lib} `{World : !SecWorld W} `{Hsm : !HsmInterface W} `{FS : !FileSystem W}
  `{SL : !StoreLaws W}
  `{Crypto : SoftFileCrypto} `{Hash : Sha256} `{J : Json} `{JL : !JsonLaws J} `{JC : !JsonConstIndex}
  `{Aes : Aes128} `{LT : LocalTime} `{Ec : EcPoints}.
Implicit Types s : SecService W.

(** The state on record. *)
Definition state_of s : ProvisionState := pv_state (get_provision_status s).

(* --------------------------------------------------------------------- *)
(** ** Reading and writing the status                                     *)
(* --------------------------------------------------------------------- *)

Lemma string_to_state_roundtrip st : string_to_provision_state (provision_state_to_string st) = st.
Proof. by destruct st. Qed.

(** What is written reads back; the count as an [int], the time to the second. *)
Lemma status_roundtrip p : - 2 ^ 31 <= pv_retry_count p <= 2 ^ 31 ->
  status_from_json (status_to_json p) =
    Some (mkStatus (pv_vin p) (pv_ecu_uid p) (pv_state p) (pv_last_error p) (wrap_i32 (pv_retry_count p))
      (local_parse (local_format (Z.quot (pv_last_updated p) 1000000000)) * 1000000000)).
Proof.
  intros Hr. unfold status_from_json, status_to_json.
  repeat (erewrite json_at_present by (rewrite json_of_fields_get; reflexivity); cbn [mbind option_bind]).
  rewrite !as_string_string. cbn [mbind option_bind]. rewrite as_int_int by (right; unfold is_i64; lia).
  cbn [mbind option_bind]. by rewrite string_to_state_roundtrip.
Qed.

Lemma load_status_count s : - 2 ^ 31 <= pv_retry_count (load_provision_status_from_store s) < 2 ^ 31.
Proof.
  unfold load_provision_status_from_store. destruct (negb _); [done|].
  destruct (sw_store_load _ _) as [v| |]; try done. destruct (json_parse v) as [j|]; [|done].
  unfold status_from_json. destruct (json_at j "vin" ≫= as_string); [|done]. cbn.
  destruct (json_at j "ecu_uid" ≫= as_string); [|done]. cbn.
  destruct (json_at j "state" ≫= as_string); [|done]. cbn.
  destruct (json_at j "last_error" ≫= as_string); [|done]. cbn.
  destruct (json_at j "retry_count" ≫= as_int); [|done]. cbn.
  destruct (json_at j "last_updated" ≫= as_string); [|done]. apply wrap_i32_range.
Qed.

Lemma get_status_count s : - 2 ^ 31 <= pv_retry_count (get_provision_status s) < 2 ^ 31.
Proof.
  unfold get_provision_status. pose proof (load_status_count s). by repeat case_match.
Qed.

(** The state on record is the state that loads. *)
Lemma state_of_loaded s : state_of s =
  if store_usable s then pv_state (load_provision_status_from_store s) else NONE.
Proof.
  unfold state_of, get_provision_status. destruct (store_usable s); [|done].
  set (p := load_provision_status_from_store s). case_bool_decide as E; cbn [negb orb]; [|done].
  destruct (negb _); [done|]. by destruct (sw_store_has _ _).
Qed.

Lemma store_usable_same s s' : store_same (sv_world s) (sv_world s') -> sv_has_store s' = sv_has_store s ->
  store_usable s' = store_usable s.
Proof. intros K E. unfold store_usable. by rewrite E, (ss_ready _ _ _ K). Qed.

Lemma wiring_fields s s' : wiring s' = wiring s ->
  sv_has_store s' = sv_has_store s /\ sv_initialized s' = sv_initialized s /\
  sv_shutting_down s' = sv_shutting_down s /\ sv_has_diag s' = sv_has_diag s /\
  sv_key_engine s' = sv_key_engine s /\ sv_config s' = sv_config s.
Proof. unfold wiring. by intros [=]. Qed.

Lemma state_of_kept s s' : kept s s' -> state_of s' = state_of s.
Proof.
  intros [K _ [E _]%wiring_fields]. rewrite !state_of_loaded. rewrite (store_usable_same s s') by done.
  unfold load_provision_status_from_store. rewrite (store_usable_same s s') by done.
  by rewrite (ss_load _ _ _ K) by (by intros []).
Qed.

(* --------------------------------------------------------------------- *)
(** ** Steps of the state                                                 *)
(* --------------------------------------------------------------------- *)

(** The guard and the wiring are kept, and the state is the old one or one of [P]. *)
Record upto (P : ProvisionState -> Prop) s s' : Prop := {
  up_guard : same_guard s s';
  up_wiring : wiring s' = wiring s;
  up_state : state_of s' = state_of s \/ P (state_of s');
  up_tls : sv_tls s <> None -> sv_tls s' <> None
}.

Lemma upto_kept P s s' : kept s s' -> upto P s s'.
Proof. intros K. pose proof (state_of_kept _ _ K). destruct K. constructor; auto. Qed.

Lemma upto_refl P s : upto P s s.
Proof. apply upto_kept, kept_refl. Qed.

Lemma upto_trans P s1 s2 s3 : upto P s1 s2 -> upto P s2 s3 -> upto P s1 s3.
Proof.
  intros [G1 E1 S1 T1] [G2 E2 S2 T2]. constructor; [by etransitivity|congruence| |auto].
  destruct S2 as [->|]; [done|auto].
Qed.

Lemma upto_weaken (P Q : ProvisionState -> Prop) s s' :
  (forall st, P st -> Q st) -> upto P s s' -> upto Q s s'.
Proof. intros H [G E [S|S] T]; constructor; auto. Qed.

(** Saving a status: it is on record afterwards, or the old one still is. *)
Lemma save_status_upto P p s : P (pv_state p) -> - 2 ^ 31 <= pv_retry_count p <= 2 ^ 31 ->
  upto P s (save_provision_status_to_store p s).
Proof.
  intros Hp Hr. unfold save_provision_status_to_store. destruct (store_usable s) eqn:Eu; cbn [negb]; [|apply upto_refl].
  unfold on_world. destruct (sw_store_save _ _ (sv_world s)) as [[|] w] eqn:E; cbn [snd].
  2:{ apply upto_kept, kept_world. by eapply save_fails. }
  destruct (save_done _ _ _ _ E) as ([R _ _] & _ & Hl). constructor; [done|done|right|done].
  rewrite state_of_loaded. assert (Hu : store_usable (sv_with_world w s) = true).
  { unfold store_usable in *. cbn. by rewrite R. }
  rewrite Hu. unfold load_provision_status_from_store. rewrite Hu. cbn [negb sv_world sv_with_world].
  rewrite Hl, json_parse_dump, status_roundtrip by done. done.
Qed.

Lemma update_upto (P : ProvisionState -> Prop) st e s : P st -> upto P s (update_provision_state st e s).
Proof.
  intros Hp. unfold update_provision_state. pose proof (get_status_count s) as Hc.
  pose proof (on_world_kept sw_system_now s (kp_system _)) as K.
  destruct (on_world sw_system_now s) as [now s1]. cbn [snd] in K.
  eapply upto_trans; [apply upto_kept, K|]. destruct (store_usable s1); [|apply upto_refl].
  apply save_status_upto; [done|]. cbn. destruct st; lia.
Qed.

Lemma handle_error_upto (P : ProvisionState -> Prop) e c s : P FAILED -> upto P s (handle_error e c s).
Proof. apply update_upto. Qed.
Lemma ensure_vehicle_info_upto P s : upto P s (ensure_vehicle_info s).2.
Proof. apply upto_kept, ensure_vehicle_info_kept. Qed.
Lemma handle_diag_request_upto P t d s : upto P s (handle_diag_request t d s).2.
Proof. apply upto_kept, handle_diag_request_kept. Qed.

(** Take the next call of a body and go on from the state it leaves. *)
Ltac next_call lem :=
  let U := fresh "U" in
  pose proof lem as U;
  match type of U with upto _ _ (?m).2 =>
    let r := fresh "r" in let t := fresh "s" in destruct m as [r t]; cbn [fst snd] in U |- *
  end;
  eapply upto_trans; [exact U|]; clear U.

Lemma via_diag_upto (P : ProvisionState -> Prop) t d c next s :
  P FAILED -> P next -> upto P s (via_diag t d c next s).2.
Proof.
  intros Hf Hn. unfold via_diag. next_call (handle_diag_request_upto P t d s). destruct r as [rc resp].
  destruct (negb _); [by apply handle_error_upto|]. cbn [snd].
  destruct (is_success _); [by apply update_upto|apply upto_refl].
Qed.

Lemma generate_key_pair_upto (P : ProvisionState -> Prop) s :
  P FAILED -> P KEY_GENERATED -> upto P s (generate_key_pair s).2.
Proof.
  intros Hf Hn. unfold generate_key_pair. destruct (negb _); [apply upto_refl|].
  destruct (sv_shutting_down s); [apply upto_refl|]. next_call (ensure_vehicle_info_upto P s).
  destruct (negb _); [apply upto_refl|]. destruct (_ && _); [apply upto_refl|].
  destruct (sv_has_diag _); [by apply via_diag_upto|].
  next_call (upto_kept P _ _ (generate_and_store_key_pair_kept s0)).
  destruct (negb _); [by apply handle_error_upto|by apply update_upto].
Qed.

Lemma get_csr_upto (P : ProvisionState -> Prop) s :
  (state_of s <> NONE -> P FAILED /\ P CSR_BUILT) -> upto P s (get_csr s).2.
Proof.
  intros HP. unfold get_csr. destruct (negb _); [apply upto_refl|].
  pose proof (state_of_kept _ _ (ensure_vehicle_info_kept s)) as Hs.
  next_call (ensure_vehicle_info_upto P s).
  destruct (negb _); [apply upto_refl|]. fold (state_of s0). cbn [snd] in *. rewrite Hs. case_bool_decide as Hn; [apply upto_refl|].
  destruct (HP Hn) as [Hf Hb]. destruct (_ || _); [|apply upto_refl].
  next_call (upto_kept P _ _ (build_and_store_csr_kept s0)).
  destruct (negb _); [by apply handle_error_upto|by apply update_upto].
Qed.

Lemma submit_csr_upto (P : ProvisionState -> Prop) s :
  (state_of s = CSR_BUILT -> sv_has_diag s = true -> P FAILED /\ P CSR_SUBMITTED) -> upto P s (submit_csr s).2.
Proof.
  intros HP. unfold submit_csr. destruct (negb _); [apply upto_refl|].
  destruct (sv_shutting_down s); [apply upto_refl|].
  pose proof (ensure_vehicle_info_kept s) as K. pose proof (state_of_kept _ _ K) as Hs.
  pose proof (wiring_fields _ _ (kt_wiring _ _ K)) as (_ & _ & _ & Hd & _). clear K.
  next_call (ensure_vehicle_info_upto P s).
  destruct (negb _); [apply upto_refl|]. fold (state_of s0). cbn [snd] in *. rewrite Hs. case_bool_decide as Hn; [|apply upto_refl].
  cbn [negb]. rewrite Hd. destruct (sv_has_diag s) eqn:Ed; [|apply upto_refl].
  destruct (HP Hn eq_refl). by apply via_diag_upto.
Qed.

Lemma inject_certificate_upto (P : ProvisionState -> Prop) payload s :
  (state_of s = CSR_BUILT \/ state_of s = CSR_SUBMITTED \/ state_of s = FAILED -> P FAILED /\ P CERT_INSTALLED) ->
  upto P s (inject_certificate payload s).2.
Proof.
  intros HP. unfold inject_certificate. destruct (negb _); [apply upto_refl|].
  destruct (sv_shutting_down s); [apply upto_refl|].
  pose proof (state_of_kept _ _ (ensure_vehicle_info_kept s)) as Hs.
  next_call (ensure_vehicle_info_upto P s).
  destruct (negb _); [apply upto_refl|]. fold (state_of s0). cbn [snd] in *. rewrite Hs.
  destruct (negb _ && negb _ && negb _) eqn:Eg; [apply upto_refl|].
  destruct HP as [Hf Hi].
  { destruct (state_of s); auto; exfalso; revert Eg; by repeat case_bool_decide. }
  clear Eg.
  destruct (sv_has_diag _).
  - next_call (via_diag_upto P DIAG_INJECT_CERTIFICATE payload "Certificate injection via DIAG failed"
      CERT_INSTALLED s0 Hf Hi). apply upto_refl.
  - next_call (upto_kept P _ _ (validate_and_store_certificate_kept payload s0)).
    destruct r0 as [rc|]; [|apply upto_refl]. destruct (negb _); [by apply handle_error_upto|by apply update_upto].
Qed.

(** What [apply_certificate] may leave, seen from the state it found. *)
Definition apply_leaves (a b : ProvisionState) : bool :=
  match a, b with
  | CERT_INSTALLED, _ => false
  | _, FAILED => true
  | FAILED, (NONE | KEY_GENERATED | CSR_BUILT) => true
  | NONE, (KEY_GENERATED | CSR_BUILT) => true
  | KEY_GENERATED, CSR_BUILT => true
  | _, _ => false
  end.

Lemma apply_steps_upto (P : ProvisionState -> Prop) state s :
  sv_has_diag s = false -> P FAILED ->
  (state = NONE -> P KEY_GENERATED) -> (state = NONE \/ state = KEY_GENERATED -> P CSR_BUILT) ->
  upto P s (apply_steps state s).2.
Proof.
  intros Hd Hf Hk Hb. unfold apply_steps.
  assert (U1 : forall rc st s1, (if bool_decide (state = NONE) then
      let '(result, s) := generate_key_pair s in (result, KEY_GENERATED, s) else (SUCCESS, state, s)) = (rc, st, s1) ->
    upto P s s1 /\ (st = KEY_GENERATED \/ st = NONE -> P CSR_BUILT)).
  { intros rc st s1. case_bool_decide as E.
    - pose proof (generate_key_pair_upto P s Hf (Hk E)). destruct (generate_key_pair s). intros [= <- <- <-]. auto.
    - intros [= <- <- <-]. split; [apply upto_refl|tauto]. }
  destruct (if bool_decide (state = NONE) then _ else _) as [[rc st] s1]. destruct (U1 _ _ _ eq_refl) as [V1 Hb1].
  destruct (negb _); [done|].
  assert (U2 : forall rc st' s2, (if bool_decide (st = KEY_GENERATED) then
      let '((result, _), s) := get_csr s1 in (result, CSR_BUILT, s) else (SUCCESS, st, s1)) = (rc, st', s2) ->
    upto P s1 s2).
  { intros rc' st' s2. case_bool_decide as E; [|intros [= <- <- <-]; apply upto_refl].
    pose proof (get_csr_upto P s1 ltac:(auto)). destruct (get_csr s1) as [[] ?]. by intros [= <- <- <-]. }
  destruct (if bool_decide (st = KEY_GENERATED) then _ else _) as [[rc2 st2] s2].
  specialize (U2 _ _ _ eq_refl). destruct (negb _); [by eapply upto_trans|].
  pose proof (upto_trans _ _ _ _ V1 U2) as V2. destruct (bool_decide _); [|done].
  eapply upto_trans; [exact V2|]. apply submit_csr_upto. intros _ Hd'.
  pose proof (wiring_fields _ _ (up_wiring _ _ _ V2)). destruct_and!. congruence.
Qed.

Lemma apply_certificate_upto s : upto (fun b => apply_leaves (state_of s) b = true) s (apply_certificate s).2.
Proof.
  unfold apply_certificate. destruct (negb _); [apply upto_refl|].
  destruct (sv_shutting_down s); [apply upto_refl|]. fold (state_of s).
  case_bool_decide as Hi; [apply upto_refl|]. set (P := fun b => _).
  assert (Hf : P FAILED) by (unfold P; by destruct (state_of s)).
  assert (U1 : forall st s1, (if bool_decide (state_of s = FAILED) then
      (NONE, if store_usable s then save_provision_status_to_store
        (mkStatus (pv_vin (get_provision_status s)) (pv_ecu_uid (get_provision_status s)) NONE "" 0
          (pv_last_updated (get_provision_status s))) s else s) else (state_of s, s)) = (st, s1) ->
    upto P s s1 /\ (st = NONE -> P KEY_GENERATED) /\ (st = NONE \/ st = KEY_GENERATED -> P CSR_BUILT)).
  { intros st s1. unfold P. case_bool_decide as E; intros [= <- <-].
    - rewrite E. split; [|done]. destruct (store_usable s); [|apply upto_refl].
      by apply save_status_upto.
    - split; [apply upto_refl|]. split; [by intros ->|]. by intros [-> | ->]. }
  destruct (if bool_decide (state_of s = FAILED) then _ else _) as [st s1].
  destruct (U1 _ _ eq_refl) as (V1 & Hk & Hb). eapply upto_trans; [exact V1|].
  destruct (sv_has_diag s1) eqn:Ed; [|by apply apply_steps_upto].
  next_call (handle_diag_request_upto P DIAG_APPLY_CERTIFICATE [] s1). destruct r as [rc resp].
  destruct (negb _); [by apply handle_error_upto|apply upto_refl].
Qed.

Lemma reset_upto s : let s' := (reset_provision_status s).2 in
  same_guard s s' /\ (state_of s' = state_of s \/ state_of s' = NONE).
Proof.
  unfold reset_provision_status. destruct (negb _); [split; [done|by left]|]. cbn [snd].
  assert (Hcsr : forall x, state_of (sv_with_csr_der [] x) = state_of x)
    by (intros x; apply state_of_kept; by constructor).
  rewrite Hcsr. destruct (store_usable s) eqn:Eu; [|split; [by constructor|by left]].
  unfold on_world. destruct (sw_store_remove _ (sv_world s)) as [[|] w] eqn:E; cbn [snd]; (split; [by constructor|]).
  - right. destruct (remove_done _ _ _ E) as (_ & _ & Hl). rewrite state_of_loaded.
    unfold load_provision_status_from_store. cbn [sv_world sv_with_world]. rewrite Hl. by repeat case_match.
  - left. apply state_of_kept, kept_world. by eapply remove_fails.
Qed.

(** The seed functions read the clock, draw random bytes, and may report an error. *)
Lemma is_in_lockout_kept s : kept s (is_in_lockout s).2.
Proof.
  unfold is_in_lockout. destruct (negb _); [apply kept_refl|].
  pose proof (on_world_kept sw_steady_now s (kp_steady _)) as K. by destruct (on_world _ s).
Qed.
Lemma is_seed_valid_kept s : kept s (is_seed_valid s).2.
Proof.
  unfold is_seed_valid. destruct (_ || _); [apply kept_refl|].
  pose proof (on_world_kept sw_steady_now s (kp_steady _)) as K. by destruct (on_world _ s).
Qed.

(** Where the guard moves: only the state of the provisioning is followed. *)
Definition state_upto (P : ProvisionState -> Prop) s s' : Prop :=
  state_of s' = state_of s \/ P (state_of s').
Lemma state_upto_of P s s' : upto P s s' -> state_upto P s s'.
Proof. apply up_state. Qed.
Lemma state_upto_kept P s s1 s2 : kept s s1 -> state_upto P s1 s2 -> state_upto P s s2.
Proof. intros K. unfold state_upto. by rewrite (state_of_kept _ _ K). Qed.
Lemma state_of_world s s' : sv_world s' = sv_world s -> sv_has_store s' = sv_has_store s -> state_of s' = state_of s.
Proof.
  intros Hw Hs. rewrite !state_of_loaded. unfold load_provision_status_from_store, store_usable.
  by rewrite Hw, Hs.
Qed.

Lemma get_seed_state level s : state_upto (eq FAILED) s (get_seed level s).2.
Proof.
  unfold get_seed. destruct (negb _); [by left|]. destruct (sv_shutting_down s); [by left|].
  destruct (_ || _); [by left|].
  pose proof (is_in_lockout_kept s) as K1. destruct (is_in_lockout s) as [b s1]. cbn [snd] in K1.
  destruct b; [by apply (state_upto_kept _ _ _ _ K1); left|]. apply (state_upto_kept _ _ _ _ K1). clear K1.
  unfold generate_random_seed.
  pose proof (on_world_kept (fs_RAND_bytes SEED_KEY_SIZE) s1 (kp_random _ _)) as K2.
  destruct (on_world _ s1) as [[seed|] s2]; cbn [snd] in K2; apply (state_upto_kept _ _ _ _ K2); clear K2.
  - pose proof (on_world_kept sw_steady_now s2 (kp_steady _)) as K3. destruct (on_world _ s2) as [now s3].
    apply (state_upto_kept _ _ _ _ K3). left. by apply state_of_world.
  - apply state_upto_of, handle_error_upto. done.
Qed.

Lemma increment_failed_attempts_state s : state_of (increment_failed_attempts s) = state_of s.
Proof.
  unfold increment_failed_attempts. destruct (_ >=? _); [|by apply state_of_world].
  set (s1 := sv_with_in_lockout _ _). pose proof (on_world_kept sw_steady_now s1 (kp_steady _)) as K.
  destruct (on_world _ s1) as [now s2]. cbn [snd] in K.
  transitivity (state_of s2); [by apply state_of_world|]. rewrite (state_of_kept _ _ K). by apply state_of_world.
Qed.

Lemma verify_key_state level key s : state_upto (eq FAILED) s (verify_key level key s).2.
Proof.
  unfold verify_key. destruct (negb _); [by left|]. destruct (sv_shutting_down s); [by left|].
  destruct (_ || _); [by left|].
  pose proof (is_in_lockout_kept s) as K1. destruct (is_in_lockout s) as [b s1]. cbn [snd] in K1.
  apply (state_upto_kept _ _ _ _ K1). clear K1. destruct b; [by left|].
  pose proof (is_seed_valid_kept s1) as K2. destruct (is_seed_valid s1) as [ok s2]. cbn [snd] in K2.
  apply (state_upto_kept _ _ _ _ K2). clear K2. destruct (negb _); [by left|]. destruct (negb _); [by left|].
  destruct (compute_expected_key _ s2) as [rc exp]. destruct (negb _); [by apply state_upto_of, handle_error_upto|].
  left. destruct (constantTimeEqual key exp); [by apply state_of_world|].
  transitivity (state_of (increment_failed_attempts s2)); [by apply state_of_world|].
  apply increment_failed_attempts_state.
Qed.

(* --------------------------------------------------------------------- *)
(** ** The state machine                                                  *)
(* --------------------------------------------------------------------- *)

(** The calls of the service. *)
Inductive ServiceCall :=
  | GenerateKeyPair | GetCsr | SubmitCsr | InjectCertificate (payload : bytes) | ApplyCertificate
  | ResetProvisionStatus | StoreCertificate (payload : bytes) | EnsureTlsMaterial (profile : string)
  | ExportPrivateKey | SaveState | GetSeed (level : Z) | VerifyKey (level : Z) (key : bytes).

Definition perform (c : ServiceCall) s : SecService W :=
  match c with
  | GenerateKeyPair => (generate_key_pair s).2
  | GetCsr => (get_csr s).2
  | SubmitCsr => (submit_csr s).2
  | InjectCertificate payload => (inject_certificate payload s).2
  | ApplyCertificate => (apply_certificate s).2
  | ResetProvisionStatus => (reset_provision_status s).2
  | StoreCertificate payload => (store_certificate payload s).2
  | EnsureTlsMaterial profile => (ensure_tls_material_ready profile s).2
  | ExportPrivateKey => (export_private_key s).2
  | SaveState => (save_state s).2
  | GetSeed level => (get_seed level s).2
  | VerifyKey level key => (verify_key level key s).2
  end.

(** The moves a call may make, from the state it found to another one. *)
Definition may_move (c : ServiceCall) (a b : ProvisionState) : bool :=
  match c with
  | GenerateKeyPair => match b with KEY_GENERATED | FAILED => true | _ => false end
  | GetCsr => match a, b with NONE, _ => false | _, (CSR_BUILT | FAILED) => true | _, _ => false end
  | SubmitCsr => match a, b with CSR_BUILT, (CSR_SUBMITTED | FAILED) => true | _, _ => false end
  | InjectCertificate _ =>
      match a, b with (CSR_BUILT | CSR_SUBMITTED | FAILED), (CERT_INSTALLED | FAILED) => true | _, _ => false end
  | ApplyCertificate => apply_leaves a b
  | ResetProvisionStatus => match b with NONE => true | _ => false end
  | GetSeed _ | VerifyKey _ _ => match b with FAILED => true | _ => false end
  | StoreCertificate _ | EnsureTlsMaterial _ | ExportPrivateKey | SaveState => false
  end.

Lemma export_private_key_kept s : kept s (export_private_key s).2.
Proof.
  unfold export_private_key. destruct (negb _); [apply kept_refl|].
  pose proof (ensure_vehicle_info_kept s) as K. destruct (ensure_vehicle_info s) as [rc s1]. cbn [snd] in K.
  destruct (negb _); [done|]. by destruct (negb _).
Qed.

(** C14. The provisioning state machine. Every call of the service, from any state and
    however the store, the HSM, the PROV and the DIAG service answer, leaves the
    persisted state or makes one of the moves of [may_move]; in particular only an
    injection can enter [CERT_INSTALLED]. *)
Theorem provision_moves c s :
  state_of (perform c s) = state_of s \/ may_move c (state_of s) (state_of (perform c s)) = true.
Proof.
  destruct c; cbn [perform may_move].
  - apply (up_state (fun b => may_move GenerateKeyPair (state_of s) b = true)). by apply generate_key_pair_upto.
  - apply (up_state (fun b => may_move GetCsr (state_of s) b = true)). apply get_csr_upto.
    cbn. by destruct (state_of s).
  - apply (up_state (fun b => may_move SubmitCsr (state_of s) b = true)). apply submit_csr_upto. by intros ->.
  - apply (up_state (fun b => may_move (InjectCertificate payload) (state_of s) b = true)).
    apply inject_certificate_upto. by intros [-> | [-> | ->]].
  - apply (up_state _ _ _ (apply_certificate_upto s)).
  - destruct (proj2 (reset_upto s)) as [->|Hr]; [by left|right]. by rewrite Hr.
  - left. apply state_of_kept, store_certificate_kept.
  - left. apply state_of_kept, ensure_tls_material_ready_kept.
  - left. apply state_of_kept, export_private_key_kept.
  - unfold save_state. destruct (store_usable s); [|by left]. left. cbn [snd].
    destruct (save_status_upto (fun st => st = state_of s) (get_provision_status s) s) as [_ _ [?|?] _]; try done.
    pose proof (get_status_count s). lia.
  - destruct (get_seed_state level s) as [->|H]; [by left|right]. by rewrite <- H.
  - destruct (verify_key_state level key s) as [->|H]; [by left|right]. by rewrite <- H.
Qed.

(** The TLS provider, once there, stays. *)
Lemma handle_error_tls e c s : sv_tls s <> None -> sv_tls (handle_error e c s) <> None.
Proof. by apply (up_tls (fun _ => True)), handle_error_upto. Qed.

Lemma get_seed_tls level s : sv_tls s <> None -> sv_tls (get_seed level s).2 <> None.
Proof.
  intros Ht. unfold get_seed. destruct (negb _); [done|]. destruct (sv_shutting_down s); [done|].
  destruct (_ || _); [done|].
  pose proof (kt_tls _ _ (is_in_lockout_kept s) Ht) as H1. destruct (is_in_lockout s) as [b s1]. cbn [snd] in H1.
  destruct b; [done|]. unfold generate_random_seed.
  pose proof (kt_tls _ _ (on_world_kept (fs_RAND_bytes SEED_KEY_SIZE) s1 (kp_random _ _)) H1) as H2.
  destruct (on_world _ s1) as [[seed|] s2]; cbn [snd] in H2; [|by apply handle_error_tls].
  pose proof (kt_tls _ _ (on_world_kept sw_steady_now s2 (kp_steady _)) H2) as H3. by destruct (on_world _ s2).
Qed.

Lemma increment_failed_attempts_tls s : sv_tls (increment_failed_attempts s) = sv_tls s.
Proof. unfold increment_failed_attempts, on_world. destruct (_ >=? _); [|done]. cbn. by destruct (sw_steady_now _). Qed.

Lemma verify_key_tls level key s : sv_tls s <> None -> sv_tls (verify_key level key s).2 <> None.
Proof.
  intros Ht. unfold verify_key. destruct (negb _); [done|]. destruct (sv_shutting_down s); [done|].
  destruct (_ || _); [done|].
  pose proof (kt_tls _ _ (is_in_lockout_kept s) Ht) as H1. destruct (is_in_lockout s) as [b s1]. cbn [snd] in H1.
  destruct b; [done|].
  pose proof (kt_tls _ _ (is_seed_valid_kept s1) H1) as H2. destruct (is_seed_valid s1) as [ok s2]. cbn [snd] in H2.
  destruct (negb _); [done|]. destruct (negb _); [done|].
  destruct (compute_expected_key _ s2) as [rc exp]. destruct (negb _); [by apply handle_error_tls|].
  destruct (constantTimeEqual key exp); [done|]. cbn. by rewrite increment_failed_attempts_tls.
Qed.

Lemma perform_tls c s : sv_tls s <> None -> sv_tls (perform c s) <> None.
Proof.
  pose (P := fun _ : ProvisionState => True). destruct c; cbn [perform].
  - by apply (up_tls P), generate_key_pair_upto.
  - by apply (up_tls P), get_csr_upto.
  - by apply (up_tls P), submit_csr_upto.
  - by apply (up_tls P), inject_certificate_upto.
  - apply (up_tls _ _ _ (apply_certificate_upto s)).
  - unfold reset_provision_status. destruct (negb _); [done|]. cbn [snd]. destruct (store_usable s); [|done].
    unfold on_world. by destruct (sw_store_remove _ _).
  - apply (kt_tls _ _ (store_certificate_kept payload s)).
  - apply (kt_tls _ _ (ensure_tls_material_ready_kept profile s)).
  - apply (kt_tls _ _ (export_private_key_kept s)).
  - unfold save_state. destruct (store_usable s); [|done]. apply (up_tls P), save_status_upto; [done|].
    pose proof (get_status_count s). lia.
  - apply get_seed_tls.
  - apply verify_key_tls.
Qed.

(** Every call but [get_seed] and [verify_key] is one of the other steps of a run of
    seeds and keys. *)
Lemma perform_guard c s :
  match c with GetSeed _ | VerifyKey _ _ => True | _ => same_guard s (perform c s) end.
Proof.
  destruct c; cbn [perform]; try done.
  - by apply (up_guard (fun _ => True)), generate_key_pair_upto.
  - by apply (up_guard (fun _ => True)), get_csr_upto.
  - by apply (up_guard (fun _ => True)), submit_csr_upto.
  - by apply (up_guard (fun _ => True)), inject_certificate_upto.
  - apply (up_guard _ _ _ (apply_certificate_upto s)).
  - apply reset_upto.
  - apply kt_guard, store_certificate_kept.
  - apply kt_guard, ensure_tls_material_ready_kept.
  - apply kt_guard, export_private_key_kept.
  - unfold save_state. destruct (store_usable s); [|done]. cbn [snd].
    apply (up_guard (fun _ => True)), save_status_upto; [done|]. pose proof (get_status_count s). lia.
Qed.

(* --------------------------------------------------------------------- *)
(** ** What an installed certificate has passed                           *)
(* --------------------------------------------------------------------- *)

(** The leaf is a device certificate of this unit, within its validity by trusted
    time, and carries the public key of the device key in the HSM. *)
Definition leaf_checked (leaf : X509) s : Prop :=
  let smp := (sw_trusted_now (sv_world s)).1 in
  leaf_profile_ok leaf (sv_ecu_uid s) = true /\
  is_trusted smp = true /\ check_certificate_validity smp leaf = (SUCCESS, true) /\
  exists pub, x509_ec_point leaf = Some pub /\ pub <> [] /\
    hsm_key_exists (make_key_id (sv_ecu_uid s) (sv_ecu_uid s)) (sv_world s) = true /\
    hsm_export_public_key (make_key_id (sv_ecu_uid s) (sv_ecu_uid s)) (sv_world s) = (SUCCESS, pub).

(** No certificate of the chain is one of the trust roots of the store. *)
Definition no_root_in (chain : ParsedCertificateChain) s : Prop :=
  forall root_pem root, sw_store_has "root_ca" (sv_world s) = true ->
    sw_store_load "root_ca" (sv_world s) = LoadOk root_pem -> root_pem <> "" ->
    root ∈ PEM_read_bio_X509s root_pem -> i2d_X509 root <> [] ->
    SHA256 (i2d_X509 root) ∉ pc_cert_der_sha256 chain.

Lemma validate_certificate_checked leaf s w :
  validate_certificate sw_trusted_now (engine s) (sv_ecu_uid s) leaf (sv_world s) (sv_world s) =
    ((SUCCESS, true), w) -> leaf_checked leaf s.
Proof.
  unfold validate_certificate, leaf_checked. destruct (leaf_profile_ok _ _); cbn [negb]; [|done].
  destruct (sw_trusted_now (sv_world s)) as [smp t]. cbn [fst].
  destruct (check_certificate_validity smp leaf) as [rc ok] eqn:Ev. destruct (is_success rc) eqn:Er; cbn [negb]; [|done].
  apply is_success_true in Er as ->. destruct ok; cbn [negb]; [|done].
  destruct (match_certificate_key _ _ _ _) as [rc m] eqn:Em. destruct (is_success rc) eqn:Er; cbn [negb]; [|by intros [= ->]].
  destruct m; [|done]. intros _. apply is_success_true in Er as ->. split; [done|]. split.
  { revert Ev. unfold check_certificate_validity. by destruct (is_trusted smp). }
  split; [done|]. revert Em. unfold match_certificate_key.
  destruct (x509_ec_point leaf) as [[|b pub]|] eqn:Ep; cbn [default bytes_empty]; [done| |done].
  unfold get_device_key. destruct (negb _); [done|]. destruct (hsm_key_exists _ _) eqn:Ee; cbn [negb]; [|done].
  destruct (hsm_export_public_key _ _) as [rc2 pub2] eqn:Ex. destruct (is_success rc2) eqn:Er; cbn [negb]; [|by intros [= ->]].
  apply is_success_true in Er as ->. cbn [kp_public_key]. intros [= Hb%bool_decide_eq_true]. subst. by exists (b :: pub).
Qed.

Lemma reject_root_spec chain s : store_usable s = true ->
  rejectRootInjectedIntoChain chain s = SUCCESS -> no_root_in chain s.
Proof.
  unfold rejectRootInjectedIntoChain, no_root_in. intros -> H root_pem root Hh Hl Hne Hr Hd Hin.
  rewrite Hh, Hl in H. cbn [negb orb] in H. destruct (str_empty root_pem) eqn:Ee; [by apply str_empty_true in Ee|].
  assert (Hx : existsb (fun d => bool_decide (d ∈ SHA256 <$> filter (fun d => d <> [])
      (i2d_X509 <$> PEM_read_bio_X509s root_pem))) (pc_cert_der_sha256 chain) = true).
  { apply existsb_exists. exists (SHA256 (i2d_X509 root)). split; [by apply list_elem_of_In|].
    apply bool_decide_eq_true, list_elem_of_fmap. exists (i2d_X509 root). split; [done|].
    apply list_elem_of_filter. split; [done|]. apply list_elem_of_fmap. by exists root. }
  by rewrite Hx in H.
Qed.

(** The digest of the chain the certificate store publishes. *)
Definition published_digest s : string :=
  match sv_cert_store s with Some c => currentChainDigest c | None => "" end.

Lemma commit_digest c (x : CertificateStore (F:=W)) x' :
  commit c x = (Some SUCCESS, x') -> currentChainDigest x' = sha256Hex (cc_device_cert_chain_pem c).
Proof.
  unfold commit. destruct (negb _); [done|]. destruct (str_empty _); [done|].
  destruct (newGenerationId _) as [gid f]. destruct (json_parse _) as [dc|]; [|done].
  destruct (writeGeneration _ f) as [ok f2]. destruct (negb ok); [done|].
  destruct (loadGeneration _ _ _); try done.
  destruct (switchCurrent _ _ _) as [ok3 f3]. destruct (negb ok3); [done|]. by intros [= <-].
Qed.

Lemma publish_digest pem s s' :
  publishDeviceCertChain pem s = (Some SUCCESS, s') -> published_digest s' = sha256Hex pem.
Proof.
  unfold publishDeviceCertChain, published_digest. destruct (sv_cert_store s) as [c|] eqn:Hcs; [|done].
  destruct (_ && _) eqn:Ed.
  { intros [= <-]. rewrite Hcs. apply andb_true_iff in Ed as [_ Ed%String.eqb_eq]. done. }
  unfold on_cert_store. destruct (commit _ _) as [rc x] eqn:Em.
  destruct rc as [rc|]; [|done]. destruct (is_success rc) eqn:Er; cbn [negb]; [|by intros [= ->]].
  apply is_success_true in Er as ->. apply commit_digest in Em. intros [= <-]. unfold reload_mqtt.
  assert (H : forall s2, sv_cert_store s2 = Some (cert_attach tt x) ->
    match sv_cert_store s2 with Some c => currentChainDigest c | None => "" end = sha256Hex pem)
    by (intros s2 ->; exact Em).
  destruct (sv_tls _) as [p|]; [|by apply H]. unfold on_tls. destruct (rotateCredential _ _) as [a q]. by apply H.
Qed.

Lemma update_keeps_cert_store st e s : sv_cert_store (update_provision_state st e s) = sv_cert_store s.
Proof.
  unfold update_provision_state, on_world. destruct (sw_system_now _) as [now w].
  destruct (store_usable _); [|done]. unfold save_provision_status_to_store. destruct (negb _); [done|].
  unfold on_world. by destruct (sw_store_save _ _ _).
Qed.

Lemma update_keeps_tls st e s : sv_tls (update_provision_state st e s) = sv_tls s.
Proof.
  unfold update_provision_state, on_world. destruct (sw_system_now _) as [now w].
  destruct (store_usable _); [|done]. unfold save_provision_status_to_store. destruct (negb _); [done|].
  unfold on_world. by destruct (sw_store_save _ _ _).
Qed.

(** The DIAG service was reached, was given the payload, and answered twice with
    [SUCCESS]; it returned the world [w]. *)
Definition diag_accepted (payload : bytes) s (w : W) : Prop :=
  sw_diag_is_connected (sv_world s) = true /\
  exists response, sw_diag_send_request_sync DIAG_INJECT_CERTIFICATE payload (sv_world s)
    = ((SUCCESS, response), w) /\ dr_error_code response = SUCCESS.

Lemma via_diag_success payload c next s s' :
  sv_has_diag s = true -> via_diag DIAG_INJECT_CERTIFICATE payload c next s = (SUCCESS, s') ->
  exists w, diag_accepted payload s w /\ s' = update_provision_state next "" (sv_with_world w s).
Proof.
  intros Hd. unfold via_diag, handle_diag_request, diag_accepted. rewrite Hd. cbn [negb].
  destruct (sw_diag_is_connected _); cbn [negb]; [|by intros [=]].
  unfold on_world. destruct (sw_diag_send_request_sync _ _ _) as [[rc r] w] eqn:Eq.
  destruct (is_success rc) eqn:Er; cbn [negb]; [|by intros [= ->]].
  apply is_success_true in Er as ->. intros [= Hr <-]. rewrite Hr. cbn. exists w. by eauto.
Qed.

(** What the service itself has checked and done when it accepts a chain. *)
Definition chain_installed (payload : bytes) s1 s' : Prop :=
  exists chain leaf pem,
    parse payload default_limits = Parsed chain /\ pc_leaf chain = Some leaf /\
    no_root_in chain s1 /\ leaf_checked leaf s1 /\
    toPem chain = Some pem /\ published_digest s' = sha256Hex pem.

Lemma validate_and_store_checked payload s1 s2 : store_usable s1 = true ->
  validate_and_store_certificate payload s1 = (Some SUCCESS, s2) -> chain_installed payload s1 s2.
Proof.
  intros Hu Ev. unfold validate_and_store_certificate in Ev.
  destruct (parse payload default_limits) as [chain|] eqn:Ep; [|done].
  destruct (is_success (rejectRootInjectedIntoChain chain s1)) eqn:Er; cbn [negb] in Ev; [|by injection Ev as Ev; rewrite Ev in Er].
  apply is_success_true in Er. destruct (pc_leaf chain) as [leaf|] eqn:El; [|done].
  unfold on_world in Ev. destruct (validate_certificate _ _ _ _ _ _) as [[rc valid] w] eqn:Evc.
  destruct (is_success rc) eqn:Es; cbn [negb] in Ev; [|by injection Ev as ->]. apply is_success_true in Es as ->.
  destruct valid; cbn [negb] in Ev; [|done]. destruct (toPem chain) as [pem|] eqn:Et; [|done].
  exists chain, leaf, pem. split_and!; try done.
  - by apply reject_root_spec.
  - by eapply validate_certificate_checked.
  - by eapply publish_digest.
Qed.

(** C3. What [SUCCESS] of an injection means. The state was one that allows an
    injection - after a failure only with a device key in place - and it is
    [CERT_INSTALLED] afterwards, unless the store refused to save it. A service
    without a DIAG service has checked the chain itself: the parser accepts it; no
    trust root is part of it; its leaf was checked for this unit, by trusted time,
    against the device key in the HSM; and what the certificate store publishes
    afterwards has the digest of its canonical form. A service with a DIAG service
    has checked nothing: it passed the payload on, DIAG answered it with [SUCCESS],
    and the service's own certificate store and TLS credentials are as before. *)
Theorem installed_means_checked payload s s' :
  inject_certificate payload s = (Some SUCCESS, s') ->
  let s1 := (ensure_vehicle_info s).2 in
  (state_of s = CSR_BUILT \/ state_of s = CSR_SUBMITTED \/
   (state_of s = FAILED /\ device_key_present s1 = true)) /\
  (state_of s' = CERT_INSTALLED \/ state_of s' = state_of s) /\
  if sv_has_diag s
  then exists w, diag_accepted payload s1 w /\
         sv_cert_store s' = sv_cert_store s1 /\ sv_tls s' = sv_tls s1
  else chain_installed payload s1 s'.
Proof.
  cbn zeta. unfold inject_certificate. destruct (negb (sv_initialized s)); [done|].
  destruct (sv_shutting_down s); [done|].
  pose proof (ensure_vehicle_info_kept s) as K. destruct (ensure_vehicle_info s) as [rc s1]. cbn [snd] in K |- *.
  destruct (is_success rc) eqn:Er; cbn [negb]; [|by intros [= ->]]. clear rc Er.
  pose proof (state_of_kept _ _ K) as Hst. fold (state_of s1). rewrite Hst.
  destruct (negb (bool_decide (state_of s = CSR_BUILT)) && _ && _) eqn:Eg; [done|].
  assert (Hstate : state_of s = CSR_BUILT \/ state_of s = CSR_SUBMITTED \/
    (state_of s = FAILED /\ device_key_present s1 = true)).
  { destruct (state_of s), (device_key_present s1); auto; exfalso; revert Eg; by repeat case_bool_decide. }
  clear Eg. pose proof (wiring_fields _ _ (kt_wiring _ _ K)) as (_ & _ & _ & Hd & _). rewrite <- Hd.
  destruct (sv_has_diag s1) eqn:Ed.
  - destruct (via_diag _ _ _ _ s1) as [rc s2] eqn:Ev. intros [= -> <-].
    pose proof (via_diag_success _ _ _ _ _ Ed Ev) as (w & Hw & ->). split; [done|]. split.
    { pose proof (handle_diag_request_kept DIAG_INJECT_CERTIFICATE payload s1) as K2.
      unfold handle_diag_request, on_world in K2. rewrite Ed in K2. destruct Hw as (Hc & r & Hr & _).
      rewrite Hc in K2. cbn [negb] in K2. rewrite Hr in K2. cbn [snd] in K2.
      destruct (update_upto (eq CERT_INSTALLED) CERT_INSTALLED "" (sv_with_world w s1) eq_refl)
        as [_ _ [U|U] _]; [right|by left]. by rewrite U, (state_of_kept _ _ K2). }
    exists w. by rewrite update_keeps_cert_store, update_keeps_tls.
  - pose proof (validate_and_store_certificate_kept payload s1) as K2.
    destruct (validate_and_store_certificate payload s1) as [[rc|] s2] eqn:Ev; [|done]. cbn [snd] in K2.
    destruct (is_success rc) eqn:Er; cbn [negb]; [|by intros [= ->]]. apply is_success_true in Er as ->.
    intros [= <-]. split; [done|]. split.
    { destruct (update_upto (eq CERT_INSTALLED) CERT_INSTALLED "" s2 eq_refl) as [_ _ [U|U] _]; [right|by left].
      by rewrite U, (state_of_kept _ _ K2). }
    apply validate_and_store_checked in Ev.
    + destruct Ev as (chain & leaf & pem & H). exists chain, leaf, pem.
      unfold published_digest. by rewrite update_keeps_cert_store.
    + destruct (store_usable s1) eqn:Eu; [done|]. exfalso. rewrite <- Hst, state_of_loaded, Eu in Hstate. naive_solver.
Qed.
End Calls.
