(* ===== verification/SecSample.v ===== *)
(** * SecSample: one concrete world for the theorems about [SecService].
    A disk, a key-value store, a clock that every reading moves by a millisecond, an
    HSM with one key, and a service started on them by [initialize]. *)
From S2P Require Import Prelude Errors Canonical Json X509 SoftFile SoftFileProps TimeTypes Provider Tls CertStore CertStoreFacts CertStoreProps KeyEngine Csr CertChain CertCheck SecService SeedProps SecFrame ProvisionProps.

Module SecSample.
Import JsonSample X509Sample CertStoreProps.Disk.
#[local] Existing Instance toy_sha256.
#[local] Existing Instance SoftFileSample.toy_crypto.

Record sworld := mkWorld {
  w_disk : disk;
  w_kv : gmap string string;
  w_now : Z;
  w_key : bool
}.
Definition on_disk {A} (m : st disk A) : st sworld A := fun w =>
  let '(a, d) := m (w_disk w) in (a, mkWorld d (w_kv w) (w_now w) (w_key w)).
Definition with_disk (f : disk -> disk) (w : sworld) : sworld := mkWorld (f (w_disk w)) (w_kv w) (w_now w) (w_key w).
Definition later (ns : Z) (w : sworld) : sworld := mkWorld (w_disk w) (w_kv w) (w_now w + ns) (w_key w).
Definition with_kv (m : gmap string string) (w : sworld) : sworld := mkWorld (w_disk w) m (w_now w) (w_key w).

#[export] Instance sworld_fs : FileSystem sworld := {|
  fs_file p := p;
  fs_read p w := fs_read p (w_disk w);
  fs_isdir p w := fs_isdir p (w_disk w);
  fs_readdir p w := fs_readdir p (w_disk w);
  fs_creat p := on_disk (fs_creat p);
  fs_write p c := on_disk (fs_write p c);
  fs_fsync p := on_disk (fs_fsync p);
  fs_rename a b := on_disk (fs_rename a b);
  fs_remove p := with_disk (fs_remove p);
  fs_rmdir p := with_disk (fs_rmdir p);
  fs_mkdir p := with_disk (fs_mkdir p);
  fs_clock_ms := on_disk fs_clock_ms;
  fs_RAND_bytes n := on_disk (fs_RAND_bytes n);
  fs_reboot := with_disk fs_reboot
|}.

#[export] Instance sworld_hsm : HsmInterface sworld := {|
  hsm_initialize h := (SUCCESS, h);
  hsm_generate_key_pair id alg h :=
    ((SUCCESS, mkKeyPair id alg [x04; x00] true ModeSOFT_FILE false), mkWorld (w_disk h) (w_kv h) (w_now h) true);
  hsm_sign id data h := ((SUCCESS, take 2 data), h);
  hsm_sign_digest id data h := ((SUCCESS, take 2 data), h);
  hsm_export_public_key id h := (SUCCESS, [x04; x00]);
  hsm_export_private_key id h := (NOT_IMPLEMENTED, []);
  hsm_key_exists id h := w_key h && String.eqb id "ECU-1+ECU-1";
  hsm_delete_key id h := (SUCCESS, h);
  hsm_supports_ecdh_derive id h := true;
  hsm_supports_ecdsa_sign id h := true
|}.

Definition msec : Z := 1000000.
Definition sample_time : TrustedTimeSample := mkSample (5000 * 1000000000) Trusted PlatformSync 0 0 PlatformSynced 0.
#[export] Instance sworld_world : SecWorld sworld := {|
  sw_store_ready w := true;
  sw_store_has k w := bool_decide (is_Some (w_kv w !! k));
  sw_store_load k w := match w_kv w !! k with Some v => LoadOk v | None => LoadKeyNotFound end;
  sw_store_save k v w := (true, with_kv (<[k := v]> (w_kv w)) w);
  sw_store_remove k w := (true, with_kv (delete k (w_kv w)) w);
  sw_prov_get_vehicle_info w := (Some (SUCCESS, mkVehicleInfo "VIN-1" "ECU-1"), w);
  sw_prov_get_provision_state w := DPS_BOUND;
  sw_prov_is_connected w := true;
  sw_diag_initialize w := (SUCCESS, w);
  sw_diag_is_connected w := false;
  sw_diag_send_request_sync t d w := ((CONNECTION_FAILED, mkDiagResponse SUCCESS [] ""), w);
  sw_steady_now w := (w_now w, later msec w);
  sw_system_now w := (5000 * 1000000000, later msec w);
  sw_trusted_now w := (sample_time, later msec w);
  sw_publish i v w := w;
  sw_X509_verify_cert roots leaf chain w := true;
  sw_X509_STORE_new w := true;
  sw_open_soft_file_hsm root alg kek w := (true, w)
|}.

#[export] Instance sworld_clock : SteadyClock sworld.
Proof. refine {| sk_time := w_now |}; intros; cbn; unfold msec; lia. Defined.

Lemma on_disk_same {A} (m : st disk A) w : store_same w (on_disk m w).2.
Proof. unfold on_disk. by destruct (m (w_disk w)). Qed.

Lemma with_kv_but k m w : (forall k', k <> k' -> m !! k' = w_kv w !! k') -> store_same_but (eq k) w (with_kv m w).
Proof. intros H. constructor; cbn; [done|intros k' Hk; by rewrite H..]. Qed.

#[export] Instance sworld_store_laws : StoreLaws sworld.
Proof.
  constructor; try (intros; apply on_disk_same); try (intros; by constructor).
  - intros k v w w' [= <-]. split; [|by cbn; rewrite lookup_insert_eq].
    apply with_kv_but. intros k' Hk. by rewrite lookup_insert_ne.
  - intros k w w' [= <-]. split; [|by cbn; rewrite lookup_delete_eq].
    apply with_kv_but. intros k' Hk. by rewrite lookup_delete_ne.
Qed.

#[export] Instance sample_points : EcPoints := {| ec_point_uncompressed p := Some p |}.
#[export] Instance sample_aes : Aes128 := {|
  aes128_ecb k b := Some (zip_with (fun x y => byte_of (Z.lxor (bval x) (bval y))) k b) |}.
#[export] Instance sample_local_time : LocalTime := {| local_format z := ""; local_parse s := 0 |}.
#[export] Instance sample_const_index : JsonConstIndex.
Proof. refine {| json_at := json_get |}. done. Defined.

(** A service with a software HSM, a shared secret, and an MQTT profile whose trust
    root is installed as a file. *)
Definition root_file : string := "/usr/share/root.pem".
Definition profile : TlsProfileConf :=
  mkTlsProfileConf true "mqtt" "mqtt-primary" "clientAuth" [] "tbox-mqtt.service" true 3600 root_file.
Definition config : SecServiceConfig :=
  mkSecConfig "software" "soft_file" false "" "" "000102030405060708090a0b0c0d0e0f" "/s"
    {["mqtt"%string := profile]} None.
Definition world0 : sworld := mkWorld (mkDisk {[root_file := pem 2]} [] [] false 7) ∅ 0 false.
Definition off : SecService sworld :=
  mkSec config false false false true true None None false "" "" None [] seed_default 0 0 false world0.
Definition svc : SecService sworld := (initialize 1 off).2.

Example svc_starts : sv_initialized svc = true /\ state_of svc = NONE.
Proof. split; vm_compute; reflexivity. Qed.

(* --------------------------------------------------------------------- *)
(** ** Seed and key                                                       *)
(* --------------------------------------------------------------------- *)

Lemma first_is {A B} (p : A * B) a : p.1 = a -> p = (a, p.2).
Proof. by destruct p; cbn; intros ->. Qed.

(** A client that asks for seeds, sends keys, and sleeps. *)
Inductive seed_move := Ask (level : Z) | Send (level : Z) (key : bytes) | Sleep (sec : Z).
Definition play1 (m : seed_move) (s : SecService sworld) : seed_event * SecService sworld :=
  match m with
  | Ask level => let '(r, s') := get_seed level s in (Gave level r, s')
  | Send level key => let '(rc, s') := verify_key level key s in (Tried level key rc (seed_spent s s'), s')
  | Sleep sec => (Other, sv_with_world (later (Z.of_N (Z.to_N sec) * ns_per_sec) (sv_world s)) s)
  end.
Fixpoint play (l : list seed_move) (s : SecService sworld) : list seed_event * SecService sworld :=
  match l with
  | [] => ([], s)
  | m :: l => let '(e, s) := play1 m s in let '(es, s) := play l s in (e :: es, s)
  end.

Lemma play1_step m s : seed_step s (play1 m s).1 (play1 m s).2.
Proof.
  destruct m as [level | level key | sec]; cbn [play1].
  - rewrite (surjective_pairing (get_seed level s)). apply step_get.
  - rewrite (surjective_pairing (verify_key level key s)). apply step_verify.
  - apply step_other; [by constructor|]. unfold now_of, ns_per_sec. cbn. lia.
Qed.

Lemma play_run_from l s0 evs s : seed_run s0 evs s -> seed_run s0 (evs ++ (play l s).1) (play l s).2.
Proof.
  revert evs s. induction l as [|m l IH]; intros evs s H; cbn [play]; [by rewrite app_nil_r|].
  pose proof (play1_step m s) as Hs. destruct (play1 m s) as [e s1]. cbn [fst snd] in Hs.
  specialize (IH (evs ++ [e]) s1 (run_snoc _ _ _ _ _ H Hs)). destruct (play l s1) as [es s2].
  cbn [fst snd] in *. by rewrite <- app_assoc in IH.
Qed.
Lemma play_run l s : seed_run s (play l s).1 (play l s).2.
Proof. exact (play_run_from l s [] s (run_nil s)). Qed.

(** The right key for the seed of the [n]th request. *)
Definition right_key (b : byte) : bytes :=
  zip_with (fun x y => byte_of (Z.lxor (bval x) (bval y)))
    [x00; x01; x02; x03; x04; x05; x06; x07; x08; x09; x0a; x0b; x0c; x0d; x0e; x0f] (replicate 16 b).

(** Three wrong keys, a refused request, ten seconds of waiting, a fourth wrong key. *)
Definition guessing : list seed_move :=
  [Ask 1; Send 2 []; Ask 1; Send 2 []; Ask 1; Send 2 [x01]; Ask 1; Sleep 10; Ask 1; Send 2 []].

Lemma brute_force_bound_witness :
  let '(evs, s) := play guessing svc in
  guesses evs = 4 /\ existsb accepted evs = false /\
  guesses evs <= 3 * ((now_of s - now_of svc) / (LOCKOUT_DURATION_SEC * ns_per_sec)) + 3.
Proof.
  rewrite (surjective_pairing (play guessing svc)). split; [vm_compute; reflexivity|].
  split; [vm_compute; reflexivity|].
  apply (brute_force_bound svc (play guessing svc).1 (play guessing svc).2).
  - apply play_run.
  - vm_compute. split; [discriminate|reflexivity].
  - vm_compute. reflexivity.
Defined.

(** A wrong key, then a right one. *)
Definition unlocking : list seed_move := [Ask 1; Send 2 []; Ask 3; Sleep 20; Send 2 []].
Definition unlock_at : SecService sworld := (play unlocking svc).2.
Definition seed2 : byte := match ss_seed (sv_seed unlock_at) with b :: _ => b | [] => x00 end.

Lemma unlock_needs_fresh_seed_witness :
  exists evs1 seed evs2 s1,
    (play unlocking svc).1 = evs1 ++ Gave 3 (SUCCESS, seed) :: evs2 /\
    seed_run s1 evs2 unlock_at /\ key_for (sv_config unlock_at) seed = Some (right_key seed2).
Proof.
  destruct (unlock_needs_fresh_seed svc (play unlocking svc).1 unlock_at 4 (right_key seed2)
    (verify_key 4 (right_key seed2) unlock_at).2) as (_ & evs1 & seed & evs2 & s1 & E & _ & _ & Hk & _ & R & _).
  - vm_compute. reflexivity.
  - apply play_run.
  - apply first_is. vm_compute. reflexivity.
  - exists evs1, seed, evs2, s1. split_and!; [exact E|exact R|exact Hk].
Defined.

(** After a lockout is over the right key unlocks. *)
Definition waiting : list seed_move := [Ask 1; Send 2 []; Ask 1; Send 2 []; Ask 1; Send 2 [x01]; Sleep 11].
Definition waited : SecService sworld := (play waiting svc).2.
Definition asked : ErrorCode * bytes * SecService sworld := get_seed 1 waited.
Definition between : list seed_move := [Sleep 5; Send 8 [x00]].

Lemma right_key_unlocks_witness :
  sv_in_lockout waited = true /\
  (verify_key (1 + 1) (right_key (default x00 (head asked.1.2))) (play between asked.2).2).1 = SUCCESS.
Proof.
  split; [vm_compute; reflexivity|].
  apply (right_key_unlocks waited 1 asked.1.2 asked.2 (play between asked.2).1).
  - change (asked = ((SUCCESS, asked.1.2), asked.2)). apply first_is, first_is. vm_compute. reflexivity.
  - lia.
  - vm_compute. reflexivity.
  - apply play_run.
  - vm_compute. reflexivity.
  - vm_compute. reflexivity.
  - vm_compute. reflexivity.
  - vm_compute. reflexivity.
  - vm_compute. reflexivity.
Defined.

(* --------------------------------------------------------------------- *)
(** ** Provisioning                                                       *)
(* --------------------------------------------------------------------- *)

Definition ready_to_inject : SecService sworld := perform GetCsr (perform GenerateKeyPair svc).
Definition chain_pem : bytes := bytes_of_string (pem 0 ++ pem 1).
Definition injected : option ErrorCode * SecService sworld := inject_certificate chain_pem ready_to_inject.

Lemma provision_moves_witness :
  state_of (perform (InjectCertificate chain_pem) ready_to_inject) = CERT_INSTALLED /\
  (state_of (perform (InjectCertificate chain_pem) ready_to_inject) = state_of ready_to_inject \/
   may_move (InjectCertificate chain_pem) (state_of ready_to_inject)
     (state_of (perform (InjectCertificate chain_pem) ready_to_inject)) = true).
Proof.
  split; [vm_compute; reflexivity|]. apply (provision_moves (InjectCertificate chain_pem) ready_to_inject).
Defined.

Lemma installed_means_checked_witness :
  state_of injected.2 = CERT_INSTALLED /\
  match sv_tls injected.2 with Some p => tls_getStatus "mqtt" p | None => TLS_ERROR end = TLS_READY /\
  exists chain leaf pem',
    parse chain_pem default_limits = Parsed chain /\ pc_leaf chain = Some leaf /\
    leaf_checked leaf (ensure_vehicle_info ready_to_inject).2 /\
    published_digest injected.2 = sha256Hex pem'.
Proof.
  split; [vm_compute; reflexivity|]. split; [vm_compute; reflexivity|].
  assert (Hd : sv_has_diag ready_to_inject = false) by (vm_compute; reflexivity).
  assert (Hi : inject_certificate chain_pem ready_to_inject = (Some SUCCESS, injected.2))
    by (apply first_is; vm_compute; reflexivity).
  pose proof (installed_means_checked chain_pem ready_to_inject injected.2 Hi) as T.
  apply proj2, proj2 in T.
  rewrite Hd in T. destruct T as (chain & leaf & pem' & Hp & Hl & _ & Hc & _ & Hg).
  exists chain, leaf, pem'. exact (conj Hp (conj Hl (conj Hc Hg))).
Defined.
End SecSample.
