(* ===== verification/UdsSample.v ===== *)
(** * UdsSample: a tester at the sample service.
    The witness of the theorem of [UdsDispatcher], and the counter that knows of no
    successes. *)
From S2P Require Import Prelude Errors Canonical Json X509 SoftFile SoftFileProps TimeTypes Provider Tls CertStore CertStoreProps KeyEngine Csr CertChain CertCheck SecService SeedProps SecSample UdsDispatcher.

Module UdsSample.
Import JsonSample X509Sample CertStoreProps.Disk SecSample.
#[local] Existing Instance toy_sha256.
#[local] Existing Instance SoftFileSample.toy_crypto.

Definition uds : ServiceDispatcher (W := sworld) := uds_new (Some svc).

(** Ask and guess wrong; ask, and send the right key for the seed one got. *)
Definition wrong : list (Z * bytes) := [(1, []); (2, [])].
Definition asked : list SecurityAccessResponse * ServiceDispatcher (W := sworld) :=
  session (wrong ++ [(1, [])]) uds.
Definition the_seed : byte := match (ar_data <$> asked.1) !! 2%nat with Some (b :: _) => b | _ => x00 end.
Definition unlock : list (Z * bytes) := wrong ++ [(1, []); (2, right_key the_seed)].
Definition served : list SecurityAccessResponse * ServiceDispatcher (W := sworld) := session unlock uds.

Example unlock_answers : ar_nrc <$> served.1 = [NRC_positive; NRC_invalidKey; NRC_positive; NRC_positive].
Proof. vm_compute. reflexivity. Qed.

Lemma session_is_seed_run_witness :
  exists evs s', ud_service served.2 = Some s' /\ seed_run svc evs s' /\
    Forall2 serves unlock evs /\ Forall2 tells evs served.1.
Proof. apply (session_is_seed_run unlock svc 0 served.1 served.2). apply surjective_pairing. Defined.

(** The dispatcher counts wrong keys on, over a success, and announces exceeded attempts while the
    service is not locked and has counted two. *)
Definition later_on : list SecurityAccessResponse * ServiceDispatcher (W := sworld) :=
  session (unlock ++ wrong ++ wrong) uds.

Lemma exceeded_without_lockout :
  (ar_nrc <$> later_on.1) !! 7%nat = Some NRC_exceededNumberOfAttempts /\
  exists s, ud_service later_on.2 = Some s /\ sv_in_lockout s = false /\ sv_failed_attempts s = 2.
Proof.
  split; [vm_compute; reflexivity|].
  assert (H : (fun s => (sv_in_lockout s, sv_failed_attempts s)) <$> ud_service later_on.2 = Some (false, 2))
    by (vm_compute; reflexivity).
  destruct (ud_service later_on.2) as [s|]; [|done]. exists s. by injection H as -> ->.
Qed.

(** Keys sent without a seed count as well: three of them are answered with exceeded attempts, and the
    service has counted none. *)
Lemma exceeded_without_a_seed :
  (ar_nrc <$> (session [(2, []); (2, []); (2, [])] uds).1) =
    [NRC_invalidKey; NRC_invalidKey; NRC_exceededNumberOfAttempts] /\
  (sv_failed_attempts <$> ud_service (session [(2, []); (2, []); (2, [])] uds).2) = Some 0.
Proof. split; vm_compute; reflexivity. Qed.
End UdsSample.
