(* ===== verification/AssemblySample.v ===== *)
(** * AssemblySample: business keys of two concrete vehicles.
    Witnesses of the theorems of [Assembly]: a vehicle in production, and the service
    of [SecSample] with its certificate installed. *)
From S2P Require Import Prelude Errors Canonical KeyTypes Envelope Json X509 Provider Ledger SoftFile SoftFileProps TimeTypes TrustedTime TimeProps Provisioning Import ImportSample HsmProvider Tls CertStore CertStoreProps KeyEngine Csr CertChain CertCheck SecService SecSample Assembly.

Module ProductionSample.
Import ImportSample.

(** Production, with business keys enabled. *)
Definition view : ConfigView := mkView (fun _ => true) (fun _ d => d)
  (fun k d => if String.eqb k "environment.is_production" then true
              else if String.eqb k "sec.business_key_provisioning.enabled" then true else d)
  (fun _ d => d) (fun _ => []).
Definition vehicle : SecServiceConfig := mkSecConfig "" "hsm" true "" "" "" "" ∅ (Some view).
Definition assembled : option (Service (KeyProvider world) disk device) :=
  initializeBusinessKeyProvisioning vehicle true world0 (Some (lg_store ledger0)) (tstate0, binding0) 9.

Lemma production_imports_nothing_witness : exists b, assembled = Some b /\ refuses b.
Proof.
  destruct assembled as [b|] eqn:Hb; [|by vm_compute in Hb]. exists b. split; [done|].
  apply (production_imports_nothing vehicle true world0 (Some (lg_store ledger0)) (tstate0, binding0) 9);
    [by vm_compute|exact Hb].
Defined.
End ProductionSample.

Module IdentitySample.
Import JsonSample X509Sample CertStoreProps.Disk SecSample.
#[local] Existing Instance SoftFileSample.toy_crypto.

#[local] Existing Instance toy_sha256.

(** The state [SecSample] reaches, its chain given as one DER certificate. *)
Definition der_chain : string := string_of_bytes (X509Sample.der 0).
Definition with_chain (pem : string) (s : SecService sworld) : SecService sworld :=
  sv_with_cert_store ((fun cs => mkCertStore (ct_root cs)
    ((fun g => mkGeneration (cg_generation_id g) (cg_previous_generation g) (cg_dir g) pem
       (cg_device_cert g) (cg_provision_state g) (cg_version g)) <$> ct_current cs) (ct_recovered cs) (ct_fs cs)) <$> sv_cert_store s) s.
Definition device : SecService sworld := with_chain der_chain injected.2.

Definition reported : BusinessKeyDeviceBinding := device_binding device.

Lemma device_binding_sound_witness :
  exists chain leaf, pc_leaf chain = Some leaf /\
    certified_key device leaf (db_device_public_key reported) /\
    db_active_cert_digest reported = pc_leaf_der_original_sha256 chain.
Proof.
  destruct (device_binding_sound device) as (cs & chain & leaf & _ & _ & _ & Hl & Hk & Hd & _);
    [by vm_compute|].
  exists chain, leaf. exact (conj Hl (conj Hk Hd)).
Defined.
End IdentitySample.
