(* ===== verification/IpcCodec.v ===== *)
(** * IpcCodec: the JSON and base64 encodings of the IPC requests and answers.
    Models the encoders of [src/sec_ipc_dispatcher.cpp] and the decoders of
    [src/sec_client.cpp], which are their inverses, and the other way round. The
    base64 functions of the framework are a parameter. *)
From S2P Require Import Prelude Errors Canonical Json KeyTypes TimeTypes.

(** Base64 of the framework's [Utils]. *)
Class Base64 := { base64_encode : string -> string; base64_decode : string -> string }.
Class Base64Laws `(B : Base64) : Prop := {
  base64_roundtrip s : base64_decode (base64_encode s) = s;
  base64_encode_empty s : base64_encode s = "" <-> s = "";
  base64_decode_empty : base64_decode "" = ""
}.

Section Codec.
Context `{B : Base64} `{J : Json}.

(** [src/src/sec_ipc_dispatcher.cpp:34-38] b64_encode *)
Definition b64_encode (data : bytes) : string := base64_encode (string_of_bytes data).

(** [src/src/sec_ipc_dispatcher.cpp:40-44] b64_decode *)
Definition b64_decode (encoded : string) : bytes := bytes_of_string (base64_decode encoded).

(** The fields that are written under a condition. *)
Definition field_if (b : bool) (k : string) (v : json) : list (string * json) := if b then [(k, v)] else [].

(* --------------------------------------------------------------------- *)
(** ** The answers of the daemon                                          *)
(* --------------------------------------------------------------------- *)

(** [src/src/sec_ipc_dispatcher.cpp:551-583] business_key_status_to_json *)
Definition business_key_status_to_json (s : BusinessKeyStatus) : json :=
  json_of_fields (
    [("business_domain"%string, json_string (bs_business_domain s));
     ("purpose"%string, json_string (bs_purpose s));
     ("business_key_version"%string, json_int (bs_business_key_version s));
     ("state"%string, json_string (business_key_state_to_string (bs_state s)));
     ("key_id"%string, json_string (bs_key_id s));
     ("key_id_digest"%string, json_string (bs_key_id_digest s));
     ("algorithm"%string, json_string (bs_algorithm s));
     ("valid_from_ms"%string, json_int (bs_valid_from_ms s));
     ("valid_to_ms"%string, json_int (bs_valid_to_ms s));
     ("envelope_format"%string, json_string (key_envelope_format_to_string (bs_envelope_format s)))] ++
    field_if (negb (bytes_empty (bs_envelope_digest s))) "envelope_digest"
      (json_string (b64_encode (bs_envelope_digest s))) ++
    field_if (bs_key_check_value_present s) "key_check_value"
      (json_string (b64_encode (kcv_bytes (bs_key_check_value s)))) ++
    field_if (negb (bytes_empty (bs_import_proof s))) "import_proof"
      (json_string (b64_encode (bs_import_proof s))) ++
    field_if (negb (str_empty (bs_proof_algorithm s))) "proof_algorithm" (json_string (bs_proof_algorithm s)) ++
    field_if (negb (bytes_empty (bs_recipient_certificate_digest s))) "recipient_certificate_digest"
      (json_string (b64_encode (bs_recipient_certificate_digest s)))).

(** [src/src/sec_ipc_dispatcher.cpp:585-619] capability_to_json *)
Definition capability_to_json (c : V2cKeyProvisioningCapability) : json :=
  json_of_fields [
    ("capability_contract_version"%string, json_int (cap_contract_version c));
    ("envelope_v1_import_ready"%string, json_bool (cap_envelope_v1_import_ready c));
    ("atomic_dual_purpose_commit_ready"%string, json_bool (cap_atomic_dual_purpose_commit_ready c));
    ("import_proof_sign_ecdsa_p256_v1_ready"%string, json_bool (cap_import_proof_sign_ecdsa_p256_v1_ready c));
    ("secure_journal_replay_ready"%string, json_bool (cap_secure_journal_replay_ready c));
    ("identity_key_template_sign_derive"%string, json_bool (cap_identity_key_template_sign_derive c));
    ("csr_key_usage_request_matched"%string, json_bool (cap_csr_key_usage_request_matched c));
    ("certificate_profile_matched"%string, json_bool (cap_certificate_profile_matched c));
    ("certificate_chain_and_key_match"%string, json_bool (cap_certificate_chain_and_key_match c));
    ("certificate_critical_extensions_allowed"%string, json_bool (cap_certificate_critical_extensions_allowed c));
    ("leaf_certificate_digest_bound"%string, json_bool (cap_leaf_certificate_digest_bound c));
    ("proto_release_matched"%string, json_bool (cap_proto_release_matched c));
    ("envelope_format_v1"%string, json_bool (cap_envelope_format_v1 c));
    ("p256_ecdh"%string, json_bool (cap_p256_ecdh c));
    ("hkdf_sha256"%string, json_bool (cap_hkdf_sha256 c));
    ("aes256_gcm_decrypt_to_slot"%string, json_bool (cap_aes256_gcm_decrypt_to_slot c));
    ("atomic_dual_slot_commit"%string, json_bool (cap_atomic_dual_slot_commit c));
    ("active_certificate_key_agreement"%string, json_bool (cap_active_certificate_key_agreement c));
    ("active_certificate_digital_signature"%string, json_bool (cap_active_certificate_digital_signature c));
    ("active_private_key_can_derive"%string, json_bool (cap_active_private_key_can_derive c));
    ("active_private_key_can_sign"%string, json_bool (cap_active_private_key_can_sign c));
    ("ecdsa_p256_sha256_p1363"%string, json_bool (cap_ecdsa_p256_sha256_p1363 c));
    ("secure_journal_ready"%string, json_bool (cap_secure_journal_ready c));
    ("trusted_time_ready"%string, json_bool (cap_trusted_time_ready c));
    ("business_key_import_result_not_found_v1"%string, json_bool (cap_business_key_import_result_not_found_v1 c));
    ("all"%string, json_bool (cap_all c))].

(** [src/src/sec_ipc_dispatcher.cpp:621-643] import_result_to_json *)
Definition import_result_fields (r : ImportResult) : list (string * json) :=
  [("request_id"%string, json_string (ir_request_id r));
   ("business_domain"%string, json_string (ir_business_domain r));
   ("state"%string, json_string (business_key_import_state_to_string (ir_state r)));
   ("state_code"%string, json_int (import_state_code (ir_state r)));
   ("items"%string, json_array (business_key_status_to_json <$> ir_items r));
   ("committed_at_ms"%string, json_int (ir_committed_at_ms r));
   ("provider_version_digest"%string, json_string (ir_provider_version_digest r))] ++
  field_if (negb (bytes_empty (ir_import_proof r))) "import_proof" (json_string (b64_encode (ir_import_proof r))) ++
  [("proof_algorithm"%string, json_string (ir_proof_algorithm r))] ++
  field_if (negb (bytes_empty (ir_binding_certificate_digest r))) "binding_certificate_digest"
    (json_string (b64_encode (ir_binding_certificate_digest r))).

(** [src/src/sec_ipc_dispatcher.cpp:645-657] snapshot_to_json *)
Definition snapshot_to_json (s : KeyprovContractSnapshot) : json :=
  json_of_fields [
    ("result_contract_version"%string, json_int (ks_result_contract_version s));
    ("query_semantics_version"%string, json_int (ks_query_semantics_version s));
    ("capability_epoch"%string, json_int (ks_capability_epoch s));
    ("storage_ready"%string, json_bool (ks_storage_ready s));
    ("supports_atomic_dual_commit"%string, json_bool (ks_supports_atomic_dual_commit s));
    ("supports_lease_admission"%string, json_bool (ks_supports_lease_admission s));
    ("kl1_profile_version"%string, json_int (ks_kl1_profile_version s));
    ("daemon_build_id"%string, json_string (ks_daemon_build_id s));
    ("sdk_build_id"%string, json_string (ks_sdk_build_id s))].

(** The fields added to those of [import_result_to_json]. *)
(** [src/src/sec_ipc_dispatcher.cpp:659-673] import_result_kl1_to_json *)
Definition attachment_fields (a : KeyprovResultAttachment) : list (string * json) :=
  [("capability_epoch"%string, json_int (ks_capability_epoch (ka_snapshot a)));
   ("result_contract_version"%string, json_int (ks_result_contract_version (ka_snapshot a)));
   ("query_semantics_version"%string, json_int (ks_query_semantics_version (ka_snapshot a)));
   ("storage_ready"%string, json_bool (ks_storage_ready (ka_snapshot a)));
   ("queried_at_ms"%string, json_int (ka_queried_at_ms a))] ++
  field_if (negb (str_empty (ka_request_identity_digest a))) "request_identity_digest"
    (json_string (ka_request_identity_digest a)).

(** [import_result_to_json] and [import_result_kl1_to_json], with the field that says
    that the call failed. *)
Definition import_answer (rc : ErrorCode) (r : ImportResult) (a : list (string * json)) : json :=
  json_of_fields (import_result_fields r ++ a ++ field_if (negb (is_success rc)) "success" (json_bool false)).

(* --------------------------------------------------------------------- *)
(** ** The requests of the client                                         *)
(* --------------------------------------------------------------------- *)

(** [src/src/sec_client.cpp:552-574] import_wrapped_business_keys item *)
Definition item_to_json (item : WrappedKeyItem) : json :=
  json_of_fields (
    [("purpose"%string, json_string (it_purpose item));
     ("key_id"%string, json_string (it_key_id item));
     ("business_key_version"%string, json_int (it_business_key_version item));
     ("algorithm"%string, json_string (it_algorithm item));
     ("wrapped_key"%string, json_string (b64_encode (it_wrapped_key item)));
     ("parameters"%string, json_string (b64_encode (it_parameters item)));
     ("valid_from_ms"%string, json_int (it_valid_from_ms item));
     ("valid_to_ms"%string, json_int (it_valid_to_ms item));
     ("wrapping_suite"%string, json_string (it_wrapping_suite item));
     ("envelope_format"%string, json_string (key_envelope_format_to_string (it_envelope_format item)))] ++
    field_if (negb (bytes_empty (it_envelope_digest item))) "envelope_digest"
      (json_string (b64_encode (it_envelope_digest item))) ++
    field_if (it_key_check_value_present item) "key_check_value"
      (json_string (b64_encode (kcv_bytes (it_key_check_value item))))).

(** [src/src/sec_client.cpp:548-575] import_wrapped_business_keys params *)
Definition import_params (request_id domain : string) (items : list WrappedKeyItem) : json :=
  json_of_fields [
    ("request_id"%string, json_string request_id);
    ("business_domain"%string, json_string domain);
    ("items"%string, json_array (item_to_json <$> items))].

(** [src/src/sec_client.cpp:739-770] import_wrapped_business_keys_kl1 params *)
Definition import_kl1_params (request_id domain : string) (items : list WrappedKeyItem)
    (context : KeyprovImportContext) : json :=
  json_of_fields [
    ("request_id"%string, json_string request_id);
    ("business_domain"%string, json_string domain);
    ("admission_expire_at_ms"%string, json_int (kc_admission_expire_at_ms context));
    ("capability_epoch"%string, json_int (kc_capability_epoch context));
    ("kl1_profile_version"%string, json_int (kc_kl1_profile_version context));
    ("items"%string, json_array (item_to_json <$> items))].

(** [None]: an accessor threw. A check value that is not three bytes is dropped. *)
(** [src/src/sec_ipc_dispatcher.cpp:751-774] handle_import_wrapped_business_keys item *)
Definition item_of_json (j : json) : option WrappedKeyItem :=
  purpose ← value_string j "purpose" "";
  key_id ← value_string j "key_id" "";
  version ← value_u64 j "business_key_version" 0;
  algorithm ← value_string j "algorithm" "";
  wrapped_key ← value_string j "wrapped_key" "";
  parameters ← value_string j "parameters" "";
  valid_from ← value_i64 j "valid_from_ms" 0;
  valid_to ← value_i64 j "valid_to_ms" 0;
  suite ← value_string j "wrapping_suite" "";
  format ← value_string j "envelope_format" "UNSPECIFIED";
  digest ← value_string j "envelope_digest" "";
  kcv ← value_string j "key_check_value" "";
  let item k p := mkItem purpose key_id version algorithm (b64_decode wrapped_key) (b64_decode parameters)
    valid_from valid_to suite (string_to_key_envelope_format format) (b64_decode digest) k p in
  Some (match b64_decode kcv with
        | [a; b; c] => item (a, b, c) true
        | _ => item kcv_zero false
        end).

(** [src/src/sec_ipc_dispatcher.cpp:749-776] handle_import_wrapped_business_keys items *)
Definition items_of_json (j : json) : option (list WrappedKeyItem) :=
  match json_get j "items" ≫= as_array with
  | Some l => mapM item_of_json l
  | None => Some []
  end.

(** [src/src/sec_ipc_dispatcher.cpp:743-776] handle_import_wrapped_business_keys params *)
Definition import_params_of_json (j : json) : option (string * string * list WrappedKeyItem) :=
  request_id ← value_string j "request_id" "";
  domain ← value_string j "business_domain" kBusinessDomainV2c;
  items ← items_of_json j;
  Some (request_id, domain, items).

(** [src/src/sec_ipc_dispatcher.cpp:869-907] handle_import_wrapped_business_keys_kl1 params *)
Definition import_kl1_params_of_json (j : json) :
    option (string * string * list WrappedKeyItem * KeyprovImportContext) :=
  request_id ← value_string j "request_id" "";
  domain ← value_string j "business_domain" kBusinessDomainV2c;
  expire ← value_i64 j "admission_expire_at_ms" 0;
  epoch ← value_u64 j "capability_epoch" 0;
  profile ← value_u32 j "kl1_profile_version" 0;
  items ← items_of_json j;
  Some (request_id, domain, items, mkContext expire epoch profile).

(** The purposes a status query asks for. *)
(** [src/src/sec_ipc_dispatcher.cpp:696-709] handle_get_business_key_status params *)
Definition status_params_of_json (j : json) : option (string * list string) :=
  domain ← value_string j "business_domain" kBusinessDomainV2c;
  purposes ← match json_get j "purposes" ≫= as_array with Some l => mapM as_string l | None => Some [] end;
  Some (domain, match purposes with [] => [kBusinessPurposeUplinkAead; kBusinessPurposeDownlinkAead] | _ => purposes end).

(* --------------------------------------------------------------------- *)
(** ** What the client reads                                              *)
(* --------------------------------------------------------------------- *)

(** Assignments to an output parameter, up to the first that throws ([false]). *)
Definition upd (A : Type) : Type := A -> bool * A.
Definition assign {A X} (v : option X) (f : X -> A -> A) : upd A := fun o =>
  match v with Some x => (true, f x o) | None => (false, o) end.
Definition upd_seq {A} (a b : upd A) : upd A := fun o =>
  let '(ok, o) := a o in if ok then b o else (false, o).
Definition upd_when {A} (b : bool) (a : upd A) : upd A := fun o => if b then a o else (true, o).
#[local] Infix ">;" := upd_seq (at level 61, left associativity).

(** Field assignments. *)
Definition ir_with_request_id x (r : ImportResult) : ImportResult := mkResult x (ir_business_domain
    r) (ir_state r) (ir_items r) (ir_committed_at_ms r) (ir_provider_version_digest r)
    (ir_import_proof r) (ir_proof_algorithm r) (ir_binding_certificate_digest r).
Definition ir_with_business_domain x (r : ImportResult) : ImportResult := mkResult (ir_request_id r)
    x (ir_state r) (ir_items r) (ir_committed_at_ms r) (ir_provider_version_digest r)
    (ir_import_proof r) (ir_proof_algorithm r) (ir_binding_certificate_digest r).
Definition ir_with_state x (r : ImportResult) : ImportResult := mkResult (ir_request_id r)
    (ir_business_domain r) x (ir_items r) (ir_committed_at_ms r) (ir_provider_version_digest r)
    (ir_import_proof r) (ir_proof_algorithm r) (ir_binding_certificate_digest r).
Definition ir_with_items x (r : ImportResult) : ImportResult := mkResult (ir_request_id r)
    (ir_business_domain r) (ir_state r) x (ir_committed_at_ms r) (ir_provider_version_digest r)
    (ir_import_proof r) (ir_proof_algorithm r) (ir_binding_certificate_digest r).
Definition ir_with_committed_at_ms x (r : ImportResult) : ImportResult := mkResult (ir_request_id r)
    (ir_business_domain r) (ir_state r) (ir_items r) x (ir_provider_version_digest r)
    (ir_import_proof r) (ir_proof_algorithm r) (ir_binding_certificate_digest r).
Definition ir_with_provider_version_digest x (r : ImportResult) : ImportResult := mkResult
    (ir_request_id r) (ir_business_domain r) (ir_state r) (ir_items r) (ir_committed_at_ms r) x
    (ir_import_proof r) (ir_proof_algorithm r) (ir_binding_certificate_digest r).
Definition ir_with_import_proof x (r : ImportResult) : ImportResult := mkResult (ir_request_id r)
    (ir_business_domain r) (ir_state r) (ir_items r) (ir_committed_at_ms r)
    (ir_provider_version_digest r) x (ir_proof_algorithm r) (ir_binding_certificate_digest r).
Definition ir_with_proof_algorithm x (r : ImportResult) : ImportResult := mkResult (ir_request_id r)
    (ir_business_domain r) (ir_state r) (ir_items r) (ir_committed_at_ms r)
    (ir_provider_version_digest r) (ir_import_proof r) x (ir_binding_certificate_digest r).
Definition ir_with_binding_certificate_digest x (r : ImportResult) : ImportResult := mkResult
    (ir_request_id r) (ir_business_domain r) (ir_state r) (ir_items r) (ir_committed_at_ms r)
    (ir_provider_version_digest r) (ir_import_proof r) (ir_proof_algorithm r) x.

(** [None]: the local [s] is dropped with the exception. *)
(** [src/src/sec_client.cpp:406-436] business_key_status_from_json *)
Definition business_key_status_from_json (j : json) : option BusinessKeyStatus :=
  domain ← value_string j "business_domain" "";
  purpose ← value_string j "purpose" "";
  version ← value_u64 j "business_key_version" 0;
  state ← value_string j "state" "UNKNOWN";
  key_id ← value_string j "key_id" "";
  key_id_digest ← value_string j "key_id_digest" "";
  algorithm ← value_string j "algorithm" "";
  valid_from ← value_i64 j "valid_from_ms" 0;
  valid_to ← value_i64 j "valid_to_ms" 0;
  format ← value_string j "envelope_format" "UNSPECIFIED";
  digest ← value_string j "envelope_digest" "";
  kcv ← value_string j "key_check_value" "";
  proof ← value_string j "import_proof" "";
  proof_alg ← value_string j "proof_algorithm" "";
  cert ← value_string j "recipient_certificate_digest" "";
  let status k p := KeyTypes.mkStatus domain purpose version (string_to_business_key_state state) key_id_digest
    algorithm valid_from valid_to (string_to_key_envelope_format format)
    (if json_contains j "envelope_digest" then b64_decode digest else []) k p
    (if json_contains j "import_proof" then b64_decode proof else []) proof_alg key_id
    (if json_contains j "recipient_certificate_digest" then b64_decode cert else []) in
  Some (match if json_contains j "key_check_value" then b64_decode kcv else [] with
        | [a; b; c] => status (a, b, c) true
        | _ => status kcv_zero false
        end).

(** A number and a name that do not agree, or one of them alone, read as unknown; an
    old answer has the name only. *)
(** [src/src/sec_client.cpp:447-467] import_result_from_json state *)
Definition import_state_from_json (j : json) : BusinessKeyImportState :=
  let name := json_get j "state" ≫= as_string in
  match json_get j "state_code" with
  | Some c =>
      if json_is_unsigned c then
        match name, as_int c with
        | Some s, Some z =>
            if bool_decide (import_state_from_code (wrapu 32 z) = string_to_business_key_import_state s)
            then import_state_from_code (wrapu 32 z) else BIS_UNKNOWN
        | _, _ => BIS_UNKNOWN
        end
      else match name with Some s => string_to_business_key_import_state s | None => BIS_UNKNOWN end
  | None => match name with Some s => string_to_business_key_import_state s | None => BIS_UNKNOWN end
  end.

(** [src/src/sec_client.cpp:468-475] import_result_from_json items *)
Fixpoint push_items (l : list json) : upd ImportResult := fun out =>
  match l with
  | [] => (true, out)
  | j :: l =>
      match business_key_status_from_json j with
      | None => (false, out)
      | Some s => push_items l (ir_with_items (ir_items out ++ [s]) out)
      end
  end.

(** [src/src/sec_client.cpp:438-487] import_result_from_json *)
Definition import_result_from_json (j : json) : upd ImportResult :=
  assign (value_string j "request_id" "") ir_with_request_id >;
  assign (value_string j "business_domain" "") ir_with_business_domain >;
  assign (Some (import_state_from_json j)) ir_with_state >;
  assign (Some []) ir_with_items >;
  push_items (default [] (json_get j "items" ≫= as_array)) >;
  assign (value_i64 j "committed_at_ms" 0) ir_with_committed_at_ms >;
  assign (value_string j "provider_version_digest" "") ir_with_provider_version_digest >;
  upd_when (json_contains j "import_proof")
    (assign (value_string j "import_proof" "") (fun p => ir_with_import_proof (b64_decode p))) >;
  assign (value_string j "proof_algorithm" "") ir_with_proof_algorithm >;
  upd_when (json_contains j "binding_certificate_digest")
    (assign (value_string j "binding_certificate_digest" "")
      (fun d => ir_with_binding_certificate_digest (b64_decode d))).

Definition kSecClientBuildId : string := "sec-client-kl1-v1".

(** [None] as for [business_key_status_from_json]; the callers give up then. *)
(** [src/src/sec_client.cpp:492-504] keyprov_snapshot_from_json *)
Definition keyprov_snapshot_from_json (j : json) : option KeyprovContractSnapshot :=
  contract ← value_u32 j "result_contract_version" 0;
  semantics ← value_u32 j "query_semantics_version" 0;
  epoch ← value_u64 j "capability_epoch" 0;
  storage ← value_bool j "storage_ready" false;
  dual ← value_bool j "supports_atomic_dual_commit" false;
  lease ← value_bool j "supports_lease_admission" false;
  profile ← value_u32 j "kl1_profile_version" 0;
  daemon ← value_string j "daemon_build_id" "";
  Some (KeyTypes.mkSnapshot contract semantics epoch storage dual lease profile daemon kSecClientBuildId).

(** [src/src/sec_client.cpp:506-512] keyprov_attachment_from_json *)
Definition keyprov_attachment_from_json (j : json) : option KeyprovResultAttachment :=
  snapshot ← keyprov_snapshot_from_json j;
  identity ← value_string j "request_identity_digest" "";
  queried ← value_i64 j "queried_at_ms" 0;
  Some (mkAttachment snapshot identity queried).

(** The version decides first: with another one everything but the number stays at
    its default. *)
(** [src/src/sec_client.cpp:651-704] get_v2c_key_provisioning_capability answer *)
Definition capability_from_json (j : json) : option (V2cKeyProvisioningCapability * bool) :=
  version ← value_u32 j "capability_contract_version" 0;
  let d := V2cKeyProvisioningCapability_default in
  if negb (version =? kContractVersion) then
    Some (mkCapability version false false false false false false false false false false false
      false false false false false false false false false false false false false, false)
  else
  let flag k := value_bool j k false in
  b1 ← flag "envelope_v1_import_ready"%string;
  b2 ← flag "atomic_dual_purpose_commit_ready"%string;
  b3 ← flag "import_proof_sign_ecdsa_p256_v1_ready"%string;
  b4 ← flag "secure_journal_replay_ready"%string;
  b5 ← flag "identity_key_template_sign_derive"%string;
  b6 ← flag "csr_key_usage_request_matched"%string;
  b7 ← flag "certificate_profile_matched"%string;
  b8 ← flag "certificate_chain_and_key_match"%string;
  b9 ← flag "certificate_critical_extensions_allowed"%string;
  b10 ← flag "leaf_certificate_digest_bound"%string;
  b11 ← flag "proto_release_matched"%string;
  b12 ← flag "envelope_format_v1"%string;
  b13 ← flag "p256_ecdh"%string;
  b14 ← flag "hkdf_sha256"%string;
  b15 ← flag "aes256_gcm_decrypt_to_slot"%string;
  b16 ← flag "atomic_dual_slot_commit"%string;
  b17 ← flag "active_certificate_key_agreement"%string;
  b18 ← flag "active_certificate_digital_signature"%string;
  b19 ← flag "active_private_key_can_derive"%string;
  b20 ← flag "active_private_key_can_sign"%string;
  b21 ← flag "ecdsa_p256_sha256_p1363"%string;
  b22 ← flag "secure_journal_ready"%string;
  b23 ← flag "trusted_time_ready"%string;
  Some (mkCapability version b1 b2 b3 b4 b5 b6 b7 b8 b9 b10 b11 b12 b13 b14 b15 b16 b17 b18 b19 b20 b21
    b22 b23 false, true).
End Codec.
