(* ===== verification/IpcWire.v ===== *)
(** * IpcWire: what one side of the IPC writes the other side reads.
    Round trips of the encodings of [IpcCodec] through the answer the dispatcher
    builds around them. *)
From S2P Require Import Prelude Errors Canonical Json KeyTypes TimeTypes IpcCodec.

Section Wire.
Context `{B : Base64} `{BL : !Base64Laws B} `{J : Json} `{JL : !JsonLaws J}.

Lemma b64_roundtrip b : b64_decode (b64_encode b) = b.
Proof. unfold b64_decode, b64_encode. by rewrite base64_roundtrip, String.list_byte_of_string_of_list_byte. Qed.

Lemma b64_empty : b64_decode "" = [].
Proof. unfold b64_decode. by rewrite base64_decode_empty. Qed.

(* --------------------------------------------------------------------- *)
(** ** Looking up fields                                                  *)
(* --------------------------------------------------------------------- *)

Lemma field_lookup_app k (l1 l2 : list (string * json)) :
  field_lookup k (l1 ++ l2) = match field_lookup k l2 with Some v => Some v | None => field_lookup k l1 end.
Proof.
  induction l1 as [|[k' v] l1 IH]; cbn; [by destruct (field_lookup k l2)|]. rewrite IH.
  by destruct (field_lookup k l2).
Qed.

Lemma field_lookup_if b k k' (v : json) :
  field_lookup k (field_if b k' v) = if String.eqb k' k then (if b then Some v else None) else None.
Proof. unfold field_if. destruct b; cbn; by destruct (String.eqb k' k). Qed.

Lemma option_eta {A} (x : option A) : match x with Some v => Some v | None => None end = x.
Proof. by destruct x. Qed.

(** An object with the status the dispatcher adds. *)
Definition with_status (n : Z) (fs : list (string * json)) : json :=
  json_set (json_of_fields fs) "status" (json_int n).

Lemma with_status_object n fs : json_is_object (with_status n fs) = true.
Proof. apply json_set_is_object, json_of_fields_object. Qed.

Lemma with_status_get n fs k : k <> "status"%string -> json_get (with_status n fs) k = field_lookup k fs.
Proof. intros Hk. unfold with_status. rewrite json_get_set_ne by (done || apply json_of_fields_object). apply json_of_fields_get. Qed.

Lemma value_with_status {A} (as_A : json -> option A) n fs k d :
  k <> "status"%string -> json_value as_A (with_status n fs) k d =
    match field_lookup k fs with Some v => as_A v | None => Some d end.
Proof. intros Hk. unfold json_value. by rewrite with_status_object, with_status_get. Qed.

(** Numbers of the width they are read at. *)
Lemma as_u64 z : is_u64 z -> wrapu 64 <$> as_int (json_int z) = Some z.
Proof. intros H. rewrite as_int_int by auto. cbn. by rewrite wrapu_small. Qed.
Lemma as_i64 z : is_i64 z -> wrap_i64 <$> as_int (json_int z) = Some z.
Proof. intros H. rewrite as_int_int by auto. cbn. by rewrite wrap_i64_small. Qed.
Lemma as_u32 z : is_u32 z -> wrapu 32 <$> as_int (json_int z) = Some z.
Proof. intros H. rewrite as_int_int by (unfold is_u32, is_u64 in *; lia). cbn. by rewrite wrapu_small. Qed.

(** Name the fields of the object that is read, turn every accessor into a lookup,
    and evaluate the lookups one by one. *)
Ltac name_fields Hl :=
  match goal with
  | |- context [json_of_fields ?fs] => let l := fresh "l" in remember fs as l eqn:Hl
  | |- context [with_status _ ?fs] => let l := fresh "l" in remember fs as l eqn:Hl
  end.
Ltac look Hl :=
  match goal with
  | |- context [field_lookup ?k ?l] =>
      let E := fresh "E" in
      eassert (E : field_lookup k l = _);
      [ rewrite Hl, ?field_lookup_app, ?field_lookup_if;
        cbn [field_lookup String.eqb Ascii.eqb Bool.eqb]; rewrite ?option_eta; reflexivity
      | rewrite E; clear E ]
  end.
Tactic Notation "fields" uconstr(R) :=
  let Hl := fresh "Hl" in
  name_fields Hl;
  unfold value_string, value_u64, value_i64, value_u32, value_bool, value_int;
  rewrite !R; try discriminate; repeat look Hl; clear Hl.

(** A field that is written only when it is not empty reads as empty without it. *)
Lemma read_optional_bytes (b : bytes) :
  exists e, match (if negb (bytes_empty b) then Some (json_string (b64_encode b)) else None) with
            | Some v => as_string v | None => Some ""%string end = Some e /\ b64_decode e = b.
Proof.
  destruct b as [|x b]; cbn; [exists ""%string; by rewrite b64_empty|].
  exists (b64_encode (x :: b)). by rewrite as_string_string, b64_roundtrip.
Qed.

Lemma read_optional_kcv (p : bool) (k : kcv3) :
  exists e, match (if p then Some (json_string (b64_encode (kcv_bytes k))) else None) with
            | Some v => as_string v | None => Some ""%string end = Some e /\
    b64_decode e = if p then kcv_bytes k else [].
Proof.
  destruct p; [exists (b64_encode (kcv_bytes k)); by rewrite as_string_string, b64_roundtrip|].
  exists ""%string. by rewrite b64_empty.
Qed.

(* --------------------------------------------------------------------- *)
(** ** Requests                                                           *)
(* --------------------------------------------------------------------- *)

(** The fields of an item are of their C++ types, and a check value that is not
    present is the default one. *)
Record item_ok (i : WrappedKeyItem) : Prop := {
  io_version : is_u64 (it_business_key_version i);
  io_from : is_i64 (it_valid_from_ms i);
  io_to : is_i64 (it_valid_to_ms i);
  io_kcv : it_key_check_value_present i = false -> it_key_check_value i = kcv_zero
}.

Lemma item_roundtrip i : item_ok i -> item_of_json (item_to_json i) = Some i.
Proof.
  intros [Hv Hf Ht Hk]. unfold item_of_json, item_to_json. fields json_value_fields.
  rewrite !as_string_string, as_u64, !as_i64 by done. cbn [mbind option_bind].
  destruct (read_optional_bytes (it_envelope_digest i)) as (e & -> & He). cbn [mbind option_bind].
  destruct (read_optional_kcv (it_key_check_value_present i) (it_key_check_value i)) as (e2 & -> & He2).
  cbn [mbind option_bind]. rewrite He, He2, !b64_roundtrip, string_to_format_to_string.
  destruct i as [? ? ? ? ? ? ? ? ? ? ? [[a b] c] []]; cbn in *; [done|]. by rewrite Hk.
Qed.

Lemma items_roundtrip l : Forall item_ok l -> mapM item_of_json (item_to_json <$> l) = Some l.
Proof.
  intros H. apply mapM_Some_2, Forall2_fmap_l, Forall_Forall2_diag.
  eapply Forall_impl; [exact H|]. intros i Hi. by apply item_roundtrip.
Qed.

Lemma items_of_fields fs l :
  field_lookup "items" fs = Some (json_array (item_to_json <$> l)) -> Forall item_ok l ->
  items_of_json (json_of_fields fs) = Some l.
Proof.
  intros E Hl. unfold items_of_json. rewrite json_of_fields_get, E. cbn [mbind option_bind].
  rewrite as_array_array. by apply items_roundtrip.
Qed.

(** The context of a leased import, of the C++ types. *)
Definition context_ok (c : KeyprovImportContext) : Prop :=
  is_i64 (kc_admission_expire_at_ms c) /\ is_u64 (kc_capability_epoch c) /\ is_u32 (kc_kl1_profile_version c).

Lemma import_params_roundtrip request_id domain items :
  Forall item_ok items ->
  import_params_of_json (import_params request_id domain items) = Some (request_id, domain, items).
Proof.
  intros Hi. unfold import_params_of_json, import_params. rewrite (items_of_fields _ items) by done.
  fields json_value_fields. by rewrite !as_string_string.
Qed.

Lemma import_kl1_params_roundtrip request_id domain items c :
  Forall item_ok items -> context_ok c ->
  import_kl1_params_of_json (import_kl1_params request_id domain items c) = Some (request_id, domain, items, c).
Proof.
  intros Hi (He & Hp & Hv). unfold import_kl1_params_of_json, import_kl1_params.
  rewrite (items_of_fields _ items) by done. fields json_value_fields.
  rewrite !as_string_string, as_i64, as_u64, as_u32 by done. by destruct c.
Qed.

(* --------------------------------------------------------------------- *)
(** ** Answers                                                            *)
(* --------------------------------------------------------------------- *)

(** As [item_ok], for a status. *)
Record status_ok (s : BusinessKeyStatus) : Prop := {
  so_version : is_u64 (bs_business_key_version s);
  so_from : is_i64 (bs_valid_from_ms s);
  so_to : is_i64 (bs_valid_to_ms s);
  so_kcv : bs_key_check_value_present s = false -> bs_key_check_value s = kcv_zero
}.

Lemma status_roundtrip_wire s : status_ok s -> business_key_status_from_json (business_key_status_to_json s) = Some s.
Proof.
  intros [Hv Hf Ht Hk]. unfold business_key_status_from_json, business_key_status_to_json, json_contains.
  rewrite !json_of_fields_get. fields json_value_fields.
  rewrite !as_string_string, as_u64, !as_i64 by done. cbn [mbind option_bind].
  destruct (read_optional_bytes (bs_envelope_digest s)) as (e1 & -> & H1). cbn [mbind option_bind].
  destruct (read_optional_kcv (bs_key_check_value_present s) (bs_key_check_value s)) as (e2 & -> & H2).
  cbn [mbind option_bind].
  destruct (read_optional_bytes (bs_import_proof s)) as (e3 & -> & H3). cbn [mbind option_bind].
  assert (match (if negb (str_empty (bs_proof_algorithm s)) then Some (json_string (bs_proof_algorithm s)) else None)
    with Some v => as_string v | None => Some ""%string end = Some (bs_proof_algorithm s)) as ->.
  { destruct (str_empty (bs_proof_algorithm s)) eqn:E; cbn; [|apply as_string_string].
    by apply str_empty_true in E as ->. }
  cbn [mbind option_bind].
  destruct (read_optional_bytes (bs_recipient_certificate_digest s)) as (e4 & -> & H4). cbn [mbind option_bind].
  rewrite H1, H2, H3, H4, string_to_state_to_string, string_to_format_to_string.
  destruct s as [? ? ? ? ? ? ? ? ? [|? ?] [[a b] c] [] [|? ?] ? ? [|? ?]]; cbn in *;
    rewrite ?(Hk eq_refl); done.
Qed.

Lemma push_statuses l out : Forall status_ok l ->
  push_items (business_key_status_to_json <$> l) out = (true, ir_with_items (ir_items out ++ l) out).
Proof.
  intros H. revert out. induction H as [|s l Hs Hl IH]; intros out; cbn [fmap list_fmap push_items].
  - destruct out. cbn. by rewrite app_nil_r.
  - rewrite status_roundtrip_wire by done. rewrite IH. cbn. by rewrite <- app_assoc.
Qed.

(** The result of an import, of the C++ types. *)
Definition result_ok (r : ImportResult) : Prop := Forall status_ok (ir_items r) /\ is_i64 (ir_committed_at_ms r).

(** What the client makes of a result before it reads the answer. *)
Definition fresh_result (request_id : string) : ImportResult := ir_with_request_id request_id ImportResult_default.

Lemma import_state_read j s :
  json_get j "state" = Some (json_string (business_key_import_state_to_string s)) ->
  json_get j "state_code" = Some (json_int (import_state_code s)) -> import_state_from_json j = s.
Proof.
  intros E1 E2. unfold import_state_from_json. rewrite E1, E2. cbn [mbind option_bind].
  assert (is_u64 (import_state_code s)) by (by destruct s).
  rewrite json_unsigned_int, as_string_string, as_int_int by auto.
  rewrite wrapu_small by (by destruct s).
  rewrite import_state_from_to_code, string_to_import_state_to_string. by rewrite bool_decide_true.
Qed.

(** Membership in a list of names. *)
Ltac mem := match goal with |- ?P => exact (bool_decide_unpack P I) end.

(** The answer to an import, with or without the lease attachment. *)
Definition answer_fields (rc : ErrorCode) (r : ImportResult) (a : list (string * json)) : list (string * json) :=
  import_result_fields r ++ a ++ field_if (negb (is_success rc)) "success" (json_bool false).

Lemma result_read n rc r a x :
  result_ok r ->
  (forall k v, field_lookup k a = Some v ->
     k ∉ ["request_id"; "business_domain"; "state"; "state_code"; "items"; "committed_at_ms";
          "provider_version_digest"; "import_proof"; "proof_algorithm"; "binding_certificate_digest"]%string) ->
  import_result_from_json (with_status n (answer_fields rc r a)) (fresh_result x) = (true, r).
Proof.
  intros [Hi Hc] Ha.
  assert (L : forall k, k ∈ ["request_id"; "business_domain"; "state"; "state_code"; "items"; "committed_at_ms";
          "provider_version_digest"; "import_proof"; "proof_algorithm"; "binding_certificate_digest"]%string ->
    field_lookup k (answer_fields rc r a) = field_lookup k (import_result_fields r)).
  { intros k Hk. unfold answer_fields. rewrite !field_lookup_app, field_lookup_if.
    destruct (String.eqb_spec "success" k) as [<-|]; [by vm_compute in Hk; set_solver|].
    destruct (field_lookup k a) eqn:E; [|done]. by apply Ha in E. }
  unfold import_result_from_json, assign, upd_seq, upd_when, json_contains.
  rewrite (import_state_read _ (ir_state r));
    [|rewrite with_status_get, L by (discriminate || mem); unfold import_result_fields;
      rewrite !field_lookup_app, !field_lookup_if; reflexivity..].
  rewrite !with_status_get by discriminate. rewrite !L by mem.
  unfold value_string, value_i64, value_int. rewrite !value_with_status by discriminate. rewrite !L by mem.
  unfold import_result_fields. rewrite !field_lookup_app, !field_lookup_if.
  cbn [field_lookup String.eqb Ascii.eqb Bool.eqb mbind option_bind]. rewrite !option_eta.
  rewrite !as_string_string, as_array_array, as_i64 by done. cbn [default id].
  rewrite push_statuses by done.
  destruct r as [? ? ? ? ? ? [|? ?] ? [|? ?]]; cbn; by rewrite ?as_string_string, ?b64_roundtrip.
Qed.
End Wire.

(** The conditions on items, statuses and results can be decided. *)
#[global] Instance is_u64_dec z : Decision (is_u64 z).
Proof. unfold is_u64. apply _. Defined.
#[global] Instance is_i64_dec z : Decision (is_i64 z).
Proof. unfold is_i64. apply _. Defined.
#[global] Instance is_u32_dec z : Decision (is_u32 z).
Proof. unfold is_u32. apply _. Defined.
#[global] Instance item_ok_dec i : Decision (item_ok i).
Proof.
  refine (cast_if (decide (is_u64 (it_business_key_version i) /\ is_i64 (it_valid_from_ms i) /\
    is_i64 (it_valid_to_ms i) /\ (it_key_check_value_present i = false -> it_key_check_value i = kcv_zero)))).
  - abstract (by destruct a as (?&?&?&?)).
  - abstract (intros []; tauto).
Defined.
#[global] Instance status_ok_dec s : Decision (status_ok s).
Proof.
  refine (cast_if (decide (is_u64 (bs_business_key_version s) /\ is_i64 (bs_valid_from_ms s) /\
    is_i64 (bs_valid_to_ms s) /\ (bs_key_check_value_present s = false -> bs_key_check_value s = kcv_zero)))).
  - abstract (by destruct a as (?&?&?&?)).
  - abstract (intros []; tauto).
Defined.
#[global] Instance result_ok_dec r : Decision (result_ok r).
Proof. unfold result_ok. apply _. Defined.
#[global] Instance context_ok_dec c : Decision (context_ok c).
Proof. unfold context_ok. apply _. Defined.
