(* ===== verification/IpcDispatcher.v ===== *)
(** * IpcDispatcher: the requests the daemon answers.
    Models [src/sec_ipc_dispatcher.cpp] / [include/sec_ipc_dispatcher.h]: the handler
    of every method, the access checks by the caller's systemd unit, and the
    answer with its status field. Requests are handled one after the other. *)
From S2P Require Import Prelude Errors Canonical Json KeyTypes X509 RetryPolicy TimeTypes TrustedTime TimeMonitor Envelope Provider Ledger SoftFile Provisioning Import Tls CertStore KeyEngine Csr CertChain CertCheck SecService IpcCodec.

(* --------------------------------------------------------------------- *)
(** ** Around the dispatcher                                              *)
(* --------------------------------------------------------------------- *)

(** The source of trusted time the dispatcher asks: the monitor, or the one for
    development. *)
(** [src/include/trusted_time.h:263-266] TrustedTimeSnapshotSource::get *)
Class TrustedTimeSnapshotSource (T : Type) := { ts_get : Z -> st T TrustedTimeResult }.

#[global] Instance monitor_source {E} `{TimeEnv E} : TrustedTimeSnapshotSource (Monitor E) :=
  {| ts_get := monitor_get |}.

(** The caller behind a connection, and the server's table of subscriptions. *)
Class IpcHost (H : Type) := {
  ih_resolve : Z -> st H PeerIdentity;
  ih_add_subscription : Z -> Z -> st H bool
}.

(** A raw pointer: never set, to a live object, or to a freed one. *)
Inductive Pointer (A : Type) := Unset | Live (x : A) | Freed.
Arguments Unset {A}. Arguments Live {A}. Arguments Freed {A}.

(** [src/include/ipc_protocol.h:58-61] EventId *)
Definition TRUSTED_TIME_CHANGED : Z := 2.
(** [src/include/ipc_protocol.h:64-64] kTlsProfileMqtt *)
Definition kTlsProfileMqtt : string := "mqtt".

(** The object behind [tls_provider_] is the one of the service. *)
(** [src/include/sec_ipc_dispatcher.h:72-79] SecIpcDispatcher members *)
Record SecIpcDispatcher (W P D E T H : Type) `{J : Json} := mkDispatcher {
  dp_service : SecService W;
  dp_tls : Pointer unit;
  dp_keys : Pointer (Service P D E);
  dp_time : option T;
  dp_key_peer : string;
  dp_time_peers : list string;
  dp_has_resolver : bool;
  dp_has_add_subscription : bool;
  dp_host : H
}.
Arguments mkDispatcher {W P D E T H J}.
Arguments dp_service {W P D E T H J}.
Arguments dp_tls {W P D E T H J}.
Arguments dp_keys {W P D E T H J}.
Arguments dp_time {W P D E T H J}.
Arguments dp_key_peer {W P D E T H J}.
Arguments dp_time_peers {W P D E T H J}.
Arguments dp_has_resolver {W P D E T H J}.
Arguments dp_has_add_subscription {W P D E T H J}.
Arguments dp_host {W P D E T H J}.

(** How a handler ends: with a status and a body, with a JSON exception, not within
    the fuel of a start, or by the use of a freed object. *)
Inductive Handled `{J : Json} := Answer (status : Z) (body : json) | JsonError | Loops | Undefined.

(** How a request ends. *)
Inductive Reply := Response (text : string) | NoResponse | UndefinedBehaviour.

(** [src/src/sec_ipc_dispatcher.cpp:24-24] FW_SERIALIZATION_FAILED *)
Definition FW_SERIALIZATION_FAILED : Z := 305.
(** [src/src/sec_ipc_dispatcher.cpp:26-26] FW_HANDLER_FAILED *)
Definition FW_HANDLER_FAILED : Z := 306.

Section Dispatcher.
Context {W P D E T H : Type} `{L : X509Lib} `{World : !SecWorld W} `{Hsm : !HsmInterface W}
  `{FS : !FileSystem W} `{Crypto : SoftFileCrypto} `{Hash : Sha256} `{J : Json} `{JC : !JsonConstIndex}
  `{Aes : Aes128} `{LT : LocalTime} `{Ec : EcPoints} `{B : Base64}
  `{Prov : !BusinessKeyProvider P} `{Store : !LedgerStore D} `{SEnv : !ServiceEnv E} `{PB : Protobuf}
  `{EC : EcP256} `{TS : !TrustedTimeSnapshotSource T} `{IH : !IpcHost H}.
Notation Dispatcher := (SecIpcDispatcher W P D E T H).
Implicit Types d : Dispatcher.

Definition dp_with_service x d : Dispatcher := mkDispatcher x (dp_tls d) (dp_keys d) (dp_time d)
    (dp_key_peer d) (dp_time_peers d) (dp_has_resolver d) (dp_has_add_subscription d) (dp_host d).
Definition dp_with_tls x d : Dispatcher := mkDispatcher (dp_service d) x (dp_keys d) (dp_time d)
    (dp_key_peer d) (dp_time_peers d) (dp_has_resolver d) (dp_has_add_subscription d) (dp_host d).
Definition dp_with_keys x d : Dispatcher := mkDispatcher (dp_service d) (dp_tls d) x (dp_time d)
    (dp_key_peer d) (dp_time_peers d) (dp_has_resolver d) (dp_has_add_subscription d) (dp_host d).
Definition dp_with_time x d : Dispatcher := mkDispatcher (dp_service d) (dp_tls d) (dp_keys d) x
    (dp_key_peer d) (dp_time_peers d) (dp_has_resolver d) (dp_has_add_subscription d) (dp_host d).
Definition dp_with_host x d : Dispatcher := mkDispatcher (dp_service d) (dp_tls d) (dp_keys d)
    (dp_time d) (dp_key_peer d) (dp_time_peers d) (dp_has_resolver d) (dp_has_add_subscription d) x.

(** Call the service, the host. *)
Definition on_service {A} (m : st (SecService W) A) : st Dispatcher A := fun d =>
  let '(a, s) := m (dp_service d) in (a, dp_with_service s d).
Definition on_host {A} (m : st H A) : st Dispatcher A := fun d =>
  let '(a, h) := m (dp_host d) in (a, dp_with_host h d).

(** [src/src/sec_ipc_dispatcher.cpp:48-50] SecIpcDispatcher *)
Definition dispatcher_new (service : SecService W) (h : H) : Dispatcher :=
  mkDispatcher service Unset Unset None "tbox-tsp.service" ["tbox-mqtt.service"%string] false false h.

(** [src/src/sec_ipc_dispatcher.cpp:70-78] resolvePeer *)
Definition resolvePeer (client_fd : Z) : st Dispatcher PeerIdentity := fun d =>
  if dp_has_resolver d then on_host (ih_resolve client_fd) d else (mkPeer false 0 0 0 "", d).

(** [src/src/sec_ipc_dispatcher.cpp:28-32] make_json_response *)
Definition make_json_response (status : Z) (payload : json) : string :=
  json_dump (json_set payload "status" (json_int status)).

(* --------------------------------------------------------------------- *)
(** ** Bodies                                                             *)
(* --------------------------------------------------------------------- *)

Definition success_field (b : bool) : string * json := ("success"%string, json_bool b).
Definition answer (rc : ErrorCode) (fs : list (string * json)) : Handled :=
  Answer (error_code_value rc) (json_of_fields fs).
(** The body that says whether the call succeeded. *)
Definition answer_code (rc : ErrorCode) : Handled := answer rc [success_field (is_success rc)].
(** The body of a call that delivers something. *)
Definition answer_with (rc : ErrorCode) (fs : list (string * json)) : Handled :=
  answer rc (if is_success rc then fs else [success_field false]).
Definition refuse (rc : ErrorCode) : Handled := answer rc [success_field false].
Definition refuse_because (rc : ErrorCode) (error : string) : Handled :=
  answer rc [success_field false; ("error"%string, json_string error)].
Definition invalid_json : Handled :=
  Answer FW_SERIALIZATION_FAILED
    (json_of_fields [success_field false; ("error"%string, json_string "Invalid JSON")]).
Definition unreadable : Handled := Answer FW_SERIALIZATION_FAILED (json_of_fields [success_field false]).

(* --------------------------------------------------------------------- *)
(** ** The device certificate and the seed                                *)
(* --------------------------------------------------------------------- *)

(** Whether [initialize] replaces the key engine, and with it the HSM the TLS provider
    and the business-key service point to. *)
Definition replaces_hsm (s : SecService W) : bool :=
  match sv_key_engine (initialize_hsm (sv_with_key_engine None s)).2 with Some _ => true | None => false end.

Definition freed {A} (p : Pointer A) : Pointer A := match p with Unset => Unset | _ => Freed end.

(** The objects are freed under the pointers. When the start fails after the HSM, the
    service keeps a provider with a freed HSM as well, which is not followed. *)
(** [src/src/sec_ipc_dispatcher.cpp:233-238] handle_initialize *)
Definition handle_initialize (fuel : nat) : st Dispatcher Handled := fun d =>
  let lost := replaces_hsm (dp_service d) in
  let '(r, d) := on_service (initialize fuel) d in
  let d := if lost then dp_with_keys (freed (dp_keys d)) (dp_with_tls (freed (dp_tls d)) d) else d in
  (match r with Started rc => answer_code rc | StartThrows => JsonError | StartLoops => Loops end, d).

(** [src/src/sec_ipc_dispatcher.cpp:240-245] handle_generate_key_pair *)
Definition handle_generate_key_pair : st Dispatcher Handled := fun d =>
  let '(rc, d) := on_service generate_key_pair d in (answer_code rc, d).

(** [src/src/sec_ipc_dispatcher.cpp:247-257] handle_export_private_key *)
Definition handle_export_private_key : st Dispatcher Handled := fun d =>
  let '((rc, key), d) := on_service export_private_key d in
  (answer_with rc [("private_key"%string, json_string (b64_encode key))], d).

(** [src/src/sec_ipc_dispatcher.cpp:259-269] handle_get_csr *)
Definition handle_get_csr : st Dispatcher Handled := fun d =>
  let '((rc, csr), d) := on_service get_csr d in
  (answer_with rc [("csr"%string, json_string (b64_encode csr))], d).

(** [src/src/sec_ipc_dispatcher.cpp:271-276] handle_submit_csr *)
Definition handle_submit_csr : st Dispatcher Handled := fun d =>
  let '(rc, d) := on_service submit_csr d in (answer_code rc, d).

(** [None] of the service is a JSON exception. *)
(** [src/src/sec_ipc_dispatcher.cpp:278-299] handle_inject_certificate *)
Definition handle_inject_certificate (params : string) : st Dispatcher Handled := fun d =>
  match json_parse params ≫= fun j => value_string j "cert" "" with
  | None => (invalid_json, d)
  | Some cert =>
      if str_empty cert then (refuse_because INVALID_PARAMETER "Missing cert parameter", d) else
      let '(r, d) := on_service (inject_certificate (b64_decode cert)) d in
      (match r with Some rc => answer_code rc | None => invalid_json end, d)
  end.

(** [src/src/sec_ipc_dispatcher.cpp:301-306] handle_apply_certificate *)
Definition handle_apply_certificate : st Dispatcher Handled := fun d =>
  let '(rc, d) := on_service apply_certificate d in (answer_code rc, d).

(** [static_cast<uint8_t>(j.value("level", 0))] *)
Definition value_u8 (j : json) (k : string) : option Z := wrapu 8 <$> value_i32 j k 0.

(** [src/src/sec_ipc_dispatcher.cpp:308-327] handle_get_seed *)
Definition handle_get_seed (params : string) : st Dispatcher Handled := fun d =>
  match json_parse params ≫= fun j => value_u8 j "level" with
  | None => (invalid_json, d)
  | Some level =>
      let '((rc, seed), d) := on_service (get_seed level) d in
      (answer_with rc [("seed"%string, json_string (b64_encode seed))], d)
  end.

(** [src/src/sec_ipc_dispatcher.cpp:329-351] handle_verify_key *)
Definition handle_verify_key (params : string) : st Dispatcher Handled := fun d =>
  match json_parse params ≫= fun j =>
      level ← value_u8 j "level"; key ← value_string j "key" ""; Some (level, key) with
  | None => (invalid_json, d)
  | Some (level, key) =>
      if str_empty key then (refuse_because INVALID_PARAMETER "Missing key parameter", d) else
      let '(rc, d) := on_service (verify_key level (b64_decode key)) d in (answer_code rc, d)
  end.

(** [src/src/sec_ipc_dispatcher.cpp:353-364] handle_get_status *)
Definition handle_get_status : st Dispatcher Handled := fun d =>
  let s := dp_service d in
  let p := get_provision_status s in
  (Answer 0 (json_of_fields [
     ("vin"%string, json_string (pv_vin p));
     ("ecu_uid"%string, json_string (pv_ecu_uid p));
     ("state"%string, json_string (provision_state_to_string (pv_state p)));
     ("prov_state"%string, json_string (device_provision_state_to_string (get_device_binding_state s)));
     ("last_error"%string, json_string (pv_last_error p));
     ("retry_count"%string, json_int (pv_retry_count p))]), d).

(** [src/src/sec_ipc_dispatcher.cpp:366-371] handle_get_device_info *)
Definition handle_get_device_info : st Dispatcher Handled := fun d =>
  (Answer 0 (json_of_fields [("device_info"%string, json_string (get_device_info (dp_service d)))]), d).

(** [src/src/sec_ipc_dispatcher.cpp:373-378] handle_reset_status *)
Definition handle_reset_status : st Dispatcher Handled := fun d =>
  let '(rc, d) := on_service reset_provision_status d in (answer_code rc, d).

(* --------------------------------------------------------------------- *)
(** ** TLS credentials                                                    *)
(* --------------------------------------------------------------------- *)

(** Anything that goes wrong leaves the default. *)
(** [src/src/sec_ipc_dispatcher.cpp:392-398] handle_get_tls_credential profile *)
Definition profile_param (params : string) : string :=
  default kTlsProfileMqtt (json_parse params ≫= fun j => value_string j "profile" kTlsProfileMqtt).

(** Call the provider of the service; [None] when there is none. *)
Definition tls_call {A} (m : st (TlsCredentialProvider (TlsWorld W)) A) : st Dispatcher (option A) :=
  on_service (fun s =>
    match sv_tls s with
    | Some p => let '(a, s) := on_tls m p s in (Some a, s)
    | None => (None, s)
    end).

(** [isAuthorized] asked of the provider of the service. *)
Definition authorized (profile : string) (caller : PeerIdentity) : st Dispatcher (option bool) :=
  tls_call (fun q => (isAuthorized profile caller q, q)).

(** [src/src/sec_ipc_dispatcher.cpp:423-431] handle_get_tls_credential body *)
Definition bundle_fields (b : TlsCredentialBundle) : list (string * json) := [
  ("credential_id"%string, json_string (tb_credential_id b));
  ("version"%string, json_int (tb_version b));
  ("root_ca_bundle"%string, json_string (b64_encode (tb_root_ca_bundle_der b)));
  ("client_cert_chain"%string, json_string (b64_encode (tb_client_cert_chain_der b)));
  ("private_key_ref"%string, json_string (b64_encode (tb_private_key_ref b)));
  ("key_algorithm"%string, json_string (key_algorithm_to_string (tb_key_algorithm b)));
  ("not_before"%string, json_int (tb_not_before b));
  ("not_after"%string, json_int (tb_not_after b));
  ("credential_status"%string, json_string (tls_credential_status_to_string (tb_status b)))].

(** [src/src/sec_ipc_dispatcher.cpp:461-464] handle_get_tls_credential_state body *)
Definition state_fields (c : TlsCredentialState) : list (string * json) := [
  ("credential_id"%string, json_string (cs_credential_id c));
  ("version"%string, json_int (cs_version c));
  ("credential_status"%string, json_string (tls_credential_status_to_string (cs_status c)));
  ("reason_code"%string, json_int (cs_reason_code c))].

(** What a call that may deliver something answers. *)
Definition answer_opt {A} (r : option (ErrorCode * option A)) (fs : A -> list (string * json)) : Handled :=
  match r with
  | Some (rc, Some a) => answer_with rc (fs a)
  | Some (rc, None) => refuse rc
  | None => Undefined
  end.

(** [src/src/sec_ipc_dispatcher.cpp:384-436] handle_get_tls_credential *)
Definition handle_get_tls_credential (params : string) (client_fd : Z) : st Dispatcher Handled := fun d =>
  match dp_tls d with
  | Unset => (refuse_because NOT_IMPLEMENTED "TLS provider not configured", d)
  | Freed => (Undefined, d)
  | Live _ =>
      let profile := profile_param params in
      let '(caller, d) := resolvePeer client_fd d in
      let '(ok, d) := authorized profile caller d in
      match ok with
      | None => (Undefined, d)
      | Some false => (refuse ACL_DENIED, d)
      | Some true =>
          let '(_, d) := on_service (ensure_tls_material_ready profile) d in
          let '(r, d) := tls_call (getTlsCredential profile caller) d in
          (answer_opt r bundle_fields, d)
      end
  end.

(** [src/src/sec_ipc_dispatcher.cpp:438-469] handle_get_tls_credential_state *)
Definition handle_get_tls_credential_state (params : string) : st Dispatcher Handled := fun d =>
  match dp_tls d with
  | Unset => (refuse NOT_IMPLEMENTED, d)
  | p =>
      let profile := profile_param params in
      let '(_, d) := on_service (ensure_tls_material_ready profile) d in
      let '(r, d) := tls_call (fun q => (getTlsCredentialState profile q, q)) d in
      (match p with Freed => Undefined | _ => answer_opt r state_fields end, d)
  end.

(** [src/src/sec_ipc_dispatcher.cpp:478-493] handle_sign_tls params *)
Definition sign_params (params : string) : option TlsSignRequest :=
  j ← json_parse params;
  ref ← value_string j "private_key_ref" "";
  alg ← value_string j "algorithm" "";
  digest ← value_string j "digest" "";
  context ← value_string j "context" "";
  request_id ← value_string j "request_id" "";
  Some (mkSignRequest (b64_decode ref) (string_to_signature_algorithm alg) (b64_decode digest)
    (b64_decode context) request_id).

(** [src/src/sec_ipc_dispatcher.cpp:471-507] handle_sign_tls *)
Definition handle_sign_tls (params : string) (client_fd : Z) : st Dispatcher Handled := fun d =>
  match dp_tls d with
  | Unset => (refuse NOT_IMPLEMENTED, d)
  | p =>
      match sign_params params with
      | None => (invalid_json, d)
      | Some req =>
          let '(caller, d) := resolvePeer client_fd d in
          match p with
          | Freed => (Undefined, d)
          | _ =>
              let '(r, d) := tls_call (signTls req caller) d in
              (answer_opt r (fun sig => [("signature"%string, json_string (b64_encode sig))]), d)
          end
      end
  end.

(** Whether it was registered; without the callback it is not. *)
(** [src/src/sec_ipc_dispatcher.cpp:531-532] add_subscription_fn_ *)
Definition add_subscription (client_fd event : Z) : st Dispatcher bool := fun d =>
  if dp_has_add_subscription d then on_host (ih_add_subscription client_fd event) d else (false, d).

(** [src/src/sec_ipc_dispatcher.cpp:509-543] handle_subscribe_tls_credential_changed *)
Definition handle_subscribe_tls_credential_changed (params : string) (client_fd : Z) :
    st Dispatcher Handled := fun d =>
  match dp_tls d with
  | Unset => (refuse NOT_IMPLEMENTED, d)
  | Freed => (Undefined, d)
  | Live _ =>
      let '(caller, d) := resolvePeer client_fd d in
      let '(ok, d) := authorized (profile_param params) caller d in
      match ok with
      | None => (Undefined, d)
      | Some false => (refuse ACL_DENIED, d)
      | Some true =>
          let '(added, d) := add_subscription client_fd TLS_CREDENTIAL_CHANGED d in
          (if negb added then refuse_because INTERNAL_ERROR "Subscription failed"
           else answer SUCCESS [success_field true; ("event_type"%string, json_int TLS_CREDENTIAL_CHANGED)], d)
      end
  end.

(* --------------------------------------------------------------------- *)
(** ** Business keys                                                      *)
(* --------------------------------------------------------------------- *)

(** [src/src/sec_ipc_dispatcher.cpp:685-685] business-key caller *)
Definition key_peer (caller : PeerIdentity) d : bool :=
  pi_valid caller && String.eqb (pi_service_name caller) (dp_key_peer d).

(** What the six handlers have in common: the service that is there, the caller that is
    allowed, the parameters that are readable. *)
(** [src/src/sec_ipc_dispatcher.cpp:677-706] handle_get_business_key_status checks *)
Definition with_keys {A} (client_fd : Z) (params : option A) (run : A -> st (Service P D E) Handled) :
    st Dispatcher Handled := fun d =>
  match dp_keys d with
  | Unset => (refuse NOT_IMPLEMENTED, d)
  | p =>
      let '(caller, d) := resolvePeer client_fd d in
      if negb (key_peer caller d) then (refuse ACL_DENIED, d) else
      match params with
      | None => (unreadable, d)
      | Some a =>
          match p with
          | Live b => let '(r, b) := run a b in (r, dp_with_keys (Live b) d)
          | _ => (Undefined, d)
          end
      end
  end.

(** [src/src/sec_ipc_dispatcher.cpp:677-722] handle_get_business_key_status *)
Definition handle_get_business_key_status (params : string) (client_fd : Z) : st Dispatcher Handled :=
  with_keys client_fd (json_parse params ≫= status_params_of_json) (fun '(domain, purposes) b =>
    let '(rc, items) := getStatus domain purposes b in
    (answer_with rc [("items"%string, json_array (business_key_status_to_json <$> items))], b)).

(** [src/src/sec_ipc_dispatcher.cpp:724-791] handle_import_wrapped_business_keys *)
Definition handle_import_wrapped_business_keys (params : string) (client_fd : Z) : st Dispatcher Handled :=
  with_keys client_fd (json_parse params ≫= import_params_of_json) (fun '(request_id, domain, items) b =>
    let '((rc, r), b) := import request_id domain items b in
    (Answer (error_code_value rc) (import_answer rc r []), b)).

(** [src/src/sec_ipc_dispatcher.cpp:793-822] handle_get_business_key_import_result *)
Definition handle_get_business_key_import_result (params : string) (client_fd : Z) : st Dispatcher Handled :=
  with_keys client_fd (json_parse params ≫= fun j => value_string j "request_id" "") (fun request_id b =>
    let '((rc, r, a), b) := getImportResultKl1 request_id ImportResult_default KeyprovResultAttachment_default b in
    (Answer (error_code_value rc) (import_answer rc r (attachment_fields a)), b)).

(** [src/src/sec_ipc_dispatcher.cpp:824-847] handle_get_v2c_key_provisioning_capability *)
Definition handle_get_v2c_key_provisioning_capability (client_fd : Z) : st Dispatcher Handled :=
  with_keys client_fd (Some tt) (fun _ b =>
    (Answer 0 (json_set (capability_to_json (capability b)) "success" (json_bool true)), b)).

(** Only logs follow the call. *)
(** [src/src/sec_ipc_dispatcher.cpp:849-992] handle_import_wrapped_business_keys_kl1 *)
Definition handle_import_wrapped_business_keys_kl1 (params : string) (client_fd : Z) : st Dispatcher Handled :=
  with_keys client_fd (json_parse params ≫= import_kl1_params_of_json)
    (fun '(request_id, domain, items, context) b =>
      let '((rc, r, a), b) := importKl1 request_id domain items context b in
      (Answer (error_code_value rc) (import_answer rc r (attachment_fields a)), b)).

(** [src/src/sec_ipc_dispatcher.cpp:994-1018] handle_get_keyprov_contract_snapshot *)
Definition handle_get_keyprov_contract_snapshot (client_fd : Z) : st Dispatcher Handled :=
  with_keys client_fd (Some tt) (fun _ b =>
    (Answer 0 (json_set (snapshot_to_json (contractSnapshot b)) "success" (json_bool true)), b)).

(* --------------------------------------------------------------------- *)
(** ** Trusted time                                                       *)
(* --------------------------------------------------------------------- *)

Definition envelope_answer (rc : ErrorCode) (e : json) (fs : list (string * json)) : Handled :=
  answer rc (("envelope"%string, e) :: fs).
(** The default envelope with its error class. *)
Definition error_envelope (error_class : string) : json :=
  json_set (trusted_time_envelope_to_json TrustedTimeEnvelope_default) "error_class" (json_string error_class).
(** [src/src/sec_ipc_dispatcher.cpp:1046-1050] handle_get_trusted_time refusal *)
Definition time_denied : Handled :=
  envelope_answer ACL_DENIED (json_set (error_envelope "acl_denied") "valid" (json_bool false)) [].

(** [src/src/sec_ipc_dispatcher.cpp:1033-1037] trusted-time caller *)
Definition time_peer (caller : PeerIdentity) d : bool :=
  pi_valid caller && contains (dp_time_peers d) (pi_service_name caller).

(** The snapshot the source gives for a token. *)
Definition time_snapshot (t : T) (token : Z) : st Dispatcher json := fun d =>
  let '(r, t) := ts_get token t in
  (trusted_time_envelope_to_json (to_envelope r), dp_with_time (Some t) d).

(** [src/src/sec_ipc_dispatcher.cpp:1024-1071] handle_get_trusted_time *)
Definition handle_get_trusted_time (params : string) (client_fd : Z) : st Dispatcher Handled := fun d =>
  match dp_time d with
  | None => (refuse NOT_IMPLEMENTED, d)
  | Some t =>
      let '(caller, d) := resolvePeer client_fd d in
      if negb (time_peer caller d) then (time_denied, d) else
      match json_parse params ≫= fun j => value_u64 j "request_token" 0 with
      | None => (envelope_answer TRUSTED_TIME_MALFORMED (error_envelope "malformed") [], d)
      | Some token =>
          let '(e, d) := time_snapshot t token d in (envelope_answer SUCCESS e [], d)
      end
  end.

(** [src/src/sec_ipc_dispatcher.cpp:1073-1119] handle_subscribe_trusted_time_changed *)
Definition handle_subscribe_trusted_time_changed (client_fd : Z) : st Dispatcher Handled := fun d =>
  match dp_time d with
  | None => (refuse NOT_IMPLEMENTED, d)
  | Some t =>
      let '(caller, d) := resolvePeer client_fd d in
      if negb (time_peer caller d) then (time_denied, d) else
      let '(added, d) := add_subscription client_fd TRUSTED_TIME_CHANGED d in
      if negb added then (envelope_answer TRUSTED_TIME_UNAVAILABLE (error_envelope "unavailable") [], d) else
      let '(e, d) := time_snapshot t 0 d in
      (envelope_answer SUCCESS e [("event_type"%string, json_int TRUSTED_TIME_CHANGED)], d)
  end.

(* --------------------------------------------------------------------- *)
(** ** Dispatch                                                           *)
(* --------------------------------------------------------------------- *)

Definition error_body (error : string) : json := json_of_fields [("error"%string, json_string error)].

(** [src/src/sec_ipc_dispatcher.cpp:98-182] dispatch switch *)
Definition handle (fuel : nat) (method_id : Z) (params : string) (client_fd : Z) : st Dispatcher Handled :=
  match method_of method_id with
  | Some INITIALIZE => handle_initialize fuel
  | Some GENERATE_KEY_PAIR => handle_generate_key_pair
  | Some EXPORT_PRIVATE_KEY => handle_export_private_key
  | Some GET_CSR => handle_get_csr
  | Some SUBMIT_CSR => handle_submit_csr
  | Some INJECT_CERTIFICATE => handle_inject_certificate params
  | Some APPLY_CERTIFICATE => handle_apply_certificate
  | Some GET_SEED => handle_get_seed params
  | Some VERIFY_KEY => handle_verify_key params
  | Some GET_STATUS => handle_get_status
  | Some GET_DEVICE_INFO => handle_get_device_info
  | Some RESET_STATUS => handle_reset_status
  | Some GET_TLS_CREDENTIAL => handle_get_tls_credential params client_fd
  | Some GET_TLS_CREDENTIAL_STATE => handle_get_tls_credential_state params
  | Some SIGN_TLS => handle_sign_tls params client_fd
  | Some SUBSCRIBE_TLS_CREDENTIAL_CHANGED => handle_subscribe_tls_credential_changed params client_fd
  | Some GET_BUSINESS_KEY_STATUS => handle_get_business_key_status params client_fd
  | Some IMPORT_WRAPPED_BUSINESS_KEYS => handle_import_wrapped_business_keys params client_fd
  | Some GET_BUSINESS_KEY_IMPORT_RESULT => handle_get_business_key_import_result params client_fd
  | Some GET_V2C_KEY_PROVISIONING_CAPABILITY => handle_get_v2c_key_provisioning_capability client_fd
  | Some IMPORT_WRAPPED_BUSINESS_KEYS_KL1 => handle_import_wrapped_business_keys_kl1 params client_fd
  | Some GET_KEYPROV_CONTRACT_SNAPSHOT => handle_get_keyprov_contract_snapshot client_fd
  | Some GET_TRUSTED_TIME => handle_get_trusted_time params client_fd
  | Some SUBSCRIBE_TRUSTED_TIME_CHANGED => handle_subscribe_trusted_time_changed client_fd
  | Some SET_CA_CERTIFICATE | None => fun d =>
      (Answer FW_HANDLER_FAILED (error_body "Unknown method"), d)
  end.

(** The body goes through a text and back before the status is added. *)
Definition finish (status : Z) (body : json) : Reply :=
  Response (make_json_response status (default (error_body "Invalid response") (json_parse (json_dump body)))).

(** [src/src/sec_ipc_dispatcher.cpp:183-226] dispatch answer *)
Definition reply_of (h : Handled) : Reply :=
  match h with
  | Answer status body => finish status body
  | JsonError => finish FW_SERIALIZATION_FAILED (error_body "JSON error")
  | Loops => NoResponse
  | Undefined => UndefinedBehaviour
  end.

(** [src/src/sec_ipc_dispatcher.cpp:80-227] dispatch *)
Definition dispatch (fuel : nat) (method_id : Z) (params : string) (client_fd : Z) : st Dispatcher Reply := fun d =>
  let '(h, d) := handle fuel method_id params client_fd d in (reply_of h, d).
End Dispatcher.
