(* ===== verification/SecClient.v ===== *)
(** * SecClient: the client library of the daemon.
    Models [src/sec_client.cpp] / [include/tbox/sec/client.h]: the request with its
    retry rule, and for every method what is sent and what is made of the answer.
    The framework's connection is a parameter; an [ErrorCode] of the client is the
    number it was cast from. *)
From S2P Require Import Prelude Errors Canonical Json KeyTypes X509 RetryPolicy TimeTypes Tls IpcCodec.

(** [call] may send again, [callOnce] does not; both give a status of the transport
    and the text of the answer. *)
Class IpcConnection (C : Type) := {
  ic_call : Z -> string -> st C (Z * string);
  ic_callOnce : Z -> string -> st C (Z * string)
}.

(** [src/include/tbox/sec/types.h:11-17] SecProvisionStatus *)
Record SecProvisionStatus := mkProvisionStatus {
  sps_vin : string;
  sps_ecu_uid : string;
  sps_state : string;
  sps_last_error : string;
  sps_retry_count : Z
}.

(** Field assignments. *)
Definition tb_with_credential_id x (o : TlsCredentialBundle) : TlsCredentialBundle := mkBundle x (tb_version o)
    (tb_root_ca_bundle_der o) (tb_client_cert_chain_der o) (tb_private_key_ref o)
    (tb_key_algorithm o) (tb_not_before o) (tb_not_after o) (tb_status o).
Definition tb_with_version x (o : TlsCredentialBundle) : TlsCredentialBundle := mkBundle (tb_credential_id o) x
    (tb_root_ca_bundle_der o) (tb_client_cert_chain_der o) (tb_private_key_ref o)
    (tb_key_algorithm o) (tb_not_before o) (tb_not_after o) (tb_status o).
Definition tb_with_root_ca_bundle_der x (o : TlsCredentialBundle) : TlsCredentialBundle := mkBundle (tb_credential_id o)
    (tb_version o) x (tb_client_cert_chain_der o) (tb_private_key_ref o) (tb_key_algorithm o)
    (tb_not_before o) (tb_not_after o) (tb_status o).
Definition tb_with_client_cert_chain_der x (o : TlsCredentialBundle) : TlsCredentialBundle := mkBundle (tb_credential_id
    o) (tb_version o) (tb_root_ca_bundle_der o) x (tb_private_key_ref o) (tb_key_algorithm o)
    (tb_not_before o) (tb_not_after o) (tb_status o).
Definition tb_with_private_key_ref x (o : TlsCredentialBundle) : TlsCredentialBundle := mkBundle (tb_credential_id o)
    (tb_version o) (tb_root_ca_bundle_der o) (tb_client_cert_chain_der o) x (tb_key_algorithm o)
    (tb_not_before o) (tb_not_after o) (tb_status o).
Definition tb_with_key_algorithm x (o : TlsCredentialBundle) : TlsCredentialBundle := mkBundle (tb_credential_id o)
    (tb_version o) (tb_root_ca_bundle_der o) (tb_client_cert_chain_der o) (tb_private_key_ref o)
    x (tb_not_before o) (tb_not_after o) (tb_status o).
Definition tb_with_not_before x (o : TlsCredentialBundle) : TlsCredentialBundle := mkBundle (tb_credential_id o)
    (tb_version o) (tb_root_ca_bundle_der o) (tb_client_cert_chain_der o) (tb_private_key_ref o)
    (tb_key_algorithm o) x (tb_not_after o) (tb_status o).
Definition tb_with_not_after x (o : TlsCredentialBundle) : TlsCredentialBundle := mkBundle (tb_credential_id o)
    (tb_version o) (tb_root_ca_bundle_der o) (tb_client_cert_chain_der o) (tb_private_key_ref o)
    (tb_key_algorithm o) (tb_not_before o) x (tb_status o).
Definition tb_with_status x (o : TlsCredentialBundle) : TlsCredentialBundle := mkBundle (tb_credential_id o) (tb_version
    o) (tb_root_ca_bundle_der o) (tb_client_cert_chain_der o) (tb_private_key_ref o)
    (tb_key_algorithm o) (tb_not_before o) (tb_not_after o) x.
Definition cs_with_credential_id x (o : TlsCredentialState) : TlsCredentialState := mkCredentialState x (cs_version o)
    (cs_status o) (cs_reason_code o).
Definition cs_with_version x (o : TlsCredentialState) : TlsCredentialState := mkCredentialState (cs_credential_id o) x
    (cs_status o) (cs_reason_code o).
Definition cs_with_status x (o : TlsCredentialState) : TlsCredentialState := mkCredentialState (cs_credential_id o)
    (cs_version o) x (cs_reason_code o).
Definition cs_with_reason_code x (o : TlsCredentialState) : TlsCredentialState := mkCredentialState (cs_credential_id
    o) (cs_version o) (cs_status o) x.
Definition sps_with_vin x (o : SecProvisionStatus) : SecProvisionStatus := mkProvisionStatus x (sps_ecu_uid o) (sps_state
    o) (sps_last_error o) (sps_retry_count o).
Definition sps_with_ecu_uid x (o : SecProvisionStatus) : SecProvisionStatus := mkProvisionStatus (sps_vin o) x (sps_state
    o) (sps_last_error o) (sps_retry_count o).
Definition sps_with_state x (o : SecProvisionStatus) : SecProvisionStatus := mkProvisionStatus (sps_vin o) (sps_ecu_uid o)
    x (sps_last_error o) (sps_retry_count o).
Definition sps_with_last_error x (o : SecProvisionStatus) : SecProvisionStatus := mkProvisionStatus (sps_vin o)
    (sps_ecu_uid o) (sps_state o) x (sps_retry_count o).
Definition sps_with_retry_count x (o : SecProvisionStatus) : SecProvisionStatus := mkProvisionStatus (sps_vin o)
    (sps_ecu_uid o) (sps_state o) (sps_last_error o) x.

Section Client.
Context {C : Type} `{Conn : IpcConnection C} `{J : Json} `{B : Base64}.
#[local] Infix ">;" := upd_seq (at level 61, left associativity).

(** [None]: the transport failed or the daemon's framework did. An answer whose status
    cannot be read counts as a success. *)
(** [src/src/sec_client.cpp:43-78] send_request *)
Definition send_request (m : MethodId) (params : string) : st C (option (Z * string)) := fun c =>
  let id := method_value m in
  let '((fw_status, response), c) := if should_retry id then ic_call id params c else ic_callOnce id params c in
  if negb (fw_status =? 0) then (None, c) else
  (Some (default 0 (json_parse response ≫= fun j => value_i32 j "status" 0), response), c).

Definition connection_failed : Z := error_code_value CONNECTION_FAILED.
Definition internal_error : Z := error_code_value INTERNAL_ERROR.

(** The calls that return the status. *)
(** [src/src/sec_client.cpp:126-131] initialize, generate_key_pair, submit_csr, ... *)
Definition command (m : MethodId) (params : string) : st C Z := fun c =>
  let '(r, c) := send_request m params c in
  (match r with None => connection_failed | Some (status, _) => status end, c).

(** The text [{}]. *)
Definition no_params : string := "{}".

(** [src/src/sec_client.cpp:126-131] initialize *)
Definition client_initialize : st C Z := command INITIALIZE no_params.
(** [src/src/sec_client.cpp:133-138] generate_key_pair *)
Definition client_generate_key_pair : st C Z := command GENERATE_KEY_PAIR no_params.
(** [src/src/sec_client.cpp:174-179] submit_csr *)
Definition client_submit_csr : st C Z := command SUBMIT_CSR no_params.
(** [src/src/sec_client.cpp:181-188] inject_certificate *)
Definition client_inject_certificate (cert_der : bytes) : st C Z :=
  command INJECT_CERTIFICATE (json_dump (json_of_fields [("cert"%string, json_string (b64_encode cert_der))])).
(** [src/src/sec_client.cpp:190-195] apply_certificate *)
Definition client_apply_certificate : st C Z := command APPLY_CERTIFICATE no_params.
(** [src/src/sec_client.cpp:218-226] verify_key *)
Definition client_verify_key (level : Z) (key : bytes) : st C Z :=
  command VERIFY_KEY (json_dump (json_of_fields
    [("level"%string, json_int level); ("key"%string, json_string (b64_encode key))])).
(** [src/src/sec_client.cpp:260-265] reset_provision_status *)
Definition client_reset_provision_status : st C Z := command RESET_STATUS no_params.

(** The calls that also read one base64 field into [out]. *)
(** [src/src/sec_client.cpp:140-155] export_private_key, get_csr, get_seed *)
Definition fetch (m : MethodId) (params field : string) (out : bytes) : st C (Z * bytes) := fun c =>
  let '(r, c) := send_request m params c in
  (match r with
   | None => (connection_failed, out)
   | Some (status, response) =>
       if status =? 0 then
         match json_parse response ≫= fun j => value_string j field "" with
         | Some v => (status, b64_decode v)
         | None => (internal_error, out)
         end
       else (status, out)
   end, c).

(** [src/src/sec_client.cpp:140-155] export_private_key *)
Definition client_export_private_key (out : bytes) : st C (Z * bytes) :=
  fetch EXPORT_PRIVATE_KEY no_params "private_key" out.
(** [src/src/sec_client.cpp:157-172] get_csr *)
Definition client_get_csr (out : bytes) : st C (Z * bytes) := fetch GET_CSR no_params "csr" out.
(** [src/src/sec_client.cpp:197-216] get_seed *)
Definition client_get_seed (level : Z) (out : bytes) : st C (Z * bytes) :=
  fetch GET_SEED (json_dump (json_of_fields [("level"%string, json_int level)])) "seed" out.

(** Assign from an answer; nothing is assigned from one that does not parse. *)
Definition read_json {A} (response : string) (read : json -> upd A) : upd A := fun o =>
  match json_parse response with Some j => read j o | None => (false, o) end.

(** The status of the answer is not looked at. *)
(** [src/src/sec_client.cpp:228-245] get_provision_status *)
Definition client_get_provision_status : st C SecProvisionStatus := fun c =>
  let '(r, c) := send_request GET_STATUS no_params c in
  let o := mkProvisionStatus "" "" "" "" 0 in
  (match r with
   | None => o
   | Some (_, response) =>
       (read_json response (fun j =>
          assign (value_string j "vin" "") sps_with_vin >;
          assign (value_string j "ecu_uid" "") sps_with_ecu_uid >;
          assign (value_string j "state" "NONE") sps_with_state >;
          assign (value_string j "last_error" "") sps_with_last_error >;
          assign (value_i32 j "retry_count" 0) sps_with_retry_count) o).2
   end, c).

(** [src/src/sec_client.cpp:247-258] get_device_info *)
Definition client_get_device_info : st C string := fun c =>
  let '(r, c) := send_request GET_DEVICE_INFO no_params c in
  (match r with
   | None => ""%string
   | Some (_, response) => default ""%string (json_parse response ≫= fun j => value_string j "device_info" "")
   end, c).

(* --------------------------------------------------------------------- *)
(** ** TLS credentials                                                    *)
(* --------------------------------------------------------------------- *)

(** A call whose answer is read into [out] when the status is 0. *)
(** [src/src/sec_client.cpp:271-295] get_tls_credential, get_tls_credential_state, sign_tls *)
Definition call_into {A} (m : MethodId) (params : string) (read : json -> upd A) (out : A) : st C (Z * A) := fun c =>
  let '(r, c) := send_request m params c in
  (match r with
   | None => (connection_failed, out)
   | Some (status, response) =>
       if negb (status =? 0) then (status, out) else
       let '(ok, out) := read_json response read out in (if ok then 0 else internal_error, out)
   end, c).

(** [src/src/sec_client.cpp:281-290] get_tls_credential answer *)
Definition read_bundle (j : json) : upd TlsCredentialBundle :=
  assign (value_string j "credential_id" "") tb_with_credential_id >;
  assign (value_u64 j "version" 0) tb_with_version >;
  assign (b64_decode <$> value_string j "root_ca_bundle" "") tb_with_root_ca_bundle_der >;
  assign (b64_decode <$> value_string j "client_cert_chain" "") tb_with_client_cert_chain_der >;
  assign (b64_decode <$> value_string j "private_key_ref" "") tb_with_private_key_ref >;
  assign (string_to_key_algorithm <$> value_string j "key_algorithm" "") tb_with_key_algorithm >;
  assign (value_i64 j "not_before" 0) tb_with_not_before >;
  assign (value_i64 j "not_after" 0) tb_with_not_after >;
  assign (string_to_tls_credential_status <$> value_string j "credential_status" "NOT_READY") tb_with_status.

Definition profile_params (profile : string) : string :=
  json_dump (json_of_fields [("profile"%string, json_string profile)]).

(** [src/src/sec_client.cpp:271-295] get_tls_credential *)
Definition client_get_tls_credential (profile : string) (bundle : TlsCredentialBundle) :
    st C (Z * TlsCredentialBundle) :=
  call_into GET_TLS_CREDENTIAL (profile_params profile) read_bundle bundle.

(** [src/src/sec_client.cpp:307-311] get_tls_credential_state answer *)
Definition read_state (j : json) : upd TlsCredentialState :=
  assign (value_string j "credential_id" "") cs_with_credential_id >;
  assign (value_u64 j "version" 0) cs_with_version >;
  assign (string_to_tls_credential_status <$> value_string j "credential_status" "NOT_READY") cs_with_status >;
  assign (value_i32 j "reason_code" 0) cs_with_reason_code.

(** [src/src/sec_client.cpp:297-316] get_tls_credential_state *)
Definition client_get_tls_credential_state (profile : string) (state : TlsCredentialState) :
    st C (Z * TlsCredentialState) :=
  call_into GET_TLS_CREDENTIAL_STATE (profile_params profile) read_state state.

(** [src/src/sec_client.cpp:320-327] sign_tls params *)
Definition sign_params_json (r : TlsSignRequest) : json := json_of_fields (
  [("private_key_ref"%string, json_string (b64_encode (sr_private_key_ref r)));
   ("algorithm"%string, json_string (signature_algorithm_to_string (sr_algorithm r)));
   ("digest"%string, json_string (b64_encode (sr_digest r)))] ++
  field_if (negb (bytes_empty (sr_context r))) "context" (json_string (b64_encode (sr_context r))) ++
  [("request_id"%string, json_string (sr_request_id r))]).

(** [src/src/sec_client.cpp:318-342] sign_tls *)
Definition client_sign_tls (request : TlsSignRequest) (signature : bytes) : st C (Z * bytes) :=
  call_into SIGN_TLS (json_dump (sign_params_json request))
    (fun j => assign (b64_decode <$> value_string j "signature" "") (fun v _ => v)) signature.

(** What an event does to a subscription: the callback is called with it, or not. *)
(** [src/src/sec_client.cpp:380-395] subscribe_tls_credential_changed callback *)
Definition on_tls_credential_changed (active has_callback : bool) (payload : string) :
    option TlsCredentialChangedEvent :=
  if negb active || negb has_callback then None else
  j ← json_parse payload;
  profile ← value_string j "profile" "";
  credential_id ← value_string j "credential_id" "";
  version ← value_u64 j "version" 0;
  status ← value_string j "status" "NOT_READY";
  reason_code ← value_i32 j "reason_code" 0;
  Some (mkChangedEvent profile credential_id version (string_to_tls_credential_status status) reason_code).

(* --------------------------------------------------------------------- *)
(** ** Business keys                                                      *)
(* --------------------------------------------------------------------- *)

(** [src/src/sec_client.cpp:529-535] get_business_key_status items *)
Fixpoint push_statuses (l : list json) : upd (list BusinessKeyStatus) := fun out =>
  match l with
  | [] => (true, out)
  | j :: l =>
      match business_key_status_from_json j with
      | None => (false, out)
      | Some s => push_statuses l (out ++ [s])
      end
  end.

(** [src/src/sec_client.cpp:516-542] get_business_key_status *)
Definition client_get_business_key_status (domain : string) (purposes : list string)
    (out : list BusinessKeyStatus) : st C (Z * list BusinessKeyStatus) := fun c =>
  let params := json_of_fields [("business_domain"%string, json_string domain);
    ("purposes"%string, json_array (json_string <$> purposes))] in
  let '(r, c) := send_request GET_BUSINESS_KEY_STATUS (json_dump params) c in
  (match r with
   | None => (connection_failed, out)
   | Some (status, response) =>
       if negb (status =? 0) then (status, []) else
       let '(ok, out) := read_json response (fun j => push_statuses (default [] (json_get j "items" ≫= as_array))) [] in
       (if ok then status else internal_error, out)
   end, c).

(** What [result] becomes, and whether reading it failed. With a status of [definite] a
    result has to be there; with another one it is read if it is. *)
(** [src/src/sec_client.cpp:580-607] import_wrapped_business_keys answer *)
Definition read_result (definite : bool) (request_id response : string) : bool * ImportResult :=
  let out := ir_with_request_id request_id ImportResult_default in
  if definite then read_json response import_result_from_json out
  else if str_empty response then (true, out)
  else (true, (read_json response (fun j =>
          upd_when (json_contains j "state") (import_result_from_json j)) out).2).

Definition one_of (status : Z) (l : list ErrorCode) : bool :=
  existsb (fun rc => status =? error_code_value rc) l.

(** [src/src/sec_client.cpp:544-609] import_wrapped_business_keys *)
Definition client_import_wrapped_business_keys (request_id domain : string) (items : list WrappedKeyItem)
    (out : ImportResult) : st C (Z * ImportResult) := fun c =>
  let '(r, c) := send_request IMPORT_WRAPPED_BUSINESS_KEYS (json_dump (import_params request_id domain items)) c in
  (match r with
   | None => (connection_failed, out)
   | Some (status, response) =>
       let '(ok, out) := read_result
         (one_of status [SUCCESS; BUSINESS_KEY_IMPORT_UNKNOWN; BUSINESS_KEY_OUTCOME_UNKNOWN]) request_id response in
       (if ok then status else internal_error, out)
   end, c).

Definition request_params (request_id : string) : string :=
  json_dump (json_of_fields [("request_id"%string, json_string request_id)]).

(** [src/src/sec_client.cpp:611-644] get_business_key_import_result *)
Definition client_get_business_key_import_result (request_id : string) (out : ImportResult) :
    st C (Z * ImportResult) := fun c =>
  let '(r, c) := send_request GET_BUSINESS_KEY_IMPORT_RESULT (request_params request_id) c in
  (match r with
   | None => (connection_failed, out)
   | Some (status, response) =>
       let '(ok, out) := read_result (status =? 0) request_id response in
       (if ok then status else internal_error, out)
   end, c).

(** What [out] holds after an exception is left open ([None]). *)
(** [src/src/sec_client.cpp:646-706] get_v2c_key_provisioning_capability *)
Definition client_get_v2c_key_provisioning_capability (out : V2cKeyProvisioningCapability) :
    st C (Z * option V2cKeyProvisioningCapability) := fun c =>
  let '(r, c) := send_request GET_V2C_KEY_PROVISIONING_CAPABILITY no_params c in
  (match r with
   | None => (connection_failed, Some out)
   | Some (status, response) =>
       if negb (status =? 0) then (status, Some V2cKeyProvisioningCapability_default) else
       match (json_parse response ≫= capability_from_json : option (V2cKeyProvisioningCapability * bool)) with
       | None => (internal_error, None)
       | Some (cap, known) => (if known then status else error_code_value BUSINESS_KEY_NOT_READY, Some cap)
       end
   end, c).

(** As above. *)
(** [src/src/sec_client.cpp:708-722] get_keyprov_contract_snapshot *)
Definition client_get_keyprov_contract_snapshot (out : KeyprovContractSnapshot) :
    st C (Z * option KeyprovContractSnapshot) := fun c =>
  let '(r, c) := send_request GET_KEYPROV_CONTRACT_SNAPSHOT no_params c in
  (match r with
   | None => (connection_failed, Some out)
   | Some (status, response) =>
       if negb (status =? 0) then (status, Some KeyprovContractSnapshot_default) else
       match json_parse response ≫= keyprov_snapshot_from_json with
       | None => (internal_error, None)
       | Some s => (status, Some s)
       end
   end, c).

(** The result, and the attachment after it when the result has to be there. *)
(** [src/src/sec_client.cpp:775-803] import_wrapped_business_keys_kl1 answer *)
Definition read_result_kl1 (definite : bool) (status : Z) (request_id response : string) :
    Z * ImportResult * option KeyprovResultAttachment :=
  let '(ok, out) := read_result definite request_id response in
  if negb definite then (status, out, Some KeyprovResultAttachment_default) else
  if negb ok then (internal_error, out, Some KeyprovResultAttachment_default) else
  match json_parse response ≫= keyprov_attachment_from_json with
  | None => (internal_error, out, None)
  | Some a => (status, out, Some a)
  end.

(** [src/src/sec_client.cpp:724-804] import_wrapped_business_keys_kl1 *)
Definition client_import_wrapped_business_keys_kl1 (request_id domain : string) (items : list WrappedKeyItem)
    (context : KeyprovImportContext) (out : ImportResult) (attach : KeyprovResultAttachment) :
    st C (Z * ImportResult * option KeyprovResultAttachment) := fun c =>
  if negb (kc_kl1_profile_version context =? kKeyprovKl1ProfileVersion) || (kc_capability_epoch context =? 0)
     || (kc_admission_expire_at_ms context =? 0)
  then ((error_code_value BUSINESS_KEY_NOT_READY,
         KeyTypes.mkResult request_id domain BIS_UNKNOWN [] 0 "" [] "" [], Some attach), c) else
  let '(r, c) := send_request IMPORT_WRAPPED_BUSINESS_KEYS_KL1
    (json_dump (import_kl1_params request_id domain items context)) c in
  (match r with
   | None => (connection_failed, out, Some attach)
   | Some (status, response) =>
       read_result_kl1 (one_of status [SUCCESS; BUSINESS_KEY_IMPORT_UNKNOWN; BUSINESS_KEY_OUTCOME_UNKNOWN;
         KL1_ADMISSION_REJECTED; KL1_CAPABILITY_EPOCH_MISMATCH]) status request_id response
   end, c).

(** [src/src/sec_client.cpp:806-840] get_business_key_import_result_kl1 *)
Definition client_get_business_key_import_result_kl1 (request_id : string) (out : ImportResult)
    (attach : KeyprovResultAttachment) : st C (Z * ImportResult * option KeyprovResultAttachment) := fun c =>
  let '(r, c) := send_request GET_BUSINESS_KEY_IMPORT_RESULT (request_params request_id) c in
  (match r with
   | None => (connection_failed, out, Some attach)
   | Some (status, response) => read_result_kl1 (status =? 0) status request_id response
   end, c).

(* --------------------------------------------------------------------- *)
(** ** Trusted time                                                       *)
(* --------------------------------------------------------------------- *)

Definition envelope_error (error_class : string) : TrustedTimeEnvelope :=
  te_with_error_class error_class TrustedTimeEnvelope_default.

(** [src/src/sec_client.cpp:879-892] subscribe_trusted_time_changed callback *)
Definition on_trusted_time_changed (active has_callback : bool) (payload : string) : option TrustedTimeEnvelope :=
  if negb active || negb has_callback then None else
  j ← json_parse payload; e ← json_get j "envelope"; trusted_time_envelope_from_json e.

(** [src/src/sec_client.cpp:897-936] get_trusted_time *)
Definition client_get_trusted_time (request_token : Z) : st C (Z * TrustedTimeEnvelope) := fun c =>
  let params := json_of_fields [("request_token"%string, json_int request_token)] in
  let '(r, c) := send_request GET_TRUSTED_TIME (json_dump params) c in
  (match r with
   | None => (error_code_value TRUSTED_TIME_UNAVAILABLE, envelope_error "unavailable")
   | Some (status, response) =>
       if negb (status =? 0) then
         (status, envelope_error (if status =? error_code_value ACL_DENIED then "acl_denied" else "internal"))
       else
         match json_parse response ≫= fun j => json_get j "envelope" ≫= trusted_time_envelope_from_json with
         | Some e => (0, e)
         | None => (error_code_value TRUSTED_TIME_MALFORMED, envelope_error "malformed")
         end
   end, c).
End Client.
