(* ===== verification/IpcProps.v ===== *)
(** * IpcProps: what a request does, and what its sender learns.
    The access checks of the dispatcher, that it answers every request, and that the
    client library over it behaves like the service itself. *)
From S2P Require Import Prelude Errors Canonical Json KeyTypes X509 RetryPolicy TimeTypes TrustedTime TimeMonitor Envelope Provider Ledger SoftFile Provisioning Import Tls CertStore KeyEngine Csr CertChain CertCheck SecService SeedProps SecFrame ProvisionProps IpcCodec IpcWire IpcDispatcher SecClient.

Section Dispatcher.
Context {W P D E T H : Type} `{L : X509Lib} `{World : !SecWorld W} `{Hsm : !HsmInterface W}
  `{FS : !FileSystem W} `{SL : !StoreLaws W} `{Crypto : SoftFileCrypto} `{Hash : Sha256} `{J : Json}
  `{JL : !JsonLaws J} `{JC : !JsonConstIndex} `{Aes : Aes128} `{LT : LocalTime} `{Ec : EcPoints}
  `{B : Base64} `{BL : !Base64Laws B} `{Prov : !BusinessKeyProvider P} `{Store : !LedgerStore D}
  `{SEnv : !ServiceEnv E} `{PB : Protobuf} `{EC : EcP256} `{TS : !TrustedTimeSnapshotSource T}
  `{Host : !IpcHost H}.
Notation Dispatcher := (SecIpcDispatcher W P D E T H).
Implicit Types d : Dispatcher.

(* --------------------------------------------------------------------- *)
(** ** Every request is answered                                          *)
(* --------------------------------------------------------------------- *)

(** The pointers as the application sets them: to objects that are there. *)
Definition wired d : Prop :=
  dp_tls d <> Freed /\ dp_keys d <> Freed /\ (dp_tls d = Live tt -> sv_tls (dp_service d) <> None).

(** What a handler leaves of the wiring. *)
Record stays d d' : Prop := {
  ys_tls : dp_tls d' = dp_tls d;
  ys_keys : dp_keys d <> Freed -> dp_keys d' <> Freed;
  ys_service : sv_tls (dp_service d) <> None -> sv_tls (dp_service d') <> None
}.
#[local] Instance stays_refl : Reflexive stays.
Proof. by constructor. Qed.
#[local] Instance stays_trans : Transitive stays.
Proof. intros ??? [] []. constructor; [congruence|auto|auto]. Qed.

Lemma stays_wired d d' : stays d d' -> wired d -> wired d'.
Proof. intros [H1 H2 H3] (W1 & W2 & W3). rewrite <- H1 in W1, W3. split; auto. Qed.

Lemma on_service_stays {A} (m : st (SecService W) A) d :
  (sv_tls (dp_service d) <> None -> sv_tls (m (dp_service d)).2 <> None) -> stays d (on_service m d).2.
Proof. intros Hm. unfold on_service. destruct (m (dp_service d)). by constructor. Qed.

Lemma performed_stays {A} (m : st (SecService W) A) c d :
  (m (dp_service d)).2 = perform c (dp_service d) -> stays d (on_service m d).2.
Proof. intros Hm. apply on_service_stays. rewrite Hm. apply perform_tls. Qed.

Lemma resolvePeer_stays fd d : stays d (resolvePeer fd d).2.
Proof. unfold resolvePeer, on_host. destruct (dp_has_resolver d); [|done]. destruct (ih_resolve _ _). by constructor. Qed.
Lemma add_subscription_stays fd e d : stays d (add_subscription fd e d).2.
Proof.
  unfold add_subscription, on_host. destruct (dp_has_add_subscription d); [|done].
  destruct (ih_add_subscription _ _ _). by constructor.
Qed.
Lemma tls_call_stays {A} (m : st (TlsCredentialProvider (TlsWorld W)) A) d : stays d (tls_call m d).2.
Proof.
  apply on_service_stays. intros Ht. destruct (sv_tls (dp_service d)) as [p|]; [|done]. unfold on_tls.
  by destruct (m _).
Qed.
Lemma tls_call_some {A} (m : st (TlsCredentialProvider (TlsWorld W)) A) d :
  sv_tls (dp_service d) <> None -> exists a, (tls_call m d).1 = Some a.
Proof.
  intros Ht. unfold tls_call, on_service. destruct (sv_tls (dp_service d)) as [p|]; [|done].
  destruct (on_tls m p _) as [a s]. by exists a.
Qed.

(** An answer with an object for a body, from a dispatcher still wired. *)
Definition answered d (r : Handled * Dispatcher) : Prop :=
  stays d r.2 /\ exists z body, r.1 = Answer z body /\ json_is_object body = true.

Lemma answered_here d z body : json_is_object body = true -> answered d (Answer z body, d).
Proof. intros Hb. split; [done|]. by exists z, body. Qed.
Lemma answered_after d d' r : stays d d' -> answered d' r -> answered d r.
Proof. intros Hs [Ha Hb]. split; [by etransitivity|done]. Qed.
Lemma answer_ok d rc fs : answered d (answer rc fs, d).
Proof. apply answered_here, json_of_fields_object. Qed.
Lemma answer_with_ok d rc fs : answered d (answer_with rc fs, d).
Proof. unfold answer_with. apply answer_ok. Qed.
Lemma answer_opt_ok {A} d (r : option (ErrorCode * option A)) (fs : A -> list (string * json)) x :
  r = Some x -> answered d (answer_opt r fs, d).
Proof. intros ->. destruct x as [rc [a|]]; [apply answer_with_ok|apply answer_ok]. Qed.

(** Go through the calls of a handler: each one leaves the wiring as it is. *)
Ltac step lem :=
  let U := fresh "U" in
  pose proof lem as U;
  match type of U with stays _ (?m).2 =>
    let r := fresh "r" in let t := fresh "d" in destruct m as [r t]; cbn [fst snd] in U |- *
  end;
  apply (answered_after _ _ _ U).
Ltac here := first [apply answer_ok | apply answer_with_ok | apply answered_here, json_of_fields_object].

Lemma inject_answered params d : answered d (handle_inject_certificate params d).
Proof.
  unfold handle_inject_certificate. destruct (json_parse params ≫= _) as [cert|]; [|here].
  destruct (str_empty cert); [here|].
  step (performed_stays (inject_certificate (b64_decode cert)) (InjectCertificate (b64_decode cert)) d eq_refl).
  destruct r; here.
Qed.

Lemma get_seed_answered params d : answered d (handle_get_seed params d).
Proof.
  unfold handle_get_seed. destruct (json_parse params ≫= _) as [level|]; [|here].
  step (performed_stays (get_seed level) (GetSeed level) d eq_refl). destruct r. here.
Qed.

Lemma verify_key_answered params d : answered d (handle_verify_key params d).
Proof.
  unfold handle_verify_key. destruct (json_parse params ≫= _) as [[level key]|]; [|here].
  destruct (str_empty key); [here|].
  step (performed_stays (verify_key level (b64_decode key)) (VerifyKey level (b64_decode key)) d eq_refl). here.
Qed.

Lemma ensure_stays profile d : stays d (on_service (ensure_tls_material_ready profile) d).2.
Proof. by apply (performed_stays _ (EnsureTlsMaterial profile)). Qed.

(** A call on the provider, with the provider there. *)
Lemma tls_step {A} (m : st (TlsCredentialProvider (TlsWorld W)) A) d : sv_tls (dp_service d) <> None ->
  exists a d', tls_call m d = (Some a, d') /\ stays d d' /\ sv_tls (dp_service d') <> None.
Proof.
  intros Ht. destruct (tls_call_some m d Ht) as [a Ha]. pose proof (tls_call_stays m d) as Hs.
  destruct (tls_call m d) as [x d']. cbn in Ha, Hs. subst x. exists a, d'. pose proof (ys_service _ _ Hs Ht). done.
Qed.
Lemma stays_step {A} (x : A * Dispatcher) d : stays d x.2 -> sv_tls (dp_service d) <> None ->
  exists a d', x = (a, d') /\ stays d d' /\ sv_tls (dp_service d') <> None.
Proof. intros Hs Ht. destruct x as [a d']. exists a, d'. pose proof (ys_service _ _ Hs Ht). done. Qed.
Ltac tls_step m d Ht :=
  let a := fresh "a" in let d' := fresh "d" in let E := fresh "E" in let U := fresh "U" in let Ht' := fresh "Ht" in
  destruct (tls_step m d Ht) as (a & d' & E & U & Ht'); rewrite E; apply (answered_after _ _ _ U); clear E U.
Ltac call_step lem Ht :=
  let a := fresh "a" in let d' := fresh "d" in let E := fresh "E" in let U := fresh "U" in let Ht' := fresh "Ht" in
  destruct (stays_step _ _ lem Ht) as (a & d' & E & U & Ht'); rewrite E; apply (answered_after _ _ _ U); clear E U.

Lemma get_tls_credential_answered params fd d : wired d -> answered d (handle_get_tls_credential params fd d).
Proof.
  intros (H1 & _ & Ht). unfold handle_get_tls_credential. destruct (dp_tls d) as [|[]|]; [here| |done].
  specialize (Ht eq_refl). call_step (resolvePeer_stays fd d) Ht. unfold authorized.
  tls_step (fun q : TlsCredentialProvider (TlsWorld W) => (isAuthorized (profile_param params) a q, q)) d0 Ht0. destruct a0; [|here].
  call_step (ensure_stays (profile_param params) d1) Ht1.
  tls_step (getTlsCredential (profile_param params) a) d2 Ht2. by eapply answer_opt_ok.
Qed.

Lemma get_tls_credential_state_answered params d : wired d -> answered d (handle_get_tls_credential_state params d).
Proof.
  intros (H1 & _ & Ht). unfold handle_get_tls_credential_state. destruct (dp_tls d) as [|[]|]; [here| |done].
  specialize (Ht eq_refl). call_step (ensure_stays (profile_param params) d) Ht.
  tls_step (fun q : TlsCredentialProvider (TlsWorld W) => (getTlsCredentialState (profile_param params) q, q)) d0 Ht0. by eapply answer_opt_ok.
Qed.

Lemma sign_tls_answered params fd d : wired d -> answered d (handle_sign_tls params fd d).
Proof.
  intros (H1 & _ & Ht). unfold handle_sign_tls. destruct (dp_tls d) as [|[]|]; [here| |done].
  specialize (Ht eq_refl). destruct (sign_params params) as [req|]; [|here].
  call_step (resolvePeer_stays fd d) Ht. tls_step (signTls req a) d0 Ht0. by eapply answer_opt_ok.
Qed.

Lemma subscribe_tls_answered params fd d : wired d -> answered d (handle_subscribe_tls_credential_changed params fd d).
Proof.
  intros (H1 & _ & Ht). unfold handle_subscribe_tls_credential_changed.
  destruct (dp_tls d) as [|[]|]; [here| |done]. specialize (Ht eq_refl).
  call_step (resolvePeer_stays fd d) Ht. unfold authorized.
  tls_step (fun q : TlsCredentialProvider (TlsWorld W) => (isAuthorized (profile_param params) a q, q)) d0 Ht0. destruct a0; [|here].
  step (add_subscription_stays fd TLS_CREDENTIAL_CHANGED d1). destruct r; here.
Qed.

Lemma with_keys_answered {A} fd (params : option A) run d : wired d ->
  (forall a b, exists z body, (run a b).1 = Answer z body /\ json_is_object body = true) ->
  answered d (with_keys fd params run d).
Proof.
  intros (_ & H2 & _) Hrun. unfold with_keys. destruct (dp_keys d) as [|b|]; [here| |done].
  step (resolvePeer_stays fd d). destruct (negb _); [here|]. destruct params as [a|]; [|here].
  destruct (Hrun a b) as (z & body & Hz & Hb). destruct (run a b) as [h b'] eqn:Er. cbn in Hz. subst h.
  split; [by constructor|]. by exists z, body.
Qed.

Lemma time_snapshot_stays t token d : stays d (time_snapshot t token d).2.
Proof. unfold time_snapshot. destruct (ts_get token t). by constructor. Qed.

Lemma get_trusted_time_answered params fd d : answered d (handle_get_trusted_time params fd d).
Proof.
  unfold handle_get_trusted_time. destruct (dp_time d) as [t|]; [|here]. step (resolvePeer_stays fd d).
  destruct (negb _); [here|]. destruct (json_parse params ≫= _) as [token|]; [|here].
  step (time_snapshot_stays t token d0). here.
Qed.

Lemma subscribe_time_answered fd d : answered d (handle_subscribe_trusted_time_changed fd d).
Proof.
  unfold handle_subscribe_trusted_time_changed. destruct (dp_time d) as [t|]; [|here]. step (resolvePeer_stays fd d).
  destruct (negb _); [here|]. step (add_subscription_stays fd TRUSTED_TIME_CHANGED d0).
  destruct r0; [|here]. cbn [negb]. step (time_snapshot_stays t 0 d1). here.
Qed.

Ltac simple_step m c :=
  let U := fresh "U" in pose proof (performed_stays m c) as U;
  match goal with |- answered ?d _ => step (U d eq_refl) end.

Ltac body_ok :=
  do 2 eexists; split; [done|];
  first [apply json_of_fields_object | apply json_set_is_object, json_of_fields_object].

Lemma handle_answered fuel id params fd d : wired d -> method_of id <> Some INITIALIZE ->
  answered d (handle fuel id params fd d).
Proof.
  intros Hw Hi. unfold handle. destruct (method_of id) as [[]|]; try done.
  - unfold handle_generate_key_pair. simple_step generate_key_pair GenerateKeyPair. here.
  - unfold handle_get_csr. simple_step get_csr GetCsr. destruct r. here.
  - unfold handle_submit_csr. simple_step submit_csr SubmitCsr. here.
  - apply inject_answered.
  - unfold handle_apply_certificate. simple_step apply_certificate ApplyCertificate. here.
  - apply answered_here, json_of_fields_object.
  - apply get_seed_answered.
  - apply verify_key_answered.
  - apply answered_here, json_of_fields_object.
  - apply answered_here, json_of_fields_object.
  - unfold handle_reset_status. simple_step reset_provision_status ResetProvisionStatus. here.
  - unfold handle_export_private_key. simple_step export_private_key ExportPrivateKey. destruct r. here.
  - by apply get_tls_credential_answered.
  - by apply get_tls_credential_state_answered.
  - by apply sign_tls_answered.
  - by apply subscribe_tls_answered.
  - apply with_keys_answered; [done|]. intros [domain purposes] b. destruct (getStatus _ _ _) as [rc items].
    body_ok.
  - apply with_keys_answered; [done|]. intros [[request_id domain] items] b.
    destruct (import _ _ _ _) as [[rc r] b']. body_ok.
  - apply with_keys_answered; [done|]. intros request_id b.
    destruct (getImportResultKl1 _ _ _ _) as [[[rc r] a] b']. body_ok.
  - apply with_keys_answered; [done|]. intros [] b. body_ok.
  - apply with_keys_answered; [done|]. intros [[[request_id domain] items] ctx] b.
    destruct (importKl1 _ _ _ _ _) as [[[rc r] a] b']. body_ok.
  - apply with_keys_answered; [done|]. intros [] b. body_ok.
  - apply get_trusted_time_answered.
  - apply subscribe_time_answered.
  - apply answered_here, json_of_fields_object.
Qed.

(** The text of an answer. *)
Lemma finish_text z body : finish z body = Response (json_dump (json_set body "status" (json_int z))).
Proof. unfold finish. by rewrite json_parse_dump. Qed.

Lemma dispatch_answer fuel id params fd d z body d' : handle fuel id params fd d = (Answer z body, d') ->
  dispatch fuel id params fd d = (Response (json_dump (json_set body "status" (json_int z))), d').
Proof. intros Eh. unfold dispatch. rewrite Eh. cbn [reply_of]. by rewrite finish_text. Qed.

(** The requests of one connection after the other: method, parameters, connection. *)
Fixpoint serve (fuel : nat) (l : list (Z * string * Z)) : st Dispatcher (list Reply) := fun d =>
  match l with
  | [] => ([], d)
  | (id, params, fd) :: l =>
      let '(r, d) := dispatch fuel id params fd d in
      let '(rs, d) := serve fuel l d in (r :: rs, d)
  end.

(** An answer that is a JSON object with a status. *)
Definition proper_answer (r : Reply) : Prop :=
  exists text j z, r = Response text /\ json_parse text = Some j /\ json_is_object j = true /\
    json_get j "status" = Some (json_int z).

Lemma answer_proper z body : json_is_object body = true ->
  proper_answer (Response (json_dump (json_set body "status" (json_int z)))).
Proof.
  intros Hb. eexists _, _, z. split; [done|]. rewrite json_parse_dump. split; [done|].
  split; [by apply json_set_is_object|by apply json_get_set].
Qed.

(** C20. Every request is answered. Whatever is sent - known, retired and unknown method
    numbers, texts that are not JSON, values of the wrong type, in any order and from
    any caller - each request other than a second [INITIALIZE] gets exactly one answer,
    a JSON object with a status; no exception escapes, no freed object is used, and the
    dispatcher is ready for the next one. *)
Theorem requests_answered fuel l d :
  wired d -> Forall (fun '(id, _, _) => method_of id <> Some INITIALIZE) l ->
  length (serve fuel l d).1 = length l /\ Forall proper_answer (serve fuel l d).1 /\ wired (serve fuel l d).2.
Proof.
  intros Hw Hl. revert d Hw. induction Hl as [|[[id params] fd] l Hi Hl IH]; intros d Hw; cbn [serve]; [done|].
  destruct (handle_answered fuel id params fd d Hw Hi) as [Hs (z & body & Hz & Hb)].
  destruct (handle fuel id params fd d) as [h d'] eqn:Eh. cbn in Hs, Hz. subst h.
  rewrite (dispatch_answer _ _ _ _ _ _ _ _ Eh). destruct (IH d') as (IH1 & IH2 & IH3); [by eapply stays_wired|].
  destruct (serve fuel l d') as [rs d2]. cbn in *. split; [congruence|]. split; [|done]. constructor; [|done].
  by apply answer_proper.
Qed.

(* --------------------------------------------------------------------- *)
(** ** Access                                                             *)
(* --------------------------------------------------------------------- *)

(** Who may use a method. The business keys are for one systemd unit, trusted time is
    for a list of them, a TLS credential is for the unit of its profile, and a
    signature for the caller its key reference was issued to. The other methods are
    for everybody who can connect. *)
Definition entitled (m : MethodId) (params : string) (caller : PeerIdentity) d : bool :=
  match m with
  | GET_BUSINESS_KEY_STATUS | IMPORT_WRAPPED_BUSINESS_KEYS | GET_BUSINESS_KEY_IMPORT_RESULT
  | GET_V2C_KEY_PROVISIONING_CAPABILITY | IMPORT_WRAPPED_BUSINESS_KEYS_KL1 | GET_KEYPROV_CONTRACT_SNAPSHOT =>
      pi_valid caller && String.eqb (pi_service_name caller) (dp_key_peer d)
  | GET_TRUSTED_TIME | SUBSCRIBE_TRUSTED_TIME_CHANGED =>
      pi_valid caller && bool_decide (pi_service_name caller ∈ dp_time_peers d)
  | GET_TLS_CREDENTIAL | SUBSCRIBE_TLS_CREDENTIAL_CHANGED =>
      match sv_tls (dp_service d) ≫= findProfile (profile_param params) with
      | Some ps =>
          pi_valid caller && negb (str_empty (tc_peer_service (ps_config ps))) &&
          String.eqb (pi_service_name caller) (tc_peer_service (ps_config ps))
      | None => false
      end
  | SIGN_TLS =>
      match sv_tls (dp_service d), sign_params params with
      | Some p, Some req =>
          match decodeRef (tp_process_key p) (sr_private_key_ref req) with
          | Some rp => pi_valid caller && String.eqb (rp_caller_service rp) (pi_service_name caller)
          | None => false
          end
      | _, _ => false
      end
  | _ => true
  end.

(** The answers to a caller who is not entitled: they are constants. *)
Definition refusals : list Handled :=
  [refuse NOT_IMPLEMENTED; refuse_because NOT_IMPLEMENTED "TLS provider not configured"; refuse ACL_DENIED;
   refuse TLS_KEY_REF_INVALID; invalid_json; time_denied].

Lemma refusal_status h : h ∈ refusals -> exists z body, h = Answer z body /\ z <> 0.
Proof.
  unfold refusals. rewrite !elem_of_cons. intros [->|[->|[->|[->|[->|[->|Hn]]]]]]; [..|by inversion Hn];
    by eexists _, _.
Qed.

(** Looking at the provider does not change the service. *)
Lemma on_tls_look {A} (f : TlsCredentialProvider (TlsWorld W) -> A) p s : sv_tls s = Some p ->
  on_tls (fun q => (f q, q)) p s = (f (tls_attach (tls_env_of s) p), s).
Proof. intros Hp. unfold on_tls. cbn. f_equal. destruct s, p as [? ? ? ? ? ? []]. cbn in *. by subst. Qed.

Lemma tls_look {A} (f : TlsCredentialProvider (TlsWorld W) -> A) p d : sv_tls (dp_service d) = Some p ->
  tls_call (fun q => (f q, q)) d = (Some (f (tls_attach (tls_env_of (dp_service d)) p)), d).
Proof.
  intros Hp. unfold tls_call, on_service. rewrite Hp, on_tls_look by done. by destruct d.
Qed.

Lemma resolve_only_host fd d : exists h, resolvePeer fd d = ((resolvePeer fd d).1, dp_with_host h d).
Proof.
  unfold resolvePeer, on_host. destruct (dp_has_resolver d); [destruct (ih_resolve fd _) as [c h]; by exists h|].
  exists (dp_host d). by destruct d.
Qed.

(** A refusal leaves all but the host. *)
Definition refused_by d (r : Handled * Dispatcher) : Prop :=
  exists x h, x ∈ refusals /\ r = (x, dp_with_host h d).
Lemma refused_at x d : x ∈ refusals -> refused_by d (x, d).
Proof. intros Hx. exists x, (dp_host d). split; [done|]. by destruct d. Qed.
Lemma refused_host x h d : x ∈ refusals -> refused_by d (x, dp_with_host h d).
Proof. intros Hx. by exists x, h. Qed.
Ltac refused :=
  first [apply refused_at | apply refused_host];
  unfold refusals; rewrite !elem_of_cons; auto 10.

(** The checks of the code are those. *)
Lemma key_peer_spec caller d :
  key_peer caller d = pi_valid caller && String.eqb (pi_service_name caller) (dp_key_peer d).
Proof. done. Qed.
Lemma time_peer_spec caller d :
  time_peer caller d = pi_valid caller && bool_decide (pi_service_name caller ∈ dp_time_peers d).
Proof.
  unfold time_peer. f_equal. apply Bool.eq_iff_eq_true. rewrite bool_decide_eq_true. apply contains_true.
Qed.
Lemma authorized_spec profile caller (p : TlsCredentialProvider unit) env :
  isAuthorized profile caller (tls_attach (E' := TlsWorld W) env p) =
    match findProfile profile p with
    | Some ps => pi_valid caller && negb (str_empty (tc_peer_service (ps_config ps))) &&
                 String.eqb (pi_service_name caller) (tc_peer_service (ps_config ps))
    | None => false
    end.
Proof.
  unfold isAuthorized. change (findProfile profile (tls_attach env p)) with (findProfile profile p).
  destruct (findProfile profile p) as [ps|]; [|done]. destruct (pi_valid caller); [|done]. by destruct (str_empty _).
Qed.

(** The method looks at the TLS provider, and that was freed under the dispatcher. *)
Definition dangling (m : MethodId) d : Prop :=
  match m with
  | GET_TLS_CREDENTIAL | SUBSCRIBE_TLS_CREDENTIAL_CHANGED | SIGN_TLS =>
      dp_tls d = Freed \/ (dp_tls d = Live tt /\ sv_tls (dp_service d) = None)
  | _ => False
  end.

(** A refusal that leaves all but the host, or a use of a dangling pointer, with all but
    the host left as well. *)
Definition turned_away (m : MethodId) d (r : Handled * Dispatcher) : Prop :=
  refused_by d r \/ (dangling m d /\ exists h, r = (Undefined, dp_with_host h d)).
Lemma undefined_at m d : dangling m d -> turned_away m d (Undefined, d).
Proof. intros Hd. right. split; [done|]. exists (dp_host d). by destruct d. Qed.
Lemma undefined_host m h d : dangling m d -> turned_away m d (Undefined, dp_with_host h d).
Proof. intros Hd. right. split; [done|]. by exists h. Qed.
Ltac turned := first [left; solve [refused] | solve [apply undefined_at; cbn; auto] | solve [apply undefined_host; cbn; auto]].

Lemma with_keys_denied {A} m fd (params : option A) run d :
  key_peer (resolvePeer fd d).1 d = false -> turned_away m d (with_keys fd params run d).
Proof.
  intros Hp. left. unfold with_keys. destruct (resolve_only_host fd d) as [h Eh]. rewrite Eh.
  change (key_peer ?c (dp_with_host h d)) with (key_peer c d).
  rewrite Hp. destruct (dp_keys d) as [|b|]; refused.
Qed.

Lemma tls_call_none {A} (m : st (TlsCredentialProvider (TlsWorld W)) A) d :
  sv_tls (dp_service d) = None -> tls_call m d = (None, d).
Proof. intros Hn. unfold tls_call, on_service. rewrite Hn. by destruct d. Qed.

Lemma tls_denied params fd d : entitled GET_TLS_CREDENTIAL params (resolvePeer fd d).1 d = false ->
  turned_away GET_TLS_CREDENTIAL d (handle_get_tls_credential params fd d) /\
  turned_away SUBSCRIBE_TLS_CREDENTIAL_CHANGED d (handle_subscribe_tls_credential_changed params fd d).
Proof.
  intros Hp. unfold handle_get_tls_credential, handle_subscribe_tls_credential_changed.
  destruct (dp_tls d) as [|[]|] eqn:Et; [split; turned| |split; turned]. cbn in Hp.
  destruct (resolve_only_host fd d) as [h Eh]. rewrite Eh. unfold authorized.
  destruct (sv_tls (dp_service d)) as [p|] eqn:Ep.
  - rewrite (tls_look _ p) by done. rewrite authorized_spec. cbn in Hp. rewrite Hp. split; turned.
  - rewrite tls_call_none by done. split; turned.
Qed.

Lemma sign_denied params fd d : entitled SIGN_TLS params (resolvePeer fd d).1 d = false ->
  turned_away SIGN_TLS d (handle_sign_tls params fd d).
Proof.
  intros Hp. unfold handle_sign_tls.
  destruct (resolve_only_host fd d) as [h Eh]. rewrite Eh. cbn in Hp.
  destruct (dp_tls d) as [|[]|] eqn:Et; [turned| |destruct (sign_params params); turned].
  destruct (sign_params params) as [req|]; [|turned].
  destruct (sv_tls (dp_service d)) as [p|] eqn:Ep; [|rewrite tls_call_none by done; turned].
  set (x := match decodeRef (tp_process_key p) (sr_private_key_ref req) with
            | None => TLS_KEY_REF_INVALID | Some _ => ACL_DENIED end).
  assert (Es : forall q, tp_process_key q = tp_process_key p ->
    signTls (E:=TlsWorld W) req (resolvePeer fd d).1 q = ((x, None), q)).
  { intros q Eq. unfold signTls, x. rewrite Eq. destruct (decodeRef _ _) as [rp|]; [|done].
    by rewrite <- negb_andb, Hp. }
  unfold tls_call, on_service, on_tls. cbn [dp_with_host dp_service]. rewrite Ep, Es by done.
  replace (dp_with_service _ _) with (dp_with_host h d).
  - cbn. unfold x. left. destruct (decodeRef _ _); refused.
  - destruct d as [s]. cbn in *. unfold dp_with_service, dp_with_host. cbn. f_equal. destruct s, p as [? ? ? ? ? ? []]. cbn in *. by subst.
Qed.

Lemma time_denied_handlers m params fd d : time_peer (resolvePeer fd d).1 d = false ->
  turned_away m d (handle_get_trusted_time params fd d) /\
  turned_away m d (handle_subscribe_trusted_time_changed fd d).
Proof.
  intros Hp. unfold handle_get_trusted_time, handle_subscribe_trusted_time_changed.
  destruct (dp_time d) as [t|]; [|split; turned]. destruct (resolve_only_host fd d) as [h Eh]. rewrite Eh.
  change (time_peer ?c (dp_with_host h d)) with (time_peer c d). rewrite Hp. split; turned.
Qed.

(** C9. Access control of the IPC, in every state of the dispatcher. A caller that is not
    entitled to a method - its unit is not the one configured, its identity cannot be
    resolved, or the key reference was issued to another unit - gets one of six constant
    refusals, none of which is a success, and the request changes nothing: not the
    service with its keys, certificates, seeds and TLS profiles, not the business-key
    service, not the source of time. There is one exception, and it is the state's: when
    the TLS provider was freed under the dispatcher, as a second INITIALIZE does, the
    methods that ask it whether the caller is entitled read the freed object. *)
Theorem denied_changes_nothing fuel id m params fd d :
  method_of id = Some m -> entitled m params (resolvePeer fd d).1 d = false ->
  exists x h, dispatch fuel id params fd d = (reply_of x, dp_with_host h d) /\
    ((x ∈ refusals /\ exists z body, x = Answer z body /\ z <> 0) \/ (x = Undefined /\ dangling m d)).
Proof.
  intros Hm Hp.
  assert (Hr : turned_away m d (handle fuel id params fd d)).
  { unfold handle. rewrite Hm.
    destruct m; try discriminate Hp; cbn [entitled] in Hp.
    all: first [ apply with_keys_denied; by rewrite key_peer_spec
               | apply (tls_denied params fd d Hp) | apply (sign_denied params fd d Hp)
               | apply (time_denied_handlers _ params fd d); by rewrite time_peer_spec ]. }
  unfold dispatch. destruct Hr as [(x & h & Hx & ->)|(Hd & h & ->)]; eexists _, h; (split; [done|]); [left|by right].
  split; [done|by apply refusal_status].
Qed.

(** The retired method and unknown numbers change nothing either. *)
Lemma unknown_method_refused fuel id params fd d : method_of id = None \/ method_of id = Some SET_CA_CERTIFICATE ->
  dispatch fuel id params fd d = (reply_of (Answer FW_HANDLER_FAILED (error_body "Unknown method")), d).
Proof. unfold dispatch, handle. by intros [-> | ->]. Qed.

(** A second start, which any caller can ask for and which no check turns down, replaces
    the HSM and the provider, and the next request for a credential reads a freed one. *)
Lemma second_initialize_frees fuel params fd params' fd' d :
  dp_tls d = Live tt -> replaces_hsm (dp_service d) = true ->
  let d' := (dispatch fuel (method_value INITIALIZE) params fd d).2 in
  dp_tls d' = Freed /\
  dispatch fuel (method_value GET_TLS_CREDENTIAL) params' fd' d' = (UndefinedBehaviour, d').
Proof.
  intros Ht Hr.
  assert (Hf : dp_tls (dispatch fuel (method_value INITIALIZE) params fd d).2 = Freed).
  { unfold dispatch. change (handle _ _ _ _ d) with (handle_initialize fuel d). unfold handle_initialize.
    rewrite Hr. unfold on_service. destruct (initialize fuel (dp_service d)) as [r s]. cbn. by rewrite Ht. }
  split; [done|]. unfold dispatch at 1.
  change (handle fuel (method_value GET_TLS_CREDENTIAL) params' fd' ?x) with (handle_get_tls_credential params' fd' x).
  unfold handle_get_tls_credential. by rewrite Hf.
Qed.
End Dispatcher.
