(* ===== verification/Subscriptions.v ===== *)
(** * Subscriptions: the handles of the client library.
    Models the two subscription classes of [src/sec_client.cpp] and the callbacks they hand to the
    framework: shared objects behind movable handles, and events on connections of their own.
    The framework is a parameter: whether a subscription comes about, and what arrives on it. A
    callback, and the object it holds, live as long as the connection does. *)
From S2P Require Import Prelude Errors Canonical Json KeyTypes X509 TimeTypes RetryPolicy KeyEngine CertStore Tls SecService IpcCodec IpcDispatcher SecClient.

(* --------------------------------------------------------------------- *)
(** ** Two kinds of events                                                *)
(* --------------------------------------------------------------------- *)

(** [src/src/sec_application.cpp:271-274] initialize, payload of a time event *)
Definition time_payload `{J : Json} (e : TrustedTimeEnvelope) : json :=
  json_of_fields [("envelope"%string, trusted_time_envelope_to_json e)].

(** What a callback makes of a text: the guards, then the event it calls the user with, if any; and
    the text in which the daemon publishes an event. *)
Class SubscriptionKind (Ev : Type) := {
  on_event : bool -> bool -> string -> option Ev;
  published : Ev -> string;
  ev_wf : Ev -> Prop;
  on_event_inactive cb payload : on_event false cb payload = None;
  on_event_no_callback active payload : on_event active false payload = None;
  on_event_published ev : ev_wf ev -> on_event true true (published ev) = Some ev
}.

Section Kinds.
Context `{J : Json} `{JL : !JsonLaws J}.

Definition changed_wf (ev : TlsCredentialChangedEvent) : Prop :=
  is_u64 (ev_version ev) /\ - 2 ^ 31 <= ev_reason_code ev < 2 ^ 31.

Lemma status_text_read st : string_to_tls_credential_status (tls_credential_status_to_string st) = st.
Proof. by destruct st. Qed.

Lemma changed_event_read ev : changed_wf ev ->
  on_tls_credential_changed true true (json_dump (changed_payload ev)) = Some ev.
Proof.
  intros [Hv Hr]. unfold on_tls_credential_changed, changed_payload. cbn [negb orb]. rewrite json_parse_dump.
  cbn [mbind option_bind]. json_fields. erewrite value_i32_fields by (reflexivity || done).
  cbn [mbind option_bind]. rewrite status_text_read. by destruct ev.
Qed.

Lemma time_event_read e : envelope_wf e -> on_trusted_time_changed true true (json_dump (time_payload e)) = Some e.
Proof.
  intros He. unfold on_trusted_time_changed, time_payload. cbn [negb orb]. rewrite json_parse_dump.
  cbn [mbind option_bind]. rewrite json_of_fields_get. cbn.
  exact (proj1 (envelope_json_roundtrip e json_object "valid" He ltac:(set_solver))).
Qed.

#[export] Instance tls_changes : SubscriptionKind TlsCredentialChangedEvent.
Proof.
  refine {| on_event := on_tls_credential_changed; published ev := json_dump (changed_payload ev); ev_wf := changed_wf |};
    [done|by intros []|exact changed_event_read].
Defined.

#[export] Instance time_changes : SubscriptionKind TrustedTimeEnvelope.
Proof.
  refine {| on_event := on_trusted_time_changed; published e := json_dump (time_payload e); ev_wf := envelope_wf |};
    [done|by intros []|exact time_event_read].
Defined.
End Kinds.

(* --------------------------------------------------------------------- *)
(** ** The objects of a client                                            *)
(* --------------------------------------------------------------------- *)

(** [im_fw_sub] is the number of the framework's subscription, [None] when it did not come about or
    was cancelled. *)
(** [src/src/sec_client.cpp:345-349] TlsCredentialSubscription::Impl *)
Record Impl := mkImpl { im_active : bool; im_callback : bool; im_fw_sub : option nat }.

Definition im_cancelled (i : Impl) : Impl := mkImpl false (im_callback i) None.

(** The memory of a client: the objects, the variables with their pointers ([None] is null),
    the framework's live subscriptions with the object each callback holds, and the calls made. The
    number of the next object or connection is [cl_next]. *)
Record Client (Ev : Type) := mkClient {
  cl_impls : gmap nat Impl;
  cl_handles : gmap string (option nat);
  cl_live : gmap nat nat;
  cl_calls : list (nat * Ev);
  cl_next : nat
}.
Arguments mkClient {Ev}. Arguments cl_impls {Ev}. Arguments cl_handles {Ev}.
Arguments cl_live {Ev}. Arguments cl_calls {Ev}. Arguments cl_next {Ev}.

Section Handles.
Context {Ev : Type} `{Kind : SubscriptionKind Ev}.
Implicit Types c : Client Ev.

Definition cl_with_handles h c : Client Ev := mkClient (cl_impls c) h (cl_live c) (cl_calls c) (cl_next c).

(** The pointer of a variable. *)
Definition impl_of (v : string) c : option nat := mjoin (cl_handles c !! v).

(** [sub_impl] becomes active before the framework is asked, and stays so when nothing comes of
    it ([fw] is [false]). The result is moved into the variable [v]. The profile is not looked at. *)
(** [src/src/sec_client.cpp:367-398] subscribe_tls_credential_changed *)
Definition subscribe (fw has_callback : bool) (v : string) c : Client Ev :=
  let n := cl_next c in
  mkClient (<[n := mkImpl true has_callback (if fw then Some n else None)]> (cl_impls c))
    (<[v := Some n]> (cl_handles c)) (if fw then <[n := n]> (cl_live c) else cl_live c)
    (cl_calls c) (S n).

(** Both pointers are those of [shared_ptr]: the old object of the target is not cancelled. *)
(** [src/src/sec_client.cpp:354-355] TlsCredentialSubscription move *)
Definition move (target source : string) c : Client Ev :=
  cl_with_handles (<[target := impl_of source c]> (<[source := None]> (cl_handles c))) c.

(** [src/src/sec_client.cpp:356-362] TlsCredentialSubscription::cancel *)
Definition cancel (v : string) c : Client Ev :=
  match impl_of v c with
  | None => c
  | Some n =>
      match cl_impls c !! n with
      | None => c
      | Some i =>
          mkClient (<[n := im_cancelled i]> (cl_impls c)) (<[v := None]> (cl_handles c))
            (match im_fw_sub i with Some f => delete f (cl_live c) | None => cl_live c end)
            (cl_calls c) (cl_next c)
      end
  end.

(** [src/src/sec_client.cpp:353-353] TlsCredentialSubscription destructor *)
Definition destroy (v : string) c : Client Ev :=
  let c := cancel v c in cl_with_handles (delete v (cl_handles c)) c.

(** [src/src/sec_client.cpp:363-365] TlsCredentialSubscription::isActive *)
Definition isActive (v : string) c : bool :=
  match impl_of v c ≫= fun n => cl_impls c !! n with Some i => im_active i | None => false end.

(** An event on a live subscription runs its callback with the object it holds. The
    test of [active], a plain [bool], and the call are one step here: an event whose
    test is over when [cancel] begins counts as delivered before it. *)
Definition deliver (f : nat) (payload : string) c : Client Ev :=
  match cl_live c !! f ≫= fun n => (n,.) <$> cl_impls c !! n with
  | None => c
  | Some (n, i) =>
      match on_event (im_active i) (im_callback i) payload with
      | None => c
      | Some ev => mkClient (cl_impls c) (cl_handles c) (cl_live c) (cl_calls c ++ [(n, ev)]) (cl_next c)
      end
  end.

(** The connection of a subscription ends. *)
Definition connection_lost (f : nat) c : Client Ev :=
  mkClient (cl_impls c) (cl_handles c) (delete f (cl_live c)) (cl_calls c) (cl_next c).

Definition client_new : Client Ev := mkClient ∅ ∅ ∅ [] 0.

(** What can happen in a client. A variable is made by a subscription or a default construction; a
    [careful] client moves nothing into a variable that holds a subscription, and [lost] tells
    whether connections can end by themselves. *)
Inductive client_step (careful lost : bool) c : Client Ev -> Prop :=
  | DeclareStep v : cl_handles c !! v = None ->
      client_step careful lost c (cl_with_handles (<[v := None]> (cl_handles c)) c)
  | SubscribeStep fw cb v : cl_handles c !! v = None -> client_step careful lost c (subscribe fw cb v c)
  | MoveStep v w : v <> w -> is_Some (cl_handles c !! w) -> (careful = true -> impl_of v c = None) ->
      client_step careful lost c (move v w c)
  | CancelStep v : client_step careful lost c (cancel v c)
  | DestroyStep v : client_step careful lost c (destroy v c)
  | DeliverStep f payload : client_step careful lost c (deliver f payload c)
  | LostStep f : lost = true -> client_step careful lost c (connection_lost f c).
End Handles.

(** The second class repeats the code of the first. *)
Section Time.
Context `{J : Json} `{JL : !JsonLaws J}.
Notation TimeClient := (Client TrustedTimeEnvelope).

(** [src/src/sec_client.cpp:869-895] subscribe_trusted_time_changed *)
Definition subscribe_trusted_time_changed : bool -> bool -> string -> TimeClient -> TimeClient := subscribe.
(** [src/src/sec_client.cpp:856-857] TrustedTimeSubscription move *)
Definition time_move : string -> string -> TimeClient -> TimeClient := move.
(** [src/src/sec_client.cpp:858-864] TrustedTimeSubscription::cancel *)
Definition time_cancel : string -> TimeClient -> TimeClient := cancel.
(** [src/src/sec_client.cpp:855-855] TrustedTimeSubscription destructor *)
Definition time_destroy : string -> TimeClient -> TimeClient := destroy.
(** [src/src/sec_client.cpp:865-867] TrustedTimeSubscription::isActive *)
Definition time_isActive : string -> TimeClient -> bool := isActive.
End Time.

(* --------------------------------------------------------------------- *)
(** ** What holds of every client                                         *)
(* --------------------------------------------------------------------- *)

Section Facts.
Context {Ev : Type} `{Kind : SubscriptionKind Ev}.
Implicit Types c : Client Ev.

(** Objects and connections are numbered together, no object is behind two variables, and one that
    was cancelled stays so. *)
Record tidy c : Prop := {
  ti_impls n : is_Some (cl_impls c !! n) -> (n < cl_next c)%nat;
  ti_handles v n : impl_of v c = Some n -> exists i, cl_impls c !! n = Some i /\ im_active i = true;
  ti_once v w n : impl_of v c = Some n -> impl_of w c = Some n -> v = w;
  ti_live f n : cl_live c !! f = Some n ->
    f = n /\ exists i, cl_impls c !! n = Some i /\ im_active i = true /\ im_fw_sub i = Some f;
  ti_fw n i f : cl_impls c !! n = Some i -> im_fw_sub i = Some f -> f = n
}.

Lemma impl_of_insert v x w im h l cs k : impl_of w (mkClient im (<[v := x]> h) l cs k : Client Ev) =
  if decide (v = w) then x else mjoin (h !! w).
Proof.
  unfold impl_of. cbn. destruct (decide (v = w)) as [->|Hne]; [by rewrite lookup_insert_eq|].
  by rewrite lookup_insert_ne.
Qed.

Lemma impl_of_move v w x c : impl_of x (move v w c) =
  if decide (v = x) then impl_of w c else if decide (w = x) then None else impl_of x c.
Proof. unfold move, cl_with_handles. rewrite impl_of_insert. case_decide; [done|]. exact (impl_of_insert w None x (cl_impls c) _ (cl_live c) (cl_calls c) (cl_next c)). Qed.

Lemma impl_of_subscribe fw cb v w c :
  impl_of w (subscribe fw cb v c) = if decide (v = w) then Some (cl_next c) else impl_of w c.
Proof. apply impl_of_insert. Qed.

(** What a cancellation does to a tidy client. *)
Lemma cancel_tidy_eq v c n : tidy c -> impl_of v c = Some n -> exists i, cl_impls c !! n = Some i /\
  cancel v c = mkClient (<[n := im_cancelled i]> (cl_impls c)) (<[v := None]> (cl_handles c))
    (delete n (cl_live c)) (cl_calls c) (cl_next c).
Proof.
  intros T Hv. destruct (ti_handles _ T v n Hv) as (i & Hi & _). exists i. split; [done|].
  unfold cancel. rewrite Hv, Hi. destruct (im_fw_sub i) as [f|] eqn:Ef.
  - by rewrite (ti_fw _ T n i f Hi Ef).
  - rewrite delete_id; [done|]. destruct (cl_live c !! n) as [m|] eqn:El; [|done].
    destruct (ti_live _ T n m El) as (<- & i' & Hi' & _ & Hf). congruence.
Qed.

Lemma cancel_null v c : impl_of v c = None -> cancel v c = c.
Proof. intros Hv. unfold cancel. by rewrite Hv. Qed.

Lemma impl_of_cancel v w c : tidy c -> impl_of w (cancel v c) = if decide (v = w) then None else impl_of w c.
Proof.
  intros T. destruct (impl_of v c) as [n|] eqn:Hv.
  - destruct (cancel_tidy_eq v c n T Hv) as (i & _ & ->). apply impl_of_insert.
  - rewrite cancel_null by done. case_decide; by subst.
Qed.

Lemma new_tidy : tidy (client_new : Client Ev).
Proof. split; try done. by intros n []. Qed.

Lemma cancel_tidy v c : tidy c -> tidy (cancel v c).
Proof.
  intros T. destruct (impl_of v c) as [n|] eqn:Hv; [|by rewrite cancel_null].
  pose proof (fun w => impl_of_cancel v w c T) as Hw.
  destruct (cancel_tidy_eq v c n T Hv) as (i & Hi & E). rewrite E in Hw |- *. split; cbn.
  - intros m Hm. apply (ti_impls _ T). destruct (decide (m = n)) as [->|Hne]; [by eexists|].
    by rewrite lookup_insert_ne in Hm.
  - intros w m Hm. rewrite Hw in Hm. case_decide as Hd; [done|]. destruct (ti_handles _ T w m Hm) as (j & Hj & Ha).
    exists j. rewrite lookup_insert_ne; [done|]. intros ->. by apply Hd, (ti_once _ T v w m).
  - intros w w' m. rewrite !Hw. repeat case_decide; try done. apply (ti_once _ T).
  - intros f m. rewrite lookup_delete_Some. intros [Hne Hm]. destruct (ti_live _ T f m Hm) as (-> & j & Hj).
    split; [done|]. exists j. by rewrite lookup_insert_ne.
  - intros m j f. destruct (decide (m = n)) as [->|Hne]; [rewrite lookup_insert_eq; by intros [= <-]|].
    rewrite lookup_insert_ne by done. apply (ti_fw _ T).
Qed.

Lemma subscribe_tidy fw cb v c : tidy c -> tidy (subscribe fw cb v c).
Proof.
  intros T. set (n := cl_next c).
  assert (Hold : forall m, is_Some (cl_impls c !! m) -> n <> m) by (intros m Hm E; apply (ti_impls _ T) in Hm; unfold n in E; lia).
  assert (Hfar : forall w, impl_of w c <> Some n)
    by (intros w Hw; destruct (ti_handles _ T w n Hw) as (i & Hi & _); by apply (Hold n)).
  split; cbn.
  - intros m. rewrite lookup_insert_is_Some. intros [<-|[_ Hm]]; [lia|]. apply (ti_impls _ T) in Hm. lia.
  - intros w m. rewrite impl_of_subscribe. case_decide as Hd.
    + intros [= <-]. rewrite lookup_insert_eq. by eexists.
    + intros Hm. destruct (ti_handles _ T w m Hm) as (i & Hi & Ha). exists i.
      rewrite lookup_insert_ne; [done|]. by apply Hold.
  - intros w w' m. rewrite !impl_of_subscribe. repeat case_decide; subst; try done.
    + intros [= <-] Hw. by destruct (Hfar w').
    + intros Hw [= <-]. by destruct (Hfar w).
    + apply (ti_once _ T).
  - intros f m Hl. assert (Hcase : fw = true /\ f = n /\ m = n \/ cl_live c !! f = Some m).
    { destruct fw; [|by right]. apply lookup_insert_Some in Hl as [[<- <-]|[_ Hl]]; [by left|by right]. }
    destruct Hcase as [(-> & -> & ->)|Hold']; [split; [done|]; rewrite lookup_insert_eq; by eexists|].
    destruct (ti_live _ T f m Hold') as (-> & i & Hi & Hr). split; [done|]. exists i.
    rewrite lookup_insert_ne; [done|]. by apply Hold.
  - intros m i f. rewrite lookup_insert_Some. intros [[<- <-]|[_ Hm]]; [|by apply (ti_fw _ T)].
    cbn. destruct fw; [|done]. by intros [= <-].
Qed.

(** Steps that leave the objects and the connections alone. *)
Lemma handles_tidy h c : tidy c -> let c' := cl_with_handles h c in
  (forall v n, impl_of v c' = Some n -> exists w, impl_of w c = Some n) ->
  (forall v w n, impl_of v c' = Some n -> impl_of w c' = Some n -> v = w) -> tidy c'.
Proof.
  intros T c' Hs Ho. split; cbn; try apply T; [|done]. intros v n Hv. destruct (Hs v n Hv) as [w Hw].
  by apply (ti_handles _ T w n).
Qed.

Lemma declare_tidy v c : tidy c -> tidy (cl_with_handles (<[v := None]> (cl_handles c)) c).
Proof.
  intros T. apply handles_tidy; [done| |]; intros w; intros until 0; unfold cl_with_handles; rewrite !impl_of_insert;
    repeat case_decide; try done; [by exists w|apply (ti_once _ T)].
Qed.

Lemma move_tidy v w c : tidy c -> tidy (move v w c).
Proof.
  intros T. unfold move. apply handles_tidy; [done|change (cl_with_handles _ c) with (move v w c)..].
  - intros x n. rewrite impl_of_move. repeat case_decide; try done; [by exists w|by exists x].
  - intros x y n. rewrite !impl_of_move. repeat case_decide; subst; try done.
    + intros Hx Hy. by destruct (ti_once _ T w y n Hx Hy).
    + intros Hx Hy. by destruct (ti_once _ T w x n Hy Hx).
    + apply (ti_once _ T).
Qed.

Lemma impl_of_destroy v w c : tidy c -> impl_of w (destroy v c) = if decide (v = w) then None else impl_of w c.
Proof.
  intros T. unfold destroy. transitivity (if decide (v = w) then None else impl_of w (cancel v c)).
  - unfold impl_of, cl_with_handles. cbn. case_decide; subst; [by rewrite lookup_delete_eq|by rewrite lookup_delete_ne].
  - rewrite impl_of_cancel by done. by case_decide.
Qed.

Lemma destroy_tidy v c : tidy c -> tidy (destroy v c).
Proof.
  intros T. unfold destroy. apply handles_tidy; [by apply cancel_tidy|change (cl_with_handles _ _) with (destroy v c)..].
  - intros w n. rewrite impl_of_destroy by done. case_decide as Hd; [done|]. exists w.
    rewrite impl_of_cancel by done. by case_decide.
  - intros w w' n. rewrite !impl_of_destroy by done. repeat case_decide; try done. apply (ti_once _ T).
Qed.

(** A delivery adds to the calls at most, for an object that is live and active. *)
Lemma deliver_eq f payload c : deliver f payload c = c \/ exists n i ev, cl_live c !! f = Some n /\
  cl_impls c !! n = Some i /\ im_active i = true /\
  deliver f payload c = mkClient (cl_impls c) (cl_handles c) (cl_live c) (cl_calls c ++ [(n, ev)]) (cl_next c).
Proof.
  unfold deliver. destruct (cl_live c !! f) as [n|]; [|by left]. cbn.
  destruct (cl_impls c !! n) as [i|] eqn:Hi; [|by left]. cbn.
  destruct (im_active i) eqn:Ha; [|rewrite on_event_inactive; by left].
  destruct (on_event _ _ _) as [ev|]; [|by left]. right. by exists n, i, ev.
Qed.

Lemma deliver_tidy f payload c : tidy c -> tidy (deliver f payload c).
Proof. intros T. destruct (deliver_eq f payload c) as [->|(n & i & ev & _ & _ & _ & ->)]; [done|]. by destruct T. Qed.

Lemma lost_tidy f c : tidy c -> tidy (connection_lost f c).
Proof.
  intros T. split; cbn; try apply T. intros g n. rewrite lookup_delete_Some. intros [_ Hl]. by apply (ti_live _ T).
Qed.

Lemma step_tidy careful lost c c' : client_step careful lost c c' -> tidy c -> tidy c'.
Proof.
  intros [v Hv|fw cb v Hv|v w Hne Hw Hc|v|v|f payload|f Hl].
  - apply declare_tidy.
  - apply subscribe_tidy.
  - apply move_tidy.
  - apply cancel_tidy.
  - apply destroy_tidy.
  - apply deliver_tidy.
  - apply lost_tidy.
Qed.

Lemma run_tidy careful lost c c' : rtc (client_step careful lost) c c' -> tidy c -> tidy c'.
Proof. induction 1 as [|x y z Hxy _ IHr]; [done|]. intros T. by apply IHr, (step_tidy careful lost x). Qed.

(* --------------------------------------------------------------------- *)
(** ** Cancelled, owned and lost objects                                  *)
(* --------------------------------------------------------------------- *)

(** The events an object's callback was called with. *)
Definition calls_of (n : nat) c : list Ev := omap (fun x => if decide (x.1 = n) then Some x.2 else None) (cl_calls c).

Lemma calls_of_other n m ev c im h l k : n <> m ->
  calls_of n (mkClient im h l (cl_calls c ++ [(m, ev)]) k) = calls_of n c.
Proof. intros Hne. unfold calls_of. cbn. rewrite omap_app. cbn. rewrite decide_False by done. apply app_nil_r. Qed.

(** An object that was cancelled: out of reach, without a connection, and called with [l] so far. *)
Definition silent (n : nat) (l : list Ev) c : Prop :=
  (exists i, cl_impls c !! n = Some i /\ im_active i = false) /\ calls_of n c = l.

Lemma silent_out_of_reach n l c : tidy c -> silent n l c -> cl_live c !! n = None /\ forall v, impl_of v c <> Some n.
Proof.
  intros T [(i & Hi & Ha) _]. split.
  - destruct (cl_live c !! n) as [m|] eqn:El; [|done]. destruct (ti_live _ T n m El) as (<- & j & Hj & Hja & _). congruence.
  - intros v Hv. destruct (ti_handles _ T v n Hv) as (j & Hj & Hja). congruence.
Qed.

Lemma cancel_silent m l v c : tidy c -> silent m l c -> silent m l (cancel v c).
Proof.
  intros T Hs. destruct (silent_out_of_reach m l c T Hs) as [_ Hr].
  destruct (impl_of v c) as [n|] eqn:Hv; [|by rewrite cancel_null].
  destruct (cancel_tidy_eq v c n T Hv) as (j & _ & ->). destruct Hs as [(i & Hi & Ha) Hc]. split; [|done].
  exists i. cbn. rewrite lookup_insert_ne; [done|]. intros ->. by destruct (Hr v).
Qed.

Lemma step_silent careful lost n l c c' : client_step careful lost c c' -> tidy c -> silent n l c -> silent n l c'.
Proof.
  intros Hstep T Hs. destruct Hstep as [v Hv|fw cb v Hv|v w Hne Hw Hc|v|v|f payload|f Hl].
  - exact Hs.
  - destruct Hs as [(i & Hi & Ha) Hc]. split; [|done]. exists i. cbn. rewrite lookup_insert_ne; [done|].
    intros <-. pose proof (ti_impls _ T _ (mk_is_Some _ _ Hi)). lia.
  - exact Hs.
  - by apply cancel_silent.
  - apply (cancel_silent n l v) in Hs; [exact Hs|done].
  - destruct (deliver_eq f payload c) as [->|(m & i & ev & Hl & Hi & Ha & ->)]; [done|].
    destruct Hs as [(j & Hj & Hja) Hc]. split; [by exists j|]. rewrite calls_of_other; [done|]. intros ->. congruence.
  - exact Hs.
Qed.

Lemma run_silent careful lost n l c c' : rtc (client_step careful lost) c c' -> tidy c -> silent n l c -> silent n l c'.
Proof.
  induction 1 as [|x y z Hxy _ IHr]; [done|]. intros T Hs.
  apply IHr; [by apply (step_tidy careful lost x)|by apply (step_silent careful lost n l x)].
Qed.

(** Every connection is held by a variable. *)
Definition owned c : Prop := forall f n, cl_live c !! f = Some n -> exists v, impl_of v c = Some n.

Lemma cancel_owned v c : tidy c -> owned c -> owned (cancel v c).
Proof.
  intros T Ho. destruct (impl_of v c) as [n|] eqn:Hv; [|by rewrite cancel_null]. intros f m Hl.
  pose proof (fun w => impl_of_cancel v w c T) as Hw. destruct (cancel_tidy_eq v c n T Hv) as (i & _ & E).
  rewrite E in Hl. cbn in Hl. rewrite lookup_delete_Some in Hl. destruct Hl as [Hne Hl]. destruct (Ho f m Hl) as [w Hm].
  exists w. rewrite Hw. case_decide as Hd; [|done]. subst w. destruct (ti_live _ T f m Hl) as [-> _]. congruence.
Qed.

Lemma step_owned lost c c' : client_step true lost c c' -> tidy c -> owned c -> owned c'.
Proof.
  intros Hstep T Ho. destruct Hstep as [v Hv|fw cb v Hv|v w Hne Hw Hc|v|v|f payload|f Hl].
  - intros f n Hf. destruct (Ho f n Hf) as [w Hw]. exists w. unfold cl_with_handles. rewrite impl_of_insert.
    case_decide as Hd; [|done]. subst w. unfold impl_of in Hw. by rewrite Hv in Hw.
  - intros f n Hf. cbn in Hf.
    assert (Hcase : n = cl_next c \/ cl_live c !! f = Some n).
    { destruct fw; [|by right]. apply lookup_insert_Some in Hf as [[_ <-]|[_ Hf]]; [by left|by right]. }
    destruct Hcase as [->|Hold]; [exists v; rewrite impl_of_subscribe; by rewrite decide_True|].
    destruct (Ho f n Hold) as [w Hw]. exists w. rewrite impl_of_subscribe. case_decide as Hd; [|done].
    subst w. unfold impl_of in Hw. by rewrite Hv in Hw.
  - intros f n Hf. destruct (Ho f n Hf) as [x Hx]. destruct (decide (w = x)) as [->|Hwx].
    + exists v. rewrite impl_of_move. by rewrite decide_True.
    + exists x. rewrite impl_of_move. rewrite decide_False; [by rewrite decide_False|].
      intros ->. by rewrite (Hc eq_refl) in Hx.
  - by apply cancel_owned.
  - intros f n Hf. destruct (cancel_owned v c T Ho f n Hf) as [w Hw]. exists w. rewrite impl_of_destroy by done.
    by rewrite impl_of_cancel in Hw.
  - destruct (deliver_eq f payload c) as [->|(n & i & ev & _ & _ & _ & ->)]; done.
  - intros g n. cbn. rewrite lookup_delete_Some. intros [_ Hg]. by apply (Ho g n).
Qed.

Lemma run_owned lost c c' : rtc (client_step true lost) c c' -> tidy c -> owned c -> owned c'.
Proof.
  induction 1 as [|x y z Hxy _ IHr]; [done|]. intros T Ho.
  apply IHr; [by apply (step_tidy true lost x)|by apply (step_owned lost x)].
Qed.

(** An object no variable holds, with its connection and its callback. *)
Definition orphan (n : nat) c : Prop :=
  cl_live c !! n = Some n /\ (exists i, cl_impls c !! n = Some i /\ im_active i = true /\ im_callback i = true) /\
  forall v, impl_of v c <> Some n.

Lemma cancel_orphan n v c : tidy c -> orphan n c -> orphan n (cancel v c).
Proof.
  intros T Ho. destruct (impl_of v c) as [m|] eqn:Hv; [|by rewrite cancel_null].
  destruct Ho as (Hl & (i & Hi & Hi') & Hr).
  pose proof (fun w => impl_of_cancel v w c T) as Hw. destruct (cancel_tidy_eq v c m T Hv) as (j & _ & E).
  assert (m <> n) by (intros ->; by apply (Hr v)). rewrite E in Hw |- *. split; [cbn; by rewrite lookup_delete_ne|].
  split; [exists i; cbn; by rewrite lookup_insert_ne|]. intros w. rewrite Hw. by case_decide.
Qed.

Lemma step_orphan careful n c c' : client_step careful false c c' -> tidy c -> orphan n c -> orphan n c'.
Proof.
  intros Hstep T Hor. pose proof Hor as (Hl & (i & Hi & Hi') & Hr).
  destruct Hstep as [v Hv|fw cb v Hv|v w Hne Hw Hc|v|v|f payload|f Hf]; [| | | | | |done].
  - split; [done|]. split; [by exists i|]. intros w. unfold cl_with_handles. rewrite impl_of_insert.
    case_decide; [done|apply Hr].
  - assert (Hfar : cl_next c <> n) by (pose proof (ti_impls _ T _ (mk_is_Some _ _ Hi)); lia).
    split; [cbn; destruct fw; [by rewrite lookup_insert_ne|done]|]. split; [exists i; cbn; by rewrite lookup_insert_ne|].
    intros w. rewrite impl_of_subscribe. case_decide; [congruence|done].
  - split; [done|]. split; [by exists i|]. intros x. rewrite impl_of_move. by repeat case_decide.
  - by apply cancel_orphan.
  - pose proof (cancel_orphan n v c T Hor) as (Hl' & Hi'' & _). split; [done|]. split; [done|].
    intros w. rewrite impl_of_destroy by done. by case_decide.
  - destruct (deliver_eq f payload c) as [->|(m & j & ev & _ & _ & _ & ->)]; done.
Qed.

Lemma run_orphan careful n c c' : rtc (client_step careful false) c c' -> tidy c -> orphan n c -> orphan n c'.
Proof.
  induction 1 as [|x y z Hxy _ IHr]; [done|]. intros T Ho.
  apply IHr; [by apply (step_tidy careful false x)|by apply (step_orphan careful n x)].
Qed.
End Facts.
