(* ===== verification/SubscriptionProps.v ===== *)
(** * SubscriptionProps: what a subscription promises.
    Events reach the callback of an object until it is cancelled and never after; a client that
    moves nothing over a live handle leaks no connection; one that does cannot end it any more. *)
From S2P Require Import Prelude Errors Canonical Json KeyTypes X509 TimeTypes RetryPolicy KeyEngine CertStore Tls SecService IpcCodec IpcDispatcher SecClient Subscriptions.

Section Promises.
Context {Ev : Type} `{Kind : SubscriptionKind Ev}.
Implicit Types c : Client Ev.

(** One event after the other on the connection [f]. *)
Definition deliver_all (f : nat) (texts : list string) c : Client Ev := foldl (fun c text => deliver f text c) c texts.

Lemma deliver_published n ev c i : ev_wf ev -> cl_live c !! n = Some n -> cl_impls c !! n = Some i ->
  im_active i = true -> im_callback i = true ->
  deliver n (published ev) c =
    mkClient (cl_impls c) (cl_handles c) (cl_live c) (cl_calls c ++ [(n, ev)]) (cl_next c).
Proof. intros Hev Hl Hi Ha Hc. unfold deliver. rewrite Hl. cbn. rewrite Hi. cbn. by rewrite Ha, Hc, on_event_published. Qed.

Lemma deliver_all_published n evs c i : Forall ev_wf evs -> cl_live c !! n = Some n -> cl_impls c !! n = Some i ->
  im_active i = true -> im_callback i = true ->
  deliver_all n (published <$> evs) c =
    mkClient (cl_impls c) (cl_handles c) (cl_live c) (cl_calls c ++ ((n,.) <$> evs)) (cl_next c).
Proof.
  intros Hevs. revert c. induction Hevs as [|ev evs Hev Hevs IH]; intros c Hl Hi Ha Hc.
  - cbn. rewrite app_nil_r. by destruct c.
  - unfold deliver_all in *. cbn [fmap list_fmap foldl]. rewrite (deliver_published n ev c i) by done.
    rewrite IH by done. cbn. by rewrite <- app_assoc.
Qed.

Lemma calls_of_all n evs c im h l k :
  calls_of n (mkClient im h l (cl_calls c ++ ((n,.) <$> evs)) k) = calls_of n c ++ evs.
Proof.
  unfold calls_of. cbn. rewrite omap_app. f_equal. induction evs as [|ev evs IH]; [done|]. cbn.
  rewrite decide_True by done. by f_equal.
Qed.

Lemma deliver_all_tidy f texts c : tidy c -> tidy (deliver_all f texts c).
Proof. revert c. induction texts as [|t texts IH]; intros c T; [done|]. by apply IH, deliver_tidy. Qed.

(** C33. An event is heard until the subscription is cancelled and never after. In every state a
    client reaches, while a variable holds a subscription with a live connection and a callback: the
    events the daemon publishes on that connection reach the callback one by one, in their order and
    unchanged. Once the handle is cancelled it is inactive and its connection is gone, and whatever the
    client does from then on - new subscriptions, moves, late and forged events on any connection -
    that callback is not called again and no variable refers to its object. *)
Theorem heard_until_cancelled careful lost c v n evs :
  rtc (client_step careful lost) client_new c ->
  impl_of v c = Some n -> is_Some (cl_live c !! n) ->
  (forall i, cl_impls c !! n = Some i -> im_callback i = true) -> Forall ev_wf evs ->
  let heard := deliver_all n (published <$> evs) c in
  calls_of n heard = calls_of n c ++ evs /\ isActive v heard = true /\ isActive v (cancel v heard) = false /\
  forall c', rtc (client_step careful lost) (cancel v heard) c' ->
    calls_of n c' = calls_of n c ++ evs /\ cl_live c' !! n = None /\ forall w, impl_of w c' <> Some n.
Proof.
  intros Hrun Hv [m Hm] Hcb Hevs heard. pose proof (run_tidy _ _ _ _ Hrun new_tidy) as T.
  destruct (ti_live _ T n m Hm) as (<- & i & Hi & Ha & _).
  assert (E : heard = mkClient (cl_impls c) (cl_handles c) (cl_live c) (cl_calls c ++ ((n,.) <$> evs)) (cl_next c))
    by exact (deliver_all_published n evs c i Hevs Hm Hi Ha (Hcb i Hi)).
  assert (Th : tidy heard) by by apply deliver_all_tidy.
  assert (Hvh : impl_of v heard = Some n) by (by rewrite E).
  assert (Hcalls : calls_of n heard = calls_of n c ++ evs) by (rewrite E; apply calls_of_all).
  split; [done|]. split; [unfold isActive; rewrite Hvh, E; cbn; by rewrite Hi|].
  split. { unfold isActive. rewrite impl_of_cancel by done. by rewrite decide_True. }
  intros c' Hc'. destruct (cancel_tidy_eq v heard n Th Hvh) as (j & _ & Ec).
  assert (Hs : silent n (calls_of n c ++ evs) (cancel v heard)).
  { rewrite <- Hcalls, Ec. split; [|done]. exists (im_cancelled j). cbn. by rewrite lookup_insert_eq. }
  pose proof (cancel_tidy v heard Th) as Tc. pose proof (run_silent _ _ _ _ _ _ Hc' Tc Hs) as Hs'.
  destruct (silent_out_of_reach _ _ _ (run_tidy _ _ _ _ Hc' Tc) Hs') as [Hl Hr]. by destruct Hs'.
Qed.

Lemma new_owned : owned (client_new : Client Ev).
Proof. by intros f n. Qed.

(** C38. No connection outlives its handle, if handles are moved with care. In every state that a
    client reaches without moving anything into a variable that holds a subscription, each live
    connection belongs to exactly one variable, which is active, and cancelling or destroying that
    variable ends exactly this connection; a client without variables has no connection left. *)
Theorem careful_client_leaks_nothing lost c f n :
  rtc (client_step true lost) client_new c -> cl_live c !! f = Some n ->
  exists v, impl_of v c = Some n /\ (forall w, impl_of w c = Some n -> w = v) /\ isActive v c = true /\
    cl_live (cancel v c) = delete f (cl_live c) /\ cl_live (destroy v c) = delete f (cl_live c) /\
    cl_handles c <> ∅.
Proof.
  intros Hrun Hf. pose proof (run_tidy _ _ _ _ Hrun new_tidy) as T.
  pose proof (run_owned _ _ _ Hrun new_tidy new_owned) as Ho. destruct (Ho f n Hf) as [v Hv]. exists v.
  destruct (ti_live _ T f n Hf) as (-> & i & Hi & Ha & _).
  destruct (cancel_tidy_eq v c n T Hv) as (j & _ & Ec).
  split; [done|]. split; [intros w Hw; by apply (ti_once _ T w v n)|].
  split; [unfold isActive; rewrite Hv; cbn; by rewrite Hi|].
  split; [by rewrite Ec|]. split; [unfold destroy; by rewrite Ec|].
  intros He. unfold impl_of in Hv. by rewrite He, lookup_empty in Hv.
Qed.

(** A handle that is moved over takes its connection out of reach for good. Move assignment is the
    one of the shared pointer, so the subscription the target held is not cancelled: as long as its
    connection lasts, in every later state, careful or not, no variable refers to its object, its
    connection is live, and each event published on it still calls the callback, even when every
    handle of the client has been cancelled and destroyed. *)
Theorem overwritten_subscription_runs_on careful lost c v w n c' ev :
  rtc (client_step careful lost) client_new c ->
  impl_of v c = Some n -> v <> w -> is_Some (cl_live c !! n) ->
  (forall i, cl_impls c !! n = Some i -> im_callback i = true) ->
  rtc (client_step careful false) (move v w c) c' -> ev_wf ev ->
  cl_live c' !! n = Some n /\ (forall x, impl_of x c' <> Some n) /\
  calls_of n (deliver n (published ev) c') = calls_of n c' ++ [ev].
Proof.
  intros Hrun Hv Hne [m Hm] Hcb Hrun' Hev. pose proof (run_tidy _ _ _ _ Hrun new_tidy) as T.
  destruct (ti_live _ T n m Hm) as (<- & i & Hi & Ha & _).
  assert (Hor : orphan n (move v w c)).
  { split; [done|]. split; [exists i; split; [done|]; split; [done|by apply Hcb]|]. intros x. rewrite impl_of_move.
    repeat case_decide; [|done|]; intros Hx; [by apply Hne, (ti_once _ T v w n)|].
    by destruct (ti_once _ T v x n Hv Hx). }
  destruct (run_orphan _ _ _ _ Hrun' (move_tidy v w c T) Hor) as (Hl & (j & Hj & Hja & Hjc) & Hx).
  split; [done|]. split; [done|]. rewrite (deliver_published n ev c' j) by done. apply (calls_of_all n [ev]).
Qed.

(** [isActive] tells nothing about the connection: a subscription that did not come about is active. *)
Lemma active_without_connection cb v c : isActive v (subscribe false cb v c) = true /\
  cl_live (subscribe false cb v c) = cl_live c.
Proof. split; [|done]. unfold isActive. rewrite impl_of_subscribe, decide_True by done. cbn. by rewrite lookup_insert_eq. Qed.
End Promises.

(* --------------------------------------------------------------------- *)
(** ** Two subscriptions                                                  *)
(* --------------------------------------------------------------------- *)

Module SubscriptionSample.
Import JsonSample.
#[local] Existing Instance JsonSample.sample_json.

Definition expired : TlsCredentialChangedEvent := mkChangedEvent "mqtt" "cred-7" 7 TLS_EXPIRED 3.
Notation TlsClient := (Client TlsCredentialChangedEvent).
Definition one : TlsClient := subscribe true true "a" client_new.
Definition two : TlsClient := subscribe true true "b" one.

Lemma expired_wf : ev_wf expired.
Proof. vm_compute. repeat split; congruence. Qed.

Lemma two_reached careful lost : rtc (client_step careful lost) client_new two.
Proof. eapply rtc_l; [by apply (SubscribeStep _ _ _ true true "a")|]. apply rtc_once. by apply (SubscribeStep _ _ _ true true "b"). Qed.

Lemma heard_until_cancelled_witness :
  calls_of 0 (deliver_all 0 (published <$> [expired; expired]) two) = [expired; expired] /\
  calls_of 0 (deliver 0 (published expired) (cancel "a" (deliver_all 0 (published <$> [expired; expired]) two))) =
    [expired; expired].
Proof.
  destruct (heard_until_cancelled true false two "a" 0 [expired; expired] (two_reached true false))
    as (Hh & _ & _ & Hs).
  - reflexivity.
  - by eexists.
  - intros i [= <-]. reflexivity.
  - exact (Forall_cons_2 _ _ _ expired_wf (Forall_cons_2 _ _ _ expired_wf (Forall_nil_2 _))).
  - split; [exact Hh|]. refine (proj1 (Hs _ _)). apply rtc_once, DeliverStep.
Defined.

Lemma careful_client_leaks_nothing_witness : exists v, impl_of v two = Some 1%nat /\ cl_live (destroy v two) = {[ 0 := 0 ]}%nat.
Proof.
  destruct (careful_client_leaks_nothing false two 1 1 (two_reached true false)) as (v & Hv & _ & _ & _ & Hd & _);
    [reflexivity|]. exists v. split; [exact Hv|]. rewrite Hd. reflexivity.
Defined.

Lemma overwritten_subscription_runs_on_witness :
  calls_of 0 (deliver 0 (published expired) (destroy "a" (destroy "b" (move "a" "b" two)))) = [expired] /\
  cl_handles (destroy "a" (destroy "b" (move "a" "b" two))) = ∅.
Proof.
  split; [|reflexivity].
  refine (proj2 (proj2 (overwritten_subscription_runs_on false false two "a" "b" 0 _ expired (two_reached false false)
    _ _ _ _ _ _))).
  - reflexivity.
  - discriminate.
  - by eexists.
  - intros i [= <-]. reflexivity.
  - eapply rtc_l; [apply (DestroyStep _ _ _ "b")|]. apply rtc_once, (DestroyStep _ _ _ "a").
  - exact expired_wf.
Defined.
End SubscriptionSample.
