(* ===== verification/Peers.v ===== *)
(** * Peers: who is calling, and the services around the daemon.
    Models [src/peer_credential.cpp] (the systemd unit behind a connection),
    [src/ipc_prov_service.cpp] (the client of the PROV daemon) and
    [src/diag_service_adapter.cpp] (the built-in DIAG stand-in). *)
From S2P Require Import Prelude Errors Canonical KeyTypes Json TimeTypes TrustedTime X509 Tls SecService IpcDispatcher.
From Stdlib Require Import Ascii.

(* --------------------------------------------------------------------- *)
(** ** The unit in a control-group path                                   *)
(* --------------------------------------------------------------------- *)

(** [[a-zA-Z0-9_@:-]]. *)
Definition unit_char (c : ascii) : bool :=
  let n := N_of_ascii c in
  ((97 <=? n) && (n <=? 122) || (65 <=? n) && (n <=? 90) || (48 <=? n) && (n <=? 57) ||
   (n =? 95) || (n =? 64) || (n =? 58) || (n =? 45))%N.

Definition all_unit_chars (s : string) : bool := str_all unit_char s.

#[global] Arguments unit_char _ : simpl never.

(** The longest run of unit characters, and what follows it. *)
Fixpoint unit_run (s : string) : string * string :=
  match s with
  | String c r => if unit_char c then let '(a, b) := unit_run r in (String c a, b) else ("", s)
  | EmptyString => ("", "")
  end.

(** [([a-zA-Z0-9_@:-]+\.service)] at the start of [s]. The dot is no unit character, so that only
    the whole run can be followed by it and backtracking finds nothing else. *)
Definition unit_here (s : string) : option string :=
  let '(name, rest) := unit_run s in
  if negb (str_empty name) && String.prefix ".service" rest then Some (name ++ ".service")%string else None.

(** [std::regex_search]: the leftmost match. *)
Fixpoint unit_search (s : string) : option string :=
  match unit_here s with
  | Some m => Some m
  | None => match s with String _ r => unit_search r | EmptyString => None end
  end.

(** The lines [std::getline] reads. *)
Fixpoint getlines_from (acc : string) (s : string) : list string :=
  match s with
  | EmptyString => if str_empty acc then [] else [acc]
  | String c r =>
      if Ascii.eqb c (ascii_of_nat 10) then acc :: getlines_from "" r
      else getlines_from (acc ++ String c "")%string r
  end.
Definition getlines (s : string) : list string := getlines_from "" s.

Fixpoint first_unit (lines : list string) : string :=
  match lines with
  | [] => ""
  | l :: lines => match unit_search l with Some m => m | None => first_unit lines end
  end.

(* --------------------------------------------------------------------- *)
(** ** The resolvers                                                      *)
(* --------------------------------------------------------------------- *)

(** [getsockopt] with [SO_PEERCRED] ([None]: it fails) as pid, uid and gid, the content of a file
    ([None]: it cannot be opened), and the subscriptions of the server. *)
Class PeerEnv (H : Type) := {
  pe_peercred : Z -> H -> option (Z * Z * Z);
  pe_read_file : string -> H -> option string;
  pe_add_subscription : Z -> Z -> st H bool
}.

(** [src/include/peer_credential.h:31-49] PeerCredentialResolver *)
Inductive PeerResolver := Systemd | DevPeer (service_name : string).

Section Resolvers.
Context {H : Type} `{Env : PeerEnv H}.
Implicit Types h : H.

(** [src/src/peer_credential.cpp:17-52] SystemdPeerCredentialResolver::resolve *)
Definition systemd_resolve (client_fd : Z) h : PeerIdentity :=
  match pe_peercred client_fd h with
  | None => mkPeer false 0 0 0 ""
  | Some (pid, uid, gid) =>
      let path := ("/proc/" ++ std_to_string pid ++ "/cgroup")%string in
      mkPeer true pid uid gid
        (match pe_read_file path h with Some content => first_unit (getlines content) | None => "" end)
  end.

(** [src/src/peer_credential.cpp:54-61] DevPeerCredentialResolver::resolve *)
Definition dev_resolve (service_name : string) : PeerIdentity := mkPeer true 0 0 0 service_name.

Definition resolve (r : PeerResolver) (client_fd : Z) h : PeerIdentity :=
  match r with Systemd => systemd_resolve client_fd h | DevPeer name => dev_resolve name end.
End Resolvers.

(** What the dispatcher sees of the process it runs in. *)
#[global] Instance resolver_host {H} `{PeerEnv H} : IpcHost (PeerResolver * H) := {|
  ih_resolve fd w := (resolve w.1 fd w.2, w);
  ih_add_subscription fd ev w := let '(ok, h) := pe_add_subscription fd ev w.2 in (ok, (w.1, h))
|}.

(* --------------------------------------------------------------------- *)
(** ** PROV and DIAG                                                      *)
(* --------------------------------------------------------------------- *)

(** The installed client of the PROV daemon. *)
Inductive ProvState := PROV_NONE | PROV_VIN_WRITTEN | PROV_BOUND | PROV_FAILED | PROV_OTHER.
Class ProvClient (C : Type) := {
  pc_connect : st C bool;
  pc_read_binding : st C VehicleInfo;
  pc_is_connected : C -> bool;
  pc_get_provision_state : C -> ProvState
}.

Section Prov.
Context {C : Type} `{Client : ProvClient C}.

(** [src/src/ipc_prov_service.cpp:10-19] initialize *)
Definition prov_initialize : st C ErrorCode := fun c =>
  let '(ok, c) := pc_connect c in (if ok then SUCCESS else CONNECTION_FAILED, c).

(** A binding that is not configured is logged and returned all the same. *)
(** [src/src/ipc_prov_service.cpp:21-37] get_vehicle_info *)
Definition prov_get_vehicle_info : st C (ErrorCode * VehicleInfo) := fun c =>
  let '(b, c) := pc_read_binding c in ((SUCCESS, b), c).

(** [src/src/ipc_prov_service.cpp:39-65] get_provision_state *)
Definition prov_get_provision_state (c : C) : ErrorCode * DeviceProvisionState :=
  if negb (pc_is_connected c) then (CONNECTION_FAILED, DPS_UNKNOWN) else
  (SUCCESS,
   match pc_get_provision_state c with
   | PROV_NONE => DPS_NONE
   | PROV_VIN_WRITTEN => DPS_VIN_WRITTEN
   | PROV_BOUND => DPS_BOUND
   | PROV_FAILED => DPS_FAILED
   | PROV_OTHER => DPS_UNKNOWN
   end).

(** [src/src/ipc_prov_service.cpp:67-69] is_connected *)
Definition prov_is_connected (c : C) : bool := pc_is_connected c.
End Prov.

(** The threads of asynchronous requests are counted. *)
(** [src/src/diag_service_adapter.cpp:29-36] DiagServiceAdapter members *)
Record DiagServiceAdapter := mkDiag { da_initialized : bool; da_connected : bool; da_threads : nat }.

(** [src/src/diag_service_adapter.cpp:39-40] DiagServiceAdapter *)
Definition diag_new : DiagServiceAdapter := mkDiag false false 0.

(** [src/src/diag_service_adapter.cpp:50-57] initialize *)
Definition diag_initialize (a : DiagServiceAdapter) : ErrorCode * DiagServiceAdapter :=
  (SUCCESS, mkDiag true true (da_threads a)).

(** The request's data is not looked at. *)
(** [src/src/diag_service_adapter.cpp:102-153] process_request_internal *)
Definition process_request_internal (t : DiagRequestType) (data : bytes) : DiagResponse :=
  let ok d := mkDiagResponse SUCCESS d "" in
  match t with
  | DIAG_GENERATE_KEY_PAIR | DIAG_INJECT_CERTIFICATE | DIAG_APPLY_CERTIFICATE | DIAG_VERIFY_KEY => ok [x01]
  | DIAG_READ_CSR => ok [x30; x82; x01; x00]
  | DIAG_READ_PROVISION_STATE => ok [x00]
  | DIAG_GET_SEED => ok [x01; x02; x03; x04; x05; x06; x07; x08; x09; x0a; x0b; x0c; x0d; x0e; x0f; x10]
  | DIAG_SUBMIT_CSR => mkDiagResponse INVALID_PARAMETER [] "Unknown request type"
  end.

(** [src/src/diag_service_adapter.cpp:59-75] send_request *)
Definition diag_send_request (t : DiagRequestType) (data : bytes) (a : DiagServiceAdapter) :
    ErrorCode * option DiagResponse * DiagServiceAdapter :=
  if negb (da_initialized a) || negb (da_connected a) then (NOT_INITIALIZED, None, a) else
  (SUCCESS, Some (process_request_internal t data), mkDiag true true (S (da_threads a))).

(** [src/src/diag_service_adapter.cpp:77-86] send_request_sync *)
Definition diag_send_request_sync (t : DiagRequestType) (data : bytes) (a : DiagServiceAdapter) :
    ErrorCode * option DiagResponse :=
  if negb (da_initialized a) || negb (da_connected a) then (NOT_INITIALIZED, None) else
  (SUCCESS, Some (process_request_internal t data)).

(** [src/src/diag_service_adapter.cpp:88-90] is_connected *)
Definition diag_is_connected (a : DiagServiceAdapter) : bool := da_connected a.

(** [src/src/diag_service_adapter.cpp:92-100] get_service_status *)
Definition diag_service_status (a : DiagServiceAdapter) : string :=
  if negb (da_initialized a) then "Not initialized"
  else if negb (da_connected a) then "Disconnected" else "Connected".

(* --------------------------------------------------------------------- *)
(** ** What the pattern finds                                             *)
(* --------------------------------------------------------------------- *)

(** The pattern of the resolver, declaratively: [m] is a match at the start of [s]. *)
Inductive unit_match (s m : string) : Prop :=
  | unit_match_intro name rest : s = (name ++ ".service" ++ rest)%string -> name <> "" ->
      all_unit_chars name = true -> m = (name ++ ".service")%string -> unit_match s m.

Lemma str_cons_app c a b : (String c a ++ b = String c (a ++ b))%string.
Proof. done. Qed.
Lemma str_nil_app b : ("" ++ b = b)%string.
Proof. done. Qed.

Lemma unit_run_spec s name rest : unit_run s = (name, rest) ->
  s = (name ++ rest)%string /\ all_unit_chars name = true /\
  match rest with String c _ => unit_char c = false | EmptyString => True end.
Proof.
  revert name rest. induction s as [|c s IH]; intros name rest; cbn; [by intros [= <- <-]|].
  destruct (unit_char c) eqn:Ec; [|by intros [= <- <-]].
  destruct (unit_run s) as [a b]. intros [= <- <-]. destruct (IH a b eq_refl) as (-> & Ha & Hb).
  unfold all_unit_chars in *. cbn. by rewrite Ec.
Qed.

(** The run before a character outside the class. *)
Lemma unit_run_app name c rest : all_unit_chars name = true -> unit_char c = false ->
  unit_run (name ++ String c rest) = (name, String c rest).
Proof.
  unfold all_unit_chars. induction name as [|x name IH];
    rewrite ?str_nil_app, ?str_cons_app; cbn; [by intros _ ->|].
  intros [-> Hn]%andb_true_iff Hc. by rewrite (IH Hn Hc).
Qed.

Lemma prefix_split p s : String.prefix p s = true -> exists r, s = (p ++ r)%string.
Proof.
  revert s. induction p as [|c p IH]; intros s; [by eexists|].
  destruct s as [|d s]; [done|]. cbn. destruct (ascii_dec c d) as [->|]; [|done].
  intros [r ->]%IH. by exists r.
Qed.

Lemma unit_here_spec s m : unit_here s = Some m <-> unit_match s m.
Proof.
  unfold unit_here. split.
  - destruct (unit_run s) as [name rest] eqn:Er. apply unit_run_spec in Er as (-> & Hn & _).
    destruct (negb _ && _) eqn:Eb; [|done]. intros [= <-].
    apply andb_true_iff in Eb as [He [r ->]%prefix_split]. apply negb_true_iff, str_empty_false in He.
    by exists name r.
  - intros [name rest -> Hne Hn ->].
    change (name ++ ".service" ++ rest)%string with (name ++ String "." ("service" ++ rest))%string.
    rewrite (unit_run_app name "." _ Hn eq_refl). apply str_empty_false in Hne. rewrite Hne.
    change (String "." ("service" ++ rest))%string with (".service" ++ rest)%string.
    by rewrite str_prefix_app.
Qed.

Lemma unit_search_some s m : unit_search s = Some m <->
  exists pre suf, s = (pre ++ suf)%string /\ unit_match suf m /\
    forall pre' suf' m', s = (pre' ++ suf')%string -> (String.length pre' < String.length pre)%nat ->
      ~ unit_match suf' m'.
Proof.
  induction s as [|c s IH]; cbn [unit_search].
  - split; [done|]. intros (pre & suf & E & Hm & _). destruct pre; [|done]. rewrite str_nil_app in E. subst suf.
    by apply unit_here_spec in Hm.
  - destruct (unit_here (String c s)) as [m0|] eqn:Eh.
    + split.
      * intros [= <-]. exists "", (String c s). split_and!; [done|by apply unit_here_spec|].
        intros pre' ? ? _ Hl. cbn in Hl. lia.
      * intros (pre & suf & E & Hm & Hleft). destruct pre as [|d pre].
        -- rewrite str_nil_app in E. subst suf. apply unit_here_spec in Hm. congruence.
        -- apply unit_here_spec in Eh. destruct (Hleft "" (String c s) m0); [done|cbn; lia|done].
    + rewrite IH. split.
      * intros (pre & suf & -> & Hm & Hleft). exists (String c pre), suf. split_and!; [done..|].
        intros pre' suf' m' E Hl. destruct pre' as [|d pre'].
        -- rewrite str_nil_app in E. subst suf'. intros Hx%unit_here_spec. congruence.
        -- rewrite str_cons_app in E. cbn in Hl. injection E as <- E. apply (Hleft pre' suf' m' E). lia.
      * intros (pre & suf & E & Hm & Hleft). destruct pre as [|d pre].
        -- rewrite str_nil_app in E. subst suf. apply unit_here_spec in Hm. congruence.
        -- rewrite str_cons_app in E. injection E as <- ->. exists pre, suf. split_and!; [done..|].
           intros pre' suf' m' E Hl. apply (Hleft (String c pre') suf' m'); [cbn; by rewrite E|cbn; lia].
Qed.

Lemma unit_search_none s : unit_search s = None <->
  forall pre suf m, s = (pre ++ suf)%string -> ~ unit_match suf m.
Proof.
  induction s as [|c s IH]; cbn [unit_search].
  - split; [|done]. intros _ pre suf m E Hm. destruct pre; [|done]. rewrite str_nil_app in E.
    subst suf. by apply unit_here_spec in Hm.
  - destruct (unit_here (String c s)) as [m0|] eqn:Eh.
    + split; [done|]. intros H. by destruct (H "" (String c s) m0); [|apply unit_here_spec].
    + rewrite IH. split.
      * intros H pre suf m E. destruct pre as [|d pre].
        -- rewrite str_nil_app in E. subst suf. intros Hx%unit_here_spec. congruence.
        -- rewrite str_cons_app in E. injection E as <- E. by apply (H pre).
      * intros H pre suf m ->. by apply (H (String c pre)).
Qed.

(** A slash ends a component: what is found before it is found without what follows. *)
Lemma unit_run_slash a r : unit_run (a ++ String "/" r) = ((unit_run a).1, (unit_run a).2 ++ String "/" r)%string.
Proof.
  induction a as [|c a IH]; [done|]. rewrite str_cons_app. cbn. rewrite IH.
  by destruct (unit_char c), (unit_run a).
Qed.

Lemma prefix_slash p b r : str_all (fun c => negb (Ascii.eqb c "/")) p = true ->
  String.prefix p (b ++ String "/" r) = String.prefix p b.
Proof.
  revert b. induction p as [|c p IH]; intros b; [by destruct b|].
  intros [Hc Hp]%andb_true_iff. apply negb_true_iff, Ascii.eqb_neq in Hc. destruct b as [|d b].
  - rewrite str_nil_app. simpl. by destruct (ascii_dec c "/").
  - rewrite str_cons_app. simpl. destruct (ascii_dec c d); [by apply IH|done].
Qed.

Lemma unit_here_slash a r : unit_here (a ++ String "/" r) = unit_here a.
Proof.
  unfold unit_here. rewrite unit_run_slash. destruct (unit_run a) as [n b]. cbn.
  by rewrite prefix_slash.
Qed.

Lemma unit_search_slash a r : unit_search a = None -> unit_search (a ++ String "/" r) = unit_search r.
Proof.
  induction a as [|c a IH]; intros Ha.
  - rewrite str_nil_app. cbn [unit_search].
    by change (unit_here (String "/" r)) with (None : option string).
  - cbn [unit_search] in Ha. rewrite str_cons_app. cbn [unit_search].
    rewrite <- str_cons_app, unit_here_slash. destruct (unit_here (String c a)); [done|]. by apply IH.
Qed.

(** The unit that a component of the path names. *)
Lemma unit_search_component pre u rest : unit_search pre = None -> u <> "" -> all_unit_chars u = true ->
  unit_search (pre ++ "/" ++ u ++ ".service" ++ rest) = Some (u ++ ".service")%string.
Proof.
  intros Hpre Hne Hu. change ("/" ++ u ++ ".service" ++ rest)%string with
    (String "/" (u ++ ".service" ++ rest)). rewrite (unit_search_slash _ _ Hpre).
  assert (Hh : unit_here (u ++ ".service" ++ rest) = Some (u ++ ".service")%string).
  { apply unit_here_spec. by exists u rest. }
  destruct (u ++ ".service" ++ rest)%string; cbn [unit_search]; by rewrite Hh.
Qed.

(** *** Lines *)

Definition newline : ascii := ascii_of_nat 10.

Lemma getlines_line line acc rest : str_all (fun c => negb (Ascii.eqb c newline)) line = true ->
  getlines_from acc (line ++ String newline rest) = (acc ++ line)%string :: getlines rest.
Proof.
  revert acc. induction line as [|c line IH]; intros acc Hl.
  - rewrite str_nil_app, str_app_nil. cbn. done.
  - cbn in Hl. apply andb_true_iff in Hl as [Hc%negb_true_iff Hl]. rewrite str_cons_app. cbn.
    fold newline. rewrite Hc, (IH _ Hl), str_app_assoc. done.
Qed.

Lemma first_unit_some lines m : first_unit lines = m -> m <> "" ->
  exists l, l ∈ lines /\ unit_search l = Some m.
Proof.
  induction lines as [|l lines IH]; cbn; [by intros <-|].
  destruct (unit_search l) as [m'|] eqn:El.
  - intros -> _. exists l. split; [left|done].
  - intros Hm Hne. destruct (IH Hm Hne) as (l' & Hin & Hl'). exists l'. split; [by right|done].
Qed.

Section Callers.
Context {H : Type} `{Env : PeerEnv H}.

Definition cgroup_path (pid : Z) : string := ("/proc/" ++ std_to_string pid ++ "/cgroup")%string.

(** A caller gets a name only from the kernel: whoever is let in under a unit name is a process
    whose credentials the socket vouches for and whose control-group file has a line in which the name
    stands, as the leftmost place of that line where the pattern of units matches. *)
Theorem caller_name_sound fd h m : pi_service_name (systemd_resolve fd h) = m -> m <> "" ->
  exists pid uid gid content line pre suf,
    pe_peercred fd h = Some (pid, uid, gid) /\
    systemd_resolve fd h = mkPeer true pid uid gid m /\
    pe_read_file (cgroup_path pid) h = Some content /\ line ∈ getlines content /\
    line = (pre ++ suf)%string /\ unit_match suf m /\
    forall pre' suf' m', line = (pre' ++ suf')%string ->
      (String.length pre' < String.length pre)%nat -> ~ unit_match suf' m'.
Proof.
  unfold systemd_resolve, cgroup_path.
  destruct (pe_peercred fd h) as [[[pid uid] gid]|] eqn:Ec; [|by intros <-].
  cbn. destruct (pe_read_file _ h) as [content|] eqn:Ef; [|by intros <-]. intros Hm Hne.
  destruct (first_unit_some _ _ Hm Hne) as (line & Hin & Hs).
  apply unit_search_some in Hs as (pre & suf & E & Hmatch & Hleft).
  exists pid, uid, gid, content, line, pre, suf. rewrite Ef, Hm. split_and!; done.
Qed.

(** A process of a systemd unit is recognised as that unit: when the first line of its
    control-group file names the unit in a component of the path, and no component before it looks like
    a unit, the resolver answers with exactly that name and the socket's credentials. *)
Theorem caller_is_its_unit fd h pid uid gid pre u rest more :
  pe_peercred fd h = Some (pid, uid, gid) ->
  pe_read_file (cgroup_path pid) h =
    Some ((pre ++ "/" ++ u ++ ".service" ++ rest) ++ String newline more)%string ->
  str_all (fun c => negb (Ascii.eqb c newline)) (pre ++ "/" ++ u ++ ".service" ++ rest) = true ->
  unit_search pre = None -> u <> "" -> all_unit_chars u = true ->
  systemd_resolve fd h = mkPeer true pid uid gid (u ++ ".service").
Proof.
  intros Hc Hf Hl Hpre Hne Hu. unfold systemd_resolve. rewrite Hc. fold (cgroup_path pid). rewrite Hf.
  unfold getlines. rewrite (getlines_line _ _ _ Hl), str_nil_app. cbn [first_unit].
  by rewrite (unit_search_component _ _ _ Hpre Hne Hu).
Qed.
End Callers.

(* --------------------------------------------------------------------- *)
(** ** Three callers                                                      *)
(* --------------------------------------------------------------------- *)

Module PeerSample.
(** A host on which every connection comes from process 77 with the given control group. *)
#[export] Instance one_process : PeerEnv string := {|
  pe_peercred _ _ := Some (77, 0, 0);
  pe_read_file path h := if String.eqb path "/proc/77/cgroup" then Some h else None;
  pe_add_subscription _ _ h := (true, h)
|}.

Definition group_of (unit : string) : string :=
  ("0::/system.slice" ++ "/" ++ unit ++ String newline "")%string.
Definition mqtt : PeerIdentity := mkPeer true 77 0 0 "tbox-mqtt.service".

(** A unit whose name merely ends, or begins, like the one of the MQTT daemon is taken for it: the
    pattern is not anchored to the component, and a dot is no character of it. *)
Lemma dotted_unit_impersonates : systemd_resolve 5 (group_of "other.tbox-mqtt.service") = mqtt.
Proof. by vm_compute. Qed.
Lemma scope_impersonates : systemd_resolve 5 (group_of "tbox-mqtt.service-helper.scope") = mqtt.
Proof. by vm_compute. Qed.
End PeerSample.
#[local] Existing Instance PeerSample.one_process.

Lemma caller_is_its_unit_witness :
  systemd_resolve 5 (PeerSample.group_of "tbox-mqtt.service") = PeerSample.mqtt.
Proof.
  apply (caller_is_its_unit 5 (PeerSample.group_of "tbox-mqtt.service") 77 0 0 "0::/system.slice"
    "tbox-mqtt" "" ""); [by vm_compute..|done|by vm_compute].
Defined.

Lemma caller_name_sound_witness :
  exists pid uid gid content line pre suf,
    pe_peercred 5 (PeerSample.group_of "tbox-mqtt.service") = Some (pid, uid, gid) /\
    systemd_resolve 5 (PeerSample.group_of "tbox-mqtt.service") =
      mkPeer true pid uid gid "tbox-mqtt.service" /\
    pe_read_file (cgroup_path pid) (PeerSample.group_of "tbox-mqtt.service") = Some content /\
    line ∈ getlines content /\ line = (pre ++ suf)%string /\ unit_match suf "tbox-mqtt.service" /\
    forall pre' suf' m', line = (pre' ++ suf')%string ->
      (String.length pre' < String.length pre)%nat -> ~ unit_match suf' m'.
Proof. apply caller_name_sound; [by vm_compute|done]. Defined.
