(* ===== verification/Cli.v ===== *)
(** * Cli: the command-line tool.
    Models [src/sec_cli.cpp]: the commands with what they print, store and return to the
    shell, the PEM text and the two readings of numbers. The files, the connection and
    the EC library are parameters. *)
From S2P Require Import Prelude Errors Canonical Json KeyTypes X509 RetryPolicy TimeTypes Tls SoftHsm IpcCodec SecClient.
From Stdlib Require Import Ascii.
From stdpp Require Import pretty.
#[local] Open Scope Z_scope.

(* --------------------------------------------------------------------- *)
(** ** PEM                                                                *)
(* --------------------------------------------------------------------- *)

Definition newline : ascii := ascii_of_nat 10.
Definition newline_text : string := String newline "".

Definition base64_chars : string := "ABCDEFGHIJKLMNOPQRSTUVWXYZabcdefghijklmnopqrstuvwxyz0123456789+/".
Definition base64_char (n : Z) : ascii := default zero (String.get (Z.to_nat n) base64_chars).

(** The four values made of three bytes. *)
(** [src/src/sec_cli.cpp:33-36] der_to_pem quad *)
Definition quad (b0 b1 b2 : Z) : list Z :=
  [Z.shiftr (Z.land b0 252) 2;
   Z.shiftl (Z.land b0 3) 4 + Z.shiftr (Z.land b1 240) 4;
   Z.shiftl (Z.land b1 15) 2 + Z.shiftr (Z.land b2 192) 6;
   Z.land b2 63].

Definition base64_text (l : list Z) : string := String.string_of_list_ascii (base64_char <$> l).

(** [c3] are the bytes waiting in the array. *)
(** [src/src/sec_cli.cpp:30-42] der_to_pem loop *)
Fixpoint pem_loop (der c3 : bytes) (pem : string) : string * bytes :=
  match der with
  | [] => (pem, c3)
  | b :: der =>
      match c3 with
      | [b0; b1] => pem_loop der [] (pem ++ base64_text (quad (bval b0) (bval b1) (bval b)))%string
      | _ => pem_loop der (c3 ++ [b]) pem
      end
  end.

(** The bytes left over, with zeros after them. *)
(** [src/src/sec_cli.cpp:44-57] der_to_pem tail *)
Definition pem_tail (c3 : bytes) : string :=
  match c3 with
  | [] => ""
  | _ =>
      let at_ i := match c3 !! i with Some b => bval b | None => 0 end in
      (base64_text (take (length c3 + 1) (quad (at_ 0%nat) (at_ 1%nat) 0)) ++
       String.string_of_list_ascii (replicate (3 - length c3) "="%char))%string
  end.

(** One line, however long. *)
Definition pem_body (der : bytes) : string :=
  let '(text, c3) := pem_loop der [] "" in (text ++ pem_tail c3)%string.

(** [src/src/sec_cli.cpp:14-61] der_to_pem *)
Definition der_to_pem (der : bytes) (type : string) : string :=
  ("-----BEGIN " ++ type ++ "-----" ++ newline_text ++ pem_body der ++
   newline_text ++ "-----END " ++ type ++ "-----" ++ newline_text)%string.

(** What OpenSSL makes of the number of a private key: the DER of the pair, or a failure. *)
Class EcPrivate := { i2d_ECPrivateKey : bytes -> option bytes }.

(** Empty when it fails. *)
(** [src/src/sec_cli.cpp:63-87] ec_priv_raw_to_pem *)
Definition ec_priv_raw_to_pem `{EcPrivate} (raw_priv : bytes) : string :=
  match i2d_ECPrivateKey raw_priv with
  | Some der => der_to_pem der "EC PRIVATE KEY"
  | None => ""
  end.

(* --------------------------------------------------------------------- *)
(** ** Numbers                                                            *)
(* --------------------------------------------------------------------- *)

(** [std::stoul(s, nullptr, 0)]: white space, a sign, a number whose prefix tells its base.
    [None]: nothing to read, or a value past [unsigned long], an exception either way. *)
Definition digit_value (base : Z) (c : ascii) : option Z :=
  match hex_value c with Some d => if d <? base then Some d else None | None => None end.
Fixpoint digits_value (base acc : Z) (s : string) : Z :=
  match s with
  | String c s => match digit_value base c with Some d => digits_value base (acc * base + d) s | None => acc end
  | EmptyString => acc
  end.
Definition read_number (base : Z) (s : string) : option Z :=
  match s with
  | String c _ => match digit_value base c with Some _ => Some (digits_value base 0 s) | None => None end
  | EmptyString => None
  end.
Definition any_number (s : string) : option Z :=
  match s with
  | String "0" (String "x" (String c r)) | String "0" (String "X" (String c r)) =>
      match hex_value c with Some _ => read_number 16 (String c r) | None => Some 0 end
  | String "0" r => read_number 8 s
  | _ => read_number 10 s
  end.
Definition fits (z : Z) : option Z := if z <? 2 ^ 64 then Some z else None.
Fixpoint stoul0 (s : string) : option Z :=
  match s with
  | String c r =>
      if is_space c then stoul0 r
      else if ascii_dec c "-" then (z ← any_number r; z ← fits z; Some (wrapu 64 (- z)))
      else if ascii_dec c "+" then any_number r ≫= fits
      else any_number s ≫= fits
  | EmptyString => None
  end.

(** [src/src/sec_cli.cpp:275-275] level *)
Definition level_arg (s : string) : option Z := wrapu 8 <$> stoul0 s.

(** Pairs of characters, the last alone when the length is odd. *)
(** [src/src/sec_cli.cpp:299-304] hex_key *)
Definition key_arg (hex_key : string) : option bytes := hex_to_bytes hex_key.

(** [src/src/sec_cli.cpp:279-284] seed print *)
Definition seed_text (seed : bytes) : string := toHex seed.

(* --------------------------------------------------------------------- *)
(** ** The console                                                        *)
(* --------------------------------------------------------------------- *)

(** The socket, and the files: opened for reading with what is in them, opened for writing, written.
    The result of a write is not looked at. *)
Class CliWorld (W : Type) := {
  cw_connect : string -> st W bool;
  cw_disconnect : W -> W;
  cw_read : string -> W -> option bytes;
  cw_open : string -> st W bool;
  cw_write : string -> bytes -> W -> W
}.

(** The world and what was written to the two streams. *)
Record Console (W : Type) := mkConsole { cn_world : W; cn_out : string; cn_err : string }.
Arguments mkConsole {W}. Arguments cn_world {W}. Arguments cn_out {W}. Arguments cn_err {W}.

(** [Terminated] by an exception that nothing catches. *)
Inductive Exit := ExitCode (n : Z) | Terminated.

(** [src/src/error_codes.cpp:7-73] error_code_to_string *)
Definition code_text (rc : Z) : string :=
  match list_find (fun c => error_code_value c = rc) all_error_codes with
  | Some (_, c) => error_code_to_string c
  | None => "UNKNOWN"
  end.

(** [src/src/sec_cli.cpp:89-110] print_usage *)
Definition usage : list string :=
  ["SEC CLI Tool (IPC Client)";
   "Usage: sec_cli [-s <socket_path>] <command> [args...]";
   "";
   "Options:";
   "  -s, --socket <socket_path>  - Specify IPC socket path (default: /tmp/tbox-sec.sock)";
   "";
   "Commands:";
   "  init                         - Initialize SEC service";
   "  generate_key                 - Generate device key pair";
   "  export_private_key [file]    - Export decrypted private key (PEM format)";
   "  get_csr                      - Get CSR (PEM format)";
   "  save_csr <file>              - Save CSR to file";
   "  submit_csr                   - Submit CSR to cloud";
   "  inject_cert <file>           - Inject certificate from file";
   "  apply_cert                   - Apply certificate (full flow)";
   "  get_seed <level>             - Get security seed";
   "  verify_key <level> <hex_key> - Verify key";
   "  get_status                   - Get provision status";
   "  get_device_info              - Get device information";
   "  reset_status                 - Reset provision status"].

Section Cli.
Context {W : Type} `{Files : CliWorld W} `{Conn : !IpcConnection W} `{J : Json} `{B : Base64} `{Ec : EcPrivate}.
Implicit Types c : Console W.

Definition say (text : string) c : Console W := mkConsole (cn_world c) (cn_out c ++ text)%string (cn_err c).
Definition say_line (text : string) c : Console W := say (text ++ newline_text)%string c.
Definition complain (text : string) c : Console W :=
  mkConsole (cn_world c) (cn_out c) (cn_err c ++ text ++ newline_text)%string.
Definition on_world {A} (m : st W A) : st (Console W) A := fun c =>
  let '(a, w) := m (cn_world c) in (a, mkConsole w (cn_out c) (cn_err c)).
Definition print_usage c : Console W := foldl (fun c l => say_line l c) c usage.

(** [return 1] after a message. *)
Definition fail (text : string) : st (Console W) Exit := fun c => (ExitCode 1, complain text c).
(** The end of [main]. *)
Definition finished : st (Console W) Exit := fun c =>
  (ExitCode 0, mkConsole (cw_disconnect (cn_world c)) (cn_out c) (cn_err c)).

(** A call that only returns a status. *)
(** [src/src/sec_cli.cpp:141-150] main, init *)
Definition report (call : st W Z) (done failed : string) : st (Console W) Exit := fun c =>
  let '(rc, c) := on_world call c in
  if rc =? 0 then finished (say_line done c) else fail (failed ++ ": " ++ code_text rc)%string c.

(** Store a text in a file. *)
(** [src/src/sec_cli.cpp:173-181] main, ofstream *)
Definition store (path : string) (content : bytes) (done : string) : st (Console W) Exit := fun c =>
  let '(ok, c) := on_world (cw_open path) c in
  if ok then finished (say_line done (mkConsole (cw_write path content (cn_world c)) (cn_out c) (cn_err c)))
  else fail ("Failed to open file: " ++ path)%string c.

(** [src/src/sec_cli.cpp:161-189] main, export_private_key *)
Definition cmd_export_private_key (file : option string) : st (Console W) Exit := fun c =>
  let '((rc, priv_key), c) := on_world (client_export_private_key []) c in
  if negb (rc =? 0) then fail ("Failed to export private key: " ++ code_text rc)%string c else
  let pem := ec_priv_raw_to_pem priv_key in
  if str_empty pem then fail "Failed to convert private key to PEM" c else
  match file with
  | Some path => store path (bytes_of_string pem) ("Private key saved to " ++ path)%string c
  | None => finished (say pem c)
  end.

(** [src/src/sec_cli.cpp:190-200] main, get_csr *)
Definition cmd_get_csr : st (Console W) Exit := fun c =>
  let '((rc, csr_der), c) := on_world (client_get_csr []) c in
  if negb (rc =? 0) then fail ("Failed to get CSR: " ++ code_text rc)%string c else
  finished (say (der_to_pem csr_der "CERTIFICATE REQUEST") c).

(** [src/src/sec_cli.cpp:201-224] main, save_csr *)
Definition cmd_save_csr (file : option string) : st (Console W) Exit := fun c =>
  match file with
  | None => fail "Usage: sec_cli save_csr <file>" c
  | Some path =>
      let '((rc, csr_der), c) := on_world (client_get_csr []) c in
      if negb (rc =? 0) then fail ("Failed to get CSR: " ++ code_text rc)%string c else
      store path csr_der ("CSR saved to " ++ path)%string c
  end.

(** [src/src/sec_cli.cpp:235-259] main, inject_cert *)
Definition cmd_inject_cert (file : option string) : st (Console W) Exit := fun c =>
  match file with
  | None => fail "Usage: sec_cli inject_cert <file>" c
  | Some path =>
      match cw_read path (cn_world c) with
      | None => fail ("Failed to open file: " ++ path)%string c
      | Some cert_der => report (client_inject_certificate cert_der)
          "Certificate injected successfully" "Failed to inject certificate" c
      end
  end.

(** [src/src/sec_cli.cpp:270-290] main, get_seed *)
Definition cmd_get_seed (level : option string) : st (Console W) Exit := fun c =>
  match level with
  | None => fail "Usage: sec_cli get_seed <level>" c
  | Some arg =>
      match level_arg arg with
      | None => (Terminated, c)
      | Some level =>
          let '((rc, seed), c) := on_world (client_get_seed level []) c in
          if negb (rc =? 0) then fail ("Failed to get seed: " ++ code_text rc)%string c else
          finished (say_line ("Seed: " ++ seed_text seed)%string c)
      end
  end.

(** [src/src/sec_cli.cpp:291-314] main, verify_key *)
Definition cmd_verify_key (level key : option string) : st (Console W) Exit := fun c =>
  match level, key with
  | Some arg, Some hex_key =>
      match level_arg arg, key_arg hex_key with
      | Some level, Some key => report (client_verify_key level key)
          "Key verification successful" "Key verification failed" c
      | _, _ => (Terminated, c)
      end
  | _, _ => fail "Usage: sec_cli verify_key <level> <hex_key>" c
  end.

Definition or_text (s text : string) : string := if str_empty s then text else s.

(** [src/src/sec_cli.cpp:315-322] main, get_status *)
Definition cmd_get_status : st (Console W) Exit := fun c =>
  let '(s, c) := on_world client_get_provision_status c in
  finished (foldl (fun c l => say_line l c) c
    [("Provision State: " ++ sps_state s)%string;
     ("VIN: " ++ or_text (sps_vin s) "(not available)")%string;
     ("Device SN: " ++ or_text (sps_ecu_uid s) "(not available)")%string;
     ("Retry Count: " ++ pretty (sps_retry_count s))%string;
     ("Last Error: " ++ or_text (sps_last_error s) "(none)")%string]).

(** [src/src/sec_cli.cpp:323-326] main, get_device_info *)
Definition cmd_get_device_info : st (Console W) Exit := fun c =>
  let '(device_info, c) := on_world client_get_device_info c in finished (say device_info c).

(** [args] are the arguments after the command. *)
(** [src/src/sec_cli.cpp:141-344] main, commands *)
Definition run_command (command : string) (args : list string) : st (Console W) Exit := fun c =>
  if String.eqb command "init" then
    report client_initialize "SEC service initialized successfully" "Failed to initialize SEC service" c
  else if String.eqb command "generate_key" then
    report client_generate_key_pair "Key pair generated successfully" "Failed to generate key pair" c
  else if String.eqb command "export_private_key" then cmd_export_private_key (args !! 0%nat) c
  else if String.eqb command "get_csr" then cmd_get_csr c
  else if String.eqb command "save_csr" then cmd_save_csr (args !! 0%nat) c
  else if String.eqb command "submit_csr" then
    report client_submit_csr "CSR submitted successfully" "Failed to submit CSR" c
  else if String.eqb command "inject_cert" then cmd_inject_cert (args !! 0%nat) c
  else if String.eqb command "apply_cert" then
    report client_apply_certificate "Certificate application completed" "Failed to apply certificate" c
  else if String.eqb command "get_seed" then cmd_get_seed (args !! 0%nat) c
  else if String.eqb command "verify_key" then cmd_verify_key (args !! 0%nat) (args !! 1%nat) c
  else if String.eqb command "get_status" then cmd_get_status c
  else if String.eqb command "get_device_info" then cmd_get_device_info c
  else if String.eqb command "reset_status" then
    report client_reset_provision_status "Provision status reset successfully" "Failed to reset provision status" c
  else (ExitCode 1, print_usage (complain ("Unknown command: " ++ command)%string c)).

(** Without its first element, the name of the program. *)
(** [src/src/sec_cli.cpp:112-140] main *)
Definition cli_main (args : list string) : st (Console W) Exit := fun c =>
  match args with
  | [] => (ExitCode 1, print_usage c)
  | first :: rest =>
      let run socket_path command args :=
        let '(ok, c) := on_world (cw_connect socket_path) c in
        if negb ok then (ExitCode 1, complain "Please ensure TboxSecService is running"
          (complain ("Failed to connect to SEC service at " ++ socket_path)%string c))
        else run_command command args (say_line "Connected to SEC service" c) in
      if String.eqb first "-s" || String.eqb first "--socket" then
        match rest with
        | socket_path :: command :: args => run socket_path command args
        | _ => fail "Usage: sec_cli -s <socket_path> <command> [args...]" c
        end
      else run "/tmp/tbox-sec.sock"%string first rest
  end.
End Cli.
