(* ===== verification/CliProps.v ===== *)
(** * CliProps: what the exit status of the tool means, and that its texts read back. *)
From S2P Require Import Prelude Errors Canonical Json KeyTypes X509 RetryPolicy TimeTypes Tls SoftHsm SoftHsmProps IpcCodec SecClient Cli.
From Stdlib Require Import Ascii.
#[local] Open Scope Z_scope.

(* --------------------------------------------------------------------- *)
(** ** Base64, read back                                                  *)
(* --------------------------------------------------------------------- *)

(** A reader of base64 texts, group by group. *)
Definition base64_value (c : ascii) : option Z :=
  let n := Z.of_N (N_of_ascii c) in
  if (65 <=? n) && (n <=? 90) then Some (n - 65)
  else if (97 <=? n) && (n <=? 122) then Some (n - 71)
  else if (48 <=? n) && (n <=? 57) then Some (n + 4)
  else if n =? 43 then Some 62
  else if n =? 47 then Some 63
  else None.

Definition read_quad (q0 q1 q2 q3 : Z) : bytes :=
  [byte_of (q0 * 4 + q1 / 16); byte_of (q1 mod 16 * 16 + q2 / 4); byte_of (q2 mod 4 * 64 + q3)].

Fixpoint base64_read (s : string) : option bytes :=
  match s with
  | EmptyString => Some []
  | String a (String b (String c (String d rest))) =>
      q0 ← base64_value a; q1 ← base64_value b;
      if ascii_dec c "=" then
        if ascii_dec d "=" then if rest then Some (take 1 (read_quad q0 q1 0 0)) else None else None
      else q2 ← base64_value c;
        if ascii_dec d "=" then if rest then Some (take 2 (read_quad q0 q1 q2 0)) else None
        else q3 ← base64_value d; l ← base64_read rest; Some (read_quad q0 q1 q2 q3 ++ l)
  | _ => None
  end.

Definition six_bits (n : Z) : Prop := 0 <= n < 64.

Lemma base64_char_spec n : six_bits n ->
  base64_value (base64_char n) = Some n /\ base64_char n <> "="%char /\ base64_char n <> newline.
Proof.
  intros Hn. assert (Hf : forallb (fun k => let c := base64_char (Z.of_nat k) in
    bool_decide (base64_value c = Some (Z.of_nat k) /\ c <> "="%char /\ c <> newline)) (seq 0 64) = true)
    by (vm_compute; reflexivity).
  rewrite forallb_forall in Hf. unfold six_bits in Hn.
  specialize (Hf (Z.to_nat n) ltac:(apply in_seq; lia)). apply bool_decide_eq_true in Hf.
  by rewrite Z2Nat.id in Hf by lia.
Qed.

(** The masks and shifts of the code, as quotients and remainders. *)
Lemma byte_masks b :
  Z.shiftr (Z.land (bval b) 252) 2 = bval b / 4 /\ Z.shiftl (Z.land (bval b) 3) 4 = bval b mod 4 * 16 /\
  Z.shiftr (Z.land (bval b) 240) 4 = bval b / 16 /\ Z.shiftl (Z.land (bval b) 15) 2 = bval b mod 16 * 4 /\
  Z.shiftr (Z.land (bval b) 192) 6 = bval b / 64 /\ Z.land (bval b) 63 = bval b mod 64.
Proof. destruct b; by vm_compute. Qed.

Lemma quad_values b0 b1 b2 : quad (bval b0) (bval b1) (bval b2) =
  [bval b0 / 4; bval b0 mod 4 * 16 + bval b1 / 16; bval b1 mod 16 * 4 + bval b2 / 64; bval b2 mod 64].
Proof.
  destruct (byte_masks b0) as (E1 & E2 & _), (byte_masks b1) as (_ & _ & E3 & E4 & _),
    (byte_masks b2) as (_ & _ & _ & _ & E5 & E6).
  unfold quad. by rewrite E1, E2, E3, E4, E5, E6.
Qed.

Lemma quad_six_bits b0 b1 b2 : Forall six_bits (quad (bval b0) (bval b1) (bval b2)).
Proof.
  rewrite quad_values. pose proof (bval_range b0). pose proof (bval_range b1). pose proof (bval_range b2).
  unfold six_bits. repeat constructor; Z.to_euclidean_division_equations; lia.
Qed.

Lemma read_quad_values b0 b1 b2 :
  read_quad (bval b0 / 4) (bval b0 mod 4 * 16 + bval b1 / 16) (bval b1 mod 16 * 4 + bval b2 / 64) (bval b2 mod 64) = [b0; b1; b2].
Proof.
  pose proof (bval_range b0). pose proof (bval_range b1). pose proof (bval_range b2). unfold read_quad.
  assert (E0 : bval b0 / 4 * 4 + (bval b0 mod 4 * 16 + bval b1 / 16) / 16 = bval b0) by (Z.to_euclidean_division_equations; lia).
  assert (E1 : (bval b0 mod 4 * 16 + bval b1 / 16) mod 16 * 16 + (bval b1 mod 16 * 4 + bval b2 / 64) / 4 = bval b1)
    by (Z.to_euclidean_division_equations; lia).
  assert (E2 : (bval b1 mod 16 * 4 + bval b2 / 64) mod 4 * 64 + bval b2 mod 64 = bval b2)
    by (Z.to_euclidean_division_equations; lia).
  by rewrite E0, E1, E2, !byte_of_bval.
Qed.

Lemma read_full_quad q0 q1 q2 q3 rest : six_bits q0 -> six_bits q1 -> six_bits q2 -> six_bits q3 ->
  base64_read (base64_text [q0; q1; q2; q3] ++ rest) = (l ← base64_read rest; Some (read_quad q0 q1 q2 q3 ++ l)).
Proof.
  intros H0 H1 H2 H3. destruct (base64_char_spec q0 H0) as (V0 & _), (base64_char_spec q1 H1) as (V1 & _),
    (base64_char_spec q2 H2) as (V2 & N2 & _), (base64_char_spec q3 H3) as (V3 & N3 & _).
  change (base64_text [q0; q1; q2; q3] ++ rest)%string with (String (base64_char q0) (String (base64_char q1)
    (String (base64_char q2) (String (base64_char q3) rest)))).
  cbn [base64_read].
  rewrite V0, V1. cbn [mbind option_bind].
  destruct (ascii_dec (base64_char q2) "="); [done|]. rewrite V2. cbn [mbind option_bind].
  destruct (ascii_dec (base64_char q3) "="); [done|]. by rewrite V3.
Qed.

Lemma pem_loop_acc der c3 pem : pem_loop der c3 pem = (pem ++ (pem_loop der c3 "").1, (pem_loop der c3 "").2)%string.
Proof.
  revert c3 pem. induction der as [|b der IH]; intros c3 pem; cbn; [by rewrite str_app_nil|].
  destruct c3 as [|b0 [|b1 [|b2 c3]]]; try (apply IH).
  rewrite (IH [] (pem ++ _)%string), (IH [] ("" ++ _)%string). by rewrite str_app_assoc.
Qed.

Lemma pem_body_quad b0 b1 b2 der :
  pem_body (b0 :: b1 :: b2 :: der) = (base64_text (quad (bval b0) (bval b1) (bval b2)) ++ pem_body der)%string.
Proof.
  unfold pem_body. cbn [pem_loop app]. rewrite pem_loop_acc.
  destruct (pem_loop der [] "") as [text c3]. cbn. by rewrite str_app_assoc.
Qed.

(** Three bytes at a time. *)
Lemma by_threes (P : bytes -> Prop) : P [] -> (forall b, P [b]) -> (forall b c, P [b; c]) ->
  (forall b c d l, P l -> P (b :: c :: d :: l)) -> forall l, P l.
Proof.
  intros P0 P1 P2 P3. assert (H : forall n l, (length l <= n)%nat -> P l); [|intros l; by apply (H (length l))].
  induction n as [|n IH]; intros [|b [|c [|d l]]] Hl; try done; cbn in Hl; [lia..|]. apply P3, IH. lia.
Qed.

(** Two bytes at the end are read like three whose last is zero. *)
Lemma pem_body_two b c : pem_body [b; c] = (base64_text (take 3 (quad (bval b) (bval c) (bval x00))) ++ "=")%string.
Proof. reflexivity. Qed.

Lemma read_padded_quad q0 q1 q2 q3 : six_bits q0 -> six_bits q1 -> six_bits q2 ->
  base64_read (base64_text (take 3 [q0; q1; q2; q3]) ++ "=") = Some (take 2 (read_quad q0 q1 q2 0)).
Proof.
  intros H0 H1 H2. destruct (base64_char_spec q0 H0) as (V0 & _), (base64_char_spec q1 H1) as (V1 & _),
    (base64_char_spec q2 H2) as (V2 & N2 & _).
  change (base64_text (take 3 [q0; q1; q2; q3]) ++ "=")%string with (String (base64_char q0) (String (base64_char q1)
    (String (base64_char q2) "="))).
  cbn [base64_read]. rewrite V0, V1. cbn [mbind option_bind].
  destruct (ascii_dec (base64_char q2) "="); [done|]. by rewrite V2.
Qed.

Lemma base64_read_body der : base64_read (pem_body der) = Some der.
Proof.
  induction der as [|b|b c|b c d der IH] using by_threes.
  - done.
  - destruct b; vm_compute; reflexivity.
  - rewrite pem_body_two. pose proof (quad_six_bits b c x00) as Hq. pose proof (read_quad_values b c x00) as Hr.
    rewrite quad_values in *. rewrite !Forall_cons in Hq. destruct Hq as (Q0 & Q1 & Q2 & _).
    rewrite read_padded_quad by done. change (bval x00 mod 64) with 0 in Hr. by rewrite Hr.
  - rewrite pem_body_quad. pose proof (quad_six_bits b c d) as Hq. rewrite quad_values in *.
    rewrite !Forall_cons in Hq. destruct Hq as (Q0 & Q1 & Q2 & Q3 & _).
    rewrite read_full_quad by done. rewrite IH. cbn [mbind option_bind]. by rewrite read_quad_values.
Qed.

(** The body is one line. *)
Definition one_line (s : string) : bool := str_all (fun c => negb (Ascii.eqb c newline)) s.

Lemma base64_text_line l : Forall six_bits l -> one_line (base64_text l) = true.
Proof.
  induction 1 as [|n l Hn _ IHl]; [done|].
  change (negb (Ascii.eqb (base64_char n) newline) && one_line (base64_text l) = true). rewrite IHl.
  destruct (base64_char_spec n Hn) as (_ & _ & Hc). by destruct (Ascii.eqb_spec (base64_char n) newline).
Qed.

Lemma pem_body_line der : one_line (pem_body der) = true.
Proof.
  induction der as [|b|b c|b c d der IH] using by_threes.
  - done.
  - destruct b; vm_compute; reflexivity.
  - rewrite pem_body_two. unfold one_line. rewrite str_all_app. fold one_line. apply andb_true_iff. split; [|done].
    apply base64_text_line, Forall_take, quad_six_bits.
  - rewrite pem_body_quad. unfold one_line. rewrite str_all_app. apply andb_true_iff. split; [|exact IH].
    apply base64_text_line, quad_six_bits.
Qed.

(** What the tool prints reads back. A PEM text is its header line, one line of base64 that decodes
    to the bytes of the DER, none lost at the padding, and its footer line; and the hexadecimal
    printed for a seed, given as the key of verify_key, is read as the same bytes. *)
Theorem printed_texts_read_back der type seed :
  (exists body, der_to_pem der type =
     ("-----BEGIN " ++ type ++ "-----" ++ newline_text ++ body ++
      newline_text ++ "-----END " ++ type ++ "-----" ++ newline_text)%string /\
     one_line body = true /\ base64_read body = Some der) /\
  key_arg (seed_text seed) = Some seed.
Proof.
  split; [|apply hex_to_bytes_to_hex]. exists (pem_body der).
  split; [reflexivity|]. split; [apply pem_body_line|apply base64_read_body].
Qed.

(* --------------------------------------------------------------------- *)
(** ** The exit status                                                    *)
(* --------------------------------------------------------------------- *)

(** The method a command asks of the daemon. *)
Definition cli_methods : list (string * MethodId) :=
  [("init"%string, INITIALIZE); ("generate_key"%string, GENERATE_KEY_PAIR);
   ("export_private_key"%string, EXPORT_PRIVATE_KEY); ("get_csr"%string, GET_CSR); ("save_csr"%string, GET_CSR);
   ("submit_csr"%string, SUBMIT_CSR); ("inject_cert"%string, INJECT_CERTIFICATE);
   ("apply_cert"%string, APPLY_CERTIFICATE); ("get_seed"%string, GET_SEED); ("verify_key"%string, VERIFY_KEY);
   ("reset_status"%string, RESET_STATUS)].
(** The commands whose exit status does not depend on an answer. *)
Definition cli_queries : list string := ["get_status"%string; "get_device_info"%string].

Section Exit.
Context {W : Type} `{Files : CliWorld W} `{Conn : !IpcConnection W} `{J : Json} `{B : Base64} `{Ec : EcPrivate}.
Implicit Types c : Console W.

(** The answer to a request: the framework's status and the text, from the call
    the method is sent with. *)
Definition answer_of (m : MethodId) (params : string) (w : W) : Z * string :=
  (if should_retry (method_value m) then ic_call (method_value m) params w
   else ic_callOnce (method_value m) params w).1.

(** An answer in which no failure can be read: its status is 0 (or missing, or 0
    as an [int]), or it is not JSON, or its status is no number. *)
Definition no_failure_read (text : string) : Prop :=
  json_parse text = None \/
  exists j, json_parse text = Some j /\ (value_i32 j "status" 0 = None \/ value_i32 j "status" 0 = Some 0).

(** In the world [w] the transport carries the method to the daemon and back, and
    no failure can be read in the answer. *)
Definition not_refused (m : MethodId) (w : W) : Prop :=
  exists params text, answer_of m params w = (0, text) /\ no_failure_read text.

Lemma sent_not_refused m params w w' response :
  send_request m params w = (Some (0, response), w') -> not_refused m w.
Proof.
  intros Hs. exists params, response. unfold answer_of, no_failure_read. revert Hs. unfold send_request.
  destruct (if should_retry _ then _ else _) as [[fw text] w1]. cbn [fst].
  destruct (Z.eqb_spec fw 0) as [->|]; cbn [negb]; [|done]. intros [= Hst <- _]. split; [done|].
  destruct (json_parse text) as [j|]; [right|by left]. exists j. split; [done|]. cbn in Hst.
  destruct (value_i32 j "status" 0) as [z|]; [right|by left]. cbn in Hst. by subst.
Qed.

Lemma command_ok m params w : (command m params w).1 = 0 -> not_refused m w.
Proof.
  unfold command. destruct (send_request m params w) as [[[status response]|] w'] eqn:Es; [|done].
  cbn. intros ->. by eapply sent_not_refused.
Qed.

Lemma fetch_ok m params field out w : (fetch m params field out w).1.1 = 0 -> not_refused m w.
Proof.
  unfold fetch. destruct (send_request m params w) as [[[status response]|] w'] eqn:Es; [|done].
  destruct (status =? 0) eqn:E0; [|cbn; intros ->; done]. apply Z.eqb_eq in E0 as ->.
  intros _. by eapply sent_not_refused.
Qed.

(** The ways [run_command] ends, seen from the status. *)
Definition ends (c : Console W) (m : MethodId) (r : Exit * Console W) : Prop :=
  match r.1 with ExitCode n => n = 1 \/ (n = 0 /\ not_refused m (cn_world c)) | Terminated => False end.

Lemma on_world_fst {A} (m : st W A) c : (on_world m c).1 = (m (cn_world c)).1.
Proof. unfold on_world. by destruct (m (cn_world c)). Qed.

Lemma report_ends call d f c m : ((call (cn_world c)).1 = 0 -> not_refused m (cn_world c)) -> ends c m (report call d f c).
Proof.
  intros H. unfold report. pose proof (on_world_fst call c) as He. destruct (on_world call c) as [rc c1]. cbn in He.
  destruct (rc =? 0) eqn:E0; [|by left]. apply Z.eqb_eq in E0. right. split; [done|]. apply H. by rewrite <- He.
Qed.

Lemma store_ends path content d c c0 m : not_refused m (cn_world c0) -> ends c0 m (store path content d c).
Proof. intros Ha. unfold store. destruct (on_world (cw_open path) c) as [[] c1]; [by right|by left]. Qed.

(** After a fetch, which must succeed. *)
Lemma fetched_ends {A} (call : st W (Z * A)) c m (failed : string) (k : A -> st (Console W) Exit) :
  ((call (cn_world c)).1.1 = 0 -> not_refused m (cn_world c)) ->
  (not_refused m (cn_world c) -> forall a x, ends c m (k a x)) ->
  ends c m (let '((rc, a), c) := on_world call c in
    if negb (rc =? 0) then fail (failed ++ ": " ++ code_text rc)%string c else k a c).
Proof.
  intros H Hk. pose proof (on_world_fst call c) as He. destruct (on_world call c) as [[rc a] c1]. cbn in He.
  destruct (rc =? 0) eqn:E0; cbn [negb]; [|by left]. apply Z.eqb_eq in E0. apply Hk, H. by rewrite <- He.
Qed.

Lemma finished_ends c m x : not_refused m (cn_world c) -> ends c m (finished x).
Proof. by right. Qed.

Lemma export_ends file c : ends c EXPORT_PRIVATE_KEY (cmd_export_private_key file c).
Proof.
  apply (fetched_ends _ _ _ "Failed to export private key"); [apply fetch_ok|]. intros Ha priv_key x.
  destruct (str_empty _); [by left|]. destruct file; [by apply store_ends|by apply finished_ends].
Qed.

Lemma get_csr_ends c : ends c GET_CSR (cmd_get_csr c).
Proof. apply (fetched_ends _ _ _ "Failed to get CSR"); [apply fetch_ok|]. intros Ha csr x. by apply finished_ends. Qed.

Lemma save_csr_ends file c : ends c GET_CSR (cmd_save_csr file c).
Proof.
  destruct file as [path|]; [|by left]. apply (fetched_ends _ _ _ "Failed to get CSR"); [apply fetch_ok|].
  intros Ha csr x. by apply store_ends.
Qed.

Lemma inject_ends file c : ends c INJECT_CERTIFICATE (cmd_inject_cert file c).
Proof.
  destruct file as [path|]; [|by left]. unfold cmd_inject_cert. destruct (cw_read path _) as [der|]; [|by left].
  apply report_ends, command_ok.
Qed.

(** A number that cannot be read. *)
Definition unreadable_number (command : string) (args : list string) : Prop :=
  (command = "get_seed" \/ command = "verify_key")%string /\
  exists a, args !! 0%nat = Some a /\
    (level_arg a = None \/ exists k, args !! 1%nat = Some k /\ key_arg k = None).

Lemma get_seed_ends args c :
  unreadable_number "get_seed" args /\ cmd_get_seed (args !! 0%nat) c = (Terminated, c) \/ ends c GET_SEED (cmd_get_seed (args !! 0%nat) c).
Proof.
  destruct (args !! 0%nat) as [arg|] eqn:Ea; [|right; by left]. unfold cmd_get_seed.
  destruct (level_arg arg) as [level|] eqn:El; [|left; split; [split; [by left|exists arg; by auto]|done]]. right.
  apply (fetched_ends _ _ _ "Failed to get seed"); [apply fetch_ok|]. intros Ha seed x. by apply finished_ends.
Qed.

Lemma verify_key_ends args c :
  unreadable_number "verify_key" args /\ cmd_verify_key (args !! 0%nat) (args !! 1%nat) c = (Terminated, c) \/ ends c VERIFY_KEY (cmd_verify_key (args !! 0%nat) (args !! 1%nat) c).
Proof.
  destruct (args !! 0%nat) as [arg|] eqn:Ea; [|right; by left].
  destruct (args !! 1%nat) as [key|] eqn:Ek; [|right; by left]. unfold cmd_verify_key.
  destruct (level_arg arg) as [level|] eqn:El; [|left; split; [split; [by right|exists arg; by auto]|done]].
  destruct (key_arg key) as [k|] eqn:Ekey; [|left; split; [split; [by right|exists arg; eauto]|done]].
  right. apply report_ends, command_ok.
Qed.

(** How a command may end: with 1, with 0 after an answer without a failure, or by an exception for a number. *)
Definition ends_well (command : string) (args : list string) (w : W) (r : Exit * Console W) : Prop :=
  match r.1 with
  | ExitCode n => n = 1 \/ (n = 0 /\ (command ∈ cli_queries \/
      exists m, (command, m) ∈ cli_methods /\ not_refused m w))
  | Terminated => unreadable_number command args
  end.

Lemma known_ends command args c m r : (command, m) ∈ cli_methods -> ends c m r -> ends_well command args (cn_world c) r.
Proof.
  intros Hm. unfold ends, ends_well. destruct r.1 as [n|]; [|done].
  intros [->|[-> Ha]]; [by left|]. right. split; [done|]. right. by exists m.
Qed.

Lemma query_ends command args w x : command ∈ cli_queries -> ends_well command args w (finished x).
Proof. intros Hq. right. split; [done|by left]. Qed.

(** What was shown of number arguments. *)
Lemma number_ends command args c m r : (command, m) ∈ cli_methods ->
  unreadable_number command args /\ r = (Terminated, c) \/ ends c m r -> ends_well command args (cn_world c) r.
Proof. intros Hm [[Hu ->]|He]; [exact Hu|by eapply known_ends]. Qed.

Ltac in_list := repeat first [apply list_elem_of_here | apply list_elem_of_further].

Lemma run_command_ends command args c : ends_well command args (cn_world c) (run_command command args c).
Proof.
  unfold run_command.
  destruct (String.eqb_spec command "init") as [->|_]; [eapply known_ends; [in_list|apply report_ends, command_ok]|].
  destruct (String.eqb_spec command "generate_key") as [->|_]; [eapply known_ends; [in_list|apply report_ends, command_ok]|].
  destruct (String.eqb_spec command "export_private_key") as [->|_]; [eapply known_ends; [in_list|apply export_ends]|].
  destruct (String.eqb_spec command "get_csr") as [->|_]; [eapply known_ends; [in_list|apply get_csr_ends]|].
  destruct (String.eqb_spec command "save_csr") as [->|_]; [eapply known_ends; [in_list|apply save_csr_ends]|].
  destruct (String.eqb_spec command "submit_csr") as [->|_]; [eapply known_ends; [in_list|apply report_ends, command_ok]|].
  destruct (String.eqb_spec command "inject_cert") as [->|_]; [eapply known_ends; [in_list|apply inject_ends]|].
  destruct (String.eqb_spec command "apply_cert") as [->|_]; [eapply known_ends; [in_list|apply report_ends, command_ok]|].
  destruct (String.eqb_spec command "get_seed") as [->|_]; [eapply number_ends; [in_list|apply get_seed_ends]|].
  destruct (String.eqb_spec command "verify_key") as [->|_]; [eapply number_ends; [in_list|apply verify_key_ends]|].
  destruct (String.eqb_spec command "get_status") as [->|_].
  { unfold cmd_get_status. destruct (on_world _ c). apply query_ends. in_list. }
  destruct (String.eqb_spec command "get_device_info") as [->|_].
  { unfold cmd_get_device_info. destruct (on_world _ c). apply query_ends. in_list. }
  destruct (String.eqb_spec command "reset_status") as [->|_]; [eapply known_ends; [in_list|apply report_ends, command_ok]|].
  by left.
Qed.

(** The socket, the command and its arguments. *)
Definition invocation (args : list string) : option (string * string * list string) :=
  match args with
  | [] => None
  | first :: rest =>
      if String.eqb first "-s" || String.eqb first "--socket" then
        match rest with socket :: command :: args => Some (socket, command, args) | _ => None end
      else Some ("/tmp/tbox-sec.sock"%string, first, rest)
  end.

Lemma main_is_run args c : (cli_main args c).1 = ExitCode 1 \/
  exists socket command rest w1, invocation args = Some (socket, command, rest) /\
    cw_connect socket (cn_world c) = (true, w1) /\
    cli_main args c = run_command command rest
      (say_line "Connected to SEC service" (mkConsole w1 (cn_out c) (cn_err c))).
Proof.
  unfold cli_main, on_world. destruct args as [|first rest]; [by left|]. cbn [invocation].
  destruct (_ || _).
  - destruct rest as [|socket [|command rest]]; [by left..|].
    destruct (cw_connect socket (cn_world c)) as [[] w1] eqn:Hconn; [|by left]. right.
    by exists socket, command, rest, w1.
  - destruct (cw_connect _ (cn_world c)) as [[] w1] eqn:Hconn; [|by left]. right. by eexists _, first, rest, w1.
Qed.

(** C40. What the shell learns. The tool exits with 0, with 1, or by an exception.
    Exit status 0 of every command that changes something or fetches a secret means that the connection
    was made, the request went through and came back, and no failure can be read in the answer: its
    status is 0 or missing, or the answer is not JSON, or its status is no number. A daemon that could
    be read refusing never gives 0, and neither does a daemon that is not reached; an unreadable answer
    does ([unreadable_answer_exits_zero]). Only get_status and get_device_info exit with 0 whatever
    came back. An exception ends the tool only for a level or key that is no number. *)
Theorem exit_zero_means_not_refused args c :
  match (cli_main args c).1 with
  | ExitCode n => n = 1 \/ n = 0 /\
      exists socket command rest w1, invocation args = Some (socket, command, rest) /\
        cw_connect socket (cn_world c) = (true, w1) /\
        (command ∈ cli_queries \/ exists m, (command, m) ∈ cli_methods /\ not_refused m w1)
  | Terminated => exists socket command rest, invocation args = Some (socket, command, rest) /\
      unreadable_number command rest
  end.
Proof.
  destruct (main_is_run args c) as [->|(socket & command & rest & w1 & Hi & Hc & ->)]; [by left|].
  pose proof (run_command_ends command rest (say_line "Connected to SEC service" (mkConsole w1 (cn_out c) (cn_err c)))) as He.
  unfold ends_well in He. cbn [say_line say cn_world] in He. destruct (run_command _ _ _).1 as [n|].
  - destruct He as [->|[-> He]]; [by left|]. right. split; [done|]. by exists socket, command, rest, w1.
  - by exists socket, command, rest.
Qed.

(** The other side of the first: a request whose answer cannot be read exits with 0. *)
Lemma unreadable_answer_exits_zero text c :
  answer_of SUBMIT_CSR no_params (cn_world c) = (0, text) -> json_parse text = None ->
  (run_command "submit_csr" [] c).1 = ExitCode 0.
Proof.
  intros Ha Ht. change (run_command "submit_csr" [] c) with
    (report client_submit_csr "CSR submitted successfully" "Failed to submit CSR" c).
  unfold report, on_world, client_submit_csr, command, send_request. revert Ha. unfold answer_of.
  destruct (if should_retry _ then _ else _) as [[fw u] w]. cbn [fst]. intros [= -> ->]. cbn. by rewrite Ht.
Qed.

(** A status that never came is printed as an empty one, with exit status 0. *)
Lemma status_without_daemon c w : send_request GET_STATUS no_params (cn_world c) = (None, w) ->
  (cmd_get_status c).1 = ExitCode 0.
Proof. intros Hs. unfold cmd_get_status, on_world, client_get_provision_status. by rewrite Hs. Qed.
End Exit.

(** Only the last eight bits of a level count. *)
Lemma level_wraps : level_arg "257" = Some 1 /\ level_arg "-255" = Some 1 /\ level_arg "0x11" = Some 17.
Proof. by vm_compute. Qed.

(** The usual prefix of a hexadecimal number becomes a byte of the key, and a lone digit is one too. *)
Lemma prefixed_key_gains_a_byte : key_arg "0x11ff" = Some [x00; x11; xff] /\ key_arg "123" = Some [x12; x03].
Proof. by vm_compute. Qed.
