(* ===== verification/Application.v ===== *)
(** * Application: the composition root of the daemon.
    Models [src/sec_application.cpp] / [include/sec_application.h]: what the daemon reads
    of its configuration, the order in which it builds its parts, the roll-back of a start
    that fails, the requests it serves, and the order in which it takes its parts down.
    Ownership is explicit, so that a use of a part that is gone can be stated. *)
From S2P Require Import Prelude Errors Canonical KeyTypes Json X509 TimeTypes TrustedTime TimeMonitor Envelope Provider Ledger SoftFile Provisioning Import HsmProvider Tls CertStore KeyEngine Csr CertChain CertCheck SecService Assembly IpcCodec IpcDispatcher Peers.

(* --------------------------------------------------------------------- *)
(** ** The sources of trusted time                                        *)
(* --------------------------------------------------------------------- *)

(** The two objects [timeSource] chooses from; the one for development comes with the clocks it
    reads. *)
(** [src/include/sec_application.h:73-77] timeSource *)
Inductive TimeService (TE : Type) :=
  | Monitored (m : Monitor TE)
  | Faked (f : FakeSnapshotSource) (clocks : TE).
Arguments Monitored {TE}. Arguments Faked {TE}.

Section Time.
Context {TE : Type} `{TEnv : TimeEnv TE}.

Definition time_get (token : Z) : st (TimeService TE) TrustedTimeResult := fun t =>
  match t with
  | Monitored m => let '(r, m) := monitor_get token m in (r, Monitored m)
  | Faked f e =>
      let '(wall, e) := wall_now e in
      let '(r, f) := fake_get token wall f in (r, Faked f e)
  end.
#[export] Instance time_service_source : TrustedTimeSnapshotSource (TimeService TE) := {| ts_get := time_get |}.

Definition time_start (t : TimeService TE) : TimeService TE :=
  match t with
  | Monitored m => Monitored (monitor_start m)
  | Faked f e =>
      let '(boot, e) := boot_now e in
      let '(wall, e) := wall_now e in Faked (fake_start boot wall f) e
  end.

Definition time_stop (t : TimeService TE) : TimeService TE :=
  match t with
  | Monitored m => Monitored (monitor_stop m)
  | Faked f e => Faked (fake_stop f) e
  end.

(** The handle that [subscribe] returns is dropped at once, and a slot is kept by a weak pointer. *)
Definition fake_unsubscribe (slot : nat) (f : FakeSnapshotSource) : FakeSnapshotSource :=
  mkFakeSource (fs_provider f) (fs_lease_max f) (fs_running f) (fs_tokens_invalidated f)
    (fs_sec_daemon_epoch f) (fs_sec_time_event_sequence f) (fs_last_published f)
    (filter (fun i => i <> slot) (fs_subscribers f)) (fs_sent f).
(** [src/src/sec_application.cpp:268-279] initialize, time events *)
Definition time_subscribe_dropped (t : TimeService TE) : TimeService TE :=
  match t with
  | Monitored m => Monitored (monitor_unsubscribe 0 (monitor_subscribe 0 m))
  | Faked f e => Faked (fake_unsubscribe 0 (fake_subscribe 0 f)) e
  end.

(** [src/include/sec_application.h:69-71] allowDevTestFakeTime *)
Definition allowDevTestFakeTime (provider : string) (is_production : bool) : bool :=
  String.eqb provider "fake" && negb is_production.

Definition tt_key (k : string) : string := ("sec.trusted_time." ++ k)%string.

(** The thresholds both sources are given, with the lease of the one for development. *)
(** [src/src/sec_application.cpp:120-130] initialize, time thresholds *)
Definition fake_time_config (v : ConfigView) : TrustedTimeConfig :=
  let d := TrustedTimeConfig_default in
  mkTimeConfig (cv_getBool v (tt_key "platform.enabled") true)
    (cv_getInt v (tt_key "platform.max_freshness_ms") 300000)
    (cv_getInt v (tt_key "platform.max_uncertainty_ms") 2000)
    (cv_getBool v (tt_key "hardware_rtc.enabled") true)
    (cv_getBool v (tt_key "hardware_rtc.require_provisioned") true)
    (cv_getInt v (tt_key "rollback_tolerance_ms") 2000)
    (tc_time_socket_path d) (tc_time_query_timeout d) (tc_monitor_refresh_interval d)
    (cv_getInt v (tt_key "platform.lease_max_ms") 1000) (tc_cache_max_age d)
    (tc_approved_policy_versions d) (tc_approved_sources d) (tc_require_evidence d) (tc_monitor_enabled d).

(** [src/src/sec_application.cpp:161-185] initialize, monitor configuration *)
Definition monitor_config (v : ConfigView) : TrustedTimeConfig :=
  let c := fake_time_config v in
  let list_or k d := match cv_getStringList v (tt_key k) with [] => d | l => l end in
  mkTimeConfig (tc_platform_enabled c) (tc_max_freshness c) (tc_max_uncertainty c) (tc_hw_rtc_enabled c)
    (tc_hw_rtc_require_provisioned c) (tc_rollback_tolerance c)
    (cv_getString v (tt_key "platform.time_client.socket_path") "/tmp/tbox-time.sock")
    (cv_getInt v (tt_key "platform.time_client.timeout_ms") 500)
    (cv_getInt v (tt_key "platform.monitor_refresh_interval_ms") 500)
    (tc_lease_max c) (cv_getInt v (tt_key "platform.cache_max_age_ms") 1000)
    (list_or "platform.auth.policy_versions" (tc_approved_policy_versions c))
    (list_or "platform.auth.approved_sources" (tc_approved_sources c))
    (cv_getBool v (tt_key "platform.auth.require_evidence") true)
    (cv_getBool v (tt_key "platform.monitor_enabled") true).

(** [src/src/sec_application.cpp:119-200] initialize, trusted time *)
Definition assemble_time (v : ConfigView) (is_production : bool) (e : TE) : TimeService TE :=
  if allowDevTestFakeTime (cv_getString v (tt_key "provider") "composite") is_production then
    let '(wall, e) := wall_now e in
    let sample := mkSample wall Trusted FakeSource 0 0 FakeTest 0 in
    Faked (fake_source_new (Some (mkFake sample true)) (tc_lease_max (fake_time_config v))) e
  else
    let '(boot, e) := boot_now e in
    Monitored (monitor_new (mkTime (monitor_config v) true true true 0 false None None e) boot).
End Time.

(* --------------------------------------------------------------------- *)
(** ** The application                                                    *)
(* --------------------------------------------------------------------- *)

(** [src/include/sec_application.h:80-87] InitStage *)
Inductive InitStage :=
  | StageNone | StoreOpened | ProvClientReady | ServiceReady | DispatcherReady | IpcStarted.

(** What the process asks of the world before and besides its service: the store, the PROV client
    (its code), the socket of the IPC server. *)
Class AppWorld (W : Type) := {
  aw_store_open : string -> st W bool;
  aw_prov_initialize : string -> st W ErrorCode;
  aw_server_start : string -> st W bool
}.

(** What the business-key service finds: the files of the provider, the ledger's store ([None]: it
    cannot be opened), the clock and identity it is given, and the nonce it draws. *)
Record KeySurroundings (F D E : Type) := mkSurroundings {
  ks_env : F; ks_ledger : option D; ks_service_env : E; ks_nonce : Z
}.
Arguments mkSurroundings {F D E}. Arguments ks_env {F D E}. Arguments ks_ledger {F D E}.
Arguments ks_service_env {F D E}. Arguments ks_nonce {F D E}.

(** What the setters gave the dispatcher. Its pointers are raw: they name the parts of the
    application, which may be gone. *)
(** [src/src/sec_ipc_dispatcher.cpp:54-68] SecIpcDispatcher setters *)
Record Wires := mkWires {
  wd_tls : Pointer unit;
  wd_keys : Pointer unit;
  wd_key_peer : string;
  wd_resolver : bool;
  wd_time : bool;
  wd_time_peers : list string;
  wd_subscriptions : bool
}.

(** [ap_service] owns [ap_keys]; [ap_server] tells whether the server runs. The world is the one of
    the service while there is one. *)
(** [src/include/sec_application.h:92-116] SecApplication members *)
Record App (W F D E TE H : Type) `{J : Json} := mkApp {
  ap_stage : InitStage;
  ap_prov : bool;
  ap_service : option (SecService W);
  ap_keys : option (Service (KeyProvider F) D E);
  ap_resolver : option PeerResolver;
  ap_dispatcher : option Wires;
  ap_server : option bool;
  ap_time : option (TimeService TE);
  ap_world : W;
  ap_host : H
}.
Arguments mkApp {W F D E TE H J}.
Arguments ap_stage {W F D E TE H J}. Arguments ap_prov {W F D E TE H J}.
Arguments ap_service {W F D E TE H J}. Arguments ap_keys {W F D E TE H J}.
Arguments ap_resolver {W F D E TE H J}. Arguments ap_dispatcher {W F D E TE H J}.
Arguments ap_server {W F D E TE H J}. Arguments ap_time {W F D E TE H J}.
Arguments ap_world {W F D E TE H J}. Arguments ap_host {W F D E TE H J}.

(** How [initialize] ends: with a result, with an exception of the certificate store, or not within
    the fuel of its recovery. *)
Inductive AppResult := AppReturns (ok : bool) | AppThrows | AppLoops.

Section App.
Context {W F D E TE H : Type} `{L : X509Lib} `{World : !SecWorld W} `{Hsm : !HsmInterface W}
  `{FS : !FileSystem W} `{Crypto : SoftFileCrypto} `{Hash : Sha256} `{J : Json} `{JC : !JsonConstIndex}
  `{Aes : Aes128} `{LT : LocalTime} `{Ec : EcPoints} `{B : Base64}
  `{Env : !SoftFileEnv F} `{Store : !LedgerStore D} `{SEnv : !ServiceEnv E} `{PB : Protobuf} `{EC : EcP256}
  `{TEnv : !TimeEnv TE} `{Peer : !PeerEnv H} `{AW : !AppWorld W}.
Notation App := (App W F D E TE H).
Notation Dispatcher := (SecIpcDispatcher W (KeyProvider F) D E (TimeService TE) (PeerResolver * H)).
Implicit Types a : App.

(** Assignments to members. *)
Definition ap_with_stage x a : App := mkApp x (ap_prov a) (ap_service a) (ap_keys a) (ap_resolver a)
  (ap_dispatcher a) (ap_server a) (ap_time a) (ap_world a) (ap_host a).
Definition ap_with_prov x a : App := mkApp (ap_stage a) x (ap_service a) (ap_keys a) (ap_resolver a)
  (ap_dispatcher a) (ap_server a) (ap_time a) (ap_world a) (ap_host a).
Definition ap_with_service x a : App := mkApp (ap_stage a) (ap_prov a) x (ap_keys a) (ap_resolver a)
  (ap_dispatcher a) (ap_server a) (ap_time a) (ap_world a) (ap_host a).
Definition ap_with_keys x a : App := mkApp (ap_stage a) (ap_prov a) (ap_service a) x (ap_resolver a)
  (ap_dispatcher a) (ap_server a) (ap_time a) (ap_world a) (ap_host a).
Definition ap_with_resolver x a : App := mkApp (ap_stage a) (ap_prov a) (ap_service a) (ap_keys a) x
  (ap_dispatcher a) (ap_server a) (ap_time a) (ap_world a) (ap_host a).
Definition ap_with_dispatcher x a : App := mkApp (ap_stage a) (ap_prov a) (ap_service a) (ap_keys a)
  (ap_resolver a) x (ap_server a) (ap_time a) (ap_world a) (ap_host a).
Definition ap_with_server x a : App := mkApp (ap_stage a) (ap_prov a) (ap_service a) (ap_keys a)
  (ap_resolver a) (ap_dispatcher a) x (ap_time a) (ap_world a) (ap_host a).
Definition ap_with_time x a : App := mkApp (ap_stage a) (ap_prov a) (ap_service a) (ap_keys a)
  (ap_resolver a) (ap_dispatcher a) (ap_server a) x (ap_world a) (ap_host a).
Definition ap_with_world x a : App := mkApp (ap_stage a) (ap_prov a) (ap_service a) (ap_keys a)
  (ap_resolver a) (ap_dispatcher a) (ap_server a) (ap_time a) x (ap_host a).
Definition ap_with_host x a : App := mkApp (ap_stage a) (ap_prov a) (ap_service a) (ap_keys a)
  (ap_resolver a) (ap_dispatcher a) (ap_server a) (ap_time a) (ap_world a) x.

(** Run an operation of the world. *)
Definition in_world {A} (m : st W A) : st App A := fun a =>
  match ap_service a with
  | Some s => let '(r, w) := m (sv_world s) in (r, ap_with_service (Some (sv_with_world w s)) a)
  | None => let '(r, w) := m (ap_world a) in (r, ap_with_world w a)
  end.

(** [SecApplication app;] in a process with these surroundings. *)
Definition app_new (w : W) (h : H) : App := mkApp StageNone false None None None None None None w h.

(* --------------------------------------------------------------------- *)
(** *** Taking parts down                                                 *)
(* --------------------------------------------------------------------- *)

(** The service's quiesce reaches the business-key service it owns. *)
(** [src/src/sec_service.cpp:179-187] beginShutdown *)
Definition quiesce a : App :=
  match ap_service a with
  | Some s =>
      ap_with_keys (Import.beginShutdown <$> ap_keys a) (ap_with_service (Some (SecService.beginShutdown s)) a)
  | None => a
  end.
Definition stop_time a : App := ap_with_time (time_stop <$> ap_time a) a.
(** Joins the threads that handle requests. *)
Definition stop_server a : App := ap_with_server ((fun _ => false) <$> ap_server a) a.
Definition free_server a : App := ap_with_server None a.
Definition free_dispatcher a : App := ap_with_dispatcher None a.
Definition free_resolver a : App := ap_with_resolver None a.
Definition free_service a : App :=
  match ap_service a with
  | Some s => ap_with_world (sv_world s) (ap_with_keys None (ap_with_service None a))
  | None => a
  end.
Definition free_prov a : App := ap_with_prov false a.

(** One after the other. *)
Definition steps (l : list (App -> App)) a : App := foldl (fun a f => f a) a l.

(** The blocks of [rollbackInitialization], of which each leads to the next. *)
(** [src/src/sec_application.cpp:326-355] rollbackInitialization *)
Fixpoint rollback_steps (stage : InitStage) (fuel : nat) : list (App -> App) :=
  match fuel with
  | O => []
  | S fuel =>
      match stage with
      | IpcStarted =>
          [stop_time; stop_server; free_server; free_dispatcher; free_resolver; ap_with_stage DispatcherReady]
          ++ rollback_steps DispatcherReady fuel
      | DispatcherReady =>
          [stop_time; free_dispatcher; free_resolver; ap_with_stage ServiceReady] ++ rollback_steps ServiceReady fuel
      | ServiceReady => [quiesce; free_service; ap_with_stage ProvClientReady] ++ rollback_steps ProvClientReady fuel
      | ProvClientReady => [free_prov; ap_with_stage StoreOpened] ++ rollback_steps StoreOpened fuel
      | StoreOpened => [ap_with_stage StageNone]
      | StageNone => []
      end
  end.
Definition rollbackInitialization a : App := steps (rollback_steps (ap_stage a) 5) a.

(** [src/src/sec_application.cpp:382-409] cleanup *)
Definition cleanup_steps : list (App -> App) :=
  [quiesce; stop_time; stop_server; free_dispatcher; free_resolver; free_service; free_prov; free_server;
   ap_with_stage StageNone].
Definition cleanup a : App := steps cleanup_steps a.

(* --------------------------------------------------------------------- *)
(** *** Starting                                                          *)
(* --------------------------------------------------------------------- *)

(** The sizes and times are [uint32_t]; the multiplier of the reconnects is left out. *)
(** [src/src/sec_application.cpp:56-70] initialize, IPC configuration *)
Record IpcConfig := mkIpcConfig {
  ic_max_frame_bytes : Z;
  ic_receive_timeout_ms : Z;
  ic_connect_timeout_ms : Z;
  ic_listen_backlog : Z;
  ic_initial_backoff_ms : Z;
  ic_max_backoff_ms : Z
}.
Definition read_ipc_config (v : ConfigView) : IpcConfig :=
  let int k d := cv_getInt v ("common.ipc." ++ k)%string d in
  mkIpcConfig (wrapu 32 (int "max_frame_bytes" 10485760)) (wrapu 32 (int "receive_timeout_ms" 60000))
    (wrapu 32 (int "connect_timeout_ms" 3000)) (int "listen_backlog" 5)
    (wrapu 32 (int "reconnect.initial_backoff_ms" 100)) (wrapu 32 (int "reconnect.max_backoff_ms" 5000)).

(** [src/src/sec_application.cpp:74-78] initialize, service configuration *)
Definition service_config (v : ConfigView) : SecServiceConfig :=
  mkSecConfig "" "hsm" false "/var/lib/tbox/sec/soft_keys" "" "" "" ∅ (Some v).

(** [src/src/sec_service.cpp:86-90] SecService *)
Definition sec_service_new (c : SecServiceConfig) (w : W) : SecService W :=
  mkSec c false false false true true None None false "" "" None [] seed_default 0 0 false w.

(** The last steps of [SecService::initialize]; [time] tells whether [set_trusted_time_provider]
    was called. *)
(** [src/src/sec_service.cpp:106-174] initialize *)
Definition service_start (fuel : nat) (time : bool) (k : KeySurroundings F D E) (s : SecService W) :
    StartResult * SecService W * option (Service (KeyProvider F) D E) :=
  let '(r, s) := SecService.initialize fuel s in
  (r, s,
   match r with
   | Started SUCCESS => initializeBusinessKeyProvisioning (sv_config s) time (ks_env k) (ks_ledger k)
       (ks_service_env k) (ks_nonce k)
   | _ => None
   end).

(** [src/src/sec_application.cpp:217-227] initialize, peer resolver *)
Definition choose_resolver (c : SecServiceConfig) : PeerResolver :=
  let dev_peer := get_tls_dev_peer_service c in
  if negb (str_empty dev_peer) && negb (get_is_production c) then DevPeer dev_peer else Systemd.

(** [src/src/sec_application.cpp:229-247] initialize, dispatcher *)
Definition wire (v : ConfigView) a : Wires :=
  mkWires (match ap_service a ≫= sv_tls with Some _ => Live tt | None => Unset end)
    (match ap_keys a with Some _ => Live tt | None => Unset end)
    (match ap_keys a with
     | Some _ => cv_getString v "sec.business_key_provisioning.peer_service" "tbox-tsp.service"
     | None => "tbox-tsp.service"
     end)
    true (match ap_time a with Some _ => true | None => false end)
    (match cv_getStringList v "sec.trusted_time.peer_allowlist" with [] => ["tbox-mqtt.service"%string] | l => l end)
    false.

Definition wires_with_subscriptions (w : Wires) : Wires :=
  mkWires (wd_tls w) (wd_keys w) (wd_key_peer w) (wd_resolver w) (wd_time w) (wd_time_peers w) true.

(** Where the pointers point after a request. *)
Definition forget {A} (p : Pointer A) : Pointer unit :=
  match p with Unset => Unset | Live _ => Live tt | Freed => Freed end.
Definition wires_with_pointers (tls keys : Pointer unit) (w : Wires) : Wires :=
  mkWires tls keys (wd_key_peer w) (wd_resolver w) (wd_time w) (wd_time_peers w) (wd_subscriptions w).

Definition fail_start a : AppResult * App := (AppReturns false, rollbackInitialization a).

(** The server: subscriptions, both event publishers, the socket. *)
(** [src/src/sec_application.cpp:250-324] initialize, server *)
Definition start_server (v : ConfigView) a : AppResult * App :=
  let a := ap_with_server (Some false) a in
  let a := ap_with_dispatcher (wires_with_subscriptions <$> ap_dispatcher a) a in
  let a := ap_with_service (setEventPublisher true <$> ap_service a) a in
  let a := ap_with_time (time_subscribe_dropped <$> ap_time a) a in
  let '(ok, a) := in_world (aw_server_start (cv_getString v "sec.ipc.socket_path" "/tmp/tbox-sec.sock")) a in
  if negb ok then fail_start (steps [free_server; free_dispatcher; free_resolver] a) else
  let a := ap_with_stage IpcStarted (ap_with_server (Some true) a) in
  (AppReturns true, ap_with_time (time_start <$> ap_time a) a).

(** [src/src/sec_application.cpp:202-248] initialize, service and dispatcher *)
Definition start_parts (fuel : nat) (v : ConfigView) (k : KeySurroundings F D E) (te : TE) a : AppResult * App :=
  let c := service_config v in
  let a := ap_with_time (Some (assemble_time v (get_is_production c) te)) a in
  let '(r, s, keys) := service_start fuel true k (sec_service_new c (ap_world a)) in
  let a := ap_with_keys keys (ap_with_service (Some s) a) in
  match r with
  | StartThrows => (AppThrows, a)
  | StartLoops => (AppLoops, a)
  | Started SUCCESS =>
      let a := ap_with_stage ServiceReady a in
      let a := ap_with_resolver (Some (choose_resolver c)) a in
      let a := ap_with_dispatcher (Some (wire v a)) a in
      start_server v (ap_with_stage DispatcherReady a)
  | Started _ => fail_start a
  end.

(** [te] is the surroundings of trusted time. *)
(** [src/src/sec_application.cpp:45-324] initialize *)
Definition initialize (fuel : nat) (cfg : option ConfigView) (k : KeySurroundings F D E) (te : TE) :
    App -> AppResult * App := fun a =>
  match cfg with
  | None => (AppReturns false, a)
  | Some v =>
      let '(opened, a) := in_world (aw_store_open (cv_getString v "common.store.root" "/var/lib/tbox")) a in
      if negb opened then (AppReturns false, a) else
      let a := ap_with_prov true (ap_with_stage StoreOpened a) in
      let '(rc, a) := in_world (aw_prov_initialize (cv_getString v "prov.socket_path" "/tmp/tbox-prov.sock")) a in
      if negb (is_success rc) then fail_start a else
      start_parts fuel v k te (ap_with_stage ProvClientReady a)
  end.

(* --------------------------------------------------------------------- *)
(** *** Serving                                                           *)
(* --------------------------------------------------------------------- *)

(** The dispatcher a thread of the server finds behind its pointer, while it is there. *)
Definition live_dispatcher a : option Dispatcher :=
  match ap_server a, ap_dispatcher a, ap_service a, ap_resolver a with
  | Some true, Some w, Some s, Some r => Some (mkDispatcher s
      (wd_tls w)
      (match wd_keys w with
       | Live _ => match ap_keys a with Some b => Live b | None => Freed end
       | Unset => Unset
       | Freed => Freed
       end)
      (if wd_time w then ap_time a else None)
      (wd_key_peer w) (wd_time_peers w) (wd_resolver w) (wd_subscriptions w) (r, ap_host a))
  | _, _, _, _ => None
  end.

(** A request, if the server runs. *)
(** [src/src/sec_application.cpp:281-287] request_handler *)
Definition serve (fuel : nat) (method_id : Z) (params : string) (client_fd : Z) a : option Reply * App :=
  match live_dispatcher a with
  | None => (None, a)
  | Some d =>
      let '(r, d) := dispatch fuel method_id params client_fd d in
      let a := ap_with_service (Some (dp_service d)) a in
      let a := ap_with_keys (match dp_keys d with Live b => Some b | _ => None end) a in
      let a := ap_with_dispatcher (wires_with_pointers (dp_tls d) (forget (dp_keys d)) <$> ap_dispatcher a) a in
      let a := ap_with_time (match dp_time d with Some t => Some t | None => ap_time a end) a in
      (Some r, ap_with_host (dp_host d).2 a)
  end.
End App.
