(* ===== verification/AppProps.v ===== *)
(** * AppProps: the start of the daemon.
    Which parts are alive when, and which point to which; that a start is all or nothing;
    and what a production configuration leads to. *)
From S2P Require Import Prelude Errors Canonical KeyTypes Json X509 TimeTypes TrustedTime TimeMonitor Envelope Provider Ledger SoftFile Provisioning Import HsmProvider Tls CertStore KeyEngine Csr CertChain CertCheck SecService Assembly IpcCodec IpcDispatcher Peers Application.

Section Life.
Context {W F D E TE H : Type} `{L : X509Lib} `{World : !SecWorld W} `{Hsm : !HsmInterface W}
  `{FS : !FileSystem W} `{Crypto : SoftFileCrypto} `{Hash : Sha256} `{J : Json} `{JC : !JsonConstIndex}
  `{Aes : Aes128} `{LT : LocalTime} `{Ec : EcPoints} `{B : Base64}
  `{Env : !SoftFileEnv F} `{Store : !LedgerStore D} `{SEnv : !ServiceEnv E} `{PB : Protobuf} `{EC : EcP256}
  `{TEnv : !TimeEnv TE} `{Peer : !PeerEnv H} `{AW : !AppWorld W}.
Notation App := (App W F D E TE H).
Implicit Types a : App.

(* --------------------------------------------------------------------- *)
(** ** Parts and pointers                                                 *)
(* --------------------------------------------------------------------- *)

(** Every part has the parts it was built on: threads of the server have a dispatcher and a
    resolver; a dispatcher has its service and what it was wired to; keys have their owner. It says
    nothing of pointers to an object that was freed and replaced; [alive] does. *)
Record owned a : Prop := {
  so_server : ap_server a = Some true -> is_Some (ap_dispatcher a) /\ is_Some (ap_resolver a);
  so_service : is_Some (ap_dispatcher a) -> is_Some (ap_service a);
  so_time w : ap_dispatcher a = Some w -> wd_time w = true -> is_Some (ap_time a);
  so_wired w u : ap_dispatcher a = Some w -> wd_keys w = Live u -> is_Some (ap_keys a);
  so_keys : is_Some (ap_keys a) -> is_Some (ap_service a)
}.

(** The pointers of a dispatcher point to what is there: neither the TLS provider nor the keys were
    freed under it, and its provider is the one the service has. *)
Definition alive a : Prop := forall w, ap_dispatcher a = Some w ->
  wd_tls w <> Freed /\ wd_keys w <> Freed /\
  (wd_tls w = Live tt -> exists s, ap_service a = Some s /\ sv_tls s <> None).

(** Nothing that can run uses a part that is gone. *)
Definition sound a : Prop := owned a /\ alive a.

(** Nothing is left. *)
Record gone a : Prop := {
  go_stage : ap_stage a = StageNone;
  go_prov : ap_prov a = false;
  go_service : ap_service a = None;
  go_keys : ap_keys a = None;
  go_resolver : ap_resolver a = None;
  go_dispatcher : ap_dispatcher a = None;
  go_server : ap_server a = None
}.

(** A thread of a running server finds its dispatcher and all it refers to. *)
Lemma owned_live a : owned a -> ap_server a = Some true -> is_Some (live_dispatcher a).
Proof.
  intros [Hs Hd _ _ _] Hr. destruct (Hs Hr) as [[w Hw] [r Hres]].
  destruct (Hd (ex_intro _ w Hw)) as [s Hsv]. unfold live_dispatcher. rewrite Hr, Hw, Hsv, Hres. by eexists.
Qed.

(** Steps that only take parts away in the right order keep it. *)
Definition keeps (f : App -> App) : Prop := forall a, owned a -> owned (f a).

Lemma keeps_quiesce : keeps quiesce.
Proof.
  intros a [H1 H2 H3 H4 H5]. unfold quiesce. destruct (ap_service a) as [s|] eqn:Es; [|by split; rewrite ?Es].
  split; cbn; eauto. intros w u Hw Hk. destruct (H4 w u Hw Hk) as [k ->]. by eexists.
Qed.
Lemma keeps_stop_time : keeps stop_time.
Proof.
  intros a [H1 H2 H3 H4 H5]. split; cbn; eauto.
  intros w Hw Ht. destruct (H3 w Hw Ht) as [t ->]. by eexists.
Qed.
Lemma keeps_stop_server : keeps stop_server.
Proof. intros a [H1 H2 H3 H4 H5]. split; cbn; try done. by destruct (ap_server a). Qed.
Lemma keeps_free_server : keeps free_server.
Proof. intros a [H1 H2 H3 H4 H5]. by split. Qed.
Lemma keeps_free_prov : keeps free_prov.
Proof. intros a [H1 H2 H3 H4 H5]. split; cbn; eauto. Qed.
Lemma keeps_stage x : keeps (ap_with_stage x).
Proof. intros a [H1 H2 H3 H4 H5]. split; cbn; eauto. Qed.

(** The order matters for these. *)
Lemma free_dispatcher_owned a : owned a -> ap_server a <> Some true -> owned (free_dispatcher a).
Proof. intros [H1 H2 H3 H4 H5] Hs. split; cbn; try done. Qed.
Lemma free_resolver_owned a : owned a -> ap_server a <> Some true -> owned (free_resolver a).
Proof. intros [H1 H2 H3 H4 H5] Hs. by split. Qed.
Lemma free_service_owned a : owned a -> ap_dispatcher a = None -> owned (free_service a).
Proof.
  intros [H1 H2 H3 H4 H5] Hd. unfold free_service. destruct (ap_service a) as [s|] eqn:Es; [|by split; rewrite ?Es].
  split; cbn; rewrite ?Hd; try done. intros Hr. destruct (H1 Hr) as [[] _]; congruence.
Qed.

Lemma not_running (o : option bool) : (fun _ => false) <$> o <> Some true.
Proof. by destruct o. Qed.

Lemma free_service_gone a : owned a -> ap_service (free_service a) = None /\ ap_keys (free_service a) = None.
Proof.
  intros [_ _ _ _ Hk]. unfold free_service. destruct (ap_service a) eqn:Es; [done|]. split; [done|].
  destruct (ap_keys a) as [k|]; [|done]. destruct (Hk (ex_intro _ k eq_refl)). done.
Qed.

(** The pointers, through the same steps. *)
Lemma alive_no_dispatcher a : ap_dispatcher a = None -> alive a.
Proof. intros Hn w. by rewrite Hn. Qed.

Lemma alive_frame a b : alive a -> ap_dispatcher b = ap_dispatcher a ->
  (forall s, ap_service a = Some s -> sv_tls s <> None -> exists s', ap_service b = Some s' /\ sv_tls s' <> None) ->
  alive b.
Proof.
  intros Ha Hd Hs w Hw. rewrite Hd in Hw. destruct (Ha w Hw) as (H1 & H2 & H3). split; [done|]. split; [done|].
  intros Ht. destruct (H3 Ht) as (s & Es & Et). by eapply Hs.
Qed.

Lemma quiesce_alive a : alive a -> alive (quiesce a).
Proof.
  intros Ha. unfold quiesce. destruct (ap_service a) as [s|] eqn:Es; [|done].
  apply (alive_frame a); [done|done|]. intros s' Hs' Ht. cbn. rewrite Es in Hs'. injection Hs' as <-. by eexists.
Qed.
Lemma free_service_alive a : ap_dispatcher a = None -> alive (free_service a).
Proof. intros Hd. apply alive_no_dispatcher. unfold free_service. by destruct (ap_service a). Qed.

(* --------------------------------------------------------------------- *)
(** ** A start                                                            *)
(* --------------------------------------------------------------------- *)

(** Nothing serves. *)
Definition idle a : Prop := ap_server a = None /\ ap_dispatcher a = None /\ ap_resolver a = None.
(** Everything serves. *)
Definition serving a : Prop := ap_stage a = IpcStarted /\ ap_prov a = true /\ is_Some (ap_time a) /\ is_Some (live_dispatcher a).

Lemma idle_owned a : idle a -> (is_Some (ap_keys a) -> is_Some (ap_service a)) -> owned a.
Proof.
  intros (Hs & Hd & Hr) Hk. split; rewrite ?Hs, ?Hd; try done.
Qed.

Lemma idle_not_live a : idle a -> live_dispatcher a = None.
Proof. intros (Hs & _). unfold live_dispatcher. by rewrite Hs. Qed.

(** What each step of a roll-back does to an idle daemon. *)
Definition settled a : Prop := ap_stage a = StageNone /\ idle a /\ (is_Some (ap_keys a) -> is_Some (ap_service a)).

Lemma rollback_settles a : idle a -> (is_Some (ap_keys a) -> is_Some (ap_service a)) ->
  ap_stage a <> IpcStarted -> settled (rollbackInitialization a).
Proof.
  destruct a as [stage prov srv keys res disp server t w h]. unfold idle, settled. cbn. intros (-> & -> & ->) Hk Hst.
  destruct stage, srv as [s|]; try done; 
    (split; [done|split; [done|cbn; first [exact Hk|by intros []|by eexists]]]).
Qed.

(** Either the world moves or the service's does. *)
Lemma in_world_service {A} (m : st W A) a s : ap_service a = Some s ->
  exists r w, in_world m a = (r, ap_with_service (Some (sv_with_world w s)) a).
Proof. intros Hs. unfold in_world. rewrite Hs. destruct (m (sv_world s)) as [r w]. by exists r, w. Qed.

Lemma in_world_no_service {A} (m : st W A) a : ap_service a = None ->
  exists r w, in_world m a = (r, ap_with_world w a).
Proof. intros Hs. unfold in_world. rewrite Hs. destruct (m (ap_world a)) as [r w]. by exists r, w. Qed.

(** How a start ended. *)
Definition ended (r : AppResult) a : Prop :=
  sound a /\
  match r with
  | AppReturns true => serving a
  | AppReturns false => settled a
  | AppThrows | AppLoops => idle a /\ ap_stage a = ProvClientReady
  end.

Lemma idle_sound a : idle a -> (is_Some (ap_keys a) -> is_Some (ap_service a)) -> sound a.
Proof. intros Hi Hk. split; [by apply idle_owned|]. apply alive_no_dispatcher. by destruct Hi as (_ & ? & _). Qed.
Lemma settled_sound a : settled a -> sound a.
Proof. intros (_ & Hi & Hk). by apply idle_sound. Qed.

Lemma nothing_ended a : settled a -> ended (AppReturns false) a.
Proof. intros Ha. split; [by apply settled_sound|done]. Qed.

Lemma fail_start_ends a : idle a -> (is_Some (ap_keys a) -> is_Some (ap_service a)) ->
  ap_stage a <> IpcStarted -> ended (fail_start a).1 (fail_start a).2.
Proof.
  intros Hi Hk Hs. by apply nothing_ended, rollback_settles.
Qed.

Lemma start_server_ends v a s w res t : ap_stage a = DispatcherReady -> ap_prov a = true ->
  ap_service a = Some s -> ap_dispatcher a = Some w -> ap_resolver a = Some res -> ap_time a = Some t ->
  wd_keys w = match ap_keys a with Some _ => Live tt | None => Unset end ->
  wd_tls w = match sv_tls s with Some _ => Live tt | None => Unset end ->
  ended (start_server v a).1 (start_server v a).2.
Proof.
  destruct a as [stage prov srv keys res0 disp server t0 wo h]. cbn. intros -> -> -> -> -> -> Hw Ht.
  unfold start_server, in_world. cbn.
  destruct (aw_server_start _ _) as [[] wo']; cbn -[fail_start].
  - split; [split|repeat split; cbn; by eexists].
    + split; cbn; try done; eauto. intros w' u [= <-]. cbn. rewrite Hw. by destruct keys.
    + intros w' [= <-]. cbn. rewrite Hw, Ht. split; [by destruct (sv_tls s)|]. split; [by destruct keys|].
      destruct (sv_tls s) eqn:Es; [|done]. intros _. eexists. split; [done|]. cbn. by rewrite Es.
  - apply fail_start_ends; cbn; [done|by eexists|done].
Qed.

Lemma start_parts_ends fuel v k te a : ap_stage a = ProvClientReady -> ap_prov a = true -> idle a -> ap_keys a = None ->
  ended (start_parts fuel v k te a).1 (start_parts fuel v k te a).2.
Proof.
  intros Hst Hp (Hs & Hd & Hr) Hk. unfold start_parts.
  destruct (service_start fuel true k _) as [[r s] keys]. destruct a as [stage prov srv keys0 res disp server t w h].
  cbn in *. subst. destruct r as [rc| |].
  - destruct (is_success rc) eqn:Hrc.
    + destruct rc; try done. by eapply start_server_ends.
    + destruct rc; try done; (apply fail_start_ends; cbn; [done|by eexists|done]).
  - split; [|done]. apply idle_sound; cbn; [done|eauto].
  - split; [|done]. apply idle_sound; cbn; [done|eauto].
Qed.

Lemma initialize_ends fuel cfg k te w h :
  let '(r, a) := initialize fuel cfg k te (app_new w h) in ended r a.
Proof.
  unfold initialize. destruct cfg as [v|]; [|apply nothing_ended; split; [done|by split; [|intros []]]].
  unfold in_world. cbn. destruct (aw_store_open _ w) as [[] w1]; cbn; [|apply nothing_ended; split; [done|by split; [|intros []]]].
  destruct (aw_prov_initialize _ w1) as [rc w2]. cbn. destruct (is_success rc); cbn.
  - pose proof (start_parts_ends fuel v k te (ap_with_stage ProvClientReady (ap_with_world w2
      (ap_with_prov true (ap_with_stage StoreOpened (ap_with_world w1 (app_new w h)))))) eq_refl eq_refl
      (conj eq_refl (conj eq_refl eq_refl)) eq_refl) as He.
    cbn in He. by destruct (start_parts fuel v k te _).
  - apply nothing_ended. split; [done|by split; [|intros []]].
Qed.

Lemma initialize_sound fuel cfg k te w h : sound (initialize fuel cfg k te (app_new w h)).2.
Proof.
  pose proof (initialize_ends fuel cfg k te w h) as He. by destruct (initialize fuel cfg k te _); destruct He.
Qed.

(** A start is all or nothing. If [initialize] returns true, the server runs, its threads find the
    dispatcher with its service, resolver and source of time, and the stage is the last one. If it
    returns false, whichever step failed, no server, dispatcher or resolver is left and the stages are
    rolled back to none. In no outcome, exceptions of the certificate store included, does a part
    point to another that is gone. *)
Theorem start_all_or_nothing fuel cfg k te w h :
  let '(r, a) := initialize fuel cfg k te (app_new w h) in ended r a.
Proof. apply initialize_ends. Qed.
(* --------------------------------------------------------------------- *)
(** ** Production                                                         *)
(* --------------------------------------------------------------------- *)

(** Software keys are refused there, and the hardware back ends do not open. *)
Lemma production_has_no_hsm (s : SecService W) : get_is_production (sv_config s) = true ->
  is_success (initialize_hsm s).1 = false /\ sv_initialized (initialize_hsm s).2 = sv_initialized s.
Proof.
  intros Hp. unfold initialize_hsm. rewrite Hp. destruct (use_software_hsm _); [done|].
  destruct (String.eqb (get_hsm_type _) "pkcs11"); [done|]. by destruct (String.eqb (get_hsm_type _) "trustzone").
Qed.

Lemma production_service_refused fuel time k (s : SecService W) : get_is_production (sv_config s) = true ->
  exists rc s', service_start fuel time k s = (Started rc, s', None) /\ is_success rc = false /\
    sv_initialized s' = sv_initialized s.
Proof.
  intros Hp. unfold service_start, SecService.initialize.
  destruct (str_empty (get_hsm_type _) && _); [by eexists _, _|].
  destruct (production_has_no_hsm s Hp) as [Hf Hi]. destruct (initialize_hsm s) as [rc s']. cbn in Hf, Hi.
  rewrite Hf. cbn. exists rc, s'. by destruct rc.
Qed.

Lemma production_time v te : exists m, assemble_time v true te = Monitored m.
Proof.
  unfold assemble_time, allowDevTestFakeTime. rewrite andb_false_r. destruct (boot_now te) as [boot te']. by eexists.
Qed.

(** The parts left by the roll-back of a service that did not start. *)
Lemma service_failure_rolled_back a : ap_stage a = ProvClientReady ->
  rollbackInitialization a = ap_with_stage StageNone (ap_with_prov false a).
Proof. destruct a as [stage prov srv keys res disp server t w h]. by intros [= ->]. Qed.

(** C34. What a production configuration leads to. [initialize] returns false whatever the rest of the
    configuration and the world: keys in files are refused there and the hardware modules cannot be
    opened, so the service does not start and the server neither. No business keys are assembled, a
    service object that is left is not initialised, and the source of time that was built is the
    monitored one, never the fake. *)
Theorem production_never_serves fuel v k te w h : get_is_production (service_config v) = true ->
  let '(r, a) := initialize fuel (Some v) k te (app_new w h : App) in
  r = AppReturns false /\ live_dispatcher a = None /\ ap_keys a = None /\
  (forall t, ap_time a = Some t -> exists m, t = Monitored m) /\
  match ap_service a with Some s => sv_initialized s = false | None => True end.
Proof.
  intros Hp. unfold initialize, in_world. cbn.
  destruct (aw_store_open _ w) as [[] w1]; cbn; [|done].
  destruct (aw_prov_initialize _ w1) as [rc w2]. cbn. destruct (is_success rc); cbn; [|done].
  unfold start_parts. rewrite Hp. destruct (production_time v te) as [m ->]. cbn -[service_start fail_start service_config].
  destruct (production_service_refused fuel true k (sec_service_new (service_config v) w2) Hp) as (rc' & s & -> & Hf & Hi).
  assert (Hk : forall x : App, match rc' with SUCCESS => (AppReturns true, x) | _ => fail_start x end = fail_start x)
    by (intros x; by destruct rc').
  destruct rc'; try done; unfold fail_start; rewrite service_failure_rolled_back by done;
    (split; [done|split; [done|split; [done|split; [|done]]]]; intros t [= <-]; by eexists).
Qed.
End Life.
