(* ===== verification/AppRun.v ===== *)
(** * AppRun: the running daemon.
    What holds in every state a started daemon reaches, through requests, passes of the
    time monitor, the call-outs of its framework and its stop; and the events of trusted
    time that no one receives. *)
From S2P Require Import Prelude Errors Canonical KeyTypes Json X509 RetryPolicy TimeTypes TrustedTime TimeMonitor Envelope Provider Ledger SoftFile Provisioning Import HsmProvider Tls CertStore KeyEngine Csr CertChain CertCheck SecService Assembly SeedProps SecFrame ProvisionProps IpcCodec IpcWire IpcDispatcher SecClient IpcProps Peers Application AppProps.

(* --------------------------------------------------------------------- *)
(** ** Requests and the source of time                                    *)
(* --------------------------------------------------------------------- *)

(** A request asks the source of time for snapshots and does nothing else to it. *)
Section TimeFrame.
Context {W P D E T H : Type} `{L : X509Lib} `{World : !SecWorld W} `{Hsm : !HsmInterface W}
  `{FS : !FileSystem W} `{Crypto : SoftFileCrypto} `{Hash : Sha256} `{J : Json} `{JC : !JsonConstIndex}
  `{Aes : Aes128} `{LT : LocalTime} `{Ec : EcPoints} `{B : Base64}
  `{Prov : !BusinessKeyProvider P} `{Store : !LedgerStore D} `{SEnv : !ServiceEnv E} `{PB : Protobuf}
  `{EC : EcP256} `{TS : !TrustedTimeSnapshotSource T} `{IH : !IpcHost H}.
Notation Dispatcher := (SecIpcDispatcher W P D E T H).
Implicit Types d : Dispatcher.

Variable good : T -> Prop.
Hypothesis get_good : forall token t, good t -> good (ts_get token t).2.

Definition timed d : Prop := forall t, dp_time d = Some t -> good t.

Lemma on_service_timed {A} (m : st (SecService W) A) d : timed d -> timed (on_service m d).2.
Proof. unfold on_service. by destruct (m (dp_service d)). Qed.
Lemma tls_call_timed {A} (m : st (TlsCredentialProvider (TlsWorld W)) A) d : timed d -> timed (tls_call m d).2.
Proof. apply on_service_timed. Qed.
Lemma resolvePeer_timed fd d : timed d -> timed (resolvePeer fd d).2.
Proof. unfold resolvePeer, on_host. destruct (dp_has_resolver d); [|done]. by destruct (ih_resolve fd (dp_host d)). Qed.
Lemma add_subscription_timed fd e d : timed d -> timed (add_subscription fd e d).2.
Proof.
  unfold add_subscription, on_host. destruct (dp_has_add_subscription d); [|done].
  by destruct (ih_add_subscription fd e (dp_host d)).
Qed.
Lemma time_snapshot_timed t token d : good t -> timed (time_snapshot t token d).2.
Proof.
  intros Ht. pose proof (get_good token t Ht) as Hg. unfold time_snapshot. destruct (ts_get token t) as [r t'].
  by intros x [= <-].
Qed.
Lemma with_keys_timed {A} fd (params : option A) run d : timed d -> timed (with_keys fd params run d).2.
Proof.
  intros Ht. unfold with_keys. pose proof (resolvePeer_timed fd d Ht) as Hr.
  destruct (dp_keys d) as [|b|] eqn:Ek; [done| |]; destruct (resolvePeer fd d) as [caller d1]; cbn in Hr |- *;
    (destruct (negb _); [done|]); destruct params as [p|]; try done. by destruct (run p b).
Qed.

(** Walk a handler: every call keeps it, every branch ends in it. *)
Ltac called lem x :=
  let Ht := fresh "Ht" in assert (Ht : timed x.2) by (apply lem; assumption);
  destruct x as [? ?]; cbn [snd] in Ht.
Ltac walk :=
  repeat (cbn [snd]; first
    [ assumption
    | match goal with
      | |- context [on_service ?m ?d] => called @on_service_timed (on_service m d)
      | |- context [authorized ?p ?c ?d] => called @tls_call_timed (authorized p c d)
      | |- context [tls_call ?m ?d] => called @tls_call_timed (tls_call m d)
      | |- context [resolvePeer ?fd ?d] => called @resolvePeer_timed (resolvePeer fd d)
      | |- context [add_subscription ?fd ?e ?d] => called @add_subscription_timed (add_subscription fd e d)
      | |- context [time_snapshot ?t ?tok ?d] => called @time_snapshot_timed (time_snapshot t tok d)
      | |- timed (match ?x with _ => _ end).2 => destruct x eqn:?
      | |- timed (if ?x then _ else _).2 => destruct x eqn:?
      end ]).

Lemma tls_handlers_timed params fd d : timed d ->
  timed (handle_get_tls_credential params fd d).2 /\ timed (handle_get_tls_credential_state params d).2 /\
  timed (handle_sign_tls params fd d).2 /\ timed (handle_subscribe_tls_credential_changed params fd d).2.
Proof.
  intros Ht. unfold handle_get_tls_credential, handle_get_tls_credential_state, handle_sign_tls,
    handle_subscribe_tls_credential_changed.
  split; [|split; [|split]]; walk.
Qed.

Lemma time_handlers_timed params fd d : timed d ->
  timed (handle_get_trusted_time params fd d).2 /\ timed (handle_subscribe_trusted_time_changed fd d).2.
Proof.
  intros Ht. unfold handle_get_trusted_time, handle_subscribe_trusted_time_changed.
  destruct (dp_time d) as [t|] eqn:Et; [|done]. pose proof (Ht t Et) as Hg.
  split; walk.
Qed.

Lemma initialize_timed fuel d : timed d -> timed (handle_initialize fuel d).2.
Proof. intros Ht. unfold handle_initialize. walk. by destruct (replaces_hsm _). Qed.

Lemma handle_timed fuel id params fd d : timed d -> timed (handle fuel id params fd d).2.
Proof.
  intros Ht. destruct (tls_handlers_timed params fd d Ht) as (H1 & H2 & H3 & H4).
  destruct (time_handlers_timed params fd d Ht) as [H5 H6].
  unfold handle. destruct (method_of id) as [[]|]; try assumption; try (by apply with_keys_timed);
    first [by apply initialize_timed|idtac];
    unfold handle_generate_key_pair, handle_export_private_key, handle_get_csr, handle_submit_csr,
      handle_inject_certificate, handle_apply_certificate, handle_get_seed, handle_verify_key, handle_get_status,
      handle_get_device_info, handle_reset_status; walk.
Qed.

Lemma dispatch_timed fuel id params fd d : timed d -> timed (dispatch fuel id params fd d).2.
Proof.
  intros Ht. pose proof (handle_timed fuel id params fd d Ht) as Hh. unfold dispatch.
  by destruct (handle fuel id params fd d).
Qed.
End TimeFrame.

(* --------------------------------------------------------------------- *)
(** ** The daemon as a system of threads                                  *)
(* --------------------------------------------------------------------- *)

Section Run.
Context {W F D E TE H : Type} `{L : X509Lib} `{World : !SecWorld W} `{Hsm : !HsmInterface W}
  `{FS : !FileSystem W} `{Crypto : SoftFileCrypto} `{Hash : Sha256} `{J : Json} `{JC : !JsonConstIndex}
  `{Aes : Aes128} `{LT : LocalTime} `{Ec : EcPoints} `{B : Base64}
  `{Env : !SoftFileEnv F} `{Store : !LedgerStore D} `{SEnv : !ServiceEnv E} `{PB : Protobuf} `{EC : EcP256}
  `{TEnv : !TimeEnv TE} `{Peer : !PeerEnv H} `{AW : !AppWorld W}
  `{SL : !StoreLaws W} `{JL : !JsonLaws J}.
Notation App := (App W F D E TE H).
Implicit Types a : App.

(** The parts, and how many steps of the clean-up the main thread has done, if it is in it. *)
Record Daemon := mkDaemon { dm_app : App; dm_stop : option nat }.

(** A pass of the monitor's thread; the fake source has none. *)
Definition time_pass (t : TimeService TE) : TimeService TE :=
  match t with Monitored m => Monitored (monitor_tick m) | Faked f e => Faked f e end.
(** The callback of the TIME client. *)
Definition time_poke (t : TimeService TE) : TimeService TE :=
  match t with Monitored m => Monitored (monitor_refresh_now m) | Faked f e => Faked f e end.

(** Threads of the server and of the monitor interleave with the main thread, which runs the
    clean-up step by step, and may run it again. [ok] are the methods that are asked for. *)
Inductive daemon_step (ok : Z -> Prop) : Daemon -> Daemon -> Prop :=
  | ds_request fuel id params fd a n : ok id ->
      daemon_step ok (mkDaemon a n) (mkDaemon (serve fuel id params fd a).2 n)
  | ds_pass a n : daemon_step ok (mkDaemon a n) (mkDaemon (ap_with_time (time_pass <$> ap_time a) a) n)
  | ds_poke a n : daemon_step ok (mkDaemon a n) (mkDaemon (ap_with_time (time_poke <$> ap_time a) a) n)
  | ds_shutdown a n : n = None \/ n = Some (length (cleanup_steps : list (App -> App))) ->
      daemon_step ok (mkDaemon a n) (mkDaemon a (Some 0%nat))
  | ds_cleanup a n f : cleanup_steps !! n = Some f ->
      daemon_step ok (mkDaemon a (Some n)) (mkDaemon (f a) (Some (S n))).

(** Any method at all, and any but [INITIALIZE]. *)
Definition any_method (id : Z) : Prop := True.
Definition no_restart (id : Z) : Prop := method_of id <> Some INITIALIZE.

Lemma step_any ok x y : daemon_step ok x y -> daemon_step any_method x y.
Proof. by destruct 1; constructor. Qed.
Lemma run_any ok x y : rtc (daemon_step ok) x y -> rtc (daemon_step any_method) x y.
Proof.
  induction 1 as [|x y z Hxy _ IHr]; [apply rtc_refl|]. eapply rtc_l; [by eapply step_any|done].
Qed.

(** What the clean-up has taken away after its first steps, number by number. *)
Definition taken (n : nat) a : Prop :=
  ((3 <= n)%nat -> ap_server a <> Some true) /\
  ((4 <= n)%nat -> ap_dispatcher a = None) /\
  ((5 <= n)%nat -> ap_resolver a = None) /\
  ((6 <= n)%nat -> ap_service a = None /\ ap_keys a = None) /\
  ((7 <= n)%nat -> ap_prov a = false) /\
  ((8 <= n)%nat -> ap_server a = None) /\
  ((9 <= n)%nat -> ap_stage a = StageNone).

Definition orderly (x : Daemon) : Prop :=
  owned (dm_app x) /\ match dm_stop x with Some n => taken n (dm_app x) | None => True end.

Lemma taken_0 a : taken 0 a.
Proof. unfold taken. split_and!; intros ?; lia. Qed.

(** A request that finds no dispatcher does nothing; one that does finds all the parts. *)
Lemma serve_idle fuel id params fd a : live_dispatcher a = None -> serve fuel id params fd a = (None, a).
Proof. intros Hl. unfold serve. by rewrite Hl. Qed.

Lemma live_parts a d : live_dispatcher a = Some d -> exists w s r,
  ap_server a = Some true /\ ap_dispatcher a = Some w /\ ap_service a = Some s /\ ap_resolver a = Some r.
Proof.
  unfold live_dispatcher. destruct (ap_server a) as [[]|], (ap_dispatcher a), (ap_service a), (ap_resolver a); try done.
  intros _. by eexists _, _, _.
Qed.

(** The parts after a request. *)
Lemma serve_parts fuel id params fd a : let b := (serve fuel id params fd a).2 in
  ap_stage b = ap_stage a /\ ap_prov b = ap_prov a /\ ap_resolver b = ap_resolver a /\ ap_server b = ap_server a.
Proof.
  unfold serve. destruct (live_dispatcher a) as [d|]; [|done]. by destruct (dispatch fuel id params fd d).
Qed.

Lemma serve_owned fuel id params fd a : owned a -> owned (serve fuel id params fd a).2.
Proof.
  intros [H1 H2 H3 H4 H5]. unfold serve. destruct (live_dispatcher a) as [d|] eqn:El; [|by split].
  destruct (live_parts a d El) as (w & s & r & Es & Ed & Esv & Er). destruct (dispatch fuel id params fd d) as [rep d'].
  split; cbn; rewrite ?Es, ?Ed, ?Er; cbn; eauto.
  - intros w' [= <-] Ht. destruct (dp_time d'); [by eexists|]. by apply (H3 w).
  - intros w' u [= <-] Hk. cbn in Hk. by destruct (dp_keys d').
Qed.

Lemma time_owned f a : owned a -> owned (ap_with_time (f <$> ap_time a) a).
Proof.
  intros [H1 H2 H3 H4 H5]. split; cbn; eauto. intros w Hw Ht. destruct (H3 w Hw Ht) as [t ->]. by eexists.
Qed.

Lemma serve_taken n fuel id params fd a : taken n a -> taken n (serve fuel id params fd a).2.
Proof.
  intros Ht. destruct (live_dispatcher a) as [d|] eqn:El; [|by rewrite serve_idle].
  destruct (live_parts a d El) as (w & s & r & Es & Ed & Esv & Er).
  destruct (decide (3 <= n)%nat) as [Hn|Hn]; [by destruct Ht as [Ht _]; destruct (Ht Hn)|].
  unfold taken. split_and!; intros ?; lia.
Qed.

Lemma free_service_rest a : let b := free_service a in
  ap_stage b = ap_stage a /\ ap_prov b = ap_prov a /\ ap_resolver b = ap_resolver a /\
  ap_dispatcher b = ap_dispatcher a /\ ap_server b = ap_server a.
Proof. unfold free_service. by destruct (ap_service a). Qed.

(** Each step of the clean-up finds the parts below it unused. *)
Lemma cleanup_step_owned a n (f : App -> App) : cleanup_steps !! n = Some f -> owned a -> taken n a -> owned (f a).
Proof.
  intros Hf Hs (T3 & T4 & T5 & T6 & T7 & T8 & T9).
  assert (Hn : (n < 9)%nat) by (apply lookup_lt_Some in Hf; exact Hf).
  destruct n as [|[|[|[|[|[|[|[|[|n]]]]]]]]]; [..|lia]; injection Hf as <-.
  - by apply keeps_quiesce.
  - by apply keeps_stop_time.
  - by apply keeps_stop_server.
  - apply free_dispatcher_owned; [done|apply T3; lia].
  - apply free_resolver_owned; [done|apply T3; lia].
  - apply free_service_owned; [done|apply T4; lia].
  - by apply keeps_free_prov.
  - by apply keeps_free_server.
  - by apply keeps_stage.
Qed.

Lemma cleanup_step_taken a n (f : App -> App) : cleanup_steps !! n = Some f -> owned a -> taken n a -> taken (S n) (f a).
Proof.
  intros Hf Hs (T3 & T4 & T5 & T6 & T7 & T8 & T9).
  assert (Hn : (n < 9)%nat) by (apply lookup_lt_Some in Hf; exact Hf).
  destruct (free_service_rest a) as (R1 & R2 & R3 & R4 & R5). pose proof (free_service_gone a Hs) as Hg.
  destruct n as [|[|[|[|[|[|[|[|[|n]]]]]]]]]; [..|lia]; injection Hf as <-; unfold taken; split_and!; intros ?; try lia;
    rewrite ?R1, ?R2, ?R3, ?R4, ?R5; cbn;
    first [exact Hg|apply not_running|apply T3; lia|apply T4; lia|apply T5; lia|apply T6; lia|apply T7; lia|apply T8; lia|done].
Qed.

Lemma daemon_step_orderly ok x y : daemon_step ok x y -> orderly x -> orderly y.
Proof.
  intros Hstep [Hs Ht]. destruct Hstep as [fuel id params fd a n _|a n|a n|a n Hn|a n f Hf]; cbn in Hs, Ht; split; cbn.
  - by apply serve_owned.
  - destruct n as [n|]; [by apply serve_taken|done].
  - by apply time_owned.
  - by destruct n.
  - by apply time_owned.
  - by destruct n.
  - done.
  - apply taken_0.
  - by eapply cleanup_step_owned.
  - by eapply cleanup_step_taken.
Qed.

Lemma run_orderly ok x y : rtc (daemon_step ok) x y -> orderly x -> orderly y.
Proof. induction 1 as [|x y z Hxy _ IHr]; [done|]. intros Hx. by apply IHr, (daemon_step_orderly ok x y). Qed.

(** A dispatcher whose pointers are alive is one that [requests_answered] speaks of. *)
Lemma live_wired a d : owned a -> alive a -> live_dispatcher a = Some d -> wired d.
Proof.
  intros Ho Ha. unfold live_dispatcher.
  destruct (ap_server a) as [[]|], (ap_dispatcher a) as [w|] eqn:Ed, (ap_service a) as [s|] eqn:Es, (ap_resolver a); try done.
  intros [= <-]. destruct (Ha w Ed) as (H1 & H2 & H3). split; [done|]. split; cbn.
  - destruct (wd_keys w) as [|u|] eqn:Ek; try done. destruct (so_wired a Ho w u Ed Ek) as [k ->]. done.
  - intros Ht. destruct (H3 Ht) as (s' & Es' & Hs'). congruence.
Qed.

(** What a request leaves of the pointers, and how it is answered. *)
Lemma serve_alive fuel id params fd a : no_restart id -> owned a -> alive a ->
  alive (serve fuel id params fd a).2 /\
  forall r, (serve fuel id params fd a).1 = Some r -> proper_answer r.
Proof.
  intros Hid Ho Ha. unfold serve. destruct (live_dispatcher a) as [d|] eqn:El; [|done].
  pose proof (live_wired a d Ho Ha El) as Hw.
  destruct (handle_answered fuel id params fd d Hw Hid) as [Hs (z & body & Hz & Hb)].
  destruct (handle fuel id params fd d) as [h d'] eqn:Eh. cbn in Hs, Hz. subst h.
  rewrite (dispatch_answer _ _ _ _ _ _ _ _ Eh). pose proof (stays_wired _ _ Hs Hw) as (W1 & W2 & W3).
  destruct (live_parts a d El) as (w & s & r & _ & Ed & _). split.
  - intros w' Hw'. cbn in Hw'. rewrite Ed in Hw'. injection Hw' as <-. cbn. split; [done|].
    split; [by destruct (dp_keys d')|]. intros Ht. eexists. split; [done|by apply W3].
  - intros r' [= <-]. by apply answer_proper.
Qed.

Lemma cleanup_step_alive a n (f : App -> App) : cleanup_steps !! n = Some f -> alive a -> taken n a -> alive (f a).
Proof.
  intros Hf Ha (_ & T4 & _). assert (Hn : (n < 9)%nat) by (apply lookup_lt_Some in Hf; exact Hf).
  destruct n as [|[|[|[|[|[|[|[|[|n]]]]]]]]]; [..|lia]; injection Hf as <-; try exact Ha.
  - by apply quiesce_alive.
  - by apply alive_no_dispatcher.
  - apply free_service_alive, T4. lia.
Qed.

Lemma daemon_step_alive x y : daemon_step no_restart x y -> orderly x -> alive (dm_app x) -> alive (dm_app y).
Proof.
  intros Hstep [Hs Ht]. destruct Hstep as [fuel id params fd a n Hid|a n|a n|a n Hn|a n f Hf]; cbn in *; try done.
  - intros Ha. by apply serve_alive.
  - intros Ha. by eapply cleanup_step_alive.
Qed.

Lemma run_alive x y : rtc (daemon_step no_restart) x y -> orderly x -> alive (dm_app x) -> alive (dm_app y).
Proof.
  induction 1 as [|x y z Hxy _ IHr]; [done|]. intros Hx Ha. apply IHr; [by eapply daemon_step_orderly|].
  by eapply daemon_step_alive.
Qed.

(** A clean-up can run undisturbed. *)
Lemma cleanup_runs ok a n : (n <= length (cleanup_steps : list (App -> App)))%nat ->
  rtc (daemon_step ok) (mkDaemon a (Some 0%nat)) (mkDaemon (steps (take n cleanup_steps) a) (Some n)).
Proof.
  intros Hn. induction n as [|n IHn]; [apply rtc_refl|]. eapply rtc_r; [apply IHn; lia|].
  destruct (lookup_lt_is_Some_2 (cleanup_steps : list (App -> App)) n) as [f Hf]; [lia|].
  rewrite (take_S_r _ _ _ Hf). unfold steps. rewrite foldl_app. by apply ds_cleanup.
Qed.

(** C7. Nothing is used after it is gone, in any interleaving. From a start with any outcome, requests,
    passes of the monitor and callbacks of the time client run between the steps of one or more
    clean-ups. As long as no request asks for a second INITIALIZE, nothing that can run has a pointer to
    a part that is gone - a running server has its dispatcher, that its service, resolver, keys, source
    of time and TLS provider - and a request at any point gets a proper answer or finds no server.
    With INITIALIZE among the requests, the order of the parts still holds: the server's threads find a
    dispatcher with a live service and resolver, a dispatcher never outlives its service, and a
    clean-up that is through has left nothing; but the TLS provider and the HSM below the keys may have
    been replaced under the dispatcher's pointers. *)
Theorem daemon_never_dangles fuel cfg k te w h ok x :
  rtc (daemon_step ok) (mkDaemon (initialize fuel cfg k te (app_new w h)).2 None) x ->
  owned (dm_app x) /\
  (ap_server (dm_app x) = Some true -> is_Some (live_dispatcher (dm_app x))) /\
  (dm_stop x = Some (length (cleanup_steps : list (App -> App))) -> gone (dm_app x)) /\
  ((forall id, ok id -> no_restart id) ->
     sound (dm_app x) /\
     forall n id params fd r, no_restart id ->
       (serve n id params fd (dm_app x)).1 = Some r -> proper_answer r).
Proof.
  intros Hrun. destruct (initialize_sound fuel cfg k te w h) as [Ho Ha].
  destruct (run_orderly _ _ _ Hrun) as [Hs Ht]; [by split|].
  split; [done|]. split; [by apply owned_live|]. split.
  - intros Hn. rewrite Hn in Ht. destruct Ht as (T3 & T4 & T5 & T6 & T7 & T8 & T9).
    destruct T6 as [Hsv Hk]; [cbn; lia|].
    split; [apply T9|apply T7|done|done|apply T5|apply T4|apply T8]; cbn; lia.
  - intros Hok. assert (Hx : alive (dm_app x)).
    { apply (run_alive (mkDaemon (initialize fuel cfg k te (app_new w h)).2 None)); [|by split|done].
      eapply rtc_subrel; [|exact Hrun]. intros y z. destruct 1; constructor; auto. }
    split; [by split|]. intros n id params fd r Hid. by apply serve_alive.
Qed.

(* --------------------------------------------------------------------- *)
(** ** The events of trusted time                                         *)
(* --------------------------------------------------------------------- *)

(** No one is subscribed, and nothing has been handed to anyone. *)
Definition unheard (t : TimeService TE) : Prop :=
  match t with
  | Monitored m => mo_subscribers m = [] /\ mo_sent m = []
  | Faked f _ => fs_subscribers f = [] /\ fs_sent f = []
  end.

Definition quiet (m : Monitor TE) : Prop := unheard (Monitored m).

Lemma on_time_quiet {A} (f : st (TimeState TE) A) m : quiet m -> quiet (on_time f m).2.
Proof. unfold on_time. by destruct (f (mo_time m)). Qed.

Lemma publish_quiet r m : quiet m -> quiet (publishIfChanged r m).
Proof.
  intros [H1 H2]. unfold publishIfChanged. case_match; [done|]. split; cbn; [done|]. by rewrite H1, H2.
Qed.

Lemma refresh_quiet m : quiet m -> quiet (refreshLocked m).
Proof.
  intros Hq. unfold refreshLocked. pose proof (on_time_quiet (tm_on_env boot_now) m Hq) as H1.
  fold (nowBootMs m) in H1. destruct (nowBootMs m) as [now m1]. pose proof (on_time_quiet composite_query m1 H1) as H2.
  destruct (on_time composite_query m1) as [r m2]. by apply publish_quiet.
Qed.

Lemma revoke_quiet reason m : quiet m -> quiet (revokeLocked reason m).
Proof.
  intros Hq. unfold revokeLocked. pose proof (on_time_quiet (tm_on_env boot_now) m Hq) as H1.
  fold (nowBootMs m) in H1. destruct (nowBootMs m) as [now m1]. by apply publish_quiet.
Qed.

Lemma connection_quiet now m : quiet m -> quiet (manage_connection now m).
Proof.
  intros Hq. unfold manage_connection. destruct (_ && _); [|done]. destruct (negb (adapter_is_connected _)).
  - destruct (_ >=? _); [|done]. pose proof (on_time_quiet adapter_connect (mo_with_attempt now m) Hq) as H1.
    destruct (on_time adapter_connect _) as [[] m1]; [|done].
    set (m2 := mo_with_connection _ m1). pose proof (on_time_quiet adapter_subscribe m2 H1) as H2.
    by destruct (on_time adapter_subscribe m2).
  - destruct (negb (mo_time_sub m)); [|done]. pose proof (on_time_quiet adapter_subscribe m Hq) as H1.
    by destruct (on_time adapter_subscribe m).
Qed.

Lemma tick_quiet m : quiet m -> quiet (monitor_tick m).
Proof.
  intros Hq. unfold monitor_tick. destruct (negb (mo_running m)); [done|].
  pose proof (on_time_quiet (tm_on_env boot_now) m Hq) as H1.
  fold (nowBootMs m) in H1. destruct (nowBootMs m) as [now m1]. pose proof (connection_quiet now m1 H1) as H2.
  repeat case_match; [by apply refresh_quiet|by apply refresh_quiet|by apply revoke_quiet|done].
Qed.

Lemma fake_publish_unheard r f e e' : unheard (Faked f e) -> unheard (Faked (fake_publish r f) e').
Proof.
  intros [H1 H2]. unfold fake_publish. destruct (match fs_last_published f with Some _ => _ | None => _ end); [done|].
  split; cbn; [done|]. by rewrite H1, H2.
Qed.

Lemma get_unheard token t : unheard t -> unheard (time_get token t).2.
Proof.
  destruct t as [m|f e]; intros Hq; cbn.
  - assert (Hm : quiet (monitor_get token m).2); [|by destruct (monitor_get token m)].
    unfold monitor_get. case_match; [done|].
    assert (H1 : quiet (match mo_cached m with Some _ => m | None => refreshLocked m end)).
    { destruct (mo_cached m); [done|by apply refresh_quiet]. }
    revert H1. generalize (match mo_cached m with Some _ => m | None => refreshLocked m end). intros m1 H1. cbn zeta.
    destruct (TimeTypes.is_trusted _); [|done]. pose proof (on_time_quiet (tm_on_env boot_now) m1 H1) as H2.
    fold (nowBootMs m1) in H2. by destruct (nowBootMs m1).
  - destruct (wall_now e) as [wall e']. unfold fake_get. destruct (negb (token =? 0) && _); [done|].
    by apply (fake_publish_unheard _ f e').
Qed.

Lemma start_unheard t : unheard t -> unheard (time_start t).
Proof.
  destruct t as [m|f e]; intros Hq; cbn.
  - unfold monitor_start. by destruct (mo_running m).
  - destruct (boot_now e) as [boot e1], (wall_now e1) as [wall e2]. cbn. unfold fake_start.
    destruct (fs_running f); [done|]. by apply (fake_publish_unheard _ (mkFakeSource _ _ _ _ _ _ _ _ _) e2).
Qed.

Lemma stop_unheard t : unheard t -> unheard (time_stop t).
Proof.
  destruct t as [m|f e]; intros Hq; cbn; [|by destruct Hq].
  unfold monitor_stop. by destruct (mo_running m), (tm_platform _).
Qed.

Lemma pass_unheard t : unheard t -> unheard (time_pass t).
Proof. destruct t as [m|f e]; [apply tick_quiet|done]. Qed.

Lemma poke_unheard t : unheard t -> unheard (time_poke t).
Proof. by destruct t. Qed.

(** The callback the application registers is gone before anything is published. *)
Lemma subscribe_unheard t : unheard t -> unheard (time_subscribe_dropped t).
Proof. destruct t as [m|f e]; intros [H1 H2]; cbn; by rewrite H1. Qed.

Lemma assemble_unheard v p te : unheard (assemble_time v p te).
Proof.
  unfold assemble_time. destruct (allowDevTestFakeTime _ _); [by destruct (wall_now te)|by destruct (boot_now te)].
Qed.

(** In the daemon. *)
Definition unheard_in a : Prop := forall t, ap_time a = Some t -> unheard t.

Lemma time_unheard (f : TimeService TE -> TimeService TE) a : (forall t, unheard t -> unheard (f t)) ->
  unheard_in a -> unheard_in (ap_with_time (f <$> ap_time a) a).
Proof. intros Hf Ha t Ht. cbn in Ht. apply fmap_Some in Ht as (t0 & H0 & ->). by apply Hf, Ha. Qed.

Lemma serve_unheard fuel id params fd a : unheard_in a -> unheard_in (serve fuel id params fd a).2.
Proof.
  intros Ha. unfold serve. destruct (live_dispatcher a) as [d|] eqn:El; [|done].
  assert (Hd : timed unheard d).
  { revert El. unfold live_dispatcher. repeat case_match; try done; intros [= <-] t Ht; cbn in Ht;
      first [done|by apply Ha]. }
  pose proof (dispatch_timed (P := KeyProvider F) unheard get_unheard fuel id params fd d Hd) as Hx.
  destruct (dispatch fuel id params fd d) as [rep d']. intros t Ht. cbn in Ht.
  destruct (dp_time d') as [t'|] eqn:Et; [|by apply Ha]. injection Ht as <-. by apply Hx.
Qed.

Lemma cleanup_unheard a n (f : App -> App) : cleanup_steps !! n = Some f -> unheard_in a -> unheard_in (f a).
Proof.
  intros Hf Ha. assert (Hn : (n < 9)%nat) by (apply lookup_lt_Some in Hf; exact Hf).
  destruct n as [|[|[|[|[|[|[|[|[|n]]]]]]]]]; [..|lia]; injection Hf as <-; try exact Ha.
  - unfold quiesce. by destruct (ap_service a).
  - by apply time_unheard; [apply stop_unheard|].
  - unfold free_service. by destruct (ap_service a).
Qed.

Lemma step_unheard ok x y : daemon_step ok x y -> unheard_in (dm_app x) -> unheard_in (dm_app y).
Proof.
  intros Hstep Hx. destruct Hstep as [fuel id params fd a n _|a n|a n|a n Hn|a n f Hf]; cbn in *.
  - by apply serve_unheard.
  - by apply time_unheard; [apply pass_unheard|].
  - by apply time_unheard; [apply poke_unheard|].
  - done.
  - by eapply cleanup_unheard.
Qed.

Definition heard_none (o : option (TimeService TE)) : Prop := forall t, o = Some t -> unheard t.

Lemma stopped_none o : heard_none o -> heard_none (time_stop <$> o).
Proof. intros Ho t Ht. apply fmap_Some in Ht as (t0 & H0 & ->). by apply stop_unheard, Ho. Qed.

Lemma rollback_unheard a : unheard_in a -> unheard_in (rollbackInitialization a).
Proof.
  destruct a as [stage prov srv keys res disp server o wo h]. change (heard_none o -> heard_none
    (ap_time (rollbackInitialization (mkApp stage prov srv keys res disp server o wo h)))). intros Ho.
  destruct stage, srv as [s|]; first [exact Ho|exact (stopped_none _ Ho)|exact (stopped_none _ (stopped_none _ Ho))].
Qed.

Lemma in_world_time {A} (m : st W A) a : ap_time (in_world m a).2 = ap_time a.
Proof.
  unfold in_world. destruct (ap_service a) as [s|]; [by destruct (m (sv_world s))|by destruct (m (ap_world a))].
Qed.

Lemma server_unheard v a : unheard_in a -> unheard_in (start_server v a).2.
Proof.
  intros Ha. unfold start_server.
  match goal with |- context [in_world ?m ?b] =>
    pose proof (in_world_time m b) as Ht; destruct (in_world m b) as [ok a1] end.
  cbn in Ht. assert (H1 : heard_none (ap_time a1)).
  { rewrite Ht. intros t Hx. apply fmap_Some in Hx as (t0 & H0 & ->). by apply subscribe_unheard, Ha. }
  destruct ok; cbn -[fail_start].
  - intros t Hx. cbn in Hx. apply fmap_Some in Hx as (t0 & H0 & ->). by apply start_unheard, H1.
  - by apply rollback_unheard.
Qed.

Lemma start_app_unheard fuel cfg k te w h : unheard_in (initialize fuel cfg k te (app_new w h : App)).2.
Proof.
  unfold initialize, in_world. destruct cfg as [v|]; [|done]. cbn.
  destruct (aw_store_open _ w) as [[] w1]; cbn; [|done].
  destruct (aw_prov_initialize _ w1) as [rc w2]. cbn. destruct (is_success rc); cbn; [|done].
  unfold start_parts. cbn -[service_start fail_start service_config assemble_time].
  destruct (service_start fuel true k _) as [[r s] keys].
  assert (Ht : heard_none (Some (assemble_time v (get_is_production (service_config v)) te))).
  { intros t [= <-]. apply assemble_unheard. }
  destruct r as [rc'| |]; [|exact Ht|exact Ht].
  destruct rc'; first [apply rollback_unheard; exact Ht|apply server_unheard; exact Ht].
Qed.

(** No change of trusted time is ever announced. In no state that a start and any run of requests,
    monitor passes, callbacks and clean-ups reach has the source of time a subscriber, and it has
    handed no result to anyone: the subscription [initialize] makes is a handle it drops at once. Yet
    SUBSCRIBE_TRUSTED_TIME_CHANGED is answered with success. *)
Theorem time_events_never_pushed fuel cfg k te w h x t :
  rtc (daemon_step any_method) (mkDaemon (initialize fuel cfg k te (app_new w h)).2 None) x ->
  ap_time (dm_app x) = Some t -> unheard t.
Proof.
  intros Hrun. assert (H0 : unheard_in (dm_app x)); [|apply H0].
  remember (mkDaemon _ None) as x0 eqn:E0. assert (Hs : unheard_in (dm_app x0)) by (rewrite E0; apply start_app_unheard).
  clear E0. induction Hrun as [|x y z Hxy _ IHr]; [done|]. by apply IHr, (step_unheard any_method x y).
Qed.
End Run.
