(* ===== verification/AppSample.v ===== *)
(** * AppSample: one daemon, started, used and stopped.
    The application on the worlds of [SecSample] and [ImportSample], and the witnesses of the
    theorems of [AppProps] and [AppRun]. *)
From S2P Require Import Prelude Errors Canonical KeyTypes Envelope Json X509 RetryPolicy Provider Ledger SoftFile SoftFileProps TimeTypes TrustedTime TimeMonitor TimeProps Provisioning Import ImportSample HsmProvider Tls CertStore CertStoreProps KeyEngine Csr CertChain CertCheck SecService SecSample Assembly AssemblySample IpcCodec IpcWire IpcDispatcher SecClient IpcProps Peers Application AppProps AppRun.

Module AppSample.
Import JsonSample X509Sample ImportSample SecSample.
#[local] Existing Instance toy_sha256.
#[local] Existing Instance PeerSample.one_process.

#[export] Instance app_base64 : Base64 := {| base64_encode s := s; base64_decode s := s |}.
#[export] Instance sworld_app : AppWorld sworld := {|
  aw_store_open root w := (true, w);
  aw_prov_initialize path w := (SUCCESS, w);
  aw_server_start path w := (true, w)
|}.

(** A bench: software keys, business keys, and a fake clock. *)
Definition bench : ConfigView := mkView (fun _ => true)
  (fun k d => if String.eqb k "key_provisioning.mode" then "soft_file"
              else if String.eqb k "sec.business_key_provisioning.provider" then "soft_file"
              else d)
  (fun k d => if String.eqb k "sec.business_key_provisioning.enabled" then true else d)
  (fun _ d => d) (fun _ => []).

Definition surroundings : KeySurroundings SoftFileSample.world LedgerSample.disk ImportSample.device :=
  mkSurroundings SoftFileSample.world0 (Some (lg_store LedgerSample.ledger0)) (TimeSample.tstate0, SoftFileSample.binding0) 9.
Abbreviation blank := (app_new (F := SoftFileSample.world) (D := LedgerSample.disk) (E := ImportSample.device)
  (TE := TimeSample.tworld) (world0 : sworld) (PeerSample.group_of "tbox-mqtt.service")).
Abbreviation started := (initialize 1 (Some bench) surroundings TimeSample.tworld0 blank).
Definition daemon0 := mkDaemon started.2 None.
Example bench_starts : started.1 = AppReturns true /\ is_Some (ap_keys started.2).
Proof. split; [vm_compute; reflexivity|]. apply (bool_decide_unpack _). vm_compute. exact I. Qed.

(** The MQTT daemon subscribes to the changes of trusted time, and is told that it has. *)
Abbreviation subscribed := (serve 1 25 "{}" 1 started.2).
Definition daemon1 := mkDaemon subscribed.2 None.

Definition stopping (n : nat) := mkDaemon (steps (take n cleanup_steps) subscribed.2) (Some n).

Lemma stops : rtc (daemon_step no_restart) daemon0 (stopping 9).
Proof.
  eapply rtc_l; [by apply (ds_request no_restart 1 25 "{}" 1 started.2 None)|].
  eapply rtc_l; [exact (ds_shutdown no_restart subscribed.2 None (or_introl eq_refl))|].
  exact (cleanup_runs no_restart subscribed.2 9 (le_n 9)).
Qed.

Lemma subscribes : rtc (daemon_step no_restart) daemon0 daemon1.
Proof. apply rtc_once. by apply (ds_request no_restart 1 25 "{}" 1 started.2 None). Qed.

(** Stopped, nothing is left; still running, the next request is answered. *)
Lemma still_answers : exists r, (serve 1 16 "{}" 1 subscribed.2).1 = Some r.
Proof. apply (bool_decide_unpack (is_Some (serve 1 16 "{}" 1 subscribed.2).1)). vm_compute. exact I. Qed.

Lemma daemon_never_dangles_witness :
  gone (dm_app (stopping 9)) /\ sound (dm_app daemon1) /\
  forall r, (serve 1 16 "{}" 1 (dm_app daemon1)).1 = Some r -> proper_answer r.
Proof.
  split.
  - exact (proj1 (proj2 (proj2 (daemon_never_dangles 1 (Some bench) surroundings TimeSample.tworld0
      SecSample.world0 (PeerSample.group_of "tbox-mqtt.service") no_restart (stopping 9) stops))) eq_refl).
  - pose proof (daemon_never_dangles 1 (Some bench) surroundings TimeSample.tworld0
      SecSample.world0 (PeerSample.group_of "tbox-mqtt.service") no_restart daemon1 subscribes) as T.
    apply proj2, proj2, proj2 in T. specialize (T (fun id H => H)). split; [exact (proj1 T)|].
    intros r. apply (proj2 T 1%nat 16 "{}" 1 r). unfold no_restart. discriminate.
Defined.

(** What the exclusion excludes: any caller's INITIALIZE replaces the TLS provider under the running
    dispatcher, and the next request for a credential reads the freed one. *)
Abbreviation restarted := (serve 1 (method_value INITIALIZE) "{}" 1 started.2).
Lemma restart_dangles :
  rtc (daemon_step any_method) daemon0 (mkDaemon restarted.2 None) /\
  wd_tls <$> ap_dispatcher restarted.2 = Some Freed /\
  (serve 1 (method_value GET_TLS_CREDENTIAL) "{}" 1 restarted.2).1 = Some UndefinedBehaviour.
Proof.
  split; [by apply rtc_once, (ds_request any_method 1 (method_value INITIALIZE) "{}" 1 started.2 None)|].
  by vm_compute.
Qed.

Definition clock_of (o : option (TimeService TimeSample.tworld)) : TimeService TimeSample.tworld :=
  match o with Some t => t | None => Faked (fake_source_new None 0) TimeSample.tworld0 end.

Lemma time_events_never_pushed_witness :
  unheard (clock_of (ap_time subscribed.2)) /\ is_Some subscribed.1.
Proof.
  split; [|vm_compute; by eexists].
  apply (time_events_never_pushed 1 (Some bench) surroundings TimeSample.tworld0 SecSample.world0
    (PeerSample.group_of "tbox-mqtt.service") daemon1).
  - exact (rtc_once _ _ (ds_request any_method 1 25 "{}" 1 started.2 None I)).
  - vm_compute. reflexivity.
Defined.

(** The same bench declared as production. *)
Definition vehicle : ConfigView := mkView (cv_has bench) (cv_getString bench)
  (fun k d => if String.eqb k "environment.is_production" then true else cv_getBool bench k d)
  (cv_getInt bench) (cv_getStringList bench).

Lemma production_never_serves_witness :
  (initialize 1 (Some vehicle) surroundings TimeSample.tworld0 blank).1 = AppReturns false.
Proof.
  pose proof (production_never_serves 1 vehicle surroundings TimeSample.tworld0 SecSample.world0
    (PeerSample.group_of "tbox-mqtt.service") eq_refl) as Hp.
  destruct (initialize 1 (Some vehicle) surroundings TimeSample.tworld0 blank) as [r a]. by destruct Hp.
Defined.
End AppSample.
