(* ===== verification/Legacy.v ===== *)
(** * Legacy: the entry point before the application framework.
    Models [src/main_legacy.cpp], built when the framework's life cycle is switched off: signals,
    configuration, log level, the parts it assembles by hand, the loop that waits for a signal, and the
    order in which it takes the parts down. The parts are those of [Application]. *)
From S2P Require Import Prelude Errors Canonical KeyTypes Json X509 TimeTypes TrustedTime TimeMonitor Envelope Provider Ledger SoftFile Provisioning Import HsmProvider Tls CertStore KeyEngine Csr CertChain CertCheck SecService Assembly SecFrame ProvisionProps IpcCodec IpcDispatcher Peers Application AppProps AppRun.

(** The levels of the framework's log. *)
Inductive LogLevel := kTrace | kDebug | kInfo | kWarn | kError.

(** What the process asks of the system besides: [sigaction] for a signal, the configuration (of the
    default directories when no root is given), the log. *)
Class LegacyWorld (W : Type) := {
  lw_sigaction : Z -> st W bool;
  lw_config_load : option string -> st W (option ConfigView);
  lw_log_init : LogLevel -> st W bool
}.

Definition SIGINT : Z := 2.
Definition SIGPIPE : Z := 13.
Definition SIGTERM : Z := 15.

(** How a start ends: with an exit status, by an exception nothing catches, or not within the fuel of
    the certificate store's recovery; or it does not end and the process serves. *)
Inductive LegacyStart := Exits (code : Z) | Terminated | NeverStarts | Serving.

(** [src/src/main_legacy.cpp:98-107] main, log level *)
Definition log_level (v : ConfigView) : LogLevel :=
  let s := cv_getString v "common.log.level" "info" in
  if String.eqb s "trace" then kTrace
  else if String.eqb s "debug" then kDebug
  else if String.eqb s "info" then kInfo
  else if String.eqb s "warn" then kWarn
  else if String.eqb s "error" then kError
  else kInfo.

Section Legacy.
Context {W F D E TE H : Type} `{L : X509Lib} `{World : !SecWorld W} `{Hsm : !HsmInterface W}
  `{FS : !FileSystem W} `{Crypto : SoftFileCrypto} `{Hash : Sha256} `{J : Json} `{JC : !JsonConstIndex}
  `{Aes : Aes128} `{LT : LocalTime} `{Ec : EcPoints} `{B : Base64}
  `{Env : !SoftFileEnv F} `{Store : !LedgerStore D} `{SEnv : !ServiceEnv E} `{PB : Protobuf} `{EC : EcP256}
  `{TEnv : !TimeEnv TE} `{Peer : !PeerEnv H} `{AW : !AppWorld W} `{LW : !LegacyWorld W}.
Notation App := (App W F D E TE H).
Notation Dispatcher := (SecIpcDispatcher W (KeyProvider F) D E (TimeService TE) (PeerResolver * H)).
Implicit Types a : App.

(* --------------------------------------------------------------------- *)
(** ** Starting                                                           *)
(* --------------------------------------------------------------------- *)

(** [src/src/main_legacy.cpp:56-62] install_signal_handlers loop *)
Fixpoint install_each (signals : list Z) : st W bool := fun w =>
  match signals with
  | [] => (true, w)
  | sig :: signals => let '(ok, w) := lw_sigaction sig w in if ok then install_each signals w else (false, w)
  end.

(** [src/src/main_legacy.cpp:47-73] install_signal_handlers *)
Definition install_signal_handlers : st W bool := fun w =>
  let '(ok, w) := install_each [SIGINT; SIGTERM] w in
  if negb ok then (false, w) else lw_sigaction SIGPIPE w.

(** [src/src/main_legacy.cpp:121-134] main, IPC configuration *)
Definition legacy_ipc_config (v : ConfigView) : IpcConfig := read_ipc_config v.

(** The entry point never calls [set_trusted_time_provider]; this is what the service asks then. *)
(** [src/src/sec_service.cpp:97-105] getTrustedTimeProvider *)
Definition getTrustedTimeProvider (p : option (TimeState TE)) (e : TE) : TimeState TE :=
  match p with
  | Some p => p
  | None => mkTime TrustedTimeConfig_default false false false 0 false None None e
  end.

(** The variables of [main] leave their scope, the last one first. *)
Definition scope_exit : list (App -> App) := [free_server; free_dispatcher; free_resolver; free_service; free_prov].
Definition leave (code : Z) a : LegacyStart * App := (Exits code, steps scope_exit a).

(** Only the TLS provider is handed to the dispatcher. *)
(** [src/src/main_legacy.cpp:168-173] main, dispatcher *)
Definition legacy_wire a : Wires :=
  mkWires (match ap_service a ≫= sv_tls with Some _ => Live tt | None => Unset end) Unset "tbox-tsp.service" true
    false ["tbox-mqtt.service"%string] false.

(** [src/src/main_legacy.cpp:175-195] main, server *)
Definition legacy_server (v : ConfigView) a : LegacyStart * App :=
  let a := ap_with_server (Some false) a in
  let a := ap_with_dispatcher (wires_with_subscriptions <$> ap_dispatcher a) a in
  let a := ap_with_service (setEventPublisher true <$> ap_service a) a in
  let '(ok, a) := in_world (aw_server_start (cv_getString v "sec.ipc.socket_path" "/tmp/tbox-sec.sock")) a in
  if negb ok then leave 1 a else (Serving, ap_with_server (Some true) a).

(** No provider of trusted time is set. *)
(** [src/src/main_legacy.cpp:149-173] main, service *)
Definition legacy_service (fuel : nat) (v : ConfigView) (k : KeySurroundings F D E) a : LegacyStart * App :=
  let c := service_config v in
  let '(r, s, keys) := service_start fuel false k (sec_service_new c (ap_world a)) in
  let a := ap_with_keys keys (ap_with_service (Some s) a) in
  match r with
  | StartThrows => (Terminated, a)
  | StartLoops => (NeverStarts, a)
  | Started SUCCESS =>
      let a := ap_with_resolver (Some (choose_resolver c)) a in
      legacy_server v (ap_with_dispatcher (Some (legacy_wire a)) a)
  | Started _ => leave 1 a
  end.

(** The PROV client comes before the store, whose failure to open is an exception. *)
(** [src/src/main_legacy.cpp:141-149] main, PROV client and store *)
Definition legacy_parts (fuel : nat) (v : ConfigView) (k : KeySurroundings F D E) a : LegacyStart * App :=
  let a := ap_with_prov true a in
  let '(rc, a) := in_world (aw_prov_initialize (cv_getString v "prov.socket_path" "/tmp/tbox-prov.sock")) a in
  if negb (is_success rc) then leave 1 a else
  let '(opened, a) := in_world (aw_store_open (cv_getString v "common.store.root" "/var/lib/tbox")) a in
  if negb opened then (Terminated, a) else
  legacy_service fuel v k a.

(** [argv] is what follows the name of the program. *)
(** [src/src/main_legacy.cpp:75-112] main, signals, configuration and log *)
Definition legacy_start (fuel : nat) (argv : list string) (k : KeySurroundings F D E) a : LegacyStart * App :=
  let '(ok, a) := in_world install_signal_handlers a in
  if negb ok then leave 1 a else
  let root := match argv with r :: _ => if str_empty r then None else Some r | [] => None end in
  let '(cfg, a) := in_world (lw_config_load root) a in
  match cfg with
  | None => leave 1 a
  | Some v =>
      let '(ok, a) := in_world (lw_log_init (log_level v)) a in
      if negb ok then leave 1 a else legacy_parts fuel v k a
  end.

(* --------------------------------------------------------------------- *)
(** ** Running and ending                                                 *)
(* --------------------------------------------------------------------- *)

(** [lg_leaving] counts the steps done since the loop was left; [None] in the loop. *)
(** [src/src/main_legacy.cpp:36-37] shutdown_requested, received_signal *)
Record Legacy := mkLegacy {
  lg_app : App;
  lg_shutdown_requested : bool;
  lg_received_signal : Z;
  lg_leaving : option nat
}.
Definition lg_with_app a (x : Legacy) : Legacy :=
  mkLegacy a (lg_shutdown_requested x) (lg_received_signal x) (lg_leaving x).

(** [src/src/main_legacy.cpp:39-45] signal_handler *)
Definition signal_handler (signum : Z) (x : Legacy) : Legacy := mkLegacy (lg_app x) true signum (lg_leaving x).

(** The end of [main] and its scope; the dispatcher is gone by then. *)
(** [src/src/main_legacy.cpp:209-216] main, end *)
Definition leave_steps : list (App -> App) :=
  [quiesce; stop_server; free_dispatcher; free_server; free_resolver; free_service; free_prov].

(** One pass of the main thread. *)
(** [src/src/main_legacy.cpp:200-216] main, loop *)
Definition main_pass (x : Legacy) : Legacy :=
  match lg_leaving x with
  | None => if lg_shutdown_requested x
            then mkLegacy (lg_app x) true (lg_received_signal x) (Some 0%nat) else x
  | Some n =>
      match leave_steps !! n with
      | Some f => mkLegacy (f (lg_app x)) (lg_shutdown_requested x) (lg_received_signal x) (Some (S n))
      | None => x
      end
  end.

(** The exit status, when the process has one. *)
Definition legacy_exit (x : Legacy) : option Z :=
  match lg_leaving x with
  | Some n => if decide (n = length leave_steps) then Some 0 else None
  | None => None
  end.

(** Threads of the server, signals, the main thread. [ok] are the methods that are asked for. *)
Inductive legacy_step (ok : Z -> Prop) : Legacy -> Legacy -> Prop :=
  | LegacyRequest fuel id params fd x : ok id ->
      legacy_step ok x (lg_with_app (serve fuel id params fd (lg_app x)).2 x)
  | LegacySignal sig x : sig ∈ [SIGINT; SIGTERM] -> legacy_step ok x (signal_handler sig x)
  | LegacyPass x : legacy_step ok x (main_pass x).

Definition legacy_new (w : W) (h : H) : App := app_new w h.
Definition legacy_serving a : Legacy := mkLegacy a false 0 None.
End Legacy.
