(* ===== verification/LegacyProps.v ===== *)
(** * LegacyProps: what the legacy entry point serves, and how it ends.
    It answers as the application does, but for the business keys and trusted time, which it refuses;
    nothing it runs uses a part that is gone; and without a provider of trusted time nothing is installed. *)
From S2P Require Import Prelude Errors Canonical KeyTypes Json X509 RetryPolicy TimeTypes TrustedTime TimeMonitor Envelope Provider Ledger SoftFile Provisioning Import HsmProvider Tls CertStore KeyEngine Csr CertChain CertCheck SecService Assembly SeedProps SecFrame ProvisionProps IpcCodec IpcWire IpcDispatcher SecClient IpcProps Peers Application AppProps AppRun Legacy.

(* --------------------------------------------------------------------- *)
(** ** A dispatcher without keys and time                                 *)
(* --------------------------------------------------------------------- *)

Section Without.
Context {W P D E T H : Type} `{L : X509Lib} `{World : !SecWorld W} `{Hsm : !HsmInterface W}
  `{FS : !FileSystem W} `{Crypto : SoftFileCrypto} `{Hash : Sha256} `{J : Json} `{JC : !JsonConstIndex}
  `{Aes : Aes128} `{LT : LocalTime} `{Ec : EcPoints} `{B : Base64}
  `{Prov : !BusinessKeyProvider P} `{Store : !LedgerStore D} `{SEnv : !ServiceEnv E} `{PB : Protobuf}
  `{EC : EcP256} `{TS : !TrustedTimeSnapshotSource T} `{IH : !IpcHost H}.
Notation Dispatcher := (SecIpcDispatcher W P D E T H).
Implicit Types d : Dispatcher.

(** The same service, TLS provider and host, but what the constructor leaves of the rest. *)
Definition without_keys d : Dispatcher :=
  mkDispatcher (dp_service d) (dp_tls d) Unset None "tbox-tsp.service" ["tbox-mqtt.service"%string]
    (dp_has_resolver d) (dp_has_add_subscription d) (dp_host d).

(** The methods the business keys and trusted time serve. *)
Definition keys_or_time (m : option MethodId) : bool :=
  match m with
  | Some (GET_BUSINESS_KEY_STATUS | IMPORT_WRAPPED_BUSINESS_KEYS | GET_BUSINESS_KEY_IMPORT_RESULT
         | GET_V2C_KEY_PROVISIONING_CAPABILITY | IMPORT_WRAPPED_BUSINESS_KEYS_KL1
         | GET_KEYPROV_CONTRACT_SNAPSHOT | GET_TRUSTED_TIME | SUBSCRIBE_TRUSTED_TIME_CHANGED) => true
  | _ => false
  end.

Definition blind {A} (m : st Dispatcher A) : Prop :=
  forall d, m (without_keys d) = ((m d).1, without_keys (m d).2).

Lemma on_service_blind {A} (m : st (SecService W) A) : blind (on_service m).
Proof. intros d. unfold on_service. cbn. by destruct (m (dp_service d)). Qed.
Lemma resolvePeer_blind fd : blind (resolvePeer fd).
Proof.
  intros d. unfold resolvePeer, on_host. cbn. destruct (dp_has_resolver d); [|done].
  by destruct (ih_resolve fd (dp_host d)).
Qed.
Lemma add_subscription_blind fd e : blind (add_subscription fd e).
Proof.
  intros d. unfold add_subscription, on_host. cbn. destruct (dp_has_add_subscription d); [|done].
  by destruct (ih_add_subscription fd e (dp_host d)).
Qed.
Lemma tls_call_blind {A} (m : st (TlsCredentialProvider (TlsWorld W)) A) : blind (tls_call m).
Proof. apply on_service_blind. Qed.

(** Follow a handler through its calls. *)
Local Ltac follow :=
  cbn [dp_service dp_tls dp_keys dp_time without_keys fst snd];
  repeat first
    [ done
    | match goal with
      | |- context [on_service ?m (without_keys ?d)] => rewrite (on_service_blind m d); destruct (on_service m d)
      | |- context [tls_call ?m (without_keys ?d)] => rewrite (tls_call_blind m d); destruct (tls_call m d)
      | |- context [resolvePeer ?fd (without_keys ?d)] => rewrite (resolvePeer_blind fd d); destruct (resolvePeer fd d)
      | |- context [add_subscription ?fd ?e (without_keys ?d)] =>
          rewrite (add_subscription_blind fd e d); destruct (add_subscription fd e d)
      end; cbn [fst snd]
    | case_match; cbn [fst snd] ].

Lemma initialize_blind fuel : blind (handle_initialize fuel).
Proof.
  intros d. unfold handle_initialize. cbn [dp_service without_keys]. rewrite (on_service_blind _ d).
  destruct (on_service (SecService.initialize fuel) d) as [r d']. cbn [fst snd]. by destruct (replaces_hsm _).
Qed.
Lemma inject_blind params : blind (handle_inject_certificate params).
Proof. intros d. unfold handle_inject_certificate. follow. Qed.
Lemma seed_blind params : blind (handle_get_seed params).
Proof. intros d. unfold handle_get_seed. follow. Qed.
Lemma verify_blind params : blind (handle_verify_key params).
Proof. intros d. unfold handle_verify_key. follow. Qed.
Lemma credential_blind params fd : blind (handle_get_tls_credential params fd).
Proof. intros d. unfold handle_get_tls_credential, authorized. follow. Qed.
Lemma state_blind params : blind (handle_get_tls_credential_state params).
Proof. intros d. unfold handle_get_tls_credential_state. follow. Qed.
Lemma sign_blind params fd : blind (handle_sign_tls params fd).
Proof. intros d. unfold handle_sign_tls. follow. Qed.
Lemma subscribe_blind params fd : blind (handle_subscribe_tls_credential_changed params fd).
Proof. intros d. unfold handle_subscribe_tls_credential_changed, authorized. follow. Qed.

Lemma handle_blind fuel id params fd : keys_or_time (method_of id) = false -> blind (handle fuel id params fd).
Proof.
  intros Hk. unfold handle. destruct (method_of id) as [[]|]; try done;
    first [apply initialize_blind|apply inject_blind|apply seed_blind|apply verify_blind|apply credential_blind
      |apply state_blind|apply sign_blind|apply subscribe_blind|intros d].
  all: unfold handle_generate_key_pair, handle_export_private_key, handle_get_csr, handle_submit_csr,
    handle_apply_certificate, handle_get_status, handle_get_device_info, handle_reset_status; follow.
Qed.

Lemma handle_refused fuel id params fd d : keys_or_time (method_of id) = true ->
  handle fuel id params fd (without_keys d) = (refuse NOT_IMPLEMENTED, without_keys d).
Proof. intros Hk. unfold handle. by destruct (method_of id) as [[]|]. Qed.

Lemma dispatch_without fuel id params fd d : dispatch fuel id params fd (without_keys d) =
  if keys_or_time (method_of id) then (reply_of (refuse NOT_IMPLEMENTED), without_keys d)
  else ((dispatch fuel id params fd d).1, without_keys (dispatch fuel id params fd d).2).
Proof.
  unfold dispatch. destruct (keys_or_time _) eqn:Hk; [by rewrite handle_refused|].
  rewrite handle_blind by done. by destruct (handle fuel id params fd d).
Qed.
End Without.

(* --------------------------------------------------------------------- *)
(** ** A run                                                              *)
(* --------------------------------------------------------------------- *)

Section Run.
Context {W F D E TE H : Type} `{L : X509Lib} `{World : !SecWorld W} `{Hsm : !HsmInterface W}
  `{FS : !FileSystem W} `{Crypto : SoftFileCrypto} `{Hash : Sha256} `{J : Json} `{JC : !JsonConstIndex}
  `{Aes : Aes128} `{LT : LocalTime} `{Ec : EcPoints} `{B : Base64}
  `{Env : !SoftFileEnv F} `{Store : !LedgerStore D} `{SEnv : !ServiceEnv E} `{PB : Protobuf} `{EC : EcP256}
  `{TEnv : !TimeEnv TE} `{Peer : !PeerEnv H} `{AW : !AppWorld W} `{LW : !LegacyWorld W}
  `{SL : !StoreLaws W} `{JL : !JsonLaws J}.
Notation App := (App W F D E TE H).
Notation Dispatcher := (SecIpcDispatcher W (KeyProvider F) D E (TimeService TE) (PeerResolver * H)).
Notation Legacy := (Legacy (W := W) (F := F) (D := D) (E := E) (TE := TE) (H := H)).
Implicit Types a : App.

(** Without a provider of trusted time no service of business keys is kept. *)
Lemma untimed_start_has_no_keys fuel k (s : SecService W) : (service_start (E := E) (D := D) (F := F) fuel false k s).2 = None.
Proof.
  unfold service_start. destruct (SecService.initialize fuel s) as [[[]| |] s']; try done. cbn.
  unfold initializeBusinessKeyProvisioning. destruct (sc_config_snapshot _) as [v|]; [|done].
  destruct (negb _); [done|]. by destruct (ks_ledger k).
Qed.

(** No keys, no source of time, and a dispatcher that was given neither. *)
Record plain a : Prop := {
  pl_keys : ap_keys a = None;
  pl_time : ap_time a = None;
  pl_stage : ap_stage a = StageNone;
  pl_wires w : ap_dispatcher a = Some w -> wd_keys w = Unset /\ wd_time w = false /\
    wd_key_peer w = "tbox-tsp.service"%string /\ wd_time_peers w = ["tbox-mqtt.service"%string]
}.

Lemma live_plain a d : plain a -> live_dispatcher a = Some d -> without_keys d = d.
Proof.
  intros [Hk Ht _ Hw]. unfold live_dispatcher. destruct (ap_server a) as [[]|], (ap_dispatcher a) as [w|] eqn:Ed,
    (ap_service a), (ap_resolver a); try done.
  destruct (Hw w eq_refl) as (-> & -> & -> & ->). by intros [= <-].
Qed.

Lemma serve_plain fuel id params fd a : plain a -> plain (serve fuel id params fd a).2.
Proof.
  intros Hp. unfold serve. destruct (live_dispatcher a) as [d|] eqn:El; [|done].
  pose proof (dispatch_without fuel id params fd d) as Hd. rewrite (live_plain a d Hp El) in Hd.
  destruct (live_parts a d El) as (w & s & r & _ & Ed & _ & _). destruct Hp as [Hk Ht Hst Hw].
  destruct (dispatch fuel id params fd d) as [rep d'].
  assert (E' : dp_keys d' = Unset /\ dp_time d' = None).
  { pose proof (live_plain a d (Build_plain a Hk Ht Hst Hw) El) as Hwd.
    destruct (keys_or_time _); injection Hd; [intros -> _; by rewrite <- Hwd|intros Hd']. by rewrite Hd'. }
  destruct E' as [Ek Et]. cbn. rewrite Ek, Et. split; cbn; try done.
  rewrite Ed. intros w' [= <-]. cbn. destruct (Hw w Ed) as (_ & Hwt & Hkp & Htp). by rewrite Hwt, Hkp, Htp.
Qed.

(** Steps that only take away. *)
Lemma leave_step_plain a n (f : App -> App) : leave_steps !! n = Some f -> plain a -> plain (f a).
Proof.
  intros Hf [Hk Ht Hst Hw]. assert (Hn : (n < 7)%nat) by (apply lookup_lt_Some in Hf; exact Hf).
  destruct n as [|[|[|[|[|[|[|n]]]]]]]; [..|lia]; injection Hf as <-; try (by split).
  - unfold quiesce. destruct (ap_service a); [|by split]. split; cbn; try done. by rewrite Hk.
  - unfold free_service. destruct (ap_service a); [|by split]. by split.
Qed.

(** What the end has taken away after its first steps. *)
Definition left (n : nat) a : Prop :=
  ((2 <= n)%nat -> ap_server a <> Some true) /\
  ((3 <= n)%nat -> ap_dispatcher a = None) /\
  ((4 <= n)%nat -> ap_server a = None) /\
  ((5 <= n)%nat -> ap_resolver a = None) /\
  ((6 <= n)%nat -> ap_service a = None /\ ap_keys a = None) /\
  ((7 <= n)%nat -> ap_prov a = false).

Lemma leave_step_owned a n (f : App -> App) : leave_steps !! n = Some f -> owned a -> left n a -> owned (f a).
Proof.
  intros Hf Hs (T2 & T3 & T4 & T5 & T6 & T7). assert (Hn : (n < 7)%nat) by (apply lookup_lt_Some in Hf; exact Hf).
  destruct n as [|[|[|[|[|[|[|n]]]]]]]; [..|lia]; injection Hf as <-.
  - by apply keeps_quiesce.
  - by apply keeps_stop_server.
  - apply free_dispatcher_owned; [done|apply T2; lia].
  - by apply keeps_free_server.
  - apply free_resolver_owned; [done|apply T2; lia].
  - apply free_service_owned; [done|apply T3; lia].
  - by apply keeps_free_prov.
Qed.

Lemma leave_step_left a n (f : App -> App) : leave_steps !! n = Some f -> owned a -> left n a -> left (S n) (f a).
Proof.
  intros Hf Hs (T2 & T3 & T4 & T5 & T6 & T7). assert (Hn : (n < 7)%nat) by (apply lookup_lt_Some in Hf; exact Hf).
  destruct (free_service_rest a) as (R1 & R2 & R3 & R4 & R5). pose proof (free_service_gone a Hs) as Hg.
  destruct n as [|[|[|[|[|[|[|n]]]]]]]; [..|lia]; injection Hf as <-; unfold left; split_and!; intros ?; try lia;
    rewrite ?R1, ?R2, ?R3, ?R4, ?R5; cbn;
    first [exact Hg|apply not_running|apply T2; lia|apply T3; lia|apply T4; lia|apply T5; lia|apply T6; lia|done].
Qed.

Lemma serve_left n fuel id params fd a : left n a -> left n (serve fuel id params fd a).2.
Proof.
  intros Ht. destruct (live_dispatcher a) as [d|] eqn:El; [|by rewrite serve_idle].
  destruct (live_parts a d El) as (w & s & r & Es & _). destruct (decide (2 <= n)%nat) as [Hn|Hn].
  - by destruct Ht as [Ht _]; destruct (Ht Hn).
  - unfold left. split_and!; intros ?; lia.
Qed.

(** What holds while the process runs. A signal was received before the loop is left. *)
Record steady (x : Legacy) : Prop := {
  ss_owned : owned (lg_app x);
  ss_plain : plain (lg_app x);
  ss_left n : lg_leaving x = Some n -> left n (lg_app x) /\ lg_shutdown_requested x = true /\
    (n <= length (leave_steps : list (App -> App)))%nat;
  ss_signal : lg_shutdown_requested x = true -> lg_received_signal x ∈ [SIGINT; SIGTERM]
}.

Lemma pass_steady x : steady x -> steady (main_pass x).
Proof.
  intros [Hs Hp Hl Hsig]. unfold main_pass. destruct (lg_leaving x) as [n|] eqn:En.
  - destruct (leave_steps !! n) as [f|] eqn:Ef; [|by (split; [done|done|by rewrite En|done])]. destruct (Hl n eq_refl) as (Hn & Hr & Hlt).
    split; cbn; [by eapply leave_step_owned|by eapply leave_step_plain| |done].
    intros m [= <-]. split; [by eapply leave_step_left|]. split; [done|]. by apply lookup_lt_Some in Ef.
  - destruct (lg_shutdown_requested x) eqn:Er; [|by (split; [done|done|by rewrite En|by rewrite Er])]. split; cbn; [done|done| |auto].
    intros n [= <-]. split; [|split; [done|lia]]. unfold left. split_and!; intros ?; lia.
Qed.

Lemma step_steady ok x y : legacy_step ok x y -> steady x -> steady y.
Proof.
  intros Hstep Hx. destruct Hstep as [fuel id params fd x _|sig x Hsig|x]; [| |by apply pass_steady]; destruct Hx as [Hs Hp Hl Hr].
  - split; cbn; [by apply serve_owned|by apply serve_plain| |done].
    intros n Hn. destruct (Hl n Hn) as (Hn' & Hrest). split; [by apply serve_left|done].
  - split; cbn; try done. intros n Hn. by destruct (Hl n Hn) as (? & _ & ?).
Qed.

Lemma run_steady ok x y : rtc (legacy_step ok) x y -> steady x -> steady y.
Proof. induction 1 as [|x y z Hxy _ IHr]; [done|]. intros Hx. by apply IHr, (step_steady ok x y). Qed.

(** The pointers of the dispatcher, while nobody asks for a second start. *)
Lemma leave_step_alive a n (f : App -> App) : leave_steps !! n = Some f -> alive a -> left n a -> alive (f a).
Proof.
  intros Hf Ha (_ & T3 & _). assert (Hn : (n < 7)%nat) by (apply lookup_lt_Some in Hf; exact Hf).
  destruct n as [|[|[|[|[|[|[|n]]]]]]]; [..|lia]; injection Hf as <-; try exact Ha.
  - by apply quiesce_alive.
  - by apply alive_no_dispatcher.
  - apply free_service_alive, T3. lia.
Qed.

Lemma step_alive (ok : Z -> Prop) x y : (forall id, ok id -> no_restart id) ->
  legacy_step ok x y -> steady x -> alive (lg_app x) -> alive (lg_app y).
Proof.
  intros Hok Hstep Hx Ha. destruct Hstep as [fuel id params fd x Hid|sig x Hsig|x]; [|done|].
  - apply serve_alive; [by apply Hok|by destruct Hx|done].
  - unfold main_pass. destruct (lg_leaving x) as [n|] eqn:En; [|by destruct (lg_shutdown_requested x)].
    destruct (leave_steps !! n) as [f|] eqn:Ef; [|done].
    apply (leave_step_alive _ n); [done|done|]. by apply (ss_left x Hx).
Qed.

Lemma legacy_run_alive (ok : Z -> Prop) x y : (forall id, ok id -> no_restart id) ->
  rtc (legacy_step ok) x y -> steady x -> alive (lg_app x) -> alive (lg_app y).
Proof.
  intros Hok. induction 1 as [|x y z Hxy _ IHr]; [done|]. intros Hx Ha.
  apply IHr; [by eapply step_steady|by eapply step_alive].
Qed.

Lemma steady_exit x : steady x -> forall code, legacy_exit x = Some code ->
  code = 0 /\ lg_received_signal x ∈ [SIGINT; SIGTERM] /\ gone (lg_app x).
Proof.
  intros [_ Hp Hl Hsig] code. unfold legacy_exit. destruct (lg_leaving x) as [n|] eqn:En; [|done].
  case_decide as Hd; [|done]. intros [= <-]. destruct (Hl n eq_refl) as ((T2 & T3 & T4 & T5 & T6 & T7) & Hr & _).
  rewrite Hd in *. cbn in T3, T4, T5, T6, T7. destruct T6 as [Hsv Hk]; [lia|].
  split; [done|]. split; [by apply Hsig|]. split; try done; [apply Hp|apply T7|apply T5|apply T3|apply T4]; lia.
Qed.

(** Once a signal was received the main thread ends by itself. *)
Lemma pass_moves (x : Legacy) n : lg_leaving x = Some n -> (n < length (leave_steps : list (App -> App)))%nat ->
  lg_leaving (main_pass x) = Some (S n).
Proof.
  intros Hn Hlt. destruct (lookup_lt_is_Some_2 (leave_steps : list (App -> App)) n Hlt) as [f Hf].
  unfold main_pass. by rewrite Hn, Hf.
Qed.

Lemma passes_reach m (x : Legacy) n : lg_leaving x = Some n -> (n + m <= length (leave_steps : list (App -> App)))%nat ->
  lg_leaving (Nat.iter m main_pass x) = Some (n + m)%nat.
Proof.
  intros Hn. induction m as [|m IHm]; intros Hm; [by rewrite Nat.add_0_r|].
  rewrite Nat.iter_succ, Nat.add_succ_r. apply pass_moves; [apply IHm|]; lia.
Qed.

Lemma passes_end (x : Legacy) n : lg_leaving x = Some n -> (n <= length (leave_steps : list (App -> App)))%nat ->
  legacy_exit (Nat.iter (length (leave_steps : list (App -> App)) - n) main_pass x) = Some 0.
Proof.
  intros Hn Hle. unfold legacy_exit. rewrite (passes_reach _ x n Hn) by lia. apply decide_True. lia.
Qed.

(* --------------------------------------------------------------------- *)
(** ** The start                                                          *)
(* --------------------------------------------------------------------- *)

(** How a start ends: serving with every part, with status 1 and nothing left, or not at all - an
    exception that nothing catches ends the process without running its destructors, with the parts
    built by then, but before there is a resolver, a dispatcher or a server. *)
Definition legacy_started (r : LegacyStart) a : Prop :=
  match r with
  | Serving => sound a /\ plain a /\ is_Some (live_dispatcher a)
  | Exits code => code = 1 /\ gone a
  | Terminated | NeverStarts => idle a
  end.

(** Before the dispatcher: nothing serves, and there is nothing of keys and time. *)
Record early a : Prop := {
  ea_idle : idle a;
  ea_keys : ap_keys a = None;
  ea_time : ap_time a = None;
  ea_stage : ap_stage a = StageNone
}.

Lemma in_world_early {A} (m : st W A) a : early a -> early (in_world m a).2.
Proof.
  intros [Hi Hk Ht Hs]. destruct (ap_service a) as [s|] eqn:Es.
  - destruct (in_world_service m a s Es) as (r & w & ->). by split.
  - destruct (in_world_no_service m a Es) as (r & w & ->). by split.
Qed.

Lemma leave_started code a : code = 1 -> ap_server a <> Some true -> ap_keys a = None -> ap_stage a = StageNone ->
  legacy_started (leave code a).1 (leave code a).2.
Proof.
  intros -> Hs Hk Hst. split; [done|]. destruct a as [stage prov srv keys res disp server t w h]. cbn in *. subst.
  by destruct srv.
Qed.

Lemma early_leaves a : early a -> legacy_started (leave 1 a).1 (leave 1 a).2.
Proof. intros [(Hs & _) Hk _ Hst]. apply leave_started; [done|by rewrite Hs|done|done]. Qed.

Lemma legacy_server_started v a s r w : ap_service a = Some s -> ap_resolver a = Some r -> ap_dispatcher a = Some w ->
  wd_tls w = match sv_tls s with Some _ => Live tt | None => Unset end ->
  plain a -> legacy_started (legacy_server v a).1 (legacy_server v a).2.
Proof.
  destruct a as [stage prov srv keys res disp server t wo h]. cbn. intros -> -> -> Htls [Hk Ht Hst Hw]. cbn in *. subst.
  unfold legacy_server, in_world. cbn. destruct (aw_server_start _ _) as [[] wo']; cbn -[leave].
  - destruct (Hw w eq_refl) as (Hwk & Hwt & Hwp & Hwl). split; [split|split; [|by eexists]].
    + split; cbn; try done; try (by eexists); [intros w' [= <-]; cbn; congruence|].
      intros w' u [= <-]. cbn. congruence.
    + intros w' [= <-]. cbn. rewrite Hwk, Htls. split; [by destruct (sv_tls s)|]. split; [done|].
      destruct (sv_tls s) eqn:Es; [|done]. intros _. eexists. split; [done|]. cbn. by rewrite Es.
    + split; cbn; try done. intros w' [= <-]. done.
  - by apply leave_started.
Qed.

Lemma legacy_service_started fuel v k a : early a ->
  legacy_started (legacy_service fuel v k a).1 (legacy_service fuel v k a).2.
Proof.
  intros [(Hs & Hd & Hr) Hk Ht Hst]. unfold legacy_service.
  pose proof (untimed_start_has_no_keys fuel k (sec_service_new (service_config v) (ap_world a))) as Hn.
  destruct (service_start fuel false k _) as [[r s] keys]. cbn in Hn. subst keys.
  assert (Hserver : ap_server (ap_with_keys None (ap_with_service (Some s) a)) = None) by exact Hs.
  destruct r as [rc| |]; [|by split..].
  destruct rc; first [apply leave_started; [done|rewrite Hserver; done|done|exact Hst]|idtac].
  eapply legacy_server_started; [done..|]. split; cbn; try done. by intros w [= <-].
Qed.

Lemma legacy_parts_started fuel v k a : early a -> legacy_started (legacy_parts fuel v k a).1 (legacy_parts fuel v k a).2.
Proof.
  intros He. unfold legacy_parts. set (b := ap_with_prov true a).
  assert (Hb : early b) by (destruct He; by split). clearbody b.
  pose proof (in_world_early (aw_prov_initialize (cv_getString v "prov.socket_path" "/tmp/tbox-prov.sock")) b Hb) as H1.
  destruct (in_world (aw_prov_initialize _) b) as [rc c]. cbn in H1. destruct (is_success rc); cbn [negb]; [|by apply early_leaves].
  pose proof (in_world_early (aw_store_open (cv_getString v "common.store.root" "/var/lib/tbox")) c H1) as H2.
  destruct (in_world (aw_store_open _) c) as [opened e]. cbn in H2. destruct opened; cbn [negb].
  - by apply legacy_service_started.
  - by destruct H2.
Qed.

Lemma legacy_start_ends fuel argv k w h : let '(r, a) := legacy_start fuel argv k (legacy_new w h) in legacy_started r a.
Proof.
  assert (H0 : early (legacy_new w h : App)) by by split. unfold legacy_start.
  pose proof (in_world_early install_signal_handlers _ H0) as H1.
  destruct (in_world install_signal_handlers (legacy_new w h)) as [ok a]. cbn in H1.
  destruct ok; cbn [negb]; [|exact (early_leaves a H1)].
  pose proof (in_world_early (lw_config_load
    (match argv with r :: _ => if str_empty r then None else Some r | [] => None end)) a H1) as H2.
  destruct (in_world (lw_config_load _) a) as [cfg b]. cbn in H2. destruct cfg as [v|]; [|exact (early_leaves b H2)].
  pose proof (in_world_early (lw_log_init (log_level v)) b H2) as H3.
  destruct (in_world (lw_log_init _) b) as [ok c]. cbn in H3. destruct ok; cbn [negb]; [|exact (early_leaves c H3)].
  pose proof (legacy_parts_started fuel v k c H3) as H4. by destruct (legacy_parts fuel v k c).
Qed.

Lemma serving_steady fuel argv k w h a : legacy_start fuel argv k (legacy_new w h) = (Serving, a) ->
  steady (legacy_serving a) /\ alive a.
Proof.
  intros Es. pose proof (legacy_start_ends fuel argv k w h) as He. rewrite Es in He. destruct He as ([Ho Ha] & Hp & _).
  by split.
Qed.


(** C32. The hand-written entry point is not the equal of the application it is kept to replace. In every
    state it reaches, a request answered by its dispatcher is answered, method by method, as the
    application's dispatcher answers it that has the same service, TLS provider, resolver and host -
    same text, same service and host afterwards - unless the method is one of the six of the business
    keys or the two of trusted time: those are refused with NOT_IMPLEMENTED to every caller, and
    change nothing, whatever the configuration says. *)
Theorem legacy_serves_less fuel argv k w h a x d :
  legacy_start fuel argv k (legacy_new w h) = (Serving, a) -> rtc (legacy_step any_method) (legacy_serving a) x ->
  live_dispatcher (lg_app x) = Some d ->
  dp_keys d = Unset /\ dp_time d = None /\
  forall d0 n id params fd, dp_service d0 = dp_service d -> dp_tls d0 = dp_tls d -> dp_host d0 = dp_host d ->
    dp_has_resolver d0 = dp_has_resolver d -> dp_has_add_subscription d0 = dp_has_add_subscription d ->
    dispatch n id params fd d =
      if keys_or_time (method_of id) then (reply_of (refuse NOT_IMPLEMENTED), d)
      else let '(r, d1) := dispatch n id params fd d0 in (r, without_keys d1).
Proof.
  intros Es Hrun Hl. pose proof (run_steady _ _ _ Hrun (proj1 (serving_steady _ _ _ _ _ _ Es))) as Hx.
  pose proof (live_plain _ d (ss_plain x Hx) Hl) as Hd. split; [by rewrite <- Hd|]. split; [by rewrite <- Hd|].
  intros d0 n id params fd E1 E2 E3 E4 E5.
  assert (E0 : without_keys d0 = d) by (rewrite <- Hd; unfold without_keys; congruence).
  rewrite <- E0, dispatch_without. destruct (keys_or_time _); [done|]. by destruct (dispatch n id params fd d0).
Qed.

(* --------------------------------------------------------------------- *)
(** ** Time that was never set                                            *)
(* --------------------------------------------------------------------- *)

Lemma unset_time_untrusted (e : TE) : is_trusted (composite_now (getTrustedTimeProvider None e)).1 = false.
Proof. done. Qed.

Lemma untrusted_validates_nothing (smp : TrustedTimeSample) k u leaf (w0 w : W) (now : st W TrustedTimeSample) :
  is_trusted (now w).1 = false -> is_success (validate_certificate now k u leaf w0 w).1.1 = false.
Proof.
  intros Hn. unfold validate_certificate. destruct (negb _); [done|]. destruct (now w) as [t w'].
  cbn in Hn. unfold check_certificate_validity. by rewrite Hn.
Qed.

(** The service of this entry point checks certificates by the provider that was never set, and so
    installs none. *)
Lemma unset_time_installs_nothing payload (s : SecService W) :
  (forall w : W, exists e : TE, (sw_trusted_now w).1 = (composite_now (getTrustedTimeProvider None e)).1) ->
  sv_has_diag s = false -> (inject_certificate payload s).1 <> Some SUCCESS.
Proof.
  intros Ht Hd. unfold inject_certificate. destruct (negb (sv_initialized s)); [done|].
  destruct (sv_shutting_down s); [done|].
  pose proof (ensure_vehicle_info_kept s) as K. destruct (ensure_vehicle_info s) as [rc s1]. cbn [snd] in K.
  destruct (is_success rc) eqn:Er; cbn [negb]; [|intros [= ->]; done]. destruct (negb _ && _ && _); [done|].
  pose proof (kt_wiring _ _ K) as Hw. injection Hw as _ _ _ Hd1 _ _ _ _. rewrite Hd1, Hd.
  assert (Hv : forall rc' s', validate_and_store_certificate payload s1 = (Some rc', s') -> is_success rc' = false).
  { intros rc' s'. unfold validate_and_store_certificate. destruct (parse payload default_limits) as [chain|]; [|by intros [= <-]].
    destruct (is_success (rejectRootInjectedIntoChain chain s1)) eqn:Erc; cbn [negb]; [|by intros [= <-]].
    destruct (pc_leaf chain) as [leaf|]; [|by intros [= <-]]. unfold on_world.
    destruct (Ht (sv_world s1)) as [e He].
    pose proof (untrusted_validates_nothing (sw_trusted_now (sv_world s1)).1 (engine s1) (sv_ecu_uid s1) leaf
      (sv_world s1) (sv_world s1) sw_trusted_now) as Hu. rewrite He in Hu. specialize (Hu (unset_time_untrusted e)).
    destruct (validate_certificate _ _ _ _ _ _) as [[rc1 valid] w']. cbn in Hu. rewrite Hu. cbn. by intros [= <-]. }
  destruct (validate_and_store_certificate payload s1) as [[rc'|] s2] eqn:Ev; [|done].
  specialize (Hv rc' s2 eq_refl). rewrite Hv. cbn [negb]. intros [= ->]. done.
Qed.
End Run.
