(* ===== verification/LegacySample.v ===== *)
(** * LegacySample: the bench of [AppSample] under the hand-written entry point.
    Started, asked, signalled and ended; the witnesses of the theorems of [LegacyProps]. *)
From S2P Require Import Prelude Errors Canonical KeyTypes Envelope Json X509 RetryPolicy Provider Ledger SoftFile SoftFileProps TimeTypes TrustedTime TimeMonitor TimeProps Provisioning Import ImportSample HsmProvider Tls CertStore CertStoreProps KeyEngine Csr CertChain CertCheck SecService SecSample Assembly AssemblySample IpcCodec IpcWire IpcDispatcher SecClient IpcProps Peers Application AppProps AppRun AppSample Legacy LegacyProps.

Module LegacySample.
Import JsonSample X509Sample ImportSample SecSample AppSample.
#[local] Existing Instance toy_sha256.
#[local] Existing Instance PeerSample.one_process.

#[export] Instance sworld_legacy : LegacyWorld sworld := {|
  lw_sigaction sig w := (true, w);
  lw_config_load root w := (Some bench, w);
  lw_log_init level w := (true, w)
|}.

Abbreviation begun := (legacy_start (TE := TimeSample.tworld) 1 [] surroundings
  (legacy_new (F := SoftFileSample.world) (D := LedgerSample.disk) (E := ImportSample.device)
     (world0 : sworld) (PeerSample.group_of "tbox-mqtt.service"))).

Example begins : begun.1 = Serving /\ is_Some (live_dispatcher begun.2).
Proof. split; [vm_compute; reflexivity|]. apply (bool_decide_unpack _). vm_compute. exact I. Qed.

(** Signalled, and with the first pass of the main thread after that. *)
Definition seen {W F D E TE H} `{J : Json} (a : App W F D E TE H) := main_pass (signal_handler SIGTERM (legacy_serving a)).

Lemma seen_reached ok a : rtc (legacy_step ok) (legacy_serving a) (seen a).
Proof.
  eapply rtc_l; [exact (LegacySignal ok SIGTERM (legacy_serving a) ltac:(set_solver))|].
  exact (rtc_once _ _ (LegacyPass ok (signal_handler SIGTERM (legacy_serving a)))).
Qed.


(** What an application that has a fake clock would tell the MQTT daemon is refused here. *)
Lemma legacy_serves_less_witness : exists d, live_dispatcher begun.2 = Some d /\
  (dispatch 1 24 "{}" 1 d).1 = reply_of (refuse NOT_IMPLEMENTED).
Proof.
  pose proof (fun a d => legacy_serves_less (TE := TimeSample.tworld) 1 [] surroundings (world0 : sworld)
    (PeerSample.group_of "tbox-mqtt.service") a (legacy_serving a) d) as Hs. revert Hs. generalize begins.
  generalize begun. intros [r a] [Er [d Hd]] Hs. cbn [fst snd] in *. exists d. split; [exact Hd|].
  destruct (Hs a d) as (_ & _ & Hs'); [by rewrite Er|apply rtc_refl|exact Hd|].
  rewrite (Hs' d 1%nat 24 "{}"%string 1) by reflexivity. reflexivity.
Defined.
End LegacySample.
