(* ===== verification/IpcRemote.v ===== *)
(** * IpcRemote: the client library over the dispatcher.
    A connection that delivers: every request reaches the dispatcher once and its
    answer comes back. Over it a call of the client has the result and the effect of
    the call of the service it stands for. *)
From S2P Require Import Prelude Errors Canonical Json KeyTypes X509 RetryPolicy TimeTypes TrustedTime TimeMonitor Envelope Provider Ledger SoftFile Provisioning Import Tls CertStore KeyEngine Csr CertChain CertCheck SecService SeedProps SecFrame ProvisionProps IpcCodec IpcWire IpcDispatcher SecClient IpcProps.

(** An answer that is not JSON counts as a success: with it a wrong key is taken for a
    right one, whatever the connection. *)
Lemma unreadable_answer_is_success {C} `{Conn : IpcConnection C} `{J : Json} `{B : Base64} level key c c' text :
  (forall params, ic_callOnce (method_value VERIFY_KEY) params c = ((0, text), c')) -> json_parse text = None ->
  client_verify_key level key c = (error_code_value SUCCESS, c').
Proof.
  intros Hc Ht. unfold client_verify_key, command, send_request.
  change (should_retry (method_value VERIFY_KEY)) with false. cbv iota. rewrite Hc. cbn. by rewrite Ht.
Qed.

Section Remote.
Context {W P D E T H : Type} `{L : X509Lib} `{World : !SecWorld W} `{Hsm : !HsmInterface W}
  `{FS : !FileSystem W} `{Crypto : SoftFileCrypto} `{Hash : Sha256} `{J : Json}
  `{JL : !JsonLaws J} `{JC : !JsonConstIndex} `{Aes : Aes128} `{LT : LocalTime} `{Ec : EcPoints}
  `{B : Base64} `{BL : !Base64Laws B} `{Prov : !BusinessKeyProvider P} `{Store : !LedgerStore D}
  `{SEnv : !ServiceEnv E} `{PB : Protobuf} `{EC : EcP256} `{TS : !TrustedTimeSnapshotSource T}
  `{Host : !IpcHost H}.
Notation Dispatcher := (SecIpcDispatcher W P D E T H).
Implicit Types d : Dispatcher.
Variables (fuel : nat) (fd : Z).

(** The framework's status is 0 when there is an answer. *)
Definition deliver (id : Z) (params : string) : st Dispatcher (Z * string) := fun d =>
  let '(r, d) := dispatch fuel id params fd d in
  (match r with Response text => (0, text) | _ => (-1, ""%string) end, d).
#[local] Instance link : IpcConnection Dispatcher := {| ic_call := deliver; ic_callOnce := deliver |}.

Definition int32 (z : Z) : Prop := - 2 ^ 31 <= z < 2 ^ 31.
Lemma code_int32 rc : int32 (error_code_value rc).
Proof. by destruct rc. Qed.

(** The text of an answer, with its status. *)
Definition text_of (z : Z) (body : json) : string := json_dump (json_set body "status" (json_int z)).

Lemma send_answer m params d z body d' :
  handle fuel (method_value m) params fd d = (Answer z body, d') -> json_is_object body = true -> int32 z ->
  send_request m params d = (Some (z, text_of z body), d').
Proof.
  intros Eh Hb Hz. unfold send_request.
  replace (if should_retry _ then _ else _) with (deliver (method_value m) params d) by (by destruct (should_retry _)).
  unfold deliver. rewrite (dispatch_answer _ _ _ _ _ _ _ _ Eh). cbn. rewrite json_parse_dump. cbn.
  unfold value_i32, value_int, json_value. rewrite json_set_is_object, json_get_set by done.
  rewrite as_int_int by (unfold int32, is_i64 in *; lia). cbn. by rewrite wrap_i32_small.
Qed.

Lemma read_text {A} (z : Z) body (f : json -> option A) :
  json_parse (text_of z body) ≫= f = f (json_set body "status" (json_int z)).
Proof. unfold text_of. by rewrite json_parse_dump. Qed.

Lemma sent_string fs k v dflt n : field_lookup k fs = Some (json_string v) -> k <> "status"%string ->
  value_string (json_set (json_of_fields fs) "status" (json_int n)) k dflt = Some v.
Proof.
  intros Hl Hk. change (json_set _ _ _) with (with_status n fs). unfold value_string.
  rewrite (value_with_status as_string n fs k dflt Hk), Hl. apply as_string_string.
Qed.

(* --------------------------------------------------------------------- *)
(** ** The device certificate and the seed                                *)
(* --------------------------------------------------------------------- *)

(** The calls of the client that deliver a code and perhaps some bytes. *)
Inductive RemoteCall :=
  | RGenerateKeyPair | RExportPrivateKey | RGetCsr | RSubmitCsr | RInjectCertificate (cert : bytes)
  | RApplyCertificate | RGetSeed (level : Z) | RVerifyKey (level : Z) (key : bytes) | RResetStatus.

Definition no_bytes {S} (m : st S Z) : st S (Z * bytes) := fun s => let '(z, s) := m s in ((z, []), s).

Definition remote (c : RemoteCall) : st Dispatcher (Z * bytes) :=
  match c with
  | RGenerateKeyPair => no_bytes client_generate_key_pair
  | RExportPrivateKey => client_export_private_key []
  | RGetCsr => client_get_csr []
  | RSubmitCsr => no_bytes client_submit_csr
  | RInjectCertificate cert => no_bytes (client_inject_certificate cert)
  | RApplyCertificate => no_bytes client_apply_certificate
  | RGetSeed level => client_get_seed level []
  | RVerifyKey level key => no_bytes (client_verify_key level key)
  | RResetStatus => no_bytes client_reset_provision_status
  end.

(** The same calls made directly. *)
Definition coded (m : st (SecService W) ErrorCode) : st (SecService W) (Z * bytes) := fun s =>
  let '(rc, s) := m s in ((error_code_value rc, []), s).
Definition yielding (m : st (SecService W) (ErrorCode * bytes)) : st (SecService W) (Z * bytes) := fun s =>
  let '((rc, b), s) := m s in ((error_code_value rc, if is_success rc then b else []), s).

Definition local (c : RemoteCall) : st (SecService W) (Z * bytes) :=
  match c with
  | RGenerateKeyPair => coded generate_key_pair
  | RExportPrivateKey => yielding export_private_key
  | RGetCsr => yielding get_csr
  | RSubmitCsr => coded submit_csr
  | RInjectCertificate [] => coded (fun s => (INVALID_PARAMETER, s))
  | RInjectCertificate cert => fun s =>
      let '(r, s) := inject_certificate cert s in
      ((match r with Some rc => error_code_value rc | None => FW_SERIALIZATION_FAILED end, []), s)
  | RApplyCertificate => coded apply_certificate
  | RGetSeed level => yielding (get_seed level)
  | RVerifyKey level [] => coded (fun s => (INVALID_PARAMETER, s))
  | RVerifyKey level key => coded (verify_key level key)
  | RResetStatus => coded reset_provision_status
  end.

(** A level is a [uint8_t]. *)
Definition call_ok (c : RemoteCall) : Prop :=
  match c with RGetSeed level | RVerifyKey level _ => 0 <= level < 256 | _ => True end.

Lemma on_service_here d : on_service (coded (fun s => (INVALID_PARAMETER, s))) d =
  ((error_code_value INVALID_PARAMETER, []), d).
Proof. unfold on_service, coded. cbn. by destruct d. Qed.

Lemma command_answer m params d z body d' :
  handle fuel (method_value m) params fd d = (Answer z body, d') -> json_is_object body = true -> int32 z ->
  no_bytes (command m params) d = ((z, []), d').
Proof. intros Eh Hb Hz. unfold no_bytes, command. by rewrite (send_answer _ _ _ _ _ _ Eh). Qed.

(** A command whose handler only reports the code. *)
Lemma command_coded m params d (f : st (SecService W) ErrorCode) :
  handle fuel (method_value m) params fd d = (let '(rc, d) := on_service f d in (answer_code rc, d)) ->
  no_bytes (command m params) d = on_service (coded f) d.
Proof.
  intros Eh. unfold on_service, coded in *. destruct (f (dp_service d)) as [rc s].
  eapply command_answer; [exact Eh|apply json_of_fields_object|apply code_int32].
Qed.

(** A call whose handler delivers bytes under [field]. *)
Lemma fetch_yielding m params field d (f : st (SecService W) (ErrorCode * bytes)) :
  handle fuel (method_value m) params fd d =
    (let '((rc, b), d) := on_service f d in (answer_with rc [(field, json_string (b64_encode b))], d)) ->
  field <> "status"%string -> fetch m params field [] d = on_service (yielding f) d.
Proof.
  intros Eh Hf. unfold on_service, yielding in *. destruct (f (dp_service d)) as [[rc b] s]. unfold fetch.
  rewrite (send_answer _ _ _ _ _ _ Eh) by (apply json_of_fields_object || apply code_int32).
  destruct (is_success rc) eqn:Es.
  - apply is_success_true in Es as ->. change (error_code_value SUCCESS =? 0) with true. cbv iota. rewrite read_text.
    rewrite (sent_string _ _ (b64_encode b)); [by rewrite b64_roundtrip| |done].
    cbn. by rewrite String.eqb_refl.
  - destruct (error_code_value rc =? 0) eqn:E0; [|done]. by destruct rc.
Qed.

Lemma b64_encode_empty b : str_empty (b64_encode b) = bytes_empty b.
Proof.
  destruct b as [|x b]; cbn.
  - unfold b64_encode. cbn. by rewrite (proj2 (base64_encode_empty "") eq_refl).
  - destruct (str_empty _) eqn:Es; [|done]. apply str_empty_true in Es. unfold b64_encode in Es.
    apply (proj1 (base64_encode_empty _)), (f_equal bytes_of_string) in Es. by rewrite String.list_byte_of_string_of_list_byte in Es.
Qed.

Lemma value_u8_fields fs k z : field_lookup k fs = Some (json_int z) -> 0 <= z < 256 ->
  value_u8 (json_of_fields fs) k = Some z.
Proof.
  intros Hl Hz. unfold value_u8, value_i32, value_int. rewrite json_value_fields, Hl.
  rewrite as_int_int by (unfold is_i64; lia). cbn. rewrite wrap_i32_small by lia.
  unfold wrapu. by rewrite Z.mod_small.
Qed.

(** C13. The client over the dispatcher refines the service. A call of the client library
    returns the code, and the bytes, that the call on the service returns, and leaves
    the service in the state that call leaves it in: base64, JSON, the status field and
    the retry rule lose nothing and add nothing. Only an empty certificate and an empty
    key are turned down before the service sees them. *)
Theorem remote_is_local c d : call_ok c -> remote c d = on_service (local c) d.
Proof.
  intros Hc. destruct c; cbn [remote local call_ok] in *.
  - by apply command_coded.
  - by apply fetch_yielding.
  - by apply fetch_yielding.
  - by apply command_coded.
  - assert (Eh : handle_inject_certificate
        (json_dump (json_of_fields [("cert"%string, json_string (b64_encode cert))])) d =
      if bytes_empty cert then (refuse_because INVALID_PARAMETER "Missing cert parameter", d) else
      let '(r, d) := on_service (inject_certificate cert) d in
      (match r with Some rc => answer_code rc | None => invalid_json end, d)).
    { unfold handle_inject_certificate. rewrite json_parse_dump. cbn [mbind option_bind].
      rewrite (value_string_fields _ _ (b64_encode cert)) by done. by rewrite b64_encode_empty, b64_roundtrip. }
    destruct cert as [|x cert]; cbn [bytes_empty] in Eh.
    { rewrite on_service_here. eapply command_answer; [exact Eh|apply json_of_fields_object|done]. }
    unfold on_service in *. destruct (inject_certificate _ _) as [[rc|] s].
    all: eapply command_answer; [exact Eh|apply json_of_fields_object|first [apply code_int32|done]].
  - by apply command_coded.
  - apply fetch_yielding; [|done]. change (handle _ _ ?p _ d) with (handle_get_seed p d). unfold handle_get_seed. rewrite json_parse_dump. cbn [mbind option_bind].
    by rewrite (value_u8_fields _ _ level).
  - assert (Eh : handle_verify_key (json_dump (json_of_fields
        [("level"%string, json_int level); ("key"%string, json_string (b64_encode key))])) d =
      if bytes_empty key then (refuse_because INVALID_PARAMETER "Missing key parameter", d) else
      let '(rc, d) := on_service (verify_key level key) d in (answer_code rc, d)).
    { unfold handle_verify_key. rewrite json_parse_dump. cbn [mbind option_bind].
      rewrite (value_u8_fields _ _ level) by done. cbn [mbind option_bind].
      rewrite (value_string_fields _ _ (b64_encode key)) by done. cbn [mbind option_bind].
      by rewrite b64_encode_empty, b64_roundtrip. }
    destruct key as [|x key]; cbn [bytes_empty] in Eh; [|by apply command_coded].
    rewrite on_service_here. eapply command_answer; [exact Eh|apply json_of_fields_object|done].
  - by apply command_coded.
Qed.

(* --------------------------------------------------------------------- *)
(** ** Business keys                                                      *)
(* --------------------------------------------------------------------- *)

(** The answer of a business-key method to the peer it is for. *)
Lemma with_keys_run {A} (a : A) run b d : dp_keys d = Live b -> key_peer (resolvePeer fd d).1 d = true ->
  with_keys fd (Some a) run d = ((run a b).1, dp_with_keys (Live (run a b).2) (resolvePeer fd d).2).
Proof.
  intros Hk Hp. unfold with_keys. rewrite Hk. destruct (resolve_only_host fd d) as [h Eh]. rewrite Eh.
  change (key_peer ?c (dp_with_host h d)) with (key_peer c d). rewrite Hp. cbn. by destruct (run a b).
Qed.

Lemma text_not_empty z body : str_empty (text_of z body) = false.
Proof.
  destruct (str_empty _) eqn:Es; [|done]. apply str_empty_true in Es.
  pose proof (json_parse_dump (json_set body "status" (json_int z))) as Hp. unfold text_of in Es.
  by rewrite Es, json_parse_empty in Hp.
Qed.

(** The fields an attachment adds are none of the result's. *)
Lemma attachment_apart a k v : field_lookup k (attachment_fields a) = Some v ->
  k ∉ ["request_id"; "business_domain"; "state"; "state_code"; "items"; "committed_at_ms";
       "provider_version_digest"; "import_proof"; "proof_algorithm"; "binding_certificate_digest"]%string.
Proof.
  unfold attachment_fields. rewrite field_lookup_app, field_lookup_if. intros Hl Hk.
  rewrite !elem_of_cons in Hk.
  destruct Hk as [->|[->|[->|[->|[->|[->|[->|[->|[->|[->|Hk]]]]]]]]]]; [cbn in Hl; discriminate Hl..|by inversion Hk].
Qed.

(** Whatever the code, the client reads the result the service gave. *)
Lemma result_arrives definite request_id rc r a :
  result_ok r -> a = [] \/ (exists x, a = attachment_fields x) ->
  read_result definite request_id (text_of (error_code_value rc) (import_answer rc r a)) = (true, r).
Proof.
  intros Hr Ha. unfold read_result. rewrite text_not_empty.
  change (text_of ?z (import_answer rc r a)) with (json_dump (with_status z (answer_fields rc r a))).
  assert (Hread : import_result_from_json (with_status (error_code_value rc) (answer_fields rc r a))
    (fresh_result request_id) = (true, r)).
  { apply result_read; [done|]. intros k v Hl. destruct Ha as [->|[x ->]]; [done|by eapply attachment_apart]. }
  unfold read_json. rewrite json_parse_dump. unfold fresh_result in Hread. destruct definite; [done|].
  unfold upd_when, json_contains. rewrite with_status_get by discriminate.
  replace (field_lookup "state" (answer_fields rc r a)) with
    (Some (json_string (business_key_import_state_to_string (ir_state r)))); [by rewrite Hread|].
  unfold answer_fields. rewrite !field_lookup_app, field_lookup_if.
  replace (field_lookup "state" a) with (@None json).
  - cbn [String.eqb Ascii.eqb Bool.eqb]. unfold import_result_fields. by rewrite !field_lookup_app, !field_lookup_if.
  - destruct Ha as [->|[x ->]]; [done|]. destruct (field_lookup "state" (attachment_fields x)) eqn:Es; [|done].
    apply attachment_apart in Es. by contradict Es; apply (bool_decide_unpack _).
Qed.

(** An import over the IPC. For the unit that may import, the client's import returns
    the code and the whole result - state, key statuses with their digests and check
    values, proof, commit time - of the import of the service, whether it succeeds,
    fails, or ends unknown, and leaves the service where that import leaves it. The
    items arrive as they were sent. *)
Theorem import_over_ipc request_id domain items out b d rc r b' :
  dp_keys d = Live b -> key_peer (resolvePeer fd d).1 d = true -> Forall item_ok items ->
  import request_id domain items b = ((rc, r), b') -> result_ok r ->
  client_import_wrapped_business_keys request_id domain items out d =
    ((error_code_value rc, r), dp_with_keys (Live b') (resolvePeer fd d).2).
Proof.
  intros Hk Hp Hi Er Hr. unfold client_import_wrapped_business_keys.
  assert (Eh : handle fuel (method_value IMPORT_WRAPPED_BUSINESS_KEYS)
      (json_dump (import_params request_id domain items)) fd d =
    (Answer (error_code_value rc) (import_answer rc r []), dp_with_keys (Live b') (resolvePeer fd d).2)).
  { change (handle _ _ ?p _ d) with (handle_import_wrapped_business_keys p fd d).
    unfold handle_import_wrapped_business_keys. rewrite json_parse_dump. cbn [mbind option_bind].
    rewrite import_params_roundtrip by done. rewrite (with_keys_run _ _ b) by done. by rewrite Er. }
  rewrite (send_answer _ _ _ _ _ _ Eh) by (apply json_of_fields_object || apply code_int32).
  rewrite result_arrives by auto. done.
Qed.

(** What the client sees of an attachment: the fields that are sent. *)
Definition attachment_seen (a : KeyprovResultAttachment) : KeyprovResultAttachment :=
  let k := ka_snapshot a in
  mkAttachment (KeyTypes.mkSnapshot (ks_result_contract_version k) (ks_query_semantics_version k)
      (ks_capability_epoch k) (ks_storage_ready k) false false 0 "" kSecClientBuildId)
    (ka_request_identity_digest a) (ka_queried_at_ms a).

(** The fields of an attachment are of their C++ types. *)
Definition attachment_ok (a : KeyprovResultAttachment) : Prop :=
  is_u32 (ks_result_contract_version (ka_snapshot a)) /\ is_u32 (ks_query_semantics_version (ka_snapshot a)) /\
  is_u64 (ks_capability_epoch (ka_snapshot a)) /\ is_i64 (ka_queried_at_ms a).

Lemma attachment_arrives n rc r a : attachment_ok a ->
  keyprov_attachment_from_json (with_status n (answer_fields rc r (attachment_fields a))) = Some (attachment_seen a).
Proof.
  intros (H1 & H2 & H3 & H4).
  assert (Hl : forall k, k <> "success"%string -> field_lookup k (import_result_fields r) = None ->
    field_lookup k (answer_fields rc r (attachment_fields a)) = field_lookup k (attachment_fields a)).
  { intros k Hk Hr. unfold answer_fields. rewrite !field_lookup_app, field_lookup_if, Hr.
    destruct (String.eqb_spec "success" k); [congruence|]. by destruct (field_lookup k (attachment_fields a)). }
  unfold keyprov_attachment_from_json, keyprov_snapshot_from_json, value_u32, value_u64, value_i64, value_string,
    value_bool, value_int.
  rewrite !value_with_status by discriminate.
  rewrite !Hl by (discriminate || (unfold import_result_fields; rewrite !field_lookup_app, !field_lookup_if; reflexivity)).
  unfold attachment_fields. rewrite !field_lookup_app, !field_lookup_if.
  cbn [field_lookup String.eqb Ascii.eqb Bool.eqb]. rewrite !option_eta.
  rewrite !as_u32, as_u64, as_i64, as_bool_bool by done. cbn [mbind option_bind fmap option_fmap option_map].
  unfold attachment_seen. destruct (ka_request_identity_digest a) as [|c s]; cbn; by rewrite ?as_string_string.
Qed.

(** The codes with which an answer to a leased import has to carry a result. *)
Definition kl1_definite (rc : ErrorCode) : bool :=
  match rc with
  | SUCCESS | BUSINESS_KEY_IMPORT_UNKNOWN | BUSINESS_KEY_OUTCOME_UNKNOWN | KL1_ADMISSION_REJECTED
  | KL1_CAPABILITY_EPOCH_MISMATCH => true
  | _ => false
  end.

(** C22. A leased import over the IPC. As an import; with a lease the client accepts, the
    admission context arrives as it was sent, and for the definite codes the attachment
    comes back as far as it is sent: the contract versions, the epoch, the health of the
    storage, the identity digest and the query time, but not the lease support, the
    profile version and the build id of the snapshot. A context without a lease, an
    epoch or the profile is turned down before anything is sent. *)
Theorem kl1_import_over_ipc request_id domain items ctx out attach b d rc r a b' :
  dp_keys d = Live b -> key_peer (resolvePeer fd d).1 d = true -> Forall item_ok items -> context_ok ctx ->
  importKl1 request_id domain items ctx b = ((rc, r, a), b') -> result_ok r -> attachment_ok a ->
  client_import_wrapped_business_keys_kl1 request_id domain items ctx out attach d =
    if negb (kc_kl1_profile_version ctx =? kKeyprovKl1ProfileVersion) || (kc_capability_epoch ctx =? 0)
       || (kc_admission_expire_at_ms ctx =? 0)
    then ((error_code_value BUSINESS_KEY_NOT_READY, KeyTypes.mkResult request_id domain BIS_UNKNOWN [] 0 "" [] "" [],
           Some attach), d)
    else ((error_code_value rc, r, Some (if kl1_definite rc then attachment_seen a else KeyprovResultAttachment_default)),
          dp_with_keys (Live b') (resolvePeer fd d).2).
Proof.
  intros Hk Hp Hi Hc Er Hr Ha. unfold client_import_wrapped_business_keys_kl1. destruct (_ || _); [done|].
  assert (Eh : handle fuel (method_value IMPORT_WRAPPED_BUSINESS_KEYS_KL1)
      (json_dump (import_kl1_params request_id domain items ctx)) fd d =
    (Answer (error_code_value rc) (import_answer rc r (attachment_fields a)),
     dp_with_keys (Live b') (resolvePeer fd d).2)).
  { change (handle _ _ ?p _ d) with (handle_import_wrapped_business_keys_kl1 p fd d).
    unfold handle_import_wrapped_business_keys_kl1. rewrite json_parse_dump. cbn [mbind option_bind].
    rewrite import_kl1_params_roundtrip by done. rewrite (with_keys_run _ _ b) by done. by rewrite Er. }
  rewrite (send_answer _ _ _ _ _ _ Eh) by (apply json_of_fields_object || apply code_int32).
  replace (one_of _ _) with (kl1_definite rc) by (by destruct rc).
  unfold read_result_kl1. rewrite result_arrives by eauto. destruct (kl1_definite rc); [|done]. cbn [negb].
  unfold text_of. rewrite json_parse_dump. cbn [mbind option_bind].
  change (json_set _ _ _) with (with_status (error_code_value rc) (answer_fields rc r (attachment_fields a))).
  by rewrite attachment_arrives.
Qed.

(* --------------------------------------------------------------------- *)
(** ** Trusted time                                                       *)
(* --------------------------------------------------------------------- *)

(** Trusted time over the IPC. A unit on the list gets the envelope of the snapshot
    that the source gives for the token it sent, field for field. *)
Theorem trusted_time_over_ipc token t d r t' :
  dp_time d = Some t -> time_peer (resolvePeer fd d).1 d = true -> is_u64 token ->
  ts_get token t = (r, t') -> envelope_wf (to_envelope r) ->
  client_get_trusted_time token d =
    ((0, to_envelope r), dp_with_time (Some t') (resolvePeer fd d).2).
Proof.
  intros Ht Hp Hk Eg Hw. unfold client_get_trusted_time.
  assert (Eh : handle fuel (method_value GET_TRUSTED_TIME)
      (json_dump (json_of_fields [("request_token"%string, json_int token)])) fd d =
    (envelope_answer SUCCESS (trusted_time_envelope_to_json (to_envelope r)) [],
     dp_with_time (Some t') (resolvePeer fd d).2)).
  { change (handle _ _ ?p _ d) with (handle_get_trusted_time p fd d). unfold handle_get_trusted_time. rewrite Ht.
    destruct (resolve_only_host fd d) as [h Eh]. rewrite Eh.
    change (time_peer ?c (dp_with_host h d)) with (time_peer c d). rewrite Hp. cbn [negb].
    rewrite json_parse_dump. cbn [mbind option_bind]. rewrite (value_u64_fields _ _ token) by done.
    unfold time_snapshot. by rewrite Eg. }
  rewrite (send_answer _ _ _ _ _ _ Eh) by (apply json_of_fields_object || done).
  change (error_code_value SUCCESS =? 0) with true. cbn [negb]. rewrite read_text.
  rewrite json_get_set_ne by (apply json_of_fields_object || discriminate). rewrite json_of_fields_get.
  cbn [field_lookup String.eqb Ascii.eqb Bool.eqb mbind option_bind].
  by rewrite (proj1 (envelope_json_roundtrip (to_envelope r) json_object "valid" Hw ltac:(set_solver))).
Qed.
End Remote.

#[global] Instance attachment_ok_dec a : Decision (attachment_ok a).
Proof. unfold attachment_ok. apply _. Defined.
