(* ===== verification/IpcSample.v ===== *)
(** * IpcSample: a daemon with two clients.
    The services of [SecSample] and [ImportSample] behind one dispatcher, the MQTT
    service on one connection and the TSP service on another, and the witnesses of the
    theorems on the IPC. *)
From S2P Require Import Prelude Errors Canonical KeyTypes Envelope Json X509 Provider Ledger SoftFile SoftFileFacts SoftFileProps RetryPolicy TimeTypes TrustedTime TimeMonitor TimeProps Provisioning Import ImportSample ImportFacts Protocol ImportProps Tls CertStore CertStoreProps KeyEngine Csr CertChain CertCheck SecService SeedProps SecFrame ProvisionProps SecSample IpcCodec IpcWire IpcDispatcher SecClient IpcProps IpcRemote.

Module IpcSample.
Import JsonSample X509Sample ImportSample ImportWitness TimeWitness SecSample.

#[export] Instance plain_base64 : Base64 := {| base64_encode s := s; base64_decode s := s |}.
#[export] Instance plain_base64_laws : Base64Laws plain_base64.
Proof. by constructor. Qed.

(** Connection 1 is the MQTT service's, connection 2 the TSP's; the others cannot be
    resolved. The state is the list of subscriptions. *)
Definition unit_of (fd : Z) : string :=
  if fd =? 1 then "tbox-mqtt.service" else if fd =? 2 then "tbox-tsp.service" else "".
#[export] Instance sample_host : IpcHost (list (Z * Z)) := {|
  ih_resolve fd h := (mkPeer (negb (str_empty (unit_of fd))) 100 0 0 (unit_of fd), h);
  ih_add_subscription fd e h := (true, (fd, e) :: h)
|}.

Abbreviation daemon := (SecIpcDispatcher sworld (SfState SoftFileSample.world) LedgerSample.disk device (Monitor tworld)
  (list (Z * Z))).
Definition daemon0 : daemon :=
  mkDispatcher svc (Live tt) (Live svc0) (Some monitor1) "tbox-tsp.service" ["tbox-mqtt.service"%string] true true [].

Lemma daemon0_wired : wired daemon0.
Proof. split; [done|]. split; [done|]. intros _. cut (match sv_tls svc with Some _ => true | None => false end = true);
  [by cbn; destruct (sv_tls svc)|vm_compute; reflexivity]. Qed.

Lemma tsp_may_import : key_peer (resolvePeer 2 daemon0).1 daemon0 = true.
Proof. vm_compute. reflexivity. Qed.
Lemma mqtt_may_ask : time_peer (resolvePeer 1 daemon0).1 daemon0 = true.
Proof. vm_compute. reflexivity. Qed.

(* --------------------------------------------------------------------- *)
(** ** Witnesses                                                          *)
(* --------------------------------------------------------------------- *)

(** Noise, a retired method, a guess, and a good request. *)
Definition session : list (Z * string * Z) :=
  [(99, "", 3); (7, "{", 1); (8, "no json", 2); (19, "", 2); (19, "", 1); (15, "", 1); (10, "", 3)].

Lemma requests_answered_witness :
  Forall (fun '(id, _, _) => method_of id <> Some INITIALIZE) session /\
  length (serve 1 session daemon0).1 = 7%nat /\ Forall proper_answer (serve 1 session daemon0).1.
Proof.
  assert (Hs : Forall (fun '(id, _, _) => method_of id <> Some INITIALIZE) session) by (by repeat constructor).
  destruct (requests_answered 1 session daemon0 daemon0_wired Hs) as (Hl & Ha & _). exact (conj Hs (conj Hl Ha)).
Defined.

(** The MQTT service must not import keys. *)
Lemma denied_changes_nothing_witness :
  exists x h, dispatch 1 19 "" 1 daemon0 = (reply_of x, dp_with_host h daemon0) /\
    x ∈ refusals /\ exists z body, x = Answer z body /\ z <> 0.
Proof.
  assert (He : entitled IMPORT_WRAPPED_BUSINESS_KEYS "" (resolvePeer 1 daemon0).1 daemon0 = false) by reflexivity.
  destruct (denied_changes_nothing 1 19 IMPORT_WRAPPED_BUSINESS_KEYS "" 1 daemon0 eq_refl He)
    as (x & h & Hd & [Hx|[_ []]]).
  exists x, h. exact (conj Hd Hx).
Defined.

Lemma remote_is_local_witness :
  (local (RGetSeed 1) svc).1.1 = 0 /\ remote 1 3 (RGetSeed 1) daemon0 = on_service (local (RGetSeed 1)) daemon0.
Proof. split; [vm_compute; reflexivity|]. apply (remote_is_local 1 3 (RGetSeed 1) daemon0). by split. Defined.

Definition imported : ErrorCode * ImportResult * sample_service := import "rid-1" kBusinessDomainV2c items1 svc0.
Lemma imported_eq : import "rid-1" kBusinessDomainV2c items1 svc0 = ((imported.1.1, imported.1.2), imported.2).
Proof. unfold imported. by destruct (import _ _ _ _) as [[? ?] ?]. Qed.
Lemma items1_ok : Forall item_ok items1.
Proof. apply (bool_decide_unpack _). vm_compute. exact I. Qed.
Lemma imported_ok : result_ok imported.1.2.
Proof. apply (bool_decide_unpack _). vm_compute. exact I. Qed.

Lemma import_over_ipc_witness :
  ir_state imported.1.2 = BIS_COMMITTED /\
  (client_import_wrapped_business_keys (Conn := link 1 2) "rid-1" kBusinessDomainV2c items1
    ImportResult_default daemon0).1 = (error_code_value imported.1.1, imported.1.2).
Proof.
  split; [vm_compute; reflexivity|].
  rewrite (import_over_ipc 1 2 "rid-1" kBusinessDomainV2c items1 ImportResult_default svc0 daemon0 _ _ _
    eq_refl tsp_may_import items1_ok imported_eq imported_ok). reflexivity.
Defined.

Lemma lease0_ok : context_ok lease0.
Proof. apply (bool_decide_unpack _). vm_compute. exact I. Qed.
Lemma kl1_result_ok : result_ok kl1.1.1.2.
Proof. apply (bool_decide_unpack _). vm_compute. exact I. Qed.
Lemma kl1_attachment_ok : attachment_ok kl1.1.2.
Proof. apply (bool_decide_unpack _). vm_compute. exact I. Qed.

Lemma kl1_import_over_ipc_witness :
  exists r, r = (client_import_wrapped_business_keys_kl1 (Conn := link 1 2) "rid-1" kBusinessDomainV2c items1 lease0
    ImportResult_default KeyprovResultAttachment_default daemon0).1 /\ r.1.2 = kl1.1.1.2.
Proof.
  eexists. split; [reflexivity|].
  rewrite (kl1_import_over_ipc 1 2 "rid-1" kBusinessDomainV2c items1 lease0 ImportResult_default
    KeyprovResultAttachment_default svc0 daemon0 _ _ _ _ eq_refl tsp_may_import items1_ok lease0_ok kl1_eq kl1_result_ok
    kl1_attachment_ok). vm_compute. reflexivity.
Defined.

Lemma monitor_ans_wf : envelope_wf (to_envelope monitor_ans).
Proof. unfold envelope_wf. repeat split; vm_compute; discriminate || reflexivity. Qed.

Lemma trusted_time_over_ipc_witness :
  te_trust_state (to_envelope monitor_ans) = "trusted"%string /\
  (client_get_trusted_time (Conn := link 1 1) 0 daemon0).1 = (0, to_envelope monitor_ans).
Proof.
  split; [vm_compute; reflexivity|].
  rewrite (trusted_time_over_ipc 1 1 0 monitor1 daemon0 _ _ eq_refl mqtt_may_ask ltac:(done) monitor_got monitor_ans_wf).
  reflexivity.
Defined.

Example second_initialize : dispatch 1 14 "" 1 (dispatch 1 1 "" 3 daemon0).2 =
  (UndefinedBehaviour, (dispatch 1 1 "" 3 daemon0).2).
Proof. apply second_initialize_frees; [done|vm_compute; reflexivity]. Qed.
End IpcSample.
